(* ===== verification/_CoqProject ===== *)
-Q . S2P
Prelude.v
Keep.v
LibString.v
LibMem.v
Filesystem.v
KState.v
Paging.v
PortIO.v
Screen.v
Switch.v
Keyboard.v
Frame.v
Terminal.v
Syscall.v
FdTable.v
Process.v
Halt.v
Exec.v
Scheduler.v
ProcTree.v
Interrupts.v
Boot.v
Startup.v
Photo.v
Bmp.v
WorldData.v
World.v
Layout.v
WorldInv.v
Effects.v
Quest.v
Build.v
Story.v
Input.v
Adventure.v
Draw.v
Vga.v
Text.v
Modex.v
TextMode.v
Picture.v
Gallery.v
Console.v
Cleanup.v
Shutdown.v
Tux.v
Missile.v
Support.v
Programs.v
Contract.v
Syserr.v
UserRuns.v
UserSpace.v
Userland.v
