(* ===== verification/Prelude.v ===== *)
(** * A verification of the ECE 391 kernel and adventure game

    The repository holds the programs of a course, written in C: an operating
    system ([src/mp3/student-distrib]) with its user programs ([src/mp3/syscalls]),
    an adventure game with the driver of its controller ([src/mp2]), and a game of
    missiles ([src/mp1]).  This library models them in the way they are written, one
    definition per C function and per loop, and proves what makes them correct.
    This file is its root: after this header come the machine integers, the
    state monad, arrays with C indices, and the tactics and hints that the
    other files share.

    ** Conventions

    - Integers are [Z], with the conversions of C written out: [u8], [u16],
      [u32], [i8], [i32].
    - An array is a list; [aget] and [aset] are [None] outside of it.  So [None]
      as the outcome of a function is undefined behaviour (an access out of
      bounds, a null pointer, a page fault), and a theorem that a run is [Some]
      says that there is none.
    - Stateful code is in the state monad [M S A := S → option (A * S)].  [wp] is its
      weakest precondition.
    - C loops are structural on a count or have fuel.  Where there is fuel, the
      bound is given by the code: the 32 digits of [itoa], the size of the file
      for [read_data], the number of objects for the lists of a room, the
      4 MB page for the loader; and a theorem says that it suffices (the result is
      [Some]).
    - A busy wait runs a given list of interrupt handlers, and is [None] when they
      run out.  A device is what its port reads return ([KState.hw]).

    ** The kernel: files and sources

    - [Keep]: rules and the tactic [keep] for what a computation leaves alone.
    - [LibString], [LibMem]: the string and memory routines of [lib.c] (strings as
      buffers of bytes; memory behind the interface [LawfulMem], so that the
      same routines run over flat memory and through the page tables).
    - [Filesystem]: [filesystem.c] over the bytes of the mounted image.
    - [KState]: the globals of all C files in one record [kstate], the port
      instructions, the page walk of the processor.
    - [Paging]: [paging.c] and the remappings of [syscall.c].
    - [PortIO]: [i8259.c], [rtc.c], [pit_init].
    - [Screen]: the text output of [lib.c]; [Switch]: [terminal_switch] and the
      rest of [scheduler.c] but for the tick; [Keyboard]: [keyboard.c];
      [Terminal]: [terminal.c].
    - [Frame]: which parts of the state an operation keeps.
    - [Syscall]: the eight handlers of [syscall.c]; [FdTable], [Process], [Exec],
      [Halt] hold their theorems; [Scheduler]: the timer tick; [ProcTree]: the
      process table over whole executions.
    - [Interrupts]: [idt_exceptions.c] and the stubs of [link.S]: the gates, the
      table of handlers, what the processor does with them.
    - [Boot]: [entry] of [kernel.c] with the structures of the boot loader, and what it
      prints before paging is on; [Startup]: the rest of it, and the first ticks.

    The keyboard and timer interrupts, the system calls and the tick act on the
    same [kstate]; they meet in [term_arr], in the page tables and in the PCBs.
    A handler that ends in another context ([execute], [halt], the tick) returns
    that context as its outcome.

    ** The user programs: files and sources

    - [Support], [Programs], [Syserr]: the library and the programs of
      [mp3/syscalls] ([cat], [ls], [grep], [hello], [counter], [shell] and the error
      tests), over the class [syscalls] of the system calls they make.
    - [Contract]: the class [kernel_contract], what the calls promise in terms of
      the files, arguments and output of the process; [UserRuns]: the programs run
      on anything that keeps it; [UserSpace]: the modelled kernel keeps it
      ([kernel_keeps_contract]); [Userland]: the programs on the modelled kernel.

    ** The adventure: files and sources

    - [Photo], [Draw]: [photo.c], the file readers and the lines of a room;
      [Bmp]: [mp2photo.c], the converter that makes the files.
    - [WorldData], [World]: [world.c], its tables, and its operations on the two
      arrays of rooms and objects, linked through indices.
    - [Layout], [WorldInv], [Effects], [Quest], [Build], [Story]: the invariant of
      the world, the effect of each primitive, the rules of the game, and what
      holds from [build_world] on.
    - [Input]: [input.c]; [Adventure]: [adventure.c] with what it asks of the
      display as a list of [request]s.
    - [Vga], [Modex], [TextMode]: [modex.c] over a model of the adapter; [Text]:
      [text.c] with its font; [Picture]: the window on a logical picture that
      they implement.
    - [Gallery]: what each action changes on the screen; [Console]: the game
      with the display attached, [main] up to the end of [game_loop].
    - [Cleanup]: [assert.c] and its macros; [Shutdown]: the whole of [main] with its
      cleanups, the status thread and the terminal settings.
    - [Tux]: the line discipline of the game controller ([module/tuxctl-ld.c]).

    Each round of [game_loop] takes a command from [Input], acts on [World], and
    tells [Modex] what to draw; [Modex] calls back to [Draw] for the lines, which
    reads the world as it is then.

    [Missile] has the missile command game of [src/mp1].

    ** What the theorems show

    - [LibString], [LibMem]: [itoa], [printf] and [strncmp] against their
      specifications, round trips of numerals, [memcpy] against the plain copy.
    - [Filesystem]: [read_data] gives exactly the bytes of the file; reads in
      pieces agree with one read; the directory is listed in order; lookup.
    - [Paging]: what is mapped after [paging_initialize], and that a user
      process reaches only its own frame and the video page.
    - [PortIO]: the masks and the initialisation of the interrupt controllers,
      the rates of the clock.  [Interrupts]: every vector reaches its own handler,
      and a user program enters the kernel through 0x80 only.
    - [Screen], [Switch], [Terminal], [Keyboard]: no operation leaves its page or
      moves a cursor off the screen; reads and writes of the terminal; switching
      keeps every screen; the keyboard is a line editor.
    - [FdTable], [Exec], [Halt], [Scheduler], [ProcTree]: descriptors as a finite
      map; [execute] starts a program or refuses; [halt] undoes it; ticks go
      round the three terminals; the process table over whole executions is
      simulated by three stacks ([ProcTree.process_table_simulation]).
    - [Startup]: from what a boot loader leaves, the kernel comes up with three shells
      ([Startup.kernel_boots]).
    - [Userland]: the kernel refines the contract of its system calls
      ([Userland.kernel_refines_contract]); [cat], [ls] and the error tests end and do
      on it what they are for.
    - [Build], [Quest], [Story]: the world is built well formed; every action
      follows a rule of the game; the game is won only by the story, and can be
      won.
    - [Draw], [Text], [Picture], [Gallery], [Console]: the lines of the picture; the
      mode X routines refine a window on a picture
      ([Picture.view_refines_picture]); the player always sees the room they are in
      and the right text ([Console.main_plays]).
    - [Shutdown], [TextMode]: however the game ends, its cleanups run and the
      monitor is back in text mode ([Shutdown.adventure_cleans_up]).
    - [Bmp]: a converted picture is read back as it was.  [Input], [Adventure]: keys
      and typed commands come out as they were meant, the view stays in the
      picture, the clock's loop ends.
    - [Tux]: packets are found however the bytes arrive.  [Missile]: what a round
      may do, and what an explosion kills.

    Some lemmas record faults of the code, such as
    [Keyboard.ctrl_l_out_of_bounds], [Terminal.read_chars_overrun],
    [Switch.vidmap_lost_on_tick], [ProcTree.halt_ignores_saved_frame],
    [Startup.first_page_unmapped] and [Tux.tux_put_sends].

    ** Bounds

    Pointers and integers have 32 bits and [char] is signed, as for the compiler
    of the repository.  The kernel has six processes, three terminals and eight
    descriptors; no bound is added to those of the code but for the fuel named
    above.  A host's answers ([mmap], the opening of a file, what a key or a
    serial line delivers) are arguments.

    ** Not modelled

    - The first instructions and the tables of segments, in assembly ([boot.S],
      [x86_desc.S], [syslink.S]); the registers that the stubs of [link.S] save;
      [tests.c], the self tests.
    - Of the user programs: [pingpong], [sigtest], [fish], the emulation of the system
      calls on Linux.
    - Of missile command: the kernel module, in assembly ([mp1.S]), its host, and the
      terminal settings.  The game programs print with the host's [printf], whose
      output is not modelled.
    - Concurrency is modelled where the code has it: interrupts run between the
      steps of a waiting call, and the status thread of the adventure by its steps
      under the lock.  The buffers of the TLB are taken as flushed. *)
From stdpp Require Export base gmap list strings fin_maps.
From Stdlib Require Export ZArith Lia.

Declare Scope ece_scope.
Delimit Scope ece_scope with ece.
#[global] Open Scope Z_scope.
#[export] Set Warnings "-clear-no-such-hyp".

Create HintDb ece.
Create Rewrite HintDb ece.

(** ** Machine integers

    A C integer of width [w] is a [Z] in the range of its type.  The
    conversions below are the ones the C code performs implicitly on
    assignment and in mixed arithmetic. *)

Definition u8 (x : Z) : Z := x mod 256.
Definition u16 (x : Z) : Z := x mod 65536.
Definition u32 (x : Z) : Z := x mod 4294967296.
Definition i8 (x : Z) : Z := (x + 128) mod 256 - 128.
Definition i32 (x : Z) : Z := (x + 2147483648) mod 4294967296 - 2147483648.

#[global] Arguments u8 : simpl never.
#[global] Arguments u16 : simpl never.
#[global] Arguments u32 : simpl never.
#[global] Arguments i8 : simpl never.
#[global] Arguments i32 : simpl never.
#[global] Arguments Z.geb : simpl never.
#[global] Arguments Z.gtb : simpl never.
#[global] Arguments Z.quot : simpl never.
#[global] Arguments Z.rem : simpl never.

Definition is_u8 (x : Z) : Prop := 0 ≤ x < 256.
Definition is_u32 (x : Z) : Prop := 0 ≤ x < 4294967296.
Definition is_i32 (x : Z) : Prop := -2147483648 ≤ x < 2147483648.

#[export] Instance is_u8_dec x : Decision (is_u8 x).
Proof. unfold is_u8. apply _. Defined.
#[export] Instance is_u32_dec x : Decision (is_u32 x).
Proof. unfold is_u32. apply _. Defined.
#[export] Instance is_i32_dec x : Decision (is_i32 x).
Proof. unfold is_i32. apply _. Defined.

(** [cint] unfolds the machine-integer vocabulary for [lia]. *)
Ltac cint := unfold u8, u16, u32, i8, i32, is_u8, is_u32, is_i32 in *.
Ltac cint_lia := cint; Z.div_mod_to_equations; lia.

Lemma u8_range x : is_u8 (u8 x).
Proof. cint_lia. Qed.
Lemma u32_range x : is_u32 (u32 x).
Proof. cint_lia. Qed.
Lemma i32_range x : is_i32 (i32 x).
Proof. cint_lia. Qed.
Lemma u8_small x : is_u8 x → u8 x = x.
Proof. cint_lia. Qed.
Lemma u32_small x : is_u32 x → u32 x = x.
Proof. cint_lia. Qed.
Lemma i32_small x : is_i32 x → i32 x = x.
Proof. cint_lia. Qed.
Lemma i32_u32 x : is_i32 x → i32 (u32 x) = x.
Proof. cint_lia. Qed.
Lemma u32_i32 x : is_u32 x → u32 (i32 x) = x.
Proof. cint_lia. Qed.
#[export] Hint Resolve u8_range u32_range i32_range : ece.
#[export] Hint Rewrite u8_small u32_small i32_small using (cint; lia) : ece.

(** Fields that do not overlap add up. *)
Lemma lor_shiftl a b k : 0 ≤ k → 0 ≤ a < 2 ^ k → Z.lor a (Z.shiftl b k) = a + b * 2 ^ k.
Proof.
  intros Hk Ha. rewrite <- Z.shiftl_mul_pow2 by done. rewrite <- Z.add_lor_land.
  assert (Z.land a (Z.shiftl b k) = 0) as ->; [|lia]. apply Z.bits_inj'. intros n Hn.
  rewrite Z.land_spec, Z.shiftl_spec, Z.bits_0 by done. destruct (Z.ltb_spec n k).
  - rewrite (Z.testbit_neg_r b) by lia. by rewrite andb_false_r.
  - destruct (decide (a = 0)) as [->|]; [by rewrite Z.bits_0|]. rewrite Z.bits_above_log2; [done|lia|].
    assert (Z.log2 a < k) by (apply Z.log2_lt_pow2; lia). lia.
Qed.

(** ** C booleans *)
Definition Z_of_bool (b : bool) : Z := if b then 1 else 0.

(** ** String literals, as bytes *)
Definition chars (s : string) : list Z := (λ c, Z.of_N (Ascii.N_of_ascii c)) <$> String.list_ascii_of_string s.

(** ** Arrays

    [aget l i] is the C read [l[i]] and [aset l i v] the C write
    [l[i] = v]; an index outside the object is undefined behaviour in C
    and is [None] here. *)

Definition aget {A} (l : list A) (i : Z) : option A :=
  if i <? 0 then None else l !! Z.to_nat i.
Definition aset {A} (l : list A) (i : Z) (v : A) : option (list A) :=
  if (0 <=? i) && (i <? Z.of_nat (length l)) then Some (<[Z.to_nat i := v]> l) else None.

#[global] Arguments aget : simpl never.
#[global] Arguments aset : simpl never.

Abbreviation zlen l := (Z.of_nat (length l)).

Section arrays.
Context {A : Type}.
Implicit Types (l : list A) (i j : Z) (v : A).

Lemma aget_nonneg l i : 0 ≤ i → aget l i = l !! Z.to_nat i.
Proof. unfold aget. intros. destruct (Z.ltb_spec i 0); [lia|done]. Qed.

Lemma aget_of_nat l n : aget l (Z.of_nat n) = l !! n.
Proof. rewrite aget_nonneg by lia. by rewrite Nat2Z.id. Qed.

Lemma aget_is_Some l i : is_Some (aget l i) ↔ 0 ≤ i < zlen l.
Proof.
  unfold aget. destruct (Z.ltb_spec i 0).
  - split; [intros [? [=]]|lia].
  - rewrite lookup_lt_is_Some. lia.
Qed.

Lemma aget_Some_range l i v : aget l i = Some v → 0 ≤ i < zlen l.
Proof. intros H. apply aget_is_Some. eauto. Qed.

Lemma aget_None l i : aget l i = None ↔ i < 0 ∨ zlen l ≤ i.
Proof.
  rewrite eq_None_not_Some, aget_is_Some. lia.
Qed.

Lemma aset_in l i v : 0 ≤ i < zlen l → aset l i v = Some (<[Z.to_nat i := v]> l).
Proof.
  intros. unfold aset.
  destruct (Z.leb_spec 0 i), (Z.ltb_spec i (zlen l)); try lia. done.
Qed.

Lemma aset_out l i v : i < 0 ∨ zlen l ≤ i → aset l i v = None.
Proof.
  intros. unfold aset.
  destruct (Z.leb_spec 0 i), (Z.ltb_spec i (zlen l)); try lia; done.
Qed.

Lemma aset_Some l i v l' :
  aset l i v = Some l' → 0 ≤ i < zlen l ∧ l' = <[Z.to_nat i := v]> l.
Proof.
  unfold aset.
  destruct (Z.leb_spec 0 i), (Z.ltb_spec i (zlen l)); cbn; intros; simplify_eq; split; [lia|done].
Qed.

Lemma aset_length l i v l' : aset l i v = Some l' → length l' = length l.
Proof. intros [? ->]%aset_Some. apply length_insert. Qed.

Lemma aget_aset_eq l i v l' : aset l i v = Some l' → aget l' i = Some v.
Proof.
  intros [? ->]%aset_Some. rewrite aget_nonneg by lia.
  apply list_lookup_insert_eq. lia.
Qed.

Lemma aget_aset_ne l i j v l' : aset l i v = Some l' → i ≠ j → aget l' j = aget l j.
Proof.
  intros [? ->]%aset_Some Hne. unfold aget. destruct (Z.ltb_spec j 0); [done|].
  apply list_lookup_insert_ne. lia.
Qed.

Lemma aget_alter (f : A → A) l i j :
  0 ≤ i → aget (alter f (Z.to_nat i) l) j = if decide (j = i) then f <$> aget l j else aget l j.
Proof.
  intros Hi. unfold aget. destruct (Z.ltb_spec j 0).
  - destruct (decide (j = i)); [lia|done].
  - destruct (decide (j = i)) as [->|]; [apply list_lookup_alter_eq|apply list_lookup_alter_ne; lia].
Qed.

Lemma aget_insert l i j v :
  0 ≤ i < zlen l → aget (<[Z.to_nat i := v]> l) j = if decide (j = i) then Some v else aget l j.
Proof.
  intros Hi. pose proof (aset_in l i v Hi) as Hs. destruct (decide (j = i)) as [->|Hne].
  - by eapply aget_aset_eq.
  - by eapply aget_aset_ne.
Qed.

Lemma aget_fmap {B} (f : A → B) l i : aget (f <$> l) i = f <$> aget l i.
Proof. unfold aget. destruct (i <? 0); [done|]. apply list_lookup_fmap. Qed.
End arrays.
#[export] Hint Rewrite @length_insert @length_app @length_take @length_drop
  @length_replicate @length_fmap : ece.

(** ** State and undefined behaviour

    [M S A] is a computation over the state [S]; [None] is undefined
    behaviour (an access outside an object, a page fault). *)

Definition M (S A : Type) : Type := S → option (A * S).
#[export] Instance M_ret {S} : MRet (M S) := λ A a s, Some (a, s).
#[export] Instance M_bind {S} : MBind (M S) := λ A B f m s,
  match m s with Some (a, s') => f a s' | None => None end.

Definition gets {S A} (f : S → A) : M S A := λ s, Some (f s, s).
Definition modify {S} (f : S → S) : M S () := λ s, Some ((), f s).
Definition lift {S A} (o : option A) : M S A := λ s,
  match o with Some a => Some (a, s) | None => None end.
Definition ub {S A} : M S A := λ _, None.
Definition skip {S} : M S () := λ s, Some ((), s).

(** [for_n n i body] runs [body i], [body (i+1)], ..., [n] times: the C
    loop [for (k = i; k < i + n; k++) body]. *)
Fixpoint for_n {S} (n : nat) (i : Z) (body : Z → M S ()) : M S () :=
  match n with
  | O => skip
  | S n => body i ≫= λ _, for_n n (i + 1) body
  end.

(** The weakest precondition of total correctness: [m] has no undefined
    behaviour from [s], and its result satisfies [Q]. *)
Definition wp {S A} (m : M S A) (Q : A → S → Prop) (s : S) : Prop :=
  match m s with Some (a, s') => Q a s' | None => False end.

Section wp.
Context {S : Type}.
Implicit Types s : S.

Lemma wp_ret {A} (a : A) (Q : A → S → Prop) s : Q a s → wp (mret a) Q s.
Proof. done. Qed.
Lemma wp_skip (Q : () → S → Prop) s : Q () s → wp skip Q s.
Proof. done. Qed.
Lemma wp_gets {A} (f : S → A) (Q : A → S → Prop) s : Q (f s) s → wp (gets f) Q s.
Proof. done. Qed.
Lemma wp_modify f (Q : () → S → Prop) s : Q () (f s) → wp (modify f) Q s.
Proof. done. Qed.
Lemma wp_lift {A} (o : option A) a (Q : A → S → Prop) s :
  o = Some a → Q a s → wp (lift o) Q s.
Proof. by intros ->. Qed.
Lemma wp_bind {A B} (m : M S A) (f : A → M S B) (Q : B → S → Prop) s :
  wp m (λ a s', wp (f a) Q s') s → wp (m ≫= f) Q s.
Proof. unfold wp, mbind, M_bind. by destruct (m s) as [[a s']|]. Qed.
Lemma wp_mono {A} (m : M S A) (P Q : A → S → Prop) s :
  wp m P s → (∀ a s', P a s' → Q a s') → wp m Q s.
Proof. unfold wp. destruct (m s) as [[a s']|]; eauto. Qed.
Lemma wp_run {A} (m : M S A) (Q : A → S → Prop) s :
  wp m Q s ↔ ∃ a s', m s = Some (a, s') ∧ Q a s'.
Proof.
  unfold wp. destruct (m s) as [[a s']|]; [|naive_solver].
  split; [eauto|intros (?&?&?&?); by simplify_eq].
Qed.
Lemma wp_eq {A} (m : M S A) (Q : A → S → Prop) a s s' : m s = Some (a, s') → Q a s' → wp m Q s.
Proof. unfold wp. by intros ->. Qed.

(** The invariant rule for C [for] loops. *)
Lemma wp_for (I : Z → S → Prop) (n : nat) i body s :
  I i s →
  (∀ j s', i ≤ j < i + Z.of_nat n → I j s' → wp (body j) (λ _, I (j + 1)) s') →
  wp (for_n n i body) (λ _, I (i + Z.of_nat n)) s.
Proof.
  revert i s. induction n as [|n IH]; intros i s Hi Hbody; cbn [for_n].
  - apply wp_skip. by replace (i + Z.of_nat 0) with i by lia.
  - apply wp_bind. eapply wp_mono; [apply Hbody; [lia|done]|].
    intros [] s' Hi'. cbn beta.
    replace (i + Z.of_nat (Datatypes.S n)) with (i + 1 + Z.of_nat n) by lia.
    apply IH; [done|]. intros j s'' Hj. apply Hbody. lia.
Qed.
End wp.

(** Running a computation one command at a time. *)
Section run.
Context {S A B C : Type}.
Implicit Types s : S.

Lemma bind_ret (a : A) (f : A → M S B) s : (mret a ≫= f) s = f a s.
Proof. done. Qed.
Lemma bind_gets (g : S → A) (f : A → M S B) s : (gets g ≫= f) s = f (g s) s.
Proof. done. Qed.
Lemma bind_modify (g : S → S) (f : () → M S B) s : (modify g ≫= f) s = f () (g s).
Proof. done. Qed.
Lemma bind_skip (f : () → M S B) s : (skip ≫= f) s = f () s.
Proof. done. Qed.
Lemma bind_lift o (a : A) (f : A → M S B) s : o = Some a → (lift o ≫= f) s = f a s.
Proof. by intros ->. Qed.
Lemma bind_lift_None (o : option A) (f : A → M S B) s : o = None → (lift o ≫= f) s = None.
Proof. by intros ->. Qed.
Lemma bind_None (m : M S A) (f : A → M S B) s : m s = None → (m ≫= f) s = None.
Proof. unfold mbind, M_bind. by intros ->. Qed.
Lemma bind_assoc (m : M S A) (f : A → M S B) (g : B → M S C) s :
  ((m ≫= f) ≫= g) s = (m ≫= λ a, f a ≫= g) s.
Proof. unfold mbind, M_bind. by destruct (m s) as [[??]|]. Qed.
Lemma bind_cong (m : M S A) (f g : A → M S B) s :
  (∀ a s', m s = Some (a, s') → f a s' = g a s') → (m ≫= f) s = (m ≫= g) s.
Proof. unfold mbind, M_bind. destruct (m s) as [[??]|]; auto. Qed.
Lemma bind_cong2 (m m' : M S A) (f g : A → M S B) s :
  m s = m' s → (∀ a s', m s = Some (a, s') → f a s' = g a s') → (m ≫= f) s = (m' ≫= g) s.
Proof. unfold mbind, M_bind. intros <-. destruct (m s) as [[??]|]; auto. Qed.
Lemma bind_run (m : M S A) (a : A) (f : A → M S B) s s' :
  m s = Some (a, s') → (m ≫= f) s = f a s'.
Proof. unfold mbind, M_bind. by intros ->. Qed.
End run.
#[export] Hint Rewrite @bind_ret @bind_gets @bind_modify @bind_skip : ece.

(** The frame relation of a client that needs no frame. *)
#[export] Instance no_frame_preorder (S : Type) : PreOrder (λ _ _ : S, True).
Proof. split; repeat intros ?; done. Qed.

(** [wp_step] runs one primitive command. *)
Ltac wp_step :=
  lazymatch goal with
  | |- wp (mbind _ _) _ _ => apply wp_bind; cbn beta
  | |- wp (mret _) _ _ => apply wp_ret; cbn beta
  | |- wp skip _ _ => apply wp_skip; cbn beta
  | |- wp (gets _) _ _ => apply wp_gets; cbn beta
  | |- wp (modify _) _ _ => apply wp_modify; cbn beta
  end.
Ltac wp_steps := repeat wp_step.

(** ** Record update

    [r <| f := v |>] is the C assignment [r.f = v].  A record type declares
    its eta expansion as a [Settable] instance; the setter of a field is
    found from it by abstracting that field's projection. *)

Class Settable (R : Type) := record_eta : R → R.
Class Setter {R E : Type} (proj : R → E) := setter : (E → E) → R → R.
#[global] Arguments setter {R E} proj {_} _ _ /.

Ltac derive_setter R proj :=
  let inst := constr:(_ : Settable R) in
  let e := eval cbv delta [record_eta] in inst in
  let e := eval hnf in e in
  let p := eval pattern proj in e in
  lazymatch p with
  | ?g _ => exact (λ f, g (λ r, f (proj r)))
  end.
#[export] Hint Extern 1 (@Setter ?R _ ?proj) => derive_setter R proj : typeclass_instances.

Notation "r <| f := v |>" := (setter f (λ _, v) r)
  (at level 1, f at next level, v at level 200, left associativity).
Notation "r <| f ::= g |>" := (setter f g r)
  (at level 1, f at next level, g at level 200, left associativity).

(** ** Unbounded loops

    A C loop whose body either goes on with a new value ([inl]) or ends
    ([inr]).  [loop_nat n] runs at most [n] rounds; [loop_pos p] runs at most
    [p], without building the number in unary. *)
Section loops.
Context {S A B : Type} (body : A → M S (A + B)).

Fixpoint loop_nat (n : nat) (a : A) : M S (A + B) :=
  match n with
  | O => mret (inl a)
  | Datatypes.S n =>
      r ← body a;
      match r with inl a => loop_nat n a | inr b => mret (inr b) end
  end.
Definition then_loop (f : A → M S (A + B)) (r : A + B) : M S (A + B) :=
  match r with inl a => f a | inr b => mret (inr b) end.
Fixpoint loop_pos (p : positive) (a : A) : M S (A + B) :=
  match p with
  | xH => body a
  | xO p => loop_pos p a ≫= then_loop (loop_pos p)
  | xI p => (body a ≫= then_loop (loop_pos p)) ≫= then_loop (loop_pos p)
  end.

Lemma loop_nat_add n m a s : loop_nat (n + m) a s = (loop_nat n a ≫= then_loop (loop_nat m)) s.
Proof.
  revert a s. induction n as [|n IH]; intros a s; [done|]. cbn [Nat.add loop_nat].
  rewrite bind_assoc. apply bind_cong. intros [a'|b] s' _; [apply IH|done].
Qed.
Lemma loop_pos_nat p a s : loop_pos p a s = loop_nat (Pos.to_nat p) a s.
Proof.
  revert a s. induction p as [p IH|p IH|]; intros a s; cbn [loop_pos].
  - rewrite Pos2Nat.inj_xI. replace (2 * Pos.to_nat p)%nat with (Pos.to_nat p + Pos.to_nat p)%nat by lia.
    cbn [loop_nat]. rewrite bind_assoc. apply bind_cong. intros [a'|b] s' _; [|done].
    rewrite loop_nat_add. cbn [then_loop].
    apply bind_cong2; [apply IH|]. intros [a''|b] s'' _; [apply IH|done].
  - rewrite Pos2Nat.inj_xO. replace (2 * Pos.to_nat p)%nat with (Pos.to_nat p + Pos.to_nat p)%nat by lia.
    rewrite loop_nat_add. apply bind_cong2; [apply IH|]. intros [a'|b] s' _; [apply IH|done].
  - cbn [Pos.to_nat]. change (Pos.to_nat 1) with 1%nat. cbn [loop_nat].
    unfold mbind, M_bind. destruct (body a s) as [[[a'|b] s']|]; done.
Qed.

(** A loop that leaves the state alone and ends after [k] rounds. *)
Lemma loop_nat_ends k n (f : nat → A) b s :
  (k < n)%nat → (∀ j, (j < k)%nat → body (f j) s = Some (inl (f (j + 1)%nat), s)) →
  body (f k) s = Some (inr b, s) → loop_nat n (f 0%nat) s = Some (inr b, s).
Proof.
  revert n f. induction k as [|k IH]; intros [|n] f Hn Hj Hb; try lia; cbn [loop_nat].
  - by rewrite (bind_run _ _ _ _ _ Hb).
  - rewrite (bind_run _ _ _ _ _ (Hj 0%nat ltac:(lia))).
    apply (IH n (λ j, f (j + 1)%nat)); [lia| |by rewrite Nat.add_1_r].
    intros j Hjk. apply Hj. lia.
Qed.
End loops.

(** A loop whose measure goes down, and that ends in [Q] *)
Section total.
Context {S A B : Type} (body : A → M S (A + B)) (I : A → S → Prop) (Q : B → S → Prop) (m : A → Z).
Context (Hbody : ∀ a s, I a s → 0 ≤ m a ∧
  wp (body a) (λ r s', match r with inl a' => I a' s' ∧ m a' < m a | inr b => Q b s' end) s).
Lemma loop_nat_total n a s : I a s → m a < Z.of_nat n → wp (loop_nat body n a) (λ r s', ∃ b, r = inr b ∧ Q b s') s.
Proof using Hbody.
  revert a s. induction n as [|n IH]; intros a s Ha Hn; destruct (Hbody a s Ha) as [H0 Hb]; [lia|].
  cbn [loop_nat]. apply wp_bind. apply (wp_mono _ _ _ _ Hb). intros [a'|b] s' H.
  - apply IH; [apply H|]. destruct H. lia.
  - apply wp_ret. by exists b.
Qed.
Lemma loop_pos_total p a s : I a s → m a < Z.pos p → wp (loop_pos body p a) (λ r s', ∃ b, r = inr b ∧ Q b s') s.
Proof using Hbody.
  intros Ha Hp. unfold wp. rewrite loop_pos_nat. apply loop_nat_total; [done|lia].
Qed.
End total.
