(* ===== verification/Keep.v ===== *)
(** * Keep: what a computation does to a part of the state

    [moves R m]: a run of [m] that ends relates the states before and after by
    [R].  Two relations are used: [keeps π m], that [π] of the state does not
    change, and [preserves I m], that [I] stays true.  The rules follow the
    syntax of the computation and are collected in the hint database [keep], so
    that the tactic [keep] proves such facts from the definition of an
    operation.  Nothing is said about undefined behaviour: that is [wp]. *)
From S2P Require Import Prelude.

Definition moves {S A} (R : relation S) (m : M S A) : Prop :=
  ∀ s a s', m s = Some (a, s') → R s s'.
Definition kept {S P} (π : S → P) : relation S := λ s s', π s' = π s.
Definition preserved {S} (I : S → Prop) : relation S := λ s s', I s → I s'.
Abbreviation keeps π m := (moves (kept π) m).
Abbreviation preserves I m := (moves (preserved I) m).

#[export] Instance kept_preorder {S P} (π : S → P) : PreOrder (kept π).
Proof. split; unfold kept; [by intros s|intros s1 s2 s3; congruence]. Qed.
#[export] Instance preserved_preorder {S} (I : S → Prop) : PreOrder (preserved I).
Proof. split; unfold preserved; [by intros s|intros s1 s2 s3; tauto]. Qed.

Create HintDb keep.
#[export] Hint Constants Opaque : keep.
#[export] Hint Variables Opaque : keep.

Section rules.
Context {S : Type} (R : relation S) `{!PreOrder R}.

Lemma moves_ret {A} (a : A) : moves R (mret a).
Proof. intros s b s' H. cbv in H. by simplify_eq. Qed.
Lemma moves_skip : moves R skip.
Proof. intros s b s' H. cbv in H. by simplify_eq. Qed.
Lemma moves_ub {A} : moves R (ub : M S A).
Proof. by intros s b s' H. Qed.
Lemma moves_gets {A} (f : S → A) : moves R (gets f).
Proof. intros s b s' H. cbv in H. by simplify_eq. Qed.
Lemma moves_lift {A} (o : option A) : moves R (lift o).
Proof. destruct o; intros s b s' H; cbv in H; by simplify_eq. Qed.
Lemma moves_bind {A B} (m : M S A) (f : A → M S B) :
  moves R m → (∀ a, moves R (f a)) → moves R (m ≫= f).
Proof.
  intros Hm Hf s b s'. unfold mbind, M_bind. destruct (m s) as [[a s1]|] eqn:E; [|done].
  intros H. etrans; [by eapply Hm|by eapply Hf].
Qed.
Lemma moves_lift_bind {A B} (o : option A) (f : A → M S B) :
  (∀ a, o = Some a → moves R (f a)) → moves R (lift o ≫= f).
Proof.
  intros Hf s b s'. destruct o as [a|]; [|done]. intros H. by apply (Hf a eq_refl _ b).
Qed.
Lemma moves_if {A} (b : bool) (m m' : M S A) :
  moves R m → moves R m' → moves R (if b then m else m').
Proof. by destruct b. Qed.
Lemma moves_for n i body : (∀ k, moves R (body k)) → moves R (for_n n i body).
Proof.
  intros Hb. revert i. induction n as [|n IH]; intros i; [apply moves_skip|].
  by apply moves_bind.
Qed.
Lemma moves_modify (f : S → S) : (∀ s, R s (f s)) → moves R (modify f).
Proof. intros Hf s b s' H. unfold modify in H. simplify_eq. apply Hf. Qed.
Lemma moves_loop_pos {A B} (body : A → M S (A + B)) p :
  (∀ a, moves R (body a)) → ∀ a, moves R (loop_pos body p a).
Proof.
  intros Hb. induction p as [p IH|p IH|]; intros a; cbn [loop_pos]; [..|apply Hb].
  - apply moves_bind; [|intros [a'|b]; [apply IH|apply moves_ret]].
    apply moves_bind; [apply Hb|]. intros [a'|b]; [apply IH|apply moves_ret].
  - apply moves_bind; [apply IH|]. intros [a'|b]; [apply IH|apply moves_ret].
Qed.
Lemma moves_run {A} (m : M S A) s a s' : moves R m → m s = Some (a, s') → R s s'.
Proof. intros Hm. apply Hm. Qed.
End rules.
#[export] Hint Resolve moves_ret moves_skip moves_ub moves_gets moves_lift moves_bind moves_if moves_for : keep.

Lemma keeps_modify {S P} (π : S → P) (f : S → S) : (∀ s, π (f s) = π s) → keeps π (modify f).
Proof. exact (moves_modify (kept π) f). Qed.

(** Runs of a sequence, taken apart *)
Lemma bind_inv {S A B} (m : M S A) (f : A → M S B) s b s' :
  (m ≫= f) s = Some (b, s') → ∃ a s1, m s = Some (a, s1) ∧ f a s1 = Some (b, s').
Proof. unfold mbind, M_bind. destruct (m s) as [[a s1]|]; [eauto|done]. Qed.
Lemma lift_inv {S A} (o : option A) (s : S) a s' : lift o s = Some (a, s') → o = Some a ∧ s' = s.
Proof. destruct o; cbv; intros; by simplify_eq. Qed.

(** A total run that also moves by [R] *)
Lemma wp_moves {S A} (R : relation S) (m : M S A) (Q : A → S → Prop) s :
  moves R m → wp m Q s → wp m (λ a s', Q a s' ∧ R s s') s.
Proof. intros Hm. unfold wp. destruct (m s) as [[a s']|] eqn:E; [|done]. split; [done|by eapply Hm]. Qed.

(** Runs the rules down the syntax of a computation. *)
Ltac keep_step :=
  lazymatch goal with
  | |- moves _ (mbind _ (lift _)) => apply (moves_lift_bind _)
  | |- moves _ (mbind _ _) => apply (moves_bind _)
  | |- moves _ (for_n _ _ _) => apply (moves_for _)
  | |- moves _ (match ?x with _ => _ end) => destruct x
  | |- moves _ (let _ := _ in _) => cbv zeta
  | |- ∀ _, _ => intros ?
  | |- moves _ _ => cbv beta zeta; solve [auto with keep nocore typeclass_instances]
  end.
Ltac keep := repeat keep_step.
