(* ===== verification/LibString.v ===== *)
(** * LibString: the string and formatting routines of the kernel's [lib.c]

    A C pointer into a buffer is the list of the bytes from that pointer to
    the end of the object it points into; reading or writing past the end of
    the object is [None].  Bytes are stored as [0..255]; reading them through
    an [int8_t*] is [i8]. *)
From S2P Require Import Prelude.

(** The bytes of a C string: everything before the first NUL. *)
Fixpoint cstr (s : list Z) : list Z :=
  match s with
  | [] => []
  | c :: s => if c =? 0 then [] else c :: cstr s
  end.

(** A buffer that holds a NUL-terminated string. *)
Definition terminated (s : list Z) : Prop := 0 ∈ s.

(** ** strlen *)
Fixpoint strlen (s : list Z) : option Z :=
  match s with
  | [] => None
  | c :: s => if c =? 0 then Some 0 else n ← strlen s; Some (n + 1)
  end.

(** ** strncmp *)
Fixpoint strncmp_loop (n : nat) (s1 s2 : list Z) : option Z :=
  match n with
  | O => Some 0
  | S n =>
      match s1, s2 with
      | c1 :: s1, c2 :: s2 =>
          if negb (i8 c1 =? i8 c2) || (i8 c1 =? 0) then Some (i8 c1 - i8 c2)
          else strncmp_loop n s1 s2
      | _, _ => None
      end
  end.
Definition strncmp (s1 s2 : list Z) (n : Z) : option Z := strncmp_loop (Z.to_nat n) s1 s2.

(** ** strcpy and strncpy *)
Fixpoint strcpy (dest src : list Z) : option (list Z) :=
  match src with
  | [] => None
  | c :: src =>
      match dest with
      | [] => None
      | _ :: dest =>
          if c =? 0 then Some (0 :: dest)
          else d ← strcpy dest src; Some (c :: d)
      end
  end.

Fixpoint strncpy_pad (n : nat) (dest : list Z) : option (list Z) :=
  match n with
  | O => Some dest
  | S n => match dest with [] => None | _ :: dest => d ← strncpy_pad n dest; Some (0 :: d) end
  end.

(** [while (src[i] != '\0' && i < n)] reads [src[i]] before it tests [i < n]. *)
Fixpoint strncpy_loop (n : nat) (dest src : list Z) {struct src} : option (list Z) :=
  match src with
  | [] => None
  | c :: src =>
      if c =? 0 then strncpy_pad n dest
      else match n with
           | O => Some dest
           | S n => match dest with
                    | [] => None
                    | _ :: dest => d ← strncpy_loop n dest src; Some (c :: d)
                    end
           end
  end.
Definition strncpy (dest src : list Z) (n : Z) : option (list Z) :=
  strncpy_loop (Z.to_nat n) dest src.

(** ** strrev *)
Fixpoint strrev_loop (fuel : nat) (s : list Z) (beg end_ : Z) : option (list Z) :=
  if beg <? end_ then
    match fuel with
    | O => None
    | S fuel =>
        tmp ← aget s end_;
        c ← aget s beg;
        s ← aset s end_ c;
        s ← aset s beg tmp;
        strrev_loop fuel s (beg + 1) (end_ - 1)
    end
  else Some s.
Definition strrev (s : list Z) : option (list Z) :=
  len ← strlen s; strrev_loop (length s) s 0 (i32 (u32 (len - 1))).

(** ** itoa *)
Definition lookup_table : list Z :=
  (* "0123456789ABCDEFGHIJKLMNOPQRSTUVWXYZ", with its terminating NUL *)
  [48; 49; 50; 51; 52; 53; 54; 55; 56; 57; 65; 66; 67; 68; 69; 70; 71; 72; 73; 74; 75;
   76; 77; 78; 79; 80; 81; 82; 83; 84; 85; 86; 87; 88; 89; 90; 0].

Fixpoint itoa_loop (fuel : nat) (newval : Z) (buf : list Z) (newbuf radix : Z)
  : option (list Z * Z) :=
  if newval >? 0 then
    match fuel with
    | O => None
    | S fuel =>
        c ← aget lookup_table (newval mod u32 radix);
        buf ← aset buf newbuf c;
        itoa_loop fuel (newval / u32 radix) buf (newbuf + 1) radix
    end
  else Some (buf, newbuf).

(** A 32-bit value has at most 32 digits in a radix of at least 2. *)
Definition itoa_fuel : nat := 32.

Definition itoa (value : Z) (buf : list Z) (radix : Z) : option (list Z) :=
  if value =? 0 then
    buf ← aset buf 0 48;
    aset buf 1 0
  else
    '(buf, newbuf) ← itoa_loop itoa_fuel value buf 0 radix;
    buf ← aset buf newbuf 0;
    strrev buf.

(** ** puts and printf: the characters they hand to [putc], in order *)
Fixpoint puts (s : list Z) : option (list Z) :=
  match s with
  | [] => None
  | c :: s => if c =? 0 then Some [] else out ← puts s; Some (c :: out)
  end.

(** A variadic argument: an integer slot or a pointer to a string. *)
Inductive vararg := VInt (v : Z) | VStr (s : list Z).

Definition va_int (args : list vararg) : option (Z * list vararg) :=
  match args with VInt v :: args => Some (v, args) | _ => None end.
Definition va_str (args : list vararg) : option (list Z * list vararg) :=
  match args with VStr s :: args => Some (s, args) | _ => None end.

(** The bytes of an uninitialised local array, as the stack happens to hold them. *)
Definition stack_junk := nat → list Z.

Fixpoint pad_zeros (fuel : nat) (conv_buf : list Z) (i : Z) : option (list Z) :=
  if i <? 8 then
    match fuel with
    | O => None
    | S fuel => conv_buf ← aset conv_buf i 48; pad_zeros fuel conv_buf (i + 1)
    end
  else Some conv_buf.

(** [case 'x'], both forms. *)
Definition printf_x (junk : stack_junk) (alternate : bool) (v : Z) : option (list Z) :=
  let conv_buf := junk 64%nat in
  if alternate then
    tail ← itoa (u32 v) (drop 8 conv_buf) 16;
    let conv_buf := take 8 conv_buf ++ tail in
    starting_index ← strlen (drop 8 conv_buf);
    conv_buf ← pad_zeros 8 conv_buf starting_index;
    puts (drop (Z.to_nat starting_index) conv_buf)
  else
    conv_buf ← itoa (u32 v) conv_buf 16;
    puts conv_buf.

Definition printf_u (junk : stack_junk) (v : Z) : option (list Z) :=
  conv_buf ← itoa (u32 v) (junk 36%nat) 10; puts conv_buf.

Definition printf_d (junk : stack_junk) (v : Z) : option (list Z) :=
  let conv_buf := junk 36%nat in
  let value := i32 v in
  if value <? 0 then
    conv_buf ← aset conv_buf 0 45;
    tail ← itoa (u32 (- value)) (drop 1 conv_buf) 10;
    puts (take 1 conv_buf ++ tail)
  else
    conv_buf ← itoa (u32 value) conv_buf 10;
    puts conv_buf.

(** The format loop; [printf_conv] is the [format_char_switch] label.  The
    result is the output and the distance [buf - format] at the end.  A '%' as
    the last character makes [buf++] step over the terminating NUL. *)
Definition emit (o : list Z) (r : option (list Z * Z)) : option (list Z * Z) :=
  '(out, n) ← r; Some (o ++ out, n + 1).

Fixpoint printf_loop (junk : stack_junk) (buf : list Z) (args : list vararg)
  : option (list Z * Z) :=
  match buf with
  | [] => None
  | c :: buf =>
      if c =? 0 then Some ([], 0)
      else if c =? 37 (* % *) then emit [] (printf_conv junk false buf args)
      else emit [c] (printf_loop junk buf args)
  end
with printf_conv (junk : stack_junk) (alternate : bool) (buf : list Z) (args : list vararg)
  : option (list Z * Z) :=
  match buf with
  | [] => None
  | c :: buf =>
      if c =? 37 (* % *) then emit [37] (printf_loop junk buf args)
      else if c =? 35 (* # *) then emit [] (printf_conv junk true buf args)
      else if c =? 120 (* x *) then
        '(v, args) ← va_int args;
        o ← printf_x junk alternate v; emit o (printf_loop junk buf args)
      else if c =? 117 (* u *) then
        '(v, args) ← va_int args;
        o ← printf_u junk v; emit o (printf_loop junk buf args)
      else if c =? 100 (* d *) then
        '(v, args) ← va_int args;
        o ← printf_d junk v; emit o (printf_loop junk buf args)
      else if c =? 99 (* c *) then
        '(v, args) ← va_int args;
        emit [u8 v] (printf_loop junk buf args)
      else if c =? 115 (* s *) then
        '(s, args) ← va_str args;
        o ← puts s; emit o (printf_loop junk buf args)
      else emit [] (printf_loop junk buf args)
  end.

(** [printf]: the characters given to [putc], and the return value. *)
Definition printf (junk : stack_junk) (format : list Z) (args : list vararg)
  : option (list Z * Z) :=
  printf_loop junk format args.

(** ** Reference definitions *)

(** The value of a digit character, in any radix up to 36. *)
Definition digit_val (c : Z) : option Z :=
  if (48 <=? c) && (c <=? 57) then Some (c - 48)
  else if (65 <=? c) && (c <=? 90) then Some (c - 55)
  else None.

(** Reading a numeral, most significant digit first. *)
Definition parse_digit (radix : Z) (acc : option Z) (c : Z) : option Z :=
  v ← acc; d ← digit_val c; if d <? radix then Some (v * radix + d) else None.
Definition parse (radix : Z) (s : list Z) : option Z :=
  foldl (parse_digit radix) (Some 0) s.

(** The decimal numeral of a signed integer. *)
Definition parse_signed (s : list Z) : option Z :=
  match s with
  | 45 :: s => v ← parse 10 s; Some (- v)
  | _ => parse 10 s
  end.

(** The digit character of [d], and the digits of [v], least significant first. *)
Definition digit_char (d : Z) : Z := if d <? 10 then 48 + d else 55 + d.
Fixpoint digits_le (fuel : nat) (radix v : Z) : list Z :=
  match fuel with
  | O => []
  | S fuel => if v <=? 0 then [] else digit_char (v mod radix) :: digits_le fuel radix (v / radix)
  end.

(** A C string held in a buffer. *)
Definition in_buffer (s rest : list Z) : list Z := s ++ 0 :: rest.

(** ** Strings in buffers *)
Lemma cstr_in_buffer s rest : 0 ∉ s → cstr (in_buffer s rest) = s.
Proof.
  induction s as [|c s IH]; cbn; intros H; [done|].
  apply not_elem_of_cons in H as [Hc Hs].
  destruct (Z.eqb_spec c 0); [congruence|]. unfold in_buffer in IH. by rewrite IH.
Qed.

Lemma cstr_no_nul s : 0 ∉ cstr s.
Proof.
  induction s as [|c s IH]; cbn; [apply not_elem_of_nil|].
  destruct (Z.eqb_spec c 0); [apply not_elem_of_nil|].
  apply not_elem_of_cons. split; [congruence|done].
Qed.

(** Every terminated buffer is its string, a NUL and a rest. *)
Lemma terminated_split s : terminated s → ∃ rest, s = in_buffer (cstr s) rest.
Proof.
  unfold terminated. induction s as [|c s IH]; cbn; [by intros ?%elem_of_nil|].
  intros [Hc|Hs]%elem_of_cons; destruct (Z.eqb_spec c 0) as [->|].
  - exists s. done.
  - congruence.
  - exists s. done.
  - destruct (IH Hs) as [rest Hr]. exists rest. unfold in_buffer in *. cbn. by rewrite <- Hr.
Qed.

Lemma cstr_length s : terminated s → (length (cstr s) < length s)%nat.
Proof.
  intros [r Hr]%terminated_split. rewrite Hr at 2. unfold in_buffer. rewrite length_app. cbn. lia.
Qed.

Lemma terminated_in_buffer s rest : terminated (in_buffer s rest).
Proof. unfold terminated, in_buffer. set_solver. Qed.

Lemma strlen_in_buffer s rest : 0 ∉ s → strlen (in_buffer s rest) = Some (zlen s).
Proof.
  induction s as [|c s IH]; cbn; intros H; [done|].
  apply not_elem_of_cons in H as [Hc Hs].
  destruct (Z.eqb_spec c 0); [congruence|]. unfold in_buffer in IH. rewrite IH by done. cbn.
  f_equal. lia.
Qed.

Lemma puts_in_buffer s rest : 0 ∉ s → puts (in_buffer s rest) = Some s.
Proof.
  induction s as [|c s IH]; cbn; intros H; [done|].
  apply not_elem_of_cons in H as [Hc Hs].
  destruct (Z.eqb_spec c 0); [congruence|]. unfold in_buffer in IH. by rewrite IH.
Qed.

(** ** Array accesses in the middle of a list *)
Lemma aget_app_mid {A} (l1 l2 : list A) x i :
  i = zlen l1 → aget (l1 ++ x :: l2) i = Some x.
Proof. intros ->. rewrite aget_of_nat. by apply list_lookup_middle. Qed.

Lemma aset_app_mid {A} (l1 l2 : list A) x y i :
  i = zlen l1 → aset (l1 ++ x :: l2) i y = Some (l1 ++ y :: l2).
Proof.
  intros ->. rewrite aset_in by (rewrite length_app; cbn; lia).
  rewrite Nat2Z.id. by rewrite insert_app_r_alt, Nat.sub_diag by lia.
Qed.

(** ** strrev reverses *)
Lemma strrev_loop_done fuel s b e : e ≤ b → strrev_loop fuel s b e = Some s.
Proof. intros. destruct fuel; cbn; destruct (Z.ltb_spec b e); lia || done. Qed.

Lemma strrev_loop_rev n fuel a mid b :
  (length mid ≤ n)%nat → (length mid ≤ fuel)%nat →
  strrev_loop fuel (a ++ mid ++ b) (zlen a) (zlen a + zlen mid - 1)
    = Some (a ++ reverse mid ++ b).
Proof.
  revert fuel a mid b. induction n as [|n IH]; intros fuel a mid b Hn Hf.
  { destruct mid; [|cbn in Hn; lia]. apply strrev_loop_done. cbn. lia. }
  destruct mid as [|x mid].
  { apply strrev_loop_done. cbn. lia. }
  destruct mid as [|y mid _] using rev_ind.
  { apply strrev_loop_done. cbn. lia. }
  rewrite !length_cons, !length_app in Hn, Hf. cbn in Hn, Hf.
  destruct fuel as [|fuel]; [lia|]. cbn [strrev_loop].
  destruct (Z.ltb_spec (zlen a) (zlen a + zlen (x :: mid ++ [y]) - 1)) as [_|Hc];
    [|cbn in Hc; rewrite length_app in Hc; cbn in Hc; lia].
  set (e := zlen a + zlen (x :: mid ++ [y]) - 1).
  assert (He : ∀ z, e = zlen (a ++ z :: mid))
    by (intros; subst e; rewrite !length_app, !length_cons, length_app; cbn; lia).
  replace (a ++ (x :: mid ++ [y]) ++ b) with ((a ++ x :: mid) ++ y :: b)
    by (cbn; by rewrite <- !app_assoc).
  rewrite (aget_app_mid (a ++ x :: mid) b y e) by apply He. cbn [mbind option_bind].
  rewrite <- app_assoc. cbn [app]. rewrite aget_app_mid by done. cbn [mbind option_bind].
  replace (a ++ x :: mid ++ y :: b) with ((a ++ x :: mid) ++ y :: b) by by rewrite <- app_assoc.
  rewrite aset_app_mid by apply He. cbn [mbind option_bind].
  rewrite <- app_assoc. cbn [app]. rewrite aset_app_mid by done. cbn [mbind option_bind].
  replace (a ++ y :: mid ++ x :: b) with ((a ++ [y]) ++ mid ++ x :: b) by by rewrite <- app_assoc.
  replace (zlen a + 1) with (zlen (a ++ [y])) by (rewrite length_app; cbn; lia).
  replace (e - 1) with (zlen (a ++ [y]) + zlen mid - 1)
    by (rewrite (He x), !length_app; cbn; lia).
  rewrite IH by lia. f_equal. rewrite reverse_cons, reverse_app. cbn.
  by rewrite <- !app_assoc.
Qed.

Lemma strrev_in_buffer s rest :
  0 ∉ s → zlen s < 2147483648 → strrev (in_buffer s rest) = Some (in_buffer (reverse s) rest).
Proof.
  intros Hs Hl. unfold strrev. rewrite strlen_in_buffer by done. cbn [mbind option_bind].
  rewrite i32_u32 by (cint; lia).
  change (zlen s - 1) with (0 + zlen s - 1).
  apply (strrev_loop_rev (length s) _ [] s (0 :: rest)); [done|].
  unfold in_buffer. rewrite length_app. lia.
Qed.

(** ** itoa *)
Section itoa.
Context (radix : Z) (Hradix : 2 ≤ radix ≤ 36).

Lemma digits_forall (P : Z → Prop) :
  Forall P (seqZ 0 36) → ∀ d, 0 ≤ d < radix → P d.
Proof using Hradix. intros HP d Hd. rewrite Forall_forall in HP. apply HP, elem_of_seqZ. lia. Qed.

Lemma lookup_digit d : 0 ≤ d < radix → aget lookup_table d = Some (digit_char d).
Proof using Hradix. revert d. apply digits_forall. by repeat constructor. Qed.

Lemma digit_val_char d : 0 ≤ d < radix → digit_val (digit_char d) = Some d.
Proof using Hradix. revert d. apply digits_forall. by repeat constructor. Qed.

Lemma digit_char_pos d : 0 ≤ d → 48 ≤ digit_char d ∧ (digit_char d = 48 → d = 0).
Proof using. unfold digit_char. destruct (Z.ltb_spec d 10); lia. Qed.

Lemma digits_le_length fuel n v :
  0 ≤ v < radix ^ Z.of_nat n → (length (digits_le fuel radix v) ≤ n)%nat.
Proof using Hradix.
  revert n v. induction fuel as [|fuel IH]; intros n v Hv; cbn; [lia|].
  destruct (Z.leb_spec v 0); cbn; [lia|].
  destruct n as [|n]; [cbn in Hv; lia|].
  apply le_n_S, IH. rewrite Nat2Z.inj_succ, Z.pow_succ_r in Hv by lia.
  split; [apply Z.div_pos; lia|apply Z.div_lt_upper_bound; lia].
Qed.

Lemma digits_le_no_nul fuel v : 0 ≤ v → 0 ∉ digits_le fuel radix v.
Proof using Hradix.
  revert v. induction fuel as [|fuel IH]; intros v Hv; cbn; [apply not_elem_of_nil|].
  destruct (Z.leb_spec v 0); [apply not_elem_of_nil|].
  apply not_elem_of_cons. split; [|apply IH, Z.div_pos; lia].
  pose proof (Z.mod_pos_bound v radix). pose proof (digit_char_pos (v mod radix)). lia.
Qed.

Lemma digits_le_parse fuel v :
  0 ≤ v < radix ^ Z.of_nat fuel → parse radix (reverse (digits_le fuel radix v)) = Some v.
Proof using Hradix.
  unfold parse. revert v. induction fuel as [|fuel IH]; intros v Hv; cbn [digits_le].
  { cbn in *. f_equal. lia. }
  destruct (Z.leb_spec v 0); [cbn; f_equal; lia|].
  rewrite reverse_cons, foldl_app. cbn [foldl].
  rewrite Nat2Z.inj_succ, Z.pow_succ_r in Hv by lia.
  rewrite IH by (split; [apply Z.div_pos; lia|apply Z.div_lt_upper_bound; lia]).
  pose proof (Z.mod_pos_bound v radix).
  cbn. rewrite digit_val_char by lia. cbn.
  destruct (Z.ltb_spec (v mod radix) radix); [|lia].
  f_equal. pose proof (Z.div_mod v radix). lia.
Qed.

Lemma digits_le_no_leading_zero fuel v :
  0 < v < radix ^ Z.of_nat fuel → head (reverse (digits_le fuel radix v)) ≠ Some 48.
Proof using Hradix.
  revert v. induction fuel as [|fuel IH]; intros v Hv; cbn [digits_le]; [done|].
  destruct (Z.leb_spec v 0); [done|].
  rewrite Nat2Z.inj_succ, Z.pow_succ_r in Hv by lia.
  rewrite reverse_cons.
  destruct (decide (v / radix = 0)) as [Hz|Hz].
  - rewrite Hz. apply Z.div_small_iff in Hz; [|lia]. rewrite Z.mod_small by lia.
    assert (digits_le fuel radix 0 = []) as -> by by destruct fuel.
    destruct (digit_char_pos v) as [_ Hc]; [lia|]. change (Some (digit_char v) ≠ Some 48).
    intros Hd%(inj Some). apply Hc in Hd. lia.
  - assert (0 < v / radix) by (pose proof (Z.div_pos v radix); lia).
    specialize (IH (v / radix)).
    assert (v / radix < radix ^ Z.of_nat fuel) by (apply Z.div_lt_upper_bound; lia).
    destruct (reverse (digits_le fuel radix (v / radix))) eqn:E.
    + apply (f_equal reverse) in E. rewrite reverse_involutive in E.
      destruct fuel; cbn in *; [lia|].
      destruct (Z.leb_spec (v / radix) 0); [lia|done].
    + cbn in *. by apply IH.
Qed.

Lemma itoa_loop_digits fuel v pre rest :
  0 ≤ v < radix ^ Z.of_nat fuel →
  (length (digits_le fuel radix v) ≤ length rest)%nat →
  let ds := digits_le fuel radix v in
  itoa_loop fuel v (pre ++ rest) (zlen pre) radix
    = Some (pre ++ ds ++ drop (length ds) rest, zlen pre + zlen ds).
Proof using Hradix.
  revert v pre rest. induction fuel as [|fuel IH]; intros v pre rest Hv Hl; cbn [digits_le itoa_loop] in *.
  { cbn in Hv. rewrite Z.gtb_ltb. destruct (Z.ltb_spec 0 v); [lia|]. cbn. by rewrite Z.add_0_r, drop_0. }
  rewrite Z.gtb_ltb. destruct (Z.ltb_spec 0 v), (Z.leb_spec v 0); try lia; cbn.
  2: { by rewrite Z.add_0_r, drop_0. }
  cbn in Hl. destruct rest as [|x rest]; cbn in Hl; [lia|].
  rewrite Nat2Z.inj_succ, Z.pow_succ_r in Hv by lia.
  rewrite u32_small by (cint; lia).
  rewrite lookup_digit by (apply Z.mod_pos_bound; lia). cbn.
  rewrite aset_app_mid by done. cbn.
  replace (pre ++ digit_char (v mod radix) :: rest)
    with ((pre ++ [digit_char (v mod radix)]) ++ rest) by by rewrite <- app_assoc.
  replace (zlen pre + 1) with (zlen (pre ++ [digit_char (v mod radix)]))
    by (rewrite length_app; cbn; lia).
  rewrite IH; [|split; [apply Z.div_pos; lia|apply Z.div_lt_upper_bound; lia]|lia].
  cbn. rewrite <- app_assoc, length_app. cbn. f_equal. f_equal. lia.
Qed.

(** The numeral [itoa] writes. *)
Definition numeral (v : Z) : list Z :=
  if v =? 0 then [48] else reverse (digits_le itoa_fuel radix v).

Lemma pow_itoa_fuel v : is_u32 v → 0 ≤ v < radix ^ Z.of_nat itoa_fuel.
Proof using Hradix.
  intros [? Hv]. split; [done|]. eapply Z.lt_le_trans; [exact Hv|].
  change 4294967296 with (2 ^ Z.of_nat itoa_fuel). apply Z.pow_le_mono_l. lia.
Qed.

Lemma numeral_length n v :
  0 ≤ v < radix ^ Z.of_nat n → (0 < n)%nat → (length (numeral v) ≤ n)%nat.
Proof using Hradix.
  intros. unfold numeral. destruct (Z.eqb_spec v 0); [cbn; lia|].
  rewrite length_reverse. by apply digits_le_length.
Qed.

Lemma numeral_no_nul v : 0 ≤ v → 0 ∉ numeral v.
Proof using Hradix.
  intros. unfold numeral. destruct (Z.eqb_spec v 0); [by rewrite list_elem_of_singleton|].
  rewrite elem_of_reverse. by apply digits_le_no_nul.
Qed.

Lemma parse_numeral v : is_u32 v → parse radix (numeral v) = Some v.
Proof using Hradix.
  intros. unfold numeral. destruct (Z.eqb_spec v 0) as [->|].
  - unfold parse. cbn. change (48 - 48) with 0. destruct (Z.ltb_spec 0 radix); [f_equal; lia|lia].
  - by apply digits_le_parse, pow_itoa_fuel.
Qed.

Lemma numeral_canonical v : is_u32 v → v ≠ 0 → head (numeral v) ≠ Some 48.
Proof using Hradix.
  intros Hv ?. unfold numeral. destruct (Z.eqb_spec v 0); [done|].
  apply digits_le_no_leading_zero. pose proof (pow_itoa_fuel v Hv). cint. lia.
Qed.

Lemma itoa_numeral v buf :
  is_u32 v → (length (numeral v) < length buf)%nat →
  itoa v buf radix = Some (in_buffer (numeral v) (drop (S (length (numeral v))) buf)).
Proof using Hradix.
  intros Hv Hl. pose proof (pow_itoa_fuel v Hv) as Hp. unfold itoa, numeral in *.
  destruct (Z.eqb_spec v 0) as [->|Hne].
  { destruct buf as [|x [|y buf]]; cbn in Hl; try lia.
    change (x :: y :: buf) with ([] ++ x :: y :: buf) at 1. rewrite aset_app_mid by done. cbn [mbind option_bind app].
    change (48 :: y :: buf) with ([48] ++ y :: buf). by rewrite aset_app_mid by done. }
  rewrite length_reverse in *. set (ds := digits_le itoa_fuel radix v) in *.
  pose proof (itoa_loop_digits itoa_fuel v [] buf Hp ltac:(subst ds; lia)) as Hloop.
  fold ds in Hloop. change (zlen [] + zlen ds) with (zlen ds) in Hloop.
  change (itoa_loop itoa_fuel v buf 0 radix = Some (ds ++ drop (length ds) buf, zlen ds)) in Hloop.
  rewrite Hloop. cbn [mbind option_bind].
  destruct (drop (length ds) buf) as [|x rest] eqn:E.
  { apply (f_equal length) in E. rewrite length_drop in E. cbn [length] in E. lia. }
  rewrite aset_app_mid by done. cbn [mbind option_bind].
  assert (length ds ≤ 32)%nat by by apply digits_le_length.
  change (ds ++ 0 :: rest) with (in_buffer ds rest).
  rewrite strrev_in_buffer; [|apply digits_le_no_nul; lia|lia].
  f_equal. f_equal.
  replace (S (length ds)) with (length ds + 1)%nat by lia. by rewrite <- drop_drop, E.
Qed.
End itoa.

(** ** printf against its directives *)

(** A format string as a list of directives, with the arguments they take. *)
Inductive directive :=
  | DChar (c : Z)                 (* an ordinary character *)
  | DPercent                      (* %% *)
  | DHex (v : Z) | DHex8 (v : Z)  (* %x and %#x *)
  | DUnsigned (v : Z) | DSigned (v : Z)
  | DByte (v : Z)                 (* %c *)
  | DString (s rest : list Z).    (* %s *)

Definition directive_ok (d : directive) : Prop :=
  match d with
  | DChar c => c ≠ 0 ∧ c ≠ 37
  | DString s _ => 0 ∉ s
  | _ => True
  end.
Definition directive_format (d : directive) : list Z :=
  match d with
  | DChar c => [c] | DPercent => [37; 37]
  | DHex _ => [37; 120] | DHex8 _ => [37; 35; 120]
  | DUnsigned _ => [37; 117] | DSigned _ => [37; 100]
  | DByte _ => [37; 99] | DString _ _ => [37; 115]
  end.
Definition directive_args (d : directive) : list vararg :=
  match d with
  | DChar _ | DPercent => []
  | DHex v | DHex8 v | DUnsigned v | DSigned v | DByte v => [VInt v]
  | DString s rest => [VStr (in_buffer s rest)]
  end.
Definition signed_numeral (v : Z) : list Z :=
  if v <? 0 then 45 :: numeral 10 (- v) else numeral 10 v.
Definition hex8 (v : Z) : list Z :=
  replicate (8 - length (numeral 16 v)) 48 ++ numeral 16 v.
Definition directive_output (d : directive) : list Z :=
  match d with
  | DChar c => [c] | DPercent => [37]
  | DHex v => numeral 16 (u32 v) | DHex8 v => hex8 (u32 v)
  | DUnsigned v => numeral 10 (u32 v) | DSigned v => signed_numeral (i32 v)
  | DByte v => [u8 v] | DString s _ => s
  end.

Lemma pad_zeros_app fuel pre mid rest :
  (length mid ≤ fuel)%nat → zlen pre + zlen mid = 8 →
  pad_zeros fuel (pre ++ mid ++ rest) (zlen pre) = Some (pre ++ replicate (length mid) 48 ++ rest).
Proof.
  revert pre mid. induction fuel as [|fuel IH]; intros pre mid Hf H8; cbn [pad_zeros];
    destruct (Z.ltb_spec (zlen pre) 8), mid as [|x mid]; cbn in *; try lia; try done.
  rewrite aset_app_mid by done. cbn [mbind option_bind].
  replace (pre ++ 48 :: mid ++ rest) with ((pre ++ [48]) ++ mid ++ rest) by by rewrite <- app_assoc.
  replace (zlen pre + 1) with (zlen (pre ++ [48])) by (rewrite length_app; cbn; lia).
  rewrite IH by (rewrite ?length_app; cbn; lia). by rewrite <- app_assoc.
Qed.

Lemma hex_length v : is_u32 v → (length (numeral 16 v) ≤ 8)%nat.
Proof. intros. apply (numeral_length 16 ltac:(lia) 8); [cint; cbn; lia|lia]. Qed.
Lemma dec_length v : is_u32 v → (length (numeral 10 v) ≤ 10)%nat.
Proof. intros. apply (numeral_length 10 ltac:(lia) 10); [cint; cbn; lia|lia]. Qed.
Lemma numeral_u32_no_nul radix v : 2 ≤ radix ≤ 36 → is_u32 v → 0 ∉ numeral radix v.
Proof. intros ? [??]. by apply numeral_no_nul. Qed.
#[export] Hint Resolve hex_length dec_length numeral_u32_no_nul : ece.

(** Leading zeros do not change the value of a numeral. *)
Lemma parse_zeros n radix s : 2 ≤ radix → parse radix (replicate n 48 ++ s) = parse radix s.
Proof.
  intros. unfold parse. rewrite foldl_app. f_equal. induction n as [|n IH]; [done|].
  cbn. change (48 - 48) with 0. destruct (Z.ltb_spec 0 radix); [|lia].
  by rewrite Z.mul_0_l.
Qed.

#[local] Arguments printf_x : simpl never.
#[local] Arguments printf_u : simpl never.
#[local] Arguments printf_d : simpl never.
#[local] Arguments puts : simpl never.

Section printf.
(** The stack array has the size it is declared with, whatever it holds. *)
Context (junk : stack_junk) (Hjunk : ∀ n, length (junk n) = n).

Lemma puts_itoa radix v buf :
  2 ≤ radix ≤ 36 → is_u32 v → (length (numeral radix v) < length buf)%nat →
  (b ← itoa v buf radix; puts b) = Some (numeral radix v).
Proof using.
  intros. rewrite itoa_numeral by done. cbn [mbind option_bind].
  apply puts_in_buffer. eauto with ece.
Qed.

Lemma printf_x_plain v : printf_x junk false v = Some (numeral 16 (u32 v)).
Proof using Hjunk.
  unfold printf_x. apply puts_itoa; [lia|eauto with ece|].
  rewrite Hjunk. pose proof (hex_length (u32 v) (u32_range v)). lia.
Qed.

Lemma printf_x_alternate v : printf_x junk true v = Some (hex8 (u32 v)).
Proof using Hjunk.
  unfold printf_x. pose proof (hex_length (u32 v) (u32_range v)) as H8.
  rewrite itoa_numeral by (rewrite ?length_drop, ?Hjunk; eauto with ece; lia).
  cbn [mbind option_bind].
  assert (length (take 8 (junk 64%nat)) = 8%nat) as H8' by (rewrite length_take, Hjunk; lia).
  set (tail := drop _ _). set (hd := take 8 _) in *. set (num := numeral 16 (u32 v)) in *.
  rewrite drop_app_length' by done. rewrite strlen_in_buffer by (apply numeral_u32_no_nul; auto with ece; lia).
  cbn [mbind option_bind].
  rewrite <- (take_drop (length num) hd), <- app_assoc.
  assert (length (take (length num) hd) = length num) as Ht by (rewrite length_take; lia).
  rewrite <- Ht at 3.
  rewrite pad_zeros_app by (rewrite ?length_take, ?length_drop; lia).
  cbn [mbind option_bind]. rewrite Nat2Z.id, drop_app_length' by done.
  rewrite length_drop, H8'. unfold hex8. fold num.
  unfold in_buffer. rewrite app_assoc. apply puts_in_buffer.
  intros [Hr|Hn]%elem_of_app.
  - apply elem_of_replicate in Hr as [? _]. done.
  - revert Hn. apply numeral_u32_no_nul; auto with ece; lia.
Qed.

Lemma printf_u_spec v : printf_u junk v = Some (numeral 10 (u32 v)).
Proof using Hjunk.
  unfold printf_u. apply puts_itoa; [lia|eauto with ece|].
  rewrite Hjunk. pose proof (dec_length (u32 v) (u32_range v)). lia.
Qed.

Lemma printf_d_spec v : printf_d junk v = Some (signed_numeral (i32 v)).
Proof using Hjunk.
  unfold printf_d, signed_numeral. pose proof (i32_range v) as Hr.
  destruct (Z.ltb_spec (i32 v) 0).
  - assert (u32 (- i32 v) = - i32 v) as -> by (apply u32_small; cint; lia).
    pose proof (dec_length (- i32 v) ltac:(cint; lia)).
    pose proof (Hjunk 36%nat) as H36. destruct (junk 36%nat) as [|x rest]; [done|]. cbn in H36.
    rewrite (aset_app_mid [] rest x) by done. cbn [mbind option_bind app drop take].
    rewrite drop_0, take_0, itoa_numeral by (lia || (cint; lia)). cbn [mbind option_bind app].
    change (45 :: in_buffer ?n ?r) with (in_buffer (45 :: n) r).
    apply puts_in_buffer. apply not_elem_of_cons. split; [done|].
    apply numeral_u32_no_nul; [lia|cint; lia].
  - assert (u32 (i32 v) = i32 v) as -> by (apply u32_small; cint; lia).
    pose proof (dec_length (i32 v) ltac:(cint; lia)).
    apply puts_itoa; [lia|cint; lia|rewrite Hjunk; lia].
Qed.

Lemma printf_directive d buf args out n :
  directive_ok d → printf_loop junk buf args = Some (out, n) →
  printf_loop junk (directive_format d ++ buf) (directive_args d ++ args)
    = Some (directive_output d ++ out, zlen (directive_format d) + n).
Proof using Hjunk.
  intros Hd Hrec. destruct d; cbn.
  - destruct Hd. destruct (Z.eqb_spec c 0), (Z.eqb_spec c 37); try done.
    rewrite Hrec. cbn. f_equal. f_equal. lia.
  - rewrite Hrec. cbn. f_equal. f_equal. lia.
  - rewrite printf_x_plain. cbn. rewrite Hrec. cbn. f_equal. f_equal. lia.
  - rewrite printf_x_alternate. cbn. rewrite Hrec. cbn. f_equal. f_equal. lia.
  - rewrite printf_u_spec. cbn. rewrite Hrec. cbn. f_equal. f_equal. lia.
  - rewrite printf_d_spec. cbn. rewrite Hrec. cbn. f_equal. f_equal. lia.
  - rewrite Hrec. cbn. f_equal. f_equal. lia.
  - rewrite puts_in_buffer by done. cbn. rewrite Hrec. cbn. f_equal. f_equal. lia.
Qed.
End printf.

Lemma foldl_parse_None radix s : foldl (parse_digit radix) None s = None.
Proof. induction s; [done|apply IHs]. Qed.

(** A numeral does not start with a minus sign. *)
Lemma parse_signed_unsigned s v : parse 10 s = Some v → parse_signed s = Some v.
Proof.
  destruct s as [|c s]; [done|]. destruct (decide (c = 45)) as [->|Hc].
  - unfold parse. cbn. by rewrite foldl_parse_None.
  - intros <-. unfold parse_signed. repeat case_match; congruence.
Qed.

(** C31.  [itoa] terminates for every 32-bit value and every radix from 2 to 36,
    in any buffer of 33 bytes; the string it leaves is the canonical numeral of
    the value: reading it back in that radix gives the value, and only zero
    starts with the digit 0. *)
Theorem itoa_roundtrip value buf radix :
  2 ≤ radix ≤ 36 → is_u32 value → 33 ≤ zlen buf →
  ∃ buf', itoa value buf radix = Some buf' ∧ zlen buf' = zlen buf ∧ terminated buf' ∧
    parse radix (cstr buf') = Some value ∧
    (head (cstr buf') = Some 48 → value = 0).
Proof.
  intros Hr Hv Hl.
  assert (length (numeral radix value) ≤ 32)%nat
    by (apply (numeral_length radix Hr 32); [by apply (pow_itoa_fuel radix Hr)|lia]).
  pose proof (numeral_no_nul radix Hr value ltac:(cint; lia)).
  eexists. rewrite itoa_numeral by (done || lia). split; [done|].
  rewrite cstr_in_buffer by done. unfold in_buffer.
  split_and!; [|apply terminated_in_buffer|by apply parse_numeral|].
  - rewrite length_app. cbn. rewrite length_drop. lia.
  - intros Hh. destruct (decide (value = 0)); [done|]. by apply numeral_canonical in Hh.
Qed.

Lemma itoa_roundtrip_witness :
  ∃ buf', itoa 4000000000 (replicate 33 7) 16 = Some buf' ∧ zlen buf' = 33 ∧ terminated buf' ∧
    parse 16 (cstr buf') = Some 4000000000 ∧ (head (cstr buf') = Some 48 → 4000000000 = 0).
Proof. apply (itoa_roundtrip 4000000000 (replicate 33 7) 16); [lia|cint; lia|cbn; lia]. Defined.

(** C32.  [printf] interprets every directive of a well-formed format: whatever
    its stack arrays held before, it emits the characters of each directive in
    order, consumes exactly its argument, and returns the length of the format. *)
Theorem printf_directives junk ds rest args :
  (∀ n, length (junk n) = n) → Forall directive_ok ds →
  printf junk (in_buffer (mjoin (directive_format <$> ds)) rest)
      (mjoin (directive_args <$> ds) ++ args)
    = Some (mjoin (directive_output <$> ds), zlen (mjoin (directive_format <$> ds))).
Proof.
  intros Hjunk Hds. unfold printf, in_buffer. induction Hds as [|d ds Hd _ IH]; [done|].
  cbn [fmap list_fmap mjoin list_join]. rewrite <- !app_assoc, length_app, Nat2Z.inj_add.
  by apply printf_directive.
Qed.

Lemma printf_directives_witness :
  printf (λ n, replicate n 7) (in_buffer [65; 37; 35; 120; 37; 100] []) [VInt 48879; VInt (-2147483648)]
    = Some ([65; 48; 48; 48; 48; 66; 69; 69; 70; 45; 50; 49; 52; 55; 52; 56; 51; 54; 52; 56], 6).
Proof.
  apply (printf_directives (λ n, replicate n 7) [DChar 65; DHex8 48879; DSigned (-2147483648)] [] []).
  - intros n. apply length_replicate.
  - repeat constructor; done.
Defined.

(** The numerals [printf] prints denote their arguments: ["%#x"] gives
    exactly eight digits that read back as the 32-bit value, and ["%d"] a signed
    decimal that reads back as the value, [INT_MIN] included. *)
Lemma printf_numerals_roundtrip v :
  length (directive_output (DHex8 v)) = 8%nat ∧
  parse 16 (directive_output (DHex8 v)) = Some (u32 v) ∧
  parse_signed (directive_output (DSigned v)) = Some (i32 v).
Proof.
  pose proof (hex_length (u32 v) (u32_range v)) as H8. cbn [directive_output]. unfold hex8. split_and!.
  - rewrite length_app, length_replicate. lia.
  - rewrite parse_zeros by lia. apply parse_numeral; [lia|auto with ece].
  - pose proof (i32_range v) as Hr. unfold signed_numeral. destruct (Z.ltb_spec (i32 v) 0).
    + cbn. rewrite parse_numeral by (lia || (cint; lia)). cbn. f_equal. lia.
    + apply parse_signed_unsigned, parse_numeral; [lia|cint; lia].
Qed.

(** ** strncmp, strcpy, strncpy *)
Lemma i8_inj c1 c2 : is_u8 c1 → is_u8 c2 → i8 c1 = i8 c2 → c1 = c2.
Proof. cint_lia. Qed.
Lemma i8_zero c : is_u8 c → i8 c = 0 ↔ c = 0.
Proof. cint_lia. Qed.

(** The reference comparison of the first [n] characters of two strings (without
    their NULs): the difference at the first disagreement. *)
Fixpoint compare (n : nat) (a b : list Z) : Z :=
  match n with
  | O => 0
  | S n =>
      match a, b with
      | [], [] => 0
      | [], y :: _ => - i8 y
      | x :: _, [] => i8 x
      | x :: a, y :: b => if x =? y then compare n a b else i8 x - i8 y
      end
  end.

Lemma compare_zero n a b :
  Forall is_u8 a → Forall is_u8 b → 0 ∉ a → 0 ∉ b → compare n a b = 0 ↔ take n a = take n b.
Proof.
  revert a b. induction n as [|n IH]; intros a b Ha Hb Hna Hnb; [done|].
  destruct Ha as [|x a Hx Ha], Hb as [|y b Hy Hb]; cbn; [done|..];
    try apply not_elem_of_cons in Hna as [Hna1 Hna];
    try apply not_elem_of_cons in Hnb as [Hnb1 Hnb].
  - pose proof (i8_zero y Hy). split; [|done]. intros. exfalso. lia.
  - pose proof (i8_zero x Hx). split; [|done]. intros. exfalso. lia.
  - destruct (Z.eqb_spec x y) as [->|Hne].
    + rewrite IH by done. split; [by intros ->|congruence].
    + split; [|congruence]. intros ?. exfalso. apply Hne, i8_inj; [done..|lia].
Qed.

Lemma strncmp_loop_compare n a b ra rb :
  Forall is_u8 a → Forall is_u8 b → 0 ∉ a → 0 ∉ b →
  strncmp_loop n (in_buffer a ra) (in_buffer b rb) = Some (compare n a b).
Proof.
  unfold in_buffer. revert a b.
  induction n as [|n IH]; intros a b Ha Hb Hna Hnb; [done|].
  destruct Ha as [|x a Hx Ha], Hb as [|y b Hy Hb]; cbn; [done|..];
    try apply not_elem_of_cons in Hna as [Hna1 Hna];
    try apply not_elem_of_cons in Hnb as [Hnb1 Hnb].
  - pose proof (i8_zero y Hy). change (i8 0) with 0.
    destruct (Z.eqb_spec 0 (i8 y)); [lia|]. cbn. f_equal.
  - pose proof (i8_zero x Hx). change (i8 0) with 0.
    destruct (Z.eqb_spec (i8 x) 0); [lia|]. cbn. f_equal. lia.
  - pose proof (i8_zero x Hx).
    destruct (Z.eqb_spec x y) as [<-|Hne].
    + rewrite Z.eqb_refl. cbn. destruct (Z.eqb_spec (i8 x) 0); [lia|]. by apply IH.
    + destruct (Z.eqb_spec (i8 x) (i8 y)) as [He|]; [|done]. by apply i8_inj in He.
Qed.

Lemma forall_cstr (P : Z → Prop) s : Forall P s → Forall P (cstr s).
Proof. induction 1 as [|c s]; cbn; [done|]. by destruct (c =? 0); constructor. Qed.

Lemma strncmp_cstr s1 s2 n :
  Forall is_u8 s1 → Forall is_u8 s2 → terminated s1 → terminated s2 →
  strncmp s1 s2 n = Some (compare (Z.to_nat n) (cstr s1) (cstr s2)).
Proof.
  intros H1 H2 [r1 E1]%terminated_split [r2 E2]%terminated_split. unfold strncmp.
  rewrite E1 at 1. rewrite E2 at 1.
  apply strncmp_loop_compare; auto using forall_cstr, cstr_no_nul.
Qed.

(** [strncmp] looks at the first [n] characters only. *)
Lemma strncmp_loop_take n s1 s2 :
  (n ≤ length s1)%nat → strncmp_loop n s1 s2 = strncmp_loop n (take n s1 ++ [0]) s2.
Proof.
  revert s1 s2. induction n as [|n IH]; intros [|c1 s1] s2 Hl; cbn in *; try lia; [done..|].
  destruct s2 as [|c2 s2]; [done|]. by rewrite (IH s1 s2) by lia.
Qed.

Lemma strlen_cstr s : terminated s → strlen s = Some (zlen (cstr s)).
Proof.
  intros [r E]%terminated_split. rewrite E at 1. apply strlen_in_buffer, cstr_no_nul.
Qed.

Lemma strcpy_in_buffer dest s rest :
  0 ∉ s → (length s < length dest)%nat →
  strcpy dest (in_buffer s rest) = Some (in_buffer s (drop (S (length s)) dest)).
Proof.
  unfold in_buffer. revert dest. induction s as [|c s IH]; intros [|x dest] Hn Hl; cbn in *; try lia;
    [done|].
  apply not_elem_of_cons in Hn as [? ?].
  destruct (Z.eqb_spec c 0); [congruence|]. by rewrite IH by (done || lia).
Qed.

Lemma strncpy_pad_spec n dest :
  (n ≤ length dest)%nat → strncpy_pad n dest = Some (replicate n 0 ++ drop n dest).
Proof.
  revert dest. induction n as [|n IH]; intros [|x dest] Hl; cbn in *; try lia; try done.
  by rewrite IH by lia.
Qed.

Lemma strncpy_in_buffer dest s rest n :
  0 ∉ s → (n ≤ length dest)%nat →
  strncpy_loop n dest (in_buffer s rest)
    = Some (take n (s ++ replicate n 0) ++ drop n dest).
Proof.
  unfold in_buffer. revert dest n. induction s as [|c s IH]; intros dest n Hs Hl; cbn.
  - rewrite strncpy_pad_spec by done. by rewrite take_ge by by rewrite length_replicate.
  - apply not_elem_of_cons in Hs as [? ?]. destruct (Z.eqb_spec c 0); [congruence|].
    destruct n as [|n]; cbn; [done|]. destruct dest as [|x dest]; cbn in *; [lia|].
    rewrite IH by (done || lia). cbn. f_equal. f_equal. f_equal.
    change (0 :: replicate n 0) with (replicate (S n) 0).
    rewrite !take_app. f_equal. destruct (decide (length s ≤ n)%nat).
    + rewrite !take_replicate. f_equal. lia.
    + by replace (n - length s)%nat with 0%nat by lia.
Qed.

(** On NUL-terminated strings [strncmp] terminates without reading past
    either string, returns zero exactly when the two agree on their first [n]
    characters, and otherwise the difference at the first disagreement. *)
Lemma strncmp_spec s1 s2 n :
  Forall is_u8 s1 → Forall is_u8 s2 → terminated s1 → terminated s2 →
  ∃ r, strncmp s1 s2 n = Some r ∧ r = compare (Z.to_nat n) (cstr s1) (cstr s2) ∧
    (r = 0 ↔ take (Z.to_nat n) (cstr s1) = take (Z.to_nat n) (cstr s2)).
Proof.
  intros. eexists. rewrite strncmp_cstr by done. split_and!; [done..|].
  apply compare_zero; auto using forall_cstr, cstr_no_nul.
Qed.

