(* ===== verification/LibMem.v ===== *)
(** * LibMem: the block operations of [lib.c] ([memset], [memcpy], [memmove])

    They are inline assembly; a definition below is the effect of the
    instructions, block label by block label: byte moves up to a 4-byte
    boundary of the destination, [rep movsl]/[rep stosl] on the aligned
    middle, byte moves for the rest.

    The memory they run over is an interface: a translation from virtual to
    physical addresses ([None] is a page fault) and the byte at each physical
    address.  [PhysMem] is the kernel's instance (see [KState]); [flat_mem],
    below, is a memory without translation. *)
From S2P Require Import Prelude.

(** ** The memory interface *)
Class ByteMem (S : Type) := {
  translate : S → Z → option Z;         (* virtual address to physical *)
  contents : S → Z → Z;                 (* the byte at a physical address *)
  update : Z → Z → S → S;               (* change one physical byte *)
}.

(** What a memory promises its clients: a store changes one physical byte, to
    its value modulo 256, and no translation. *)
Class LawfulMem (S : Type) `{ByteMem S} := {
  translate_update : ∀ p b (s : S) a, translate (update p b s) a = translate s a;
  contents_update : ∀ p b (s : S) q, contents (update p b s) q = if decide (q = p) then u8 b else contents s q;
  contents_u8 : ∀ (s : S) p, is_u8 (contents s p);
}.

Section defs.
Context {S : Type} `{ByteMem S}.

Definition load8 (a : Z) : M S Z := λ s,
  match translate s a with Some p => Some (contents s p, s) | None => None end.
Definition store8 (a b : Z) : M S () := λ s,
  match translate s a with Some p => Some ((), update p b s) | None => None end.

(** A dword access is four byte accesses, little end first. *)
Definition load32 (a : Z) : M S Z :=
  b0 ← load8 a; b1 ← load8 (u32 (a + 1)); b2 ← load8 (u32 (a + 2)); b3 ← load8 (u32 (a + 3));
  mret (b0 + 256 * b1 + 65536 * b2 + 16777216 * b3).
Definition store32 (a v : Z) : M S () :=
  store8 a (v mod 256);; store8 (u32 (a + 1)) (v / 256 mod 256);;
  store8 (u32 (a + 2)) (v / 65536 mod 256);; store8 (u32 (a + 3)) (v / 16777216 mod 256).
Definition store16 (a v : Z) : M S () :=
  store8 a (v mod 256);; store8 (u32 (a + 1)) (v / 256 mod 256).

(** [rep movsb] / the byte loops, and [rep movsl], with the direction flag clear. *)
Fixpoint movsb (ecx : nat) (edi esi : Z) : M S () :=
  match ecx with
  | O => skip
  | Datatypes.S ecx => b ← load8 esi; store8 edi b;; movsb ecx (u32 (edi + 1)) (u32 (esi + 1))
  end.
Fixpoint movsl (ecx : nat) (edi esi : Z) : M S () :=
  match ecx with
  | O => skip
  | Datatypes.S ecx => v ← load32 esi; store32 edi v;; movsl ecx (u32 (edi + 4)) (u32 (esi + 4))
  end.
(** [rep movsb] with the direction flag set. *)
Fixpoint movsb_down (ecx : nat) (edi esi : Z) : M S () :=
  match ecx with
  | O => skip
  | Datatypes.S ecx => b ← load8 esi; store8 edi b;; movsb_down ecx (u32 (edi - 1)) (u32 (esi - 1))
  end.
Fixpoint stosb (ecx : nat) (edi al : Z) : M S () :=
  match ecx with
  | O => skip
  | Datatypes.S ecx => store8 edi al;; stosb ecx (u32 (edi + 1)) al
  end.
Fixpoint stosl (ecx : nat) (edi eax : Z) : M S () :=
  match ecx with
  | O => skip
  | Datatypes.S ecx => store32 edi eax;; stosl ecx (u32 (edi + 4)) eax
  end.
Fixpoint stosw (ecx : nat) (edi eax : Z) : M S () :=
  match ecx with
  | O => skip
  | Datatypes.S ecx => store16 edi eax;; stosw ecx (u32 (edi + 2)) eax
  end.

(** [.memcpy_top]: bytes until the destination is aligned or nothing is left. *)
Fixpoint memcpy_top (ecx : nat) (edi esi : Z) : M S () :=
  match ecx with
  | O => skip
  | Datatypes.S ecx' =>
      if Z.land edi 3 =? 0 then
        let edx := (ecx mod 4)%nat in let q := (ecx / 4)%nat in
        movsl q edi esi;;
        movsb edx (u32 (edi + 4 * Z.of_nat q)) (u32 (esi + 4 * Z.of_nat q))
      else b ← load8 esi; store8 edi b;; memcpy_top ecx' (u32 (edi + 1)) (u32 (esi + 1))
  end.
Definition memcpy (dest src n : Z) : M S () := memcpy_top (Z.to_nat n) dest src.

Fixpoint memset_top (ecx : nat) (edi eax : Z) : M S () :=
  match ecx with
  | O => skip
  | Datatypes.S ecx' =>
      if Z.land edi 3 =? 0 then
        let edx := (ecx mod 4)%nat in let q := (ecx / 4)%nat in
        stosl q edi eax;;
        stosb edx (u32 (edi + 4 * Z.of_nat q)) (Z.land eax 255)
      else store8 edi (Z.land eax 255);; memset_top ecx' (u32 (edi + 1)) eax
  end.
Definition memset (s c n : Z) : M S () :=
  let c := Z.land c 255 in
  memset_top (Z.to_nat n) s
    (Z.lor (Z.lor (Z.lor (Z.shiftl c 24) (Z.shiftl c 16)) (Z.shiftl c 8)) c).
Definition memset_word (s c n : Z) : M S () := stosw (Z.to_nat n) s (u32 c).
Definition memset_dword (s c n : Z) : M S () := stosl (Z.to_nat n) s (u32 c).

(** [cmp %edi, %esi; jae]: forwards when [esi >= edi], else from the last byte
    down, with [std]. *)
Definition memmove (dest src n : Z) : M S () :=
  if src >=? dest then movsb (Z.to_nat n) dest src
  else movsb_down (Z.to_nat n) (u32 (dest + n - 1)) (u32 (src + n - 1)).
End defs.

(** ** A memory without translation *)
Record flat_mem := mk_flat { flat_bytes : gmap Z Z }.
#[export] Instance flat_mem_mem : ByteMem flat_mem := {|
  translate _ a := if (0 <=? a) && (a <? 4294967296) then Some a else None;
  contents s p := u8 (default 0 (flat_bytes s !! p));
  update p b s := mk_flat (<[p := b]> (flat_bytes s));
|}.
#[export] Instance flat_mem_lawful : LawfulMem flat_mem.
Proof.
  split; [done| |intros; cbn; auto with ece]. intros p b s q. cbn. case_decide; subst.
  - by rewrite lookup_insert_eq.
  - by rewrite lookup_insert_ne.
Qed.

(** ** Lemmas *)
Section lemmas.
Context {S : Type} `{LawfulMem S}.
Implicit Types s : S.

Lemma load8_run s a p : translate s a = Some p → load8 a s = Some (contents s p, s).
Proof. unfold load8. by intros ->. Qed.
Lemma store8_run s a b p : translate s a = Some p → store8 a b s = Some ((), update p b s).
Proof. unfold store8. by intros ->. Qed.
Lemma load8_fault s a : translate s a = None → load8 a s = None.
Proof. unfold load8. by intros ->. Qed.
Lemma store8_fault s a b : translate s a = None → store8 a b s = None.
Proof. unfold store8. by intros ->. Qed.

Lemma contents_update_ne p b s q : q ≠ p → contents (update p b s) q = contents s q.
Proof. intros. rewrite contents_update. by rewrite decide_False. Qed.
Lemma contents_update_eq p b s : contents (update p b s) p = u8 b.
Proof. rewrite contents_update. by rewrite decide_True. Qed.

(** The bytes of a dword. *)
Lemma dword_bytes b0 b1 b2 b3 :
  is_u8 b0 → is_u8 b1 → is_u8 b2 → is_u8 b3 →
  let v := b0 + 256 * b1 + 65536 * b2 + 16777216 * b3 in
  v mod 256 = b0 ∧ v / 256 mod 256 = b1 ∧ v / 65536 mod 256 = b2 ∧ v / 16777216 mod 256 = b3.
Proof. cint. cbn zeta. intros. split_and!; Z.div_mod_to_equations; lia. Qed.

Lemma movsb_translate n edi esi s s' :
  movsb n edi esi s = Some ((), s') → ∀ a, translate s' a = translate s a.
Proof using All.
  revert edi esi s. induction n as [|n IH]; intros edi esi s; cbn [movsb].
  - by intros [= ->].
  - unfold mbind, M_bind, load8. destruct (translate s esi) as [p|]; [|done].
    unfold store8. destruct (translate s edi) as [q|]; [|done].
    intros Hr a. rewrite (IH _ _ _ Hr). apply translate_update.
Qed.

Lemma movsb_app m n edi esi s :
  0 ≤ edi → edi + Z.of_nat m < 4294967296 → 0 ≤ esi → esi + Z.of_nat m < 4294967296 →
  movsb (m + n) edi esi s = (movsb m edi esi;; movsb n (edi + Z.of_nat m) (esi + Z.of_nat m)) s.
Proof using.
  revert edi esi s. induction m as [|m IH]; intros edi esi s H1 H2 H3 H4; cbn [movsb Nat.add].
  - by rewrite bind_skip, !Z.add_0_r.
  - rewrite bind_assoc. apply bind_cong. intros b s1 _.
    rewrite bind_assoc. apply bind_cong. intros [] s2 _.
    rewrite !u32_small by (cint; lia). rewrite IH by lia.
    by replace (edi + 1 + Z.of_nat m) with (edi + Z.of_nat (Datatypes.S m)) by lia;
      replace (esi + 1 + Z.of_nat m) with (esi + Z.of_nat (Datatypes.S m)) by lia.
Qed.

(** No byte of the destination is a byte of the source. *)
Definition disjoint_ranges (s : S) (dst src n : Z) : Prop :=
  ∀ i j p, 0 ≤ i < n → 0 ≤ j < n → translate s (dst + i) = Some p → translate s (src + j) ≠ Some p.

Lemma disjoint_ranges_sub s s' dst src n k m :
  (∀ a, translate s' a = translate s a) → 0 ≤ k → k + m ≤ n →
  disjoint_ranges s dst src n → disjoint_ranges s' (dst + k) (src + k) m.
Proof using.
  intros Htr Hk Hm Hd i j p Hi Hj. rewrite !Htr, <- !Z.add_assoc. apply Hd; lia.
Qed.

Lemma load8_inv a s x s' : load8 a s = Some (x, s') → s' = s ∧ is_u8 x.
Proof using All. unfold load8. intros. case_match; simplify_eq. split; [done|apply contents_u8]. Qed.
Lemma store8_inv d b s u s' : store8 d b s = Some (u, s') → ∀ a, translate s' a = translate s a.
Proof using All. unfold store8. intros. case_match; simplify_eq. apply translate_update. Qed.

(** A load of another byte moves before a store. *)
Definition distinct (s : S) (d a : Z) : Prop := ∀ p, translate s d = Some p → translate s a ≠ Some p.

Lemma load_before_store {B} d b a (k : Z → M S B) s :
  distinct s d a →
  (store8 d b;; x ← load8 a; k x) s = (x ← load8 a; store8 d b;; k x) s.
Proof using All.
  intros Hne. unfold mbind, M_bind, store8, load8.
  destruct (translate s d) as [p|] eqn:Hp.
  - rewrite translate_update. destruct (translate s a) as [q|] eqn:Hq; [|done]. rewrite Hp.
    rewrite contents_update_ne; [done|]. intros ->. by apply (Hne p).
  - destruct (translate s a); [by rewrite Hp|done].
Qed.

Lemma load_before_2_stores {B} d1 b1 d2 b2 a (k : Z → M S B) s :
  distinct s d1 a → distinct s d2 a →
  (store8 d1 b1;; store8 d2 b2;; x ← load8 a; k x) s
    = (x ← load8 a; store8 d1 b1;; store8 d2 b2;; k x) s.
Proof using All.
  intros H1 H2. etrans; [|by apply (load_before_store d1 b1 a (λ x, store8 d2 b2;; k x))].
  apply bind_cong. intros [] s' Hs'. pose proof (store8_inv _ _ _ _ _ Hs') as Htr.
  apply load_before_store. intros p. rewrite !Htr. apply H2.
Qed.

Lemma load_before_3_stores {B} d1 b1 d2 b2 d3 b3 a (k : Z → M S B) s :
  distinct s d1 a → distinct s d2 a → distinct s d3 a →
  (store8 d1 b1;; store8 d2 b2;; store8 d3 b3;; x ← load8 a; k x) s
    = (x ← load8 a; store8 d1 b1;; store8 d2 b2;; store8 d3 b3;; k x) s.
Proof using All.
  intros H1 H2 H3.
  etrans; [|by apply (load_before_store d1 b1 a (λ x, store8 d2 b2;; store8 d3 b3;; k x))].
  apply bind_cong. intros [] s' Hs'. pose proof (store8_inv _ _ _ _ _ Hs') as Htr.
  apply load_before_2_stores; intros p; rewrite !Htr; [apply H2|apply H3].
Qed.

(** Loading four bytes and then storing them is the byte-by-byte copy. *)
Lemma load4_store4 d0 d1 d2 d3 a0 a1 a2 a3 s :
  (∀ d a, d ∈ [d0; d1; d2; d3] → a ∈ [a0; a1; a2; a3] → distinct s d a) →
  (b0 ← load8 a0; b1 ← load8 a1; b2 ← load8 a2; b3 ← load8 a3;
   store8 d0 b0;; store8 d1 b1;; store8 d2 b2;; store8 d3 b3;; skip) s
  = (b0 ← load8 a0; store8 d0 b0;; b1 ← load8 a1; store8 d1 b1;;
     b2 ← load8 a2; store8 d2 b2;; b3 ← load8 a3; store8 d3 b3;; skip) s.
Proof using All.
  intros Hd. apply bind_cong. intros b0 ? [-> _]%load8_inv. symmetry.
  etrans; [apply load_before_store; apply Hd; set_solver|].
  apply bind_cong. intros b1 ? [-> _]%load8_inv.
  etrans; [apply load_before_2_stores; apply Hd; set_solver|].
  apply bind_cong. intros b2 ? [-> _]%load8_inv.
  apply load_before_3_stores; apply Hd; set_solver.
Qed.

Lemma copy_dword edi esi s :
  0 ≤ edi → edi + 4 ≤ 4294967296 → 0 ≤ esi → esi + 4 ≤ 4294967296 →
  disjoint_ranges s edi esi 4 →
  (v ← load32 esi; store32 edi v) s = movsb 4 edi esi s.
Proof using All.
  intros H1 H2 H3 H4 Hd. cbn [movsb].
  rewrite (u32_small (edi + 1)), (u32_small (esi + 1)) by (cint; lia).
  rewrite (u32_small (edi + 1 + 1)), (u32_small (esi + 1 + 1)) by (cint; lia).
  rewrite (u32_small (edi + 1 + 1 + 1)), (u32_small (esi + 1 + 1 + 1)) by (cint; lia).
  replace (edi + 1 + 1 + 1) with (edi + 3) by lia. replace (esi + 1 + 1 + 1) with (esi + 3) by lia.
  replace (edi + 1 + 1) with (edi + 2) by lia. replace (esi + 1 + 1) with (esi + 2) by lia.
  etrans; [|apply load4_store4].
  2: { intros d a Hin Hin' p Hp Hq.
       assert (∃ i, 0 ≤ i < 4 ∧ d = edi + i) as (i&Hi&->).
       { rewrite !list_elem_of_In in Hin. cbn in Hin.
         destruct Hin as [<-|[<-|[<-|[<-|[]]]]]; [exists 0|exists 1|exists 2|exists 3]; lia. }
       assert (∃ j, 0 ≤ j < 4 ∧ a = esi + j) as (j&Hj&->).
       { rewrite !list_elem_of_In in Hin'. cbn in Hin'.
         destruct Hin' as [<-|[<-|[<-|[<-|[]]]]]; [exists 0|exists 1|exists 2|exists 3]; lia. }
       by apply (Hd i j p). }
  unfold load32, store32. rewrite !u32_small by (cint; lia).
  rewrite bind_assoc. apply bind_cong. intros b0 ? [-> Hb0]%load8_inv.
  rewrite bind_assoc. apply bind_cong. intros b1 ? [-> Hb1]%load8_inv.
  rewrite bind_assoc. apply bind_cong. intros b2 ? [-> Hb2]%load8_inv.
  rewrite bind_assoc. apply bind_cong. intros b3 ? [-> Hb3]%load8_inv.
  rewrite bind_ret. destruct (dword_bytes b0 b1 b2 b3) as (->&->&->&->); try done.
  do 3 (apply bind_cong; intros [] ? _). unfold mbind, M_bind, skip.
  by destruct (store8 _ _ _) as [[[] ?]|].
Qed.

Lemma movsl_bytes q edi esi s :
  0 ≤ edi → edi + 4 * Z.of_nat q ≤ 4294967296 → 0 ≤ esi → esi + 4 * Z.of_nat q ≤ 4294967296 →
  disjoint_ranges s edi esi (4 * Z.of_nat q) →
  movsl q edi esi s = movsb (4 * q) edi esi s.
Proof using All.
  revert edi esi s. induction q as [|q IH]; intros edi esi s H1 H2 H3 H4 Hd; [done|].
  replace (4 * Datatypes.S q)%nat with (4 + 4 * q)%nat by lia. cbn [movsl].
  destruct (decide (q = 0%nat)) as [->|Hq].
  - change (4 + 4 * 0)%nat with 4%nat. rewrite <- copy_dword by (done || lia).
    apply bind_cong. intros v s1 _. unfold movsl, mbind, M_bind, skip.
    by destruct (store32 _ _ _) as [[[] ?]|].
  - rewrite movsb_app by lia.
    transitivity (((v ← load32 esi; store32 edi v);; movsl q (u32 (edi + 4)) (u32 (esi + 4))) s);
      [by rewrite bind_assoc|].
    assert ((v ← load32 esi; store32 edi v) s = movsb 4 edi esi s) as Hdw.
    { apply copy_dword; try lia. intros i j p Hi Hj. apply Hd; lia. }
    apply bind_cong2; [done|]. rewrite Hdw. intros [] s' E.
    rewrite !u32_small by (cint; lia). apply IH; try lia.
    apply (disjoint_ranges_sub s s' edi esi (4 * Z.of_nat (Datatypes.S q)) 4); try lia; try done.
    by eapply movsb_translate.
Qed.

(** The aligned middle and the rest: the same bytes, one by one. *)
Lemma movsl_movsb q r edi esi s :
  0 ≤ edi → edi + Z.of_nat (4 * q + r) ≤ 4294967296 →
  0 ≤ esi → esi + Z.of_nat (4 * q + r) ≤ 4294967296 →
  disjoint_ranges s edi esi (Z.of_nat (4 * q + r)) →
  (movsl q edi esi;; movsb r (u32 (edi + 4 * Z.of_nat q)) (u32 (esi + 4 * Z.of_nat q))) s
    = movsb (4 * q + r) edi esi s.
Proof using All.
  intros H1 H2 H3 H4 Hd.
  assert (movsl q edi esi s = movsb (4 * q) edi esi s) as Hq
    by (apply movsl_bytes; try lia; intros ?????; apply Hd; lia).
  destruct (decide (r = 0%nat)) as [->|Hr].
  { rewrite Nat.add_0_r, <- Hq. unfold mbind, M_bind. cbn [movsb]. unfold skip.
    by destruct (movsl _ _ _ _) as [[[] ?]|]. }
  rewrite movsb_app by lia. apply bind_cong2; [done|]. intros [] s' _.
  rewrite !u32_small by (cint; lia).
  by replace (Z.of_nat (4 * q)) with (4 * Z.of_nat q) by lia.
Qed.

Lemma memcpy_top_bytes n edi esi s :
  0 ≤ edi → edi + Z.of_nat n ≤ 4294967296 → 0 ≤ esi → esi + Z.of_nat n ≤ 4294967296 →
  disjoint_ranges s edi esi (Z.of_nat n) →
  memcpy_top n edi esi s = movsb n edi esi s.
Proof using All.
  revert edi esi s. induction n as [|n IH]; intros edi esi s H1 H2 H3 H4 Hd; [done|].
  cbn [memcpy_top]. destruct (Z.land edi 3 =? 0).
  - assert (Datatypes.S n = 4 * (Datatypes.S n / 4) + Datatypes.S n mod 4)%nat as Hn
      by (apply Nat.div_mod; lia).
    rewrite movsl_movsb by (rewrite <- ?Hn; done). by rewrite <- Hn.
  - cbn [movsb]. apply bind_cong. intros b ? [-> _]%load8_inv.
    apply bind_cong. intros [] s' Hs'. pose proof (store8_inv _ _ _ _ _ Hs') as Htr.
    destruct (decide (n = 0%nat)) as [->|Hn]; [done|].
    rewrite !u32_small by (cint; lia). apply IH; try lia.
    by apply (disjoint_ranges_sub s s' edi esi (Z.of_nat (Datatypes.S n)) 1); try lia.
Qed.

(** ** Filling memory *)
Lemma stosb_app m n edi al s :
  0 ≤ edi → edi + Z.of_nat m < 4294967296 →
  stosb (m + n) edi al s = (stosb m edi al;; stosb n (edi + Z.of_nat m) al) s.
Proof using.
  revert edi s. induction m as [|m IH]; intros edi s H1 H2; cbn [stosb Nat.add].
  - by rewrite bind_skip, Z.add_0_r.
  - rewrite bind_assoc. apply bind_cong. intros [] s2 _.
    rewrite !u32_small by (cint; lia). rewrite IH by lia.
    by replace (edi + 1 + Z.of_nat m) with (edi + Z.of_nat (Datatypes.S m)) by lia.
Qed.

Definition repeat_byte (c : Z) : Z := c + 256 * c + 65536 * c + 16777216 * c.

Lemma fill_dword edi c s :
  0 ≤ edi → edi + 4 ≤ 4294967296 → is_u8 c →
  store32 edi (repeat_byte c) s = stosb 4 edi c s.
Proof using.
  intros H1 H2 Hc. unfold store32, repeat_byte. cbn [stosb].
  destruct (dword_bytes c c c c) as (->&->&->&->); try done.
  rewrite (u32_small (edi + 1)) by (cint; lia).
  rewrite (u32_small (edi + 1 + 1)) by (cint; lia).
  rewrite (u32_small (edi + 1 + 1 + 1)) by (cint; lia).
  rewrite (u32_small (edi + 2)), (u32_small (edi + 3)) by (cint; lia).
  replace (edi + 1 + 1 + 1) with (edi + 3) by lia. replace (edi + 1 + 1) with (edi + 2) by lia.
  do 3 (apply bind_cong; intros [] ? _). unfold mbind, M_bind, skip.
  by destruct (store8 _ _ _) as [[[] ?]|].
Qed.

Lemma stosl_bytes q edi c s :
  0 ≤ edi → edi + 4 * Z.of_nat q ≤ 4294967296 → is_u8 c →
  stosl q edi (repeat_byte c) s = stosb (4 * q) edi c s.
Proof using.
  revert edi s. induction q as [|q IH]; intros edi s H1 H2 Hc; [done|].
  replace (4 * Datatypes.S q)%nat with (4 + 4 * q)%nat by lia. cbn [stosl].
  destruct (decide (q = 0%nat)) as [->|Hq].
  - change (4 + 4 * 0)%nat with 4%nat. rewrite <- fill_dword by (done || lia).
    unfold stosl, mbind, M_bind, skip. by destruct (store32 _ _ _) as [[[] ?]|].
  - rewrite stosb_app by lia. apply bind_cong2; [by apply fill_dword; try lia|]. intros [] s' _.
    rewrite u32_small by (cint; lia). apply IH; lia || done.
Qed.

Lemma memset_top_bytes n edi c s :
  0 ≤ edi → edi + Z.of_nat n ≤ 4294967296 → is_u8 c →
  memset_top n edi (repeat_byte c) s = stosb n edi c s.
Proof using.
  intros H1 H2 Hc.
  assert (Z.land (repeat_byte c) 255 = c) as Hal.
  { change 255 with (Z.ones 8). rewrite Z.land_ones by lia.
    change (2 ^ 8) with 256. unfold repeat_byte. by destruct (dword_bytes c c c c) as (->&_). }
  revert edi s H1 H2. induction n as [|n IH]; intros edi s H1 H2; [done|].
  cbn [memset_top]. rewrite Hal. destruct (Z.land edi 3 =? 0).
  - set (q := (Datatypes.S n / 4)%nat). set (r := (Datatypes.S n mod 4)%nat).
    assert (Datatypes.S n = 4 * q + r)%nat as Hn by (apply Nat.div_mod; lia).
    assert (stosl q edi (repeat_byte c) s = stosb (4 * q) edi c s) as Hq
      by (apply stosl_bytes; try lia; done).
    rewrite Hn. clearbody q r. destruct (decide (r = 0%nat)) as [->|Hr].
    { rewrite Nat.add_0_r, <- Hq. unfold mbind, M_bind. cbn [stosb]. unfold skip.
      by destruct (stosl _ _ _ _) as [[[] ?]|]. }
    rewrite stosb_app by lia. apply bind_cong2; [done|]. intros [] s' _.
    rewrite !u32_small by (cint; lia).
    by replace (Z.of_nat (4 * q)) with (4 * Z.of_nat q) by lia.
  - cbn [stosb]. apply bind_cong. intros [] s' _.
    destruct (decide (n = 0%nat)) as [->|Hn]; [done|].
    rewrite !u32_small by (cint; lia). apply IH; lia.
Qed.

Lemma spread_byte c :
  is_u8 c →
  Z.lor (Z.lor (Z.lor (Z.shiftl c 24) (Z.shiftl c 16)) (Z.shiftl c 8)) c = repeat_byte c.
Proof using.
  intros Hc.
  assert (Forall (λ c, Z.lor (Z.lor (Z.lor (Z.shiftl c 24) (Z.shiftl c 16)) (Z.shiftl c 8)) c
    = repeat_byte c) (seqZ 0 256)) as Hall by (apply (bool_decide_unpack _); vm_compute; exact I).
  rewrite Forall_forall in Hall. apply Hall, elem_of_seqZ. cint. lia.
Qed.

(** ** Effects *)

(** A range of virtual addresses is mapped, byte [i] to [p i]. *)
Definition mapped (s : S) (a n : Z) (p : Z → Z) : Prop :=
  ∀ i, 0 ≤ i < n → translate s (a + i) = Some (p i).
Definition injective_on (n : Z) (p : Z → Z) : Prop :=
  ∀ i j, 0 ≤ i < n → 0 ≤ j < n → p i = p j → i = j.

(** Bytes [pd 0 .. pd (n-1)] of [s'] hold [f 0 .. f (n-1)], the others are as in [s]. *)
Definition written (s s' : S) (pd : Z → Z) (n : Z) (f : Z → Z) : Prop :=
  (∀ i, 0 ≤ i < n → contents s' (pd i) = f i) ∧
  (∀ q, (∀ i, 0 ≤ i < n → q ≠ pd i) → contents s' q = contents s q).

Lemma written_0 s pd f : written s s pd 0 f.
Proof using. split; [lia|done]. Qed.

Lemma written_snoc s s1 pd n f b :
  0 ≤ n → injective_on (n + 1) pd → written s s1 pd n f → u8 b = f n →
  written s (update (pd n) b s1) pd (n + 1) f.
Proof using All.
  intros Hn Hinj [Hin Hout] Hb. split.
  - intros i Hi. destruct (decide (i = n)) as [->|Hne]; [by rewrite contents_update_eq|].
    rewrite contents_update_ne by (intros E; apply Hinj in E; lia). apply Hin. lia.
  - intros q Hq. rewrite contents_update_ne by (apply Hq; lia). apply Hout. intros i Hi. apply Hq. lia.
Qed.

Section frame.
(** A relation that holds between any state and the state after a store: what
    the stores leave alone. *)
Context (R : S → S → Prop) `{!PreOrder R} (HR : ∀ p b s, R s (update p b s)).

Lemma movsb_effect n dst src s pd ps :
  0 ≤ dst → dst + Z.of_nat n ≤ 4294967296 → 0 ≤ src → src + Z.of_nat n ≤ 4294967296 →
  mapped s dst (Z.of_nat n) pd → mapped s src (Z.of_nat n) ps → injective_on (Z.of_nat n) pd →
  disjoint_ranges s dst src (Z.of_nat n) →
  ∃ s', movsb n dst src s = Some ((), s') ∧ R s s' ∧ (∀ a, translate s' a = translate s a) ∧
    written s s' pd (Z.of_nat n) (λ i, contents s (ps i)).
Proof using All.
  intros H1 H2 H3 H4. induction n as [|n IH]; intros Hd Hs Hinj Hdis.
  { exists s. split_and!; [done|done|done|apply written_0]. }
  destruct IH as (s1&Hrun&HR1&Htr&Hw); try lia.
  { intros i Hi. apply Hd. lia. }
  { intros i Hi. apply Hs. lia. }
  { intros i j Hi Hj. apply Hinj; lia. }
  { intros i j p Hi Hj. apply Hdis; lia. }
  replace (Datatypes.S n) with (n + 1)%nat by lia. rewrite movsb_app by lia.
  rewrite (bind_run _ _ _ _ _ Hrun). cbn [movsb].
  rewrite (bind_run _ _ _ _ _ (load8_run s1 (src + Z.of_nat n) (ps (Z.of_nat n)) ltac:(rewrite Htr; apply Hs; lia))).
  rewrite (bind_run _ _ _ _ _ (store8_run s1 (dst + Z.of_nat n) _ (pd (Z.of_nat n)) ltac:(rewrite Htr; apply Hd; lia))).
  eexists. split; [done|]. split_and!.
  - etrans; [exact HR1|apply HR].
  - intros a. by rewrite translate_update.
  - replace (Z.of_nat (n + 1)) with (Z.of_nat n + 1) by lia.
    apply written_snoc; [lia|intros i j Hi Hj; apply Hinj; lia|done|].
    rewrite u8_small by apply contents_u8. destruct Hw as [_ Hout]. apply Hout.
    intros i Hi E. apply (Hdis i (Z.of_nat n) (pd i)); [lia|lia|apply Hd; lia|].
    rewrite Hs by lia. by f_equal.
Qed.

Lemma stosb_effect n dst c s pd :
  0 ≤ dst → dst + Z.of_nat n ≤ 4294967296 →
  mapped s dst (Z.of_nat n) pd → injective_on (Z.of_nat n) pd →
  ∃ s', stosb n dst c s = Some ((), s') ∧ R s s' ∧ (∀ a, translate s' a = translate s a) ∧
    written s s' pd (Z.of_nat n) (λ _, u8 c).
Proof using All.
  intros H1 H2. induction n as [|n IH]; intros Hd Hinj.
  { exists s. split_and!; [done|done|done|apply written_0]. }
  destruct IH as (s1&Hrun&HR1&Htr&Hw); try lia.
  { intros i Hi. apply Hd. lia. }
  { intros i j Hi Hj. apply Hinj; lia. }
  replace (Datatypes.S n) with (n + 1)%nat by lia. rewrite stosb_app by lia.
  rewrite (bind_run _ _ _ _ _ Hrun). cbn [stosb].
  rewrite (bind_run _ _ _ _ _ (store8_run s1 (dst + Z.of_nat n) _ (pd (Z.of_nat n)) ltac:(rewrite Htr; apply Hd; lia))).
  eexists. split; [done|]. split_and!.
  - etrans; [exact HR1|apply HR].
  - intros a. by rewrite translate_update.
  - replace (Z.of_nat (n + 1)) with (Z.of_nat n + 1) by lia.
    apply written_snoc; [lia|intros i j Hi Hj; apply Hinj; lia|done|done].
Qed.
End frame.

Lemma memcpy_effect (R : S → S → Prop) `{!PreOrder R} n dst src s pd ps :
  (∀ p b s, R s (update p b s)) →
  0 ≤ dst → dst + n ≤ 4294967296 → 0 ≤ src → src + n ≤ 4294967296 → 0 ≤ n →
  mapped s dst n pd → mapped s src n ps → injective_on n pd → disjoint_ranges s dst src n →
  ∃ s', memcpy dst src n s = Some ((), s') ∧ R s s' ∧ (∀ a, translate s' a = translate s a) ∧
    written s s' pd n (λ i, contents s (ps i)).
Proof using All.
  intros HR H1 H2 H3 H4 Hn. rewrite <- (Z2Nat.id n) by done. set (m := Z.to_nat n) in *.
  rewrite <- (Z2Nat.id n) in H2, H4 by done. intros Hd Hs Hinj Hdis. unfold memcpy. rewrite Nat2Z.id.
  rewrite memcpy_top_bytes by done. by apply movsb_effect.
Qed.

Lemma memset_effect (R : S → S → Prop) `{!PreOrder R} n dst c s pd :
  (∀ p b s, R s (update p b s)) →
  0 ≤ dst → dst + n ≤ 4294967296 → 0 ≤ n → mapped s dst n pd → injective_on n pd →
  ∃ s', memset dst c n s = Some ((), s') ∧ R s s' ∧ (∀ a, translate s' a = translate s a) ∧
    written s s' pd n (λ _, u8 c).
Proof using All.
  intros HR H1 H2 Hn. rewrite <- (Z2Nat.id n) by done. set (m := Z.to_nat n) in *.
  rewrite <- (Z2Nat.id n) in H2 by done. intros Hd Hinj. unfold memset. rewrite Nat2Z.id.
  change 255 with (Z.ones 8). rewrite Z.land_ones by lia. change (c mod 2 ^ 8) with (u8 c).
  rewrite spread_byte by apply u8_range. rewrite memset_top_bytes by (done || apply u8_range).
  destruct (stosb_effect R HR m dst (u8 c) s pd) as (s'&Hrun&HRs&Htr&Hw); try done.
  exists s'. split_and!; try done. by rewrite (u8_small (u8 c)) in Hw by apply u8_range.
Qed.
End lemmas.

(** ** Correctness *)

(**  [memcpy], which moves dwords once the destination is aligned, is the
    byte-by-byte copy, faults included, whenever no destination byte is a
    source byte; on mapped ranges it puts the old source bytes in the
    destination and changes no other byte of memory and no translation. *)
Lemma memcpy_byte_copy {S} `{LawfulMem S} dst src n (s : S) :
  0 ≤ dst → dst + n ≤ 4294967296 → 0 ≤ src → src + n ≤ 4294967296 → 0 ≤ n →
  disjoint_ranges s dst src n →
  memcpy dst src n s = movsb (Z.to_nat n) dst src s ∧
  ∀ pd ps, mapped s dst n pd → mapped s src n ps → injective_on n pd →
    ∃ s', memcpy dst src n s = Some ((), s') ∧ (∀ a, translate s' a = translate s a) ∧
      written s s' pd n (λ i, contents s (ps i)).
Proof.
  intros H1 H2 H3 H4 Hn Hdis. split.
  - apply memcpy_top_bytes; rewrite ?Z2Nat.id by done; done.
  - intros pd ps Hd Hs Hinj.
    destruct (memcpy_effect (λ _ _, True) n dst src s pd ps) as (s'&?&_&?&?); eauto.
Qed.

Lemma memcpy_byte_copy_witness :
  ∃ s', memcpy 5 100 7 (mk_flat (<[106 := 33]> ∅)) = Some ((), s') ∧ contents s' 11 = 33.
Proof.
  destruct (memcpy_byte_copy 5 100 7 (mk_flat (<[106 := 33]> ∅))) as [_ Heff]; try lia.
  { intros i j p Hi Hj. cbn. repeat case_match; naive_solver lia. }
  assert (Hm : ∀ a n, 0 ≤ a → a + n ≤ 1000 → mapped (mk_flat (<[106 := 33]> ∅)) a n (λ i, a + i)).
  { intros a n Ha Hn i Hi. cbn. destruct (Z.leb_spec 0 (a + i)), (Z.ltb_spec (a + i) 4294967296); lia || done. }
  destruct (Heff (λ i, 5 + i) (λ i, 100 + i)) as (s'&Hrun&_&Hw&_);
    [apply Hm; lia|apply Hm; lia|intros i j; lia|].
  exists s'. split; [exact Hrun|]. apply (Hw 6). lia.
Defined.

(** [memset] writes the low byte of its argument to each of the [n] bytes
    of a mapped range, whatever its alignment, and changes nothing else. *)
Lemma memset_fills {S} `{LawfulMem S} dst c n (s : S) pd :
  0 ≤ dst → dst + n ≤ 4294967296 → 0 ≤ n → mapped s dst n pd → injective_on n pd →
  ∃ s', memset dst c n s = Some ((), s') ∧ (∀ a, translate s' a = translate s a) ∧
    written s s' pd n (λ _, u8 c).
Proof.
  intros H1 H2 Hn Hd Hinj.
  destruct (memset_effect (λ _ _, True) n dst c s pd) as (s'&?&_&?&?); eauto.
Qed.

