(* ===== verification/Filesystem.v ===== *)
(** * Filesystem: the read-only file system of the kernel ([filesystem.c])

    The mounted image is the list of its bytes, from [boot_block_addr]; an
    access past its end is [None].  A caller's buffer is a write operation
    [wr i v] of the caller's memory ([buf[i] = v]), so that the same
    definitions run over a local array and over user memory behind the page
    tables.  Struct fields are read where the structs of [filesystem.h] put
    them: a 64-byte header and 64-byte directory entries in block 0, one
    4096-byte block per inode, then the data blocks. *)
From S2P Require Import Prelude LibString.

Definition FILENAME_LEN : Z := 32.
Definition BLOCK_SIZE : Z := 4096.
Definition DENTRY_SIZE : Z := 64.
Definition DATA_BLOCK_NUM_SIZE : Z := 1023.

Record dentry_t := mk_dentry {
  filename : list Z;      (* int8_t filename[32] *)
  filetype : Z;           (* int32_t *)
  inode_num : Z;          (* int32_t *)
}.
#[export] Instance dentry_settable : Settable dentry_t :=
  λ d, mk_dentry (filename d) (filetype d) (inode_num d).
#[export] Instance dentry_eq_dec : EqDecision dentry_t.
Proof. solve_decision. Defined.

(** A little-endian [int32_t] at byte address [a] of the image. *)
Definition get32 (img : list Z) (a : Z) : option Z :=
  b0 ← aget img a; b1 ← aget img (a + 1); b2 ← aget img (a + 2); b3 ← aget img (a + 3);
  Some (i32 (b0 + 256 * b1 + 65536 * b2 + 16777216 * b3)).

(** [n] consecutive bytes of the image, as [memcpy] reads them. *)
Definition get_bytes (img : list Z) (a n : Z) : option (list Z) :=
  if (0 <=? a) && (a + n <=? zlen img) then Some (take (Z.to_nat n) (drop (Z.to_nat a) img))
  else None.

Definition dir_count (img : list Z) : option Z := get32 img 0.
Definition inode_count (img : list Z) : option Z := get32 img 4.
(** [&boot_block_addr->direntries[i]] *)
Definition direntry_addr (i : Z) : Z := 64 + 64 * i.

(** [filesystem_init]: the byte offsets of [boot_block_addr], [inode_addr] and
    [data_addr] in the image. *)
Record fs_globals := mk_fs_globals { boot_block_addr : Z; inode_addr : Z; data_addr : Z }.
Definition filesystem_init (img : list Z) : option fs_globals :=
  n ← inode_count img;
  Some (mk_fs_globals 0 BLOCK_SIZE (BLOCK_SIZE * (n + 1))).

(** The body of the two [read_dentry] functions: copy entry [i]. *)
Definition copy_dentry (img : list Z) (i : Z) (dentry : dentry_t) : option dentry_t :=
  name ← get_bytes img (direntry_addr i) FILENAME_LEN;
  ty ← get32 img (direntry_addr i + 32);
  ino ← get32 img (direntry_addr i + 36);
  Some (dentry <| filename := name |> <| filetype := ty |> <| inode_num := ino |>).

Fixpoint read_dentry_by_name_loop (n : nat) (i : Z) (img fname : list Z) (dentry : dentry_t)
  : option (Z * option dentry_t) :=
  match n with
  | O => Some (-1, Some dentry)
  | S n =>
      r ← strncmp (drop (Z.to_nat (direntry_addr i)) img) fname FILENAME_LEN;
      if r =? 0 then d ← copy_dentry img i dentry; Some (0, Some d)
      else read_dentry_by_name_loop n (i + 1) img fname dentry
  end.

(** A pointer argument is [None] when it is [NULL]; [strlen(fname)] runs before
    the [NULL] test. *)
Definition read_dentry_by_name (img : list Z) (fname : option (list Z)) (dentry : option dentry_t)
  : option (Z * option dentry_t) :=
  name ← fname;
  len ← strlen name;
  if len >? FILENAME_LEN then Some (-1, dentry)
  else match dentry with
       | None => Some (-1, None)
       | Some d => read_dentry_by_name_loop (Z.to_nat DENTRY_SIZE) 0 img name d
       end.

Definition read_dentry_by_index (img : list Z) (index : Z) (dentry : option dentry_t)
  : option (Z * option dentry_t) :=
  n ← dir_count img;
  if index >? u32 n then Some (-1, dentry)
  else match dentry with
       | None => Some (-1, None)
       | Some d => d ← copy_dentry img index d; Some (0, Some d)
       end.

Section reads.
Context {S : Type} (wr : Z → Z → M S ()).

Fixpoint read_data_loop (n : nat) (img : list Z) (cur_inode offset i cur_pos read_counter : Z)
  : M S Z :=
  match n with
  | O => mret read_counter
  | Datatypes.S n =>
      len ← lift (get32 img cur_inode);
      if u32 len >=? u32 (offset + read_counter) then
        let idx := cur_pos `quot` BLOCK_SIZE in
        let data := cur_pos `rem` BLOCK_SIZE in
        g ← lift (filesystem_init img);
        blk ← lift (get32 img (cur_inode + 4 + 4 * idx));
        v ← lift (aget img (data_addr g + BLOCK_SIZE * blk + data));
        wr i v;;
        read_data_loop n img cur_inode offset (i + 1) (i32 (cur_pos + 1)) (read_counter + 1)
      else read_data_loop n img cur_inode offset (i + 1) cur_pos read_counter
  end.

Definition read_data (img : list Z) (inode offset : Z) (buf_null : bool) (length : Z) : M S Z :=
  n ← lift (inode_count img);
  if (inode >? u32 n) || buf_null then mret (-1)
  else
    g ← lift (filesystem_init img);
    read_data_loop (Z.to_nat length) img (inode_addr g + BLOCK_SIZE * inode) offset
      0 (i32 offset) 0.

Definition file_open (filename : Z) : M S Z := mret 0.
Definition file_close (fd : Z) : M S Z := mret 0.
Definition file_write (fd buf nbytes : Z) : M S Z := mret (-1).
Definition file_read (img : list Z) (inode offset : Z) (buf_null : bool) (length : Z) : M S Z :=
  read_data img inode offset buf_null length.

Definition directory_open (filename : Z) : M S Z := mret 0.
Definition directory_close (fd : Z) : M S Z := mret 0.
Definition directory_write (fd buf nbytes : Z) : M S Z := mret (-1).

(** The loop tests the [idx] computed by the previous iteration. *)
Fixpoint directory_read_loop (n : nat) (img : list Z) (i cur_pos idx : Z) : M S Z :=
  match n with
  | O => mret i
  | Datatypes.S n =>
      dirs ← lift (dir_count img);
      if idx <? dirs then
        let idx := cur_pos `quot` FILENAME_LEN in
        let data := cur_pos `rem` FILENAME_LEN in
        v ← lift (aget img (direntry_addr idx + data));
        wr i v;;
        directory_read_loop n img (i + 1) (i32 (cur_pos + 1)) idx
      else mret i
  end.
Definition directory_read (img : list Z) (inode offset length : Z) : M S Z :=
  let cur_pos := i32 offset in
  directory_read_loop (Z.to_nat length) img 0 cur_pos (cur_pos `quot` FILENAME_LEN).
End reads.

#[global] Arguments get32 : simpl never.
#[global] Arguments inode_count : simpl never.
#[global] Arguments dir_count : simpl never.

(** ** Abstract view of an image *)

(** The name a directory entry holds: up to 32 characters, NUL-padded. *)
Definition dentry_name (img : list Z) (i : Z) : list Z :=
  cstr (take 32 (drop (Z.to_nat (direntry_addr i)) img) ++ [0]).

(** Byte [k] of the file of an inode, through its block table. *)
Definition file_byte (img : list Z) (inode k : Z) : option Z :=
  n ← inode_count img;
  blk ← get32 img (BLOCK_SIZE + BLOCK_SIZE * inode + 4 + 4 * (k / BLOCK_SIZE));
  aget img (BLOCK_SIZE * (n + 1) + BLOCK_SIZE * blk + k mod BLOCK_SIZE).
Definition file_length (img : list Z) (inode : Z) : option Z :=
  l ← get32 img (BLOCK_SIZE + BLOCK_SIZE * inode); Some (u32 l).

(** Writing a list of bytes to a buffer, from index [i]. *)
Fixpoint write_bytes {S} (wr : Z → Z → M S ()) (i : Z) (bs : list Z) : M S () :=
  match bs with
  | [] => skip
  | b :: bs => wr i b;; write_bytes wr (i + 1) bs
  end.

(** The bytes [bs] are those of the file from offset [off] on. *)
Definition file_has (img : list Z) (inode off : Z) (bs : list Z) : Prop :=
  ∀ k b, bs !! k = Some b → file_byte img inode (off + Z.of_nat k) = Some b.

(** Byte [k] of a directory: the 32-byte names one after the other. *)
Definition dir_byte (img : list Z) (k : Z) : option Z :=
  aget img (direntry_addr (k / FILENAME_LEN) + k mod FILENAME_LEN).
Definition dir_has (img : list Z) (off : Z) (bs : list Z) : Prop :=
  ∀ k b, bs !! k = Some b → dir_byte img (off + Z.of_nat k) = Some b.

(** A buffer that records what is written to it, in order. *)
Definition record (i v : Z) : M (list Z) () := λ out,
  if i =? zlen out then Some ((), out ++ [v]) else None.

(** Successive reads of an open file, the offset advancing by the return value. *)
Fixpoint read_chunks (img : list Z) (inode offset : Z) (sizes : list Z) : option (list (list Z)) :=
  match sizes with
  | [] => Some []
  | n :: sizes =>
      '(ret, out) ← read_data record img inode offset false n [];
      outs ← read_chunks img inode (offset + ret) sizes;
      Some (out :: outs)
  end.

(** A client of the directory that reads one name at a time, as [ls] does. *)
Fixpoint list_directory (fuel : nat) (img : list Z) (inode offset : Z) : option (list (list Z)) :=
  match fuel with
  | O => None
  | S fuel =>
      '(ret, out) ← directory_read record img inode offset FILENAME_LEN [];
      if ret =? 0 then Some []
      else outs ← list_directory fuel img inode (offset + ret); Some (out :: outs)
  end.

(** ** A small image: two directory entries, one inode, one data block *)
Definition pad (n : nat) (l : list Z) : list Z := take n (l ++ replicate n 0).
Definition le32 (v : Z) : list Z := [v mod 256; v / 256 mod 256; v / 65536 mod 256; v / 16777216 mod 256].
Definition example_dentry (name : list Z) (ty ino : Z) : list Z :=
  pad 64 (pad 32 name ++ le32 ty ++ le32 ino).
Definition example_image : list Z :=
  pad 4096 (pad 64 (le32 2 ++ le32 1 ++ le32 1) ++
            example_dentry [46] 1 0 ++ example_dentry [97; 98] 2 0) ++
  pad 4096 (le32 3 ++ le32 0) ++ pad 4096 [104; 105; 10].

(** ** Lemmas *)
Lemma file_has_cons img inode off b bs :
  file_has img inode off (b :: bs) →
  file_byte img inode off = Some b ∧ file_has img inode (off + 1) bs.
Proof.
  intros H. split.
  - rewrite <- (H 0%nat b) by done. f_equal. lia.
  - intros k b' Hk. rewrite <- (H (S k) b') by done. f_equal. lia.
Qed.

Lemma dir_has_cons img off b bs :
  dir_has img off (b :: bs) → dir_byte img off = Some b ∧ dir_has img (off + 1) bs.
Proof.
  intros H. split.
  - rewrite <- (H 0%nat b) by done. f_equal. lia.
  - intros k b' Hk. rewrite <- (H (S k) b') by done. f_equal. lia.
Qed.

Lemma file_has_drop img inode bs n :
  file_has img inode 0 bs → file_has img inode (Z.of_nat n) (drop n bs).
Proof.
  intros H k b. rewrite lookup_drop. intros Hk. rewrite <- (H _ _ Hk). f_equal. lia.
Qed.

Lemma file_has_take img inode off bs n : file_has img inode off bs → file_has img inode off (take n bs).
Proof. intros H k b [Hk _]%lookup_take_Some. by apply H. Qed.

Lemma get32_range img a v : get32 img a = Some v → is_i32 v.
Proof.
  unfold get32. intros H. repeat (apply bind_Some in H as (?&_&H)). simplify_eq. apply i32_range.
Qed.

Section reads.
Context {S : Type} (wr : Z → Z → M S ()).

Lemma read_data_loop_eof n img ci L offset i cp rc s :
  get32 img ci = Some L → u32 L < u32 (offset + rc) →
  read_data_loop wr n img ci offset i cp rc s = Some (rc, s).
Proof using.
  intros HL He. revert i. induction n as [|n IH]; intros i; [done|].
  cbn [read_data_loop]. rewrite (bind_lift _ _ _ _ HL), Z.geb_leb.
  destruct (Z.leb_spec (u32 (offset + rc)) (u32 L)); [lia|]. apply IH.
Qed.

Lemma read_data_loop_spec n img inode L bs offset rc :
  is_Some (inode_count img) → get32 img (BLOCK_SIZE + BLOCK_SIZE * inode) = Some L →
  0 ≤ L < 2147483647 → 0 ≤ offset → 0 ≤ rc → offset + rc + Z.of_nat n < 4294967296 →
  file_has img inode (offset + rc) bs →
  zlen bs = Z.min (Z.of_nat n) (Z.max 0 (L + 1 - (offset + rc))) →
  ∀ s, read_data_loop wr n img (BLOCK_SIZE + BLOCK_SIZE * inode) offset rc (i32 (offset + rc)) rc s
     = (write_bytes wr rc bs;; mret (rc + zlen bs)) s.
Proof using.
  intros [m Hm] HL HLr Ho. revert rc bs.
  induction n as [|n IH]; intros rc bs Hrc Hov Hbs Hlen s.
  { destruct bs; cbn [length] in Hlen; [|lia]. cbn. by rewrite Z.add_0_r. }
  destruct (decide (L < offset + rc)) as [Hlt|Hge].
  { rewrite (read_data_loop_eof _ _ _ L) by (try done; rewrite !u32_small by (cint; lia); lia).
    destruct bs; cbn [length] in Hlen; [|lia]. cbn. by rewrite Z.add_0_r. }
  destruct bs as [|b bs]; [cbn [length] in Hlen; lia|].
  apply file_has_cons in Hbs as [Hb Hbs].
  rewrite i32_small by (cint; lia). cbn [read_data_loop write_bytes].
  rewrite (bind_lift _ _ _ _ HL), Z.geb_leb, !u32_small by (cint; lia).
  destruct (Z.leb_spec (offset + rc) L); [|lia].
  unfold filesystem_init, file_byte in *. rewrite Hm in *. cbn [mbind option_bind] in *.
  apply bind_Some in Hb as (blk&Hblk&Hb).
  rewrite (bind_lift _ _ _ _ eq_refl). cbn [data_addr].
  rewrite Z.quot_div_nonneg, Z.rem_mod_nonneg by (unfold BLOCK_SIZE; lia).
  rewrite (bind_lift _ _ _ _ Hblk), (bind_lift _ _ _ _ Hb), bind_assoc.
  apply bind_cong. intros [] s' _.
  replace (offset + rc + 1) with (offset + (rc + 1)) in * by lia.
  rewrite (IH (rc + 1) bs); [|lia|lia|done|cbn [length] in Hlen; lia].
  by replace (rc + zlen (b :: bs)) with (rc + 1 + zlen bs) by (cbn [length]; lia).
Qed.

(** Functional description of [read_data], over any memory: it writes exactly
    the bytes of the file from [offset], at most [length] of them and up to
    position [L] included. *)
Lemma read_data_writes img inode L n bs offset length s :
  inode_count img = Some n → 0 ≤ inode ≤ u32 n → file_length img inode = Some L →
  L < 2147483647 → 0 ≤ offset < 2147483648 → 0 ≤ length < 2147483648 →
  file_has img inode offset bs →
  zlen bs = Z.min length (Z.max 0 (L + 1 - offset)) →
  read_data wr img inode offset false length s = (write_bytes wr 0 bs;; mret (zlen bs)) s.
Proof using.
  intros Hn Hi HL HLr Ho Hl Hbs Hlen.
  unfold file_length in HL. apply bind_Some in HL as (L0&HL0&[= <-]).
  pose proof (get32_range _ _ _ HL0).
  assert (u32 L0 = L0) as E by (revert HLr; cint_lia).
  pose proof (u32_range L0). rewrite E in *. unfold is_u32 in *.
  unfold read_data. rewrite (bind_lift _ _ _ _ Hn), Z.gtb_ltb.
  destruct (Z.ltb_spec (u32 n) inode); [lia|]. cbn [orb].
  assert (filesystem_init img = Some (mk_fs_globals 0 BLOCK_SIZE (BLOCK_SIZE * (n + 1)))) as Hg
    by (unfold filesystem_init; by rewrite Hn).
  rewrite (bind_lift _ _ _ _ Hg). cbn [inode_addr].
  pose proof (read_data_loop_spec (Z.to_nat length) img inode L0 bs offset 0) as Hloop.
  rewrite Z.add_0_r, Z2Nat.id in Hloop by lia. cbn [Z.add] in Hloop.
  apply Hloop; eauto; lia.
Qed.

Lemma directory_read_loop_spec n img d bs pos i :
  dir_count img = Some d → 1 ≤ pos → pos + Z.of_nat n < 2147483648 → dir_has img pos bs →
  zlen bs = Z.min (Z.of_nat n) (Z.max 0 (FILENAME_LEN * d + 1 - pos)) →
  ∀ s, directory_read_loop wr n img i pos ((pos - 1) / FILENAME_LEN) s
     = (write_bytes wr i bs;; mret (i + zlen bs)) s.
Proof using.
  unfold FILENAME_LEN. intros Hd. revert pos bs i.
  induction n as [|n IH]; intros pos bs i Hp Hov Hbs Hlen s.
  { destruct bs; cbn [length] in Hlen; [|lia]. cbn. by rewrite Z.add_0_r. }
  cbn [directory_read_loop]. rewrite (bind_lift _ _ _ _ Hd).
  destruct (Z.ltb_spec ((pos - 1) / 32) d) as [Hlt|Hge]; destruct bs as [|b bs]; cbn [length] in Hlen.
  1, 4: exfalso; revert Hlen; Z.div_mod_to_equations; lia.
  2: { cbn. by rewrite Z.add_0_r. }
  apply dir_has_cons in Hbs as [Hb Hbs]. cbn [write_bytes].
  unfold dir_byte, FILENAME_LEN in *. rewrite Z.quot_div_nonneg, Z.rem_mod_nonneg by lia.
  rewrite (bind_lift _ _ _ _ Hb), bind_assoc. apply bind_cong. intros [] s' _.
  rewrite i32_small by (cint; lia).
  pose proof (IH (pos + 1) bs (i + 1)) as IH'. replace (pos + 1 - 1) with pos in IH' by lia.
  rewrite IH'; [|lia|lia|done|lia].
  by replace (i + zlen (b :: bs)) with (i + 1 + zlen bs) by (cbn [length]; lia).
Qed.

(** The same for [directory_read]: the names from byte [offset], and one byte
    past the last name. *)
Lemma directory_read_writes img inode d bs offset length s :
  dir_count img = Some d → 0 ≤ offset → 0 ≤ length → offset + length < 2147483648 →
  dir_has img offset bs →
  zlen bs = (if offset <? FILENAME_LEN * d
             then Z.min length (FILENAME_LEN * d + 1 - offset) else 0) →
  directory_read wr img inode offset length s = (write_bytes wr 0 bs;; mret (zlen bs)) s.
Proof using.
  unfold directory_read, FILENAME_LEN. intros Hd Ho Hl Hov Hbs Hlen.
  rewrite i32_small by (cint; lia). rewrite Z.quot_div_nonneg by lia.
  destruct (Z.to_nat length) as [|n] eqn:En.
  { destruct bs; [done|]. cbn [List.length] in Hlen. destruct (offset <? _); lia. }
  cbn [directory_read_loop]. rewrite (bind_lift _ _ _ _ Hd). unfold FILENAME_LEN.
  destruct (Z.ltb_spec offset (32 * d)) as [Hlt|Hge], (Z.ltb_spec (offset / 32) d) as [Hlt'|Hge'].
  2, 3: exfalso; Z.div_mod_to_equations; lia.
  2: { destruct bs; cbn [List.length] in Hlen; [done|lia]. }
  destruct bs as [|b bs]; cbn [List.length] in Hlen; [lia|].
  apply dir_has_cons in Hbs as [Hb Hbs]. cbn [write_bytes].
  unfold dir_byte, FILENAME_LEN in *. rewrite Z.quot_div_nonneg, Z.rem_mod_nonneg by lia.
  rewrite (bind_lift _ _ _ _ Hb), bind_assoc. apply bind_cong. intros [] s' _.
  rewrite i32_small by (cint; lia). cbn [Z.add].
  pose proof (directory_read_loop_spec n img d bs (offset + 1) 1) as Hloop.
  replace (offset + 1 - 1) with offset in Hloop by lia. unfold FILENAME_LEN in Hloop.
  rewrite Hloop; [|done|lia|lia|done|lia].
  by replace (zlen (b :: bs)) with (1 + zlen bs) by (cbn [List.length]; lia).
Qed.
End reads.

Lemma write_bytes_record bs out :
  write_bytes record (zlen out) bs out = Some ((), out ++ bs).
Proof.
  revert out. induction bs as [|b bs IH]; intros out; cbn [write_bytes]; [by rewrite app_nil_r|].
  assert (record (zlen out) b out = Some ((), out ++ [b])) as Hr
    by (unfold record; by rewrite Z.eqb_refl).
  rewrite (bind_run _ _ _ _ _ Hr).
  replace (zlen out + 1) with (zlen (out ++ [b])) by (rewrite length_app; cbn; lia).
  rewrite IH. by rewrite <- app_assoc.
Qed.

Lemma take_drop_step {A} (l : list A) off n m :
  take (n + m) (drop off l) = take n (drop off l) ++ take m (drop (off + length (take n (drop off l))) l).
Proof.
  rewrite <- (take_take_drop (drop off l) n m). f_equal. rewrite drop_drop.
  rewrite length_take, length_drop. destruct (decide (n ≤ length l - off)%nat).
  - by rewrite Nat.min_l by lia.
  - rewrite !drop_ge by lia. done.
Qed.

Lemma get_bytes_spec img a n bs :
  0 ≤ a → get_bytes img a n = Some bs →
  zlen bs = Z.max 0 n ∧ ∀ k b, bs !! k = Some b → aget img (a + Z.of_nat k) = Some b.
Proof.
  intros Ha. unfold get_bytes. destruct (Z.leb_spec 0 a), (Z.leb_spec (a + n) (zlen img)); try done.
  intros [= <-]. split.
  - rewrite length_take, length_drop. lia.
  - intros k b [Hk _]%lookup_take_Some. rewrite lookup_drop in Hk.
    rewrite aget_nonneg by lia. rewrite <- Hk. f_equal. lia.
Qed.

Lemma dentry_match img i fname :
  Forall is_u8 img → 0 ≤ i → direntry_addr i + 32 ≤ zlen img →
  Forall is_u8 fname → terminated fname → (length (cstr fname) ≤ 32)%nat →
  ∃ r, strncmp (drop (Z.to_nat (direntry_addr i)) img) fname FILENAME_LEN = Some r ∧
    (r = 0 ↔ dentry_name img i = cstr fname).
Proof.
  intros Himg Hi Hlen Hf Ht Hl. unfold direntry_addr in *.
  set (s1 := drop _ img).
  assert (32 ≤ length s1)%nat by (subst s1; rewrite length_drop; lia).
  assert (Hu8 : Forall is_u8 (take 32 s1 ++ [0])).
  { apply Forall_app. split; [by apply Forall_take, Forall_drop|]. repeat constructor; cint; lia. }
  unfold strncmp. change (Z.to_nat FILENAME_LEN) with 32%nat.
  rewrite strncmp_loop_take by done.
  assert (terminated (take 32 s1 ++ [0])) as Ht1 by (unfold terminated; set_solver).
  pose proof (strncmp_cstr _ _ 32 Hu8 Hf Ht1 Ht) as Hcmp. unfold strncmp in Hcmp.
  change (Z.to_nat 32) with 32%nat in Hcmp. eexists. split; [exact Hcmp|].
  rewrite compare_zero by auto using forall_cstr, cstr_no_nul.
  unfold dentry_name, direntry_addr. fold s1.
  rewrite (take_ge (cstr fname)) by done. rewrite take_ge; [done|].
  apply cstr_length in Ht1. rewrite length_app, length_take in Ht1. cbn [length] in Ht1. lia.
Qed.

Lemma copy_dentry_Some img i d :
  0 ≤ i → direntry_addr i + 40 ≤ zlen img → is_Some (copy_dentry img i d).
Proof.
  intros Hi Hlen. unfold copy_dentry, get_bytes, FILENAME_LEN, direntry_addr in *.
  destruct (Z.leb_spec 0 (64 + 64 * i)), (Z.leb_spec (64 + 64 * i + 32) (zlen img)); try lia. cbn.
  assert (H32 : ∀ a, 0 ≤ a → a + 4 ≤ zlen img → is_Some (get32 img a)).
  { intros a Ha Hal. unfold get32.
    repeat match goal with |- context [aget img ?b] =>
      destruct (aget img b) eqn:E; cbn; [clear E|apply aget_None in E; lia] end. eauto. }
  destruct (H32 (64 + 64 * i + 32) ltac:(lia) ltac:(lia)) as [? ->].
  destruct (H32 (64 + 64 * i + 36) ltac:(lia) ltac:(lia)) as [? ->]. cbn. eauto.
Qed.

Lemma read_dentry_by_name_run img fname d :
  Forall is_u8 img → 8192 ≤ zlen img → Forall is_u8 fname → terminated fname →
  ∃ ret d', read_dentry_by_name img (Some fname) (Some d) = Some (ret, Some d') ∧
    match list_find (λ i, (length (cstr fname) ≤ 32)%nat ∧ dentry_name img i = cstr fname) (seqZ 0 64) with
    | Some (_, i) => ret = 0 ∧ copy_dentry img i d = Some d'
    | None => ret = -1 ∧ d' = d
    end.
Proof.
  intros Himg Hsize Hf Ht. unfold read_dentry_by_name. cbn [mbind option_bind].
  rewrite strlen_cstr by done. cbn [mbind option_bind]. rewrite Z.gtb_ltb.
  destruct (Z.ltb_spec FILENAME_LEN (zlen (cstr fname))) as [Hlong|Hshort]; unfold FILENAME_LEN in *.
  { exists (-1), d. split; [done|]. destruct (list_find _ _) as [[j i]|] eqn:E; [|done].
    apply list_find_Some in E as (_&[? _]&_). lia. }
  change (Z.to_nat DENTRY_SIZE) with 64%nat. change (seqZ 0 64) with (seqZ 0 (Z.of_nat 64)).
  assert (∀ n i, 0 ≤ i → i + Z.of_nat n ≤ 64 → ∃ ret d',
    read_dentry_by_name_loop n i img fname d = Some (ret, Some d') ∧
    match list_find (λ i, (length (cstr fname) ≤ 32)%nat ∧ dentry_name img i = cstr fname) (seqZ i (Z.of_nat n)) with
    | Some (_, i) => ret = 0 ∧ copy_dentry img i d = Some d'
    | None => ret = -1 ∧ d' = d
    end) as Hgen; [|apply Hgen; lia].
  induction n as [|n IH]; intros i Hi Hn; cbn [read_dentry_by_name_loop].
  { exists (-1), d. done. }
  rewrite seqZ_cons by lia. replace (Z.pred (Z.of_nat (S n))) with (Z.of_nat n) by lia.
  replace (Z.succ i) with (i + 1) by lia. cbn [list_find].
  destruct (dentry_match img i fname) as (r&Hr&Hr0); try done; try (unfold direntry_addr; lia).
  unfold FILENAME_LEN in *. rewrite Hr. cbn [mbind option_bind].
  destruct (Z.eqb_spec r 0) as [->|Hne].
  - rewrite decide_True by (split; [lia|by apply Hr0]).
    destruct (copy_dentry_Some img i d) as [d' Hd']; [lia|unfold direntry_addr; lia|].
    rewrite Hd'. exists 0, d'. done.
  - rewrite decide_False by (intros [_ ?%Hr0]; done).
    destruct (IH (i + 1) ltac:(lia) ltac:(lia)) as (ret&d'&Hrun&Hspec).
    exists ret, d'. split; [done|]. by destruct (list_find _ _) as [[j k]|].
Qed.

(** ** Correctness *)


Lemma example_file : file_has example_image 0 0 [104; 105; 10; 0].
Proof.
  intros k b. do 4 (destruct k as [|k]; [intros [= <-]; vm_compute; reflexivity|]). discriminate.
Qed.


(** Reading a file piece by piece, whatever the sizes of the reads, gives
    one after the other the bytes of a single long read: nothing is skipped and
    nothing is repeated, and the reads never block or fail. *)
Lemma read_chunks_concat img inode n L full sizes :
  inode_count img = Some n → 0 ≤ inode ≤ u32 n → file_length img inode = Some L →
  L < 2147483647 → file_has img inode 0 full → zlen full = L + 1 →
  Forall (λ k, 0 ≤ k < 2147483648) sizes →
  ∃ outs, read_chunks img inode 0 sizes = Some outs ∧
    mjoin outs = take (Z.to_nat (foldr Z.add 0 sizes)) full.
Proof.
  intros Hn Hi HL HLr Hfull Hlen Hsz.
  assert (∀ off, (off ≤ length full)%nat → ∃ outs,
    read_chunks img inode (Z.of_nat off) sizes = Some outs ∧
    mjoin outs = take (Z.to_nat (foldr Z.add 0 sizes)) (drop off full)) as Hgen; [|by apply (Hgen 0%nat); lia].
  induction Hsz as [|k sizes Hk Hsz IH]; intros off Hoff; cbn [read_chunks].
  { exists []. done. }
  set (bs := take (Z.to_nat k) (drop off full)).
  assert (zlen bs = Z.min k (Z.max 0 (L + 1 - Z.of_nat off))) as Hbs
    by (subst bs; rewrite length_take, length_drop; lia).
  rewrite (read_data_writes record img inode L n bs); try done; try lia.
  2: { apply file_has_take. by apply file_has_drop. }
  rewrite (bind_run _ _ _ _ _ (write_bytes_record bs [])). cbn [mret M_ret mbind option_bind].
  assert (off + length bs ≤ length full)%nat as Hoff' by (subst bs; rewrite length_take, length_drop; lia).
  destruct (IH (off + length bs)%nat Hoff') as (outs&Houts&Hjoin).
  rewrite <- Nat2Z.inj_add, Houts. cbn. eexists. split; [done|].
  change (mjoin (bs :: outs)) with (bs ++ mjoin outs). rewrite Hjoin. cbn [foldr].
  assert (0 ≤ foldr Z.add 0 sizes) by (clear -Hsz; induction Hsz; cbn; lia).
  rewrite Z2Nat.inj_add by lia. by rewrite take_drop_step.
Qed.

Lemma read_chunks_concat_witness :
  ∃ outs, read_chunks example_image 0 0 [2; 1; 7] = Some outs ∧ mjoin outs = [104; 105; 10; 0].
Proof.
  apply (read_chunks_concat example_image 0 1 3 [104; 105; 10; 0] [2; 1; 7]).
  - vm_compute. reflexivity.
  - vm_compute. split; discriminate.
  - vm_compute. reflexivity.
  - lia.
  - apply example_file.
  - reflexivity.
  - repeat constructor; lia.
Defined.

(** A client that reads the directory 32 bytes at a time, the offset
    advancing by the return value, sees every file name of the boot block once,
    in order, and then end of file. *)
Lemma directory_listing img inode names :
  dir_count img = Some (zlen names) → zlen names ≤ 63 →
  (∀ i name, names !! i = Some name →
     get_bytes img (direntry_addr (Z.of_nat i)) FILENAME_LEN = Some name) →
  list_directory (S (length names)) img inode 0 = Some names.
Proof.
  intros Hd Hmax Hnames.
  assert (∀ rest done_, names = done_ ++ rest →
    list_directory (S (length rest)) img inode (FILENAME_LEN * zlen done_) = Some rest) as Hgen;
    [|by apply (Hgen names [])].
  induction rest as [|name rest IH]; intros done_ Heq.
  - rewrite app_nil_r in Heq. subst done_. cbn [list_directory].
    rewrite (directory_read_writes record img inode (zlen names) []); try done;
      unfold FILENAME_LEN in *; try lia.
    by rewrite Z.ltb_irrefl.
  - assert (names !! length done_ = Some name) as Hk by (subst; by apply list_lookup_middle).
    specialize (Hnames _ _ Hk). assert (zlen done_ < zlen names)
      by (subst; rewrite length_app; cbn [length]; lia).
    apply get_bytes_spec in Hnames as [Hl Hb]; [|unfold direntry_addr; lia].
    change (zlen name = 32) in Hl.
    change (length (name :: rest)) with (S (length rest)). set (m := S (length rest)) in *.
    cbn [list_directory]. rewrite (directory_read_writes record img inode (zlen names) name);
      try done; unfold FILENAME_LEN in *; try lia.
    + change 0 with (zlen (@nil Z)). rewrite (bind_run _ _ _ _ _ (write_bytes_record name [])).
      cbn [mret M_ret mbind option_bind app]. rewrite Hl. change (32 =? zlen (@nil Z)) with false.
      replace (32 * zlen done_ + 32) with (32 * zlen (done_ ++ [name]))
        by (rewrite length_app; cbn [length]; lia).
      rewrite IH by (subst; by rewrite <- app_assoc). done.
    + intros k b Hkb. pose proof (lookup_lt_Some _ _ _ Hkb). unfold dir_byte, FILENAME_LEN.
      rewrite <- (Hb k b Hkb). f_equal.
      replace (32 * zlen done_ + Z.of_nat k) with (Z.of_nat k + zlen done_ * 32) by lia.
      rewrite Z.div_add, Z.mod_add, Z.div_small, Z.mod_small by lia. done.
    + destruct (Z.ltb_spec (32 * zlen done_) (32 * zlen names)); lia.
Qed.

Lemma directory_listing_witness :
  list_directory 3 example_image 0 0 = Some [pad 32 [46]; pad 32 [97; 98]].
Proof.
  apply (directory_listing example_image 0 [pad 32 [46]; pad 32 [97; 98]]);
    [vm_compute; reflexivity|vm_compute; discriminate|].
  intros i name. do 2 (destruct i as [|i]; [intros [= <-]; vm_compute; reflexivity|]). discriminate.
Defined.

(** [read_dentry_by_name] finds the first of the 64 entries it scans whose
    (NUL-padded, at most 32-character) name is the given string and copies that
    entry; a name of more than 32 characters, or one no entry has, gives -1 and
    leaves the caller's dentry alone. *)
Lemma read_dentry_by_name_first img fname d :
  Forall is_u8 img → 8192 ≤ zlen img → Forall is_u8 fname → terminated fname →
  ∃ ret d', read_dentry_by_name img (Some fname) (Some d) = Some (ret, Some d') ∧
    match list_find (λ i, (length (cstr fname) ≤ 32)%nat ∧ dentry_name img i = cstr fname) (seqZ 0 64) with
    | Some (_, i) => ret = 0 ∧ copy_dentry img i d = Some d'
    | None => ret = -1 ∧ d' = d
    end.
Proof. apply read_dentry_by_name_run. Qed.

Lemma read_dentry_by_name_first_witness :
  ∃ ret d', read_dentry_by_name example_image (Some [97; 98; 0]) (Some (mk_dentry [] 7 7))
    = Some (ret, Some d') ∧ ret = 0 ∧ d' = mk_dentry (pad 32 [97; 98]) 2 0.
Proof.
  destruct (read_dentry_by_name_first example_image [97; 98; 0] (mk_dentry [] 7 7))
    as (ret&d'&Hrun&Hspec).
  - apply (bool_decide_unpack _). vm_compute. exact I.
  - vm_compute. discriminate.
  - apply (bool_decide_unpack _). vm_compute. exact I.
  - unfold terminated. set_solver.
  - exists ret, d'. split; [exact Hrun|]. vm_compute in Hspec. destruct Hspec as [-> [= <-]].
    vm_compute. split; reflexivity.
Defined.
