(* ===== verification/KState.v ===== *)
(** * KState: the state of the kernel of [mp3/student-distrib]

    One record per component, gathered in [kstate]; the registers and ports
    of the processor, and the memory behind the page tables.  Every kernel
    operation of the later files is a computation [K A := M kstate A], where
    [None] is a page fault or an access outside an object.

    What the C files keep in arrays and structs is kept as such.  The three
    paging arrays are lists of 32-bit entries; PCBs, which the code puts at the
    bottom of each kernel stack, are a list indexed by that slot. *)
From S2P Require Import Prelude LibMem.

(** ** Processor and ports *)
Inductive io_event := Out (port data : Z) | In (port data : Z).

Record cpu_t := mk_cpu {
  if_flag : bool;                          (* EFLAGS.IF *)
  cr0 : Z; cr3 : Z; cr4 : Z;
  esp : Z; ebp : Z;
  tss_ss0 : Z; tss_esp0 : Z;
  io_log : list io_event;                  (* port accesses, oldest first *)
  hw : list io_event → Z → Z;              (* the devices: what a read of a port
                                              returns after these accesses *)
}.
#[export] Instance cpu_settable : Settable cpu_t := λ c,
  mk_cpu (if_flag c) (cr0 c) (cr3 c) (cr4 c) (esp c) (ebp c) (tss_ss0 c) (tss_esp0 c) (io_log c) (hw c).

(** ** Memory: physical bytes, and the arrays of [paging.c] at their addresses *)
Record mem_t := mk_mem {
  phys : gmap Z Z;
  page_dir : list Z;
  page_table : list Z;
  page_virtual_mem : list Z;
  page_dir_addr : Z;
  page_table_addr : Z;
  page_virtual_mem_addr : Z;
}.
#[export] Instance mem_settable : Settable mem_t := λ m,
  mk_mem (phys m) (page_dir m) (page_table m) (page_virtual_mem m)
    (page_dir_addr m) (page_table_addr m) (page_virtual_mem_addr m).

(** ** Terminals ([scheduler.h], [lib.c]) *)
Record terminal_t := mk_terminal {
  t_screen_x : Z;          (* uint8_t *)
  t_screen_y : Z;
  keyBuf : list Z;         (* uint8_t[127] *)
  visible : Z;
  vid_mem_addr : Z;        (* uint32_t *)
  newline_tracker : Z;     (* int8_t *)
  enterFlag : Z;           (* int8_t *)
}.
#[export] Instance terminal_settable : Settable terminal_t := λ t,
  mk_terminal (t_screen_x t) (t_screen_y t) (keyBuf t) (visible t) (vid_mem_addr t)
    (newline_tracker t) (enterFlag t).

Record screen_t := mk_screen {
  screen_x : Z; screen_y : Z;             (* static int in lib.c *)
  video_mem : Z;                          (* char* *)
  scrollFlag : Z;
  term_arr : list terminal_t;
  curr_terminal : Z;
}.
#[export] Instance screen_settable : Settable screen_t := λ s,
  mk_screen (screen_x s) (screen_y s) (video_mem s) (scrollFlag s) (term_arr s) (curr_terminal s).

(** ** Keyboard ([keyboard.c]) *)
Record kbd_t := mk_kbd {
  mode : Z; ctrlPressed : Z; altPressed : Z;
  keyBuffer : list Z;                     (* char[127] *)
  keyBufferIndex : Z;
}.
#[export] Instance kbd_settable : Settable kbd_t := λ k,
  mk_kbd (mode k) (ctrlPressed k) (altPressed k) (keyBuffer k) (keyBufferIndex k).

(** ** Real-time clock ([rtc.c]) *)
Record rtc_t := mk_rtc { rtc_tick : Z; rtc_status : Z }.
#[export] Instance rtc_settable : Settable rtc_t := λ r, mk_rtc (rtc_tick r) (rtc_status r).

(** ** Processes ([syscall.c], [scheduler.c]) *)

(** The four operation tables of [syscall.c]; a zeroed descriptor has none. *)
Inductive fops := NoOps | FsOps | DirOps | TermOps | RtcOps.
#[export] Instance fops_eq_dec : EqDecision fops.
Proof. solve_decision. Defined.

Record fdesc := mk_fdesc {
  operations_pointer : fops;
  inode : Z; file_position : Z; flags : Z;    (* uint32_t *)
}.
#[export] Instance fdesc_settable : Settable fdesc := λ f,
  mk_fdesc (operations_pointer f) (inode f) (file_position f) (flags f).

Record pcb_t := mk_pcb {
  pcb_arr : list fdesc;                       (* 8 descriptors *)
  pid : Z; parent_pid : Z;                    (* uint8_t *)
  p_esp : Z; kesp : Z; p_ebp : Z; ss0 : Z; esp0 : Z;
  argbuf : list Z;                            (* uint8_t[128] *)
  argsflag : Z;
  parent_pcb : Z;                             (* pcb_t* *)
  rtc_flag : Z;
}.
#[export] Instance pcb_settable : Settable pcb_t := λ p,
  mk_pcb (pcb_arr p) (pid p) (parent_pid p) (p_esp p) (kesp p) (p_ebp p) (ss0 p) (esp0 p)
    (argbuf p) (argsflag p) (parent_pcb p) (rtc_flag p).

Record proc_t := mk_proc {
  program_count : Z;                          (* uint8_t *)
  args_flag : Z;
  pid_arr : list Z;                           (* uint8_t[6] *)
  pcbs : list pcb_t;                          (* the PCB of kernel stack 1, 2, ... *)
  pcb_current : Z;                            (* pcb_t* *)
  sched_pid : list Z;                         (* uint8_t[3] *)
  curr_process : Z;                           (* uint8_t *)
}.
#[export] Instance proc_settable : Settable proc_t := λ p,
  mk_proc (program_count p) (args_flag p) (pid_arr p) (pcbs p) (pcb_current p) (sched_pid p)
    (curr_process p).

(** ** The kernel *)
Record pic_t := mk_pic { master_mask : Z; slave_mask : Z }.
#[export] Instance pic_settable : Settable pic_t := λ p, mk_pic (master_mask p) (slave_mask p).

Record kstate := mk_kstate {
  cpu : cpu_t;
  mem : mem_t;
  scr : screen_t;
  kbd : kbd_t;
  rtc : rtc_t;
  proc : proc_t;
  pic : pic_t;
  fs_image : list Z;                          (* the mounted file-system image *)
}.
#[export] Instance kstate_settable : Settable kstate := λ s,
  mk_kstate (cpu s) (mem s) (scr s) (kbd s) (rtc s) (proc s) (pic s) (fs_image s).

Abbreviation K := (M kstate).

(** ** Processor instructions *)
Definition cli : K () := modify (λ s, s <| cpu ::= λ c, c <| if_flag := false |> |>).
Definition sti : K () := modify (λ s, s <| cpu ::= λ c, c <| if_flag := true |> |>).
Definition outb (data port : Z) : K () :=
  modify (λ s, s <| cpu ::= λ c, c <| io_log ::= λ l, l ++ [Out port (u8 data)] |> |>).
Definition inb (port : Z) : K Z := λ s,
  let v := u8 (hw (cpu s) (io_log (cpu s)) port) in
  Some (v, s <| cpu ::= λ c, c <| io_log ::= λ l, l ++ [In port v] |> |>).

(** ** Bit fields of the page-table entries ([paging.h]) *)
Definition get_bits (hex lo w : Z) : Z := Z.land (Z.shiftr hex lo) (Z.ones w).
Definition set_bits (lo w v hex : Z) : Z :=
  Z.lor (Z.land hex (Z.lnot (Z.shiftl (Z.ones w) lo))) (Z.shiftl (Z.land v (Z.ones w)) lo).

Definition present (e : Z) : Z := get_bits e 0 1.
Definition read_write (e : Z) : Z := get_bits e 1 1.
Definition user (e : Z) : Z := get_bits e 2 1.
Definition ps (e : Z) : Z := get_bits e 7 1.
Definition base_addr_pte (e : Z) : Z := get_bits e 12 20.
Definition base_addr_entry (e : Z) : Z := get_bits e 22 10.

(** ** Address translation: the two-level walk of the processor

    [user] accesses need the user bit at both levels.  A directory entry that
    points to a table other than the two of [paging.c] is not modelled. *)
Definition table_at (m : mem_t) (frame : Z) : option (list Z) :=
  if frame =? page_table_addr m / 4096 then Some (page_table m)
  else if frame =? page_virtual_mem_addr m / 4096 then Some (page_virtual_mem m)
  else None.

Definition walk (m : mem_t) (pse : bool) (usr : bool) (v : Z) : option Z :=
  pde ← aget (page_dir m) (v / 4194304);
  if (present pde =? 0) || (usr && (user pde =? 0)) then None
  else if pse && (ps pde =? 1) then Some (base_addr_entry pde * 4194304 + v mod 4194304)
  else
    t ← table_at m (base_addr_pte pde);
    pte ← aget t (v / 4096 mod 1024);
    if (present pte =? 0) || (usr && (user pte =? 0)) then None
    else Some (base_addr_pte pte * 4096 + v mod 4096).

Definition paging_on (s : kstate) : bool := Z.testbit (cr0 (cpu s)) 31.
Definition pse_on (s : kstate) : bool := Z.testbit (cr4 (cpu s)) 4.

Definition translate_as (usr : bool) (s : kstate) (v : Z) : option Z :=
  if (0 <=? v) && (v <? 4294967296) then
    if paging_on s then
      if cr3 (cpu s) =? page_dir_addr (mem s) then walk (mem s) (pse_on s) usr v else None
    else Some v
  else None.

#[export] Instance kstate_mem : ByteMem kstate := {|
  translate := translate_as false;
  contents s p := u8 (default 0 (phys (mem s) !! p));
  update p b s := s <| mem ::= λ m, m <| phys ::= <[p := b]> |> |>;
|}.

#[export] Instance kstate_mem_lawful : LawfulMem kstate.
Proof.
  split; [done| |intros; cbn; auto with ece]. intros p b s q. cbn. case_decide; subst.
  - by rewrite lookup_insert_eq.
  - by rewrite lookup_insert_ne.
Qed.

(** ** Access to the parts of the state *)
Definition get_term (i : Z) : K terminal_t := t ← gets (λ s, aget (term_arr (scr s)) i); lift t.
Definition set_term (i : Z) (f : terminal_t → terminal_t) : K () :=
  arr ← gets (λ s, term_arr (scr s));
  t ← lift (aget arr i);
  arr ← lift (aset arr i (f t));
  modify (λ s, s <| scr ::= λ c, c <| term_arr := arr |> |>).
Definition set_scr (f : screen_t → screen_t) : K () := modify (λ s, s <| scr ::= f |>).
Definition set_kbd (f : kbd_t → kbd_t) : K () := modify (λ s, s <| kbd ::= f |>).
Definition set_proc (f : proc_t → proc_t) : K () := modify (λ s, s <| proc ::= f |>).
Definition set_cpu (f : cpu_t → cpu_t) : K () := modify (λ s, s <| cpu ::= f |>).
Definition set_rtc (f : rtc_t → rtc_t) : K () := modify (λ s, s <| rtc ::= f |>).
Definition set_pic (f : pic_t → pic_t) : K () := modify (λ s, s <| pic ::= f |>).

(** ** A state for examples: everything zero, as the C data segment is at boot,
    the paging arrays in the kernel page, and devices that read as 0 *)
Definition zero_terminal : terminal_t := mk_terminal 0 0 (replicate 127 0) 0 0 0 0.
Definition zero_fdesc : fdesc := mk_fdesc NoOps 0 0 0.
Definition zero_pcb : pcb_t :=
  mk_pcb (replicate 8 zero_fdesc) 0 0 0 0 0 0 0 (replicate 128 0) 0 0 0.
Definition boot_state (img : list Z) : kstate := mk_kstate
  (mk_cpu false 1 0 0 8388604 8388604 0 0 [] (λ _ _, 0))
  (mk_mem ∅ (replicate 1024 0) (replicate 1024 0) (replicate 1024 0) 4259840 4263936 4268032)
  (mk_screen 0 0 753664 0 (replicate 3 zero_terminal) 0)
  (mk_kbd 0 0 0 (replicate 127 0) 0)
  (mk_rtc 0 0)
  (mk_proc 0 0 (replicate 6 0) (replicate 6 zero_pcb) 0 (replicate 3 0) 0)
  (mk_pic 0 0)
  img.

(** Translation is linear within a 4 KB page. *)
Lemma walk_linear m pse usr v o p :
  0 ≤ v mod 4096 + o < 4096 → 0 ≤ v → walk m pse usr v = Some p → walk m pse usr (v + o) = Some (p + o).
Proof.
  intros Ho Hv. unfold walk.
  assert ((v + o) / 4194304 = v / 4194304 ∧ (v + o) mod 4194304 = v mod 4194304 + o ∧
    (v + o) / 4096 = v / 4096 ∧ (v + o) mod 4096 = v mod 4096 + o) as (->&->&->&->)
    by (Z.div_mod_to_equations; lia).
  intros H. apply bind_Some in H as (pde&Hpde&H). rewrite Hpde. cbn [mbind option_bind].
  destruct (_ || _); [done|]. destruct (_ && _); [by simplify_eq; rewrite Z.add_assoc|].
  apply bind_Some in H as (t&Ht&H). rewrite Ht. cbn [mbind option_bind].
  apply bind_Some in H as (pte&Hpte&H). rewrite Hpte. cbn [mbind option_bind].
  destruct (_ || _); [done|]. simplify_eq. by rewrite Z.add_assoc.
Qed.

Lemma translate_linear usr s v o p :
  0 ≤ v mod 4096 + o < 4096 → translate_as usr s v = Some p → translate_as usr s (v + o) = Some (p + o).
Proof.
  intros Ho. unfold translate_as.
  destruct (Z.leb_spec 0 v), (Z.ltb_spec v 4294967296); cbn [andb]; try done.
  assert (0 ≤ v + o < 4294967296) by (Z.div_mod_to_equations; lia).
  destruct (Z.leb_spec 0 (v + o)), (Z.ltb_spec (v + o) 4294967296); try lia. cbn [andb].
  destruct (paging_on s); [|intros; by simplify_eq].
  destruct (_ =? _); [|done]. by apply walk_linear.
Qed.
