(* ===== verification/Paging.v ===== *)
(** * Paging: [paging.c] and the page-table updates of the system calls

    Bit-field assignments act on the 32-bit entry ([KState.set_bits]); the
    address spaces they build are described through the processor's walk
    ([KState.walk]). *)
From S2P Require Import Prelude LibMem KState.

Definition PAGING_SIZE : Z := 1024.
Definition KERNEL_MEM : Z := 4194304.        (* 0x400000 *)
Definition VIDEO_MEM : Z := 753664.          (* 0xB8000 *)
Definition VIRUTAL_MEM : Z := Z.land VIDEO_MEM 4190208.   (* & 0x3FF000 *)
Definition bottomKernal : Z := 8388608.      (* 0x800000 *)
Definition pageSize : Z := 4194304.
Definition pageDirIndex : Z := 32.
Definition GB_idx : Z := 256.

(** Assigning a field of an entry; both unions of [pde_t] and [pte_t]. *)
Definition set_present (v : Z) : Z → Z := set_bits 0 1 v.
Definition set_read_write (v : Z) : Z → Z := set_bits 1 1 v.
Definition set_user (v : Z) : Z → Z := set_bits 2 1 v.
Definition set_ps (v : Z) : Z → Z := set_bits 7 1 v.
Definition set_base_addr_pte (v : Z) : Z → Z := set_bits 12 20 v.
Definition set_base_addr_entry (v : Z) : Z → Z := set_bits 22 10 v.

Definition set_pde (i : Z) (f : Z → Z) : K () :=
  d ← gets (λ s, page_dir (mem s));
  e ← lift (aget d i); d ← lift (aset d i (f e));
  modify (λ s, s <| mem ::= λ m, m <| page_dir := d |> |>).
Definition set_pte (i : Z) (f : Z → Z) : K () :=
  d ← gets (λ s, page_table (mem s));
  e ← lift (aget d i); d ← lift (aset d i (f e));
  modify (λ s, s <| mem ::= λ m, m <| page_table := d |> |>).
Definition set_vmem (i : Z) (f : Z → Z) : K () :=
  d ← gets (λ s, page_virtual_mem (mem s));
  e ← lift (aget d i); d ← lift (aset d i (f e));
  modify (λ s, s <| mem ::= λ m, m <| page_virtual_mem := d |> |>).

(** [load_pde]: CR3, CR4.PSE and CR0.PG. *)
Definition load_pde (page_dir : Z) : K () :=
  set_cpu (λ c, c <| cr3 := page_dir |>
                  <| cr4 ::= λ x, Z.lor x 16 |>
                  <| cr0 ::= λ x, Z.lor x 2147483648 |>).
(** Reloading CR3 changes no register; the walk always reads the tables. *)
Definition flush_tlb : K () := set_cpu (λ c, c <| cr3 := cr3 c |>).

Definition paging_initialize : K () :=
  for_n (Z.to_nat PAGING_SIZE) 0 (λ i, set_pde i (λ _, 0);; set_pte i (λ _, 0));;
  table ← gets (λ s, page_table_addr (mem s));
  set_pde 0 (set_base_addr_pte (Z.shiftr table 12));;
  set_pde 0 (set_read_write 1);;
  set_pde 0 (set_present 1);;
  set_pde 0 (set_user 1);;
  set_pde 0 (set_ps 0);;
  set_pde 1 (set_base_addr_entry (Z.shiftr KERNEL_MEM 22));;
  set_pde 1 (set_read_write 1);;
  set_pde 1 (set_present 1);;
  set_pde 1 (set_ps 1);;
  set_pte (Z.shiftr VIRUTAL_MEM 12) (set_base_addr_pte (Z.shiftr VIDEO_MEM 12));;
  set_pte (Z.shiftr VIRUTAL_MEM 12) (set_read_write 1);;
  set_pte (Z.shiftr VIRUTAL_MEM 12) (set_present 1);;
  set_pte (Z.shiftr VIRUTAL_MEM 12) (set_user 1);;
  dir ← gets (λ s, page_dir_addr (mem s));
  load_pde dir.

(** The sequence with which [halt_handler], [execute_handler] and [scheduler]
    give the 4 MB page at 128 MB a frame. *)
Definition map_user_page (phys : Z) : K () :=
  set_pde pageDirIndex (λ _, 0);;
  set_pde pageDirIndex (set_base_addr_entry (Z.shiftr phys 22));;
  set_pde pageDirIndex (set_present 1);;
  set_pde pageDirIndex (set_read_write 1);;
  set_pde pageDirIndex (set_ps 1);;
  set_pde pageDirIndex (set_user 1);;
  dir ← gets (λ s, page_dir_addr (mem s));
  load_pde dir;;
  flush_tlb.

(** The mapping part of [vidmap_handler]. *)
Definition map_vidmap : K () :=
  vm ← gets (λ s, page_virtual_mem_addr (mem s));
  set_pde GB_idx (set_base_addr_pte (Z.shiftr vm 12));;
  set_pde GB_idx (set_read_write 1);;
  set_pde GB_idx (set_present 1);;
  set_pde GB_idx (set_user 1);;
  set_pde GB_idx (set_ps 0);;
  set_vmem 0 (set_base_addr_pte (Z.shiftr VIDEO_MEM 12));;
  set_vmem 0 (set_read_write 1);;
  set_vmem 0 (set_user 1);;
  set_vmem 0 (set_present 1);;
  flush_tlb.

(** ** Bit-field lemmas *)
Lemma get_set_bits lo w v hex :
  0 ≤ lo → 0 ≤ w → get_bits (set_bits lo w v hex) lo w = v mod 2 ^ w.
Proof.
  intros. unfold get_bits, set_bits. rewrite <- Z.land_ones by done.
  apply Z.bits_inj'. intros k Hk. rewrite !Z.land_spec, Z.shiftr_spec, Z.lor_spec by done.
  rewrite Z.land_spec, Z.lnot_spec, !Z.shiftl_spec by lia.
  replace (k + lo - lo) with k by lia. rewrite Z.land_spec.
  destruct (Z.testbit (Z.ones w) k) eqn:E;
    by destruct (Z.testbit hex (k + lo)), (Z.testbit v k).
Qed.

Lemma get_set_bits_ne lo w v hex lo' w' :
  0 ≤ lo → 0 ≤ w → 0 ≤ lo' → 0 ≤ w' → lo + w ≤ lo' ∨ lo' + w' ≤ lo →
  get_bits (set_bits lo w v hex) lo' w' = get_bits hex lo' w'.
Proof.
  intros Hlo Hw Hlo' Hw' Hd. unfold get_bits, set_bits.
  apply Z.bits_inj'. intros k Hk. rewrite !Z.land_spec, !Z.shiftr_spec, Z.lor_spec by done.
  rewrite Z.land_spec, Z.lnot_spec, !Z.shiftl_spec by lia. rewrite Z.land_spec.
  destruct (Z.testbit (Z.ones w') k) eqn:E; rewrite ?andb_false_r; [|done]. rewrite !andb_true_r.
  assert (k < w') as Hkw'.
  { destruct (Z.lt_ge_cases k w'); [done|]. rewrite Z.ones_spec_high in E by lia. done. }
  destruct (Z.lt_ge_cases (k + lo') lo) as [Hl|Hl].
  - rewrite !(Z.testbit_neg_r _ (k + lo' - lo)) by lia. cbn. by rewrite andb_true_r, orb_false_r.
  - rewrite Z.ones_spec_high by lia. rewrite andb_false_r, andb_true_r. cbn. by rewrite orb_false_r.
Qed.

Lemma get_bits_0 lo w : get_bits 0 lo w = 0.
Proof. unfold get_bits. by rewrite Z.shiftr_0_l, Z.land_0_l. Qed.

(** ** Running the table updates *)
Abbreviation with_page_dir d s := (s <| mem ::= λ m, m <| page_dir := d |> |>).
Abbreviation with_page_table d s := (s <| mem ::= λ m, m <| page_table := d |> |>).
Abbreviation with_page_virtual_mem d s := (s <| mem ::= λ m, m <| page_virtual_mem := d |> |>).

Lemma set_pde_fault i f s : aget (page_dir (mem s)) i = None → set_pde i f s = None.
Proof. intros He. unfold set_pde. by rewrite bind_gets, bind_lift_None. Qed.
Lemma set_pde_run i f s e :
  aget (page_dir (mem s)) i = Some e →
  set_pde i f s = Some ((), with_page_dir (<[Z.to_nat i := f e]> (page_dir (mem s))) s).
Proof.
  intros He. unfold set_pde. rewrite bind_gets, (bind_lift _ _ _ _ He).
  by rewrite (bind_lift _ _ _ _ (aset_in _ i (f e) (aget_Some_range _ _ _ He))).
Qed.
Lemma set_pte_fault i f s : aget (page_table (mem s)) i = None → set_pte i f s = None.
Proof. intros He. unfold set_pte. by rewrite bind_gets, bind_lift_None. Qed.
Lemma set_pte_run i f s e :
  aget (page_table (mem s)) i = Some e →
  set_pte i f s = Some ((), with_page_table (<[Z.to_nat i := f e]> (page_table (mem s))) s).
Proof.
  intros He. unfold set_pte. rewrite bind_gets, (bind_lift _ _ _ _ He).
  by rewrite (bind_lift _ _ _ _ (aset_in _ i (f e) (aget_Some_range _ _ _ He))).
Qed.
Lemma set_vmem_fault i f s : aget (page_virtual_mem (mem s)) i = None → set_vmem i f s = None.
Proof. intros He. unfold set_vmem. by rewrite bind_gets, bind_lift_None. Qed.
Lemma set_vmem_run i f s e :
  aget (page_virtual_mem (mem s)) i = Some e →
  set_vmem i f s = Some ((), with_page_virtual_mem (<[Z.to_nat i := f e]> (page_virtual_mem (mem s))) s).
Proof.
  intros He. unfold set_vmem. rewrite bind_gets, (bind_lift _ _ _ _ He).
  by rewrite (bind_lift _ _ _ _ (aset_in _ i (f e) (aget_Some_range _ _ _ He))).
Qed.

Lemma aget_insert_eq (l : list Z) i v : 0 ≤ i < zlen l → aget (<[Z.to_nat i := v]> l) i = Some v.
Proof. intros Hi. apply (aget_aset_eq l). by apply aset_in. Qed.
Lemma aget_insert_ne (l : list Z) i j v :
  0 ≤ i < zlen l → i ≠ j → aget (<[Z.to_nat i := v]> l) j = aget l j.
Proof. intros Hi. apply (aget_aset_ne l i j v). by apply aset_in. Qed.

Lemma aget_insert_nat_ne (l : list Z) (k : nat) j v :
  Z.of_nat k ≠ j → aget (<[k := v]> l) j = aget l j.
Proof.
  intros. unfold aget. destruct (Z.ltb_spec j 0); [done|]. apply list_lookup_insert_ne. lia.
Qed.
Lemma aget_insert_nat_eq (l : list Z) (k : nat) j v :
  Z.of_nat k = j → (k < length l)%nat → aget (<[k := v]> l) j = Some v.
Proof. intros <- ?. rewrite aget_of_nat. by apply list_lookup_insert_eq. Qed.

(** Successive assignments to fields of one entry are one assignment. *)
Lemma set_pde_fuse {B} i f g (k : () → K B) s :
  (set_pde i f;; set_pde i g ≫= k) s = (set_pde i (λ e, g (f e)) ≫= k) s.
Proof.
  destruct (aget (page_dir (mem s)) i) as [e|] eqn:He.
  - pose proof (aget_Some_range _ _ _ He).
    rewrite (bind_run _ _ _ _ _ (set_pde_run _ _ _ _ He)).
    erewrite bind_run; [|apply set_pde_run; cbn; by apply aget_insert_eq].
    rewrite (bind_run _ _ _ _ _ (set_pde_run _ (λ e, g (f e)) _ _ He)). cbn.
    by rewrite list_insert_insert_eq.
  - by rewrite !bind_None by by apply set_pde_fault.
Qed.
Lemma set_pte_fuse {B} i f g (k : () → K B) s :
  (set_pte i f;; set_pte i g ≫= k) s = (set_pte i (λ e, g (f e)) ≫= k) s.
Proof.
  destruct (aget (page_table (mem s)) i) as [e|] eqn:He.
  - pose proof (aget_Some_range _ _ _ He).
    rewrite (bind_run _ _ _ _ _ (set_pte_run _ _ _ _ He)).
    erewrite bind_run; [|apply set_pte_run; cbn; by apply aget_insert_eq].
    rewrite (bind_run _ _ _ _ _ (set_pte_run _ (λ e, g (f e)) _ _ He)). cbn.
    by rewrite list_insert_insert_eq.
  - by rewrite !bind_None by by apply set_pte_fault.
Qed.
Lemma set_vmem_fuse {B} i f g (k : () → K B) s :
  (set_vmem i f;; set_vmem i g ≫= k) s = (set_vmem i (λ e, g (f e)) ≫= k) s.
Proof.
  destruct (aget (page_virtual_mem (mem s)) i) as [e|] eqn:He.
  - pose proof (aget_Some_range _ _ _ He).
    rewrite (bind_run _ _ _ _ _ (set_vmem_run _ _ _ _ He)).
    erewrite bind_run; [|apply set_vmem_run; cbn; by apply aget_insert_eq].
    rewrite (bind_run _ _ _ _ _ (set_vmem_run _ (λ e, g (f e)) _ _ He)). cbn.
    by rewrite list_insert_insert_eq.
  - by rewrite !bind_None by by apply set_vmem_fault.
Qed.

Lemma set_pte_fuse_end i f g s :
  (set_pte i f;; set_pte i g) s = set_pte i (λ e, g (f e)) s.
Proof.
  assert (∀ (m : K ()) st, (m ≫= mret) st = m st) as Hret
    by (intros m st; unfold mbind, M_bind; by destruct (m st) as [[[] ?]|]).
  transitivity ((set_pte i f;; (set_pte i g ≫= mret)) s).
  - apply bind_cong. intros [] s' _. by rewrite Hret.
  - by rewrite set_pte_fuse, Hret.
Qed.

(** ** Well-formed paging *)
Record paging_wf (s : kstate) : Prop := {
  wf_dir : length (page_dir (mem s)) = 1024%nat;
  wf_table : length (page_table (mem s)) = 1024%nat;
  wf_vmem : length (page_virtual_mem (mem s)) = 1024%nat;
  wf_table_addr : 0 ≤ page_table_addr (mem s) < 4294967296 ∧ page_table_addr (mem s) mod 4096 = 0;
  wf_vmem_addr : 0 ≤ page_virtual_mem_addr (mem s) < 4294967296 ∧ page_virtual_mem_addr (mem s) mod 4096 = 0;
  wf_distinct : page_table_addr (mem s) ≠ page_virtual_mem_addr (mem s);
}.
(** Paging is enabled, with 4 MB pages and [page_dir] in force. *)
Definition paging_enabled (s : kstate) : Prop :=
  paging_on s = true ∧ pse_on s = true ∧ cr3 (cpu s) = page_dir_addr (mem s).

Lemma translate_enabled usr s v :
  paging_enabled s → 0 ≤ v < 4294967296 → translate_as usr s v = walk (mem s) true usr v.
Proof.
  intros (H1&H2&H3) Hv. unfold translate_as. rewrite H1, H2, H3, Z.eqb_refl.
  destruct (Z.leb_spec 0 v), (Z.ltb_spec v 4294967296); lia || done.
Qed.

Lemma walk_large m usr v pde :
  aget (page_dir m) (v / 4194304) = Some pde → present pde = 1 → ps pde = 1 →
  (usr = true → user pde = 1) →
  walk m true usr v = Some (base_addr_entry pde * 4194304 + v mod 4194304).
Proof.
  intros Hp H1 H2 H3. unfold walk. rewrite Hp. cbn [mbind option_bind]. rewrite H1, H2. cbn.
  destruct usr; [by rewrite H3|done].
Qed.
Lemma walk_table m usr v pde t pte :
  aget (page_dir m) (v / 4194304) = Some pde → present pde = 1 → ps pde = 0 →
  (usr = true → user pde = 1) → table_at m (base_addr_pte pde) = Some t →
  aget t (v / 4096 mod 1024) = Some pte → present pte = 1 → (usr = true → user pte = 1) →
  walk m true usr v = Some (base_addr_pte pte * 4096 + v mod 4096).
Proof.
  intros Hp H1 H2 H3 Ht Hpte H4 H5. unfold walk. rewrite Hp. cbn [mbind option_bind].
  rewrite H1, H2, Ht. cbn -[aget]. rewrite Hpte. cbn. rewrite H4. cbn.
  destruct usr; [by rewrite H3, H5|done].
Qed.

Lemma walk_no_entry m usr v : aget (page_dir m) (v / 4194304) = Some 0 → walk m true usr v = None.
Proof. intros Hp. unfold walk. rewrite Hp. reflexivity. Qed.
Lemma walk_no_page m usr v pde t :
  aget (page_dir m) (v / 4194304) = Some pde → ps pde = 0 →
  table_at m (base_addr_pte pde) = Some t → aget t (v / 4096 mod 1024) = Some 0 →
  walk m true usr v = None.
Proof.
  intros Hp H2 Ht Hpte. unfold walk. rewrite Hp. cbn [mbind option_bind].
  destruct (_ || _); [done|]. rewrite H2, Ht. cbn [andb Z.eqb mbind option_bind]. by rewrite Hpte.
Qed.
Lemma aget_replicate (n : nat) (x : Z) i : 0 ≤ i < Z.of_nat n → aget (replicate n x) i = Some x.
Proof. intros. rewrite aget_nonneg by lia. apply lookup_replicate_2. lia. Qed.

(** ** The entries the code builds *)
Definition user_pde (phys : Z) : Z :=
  set_user 1 (set_ps 1 (set_read_write 1 (set_present 1 (set_base_addr_entry (Z.shiftr phys 22) 0)))).
Definition table_pde (addr old : Z) : Z :=
  set_ps 0 (set_user 1 (set_present 1 (set_read_write 1 (set_base_addr_pte (Z.shiftr addr 12) old)))).
Definition kernel_pde (old : Z) : Z :=
  set_ps 1 (set_present 1 (set_read_write 1 (set_base_addr_entry (Z.shiftr KERNEL_MEM 22) old))).
Definition page_pte (addr old : Z) : Z :=
  set_user 1 (set_present 1 (set_read_write 1 (set_base_addr_pte (Z.shiftr addr 12) old))).

(** [entry] evaluates a field of an entry built by field assignments. *)
Ltac entry :=
  unfold present, read_write, user, ps, base_addr_pte, base_addr_entry, user_pde, table_pde,
    kernel_pde, page_pte, set_present, set_read_write, set_user, set_ps, set_base_addr_pte,
    set_base_addr_entry;
  repeat first [rewrite get_set_bits by lia | rewrite get_set_bits_ne by lia];
  rewrite ?get_bits_0.

Lemma user_pde_fields phys :
  present (user_pde phys) = 1 ∧ user (user_pde phys) = 1 ∧ ps (user_pde phys) = 1 ∧
  read_write (user_pde phys) = 1 ∧ base_addr_entry (user_pde phys) = phys / 4194304 mod 1024.
Proof. entry. split_and!; try done. by rewrite Z.shiftr_div_pow2. Qed.
Lemma table_pde_fields addr old :
  present (table_pde addr old) = 1 ∧ user (table_pde addr old) = 1 ∧ ps (table_pde addr old) = 0 ∧
  read_write (table_pde addr old) = 1 ∧ base_addr_pte (table_pde addr old) = addr / 4096 mod 1048576.
Proof. entry. split_and!; try done. by rewrite Z.shiftr_div_pow2. Qed.
Lemma page_pte_fields addr old :
  present (page_pte addr old) = 1 ∧ user (page_pte addr old) = 1 ∧
  read_write (page_pte addr old) = 1 ∧ base_addr_pte (page_pte addr old) = addr / 4096 mod 1048576.
Proof. entry. split_and!; try done. by rewrite Z.shiftr_div_pow2. Qed.
Lemma kernel_pde_fields :
  present (kernel_pde 0) = 1 ∧ user (kernel_pde 0) = 0 ∧ ps (kernel_pde 0) = 1 ∧
  base_addr_entry (kernel_pde 0) = 1.
Proof. by vm_compute. Qed.

Definition load_pde_cpu (dir : Z) (c : cpu_t) : cpu_t :=
  c <| cr3 := dir |> <| cr4 ::= λ x, Z.lor x 16 |> <| cr0 ::= λ x, Z.lor x 2147483648 |>.

Lemma load_pde_enables s c :
  cpu s = load_pde_cpu (page_dir_addr (mem s)) c → paging_enabled s.
Proof.
  intros Hc. unfold paging_enabled, paging_on, pse_on. rewrite Hc.
  cbn -[Z.testbit Z.lor]. rewrite !Z.lor_spec. split_and!; [|..|done].
  - change (Z.testbit 2147483648 31) with true. by rewrite orb_true_r.
  - change (Z.testbit 16 4) with true. by rewrite orb_true_r.
Qed.

(** The state after [map_user_page]. *)
Definition user_mapped (phys : Z) (s : kstate) : kstate :=
  s <| mem ::= λ m, m <| page_dir ::= <[32%nat := user_pde phys]> |> |>
    <| cpu ::= load_pde_cpu (page_dir_addr (mem s)) |>.

Lemma map_user_page_run phys s :
  paging_wf s → map_user_page phys s = Some ((), user_mapped phys s).
Proof.
  intros Hwf. pose proof (wf_dir _ Hwf) as Hlen.
  destruct (proj2 (aget_is_Some (page_dir (mem s)) pageDirIndex)) as [e He];
    [rewrite Hlen; unfold pageDirIndex; lia|].
  unfold map_user_page. rewrite !set_pde_fuse.
  rewrite (bind_run _ _ _ _ _ (set_pde_run _ _ _ _ He)), bind_gets. done.
Qed.

Lemma user_mapped_wf phys s : paging_wf s → paging_wf (user_mapped phys s).
Proof. intros []. constructor; cbn; rewrite ?length_insert; done. Qed.
Lemma user_mapped_enabled phys s : paging_enabled (user_mapped phys s).
Proof. by apply (load_pde_enables _ (cpu s)). Qed.

(** Where the user page lives: 128 MB .. 132 MB. *)
Definition in_user_page (v : Z) : Prop := 134217728 ≤ v < 138412032.

Lemma user_mapped_translate usr phys s v :
  paging_wf s → 0 ≤ phys < 4294967296 → phys mod 4194304 = 0 → in_user_page v →
  translate_as usr (user_mapped phys s) v = Some (phys + (v - 134217728)).
Proof.
  intros Hwf Hp Ha Hv. unfold in_user_page in *.
  rewrite translate_enabled by (apply user_mapped_enabled || lia).
  destruct (user_pde_fields phys) as (H1&H2&H3&_&H4).
  rewrite (walk_large _ _ _ (user_pde phys)); try done.
  - rewrite H4. f_equal. rewrite (Z.mod_small (phys / _)) by (Z.div_mod_to_equations; lia).
    Z.div_mod_to_equations; lia.
  - replace (v / 4194304) with 32 by (Z.div_mod_to_equations; lia). cbn.
    apply (aget_insert_eq _ 32). pose proof (wf_dir _ Hwf). lia.
Qed.

Lemma user_mapped_translate_other usr phys s v :
  paging_wf s → paging_enabled s → 0 ≤ v < 4294967296 → ¬ in_user_page v →
  translate_as usr (user_mapped phys s) v = translate_as usr s v.
Proof.
  intros Hwf Hen Hv Hn. unfold in_user_page in *.
  rewrite !translate_enabled by (apply user_mapped_enabled || done).
  unfold walk, table_at. cbn. f_equal.
  apply (aget_insert_ne _ 32); [pose proof (wf_dir _ Hwf); lia|]. Z.div_mod_to_equations; lia.
Qed.

(** ** Initialization *)
Definition zeroed (i : Z) (s : kstate) : kstate :=
  s <| mem ::= λ m, m <| page_dir := replicate (Z.to_nat i) 0 ++ drop (Z.to_nat i) (page_dir m) |>
                      <| page_table := replicate (Z.to_nat i) 0 ++ drop (Z.to_nat i) (page_table m) |> |>.

Lemma zero_prefix_step (l : list Z) i :
  0 ≤ i < zlen l →
  <[Z.to_nat i := 0]> (replicate (Z.to_nat i) 0 ++ drop (Z.to_nat i) l)
    = replicate (Z.to_nat (i + 1)) 0 ++ drop (Z.to_nat (i + 1)) l ∧
  is_Some (aget (replicate (Z.to_nat i) 0 ++ drop (Z.to_nat i) l) i).
Proof.
  intros Hi. split.
  - destruct (drop (Z.to_nat i) l) as [|x rest] eqn:E.
    { apply (f_equal length) in E. rewrite length_drop in E. cbn in E. lia. }
    rewrite insert_app_r_alt by (rewrite length_replicate; lia).
    rewrite length_replicate, Nat.sub_diag. cbn [insert list_insert].
    replace (Z.to_nat (i + 1)) with (Z.to_nat i + 1)%nat by lia.
    rewrite <- drop_drop, E. cbn [drop]. rewrite replicate_add, <- app_assoc. by rewrite drop_0.
  - apply aget_is_Some. rewrite length_app, length_replicate, length_drop. lia.
Qed.

Lemma paging_clear_run s :
  paging_wf s →
  for_n (Z.to_nat PAGING_SIZE) 0 (λ i, set_pde i (λ _, 0);; set_pte i (λ _, 0)) s
    = Some ((), s <| mem ::= λ m, m <| page_dir := replicate 1024 0 |>
                                    <| page_table := replicate 1024 0 |> |>).
Proof.
  intros Hwf. pose proof (wf_dir _ Hwf) as Hd. pose proof (wf_table _ Hwf) as Ht.
  assert (wp (for_n (Z.to_nat PAGING_SIZE) 0 (λ i, set_pde i (λ _, 0);; set_pte i (λ _, 0)))
    (λ _ s', s' = zeroed 1024 s) s) as H.
  { apply (wp_for (λ i s', s' = zeroed i s)).
    - unfold zeroed. cbn. rewrite !drop_0. by destruct s as [? [] ? ? ? ? ? ?].
    - intros i s' Hi ->. unfold PAGING_SIZE in Hi.
      destruct (zero_prefix_step (page_dir (mem s)) i) as [Hd1 [e He]]; [lia|].
      destruct (zero_prefix_step (page_table (mem s)) i) as [Ht1 [e' He']]; [lia|].
      unfold wp. erewrite bind_run by (apply set_pde_run; exact He).
      erewrite set_pte_run by exact He'. unfold zeroed. cbn. by rewrite Hd1, Ht1. }
  apply wp_run in H as ([]&s'&->&->). unfold zeroed. f_equal. f_equal. cbn.
  rewrite !drop_ge by lia. by rewrite !app_nil_r.
Qed.

(** The tables [paging_initialize] leaves. *)
Definition initial_mem (m : mem_t) : mem_t :=
  m <| page_dir := <[1%nat := kernel_pde 0]> (<[0%nat := table_pde (page_table_addr m) 0]> (replicate 1024 0)) |>
    <| page_table := <[184%nat := page_pte VIDEO_MEM 0]> (replicate 1024 0) |>.
Definition paging_initialized (s : kstate) : kstate :=
  s <| mem ::= initial_mem |> <| cpu ::= load_pde_cpu (page_dir_addr (mem s)) |>.

Lemma initialized_dir s :
  page_dir (mem (paging_initialized s))
    = <[1%nat := kernel_pde 0]> (<[0%nat := table_pde (page_table_addr (mem s)) 0]> (replicate 1024 0)).
Proof. done. Qed.

Lemma paging_initialize_run s :
  paging_wf s → paging_initialize s = Some ((), paging_initialized s).
Proof.
  intros Hwf. unfold paging_initialize. rewrite (bind_run _ _ _ _ _ (paging_clear_run s Hwf)).
  rewrite bind_gets, !set_pde_fuse.
  erewrite bind_run by (apply set_pde_run; reflexivity).
  rewrite !set_pde_fuse. erewrite bind_run by (apply set_pde_run; reflexivity).
  rewrite !set_pte_fuse. erewrite bind_run by (apply set_pte_run; reflexivity).
  done.
Qed.

(** ** Correctness *)

Lemma paging_initialize_space s :
  paging_wf s →
  ∃ s', paging_initialize s = Some ((), s') ∧ paging_wf s' ∧ paging_enabled s' ∧
    ∀ usr v, 0 ≤ v < 4294967296 →
      translate_as usr s' v =
        if decide (KERNEL_MEM ≤ v < bottomKernal) then (if usr then None else Some v)
        else if decide (VIDEO_MEM ≤ v < VIDEO_MEM + 4096) then Some v
        else None.
Proof.
  intros Hwf. exists (paging_initialized s). rewrite paging_initialize_run by done.
  assert (paging_enabled (paging_initialized s)) as Hen by (by apply (load_pde_enables _ (cpu s))).
  split_and!; [done| |done|].
  { destruct Hwf. constructor; cbn; rewrite ?length_insert, ?length_replicate; done. }
  intros usr v Hv. rewrite translate_enabled by done. unfold KERNEL_MEM, bottomKernal, VIDEO_MEM.
  destruct (table_pde_fields (page_table_addr (mem s)) 0) as (T1&T2&T3&_&T4).
  assert (table_at (mem (paging_initialized s)) (base_addr_pte (table_pde (page_table_addr (mem s)) 0))
    = Some (<[184%nat := page_pte VIDEO_MEM 0]> (replicate 1024 0))) as Htab.
  { pose proof (wf_table_addr _ Hwf). rewrite T4. unfold table_at. cbn.
    rewrite Z.mod_small by (Z.div_mod_to_equations; lia). by rewrite Z.eqb_refl. }
  destruct (decide (4194304 ≤ v < 8388608)) as [Hk|Hk].
  { destruct kernel_pde_fields as (K1&K2&K3&K4).
    assert (aget (page_dir (mem (paging_initialized s))) (v / 4194304) = Some (kernel_pde 0)) as Hpde
      by (by replace (v / 4194304) with 1 by (Z.div_mod_to_equations; lia)).
    destruct usr.
    - unfold walk. rewrite Hpde. cbn [mbind option_bind]. by rewrite K1, K2.
    - rewrite (walk_large _ _ _ _ Hpde K1 K3) by done. rewrite K4. f_equal. Z.div_mod_to_equations; lia. }
  destruct (decide (v / 4194304 = 0)) as [H0|H0].
  - assert (aget (page_dir (mem (paging_initialized s))) (v / 4194304)
      = Some (table_pde (page_table_addr (mem s)) 0)) as Hpde by (by rewrite H0).
    destruct (decide (v / 4096 = 184)) as [Hvid|Hvid].
    + rewrite decide_True by (Z.div_mod_to_equations; lia).
      destruct (page_pte_fields VIDEO_MEM 0) as (P1&P2&_&P3).
      rewrite (walk_table _ _ _ _ _ (page_pte VIDEO_MEM 0) Hpde T1 T3 (λ _, T2) Htab); try done.
      * rewrite P3. f_equal. change (VIDEO_MEM / 4096 mod 1048576) with 184. Z.div_mod_to_equations; lia.
      * by rewrite Hvid.
    + rewrite decide_False by (Z.div_mod_to_equations; lia).
      apply (walk_no_page _ _ _ _ _ Hpde T3 Htab).
      rewrite Z.mod_small by (Z.div_mod_to_equations; lia).
      rewrite aget_insert_nat_ne by lia. apply aget_replicate. Z.div_mod_to_equations; lia.
  - rewrite decide_False by (Z.div_mod_to_equations; lia). apply walk_no_entry.
    rewrite initialized_dir, !aget_insert_nat_ne by (Z.div_mod_to_equations; lia).
    apply aget_replicate. Z.div_mod_to_equations; lia.
Qed.

(** C33.  After [paging_initialize] the kernel sees exactly two regions, both at
    their physical addresses: its own 4 MB page (supervisor only) and the text
    video page (user accessible); every other address, [NULL] included, faults. *)
Theorem paging_initialize_address_space s :
  paging_wf s →
  ∃ s', paging_initialize s = Some ((), s') ∧ paging_wf s' ∧ paging_enabled s' ∧
    ∀ usr v, 0 ≤ v < 4294967296 →
      translate_as usr s' v =
        if decide (KERNEL_MEM ≤ v < bottomKernal) then (if usr then None else Some v)
        else if decide (VIDEO_MEM ≤ v < VIDEO_MEM + 4096) then Some v
        else None.
Proof. apply paging_initialize_space. Qed.

Lemma boot_state_wf img : paging_wf (boot_state img).
Proof. constructor; cbn [boot_state mem page_dir page_table page_virtual_mem page_table_addr page_virtual_mem_addr]; rewrite ?length_replicate; lia || done. Qed.

Lemma paging_initialize_address_space_witness :
  ∃ s', paging_initialize (boot_state []) = Some ((), s') ∧
    translate_as false s' 753700 = Some 753700 ∧ translate_as false s' 0 = None.
Proof.
  destruct (paging_initialize_address_space (boot_state []) (boot_state_wf []))
    as (s'&Hrun&_&_&Htr).
  exists s'. split; [exact Hrun|]. rewrite !Htr by lia. split; reflexivity.
Defined.

(** ** Isolation of user processes *)

(** The frame of the process with this pid. *)
Definition frame (p : Z) : Z := bottomKernal + (p - 1) * pageSize.
Definition in_frame (p q : Z) : Prop := frame p ≤ q < frame p + pageSize.
(** Outside its 4 MB page, user code reaches the video pages only. *)
Definition video_only (s : kstate) : Prop :=
  ∀ v q, ¬ in_user_page v → translate_as true s v = Some q → 753664 ≤ q < 770048.

Lemma translate_range usr s v q : translate_as usr s v = Some q → 0 ≤ v < 4294967296.
Proof.
  unfold translate_as. destruct (Z.leb_spec 0 v), (Z.ltb_spec v 4294967296); cbn; done || lia.
Qed.


Lemma initialized_video_only s : paging_wf s → video_only (paging_initialized s).
Proof.
  intros Hwf v q Hv Htr. pose proof (translate_range _ _ _ _ Htr) as Hr.
  destruct (paging_initialize_space s Hwf) as (s'&Hrun&_&_&Hsp).
  rewrite paging_initialize_run in Hrun by done. simplify_eq. rewrite Hsp in Htr by done.
  unfold VIDEO_MEM in *. repeat case_decide; simplify_eq. lia.
Qed.

