(* ===== verification/PortIO.v ===== *)
(** * PortIO: the interrupt controller, the real-time clock and the timer
    ([i8259.c], [rtc.c], [pit_init] of [scheduler.c])

    Port accesses go to the log of the processor in program order; what a read
    returns is up to the devices ([hw]).  A busy-wait ends when an interrupt
    handler, run in between, makes its condition true: [spin_until] takes the
    handlers that run while the code waits. *)
From S2P Require Import Prelude KState.

(** ** i8259.c *)
Definition MASTER_8259_PORT : Z := 32.
Definition SLAVE_8259_PORT : Z := 160.
Definition MASTER_8259_PORT_DATA : Z := MASTER_8259_PORT + 1.
Definition SLAVE_8259_PORT_DATA : Z := SLAVE_8259_PORT + 1.
Definition EOI : Z := 96.
Definition MAX_IRQ : Z := 15.
Definition MAX_IRQ_MASTER : Z := 7.
Definition SLAVE_DIFF : Z := 8.
Definition SLAVE_INTR : Z := 2.

Definition io_wait : K () := outb 0 128.

(** The port and bit an IRQ number stands for. *)
Definition irq_port (irq_num : Z) : Z :=
  if irq_num <=? MAX_IRQ_MASTER then MASTER_8259_PORT_DATA else SLAVE_8259_PORT_DATA.
Definition irq_bit (irq_num : Z) : Z :=
  if irq_num <=? MAX_IRQ_MASTER then irq_num else irq_num - SLAVE_DIFF.

(** [irq_num] is a [uint32_t]: the test [irq_num < 0] never holds. *)
Definition enable_irq (irq_num : Z) : K () :=
  if (irq_num <? 0) || (irq_num >? MAX_IRQ) then skip
  else
    v ← inb (irq_port irq_num);
    let value := u8 (Z.land v (Z.lnot (Z.shiftl 1 (irq_bit irq_num)))) in
    outb value (irq_port irq_num).

Definition disable_irq (irq_num : Z) : K () :=
  if (irq_num <? 0) || (irq_num >? MAX_IRQ) then skip
  else
    v ← inb (irq_port irq_num);
    let value := u8 (Z.lor v (Z.shiftl 1 (irq_bit irq_num))) in
    outb value (irq_port irq_num).

Definition send_eoi (irq_num : Z) : K () :=
  if (irq_num <? 0) || (irq_num >? MAX_IRQ) then skip
  else if irq_num <=? MAX_IRQ_MASTER then outb (Z.lor EOI irq_num) MASTER_8259_PORT
  else
    let irq_num := irq_num - SLAVE_DIFF in
    outb (Z.lor EOI irq_num) SLAVE_8259_PORT;;
    outb (Z.lor EOI SLAVE_INTR) MASTER_8259_PORT.

Definition i8259_init : K () :=
  set_pic (λ p, p <| master_mask := 255 |> <| slave_mask := 255 |>);;
  m ← gets (λ s, master_mask (pic s)); sl ← gets (λ s, slave_mask (pic s));
  outb m MASTER_8259_PORT_DATA;;
  outb sl SLAVE_8259_PORT_DATA;;
  outb 17 MASTER_8259_PORT;; io_wait;;
  outb 17 SLAVE_8259_PORT;; io_wait;;
  outb 32 MASTER_8259_PORT_DATA;; io_wait;;
  outb 40 SLAVE_8259_PORT_DATA;; io_wait;;
  outb 4 MASTER_8259_PORT_DATA;; io_wait;;
  outb 2 SLAVE_8259_PORT_DATA;; io_wait;;
  outb 1 MASTER_8259_PORT_DATA;; io_wait;;
  outb 1 SLAVE_8259_PORT_DATA;; io_wait;;
  outb m MASTER_8259_PORT_DATA;;
  outb sl SLAVE_8259_PORT_DATA;;
  enable_irq SLAVE_INTR.

(** ** rtc.c *)
Definition RTC_PORT : Z := 112.
Definition CMOS_PORT : Z := 113.
Definition RTC_IRQ : Z := 8.
Definition DISABLE_NMI_A : Z := 138.
Definition DISABLE_NMI_B : Z := 139.
Definition MAX_FREQ : Z := 1024.
Definition MIN_FREQ : Z := 2.
Definition MAX_FREQ_COUNT : Z := 6.
Definition RTC_BUFF_SIZE : Z := 4.

Definition rtc_initialize : K () :=
  cli;;
  outb DISABLE_NMI_A RTC_PORT;;
  outb DISABLE_NMI_B RTC_PORT;;
  prev ← inb CMOS_PORT;
  outb DISABLE_NMI_B RTC_PORT;;
  outb (Z.lor prev 64) CMOS_PORT;;
  enable_irq RTC_IRQ;;
  set_rtc (λ r, r <| rtc_tick := 0 |> <| rtc_status := 0 |>);;
  sti.

Definition rtc_interrupt_handler : K () :=
  set_rtc (λ r, r <| rtc_tick ::= λ t, u32 (t + 1) |> <| rtc_status := 1 |>);;
  outb 12 RTC_PORT;;
  inb CMOS_PORT;;
  send_eoi RTC_IRQ.

(** The loop of [set_frequency]: -1, or the rate. *)
Fixpoint frequency_loop (fuel : nat) (i freq count : Z) : Z :=
  match fuel with
  | O => -1
  | S fuel =>
      if i >=? 2 then
        if freq =? i then count else frequency_loop fuel (i `quot` 2) freq (count + 1)
      else -1
  end.
(** 1024 can be halved ten times. *)
Definition frequency_fuel : nat := 11.

Definition set_frequency (freq : Z) : K Z :=
  set_rtc (λ r, r <| rtc_tick := 0 |>);;
  let temp := frequency_loop frequency_fuel MAX_FREQ freq MAX_FREQ_COUNT in
  if temp =? -1 then mret (-1)
  else
    let rate := Z.land (u8 temp) 15 in
    cli;;
    outb DISABLE_NMI_A RTC_PORT;;
    prev ← inb CMOS_PORT;
    outb DISABLE_NMI_A RTC_PORT;;
    outb (Z.lor (Z.land prev 240) rate) CMOS_PORT;;
    sti;;
    mret 0.

Definition rtc_open (filename : Z) : K Z :=
  set_rtc (λ r, r <| rtc_tick := 0 |> <| rtc_status := 0 |>);;
  set_frequency MIN_FREQ.

(** [while (!cond);] with the interrupt handlers that run meanwhile. *)
Fixpoint spin_until (cond : kstate → option bool) (interrupts : list (K ())) : K () := λ s,
  match cond s with
  | None => None
  | Some true => Some ((), s)
  | Some false =>
      match interrupts with
      | [] => None
      | i :: interrupts => (i ≫= λ _, spin_until cond interrupts) s
      end
  end.

Definition rtc_read (interrupts : list (K ())) : K Z :=
  spin_until (λ s, Some (negb (rtc_status (rtc s) =? 0))) interrupts;;
  set_rtc (λ r, r <| rtc_status := 0 |>);;
  mret 0.

(** [buffer] is [None] for [NULL], else the [int] it points to. *)
Definition rtc_write (buffer : option Z) (nbytes : Z) : K Z :=
  match buffer with
  | None => mret (-1)
  | Some freq => if negb (nbytes =? RTC_BUFF_SIZE) then mret (-1) else set_frequency freq
  end.

Definition rtc_close (fd : Z) : K Z := mret 0.

(** ** The timer: [pit_init] *)
Definition PIT_CHANNEL : Z := 64.
Definition PIT_MODE : Z := 67.
Definition PIT_REG : Z := 54.
Definition PIT_IRQ : Z := 0.
Definition MAX_CLOCK : Z := 1193180.
Definition DEFAULT_CLOCK : Z := 100.

Definition pit_init : K () :=
  cli;;
  let count := MAX_CLOCK `quot` DEFAULT_CLOCK in
  outb PIT_REG PIT_MODE;;
  outb (Z.land count 255) PIT_CHANNEL;;
  outb (Z.shiftr (Z.land count 65280) 8) PIT_CHANNEL;;
  enable_irq PIT_IRQ;;
  sti.

(** ** What the devices promise

    The 8259 as its data sheet describes it: a command byte with bit 4 set
    (ICW1) clears the mask and announces the initialization words that follow
    on the data port (ICW2; ICW3 unless single mode; ICW4 if bit 0 is set);
    any other byte on the data port is the interrupt mask. *)
Inductive icw := ICW2 | ICW3 | ICW4.
Record pic_dev := mk_pic_dev {
  expected : list icw; vector : Z; cascade : Z; icw_mode : Z; imr : Z
}.
Definition pic_reset : pic_dev := mk_pic_dev [] 0 0 0 0.

Definition pic_step (base : Z) (d : pic_dev) (e : io_event) : pic_dev :=
  match e with
  | In _ _ => d
  | Out port v =>
      if port =? base then
        if Z.testbit v 4 then
          mk_pic_dev (ICW2 :: (if Z.testbit v 1 then [] else [ICW3])
                           ++ (if Z.testbit v 0 then [ICW4] else [])) 0 0 0 0
        else d
      else if port =? base + 1 then
        match expected d with
        | [] => mk_pic_dev [] (vector d) (cascade d) (icw_mode d) v
        | ICW2 :: l => mk_pic_dev l v (cascade d) (icw_mode d) (imr d)
        | ICW3 :: l => mk_pic_dev l (vector d) v (icw_mode d) (imr d)
        | ICW4 :: l => mk_pic_dev l (vector d) (cascade d) v (imr d)
        end
      else d
  end.
Definition pic_run (base : Z) (log : list io_event) : pic_dev := foldl (pic_step base) pic_reset log.

(** Reading the data port returns the interrupt mask. *)
Class PicDevice (dev : list io_event → Z → Z) : Prop := {
  pic_reads_mask : ∀ log base, base = MASTER_8259_PORT ∨ base = SLAVE_8259_PORT →
    dev log (base + 1) = imr (pic_run base log);
}.

Definition pic_of (s : kstate) (base : Z) : pic_dev := pic_run base (io_log (cpu s)).
Definition irq_base (irq : Z) : Z :=
  if irq <=? MAX_IRQ_MASTER then MASTER_8259_PORT else SLAVE_8259_PORT.
(** Is this interrupt masked at its PIC? *)
Definition irq_masked (s : kstate) (irq : Z) : bool :=
  Z.testbit (imr (pic_of s (irq_base irq))) (irq_bit irq).
(** Both PICs have received their initialization words. *)
Definition pics_ready (s : kstate) : Prop :=
  expected (pic_of s MASTER_8259_PORT) = [] ∧ expected (pic_of s SLAVE_8259_PORT) = [].

(** The CMOS behind ports 0x70 and 0x71: a byte on 0x70 selects a register (bit 7
    is the NMI gate), an access to 0x71 uses it and resets the selection. *)
Record cmos_dev := mk_cmos_dev { cmos_index : Z; cmos_reg : Z → Z }.
Definition cmos_step (d : cmos_dev) (e : io_event) : cmos_dev :=
  match e with
  | Out port v =>
      if port =? RTC_PORT then mk_cmos_dev (v mod 128) (cmos_reg d)
      else if port =? CMOS_PORT then
        mk_cmos_dev 13 (λ r, if r =? cmos_index d then v else cmos_reg d r)
      else d
  | In port _ => if port =? CMOS_PORT then mk_cmos_dev 13 (cmos_reg d) else d
  end.
Definition cmos_run (log : list io_event) : cmos_dev := foldl cmos_step (mk_cmos_dev 13 (λ _, 0)) log.
Class CmosDevice (dev : list io_event → Z → Z) : Prop := {
  cmos_reads_reg : ∀ log, dev log CMOS_PORT = cmos_reg (cmos_run log) (cmos_index (cmos_run log));
}.
Definition cmos_of (s : kstate) : cmos_dev := cmos_run (io_log (cpu s)).

(** Only the port log may differ. *)
Definition only_io (s s' : kstate) : Prop :=
  ∃ es, s' = s <| cpu ::= λ c, c <| io_log ::= λ l, l ++ es |> |>.

Lemma pic_run_app base log e : pic_run base (log ++ [e]) = pic_step base (pic_run base log) e.
Proof. unfold pic_run. by rewrite foldl_app. Qed.

Lemma irq_port_base irq : irq_port irq = irq_base irq + 1.
Proof. unfold irq_port, irq_base. by destruct (irq <=? MAX_IRQ_MASTER). Qed.
Lemma irq_base_cases irq : irq_base irq = MASTER_8259_PORT ∨ irq_base irq = SLAVE_8259_PORT.
Proof. unfold irq_base. destruct (irq <=? MAX_IRQ_MASTER); [by left|by right]. Qed.

Lemma irq_same_line irq irq' :
  0 ≤ irq ≤ 15 → 0 ≤ irq' ≤ 15 → irq_base irq = irq_base irq' → irq_bit irq = irq_bit irq' → irq = irq'.
Proof.
  unfold irq_base, irq_bit, MAX_IRQ_MASTER, SLAVE_DIFF. intros.
  destruct (Z.leb_spec irq 7), (Z.leb_spec irq' 7); try lia; done.
Qed.
Lemma irq_bit_range irq : 0 ≤ irq ≤ 15 → 0 ≤ irq_bit irq < 8.
Proof. unfold irq_bit, MAX_IRQ_MASTER, SLAVE_DIFF. intros. destruct (Z.leb_spec irq 7); lia. Qed.

Lemma testbit_u8 v k : 0 ≤ k < 8 → Z.testbit (u8 v) k = Z.testbit v k.
Proof. intros. unfold u8. change 256 with (2 ^ 8). by rewrite Z.mod_pow2_bits_low by lia. Qed.

Lemma pow2_testbit b k : 0 ≤ b → 0 ≤ k → Z.testbit (Z.shiftl 1 b) k = bool_decide (k = b).
Proof.
  intros. rewrite Z.shiftl_1_l. case_bool_decide; subst.
  - by apply Z.pow2_bits_true.
  - by apply Z.pow2_bits_false.
Qed.

(** Writing the mask of the PIC of [irq], when both are initialized. *)
Lemma write_mask s irq v :
  pics_ready s →
  ∃ s', outb v (irq_port irq) s = Some ((), s') ∧ only_io s s' ∧ pics_ready s' ∧
    ∀ irq', imr (pic_of s' (irq_base irq')) =
      if decide (irq_base irq' = irq_base irq) then u8 v else imr (pic_of s (irq_base irq')).
Proof.
  intros Hr. eexists. split; [reflexivity|]. split; [by eexists|].
  unfold pics_ready, pic_of in *. cbn -[pic_run]. rewrite !pic_run_app, irq_port_base.
  destruct Hr as [Hm Hs].
  destruct (irq_base_cases irq) as [-> | ->]; cbn -[pic_run u8]; rewrite ?Hm, ?Hs; cbn -[pic_run u8];
    (split; [done|]); intros irq'; rewrite pic_run_app;
    destruct (irq_base_cases irq') as [-> | ->]; cbn -[pic_run u8]; rewrite ?Hm, ?Hs; done.
Qed.

Lemma read_mask s irq :
  PicDevice (hw (cpu s)) → pics_ready s →
  ∃ s', inb (irq_port irq) s = Some (u8 (imr (pic_of s (irq_base irq))), s') ∧ only_io s s' ∧
    pics_ready s' ∧ ∀ irq', imr (pic_of s' (irq_base irq')) = imr (pic_of s (irq_base irq')).
Proof.
  intros Hdev Hr. unfold inb. rewrite irq_port_base, pic_reads_mask by apply irq_base_cases.
  eexists. split; [done|]. split; [by eexists|]. unfold pics_ready, pic_of in *. cbn -[pic_run].
  split; [by rewrite !pic_run_app|]. intros irq'. by rewrite pic_run_app.
Qed.

Lemma only_io_trans s1 s2 s3 : only_io s1 s2 → only_io s2 s3 → only_io s1 s3.
Proof. intros [es ->] [es' ->]. exists (es ++ es'). cbn. by rewrite <- app_assoc. Qed.

(** The loop finds a power of two between 2 and 1024, and nothing else. *)
Lemma frequency_loop_spec freq :
  (∃ k, 1 ≤ k ≤ 10 ∧ freq = 2 ^ k ∧
     frequency_loop frequency_fuel MAX_FREQ freq MAX_FREQ_COUNT = 16 - k) ∨
  ((∀ k, 1 ≤ k ≤ 10 → freq ≠ 2 ^ k) ∧
     frequency_loop frequency_fuel MAX_FREQ freq MAX_FREQ_COUNT = -1).
Proof.
  destruct (decide (freq ∈ (λ k, 2 ^ k) <$> seqZ 1 10)) as [Hin|Hnin].
  - left. apply list_elem_of_fmap in Hin as (k&->&Hk%elem_of_seqZ). exists k.
    split; [lia|]. split; [done|].
    assert (∃ n, (n < 10)%nat ∧ k = Z.of_nat n + 1) as (n&Hn&->) by (exists (Z.to_nat (k - 1)); lia).
    do 10 (destruct n as [|n]; [reflexivity|]). lia.
  - right. assert (Hne : ∀ k, 1 ≤ k ≤ 10 → freq ≠ 2 ^ k).
    { intros k Hk ->. apply Hnin. apply list_elem_of_fmap_2, elem_of_seqZ. lia. }
    split; [done|].
    assert (∀ n fuel c, (n ≤ 10)%nat → frequency_loop fuel (2 ^ Z.of_nat n) freq c = -1) as Hgen;
      [|by apply (Hgen 10%nat)].
    induction n as [|n IH]; intros [|fuel] c Hn; cbn [frequency_loop]; [done..|].
    destruct (_ >=? 2); [|done].
    destruct (Z.eqb_spec freq (2 ^ Z.of_nat (S n))) as [E|_].
    { by apply Hne in E; [|lia]. }
    rewrite Nat2Z.inj_succ, Z.pow_succ_r, Z.mul_comm, Z.quot_mul by lia. apply IH. lia.
Qed.

Lemma rate_bits prev k :
  1 ≤ k ≤ 10 → is_u8 prev →
  let a := Z.lor (Z.land prev 240) (Z.land (u8 (16 - k)) 15) in
  is_u8 a ∧ a mod 16 = 16 - k ∧ a / 16 = prev / 16.
Proof.
  intros Hk Hp.
  assert (Forall (λ k, Forall (λ prev, is_u8 (Z.lor (Z.land prev 240) (Z.land (u8 (16 - k)) 15)) ∧
    (Z.lor (Z.land prev 240) (Z.land (u8 (16 - k)) 15)) mod 16 = 16 - k ∧
    (Z.lor (Z.land prev 240) (Z.land (u8 (16 - k)) 15)) / 16 = prev / 16) (seqZ 0 256)) (seqZ 1 10)) as Hall
    by (apply (bool_decide_unpack _); vm_compute; exact I).
  rewrite Forall_forall in Hall. specialize (Hall k ltac:(apply elem_of_seqZ; lia)).
  rewrite Forall_forall in Hall. apply Hall, elem_of_seqZ. cint. lia.
Qed.

(** ** Correctness *)

(** [enable_irq] and [disable_irq] change exactly the mask bit of the
    given interrupt at its PIC, the slave's through the slave; an interrupt
    number above 15 changes nothing.  Nothing else of the kernel changes. *)
Lemma irq_mask_update s irq (enable : bool) :
  PicDevice (hw (cpu s)) → pics_ready s → 0 ≤ irq →
  ∃ s', (if enable then enable_irq irq else disable_irq irq) s = Some ((), s') ∧
    only_io s s' ∧ pics_ready s' ∧
    ∀ irq', 0 ≤ irq' ≤ 15 →
      irq_masked s' irq' = if decide (irq' = irq) then negb enable else irq_masked s irq'.
Proof.
  intros Hdev Hr Hirq. unfold enable_irq, disable_irq. rewrite Z.gtb_ltb.
  destruct (Z.ltb_spec irq 0); [lia|]. unfold MAX_IRQ. cbn [orb].
  destruct (Z.ltb_spec 15 irq) as [Hbig|Hsmall].
  { exists s. split_and!; [by destruct enable| |done|].
    - exists []. cbn. rewrite app_nil_r. by destruct s as [[] ? ? ? ? ? ? ?].
    - intros irq' ?. rewrite decide_False by lia. done. }
  destruct (read_mask s irq Hdev Hr) as (s1&H1&Hio1&Hr1&Hm1).
  set (v := u8 (imr (pic_of s (irq_base irq)))) in *. pose proof (irq_bit_range irq ltac:(lia)).
  set (w := if enable then u8 (Z.land v (Z.lnot (Z.shiftl 1 (irq_bit irq))))
            else u8 (Z.lor v (Z.shiftl 1 (irq_bit irq)))).
  destruct (write_mask s1 irq w Hr1) as (s2&H2&Hio2&Hr2&Hm2).
  exists s2. split_and!; [|by eapply only_io_trans|done|].
  { destruct enable; by rewrite (bind_run _ _ _ _ _ H1). }
  intros irq' Hi. pose proof (irq_bit_range irq' Hi). unfold irq_masked. rewrite Hm2, Hm1.
  assert (∀ k, 0 ≤ k < 8 → Z.testbit (u8 w) k =
    if decide (k = irq_bit irq) then negb enable else Z.testbit (imr (pic_of s (irq_base irq))) k) as Hw.
  { intros k Hk. rewrite testbit_u8 by done.
    destruct enable; unfold w; rewrite testbit_u8 by done;
      rewrite ?Z.land_spec, ?Z.lor_spec, ?Z.lnot_spec, pow2_testbit by lia;
      unfold v; rewrite testbit_u8 by done;
      repeat case_decide; case_bool_decide; try done;
      rewrite ?andb_false_r, ?andb_true_r, ?orb_true_r, ?orb_false_r; done. }
  destruct (decide (irq_base irq' = irq_base irq)) as [Hb|Hb].
  - rewrite Hw by done. destruct (decide (irq_bit irq' = irq_bit irq)) as [Hk|Hk].
    + apply irq_same_line in Hk; [|lia|lia|done]. by rewrite decide_True.
    + rewrite (decide_False (P := irq' = irq)) by congruence. by rewrite Hb.
  - rewrite decide_False by congruence. done.
Qed.

(** Whatever state the controllers were in, [i8259_init] leaves both
    initialized, with interrupt vectors 0x20 and 0x28, the slave cascaded on
    line 2, and every interrupt masked except the cascade. *)
Lemma i8259_init_state s :
  PicDevice (hw (cpu s)) →
  ∃ s', i8259_init s = Some ((), s') ∧ pics_ready s' ∧
    vector (pic_of s' MASTER_8259_PORT) = 32 ∧ vector (pic_of s' SLAVE_8259_PORT) = 40 ∧
    cascade (pic_of s' MASTER_8259_PORT) = Z.shiftl 1 SLAVE_INTR ∧
    cascade (pic_of s' SLAVE_8259_PORT) = SLAVE_INTR ∧
    ∀ irq, 0 ≤ irq ≤ 15 → irq_masked s' irq = negb (irq =? SLAVE_INTR).
Proof.
  intros Hdev.
  assert (Hin : ∀ log, hw (cpu s) log 33 = imr (pic_run MASTER_8259_PORT log))
    by (intros; by apply (pic_reads_mask log MASTER_8259_PORT); left).
  eexists. split.
  - unfold i8259_init, enable_irq, io_wait, set_pic, outb. rewrite bind_modify, !bind_gets, !bind_modify.
    cbn -[inb u8 pic_run]. unfold mbind at 1, M_bind at 1. unfold inb. cbn -[u8 pic_run].
    change (SLAVE_INTR >? MAX_IRQ) with false. cbn -[u8 pic_run].
    change MASTER_8259_PORT_DATA with 33. rewrite Hin. reflexivity.
  - unfold pics_ready, irq_masked, pic_of. cbn -[pic_run Z.testbit u8 irq_base].
    rewrite <- !app_assoc. cbn [app].
    assert (∀ base es, pic_run base (io_log (cpu s) ++ es) = foldl (pic_step base) (pic_run base (io_log (cpu s))) es) as Happ
      by (intros; unfold pic_run; apply foldl_app).
    rewrite !Happ. split_and!; try reflexivity.
    intros irq Hirq. rewrite Happ.
    assert (∃ k, (k < 16)%nat ∧ irq = Z.of_nat k) as (k&Hk&->) by (exists (Z.to_nat irq); lia).
    do 16 (destruct k as [|k]; [reflexivity|]). lia.
Qed.

(** A device that is both controllers and the CMOS. *)
Definition example_dev (log : list io_event) (port : Z) : Z :=
  if port =? 33 then imr (pic_run 32 log)
  else if port =? 161 then imr (pic_run 160 log)
  else if port =? 113 then cmos_reg (cmos_run log) (cmos_index (cmos_run log))
  else 0.
#[export] Instance example_dev_pic : PicDevice example_dev.
Proof. constructor. by intros log base [-> | ->]. Qed.
#[export] Instance example_dev_cmos : CmosDevice example_dev.
Proof. by constructor. Qed.
Definition boot_with_devices : kstate := (boot_state []) <| cpu ::= λ c, c <| hw := example_dev |> |>.


Lemma i8259_init_state_witness :
  ∃ s', i8259_init boot_with_devices = Some ((), s') ∧ irq_masked s' 1 = true ∧ irq_masked s' 2 = false.
Proof.
  destruct (i8259_init_state boot_with_devices example_dev_pic) as (s'&Hrun&_&_&_&_&_&Hm).
  exists s'. split; [exact Hrun|]. rewrite !Hm by lia. split; reflexivity.
Defined.

(**  [set_frequency] accepts exactly the powers of two from 2 to 1024; for
    those it returns 0, re-enables interrupts, and puts in the low nibble of CMOS
    register A the rate for which the clock's 32768 Hz divided by 2^(rate-1) is
    the frequency, keeping the high nibble and every other register; for any
    other argument it returns -1 and touches no port.  The tick count is reset
    either way. *)
Lemma set_frequency_rate s freq :
  CmosDevice (hw (cpu s)) →
  ∃ ret s', set_frequency freq s = Some (ret, s') ∧ rtc_tick (rtc s') = 0 ∧
    ((∃ k, 1 ≤ k ≤ 10 ∧ freq = 2 ^ k ∧ ret = 0 ∧ if_flag (cpu s') = true ∧
        let a := cmos_reg (cmos_of s) 10 in let a' := cmos_reg (cmos_of s') 10 in
        freq * 2 ^ (a' mod 16 - 1) = 32768 ∧ a' / 16 = u8 a / 16 ∧
        ∀ r, r ≠ 10 → cmos_reg (cmos_of s') r = cmos_reg (cmos_of s) r) ∨
     ((∀ k, 1 ≤ k ≤ 10 → freq ≠ 2 ^ k) ∧ ret = -1 ∧ cpu s' = cpu s)).
Proof.
  intros Hdev. unfold set_frequency.
  destruct (frequency_loop_spec freq) as [(k&Hk&->&Hloop)|[Hne Hloop]]; rewrite Hloop.
  2: { eexists _, _. split; [reflexivity|]. split; [done|]. right. split_and!; done. }
  destruct (Z.eqb_spec (16 - k) (-1)) as [E|_]; [lia|].
  assert (Hin : ∀ log, hw (cpu s) log 113 = cmos_reg (cmos_run log) (cmos_index (cmos_run log)))
    by (intros; apply (cmos_reads_reg (dev := hw (cpu s)))).
  eexists _, _. split; [reflexivity|]. split; [reflexivity|]. left. exists k.
  split; [lia|]. split; [done|]. split; [done|]. split; [reflexivity|].
  unfold cmos_of. cbn -[cmos_run u8 Z.land Z.lor Z.div Z.modulo Z.pow].
  change CMOS_PORT with 113. rewrite Hin.
  assert (Happ : ∀ es, cmos_run (io_log (cpu s) ++ es) = foldl cmos_step (cmos_run (io_log (cpu s))) es)
    by (intros; unfold cmos_run; apply foldl_app).
  rewrite <- !app_assoc, !Happ. cbn -[cmos_run u8 Z.land Z.lor Z.div Z.modulo Z.pow].
  change (u8 DISABLE_NMI_A mod 128) with 10. cbn -[cmos_run u8 Z.land Z.lor Z.div Z.modulo Z.pow].
  set (a := cmos_reg _ 10).
  destruct (rate_bits (u8 a) k Hk (u8_range a)) as (Hu8&Hlow&Hhigh).
  rewrite u8_small by done. rewrite Hlow, Hhigh. split_and!; [|done|].
  - rewrite <- Z.pow_add_r by lia. by replace (k + (16 - k - 1)) with 15 by lia.
  - intros r Hr. destruct (Z.eqb_spec r 10); [done|]. done.
Qed.

Lemma set_frequency_rate_witness :
  ∃ s', set_frequency 32 boot_with_devices = Some (0, s') ∧ cmos_reg (cmos_of s') 10 mod 16 = 11.
Proof.
  destruct (set_frequency_rate boot_with_devices 32 example_dev_cmos)
    as (ret&s'&Hrun&_&[(k&Hk&_&->&_&_)|[Hne _]]).
  - exists s'. split; [exact Hrun|]. vm_compute in Hrun. injection Hrun as <-. reflexivity.
  - exfalso. apply (Hne 5); [lia|reflexivity].
Defined.
