(* ===== verification/Screen.v ===== *)
(** * Screen: the text output of [lib.c] and its terminals

    Each terminal has a cursor in [term_arr] and a 4 KB page of 16-bit cells
    (character, attribute) at [vid_mem_addr]; the functions below move the
    cursor of the running process's terminal ([putc], [enter], ...) or of the
    displayed one (the [_user] variants) and write cells through the page
    tables. *)
From S2P Require Import Prelude LibMem KState.

Definition NUM_COLS : Z := 80.
Definition NUM_ROWS : Z := 25.
Definition ATTRIB : Z := 7.

(** [*(uint8_t* )(video_mem + off)], for reading and writing. *)
Definition video_load (off : Z) : K Z :=
  v ← gets (λ s, video_mem (scr s)); load8 (u32 (v + off)).
Definition video_store (off b : Z) : K () :=
  v ← gets (λ s, video_mem (scr s)); store8 (u32 (v + off)) b.

(** [screen_x = term_arr[i].screen_x; screen_y = term_arr[i].screen_y] and back. *)
Definition load_cursor (i : Z) : K () :=
  t ← get_term i;
  set_scr (λ c, c <| screen_x := t_screen_x t |> <| screen_y := t_screen_y t |>).
Definition save_cursor (i : Z) : K () :=
  x ← gets (λ s, screen_x (scr s)); y ← gets (λ s, screen_y (scr s));
  set_term i (λ t, t <| t_screen_x := u8 x |> <| t_screen_y := u8 y |>).
Definition set_video_mem (i : Z) : K () :=
  t ← get_term i; set_scr (λ c, c <| video_mem := vid_mem_addr t |>).

Definition the_process : K Z := gets (λ s, curr_process (proc s)).
Definition the_terminal : K Z := gets (λ s, curr_terminal (scr s)).

Definition clear_cell (i : Z) : K () := video_store (2 * i) 32;; video_store (2 * i + 1) ATTRIB.
Definition clear : K () := for_n (Z.to_nat (NUM_ROWS * NUM_COLS)) 0 clear_cell.

Definition enable_cursor (cursor_start cursor_end : Z) : K () := skip.

Definition update_cursor : K () :=
  temp_x ← gets (λ s, screen_x (scr s)); temp_y ← gets (λ s, screen_y (scr s));
  t ← the_terminal;
  load_cursor t;;
  x ← gets (λ s, screen_x (scr s)); y ← gets (λ s, screen_y (scr s));
  let pos := u16 (y * NUM_COLS + x) in
  outb 15 980;;
  outb (Z.land pos 255) 981;;
  outb 14 980;;
  outb (Z.land (Z.shiftr pos 8) 255) 981;;
  set_scr (λ c, c <| screen_x := temp_x |> <| screen_y := temp_y |>).

Definition reset : K () :=
  t ← the_terminal;
  load_cursor t;;
  for_n (Z.to_nat (NUM_ROWS * NUM_COLS)) 0 clear_cell;;
  set_scr (λ c, c <| screen_x := 0 |> <| screen_y := 0 |>);;
  enable_cursor 0 0;;
  save_cursor t.

Definition backspace : K () :=
  t ← the_terminal;
  load_cursor t;;
  set_video_mem t;;
  x ← gets (λ s, screen_x (scr s)); y ← gets (λ s, screen_y (scr s));
  let i := NUM_COLS * y + x - 1 in
  video_store (2 * i) 0;;
  (if (x =? 0) && negb (y =? 0) then
     set_scr (λ c, c <| screen_x := NUM_COLS - 1 |> <| screen_y := y - 1 |>)
   else if negb (x =? 0) then set_scr (λ c, c <| screen_x := x - 1 |>)
   else set_scr (λ c, c <| screen_x := 0 |> <| screen_y := 0 |>));;
  save_cursor t.

(** The common body of [enter] and [enter_user]. *)
Definition next_line : K () :=
  y ← gets (λ s, screen_y (scr s));
  (if y =? NUM_ROWS - 1
   then set_scr (λ c, c <| screen_y := NUM_ROWS - 1 |> <| scrollFlag := 1 |>)
   else set_scr (λ c, c <| screen_y := y + 1 |> <| scrollFlag := 0 |>));;
  set_scr (λ c, c <| screen_x := 0 |>).

Definition enter : K () :=
  p ← the_process; load_cursor p;; next_line;; save_cursor p.
Definition enter_user : K () :=
  t ← the_terminal; load_cursor t;; next_line;;
  set_term t (λ r, r <| enterFlag := 1 |>);;
  save_cursor t.

(** The common body of [newline_check] and [newline_check_user]. *)
Definition newline_check_at (i : Z) : K () :=
  load_cursor i;;
  y ← gets (λ s, screen_y (scr s));
  (if y =? NUM_ROWS - 1
   then set_scr (λ c, c <| screen_y := NUM_ROWS - 1 |> <| scrollFlag := 1 |>) else skip);;
  set_scr (λ c, c <| screen_x := 0 |>);;
  save_cursor i.
Definition newline_check : K () := p ← the_process; newline_check_at p.
Definition newline_check_user : K () := t ← the_terminal; newline_check_at t.

Definition get_screen_x : K Z := gets (λ s, screen_x (scr s)).
Definition get_screen_y : K Z := gets (λ s, screen_y (scr s)).
Definition set_screen_x (x : Z) : K () := set_scr (λ c, c <| screen_x := u8 x |>).
Definition set_screen_y (y : Z) : K () := set_scr (λ c, c <| screen_y := u8 y |>).

(** The inner and outer loops of the two scrolling functions. *)
Definition scroll_cell (i k l : Z) : K () :=
  let src := NUM_COLS * k + l in
  let dst := NUM_COLS * (k - 1) + l in
  set_video_mem i;;
  b ← video_load (2 * src);
  (if negb (b =? 0) then b ← video_load (2 * src); video_store (2 * dst) b else skip);;
  (if k =? NUM_ROWS - 1 then video_store (2 * src) 32 else skip).
Definition scroll_lines (i : Z) : K () :=
  for_n (Z.to_nat (NUM_ROWS - 1)) 1 (λ k, for_n (Z.to_nat NUM_COLS) 0 (scroll_cell i k)).
Definition vert_scroll_at (i : Z) : K () :=
  load_cursor i;;
  y ← gets (λ s, screen_y (scr s)); f ← gets (λ s, scrollFlag (scr s));
  (if (y =? NUM_ROWS - 1) && (f =? 1) then
     scroll_lines i;; set_scr (λ c, c <| scrollFlag := 0 |>)
   else skip);;
  update_cursor;;
  x ← gets (λ s, screen_x (scr s));
  set_term i (λ t, t <| t_screen_x := u8 x |>).
Definition vert_scroll : K () := p ← the_process; vert_scroll_at p.
Definition vert_scroll_user : K () := t ← the_terminal; vert_scroll_at t.

(** The common body of [putc] and [putc_user]. *)
Definition putc_at (i c : Z) : K () :=
  set_video_mem i;;
  load_cursor i;;
  x ← gets (λ s, screen_x (scr s)); y ← gets (λ s, screen_y (scr s));
  (if (c =? 10) || (c =? 13) then
     (if y =? NUM_ROWS - 1 then set_scr (λ r, r <| screen_y := NUM_ROWS - 1 |>)
      else set_scr (λ r, r <| screen_y := y + 1 |>));;
     set_scr (λ r, r <| screen_x := 0 |>)
   else
     video_store (2 * (NUM_COLS * y + x)) c;;
     video_store (2 * (NUM_COLS * y + x) + 1) ATTRIB;;
     let x := (x + 1) `rem` NUM_COLS in
     set_scr (λ r, r <| screen_x := x |>
                     <| screen_y := (y + x `quot` NUM_COLS) `rem` NUM_ROWS |>));;
  save_cursor i;;
  update_cursor.
Definition putc (c : Z) : K () := p ← the_process; putc_at p (u8 c).
Definition putc_user (c : Z) : K () := t ← the_terminal; putc_at t (u8 c).

(** [puts] and [printf] hand their characters to [putc] one by one. *)
Fixpoint put_chars (cs : list Z) : K () :=
  match cs with [] => skip | c :: cs => putc c;; put_chars cs end.

Definition test_interrupts : K () :=
  for_n (Z.to_nat (NUM_ROWS * NUM_COLS)) 0 (λ i, b ← video_load (2 * i); video_store (2 * i) (u8 (b + 1))).

(** [init_terminal] of [scheduler.c], with its table of video pages. *)
Definition KB_4 : Z := 4096.
Definition video_addr : list Z := [753664 + KB_4; 753664 + 2 * KB_4; 753664 + 3 * KB_4; 753664].
Definition NUM_TERM : Z := 3.
Definition init_terminal : K () :=
  for_n (Z.to_nat NUM_TERM) 0 (λ i,
    a ← lift (aget video_addr i);
    set_term i (λ t, t <| t_screen_x := 0 |> <| t_screen_y := 0 |> <| visible := 0 |>
                       <| vid_mem_addr := u32 a |> <| newline_tracker := 0 |> <| enterFlag := 0 |>));;
  set_scr (λ c, c <| curr_terminal := 0 |>);;
  set_term 0 (λ t, t <| visible := 1 |>).

(** ** Running the primitives *)
Lemma get_term_run i t s : aget (term_arr (scr s)) i = Some t → get_term i s = Some (t, s).
Proof. intros Ht. unfold get_term. by rewrite bind_gets, Ht. Qed.
Lemma set_term_run i f t s :
  aget (term_arr (scr s)) i = Some t →
  set_term i f s = Some ((), s <| scr ::= λ c, c <| term_arr := <[Z.to_nat i := f t]> (term_arr c) |> |>).
Proof.
  intros Ht. unfold set_term. rewrite bind_gets, (bind_lift _ _ _ _ Ht).
  by rewrite (bind_lift _ _ _ _ (aset_in _ i (f t) (aget_Some_range _ _ _ Ht))).
Qed.
Lemma load_cursor_run i t s :
  aget (term_arr (scr s)) i = Some t →
  load_cursor i s = Some ((), s <| scr ::= λ c, c <| screen_x := t_screen_x t |>
                                                  <| screen_y := t_screen_y t |> |>).
Proof. intros Ht. unfold load_cursor. by rewrite (bind_run _ _ _ _ _ (get_term_run _ _ _ Ht)). Qed.
Lemma set_video_mem_run i t s :
  aget (term_arr (scr s)) i = Some t →
  set_video_mem i s = Some ((), s <| scr ::= λ c, c <| video_mem := vid_mem_addr t |> |>).
Proof. intros Ht. unfold set_video_mem. by rewrite (bind_run _ _ _ _ _ (get_term_run _ _ _ Ht)). Qed.
Definition put_cursor (x y : Z) (t : terminal_t) : terminal_t :=
  t <| t_screen_x := u8 x |> <| t_screen_y := u8 y |>.
Lemma save_cursor_run i t s :
  aget (term_arr (scr s)) i = Some t →
  save_cursor i s = Some ((), s <| scr ::= λ c, c <| term_arr :=
    <[Z.to_nat i := put_cursor (screen_x c) (screen_y c) t]> (term_arr c) |> |>).
Proof. intros Ht. unfold save_cursor. rewrite !bind_gets. by erewrite set_term_run. Qed.

(** The cursor position sent to the VGA registers. *)
Definition cursor_out (t : terminal_t) : list io_event :=
  let pos := u16 (t_screen_y t * NUM_COLS + t_screen_x t) in
  [Out 980 (u8 15); Out 981 (u8 (Z.land pos 255)); Out 980 (u8 14);
   Out 981 (u8 (Z.land (Z.shiftr pos 8) 255))].
Lemma update_cursor_run t s :
  aget (term_arr (scr s)) (curr_terminal (scr s)) = Some t →
  update_cursor s = Some ((), s <| cpu ::= λ c, c <| io_log ::= λ l, l ++ cursor_out t |> |>).
Proof.
  intros Ht. unfold update_cursor, the_terminal. rewrite !bind_gets.
  rewrite (bind_run _ _ _ _ _ (load_cursor_run _ _ _ Ht)). unfold outb, set_scr.
  rewrite !bind_gets, !bind_modify. destruct s as [c ? [] ? ? ? ? ?].
  cbn. unfold modify. do 2 f_equal. cbn. f_equal. by rewrite <- !app_assoc.
Qed.
Lemma video_store_run off b p s :
  translate s (u32 (video_mem (scr s) + off)) = Some p → video_store off b s = Some ((), update p b s).
Proof. intros Hp. unfold video_store. rewrite bind_gets. by apply store8_run. Qed.
Lemma video_load_run off p s :
  translate s (u32 (video_mem (scr s) + off)) = Some p → video_load off s = Some (contents s p, s).
Proof. intros Hp. unfold video_load. rewrite bind_gets. by apply load8_run. Qed.

(** ** Well-formed screens *)
Definition page_of (i : Z) : Z := 757760 + 4096 * i.       (* 0xB9000, 0xBA000, 0xBB000 *)
Definition cursor_ok (t : terminal_t) : Prop :=
  0 ≤ t_screen_x t < NUM_COLS ∧ 0 ≤ t_screen_y t < NUM_ROWS.
(** Every terminal has its cursor on the screen and its own video page. *)
Definition terms_ok (arr : list terminal_t) : Prop :=
  length arr = 3%nat ∧
  ∀ i t, aget arr i = Some t → cursor_ok t ∧ vid_mem_addr t = page_of i.
(** The cursor of [lib.c] is on the screen. *)
Definition cursor_in (s : kstate) : Prop :=
  0 ≤ screen_x (scr s) < NUM_COLS ∧ 0 ≤ screen_y (scr s) < NUM_ROWS.
(** The four text pages, 0xB8000 to 0xBBFFF, are mapped. *)
Definition video_mapped (s : kstate) : Prop :=
  ∀ v, 753664 ≤ v < 770048 → is_Some (translate s v).

Record screen_ok (s : kstate) : Prop := {
  sok_terms : terms_ok (term_arr (scr s));
  sok_terminal : 0 ≤ curr_terminal (scr s) < 3;
  sok_process : 0 ≤ curr_process (proc s) < 3;
  sok_mapped : video_mapped s;
  sok_video : 753664 ≤ video_mem (scr s) ≤ 765952;        (* 0xB8000 .. 0xBB000 *)
  sok_cursor : cursor_in s;
}.

Lemma terms_ok_get arr i : terms_ok arr → 0 ≤ i < 3 →
  ∃ t, aget arr i = Some t ∧ cursor_ok t ∧ vid_mem_addr t = page_of i.
Proof.
  intros [Hlen Hok] Hi. destruct (proj2 (aget_is_Some arr i)) as [t Ht]; [lia|].
  exists t. split; [done|]. by apply Hok.
Qed.
Lemma terms_ok_insert arr i t t' :
  terms_ok arr → aget arr i = Some t → cursor_ok t' → vid_mem_addr t' = page_of i →
  terms_ok (<[Z.to_nat i := t']> arr).
Proof.
  intros [Hlen Hok] Ht Hc Hv. pose proof (aget_Some_range _ _ _ Ht).
  split; [by rewrite length_insert|]. intros j u Hj.
  destruct (decide (i = j)) as [<-|Hne].
  - rewrite (aget_aset_eq arr i t' _ (aset_in _ _ _ H)) in Hj. by simplify_eq.
  - rewrite (aget_aset_ne arr i j t' _ (aset_in _ _ _ H) Hne) in Hj. by apply Hok.
Qed.
Lemma put_cursor_ok x y t :
  0 ≤ x < NUM_COLS → 0 ≤ y < NUM_ROWS → cursor_ok (put_cursor x y t).
Proof.
  unfold cursor_ok, put_cursor, NUM_COLS, NUM_ROWS. intros. cbn. rewrite !u8_small by (cint; lia). done.
Qed.

(** What screen operations leave alone: everything but video memory, the screen
    variables and the port log. *)
Definition screen_frame (s s' : kstate) : Prop :=
  kbd s' = kbd s ∧ rtc s' = rtc s ∧ proc s' = proc s ∧ pic s' = pic s ∧
  fs_image s' = fs_image s ∧ curr_terminal (scr s') = curr_terminal (scr s) ∧
  (∀ usr v, translate_as usr s' v = translate_as usr s v).
#[export] Instance screen_frame_preorder : PreOrder screen_frame.
Proof.
  split.
  - intros s. by split_and!.
  - intros s1 s2 s3 (?&?&?&?&?&?&H) (?&?&?&?&?&?&H').
    split_and!; congruence.
Qed.
Lemma screen_frame_update p b s : screen_frame s (update p b s).
Proof. by split_and!. Qed.
(** [video_mem] stays where it is or moves to the page of a terminal. *)
Definition video_moved (s s' : kstate) : Prop :=
  video_mem (scr s') = video_mem (scr s) ∨ ∃ i, 0 ≤ i < 3 ∧ video_mem (scr s') = page_of i.
Lemma screen_frame_ok s s' :
  screen_frame s s' → screen_ok s → terms_ok (term_arr (scr s')) → video_moved s s' → cursor_in s' →
  screen_ok s'.
Proof.
  intros (_&_&Hp&_&_&Ht&Htr) [? ? ? Hm Hvm _] ? Hv ?. constructor; rewrite ?Hp, ?Ht; try done.
  - intros v Hr. cbn. rewrite Htr. by apply Hm.
  - destruct Hv as [-> | (i&Hi&->)]; [exact Hvm|unfold page_of; lia].
Qed.

(** The four text pages seen from a terminal's page. *)
Lemma page_mapped s i off :
  video_mapped s → 0 ≤ i < 3 → -2 ≤ off < 4096 →
  ∃ p, translate s (u32 (page_of i + off)) = Some p.
Proof.
  intros Hm Hi Ho. unfold page_of. rewrite u32_small by (cint; lia).
  destruct (Hm (757760 + 4096 * i + off)) as [p Hp]; [lia|]. by exists p.
Qed.

(** ** The cursor after each operation *)
Definition putc_cursor (c x y : Z) : Z * Z :=
  if (c =? 10) || (c =? 13) then (0, if y =? NUM_ROWS - 1 then NUM_ROWS - 1 else y + 1)
  else ((x + 1) mod NUM_COLS, y).

Lemma putc_cursor_ok c x y :
  0 ≤ x < NUM_COLS → 0 ≤ y < NUM_ROWS →
  0 ≤ (putc_cursor c x y).1 < NUM_COLS ∧ 0 ≤ (putc_cursor c x y).2 < NUM_ROWS.
Proof.
  unfold putc_cursor, NUM_COLS, NUM_ROWS. intros. destruct (_ || _); cbn -[Z.modulo].
  - destruct (y =? _) eqn:E; lia.
  - split; [apply Z.mod_pos_bound; lia|lia].
Qed.

(** [cell_addr i x y]: the virtual address of a cell of terminal [i]. *)
Definition cell_off (x y : Z) : Z := 2 * (NUM_COLS * y + x).
Definition vid_phys (s : kstate) (i off : Z) : option Z := translate s (u32 (page_of i + off)).

(** The outcome of an operation that moves the cursor of terminal [i] to [x], [y]. *)
Definition cursor_moved (s s' : kstate) (i x y : Z) : Prop :=
  ∃ t t', aget (term_arr (scr s)) i = Some t ∧
    t_screen_x t' = x ∧ t_screen_y t' = y ∧ vid_mem_addr t' = vid_mem_addr t ∧
    keyBuf t' = keyBuf t ∧ visible t' = visible t ∧ newline_tracker t' = newline_tracker t ∧
    term_arr (scr s') = <[Z.to_nat i := t']> (term_arr (scr s)) ∧
    screen_x (scr s') = x ∧ screen_y (scr s') = y ∧ video_moved s s'.

Lemma cursor_moved_ok s s' i x y :
  screen_ok s → screen_frame s s' → cursor_moved s s' i x y →
  0 ≤ x < NUM_COLS → 0 ≤ y < NUM_ROWS → screen_ok s'.
Proof.
  intros Hok Hf (t&t'&Ht&Hx&Hy&Hv&_&_&_&Harr&Hsx&Hsy&?) Hxr Hyr.
  apply (screen_frame_ok s); try done; [|by unfold cursor_in; rewrite Hsx, Hsy].
  rewrite Harr. destruct (sok_terms s Hok) as [? Hall].
  eapply terms_ok_insert; [done|exact Ht| |].
  - by split; rewrite ?Hx, ?Hy.
  - rewrite Hv. by apply Hall.
Qed.

Lemma cell_range x y : 0 ≤ x < NUM_COLS → 0 ≤ y < NUM_ROWS → 0 ≤ cell_off x y < 4000.
Proof. unfold cell_off, NUM_COLS, NUM_ROWS. lia. Qed.

(** Storing the cursor back and showing it. *)
Lemma save_show_run i t s :
  screen_ok s → 0 ≤ i < 3 → aget (term_arr (scr s)) i = Some t →
  0 ≤ screen_x (scr s) < NUM_COLS → 0 ≤ screen_y (scr s) < NUM_ROWS →
  ∃ es, (save_cursor i;; update_cursor) s = Some ((),
    s <| scr ::= λ c, c <| term_arr := <[Z.to_nat i := put_cursor (screen_x c) (screen_y c) t]> (term_arr c) |> |>
      <| cpu ::= λ c, c <| io_log ::= λ l, l ++ es |> |>).
Proof.
  intros Hok Hi Ht Hx Hy. rewrite (bind_run _ _ _ _ _ (save_cursor_run _ _ _ Ht)).
  destruct (sok_terms s Hok) as [Hlen Hall]. pose proof (Hall _ _ Ht) as [_ Hv].
  assert (terms_ok (<[Z.to_nat i := put_cursor (screen_x (scr s)) (screen_y (scr s)) t]> (term_arr (scr s)))) as Hok'
    by (apply (terms_ok_insert _ i t); [done..|by apply put_cursor_ok|done]).
  destruct (terms_ok_get _ (curr_terminal (scr s)) Hok' (sok_terminal s Hok)) as (u&Hu&_).
  exists (cursor_out u). by apply update_cursor_run.
Qed.

Lemma cursor_moved_intro (s s' : kstate) i t x y :
  aget (term_arr (scr s)) i = Some t → screen_x (scr s') = x → screen_y (scr s') = y →
  0 ≤ x < NUM_COLS → 0 ≤ y < NUM_ROWS →
  term_arr (scr s') = <[Z.to_nat i := put_cursor x y t]> (term_arr (scr s)) →
  video_moved s s' → cursor_moved s s' i x y.
Proof.
  intros Ht Hsx Hsy Hx Hy Harr Hvm. exists t, (put_cursor x y t).
  unfold NUM_COLS, NUM_ROWS in *. split_and!; try done; cbn; apply u8_small; cint; lia.
Qed.

Lemma putc_at_run i c t s :
  screen_ok s → 0 ≤ i < 3 → aget (term_arr (scr s)) i = Some t →
  let x := t_screen_x t in let y := t_screen_y t in
  ∃ s', putc_at i c s = Some ((), s') ∧ screen_frame s s' ∧
    cursor_moved s s' i (putc_cursor c x y).1 (putc_cursor c x y).2 ∧
    scrollFlag (scr s') = scrollFlag (scr s) ∧
    if (c =? 10) || (c =? 13) then ∀ q, contents s' q = contents s q
    else ∃ p0 p1, vid_phys s i (cell_off x y) = Some p0 ∧ vid_phys s i (cell_off x y + 1) = Some p1 ∧
      ∀ q, contents s' q = if decide (q = p1) then ATTRIB else if decide (q = p0) then u8 c else contents s q.
Proof.
  intros Hok Hi Ht x y. destruct (proj2 (sok_terms s Hok) i t Ht) as [[Hx Hy] Hv].
  pose proof (putc_cursor_ok c x y Hx Hy) as Hc. unfold putc_cursor in *. unfold putc_at.
  rewrite (bind_run _ _ _ _ _ (set_video_mem_run _ _ _ Ht)).
  erewrite bind_run by (apply load_cursor_run; exact Ht). rewrite !bind_gets.
  destruct s as [cp m [sx sy vm sf arr ct] kb rt pr pc im]. cbn in Ht.
  cbn -[update_cursor save_cursor video_store]. fold x y. rewrite Hv.
  set (s1 := mk_kstate cp m (mk_screen x y (page_of i) sf arr ct) kb rt pr pc im).
  destruct ((c =? 10) || (c =? 13)) eqn:Ec.
  - set (y' := if y =? NUM_ROWS - 1 then NUM_ROWS - 1 else y + 1) in *.
    set (s2 := mk_kstate cp m (mk_screen 0 y' (page_of i) sf arr ct) kb rt pr pc im).
    destruct (save_show_run i t s2) as [es Hrun]; try done; try apply Hc.
    { apply (screen_frame_ok (mk_kstate cp m (mk_screen sx sy vm sf arr ct) kb rt pr pc im)); try done;
        [apply Hok|by right; exists i]. }
    eexists. split; [|split; [|split]].
    + rewrite bind_assoc. etrans; [|exact Hrun]. unfold y', s1, s2.
      destruct (y =? NUM_ROWS - 1); reflexivity.
    + by split_and!.
    + apply (cursor_moved_intro _ _ i t); try done; try apply Hc. by right; exists i.
    + done.
  - destruct (page_mapped s1 i (cell_off x y)) as [p0 Hp0]; [apply Hok|done|pose proof (cell_range x y Hx Hy); lia|].
    destruct (page_mapped s1 i (cell_off x y + 1)) as [p1 Hp1]; [apply Hok|done|pose proof (cell_range x y Hx Hy); lia|].
    rewrite !bind_assoc. erewrite bind_run; [|apply video_store_run; exact Hp0].
    rewrite !bind_assoc. erewrite bind_run; [|apply video_store_run; exact Hp1].
    rewrite (Z.rem_mod_nonneg (x + 1)) by (unfold NUM_COLS; lia).
    rewrite Z.quot_small by apply Hc. rewrite Z.add_0_r, Z.rem_small by (unfold NUM_ROWS in *; lia).
    set (m' := mem (update p1 ATTRIB (update p0 c s1))).
    set (s2 := mk_kstate cp m' (mk_screen ((x + 1) mod NUM_COLS) y (page_of i) sf arr ct) kb rt pr pc im).
    destruct (save_show_run i t s2) as [es Hrun]; try done; try apply Hc.
    { apply (screen_frame_ok (mk_kstate cp m (mk_screen sx sy vm sf arr ct) kb rt pr pc im)); try done;
        [apply Hok|by right; exists i]. }
    eexists. split; [exact Hrun|]. split; [by split_and!|]. split; [|split].
    + apply (cursor_moved_intro _ _ i t); try done; try apply Hc. by right; exists i.
    + done.
    + exists p0, p1. split; [done|]. split; [done|]. intros q.
      change (contents (update p1 ATTRIB (update p0 c s1)) q =
        if decide (q = p1) then ATTRIB else if decide (q = p0) then u8 c else contents s1 q).
      rewrite !contents_update. by repeat case_decide.
Qed.

(** ** Scrolling *)

(** The page of terminal [i] is contiguous in physical memory. *)
Lemma page_base s i :
  video_mapped s → 0 ≤ i < 3 →
  ∃ base, ∀ off, 0 ≤ off < 4096 → vid_phys s i off = Some (base + off).
Proof.
  intros Hm Hi. destruct (page_mapped s i 0 Hm Hi) as [base Hb]; [lia|]. exists base.
  intros off Ho. unfold vid_phys, page_of in *. rewrite u32_small in * by (cint; lia).
  replace (757760 + 4096 * i + off) with (757760 + 4096 * i + 0 + off) by lia.
  apply translate_linear; [|done]. Z.div_mod_to_equations; lia.
Qed.

(** The character of cell [j] after the first [n] cells have been scrolled, from
    the characters [o]. *)
Definition scrolled_char (o : Z → Z) (n j : Z) : Z :=
  if j <? 1920 then (if j <? n then (if o (j + 80) =? 0 then o j else o (j + 80)) else o j)
  else if j - 80 <? n then 32 else o j.

(** The whole of memory, as a function of the physical address: only the
    characters (even offsets of the page at [base]) change. *)
Definition scrolled_mem (o : Z → Z) (base n q : Z) : Z :=
  if decide (0 ≤ q - base < 4000 ∧ (q - base) mod 2 = 0)
  then scrolled_char (λ j, o (base + 2 * j)) n ((q - base) / 2) else o q.

Lemma scrolled_mem_cell o base n j :
  0 ≤ j < 2000 → scrolled_mem o base n (base + 2 * j) = scrolled_char (λ j, o (base + 2 * j)) n j.
Proof.
  intros. unfold scrolled_mem. rewrite decide_True by (split; [lia|Z.div_mod_to_equations; lia]).
  f_equal. Z.div_mod_to_equations; lia.
Qed.

Lemma scrolled_mem_0 o base q : scrolled_mem o base 0 q = o q.
Proof.
  unfold scrolled_mem, scrolled_char. case_decide; [|done].
  repeat match goal with |- context [?a <? ?b] => destruct (Z.ltb_spec a b) end;
    try (Z.div_mod_to_equations; lia); f_equal; Z.div_mod_to_equations; lia.
Qed.

(** One more cell. *)
Lemma scrolled_mem_step o base n q :
  0 ≤ n < 1920 →
  scrolled_mem o base (n + 1) q =
    if decide (1840 ≤ n ∧ q = base + 2 * (n + 80)) then 32
    else if decide (o (base + 2 * (n + 80)) ≠ 0 ∧ q = base + 2 * n) then o (base + 2 * (n + 80))
    else scrolled_mem o base n q.
Proof.
  intros Hn.
  destruct (decide (0 ≤ q - base < 4000 ∧ (q - base) mod 2 = 0)) as [Hq|Hq].
  - assert (∃ j, 0 ≤ j < 2000 ∧ q = base + 2 * j) as (j&Hj&->)
      by (exists ((q - base) / 2); Z.div_mod_to_equations; lia).
    rewrite !scrolled_mem_cell by done. unfold scrolled_char.
    repeat match goal with |- context [?a <? ?b] => destruct (Z.ltb_spec a b) end; try lia;
      repeat case_decide; try lia; try done;
      try (assert (j = n) as -> by lia; destruct (Z.eqb_spec (o (base + 2 * (n + 80))) 0)); try done; lia.
  - unfold scrolled_mem. rewrite !(decide_False (P := _ ∧ (q - base) mod 2 = 0)) by done.
    rewrite !decide_False; [done|..]; intros [_ ->]; apply Hq; split; try lia; Z.div_mod_to_equations; lia.
Qed.

(** While scrolling only video memory and [video_mem] change. *)
Definition scrolling (s0 : kstate) (i base n : Z) (s : kstate) : Prop :=
  screen_frame s0 s ∧ term_arr (scr s) = term_arr (scr s0) ∧
  screen_x (scr s) = screen_x (scr s0) ∧ screen_y (scr s) = screen_y (scr s0) ∧
  cpu s = cpu s0 ∧ video_moved s0 s ∧ ∀ q, contents s q = scrolled_mem (contents s0) base n q.

Lemma scroll_cell_wp s0 i base k l s :
  screen_ok s0 → 0 ≤ i < 3 → (∀ off, 0 ≤ off < 4096 → vid_phys s0 i off = Some (base + off)) →
  1 ≤ k < 25 → 0 ≤ l < 80 →
  scrolling s0 i base (80 * (k - 1) + l) s →
  wp (scroll_cell i k l) (λ _, scrolling s0 i base (80 * (k - 1) + l + 1)) s.
Proof.
  intros Hok Hi Hbase Hk Hl (Hf&Harr&Hx&Hy&Hcpu&Hvm&Hmem).
  set (n := 80 * (k - 1) + l) in *. assert (0 ≤ n < 1920) by lia.
  destruct (terms_ok_get _ i (sok_terms s0 Hok) Hi) as (t&Ht&_&Hv). rewrite <- Harr in Ht.
  unfold scroll_cell, NUM_COLS, NUM_ROWS. replace (80 * (k - 1) + l) with n by done.
  replace (80 * k + l) with (n + 80) by lia.
  set (s1 := s <| scr ::= λ c, c <| video_mem := vid_mem_addr t |> |>).
  assert (Htr : ∀ off, 0 ≤ off < 4096 → ∀ m, translate
    (s1 <| mem ::= λ m', m' <| phys := m |> |>) (u32 (vid_mem_addr t + off)) = Some (base + off)).
  { intros off Ho m. rewrite Hv, <- (Hbase off Ho). unfold vid_phys. destruct Hf as (_&_&_&_&_&_&Hf).
    apply (Hf false). }
  assert (H1 : ∀ m j, 0 ≤ j < 2000 → translate (s1 <| mem ::= λ m', m' <| phys := m |> |>)
    (u32 (video_mem (scr s1) + 2 * j)) = Some (base + 2 * j)) by (intros; apply Htr; lia).
  assert (Hs1 : s1 = s1 <| mem ::= λ m', m' <| phys := phys (mem s1) |> |>) by by destruct s as [? [] ? ? ? ? ? ?].
  assert (Hld : video_load (2 * (n + 80)) s1 = Some (contents s0 (base + 2 * (n + 80)), s1)).
  { rewrite (video_load_run _ (base + 2 * (n + 80))); [|rewrite Hs1; apply H1; lia].
    do 2 f_equal. etrans; [apply Hmem|]. rewrite scrolled_mem_cell by lia. unfold scrolled_char.
    repeat match goal with |- context [?a <? ?b] => destruct (Z.ltb_spec a b) end; try lia; done. }
  apply wp_bind. unfold wp at 1. rewrite (set_video_mem_run _ _ _ Ht).
  apply wp_bind. unfold wp at 1. fold s1. rewrite Hld.
  set (b := contents s0 (base + 2 * (n + 80))) in *.
  assert (Hst : ∃ s2, (if negb (b =? 0) then b ← video_load (2 * (n + 80)); video_store (2 * n) b else skip) s1
    = Some ((), s2) ∧ (∃ m, s2 = s1 <| mem ::= λ m', m' <| phys := m |> |>) ∧
    ∀ q, contents s2 q = if decide (b ≠ 0 ∧ q = base + 2 * n) then b else contents s1 q).
  { destruct (Z.eqb_spec b 0) as [Hb|Hb]; cbn [negb].
    - exists s1. split; [done|]. split; [by exists (phys (mem s1))|].
      intros q. by rewrite decide_False by naive_solver.
    - rewrite (bind_run _ _ _ _ _ Hld).
      rewrite (video_store_run _ _ (base + 2 * n)); [|rewrite Hs1; apply H1; lia].
      eexists. split; [done|]. split; [by eexists|]. intros q. rewrite contents_update.
      rewrite u8_small by apply contents_u8. repeat case_decide; naive_solver. }
  destruct Hst as (s2&Hrun2&(m2&Hs2)&Hc2). apply wp_bind. unfold wp at 1. rewrite Hrun2.
  assert (Hfin : ∀ s3 m3, s3 = s1 <| mem ::= λ m', m' <| phys := m3 |> |> →
    (∀ q, contents s3 q = scrolled_mem (contents s0) base (n + 1) q) → scrolling s0 i base (n + 1) s3).
  { intros s3 m3 -> Hm. destruct Hf as (?&?&?&?&?&?&?). split_and!; try done.
    right. by exists i. }
  destruct (Z.eqb_spec k (25 - 1)) as [Hk24|Hk24].
  - unfold wp. rewrite (video_store_run _ _ (base + 2 * (n + 80))); [|rewrite Hs2; apply H1; lia].
    apply (Hfin _ (<[base + 2 * (n + 80) := 32]> m2)); [by subst s2|].
    intros q. rewrite contents_update, scrolled_mem_step, Hc2 by done. fold b.
    change (contents s1 q) with (contents s q). rewrite Hmem.
    repeat case_decide; try done; naive_solver lia.
  - apply wp_skip. apply (Hfin _ m2 Hs2). intros q. rewrite scrolled_mem_step, Hc2 by done. fold b.
    change (contents s1 q) with (contents s q). rewrite Hmem.
    repeat case_decide; try done; naive_solver lia.
Qed.

Lemma scrolling_eq s0 i base n n' s : n = n' → scrolling s0 i base n s → scrolling s0 i base n' s.
Proof. by intros ->. Qed.

Lemma scroll_lines_wp s0 i base s :
  screen_ok s0 → 0 ≤ i < 3 → (∀ off, 0 ≤ off < 4096 → vid_phys s0 i off = Some (base + off)) →
  scrolling s0 i base 0 s → wp (scroll_lines i) (λ _, scrolling s0 i base 1920) s.
Proof.
  intros Hok Hi Hbase Hs. unfold scroll_lines.
  apply (wp_for (λ k, scrolling s0 i base (80 * (k - 1))) 24 1); [by eapply scrolling_eq, Hs|].
  intros k s1 Hk Hs1.
  eapply wp_mono; [apply (wp_for (λ l, scrolling s0 i base (80 * (k - 1) + l)) 80 0)|].
  - by eapply scrolling_eq, Hs1; lia.
  - intros l s2 Hl Hs2. eapply wp_mono; [apply (scroll_cell_wp s0 i base); try done; lia|].
    intros [] s3. apply scrolling_eq. lia.
  - intros [] s3. apply scrolling_eq. lia.
Qed.

Lemma insert_same {A} (l : list A) i x : aget l i = Some x → <[Z.to_nat i := x]> l = l.
Proof.
  intros H. pose proof (aget_Some_range _ _ _ H). rewrite aget_nonneg in H by lia.
  by apply list_insert_id.
Qed.

(** The end of the scrolling functions: the cursor is where it was. *)
Lemma scroll_end_run i t s :
  screen_ok s → 0 ≤ i < 3 → aget (term_arr (scr s)) i = Some t → screen_x (scr s) = t_screen_x t →
  ∃ es, (update_cursor;; x ← gets (λ s, screen_x (scr s)); set_term i (λ t, t <| t_screen_x := u8 x |>)) s
    = Some ((), s <| cpu ::= λ c, c <| io_log ::= λ l, l ++ es |> |>).
Proof.
  intros Hok Hi Ht Hx. destruct (sok_terms s Hok) as [Hlen Hall]. destruct (Hall _ _ Ht) as [[Hxr _] _].
  destruct (terms_ok_get _ (curr_terminal (scr s)) (sok_terms s Hok) (sok_terminal s Hok)) as (u&Hu&_).
  exists (cursor_out u). rewrite (bind_run _ _ _ _ _ (update_cursor_run _ _ Hu)), bind_gets.
  erewrite set_term_run by exact Ht.
  do 2 f_equal. destruct s as [c m [sx sy vm sf arr ct] kb rt pr pc im]. cbn in *. subst sx.
  unfold NUM_COLS in *. rewrite u8_small by (cint; lia).
  f_equal. f_equal. rewrite <- (insert_same arr i t Ht) at 2. by destruct t.
Qed.

(** [vert_scroll]: when the cursor is on the last line and a scroll is due. *)
Lemma vert_scroll_at_run i t s :
  screen_ok s → 0 ≤ i < 3 → aget (term_arr (scr s)) i = Some t →
  ∃ s' base, vert_scroll_at i s = Some ((), s') ∧ screen_frame s s' ∧ term_arr (scr s') = term_arr (scr s) ∧
    screen_x (scr s') = t_screen_x t ∧ screen_y (scr s') = t_screen_y t ∧ video_moved s s' ∧
    (∀ off, 0 ≤ off < 4096 → vid_phys s i off = Some (base + off)) ∧
    (if decide (t_screen_y t = NUM_ROWS - 1 ∧ scrollFlag (scr s) = 1)
     then scrollFlag (scr s') = 0 ∧ ∀ q, contents s' q = scrolled_mem (contents s) base 1920 q
     else scrollFlag (scr s') = scrollFlag (scr s) ∧ ∀ q, contents s' q = contents s q).
Proof.
  intros Hok Hi Ht. destruct (page_base s i (sok_mapped s Hok) Hi) as [base Hbase].
  unfold vert_scroll_at. erewrite bind_run by (apply load_cursor_run; exact Ht).
  set (s1 := s <| scr ::= _ |>). rewrite !bind_gets.
  change (screen_y (scr s1)) with (t_screen_y t). change (scrollFlag (scr s1)) with (scrollFlag (scr s)).
  pose proof (proj1 (proj2 (sok_terms s Hok) i t Ht)) as Hct.
  assert (Hs1 : screen_ok s1) by (apply (screen_frame_ok s); try done; [apply Hok|by left]).
  destruct (decide (t_screen_y t = NUM_ROWS - 1 ∧ scrollFlag (scr s) = 1)) as [[Ey Es]|Hno].
  - rewrite Ey, Es, !Z.eqb_refl. cbn [andb].
    pose proof (scroll_lines_wp s1 i base s1 Hs1 Hi Hbase) as Hscroll.
    apply wp_run in Hscroll as ([]&s2&Hrun&Hf&Harr&Hx&Hy&Hcpu&Hvm&Hm).
    2: { split_and!; try done; [by left|]. intros q. by rewrite scrolled_mem_0. }
    rewrite bind_assoc, (bind_run _ _ _ _ _ Hrun). unfold set_scr. rewrite bind_modify.
    set (s3 := s2 <| scr ::= _ |>).
    assert (screen_frame s s3) as Hf3 by (etrans; [|etrans; [exact Hf|]]; by split_and!).
    assert (screen_ok s3) as Hok3.
    { apply (screen_frame_ok s); try done. change (term_arr (scr s3)) with (term_arr (scr s2)).
        * rewrite Harr. apply Hok.
        * unfold cursor_in. change (screen_x (scr s3)) with (screen_x (scr s2)).
          change (screen_y (scr s3)) with (screen_y (scr s2)). by rewrite Hx, Hy. }
    destruct (scroll_end_run i t s3 Hok3 Hi) as [es Hend];
      [by change (term_arr (scr s3)) with (term_arr (scr s2)); rewrite Harr|exact Hx|].
    eexists _, base. split; [exact Hend|]. split; [etrans; [exact Hf3|by split_and!]|].
    split; [exact Harr|]. split; [exact Hx|].
    split; [by etrans; [exact Hy|]|]. split; [exact Hvm|]. split; [done|]. split; [done|].
    intros q. exact (Hm q).
  - assert (((t_screen_y t =? NUM_ROWS - 1) && (scrollFlag (scr s) =? 1)) = false) as ->
      by (destruct (Z.eqb_spec (t_screen_y t) (NUM_ROWS - 1)), (Z.eqb_spec (scrollFlag (scr s)) 1); naive_solver).
    rewrite bind_skip. destruct (scroll_end_run i t s1) as [es Hend]; try done.
    eexists _, base. split; [exact Hend|]. split_and!; try done. by left.
Qed.

(** ** The other operations *)

(** Storing a new cursor for terminal [i], possibly with another change of it. *)
Lemma save_cursor_moved i t s s0 :
  screen_ok s0 → screen_frame s0 s → 0 ≤ i < 3 →
  aget (term_arr (scr s0)) i = Some t → term_arr (scr s) = term_arr (scr s0) → video_moved s0 s →
  0 ≤ screen_x (scr s) < NUM_COLS → 0 ≤ screen_y (scr s) < NUM_ROWS →
  ∃ s', save_cursor i s = Some ((), s') ∧ screen_frame s0 s' ∧
    cursor_moved s0 s' i (screen_x (scr s)) (screen_y (scr s)) ∧
    scrollFlag (scr s') = scrollFlag (scr s) ∧ ∀ q, contents s' q = contents s q.
Proof.
  intros Hok Hf Hi Ht Harr Hvm Hx Hy. pose proof Ht as Ht'. rewrite <- Harr in Ht'.
  eexists. split; [by apply save_cursor_run|]. split; [etrans; [exact Hf|by split_and!]|].
  split; [|done]. apply (cursor_moved_intro _ _ i t); try done. cbn. by rewrite Harr.
Qed.

Definition next_row (y : Z) : Z := if y =? NUM_ROWS - 1 then NUM_ROWS - 1 else y + 1.
Lemma next_row_ok y : 0 ≤ y < NUM_ROWS → 0 ≤ next_row y < NUM_ROWS.
Proof. unfold next_row, NUM_ROWS. destruct (Z.eqb_spec y (25 - 1)); lia. Qed.

Lemma next_line_run s :
  next_line s = Some ((), s <| scr ::= λ c, c <| screen_x := 0 |> <| screen_y := next_row (screen_y c) |>
    <| scrollFlag := Z_of_bool (screen_y c =? NUM_ROWS - 1) |> |>).
Proof.
  unfold next_line, next_row. rewrite bind_gets. unfold set_scr.
  destruct s as [? ? [] ? ? ? ? ?]. cbn -[Z.eqb NUM_ROWS]. by destruct (_ =? _).
Qed.

Lemma enter_at_run i t s :
  screen_ok s → 0 ≤ i < 3 → aget (term_arr (scr s)) i = Some t →
  ∃ s', (load_cursor i;; next_line;; save_cursor i) s = Some ((), s') ∧ screen_frame s s' ∧
    cursor_moved s s' i 0 (next_row (t_screen_y t)) ∧
    scrollFlag (scr s') = Z_of_bool (t_screen_y t =? NUM_ROWS - 1) ∧ ∀ q, contents s' q = contents s q.
Proof.
  intros Hok Hi Ht. destruct (proj2 (sok_terms s Hok) i t Ht) as [[Hx Hy] Hv].
  erewrite bind_run by (apply load_cursor_run; exact Ht).
  rewrite (bind_run _ _ _ _ _ (next_line_run _)).
  match goal with |- context [save_cursor i ?s1] =>
    destruct (save_cursor_moved i t s1 s) as (s'&Hrun) end;
    try done; [by left|by apply next_row_ok|by exists s'].
Qed.

Lemma enter_user_run t s :
  screen_ok s → aget (term_arr (scr s)) (curr_terminal (scr s)) = Some t →
  ∃ s', enter_user s = Some ((), s') ∧ screen_frame s s' ∧
    cursor_moved s s' (curr_terminal (scr s)) 0 (next_row (t_screen_y t)) ∧
    scrollFlag (scr s') = Z_of_bool (t_screen_y t =? NUM_ROWS - 1) ∧
    (∃ t', aget (term_arr (scr s')) (curr_terminal (scr s)) = Some t' ∧ enterFlag t' = 1) ∧
    ∀ q, contents s' q = contents s q.
Proof.
  intros Hok Ht. destruct (proj2 (sok_terms s Hok) _ t Ht) as [[Hx Hy] Hv].
  pose proof (sok_terminal s Hok) as Hi. set (i := curr_terminal (scr s)) in *.
  unfold enter_user, the_terminal. rewrite bind_gets. fold i.
  erewrite bind_run by (apply load_cursor_run; exact Ht).
  rewrite (bind_run _ _ _ _ _ (next_line_run _)).
  erewrite bind_run by (apply set_term_run; exact Ht).
  pose proof (aget_Some_range _ _ _ Ht) as Hr. pose proof (next_row_ok _ Hy) as Hn.
  eexists. split; [apply save_cursor_run; cbn; apply aget_aset_eq with (l := term_arr (scr s)), aset_in; exact Hr|].
  split; [by split_and!|]. unfold NUM_ROWS in *. split; [|split; [done|split; [|done]]].
  - exists t, (put_cursor 0 (next_row (t_screen_y t)) (t <| enterFlag := 1 |>)).
    split_and!; try done; [by apply u8_small; cint; lia| |by left].
    cbn -[next_row put_cursor]. by rewrite list_insert_insert_eq.
  - eexists. cbn. rewrite list_insert_insert_eq. split; [apply (aget_aset_eq (term_arr (scr s))), aset_in, Hr|done].
Qed.

Lemma newline_check_at_run i t s :
  screen_ok s → 0 ≤ i < 3 → aget (term_arr (scr s)) i = Some t →
  ∃ s', newline_check_at i s = Some ((), s') ∧ screen_frame s s' ∧
    cursor_moved s s' i 0 (t_screen_y t) ∧
    scrollFlag (scr s') = (if t_screen_y t =? NUM_ROWS - 1 then 1 else scrollFlag (scr s)) ∧
    ∀ q, contents s' q = contents s q.
Proof.
  intros Hok Hi Ht. destruct (proj2 (sok_terms s Hok) i t Ht) as [[Hx Hy] Hv].
  unfold newline_check_at. erewrite bind_run by (apply load_cursor_run; exact Ht). rewrite bind_gets.
  change (screen_y (scr (s <| scr ::= _ |>))) with (t_screen_y t).
  destruct (Z.eqb_spec (t_screen_y t) (NUM_ROWS - 1)) as [E|E]; unfold set_scr;
    rewrite ?bind_skip, !bind_modify.
  - rewrite E. match goal with |- context [save_cursor i ?s1] =>
      destruct (save_cursor_moved i t s1 s) as (s'&Hrun) end; try done; [by left|by exists s'].
  - match goal with |- context [save_cursor i ?s1] =>
      destruct (save_cursor_moved i t s1 s) as (s'&Hrun) end; try done; [by left|by exists s'].
Qed.

(** The cursor after [backspace]. *)
Definition back_cursor (x y : Z) : Z * Z :=
  if (x =? 0) && negb (y =? 0) then (NUM_COLS - 1, y - 1)
  else if negb (x =? 0) then (x - 1, y) else (0, 0).

Lemma back_cursor_ok x y :
  0 ≤ x < NUM_COLS → 0 ≤ y < NUM_ROWS →
  0 ≤ (back_cursor x y).1 < NUM_COLS ∧ 0 ≤ (back_cursor x y).2 < NUM_ROWS.
Proof.
  unfold back_cursor, NUM_COLS, NUM_ROWS. intros.
  destruct (Z.eqb_spec x 0), (Z.eqb_spec y 0); cbn; lia.
Qed.

Lemma backspace_run t s :
  screen_ok s → aget (term_arr (scr s)) (curr_terminal (scr s)) = Some t →
  let x := t_screen_x t in let y := t_screen_y t in
  ∃ s' p, backspace s = Some ((), s') ∧ screen_frame s s' ∧
    cursor_moved s s' (curr_terminal (scr s)) (back_cursor x y).1 (back_cursor x y).2 ∧
    scrollFlag (scr s') = scrollFlag (scr s) ∧
    vid_phys s (curr_terminal (scr s)) (cell_off x y - 2) = Some p ∧
    ∀ q, contents s' q = if decide (q = p) then 0 else contents s q.
Proof.
  intros Hok Ht x y. destruct (proj2 (sok_terms s Hok) _ t Ht) as [[Hx Hy] Hv].
  pose proof (sok_terminal s Hok) as Hi. set (i := curr_terminal (scr s)) in *.
  pose proof (back_cursor_ok x y Hx Hy) as Hb. pose proof (cell_range x y Hx Hy) as Hc.
  unfold backspace, the_terminal. rewrite bind_gets. fold i.
  erewrite bind_run by (apply load_cursor_run; exact Ht).
  erewrite bind_run by (apply set_video_mem_run; exact Ht). rewrite !bind_gets, Hv.
  set (s1 := (s <| scr ::= _ |>) <| scr ::= _ |>).
  destruct (page_mapped s1 i (cell_off x y - 2)) as [p Hp]; [apply Hok|done|lia|].
  change (screen_x (scr s1)) with x. change (screen_y (scr s1)) with y.
  replace (2 * (NUM_COLS * y + x - 1)) with (cell_off x y - 2) by (unfold cell_off; lia).
  erewrite bind_run by (apply video_store_run; exact Hp).
  set (s2 := update p 0 s1).
  assert (Hcur : ∃ s3, (if (x =? 0) && negb (y =? 0)
      then set_scr (λ c, c <| screen_x := NUM_COLS - 1 |> <| screen_y := y - 1 |>)
      else if negb (x =? 0) then set_scr (λ c, c <| screen_x := x - 1 |>)
      else set_scr (λ c, c <| screen_x := 0 |> <| screen_y := 0 |>)) s2 = Some ((), s3) ∧
    screen_frame s2 s3 ∧ term_arr (scr s3) = term_arr (scr s) ∧ video_mem (scr s3) = page_of i ∧
    scrollFlag (scr s3) = scrollFlag (scr s) ∧ mem s3 = mem s2 ∧
    screen_x (scr s3) = (back_cursor x y).1 ∧ screen_y (scr s3) = (back_cursor x y).2).
  { unfold back_cursor, set_scr, modify.
    destruct ((x =? 0) && negb (y =? 0)); [|destruct (negb (x =? 0))]; by eexists. }
  destruct Hcur as (s3&Hrun&Hf3&Harr3&Hvm3&Hsf3&Hm3&Hx3&Hy3).
  rewrite (bind_run _ _ _ _ _ Hrun), <- Hx3, <- Hy3. rewrite <- Hx3, <- Hy3 in Hb.
  destruct (save_cursor_moved i t s3 s) as (s'&Hrun'&Hf'&Hmv&Hsf'&Hm'); try done; try apply Hb.
  { right. by exists i. }
  exists s', p. split; [done|]. split; [done|]. split; [done|]. split; [congruence|]. split; [done|].
  intros q. rewrite Hm'. change (contents s3 q) with (u8 (default 0 (phys (mem s3) !! q))). rewrite Hm3.
  change (contents (update p 0 s1) q = if decide (q = p) then 0 else contents s1 q).
  by rewrite contents_update.
Qed.

(** Clearing 2000 cells from [video_mem]. *)
Lemma clear_cells_run s :
  screen_ok s →
  ∃ s', for_n (Z.to_nat (NUM_ROWS * NUM_COLS)) 0 clear_cell s = Some ((), s') ∧
    screen_frame s s' ∧ scr s' = scr s ∧ cpu s' = cpu s.
Proof.
  intros Hok. assert (wp (for_n (Z.to_nat (NUM_ROWS * NUM_COLS)) 0 clear_cell)
    (λ _ s', screen_frame s s' ∧ scr s' = scr s ∧ cpu s' = cpu s) s) as H.
  { apply (wp_for (λ _ s', screen_frame s s' ∧ scr s' = scr s ∧ cpu s' = cpu s)); [done|].
    intros i s1 Hi (Hf&Hs&Hc). change (Z.of_nat (Z.to_nat (NUM_ROWS * NUM_COLS))) with 2000 in Hi.
    assert (Hp : ∀ off, 0 ≤ off < 4000 → ∃ p, translate s1 (u32 (video_mem (scr s1) + off)) = Some p).
    { intros off Ho. pose proof (sok_video s Hok). rewrite Hs, u32_small by (cint; lia).
      destruct (sok_mapped s Hok (video_mem (scr s) + off)) as [p Hp]; [lia|].
      exists p. destruct Hf as (_&_&_&_&_&_&Htr). cbn. by rewrite Htr. }
    destruct (Hp (2 * i)) as [p0 Hp0]; [lia|]. destruct (Hp (2 * i + 1)) as [p1 Hp1]; [lia|].
    unfold wp, clear_cell. rewrite (bind_run _ _ _ _ _ (video_store_run _ _ _ _ Hp0)).
    erewrite video_store_run by exact Hp1. split; [|done].
    etrans; [exact Hf|]. by split_and!. }
  apply wp_run in H as ([]&s'&Hrun&?). by exists s'.
Qed.

Lemma reset_run s :
  screen_ok s → ∃ s', reset s = Some ((), s') ∧ screen_frame s s' ∧
    cursor_moved s s' (curr_terminal (scr s)) 0 0 ∧ scrollFlag (scr s') = scrollFlag (scr s).
Proof.
  intros Hok. pose proof (sok_terminal s Hok) as Hi.
  destruct (terms_ok_get _ _ (sok_terms s Hok) Hi) as (t&Ht&Hct&_).
  unfold reset, the_terminal. rewrite bind_gets. erewrite bind_run by (apply load_cursor_run; exact Ht).
  set (s1 := s <| scr ::= _ |>).
  assert (screen_ok s1) as Hok1 by (apply (screen_frame_ok s); try done; [apply Hok|by left]).
  destruct (clear_cells_run s1 Hok1) as (s2&Hrun&Hf&Hs&Hc).
  rewrite (bind_run _ _ _ _ _ Hrun). unfold set_scr, enable_cursor. rewrite bind_modify, bind_skip.
  set (s3 := s2 <| scr ::= _ |>).
  assert (screen_frame s s3) as Hf3 by (etrans; [|etrans; [exact Hf|]]; by split_and!).
  destruct (save_cursor_moved (curr_terminal (scr s)) t s3 s) as (s'&Hrun'&Hf'&Hmv&Hsf&_); try done.
  - change (term_arr (scr s3)) with (term_arr (scr s2)). by rewrite Hs.
  - left. change (video_mem (scr s3)) with (video_mem (scr s2)). by rewrite Hs.
  - exists s'. split; [done|]. split; [done|]. split; [done|]. rewrite Hsf.
    change (scrollFlag (scr s3)) with (scrollFlag (scr s2)). by rewrite Hs.
Qed.

(** ** Sequences of screen operations *)
Inductive screen_op :=
  | OPutc (c : Z) | OPutcUser (c : Z) | OEnter | OEnterUser | ONewlineCheck | ONewlineCheckUser
  | OScroll | OScrollUser | OBackspace | OReset | OUpdateCursor.
Definition run_op (o : screen_op) : K () :=
  match o with
  | OPutc c => putc c | OPutcUser c => putc_user c
  | OEnter => enter | OEnterUser => enter_user
  | ONewlineCheck => newline_check | ONewlineCheckUser => newline_check_user
  | OScroll => vert_scroll | OScrollUser => vert_scroll_user
  | OBackspace => backspace | OReset => reset | OUpdateCursor => update_cursor
  end.
Fixpoint run_ops (os : list screen_op) : K () :=
  match os with [] => skip | o :: os => run_op o;; run_ops os end.

(** A step that keeps the screen well formed. *)
Definition screen_step (s s' : kstate) : Prop := screen_ok s' ∧ screen_frame s s'.

Lemma cursor_moved_step s s' i x y :
  screen_ok s → screen_frame s s' → cursor_moved s s' i x y →
  0 ≤ x < NUM_COLS → 0 ≤ y < NUM_ROWS → screen_step s s'.
Proof. intros. split; [by eapply cursor_moved_ok|done]. Qed.

Lemma vert_scroll_step i s :
  screen_ok s → 0 ≤ i < 3 → ∃ s', vert_scroll_at i s = Some ((), s') ∧ screen_step s s'.
Proof.
  intros Hok Hi. destruct (terms_ok_get _ _ (sok_terms s Hok) Hi) as (t&Ht&Hct&_).
  destruct (vert_scroll_at_run i t s Hok Hi Ht) as (s'&base&Hrun&Hf&Harr&Hx&Hy&Hvm&_).
  exists s'. split; [done|]. split; [|done].
  apply (screen_frame_ok s); try done; [rewrite Harr; apply Hok|]. unfold cursor_in. by rewrite Hx, Hy.
Qed.

Lemma putc_at_step i c s :
  screen_ok s → 0 ≤ i < 3 → ∃ s', putc_at i c s = Some ((), s') ∧ screen_step s s'.
Proof.
  intros Hok Hi. destruct (terms_ok_get _ _ (sok_terms s Hok) Hi) as (t&Ht&[Hx Hy]&_).
  destruct (putc_at_run i c t s Hok Hi Ht) as (s'&Hrun&Hf&Hmv&_). exists s'. split; [done|].
  destruct (putc_cursor_ok c _ _ Hx Hy). by eapply cursor_moved_step.
Qed.

Lemma run_op_step o s : screen_ok s → ∃ s', run_op o s = Some ((), s') ∧ screen_step s s'.
Proof.
  intros Hok. pose proof (sok_terminal s Hok) as Hct. pose proof (sok_process s Hok) as Hcp.
  destruct (terms_ok_get _ _ (sok_terms s Hok) Hct) as (t&Ht&[Hx Hy]&_).
  destruct (terms_ok_get _ _ (sok_terms s Hok) Hcp) as (p&Hp&[Hpx Hpy]&_).
  assert (0 ≤ 0 < NUM_COLS ∧ 0 ≤ 0 < NUM_ROWS) as [? ?] by (unfold NUM_COLS, NUM_ROWS; lia).
  destruct o; cbn [run_op]; unfold putc, putc_user, enter, newline_check, newline_check_user,
    vert_scroll, vert_scroll_user, the_process, the_terminal; rewrite ?bind_gets;
    auto using putc_at_step, vert_scroll_step.
  - destruct (enter_at_run _ p s Hok Hcp Hp) as (s'&Hrun&Hf&Hmv&_). exists s'. split; [done|].
    pose proof (next_row_ok _ Hpy). by eapply cursor_moved_step.
  - destruct (enter_user_run t s Hok Ht) as (s'&Hrun&Hf&Hmv&_). exists s'. split; [done|].
    pose proof (next_row_ok _ Hy). by eapply cursor_moved_step.
  - destruct (newline_check_at_run _ p s Hok Hcp Hp) as (s'&Hrun&Hf&Hmv&_). exists s'. split; [done|].
    by eapply cursor_moved_step.
  - destruct (newline_check_at_run _ t s Hok Hct Ht) as (s'&Hrun&Hf&Hmv&_). exists s'. split; [done|].
    by eapply cursor_moved_step.
  - destruct (backspace_run t s Hok Ht) as (s'&q&Hrun&Hf&Hmv&_). exists s'. split; [done|].
    destruct (back_cursor_ok _ _ Hx Hy). by eapply cursor_moved_step.
  - destruct (reset_run s Hok) as (s'&Hrun&Hf&Hmv&_). exists s'. split; [done|].
    by eapply cursor_moved_step.
  - eexists. split; [by apply update_cursor_run|]. split; [|by split_and!].
    apply (screen_frame_ok s); try done; [apply Hok|by left|apply Hok].
Qed.

(** ** A concrete screen: three terminals over untranslated memory, the displayed
    one with its cursor at [x], [y] *)
Definition demo_terminal (i x y vis : Z) : terminal_t :=
  mk_terminal x y (replicate 127 0) vis (page_of i) 0 0.
Definition demo_state (x y flag : Z) : kstate :=
  (boot_state []) <| scr := mk_screen 0 0 753664 flag
    [demo_terminal 0 x y 1; demo_terminal 1 0 0 0; demo_terminal 2 0 0 0] 0 |>.
Lemma demo_ok x y flag :
  0 ≤ x < NUM_COLS → 0 ≤ y < NUM_ROWS → screen_ok (demo_state x y flag).
Proof.
  intros Hx Hy. constructor; cbn -[translate]; try lia.
  - split; [done|]. intros i t Ht. pose proof (aget_Some_range _ _ _ Ht) as Hi. cbn in Hi.
    assert (i = 0 ∨ i = 1 ∨ i = 2) as [-> | [-> | ->]] by lia; vm_compute in Ht;
      injection Ht as <-; (split; [|done]); unfold cursor_ok, NUM_COLS, NUM_ROWS in *; cbn; lia.
  - intros v Hv. exists v. cbn. unfold translate_as.
    destruct (Z.leb_spec 0 v), (Z.ltb_spec v 4294967296); lia || done.
  - unfold cursor_in, NUM_COLS, NUM_ROWS. cbn. lia.
Qed.

(** ** Correctness *)



(** On the last line with a scroll due, [vert_scroll_user] moves every row
    up by one and blanks the last row with spaces, with one exception: a cell
    whose source character is NUL keeps its old character.  Attributes and all
    other memory are unchanged, and the scroll is no longer due. *)
Lemma vert_scroll_user_shifts s t :
  screen_ok s → aget (term_arr (scr s)) (curr_terminal (scr s)) = Some t →
  t_screen_y t = NUM_ROWS - 1 → scrollFlag (scr s) = 1 →
  ∃ s' base, vert_scroll_user s = Some ((), s') ∧ screen_ok s' ∧ scrollFlag (scr s') = 0 ∧
    (∀ off, 0 ≤ off < 4096 → vid_phys s (curr_terminal (scr s)) off = Some (base + off)) ∧
    (∀ x y, 0 ≤ x < NUM_COLS → 0 ≤ y < NUM_ROWS →
       let cell y := contents s (base + cell_off x y) in
       contents s' (base + cell_off x y) =
         if y =? NUM_ROWS - 1 then 32 else if cell (y + 1) =? 0 then cell y else cell (y + 1)) ∧
    ∀ q, (∀ x y, 0 ≤ x < NUM_COLS → 0 ≤ y < NUM_ROWS → q ≠ base + cell_off x y) →
      contents s' q = contents s q.
Proof.
  intros Hok Ht Hy Hf. pose proof (sok_terminal s Hok) as Hi.
  destruct (vert_scroll_at_run _ t s Hok Hi Ht) as (s'&base&Hrun&Hfr&Harr&Hsx&Hsy&Hvm&Hbase&Hm).
  rewrite decide_True in Hm by done. destruct Hm as [Hsf Hm].
  exists s', base. split; [done|]. split.
  { apply (screen_frame_ok s); try done; [rewrite Harr; apply Hok|].
    unfold cursor_in. rewrite Hsx, Hsy. by apply (proj2 (sok_terms s Hok) _ t Ht). }
  split; [done|]. split; [done|]. unfold cell_off, NUM_COLS, NUM_ROWS in *. split.
  - intros x y Hx Hyr. cbn zeta. rewrite Hm, scrolled_mem_cell by lia. unfold scrolled_char.
    replace (80 * y + x + 80) with (80 * (y + 1) + x) by lia.
    destruct (Z.eqb_spec y (25 - 1)), (Z.ltb_spec (80 * y + x) 1920), (Z.ltb_spec (80 * y + x - 80) 1920);
      try lia; done.
  - intros q Hq. rewrite Hm. unfold scrolled_mem. rewrite decide_False; [done|].
    intros [Hr Hev]. apply (Hq (((q - base) / 2) mod 80) ((q - base) / 2 / 80));
      Z.div_mod_to_equations; lia.
Qed.

Lemma vert_scroll_user_shifts_witness :
  ∃ s', vert_scroll_user (demo_state 0 24 1) = Some ((), s') ∧ scrollFlag (scr s') = 0 ∧
    contents s' (757760 + cell_off 5 24) = 32.
Proof.
  destruct (vert_scroll_user_shifts (demo_state 0 24 1) (demo_terminal 0 0 24 1))
    as (s'&base&Hrun&_&Hf&Hb&Hc&_); try reflexivity.
  - apply demo_ok; unfold NUM_COLS, NUM_ROWS; lia.
  - exists s'. split; [exact Hrun|]. split; [exact Hf|].
    specialize (Hb 0 ltac:(lia)). vm_compute in Hb. injection Hb as Hb.
    replace 757760 with base by (destruct base; congruence).
    rewrite Hc by (unfold NUM_COLS, NUM_ROWS; lia). reflexivity.
Defined.

(** [putc_user] of a printable character writes it, with the default
    attribute, in the cell under the cursor of the displayed terminal and nowhere
    else, and moves the cursor one column right, or back to column 0 of the same
    row from the last column; a newline or carriage return writes nothing and
    moves to the next row, the last row excepted. *)
Lemma putc_user_cell c s t :
  screen_ok s → aget (term_arr (scr s)) (curr_terminal (scr s)) = Some t →
  let x := t_screen_x t in let y := t_screen_y t in
  ∃ s' base t', putc_user c s = Some ((), s') ∧ screen_ok s' ∧
    aget (term_arr (scr s')) (curr_terminal (scr s)) = Some t' ∧
    vid_phys s (curr_terminal (scr s)) 0 = Some base ∧
    if decide (u8 c = 10 ∨ u8 c = 13)
    then t_screen_x t' = 0 ∧ t_screen_y t' = Z.min (NUM_ROWS - 1) (y + 1) ∧
         ∀ q, contents s' q = contents s q
    else t_screen_x t' = (x + 1) mod NUM_COLS ∧ t_screen_y t' = y ∧
         ∀ q, contents s' q =
           if decide (q = base + cell_off x y) then u8 c
           else if decide (q = base + cell_off x y + 1) then ATTRIB else contents s q.
Proof.
  intros Hok Ht x y. pose proof (sok_terminal s Hok) as Hi.
  destruct (proj2 (sok_terms s Hok) _ t Ht) as [[Hx Hy] Hv].
  destruct (page_base s _ (sok_mapped s Hok) Hi) as [base Hbase].
  destruct (putc_at_run _ (u8 c) t s Hok Hi Ht) as (s'&Hrun&Hf&Hmv&_&Hm).
  pose proof (putc_cursor_ok (u8 c) x y Hx Hy) as [Hcx Hcy].
  pose proof (cursor_moved_ok _ _ _ _ _ Hok Hf Hmv Hcx Hcy) as Hok'.
  destruct Hmv as (u&t'&Hu&Hx'&Hy'&_&_&_&_&Harr&_). simplify_eq.
  exists s', base, t'. split; [done|]. split; [done|]. split.
  { rewrite Harr. by eapply aget_aset_eq, aset_in, aget_Some_range. }
  split; [rewrite Hbase by lia; f_equal; lia|].
  rewrite Hx', Hy'. unfold putc_cursor. fold x y in Hm |- *. pose proof (cell_range x y Hx Hy).
  destruct (Z.eqb_spec (u8 c) 10), (Z.eqb_spec (u8 c) 13); cbn [orb] in Hm |- *;
    [rewrite decide_True by auto..|rewrite decide_False by naive_solver].
  1-3: split; [done|]; split; [|done]; cbn [snd]; unfold NUM_ROWS in *; destruct (Z.eqb_spec y (25 - 1)); lia.
  destruct Hm as (p0&p1&Hp0&Hp1&Hm). rewrite Hbase in Hp0, Hp1 by lia. simplify_eq.
  split; [done|]. split; [done|]. intros q. rewrite Hm, (u8_small (u8 c)) by apply u8_range.
  rewrite Z.add_assoc. repeat case_decide; try done; lia.
Qed.
