(* ===== verification/Switch.v ===== *)
(** * Switch: terminal switching ([scheduler.c])

    Three terminals share the text screen.  The displayed one is drawn at the
    physical video page 0xB8000; the others in their own pages.  Switching
    copies the screen out to the page of the old terminal and the page of the
    new one to the screen, together with the keyboard line buffer. *)
From S2P Require Import Prelude LibMem KState Paging Screen.

Definition maxInputLength : Z := 127.

(** The fields [remap_video] and friends assign, in their order. *)
Definition remap_pte (phys old : Z) : Z :=
  set_user 1 (set_read_write 1 (set_present 1 (set_base_addr_pte (Z.shiftr phys 12) old))).
Definition video_index (addr : Z) : Z := Z.shiftr (Z.land addr 4190208) 12.  (* & 0x3FF000 *)

Definition map_pte (i phys : Z) : K () :=
  set_pte i (set_base_addr_pte (Z.shiftr phys 12));;
  set_pte i (set_present 1);;
  set_pte i (set_read_write 1);;
  set_pte i (set_user 1).

Definition remap_video (idx : Z) : K () :=
  t ← get_term idx;
  map_pte (video_index (vid_mem_addr t)) (vid_mem_addr t);;
  set_vmem 0 (set_base_addr_pte (Z.shiftr (vid_mem_addr t) 12));;
  set_vmem 0 (set_present 1);;
  set_vmem 0 (set_read_write 1);;
  set_vmem 0 (set_user 1);;
  flush_tlb.

(** [page_table_base_addr_entry] is the 10-bit field of a 4 MB page. *)
Definition scheduler_remap_video (idx : Z) : K () :=
  if (idx <? 0) || (idx >? 2) then skip
  else
    t ← the_terminal;
    let phys_vid_addr := if idx =? t then VIDEO_MEM else VIDEO_MEM + (1 + idx) * KB_4 in
    let vir_vid_addr := if idx =? t then VIDEO_MEM + (1 + idx) * KB_4 else phys_vid_addr in
    map_pte (video_index vir_vid_addr) phys_vid_addr;;
    set_vmem 0 (set_base_addr_entry (Z.shiftr phys_vid_addr 12));;
    set_vmem 0 (set_present 1);;
    set_vmem 0 (set_read_write 1);;
    set_vmem 0 (set_user 1);;
    flush_tlb.

(** [memcpy] between two arrays of the kernel, [n] bytes from their start. *)
Definition copy_array (n : Z) (dst src : list Z) : list Z :=
  take (Z.to_nat n) src ++ drop (Z.to_nat n) dst.

Definition terminal_save_state (idx : Z) : K () :=
  if idx >=? 3 then skip
  else
    ct ← the_terminal;
    set_term ct (λ t, t <| visible := 0 |>);;
    keys ← gets (λ s, keyBuffer (kbd s));
    set_term idx (λ t, t <| keyBuf := copy_array maxInputLength (keyBuf t) keys |>);;
    remap_video idx;;
    t ← get_term idx;
    memcpy (vid_mem_addr t) VIDEO_MEM (NUM_COLS * NUM_ROWS * 2).

Definition terminal_restore_state (idx : Z) : K () :=
  if idx >=? 3 then skip
  else
    set_scr (λ c, c <| curr_terminal := idx |>);;
    set_term idx (λ t, t <| visible := 1 |>);;
    t ← get_term idx;
    set_kbd (λ k, k <| keyBuffer := copy_array maxInputLength (keyBuffer k) (keyBuf t) |>);;
    remap_video idx;;
    memcpy VIDEO_MEM (vid_mem_addr t) (NUM_COLS * NUM_ROWS * 2).

Definition terminal_switch (idx : Z) : K Z :=
  ct ← the_terminal;
  if idx =? ct then mret 0
  else if idx >=? 3 then mret (-1)
  else
    terminal_save_state ct;;
    terminal_restore_state idx;;
    update_cursor;;
    t ← get_term idx;
    map_pte (video_index (vid_mem_addr t)) VIDEO_MEM;;
    set_vmem 0 (set_base_addr_pte (Z.shiftr VIDEO_MEM 12));;
    set_vmem 0 (set_read_write 1);;
    set_vmem 0 (set_user 1);;
    set_vmem 0 (set_present 1);;
    flush_tlb;;
    mret 0.

(** ** The abstract screens and line buffers of the three terminals *)

(** Where the screen of terminal [i] is in physical memory. *)
Definition screen_base (s : kstate) (i : Z) : Z :=
  if i =? curr_terminal (scr s) then VIDEO_MEM else page_of i.
Definition screen_view (s : kstate) (i off : Z) : Z := contents s (screen_base s i + off).
Definition line_view (s : kstate) (i : Z) : option (list Z) :=
  if i =? curr_terminal (scr s) then Some (keyBuffer (kbd s))
  else t ← aget (term_arr (scr s)) i; Some (keyBuf t).

(** The low 4 MB go through [page_table], whose video page is at its physical
    address. *)
Record low_table (s : kstate) : Prop := {
  lt_wf : paging_wf s;
  lt_enabled : paging_enabled s;
  lt_pde : ∃ pde, aget (page_dir (mem s)) 0 = Some pde ∧ present pde = 1 ∧ ps pde = 0 ∧
    base_addr_pte pde = page_table_addr (mem s) / 4096;
  lt_video : ∃ pte, aget (page_table (mem s)) 184 = Some pte ∧ present pte = 1 ∧ base_addr_pte pte = 184;
}.

Lemma low_translate s v pte :
  low_table s → 0 ≤ v < 4194304 → aget (page_table (mem s)) (v / 4096) = Some pte →
  present pte = 1 → translate s v = Some (base_addr_pte pte * 4096 + v mod 4096).
Proof.
  intros [Hwf Hen (pde&Hpde&H1&H2&H3) _] Hv Hpte Hp. cbn. rewrite translate_enabled by (done || lia).
  eapply (walk_table _ _ _ pde _ pte); try done.
  - by replace (v / 4194304) with 0 by (Z.div_mod_to_equations; lia).
  - unfold table_at. by rewrite H3, Z.eqb_refl.
  - by rewrite Z.mod_small by (Z.div_mod_to_equations; lia).
Qed.

Lemma video_translate s off :
  low_table s → 0 ≤ off < 4096 → translate s (VIDEO_MEM + off) = Some (VIDEO_MEM + off).
Proof.
  intros Hlt Ho. destruct (lt_video s Hlt) as (pte&Hpte&Hp&Hb). unfold VIDEO_MEM in *.
  rewrite (low_translate _ _ pte); try done; [|lia|].
  - rewrite Hb. f_equal. Z.div_mod_to_equations; lia.
  - by replace ((753664 + off) / 4096) with 184 by (Z.div_mod_to_equations; lia).
Qed.

Lemma video_index_page i : 0 ≤ i < 3 → video_index (page_of i) = 185 + i.
Proof. intros. assert (i = 0 ∨ i = 1 ∨ i = 2) as [-> | [-> | ->]] by lia; reflexivity. Qed.

Lemma remap_pte_fields phys old :
  present (remap_pte phys old) = 1 ∧ user (remap_pte phys old) = 1 ∧
  base_addr_pte (remap_pte phys old) = phys / 4096 mod 1048576.
Proof. unfold remap_pte. entry. split_and!; try done. by rewrite Z.shiftr_div_pow2. Qed.

(** Mapping the page of terminal [i]. *)
Definition page_mapped_to (i phys : Z) (s : kstate) : kstate :=
  with_page_table (<[Z.to_nat (185 + i) := remap_pte phys (default 0 (aget (page_table (mem s)) (185 + i)))]>
    (page_table (mem s))) s.

Lemma page_mapped_to_entry i phys s j :
  185 + i ≠ j → 0 ≤ i → aget (page_table (mem (page_mapped_to i phys s))) j = aget (page_table (mem s)) j.
Proof. intros. cbn. apply aget_insert_nat_ne. lia. Qed.

Lemma map_pte_run i phys s :
  length (page_table (mem s)) = 1024%nat → 0 ≤ i < 3 →
  map_pte (185 + i) phys s = Some ((), page_mapped_to i phys s).
Proof.
  intros Hl Hi. destruct (proj2 (aget_is_Some (page_table (mem s)) (185 + i))) as [e He]; [lia|].
  unfold map_pte, page_mapped_to. rewrite !set_pte_fuse.
  by rewrite set_pte_fuse_end, (set_pte_run _ _ _ _ He), He.
Qed.

Lemma page_mapped_to_low i phys s :
  low_table s → 0 ≤ i < 3 → low_table (page_mapped_to i phys s).
Proof.
  intros [Hwf Hen Hp Hv] Hi. constructor; [|done|done|].
  - destruct Hwf. constructor; cbn; rewrite ?length_insert; done.
  - cbn. rewrite aget_insert_nat_ne by lia. done.
Qed.

Lemma page_mapped_to_translate i phys s off :
  low_table s → 0 ≤ i < 3 → 0 ≤ phys < 4294967296 → phys mod 4096 = 0 → 0 ≤ off < 4096 →
  translate (page_mapped_to i phys s) (page_of i + off) = Some (phys + off).
Proof.
  intros Hlt Hi Hp Ha Ho. destruct (remap_pte_fields phys (default 0 (aget (page_table (mem s)) (185 + i)))) as (H1&_&H3).
  pose proof (wf_table _ (lt_wf _ Hlt)) as Hlen. unfold page_of.
  rewrite (low_translate _ _ (remap_pte phys (default 0 (aget (page_table (mem s)) (185 + i)))));
    [|by apply page_mapped_to_low|lia| |done].
  - rewrite H3. rewrite (Z.mod_small (phys / 4096)) by (Z.div_mod_to_equations; lia).
    f_equal. Z.div_mod_to_equations; lia.
  - replace ((757760 + 4096 * i + off) / 4096) with (185 + i) by (Z.div_mod_to_equations; lia).
    cbn. apply aget_insert_nat_eq; lia.
Qed.

(** ** Running the pieces *)

(** Only physical memory may differ. *)
Definition phys_only (s s' : kstate) : Prop := ∃ m, s' = s <| mem ::= λ x, x <| phys := m |> |>.
#[export] Instance phys_only_preorder : PreOrder phys_only.
Proof.
  split.
  - intros s. exists (phys (mem s)). by destruct s as [? [] ? ? ? ? ? ?].
  - intros s1 s2 s3 [m ->] [m' ->]. by exists m'.
Qed.
Lemma phys_only_low s s' : phys_only s s' → low_table s → low_table s'.
Proof. intros [m ->] [[] ? ? ?]. by constructor; [constructor|..]. Qed.

(** Copying a screen between two pages that are at their physical addresses. *)
Definition identity_page (s : kstate) (a : Z) : Prop :=
  ∀ off, 0 ≤ off < 4096 → translate s (a + off) = Some (a + off).

Lemma page_copy a b s :
  identity_page s a → identity_page s b → 0 ≤ a < 4194304 → 0 ≤ b < 4194304 →
  a mod 4096 = 0 → b mod 4096 = 0 → a ≠ b →
  ∃ s', memcpy a b 4000 s = Some ((), s') ∧ phys_only s s' ∧
    ∀ q, contents s' q = if decide (a ≤ q < a + 4000) then contents s (b + (q - a)) else contents s q.
Proof.
  intros Ha Hb Hra Hrb Hma Hmb Hne.
  destruct (memcpy_effect phys_only 4000 a b s (λ i, a + i) (λ i, b + i)) as (s'&Hrun&Hp&_&Hw&Hout);
    try lia.
  - intros p v st. by eexists.
  - intros i Hi. apply Ha. lia.
  - intros i Hi. apply Hb. lia.
  - intros i j Hi Hj. lia.
  - intros i j p Hi Hj. rewrite Ha, Hb by lia. intros [= <-] [= E].
    revert E. Z.div_mod_to_equations. lia.
  - exists s'. split; [done|]. split; [done|]. intros q. case_decide.
    + replace q with (a + (q - a)) at 1 by lia. apply Hw. lia.
    + apply Hout. intros i Hi ->. lia.
Qed.

(** Mapping terminal [i]'s page, for the kernel and in the vidmap table. *)
Definition remapped (i phys : Z) (s : kstate) : kstate :=
  with_page_virtual_mem (<[0%nat := remap_pte phys (default 0 (aget (page_virtual_mem (mem s)) 0))]>
    (page_virtual_mem (mem s))) (page_mapped_to i phys s).

Lemma remapped_low i phys s : low_table s → 0 ≤ i < 3 → low_table (remapped i phys s).
Proof.
  intros Hlt Hi. destruct (page_mapped_to_low i phys s Hlt Hi) as [[] ? ? ?].
  constructor; [|done..]. constructor; try done. cbn in *. by rewrite length_insert.
Qed.
Lemma remapped_page i phys s :
  low_table s → 0 ≤ i < 3 → 0 ≤ phys < 4294967296 → phys mod 4096 = 0 →
  ∀ off, 0 ≤ off < 4096 → translate (remapped i phys s) (page_of i + off) = Some (phys + off).
Proof.
  intros Hlt Hi Hp Ha off Ho. destruct (remap_pte_fields phys (default 0 (aget (page_table (mem s)) (185 + i)))) as (H1&_&H3).
  pose proof (wf_table _ (lt_wf _ Hlt)) as Hlen.
  rewrite (low_translate _ _ (remap_pte phys (default 0 (aget (page_table (mem s)) (185 + i)))));
    [|by apply remapped_low|unfold page_of; lia| |done].
  - rewrite H3. rewrite (Z.mod_small (phys / 4096)) by (Z.div_mod_to_equations; lia).
    unfold page_of. f_equal. Z.div_mod_to_equations; lia.
  - replace ((page_of i + off) / 4096) with (185 + i) by (unfold page_of; Z.div_mod_to_equations; lia).
    apply (aget_insert_nat_eq (page_table (mem s))); lia.
Qed.

Lemma vmem_four_run {B} f1 f2 f3 f4 (k : () → K B) s :
  length (page_virtual_mem (mem s)) = 1024%nat →
  (set_vmem 0 f1;; set_vmem 0 f2;; set_vmem 0 f3;; set_vmem 0 f4 ≫= k) s
    = k () (with_page_virtual_mem
        (<[0%nat := f4 (f3 (f2 (f1 (default 0 (aget (page_virtual_mem (mem s)) 0)))))]> (page_virtual_mem (mem s))) s).
Proof.
  intros Hl. destruct (proj2 (aget_is_Some (page_virtual_mem (mem s)) 0)) as [e He]; [lia|].
  rewrite !set_vmem_fuse, (bind_run _ _ _ _ _ (set_vmem_run _ _ _ _ He)), He. done.
Qed.

Lemma flush_tlb_run s : flush_tlb s = Some ((), s).
Proof. unfold flush_tlb, set_cpu, modify. by destruct s as [[] ? ? ? ? ? ? ?]. Qed.

Lemma page_of_range i : 0 ≤ i < 3 → 0 ≤ page_of i < 4194304 ∧ page_of i mod 4096 = 0.
Proof. unfold page_of. intros. split; [lia|Z.div_mod_to_equations; lia]. Qed.

Lemma remap_video_run i t s :
  low_table s → 0 ≤ i < 3 → aget (term_arr (scr s)) i = Some t → vid_mem_addr t = page_of i →
  remap_video i s = Some ((), remapped i (page_of i) s).
Proof.
  intros Hlt Hi Ht Hv. unfold remap_video.
  rewrite (bind_run _ _ _ _ _ (get_term_run _ _ _ Ht)), Hv, video_index_page by done.
  rewrite (bind_run _ _ _ _ _ (map_pte_run i (page_of i) s (wf_table _ (lt_wf _ Hlt)) Hi)).
  rewrite vmem_four_run by apply (wf_vmem _ (lt_wf _ Hlt)). by rewrite flush_tlb_run.
Qed.

(** ** Saving and restoring *)
Lemma save_state_run s t :
  low_table s → terms_ok (term_arr (scr s)) → 0 ≤ curr_terminal (scr s) < 3 →
  aget (term_arr (scr s)) (curr_terminal (scr s)) = Some t →
  let i := curr_terminal (scr s) in
  ∃ s', terminal_save_state i s = Some ((), s') ∧ low_table s' ∧ identity_page s' (page_of i) ∧
    kbd s' = kbd s ∧ curr_terminal (scr s') = i ∧
    term_arr (scr s') = <[Z.to_nat i := t <| visible := 0 |>
      <| keyBuf := copy_array maxInputLength (keyBuf t) (keyBuffer (kbd s)) |>]> (term_arr (scr s)) ∧
    ∀ q, contents s' q = if decide (page_of i ≤ q < page_of i + 4000)
                         then contents s (VIDEO_MEM + (q - page_of i)) else contents s q.
Proof.
  intros Hlt Hok Hi Ht i. fold i in Ht, Hi. pose proof (aget_Some_range _ _ _ Ht) as Hr.
  pose proof (proj2 Hok _ _ Ht) as [_ Hv].
  unfold terminal_save_state, the_terminal. rewrite Z.geb_leb.
  destruct (Z.leb_spec 3 i) as [?|_]; [lia|]. rewrite bind_gets. fold i.
  erewrite bind_run by (apply set_term_run; exact Ht). rewrite bind_gets.
  erewrite bind_run; [|apply set_term_run; cbn; by apply (aget_aset_eq (term_arr (scr s))), aset_in].
  cbn -[remap_video copy_array memcpy]. rewrite list_insert_insert_eq.
  set (t' := mk_terminal _ _ _ _ _ _ _). set (s1 := mk_kstate _ _ _ _ _ _ _ _).
  assert (low_table s1) as Hlt1 by (destruct Hlt as [[] ? ? ?]; by constructor; [constructor|..]).
  assert (aget (term_arr (scr s1)) i = Some t') as Ht1 by by apply (aget_aset_eq (term_arr (scr s))), aset_in.
  rewrite (bind_run _ _ _ _ _ (remap_video_run i t' s1 Hlt1 Hi Ht1 Hv)).
  rewrite (bind_run _ _ _ _ _ (get_term_run i t' (remapped i (page_of i) s1) Ht1)).
  change (vid_mem_addr t') with (vid_mem_addr t). rewrite Hv.
  destruct (page_of_range i Hi) as [Hpr Hpm].
  pose proof (remapped_low i (page_of i) s1 Hlt1 Hi) as Hlt2.
  destruct (page_copy (page_of i) VIDEO_MEM (remapped i (page_of i) s1)) as (s'&Hrun&[m Hp]&Hc);
    try done; [|by intros off; apply video_translate|unfold VIDEO_MEM, page_of; lia|].
  { intros off. apply remapped_page; done || lia. }
  exists s'. split; [exact Hrun|]. split; [by eapply phys_only_low; [exists m|]|]. split.
  { intros off Ho. subst s'. by apply remapped_page; try done; lia. }
  subst s'. split; [done|]. split; [done|]. split; [done|]. exact Hc.
Qed.

Lemma restore_state_run s t i :
  low_table s → terms_ok (term_arr (scr s)) → 0 ≤ i < 3 → aget (term_arr (scr s)) i = Some t →
  ∃ s', terminal_restore_state i s = Some ((), s') ∧ low_table s' ∧
    page_table (mem s') = page_table (mem (page_mapped_to i (page_of i) s)) ∧
    keyBuffer (kbd s') = copy_array maxInputLength (keyBuffer (kbd s)) (keyBuf t) ∧
    curr_terminal (scr s') = i ∧
    term_arr (scr s') = <[Z.to_nat i := t <| visible := 1 |>]> (term_arr (scr s)) ∧
    ∀ q, contents s' q = if decide (VIDEO_MEM ≤ q < VIDEO_MEM + 4000)
                         then contents s (page_of i + (q - VIDEO_MEM)) else contents s q.
Proof.
  intros Hlt Hok Hi Ht. pose proof (aget_Some_range _ _ _ Ht) as Hr.
  pose proof (proj2 Hok _ _ Ht) as [_ Hv].
  unfold terminal_restore_state. rewrite Z.geb_leb.
  destruct (Z.leb_spec 3 i) as [?|_]; [lia|]. unfold set_scr. rewrite bind_modify.
  erewrite bind_run by (apply set_term_run; exact Ht).
  erewrite bind_run; [|apply get_term_run; cbn; by apply (aget_aset_eq (term_arr (scr s))), aset_in].
  unfold set_kbd. rewrite bind_modify. cbn -[remap_video copy_array memcpy].
  set (t' := mk_terminal _ _ _ _ _ _ _). set (s1 := mk_kstate _ _ _ _ _ _ _ _).
  assert (low_table s1) as Hlt1 by (destruct Hlt as [[] ? ? ?]; by constructor; [constructor|..]).
  assert (aget (term_arr (scr s1)) i = Some t') as Ht1 by by apply (aget_aset_eq (term_arr (scr s))), aset_in.
  rewrite (bind_run _ _ _ _ _ (remap_video_run i t' s1 Hlt1 Hi Ht1 Hv)). rewrite Hv.
  destruct (page_of_range i Hi) as [Hpr Hpm].
  pose proof (remapped_low i (page_of i) s1 Hlt1 Hi) as Hlt2.
  destruct (page_copy VIDEO_MEM (page_of i) (remapped i (page_of i) s1)) as (s'&Hrun&[m Hp]&Hc);
    try done; [by intros off; apply video_translate| |unfold VIDEO_MEM, page_of; lia|].
  { intros off. apply remapped_page; done || lia. }
  exists s'. split; [exact Hrun|]. split; [by eapply phys_only_low; [exists m|]|].
  subst s'. split; [done|]. split; [done|]. split; [done|]. split; [done|]. exact Hc.
Qed.

(** In the low 4 MB a translation depends on the entry of [page_table] only. *)
Lemma low_walk s v :
  low_table s → 0 ≤ v < 4194304 →
  translate s v = (pte ← aget (page_table (mem s)) (v / 4096);
                   if present pte =? 0 then None else Some (base_addr_pte pte * 4096 + v mod 4096)).
Proof.
  intros [Hwf Hen (pde&Hpde&H1&H2&H3) _] Hv. cbn [translate kstate_mem].
  rewrite translate_enabled by (done || lia). unfold walk.
  replace (v / 4194304) with 0 by (Z.div_mod_to_equations; lia). rewrite Hpde. cbn [mbind option_bind].
  rewrite H1, H2. cbn. unfold table_at. rewrite H3, Z.eqb_refl. cbn.
  rewrite (Z.mod_small (v / 4096)) by (Z.div_mod_to_equations; lia).
  destruct (aget (page_table (mem s)) _) as [pte|]; [|done]. cbn. by rewrite orb_false_r.
Qed.
Lemma low_translate_eq s s' v :
  low_table s → low_table s' → 0 ≤ v < 4194304 →
  aget (page_table (mem s')) (v / 4096) = aget (page_table (mem s)) (v / 4096) →
  translate s' v = translate s v.
Proof. intros H H' Hv E. by rewrite !low_walk, E. Qed.

Lemma page_entry i off : 0 ≤ off < 4096 → (page_of i + off) / 4096 = 185 + i.
Proof. unfold page_of. intros. Z.div_mod_to_equations; lia. Qed.

Lemma copy_array_whole n dst src :
  Z.of_nat (length dst) = n → Z.of_nat (length src) = n → copy_array n dst src = src.
Proof.
  intros Hd Hs. unfold copy_array. rewrite take_ge, drop_ge by lia. apply app_nil_r.
Qed.

Lemma with_vmem_low v s : length v = 1024%nat → low_table s → low_table (with_page_virtual_mem v s).
Proof. intros Hl [[] ? ? ?]. constructor; [|done..]. by constructor. Qed.

(** The whole switch: memory, terminals, keyboard buffer and mapping after it. *)
Lemma terminal_switch_run s idx tc ti :
  low_table s → terms_ok (term_arr (scr s)) → 0 ≤ curr_terminal (scr s) < 3 → 0 ≤ idx < 3 →
  idx ≠ curr_terminal (scr s) → aget (term_arr (scr s)) (curr_terminal (scr s)) = Some tc →
  aget (term_arr (scr s)) idx = Some ti →
  let ct := curr_terminal (scr s) in
  let tc' := tc <| visible := 0 |> <| keyBuf := copy_array maxInputLength (keyBuf tc) (keyBuffer (kbd s)) |> in
  ∃ s', terminal_switch idx s = Some (0, s') ∧ low_table s' ∧ curr_terminal (scr s') = idx ∧
    term_arr (scr s') = <[Z.to_nat idx := ti <| visible := 1 |>]> (<[Z.to_nat ct := tc']> (term_arr (scr s))) ∧
    keyBuffer (kbd s') = copy_array maxInputLength (keyBuffer (kbd s)) (keyBuf ti) ∧
    (∀ off, 0 ≤ off < 4096 → translate s' (page_of idx + off) = Some (VIDEO_MEM + off)) ∧
    identity_page s' (page_of ct) ∧
    ∀ q, contents s' q =
      if decide (VIDEO_MEM ≤ q < VIDEO_MEM + 4000) then contents s (page_of idx + (q - VIDEO_MEM))
      else if decide (page_of ct ≤ q < page_of ct + 4000) then contents s (VIDEO_MEM + (q - page_of ct))
      else contents s q.
Proof.
  intros Hlt Hok Hct Hidx Hne Htc Hti ct tc'. fold ct in Hct, Hne, Htc.
  pose proof (proj2 Hok _ _ Htc) as [Hcc Hvc]. pose proof (proj2 Hok _ _ Hti) as [_ Hvi].
  destruct (save_state_run s tc Hlt Hok Hct Htc) as (s1&H1&Hlt1&Hid1&Hkbd1&Hct1&Harr1&Hm1).
  fold ct in H1, Hid1, Hct1, Harr1, Hm1. fold tc' in Harr1.
  assert (Hok1 : terms_ok (term_arr (scr s1))) by (rewrite Harr1; by eapply terms_ok_insert).
  assert (Hti1 : aget (term_arr (scr s1)) idx = Some ti).
  { rewrite Harr1, <- Hti. eapply aget_aset_ne; [|by symmetry; exact Hne].
    by apply aset_in, (aget_Some_range _ _ tc). }
  destruct (restore_state_run s1 ti idx Hlt1 Hok1 Hidx Hti1) as (s2&H2&Hlt2&Hpt2&Hkbd2&Hct2&Harr2&Hm2).
  assert (Hti2 : aget (term_arr (scr s2)) idx = Some (ti <| visible := 1 |>)).
  { rewrite Harr2. eapply aget_aset_eq, aset_in, aget_Some_range, Hti1. }
  unfold terminal_switch, the_terminal. rewrite bind_gets, Z.geb_leb. fold ct.
  destruct (Z.eqb_spec idx ct); [done|]. destruct (Z.leb_spec 3 idx); [lia|].
  rewrite (bind_run _ _ _ _ _ H1), (bind_run _ _ _ _ _ H2).
  rewrite (bind_run _ _ _ _ _ (update_cursor_run (ti <| visible := 1 |>) s2 ltac:(by rewrite Hct2))).
  set (s3 := s2 <| cpu ::= _ |>).
  assert (Hlt3 : low_table s3) by (destruct Hlt2 as [[] ? ? ?]; by constructor; [constructor|..]).
  rewrite (bind_run _ _ _ _ _ (get_term_run idx _ s3 Hti2)).
  change (vid_mem_addr (ti <| visible := 1 |>)) with (vid_mem_addr ti). rewrite Hvi, video_index_page by done.
  rewrite (bind_run _ _ _ _ _ (map_pte_run idx VIDEO_MEM s3 (wf_table _ (lt_wf _ Hlt3)) Hidx)).
  rewrite vmem_four_run by apply (wf_vmem _ (lt_wf _ Hlt3)).
  rewrite (bind_run _ _ _ _ _ (flush_tlb_run _)). set (v4 := <[0%nat := _]> (page_virtual_mem _)).
  pose proof (page_mapped_to_low idx VIDEO_MEM s3 Hlt3 Hidx) as Hlt4'.
  assert (Hlt4 : low_table (with_page_virtual_mem v4 (page_mapped_to idx VIDEO_MEM s3))).
  { apply with_vmem_low; [|done]. unfold v4. rewrite length_insert. apply (wf_vmem _ (lt_wf _ Hlt3)). }
  eexists. split; [reflexivity|]. split; [exact Hlt4|]. split; [exact Hct2|].
  split; [by rewrite <- Harr1, <- Harr2|]. split; [by rewrite <- Hkbd1|]. split; [|split].
  - intros off Ho. rewrite (low_translate_eq (page_mapped_to idx VIDEO_MEM s3));
      [apply page_mapped_to_translate; done || (unfold VIDEO_MEM; lia)|done|done|unfold page_of; lia|done].
  - intros off Ho. rewrite <- (Hid1 off Ho). apply low_translate_eq; [done|done|unfold page_of; lia|].
    rewrite page_entry by done. etrans; [apply (page_mapped_to_entry idx VIDEO_MEM s3); lia|].
    change (page_table (mem s3)) with (page_table (mem s2)). rewrite Hpt2.
    apply page_mapped_to_entry; lia.
  - intros q. etrans; [exact (Hm2 q)|]. rewrite !Hm1. unfold VIDEO_MEM, page_of in *.
    repeat case_decide; try lia; done.
Qed.

(** ** Correctness *)


Lemma initialized_low s : paging_wf s → low_table (paging_initialized s).
Proof.
  intros Hwf. constructor.
  - destruct Hwf. constructor; cbn -[replicate]; rewrite ?length_insert, ?length_replicate; done.
  - by apply (load_pde_enables _ (cpu s)).
  - destruct (table_pde_fields (page_table_addr (mem s)) 0) as (T1&_&T3&_&T4).
    exists (table_pde (page_table_addr (mem s)) 0). rewrite initialized_dir. split; [done|].
    split; [done|]. split; [done|]. rewrite T4. pose proof (wf_table_addr _ Hwf). cbn.
    apply Z.mod_small. Z.div_mod_to_equations; lia.
  - by exists (page_pte VIDEO_MEM 0).
Qed.

Lemma demo_wf x y f : paging_wf (demo_state x y f).
Proof. destruct (boot_state_wf []). by constructor. Qed.


(** [scheduler_remap_video] assigns the frame number to the 10-bit field of the
    vidmap page's entry: the page leaves video memory. *)
Lemma vidmap_entry_after_remap old phys :
  base_addr_pte (set_user 1 (set_read_write 1 (set_present 1
    (set_base_addr_entry (Z.shiftr phys 12) old)))) = phys / 4096 mod 1024 * 1024 + base_addr_pte old mod 1024.
Proof.
  entry. unfold get_bits, set_bits. apply Z.bits_inj'. intros k Hk.
  rewrite Z.land_spec, Z.shiftr_spec, Z.lor_spec, Z.land_spec, Z.lnot_spec, !Z.shiftl_spec, Z.land_spec by lia.
  change 1024 with (2 ^ 10). rewrite <- Z.shiftl_mul_pow2 by lia.
  assert (Hno : ∀ a b, 0 ≤ b < 2 ^ 10 → Z.shiftl a 10 + b = Z.lor (Z.shiftl a 10) b).
  { intros a b Hb. assert (Z.land (Z.shiftl a 10) b = 0) as Hl.
    { apply Z.bits_inj'. intros j Hj. rewrite Z.land_spec, Z.shiftl_spec, Z.bits_0 by lia.
      destruct (Z.lt_ge_cases j 10).
      - by rewrite Z.testbit_neg_r by lia.
      - rewrite <- (Z.mod_small b (2 ^ 10)) by lia. by rewrite Z.mod_pow2_bits_high, andb_false_r by lia. }
    rewrite Z.add_nocarry_lxor by done. by apply Z.lxor_lor. }
  rewrite Hno by (apply Z.mod_pos_bound; lia).
  rewrite Z.lor_spec, Z.shiftl_spec by lia.
  replace (k + 12 - 22) with (k - 10) by lia.
  destruct (Z.lt_ge_cases k 10) as [Hk10|Hk10].
  - rewrite !(Z.testbit_neg_r _ (k - 10)) by lia. rewrite Z.mod_pow2_bits_low by lia.
    rewrite Z.land_spec, Z.shiftr_spec by lia. cbn. by rewrite orb_false_r, andb_true_r.
  - rewrite (Z.mod_pow2_bits_high _ 10 k) by lia. rewrite orb_false_r.
    destruct (Z.lt_ge_cases k 20) as [Hk20|Hk20].
    + rewrite (Z.ones_spec_low 10 (k - 10)), (Z.ones_spec_low 20 k) by lia. cbn.
      rewrite !andb_false_r, !andb_true_r. cbn. rewrite Z.mod_pow2_bits_low by lia.
      change 4096 with (2 ^ 12). by rewrite Z.shiftr_div_pow2.
    + rewrite (Z.ones_spec_high 20 k) by lia. rewrite andb_false_r.
      by rewrite Z.mod_pow2_bits_high by lia.
Qed.

(** A program that has mapped video memory at 1 GB loses it at the next tick of
    the scheduler: its page then points to physical 0x2E0B8000. *)
Lemma vidmap_lost_on_tick :
  match map_vidmap (paging_initialized (demo_state 0 0 0)) with
  | Some (_, s) =>
      translate_as true s 1073741824 = Some VIDEO_MEM ∧
      match scheduler_remap_video 0 s with
      | Some (_, s') => translate_as true s' 1073741824 = Some 772505600
      | None => False
      end
  | None => False
  end.
Proof. vm_compute. split; reflexivity. Qed.
