(* ===== verification/Keyboard.v ===== *)
(** * Keyboard: the keyboard driver ([keyboard.c])

    [keyBuffer] is an array of 127 characters: an access at index 127 or above,
    or below 0, is [None]. *)
From S2P Require Import Prelude LibMem KState PortIO Screen Switch.

Definition keySize : Z := 59.
Definition keyBufferSize : Z := 128.
Definition keyboardIRQ : Z := 1.
Definition spacingSet : Z := 2.
Definition screenWidth : Z := 80.
Definition SHIFTVALUE : Z := 2.
Definition dataPort : Z := 96.        (* 0x60 *)
Definition statusRegister : Z := 100. (* 0x64 *)

(** Rows: regular, caps, shift, caps and shift. *)
Definition keys_map : list (list Z) :=
  [ [0; 9; 49; 50; 51; 52; 53; 54; 55; 56; 57; 48; 45; 61; 0; 0; 113; 119; 101; 114; 116;
     121; 117; 105; 111; 112; 91; 93; 0; 0; 97; 115; 100; 102; 103; 104; 106; 107; 108; 59;
     39; 96; 0; 92; 122; 120; 99; 118; 98; 110; 109; 44; 46; 47; 0; 42; 0; 32; 0];
    [0; 9; 49; 50; 51; 52; 53; 54; 55; 56; 57; 48; 45; 61; 0; 0; 81; 87; 69; 82; 84; 89; 85;
     73; 79; 80; 91; 93; 0; 0; 65; 83; 68; 70; 71; 72; 74; 75; 76; 59; 39; 96; 0; 92; 90; 88;
     67; 86; 66; 78; 77; 44; 46; 47; 0; 42; 0; 32; 0];
    [0; 9; 33; 64; 35; 36; 37; 94; 38; 42; 40; 41; 95; 43; 0; 0; 81; 87; 69; 82; 84; 89; 85;
     73; 79; 80; 123; 125; 0; 0; 65; 83; 68; 70; 71; 72; 74; 75; 76; 58; 34; 126; 0; 124; 90;
     88; 67; 86; 66; 78; 77; 60; 62; 63; 0; 42; 0; 32; 0];
    [0; 9; 33; 64; 35; 36; 37; 94; 38; 42; 40; 41; 95; 43; 0; 0; 113; 119; 101; 114; 116;
     121; 117; 105; 111; 112; 123; 125; 0; 0; 97; 115; 100; 102; 103; 104; 106; 107; 108; 58;
     34; 126; 0; 92; 122; 120; 99; 118; 98; 110; 109; 60; 62; 63; 0; 42; 0; 32; 0] ].

Definition get_kbd {A} (f : kbd_t → A) : K A := gets (λ s, f (kbd s)).
Definition read_key (i : Z) : K Z := b ← get_kbd keyBuffer; lift (aget b i).
Definition write_key (i c : Z) : K () :=
  b ← get_kbd keyBuffer; b ← lift (aset b i c); set_kbd (λ k, k <| keyBuffer := b |>).

Definition keyboard_init : K () := enable_irq keyboardIRQ.

(** The tail of [key_press]. *)
Definition key_press_end : K () :=
  i ← get_kbd keyBufferIndex;
  (if i =? keyBufferSize - 1 then write_key i 10 else skip);;
  update_cursor.

Definition key_press (key : Z) : K () :=
  if key >=? keySize then skip
  else
    i ← get_kbd keyBufferIndex;
    if i <? keyBufferSize - spacingSet then
      m ← get_kbd mode;
      row ← lift (aget keys_map m);
      keyValue ← lift (aget row key);
      if keyValue =? 0 then skip
      else
        c ← get_kbd ctrlPressed;
        if (c =? 1) && ((keyValue =? 108) || (keyValue =? 76)) then       (* l, L *)
          reset;;
          for_n (Z.to_nat keyBufferSize) 0 (λ k, write_key k 0);;
          set_kbd (λ k, k <| keyBufferIndex := 0 |>)
        else if (c =? 1) && ((keyValue =? 99) || (keyValue =? 67)) then skip   (* c, C *)
        else
          (if negb (i =? 0) && (i `rem` (screenWidth - 7) =? 0) then
             write_key i 10;;
             set_kbd (λ k, k <| keyBufferIndex := i + 1 |>);;
             enter;; vert_scroll;; update_cursor
           else skip);;
          putc_user keyValue;;
          i ← get_kbd keyBufferIndex;
          write_key i keyValue;;
          set_kbd (λ k, k <| keyBufferIndex := i + 1 |>);;
          key_press_end
    else key_press_end.

(** [case BACKSPACE] and [case ENTER] of the handler. *)
Definition backspace_key : K () :=
  i ← get_kbd keyBufferIndex;
  (if i >? 0 then
     c ← read_key i;
     (if c =? 10 then write_key i 0;; set_kbd (λ k, k <| keyBufferIndex := i - 1 |>) else skip);;
     backspace;;
     i ← get_kbd keyBufferIndex;
     write_key i 0;;
     set_kbd (λ k, k <| keyBufferIndex := i - 1 |>)
   else skip);;
  update_cursor.
Definition enter_key : K () :=
  enter_user;; vert_scroll_user;;
  i ← get_kbd keyBufferIndex;
  write_key i 10;;
  set_kbd (λ k, k <| keyBufferIndex := i + 1 |>);;
  update_cursor.

(** The terminal keys, with Alt held. *)
Definition function_key (idx : Z) : K () :=
  a ← get_kbd altPressed; if a =? 1 then terminal_switch idx;; skip else skip.

(** The [switch (input)] of [keyboard_inter_handler]. *)
Definition key_switch (input : Z) : K () :=
  if (input =? 42) || (input =? 54) then set_kbd (λ k, k <| mode ::= λ m, Z.lor m SHIFTVALUE |>)
  else if (input =? 170) || (input =? 182) then
    set_kbd (λ k, k <| mode ::= λ m, Z.land m (Z.lnot SHIFTVALUE) |>)
  else if input =? 58 then set_kbd (λ k, k <| mode ::= λ m, Z.lxor m 1 |>)
  else if input =? 29 then set_kbd (λ k, k <| ctrlPressed := 1 |>)
  else if input =? 157 then set_kbd (λ k, k <| ctrlPressed := 0 |>)
  else if input =? 56 then set_kbd (λ k, k <| altPressed := 1 |>)
  else if input =? 184 then set_kbd (λ k, k <| altPressed := 0 |>)
  else if input =? 59 then function_key 0
  else if input =? 60 then function_key 1
  else if input =? 61 then function_key 2
  else if input =? 14 then backspace_key
  else if input =? 28 then enter_key
  else skip.

Definition handle_key (input : Z) : K () := key_switch input;; key_press input.

Definition keyboard_inter_handler : K () :=
  outb 1 statusRegister;;
  input ← inb dataPort;
  handle_key input;;
  send_eoi keyboardIRQ.

Fixpoint handle_keys (codes : list Z) : K () :=
  match codes with [] => skip | c :: codes => handle_key c;; handle_keys codes end.

(** ** The abstract line editor *)
Record editor := mk_editor { e_mode : Z; line : list Z }.

(** The character a scan code types in a mode: [None] for a key that types
    nothing. *)
Definition key_char (m code : Z) : option Z :=
  row ← aget keys_map m; c ← aget row code; if c =? 0 then None else Some c.

(** Characters, shift, caps lock and backspace; every other code does nothing. *)
Definition edit (e : editor) (code : Z) : editor :=
  if (code =? 42) || (code =? 54) then mk_editor (Z.lor (e_mode e) 2) (line e)
  else if (code =? 170) || (code =? 182) then mk_editor (Z.land (e_mode e) (Z.lnot 2)) (line e)
  else if code =? 58 then mk_editor (Z.lxor (e_mode e) 1) (line e)
  else if code =? 14 then mk_editor (e_mode e) (take (length (line e) - 1) (line e))
  else match key_char (e_mode e) code with
       | Some c => mk_editor (e_mode e) (line e ++ [c])
       | None => e
       end.

(** Codes outside the editor: Enter, Ctrl and the terminal keys. *)
Definition plain_code (code : Z) : Prop :=
  0 ≤ code < 256 ∧ code ∉ [28; 29; 59; 60; 61].

(** The driver state represents an editor: the line is at the start of the
    buffer, and everything after the cell under the index is NUL. *)
Record edits (e : editor) (s : kstate) : Prop := {
  ed_screen : screen_ok s;
  ed_mode : mode (kbd s) = e_mode e ∧ 0 ≤ e_mode e ≤ 3;
  ed_ctrl : ctrlPressed (kbd s) = 0;
  ed_length : length (keyBuffer (kbd s)) = 127%nat;
  ed_index : keyBufferIndex (kbd s) = zlen (line e);
  ed_line : ∀ k c, line e !! k = Some c → keyBuffer (kbd s) !! k = Some c;
  ed_chars : Forall (λ c, 0 < c < 128 ∧ c ≠ 10) (line e);
  ed_under : keyBuffer (kbd s) !! length (line e) ≠ Some 10;
  ed_rest : ∀ k, (length (line e) < k < 127)%nat → keyBuffer (kbd s) !! k = Some 0;
}.

(** What the keyboard driver leaves alone. *)
Definition kbd_frame (s s' : kstate) : Prop :=
  rtc s' = rtc s ∧ proc s' = proc s ∧ pic s' = pic s ∧ fs_image s' = fs_image s ∧
  curr_terminal (scr s') = curr_terminal (scr s) ∧ altPressed (kbd s') = altPressed (kbd s) ∧
  (∀ usr v, translate_as usr s' v = translate_as usr s v).

(** ** Facts about the key table *)
Definition key_ok (m code : Z) : bool :=
  match aget keys_map m with
  | Some row => match aget row code with
                | Some c => (0 <=? c) && (c <? 128) && negb (c =? 10)
                | None => false
                end
  | None => false
  end.
Lemma keys_map_row m code :
  0 ≤ m ≤ 3 → 0 ≤ code < 59 →
  ∃ row c, aget keys_map m = Some row ∧ aget row code = Some c ∧ 0 ≤ c < 128 ∧ c ≠ 10 ∧
    key_char m code = if c =? 0 then None else Some c.
Proof.
  intros Hm Hc.
  assert (Forall (λ m, Forall (λ code, key_ok m code = true) (seqZ 0 59)) (seqZ 0 4)) as Hall
    by (apply (bool_decide_unpack _); vm_compute; exact I).
  rewrite Forall_forall in Hall. specialize (Hall m ltac:(apply elem_of_seqZ; lia)). cbn beta in Hall.
  rewrite Forall_forall in Hall. specialize (Hall code ltac:(apply elem_of_seqZ; lia)).
  unfold key_ok, key_char in *. destruct (aget keys_map m) as [row|] eqn:Hr; [|done].
  destruct (aget row code) as [c|] eqn:Hk; [|done]. exists row, c. cbn. rewrite Hk.
  split_and!; try done; lia.
Qed.

Lemma key_char_special m code :
  0 ≤ m ≤ 3 → code ∈ [14; 42; 54; 56; 58] → key_char m code = None.
Proof.
  intros Hm Hc%list_elem_of_In. cbn in Hc.
  assert (m = 0 ∨ m = 1 ∨ m = 2 ∨ m = 3) as [-> | [-> | [-> | ->]]] by lia;
    destruct Hc as [<- | [<- | [<- | [<- | [<- | []]]]]]; reflexivity.
Qed.

Lemma key_char_high m code : 59 ≤ code → 0 ≤ m ≤ 3 → key_char m code = None.
Proof.
  intros Hc Hm. unfold key_char. destruct (aget keys_map m) as [row|] eqn:E; [|done].
  assert (zlen row = 59) as Hl.
  { assert (m = 0 ∨ m = 1 ∨ m = 2 ∨ m = 3) as [-> | [-> | [-> | ->]]] by lia; by injection E as <-. }
  cbn. by rewrite (proj2 (aget_None row code)) by lia.
Qed.

Lemma screen_ok_kbd f s : screen_ok s → screen_ok (s <| kbd ::= f |>).
Proof. intros []. by constructor. Qed.

(** ** Key presses *)
Lemma key_press_nothing code s :
  0 ≤ mode (kbd s) ≤ 3 → 0 ≤ code → 0 ≤ keyBufferIndex (kbd s) < 126 →
  key_char (mode (kbd s)) code = None → key_press code s = Some ((), s).
Proof.
  intros Hm Hc Hi Hk. unfold key_press, keySize, keyBufferSize, spacingSet, get_kbd.
  rewrite Z.geb_leb. destruct (Z.leb_spec 59 code); [done|].
  destruct (keys_map_row (mode (kbd s)) code Hm) as (row&c&Hr&Hcc&_&_&Hkc); [lia|].
  rewrite !bind_gets. destruct (Z.ltb_spec (keyBufferIndex (kbd s)) (128 - 2)); [|lia].
  rewrite bind_gets, (bind_lift _ _ _ _ Hr), (bind_lift _ _ _ _ Hcc).
  rewrite Hkc in Hk. by destruct (c =? 0).
Qed.

Lemma write_key_run i c s :
  0 ≤ i < zlen (keyBuffer (kbd s)) →
  write_key i c s = Some ((), s <| kbd ::= λ k, k <| keyBuffer ::= <[Z.to_nat i := c]> |> |>).
Proof.
  intros Hi. unfold write_key, get_kbd. rewrite bind_gets.
  by rewrite (bind_lift _ _ _ _ (aset_in _ i c Hi)).
Qed.

Lemma update_cursor_step s :
  screen_ok s → ∃ s', update_cursor s = Some ((), s') ∧ screen_step s s'.
Proof. apply (run_op_step OUpdateCursor). Qed.

Lemma screen_step_kbd s s' : screen_step s s' → kbd s' = kbd s.
Proof. by intros [_ (?&_)]. Qed.
Lemma screen_step_frame s s' : screen_step s s' → kbd_frame s s'.
Proof. intros [_ (Hk&?&?&?&?&?&?)]. split_and!; try done. by rewrite Hk. Qed.
#[export] Instance kbd_frame_preorder : PreOrder kbd_frame.
Proof.
  split.
  - intros s. by split_and!.
  - intros s1 s2 s3 (?&?&?&?&?&?&H) (?&?&?&?&?&?&H'). split_and!; congruence.
Qed.

(** Changing the keyboard variables only. *)
Lemma edits_kbd e e' s s' :
  edits e s → screen_ok s' →
  mode (kbd s') = e_mode e' → 0 ≤ e_mode e' ≤ 3 → line e' = line e →
  ctrlPressed (kbd s') = 0 → keyBuffer (kbd s') = keyBuffer (kbd s) →
  keyBufferIndex (kbd s') = keyBufferIndex (kbd s) → edits e' s'.
Proof.
  intros [] Hok Hm Hmr Hl Hc Hb Hi. constructor; rewrite ?Hm, ?Hl, ?Hc, ?Hb, ?Hi; done.
Qed.

Lemma edits_same e s s' : edits e s → screen_ok s' → kbd s' = kbd s → edits e s'.
Proof.
  intros He Hok Hk. pose proof (ed_mode _ _ He) as [? ?]. apply (edits_kbd e e s); rewrite ?Hk; try done; apply He.
Qed.

Lemma key_press_end_run e s :
  edits e s → zlen (line e) < 127 →
  ∃ s', key_press_end s = Some ((), s') ∧ edits e s' ∧ kbd_frame s s'.
Proof.
  intros He Hl. unfold key_press_end, get_kbd. rewrite bind_gets, (ed_index _ _ He).
  unfold keyBufferSize. destruct (Z.eqb_spec (zlen (line e)) (128 - 1)); [lia|].
  rewrite bind_skip. destruct (update_cursor_step s (ed_screen _ _ He)) as (s'&Hrun&Hst).
  exists s'. split; [done|]. split; [|by apply screen_step_frame].
  apply (edits_same e s); [done|apply Hst|by apply screen_step_kbd].
Qed.

(** Appending a character to the line. *)
Lemma edits_append e s c :
  edits e s → (length (line e) < 126)%nat → 0 < c < 128 → c ≠ 10 →
  edits (mk_editor (e_mode e) (line e ++ [c]))
    (s <| kbd ::= λ k, k <| keyBuffer ::= <[length (line e) := c]> |>
                        <| keyBufferIndex := zlen (line e) + 1 |> |>).
Proof.
  intros [Hok Hm Hc Hlen Hi Hl Hch Hu Hr] Hlt Hpos Hne.
  constructor; cbn [kbd line e_mode mode ctrlPressed keyBuffer keyBufferIndex setter]; try done.
  - destruct Hok. by constructor.
  - by rewrite length_insert.
  - rewrite length_app. cbn. lia.
  - intros k x Hk. destruct (decide (k = length (line e))) as [->|Hk'].
    + rewrite list_lookup_middle in Hk by done. simplify_eq. apply list_lookup_insert_eq. lia.
    + rewrite list_lookup_insert_ne by done. apply Hl.
      rewrite lookup_app_l in Hk; [done|]. pose proof (lookup_lt_Some _ _ _ Hk) as Hkl.
      rewrite length_app in Hkl. cbn in Hkl. lia.
  - apply Forall_app. split; [done|]. by constructor.
  - rewrite length_app. cbn. rewrite list_lookup_insert_ne by lia. rewrite Hr by lia. done.
  - intros k Hk. rewrite length_app in Hk. cbn in Hk. rewrite list_lookup_insert_ne by lia. apply Hr. lia.
Qed.

Lemma key_press_types e s code c :
  edits e s → (length (line e) < 73)%nat → 0 ≤ code → key_char (e_mode e) code = Some c →
  ∃ s', key_press code s = Some ((), s') ∧ edits (mk_editor (e_mode e) (line e ++ [c])) s' ∧ kbd_frame s s'.
Proof.
  intros He Hl Hc Hk. destruct (ed_mode _ _ He) as [Hm Hmr].
  unfold key_press, keySize, keyBufferSize, spacingSet, screenWidth, get_kbd. rewrite Z.geb_leb.
  destruct (Z.leb_spec 59 code) as [Hh|Hlow]; [by rewrite key_char_high in Hk|].
  destruct (keys_map_row (e_mode e) code Hmr) as (row&c'&Hr&Hcc&Hcr&Hc10&Hkc); [lia|].
  rewrite Hkc in Hk. destruct (Z.eqb_spec c' 0) as [?|Hc0]; simplify_eq.
  rewrite bind_gets, (ed_index _ _ He). destruct (Z.ltb_spec (zlen (line e)) (128 - 2)); [|lia].
  rewrite bind_gets, Hm, (bind_lift _ _ _ _ Hr), (bind_lift _ _ _ _ Hcc).
  destruct (Z.eqb_spec c 0); [done|]. rewrite bind_gets, (ed_ctrl _ _ He). cbn [Z.eqb andb].
  assert ((negb (zlen (line e) =? 0) && (zlen (line e) `rem` (80 - 7) =? 0)) = false) as ->.
  { rewrite Z.rem_small by lia. by destruct (zlen (line e) =? 0). }
  rewrite bind_skip.
  destruct (run_op_step (OPutcUser c) s (ed_screen _ _ He)) as (s1&H1&Hst1). cbn [run_op] in H1.
  rewrite (bind_run _ _ _ _ _ H1). pose proof (screen_step_kbd _ _ Hst1) as Hk1.
  assert (He1 : edits e s1) by (apply (edits_same e s); [done|apply Hst1|done]).
  rewrite bind_gets, (ed_index _ _ He1).
  erewrite bind_run; [|apply write_key_run; pose proof (ed_length _ _ He1); lia].
  unfold set_kbd. rewrite bind_modify.
  pose proof (edits_append e s1 c He1 ltac:(lia) ltac:(lia) Hc10) as He2.
  rewrite Nat2Z.id. cbn [kbd setter] in *.
  destruct (key_press_end_run _ _ He2) as (s3&H3&He3&Hf3); [cbn; rewrite length_app; cbn; lia|].
  exists s3. split; [exact H3|]. split; [done|].
  etrans; [by apply screen_step_frame|]. etrans; [|exact Hf3]. by split_and!.
Qed.

(** Deleting the last character. *)
Lemma edits_delete e s :
  edits e s → (0 < length (line e) < 127)%nat →
  edits (mk_editor (e_mode e) (take (length (line e) - 1) (line e)))
    (s <| kbd ::= λ k, k <| keyBuffer ::= <[length (line e) := 0]> |>
                        <| keyBufferIndex := zlen (line e) - 1 |> |>).
Proof.
  intros [Hok Hm Hc Hlen Hi Hl Hch Hu Hr] Hlt.
  assert (Ht : length (take (length (line e) - 1) (line e)) = (length (line e) - 1)%nat)
    by (rewrite length_take; lia).
  constructor; cbn [kbd line e_mode mode ctrlPressed keyBuffer keyBufferIndex setter]; try done.
  - destruct Hok. by constructor.
  - by rewrite length_insert.
  - rewrite Ht. lia.
  - intros k x [Hk Hkl]%lookup_take_Some. rewrite list_lookup_insert_ne by lia. by apply Hl.
  - by apply Forall_take.
  - rewrite Ht, list_lookup_insert_ne by lia.
    destruct (lookup_lt_is_Some_2 (line e) (length (line e) - 1)) as [x Hx]; [lia|].
    rewrite (Hl _ _ Hx). rewrite Forall_lookup in Hch. destruct (Hch _ _ Hx). congruence.
  - intros k Hk. rewrite Ht in Hk. destruct (decide (k = length (line e))) as [->|].
    + apply list_lookup_insert_eq. lia.
    + rewrite list_lookup_insert_ne by done. apply Hr. lia.
Qed.

Lemma backspace_key_run e s :
  edits e s → (length (line e) < 127)%nat →
  ∃ s', backspace_key s = Some ((), s') ∧
    edits (mk_editor (e_mode e) (take (length (line e) - 1) (line e))) s' ∧ kbd_frame s s'.
Proof.
  intros He Hl. unfold backspace_key, get_kbd. rewrite bind_gets, (ed_index _ _ He), Z.gtb_ltb.
  destruct (Z.ltb_spec 0 (zlen (line e))) as [Hpos|Hzero].
  - unfold read_key, get_kbd. rewrite !bind_assoc, bind_gets.
    destruct (lookup_lt_is_Some_2 (keyBuffer (kbd s)) (length (line e))) as [x Hx];
      [pose proof (ed_length _ _ He); lia|].
    assert (aget (keyBuffer (kbd s)) (zlen (line e)) = Some x) as Hx' by (by rewrite aget_of_nat).
    rewrite (bind_lift _ _ _ _ Hx').
    destruct (Z.eqb_spec x 10) as [->|Hx10]; [by destruct (ed_under _ _ He)|].
    rewrite bind_assoc, bind_skip, bind_assoc.
    destruct (run_op_step OBackspace s (ed_screen _ _ He)) as (s1&H1&Hst1). cbn [run_op] in H1.
    rewrite (bind_run _ _ _ _ _ H1). pose proof (screen_step_kbd _ _ Hst1) as Hk1.
    assert (He1 : edits e s1) by (apply (edits_same e s); [done|apply Hst1|done]).
    rewrite !bind_assoc, bind_gets, (ed_index _ _ He1), bind_assoc.
    erewrite bind_run; [|apply write_key_run; pose proof (ed_length _ _ He1); lia].
    unfold set_kbd. rewrite bind_modify. pose proof (edits_delete e s1 He1 ltac:(lia)) as He2.
    rewrite Nat2Z.id. cbn [kbd setter] in *.
    destruct (update_cursor_step _ (ed_screen _ _ He2)) as (s3&H3&Hst3).
    exists s3. split; [exact H3|]. split.
    + apply (edits_same _ _ s3 He2); [apply Hst3|by apply screen_step_kbd].
    + etrans; [by apply screen_step_frame|].
      etrans; [|by apply screen_step_frame; exact Hst3]. by split_and!.
  - rewrite bind_skip. destruct (update_cursor_step s (ed_screen _ _ He)) as (s'&Hrun&Hst).
    exists s'. split; [done|]. split; [|by apply screen_step_frame].
    assert (line e = []) as Hnil by (destruct (line e); [done|cbn in Hzero; lia]).
    apply (edits_kbd e _ s); rewrite ?(screen_step_kbd _ _ Hst); try done; try apply He; [apply Hst|].
    by rewrite Hnil.
Qed.

(** A key that only changes the keyboard variables, other than the buffer. *)
Lemma modifier_step e m' code f s :
  edits e s → 0 ≤ m' ≤ 3 → 0 ≤ code → (length (line e) < 126)%nat → key_char m' code = None →
  (∀ k, mode k = e_mode e → mode (f k) = m') → (∀ k, ctrlPressed k = 0 → ctrlPressed (f k) = 0) →
  (∀ k, keyBuffer (f k) = keyBuffer k) → (∀ k, keyBufferIndex (f k) = keyBufferIndex k) →
  ∃ s', (set_kbd f;; key_press code) s = Some ((), s') ∧ edits (mk_editor m' (line e)) s' ∧
    s' = s <| kbd ::= f |>.
Proof.
  intros He Hm Hc Hl Hk H1 H2 H3 H4. unfold set_kbd. rewrite bind_modify.
  destruct (ed_mode _ _ He) as [Hme _]. specialize (H1 _ Hme).
  eexists. split; [|split; [|reflexivity]].
  - apply key_press_nothing; cbn [kbd setter]; rewrite ?H1, ?H4, ?(ed_index _ _ He); try done; lia.
  - apply (edits_kbd e _ s); try done.
    + apply screen_ok_kbd, (ed_screen _ _ He).
    + cbn. apply H2, (ed_ctrl _ _ He).
    + apply H3.
    + apply H4.
Qed.

Lemma mode_ranges m :
  0 ≤ m ≤ 3 → 0 ≤ Z.lor m 2 ≤ 3 ∧ 0 ≤ Z.land m (Z.lnot 2) ≤ 3 ∧ 0 ≤ Z.lxor m 1 ≤ 3.
Proof.
  intros. assert (m = 0 ∨ m = 1 ∨ m = 2 ∨ m = 3) as [-> | [-> | [-> | ->]]] by lia; by vm_compute.
Qed.

(** Everything but the keyboard, and its Alt key, as in [kbd_frame]. *)
Definition line_frame (s s' : kstate) : Prop :=
  rtc s' = rtc s ∧ proc s' = proc s ∧ pic s' = pic s ∧ fs_image s' = fs_image s ∧
  curr_terminal (scr s') = curr_terminal (scr s) ∧
  (∀ usr v, translate_as usr s' v = translate_as usr s v).
#[export] Instance line_frame_preorder : PreOrder line_frame.
Proof.
  split.
  - intros s. by split_and!.
  - intros s1 s2 s3 (?&?&?&?&?&H) (?&?&?&?&?&H'). split_and!; congruence.
Qed.
Lemma kbd_line_frame s s' : kbd_frame s s' → line_frame s s'.
Proof. intros (?&?&?&?&?&_&?). by split_and!. Qed.

Lemma in_14 : 14 ∈ [14; 42; 54; 56; 58]. Proof. left. Qed.
Lemma in_56 : 56 ∈ [14; 42; 54; 56; 58]. Proof. do 3 right. left. Qed.

(** The outcome of a key that only changes the modifiers. *)
Lemma modifier_edits e m' code f s :
  edits e s → 0 ≤ m' ≤ 3 → (length (line e) ≤ 73)%nat → code ∈ [42; 54; 56; 58] ∨ 59 ≤ code →
  (∀ k, mode k = e_mode e → mode (f k) = m') → (∀ k, ctrlPressed k = 0 → ctrlPressed (f k) = 0) →
  (∀ k, keyBuffer (f k) = keyBuffer k) → (∀ k, keyBufferIndex (f k) = keyBufferIndex k) →
  ∃ s', (set_kbd f;; key_press code) s = Some ((), s') ∧ edits (mk_editor m' (line e)) s' ∧ line_frame s s'.
Proof.
  intros He Hm Hl Hcode H1 H2 H3 H4.
  assert (0 ≤ code ∧ key_char m' code = None) as [Hc Hk].
  { destruct Hcode as [Hin|]; [|split; [lia|by apply key_char_high]].
    split; [set_unfold in Hin; lia|]. apply key_char_special; [done|]. set_solver. }
  destruct (modifier_step e m' code f s) as (s'&Hrun&He'&->); try done; [lia|].
  eexists. split; [exact Hrun|]. split; [done|]. by split_and!.
Qed.

Lemma no_char_edits e code s :
  edits e s → (length (line e) ≤ 73)%nat → 0 ≤ code → key_char (e_mode e) code = None →
  ∃ s', key_press code s = Some ((), s') ∧ edits e s' ∧ line_frame s s'.
Proof.
  intros He Hl Hc Hk. destruct (ed_mode _ _ He) as [Hm Hmr]. exists s. split; [|done].
  apply key_press_nothing; rewrite ?Hm, ?(ed_index _ _ He); try done; lia.
Qed.

Lemma handle_key_edits e s code :
  edits e s → plain_code code → (length (line e) ≤ 73)%nat → (length (line (edit e code)) ≤ 73)%nat →
  ∃ s', handle_key code s = Some ((), s') ∧ edits (edit e code) s' ∧ line_frame s s'.
Proof.
  intros He [Hc Hnin] Hl Hl'. destruct (ed_mode _ _ He) as [_ Hmr].
  destruct (mode_ranges _ Hmr) as (Hor&Hand&Hxor).
  unfold handle_key, key_switch, SHIFTVALUE, edit in *.
  destruct ((code =? 42) || (code =? 54)) eqn:E1; [apply modifier_edits; try done; [set_unfold; lia|by intros ? <-]|].
  destruct ((code =? 170) || (code =? 182)) eqn:E2; [apply modifier_edits; try done; [lia|by intros ? <-]|].
  destruct (code =? 58) eqn:E3; [apply modifier_edits; try done; [set_unfold; lia|by intros ? <-]|].
  assert (code ≠ 29 ∧ code ≠ 59 ∧ code ≠ 60 ∧ code ≠ 61 ∧ code ≠ 28) as (->%Z.eqb_neq&N1&N2&N3&N4) by set_solver.
  assert (modif : ∀ (f : kbd_t → kbd_t), (code =? 14) = false → key_char (e_mode e) code = None → (code = 56 ∨ 59 ≤ code) →
    (∀ k, mode (f k) = mode k) → (∀ k, ctrlPressed k = 0 → ctrlPressed (f k) = 0) →
    (∀ k, keyBuffer (f k) = keyBuffer k) → (∀ k, keyBufferIndex (f k) = keyBufferIndex k) →
    ∃ s', (set_kbd f;; key_press code) s = Some ((), s') ∧ edits e s' ∧ line_frame s s').
  { intros f E4 Hk Hcode Hmd H2 H3 H4. destruct (modifier_edits e (e_mode e) code f s) as (s'&?&He'&?);
      try done; [destruct Hcode as [->|?]; [left; set_solver|by right]|by intros k <-|].
    exists s'. split_and!; try done. by destruct e. }
  destruct (code =? 157) eqn:E5; [|destruct (code =? 56) eqn:E6; [|destruct (code =? 184) eqn:E7]].
  - apply Z.eqb_eq in E5 as ->. rewrite (key_char_high (e_mode e)) in * by lia. apply modif; try done. lia.
  - apply Z.eqb_eq in E6 as ->. rewrite (key_char_special (e_mode e) 56 Hmr in_56) in *. apply modif; try done. lia.
  - apply Z.eqb_eq in E7 as ->. rewrite (key_char_high (e_mode e)) in * by lia. apply modif; try done. lia.
  - apply Z.eqb_neq in N1 as ->, N2 as ->, N3 as ->, N4 as ->.
    destruct (code =? 14) eqn:E8.
    + apply Z.eqb_eq in E8 as ->. destruct (backspace_key_run e s He) as (s1&H1&He1&Hf1); [lia|].
      rewrite (bind_run _ _ _ _ _ H1).
      destruct (no_char_edits _ 14 _ He1) as (s2&H2&He2&Hf2);
        [done|done|exact (key_char_special _ 14 (proj2 (ed_mode _ _ He1)) in_14)|].
      exists s2. split_and!; try done. etrans; [by apply kbd_line_frame|done].
    + rewrite bind_skip. destruct (key_char (e_mode e) code) as [c|] eqn:Hk;
        [|by apply no_char_edits; [| |lia|]].
      cbn [line] in Hl'. rewrite length_app in Hl'. cbn in Hl'.
      destruct (key_press_types e s code c He) as (s1&H1&He1&Hf1); [lia|lia|done|].
      exists s1. split_and!; try done. by apply kbd_line_frame.
Qed.

(** Every line on the way is at most 73 characters, what one screen row takes. *)
Fixpoint fits (e : editor) (codes : list Z) : bool :=
  (length (line e) <=? 73)%nat &&
  match codes with [] => true | c :: codes => fits (edit e c) codes end.

Lemma fits_head e codes : fits e codes = true → (length (line e) ≤ 73)%nat.
Proof. destruct codes; cbn; intros [H _]%andb_prop; by apply Nat.leb_le. Qed.

Lemma handle_keys_edits e s codes :
  edits e s → Forall plain_code codes → fits e codes = true →
  ∃ s', handle_keys codes s = Some ((), s') ∧ edits (foldl edit e codes) s' ∧ line_frame s s'.
Proof.
  intros He Hc. revert e s He. induction Hc as [|c codes Hc Hcs IH]; intros e s He Hf.
  - by exists s.
  - cbn in Hf. apply andb_prop in Hf as [Hl%Nat.leb_le Hf].
    destruct (handle_key_edits e s c He Hc Hl (fits_head _ _ Hf)) as (s1&H1&He1&Hf1).
    destruct (IH _ _ He1 Hf) as (s2&H2&He2&Hf2). exists s2.
    split; [cbn [handle_keys]; by rewrite (bind_run _ _ _ _ _ H1)|].
    split; [done|]. by etrans.
Qed.

Lemma take_included {A} (l b : list A) : (∀ k c, l !! k = Some c → b !! k = Some c) → take (length l) b = l.
Proof.
  intros H. apply list_eq. intros k. destruct (decide (k < length l)%nat) as [Hk|Hk].
  - rewrite lookup_take_lt by done. destruct (lookup_lt_is_Some_2 _ _ Hk) as [c Hc]. rewrite Hc. by apply H.
  - rewrite lookup_take_ge by lia. symmetry. apply lookup_ge_None. lia.
Qed.

(** The 128-th write falls outside the buffer. *)
Lemma write_loop_overrun n i s :
  length (keyBuffer (kbd s)) = 127%nat → i ≤ 127 < i + Z.of_nat n →
  for_n n i (λ k, write_key k 0) s = None.
Proof.
  revert i s. induction n as [|n IH]; intros i s Hl Hi; [lia|]. cbn [for_n].
  destruct (decide (0 ≤ i < 127)) as [Hin|].
  - erewrite bind_run by (apply write_key_run; lia).
    apply IH; [cbn; by rewrite length_insert|lia].
  - unfold write_key, get_kbd. rewrite bind_assoc, bind_gets, bind_assoc.
    apply bind_lift_None, aset_out. lia.
Qed.
Lemma clear_buffer_overrun s :
  length (keyBuffer (kbd s)) = 127%nat →
  for_n (Z.to_nat keyBufferSize) 0 (λ k, write_key k 0) s = None.
Proof. intros. apply write_loop_overrun; [done|]. by vm_compute. Qed.

(** ** The driver implements the line editor *)


Lemma demo_edits : edits (mk_editor 0 []) (demo_state 0 0 0).
Proof.
  constructor; try done; [by apply demo_ok|].
  intros k Hk. cbn -[replicate]. apply lookup_replicate. split; [done|]. cbn in Hk. lia.
Qed.

(** ** Where the buffer of 127 characters is too small *)

(** Ctrl-L clears [keyBufferSize = 128] characters of the 127. *)
Lemma ctrl_l_out_of_bounds s :
  screen_ok s → length (keyBuffer (kbd s)) = 127%nat → 0 ≤ mode (kbd s) ≤ 3 →
  ctrlPressed (kbd s) = 1 → 0 ≤ keyBufferIndex (kbd s) < 126 → handle_key 38 s = None.
Proof.
  intros Hok Hl Hm Hc Hi. unfold handle_key. change (key_switch 38) with (skip : K ()).
  rewrite bind_skip. unfold key_press, get_kbd, keyBufferSize, spacingSet, keySize.
  change (38 >=? 59) with false. cbn iota. rewrite bind_gets.
  destruct (Z.ltb_spec (keyBufferIndex (kbd s)) (128 - 2)); [|lia]. rewrite bind_gets.
  assert (∃ row v, aget keys_map (mode (kbd s)) = Some row ∧ aget row 38 = Some v ∧ (v = 108 ∨ v = 76))
    as (row&v&Hr&Hv&Hl108).
  { assert (mode (kbd s) = 0 ∨ mode (kbd s) = 1 ∨ mode (kbd s) = 2 ∨ mode (kbd s) = 3)
      as [-> | [-> | [-> | ->]]] by lia; do 2 eexists; (split; [reflexivity|]);
      (split; [reflexivity|]); first [by left|by right]. }
  rewrite (bind_lift _ _ _ _ Hr), (bind_lift _ _ _ _ Hv).
  destruct (Z.eqb_spec v 0); [lia|]. rewrite bind_gets, Hc.
  assert ((v =? 108) || (v =? 76) = true) as -> by lia. cbn [Z.eqb Pos.eqb andb].
  destruct (run_op_step OReset s Hok) as (s1&H1&Hst). cbn [run_op] in H1. rewrite (bind_run _ _ _ _ _ H1).
  apply bind_None. apply clear_buffer_overrun. by rewrite (screen_step_kbd _ _ Hst).
Qed.
