(* ===== verification/Frame.v ===== *)
(** * Frame: which part of the kernel state an operation keeps

    The flags of the terminals, which the interrupt handlers of a typed line do
    not touch, by the rules of [Keep]. *)
From S2P Require Import Prelude Keep LibMem KState PortIO Screen Switch Keyboard.

(** ** The flags of the terminals: [visible], [enterFlag], [newline_tracker] *)
Definition flags_of (t : terminal_t) : Z * Z * Z := (visible t, enterFlag t, newline_tracker t).
Definition term_flags (s : kstate) : list (Z * Z * Z) := flags_of <$> term_arr (scr s).

Lemma term_flags_get s s' i t :
  term_flags s' = term_flags s → aget (term_arr (scr s)) i = Some t →
  ∃ t', aget (term_arr (scr s')) i = Some t' ∧ flags_of t' = flags_of t.
Proof.
  intros Hf Ht. pose proof (aget_Some_range _ _ _ Ht). rewrite aget_nonneg in * by lia.
  assert (flags_of <$> term_arr (scr s') !! Z.to_nat i = Some (flags_of t)) as H'.
  { rewrite <- list_lookup_fmap. fold (term_flags s'). rewrite Hf. unfold term_flags.
    by rewrite list_lookup_fmap, Ht. }
  destruct (term_arr (scr s') !! Z.to_nat i) as [t'|]; [|done].
  exists t'. split; [done|]. cbn [fmap option_fmap option_map] in H'. congruence.
Qed.

Lemma flags_set_term i f : (∀ t, flags_of (f t) = flags_of t) → keeps term_flags (set_term i f).
Proof.
  intros Hf s [] s'. unfold kept, set_term. rewrite bind_gets.
  destruct (aget (term_arr (scr s)) i) as [t|] eqn:Ht; [|done]. rewrite (bind_lift _ _ _ _ eq_refl).
  pose proof (aget_Some_range _ _ _ Ht) as Hr. rewrite (bind_lift _ _ _ _ (aset_in _ i _ Hr)).
  unfold modify. intros. simplify_eq. unfold term_flags. cbn. rewrite list_fmap_insert, Hf.
  apply list_insert_id. rewrite list_lookup_fmap. rewrite aget_nonneg in Ht by lia. by rewrite Ht.
Qed.
Lemma flags_set_scr f : (∀ c, term_arr (f c) = term_arr c) → keeps term_flags (set_scr f).
Proof. intros Hf. apply keeps_modify. intros s. unfold term_flags. cbn. by rewrite Hf. Qed.
Lemma flags_set_kbd f : keeps term_flags (set_kbd f).
Proof. by apply keeps_modify. Qed.
Lemma flags_outb d p : keeps term_flags (outb d p).
Proof. by apply keeps_modify. Qed.
Lemma flags_store8 a b : keeps term_flags (store8 a b).
Proof.
  intros s [] s'. unfold kept, store8. destruct (translate s a); [|done]. intros. by simplify_eq.
Qed.
Lemma flags_load8 a : keeps term_flags (load8 (S := kstate) a).
Proof. intros s b s'. unfold kept, load8. destruct (translate s a); [|done]. intros. by simplify_eq. Qed.
#[export] Hint Resolve flags_set_kbd flags_outb flags_store8 flags_load8 : keep.
#[export] Hint Extern 1 (keeps term_flags (set_term _ _)) => by apply flags_set_term : keep.
#[export] Hint Extern 1 (keeps term_flags (set_scr _)) => by apply flags_set_scr : keep.

Lemma flags_get_term i : keeps term_flags (get_term i).
Proof. unfold get_term. keep. Qed.
Lemma flags_load_cursor i : keeps term_flags (load_cursor i).
Proof. unfold load_cursor, get_term. keep. Qed.
Lemma flags_save_cursor i : keeps term_flags (save_cursor i).
Proof. unfold save_cursor. keep. Qed.
Lemma flags_set_video_mem i : keeps term_flags (set_video_mem i).
Proof. unfold set_video_mem, get_term. keep. Qed.
Lemma flags_video_store o b : keeps term_flags (video_store o b).
Proof. unfold video_store. keep. Qed.
Lemma flags_video_load o : keeps term_flags (video_load o).
Proof. unfold video_load. keep. Qed.
Lemma flags_the_terminal : keeps term_flags the_terminal.
Proof. apply (moves_gets _). Qed.
Lemma flags_the_process : keeps term_flags the_process.
Proof. apply (moves_gets _). Qed.
#[export] Hint Resolve flags_get_term flags_load_cursor flags_save_cursor flags_set_video_mem
  flags_video_store flags_video_load flags_the_terminal flags_the_process : keep.

Lemma flags_update_cursor : keeps term_flags update_cursor.
Proof. unfold update_cursor. keep. Qed.
Lemma flags_reset : keeps term_flags reset.
Proof. unfold reset, clear_cell, enable_cursor. keep. Qed.
Lemma flags_backspace : keeps term_flags backspace.
Proof. unfold backspace. keep. Qed.
Lemma flags_enter : keeps term_flags enter.
Proof. unfold enter, next_line. keep. Qed.
Lemma flags_newline_check i : keeps term_flags (newline_check_at i).
Proof. unfold newline_check_at. keep. Qed.
#[export] Hint Resolve flags_update_cursor flags_reset flags_backspace flags_enter flags_newline_check : keep.
Lemma flags_vert_scroll_at i : keeps term_flags (vert_scroll_at i).
Proof. unfold vert_scroll_at, scroll_lines, scroll_cell. keep. Qed.
Lemma flags_putc_at i c : keeps term_flags (putc_at i c).
Proof. unfold putc_at. keep. Qed.
#[export] Hint Resolve flags_vert_scroll_at flags_putc_at : keep.

Lemma flags_vert_scroll_user : keeps term_flags vert_scroll_user.
Proof. unfold vert_scroll_user. keep. Qed.

Lemma flags_key_press code : keeps term_flags (key_press code).
Proof.
  unfold key_press, key_press_end, write_key, get_kbd, vert_scroll, putc_user. keep.
Qed.
Lemma flags_backspace_key : keeps term_flags backspace_key.
Proof. unfold backspace_key, write_key, read_key, get_kbd. keep. Qed.
#[export] Hint Resolve flags_key_press flags_backspace_key : keep.

Lemma flags_handle_key code : plain_code code → keeps term_flags (handle_key code).
Proof.
  intros [_ Hc]. rewrite !not_elem_of_cons in Hc. destruct Hc as (E1&E2&E3&E4&E5&_).
  apply Z.eqb_neq in E1, E2, E3, E4, E5.
  unfold handle_key, key_switch. rewrite E1, E2, E3, E4, E5. keep.
Qed.
