(* ===== verification/Terminal.v ===== *)
(** * Terminal: the terminal device ([terminal.c])

    [terminal_read] waits until a line has been entered on a visible terminal,
    copies the characters of the keyboard buffer to the user's buffer and clears
    it; [terminal_write] sends a buffer to the terminal of the running process. *)
From S2P Require Import Prelude Keep LibMem KState PortIO Screen Switch Keyboard Frame.


(** The condition of the busy-wait. *)
Definition line_ready (s : kstate) : option bool :=
  t ← aget (term_arr (scr s)) (curr_terminal (scr s));
  if enterFlag t =? 0 then Some false
  else
    k ← aget (keyBuffer (kbd s)) 0;
    if k =? 0 then Some false
    else
      p ← aget (term_arr (scr s)) (curr_process (proc s));
      Some (visible p =? 1).

(** [n] rounds of the copy loop from index [i]; [count] is an [int8_t]. *)
Fixpoint read_chars (n : nat) (i buf count : Z) : K Z :=
  match n with
  | O => mret count
  | S n =>
      k ← read_key i;
      if negb (k =? 0) && negb (k =? 10) then
        store8 (u32 (buf + i)) (u8 k);; read_chars n (i + 1) buf (i8 (count + 1))
      else read_chars n (i + 1) buf count
  end.

(** [term_arr[curr_process].screen_x = get_screen_x();] and the same for [y]. *)
Definition store_cursor : K () :=
  p ← the_process; x ← get_screen_x;
  set_term p (λ t, t <| t_screen_x := u8 x |>);;
  p ← the_process; y ← get_screen_y;
  set_term p (λ t, t <| t_screen_y := u8 y |>).

Definition clear_keys : K () :=
  for_n (Z.to_nat maxInputLength) 0 (λ i,
    write_key i 0;; set_kbd (λ k, k <| keyBufferIndex := 0 |>)).

(** What follows the busy-wait, with [n] rounds of the copy loop. *)
Definition read_tail (n : nat) (buf : Z) : K Z :=
  cli;;
  count ← read_chars n 0 buf 0;
  clear_keys;;
  sti;;
  store_cursor;;
  mret count.

(** The loop runs while [i < nbytes || i < maxInputLength]. *)
Definition terminal_read (interrupts : list (K ())) (fd offset buf nbytes : Z) : K Z :=
  sti;;
  spin_until line_ready interrupts;;
  read_tail (Z.to_nat (Z.max nbytes maxInputLength)) buf.

Definition the_flag (f : terminal_t → Z) : K Z := p ← the_process; t ← get_term p; mret (f t).
Definition set_tracker (i : Z) (f : Z → Z) : K () := set_term i (λ t, t <| newline_tracker ::= f |>).

(** What a newline does before it is printed. *)
Definition newline_part (c : Z) : K () :=
  v ← the_flag visible; p ← the_process; t ← the_terminal;
  if (c =? 10) && (v =? 1) then newline_check_user;; vert_scroll_user;; set_tracker t (λ _, 0)
  else if c =? 10 then newline_check;; vert_scroll;; set_tracker p (λ _, 0)
  else skip.
(** Printing a character, with the wrap after 80 of them. *)
Definition glyph_part (c : Z) : K () :=
  v ← the_flag visible;
  (if v =? 0 then putc c else putc_user c);;
  update_cursor;;
  p ← the_process;
  set_tracker p (λ n, i8 (n + 1));;
  n ← the_flag newline_tracker;
  if n >=? NUM_COLS then
    v ← the_flag visible; p ← the_process; t ← the_terminal;
    if v =? 0 then enter;; vert_scroll;; set_tracker p (λ _, 0)
    else enter_user;; vert_scroll_user;; set_tracker t (λ _, 0)
  else skip.

(** The body of the loop of [terminal_write]; the count after it. *)
Definition write_char (buf i count : Z) : K Z :=
  c ← load8 (u32 (buf + i));
  if c =? 0 then mret count
  else
    newline_part c;;
    c ← load8 (u32 (buf + i));
    glyph_part c;;
    mret (i8 (count + 1)).

Fixpoint write_chars (n : nat) (i buf count : Z) : K Z :=
  match n with
  | O => mret count
  | S n => count ← write_char buf i count; write_chars n (i + 1) buf count
  end.

(** The cursor and flags of the running process's terminal, before the loop. *)
Definition write_begin : K () :=
  x ← the_flag t_screen_x; set_screen_x x;;
  y ← the_flag t_screen_y; set_screen_y y;;
  p ← the_process;
  set_term p (λ t, t <| newline_tracker := 0 |>);;
  set_term p (λ t, t <| enterFlag := 0 |>).

Definition terminal_write (fd buf nbytes : Z) : K Z :=
  cli;;
  write_begin;;
  count ← write_chars (Z.to_nat nbytes) 0 buf 0;
  store_cursor;;
  sti;;
  mret count.

Definition terminal_open (filename : Z) : K Z := mret 0.
Definition terminal_close (fd : Z) : K Z := mret 0.

(** ** Entering a line *)

(** The driver in mode [m] after Enter: the line, a newline and NULs, and the
    flag of the displayed terminal set. *)
Record entered (m : Z) (l : list Z) (s : kstate) : Prop := {
  en_screen : screen_ok s;
  en_mode : mode (kbd s) = m ∧ 0 ≤ m ≤ 3;
  en_ctrl : ctrlPressed (kbd s) = 0;
  en_buffer : keyBuffer (kbd s) = l ++ 10 :: replicate (126 - length l) 0;
  en_chars : Forall (λ c, 0 < c < 128 ∧ c ≠ 10) l;
  en_length : (length l ≤ 126)%nat;
}.

Lemma entered_buffer e s :
  edits e s → (length (line e) ≤ 126)%nat →
  <[length (line e) := 10]> (keyBuffer (kbd s)) = line e ++ 10 :: replicate (126 - length (line e)) 0.
Proof.
  intros He Hl. pose proof (ed_length _ _ He) as Hlen. apply list_eq. intros k.
  destruct (decide (k = length (line e))) as [->|Hne].
  - rewrite list_lookup_insert_eq by lia. by rewrite list_lookup_middle.
  - rewrite list_lookup_insert_ne by done. destruct (decide (k < length (line e))%nat) as [Hk|Hk].
    + rewrite lookup_app_l by done. destruct (lookup_lt_is_Some_2 _ _ Hk) as [c Hc].
      rewrite Hc. by apply (ed_line _ _ He).
    + rewrite lookup_app_r by lia. destruct (k - length (line e))%nat as [|j] eqn:E; [lia|]. cbn.
      destruct (decide (k < 127)%nat).
      * rewrite (ed_rest _ _ He) by lia. symmetry. apply lookup_replicate. split; [done|lia].
      * trans (@None Z); [|symmetry]; apply lookup_ge_None; rewrite ?length_replicate; lia.
Qed.

Lemma enter_key_run e s t :
  edits e s → (length (line e) ≤ 73)%nat → aget (term_arr (scr s)) (curr_terminal (scr s)) = Some t →
  ∃ s' t', handle_key 28 s = Some ((), s') ∧ entered (e_mode e) (line e) s' ∧ line_frame s s' ∧
    aget (term_arr (scr s')) (curr_terminal (scr s)) = Some t' ∧ flags_of t' = (visible t, 1, newline_tracker t).
Proof.
  intros He Hl Ht. unfold handle_key. change (key_switch 28) with enter_key. unfold enter_key, get_kbd.
  rewrite bind_assoc. pose proof (ed_screen _ _ He) as Hok.
  destruct (enter_user_run t s Hok Ht) as (s1&H1&Hf1&Hmv&_&(t1&Ht1&He1)&_). rewrite (bind_run _ _ _ _ _ H1).
  destruct (run_op_step OEnterUser s Hok) as (s1'&H1'&Hst1). cbn [run_op] in H1'.
  rewrite H1 in H1'. injection H1' as <-.
  destruct (run_op_step OScrollUser s1 (proj1 Hst1)) as (s2&H2&Hst2). cbn [run_op] in H2.
  rewrite bind_assoc, (bind_run _ _ _ _ _ H2), !bind_assoc, bind_gets.
  assert (Hk2 : kbd s2 = kbd s) by (by rewrite (screen_step_kbd _ _ Hst2), (screen_step_kbd _ _ Hst1)).
  rewrite Hk2, (ed_index _ _ He), bind_assoc.
  assert (zlen (keyBuffer (kbd s2)) = 127) as Hl2 by (rewrite Hk2; pose proof (ed_length _ _ He); lia).
  erewrite bind_run by (apply write_key_run; lia). unfold set_kbd. rewrite bind_assoc, bind_modify.
  set (s3 := setter kbd _ (setter kbd _ s2)).
  assert (Hok3 : screen_ok s3) by (apply screen_ok_kbd, screen_ok_kbd, Hst2).
  destruct (update_cursor_step s3 Hok3) as (s4&H4&Hst4). rewrite (bind_run _ _ _ _ _ H4).
  assert (Hk4 : kbd s4 = kbd s3) by (by apply screen_step_kbd).
  assert (Hb : keyBuffer (kbd s3) = line e ++ 10 :: replicate (126 - length (line e)) 0).
  { rewrite <- (entered_buffer e s He) by lia. cbn. by rewrite Hk2, Nat2Z.id. }
  assert (Hm4 : mode (kbd s4) = e_mode e) by (rewrite Hk4; cbn; rewrite Hk2; apply He).
  assert (Hen : entered (e_mode e) (line e) s4).
  { constructor; try apply He; rewrite ?Hm4, ?Hk4; try done; [apply Hst4|split; [done|apply He]| |lia].
    cbn. rewrite Hk2. apply He. }
  destruct (term_flags_get s1 s4 (curr_terminal (scr s)) t1) as (t4&Ht4&Hfl4); [|done|].
  { rewrite (flags_update_cursor _ _ _ H4).
    change (term_flags s3) with (term_flags s2).
    by rewrite (flags_vert_scroll_user _ _ _ H2). }
  exists s4, t4. split; [|split; [done|split; [|split; [done|]]]].
  - assert (key_char (e_mode e) 28 = None) as Hk.
    { destruct (proj2 (ed_mode _ _ He)) as [??].
      assert (e_mode e = 0 ∨ e_mode e = 1 ∨ e_mode e = 2 ∨ e_mode e = 3)
        as [-> | [-> | [-> | ->]]] by lia; reflexivity. }
    apply key_press_nothing; rewrite ?Hm4; try done; [apply He|].
    rewrite Hk4. cbn. lia.
  - etrans; [apply kbd_line_frame, screen_step_frame; exact Hst1|].
    etrans; [apply kbd_line_frame, screen_step_frame; exact Hst2|].
    etrans; [|apply kbd_line_frame, screen_step_frame; exact Hst4]. by split_and!.
  - rewrite Hfl4. destruct Hmv as (u&u'&Hu&_&_&_&_&Hv&Hn&Harr&_). rewrite Hu in Ht. injection Ht as ->.
    rewrite Harr in Ht1. pose proof (aget_Some_range _ _ _ Hu).
    rewrite (aget_aset_eq _ _ u' _ (aset_in _ _ _ H)) in Ht1. injection Ht1 as ->.
    unfold flags_of. by rewrite Hv, Hn, He1.
Qed.

(** ** Waiting for the line *)
Lemma line_head l :
  Forall (λ c, 0 < c < 128 ∧ c ≠ 10) l →
  ∃ k, aget (l ++ 10 :: replicate (126 - length l) 0) 0 = Some k ∧ k ≠ 0.
Proof. intros [|c l' [? ?] _]; eexists; (split; [reflexivity|lia]). Qed.

Lemma handle_keys_app c1 c2 s : handle_keys (c1 ++ c2) s = (handle_keys c1;; handle_keys c2) s.
Proof.
  revert s. induction c1 as [|c c1 IH]; intros s; [done|]. cbn [app handle_keys].
  rewrite bind_assoc. apply bind_cong. intros [] s' _. apply IH.
Qed.

Lemma line_not_ready s t :
  aget (term_arr (scr s)) (curr_terminal (scr s)) = Some t → enterFlag t = 0 → line_ready s = Some false.
Proof. intros Ht He. unfold line_ready. rewrite Ht. cbn. by rewrite He. Qed.

Lemma line_is_ready m l s t :
  entered m l s → aget (term_arr (scr s)) (curr_terminal (scr s)) = Some t → enterFlag t = 1 →
  curr_process (proc s) = curr_terminal (scr s) → visible t = 1 → line_ready s = Some true.
Proof.
  intros He Ht Hf Hp Hv. unfold line_ready. rewrite Ht. cbn. rewrite Hf. cbn.
  assert (∃ k, aget (keyBuffer (kbd s)) 0 = Some k ∧ k ≠ 0) as (k&Hk&Hk0).
  { rewrite (en_buffer _ _ _ He). pose proof (en_chars _ _ _ He) as Hc. destruct (line_head l Hc) as (k&Hk&?).
    by exists k. }
  rewrite Hk. cbn. apply Z.eqb_neq in Hk0. rewrite Hk0, Hp, Ht. cbn. by rewrite Hv.
Qed.

(** While the user types, the busy-wait runs the handlers; it ends with Enter. *)
Lemma spin_keys e s codes t :
  edits e s → Forall plain_code codes → fits e codes = true →
  curr_process (proc s) = curr_terminal (scr s) →
  aget (term_arr (scr s)) (curr_terminal (scr s)) = Some t → visible t = 1 → enterFlag t = 0 →
  let e' := foldl edit e codes in
  ∃ s', handle_keys (codes ++ [28]) s = Some ((), s') ∧
    spin_until line_ready (handle_key <$> (codes ++ [28])) s = Some ((), s') ∧
    entered (e_mode e') (line e') s' ∧ line_frame s s'.
Proof.
  intros He Hc. revert e s t He. induction Hc as [|c codes Hc Hcs IH]; intros e s t He Hfit Hp Ht Hv Hf;
    cbn [app fmap list_fmap foldl handle_keys spin_until]; rewrite (line_not_ready _ _ Ht Hf).
  - destruct (enter_key_run e s t He (fits_head _ _ Hfit) Ht) as (s1&t1&H1&Hen&Hfr&Ht1&Hfl).
    destruct Hfr as (Hr&Hpr&Hpi&Hfs&Hct&Htr). exists s1. rewrite !(bind_run _ _ _ _ _ H1).
    unfold flags_of in Hfl. injection Hfl as Hv1 He1 _.
    split; [done|]. split; [|by split_and!]. cbn.
    rewrite (line_is_ready _ _ _ t1 Hen); try done; [by rewrite Hct|by rewrite Hpr, Hct|by rewrite Hv1].
  - cbn in Hfit. apply andb_prop in Hfit as [Hl%Nat.leb_le Hfit].
    destruct (handle_key_edits e s c He Hc Hl (fits_head _ _ Hfit)) as (s1&H1&He1&Hf1).
    destruct (term_flags_get s s1 _ t (flags_handle_key c Hc _ _ _ H1) Ht) as (t1&Ht1&Hfl).
    unfold flags_of in Hfl. injection Hfl as Hv1 He1' _.
    destruct Hf1 as (Hr&Hpr&Hpi&Hfs&Hct&Htr) eqn:Hf1'.
    destruct (IH (edit e c) s1 t1) as (s2&H2&Hs2&Hen&Hfr2); try done;
      [by rewrite Hpr, Hct|by rewrite Hct|by rewrite Hv1|by rewrite He1'|].
    exists s2. rewrite !(bind_run _ _ _ _ _ H1). split_and!; try done. by etrans.
Qed.

(** ** Copying the line to the user's buffer *)
Fixpoint poke (l : list Z) (p : Z) (s : kstate) : kstate :=
  match l with [] => s | c :: l => poke l (p + 1) (update p (u8 c) s) end.

Lemma poke_rest l p s :
  kbd (poke l p s) = kbd s ∧ scr (poke l p s) = scr s ∧ proc (poke l p s) = proc s ∧
  rtc (poke l p s) = rtc s ∧ pic (poke l p s) = pic s ∧ fs_image (poke l p s) = fs_image s ∧
  cpu (poke l p s) = cpu s ∧ (∀ usr v, translate_as usr (poke l p s) v = translate_as usr s v).
Proof.
  revert p s. induction l as [|c l IH]; intros p s; [done|]. cbn [poke].
  destruct (IH (p + 1) (update p (u8 c) s)) as (->&->&->&->&->&->&->&H). by split_and!.
Qed.
Lemma poke_contents l p s q :
  contents (poke l p s) q =
    if decide (p ≤ q < p + zlen l) then u8 (default 0 (l !! Z.to_nat (q - p))) else contents s q.
Proof.
  revert p s. induction l as [|c l IH]; intros p s; cbn [poke length].
  - destruct (decide _); [lia|done].
  - rewrite IH. destruct (decide (p + 1 ≤ q < p + 1 + zlen l)).
    + rewrite decide_True by lia. by replace (Z.to_nat (q - p)) with (S (Z.to_nat (q - (p + 1)))) by lia.
    + rewrite contents_update. destruct (decide (q = p)) as [->|].
      * rewrite decide_True by lia. rewrite Z.sub_diag. cbn. unfold u8. by rewrite Z.mod_mod.
      * by rewrite decide_False by lia.
Qed.

(** The user's buffer is mapped to consecutive physical bytes. *)
Definition buffer_at (s : kstate) (buf n p : Z) : Prop :=
  ∀ k, 0 ≤ k < n → translate s (u32 (buf + k)) = Some (p + k).

Lemma read_key_run s i k : aget (keyBuffer (kbd s)) i = Some k → read_key i s = Some (k, s).
Proof. intros Hk. unfold read_key, get_kbd. by rewrite bind_gets, Hk. Qed.

(** The characters of the line are copied and counted ... *)
Lemma read_chars_line l : ∀ m i buf p count s,
  (∀ k c, l !! k = Some c → aget (keyBuffer (kbd s)) (i + Z.of_nat k) = Some c) →
  Forall (λ c, 0 < c < 128 ∧ c ≠ 10) l → 0 ≤ i →
  buffer_at s buf (i + zlen l) p → 0 ≤ count → count + zlen l ≤ 127 →
  read_chars (length l + m) i buf count s =
    read_chars m (i + zlen l) buf (count + zlen l) (poke l (p + i) s).
Proof.
  induction l as [|c l IH]; intros m i buf p count s Hl Hc Hi Hb H0 Hn; cbn [length poke Nat.add].
  - by rewrite !Z.add_0_r.
  - cbn [read_chars]. inversion_clear Hc as [|? ? [Hcr Hc10] Hc']. cbn [length] in Hn, Hb.
    assert (aget (keyBuffer (kbd s)) i = Some c) as Hci by (rewrite <- (Hl 0%nat c eq_refl); f_equal; lia).
    rewrite (bind_run _ _ _ _ _ (read_key_run _ _ _ Hci)).
    destruct (Z.eqb_spec c 0), (Z.eqb_spec c 10); try lia. cbn [negb andb].
    rewrite (bind_run _ _ _ _ _ (store8_run _ _ _ _ (Hb i ltac:(lia)))).
    assert (i8 (count + 1) = count + 1) as -> by (unfold i8; cint_lia).
    rewrite (IH m (i + 1) buf p); try done; try lia.
    + rewrite u8_small by (cint; lia).
      replace (i + 1 + zlen l) with (i + Z.of_nat (S (length l))) by lia.
      replace (count + 1 + zlen l) with (count + Z.of_nat (S (length l))) by lia.
      by replace (p + (i + 1)) with (p + i + 1) by lia.
    + intros k d Hk. rewrite <- (Hl (S k) d Hk). cbn [kbd update kstate_mem setter]. f_equal. lia.
    + intros k Hk. rewrite translate_update. apply Hb. lia.
Qed.
(** ... and the rest of the buffer is passed over. *)
Lemma read_chars_rest m : ∀ i buf count s,
  (∀ k, (k < m)%nat → ∃ c, aget (keyBuffer (kbd s)) (i + Z.of_nat k) = Some c ∧ (c = 0 ∨ c = 10)) →
  read_chars m i buf count s = Some (count, s).
Proof.
  induction m as [|m IH]; intros i buf count s Hm; [done|]. cbn [read_chars].
  destruct (Hm 0%nat ltac:(lia)) as (c&Hc&Hc'). rewrite Z.add_0_r in Hc.
  rewrite (bind_run _ _ _ _ _ (read_key_run _ _ _ Hc)).
  assert (negb (c =? 0) && negb (c =? 10) = false) as -> by lia.
  apply IH. intros k Hk. destruct (Hm (S k) ltac:(lia)) as (c'&H&?). exists c'. split; [|done].
  rewrite <- H. f_equal. lia.
Qed.

Lemma read_chars_entered m l s buf p :
  entered m l s → buffer_at s buf 127 p →
  read_chars 127 0 buf 0 s = Some (zlen l, poke l p s).
Proof.
  intros He Hb. pose proof (en_length _ _ _ He) as Hl.
  replace 127%nat with (length l + (127 - length l))%nat by lia.
  rewrite (read_chars_line l _ 0 buf p 0); try lia.
  - rewrite Z.add_0_r, Z.add_0_l. apply read_chars_rest. intros k Hk.
    destruct (poke_rest l p s) as (->&_). rewrite (en_buffer _ _ _ He).
    rewrite aget_nonneg by lia. replace (Z.to_nat (zlen l + Z.of_nat k)) with (length l + k)%nat by lia.
    rewrite lookup_app_r by lia. replace (length l + k - length l)%nat with k by lia.
    destruct k as [|k]; cbn; [eauto|]. exists 0. split; [|by left]. apply lookup_replicate. split; [done|lia].
  - intros k c Hk. rewrite (en_buffer _ _ _ He), aget_nonneg by lia.
    rewrite lookup_app_l; [by rewrite Z.add_0_l, Nat2Z.id|]. rewrite Z.add_0_l, Nat2Z.id.
    by eapply lookup_lt_Some.
  - apply (en_chars _ _ _ He).
  - intros k Hk. apply Hb. lia.
Qed.

Lemma clear_keys_loop n i s :
  0 ≤ i → i + Z.of_nat n = zlen (keyBuffer (kbd s)) →
  for_n n i (λ i, write_key i 0;; set_kbd (λ k, k <| keyBufferIndex := 0 |>)) s =
    Some ((), s <| kbd ::= λ k, k <| keyBuffer := take (Z.to_nat i) (keyBuffer k) ++ replicate n 0 |>
                                  <| keyBufferIndex ::= λ x, if (n =? 0)%nat then x else 0 |> |>).
Proof.
  revert i s. induction n as [|n IH]; intros i s Hi Hn; cbn [for_n].
  - destruct s as [? ? ? [? ? ? b ?] ? ? ? ?]. cbn in Hn |- *. unfold skip.
    rewrite app_nil_r, take_ge by lia. done.
  - rewrite bind_assoc. erewrite bind_run by (apply write_key_run; lia).
    erewrite bind_run by reflexivity. rewrite IH; [|lia|cbn; rewrite length_insert; lia].
    destruct s as [? ? ? [? ? ? b ?] ? ? ? ?]. cbn in Hn |- *. 
    assert (take (Z.to_nat (i + 1)) (<[Z.to_nat i := 0]> b) ++ replicate n 0 =
      take (Z.to_nat i) b ++ 0 :: replicate n 0) as ->; [|by destruct n].
    replace (Z.to_nat (i + 1)) with (S (Z.to_nat i)) by lia. rewrite (take_S_r _ _ 0).
    + by rewrite take_insert_ge, <- app_assoc by lia.
    + rewrite list_lookup_insert_eq by lia. done.
Qed.
Lemma clear_keys_run s :
  length (keyBuffer (kbd s)) = 127%nat →
  clear_keys s = Some ((), s <| kbd ::= λ k, k <| keyBuffer := replicate 127 0 |> <| keyBufferIndex := 0 |> |>).
Proof.
  intros Hl. unfold clear_keys. rewrite clear_keys_loop; [|done|unfold maxInputLength; lia].
  by destruct s as [? ? ? [] ? ? ? ?].
Qed.

Lemma store_cursor_run s :
  screen_ok s → ∃ s', store_cursor s = Some ((), s') ∧ screen_step s s' ∧ cpu s' = cpu s ∧
    ∀ q, contents s' q = contents s q.
Proof.
  intros Hok. destruct (sok_cursor s Hok) as [Hx Hy]. pose proof (sok_process s Hok) as Hp.
  destruct (terms_ok_get _ _ (sok_terms s Hok) Hp) as (t&Ht&[Htx Hty]&Hv).
  unfold store_cursor, the_process, get_screen_x, get_screen_y. rewrite !bind_gets.
  erewrite bind_run by (apply set_term_run; exact Ht). rewrite !bind_gets.
  pose proof (aget_aset_eq _ _ (t <| t_screen_x := u8 (screen_x (scr s)) |>) _
    (aset_in _ _ _ (aget_Some_range _ _ _ Ht))) as Ht'.
  eexists. split; [apply set_term_run; exact Ht'|]. split; [|done]. split; [|by split_and!].
  apply (screen_frame_ok s); try done; [|by left]. cbn.
  unfold NUM_COLS, NUM_ROWS in *.
  apply (terms_ok_insert _ _ (t <| t_screen_x := u8 (screen_x (scr s)) |>)); [|exact Ht'| |done].
  - apply (terms_ok_insert _ _ t); try done; [apply Hok|].
    split; [|done]. cbn. by rewrite u8_small by (cint; lia).
  - split; cbn; by rewrite u8_small by (cint; lia).
Qed.

Lemma screen_ok_cpu_flag b s : screen_ok s → screen_ok (s <| cpu ::= λ c, c <| if_flag := b |> |>).
Proof. intros []. by constructor. Qed.
Lemma screen_ok_poke l p s : screen_ok s → screen_ok (poke l p s).
Proof.
  intros [? ? ? Hm ? ?]. destruct (poke_rest l p s) as (_&Hs&Hp&_&_&_&_&Ht).
  constructor; unfold cursor_in; rewrite ?Hs, ?Hp; try done.
  intros v Hv. cbn. rewrite Ht. by apply Hm.
Qed.

Lemma read_tail_run m l s buf p :
  entered m l s → buffer_at s buf 127 p →
  ∃ s', read_tail 127 buf s = Some (zlen l, s') ∧ edits (mk_editor m []) s' ∧ line_frame s s' ∧
    if_flag (cpu s') = true ∧
    ∀ q, contents s' q = if decide (p ≤ q < p + zlen l) then default 0 (l !! Z.to_nat (q - p)) else contents s q.
Proof.
  intros He Hb. unfold read_tail, cli, sti. rewrite bind_modify.
  set (s1 := s <| cpu ::= _ |>).
  assert (He1 : entered m l s1) by (destruct He; constructor; try done; by apply screen_ok_cpu_flag).
  rewrite (bind_run _ _ _ _ _ (read_chars_entered m l s1 buf p He1 Hb)).
  set (s2 := poke l p s1). destruct (poke_rest l p s1) as (Hk&Hs&Hpr&Hr&Hpi&Hfs&_&Htr). fold s2 in Hk, Hs, Hpr, Hr, Hpi, Hfs, Htr.
  erewrite bind_run; [|apply clear_keys_run; rewrite Hk, (en_buffer _ _ _ He1), length_app; cbn [length];
    rewrite length_replicate; pose proof (en_length _ _ _ He); lia].
  rewrite bind_modify. set (s3 := setter cpu _ (setter kbd _ s2)).
  assert (Hok3 : screen_ok s3) by (apply screen_ok_cpu_flag, screen_ok_kbd, screen_ok_poke, He1).
  destruct (store_cursor_run s3 Hok3) as (s4&H4&Hst&Hcpu&Hc). exists s4.
  rewrite (bind_run _ _ _ _ _ H4). split; [done|].
  assert (Hk4 : kbd s4 = kbd s3) by (by apply screen_step_kbd).
  split; [|split; [|split]].
  - constructor; rewrite ?Hk4; cbn -[replicate]; rewrite ?Hk; try done; try apply He1; [apply Hst|].
    intros k Hk'. apply lookup_replicate. split; [done|lia].
  - etrans; [|apply kbd_line_frame, screen_step_frame; exact Hst]. by split_and!; cbn; rewrite ?Hr, ?Hpr, ?Hpi, ?Hfs, ?Hs.
  - by rewrite Hcpu.
  - intros q. rewrite Hc. change (contents s3 q) with (contents s2 q). unfold s2. rewrite poke_contents.
    destruct (decide _) as [Hq|]; [|done].
    destruct (l !! Z.to_nat (q - p)) as [c|] eqn:E; [|done]. cbn. pose proof (en_chars _ _ _ He) as Hch.
    rewrite Forall_lookup in Hch. apply Hch in E. rewrite u8_small by (cint; lia). done.
Qed.

(** ** The device *)

(** C19. A read of a terminal whose running process is the displayed one: the
    keys typed while [terminal_read] waits are handled by the keyboard driver,
    Enter ends the wait, and the call returns the length of the line the editor
    has then; the user's buffer receives exactly its characters, no other byte of
    memory changes after Enter, the driver's buffer is empty again and
    interrupts are enabled. *)
Theorem terminal_read_line e s codes t fd offset buf nbytes p :
  edits e s → Forall plain_code codes → fits e codes = true →
  curr_process (proc s) = curr_terminal (scr s) →
  aget (term_arr (scr s)) (curr_terminal (scr s)) = Some t → visible t = 1 → enterFlag t = 0 →
  buffer_at s buf 127 p → 0 ≤ nbytes ≤ 127 →
  let e' := foldl edit e codes in
  ∃ s1 s', handle_keys (codes ++ [28]) (s <| cpu ::= λ c, c <| if_flag := true |> |>) = Some ((), s1) ∧
    terminal_read (handle_key <$> (codes ++ [28])) fd offset buf nbytes s = Some (zlen (line e'), s') ∧
    edits (mk_editor (e_mode e') []) s' ∧ line_frame s s' ∧ if_flag (cpu s') = true ∧
    ∀ q, contents s' q = if decide (p ≤ q < p + zlen (line e')) then default 0 (line e' !! Z.to_nat (q - p))
                         else contents s1 q.
Proof.
  intros He Hc Hfit Hp Ht Hv Hf Hb Hn e'. set (s0 := s <| cpu ::= _ |>).
  assert (He0 : edits e s0) by (apply (edits_same e s); [done|apply screen_ok_cpu_flag, He|done]).
  destruct (spin_keys e s0 codes t) as (s1&H1&Hs1&Hen&Hf1); try done.
  destruct (read_tail_run _ _ s1 buf p Hen) as (s2&H2&He2&Hf2&Hif&Hc2).
  { intros k Hk. cbn. destruct Hf1 as (_&_&_&_&_&->). by apply Hb. }
  exists s1, s2. split; [done|]. split.
  { unfold terminal_read, maxInputLength. rewrite (bind_run sti () _ _ s0 eq_refl), (bind_run _ _ _ _ _ Hs1).
    assert (Z.to_nat (Z.max nbytes 127) = 127%nat) as -> by lia. exact H2. }
  split; [done|]. split; [|done]. etrans; [|exact Hf2]. etrans; [|exact Hf1]. by split_and!.
Qed.

Lemma terminal_read_line_witness :
  ∃ s', terminal_read (handle_key <$> [38; 31; 28]) 0 0 4096 100 (demo_state 0 0 0) = Some (2, s') ∧
    contents s' 4096 = 108 ∧ contents s' 4097 = 115.
Proof.
  destruct (terminal_read_line (mk_editor 0 []) (demo_state 0 0 0) [38; 31] (demo_terminal 0 0 0 1) 0 0 4096 100 4096)
    as (s1&s'&_&H&_&_&_&Hq).
  - exact demo_edits.
  - apply (bool_decide_unpack _). vm_compute. exact I.
  - reflexivity.
  - reflexivity.
  - reflexivity.
  - reflexivity.
  - reflexivity.
  - intros k Hk. cbn. unfold translate_as. rewrite u32_small by (cint; lia).
    destruct (Z.leb_spec 0 (4096 + k)), (Z.ltb_spec (4096 + k) 4294967296); lia || done.
  - lia.
  - exists s'. split; [exact H|]. rewrite !Hq. split; reflexivity.
Defined.

(** A request for more than 127 bytes runs past the keyboard buffer. *)
Lemma read_chars_overrun n i buf p count s :
  length (keyBuffer (kbd s)) = 127%nat → 0 ≤ i ≤ 127 → 127 < i + Z.of_nat n →
  buffer_at s buf 127 p → read_chars n i buf count s = None.
Proof.
  intros Hl Hi Hn Hb. revert i count s Hl Hi Hn Hb. induction n as [|n IH]; intros i count s Hl Hi Hn Hb; [lia|].
  cbn [read_chars]. destruct (decide (i = 127)) as [->|].
  - apply bind_None. unfold read_key, get_kbd. rewrite bind_gets.
    assert (aget (keyBuffer (kbd s)) 127 = None) as -> by (apply aget_None; lia). done.
  - destruct (proj2 (aget_is_Some (keyBuffer (kbd s)) i)) as [k Hk]; [lia|].
    rewrite (bind_run _ _ _ _ _ (read_key_run _ _ _ Hk)). destruct (_ && _); [|apply IH; try done; lia].
    rewrite (bind_run _ _ _ _ _ (store8_run _ _ _ _ (Hb i ltac:(lia)))).
    apply IH; try done; lia.
Qed.

(** ** Writing: what every output step does *)

(** A physical byte of a terminal's text page (or of the two bytes before it). *)
Definition video_page (s : kstate) (q : Z) : Prop :=
  ∃ i off, 0 ≤ i < 3 ∧ -2 ≤ off < 4096 ∧ vid_phys s i off = Some q.
(** A step of the screen that writes text pages only. *)
Definition draw_step (s s' : kstate) : Prop :=
  screen_step s s' ∧ ∀ q, ¬ video_page s q → contents s' q = contents s q.
(** An output computation: total on good screens, and a draw step. *)
Definition draws {A} (m : K A) : Prop :=
  ∀ s, screen_ok s → ∃ a s', m s = Some (a, s') ∧ draw_step s s'.

Lemma video_page_step s s' q : screen_step s s' → video_page s' q → video_page s q.
Proof.
  intros [_ (_&_&_&_&_&_&Ht)] (i&off&?&?&H). exists i, off. split_and!; try done; try lia.
  rewrite <- H. unfold vid_phys. cbn. by rewrite Ht.
Qed.
Lemma draw_step_trans s1 s2 s3 : draw_step s1 s2 → draw_step s2 s3 → draw_step s1 s3.
Proof.
  intros [[? Hf1] Hc1] [[? Hf2] Hc2]. split; [split; [done|by etrans]|].
  intros q Hq. rewrite Hc2, Hc1; [done|done|]. intros Hv. apply Hq.
  apply (video_page_step s1 s2); [by split|done].
Qed.
Lemma draw_step_same s s' : screen_step s s' → (∀ q, contents s' q = contents s q) → draw_step s s'.
Proof. by split. Qed.
Lemma draw_step_refl s : screen_ok s → draw_step s s.
Proof. by split; [split|]. Qed.

Lemma draws_bind {A B} (m : K A) (f : A → K B) : draws m → (∀ a, draws (f a)) → draws (m ≫= f).
Proof.
  intros Hm Hf s Hok. destruct (Hm s Hok) as (a&s1&H1&Hd1).
  destruct (Hf a s1 (proj1 (proj1 Hd1))) as (b&s2&H2&Hd2). exists b, s2.
  rewrite (bind_run _ _ _ _ _ H1). split; [done|]. by eapply draw_step_trans.
Qed.
Lemma draws_if {A} (b : bool) (m m' : K A) : draws m → draws m' → draws (if b then m else m').
Proof. by destruct b. Qed.
Lemma draws_ret {A} (a : A) : draws (mret a).
Proof. intros s Hok. exists a, s. split; [done|by apply draw_step_refl]. Qed.
Lemma draws_skip : draws skip.
Proof. apply (draws_ret ()). Qed.
Lemma draws_process {A} (f : Z → K A) : (∀ p, 0 ≤ p < 3 → draws (f p)) → draws (the_process ≫= f).
Proof. intros Hf s Hok. unfold the_process. rewrite bind_gets. apply Hf; [apply Hok|done]. Qed.
Lemma draws_terminal {A} (f : Z → K A) : (∀ t, 0 ≤ t < 3 → draws (f t)) → draws (the_terminal ≫= f).
Proof. intros Hf s Hok. unfold the_terminal. rewrite bind_gets. apply Hf; [apply Hok|done]. Qed.
Lemma draws_the_flag f : draws (the_flag f).
Proof.
  apply draws_process. intros p Hp s Hok. destruct (terms_ok_get _ _ (sok_terms s Hok) Hp) as (t&Ht&_).
  exists (f t), s. rewrite (bind_run _ _ _ _ _ (get_term_run _ _ _ Ht)). split; [done|by apply draw_step_refl].
Qed.
Lemma draws_set_term i f :
  0 ≤ i < 3 → (∀ t, cursor_ok t → cursor_ok (f t) ∧ vid_mem_addr (f t) = vid_mem_addr t) → draws (set_term i f).
Proof.
  intros Hi Hf s Hok. destruct (terms_ok_get _ _ (sok_terms s Hok) Hi) as (t&Ht&Hc&Hv).
  destruct (Hf t Hc) as [Hc' Hv']. eexists (), _. split; [by apply set_term_run|].
  apply draw_step_same; [|done]. split; [|by split_and!].
  apply (screen_frame_ok s); try done; [|by left|apply Hok].
  apply (terms_ok_insert _ _ t); try done; [apply Hok|by rewrite Hv'].
Qed.
Lemma draws_set_tracker i f : 0 ≤ i < 3 → draws (set_tracker i f).
Proof. intros Hi. by apply draws_set_term. Qed.

Lemma draws_of_run {A} (m : K A) :
  (∀ s, screen_ok s → ∃ a s', m s = Some (a, s') ∧ screen_step s s' ∧
     ∀ q, ¬ video_page s q → contents s' q = contents s q) → draws m.
Proof. intros H s Hok. destruct (H s Hok) as (a&s'&?&?&?). by exists a, s'. Qed.

Lemma draws_putc_at i c : 0 ≤ i < 3 → draws (putc_at i c).
Proof.
  intros Hi. apply draws_of_run. intros s Hok.
  destruct (terms_ok_get _ _ (sok_terms s Hok) Hi) as (t&Ht&[Hx Hy]&_).
  destruct (putc_at_run i c t s Hok Hi Ht) as (s'&Hrun&Hf&Hmv&_&Hc).
  destruct (putc_cursor_ok c _ _ Hx Hy). exists (), s'. split; [done|].
  split; [by eapply cursor_moved_step|]. intros q Hq. destruct (_ || _); [done|].
  destruct Hc as (p0&p1&Hp0&Hp1&->). pose proof (cell_range _ _ Hx Hy).
  rewrite !decide_False; [done| |]; intros ->; apply Hq; do 2 eexists; (split; [exact Hi|]); (split; [|done]); lia.
Qed.
Lemma draws_vert_scroll_at i : 0 ≤ i < 3 → draws (vert_scroll_at i).
Proof.
  intros Hi. apply draws_of_run. intros s Hok.
  destruct (terms_ok_get _ _ (sok_terms s Hok) Hi) as (t&Ht&_).
  destruct (vert_scroll_step i s Hok Hi) as (s'&Hrun&Hst). exists (), s'. split; [done|]. split; [done|].
  destruct (vert_scroll_at_run i t s Hok Hi Ht) as (s2&base&Hrun2&_&_&_&_&_&Hb&Hc).
  rewrite Hrun in Hrun2. injection Hrun2 as <-. intros q Hq. destruct (decide _); destruct Hc as [_ Hc]; [|done].
  rewrite Hc. unfold scrolled_mem. rewrite decide_False; [done|]. intros [Hr _]. apply Hq. exists i, (q - base).
  split; [done|]. split; [lia|]. rewrite Hb by lia. f_equal. lia.
Qed.
Lemma draws_update_cursor : draws update_cursor.
Proof.
  apply draws_of_run. intros s Hok. destruct (terms_ok_get _ _ (sok_terms s Hok) (sok_terminal s Hok)) as (t&Ht&_).
  destruct (update_cursor_step s Hok) as (s'&Hrun&Hst). exists (), s'. split_and!; try done; try apply Hst.
  rewrite (update_cursor_run t s Ht) in Hrun. by injection Hrun as <-.
Qed.
Lemma draws_enter : draws enter.
Proof.
  apply draws_process. intros p Hp. apply draws_of_run. intros s Hok.
  destruct (terms_ok_get _ _ (sok_terms s Hok) Hp) as (t&Ht&[Hx Hy]&_).
  destruct (enter_at_run p t s Hok Hp Ht) as (s'&Hrun&Hf&Hmv&_&Hc). exists (), s'.
  split; [done|]. split; [|done]. pose proof (next_row_ok _ Hy).
  by eapply cursor_moved_step.
Qed.
Lemma draws_enter_user : draws enter_user.
Proof.
  apply draws_of_run. intros s Hok.
  destruct (terms_ok_get _ _ (sok_terms s Hok) (sok_terminal s Hok)) as (t&Ht&[Hx Hy]&_).
  destruct (enter_user_run t s Hok Ht) as (s'&Hrun&Hf&Hmv&_&_&Hc). exists (), s'.
  split; [done|]. split; [|done]. pose proof (next_row_ok _ Hy). by eapply cursor_moved_step.
Qed.
Lemma draws_newline_check_at i : 0 ≤ i < 3 → draws (newline_check_at i).
Proof.
  intros Hi. apply draws_of_run. intros s Hok.
  destruct (terms_ok_get _ _ (sok_terms s Hok) Hi) as (t&Ht&[Hx Hy]&_).
  destruct (newline_check_at_run i t s Hok Hi Ht) as (s'&Hrun&Hf&Hmv&_&Hc). exists (), s'.
  split; [done|]. split; [|done]. by eapply cursor_moved_step.
Qed.

Create HintDb draw.
#[export] Hint Resolve draws_ret draws_skip draws_the_flag draws_set_tracker draws_putc_at
  draws_vert_scroll_at draws_update_cursor draws_enter draws_enter_user draws_newline_check_at : draw.

Ltac draw :=
  repeat lazymatch goal with
  | |- draws (the_process ≫= _) => apply draws_process; intros ? ?
  | |- draws (the_terminal ≫= _) => apply draws_terminal; intros ? ?
  | |- draws (mbind _ _) => apply draws_bind; [|intros ?]
  | |- draws (if _ then _ else _) => apply draws_if
  | |- draws _ => solve [auto with draw]
  end.

Lemma draws_newline_part c : draws (newline_part c).
Proof. unfold newline_part, newline_check_user, newline_check, vert_scroll_user, vert_scroll. draw. Qed.
Lemma draws_glyph_part c : draws (glyph_part c).
Proof. unfold glyph_part, putc, putc_user, vert_scroll_user, vert_scroll. draw. Qed.
#[export] Hint Resolve draws_newline_part draws_glyph_part : draw.

Definition begun (t : terminal_t) : terminal_t := t <| newline_tracker := 0 |> <| enterFlag := 0 |>.
Lemma write_begin_run s t :
  screen_ok s → aget (term_arr (scr s)) (curr_process (proc s)) = Some t →
  write_begin s = Some ((), s <| scr ::= λ c, c <| screen_x := t_screen_x t |> <| screen_y := t_screen_y t |>
    <| term_arr := <[Z.to_nat (curr_process (proc s)) := begun t]> (term_arr c) |> |>).
Proof.
  intros Hok Ht. destruct (proj2 (sok_terms s Hok) _ t Ht) as [[Hx Hy] _].
  pose proof (aget_Some_range _ _ _ Ht) as Hr. unfold NUM_COLS, NUM_ROWS in *.
  destruct s as [cp m [sx sy vm sf arr ct] kb rt pr pc im]. cbn in Ht, Hr.
  unfold write_begin, the_flag, the_process, set_screen_x, set_screen_y, set_scr.
  do 2 (rewrite !bind_assoc, !bind_gets, !bind_assoc; erewrite bind_run by (apply get_term_run; exact Ht);
    rewrite bind_ret, bind_modify).
  rewrite bind_gets. erewrite bind_run by (apply set_term_run; exact Ht).
  cbn. rewrite !u8_small by (cint; lia).
  erewrite set_term_run by exact (aget_aset_eq _ _ _ _ (aset_in _ _ _ Hr)).
  cbn. by rewrite list_insert_insert_eq.
Qed.
Lemma write_begin_draws s :
  screen_ok s → ∃ s', write_begin s = Some ((), s') ∧ draw_step s s' ∧ cpu s' = cpu s.
Proof.
  intros Hok. destruct (terms_ok_get _ _ (sok_terms s Hok) (sok_process s Hok)) as (t&Ht&Hc&Hv).
  rewrite (write_begin_run s t Hok Ht). eexists. split; [done|]. split; [|done].
  apply draw_step_same; [|done]. split; [|by split_and!].
  apply (screen_frame_ok s); try done; [|by left].
  apply (terms_ok_insert _ _ t); try done. apply Hok.
Qed.

(** ** Writing: the characters and the count *)
Definition text_count (l : list Z) : Z := zlen (filter (λ c, c ≠ 0) l).
Lemma i8_succ x : i8 (i8 x + 1) = i8 (x + 1).
Proof. unfold i8. cint_lia. Qed.

Lemma write_char_run buf i count q s :
  screen_ok s → translate s (u32 (buf + i)) = Some q → ¬ video_page s q →
  ∃ s', write_char buf i count s = Some (if contents s q =? 0 then count else i8 (count + 1), s') ∧
    draw_step s s'.
Proof.
  intros Hok Hq Hv. unfold write_char. rewrite (bind_run _ _ _ _ _ (load8_run _ _ _ Hq)).
  destruct (contents s q =? 0); [exists s; split; [done|by apply draw_step_refl]|].
  destruct (draws_newline_part (contents s q) s Hok) as ([]&s1&H1&Hd1). rewrite (bind_run _ _ _ _ _ H1).
  assert (translate s1 (u32 (buf + i)) = Some q) as Hq1.
  { destruct Hd1 as [[_ (_&_&_&_&_&_&Ht)] _]. cbn. by rewrite Ht. }
  rewrite (bind_run _ _ _ _ _ (load8_run _ _ _ Hq1)).
  destruct (draws_glyph_part (contents s1 q) s1 (proj1 (proj1 Hd1))) as ([]&s2&H2&Hd2).
  exists s2. rewrite (bind_run _ _ _ _ _ H2). split; [done|by eapply draw_step_trans].
Qed.

Lemma write_chars_run n : ∀ i buf count p s,
  screen_ok s → (∀ k, i ≤ k < i + Z.of_nat n → translate s (u32 (buf + k)) = Some (p + k) ∧ ¬ video_page s (p + k)) →
  ∃ s', write_chars n i buf (i8 count) s =
      Some (i8 (count + text_count ((λ k, contents s (p + k)) <$> seqZ i (Z.of_nat n))), s') ∧
    draw_step s s'.
Proof.
  induction n as [|n IH]; intros i buf count p s Hok Hb.
  - exists s. cbn [write_chars]. change (seqZ i (Z.of_nat 0)) with (@nil Z). change (text_count _) with 0.
    rewrite Z.add_0_r. split; [done|by apply draw_step_refl].
  - cbn [write_chars]. destruct (Hb i ltac:(lia)) as [Hq Hv].
    destruct (write_char_run buf i (i8 count) _ s Hok Hq Hv) as (s1&H1&Hd1). rewrite (bind_run _ _ _ _ _ H1).
    set (c1 := if contents s (p + i) =? 0 then count else count + 1).
    assert ((if contents s (p + i) =? 0 then i8 count else i8 (i8 count + 1)) = i8 c1) as ->
      by (unfold c1; rewrite i8_succ; by destruct (_ =? _)).
    pose proof Hd1 as [[Hok1 Hf1] Hc1].
    destruct (IH (i + 1) buf c1 p s1 Hok1) as (s2&H2&Hd2).
    { intros k Hk. destruct (Hb k ltac:(lia)) as [Hk1 Hk2]. destruct Hf1 as (_&_&_&_&_&_&Ht). split.
      - cbn. by rewrite Ht.
      - intros Hv'. apply Hk2. apply (video_page_step s s1); [apply Hd1|done]. }
    exists s2. rewrite H2. split; [|by eapply draw_step_trans]. do 2 f_equal.
    rewrite (seqZ_cons i) by lia. replace (Z.pred (Z.of_nat (S n))) with (Z.of_nat n) by lia.
    assert (((λ k, contents s1 (p + k)) <$> seqZ (Z.succ i) (Z.of_nat n)) =
            ((λ k, contents s (p + k)) <$> seqZ (Z.succ i) (Z.of_nat n))) as E.
    { apply list_fmap_ext. intros j k Hk. apply lookup_seqZ in Hk as [-> Hk]. apply Hc1.
      apply (Hb (Z.succ i + Z.of_nat j)). lia. }
    unfold Z.succ in *. rewrite E. rewrite fmap_cons. unfold text_count at 2, c1. rewrite filter_cons.
    destruct (Z.eqb_spec (contents s (p + i)) 0) as [->|Hne].
    + by rewrite decide_False by auto.
    + rewrite decide_True by done. cbn [length]. unfold text_count. f_equal. lia.
Qed.

Lemma screen_step_cpu s f :
  screen_ok s → (∀ c, cr0 (f c) = cr0 c ∧ cr3 (f c) = cr3 c ∧ cr4 (f c) = cr4 c) →
  screen_step s (s <| cpu ::= f |>).
Proof.
  intros Hok Hf. destruct (Hf (cpu s)) as (H0&H3&H4).
  assert (screen_frame s (s <| cpu ::= f |>)) as Hfr.
  { split_and!; try done. intros usr v. unfold translate_as, paging_on, pse_on. cbn. by rewrite H0, H3, H4. }
  split; [|done]. apply (screen_frame_ok s); try done; [apply Hok|by left|apply Hok].
Qed.
Lemma draw_step_cpu_flag s b : screen_ok s → draw_step s (s <| cpu ::= λ c, c <| if_flag := b |> |>).
Proof. intros Hok. apply draw_step_same; [|done]. apply screen_step_cpu; [done|by intros; split_and!]. Qed.

(** A write of any length from a readable buffer outside the text pages:
    [terminal_write] does not fault and returns, as an [int8_t], the number of
    characters that are not NUL; it keeps the screen well formed, writes no
    memory but the text pages (so not the buffer), leaves the rest of the kernel
    alone and enables interrupts. *)
Lemma terminal_write_count fd buf n p s :
  screen_ok s → buffer_at s buf n p → (∀ k, 0 ≤ k < n → ¬ video_page s (p + k)) →
  ∃ s', terminal_write fd buf n s =
      Some (i8 (text_count ((λ k, contents s (p + k)) <$> seqZ 0 n)), s') ∧
    screen_ok s' ∧ screen_frame s s' ∧ if_flag (cpu s') = true ∧
    ∀ q, ¬ video_page s q → contents s' q = contents s q.
Proof.
  intros Hok Hb Hv. unfold terminal_write, cli, sti. rewrite bind_modify.
  set (s0 := s <| cpu ::= _ |>). assert (Hd0 : draw_step s s0) by (by apply draw_step_cpu_flag).
  destruct (write_begin_draws s0 (proj1 (proj1 Hd0))) as (s1&H1&Hd1&_). rewrite (bind_run _ _ _ _ _ H1).
  pose proof (draw_step_trans _ _ _ Hd0 Hd1) as Hd1'. pose proof Hd1' as [[Hok1 Hf1] Hc1].
  assert (Hn : Z.of_nat (Z.to_nat n) = Z.max 0 n) by lia.
  destruct (write_chars_run (Z.to_nat n) 0 buf 0 p s1 Hok1) as (s2&H2&Hd2).
  { rewrite Hn. intros k Hk. split.
    - destruct Hf1 as (_&_&_&_&_&_&Ht). cbn. rewrite Ht. apply Hb. lia.
    - intros Hv'. apply (Hv k); [lia|]. apply (video_page_step s s1); [apply Hd1'|done]. }
  change (i8 0) with 0 in H2. rewrite (bind_run _ _ _ _ _ H2).
  destruct (store_cursor_run s2 (proj1 (proj1 Hd2))) as (s3&H3&Hst3&_&Hc3).
  rewrite (bind_run _ _ _ _ _ H3), bind_modify. set (s4 := s3 <| cpu ::= _ |>).
  assert (Hd : draw_step s s4).
  { eapply draw_step_trans; [exact Hd1'|]. eapply draw_step_trans; [exact Hd2|].
    eapply draw_step_trans; [by apply draw_step_same|]. apply draw_step_cpu_flag, Hst3. }
  exists s4. split; [|split; [apply Hd|split; [apply Hd|split; [done|apply Hd]]]].
  unfold mret, M_ret. do 3 f_equal. rewrite Z.add_0_l, Hn. f_equal.
  assert (seqZ 0 (Z.max 0 n) = seqZ 0 n) as ->.
  { destruct (Z.max_spec 0 n) as [[? ->] | [? ->]]; [done|]. by rewrite (seqZ_nil 0 n). }
  apply list_fmap_ext. intros j k Hk. apply lookup_seqZ in Hk as [-> Hk]. apply Hc1, Hv. lia.
Qed.

Lemma demo_no_video x y f q : 0 ≤ q < 700000 → ¬ video_page (demo_state x y f) q.
Proof.
  intros Hq (i&off&Hi&Ho&H). unfold vid_phys, page_of in H. rewrite u32_small in H by (cint; lia).
  cbn in H. unfold translate_as in H.
  destruct (Z.leb_spec 0 (757760 + 4096 * i + off)), (Z.ltb_spec (757760 + 4096 * i + off) 4294967296); try lia.
  cbn in H. injection H as H. lia.
Qed.
(** ** Writing a text on one row of the displayed terminal *)

(** The pen: terminal [i] is the running and the displayed one, with its cursor
    at [x], [y] and [k] characters since the last wrap. *)
Record pen (s : kstate) (i x y k : Z) : Prop := {
  pen_ok : screen_ok s;
  pen_process : curr_process (proc s) = i;
  pen_terminal : curr_terminal (scr s) = i;
  pen_term : ∃ t, aget (term_arr (scr s)) i = Some t ∧ t_screen_x t = x ∧ t_screen_y t = y ∧
    flags_of t = (1, 0, k);
  pen_cursor : screen_x (scr s) = x ∧ screen_y (scr s) = y;
}.

Lemma the_flag_run f s t :
  aget (term_arr (scr s)) (curr_process (proc s)) = Some t → the_flag f s = Some (f t, s).
Proof.
  intros Ht. unfold the_flag, the_process. by rewrite bind_gets, (bind_run _ _ _ _ _ (get_term_run _ _ _ Ht)).
Qed.

Lemma pen_step s s' i x y k x' y' k' :
  pen s i x y k → screen_step s s' →
  (∃ t, aget (term_arr (scr s')) i = Some t ∧ t_screen_x t = x' ∧ t_screen_y t = y' ∧ flags_of t = (1, 0, k')) →
  screen_x (scr s') = x' ∧ screen_y (scr s') = y' → pen s' i x' y' k'.
Proof.
  intros [_ Hp Ht _ _] [Hok (_&_&Hpr&_&_&Hct&_)] Hex Hsc. constructor; rewrite ?Hpr, ?Hct; done.
Qed.

(** One character. *)
Lemma glyph_part_run c s i x y k :
  pen s i x y k → 0 < c < 256 → c ≠ 10 → c ≠ 13 → x < 79 → 0 ≤ k < 79 →
  ∃ s', glyph_part c s = Some ((), s') ∧ draw_step s s' ∧ pen s' i (x + 1) y (k + 1) ∧
    ∃ p0 p1, vid_phys s i (cell_off x y) = Some p0 ∧ vid_phys s i (cell_off x y + 1) = Some p1 ∧
      ∀ q, contents s' q = if decide (q = p1) then ATTRIB else if decide (q = p0) then c else contents s q.
Proof.
  intros Hpen Hc Hc10 Hc13 Hx Hk. destruct (draws_glyph_part c s (pen_ok _ _ _ _ _ Hpen)) as ([]&s4&H4&Hd4).
  exists s4. split; [done|]. split; [done|]. revert H4.
  pose proof Hpen as [Hok Hp Hct (t&Ht&Htx&Hty&Hfl) _]. pose proof (sok_terminal s Hok) as Hi. rewrite Hct in Hi.
  pose proof Hfl as Hfl'. unfold flags_of in Hfl'. injection Hfl' as Hvis _ Htr.
  destruct (proj2 (sok_terms s Hok) _ t Ht) as [[Hxr Hyr] _].
  unfold glyph_part. erewrite bind_run by (apply the_flag_run; rewrite Hp; exact Ht).
  rewrite Hvis. change (1 =? 0) with false. cbn iota. unfold putc_user, the_terminal.
  rewrite bind_assoc, bind_gets, Hct, (u8_small c) by (cint; lia).
  destruct (putc_at_run i c t s Hok Hi Ht) as (s1&H1&Hf1&Hmv1&_&Hm1). rewrite Htx, Hty in Hmv1, Hm1.
  destruct (putc_at_step i c s Hok Hi) as (s1'&H1'&Hst1). rewrite H1 in H1'. injection H1' as <-.
  rewrite (bind_run _ _ _ _ _ H1). unfold putc_cursor in Hmv1.
  assert ((c =? 10) || (c =? 13) = false) as Ec by lia. rewrite Ec in Hmv1, Hm1. cbn [fst snd] in Hmv1.
  rewrite Z.mod_small in Hmv1 by (unfold NUM_COLS; lia).
  assert (pen s1 i (x + 1) y k) as Hpen1.
  { apply (pen_step s _ _ x y k); try done; destruct Hmv1 as (u&u'&Hu&Hx'&Hy'&_&_&_&_&Harr&?&?&_); [|done].
    rewrite Ht in Hu. injection Hu as <-. exists u'. rewrite Harr.
    pose proof (aget_aset_eq _ _ u' _ (aset_in _ _ _ (aget_Some_range _ _ _ Ht))) as Hu'.
    split_and!; try done. destruct (term_flags_get s s1 i t (flags_putc_at i c _ _ _ H1) Ht) as (v&Hv&Hfv).
    rewrite Harr, Hu' in Hv. injection Hv as <-. by rewrite Hfv. }
  destruct Hpen1 as [Hok1 Hp1 Hct1 (t1&Ht1&Hx1&Hy1&Hfl1) Hsc1].
  erewrite bind_run by (apply update_cursor_run; rewrite Hct1; exact Ht1).
  unfold the_process. rewrite bind_gets. cbn [proc setter] in *. rewrite Hp1. unfold set_tracker.
  erewrite bind_run by (apply set_term_run; exact Ht1).
  set (t2 := t1 <| newline_tracker ::= λ n, i8 (n + 1) |>).
  pose proof (aget_aset_eq _ _ t2 _ (aset_in _ _ _ (aget_Some_range _ _ _ Ht1))) as Ht2.
  erewrite bind_run by (apply the_flag_run; cbn; rewrite Hp1; exact Ht2).
  unfold flags_of in Hfl1. injection Hfl1 as Hv1 He1 Htr1.
  assert (newline_tracker t2 = k + 1) as E2 by (cbn; rewrite Htr1; unfold i8; cint_lia).
  rewrite E2. unfold NUM_COLS. rewrite Z.geb_leb. destruct (Z.leb_spec 80 (k + 1)); [lia|].
  unfold skip. intros Heq. injection Heq as <-. split.
  - apply (pen_step s _ _ x y k); [done|apply Hd4| |exact Hsc1]. exists t2. split; [exact Ht2|].
    unfold flags_of. rewrite E2. split_and!; try done. cbn. by rewrite Hv1, He1.
  - destruct Hm1 as (p0&p1&?&?&Hm1). exists p0, p1. split_and!; try done. intros q.
    rewrite <- (u8_small c) by (cint; lia). apply Hm1.
Qed.

(** Memory with the text [l] and its attributes in the cells from address [a]. *)
Definition text_row (l : list Z) (a : Z) (o : Z → Z) (q : Z) : Z :=
  if decide (a ≤ q < a + 2 * zlen l)
  then (if decide ((q - a) mod 2 = 0) then default 0 (l !! Z.to_nat ((q - a) / 2)) else ATTRIB)
  else o q.

Lemma text_row_cons c l a o q :
  text_row l (a + 2) (λ q, if decide (q = a + 1) then ATTRIB else if decide (q = a) then c else o q) q =
  text_row (c :: l) a o q.
Proof.
  unfold text_row. cbn [length]. destruct (decide (q = a)) as [->|H0]; [|destruct (decide (q = a + 1)) as [->|H1]].
  - rewrite decide_False by lia. rewrite decide_False by lia.
    rewrite decide_True by lia. rewrite Z.sub_diag. done.
  - rewrite decide_False by lia. rewrite (decide_True _ _ (P := a ≤ a + 1 < _)) by lia.
    rewrite decide_False; [done|]. replace (a + 1 - a) with 1 by lia. done.
  - destruct (decide (a + 2 ≤ q < a + 2 + 2 * zlen l)) as [Hq|Hq].
    + rewrite (decide_True _ _ (P := a ≤ q < _)) by lia.
      assert ((q - a) mod 2 = (q - (a + 2)) mod 2) as -> by (Z.div_mod_to_equations; lia).
      destruct (decide _); [|done].
      by replace (Z.to_nat ((q - a) / 2)) with (S (Z.to_nat ((q - (a + 2)) / 2))) by (Z.div_mod_to_equations; lia).
    + by rewrite (decide_False (P := a ≤ q < _)) by lia.
Qed.

Lemma text_row_ext l a o o' q : (∀ q, o q = o' q) → text_row l a o q = text_row l a o' q.
Proof. intros H. unfold text_row. by rewrite H. Qed.

(** A printable text in the user's buffer. *)
Definition text_at (s : kstate) (buf i p : Z) (l : list Z) : Prop :=
  ∀ k c, l !! k = Some c → 0 < c < 256 ∧ c ≠ 10 ∧ c ≠ 13 ∧
    translate s (u32 (buf + (i + Z.of_nat k))) = Some (p + (i + Z.of_nat k)) ∧
    contents s (p + (i + Z.of_nat k)) = c ∧ ¬ video_page s (p + (i + Z.of_nat k)).

Lemma text_at_step s s' buf i p c l :
  draw_step s s' → text_at s buf i p (c :: l) → text_at s' buf (i + 1) p l.
Proof.
  intros [Hst Hc] Ht k d Hk. destruct (Ht (S k) d Hk) as (?&?&?&Htr&Hcd&Hv).
  replace (i + Z.of_nat (S k)) with (i + 1 + Z.of_nat k) in * by lia. pose proof Hst as [_ (_&_&_&_&_&_&Htr')].
  split_and!; try done; try lia.
  - cbn. by rewrite Htr'.
  - by rewrite Hc.
  - intros Hv'. apply Hv. by apply (video_page_step s s').
Qed.

Lemma write_text_run l : ∀ s i x y k buf j p base,
  pen s i x y k → 0 ≤ i < 3 → 0 ≤ x → 0 ≤ y < NUM_ROWS → 0 ≤ k → x + zlen l < 80 → k + zlen l < 80 →
  text_at s buf j p l → (∀ off, 0 ≤ off < 4096 → vid_phys s i off = Some (base + off)) →
  ∃ s', write_chars (length l) j buf k s = Some (k + zlen l, s') ∧ draw_step s s' ∧
    pen s' i (x + zlen l) y (k + zlen l) ∧
    ∀ q, contents s' q = text_row l (base + cell_off x y) (contents s) q.
Proof.
  induction l as [|c l IH]; intros s i x y k buf j p base Hpen Hi Hx Hy Hk Hxl Hkl Ht Hb; cbn [length write_chars].
  - exists s. rewrite !Z.add_0_r. split; [done|]. split; [apply draw_step_refl, Hpen|]. split; [done|].
    intros q. unfold text_row. cbn. by rewrite decide_False by lia.
  - cbn [length] in *. destruct (Ht 0%nat c eq_refl) as (Hc&Hc10&Hc13&Htr&Hcc&_). rewrite Z.add_0_r in *.
    destruct (glyph_part_run c s i x y k Hpen Hc Hc10 Hc13) as (s1&H1&Hd1&Hpen1&p0&p1&Hp0&Hp1&Hm1); [lia|lia|].
    pose proof (cell_range x y ltac:(unfold NUM_COLS; lia) Hy) as Hcell.
    rewrite Hb in Hp0, Hp1 by lia. injection Hp0 as <-. injection Hp1 as <-.
    assert (write_char buf j k s = Some (k + 1, s1)) as Hw.
    { unfold write_char. rewrite (bind_run _ _ _ _ _ (load8_run _ _ _ Htr)), Hcc.
      destruct (Z.eqb_spec c 0); [lia|]. unfold newline_part.
      destruct (terms_ok_get _ _ (sok_terms s (pen_ok _ _ _ _ _ Hpen)) Hi) as (t&Hti&_).
      rewrite bind_assoc. erewrite bind_run by (apply the_flag_run; rewrite (pen_process _ _ _ _ _ Hpen); exact Hti).
      unfold the_process, the_terminal. rewrite bind_assoc, bind_gets, bind_assoc, bind_gets.
      destruct (Z.eqb_spec c 10); [lia|]. cbn [andb]. rewrite bind_skip.
      rewrite (bind_run _ _ _ _ _ (load8_run _ _ _ Htr)), Hcc, (bind_run _ _ _ _ _ H1).
      unfold mret, M_ret. do 2 f_equal. unfold i8. cint_lia. }
    rewrite (bind_run _ _ _ _ _ Hw).
    destruct (IH s1 i (x + 1) y (k + 1) buf (j + 1) p base) as (s2&H2&Hd2&Hpen2&Hm2);
      try done; try lia; [by eapply text_at_step| |].
    { intros off Ho. rewrite <- (Hb off Ho). unfold vid_phys. destruct Hd1 as [[_ (_&_&_&_&_&_&Ht1)] _]. cbn. by rewrite Ht1. }
    exists s2. replace (k + Z.of_nat (S (length l))) with (k + 1 + zlen l) by lia.
    replace (x + Z.of_nat (S (length l))) with (x + 1 + zlen l) by lia.
    split; [done|]. split; [by eapply draw_step_trans|]. split; [done|].
    intros q. rewrite Hm2, <- text_row_cons.
    replace (base + cell_off (x + 1) y) with (base + cell_off x y + 2) by (unfold cell_off; lia).
    apply text_row_ext. intros q'. rewrite Hm1.
    by replace (base + (cell_off x y + 1)) with (base + cell_off x y + 1) by lia.
Qed.

Lemma write_begin_pen s t :
  screen_ok s → curr_process (proc s) = curr_terminal (scr s) →
  aget (term_arr (scr s)) (curr_terminal (scr s)) = Some t → visible t = 1 →
  ∃ s', write_begin s = Some ((), s') ∧ draw_step s s' ∧
    pen s' (curr_terminal (scr s)) (t_screen_x t) (t_screen_y t) 0 ∧ ∀ q, contents s' q = contents s q.
Proof.
  intros Hok Hp Ht Hv. destruct (write_begin_draws s Hok) as (s1&H1&Hd1&_).
  exists s1. split; [done|]. split; [done|]. pose proof Ht as Ht'. rewrite <- Hp in Ht'.
  rewrite (write_begin_run s t Hok Ht') in H1. injection H1 as H1. split; [|by subst s1].
  constructor; [apply Hd1|by subst s1|by subst s1| |by subst s1].
  exists (begun t). subst s1. cbn [scr setter term_arr]. rewrite Hp.
  split; [exact (aget_aset_eq _ _ _ _ (aset_in _ _ _ (aget_Some_range _ _ _ Ht)))|].
  unfold flags_of. by rewrite <- Hv.
Qed.

(** The end of [terminal_write], with the pen at [x], [y]. *)
Lemma write_end_run s i x y k (n : Z) :
  pen s i x y k → 0 ≤ i < 3 →
  ∃ s', (store_cursor;; modify (λ s, s <| cpu ::= λ c, c <| if_flag := true |> |>);; mret n) s = Some (n, s') ∧
    screen_step s s' ∧ (∀ q, contents s' q = contents s q) ∧
    ∃ t, aget (term_arr (scr s')) i = Some t ∧ t_screen_x t = x ∧ t_screen_y t = y ∧ enterFlag t = 0.
Proof.
  intros Hpen Hi. destruct (store_cursor_run s (pen_ok _ _ _ _ _ Hpen)) as (s1&H1&Hst1&_&Hc1).
  rewrite (bind_run _ _ _ _ _ H1), bind_modify. set (s2 := setter cpu _ s1).
  assert (Hst2 : screen_step s1 s2) by (apply screen_step_cpu; [apply Hst1|by intros; split_and!]).
  exists s2. split; [done|]. split; [split; [apply Hst2|etrans; [apply Hst1|apply Hst2]]|]. split; [done|].
  change (scr s2) with (scr s1). destruct Hpen as [Hok Hp Hct (t&Ht&Htx&Hty&Hfl) [Hx Hy]].
  destruct (sok_cursor s Hok) as [Hxr Hyr]. unfold NUM_COLS, NUM_ROWS in *.
  revert H1. unfold store_cursor, the_process, get_screen_x, get_screen_y. rewrite !bind_gets, Hp.
  erewrite bind_run by (apply set_term_run; exact Ht). rewrite !bind_gets. cbn [proc setter]. rewrite Hp.
  pose proof (aget_aset_eq _ _ (t <| t_screen_x := u8 (screen_x (scr s)) |>) _
    (aset_in _ _ _ (aget_Some_range _ _ _ Ht))) as Ht'.
  erewrite set_term_run by exact Ht'. intros H1. injection H1 as H1. rewrite <- H1. cbn [scr setter term_arr].
  eexists. split; [exact (aget_aset_eq _ _ _ _ (aset_in _ _ _ (aget_Some_range _ _ _ Ht')))|].
  unfold flags_of in Hfl. injection Hfl as _ He _. cbn. by rewrite !u8_small, Hx, Hy by (cint; lia).
Qed.

Lemma text_at_same s s' buf i p l :
  screen_step s s' → (∀ q, contents s' q = contents s q) → text_at s buf i p l → text_at s' buf i p l.
Proof.
  intros Hst Hc Ht k d Hk. destruct (Ht k d Hk) as (?&?&?&Htr&Hcd&Hv). pose proof Hst as [_ (_&_&_&_&_&_&Htr')].
  split_and!; try done; try lia.
  - cbn. by rewrite Htr'.
  - by rewrite Hc.
  - intros Hv'. apply Hv. by apply (video_page_step s s').
Qed.

(** C20. A process on the displayed terminal writes a text without control
    characters that fits in the rest of the cursor's row: the call returns its
    length, the text stands in the video page from the cursor on with attribute
    7, no other byte of memory changes, and the cursor is after the text. *)
Theorem terminal_write_text fd buf p l s t :
  screen_ok s → curr_process (proc s) = curr_terminal (scr s) →
  aget (term_arr (scr s)) (curr_terminal (scr s)) = Some t → visible t = 1 →
  t_screen_x t + zlen l < 80 → text_at s buf 0 p l →
  ∃ s' base t', terminal_write fd buf (zlen l) s = Some (zlen l, s') ∧
    (∀ off, 0 ≤ off < 4096 → vid_phys s (curr_terminal (scr s)) off = Some (base + off)) ∧
    (∀ q, contents s' q = text_row l (base + cell_off (t_screen_x t) (t_screen_y t)) (contents s) q) ∧
    aget (term_arr (scr s')) (curr_terminal (scr s)) = Some t' ∧
    t_screen_x t' = t_screen_x t + zlen l ∧ t_screen_y t' = t_screen_y t ∧ enterFlag t' = 0 ∧
    screen_ok s' ∧ screen_frame s s'.
Proof.
  intros Hok Hp Ht Hv Hx Hl. set (i := curr_terminal (scr s)) in *. pose proof (sok_terminal s Hok) as Hi. fold i in Hi.
  destruct (proj2 (sok_terms s Hok) _ t Ht) as [[Htx Hty] _].
  destruct (page_base s i (sok_mapped s Hok) Hi) as [base Hb].
  unfold terminal_write, cli, sti. rewrite bind_modify. set (s0 := s <| cpu ::= _ |>).
  assert (Hd0 : draw_step s s0) by (by apply draw_step_cpu_flag).
  destruct (write_begin_pen s0 t) as (s1&H1&Hd1&Hpen&Hc1); try done; [apply Hd0|]. rewrite (bind_run _ _ _ _ _ H1).
  pose proof (draw_step_trans _ _ _ Hd0 Hd1) as Hd01. pose proof Hd01 as [[Hok1 Hf1] _].
  destruct (write_text_run l s1 i _ _ 0 buf 0 p base Hpen Hi) as (s2&H2&Hd2&Hpen2&Hm2); try done; try lia.
  { apply (text_at_same s); [apply Hd01|exact Hc1|exact Hl]. }
  { intros off Ho. rewrite <- (Hb off Ho). destruct Hf1 as (_&_&_&_&_&_&Ht1).
    unfold vid_phys. cbn. by rewrite Ht1. }
  rewrite Nat2Z.id, (bind_run _ _ _ _ _ H2).
  destruct (write_end_run s2 i _ _ _ (0 + zlen l) Hpen2 Hi) as (s3&H3&Hst3&Hc3&t3&Ht3&Hx3&Hy3&He3).
  exists s3, base, t3. split; [exact H3|]. split; [done|].
  split; [intros q; rewrite Hc3, Hm2; by apply text_row_ext|]. split_and!; try done; [apply Hst3|].
  etrans; [exact Hf1|]. etrans; [apply Hd2|apply Hst3].
Qed.

Lemma terminal_write_text_witness :
  let s := poke [104; 105] 5000 (demo_state 3 4 0) in
  ∃ s' base, terminal_write 1 5000 2 s = Some (2, s') ∧
    contents s' (base + 2 * (80 * 4 + 3)) = 104 ∧ contents s' (base + 2 * (80 * 4 + 4)) = 105.
Proof.
  set (s := poke [104; 105] 5000 (demo_state 3 4 0)). cbn zeta.
  destruct (terminal_write_text 1 5000 5000 [104; 105] s (demo_terminal 0 3 4 1))
    as (s'&base&t'&H&_&Hm&_).
  - apply screen_ok_poke. by apply demo_ok.
  - reflexivity.
  - reflexivity.
  - reflexivity.
  - reflexivity.
  - assert (∀ k, 0 ≤ k < 2 → translate s (u32 (5000 + (0 + k))) = Some (5000 + (0 + k)) ∧
      ¬ video_page s (5000 + (0 + k))) as Hs.
    { intros k Hk. split; [|intros Hv; apply (demo_no_video 3 4 0 (5000 + (0 + k))); [lia|exact Hv]].
      cbn. unfold translate_as. rewrite u32_small by (cint; lia).
      destruct (Z.leb_spec 0 (5000 + (0 + k))), (Z.ltb_spec (5000 + (0 + k)) 4294967296); lia || done. }
    intros [|[|k]] c Hc; try discriminate; injection Hc as <-;
      (split; [lia|]); (split; [lia|]); (split; [lia|]); [destruct (Hs 0)|destruct (Hs 1)]; try lia; done.
  - exists s', base. split; [exact H|]. rewrite !Hm. unfold text_row, cell_off, NUM_COLS. cbn [t_screen_x t_screen_y demo_terminal].
    split; (rewrite decide_True by (cbn; lia)).
    + by replace (base + 2 * (80 * 4 + 3) - (base + 2 * (80 * 4 + 3))) with 0 by lia.
    + by replace (base + 2 * (80 * 4 + 4) - (base + 2 * (80 * 4 + 3))) with 2 by lia.
Defined.
