(* ===== verification/Syscall.v ===== *)
(** * Syscall: the system calls ([syscall.c])

    The PCB of process [pid] lies at the bottom of its 8 KB kernel stack, at
    [pcb_addr pid]; a pointer that is none of these addresses is [None].  A
    handler that does not come back to its caller ends in the context it
    switches to: [execute] in a user program, [halt] on the parent's stack. *)
From S2P Require Import Prelude LibString LibMem Filesystem KState Paging PortIO Screen Switch Keyboard Terminal.

Definition PCB_SIZE : Z := 8.
Definition programMax : Z := 6.
Definition kernalStackSize : Z := 8192.
Definition virtualAddr : Z := 134512640.       (* 0x08048000 *)
Definition offset_24 : Z := 24.
Definition KERNEL_DS : Z := 24.
Definition GB_1 : Z := 1073741824.
Definition fdMin : Z := 0.
Definition fdMax : Z := 7.

Inductive outcome :=
  | Returns (v : Z)                     (* to the caller *)
  | ToUser (eip : Z)                    (* [iret] to a fresh program *)
  | ToParent (ebp esp eax : Z).         (* [leave; ret] on the parent's stack *)

(** ** Process control blocks *)
Definition pcb_addr (pid : Z) : Z := bottomKernal - pid * kernalStackSize.
Definition pcb_slot (a : Z) : option Z :=
  let k := (bottomKernal - a) / kernalStackSize in
  if ((bottomKernal - a) mod kernalStackSize =? 0) && (1 <=? k) && (k <=? programMax)
  then Some (k - 1) else None.
Definition get_proc {A} (f : proc_t → A) : K A := gets (λ s, f (proc s)).
Definition get_pcb (a : Z) : K pcb_t :=
  i ← lift (pcb_slot a); l ← get_proc pcbs; lift (aget l i).
Definition set_pcb (a : Z) (f : pcb_t → pcb_t) : K () :=
  i ← lift (pcb_slot a); l ← get_proc pcbs; p ← lift (aget l i);
  l ← lift (aset l i (f p)); set_proc (λ r, r <| pcbs := l |>).
(** [pcb_current->...] *)
Definition current : K pcb_t := a ← get_proc pcb_current; get_pcb a.
Definition set_current (f : pcb_t → pcb_t) : K () := a ← get_proc pcb_current; set_pcb a f.
Definition get_fd (fd : Z) : K fdesc := p ← current; lift (aget (pcb_arr p) fd).
Definition set_fd (fd : Z) (f : fdesc → fdesc) : K () :=
  p ← current;
  d ← lift (aget (pcb_arr p) fd);
  l ← lift (aset (pcb_arr p) fd (f d));
  set_current (λ p, p <| pcb_arr := l |>).
Definition set_pid_arr (i v : Z) : K () :=
  l ← get_proc pid_arr; l ← lift (aset l i v); set_proc (λ r, r <| pid_arr := l |>).
Definition set_sched_pid (i v : Z) : K () :=
  l ← get_proc sched_pid; l ← lift (aset l i v); set_proc (λ r, r <| sched_pid := l |>).

(** ** User memory *)

(** The characters from [a] up to and including the first NUL. *)
Definition string_step (a : Z) (acc : list Z) : K (list Z + list Z) :=
  c ← load8 (u32 (a + zlen acc));
  mret (if c =? 0 then inr (acc ++ [0]) else inl (acc ++ [c])).
Definition user_string (a : Z) : K (list Z) :=
  r ← loop_pos (string_step a) 4294967296 [];
  match r with inr l => mret l | inl _ => ub end.
(** A user buffer as the target of the file system's writes. *)
Definition user_write (buf i v : Z) : K () := store8 (u32 (buf + i)) v.

(** ** open *)
Definition stdin_name : list Z := [115; 116; 100; 105; 110; 0].
Definition stdout_name : list Z := [115; 116; 100; 111; 117; 116; 0].

Definition open_std (fd : Z) : K Z :=
  set_fd fd (λ d, d <| operations_pointer := TermOps |> <| inode := 0 |> <| file_position := 0 |>
                    <| flags := 1 |>);;
  mret fd.

(** The first free descriptor among [n] from [i]; -1 when there is none. *)
Fixpoint free_fd (n : nat) (i : Z) (l : list fdesc) : option Z :=
  match n with
  | O => Some (-1)
  | S n => d ← aget l i; if flags d =? 0 then Some i else free_fd n (i + 1) l
  end.

Definition open_entry (fd : Z) (dentry : dentry_t) : K Z :=
  set_fd fd (λ d, d <| file_position := 0 |> <| flags := 1 |> <| inode := 0 |>);;
  if filetype dentry =? 0 then
    set_fd fd (λ d, d <| operations_pointer := RtcOps |>);;
    set_current (λ p, p <| rtc_flag := 1 |>);;
    rtc_open 0;;
    sti;; mret fd
  else if filetype dentry =? 1 then
    set_fd fd (λ d, d <| operations_pointer := DirOps |>);;
    directory_open 0;;
    sti;; mret fd
  else if filetype dentry =? 2 then
    set_fd fd (λ d, d <| operations_pointer := FsOps |>);;
    set_fd fd (λ d, d <| inode := u32 (inode_num dentry) |>);;
    file_open 0;;
    sti;; mret fd
  else mret (-1).

(** [filename] is [None] when it is [NULL]. *)
Definition open_named (filename : option (list Z)) : K Z :=
  cli;;
  match filename with
  | None => mret (-1)
  | Some name =>
      c ← lift (aget name 0);
      if c =? 0 then mret (-1)
      else
        n ← lift (strlen name);
        r ← lift (strncmp name stdin_name n);
        if r =? 0 then open_std 0
        else
          r ← lift (strncmp name stdout_name n);
          if r =? 0 then open_std 1
          else
            img ← gets fs_image;
            '(r, d) ← lift (read_dentry_by_name img (Some name) (Some (mk_dentry [] 0 0)));
            if r =? -1 then mret (-1)
            else
              p ← current;
              fd ← lift (free_fd (Z.to_nat (PCB_SIZE - 2)) 2 (pcb_arr p));
              if fd =? -1 then mret (-1)
              else d ← lift d; open_entry fd d
  end.

Definition open_handler (filename : Z) : K Z :=
  if filename =? 0 then open_named None
  else name ← user_string filename; open_named (Some name).

(** ** close *)
Definition close_handler (fd : Z) : K Z :=
  cli;;
  a ← get_proc pcb_current;
  if a =? 0 then mret (-1)
  else if (fd <? fdMin + 2) || (fd >? fdMax) then mret (-1)
  else
    d ← get_fd fd;
    if flags d =? 0 then mret (-1)
    else set_fd fd (λ d, d <| flags := 0 |>);; sti;; mret 0.

(** ** read and write

    [interrupts] are the handlers that run while a device waits. *)
Definition read_ptr (op : fops) (interrupts : list (K ())) (ino offset buf nbytes : Z) : K Z :=
  img ← gets fs_image;
  match op with
  | NoOps => ub
  | FsOps => file_read (user_write buf) img ino offset (buf =? 0) nbytes
  | DirOps => directory_read (user_write buf) img ino offset nbytes
  | TermOps => terminal_read interrupts ino offset buf nbytes
  | RtcOps => rtc_read interrupts
  end.

Definition read_handler (interrupts : list (K ())) (fd buf nbytes : Z) : K Z :=
  if (buf =? 0) || (fd <? fdMin) || (fd >? fdMax) then mret (-1)
  else if fd =? fdMin + 1 then mret (-1)
  else
    d ← get_fd fd;
    if flags d =? 1 then
      if fd =? 0 then read_ptr (operations_pointer d) interrupts fd 0 buf (u32 nbytes)
      else
        ret ← read_ptr (operations_pointer d) interrupts (inode d) (file_position d) buf (u32 nbytes);
        set_fd fd (λ d, d <| file_position ::= λ p, u32 (p + ret) |>);;
        mret ret
    else mret (-1).

Definition write_ptr (op : fops) (fd buf nbytes : Z) : K Z :=
  match op with
  | NoOps => ub
  | FsOps => file_write fd buf nbytes
  | DirOps => directory_write fd buf nbytes
  | TermOps => terminal_write fd buf nbytes
  | RtcOps => if nbytes =? RTC_BUFF_SIZE then v ← load32 buf; rtc_write (Some (i32 v)) nbytes
              else rtc_write (Some 0) nbytes
  end.

Definition write_handler (fd buf nbytes : Z) : K Z :=
  if (buf =? 0) || (fd <=? fdMin) || (fd >? fdMax) then mret (-1)
  else
    d ← get_fd fd;
    if flags d =? 1 then write_ptr (operations_pointer d) fd buf (i32 (u32 nbytes)) else mret (-1).

(** ** getargs: [strcpy] from the PCB to user memory *)
Fixpoint copy_string (n : nat) (buf i : Z) (src : list Z) : K () :=
  match n with
  | O => ub
  | S n =>
      c ← lift (aget src i);
      store8 (u32 (buf + i)) c;;
      if c =? 0 then skip else copy_string n buf (i + 1) src
  end.
Definition getargs_handler (buf nbytes : Z) : K Z :=
  cli;;
  if (buf =? 0) || (nbytes <? 0) then mret (-1)
  else
    p ← current;
    if argsflag p =? 0 then mret (-1)
    else
      c ← lift (aget (argbuf p) 0);
      if c =? 0 then mret (-1)
      else copy_string 129 buf 0 (argbuf p);; sti;; mret 0.

(** ** vidmap *)
Definition vidmap_handler (screen_start : Z) : K Z :=
  cli;;
  if (screen_start =? 0) || (screen_start =? KERNEL_MEM) then mret (-1)
  else map_vidmap;; store32 screen_start GB_1;; sti;; mret 0.

(** ** execute *)

(** The first word of the command: the index after it and [exec]. *)
Fixpoint exec_name (n : nat) (command i : Z) (exec : list Z) : K (Z * list Z) :=
  match n with
  | O => ub
  | S n =>
      c ← load8 (u32 (command + i));
      if c =? 0 then mret (i, exec)
      else if (c =? 32) || (c =? 10) then mret (i, exec)
      else exec ← lift (aset exec i c); exec_name n command (i + 1) exec
  end.
Definition space_step (command i : Z) : K (Z + Z) :=
  c ← load8 (u32 (command + i)); mret (if c =? 32 then inl (i + 1) else inr i).
Definition skip_spaces (command i : Z) : K Z :=
  r ← loop_pos (space_step command) 2147483648 i;
  match r with inr i => mret i | inl _ => ub end.
Fixpoint exec_args (n : nat) (command i j : Z) (args : list Z) : K (list Z) :=
  match n with
  | O => ub
  | S n =>
      c ← load8 (u32 (command + i));
      if (c =? 0) || negb (i <? maxInputLength) then mret args
      else args ← lift (aset args j c); exec_args n command (i + 1) (j + 1) args
  end.

(** The [args_flag] after the two tests on [args]; it is not cleared otherwise. *)
Definition flag_of_args (args : list Z) (flag : Z) : Z :=
  let flag := if existsb (λ c, negb (c =? 0)) args then 1 else flag in
  if default 0 (aget args (keyBufferSize - 1)) =? 0 then flag else 0.

Definition parse_command (command : Z) : K (list Z * list Z) :=
  let zeros := replicate (Z.to_nat keyBufferSize) 0 in
  '(i, exec) ← exec_name 129 command 0 zeros;
  i ← skip_spaces command i;
  args ← exec_args 128 command i 0 zeros;
  set_proc (λ r, r <| args_flag ::= flag_of_args args |>);;
  mret (exec, args).

(** [read_data] into a local array. *)
Definition array_write {A} (f : Z → A) (i v : Z) : M (list A) () := λ b,
  b ← aset b i (f v); Some ((), b).
Definition is_executable (exec : list Z) : bool :=
  bool_decide (take 4 exec = [127; 69; 76; 70]).

(** The little-endian word in [entryBuf]; a byte that was not read is
    uninitialised. *)
Definition entry_point (img : list Z) (ino : Z) : option Z :=
  '(_, b) ← read_data (array_write Some) img ino offset_24 false 4 (replicate 4 None);
  b0 ← aget b 0; b0 ← b0; b1 ← aget b 1; b1 ← b1; b2 ← aget b 2; b2 ← b2; b3 ← aget b 3; b3 ← b3;
  Some (Z.lor (Z.lor b0 (Z.shiftl b1 8)) (Z.lor (Z.shiftl b2 16) (Z.shiftl b3 24))).

Fixpoint free_slot (n : nat) (i : Z) (l : list Z) : option Z :=
  match n with
  | O => None
  | S n => p ← aget l i; if p =? 0 then Some i else free_slot n (i + 1) l
  end.

(** The loading loop: the outcome is whether the program was loaded. *)
Definition load_step (img : list Z) (ino count : Z) : K (Z + bool) :=
  if pageSize - count >? 0 then
    bytesRead ← read_data (user_write (virtualAddr + count)) img ino count false (pageSize - count);
    mret (if bytesRead =? 0 then inr true
          else if negb (bytesRead =? -1) then inl (count + bytesRead) else inr false)
  else mret (inr true).
Definition load_program (img : list Z) (ino : Z) : K bool :=
  r ← loop_pos (load_step img ino) 4194305 0;
  match r with inr b => mret b | inl _ => ub end.

(** One of the first three programs, and any later one. *)
Definition base_process : K Z :=
  sp ← gets (λ s, esp (cpu s)); bp ← gets (λ s, ebp (cpu s));
  n ← get_proc program_count;
  let child := pcb_addr (n + 1) in
  set_proc (λ r, r <| program_count ::= λ n, u8 (n + 1) |>);;
  n ← get_proc program_count;
  set_pcb child (λ p, p <| pid := n |> <| parent_pid := n |>
    <| kesp := bottomKernal - kernalStackSize * (n - 1) - 4 |>
    <| parent_pcb := child |> <| p_esp := sp |> <| p_ebp := bp |> <| argsflag := 0 |>);;
  set_pid_arr (n - 1) 1;;
  set_sched_pid (n - 1) n;;
  mret child.
Definition child_process : K Z :=
  l ← get_proc pid_arr;
  slot ← lift (free_slot (Z.to_nat programMax) 0 l);
  sp ← gets (λ s, esp (cpu s)); bp ← gets (λ s, ebp (cpu s));
  let child := pcb_addr (slot + 1) in
  parent ← get_proc pcb_current;
  set_pcb child (λ p, p <| pid := u8 (slot + 1) |>);;
  set_proc (λ r, r <| program_count ::= λ n, u8 (n + 1) |>);;
  q ← current;
  set_pcb child (λ p, p <| parent_pid := pid q |>);;
  flag ← get_proc args_flag;
  set_pcb child (λ p, p <| kesp := bottomKernal - kernalStackSize * (pid p - 1) - 4 |>
    <| parent_pcb := parent |> <| p_esp := sp |> <| p_ebp := bp |> <| argsflag := u8 flag |>);;
  set_pid_arr slot 1;;
  t ← the_terminal;
  c ← get_pcb child;
  set_sched_pid t (pid c);;
  mret child.

(** What [execute] does once the program is loaded in [slot]'s page: the
    bookkeeping, then the rest of the PCB and the switch to user mode. *)
Definition launch (child slot : Z) (args : list Z) (eip : Z) : K outcome :=
  set_pcb child (λ p, p <| argbuf := args |>);;
  set_proc (λ r, r <| pcb_current := child |>);;
  open_named (Some stdin_name);;
  open_named (Some stdout_name);;
  a ← gets (λ s, tss_ss0 (cpu s)); b ← gets (λ s, tss_esp0 (cpu s));
  set_current (λ p, p <| ss0 := a |>);;
  set_current (λ p, p <| esp0 := b |>);;
  set_cpu (λ c, c <| tss_ss0 := KERNEL_DS |> <| tss_esp0 := bottomKernal - slot * kernalStackSize - 4 |>);;
  sti;;
  mret (ToUser eip).
Definition start_process (slot : Z) (args : list Z) (eip : Z) : K outcome :=
  n ← get_proc program_count;
  child ← (if n <? 3 then base_process else child_process);
  launch child slot args eip.

Definition execute_file (exec args : list Z) (d : dentry_t) : K outcome :=
  img ← gets fs_image;
  let ino := u32 (inode_num d) in
  '(_, exec) ← lift (read_data (array_write id) img ino 0 false 4 exec);
  if negb (is_executable exec) then mret (Returns (-1))
  else
    eip ← lift (entry_point img ino);
    l ← get_proc pid_arr;
    slot ← lift (free_slot (Z.to_nat programMax) 0 l);
    map_user_page (bottomKernal + slot * pageSize);;
    ok ← load_program img ino;
    if negb ok then mret (Returns (-1)) else start_process slot args eip.

Definition execute_handler (command : Z) : K outcome :=
  cli;;
  n ← get_proc program_count;
  if n >=? programMax then mret (Returns (-1))
  else if command =? 0 then mret (Returns (-1))
  else
    '(exec, args) ← parse_command command;
    img ← gets fs_image;
    '(r, d) ← lift (read_dentry_by_name img (Some exec) (Some (mk_dentry [] 0 0)));
    if r =? -1 then mret (Returns (-1))
    else d ← lift d; execute_file exec args d.

(** ** halt *)
Definition exit_message : list Z :=   (* "Can't exit base shell!" *)
  [67; 97; 110; 39; 116; 32; 101; 120; 105; 116; 32; 98; 97; 115; 101; 32; 115; 104; 101; 108; 108; 33].

(** The release of the process table and the switch to the parent's page. *)
Definition halt_release : K () :=
  p ← current;
  set_pid_arr (pid p - 1) 0;;
  i ← the_process;
  set_sched_pid i (parent_pid p);;
  set_proc (λ r, r <| program_count ::= λ n, u8 (n - 1) |>).
Definition halt_cleanup : K () :=
  p ← current;
  map_user_page (bottomKernal + (parent_pid p - 1) * pageSize);;
  q ← get_pcb (parent_pcb p);
  set_cpu (λ c, c <| tss_ss0 := KERNEL_DS |> <| tss_esp0 := p_esp q |>);;
  set_current (λ p, p <| argbuf := replicate (Z.to_nat keyBufferSize) 0 |>);;
  set_current (λ p, p <| argsflag := 0 |>);;
  close_handler 2;; close_handler 3;; close_handler 4;;
  close_handler 5;; close_handler 6;; close_handler 7;;
  set_proc (λ r, r <| pcb_current := parent_pcb p |>).

Definition halt_handler (status : Z) : K outcome :=
  cli;;
  p ← current;
  if pid p <=? 3 then put_chars exit_message;; mret (Returns 0)
  else
    halt_release;;
    q ← get_pcb (parent_pcb p);
    let ebp_parent := p_ebp q in
    let esp_parent := p_esp q in
    halt_cleanup;;
    sti;;
    mret (ToParent ebp_parent esp_parent (u8 status)).

(** ** Running the accessors *)
Definition pcb_index (k : Z) : nat := Z.to_nat (k - 1).

Lemma pcb_slot_addr k : 1 ≤ k ≤ 6 → pcb_slot (pcb_addr k) = Some (k - 1).
Proof.
  intros Hk. unfold pcb_slot, pcb_addr, bottomKernal, kernalStackSize, programMax.
  replace (8388608 - (8388608 - k * 8192)) with (k * 8192) by lia.
  rewrite Z.mod_mul, Z.div_mul by lia. cbn [Z.eqb].
  destruct (Z.leb_spec 1 k), (Z.leb_spec k 6); lia || done.
Qed.

Lemma pcb_slot_Some a i : pcb_slot a = Some i → ∃ k, 1 ≤ k ≤ 6 ∧ a = pcb_addr k ∧ i = k - 1.
Proof.
  unfold pcb_slot, pcb_addr, bottomKernal, kernalStackSize, programMax. intros H.
  destruct (((8388608 - a) mod 8192 =? 0) && (1 <=? (8388608 - a) / 8192) && ((8388608 - a) / 8192 <=? 6)) eqn:E;
    [|done]. injection H as <-. exists ((8388608 - a) / 8192).
  apply andb_prop in E as [[E1 E2]%andb_prop E3]. split; [lia|]. split; [|done].
  apply Z.eqb_eq in E1. Z.div_mod_to_equations. lia.
Qed.

Lemma pcb_addr_inj j k : pcb_addr j = pcb_addr k → j = k.
Proof. unfold pcb_addr, kernalStackSize. lia. Qed.

Lemma get_pcb_run k p s :
  1 ≤ k ≤ 6 → aget (pcbs (proc s)) (k - 1) = Some p → get_pcb (pcb_addr k) s = Some (p, s).
Proof.
  intros Hk Hp. unfold get_pcb, get_proc. rewrite (bind_lift _ _ _ _ (pcb_slot_addr k Hk)), bind_gets. by rewrite Hp.
Qed.
Lemma set_pcb_run k f p s :
  1 ≤ k ≤ 6 → aget (pcbs (proc s)) (k - 1) = Some p →
  set_pcb (pcb_addr k) f s = Some ((), s <| proc ::= λ r, r <| pcbs ::= <[pcb_index k := f p]> |> |>).
Proof.
  intros Hk Hp. unfold set_pcb, get_proc. rewrite (bind_lift _ _ _ _ (pcb_slot_addr k Hk)), bind_gets.
  rewrite (bind_lift _ _ _ _ Hp), (bind_lift _ _ _ _ (aset_in _ _ _ (aget_Some_range _ _ _ Hp))). done.
Qed.

(** The running process: its pid and its PCB. *)
Definition running (s : kstate) (k : Z) (p : pcb_t) : Prop :=
  pcb_current (proc s) = pcb_addr k ∧ 1 ≤ k ≤ 6 ∧ aget (pcbs (proc s)) (k - 1) = Some p.

Lemma current_run k p s : running s k p → current s = Some (p, s).
Proof. intros (Hc&Hk&Hp). unfold current, get_proc. rewrite bind_gets, Hc. by apply get_pcb_run. Qed.
Lemma set_current_run k p f s :
  running s k p →
  set_current f s = Some ((), s <| proc ::= λ r, r <| pcbs ::= <[pcb_index k := f p]> |> |>).
Proof. intros (Hc&Hk&Hp). unfold set_current, get_proc. rewrite bind_gets, Hc. by apply set_pcb_run. Qed.
Lemma running_insert k p q s :
  running s k p → running (s <| proc ::= λ r, r <| pcbs ::= <[pcb_index k := q]> |> |>) k q.
Proof.
  intros (Hc&Hk&Hp). split; [done|]. split; [done|]. cbn. unfold pcb_index.
  exact (aget_aset_eq _ _ _ _ (aset_in _ _ _ (aget_Some_range _ _ _ Hp))).
Qed.
Lemma get_fd_run k p fd d s :
  running s k p → aget (pcb_arr p) fd = Some d → get_fd fd s = Some (d, s).
Proof. intros Hr Hd. unfold get_fd. rewrite (bind_run _ _ _ _ _ (current_run _ _ _ Hr)). by rewrite Hd. Qed.

(** Descriptor [fd] of the running process replaced. *)
Definition with_fd (k : Z) (p : pcb_t) (fd : Z) (d : fdesc) (s : kstate) : kstate :=
  s <| proc ::= λ r, r <| pcbs ::= <[pcb_index k := p <| pcb_arr ::= <[Z.to_nat fd := d]> |>]> |> |>.
Lemma set_fd_run k p fd d f s :
  running s k p → aget (pcb_arr p) fd = Some d → set_fd fd f s = Some ((), with_fd k p fd (f d) s).
Proof.
  intros Hr Hd. unfold set_fd. rewrite (bind_run _ _ _ _ _ (current_run _ _ _ Hr)), (bind_lift _ _ _ _ Hd).
  rewrite (bind_lift _ _ _ _ (aset_in _ _ _ (aget_Some_range _ _ _ Hd))).
  rewrite (set_current_run k p _ s Hr). done.
Qed.
Lemma with_fd_running k p fd d s :
  running s k p → running (with_fd k p fd d s) k (p <| pcb_arr ::= <[Z.to_nat fd := d]> |>).
Proof. apply running_insert. Qed.
Lemma with_fd_same k p fd d d' s :
  with_fd k (p <| pcb_arr ::= <[Z.to_nat fd := d]> |>) fd d' (with_fd k p fd d s) = with_fd k p fd d' s.
Proof.
  unfold with_fd. destruct s as [? ? ? ? ? [] ? ?], p. cbn.
  by rewrite !list_insert_insert_eq.
Qed.
Lemma with_fd_get (p : pcb_t) fd d d' :
  aget (pcb_arr p) fd = Some d' → aget (pcb_arr (p <| pcb_arr ::= <[Z.to_nat fd := d]> |>)) fd = Some d.
Proof. intros Hd. exact (aget_aset_eq _ _ _ _ (aset_in _ _ _ (aget_Some_range _ _ _ Hd))). Qed.
