(* ===== verification/FdTable.v ===== *)
(** * FdTable: the descriptor table of a process as an abstract table

    The eight descriptors of a PCB represent a finite map from descriptor
    numbers to open files; [open] and [close] implement its allocation and
    deletion. *)
From S2P Require Import Prelude LibString LibMem Filesystem KState Paging PortIO Screen Switch Keyboard Terminal Syscall.

(** ** The abstract table *)
Record file := mk_file { f_op : fops; f_inode : Z; f_pos : Z }.
Definition file_of (d : fdesc) : file := mk_file (operations_pointer d) (inode d) (file_position d).
Abbreviation table := (gmap Z file).

Definition fresh (t : table) : option Z := snd <$> list_find (λ fd, t !! fd = None) [2; 3; 4; 5; 6; 7].

(** The entry the file system has under a name. *)
Definition find_dentry (img name : list Z) : option dentry_t :=
  '(_, i) ← list_find (λ i, (length name ≤ 32)%nat ∧ dentry_name img i = name) (seqZ 0 64);
  copy_dentry img i (mk_dentry [] 0 0).

Definition file_of_dentry (d : dentry_t) : file :=
  if filetype d =? 0 then mk_file RtcOps 0 0
  else if filetype d =? 1 then mk_file DirOps 0 0
  else mk_file FsOps (u32 (inode_num d)) 0.

Definition std_file : file := mk_file TermOps 0 0.
Definition stdin_str : list Z := [115; 116; 100; 105; 110].
Definition stdout_str : list Z := [115; 116; 100; 111; 117; 116].

Definition spec_open (img name : list Z) (t : table) : Z * table :=
  if decide (name = []) then (-1, t)
  else if decide (take (length name) stdin_str = name) then (0, <[0 := std_file]> t)
  else if decide (take (length name) stdout_str = name) then (1, <[1 := std_file]> t)
  else match find_dentry img name with
       | None => (-1, t)
       | Some d => match fresh t with
                   | None => (-1, t)
                   | Some fd => (fd, <[fd := file_of_dentry d]> t)
                   end
       end.
Definition spec_close (fd : Z) (t : table) : Z * table :=
  if decide (2 ≤ fd ≤ 7 ∧ is_Some (t !! fd)) then (0, delete fd t) else (-1, t).

(** Sequences of calls. *)
Inductive fd_call := COpen (name : list Z) | CClose (fd : Z).
Definition run_call (c : fd_call) : K Z :=
  match c with COpen name => open_named (Some name) | CClose fd => close_handler fd end.
Fixpoint run_calls (cs : list fd_call) : K (list Z) :=
  match cs with
  | [] => mret []
  | c :: cs => r ← run_call c; rs ← run_calls cs; mret (r :: rs)
  end.
Definition spec_call (img : list Z) (c : fd_call) (t : table) : Z * table :=
  match c with COpen name => spec_open img (cstr name) t | CClose fd => spec_close fd t end.
Fixpoint spec_calls (img : list Z) (cs : list fd_call) (t : table) : list Z * table :=
  match cs with
  | [] => ([], t)
  | c :: cs =>
      let '(r, t) := spec_call img c t in
      let '(rs, t) := spec_calls img cs t in (r :: rs, t)
  end.

(** ** The representation *)
Record table_rep (t : table) (l : list fdesc) : Prop := {
  tr_length : length l = 8%nat;
  tr_flags : ∀ fd d, aget l fd = Some d → flags d = 0 ∨ flags d = 1;
  tr_lookup : ∀ fd d, aget l fd = Some d → t !! fd = if flags d =? 0 then None else Some (file_of d);
  tr_domain : ∀ fd, aget l fd = None → t !! fd = None;
}.

(** An image with readable entries of the three known types. *)
Record image_ok (img : list Z) : Prop := {
  im_bytes : Forall is_u8 img;
  im_size : 8192 ≤ zlen img;
  im_types : ∀ i d, 0 ≤ i < 64 → copy_dentry img i (mk_dentry [] 0 0) = Some d → 0 ≤ filetype d ≤ 2;
}.

(** What the file calls of process [k] leave alone. *)
Definition call_frame (k : Z) (s s' : kstate) : Prop :=
  fs_image s' = fs_image s ∧ scr s' = scr s ∧ mem s' = mem s ∧ kbd s' = kbd s ∧ pic s' = pic s ∧
  pcb_current (proc s') = pcb_current (proc s) ∧ program_count (proc s') = program_count (proc s) ∧
  pid_arr (proc s') = pid_arr (proc s) ∧ sched_pid (proc s') = sched_pid (proc s) ∧
  curr_process (proc s') = curr_process (proc s) ∧ args_flag (proc s') = args_flag (proc s) ∧
  length (pcbs (proc s')) = length (pcbs (proc s)) ∧
  ∀ j, j ≠ pcb_index k → pcbs (proc s') !! j = pcbs (proc s) !! j.
#[export] Instance call_frame_preorder k : PreOrder (call_frame k).
Proof.
  split.
  - intros s. by split_and!.
  - intros s1 s2 s3 (?&?&?&?&?&?&?&?&?&?&?&?&H) (?&?&?&?&?&?&?&?&?&?&?&?&H').
    split_and!; try congruence. intros j Hj. by rewrite H', H.
Qed.
(** The PCB keeps everything but the descriptors and the clock's flag. *)
Definition pcb_frame (p p' : pcb_t) : Prop :=
  ∃ l r, p' = p <| pcb_arr := l |> <| rtc_flag := r |>.
Lemma pcb_frame_refl p : pcb_frame p p.
Proof. exists (pcb_arr p), (rtc_flag p). by destruct p. Qed.
Lemma pcb_frame_trans p1 p2 p3 : pcb_frame p1 p2 → pcb_frame p2 p3 → pcb_frame p1 p3.
Proof. intros (l&r&->) (l'&r'&->). by exists l', r'. Qed.

(** ** Lookups and updates *)
Lemma table_rep_get t l fd : table_rep t l → 0 ≤ fd ≤ 7 → ∃ d, aget l fd = Some d.
Proof. intros [Hl _ _ _] Hfd. apply aget_is_Some. lia. Qed.

Lemma table_rep_insert t l fd d :
  table_rep t l → 0 ≤ fd ≤ 7 → flags d = 0 ∨ flags d = 1 →
  table_rep (if flags d =? 0 then delete fd t else <[fd := file_of d]> t) (<[Z.to_nat fd := d]> l).
Proof.
  intros [Hl Hf Hlk Hd] Hfd Hfl.
  assert (Hg : ∀ j, aget (<[Z.to_nat fd := d]> l) j = if decide (j = fd) then Some d else aget l j).
  { intros j. assert (aset l fd d = Some (<[Z.to_nat fd := d]> l)) as Hs by (apply aset_in; lia).
    destruct (decide (j = fd)) as [->|]; [by eapply aget_aset_eq|]. by eapply aget_aset_ne. }
  constructor.
  - by rewrite length_insert.
  - intros j e. rewrite Hg. destruct (decide (j = fd)); [by intros [= <-]|apply Hf].
  - intros j e. rewrite Hg. destruct (decide (j = fd)) as [->|Hne].
    + intros [= <-]. destruct (flags d =? 0); [apply lookup_delete_eq|apply lookup_insert_eq].
    + intros He. destruct (flags d =? 0); rewrite ?lookup_delete_ne, ?lookup_insert_ne by done; by apply Hlk.
  - intros j. rewrite Hg. destruct (decide (j = fd)) as [->|Hne]; [done|]. intros He.
    destruct (flags d =? 0); rewrite ?lookup_delete_ne, ?lookup_insert_ne by done; by apply Hd.
Qed.

Lemma free_fd_run n : ∀ i t l,
  table_rep t l → 0 ≤ i → i + Z.of_nat n = 8 →
  free_fd n i l = Some (default (-1) (snd <$> list_find (λ fd, t !! fd = None) (seqZ i (Z.of_nat n)))).
Proof.
  induction n as [|n IH]; intros i t l Hr Hi Hn; [done|]. cbn [free_fd].
  destruct (table_rep_get t l i Hr) as [d Hd]; [lia|]. rewrite Hd. cbn [mbind option_bind].
  pose proof (tr_lookup _ _ Hr _ _ Hd) as Hl. rewrite seqZ_cons by lia. cbn [list_find].
  destruct (flags d =? 0); [by rewrite decide_True|].
  rewrite decide_False by (rewrite Hl; done). rewrite (IH (i + 1) t l Hr) by lia.
  replace (Z.pred (Z.of_nat (S n))) with (Z.of_nat n) by lia. unfold Z.succ.
  destruct (list_find _ _) as [[]|]; done.
Qed.
Lemma free_fd_fresh t l : table_rep t l → free_fd 6 2 l = Some (default (-1) (fresh t)).
Proof. intros Hr. by apply (free_fd_run 6 2). Qed.
Lemma fresh_Some t fd : fresh t = Some fd → 2 ≤ fd ≤ 7 ∧ t !! fd = None ∧ ∀ j, 2 ≤ j < fd → is_Some (t !! j).
Proof.
  unfold fresh. intros H. apply fmap_Some in H as ([i x]&H&->). cbn.
  apply list_find_Some in H as (Hx&Hn&Hb). change [2; 3; 4; 5; 6; 7] with (seqZ 2 6) in *.
  apply lookup_seqZ in Hx as [-> Hi]. split; [lia|]. split; [done|]. intros j Hj.
  destruct (t !! j) eqn:E; [done|]. exfalso. apply (Hb (Z.to_nat (j - 2)) j); [|lia|done].
  apply lookup_seqZ. lia.
Qed.

Lemma with_fd_frame k p fd d s : running s k p → call_frame k s (with_fd k p fd d s).
Proof.
  intros (_&_&Hp). pose proof (aget_Some_range _ _ _ Hp). split_and!; try done.
  - cbn. by rewrite length_insert.
  - intros j Hj. cbn. by rewrite list_lookup_insert_ne.
Qed.
Lemma set_current_frame k p q s :
  running s k p → call_frame k s (s <| proc ::= λ r, r <| pcbs ::= <[pcb_index k := q]> |> |>).
Proof.
  intros (_&_&Hp). split_and!; try done.
  - cbn. by rewrite length_insert.
  - intros j Hj. cbn. by rewrite list_lookup_insert_ne.
Qed.
(** Changes of the processor and the clock. *)
Definition cpu_rtc_step (s s' : kstate) : Prop :=
  ∃ f g, s' = s <| cpu ::= f |> <| rtc ::= g |>.
Lemma cpu_rtc_running s s' k p : cpu_rtc_step s s' → running s k p → running s' k p.
Proof. by intros (f&g&->). Qed.
Lemma cpu_rtc_frame s s' k : cpu_rtc_step s s' → call_frame k s s'.
Proof. intros (f&g&->). by split_and!. Qed.

Lemma rtc_open_run n s : ∃ s', rtc_open n s = Some (0, s') ∧ cpu_rtc_step s s'.
Proof.
  unfold rtc_open, set_frequency, set_rtc. rewrite !bind_modify.
  change (frequency_loop frequency_fuel MAX_FREQ MIN_FREQ MAX_FREQ_COUNT) with 15. cbn [Z.eqb].
  eexists. split; [reflexivity|]. destruct s as [c m sc kb [tk st] pr pc im].
  eexists (λ _, _), (λ _, mk_rtc 0 0). reflexivity.
Qed.

Definition opened (f : file) : fdesc := mk_fdesc (f_op f) (f_inode f) (f_pos f) 1.
Lemma file_of_opened f : file_of (opened f) = f.
Proof. by destruct f. Qed.

(** [set_fd]'s effect, as a step. *)
Definition fd_set (k fd : Z) (d : fdesc) (p : pcb_t) (s s' : kstate) (p' : pcb_t) : Prop :=
  running s' k p' ∧ pcb_arr p' = <[Z.to_nat fd := d]> (pcb_arr p) ∧ pcb_frame p p' ∧ call_frame k s s'.

Lemma set_fd_step k p fd d f s :
  running s k p → aget (pcb_arr p) fd = Some d →
  ∃ s' p', set_fd fd f s = Some ((), s') ∧ fd_set k fd (f d) p s s' p'.
Proof.
  intros Hr Hd. eexists _, _. split; [by apply (set_fd_run k p)|].
  split; [by apply with_fd_running|]. split; [done|]. split.
  - exists (<[Z.to_nat fd := f d]> (pcb_arr p)), (rtc_flag p). by destruct p.
  - by apply with_fd_frame.
Qed.
Lemma fd_set_again k p fd d d0 s s1 p1 f :
  fd_set k fd d p s s1 p1 → aget (pcb_arr p) fd = Some d0 →
  ∃ s' p', set_fd fd f s1 = Some ((), s') ∧ fd_set k fd (f d) p s s' p'.
Proof.
  intros (Hr&Hl&Hf&Hc) Hd.
  assert (aget (pcb_arr p1) fd = Some d) as Hd1
    by (rewrite Hl; exact (aget_aset_eq _ _ _ _ (aset_in _ _ _ (aget_Some_range _ _ _ Hd)))).
  destruct (set_fd_step k p1 fd d f s1 Hr Hd1) as (s'&p'&Hrun&Hr'&Hl'&Hf'&Hc').
  exists s', p'. split; [done|]. split; [done|]. split; [by rewrite Hl', Hl, list_insert_insert_eq|].
  split; [by eapply pcb_frame_trans|by etrans].
Qed.
Lemma fd_set_cpu k p fd d s s1 p1 s2 :
  fd_set k fd d p s s1 p1 → cpu_rtc_step s1 s2 → fd_set k fd d p s s2 p1.
Proof.
  intros (Hr&Hl&Hf&Hc) Hs. split; [by eapply cpu_rtc_running|]. split_and!; try done.
  etrans; [done|by apply cpu_rtc_frame].
Qed.

Lemma sti_step s : ∃ s', sti s = Some ((), s') ∧ cpu_rtc_step s s' ∧ if_flag (cpu s') = true.
Proof.
  eexists. split; [reflexivity|]. split; [|done].
  exists (λ c, c <| if_flag := true |>), id. by destruct s.
Qed.
Lemma cli_step s : ∃ s', cli s = Some ((), s') ∧ cpu_rtc_step s s'.
Proof.
  eexists. split; [reflexivity|]. exists (λ c, c <| if_flag := false |>), id. by destruct s.
Qed.

Lemma open_entry_run k p fd d0 d s :
  running s k p → aget (pcb_arr p) fd = Some d0 → 0 ≤ filetype d ≤ 2 →
  ∃ s' p', open_entry fd d s = Some (fd, s') ∧ fd_set k fd (opened (file_of_dentry d)) p s s' p' ∧
    if_flag (cpu s') = true.
Proof.
  intros Hr Hd Hty. unfold open_entry.
  destruct (set_fd_step k p fd d0 (λ d, d <| file_position := 0 |> <| flags := 1 |> <| inode := 0 |>) s Hr Hd)
    as (s1&p1&H1&Hs1). rewrite (bind_run _ _ _ _ _ H1).
  assert (filetype d = 0 ∨ filetype d = 1 ∨ filetype d = 2) as Hcases by lia. unfold file_of_dentry.
  destruct Hcases as [-> | [-> | ->]]; cbn [Z.eqb Pos.eqb].
  - destruct (fd_set_again _ _ _ _ _ _ _ _ (λ d, d <| operations_pointer := RtcOps |>) Hs1 Hd) as (s2&p2&H2&Hs2).
    rewrite (bind_run _ _ _ _ _ H2). destruct Hs2 as (Hr2&Hl2&Hf2&Hc2).
    rewrite (bind_run _ _ _ _ _ (set_current_run _ _ (λ p, p <| rtc_flag := 1 |>) _ Hr2)).
    set (s3 := setter proc _ s2).
    destruct (rtc_open_run 0 s3) as (s4&H4&Hs4). rewrite (bind_run _ _ _ _ _ H4).
    destruct (sti_step s4) as (s5&H5&Hs5&Hif). rewrite (bind_run _ _ _ _ _ H5).
    eexists s5, _. split; [done|]. split; [|done]. eapply fd_set_cpu; [|exact Hs5]. eapply fd_set_cpu; [|exact Hs4].
    split; [by eapply running_insert|]. split; [exact Hl2|]. split.
    + eapply pcb_frame_trans; [exact Hf2|]. exists (pcb_arr p2), 1. by destruct p2.
    + etrans; [exact Hc2|]. by eapply set_current_frame.
  - destruct (fd_set_again _ _ _ _ _ _ _ _ (λ d, d <| operations_pointer := DirOps |>) Hs1 Hd) as (s2&p2&H2&Hs2).
    rewrite (bind_run _ _ _ _ _ H2). unfold directory_open. rewrite bind_ret.
    destruct (sti_step s2) as (s5&H5&Hs5&Hif). rewrite (bind_run _ _ _ _ _ H5).
    exists s5, p2. split; [done|]. split; [|done]. by eapply fd_set_cpu.
  - destruct (fd_set_again _ _ _ _ _ _ _ _ (λ d, d <| operations_pointer := FsOps |>) Hs1 Hd) as (s2&p2&H2&Hs2).
    rewrite (bind_run _ _ _ _ _ H2).
    destruct (fd_set_again _ _ _ _ _ _ _ _ (λ e, e <| inode := u32 (inode_num d) |>) Hs2 Hd) as (s3&p3&H3&Hs3).
    rewrite (bind_run _ _ _ _ _ H3). unfold file_open. rewrite bind_ret.
    destruct (sti_step s3) as (s5&H5&Hs5&Hif). rewrite (bind_run _ _ _ _ _ H5).
    exists s5, p3. split; [done|]. split; [|done]. by eapply fd_set_cpu.
Qed.

(** The two special names, matched by prefix. *)
Lemma std_match name std_name str :
  terminated name → Forall is_u8 name → cstr std_name = str → terminated std_name → Forall is_u8 std_name →
  ∃ r, strncmp name std_name (zlen (cstr name)) = Some r ∧
    (r =? 0) = bool_decide (take (length (cstr name)) str = cstr name).
Proof.
  intros Ht Hu <- Hts Hus. rewrite strncmp_cstr by done. eexists. split; [done|]. rewrite Nat2Z.id.
  pose proof (compare_zero (length (cstr name)) (cstr name) (cstr std_name)) as Hz.
  rewrite (take_ge (cstr name)) in Hz by lia.
  apply eq_true_iff_eq. rewrite Z.eqb_eq, bool_decide_eq_true, Hz; auto using forall_cstr, cstr_no_nul.
  split; intros H; symmetry; exact H.
Qed.

Lemma rep_set t k p fd d s s' p' :
  table_rep t (pcb_arr p) → fd_set k fd d p s s' p' → 0 ≤ fd ≤ 7 → flags d = 0 ∨ flags d = 1 →
  table_rep (if flags d =? 0 then delete fd t else <[fd := file_of d]> t) (pcb_arr p').
Proof. intros Hr (_&->&_) Hfd Hfl. by apply table_rep_insert. Qed.

(** The result of a call: the value and the table of the specification. *)
Definition implements (k : Z) (p : pcb_t) (s : kstate) (m : K Z) (spec : Z * table) : Prop :=
  ∃ s' p', m s = Some (spec.1, s') ∧ running s' k p' ∧ table_rep spec.2 (pcb_arr p') ∧
    pcb_frame p p' ∧ call_frame k s s'.

Lemma implements_ret t k p s r :
  running s k p → table_rep t (pcb_arr p) → implements k p s (mret r) (r, t).
Proof. intros Hr Ht. exists s, p. split_and!; try done; try apply Hr. apply pcb_frame_refl. Qed.
Lemma implements_step k p s s1 (m : K Z) spec :
  cpu_rtc_step s s1 → implements k p s1 m spec →
  ∃ s' p', m s1 = Some (spec.1, s') ∧ running s' k p' ∧ table_rep spec.2 (pcb_arr p') ∧
    pcb_frame p p' ∧ call_frame k s s'.
Proof.
  intros Hs (s'&p'&?&?&?&?&?). exists s', p'. split_and!; try done; try apply H0.
  etrans; [by apply cpu_rtc_frame|done].
Qed.
Lemma implements_cli k p s (m : K Z) spec :
  (∀ s1, cpu_rtc_step s s1 → implements k p s1 m spec) → implements k p s (cli;; m) spec.
Proof.
  intros Hm. destruct (cli_step s) as (s1&H1&Hs1).
  destruct (implements_step k p s s1 m spec Hs1 (Hm s1 Hs1)) as (s'&p'&Hrun&?). exists s', p'.
  by rewrite (bind_run _ _ _ _ _ H1).
Qed.

Lemma open_std_refines t k p fd s :
  running s k p → table_rep t (pcb_arr p) → 0 ≤ fd ≤ 7 →
  implements k p s (open_std fd) (fd, <[fd := std_file]> t).
Proof.
  intros Hr Ht Hfd. destruct (table_rep_get _ _ _ Ht Hfd) as [d Hd]. unfold open_std.
  destruct (set_fd_step k p fd d (λ d, d <| operations_pointer := TermOps |> <| inode := 0 |>
    <| file_position := 0 |> <| flags := 1 |>) s Hr Hd) as (s'&p'&Hrun&Hs).
  exists s', p'. rewrite (bind_run _ _ _ _ _ Hrun). split; [done|].
  pose proof (rep_set t _ _ _ _ _ _ _ Ht Hs Hfd) as Hrep. destruct Hs as (?&?&?&?).
  split_and!; try done. apply Hrep. by right.
Qed.

Lemma spec_close_none t fd : t !! fd = None → spec_close fd t = (-1, t).
Proof. intros H. unfold spec_close. rewrite decide_False; [done|]. intros [_ [f Hf]]. congruence. Qed.

Lemma running_nonzero s k p : running s k p → pcb_current (proc s) ≠ 0.
Proof. intros (->&Hk&_). unfold pcb_addr, bottomKernal, kernalStackSize. lia. Qed.

Lemma close_refines t k p fd s :
  running s k p → table_rep t (pcb_arr p) → implements k p s (close_handler fd) (spec_close fd t).
Proof.
  intros Hr Ht. apply implements_cli. intros s1 Hs1. apply (cpu_rtc_running _ _ _ _ Hs1) in Hr. clear Hs1 s.
  unfold get_proc, implements. rewrite bind_gets.
  destruct (Z.eqb_spec (pcb_current (proc s1)) 0) as [E|_]; [by apply (running_nonzero _ _ _ Hr) in E|].
  unfold fdMin, fdMax. destruct ((fd <? 0 + 2) || (fd >? 7)) eqn:Erange.
  { assert (spec_close fd t = (-1, t)) as ->; [|by apply implements_ret].
    unfold spec_close. rewrite decide_False; [done|]. intros [? _]. lia. }
  destruct (table_rep_get _ _ fd Ht) as [d Hd]; [lia|].
  rewrite (bind_run _ _ _ _ _ (get_fd_run _ _ _ _ _ Hr Hd)).
  pose proof (tr_lookup _ _ Ht _ _ Hd) as Hl. destruct (flags d =? 0).
  { rewrite spec_close_none by done. by apply implements_ret. }
  destruct (set_fd_step k p fd d (λ d, d <| flags := 0 |>) s1 Hr Hd) as (s2&p2&H2&Hs2).
  rewrite (bind_run _ _ _ _ _ H2). destruct (sti_step s2) as (s3&H3&Hs3&_).
  rewrite (bind_run _ _ _ _ _ H3). pose proof (fd_set_cpu _ _ _ _ _ _ _ _ Hs2 Hs3) as Hs23.
  exists s3, p2. unfold spec_close. rewrite decide_True by (split; [lia|eauto]).
  pose proof (rep_set t _ _ _ _ _ _ _ Ht Hs23) as Hrep. destruct Hs23 as (?&?&?&?).
  split_and!; try done; try apply H. apply Hrep; [lia|by left].
Qed.

Lemma find_dentry_run img name :
  image_ok img → Forall is_u8 name → terminated name →
  ∃ r d, read_dentry_by_name img (Some name) (Some (mk_dentry [] 0 0)) = Some (r, Some d) ∧
    match find_dentry img (cstr name) with
    | Some d' => r = 0 ∧ d' = d ∧ 0 ≤ filetype d ≤ 2
    | None => r = -1
    end.
Proof.
  intros [Hb Hs Hty] Hu Ht.
  destruct (read_dentry_by_name_run img name (mk_dentry [] 0 0) Hb Hs Hu Ht) as (r&d&Hrun&Hspec).
  exists r, d. split; [done|]. unfold find_dentry.
  destruct (list_find _ _) as [[j i]|] eqn:E; cbn [mbind option_bind]; [|by destruct Hspec].
  destruct Hspec as [-> Hc]. rewrite Hc. split_and!; try done; apply (Hty i); try done;
    apply list_find_Some in E as (E&_); apply lookup_seqZ in E; lia.
Qed.

Lemma std_terminated : terminated stdin_name ∧ terminated stdout_name.
Proof. split; apply (bool_decide_unpack _); vm_compute; exact I. Qed.
Lemma std_u8 : Forall is_u8 stdin_name ∧ Forall is_u8 stdout_name.
Proof. split; apply (bool_decide_unpack _); vm_compute; exact I. Qed.

Lemma open_refines t k p name s :
  running s k p → table_rep t (pcb_arr p) → image_ok (fs_image s) → Forall is_u8 name → terminated name →
  implements k p s (open_named (Some name)) (spec_open (fs_image s) (cstr name) t).
Proof.
  intros Hr Ht Himg Hu Hterm. apply implements_cli. intros s1 Hs1.
  apply (cpu_rtc_running _ _ _ _ Hs1) in Hr. destruct (cpu_rtc_frame _ _ k Hs1) as (Hfs&_).
  rewrite <- Hfs in *. clear Hs1 Hfs s. unfold spec_open, implements.
  destruct name as [|c name]; [by apply not_elem_of_nil in Hterm|]. rewrite (bind_lift _ c) by reflexivity.
  destruct (Z.eqb_spec c 0) as [->|Hc].
  { rewrite decide_True by done. by apply implements_ret. }
  assert (cstr (c :: name) ≠ []) as Hne by (cbn; by destruct (Z.eqb_spec c 0)).
  rewrite decide_False by done. set (nm := c :: name) in *.
  rewrite (bind_lift _ _ _ _ (strlen_cstr nm Hterm)).
  destruct (std_match nm stdin_name stdin_str) as (r&Hr1&Hb1); try done;
    [apply std_terminated|apply std_u8|].
  rewrite (bind_lift _ _ _ _ Hr1), Hb1. case_bool_decide as E1.
  { rewrite decide_True by done. by apply open_std_refines. }
  rewrite decide_False by done.
  destruct (std_match nm stdout_name stdout_str) as (r'&Hr2&Hb2); try done;
    [apply std_terminated|apply std_u8|].
  rewrite (bind_lift _ _ _ _ Hr2), Hb2. case_bool_decide as E2.
  { rewrite decide_True by done. by apply open_std_refines. }
  rewrite decide_False by done. rewrite bind_gets.
  destruct (find_dentry_run _ nm Himg Hu Hterm) as (rc&d&Hrun&Hspec).
  rewrite (bind_lift _ _ _ _ Hrun). destruct (find_dentry _ _) as [d'|] eqn:Ef.
  2: { subst rc. by apply implements_ret. }
  destruct Hspec as (->&->&Hty). cbn [Z.eqb].
  rewrite (bind_run _ _ _ _ _ (current_run _ _ _ Hr)).
  change (Z.to_nat (PCB_SIZE - 2)) with 6%nat. rewrite (bind_lift _ _ _ _ (free_fd_fresh _ _ Ht)).
  destruct (fresh t) as [fd|] eqn:Efr; [|by apply implements_ret]. cbn [from_option id].
  destruct (fresh_Some _ _ Efr) as (Hfd&_&_). cbn [from_option id].
  destruct (Z.eqb_spec fd (-1)); [lia|]. rewrite (bind_lift _ _ _ _ eq_refl).
  destruct (table_rep_get _ _ fd Ht) as [d0 Hd0]; [lia|].
  destruct (open_entry_run k p fd d0 d s1 Hr Hd0 Hty) as (s2&p2&H2&Hs2&_).
  exists s2, p2. pose proof (rep_set t _ _ _ _ _ _ _ Ht Hs2) as Hrep. destruct Hs2 as (?&?&?&?).
  split_and!; try done; try apply H. rewrite <- (file_of_opened (file_of_dentry d)). apply Hrep; [lia|by right].
Qed.

Definition call_ok (c : fd_call) : Prop :=
  match c with COpen name => Forall is_u8 name ∧ terminated name | CClose _ => True end.

Lemma call_refines t k p c s :
  running s k p → table_rep t (pcb_arr p) → image_ok (fs_image s) → call_ok c →
  implements k p s (run_call c) (spec_call (fs_image s) c t).
Proof. destruct c; cbn; [intros ??? []; by apply open_refines|intros; by apply close_refines]. Qed.

Lemma calls_refine cs : ∀ t k p s,
  running s k p → table_rep t (pcb_arr p) → image_ok (fs_image s) → Forall call_ok cs →
  ∃ s' p', run_calls cs s = Some ((spec_calls (fs_image s) cs t).1, s') ∧ running s' k p' ∧
    table_rep (spec_calls (fs_image s) cs t).2 (pcb_arr p') ∧ pcb_frame p p' ∧ call_frame k s s'.
Proof.
  induction cs as [|c cs IH]; intros t k p s Hr Ht Himg Hcs; cbn [run_calls spec_calls].
  - exists s, p. split_and!; try done; try apply Hr. apply pcb_frame_refl.
  - inversion_clear Hcs as [|? ? Hc Hcs'].
    destruct (call_refines t k p c s Hr Ht Himg Hc) as (s1&p1&H1&Hr1&Ht1&Hp1&Hf1).
    pose proof Hf1 as (Hfs&_). destruct (spec_call (fs_image s) c t) as [r t1]. cbn in H1, Ht1.
    rewrite <- Hfs in Himg. destruct (IH t1 k p1 s1 Hr1 Ht1 Himg Hcs') as (s2&p2&H2&Hr2&Ht2&Hp2&Hf2).
    rewrite Hfs in *. destruct (spec_calls (fs_image s) cs t1) as [rs t2].
    exists s2, p2. rewrite (bind_run _ _ _ _ _ H1), (bind_run _ _ _ _ _ H2).
    split; [done|]. split; [done|]. split; [done|]. split; [by eapply pcb_frame_trans|by etrans].
Qed.

(** ** Correctness *)

(** C8. Any sequence of [open] and [close] calls of a process returns what the
    abstract table returns for it: [open] of an existing name gives the lowest
    free descriptor from 2 to 7 (0 or 1 for a prefix of the two standard
    names) and records the file's kind and inode at position 0, or gives -1 for
    an unknown name or a full table; [close] frees an open descriptor from 2 on
    and gives -1 otherwise. The PCB goes on representing the abstract table, and
    no other process, nor the memory, the screen or the process table, changes. *)
Theorem fd_table_refinement cs t k p s :
  running s k p → table_rep t (pcb_arr p) → image_ok (fs_image s) → Forall call_ok cs →
  ∃ s' p', run_calls cs s = Some ((spec_calls (fs_image s) cs t).1, s') ∧ running s' k p' ∧
    table_rep (spec_calls (fs_image s) cs t).2 (pcb_arr p') ∧ pcb_frame p p' ∧ call_frame k s s'.
Proof. apply calls_refine. Qed.

(** Process 1 of a fresh system. *)
Definition demo_process (img : list Z) : kstate :=
  (boot_state img) <| proc ::= λ r, r <| pcb_current := pcb_addr 1 |> |>.
Lemma demo_running img : running (demo_process img) 1 zero_pcb.
Proof. by split_and!. Qed.
Lemma empty_rep : table_rep ∅ (replicate 8 zero_fdesc).
Proof.
  assert (∀ fd d, aget (replicate 8 zero_fdesc) fd = Some d → d = zero_fdesc) as Hd.
  { intros fd d H. pose proof (aget_Some_range _ _ _ H). rewrite aget_nonneg in H by lia.
    by apply lookup_replicate in H as [-> _]. }
  constructor; [done|..].
  - intros fd d ->%Hd. by left.
  - by intros fd d ->%Hd.
  - done.
Qed.
Definition image_okb (img : list Z) : bool :=
  forallb (λ b, (0 <=? b) && (b <? 256)) img && (8192 <=? zlen img) &&
  forallb (λ i, match copy_dentry img i (mk_dentry [] 0 0) with
    | Some d => (0 <=? filetype d) && (filetype d <=? 2) | None => false end) (seqZ 0 64).
Lemma image_okb_ok img : image_okb img = true → image_ok img.
Proof.
  unfold image_okb. rewrite !andb_true_iff, !forallb_forall, Z.leb_le. intros [[Hu Hs] Ht]. constructor; [|done|].
  - apply Forall_forall. intros b Hb%list_elem_of_In%Hu. cint. lia.
  - intros i d Hi Hc. assert (List.In i (seqZ 0 64)) as Hin by (apply list_elem_of_In, elem_of_seqZ; lia).
    apply Ht in Hin. rewrite Hc in Hin. lia.
Qed.
Lemma example_image_ok : image_ok example_image.
Proof. apply image_okb_ok. vm_compute. reflexivity. Qed.

Lemma ab_ok : call_ok (COpen [97; 98; 0]).
Proof. split; apply (bool_decide_unpack _); vm_compute; exact I. Qed.

(** Opens ["ab"] twice, closes the first, opens it again and closes a free one. *)
Lemma fd_table_refinement_witness :
  ∃ s', run_calls [COpen [97; 98; 0]; COpen [97; 98; 0]; CClose 2; COpen [97; 98; 0]; CClose 5]
    (demo_process example_image) = Some ([2; 3; 0; 2; -1], s').
Proof.
  destruct (fd_table_refinement [COpen [97; 98; 0]; COpen [97; 98; 0]; CClose 2; COpen [97; 98; 0]; CClose 5]
    ∅ 1 zero_pcb (demo_process example_image)) as (s'&p'&Hrun&_).
  - apply demo_running.
  - apply empty_rep.
  - apply example_image_ok.
  - repeat (apply Forall_cons_2; [first [exact ab_ok|exact I]|]). apply Forall_nil_2.
  - exists s'. etrans; [exact Hrun|].
    assert ((spec_calls (fs_image (demo_process example_image)) [COpen [97; 98; 0]; COpen [97; 98; 0]; CClose 2;
      COpen [97; 98; 0]; CClose 5] ∅).1 = [2; 3; 0; 2; -1]) as -> by (vm_compute; reflexivity). reflexivity.
Defined.

(** ** Reading an open file *)
Lemma write_bytes_user bs : ∀ buf i q s,
  (∀ k, i ≤ k < i + zlen bs → translate s (u32 (buf + k)) = Some (q + k)) → Forall is_u8 bs →
  write_bytes (user_write buf) i bs s = Some ((), poke bs (q + i) s).
Proof.
  induction bs as [|b bs IH]; intros buf i q s Hb Hu; [done|]. cbn [write_bytes poke length] in *.
  inversion_clear Hu as [|? ? Hb8 Hu']. change (user_write buf i b) with (store8 (S := kstate) (u32 (buf + i)) b).
  rewrite (bind_run _ _ _ _ _ (store8_run _ _ _ _ (Hb i ltac:(lia)))).
  rewrite (IH buf (i + 1) q); [|intros k Hk; rewrite translate_update; apply Hb; lia|done].
  rewrite (u8_small b) by done. do 3 f_equal. lia.
Qed.

(** A read that writes the bytes [bs] to the user's buffer: their number is
    returned and added to the position of that descriptor; no other byte of
    memory, no other descriptor and nothing else in the kernel changes. *)
Definition read_effect (k fd q : Z) (p : pcb_t) (d : fdesc) (bs : list Z) (s s' : kstate) (p' : pcb_t) : Prop :=
  running s' k p' ∧
  pcb_arr p' = <[Z.to_nat fd := d <| file_position := u32 (file_position d + zlen bs) |>]> (pcb_arr p) ∧
  pcb_frame p p' ∧ call_frame k (poke bs q s) s' ∧ cpu s' = cpu s ∧
  ∀ a, contents s' a = if decide (q ≤ a < q + zlen bs) then default 0 (bs !! Z.to_nat (a - q)) else contents s a.

Lemma read_handler_bytes ints fd buf nbytes q k p d bs s :
  running s k p → 2 ≤ fd ≤ 7 → aget (pcb_arr p) fd = Some d → flags d = 1 → buf ≠ 0 →
  Forall is_u8 bs → buffer_at s buf (zlen bs) q →
  read_ptr (operations_pointer d) ints (inode d) (file_position d) buf (u32 nbytes) s =
    (write_bytes (user_write buf) 0 bs;; mret (zlen bs)) s →
  ∃ s' p', read_handler ints fd buf nbytes s = Some (zlen bs, s') ∧ read_effect k fd q p d bs s s' p'.
Proof.
  intros Hr Hfd Hd Hfl Hbuf Hu Hb Hptr. unfold read_handler, fdMin, fdMax.
  destruct (Z.eqb_spec buf 0), (Z.ltb_spec fd 0), (Z.gtb_spec fd 7), (Z.eqb_spec fd (0 + 1)), (Z.eqb_spec fd 0); try lia.
  cbn [orb]. rewrite (bind_run _ _ _ _ _ (get_fd_run _ _ _ _ _ Hr Hd)), Hfl. cbn [Z.eqb Pos.eqb].
  rewrite (bind_run _ _ _ _ _ (write_bytes_user bs buf 0 q s ltac:(intros j Hj; apply Hb; lia) Hu)), Z.add_0_r in Hptr.
  rewrite (bind_run _ _ _ _ _ Hptr). set (s1 := poke bs q s).
  assert (running s1 k p) as Hr1.
  { destruct (poke_rest bs q s) as (_&_&Hp&_). unfold running, s1. by rewrite Hp. }
  destruct (set_fd_step k p fd d (λ d, d <| file_position ::= λ x, u32 (x + zlen bs) |>) s1 Hr1 Hd)
    as (s2&p2&H2&Hr2&Hl2&Hf2&Hc2).
  exists s2, p2. rewrite (bind_run _ _ _ _ _ H2). split; [done|]. split; [done|]. split; [done|].
  split; [done|]. split; [done|]. split.
  { rewrite (set_fd_run k p fd d _ s1 Hr1 Hd) in H2. injection H2 as <-.
    by destruct (poke_rest bs q s) as (_&_&_&_&_&_&Hcpu&_). }
  intros a. assert (contents s2 a = contents s1 a) as -> by (destruct Hc2 as (_&_&Hm&_); cbn; by rewrite Hm).
  unfold s1. rewrite poke_contents. destruct (decide _) as [Ha|]; [|done].
  destruct (bs !! Z.to_nat (a - q)) as [b|] eqn:E; [|done]. cbn. rewrite Forall_lookup in Hu.
  apply u8_small. by eapply Hu.
Qed.

(** [read] on a descriptor open on a regular file copies the file's bytes from the
    descriptor's position, as many as asked for and available. *)
Lemma read_handler_file ints fd buf nbytes q k p d L n bs s :
  running s k p → 2 ≤ fd ≤ 7 → aget (pcb_arr p) fd = Some d →
  flags d = 1 → operations_pointer d = FsOps → buf ≠ 0 → 0 ≤ nbytes < 2147483648 →
  inode_count (fs_image s) = Some n → 0 ≤ inode d ≤ u32 n → file_length (fs_image s) (inode d) = Some L →
  L < 2147483647 → 0 ≤ file_position d < 2147483648 →
  file_has (fs_image s) (inode d) (file_position d) bs → Forall is_u8 bs →
  zlen bs = Z.min nbytes (Z.max 0 (L + 1 - file_position d)) →
  buffer_at s buf nbytes q →
  ∃ s' p', read_handler ints fd buf nbytes s = Some (zlen bs, s') ∧ read_effect k fd q p d bs s s' p'.
Proof.
  intros Hr Hfd Hd Hfl Hop Hbuf Hnb Hn Hino HL HLr Hpos Hbs Hu Hlen Hb.
  apply read_handler_bytes; try done; [intros j Hj; apply Hb; lia|].
  rewrite Hop. unfold read_ptr, file_read. rewrite bind_gets, u32_small by (cint; lia).
  destruct (Z.eqb_spec buf 0); [lia|]. by apply (read_data_writes _ _ _ L n bs).
Qed.
(** On the directory: the bytes of the names, and one past the last name. *)
Lemma read_handler_dir ints fd buf nbytes q k p d n bs s :
  running s k p → 2 ≤ fd ≤ 7 → aget (pcb_arr p) fd = Some d →
  flags d = 1 → operations_pointer d = DirOps → buf ≠ 0 → 0 ≤ nbytes →
  dir_count (fs_image s) = Some n → 0 ≤ file_position d → file_position d + nbytes < 2147483648 →
  dir_has (fs_image s) (file_position d) bs → Forall is_u8 bs →
  zlen bs = (if file_position d <? FILENAME_LEN * n then Z.min nbytes (FILENAME_LEN * n + 1 - file_position d) else 0) →
  buffer_at s buf nbytes q →
  ∃ s' p', read_handler ints fd buf nbytes s = Some (zlen bs, s') ∧ read_effect k fd q p d bs s s' p'.
Proof.
  intros Hr Hfd Hd Hfl Hop Hbuf Hnb Hn Hpos Hov Hbs Hu Hlen Hb.
  apply read_handler_bytes; try done.
  { intros j Hj. apply Hb. destruct (_ <? _) in Hlen; lia. }
  rewrite Hop. unfold read_ptr. rewrite bind_gets, u32_small by (cint; lia).
  by apply (directory_read_writes _ _ _ n bs).
Qed.

