(* ===== verification/Process.v ===== *)
(** * Process: [execute] and [halt] on the process table

    The processes of each terminal form a stack: [execute] by the process on
    top pushes one, [halt] pops it.  The process table ([pid_arr],
    [program_count], [sched_pid] and the PCBs) represents the three stacks. *)
From S2P Require Import Prelude LibString LibMem Filesystem KState Paging PortIO Screen Switch Keyboard Terminal Syscall FdTable.

(** ** The stacks *)
Abbreviation stacks := (list (list Z)).

(** The PCB of [p], a child of [q]. *)
Definition pcb_ok (l : list pcb_t) (p q : Z) : Prop :=
  ∃ c, aget l (p - 1) = Some c ∧ pid c = p ∧ parent_pid c = q ∧ parent_pcb c = pcb_addr q.
(** A stack over the shell [b]; a base shell is its own parent. *)
Fixpoint chain (l : list pcb_t) (b : Z) (stk : list Z) : Prop :=
  match stk with
  | [] => True
  | p :: rest =>
      match rest with
      | [] => p = b ∧ pcb_ok l p b
      | q :: _ => pcb_ok l p q ∧ chain l b rest
      end
  end.

(** The descriptors of a PCB: eight, each open or closed, and all but the two
    standard ones closed when the process is dead. *)
Definition fds_ok (dead : bool) (l : list fdesc) : Prop :=
  length l = 8%nat ∧ ∀ fd d, aget l fd = Some d →
    (flags d = 0 ∨ flags d = 1) ∧ (dead = true → 2 ≤ fd → flags d = 0).

Record stacks_rep (st : stacks) (r : proc_t) : Prop := {
  sr_stacks : length st = 3%nat;
  sr_pids : length (pid_arr r) = 6%nat;
  sr_pcbs : length (pcbs r) = 6%nat;
  sr_sched : length (sched_pid r) = 3%nat;
  sr_nodup : NoDup (concat st);
  sr_range : ∀ p, p ∈ concat st → 1 ≤ p ≤ 6;
  sr_live : ∀ p, 1 ≤ p ≤ 6 → aget (pid_arr r) (p - 1) = Some (Z_of_bool (bool_decide (p ∈ concat st)));
  sr_count : program_count r = zlen (concat st);
  sr_top : ∀ i stk, aget st i = Some stk → aget (sched_pid r) i = Some (default 0 (head stk));
  sr_chain : ∀ i stk, aget st i = Some stk → chain (pcbs r) (i + 1) stk;
  sr_order : ∀ i, aget st i = Some [] → zlen (concat st) ≤ i;
  sr_fds : ∀ p c, aget (pcbs r) (p - 1) = Some c → fds_ok (bool_decide (p ∉ concat st)) (pcb_arr c);
}.

(** Process [t], on top of the stack of terminal [i], is running. *)
Definition runs (st : stacks) (s : kstate) (i t : Z) (rest : list Z) : Prop :=
  aget st i = Some (t :: rest) ∧ curr_process (proc s) = i ∧ pcb_current (proc s) = pcb_addr t.

Definition push (i p : Z) (st : stacks) : stacks := alter (cons p) (Z.to_nat i) st.
Definition pop (i : Z) (st : stacks) : stacks := alter (drop 1) (Z.to_nat i) st.

(** ** Lists of stacks *)
Lemma alter_middle {A} (f : A → A) a x b : alter f (length a) (a ++ x :: b) = a ++ f x :: b.
Proof. induction a as [|y a IH]; [done|]. cbn. f_equal. apply IH. Qed.

Lemma concat_split (st : stacks) i stk :
  aget st i = Some stk → ∃ a b, concat st = a ++ stk ++ b ∧
    ∀ f, concat (alter f (Z.to_nat i) st) = a ++ f stk ++ b.
Proof.
  intros H. pose proof (aget_Some_range _ _ _ H) as Hr. rewrite aget_nonneg in H by lia.
  destruct (list_elem_of_split_length _ _ _ H) as (a&b&->&->). exists (concat a), (concat b).
  split; [by rewrite concat_app|]. intros f. by rewrite alter_middle, concat_app.
Qed.

Lemma concat_push st i stk p :
  aget st i = Some stk → concat (push i p st) ≡ₚ p :: concat st.
Proof.
  intros H. destruct (concat_split st i stk H) as (a&b&Hc&Hf). unfold push.
  rewrite Hf, Hc. symmetry. apply Permutation_middle.
Qed.
Lemma concat_pop st i t rest :
  aget st i = Some (t :: rest) → t :: concat (pop i st) ≡ₚ concat st.
Proof.
  intros H. destruct (concat_split st i _ H) as (a&b&Hc&Hf). unfold pop.
  rewrite Hf, Hc. apply Permutation_middle.
Qed.
Lemma push_pop st i stk p : aget st i = Some stk → pop i (push i p st) = st.
Proof.
  unfold pop, push. intros H. pose proof (aget_Some_range _ _ _ H) as Hr. rewrite aget_nonneg in H by lia.
  destruct (list_elem_of_split_length _ _ _ H) as (a&b&->&->). by rewrite !alter_middle.
Qed.

(** ** The representation under push and pop *)
Lemma pcb_ok_insert l p c q x :
  1 ≤ p → 1 ≤ q → q ≠ p → pcb_ok l q x → pcb_ok (<[pcb_index p := c]> l) q x.
Proof.
  intros Hp Hq Hne (d&Hd&?). exists d. split; [|done]. rewrite aget_nonneg in * by lia.
  unfold pcb_index. by rewrite list_lookup_insert_ne by lia.
Qed.
Lemma chain_insert l b p c stk :
  1 ≤ p → (∀ q, q ∈ stk → 1 ≤ q ∧ q ≠ p) → chain l b stk → chain (<[pcb_index p := c]> l) b stk.
Proof.
  intros Hp. induction stk as [|q [|q' rest] IH]; intros Hin; [done| |].
  - intros [-> Hok]. destruct (Hin b); [set_solver|]. split; [done|]. by apply pcb_ok_insert.
  - intros [Hok Hch]. destruct (Hin q); [set_solver|]. split; [by apply pcb_ok_insert|].
    apply IH; [set_solver|done].
Qed.
Lemma in_stack (st : stacks) i stk p : aget st i = Some stk → p ∈ stk → p ∈ concat st.
Proof.
  intros H Hp. destruct (concat_split st i stk H) as (a&b&->&_). set_solver.
Qed.
Lemma stack_indices (st : stacks) i stk : length st = 3%nat → aget st i = Some stk → 0 ≤ i < 3.
Proof. intros Hl H. apply aget_Some_range in H. lia. Qed.

(** Lookup after an assignment. *)
Lemma rep_push st r i stk p c r' :
  stacks_rep st r → aget st i = Some stk → 1 ≤ p ≤ 6 → p ∉ concat st →
  3 ≤ zlen (concat st) ∨ i = zlen (concat st) →
  pid c = p → parent_pid c = default (i + 1) (head stk) → parent_pcb c = pcb_addr (default (i + 1) (head stk)) →
  (stk = [] → p = i + 1) → fds_ok false (pcb_arr c) →
  pid_arr r' = <[Z.to_nat (p - 1) := 1]> (pid_arr r) → program_count r' = program_count r + 1 →
  sched_pid r' = <[Z.to_nat i := p]> (sched_pid r) → pcbs r' = <[pcb_index p := c]> (pcbs r) →
  stacks_rep (push i p st) r'.
Proof.
  intros [Hl1 Hl2 Hl3 Hl4 Hnd Hrg Hlv Hcnt Htop Hch Hord Hfds] Hi Hp Hnew Hbase Hpid Hpar Hpp Hb Hfd E1 E2 E3 E4.
  pose proof (stack_indices _ _ _ Hl1 Hi) as Hir. pose proof (concat_push st i stk p Hi) as Hperm.
  assert (Hin : ∀ q, q ∈ concat (push i p st) ↔ q = p ∨ q ∈ concat st).
  { intros q. rewrite Hperm. apply elem_of_cons. }
  assert (Hget : ∀ j, aget (push i p st) j = if decide (j = i) then Some (p :: stk) else aget st j).
  { intros j. unfold push. rewrite aget_alter by lia. destruct (decide (j = i)) as [->|]; [by rewrite Hi|done]. }
  assert (Hlen : zlen (concat (push i p st)) = zlen (concat st) + 1) by (rewrite Hperm; cbn; lia).
  constructor; rewrite ?E1, ?E2, ?E3, ?E4, ?length_insert; try done.
  - unfold push. by rewrite length_alter.
  - rewrite Hperm. by constructor.
  - intros q [->|Hq]%Hin; [done|by apply Hrg].
  - intros q Hq. rewrite aget_insert by lia. destruct (decide (q - 1 = p - 1)) as [E|Hne].
    + assert (q = p) as -> by lia. by rewrite bool_decide_true by (apply Hin; by left).
    + rewrite Hlv by done. do 2 f_equal. apply bool_decide_ext. rewrite Hin. split; [by right|]. intros [->|?]; [lia|done].
  - by rewrite Hlen, Hcnt.
  - intros j stk' Hj. rewrite Hget in Hj. rewrite aget_insert by lia.
    destruct (decide (j = i)); [by simplify_eq|by apply Htop].
  - intros j stk' Hj. rewrite Hget in Hj.
    assert (∀ j stk, aget st j = Some stk → chain (<[pcb_index p:=c]> (pcbs r)) (j + 1) stk) as Hold.
    { intros k stk0 Hk. apply chain_insert; [lia| |by apply Hch]. intros q Hq.
      pose proof (in_stack _ _ _ _ Hk Hq) as Hqc. split; [by apply Hrg in Hqc; lia|by intros ->]. }
    destruct (decide (j = i)) as [->|]; [|by apply Hold]. injection Hj as <-.
    assert (pcb_ok (<[pcb_index p:=c]> (pcbs r)) p (default (i + 1) (head stk))) as Hok.
    { exists c. split; [|done]. unfold pcb_index. rewrite aget_insert by lia. by rewrite decide_True. }
    destruct stk as [|q rest]; [split; [by apply Hb|exact Hok]|]. split; [exact Hok|]. exact (Hold i (q :: rest) Hi).
  - intros j Hj. rewrite Hget in Hj. destruct (decide (j = i)); [done|]. rewrite Hlen.
    pose proof (Hord j Hj). pose proof (stack_indices _ _ _ Hl1 Hj). lia.
  - intros q d Hd. unfold pcb_index in Hd. rewrite aget_insert in Hd by lia.
    destruct (decide (q - 1 = p - 1)) as [E|Hne].
    + injection Hd as <-. assert (q = p) as -> by lia. rewrite bool_decide_false; [done|]. intros Hno. apply Hno, Hin. by left.
    + apply Hfds in Hd. replace (bool_decide (q ∉ concat (push i p st))) with (bool_decide (q ∉ concat st)); [done|].
      apply bool_decide_ext. rewrite Hin. split; [|tauto]. intros Hq [->|?]; [lia|done].
Qed.

Lemma rep_pop st r i t q rest c r' :
  stacks_rep st r → aget st i = Some (t :: q :: rest) → fds_ok true (pcb_arr c) →
  pid_arr r' = <[Z.to_nat (t - 1) := 0]> (pid_arr r) → program_count r' = program_count r - 1 →
  sched_pid r' = <[Z.to_nat i := q]> (sched_pid r) → pcbs r' = <[pcb_index t := c]> (pcbs r) →
  stacks_rep (pop i st) r'.
Proof.
  intros [Hl1 Hl2 Hl3 Hl4 Hnd Hrg Hlv Hcnt Htop Hch Hord Hfds] Hi Hfd E1 E2 E3 E4.
  pose proof (stack_indices _ _ _ Hl1 Hi) as Hir. pose proof (concat_pop st i t _ Hi) as Hperm.
  assert (Hnd' : NoDup (t :: concat (pop i st))) by (by rewrite Hperm).
  apply NoDup_cons in Hnd' as [Hnt Hnd'].
  assert (Hin : ∀ x, x ∈ concat st ↔ x = t ∨ x ∈ concat (pop i st)).
  { intros x. rewrite <- Hperm. apply elem_of_cons. }
  assert (Hget : ∀ j, aget (pop i st) j = if decide (j = i) then Some (q :: rest) else aget st j).
  { intros j. unfold pop. rewrite aget_alter by lia. destruct (decide (j = i)) as [->|]; [by rewrite Hi|done]. }
  assert (Hlen : zlen (concat st) = zlen (concat (pop i st)) + 1) by (rewrite <- Hperm; cbn; lia).
  assert (Ht : 1 ≤ t ≤ 6) by (apply Hrg, Hin; by left).
  constructor; rewrite ?E1, ?E2, ?E3, ?E4, ?length_insert; try done.
  - unfold pop. by rewrite length_alter.
  - intros x Hx. apply Hrg, Hin. by right.
  - intros x Hx. rewrite aget_insert by lia. destruct (decide (x - 1 = t - 1)) as [E|Hne].
    + assert (x = t) as -> by lia. by rewrite bool_decide_false.
    + rewrite Hlv by done. do 2 f_equal. apply bool_decide_ext. rewrite Hin. split; [|by right]. intros [->|?]; [lia|done].
  - rewrite Hcnt. lia.
  - intros j stk' Hj. rewrite Hget in Hj. rewrite aget_insert by lia.
    destruct (decide (j = i)); [by simplify_eq|by apply Htop].
  - intros j stk' Hj. apply chain_insert; [lia| |].
    + intros x Hx. pose proof (in_stack _ _ _ _ Hj Hx) as Hxc. split; [|by intros ->].
      assert (x ∈ concat st) as Hxs by (apply Hin; by right). apply Hrg in Hxs. lia.
    + rewrite Hget in Hj. destruct (decide (j = i)) as [->|]; [|by apply Hch]. injection Hj as <-.
      destruct (Hch _ _ Hi) as [_ ?]. done.
  - intros j Hj. rewrite Hget in Hj. destruct (decide (j = i)); [done|]. pose proof (Hord j Hj). lia.
  - intros x d Hd. unfold pcb_index in Hd. rewrite aget_insert in Hd by lia.
    destruct (decide (x - 1 = t - 1)) as [E|Hne].
    + injection Hd as <-. by destruct (bool_decide _); [|split; [apply Hfd|intros fd e He; split; [by apply (proj2 Hfd fd)|done]]].
    + apply Hfds in Hd. replace (bool_decide (x ∉ concat (pop i st))) with (bool_decide (x ∉ concat st)); [done|].
      apply bool_decide_ext. rewrite Hin. split; [tauto|]. intros Hx [->|?]; [lia|done].
Qed.

(** ** The lowest free slot *)
Lemma free_slot_run n : ∀ i l (P : Z → Prop) (dec : ∀ p, Decision (P p)),
  (∀ p, i < p ≤ i + Z.of_nat n → aget l (p - 1) = Some (Z_of_bool (bool_decide (P p)))) →
  match free_slot n i l with
  | Some slot => i ≤ slot < i + Z.of_nat n ∧ ¬ P (slot + 1) ∧ ∀ p, i < p ≤ slot → P p
  | None => ∀ p, i < p ≤ i + Z.of_nat n → P p
  end.
Proof.
  induction n as [|n IH]; intros i l P ? Hl; cbn [free_slot]; [lia|].
  pose proof (Hl (i + 1) ltac:(lia)) as Hi. rewrite Z.add_simpl_r in Hi. rewrite Hi. cbn [mbind option_bind].
  case_bool_decide as HP; cbn [Z_of_bool Z.eqb]; [|split; [lia|split; [done|lia]]].
  specialize (IH (i + 1) l P _ ltac:(intros p Hp; apply Hl; lia)).
  destruct (free_slot n (i + 1) l) as [slot|].
  - destruct IH as (?&?&Hb). split; [lia|]. split; [done|]. intros p Hp.
    destruct (decide (p = i + 1)) as [->|]; [done|apply Hb; lia].
  - intros p Hp. destruct (decide (p = i + 1)) as [->|]; [done|apply IH; lia].
Qed.

Lemma free_slot_rep st r :
  stacks_rep st r → zlen (concat st) < 6 →
  ∃ slot, free_slot 6 0 (pid_arr r) = Some slot ∧ 0 ≤ slot < 6 ∧ (slot + 1 ∉ concat st) ∧
    ∀ p, 1 ≤ p ≤ slot → p ∈ concat st.
Proof.
  intros Hr Hn. pose proof (free_slot_run 6 0 (pid_arr r) (λ p, p ∈ concat st) _
    ltac:(intros p Hp; apply (sr_live _ _ Hr); lia)) as H.
  destruct (free_slot 6 0 (pid_arr r)) as [slot|].
  - destruct H as (?&?&Hb). exists slot. split_and!; try done; try lia. intros p Hp. apply Hb. lia.
  - exfalso. assert (seqZ 1 6 ⊆+ concat st) as Hsub.
    { apply NoDup_submseteq; [apply NoDup_seqZ|]. intros p Hp%elem_of_seqZ. apply H. lia. }
    apply submseteq_length in Hsub. rewrite length_seqZ in Hsub. lia.
Qed.

(** In a system that is still booting, the live processes are the first shells. *)
Lemma booting_live st r p :
  stacks_rep st r → zlen (concat st) < 3 → (p ∈ concat st) ↔ (1 ≤ p ≤ zlen (concat st)).
Proof.
  intros Hr Hn. pose proof (sr_stacks _ _ Hr) as Hl. destruct st as [|a [|b [|c [|? ?]]]]; try done.
  pose proof (sr_order _ _ Hr 0) as H0. pose proof (sr_order _ _ Hr 1) as H1. pose proof (sr_order _ _ Hr 2) as H2.
  pose proof (sr_chain _ _ Hr 0 a eq_refl) as C0. pose proof (sr_chain _ _ Hr 1 b eq_refl) as C1.
  pose proof (sr_chain _ _ Hr 2 c eq_refl) as C2. cbn [concat] in *. rewrite app_nil_r, !length_app in *.
  change (aget [a; b; c] 0) with (Some a) in H0.
  change (aget [a; b; c] 1) with (Some b) in H1.
  change (aget [a; b; c] 2) with (Some c) in H2.
  destruct a as [|a0 a]; [pose proof (H0 eq_refl)|]; destruct b as [|b0 b]; [pose proof (H1 eq_refl)| |pose proof (H1 eq_refl)|];
    destruct c as [|c0 c]; try (pose proof (H2 eq_refl)); cbn [length app] in *; try lia;
    try (destruct a; [|cbn [length] in *; lia]); try (destruct b; [|cbn [length] in *; lia]).
  - split; [by intros ?%elem_of_nil|lia].
  - destruct C0 as [-> _]. cbn. rewrite list_elem_of_singleton. lia.
  - destruct C0 as [-> _], C1 as [-> _]. cbn. rewrite !elem_of_cons, elem_of_nil. lia.
Qed.

(** ** The bookkeeping of [execute] *)
Definition fresh_pcb (c : pcb_t) (p q sp bp flag : Z) : pcb_t :=
  c <| pid := p |> <| parent_pid := q |> <| kesp := bottomKernal - kernalStackSize * (p - 1) - 4 |>
    <| parent_pcb := pcb_addr q |> <| p_esp := sp |> <| p_ebp := bp |> <| argsflag := flag |>.
(** The process table after process [p] has been entered with PCB [c], on terminal [i]. *)
Definition entered_proc (p i : Z) (c : pcb_t) (r : proc_t) : proc_t :=
  r <| program_count ::= λ n, u8 (n + 1) |> <| pid_arr ::= <[Z.to_nat (p - 1) := 1]> |>
    <| pcbs ::= <[pcb_index p := c]> |> <| sched_pid ::= <[Z.to_nat i := p]> |>.

Lemma rep_count st r : stacks_rep st r → 0 ≤ program_count r ≤ 6.
Proof.
  intros Hr. rewrite (sr_count _ _ Hr). split; [lia|].
  assert (concat st ⊆+ seqZ 1 6) as Hs.
  { apply NoDup_submseteq; [apply Hr|]. intros p Hp%(sr_range _ _ Hr). apply elem_of_seqZ. lia. }
  apply submseteq_length in Hs. rewrite length_seqZ in Hs. lia.
Qed.
Lemma rep_pcb st r k : stacks_rep st r → 1 ≤ k ≤ 6 → ∃ c, aget (pcbs r) (k - 1) = Some c.
Proof. intros Hr Hk. apply aget_is_Some. rewrite (sr_pcbs _ _ Hr). lia. Qed.

Lemma insert_twice {A} (l : list A) k x y : <[k := x]> (<[k := y]> l) = <[k := x]> l.
Proof. apply list_insert_insert_eq. Qed.
Lemma pcb_index_get {A} (l : list A) k x :
  1 ≤ k ≤ zlen l → aget (<[pcb_index k := x]> l) (k - 1) = Some x.
Proof. intros Hk. unfold pcb_index. rewrite aget_insert by lia. by rewrite decide_True. Qed.

(** The state with another process table; the operations of the table on it. *)
Definition with_proc (r : proc_t) (s : kstate) : kstate := s <| proc := r |>.
Lemma with_proc_same s : with_proc (proc s) s = s.
Proof. by destruct s. Qed.
Section table_ops.
Context (r : proc_t) (s : kstate).
Lemma get_proc_bind {A B} (f : proc_t → A) (m : A → K B) :
  (get_proc f ≫= m) (with_proc r s) = m (f r) (with_proc r s).
Proof. done. Qed.
Lemma set_proc_bind {B} f (m : () → K B) : (set_proc f ≫= m) (with_proc r s) = m () (with_proc (f r) s).
Proof. done. Qed.
Lemma gets_cpu_bind {A B} (f : cpu_t → A) (m : A → K B) :
  (gets (λ s, f (cpu s)) ≫= m) (with_proc r s) = m (f (cpu s)) (with_proc r s).
Proof. done. Qed.
Lemma get_pcb_bind {B} k p (m : pcb_t → K B) :
  1 ≤ k ≤ 6 → aget (pcbs r) (k - 1) = Some p →
  (get_pcb (pcb_addr k) ≫= m) (with_proc r s) = m p (with_proc r s).
Proof. intros Hk Hp. by rewrite (bind_run _ _ _ _ _ (get_pcb_run k p (with_proc r s) Hk Hp)). Qed.
Lemma set_pcb_bind {B} k f p (m : () → K B) :
  1 ≤ k ≤ 6 → aget (pcbs r) (k - 1) = Some p →
  (set_pcb (pcb_addr k) f ≫= m) (with_proc r s) =
    m () (with_proc (r <| pcbs ::= <[pcb_index k := f p]> |>) s).
Proof. intros Hk Hp. by rewrite (bind_run _ _ _ _ _ (set_pcb_run k f p (with_proc r s) Hk Hp)). Qed.
Lemma current_bind {B} k p (m : pcb_t → K B) :
  pcb_current r = pcb_addr k → 1 ≤ k ≤ 6 → aget (pcbs r) (k - 1) = Some p →
  (current ≫= m) (with_proc r s) = m p (with_proc r s).
Proof.
  intros Hc Hk Hp. by rewrite (bind_run _ _ _ _ _ (current_run k p (with_proc r s) (conj Hc (conj Hk Hp)))).
Qed.
Lemma set_pid_arr_bind {B} i v (m : () → K B) :
  0 ≤ i < zlen (pid_arr r) →
  (set_pid_arr i v ≫= m) (with_proc r s) = m () (with_proc (r <| pid_arr ::= <[Z.to_nat i := v]> |>) s).
Proof.
  intros Hi. unfold set_pid_arr. rewrite bind_assoc, get_proc_bind, bind_assoc.
  by rewrite (bind_lift _ _ _ _ (aset_in _ i v Hi)).
Qed.
Lemma set_sched_pid_bind {B} i v (m : () → K B) :
  0 ≤ i < zlen (sched_pid r) →
  (set_sched_pid i v ≫= m) (with_proc r s) = m () (with_proc (r <| sched_pid ::= <[Z.to_nat i := v]> |>) s).
Proof.
  intros Hi. unfold set_sched_pid. rewrite bind_assoc, get_proc_bind, bind_assoc.
  by rewrite (bind_lift _ _ _ _ (aset_in _ i v Hi)).
Qed.
End table_ops.

Lemma proc_eq (a b : proc_t) :
  program_count a = program_count b → args_flag a = args_flag b → pid_arr a = pid_arr b →
  pcbs a = pcbs b → pcb_current a = pcb_current b → sched_pid a = sched_pid b →
  curr_process a = curr_process b → a = b.
Proof. destruct a, b. cbn. intros. by subst. Qed.

Lemma base_process_run r s c0 :
  0 ≤ program_count r < 3 → length (pid_arr r) = 6%nat → length (sched_pid r) = 3%nat →
  aget (pcbs r) (program_count r) = Some c0 →
  let n := program_count r in
  base_process (with_proc r s) = Some (pcb_addr (n + 1),
    with_proc (entered_proc (n + 1) n (fresh_pcb c0 (n + 1) (n + 1) (esp (cpu s)) (ebp (cpu s)) 0) r) s).
Proof.
  intros Hcnt Hl1 Hl2 Hc n. assert (u8 (n + 1) = n + 1) as Hu by (apply u8_small; cint; lia).
  unfold base_process. rewrite !gets_cpu_bind, get_proc_bind, set_proc_bind, get_proc_bind.
  change (program_count (r <| program_count ::= _ |>)) with (u8 (n + 1)). rewrite Hu.
  rewrite (set_pcb_bind _ _ (n + 1) _ c0); [|lia|by rewrite Z.add_simpl_r].
  rewrite set_pid_arr_bind by (rewrite Z.add_simpl_r; change (0 ≤ n < zlen (pid_arr r)); lia).
  rewrite set_sched_pid_bind by (rewrite Z.add_simpl_r; change (0 ≤ n < zlen (sched_pid r)); lia).
  unfold mret, M_ret, entered_proc, fresh_pcb. rewrite !Z.add_simpl_r. by destruct r.
Qed.

Lemma child_process_run st r s i t rest slot c0 :
  stacks_rep st r → aget st i = Some (t :: rest) → pcb_current r = pcb_addr t →
  curr_terminal (scr s) = i →
  free_slot 6 0 (pid_arr r) = Some slot → 0 ≤ slot < 6 → (slot + 1 ∉ concat st) →
  aget (pcbs r) slot = Some c0 →
  child_process (with_proc r s) = Some (pcb_addr (slot + 1),
    with_proc (entered_proc (slot + 1) i
      (fresh_pcb c0 (slot + 1) t (esp (cpu s)) (ebp (cpu s)) (u8 (args_flag r))) r) s).
Proof.
  intros Hr Hi Hcur Hct Hslot Hs Hnew Hc.
  pose proof (in_stack _ _ _ t Hi ltac:(left)) as Htin. pose proof (sr_range _ _ Hr _ Htin) as Htr.
  assert (pcb_ok (pcbs r) t (default (i + 1) (head rest))) as (ct&Hct'&Hpt&_).
  { pose proof (sr_chain _ _ Hr _ _ Hi) as H. destruct rest; [by destruct H as [-> ?]|by destruct H]. }
  assert (t ≠ slot + 1) as Hne by (by intros ->).
  pose proof (sr_pids _ _ Hr) as Hl1. pose proof (sr_sched _ _ Hr) as Hl2. pose proof (sr_pcbs _ _ Hr) as Hl3.
  pose proof (stack_indices _ _ _ (sr_stacks _ _ Hr) Hi) as Hir.
  assert (u8 (slot + 1) = slot + 1) as Hu by (apply u8_small; cint; lia).
  unfold child_process. rewrite get_proc_bind. change (Z.to_nat programMax) with 6%nat.
  rewrite (bind_lift _ _ _ _ Hslot), !gets_cpu_bind, get_proc_bind, Hcur, Hu.
  rewrite (set_pcb_bind _ _ (slot + 1) _ c0), set_proc_bind; [|lia|by rewrite Z.add_simpl_r].
  rewrite (current_bind _ _ t ct); [|done|done|].
  2: { change (aget (<[pcb_index (slot + 1) := c0 <| pid := slot + 1 |>]> (pcbs r)) (t - 1) = Some ct).
    unfold pcb_index. rewrite aget_insert by lia. by rewrite decide_False by lia. }
  rewrite (set_pcb_bind _ _ (slot + 1) _ (c0 <| pid := slot + 1 |>)), get_proc_bind;
    [|lia|apply pcb_index_get; lia].
  rewrite (set_pcb_bind _ _ (slot + 1) _ (c0 <| pid := slot + 1 |> <| parent_pid := pid ct |>));
    [|lia|apply pcb_index_get; cbn [pcbs setter]; rewrite ?length_insert; lia].
  rewrite set_pid_arr_bind by (change (0 ≤ slot < zlen (pid_arr r)); lia).
  unfold the_terminal. rewrite bind_gets. change (curr_terminal (scr (with_proc _ s))) with (curr_terminal (scr s)).
  erewrite (get_pcb_bind _ _ (slot + 1)); [|lia|apply pcb_index_get; cbn [pcbs setter]; rewrite ?length_insert; lia].
  rewrite Hct, set_sched_pid_bind by (change (0 ≤ i < zlen (sched_pid r)); lia).
  assert (Z.to_nat slot = Z.to_nat (slot + 1 - 1)) as -> by (f_equal; lia).
  rewrite <- Hpt. unfold mret, M_ret. do 3 f_equal. apply proc_eq; try reflexivity.
  change (<[pcb_index (slot + 1) := fresh_pcb c0 (slot + 1) (pid ct) (esp (cpu s)) (ebp (cpu s)) (u8 (args_flag r))]>
      (<[pcb_index (slot + 1) := c0 <| pid := slot + 1 |> <| parent_pid := pid ct |>]>
        (<[pcb_index (slot + 1) := c0 <| pid := slot + 1 |>]> (pcbs r))) =
    <[pcb_index (slot + 1) := fresh_pcb c0 (slot + 1) (pid ct) (esp (cpu s)) (ebp (cpu s)) (u8 (args_flag r))]> (pcbs r)).
  by rewrite !(insert_twice (pcbs r)).
Qed.

(** ** The standard descriptors of a new process *)
Definition std_table : table := <[1 := std_file]> (<[0 := std_file]> ∅).
Definition std_fds (l : list fdesc) : list fdesc := <[1%nat := opened std_file]> (<[0%nat := opened std_file]> l).

Lemma std_fds_get l j :
  length l = 8%nat →
  aget (std_fds l) j = if decide (j = 1) then Some (opened std_file)
                       else if decide (j = 0) then Some (opened std_file) else aget l j.
Proof.
  intros Hl. unfold std_fds. rewrite (aget_insert _ 1) by (rewrite length_insert; lia).
  destruct (decide (j = 1)); [done|]. by rewrite (aget_insert _ 0) by lia.
Qed.
Lemma std_fds_rep l : fds_ok true l → table_rep std_table (std_fds l).
Proof.
  intros [Hl Hf]. unfold std_table. constructor.
  - unfold std_fds. by rewrite !length_insert.
  - intros fd d. rewrite std_fds_get by done. repeat case_decide; [intros [= <-]; by right..|]. intros Hd. by destruct (Hf fd d Hd).
  - intros fd d. rewrite std_fds_get by done. case_decide; [subst; intros [= <-]; apply lookup_insert_eq|].
    case_decide; [subst; intros [= <-]; by rewrite lookup_insert_ne, lookup_insert_eq|].
    intros Hd. pose proof (aget_Some_range _ _ _ Hd). rewrite !lookup_insert_ne, lookup_empty by done.
    destruct (Hf fd d Hd) as [_ Hz]. by rewrite Hz by lia.
  - intros fd. rewrite std_fds_get by done. repeat case_decide; [done..|]. intros Hd.
    by rewrite !lookup_insert_ne, lookup_empty by done.
Qed.
Lemma std_fds_ok l : fds_ok true l → fds_ok false (std_fds l).
Proof.
  intros H. pose proof (std_fds_rep l H) as Hr. split; [apply Hr|]. intros fd d Hd. split; [|done].
  by apply (tr_flags _ _ Hr fd).
Qed.

Lemma open_std_step k p fd d name s :
  running s k p → aget (pcb_arr p) fd = Some d → (fd = 0 ∧ name = stdin_name) ∨ (fd = 1 ∧ name = stdout_name) →
  open_named (Some name) s = Some (fd, with_fd k p fd (opened std_file) (s <| cpu ::= λ c, c <| if_flag := false |> |>)).
Proof.
  intros Hr Hd Hcase. set (s1 := s <| cpu ::= _ |>).
  assert (running s1 k p) as Hr1 by exact Hr.
  assert (open_std fd s1 = Some (fd, with_fd k p fd (opened std_file) s1)) as Hopen.
  { unfold open_std. erewrite bind_run by (apply (set_fd_run k p fd d); done). by destruct d. }
  rewrite <- Hopen. destruct Hcase as [[-> ->] | [-> ->]]; reflexivity.
Qed.

Lemma with_fd_twice k p s :
  with_fd k (p <| pcb_arr ::= <[Z.to_nat 0 := opened std_file]> |>) 1 (opened std_file)
    ((with_fd k p 0 (opened std_file) (s <| cpu ::= λ c, c <| if_flag := false |> |>))
       <| cpu ::= λ c, c <| if_flag := false |> |>) =
  s <| cpu ::= λ c, c <| if_flag := false |> |>
    <| proc ::= λ r, r <| pcbs ::= <[pcb_index k := p <| pcb_arr := std_fds (pcb_arr p) |>]> |> |>.
Proof. unfold with_fd. destruct s as [? ? ? ? ? [] ? ?], p. cbn. by rewrite list_insert_insert_eq. Qed.

(** The two [open_handler] calls of [execute]. *)
Lemma open_both_run k p s :
  running s k p → length (pcb_arr p) = 8%nat →
  ∃ p', (open_named (Some stdin_name);; open_named (Some stdout_name)) s =
      Some (1, s <| cpu ::= λ c, c <| if_flag := false |> |> <| proc ::= λ r, r <| pcbs ::= <[pcb_index k := p']> |> |>) ∧
    p' = p <| pcb_arr := std_fds (pcb_arr p) |>.
Proof.
  intros Hr Hl. destruct (proj2 (aget_is_Some (pcb_arr p) 0)) as [d0 Hd0]; [lia|].
  rewrite (bind_run _ _ _ _ _ (open_std_step k p 0 d0 stdin_name s Hr Hd0 (or_introl (conj eq_refl eq_refl)))).
  set (s1 := with_fd _ _ _ _ _). set (p1 := p <| pcb_arr ::= <[Z.to_nat 0 := opened std_file]> |>).
  assert (running s1 k p1) as Hr1 by (by apply with_fd_running).
  destruct (proj2 (aget_is_Some (pcb_arr p1) 1)) as [d1 Hd1].
  { change (0 ≤ 1 < zlen (<[Z.to_nat 0 := opened std_file]> (pcb_arr p))). rewrite length_insert. lia. }
  rewrite (open_std_step k p1 1 d1 stdout_name s1 Hr1 Hd1 (or_intror (conj eq_refl eq_refl))).
  eexists. split; [|reflexivity]. do 2 f_equal. apply with_fd_twice.
Qed.

(** ** Launching *)
Definition launched_pcb (c : pcb_t) (args : list Z) (ss esp : Z) : pcb_t :=
  c <| argbuf := args |> <| pcb_arr ::= std_fds |> <| ss0 := ss |> <| esp0 := esp |>.
Definition launched_cpu (slot : Z) (c : cpu_t) : cpu_t :=
  c <| if_flag := true |> <| tss_ss0 := KERNEL_DS |> <| tss_esp0 := bottomKernal - slot * kernalStackSize - 4 |>.
Definition launched (k slot : Z) (c : pcb_t) (r : proc_t) (s : kstate) : kstate :=
  with_proc (r <| pcbs ::= <[pcb_index k := c]> |> <| pcb_current := pcb_addr k |>)
    (s <| cpu ::= launched_cpu slot |>).

Lemma pcbs_twice k c c' r :
  r <| pcbs ::= <[pcb_index k := c]> |> <| pcbs ::= <[pcb_index k := c']> |> = r <| pcbs ::= <[pcb_index k := c']> |>.
Proof. destruct r. cbn. by rewrite list_insert_insert_eq. Qed.

Lemma kstate_eq (a b : kstate) :
  cpu a = cpu b → mem a = mem b → scr a = scr b → kbd a = kbd b → rtc a = rtc b →
  proc a = proc b → pic a = pic b → fs_image a = fs_image b → a = b.
Proof. destruct a, b. cbn. intros. by subst. Qed.
Lemma insert_four {A} (l : list A) k x y z w : <[k := x]> (<[k := y]> (<[k := z]> (<[k := w]> l))) = <[k := x]> l.
Proof. by rewrite !(insert_twice l). Qed.

Lemma launch_run k slot args eip c r s :
  1 ≤ k ≤ 6 → aget (pcbs r) (k - 1) = Some c → length (pcb_arr c) = 8%nat →
  launch (pcb_addr k) slot args eip (with_proc r s) =
    Some (ToUser eip, launched k slot (launched_pcb c args (tss_ss0 (cpu s)) (tss_esp0 (cpu s))) r s).
Proof.
  intros Hk Hc Hl. pose proof (aget_Some_range _ _ _ Hc) as Hr.
  unfold launch. rewrite (set_pcb_bind _ _ k _ c _ Hk Hc), set_proc_bind.
  set (c1 := c <| argbuf := args |>).
  set (r1 := r <| pcbs ::= <[pcb_index k := c1]> |> <| pcb_current := pcb_addr k |>).
  assert (running (with_proc r1 s) k c1) as Hr1.
  { split; [done|]. split; [done|]. change (aget (<[pcb_index k := c1]> (pcbs r)) (k - 1) = Some c1).
    apply pcb_index_get. lia. }
  destruct (open_both_run k c1 (with_proc r1 s) Hr1 Hl) as (c2&H2&Hc2).
  rewrite <- bind_assoc, (bind_run _ _ _ _ _ H2). set (s2 := setter proc _ _).
  assert (running s2 k c2) as Hr2 by (by eapply running_insert).
  rewrite !bind_gets, (bind_run _ _ _ _ _ (set_current_run k c2 _ s2 Hr2)).
  set (s3 := setter proc _ s2).
  assert (running s3 k (c2 <| ss0 := tss_ss0 (cpu s) |>)) as Hr3 by (by eapply running_insert).
  rewrite (bind_run _ _ _ _ _ (set_current_run k _ _ s3 Hr3)). unfold set_cpu, sti. rewrite !bind_modify.
  unfold mret, M_ret. do 2 f_equal. subst s3 s2 r1 c2 c1.
  apply kstate_eq; try reflexivity. apply proc_eq; try reflexivity.
  exact (insert_four (pcbs r) (pcb_index k) _ _ _ _).
Qed.

(** ** Starting a process on the stacks *)
Record new_process (st : stacks) (i slot q : Z) (stk args : list Z) (s s' : kstate) : Prop := {
  np_rep : stacks_rep (push i (slot + 1) st) (proc s');
  np_runs : runs (push i (slot + 1) st) s' i (slot + 1) stk;
  np_pcb : ∃ c, aget (pcbs (proc s')) slot = Some c ∧ argbuf c = args ∧ parent_pid c = q ∧
    table_rep std_table (pcb_arr c) ∧ p_esp c = esp (cpu s) ∧ p_ebp c = ebp (cpu s);
  np_others : ∀ j, j ≠ pcb_index (slot + 1) → pcbs (proc s') !! j = pcbs (proc s) !! j;
  np_cpu : cpu s' = launched_cpu slot (cpu s);
  np_rest : mem s' = mem s ∧ scr s' = scr s ∧ kbd s' = kbd s ∧ rtc s' = rtc s ∧ pic s' = pic s ∧
    fs_image s' = fs_image s;
}.

Lemma head_push st i p stk : aget st i = Some stk → aget (push i p st) i = Some (p :: stk).
Proof.
  intros H. pose proof (aget_Some_range _ _ _ H). unfold push. rewrite aget_alter by lia.
  by rewrite decide_True, H.
Qed.

(** The common end of the two cases: entering a PCB and launching. *)
Lemma launched_new st r s i slot q stk args c0 flag :
  stacks_rep st r → aget st i = Some stk → curr_process r = i → 0 ≤ slot < 6 → (slot + 1 ∉ concat st) →
  3 ≤ zlen (concat st) ∨ i = zlen (concat st) → (stk = [] → slot = i) → q = default (i + 1) (head stk) →
  zlen (concat st) < 6 → aget (pcbs r) slot = Some c0 →
  let c := fresh_pcb c0 (slot + 1) q (esp (cpu s)) (ebp (cpu s)) flag in
  new_process st i slot q stk args (with_proc r s)
    (launched (slot + 1) slot (launched_pcb c args (tss_ss0 (cpu s)) (tss_esp0 (cpu s)))
      (entered_proc (slot + 1) i c r) s).
Proof.
  intros Hr Hi Hcp Hs Hnew Hbase Hb Hq Hlt Hc c.
  pose proof (sr_pcbs _ _ Hr) as Hl3. pose proof (sr_count _ _ Hr) as Hcnt.
  assert (fds_ok true (pcb_arr c0)) as Hfd.
  { pose proof (sr_fds _ _ Hr (slot + 1) c0) as H. rewrite Z.add_simpl_r in H. specialize (H Hc).
    by rewrite bool_decide_true in H. }
  set (c' := launched_pcb c args _ _). set (r' := entered_proc (slot + 1) i c r).
  assert (pcbs (proc (launched (slot + 1) slot c' r' s)) = <[pcb_index (slot + 1) := c']> (pcbs r)) as Hpcbs.
  { exact (insert_twice (pcbs r) (pcb_index (slot + 1)) c' c). }
  constructor.
  - apply (rep_push st r i stk (slot + 1) c'); try done; try lia.
    + by rewrite <- Hq.
    + intros E. specialize (Hb E). lia.
    + apply (std_fds_ok _ Hfd).
    + change (u8 (program_count r + 1) = program_count r + 1). apply u8_small. cint. lia.
  - split; [by apply head_push|]. by split.
  - exists c'. rewrite Hpcbs. split; [|split; [done|split; [done|split; [|done]]]].
    + replace slot with (slot + 1 - 1) at 2 by lia. apply pcb_index_get. lia.
    + apply (std_fds_rep _ Hfd).
  - intros j Hj. rewrite Hpcbs. by apply list_lookup_insert_ne.
  - done.
  - done.
Qed.

Lemma start_child st r s i t rest args eip :
  stacks_rep st r → aget st i = Some (t :: rest) → pcb_current r = pcb_addr t → curr_process r = i →
  curr_terminal (scr s) = i → 3 ≤ zlen (concat st) < 6 →
  ∃ slot s', free_slot 6 0 (pid_arr r) = Some slot ∧
    start_process slot args eip (with_proc r s) = Some (ToUser eip, s') ∧
    new_process st i slot t (t :: rest) args (with_proc r s) s'.
Proof.
  intros Hr Hi Hcur Hcp Hct Hn. destruct (free_slot_rep st r Hr ltac:(lia)) as (slot&Hslot&Hs&Hnew&_).
  pose proof (sr_count _ _ Hr) as Hcnt. pose proof (sr_pcbs _ _ Hr) as Hl3.
  destruct (proj2 (aget_is_Some (pcbs r) slot)) as [c0 Hc0]; [lia|].
  exists slot. eexists. split; [done|]. split; [|].
  - unfold start_process. rewrite get_proc_bind. destruct (Z.ltb_spec (program_count r) 3); [lia|].
    rewrite (bind_run _ _ _ _ _ (child_process_run st r s i t rest slot c0 Hr Hi Hcur Hct Hslot Hs Hnew Hc0)).
    apply launch_run; [lia| |].
    + exact (pcb_index_get (pcbs r) (slot + 1) _ ltac:(lia)).
    + pose proof (sr_fds _ _ Hr (slot + 1) c0) as Hfd0. rewrite Z.add_simpl_r in Hfd0. exact (proj1 (Hfd0 Hc0)).
  - apply launched_new; try done; lia.
Qed.

(** ... and the terminal of the next one is empty. *)
Lemma booting_empty st r : stacks_rep st r → zlen (concat st) < 3 → aget st (zlen (concat st)) = Some [].
Proof.
  intros Hr Hn. set (n := zlen (concat st)) in *.
  destruct (proj2 (aget_is_Some st n)) as [stk Hstk]; [rewrite (sr_stacks _ _ Hr); lia|].
    destruct stk as [|p stk]; [done|]. exfalso. pose proof (sr_chain _ _ Hr _ _ Hstk) as Hch.
    assert (p ∈ concat st) as Hp by (by apply (in_stack _ _ _ _ Hstk); left).
    rewrite (booting_live st r _ Hr Hn) in Hp.
    assert (∀ j, 0 ≤ j < n → aget st j ≠ Some []) as Hne.
    { intros j Hj Hno. pose proof (sr_order _ _ Hr _ Hno). subst n. lia. }
    clear -Hr Hstk Hne Hn. pose proof (sr_stacks _ _ Hr) as Hl. subst n.
    destruct st as [|a [|b [|c [|? ?]]]]; try done. cbn [concat] in *. rewrite app_nil_r, !length_app in *.
    destruct a as [|? a]; [destruct (decide (0 < zlen b + zlen c)) as [|]|].
    - by destruct (Hne 0 ltac:(cbn; lia)).
    - destruct b; [|cbn in *; lia]. destruct c; [|cbn in *; lia]. done.
    - destruct b as [|? b]; [destruct c|]; cbn [length Nat.add] in *.
      + destruct a; [done|cbn [length] in *]. by destruct (Hne 1 ltac:(lia)).
      + by destruct (Hne 1 ltac:(lia)).
      + destruct a, b, c; cbn [length] in *; try lia. done.
Qed.

Lemma start_base st r s args eip :
  let n := zlen (concat st) in
  stacks_rep st r → n < 3 → curr_process r = n →
  ∃ s', free_slot 6 0 (pid_arr r) = Some n ∧
    start_process n args eip (with_proc r s) = Some (ToUser eip, s') ∧
    new_process st n n (n + 1) [] args (with_proc r s) s'.
Proof.
  intros n Hr Hn Hcp. destruct (free_slot_rep st r Hr ltac:(subst n; lia)) as (slot&Hslot&Hs&Hnew&Hall).
  pose proof (sr_count _ _ Hr) as Hcnt. pose proof (sr_pcbs _ _ Hr) as Hl3. fold n in Hcnt.
  assert (slot = n) as ->.
  { rewrite (booting_live st r _ Hr Hn) in Hnew. destruct (decide (n < slot)) as [Hlt|]; [|subst n; lia].
    assert (n + 1 ∈ concat st) as Hin by (apply Hall; lia). rewrite (booting_live st r _ Hr Hn) in Hin. subst n. lia. }
  destruct (proj2 (aget_is_Some (pcbs r) n)) as [c0 Hc0]; [lia|].
  pose proof (booting_empty st r Hr Hn) as Hst. fold n in Hst.
  eexists. split; [done|]. split; [|].
  - unfold start_process. rewrite get_proc_bind. destruct (Z.ltb_spec (program_count r) 3); [|lia].
    rewrite <- Hcnt in Hc0 |- *.
    rewrite (bind_run _ _ _ _ _ (base_process_run r s c0 ltac:(subst n; lia) (sr_pids _ _ Hr) (sr_sched _ _ Hr) Hc0)).
    apply launch_run; [lia| |].
    + exact (pcb_index_get (pcbs r) (program_count r + 1) _ ltac:(lia)).
    + pose proof (sr_fds _ _ Hr (program_count r + 1) c0) as Hfd0. rewrite Z.add_simpl_r in Hfd0. exact (proj1 (Hfd0 Hc0)).
  - rewrite Hcnt. apply launched_new; try done; subst n; lia.
Qed.

(** The entry of the shell in [sched_pid] is written again, whatever it was. *)
Lemma start_base_sched r s n v args eip :
  0 ≤ n < 3 → n = program_count r → length (pid_arr r) = 6%nat → length (sched_pid r) = 3%nat →
  length (pcbs r) = 6%nat →
  start_process n args eip (with_proc (r <| sched_pid ::= <[Z.to_nat n := v]> |>) s) =
    start_process n args eip (with_proc r s).
Proof.
  intros Hn -> Hl1 Hl2 Hl3. set (n := program_count r) in *.
  destruct (proj2 (aget_is_Some (pcbs r) n)) as [c0 Hc0]; [lia|]. set (r1 := setter sched_pid _ r).
  unfold start_process. rewrite !get_proc_bind. change (program_count r1) with n. fold n.
  destruct (Z.ltb_spec n 3); [|lia]. assert (length (sched_pid r1) = 3%nat) as Hl by (cbn; by rewrite length_insert).
  rewrite (bind_run _ _ _ _ _ (base_process_run r1 s c0 Hn Hl1 Hl Hc0)).
  rewrite (bind_run _ _ _ _ _ (base_process_run r s c0 Hn Hl1 Hl2 Hc0)). f_equal. f_equal.
  apply proc_eq; try reflexivity. exact (insert_twice (sched_pid r) (Z.to_nat n) _ v).
Qed.
