(* ===== verification/Halt.v ===== *)
(** * Halt: [halt] returns to the parent and undoes [execute]

    A process that is not a base shell is popped from its stack: its slot is
    freed, its descriptors closed and its arguments erased, the user page is
    the parent's again and the processor continues on the parent's saved
    stack. *)
From S2P Require Import Prelude LibString LibMem Filesystem KState Paging PortIO Screen Switch Keyboard Terminal Syscall FdTable Process.

(** ** Closing the descriptors *)

(** The running process [k]'s PCB replaced and the interrupt flag set. *)
Definition pcb_set (k : Z) (p : pcb_t) (b : bool) (s : kstate) : kstate :=
  s <| cpu ::= λ c, c <| if_flag := b |> |> <| proc ::= λ r, r <| pcbs ::= <[pcb_index k := p]> |> |>.

Lemma pcb_set_running k p q b s : running s k p → running (pcb_set k q b s) k q.
Proof. intros H. exact (running_insert k p q s H). Qed.
Lemma pcb_set_twice k p q b b' s : pcb_set k p b (pcb_set k q b' s) = pcb_set k p b s.
Proof.
  unfold pcb_set. apply kstate_eq; try reflexivity.
  apply proc_eq; try reflexivity. exact (insert_twice (pcbs (proc s)) (pcb_index k) p q).
Qed.
Lemma pcb_set_same k p s : running s k p → pcb_set k p (if_flag (cpu s)) s = s.
Proof.
  intros (_&Hk&Hp). unfold pcb_set. apply kstate_eq; try reflexivity.
  - by destruct s as [[] ? ? ? ? ? ? ?].
  - apply proc_eq; try reflexivity. cbn. apply list_insert_id. unfold pcb_index. by rewrite <- aget_nonneg by lia.
Qed.

Definition closed (d : fdesc) : fdesc := d <| flags := 0 |>.
Lemma close_run k p fd d s :
  running s k p → aget (pcb_arr p) fd = Some d → 2 ≤ fd ≤ 7 →
  ∃ r b, close_handler fd s = Some (r, pcb_set k (p <| pcb_arr ::= <[Z.to_nat fd := closed d]> |>) b s).
Proof.
  intros Hr Hd Hfd. unfold close_handler, cli, get_proc. rewrite bind_modify. set (s1 := s <| cpu ::= _ |>).
  assert (running s1 k p) as Hr1 by exact Hr.
  rewrite bind_gets. destruct (Z.eqb_spec (pcb_current (proc s1)) 0) as [E|_]; [by apply (running_nonzero _ _ _ Hr1) in E|].
  unfold fdMin, fdMax. destruct ((fd <? 0 + 2) || (fd >? 7)) eqn:E; [lia|].
  rewrite (bind_run _ _ _ _ _ (get_fd_run _ _ _ _ _ Hr1 Hd)).
  destruct (Z.eqb_spec (flags d) 0) as [E0|_].
  - exists (-1), false. unfold mret, M_ret. do 2 f_equal. rewrite <- (pcb_set_same k p s1 Hr1).
    unfold s1, closed. rewrite <- E0.
    replace (p <| pcb_arr ::= _ |>) with p; [|].
    + change (s <| cpu ::= _ |>) with (s1). unfold s1. apply kstate_eq; reflexivity.
    + destruct p as [l]. cbn in *. f_equal. symmetry. apply list_insert_id. rewrite aget_nonneg in Hd by lia.
      rewrite Hd. by destruct d.
  - rewrite (bind_run _ _ _ _ _ (set_fd_run k p fd d _ s1 Hr1 Hd)). unfold sti. rewrite bind_modify.
    exists 0, true. unfold mret, M_ret. do 2 f_equal; try reflexivity.
Qed.

Definition close_all (fds : list Z) (m : K ()) : K () := foldr (λ fd m, close_handler fd;; m) m fds.
Lemma close_all_run fds m : ∀ k p s,
  running s k p → length (pcb_arr p) = 8%nat → Forall (λ fd, 2 ≤ fd ≤ 7) fds →
  ∃ l b, close_all fds m s = m (pcb_set k (p <| pcb_arr := l |>) b s) ∧ length l = 8%nat ∧
    ∀ fd, aget l fd = if decide (fd ∈ fds) then closed <$> aget (pcb_arr p) fd else aget (pcb_arr p) fd.
Proof.
  induction fds as [|fd fds IH]; intros k p s Hr Hl Hfds.
  - exists (pcb_arr p), (if_flag (cpu s)). split; [|split; [done|intros fd; by rewrite decide_False by set_solver]].
    replace (p <| pcb_arr := pcb_arr p |>) with p by (by destruct p). by rewrite pcb_set_same.
  - apply Forall_cons in Hfds as [Hfd Hfds]. destruct (proj2 (aget_is_Some (pcb_arr p) fd)) as [d Hd]; [lia|].
    destruct (close_run k p fd d s Hr Hd Hfd) as (r&b&Hrun). set (p1 := p <| pcb_arr ::= _ |>) in Hrun.
    assert (∀ j, aget (pcb_arr p1) j = if decide (j = fd) then Some (closed d) else aget (pcb_arr p) j) as Hp1.
    { intros j. exact (aget_insert (pcb_arr p) fd j (closed d) ltac:(lia)). }
    destruct (IH k p1 _ (pcb_set_running k p p1 b s Hr)) as (l&b'&Hrest&Hll&Hget).
    { change (length (<[Z.to_nat fd := closed d]> (pcb_arr p)) = 8%nat). by rewrite length_insert. }
    { done. }
    exists l, b'. split; [|split; [done|]].
    + cbn [close_all foldr]. rewrite (bind_run _ _ _ _ _ Hrun). fold (close_all fds m). rewrite Hrest.
      by rewrite pcb_set_twice.
    + intros j. rewrite Hget, Hp1. destruct (decide (j = fd)) as [->|].
      * rewrite Hd. rewrite (decide_True (P := fd ∈ fd :: fds)) by set_solver. by case_decide.
      * destruct (decide (j ∈ fds)); [rewrite decide_True by set_solver|rewrite decide_False by set_solver]; done.
Qed.

(** ** Above the shells *)
Lemma stack_inj (st : stacks) i j a b x :
  NoDup (concat st) → aget st i = Some a → aget st j = Some b → x ∈ a → x ∈ b → i = j.
Proof.
  intros Hnd Hi Hj Ha Hb. destruct (decide (j = i)) as [|Hne]; [done|exfalso].
  pose proof (aget_Some_range _ _ _ Hi). destruct (concat_split st i _ Hi) as (u&v&Hc&Hf).
  assert (x ∈ concat (alter (λ _, []) (Z.to_nat i) st)) as Hin.
  { apply (in_stack _ j b); [|done]. rewrite aget_alter by lia. by rewrite decide_False. }
  rewrite Hf in Hin. rewrite Hc in Hnd. cbn [app] in Hin. apply NoDup_app in Hnd as (_&Hu&(_&Hv&_)%NoDup_app).
  apply elem_of_app in Hin as [Hx|Hx]; [apply (Hu x Hx); set_solver|by apply (Hv x)].
Qed.
Lemma chain_base l b p stk : chain l b (p :: stk) → b ∈ p :: stk ∧ (stk ≠ [] → b ∈ stk).
Proof.
  revert p. induction stk as [|q stk IH]; intros p Hch; [destruct Hch as [-> _]; split; [left|done]|].
  destruct Hch as [_ Hch]. destruct (IH q Hch) as [Hq _]. split; [by right|done].
Qed.
(** A second process is started only when all three shells are. *)
Lemma shells_first st r i t q rest j :
  stacks_rep st r → aget st i = Some (t :: q :: rest) → 0 ≤ j < 3 → ∃ p stk, aget st j = Some (p :: stk).
Proof.
  intros Hr Hi Hj. pose proof (sr_stacks _ _ Hr) as Hl. pose proof (sr_order _ _ Hr) as Hord.
  pose proof (stack_indices _ _ _ Hl Hi) as Hir. destruct st as [|a [|b [|c [|? ?]]]]; try done.
  pose proof (Hord 0) as H0. pose proof (Hord 1) as H1. pose proof (Hord 2) as H2. clear Hord Hr.
  cbn [concat] in *. rewrite app_nil_r, !length_app in *.
  change (aget [a; b; c] 0) with (Some a) in *. change (aget [a; b; c] 1) with (Some b) in *.
  change (aget [a; b; c] 2) with (Some c) in *.
  assert (∀ k, aget [a; b; c] k = if decide (k = 0) then Some a else if decide (k = 1) then Some b
    else if decide (k = 2) then Some c else None) as Hget.
  { intros k. repeat case_decide; subst; try done. apply aget_None. cbn. lia. }
  assert (a ≠ [] ∧ b ≠ [] ∧ c ≠ []) as (Ha&Hb&Hc).
  { rewrite Hget in Hi. clear Hget. destruct a, b, c; split_and!; try done; exfalso; cbn [length] in *;
      try (specialize (H0 eq_refl)); try (specialize (H1 eq_refl)); try (specialize (H2 eq_refl));
      repeat case_decide; simplify_eq/=; lia. }
  rewrite Hget. repeat case_decide; [destruct a|destruct b|destruct c|lia]; eauto; done.
Qed.

Lemma child_above st r i t q rest :
  stacks_rep st r → aget st i = Some (t :: q :: rest) → 3 < t ≤ 6 ∧ 1 ≤ q ≤ 6 ∧ 3 < zlen (concat st).
Proof.
  intros Hr Hi. pose proof (sr_nodup _ _ Hr) as Hnd. pose proof (sr_range _ _ Hr) as Hrg.
  assert (t ∈ concat st) as Ht by (apply (in_stack _ _ _ _ Hi); left).
  assert (Hbase : ∀ b, 1 ≤ b ≤ 3 → b ∈ concat st ∧ b ≠ t).
  { intros b Hb. destruct (shells_first _ _ _ _ _ _ (b - 1) Hr Hi) as (p&stk&Hs); [lia|].
    pose proof (sr_chain _ _ Hr _ _ Hs) as Hch. rewrite Z.sub_add in Hch. apply chain_base in Hch as [Hin Htl].
    split; [by apply (in_stack _ _ _ _ Hs)|]. intros ->.
    assert (i = t - 1) as -> by (apply (stack_inj st _ _ _ _ t Hnd Hi Hs); [left|done]).
    rewrite Hi in Hs. simplify_eq. specialize (Htl ltac:(done)). destruct (concat_split st _ _ Hi) as (u&v&Hc&_).
    rewrite Hc in Hnd. apply NoDup_app in Hnd as (_&_&([Hno _]%NoDup_cons&_)%NoDup_app). done. }
  assert (3 < t ≤ 6) as Ht3.
  { specialize (Hrg t Ht). destruct (decide (t ≤ 3)); [|lia]. exfalso. apply (Hbase t); [lia|done]. }
  split; [done|]. split; [apply Hrg, (in_stack _ _ _ _ Hi); right; left|].
  assert ([1; 2; 3; t] ⊆+ concat st) as Hsub%submseteq_length; [|cbn [length] in Hsub; lia].
  apply NoDup_submseteq.
  - rewrite !NoDup_cons, !not_elem_of_cons. split_and!; try lia; try apply NoDup_nil; try apply not_elem_of_nil. done.
  - intros b. rewrite !elem_of_cons, elem_of_nil. intros [->|[->|[->|[->|[]]]]]; [apply Hbase; lia|apply Hbase; lia|apply Hbase; lia|done].
Qed.

(** ** [halt] by a process above a shell *)
Record halted (st : stacks) (i t q : Z) (rest : list Z) (s s' : kstate) : Prop := {
  hl_rep : stacks_rep (pop i st) (proc s');
  hl_runs : runs (pop i st) s' i q rest;
  hl_paging : paging_wf s';
  hl_page : ∀ usr v, in_user_page v → translate_as usr s' v = Some (frame q + (v - 134217728));
  hl_pcb : ∃ c, aget (pcbs (proc s')) (t - 1) = Some c ∧ argbuf c = replicate 128 0 ∧ argsflag c = 0;
  hl_others : ∀ j, j ≠ pcb_index t → pcbs (proc s') !! j = pcbs (proc s) !! j;
  hl_enabled : if_flag (cpu s') = true;
  hl_rest : scr s' = scr s ∧ kbd s' = kbd s ∧ rtc s' = rtc s ∧ pic s' = pic s ∧ fs_image s' = fs_image s;
}.

Definition released_proc (t i q : Z) (r : proc_t) : proc_t :=
  r <| pid_arr ::= <[Z.to_nat (t - 1) := 0]> |> <| sched_pid ::= <[Z.to_nat i := q]> |>
    <| program_count ::= λ n, u8 (n - 1) |>.
Lemma halt_release_run r s i t c q :
  pcb_current r = pcb_addr t → 1 ≤ t ≤ 6 → aget (pcbs r) (t - 1) = Some c → pid c = t → parent_pid c = q →
  curr_process r = i → 0 ≤ i < zlen (sched_pid r) → zlen (pid_arr r) = 6 →
  halt_release (with_proc r s) = Some ((), with_proc (released_proc t i q r) s).
Proof.
  intros Hcur Ht Hc Hpid Hq Hi His Hl. unfold halt_release. rewrite (current_bind _ _ t c) by done.
  rewrite Hpid, Hq, set_pid_arr_bind by lia. unfold the_process. rewrite bind_gets.
  change (curr_process (proc (with_proc _ s))) with (curr_process r). rewrite Hi.
  rewrite set_sched_pid_bind by done. by destruct r.
Qed.

Definition erased_pcb (c : pcb_t) : pcb_t := c <| argbuf := replicate 128 0 |> <| argsflag := 0 |>.
Definition parent_cpu (esp : Z) (c : cpu_t) : cpu_t := c <| tss_ss0 := KERNEL_DS |> <| tss_esp0 := esp |>.
Lemma halt_cleanup_run r s t c q qc :
  pcb_current r = pcb_addr t → 1 ≤ t ≤ 6 → aget (pcbs r) (t - 1) = Some c → length (pcb_arr c) = 8%nat →
  parent_pid c = q → parent_pcb c = pcb_addr q → 1 ≤ q ≤ 6 → aget (pcbs r) (q - 1) = Some qc → paging_wf s →
  ∃ l b, halt_cleanup (with_proc r s) = Some ((),
      with_proc (r <| pcbs ::= <[pcb_index t := erased_pcb c <| pcb_arr := l |>]> |> <| pcb_current := pcb_addr q |>)
        ((user_mapped (frame q) s) <| cpu ::= λ x, (parent_cpu (p_esp qc) x) <| if_flag := b |> |>)) ∧
    length l = 8%nat ∧
    ∀ fd, aget l fd = if decide (fd ∈ [2; 3; 4; 5; 6; 7]) then closed <$> aget (pcb_arr c) fd else aget (pcb_arr c) fd.
Proof.
  intros Hcur Ht Hc Hl Hq Hpp Hqr Hqc Hwf. pose proof (aget_Some_range _ _ _ Hc) as Htr.
  unfold halt_cleanup. rewrite (current_bind _ _ t c) by done. rewrite Hq, Hpp.
  assert (paging_wf (with_proc r s)) as Hwf' by (by destruct Hwf; constructor).
  rewrite (bind_run _ _ _ _ _ (map_user_page_run (frame q) (with_proc r s) Hwf')).
  change (user_mapped (frame q) (with_proc r s)) with (with_proc r (user_mapped (frame q) s)).
  rewrite (get_pcb_bind _ _ q qc) by done. unfold set_cpu. rewrite bind_modify.
  set (s1 := user_mapped (frame q) s <| cpu ::= parent_cpu (p_esp qc) |>).
  change (setter cpu _ (with_proc r (user_mapped (frame q) s))) with (with_proc r s1).
  assert (running (with_proc r s1) t c) as Hr1 by done.
  rewrite (bind_run _ _ _ _ _ (set_current_run t c _ _ Hr1)). set (s2 := setter proc _ _).
  pose proof (running_insert t c (c <| argbuf := replicate 128 0 |>) _ Hr1) as Hr2. fold s2 in Hr2.
  rewrite (bind_run _ _ _ _ _ (set_current_run t _ _ s2 Hr2)). set (s3 := setter proc _ s2).
  pose proof (running_insert t _ (erased_pcb c) s2 Hr2) as Hr3. fold s3 in Hr3.
  destruct (close_all_run [2; 3; 4; 5; 6; 7] (set_proc (λ r, r <| pcb_current := pcb_addr q |>)) t (erased_pcb c) s3
    Hr3 Hl) as (l&b&Hrun&Hll&Hget); [repeat constructor; lia|].
  exists l, b. split; [|done]. unfold close_all in Hrun. cbn [foldr] in Hrun. rewrite Hrun.
  unfold set_proc, modify. do 2 f_equal. apply kstate_eq; try reflexivity. apply proc_eq; try reflexivity.
  set (x := erased_pcb c <| pcb_arr := l |>).
  exact (eq_trans (insert_twice _ _ _ _) (insert_twice (pcbs r) (pcb_index t) x _)).
Qed.

Lemma frame_ok q : 1 ≤ q ≤ 6 → 0 ≤ frame q < 4294967296 ∧ frame q mod 4194304 = 0.
Proof. unfold frame, bottomKernal, pageSize. intros Hq. Z.div_mod_to_equations; lia. Qed.
Lemma paging_wf_mem s s' : mem s' = mem s → paging_wf s → paging_wf s'.
Proof. intros E []. by constructor; rewrite E. Qed.

Lemma halt_run st s i t q rest status :
  stacks_rep st (proc s) → runs st s i t (q :: rest) → paging_wf s →
  ∃ s' qc, aget (pcbs (proc s)) (q - 1) = Some qc ∧
    halt_handler status s = Some (ToParent (p_ebp qc) (p_esp qc) (u8 status), s') ∧
    tss_esp0 (cpu s') = p_esp qc ∧ halted st i t q rest s s'.
Proof.
  intros Hr (Hi&Hcp&Hcur) Hwf. destruct (child_above _ _ _ _ _ _ Hr Hi) as (Ht&Hq&Hn).
  pose proof (stack_indices _ _ _ (sr_stacks _ _ Hr) Hi) as Hir.
  destruct (sr_chain _ _ Hr _ _ Hi) as [(c&Hc&Hpid&Hpar&Hpp) _].
  destruct (rep_pcb _ _ q Hr Hq) as [qc Hqc]. pose proof (sr_pids _ _ Hr). pose proof (sr_sched _ _ Hr).
  pose proof (sr_pcbs _ _ Hr) as Hl3. pose proof (sr_count _ _ Hr) as Hcnt. pose proof (rep_count _ _ Hr).
  pose proof (sr_fds _ _ Hr t c Hc) as [Hfl Hfd].
  unfold halt_handler, cli. rewrite bind_modify. set (s0 := s <| cpu ::= _ |>). set (r := proc s) in *.
  assert (paging_wf s0) as Hwf0 by (by apply (paging_wf_mem s)).
  change s0 with (with_proc r s0). rewrite (current_bind _ _ t c) by (done || lia). rewrite Hpid.
  destruct (Z.leb_spec t 3); [lia|]. rewrite Hpp.
  rewrite (bind_run _ _ _ _ _ (halt_release_run r s0 i t c q Hcur ltac:(lia) Hc Hpid Hpar Hcp ltac:(lia) ltac:(lia))).
  set (r1 := released_proc t i q r). rewrite (get_pcb_bind _ _ q qc) by done. cbv zeta.
  destruct (halt_cleanup_run r1 s0 t c q qc Hcur ltac:(lia) Hc Hfl Hpar Hpp Hq Hqc Hwf0) as (l&b&Hrun&Hll&Hget).
  rewrite (bind_run _ _ _ _ _ Hrun). unfold sti. rewrite bind_modify. set (c' := erased_pcb c <| pcb_arr := l |>).
  eexists. exists qc. split; [done|]. split; [reflexivity|]. split; [done|].
  constructor.
  - apply (rep_pop st r i t q rest c'); try done.
    + split; [exact Hll|]. change (pcb_arr c') with l. intros fd d Hd. rewrite Hget in Hd.
      destruct (decide (fd ∈ [2; 3; 4; 5; 6; 7])) as [Hin|Hno].
      * destruct (aget (pcb_arr c) fd); [|done]. injection Hd as <-. split; [by left|done].
      * split; [by apply (Hfd fd)|]. intros _ Hge. exfalso. apply Hno. apply aget_Some_range in Hd.
        rewrite !elem_of_cons. lia.
    + change (u8 (program_count r - 1) = program_count r - 1). apply u8_small. cint. lia.
  - split; [|done]. unfold pop. rewrite aget_alter by lia. by rewrite decide_True, Hi.
  - by apply (paging_wf_mem (user_mapped (frame q) s0)), user_mapped_wf.
  - intros usr v Hv. destruct (frame_ok q Hq). by apply (user_mapped_translate usr (frame q) s0).
  - exists c'. split; [|done]. exact (pcb_index_get (pcbs r) t c' ltac:(lia)).
  - intros j Hj. exact (list_lookup_insert_ne (pcbs r) _ _ c' (not_eq_sym Hj)).
  - done.
  - done.
Qed.
