(* ===== verification/Exec.v ===== *)
(** * Exec: [execute] parses the command, checks the file and loads it

    The command line as a string and what [execute] makes of it; the loaded
    program in the page of its slot; the outcome of the handler, success and
    every refusal. *)
From S2P Require Import Prelude Keep LibString LibMem Filesystem KState Paging PortIO Screen Switch Keyboard Terminal Frame Syscall FdTable Process Halt.

(** ** Command lines *)
Fixpoint take_while (p : Z → bool) (l : list Z) : list Z :=
  match l with [] => [] | c :: l => if p c then c :: take_while p l else [] end.
Fixpoint drop_while (p : Z → bool) (l : list Z) : list Z :=
  match l with [] => [] | c :: l' => if p c then drop_while p l' else l end.

(** The program's name: up to a space or a newline; then, after spaces, what
    is left of the line up to position 127. *)
Definition name_char (c : Z) : bool := negb ((c =? 32) || (c =? 10)).
Definition command_name (text : list Z) : list Z := take_while name_char text.
Definition command_rest (text : list Z) : list Z := drop_while (Z.eqb 32) (drop_while name_char text).
Definition command_args (text : list Z) : list Z :=
  take (Z.to_nat (127 - (zlen text - zlen (command_rest text)))) (command_rest text).
(** A 128-byte array holding [l]. *)
Definition pad128 (l : list Z) : list Z := l ++ replicate (128 - length l) 0.

(** [text] and its NUL lie at address [a]. *)
Definition text_mem (s : kstate) (a : Z) (text : list Z) : Prop :=
  ∀ k c, (text ++ [0]) !! k = Some c → contents s <$> translate s (u32 (a + Z.of_nat k)) = Some c.
Lemma text_load s a text k c :
  text_mem s a text → (text ++ [0]) !! k = Some c → load8 (u32 (a + Z.of_nat k)) s = Some (c, s).
Proof. intros H Hk. apply H, fmap_Some in Hk as (p&Hp&->). by apply load8_run. Qed.

Lemma take_drop_while p l : take_while p l ++ drop_while p l = l.
Proof. induction l as [|c l IH]; [done|]. cbn. destruct (p c); [cbn; by f_equal|done]. Qed.
Lemma take_while_all p l : Forall (λ c, p c = true) (take_while p l).
Proof. induction l as [|c l IH]; [done|]. cbn. destruct (p c) eqn:E; by constructor. Qed.
Lemma drop_while_head p l c l' : drop_while p l = c :: l' → p c = false.
Proof. induction l as [|d l IH]; [done|]. cbn. destruct (p d) eqn:E; [done|]. by intros [= -> _]. Qed.

Lemma pad128_set l c : (length l < 128)%nat → aset (pad128 l) (zlen l) c = Some (pad128 (l ++ [c])).
Proof.
  intros Hl. unfold pad128. rewrite length_app. cbn [length].
  replace (128 - length l)%nat with (S (128 - (length l + 1))) by lia. cbn [replicate].
  rewrite aset_in by (rewrite length_app; cbn [length]; lia). rewrite Nat2Z.id, insert_app_r_alt by lia.
  by rewrite Nat.sub_diag, <- app_assoc.
Qed.
Lemma pad128_length l : (length l ≤ 128)%nat → length (pad128 l) = 128%nat.
Proof. intros Hl. unfold pad128. rewrite length_app, length_replicate. lia. Qed.

(** The text from position [i] on. *)
Lemma text_mem_app s a u v :
  text_mem s a (u ++ v) → text_mem s (a + zlen u) v.
Proof.
  intros H k c Hk. rewrite <- (H (length u + k)%nat c).
  - by replace (a + zlen u + Z.of_nat k) with (a + Z.of_nat (length u + k)) by lia.
  - rewrite <- app_assoc, lookup_app_r by lia. by replace (length u + k - length u)%nat with k by lia.
Qed.
Lemma text_head s a text : text_mem s a text → load8 (u32 a) s = Some (default 0 (head text), s).
Proof.
  intros H. destruct text as [|c text].
  - pose proof (text_load s a [] 0%nat 0 H eq_refl) as H0. by rewrite Z.add_0_r in H0.
  - pose proof (text_load s a (c :: text) 0%nat c H eq_refl) as H0. by rewrite Z.add_0_r in H0.
Qed.
Lemma text_tail s a c text : text_mem s a (c :: text) → text_mem s (a + 1) text.
Proof. intros H. apply (text_mem_app s a [c] text H). Qed.

Lemma exec_name_run text : ∀ n i pre a s,
  text_mem s (a + i) text → i = zlen pre → 0 ∉ text → zlen pre + zlen (command_name text) < 128 →
  (length (command_name text) < n)%nat →
  exec_name n a i (pad128 pre) s =
    Some ((i + zlen (command_name text), pad128 (pre ++ command_name text)), s).
Proof.
  induction text as [|c text IH]; intros [|n] i pre a s Hm Hi Hnz Hl Hn; try (cbn in Hn; lia); cbn [exec_name].
  - rewrite (bind_run _ _ _ _ _ (text_head _ _ _ Hm)). cbn. by rewrite app_nil_r, Z.add_0_r.
  - rewrite (bind_run _ _ _ _ _ (text_head _ _ _ Hm)). cbn [head from_option id default]. apply not_elem_of_cons in Hnz as [Hc Hnz].
    unfold id. destruct (Z.eqb_spec c 0); [done|]. unfold command_name in *. cbn [take_while] in *.
    unfold name_char in *. destruct ((c =? 32) || (c =? 10)); cbn [negb] in *.
    { cbn. by rewrite app_nil_r, Z.add_0_r. }
    fold name_char in *. cbn [length] in *. rewrite Hi, (bind_lift _ _ _ _ (pad128_set pre c ltac:(lia))).
    rewrite (IH n (zlen pre + 1) (pre ++ [c]) a s); [|by rewrite Z.add_assoc, <- Hi; apply text_tail in Hm|
      by rewrite length_app; cbn; lia|done|rewrite length_app; cbn [length]; lia|lia].
    rewrite <- app_assoc. do 3 f_equal. lia.
Qed.

Lemma skip_spaces_run text a i s :
  text_mem s (a + i) text → zlen text < 2147483648 →
  skip_spaces a i s = Some (i + (zlen text - zlen (drop_while (Z.eqb 32) text)), s).
Proof.
  intros Hm Hl. unfold skip_spaces. pose proof (take_drop_while (Z.eqb 32) text) as Heq.
  pose proof (take_while_all (Z.eqb 32) text) as Hall. pose proof (drop_while_head (Z.eqb 32) text) as Hhd.
  set (u := take_while (Z.eqb 32) text) in *. set (v := drop_while (Z.eqb 32) text) in *. rewrite <- Heq in Hm.
  assert (zlen text = zlen u + zlen v) as Hlen by (rewrite <- Heq, length_app; lia).
  assert (loop_pos (space_step a) 2147483648 i s = Some (inr (i + zlen u), s)) as Hloop.
  { rewrite loop_pos_nat. assert (length u < Pos.to_nat 2147483648)%nat as Hn by lia.
    generalize dependent (Pos.to_nat 2147483648). intros n Hn. replace i with (i + Z.of_nat 0) at 1 by lia.
    apply (loop_nat_ends _ (length u) _ (λ k, i + Z.of_nat k)); [done| |].
    - intros j Hj. unfold space_step. destruct (lookup_lt_is_Some_2 u j Hj) as [c Hc].
      rewrite Z.add_assoc, (bind_run _ _ _ _ _ (text_load _ _ _ j c Hm ltac:(by rewrite <- app_assoc, lookup_app_l by done))).
      rewrite Forall_lookup in Hall. specialize (Hall _ _ Hc). apply Z.eqb_eq in Hall as <-. cbn [Z.eqb Pos.eqb]. replace (i + Z.of_nat (j + 1)) with (i + Z.of_nat j + 1) by lia. done.
    - unfold space_step. apply text_mem_app in Hm. rewrite Z.add_assoc, (bind_run _ _ _ _ _ (text_head _ _ _ Hm)).
      destruct v as [|c v]; [done|]. cbn. specialize (Hhd _ _ eq_refl). by rewrite Z.eqb_sym, Hhd. }
  rewrite (bind_run _ _ _ _ _ Hloop). unfold mret, M_ret. do 2 f_equal. lia.
Qed.

Lemma exec_args_run text : ∀ n i j pre a s,
  text_mem s (a + i) text → j = zlen pre → zlen pre ≤ i → 0 ∉ text → 127 - i < Z.of_nat n → 0 < Z.of_nat n →
  exec_args n a i j (pad128 pre) s = Some (pad128 (pre ++ take (Z.to_nat (127 - i)) text), s).
Proof.
  induction text as [|c text IH]; intros [|n] i j pre a s Hm Hj Hi Hnz Hn Hn0; try lia; cbn [exec_args].
  - rewrite (bind_run _ _ _ _ _ (text_head _ _ _ Hm)). cbn. by rewrite take_nil, app_nil_r.
  - rewrite (bind_run _ _ _ _ _ (text_head _ _ _ Hm)). cbn [head from_option default]. apply not_elem_of_cons in Hnz as [Hc Hnz].
    unfold id. destruct (Z.eqb_spec c 0); [done|]. unfold maxInputLength. cbn [orb].
    destruct (Z.ltb_spec i 127); cbn [negb].
    + rewrite Hj, (bind_lift _ _ _ _ (pad128_set pre c ltac:(lia))).
      rewrite (IH n (i + 1) (zlen pre + 1) (pre ++ [c]) a s); [|by rewrite Z.add_assoc; apply text_tail in Hm|
        rewrite length_app; cbn; lia|rewrite length_app; cbn; lia|done|lia|lia].
      replace (Z.to_nat (127 - i)) with (S (Z.to_nat (127 - (i + 1)))) by lia. by rewrite <- app_assoc.
    + replace (Z.to_nat (127 - i)) with 0%nat by lia. cbn. by rewrite app_nil_r.
Qed.

Lemma drop_while_no_nul p l : 0 ∉ l → 0 ∉ drop_while p l.
Proof. rewrite <- (take_drop_while p l) at 1. set_solver. Qed.

Definition set_args_flag (args : list Z) (s : kstate) : kstate :=
  s <| proc ::= λ r, r <| args_flag ::= flag_of_args (pad128 args) |> |>.

(** What [execute] makes of the command line. *)
Lemma parse_command_run text a s :
  text_mem s a text → 0 ∉ text → zlen text < 2147483648 → zlen (command_name text) < 128 →
  parse_command a s =
    Some ((pad128 (command_name text), pad128 (command_args text)), set_args_flag (command_args text) s).
Proof.
  intros Hm Hnz Hl Hn. unfold parse_command. cbv zeta. change (replicate (Z.to_nat keyBufferSize) 0) with (pad128 []).
  rewrite <- (Z.add_0_r a) in Hm. rewrite (bind_run _ _ _ _ _ (exec_name_run text 129 0 [] a s Hm eq_refl Hnz Hn ltac:(lia))).
  cbn [app]. set (name := command_name text) in *. pose proof (take_drop_while name_char text) as Heq. fold name in Heq.
  change (take_while name_char text) with name in Heq. set (u := drop_while name_char text) in *.
  assert (zlen text = zlen name + zlen u) as Hlen by (rewrite <- Heq, length_app; lia).
  rewrite <- Heq in Hm. apply text_mem_app in Hm. rewrite Z.add_0_r in Hm.
  rewrite (bind_run _ _ _ _ _ (skip_spaces_run u a (zlen name) s Hm ltac:(lia))).
  change (drop_while (Z.eqb 32) u) with (command_rest text). set (v := command_rest text) in *.
  pose proof (take_drop_while (Z.eqb 32) u) as Hv. change (drop_while (Z.eqb 32) u) with v in Hv.
  set (sp := take_while (Z.eqb 32) u) in *. rewrite <- Hv in Hm. apply text_mem_app in Hm.
  assert (zlen u = zlen sp + zlen v) as Hlu by (rewrite <- Hv, length_app; lia).
  replace (a + zlen name + zlen sp) with (a + (zlen name + (zlen u - zlen v))) in Hm by lia.
  rewrite (bind_run _ _ _ _ _ (exec_args_run v 128 (zlen name + (zlen u - zlen v)) 0 [] a s Hm eq_refl
    ltac:(cbn; lia) (drop_while_no_nul _ _ (drop_while_no_nul _ _ Hnz)) ltac:(lia) ltac:(lia))).
  cbn [app]. unfold set_proc. rewrite bind_modify.
  replace (take _ v) with (command_args text); [done|]. unfold command_args. fold v. do 2 f_equal. lia.
Qed.

Lemma pad128_cstr l : 0 ∉ l → zlen l < 128 → cstr (pad128 l) = l ∧ terminated (pad128 l).
Proof.
  intros Hnz Hl. unfold pad128. replace (128 - length l)%nat with (S (127 - length l)) by lia.
  split; [by apply (cstr_in_buffer l)|by apply (terminated_in_buffer l)].
Qed.
Lemma pad128_u8 l : Forall is_u8 l → Forall is_u8 (pad128 l).
Proof. intros H. apply Forall_app. split; [done|]. apply Forall_replicate. cint. lia. Qed.

(** ** The file *)

(** The bytes of a file from the start to its length included, as [read_data]
    delivers them. *)
Record file_data (img : list Z) (ino : Z) (bs : list Z) : Prop := {
  pf_inode : ∃ n, inode_count img = Some n ∧ 0 ≤ ino ≤ u32 n;
  pf_length : file_length img ino = Some (zlen bs - 1);
  pf_bytes : file_has img ino 0 bs;
  pf_u8 : Forall is_u8 bs;
  pf_size : 1 ≤ zlen bs < 2147483648;
}.

Lemma program_read {S} (wr : Z → Z → M S ()) img ino bs offset length s :
  file_data img ino bs → 0 ≤ offset ≤ zlen bs → 0 ≤ length < 2147483648 →
  read_data wr img ino offset false length s =
    (write_bytes wr 0 (take (Z.to_nat length) (drop (Z.to_nat offset) bs));;
     mret (zlen (take (Z.to_nat length) (drop (Z.to_nat offset) bs)))) s.
Proof.
  intros [(n&Hn&Hi) HL Hb _ Hsz] Ho Hl. apply (read_data_writes wr img ino (zlen bs - 1) n); try done; try lia.
  - apply file_has_take. rewrite <- (Z2Nat.id offset) at 1 by lia. by apply file_has_drop.
  - rewrite length_take, length_drop. lia.
Qed.

Lemma write_bytes_array {A} (f : Z → A) bs : ∀ i b,
  0 ≤ i → i + zlen bs ≤ zlen b →
  write_bytes (array_write f) i bs b =
    Some ((), take (Z.to_nat i) b ++ map f bs ++ drop (Z.to_nat i + length bs) b).
Proof.
  induction bs as [|c bs IH]; intros i b Hi Hl; cbn [write_bytes length map] in *.
  - cbn. rewrite Nat.add_0_r. by rewrite take_drop.
  - assert (array_write f i c b = Some ((), <[Z.to_nat i := f c]> b)) as H1.
    { unfold array_write. rewrite aset_in by lia. done. }
    rewrite (bind_run _ _ _ _ _ H1), IH by (rewrite ?length_insert; lia). do 2 f_equal.
    replace (Z.to_nat (i + 1)) with (S (Z.to_nat i)) by lia.
    rewrite (take_S_r _ _ (f c)) by (by rewrite list_lookup_insert_eq by lia).
    rewrite take_insert_ge, <- app_assoc by lia. cbn [app]. do 3 f_equal.
    rewrite drop_insert_lt by lia. f_equal. lia.
Qed.

(** The entry point is the little-endian word at offset 24. *)
Definition word_at (bs : list Z) (o : nat) : Z :=
  let b k := default 0 (bs !! (o + k)%nat) in b 0%nat + 256 * b 1%nat + 65536 * b 2%nat + 16777216 * b 3%nat.
Lemma four_bytes (bs : list Z) o : Z.of_nat o + 4 ≤ zlen bs →
  take 4 (drop o bs) = [default 0 (bs !! (o + 0)%nat); default 0 (bs !! (o + 1)%nat);
    default 0 (bs !! (o + 2)%nat); default 0 (bs !! (o + 3)%nat)].
Proof.
  intros Hl. rewrite <- !lookup_drop. assert (4 ≤ length (drop o bs))%nat as H4 by (rewrite length_drop; lia).
  destruct (drop o bs) as [|a [|b [|c [|d l]]]]; cbn in H4; try lia. done.
Qed.
Lemma entry_point_run img ino bs : file_data img ino bs → 28 ≤ zlen bs → entry_point img ino = Some (word_at bs 24).
Proof.
  intros Hp Hsz. pose proof (pf_u8 _ _ _ Hp) as Hu. unfold entry_point.
  rewrite (program_read _ _ _ _ offset_24 4 _ Hp) by (unfold offset_24; lia).
  change (Z.to_nat 4) with 4%nat. change (Z.to_nat offset_24) with 24%nat. rewrite four_bytes by lia.
  set (l4 := [_; _; _; _]). assert (zlen l4 = 4) as Hl4 by done.
  rewrite (bind_run _ _ _ _ _ (write_bytes_array Some l4 0 (replicate 4 None) ltac:(lia) ltac:(cbn; lia))). subst l4.
  unfold word_at. cbn [Nat.add].
  assert (∀ k, 0 ≤ default 0 (bs !! k) < 256) as Hb.
  { intros k. destruct (bs !! k) as [b|] eqn:E; [|cbn; lia]. rewrite Forall_lookup in Hu. exact (Hu _ _ E). }
  pose proof (Hb 24%nat). pose proof (Hb 25%nat). pose proof (Hb 26%nat). pose proof (Hb 27%nat).
  set (b0 := default 0 (bs !! 24%nat)) in *. set (b1 := default 0 (bs !! 25%nat)) in *.
  set (b2 := default 0 (bs !! 26%nat)) in *. set (b3 := default 0 (bs !! 27%nat)) in *.
  clearbody b0 b1 b2 b3.
  trans (Some (Z.lor (Z.lor b0 (Z.shiftl b1 8)) (Z.lor (Z.shiftl b2 16) (Z.shiftl b3 24)))); [reflexivity|]. f_equal.
  replace (Z.lor (Z.shiftl b2 16) (Z.shiftl b3 24)) with (Z.shiftl (b2 + b3 * 256) 16).
  - rewrite (lor_shiftl b0 b1 8 ltac:(lia) H). change (2 ^ 8) with 256.
    rewrite (lor_shiftl _ _ 16) by (change (2 ^ 16) with 65536; lia). change (2 ^ 16) with 65536. lia.
  - change 256 with (2 ^ 8). rewrite <- (lor_shiftl b2 b3 8 ltac:(lia) H1). rewrite Z.shiftl_lor, Z.shiftl_shiftl by lia. done.
Qed.

(** ** Loading *)
Lemma load_program_run img ino bs q s :
  file_data img ino bs → zlen bs ≤ 3899392 → buffer_at s virtualAddr (zlen bs) q →
  load_program img ino s = Some (true, poke bs q s).
Proof.
  intros Hp Hmax Hb. pose proof (pf_size _ _ _ Hp) as Hsz. pose proof (pf_u8 _ _ _ Hp) as Hu.
  assert (loop_pos (load_step img ino) 4194305 0 s = Some (inr true, poke bs q s)) as Hloop.
  { rewrite loop_pos_nat. assert (2 ≤ Pos.to_nat 4194305)%nat as Hn by lia.
    generalize dependent (Pos.to_nat 4194305). intros [|[|n]] Hn; try lia. cbn [loop_nat].
    assert (load_step img ino 0 s = Some (inl (zlen bs), poke bs q s)) as H1.
    { unfold load_step. change (pageSize - 0) with 4194304. change (4194304 >? 0) with true. cbv iota.
      rewrite (bind_run _ (zlen bs) _ _ (poke bs q s)).
      - destruct (Z.eqb_spec (zlen bs) 0), (Z.eqb_spec (zlen bs) (-1)); try lia. done.
      - rewrite (program_read _ _ _ bs) by (done || lia). rewrite drop_0, take_ge by lia.
        rewrite (bind_run _ _ _ _ _ (write_bytes_user bs (virtualAddr + 0) 0 q s
          ltac:(intros k Hk; rewrite Z.add_0_r; apply Hb; lia) Hu)). by rewrite Z.add_0_r. }
    assert (∀ s1, load_step img ino (zlen bs) s1 = Some (inr true, s1)) as H2.
    { intros s1. unfold load_step. destruct (Z.gtb_spec (pageSize - zlen bs) 0); [|done].
      rewrite (bind_run _ 0 _ _ s1); [done|]. unfold pageSize in *.
      rewrite (program_read _ _ _ bs) by (done || lia). by rewrite Nat2Z.id, drop_all, take_nil. }
    by rewrite (bind_run _ _ _ _ _ H1), (bind_run _ _ _ _ _ (H2 _)). }
  unfold load_program. by rewrite (bind_run _ _ _ _ _ Hloop).
Qed.

(** The physical address the program is loaded at: its frame, at the offset of
    [0x08048000] in the user page. *)
Definition program_base (slot : Z) : Z := frame (slot + 1) + 294912.
Definition loaded (slot : Z) (args bs : list Z) (s : kstate) : kstate :=
  poke bs (program_base slot) (user_mapped (frame (slot + 1))
    (set_args_flag args (s <| cpu ::= λ c, c <| if_flag := false |> |>))).

Lemma loaded_rest slot args bs s :
  let s' := loaded slot args bs s in
  scr s' = scr s ∧ kbd s' = kbd s ∧ rtc s' = rtc s ∧ pic s' = pic s ∧ fs_image s' = fs_image s ∧
  proc s' = setter args_flag (flag_of_args (pad128 args)) (proc s) ∧
  esp (cpu s') = esp (cpu s) ∧ ebp (cpu s') = ebp (cpu s).
Proof.
  intros s'. unfold s', loaded. set (s0 := user_mapped _ _).
  destruct (poke_rest bs (program_base slot) s0) as (->&->&->&->&->&->&->&_). done.
Qed.

(** A command that names a program. *)
Record good_command (s : kstate) (a : Z) (text bs : list Z) : Prop := {
  gc_ptr : a ≠ 0;
  gc_mem : text_mem s a text;
  gc_nul : 0 ∉ text;
  gc_u8 : Forall is_u8 text;
  gc_len : zlen text < 2147483648;
  gc_name : zlen (command_name text) < 128;
  gc_file : ∃ d, find_dentry (fs_image s) (command_name text) = Some d ∧
              file_data (fs_image s) (u32 (inode_num d)) bs;
  gc_size : 28 ≤ zlen bs ≤ 3899392;       (* it fits in the user page *)
  gc_magic : take 4 bs = [127; 69; 76; 70];
}.

Lemma take_while_sub p l c : c ∈ take_while p l → c ∈ l.
Proof. rewrite <- (take_drop_while p l) at 2. set_solver. Qed.
Lemma name_ok text : 0 ∉ text → Forall is_u8 text → (0 ∉ command_name text) ∧ Forall is_u8 (command_name text).
Proof.
  intros Hnz Hu. split; [by intros H%take_while_sub|]. apply Forall_forall. intros c Hc%take_while_sub.
  rewrite Forall_forall in Hu. by apply Hu.
Qed.

(** The magic number is read over the name. *)
Lemma magic_run img ino bs exec :
  file_data img ino bs → 4 ≤ zlen bs → length exec = 128%nat →
  ∃ e, read_data (array_write id) img ino 0 false 4 exec = Some (4, e) ∧
    is_executable e = bool_decide (take 4 bs = [127; 69; 76; 70]).
Proof.
  intros Hp Hsz Hl. rewrite (program_read _ _ _ bs) by (done || lia). rewrite drop_0. change (Z.to_nat 4) with 4%nat.
  assert (length (take 4 bs) = 4%nat) as H4 by (rewrite length_take; lia).
  exists (take 4 bs ++ drop 4 exec).
  rewrite (bind_run _ _ _ _ _ (write_bytes_array id (take 4 bs) 0 exec ltac:(lia) ltac:(lia))).
  rewrite H4. cbn [Z.to_nat take app Nat.add]. rewrite list_fmap_id. split; [done|].
  unfold is_executable. by rewrite take_app_length' by done.
Qed.

Lemma execute_file_run exec args d slot bs s :
  file_data (fs_image s) (u32 (inode_num d)) bs → 28 ≤ zlen bs ≤ 3899392 → take 4 bs = [127; 69; 76; 70] → length exec = 128%nat →
  paging_wf s → free_slot 6 0 (pid_arr (proc s)) = Some slot → 0 ≤ slot < 6 →
  execute_file exec args d s =
    start_process slot args (word_at bs 24) (poke bs (program_base slot) (user_mapped (frame (slot + 1)) s)).
Proof.
  intros Hp Hsz Hm Hl Hwf Hslot Hs. unfold execute_file. rewrite bind_gets. cbv zeta.
  set (img := fs_image s) in *. set (ino := u32 (inode_num d)) in *.
  destruct (magic_run img ino bs exec Hp ltac:(lia) Hl) as (e&Hrd&He). rewrite (bind_lift _ _ _ _ Hrd), He.
  rewrite bool_decide_true by done. cbn [negb].
  rewrite (bind_lift _ _ _ _ (entry_point_run img ino bs Hp ltac:(lia))).
  unfold get_proc. rewrite bind_gets. change (Z.to_nat programMax) with 6%nat. rewrite (bind_lift _ _ _ _ Hslot).
  replace (bottomKernal + slot * pageSize) with (frame (slot + 1)) by (unfold frame; lia).
  rewrite (bind_run _ _ _ _ _ (map_user_page_run (frame (slot + 1)) s Hwf)).
  assert (buffer_at (user_mapped (frame (slot + 1)) s) virtualAddr (zlen bs) (program_base slot)) as Hb.
  { intros k Hk. destruct (frame_ok (slot + 1)) as [Hf1 Hf2]; [lia|].
    unfold virtualAddr. rewrite u32_small by (cint; lia).
    change (translate_as false (user_mapped (frame (slot + 1)) s) (134512640 + k) = Some (program_base slot + k)).
    rewrite user_mapped_translate by (done || (unfold in_user_page; lia)).
    unfold program_base. f_equal. lia. }
  by rewrite (bind_run _ _ _ _ _ (load_program_run img ino bs _ _ Hp ltac:(lia) Hb)).
Qed.

Lemma execute_run s a text bs slot :
  good_command s a text bs → image_ok (fs_image s) → paging_wf s → program_count (proc s) < 6 →
  free_slot 6 0 (pid_arr (proc s)) = Some slot → 0 ≤ slot < 6 →
  execute_handler a s =
    start_process slot (pad128 (command_args text)) (word_at bs 24) (loaded slot (command_args text) bs s).
Proof.
  intros [Ha Hm Hnz Hu Hl Hn (d&Hd&Hp) Hsz Hmg] Himg Hwf Hcnt Hslot Hs. unfold execute_handler, cli. rewrite bind_modify.
  set (s0 := s <| cpu ::= _ |>). unfold get_proc. rewrite bind_gets. change (program_count (proc s0)) with (program_count (proc s)).
  unfold programMax. rewrite Z.geb_leb. destruct (Z.leb_spec 6 (program_count (proc s))), (Z.eqb_spec a 0); try lia.
  rewrite (bind_run _ _ _ _ _ (parse_command_run text a s0 Hm Hnz Hl Hn)).
  set (s1 := set_args_flag (command_args text) s0). rewrite bind_gets. change (fs_image s1) with (fs_image s).
  destruct (name_ok text Hnz Hu) as [Hnn Hnu]. destruct (pad128_cstr _ Hnn Hn) as [Hc Ht].
  destruct (find_dentry_run _ _ Himg (pad128_u8 _ Hnu) Ht) as (r&d'&Hrun&Hspec). rewrite (bind_lift _ _ _ _ Hrun).
  rewrite Hc, Hd in Hspec. destruct Hspec as (->&->&_). cbn [Z.eqb].
  rewrite (bind_lift _ _ _ _ eq_refl). apply (execute_file_run _ _ d' slot bs s1); try done.
  - apply pad128_length. lia.
  - by apply (paging_wf_mem s).
Qed.

(** ** The effect of [execute] *)
Lemma poke_wf bs p s : paging_wf s → paging_wf (poke bs p s).
Proof. revert p s. induction bs as [|b bs IH]; intros p s H; [done|]. cbn [poke]. apply IH. by destruct H. Qed.
Lemma loaded_wf slot args bs s : paging_wf s → paging_wf (loaded slot args bs s).
Proof. intros Hwf. apply poke_wf, user_mapped_wf. by apply (paging_wf_mem s). Qed.

(** User code sees the file from [0x08048000] on. *)
Lemma loaded_program slot args bs s k b :
  paging_wf s → 0 ≤ slot < 6 → zlen bs ≤ 3899392 → Forall is_u8 bs → bs !! k = Some b →
  ∃ q, translate_as true (loaded slot args bs s) (virtualAddr + Z.of_nat k) = Some q ∧
    contents (loaded slot args bs s) q = b.
Proof.
  intros Hwf Hs Hsz Hu Hk. pose proof (lookup_lt_Some _ _ _ Hk) as Hlt. exists (program_base slot + Z.of_nat k).
  unfold loaded. set (s1 := set_args_flag _ _). assert (paging_wf s1) as H1 by (by apply (paging_wf_mem s)).
  destruct (poke_rest bs (program_base slot) (user_mapped (frame (slot + 1)) s1)) as (_&_&_&_&_&_&_&Htr).
  split.
  - destruct (frame_ok (slot + 1)) as [Hf1 Hf2]; [lia|]. rewrite Htr. unfold virtualAddr.
    rewrite user_mapped_translate by (done || (unfold in_user_page; lia)). unfold program_base. f_equal. lia.
  - rewrite poke_contents, decide_True by lia.
    replace (Z.to_nat (program_base slot + Z.of_nat k - program_base slot)) with k by lia. rewrite Hk. cbn.
    rewrite Forall_lookup in Hu. apply u8_small. exact (Hu _ _ Hk).
Qed.

(** The representation does not look at the parts [execute] touches before it
    enters the process. *)
Lemma rep_args_flag st r f : stacks_rep st r → stacks_rep st (setter args_flag f r).
Proof. by intros []. Qed.

Lemma execute_starts_child st s i t rest a text bs :
  stacks_rep st (proc s) → runs st s i t rest → curr_terminal (scr s) = i → 3 ≤ zlen (concat st) < 6 →
  paging_wf s → image_ok (fs_image s) → good_command s a text bs →
  ∃ slot s', free_slot 6 0 (pid_arr (proc s)) = Some slot ∧
    execute_handler a s = Some (ToUser (word_at bs 24), s') ∧
    new_process st i slot t (t :: rest) (pad128 (command_args text)) (loaded slot (command_args text) bs s) s' ∧
    (∀ k b, bs !! k = Some b → ∃ q, translate_as true s' (virtualAddr + Z.of_nat k) = Some q ∧ contents s' q = b) ∧
    paging_wf s' ∧ scr s' = scr s ∧ kbd s' = kbd s ∧ fs_image s' = fs_image s.
Proof.
  intros Hr (Hi&Hcp&Hcur) Hct Hn Hwf Himg Hg.
  destruct (free_slot_rep st _ Hr ltac:(lia)) as (slot&Hslot&Hs&_). pose proof (sr_count _ _ Hr) as Hcnt.
  pose proof (execute_run s a text bs slot Hg Himg Hwf ltac:(lia) Hslot Hs) as Hrun.
  set (sl := loaded slot (command_args text) bs s) in *.
  destruct (loaded_rest slot (command_args text) bs s) as (E1&E2&E3&E4&E5&E6&E7&E8). fold sl in E1, E2, E3, E4, E5, E6, E7, E8.
  destruct (start_child st (proc sl) sl i t rest (pad128 (command_args text)) (word_at bs 24)) as (slot'&s'&Hsl&Hst&Hnew);
    [by rewrite E6; apply rep_args_flag|done|by rewrite E6|by rewrite E6|by rewrite E1|done|].
  rewrite E6 in Hsl. change (pid_arr (setter args_flag _ (proc s))) with (pid_arr (proc s)) in Hsl.
  rewrite Hslot in Hsl. injection Hsl as <-. rewrite with_proc_same in Hst, Hnew.
  exists slot, s'. destruct (np_rest _ _ _ _ _ _ _ _ Hnew) as (M1&M2&M3&_&_&M6).
  split; [done|]. split; [by rewrite Hrun|]. split; [done|]. split; [|split; [|by rewrite M2, M3, M6]].
  - intros k b Hk. pose proof (gc_size _ _ _ _ Hg).
    destruct (gc_file _ _ _ _ Hg) as (d&_&Hp). destruct (loaded_program slot (command_args text) bs s k b Hwf Hs
      ltac:(lia) (pf_u8 _ _ _ Hp) Hk) as (q&Hq&Hc). exists q. fold sl in Hq, Hc.
    split; [rewrite <- Hq|rewrite <- Hc; cbn; by rewrite M1].
    pose proof (np_cpu _ _ _ _ _ _ _ _ Hnew) as Hcpu. unfold translate_as, paging_on, pse_on.
    by rewrite M1, Hcpu.
  - by apply (paging_wf_mem sl), loaded_wf.
Qed.

(** C4. [execute] by the process on top of the displayed terminal's stack, given
    a command that names a loadable program: the program is entered in the first
    free slot and pushed on that terminal's stack, with its caller as parent, the
    standard descriptors open and the arguments of the command line; user code
    sees the file's bytes at 0x08048000 and starts at the entry point of the
    header; no other process, no screen and no file changes. *)
Theorem execute_starts_program st s i t rest a text bs :
  stacks_rep st (proc s) → runs st s i t rest → curr_terminal (scr s) = i → 3 ≤ zlen (concat st) < 6 →
  paging_wf s → image_ok (fs_image s) → good_command s a text bs →
  ∃ slot s', free_slot 6 0 (pid_arr (proc s)) = Some slot ∧
    execute_handler a s = Some (ToUser (word_at bs 24), s') ∧
    new_process st i slot t (t :: rest) (pad128 (command_args text)) (loaded slot (command_args text) bs s) s' ∧
    (∀ k b, bs !! k = Some b → ∃ q, translate_as true s' (virtualAddr + Z.of_nat k) = Some q ∧ contents s' q = b) ∧
    paging_wf s' ∧ scr s' = scr s ∧ kbd s' = kbd s ∧ fs_image s' = fs_image s.
Proof. apply execute_starts_child. Qed.

(** The table is determined by the stacks. *)
Lemma aget_ext {A} (l l' : list A) : length l = length l' → (∀ j, 0 ≤ j < zlen l → aget l j = aget l' j) → l = l'.
Proof.
  intros Hl H. apply list_eq. intros k. destruct (decide (k < length l)%nat).
  - rewrite <- !aget_of_nat. apply H. lia.
  - by rewrite !lookup_ge_None_2 by lia.
Qed.
Lemma rep_unique st r r' :
  stacks_rep st r → stacks_rep st r' →
  program_count r' = program_count r ∧ pid_arr r' = pid_arr r ∧ sched_pid r' = sched_pid r.
Proof.
  intros H H'. pose proof (sr_pids _ _ H). pose proof (sr_pids _ _ H'). pose proof (sr_sched _ _ H). pose proof (sr_sched _ _ H').
  split_and!; [by rewrite (sr_count _ _ H), (sr_count _ _ H')| |]; apply aget_ext; try congruence.
  - intros j Hj. pose proof (sr_live _ _ H (j + 1)) as E. pose proof (sr_live _ _ H' (j + 1)) as E'.
    rewrite Z.add_simpl_r in E, E'. by rewrite E, E' by lia.
  - intros j Hj. pose proof (sr_stacks _ _ H). destruct (proj2 (aget_is_Some st j)) as [stk Hs]; [lia|].
    by rewrite (sr_top _ _ H _ _ Hs), (sr_top _ _ H' _ _ Hs).
Qed.

(** C6. [halt] by a process above a shell pops it: its parent is on top again,
    the slot free, the descriptors from 2 on closed, the arguments erased, the
    parent's frame mapped as the user page, and the processor continues with the
    stack and frame pointers of the parent's PCB and the status byte as result. *)
Theorem halt_resumes_parent st s i t q rest status :
  stacks_rep st (proc s) → runs st s i t (q :: rest) → paging_wf s →
  ∃ s' qc, aget (pcbs (proc s)) (q - 1) = Some qc ∧
    halt_handler status s = Some (ToParent (p_ebp qc) (p_esp qc) (u8 status), s') ∧
    tss_esp0 (cpu s') = p_esp qc ∧ halted st i t q rest s s'.
Proof. apply halt_run. Qed.

(** A program that halts at once leaves the process table as it was before
    [execute]: the same stacks, counters, live slots and scheduled processes, the
    caller running in its own page. *)
Lemma execute_halt_roundtrip st s i t rest a text bs eip status s1 :
  stacks_rep st (proc s) → runs st s i t rest → curr_terminal (scr s) = i → 3 ≤ zlen (concat st) < 6 →
  paging_wf s → image_ok (fs_image s) → good_command s a text bs →
  execute_handler a s = Some (ToUser eip, s1) →
  ∃ ebp esp s2, halt_handler status s1 = Some (ToParent ebp esp (u8 status), s2) ∧
    stacks_rep st (proc s2) ∧ runs st s2 i t rest ∧
    (program_count (proc s2) = program_count (proc s) ∧ pid_arr (proc s2) = pid_arr (proc s) ∧
     sched_pid (proc s2) = sched_pid (proc s)) ∧
    (∀ usr v, in_user_page v → translate_as usr s2 v = Some (frame t + (v - 134217728))) ∧
    scr s2 = scr s ∧ kbd s2 = kbd s ∧ fs_image s2 = fs_image s.
Proof.
  intros Hr Hruns Hct Hn Hwf Himg Hg Hex. pose proof Hruns as (Hi&_&_).
  destruct (execute_starts_child st s i t rest a text bs Hr Hruns Hct Hn Hwf Himg Hg)
    as (slot&s'&_&Hex'&Hnew&_&Hwf1&E1&E2&E3). rewrite Hex in Hex'. injection Hex' as _ <-.
  destruct (halt_run _ s1 i (slot + 1) t rest status (np_rep _ _ _ _ _ _ _ _ Hnew) (np_runs _ _ _ _ _ _ _ _ Hnew) Hwf1)
    as (s2&qc&_&Hh&_&[Hrep Hrun _ Hpage _ _ _ (F1&F2&_&_&F5)]).
  rewrite (push_pop st i (t :: rest)) in Hrep, Hrun by done.
  exists (p_ebp qc), (p_esp qc), s2. split; [done|]. split; [done|]. split; [done|].
  split; [by apply (rep_unique st)|]. split; [done|]. by rewrite F1, F2, F5.
Qed.

(** ** Refusals *)
Inductive refusal (s : kstate) (a : Z) : Prop :=
  | too_many_programs : 6 ≤ program_count (proc s) → refusal s a
  | null_command : a = 0 → refusal s a
  | unknown_program text :
      text_mem s a text → 0 ∉ text → Forall is_u8 text → zlen text < 2147483648 →
      zlen (command_name text) < 128 → find_dentry (fs_image s) (command_name text) = None → refusal s a
  | not_a_program text d bs :
      text_mem s a text → 0 ∉ text → Forall is_u8 text → zlen text < 2147483648 →
      zlen (command_name text) < 128 → find_dentry (fs_image s) (command_name text) = Some d →
      file_data (fs_image s) (u32 (inode_num d)) bs → 4 ≤ zlen bs → take 4 bs ≠ [127; 69; 76; 70] → refusal s a.

(** C21. [execute] returns -1 when six programs run, on a null command, an unknown
    name or a file that is not an executable; it then leaves everything but the
    interrupt flag and the argument flag as it found it. *)
Theorem execute_refuses s a :
  refusal s a → image_ok (fs_image s) →
  ∃ s' f, execute_handler a s = Some (Returns (-1), s') ∧
    s' = s <| cpu ::= λ c, c <| if_flag := false |> |> <| proc ::= λ r, r <| args_flag := f |> |>.
Proof.
  intros Href Himg. unfold execute_handler, cli. rewrite bind_modify. set (s0 := s <| cpu ::= _ |>).
  unfold get_proc. rewrite bind_gets. change (program_count (proc s0)) with (program_count (proc s)).
  assert (s0 = s0 <| proc ::= λ r, r <| args_flag := args_flag (proc s) |> |>) as Hs0 by (by destruct s as [? ? ? ? ? [] ? ?]).
  unfold programMax. rewrite Z.geb_leb. destruct (Z.leb_spec 6 (program_count (proc s))) as [|Hcnt]; [eexists _, _; split; [done|exact Hs0]|].
  destruct (Z.eqb_spec a 0) as [|Ha]; [eexists _, _; split; [done|exact Hs0]|].
  destruct Href as [| |text Hm Hnz Hu Hl Hn Hf|text d bs Hm Hnz Hu Hl Hn Hf Hd Hsz Hmg]; [lia|done|..];
    (rewrite (bind_run _ _ _ _ _ (parse_command_run text a s0 Hm Hnz Hl Hn));
     set (s1 := set_args_flag (command_args text) s0); rewrite bind_gets; change (fs_image s1) with (fs_image s);
     destruct (name_ok text Hnz Hu) as [Hnn Hnu]; destruct (pad128_cstr _ Hnn Hn) as [Hc Ht];
     destruct (find_dentry_run _ _ Himg (pad128_u8 _ Hnu) Ht) as (r&d'&Hrun&Hspec); rewrite (bind_lift _ _ _ _ Hrun);
     rewrite Hc, Hf in Hspec).
  - subst r. eexists s1, _. split; [done|]. by subst s1 s0.
  - destruct Hspec as (->&->&_). cbn [Z.eqb]. rewrite (bind_lift _ _ _ _ eq_refl). unfold execute_file.
    rewrite bind_gets. cbv zeta. change (fs_image s1) with (fs_image s).
    destruct (magic_run _ _ bs (pad128 (command_name text)) Hd Hsz (pad128_length (command_name text) ltac:(lia))) as (e&Hrd&He).
    rewrite (bind_lift _ _ _ _ Hrd), He, bool_decide_false by done. eexists s1, _. split; [done|]. by subst s1 s0.
Qed.

(** ** A running system for examples: three shells, a program ["ab"], and the
    command line ["ab  x"] at address 4096 *)
Definition elf_bytes : list Z := [127; 69; 76; 70] ++ replicate 20 0 ++ [0; 128; 4; 8].
Definition exec_image : list Z :=
  pad 4096 (pad 64 (le32 1 ++ le32 1 ++ le32 1) ++ example_dentry [97; 98] 2 0) ++
  pad 4096 (le32 27 ++ le32 0) ++ pad 4096 elf_bytes.
Definition shell_pcb (p : Z) : pcb_t := zero_pcb <| pid := p |> <| parent_pid := p |> <| parent_pcb := pcb_addr p |>.
Definition shells_proc : proc_t :=
  mk_proc 3 0 [1; 1; 1; 0; 0; 0] [shell_pcb 1; shell_pcb 2; shell_pcb 3; zero_pcb; zero_pcb; zero_pcb]
    (pcb_addr 1) [1; 2; 3] 0.
Definition command_text : list Z := [97; 98; 32; 32; 120].
Definition three_shells : kstate :=
  poke command_text 4096 (with_proc shells_proc (boot_state exec_image)).

Lemma fds_ok_zero b : fds_ok b (pcb_arr zero_pcb).
Proof.
  split; [done|]. intros fd d Hd. assert (d = zero_fdesc) as ->; [|split; [by left|done]].
  pose proof (aget_Some_range _ _ _ Hd). rewrite aget_nonneg in Hd by lia. by apply lookup_replicate in Hd as [-> _].
Qed.
Lemma three_shells_rep : stacks_rep [[1]; [2]; [3]] shells_proc.
Proof.
  assert (∀ p, p ∈ concat [[1]; [2]; [3]] ↔ 1 ≤ p ≤ 3) as Hin.
  { intros p. cbn. rewrite !elem_of_cons, elem_of_nil. lia. }
  assert (∀ (stk : list Z) i, aget [[1]; [2]; [3]] i = Some stk → 0 ≤ i < 3 ∧ stk = [i + 1]) as Hst.
  { intros stk i H. pose proof (aget_Some_range _ _ _ H) as Hr. cbn in Hr. split; [lia|].
    assert (i = 0 ∨ i = 1 ∨ i = 2) as [-> | [-> | ->]] by lia; by injection H as <-. }
  constructor; try done.
  - apply (bool_decide_unpack _); vm_compute; exact I.
  - intros p [? ?]%Hin. lia.
  - intros p Hp. rewrite (bool_decide_ext _ _ (Hin p)).
    assert (p = 1 ∨ p = 2 ∨ p = 3 ∨ p = 4 ∨ p = 5 ∨ p = 6) as [->|[->|[->|[->|[->| ->]]]]] by lia; reflexivity.
  - intros i stk [Hi ->]%Hst. assert (i = 0 ∨ i = 1 ∨ i = 2) as [-> | [-> | ->]] by lia; reflexivity.
  - intros i stk [Hi ->]%Hst. split; [done|]. exists (shell_pcb (i + 1)). split; [|done].
    assert (i = 0 ∨ i = 1 ∨ i = 2) as [-> | [-> | ->]] by lia; reflexivity.
  - intros i [_ H]%Hst. done.
  - intros p c Hc. replace (pcb_arr c) with (pcb_arr zero_pcb); [apply fds_ok_zero|].
    pose proof (aget_Some_range _ _ _ Hc) as Hr. cbn in Hr.
    assert (p = 1 ∨ p = 2 ∨ p = 3 ∨ p = 4 ∨ p = 5 ∨ p = 6) as [->|[->|[->|[->|[->| ->]]]]] by lia; by injection Hc as <-.
Qed.
Lemma three_shells_runs : runs [[1]; [2]; [3]] three_shells 0 1 [].
Proof. by split_and!. Qed.
Lemma boot_wf img : paging_wf (boot_state img).
Proof. by constructor; try done; vm_compute. Qed.
Lemma three_shells_wf : paging_wf three_shells.
Proof. apply poke_wf, (paging_wf_mem (boot_state exec_image)), boot_wf. done. Qed.
Lemma exec_image_ok : image_ok exec_image.
Proof. apply image_okb_ok. vm_compute. reflexivity. Qed.

Lemma demo_good_command : good_command three_shells 4096 command_text elf_bytes.
Proof.
  constructor; try done.
  - intros k c Hk. do 6 (destruct k as [|k]; [injection Hk as <-; reflexivity|]). done.
  - apply (bool_decide_unpack _); vm_compute; exact I.
  - apply (bool_decide_unpack _); vm_compute; exact I.
  - exists (mk_dentry (pad 32 [97; 98]) 2 0). split; [vm_compute; reflexivity|]. constructor; try done.
    + exists 1. split; [vm_compute; reflexivity|done].
    + intros k b Hk. do 28 (destruct k as [|k]; [injection Hk as <-; vm_compute; reflexivity|]). done.
    + apply (bool_decide_unpack _); vm_compute; exact I.
Qed.

(** Runs ["ab  x"] from the first shell. *)
Lemma execute_starts_program_witness :
  ∃ s', execute_handler 4096 three_shells = Some (ToUser 134512640, s') ∧
    stacks_rep [[4; 1]; [2]; [3]] (proc s') ∧ fs_image s' = exec_image.
Proof.
  destruct (execute_starts_program [[1]; [2]; [3]] three_shells 0 1 [] 4096 command_text elf_bytes)
    as (slot&s'&Hs&Hrun&Hnew&_&_&_&_&Hfs).
  - apply three_shells_rep.
  - apply three_shells_runs.
  - reflexivity.
  - cbn. lia.
  - apply three_shells_wf.
  - apply exec_image_ok.
  - apply demo_good_command.
  - exists s'. split; [exact Hrun|]. injection Hs as <-. split; [exact (np_rep _ _ _ _ _ _ _ _ Hnew)|exact Hfs].
Defined.

(** ... and back. *)
Lemma execute_halt_roundtrip_witness :
  ∃ eip s1 ebp esp s2, execute_handler 4096 three_shells = Some (ToUser eip, s1) ∧
    halt_handler 7 s1 = Some (ToParent ebp esp 7, s2) ∧ pid_arr (proc s2) = [1; 1; 1; 0; 0; 0].
Proof.
  destruct (execute_starts_child [[1]; [2]; [3]] three_shells 0 1 [] 4096 command_text elf_bytes three_shells_rep
    three_shells_runs eq_refl ltac:(cbn; lia) three_shells_wf exec_image_ok demo_good_command) as (slot&s1&_&Hrun&_).
  destruct (execute_halt_roundtrip [[1]; [2]; [3]] three_shells 0 1 [] 4096 command_text elf_bytes (word_at elf_bytes 24) 7 s1)
    as (ebp&esp&s2&Hh&_&_&(_&Hp&_)&_).
  - apply three_shells_rep.
  - apply three_shells_runs.
  - reflexivity.
  - cbn. lia.
  - apply three_shells_wf.
  - apply exec_image_ok.
  - apply demo_good_command.
  - exact Hrun.
  - exists (word_at elf_bytes 24), s1, ebp, esp, s2. split; [exact Hrun|]. split; [exact Hh|]. rewrite Hp. reflexivity.
Defined.

(** The child of the first shell halts. *)
Lemma halt_resumes_parent_witness :
  ∃ s1 s2 ebp esp, halt_handler 7 s1 = Some (ToParent ebp esp 7, s2) ∧ stacks_rep [[1]; [2]; [3]] (proc s2).
Proof.
  destruct (execute_starts_child [[1]; [2]; [3]] three_shells 0 1 [] 4096 command_text elf_bytes three_shells_rep
    three_shells_runs eq_refl ltac:(cbn; lia) three_shells_wf exec_image_ok demo_good_command)
    as (slot&s1&Hs&_&Hnew&_&Hwf&_). injection Hs as <-.
  destruct (halt_resumes_parent _ s1 0 4 1 [] 7 (np_rep _ _ _ _ _ _ _ _ Hnew) (np_runs _ _ _ _ _ _ _ _ Hnew) Hwf)
    as (s2&qc&_&Hh&_&[Hrep _ _ _ _ _ _ _]).
  exists s1, s2, (p_ebp qc), (p_esp qc). split; [exact Hh|exact Hrep].
Defined.

Lemma execute_refuses_witness :
  ∃ s' f, execute_handler 4100 three_shells = Some (Returns (-1), s') ∧
    s' = three_shells <| cpu ::= λ c, c <| if_flag := false |> |> <| proc ::= λ r, r <| args_flag := f |> |>.
Proof.
  apply (execute_refuses three_shells 4100).
  - apply (unknown_program _ _ [120]).
    + intros k c Hk. do 2 (destruct k as [|k]; [injection Hk as <-; reflexivity|]). done.
    + apply (bool_decide_unpack _); vm_compute; exact I.
    + apply (bool_decide_unpack _); vm_compute; exact I.
    + cbn. lia.
    + cbn. lia.
    + vm_compute. reflexivity.
  - apply exec_image_ok.
Defined.
