(* ===== verification/Scheduler.v ===== *)
(** * Scheduler: the timer tick ([scheduler.c])

    Every tick saves the stack of the running process in its PCB and goes on
    with the process on top of the next terminal's stack, in a circle of three;
    the first ticks start the three shells.  A tick does not return to the code
    it interrupted: its outcome is the stack it continues on, or what [execute]
    did. *)
From S2P Require Import Prelude Keep LibString LibMem Filesystem KState Paging PortIO Screen Switch Keyboard Terminal Frame Syscall FdTable Process Halt Exec.

Inductive tick :=
  | Resumes (esp ebp : Z)           (* the saved stack of the next process *)
  | Starts (o : outcome).           (* a shell *)

(** [video_mem = (char* ) video_addr[i]] *)
Definition select_video (i : Z) : K () :=
  a ← lift (aget video_addr i); set_scr (λ c, c <| video_mem := a |>).
Definition get_sched_pid (i : Z) : K Z := l ← get_proc sched_pid; lift (aget l i).
(** The two assembly blocks that load [esp] and [ebp]. *)
Definition load_stack (sp bp : Z) : K () := set_cpu (λ c, c <| esp := sp |> <| ebp := bp |>).

(** [shell] is the address of the string ["shell"]. *)
Definition start_shell (shell sp : Z) : K tick :=
  load_stack sp sp;;
  o ← execute_handler shell;
  mret (Starts o).

Definition switch_to (cur next : Z) : K tick :=
  set_proc (λ r, r <| curr_process := next |>);;
  select_video next;;
  np ← get_sched_pid next;
  let next_pcb := pcb_addr np in
  set_proc (λ r, r <| pcb_current := next_pcb |>);;
  set_cpu (λ c, c <| tss_ss0 := KERNEL_DS |> <| tss_esp0 := bottomKernal - (np - 1) * kernalStackSize - 4 |>);;
  p0 ← get_sched_pid 0;
  c ← get_pcb cur;
  (if (p0 =? 4) && (kesp c <=? 8359680) then set_pcb cur (λ p, p <| kesp := 0 |>) else skip);;   (* 0x7f8f00 *)
  n ← get_pcb next_pcb;
  map_user_page (bottomKernal + (pid n - 1) * pageSize);;
  flush_tlb;;
  scheduler_remap_video next;;
  n ← get_pcb next_pcb;
  load_stack (p_esp n) (p_ebp n);;
  sti;;
  mret (Resumes (p_esp n) (p_ebp n)).

Definition scheduler (shell : Z) : K tick :=
  p0 ← get_sched_pid 0;
  if p0 =? 0 then
    set_sched_pid 0 1;;
    select_video 0;;
    start_shell shell (bottomKernal - 4)
  else
    sp ← gets (λ s, esp (cpu s)); bp ← gets (λ s, ebp (cpu s));
    i ← the_process;
    p ← get_sched_pid i;
    let cur := pcb_addr p in
    set_pcb cur (λ c, c <| p_esp := sp |>);;
    set_pcb cur (λ c, c <| p_ebp := bp |>);;
    let next := (i + 1) `rem` 3 in
    select_video next;;
    np ← get_sched_pid next;
    if np =? 0 then
      p ← get_sched_pid i;
      set_sched_pid next (u8 (p + 1));;
      set_proc (λ r, r <| curr_process := next |>);;
      select_video next;;
      np ← get_sched_pid next;
      scheduler_remap_video next;;
      start_shell shell (bottomKernal - np * kernalStackSize - 4)
    else switch_to cur next.

Definition pit_interrupt_handler (shell : Z) : K tick :=
  cli;;
  send_eoi PIT_IRQ;;
  o ← scheduler shell;
  match o with
  | Starts (ToUser _) => mret o
  | _ => sti;; mret o
  end.

(** ** Running the pieces *)
Definition video_selected (i : Z) (s : kstate) : kstate :=
  s <| scr ::= λ c, c <| video_mem := page_of i |> |>.
Lemma select_video_run i s : 0 ≤ i < 3 → select_video i s = Some ((), video_selected i s).
Proof.
  intros Hi. unfold select_video. rewrite (bind_lift _ (page_of i)); [done|].
  assert (i = 0 ∨ i = 1 ∨ i = 2) as [-> | [-> | ->]] by lia; reflexivity.
Qed.
Lemma get_sched_pid_run i p s :
  aget (sched_pid (proc s)) i = Some p → get_sched_pid i s = Some (p, s).
Proof. intros Hp. unfold get_sched_pid, get_proc. rewrite bind_gets. by rewrite Hp. Qed.

Definition screen_phys (i : Z) (s : kstate) : Z := if i =? curr_terminal (scr s) then VIDEO_MEM else page_of i.
Definition tick_entry (phys old : Z) : Z :=
  set_user 1 (set_read_write 1 (set_present 1 (set_base_addr_entry (Z.shiftr phys 12) old))).
(** The page tables after [scheduler_remap_video i]. *)
Definition tick_mapped (i : Z) (s : kstate) : kstate :=
  with_page_virtual_mem (<[0%nat := tick_entry (screen_phys i s) (default 0 (aget (page_virtual_mem (mem s)) 0))]>
    (page_virtual_mem (mem s))) (page_mapped_to i (screen_phys i s) s).
Lemma scheduler_remap_run i s :
  paging_wf s → 0 ≤ i < 3 → scheduler_remap_video i s = Some ((), tick_mapped i s).
Proof.
  intros Hwf Hi. unfold scheduler_remap_video. destruct (Z.ltb_spec i 0), (Z.gtb_spec i 2); try lia. cbn [orb].
  unfold the_terminal. rewrite bind_gets. cbv zeta.
  replace (VIDEO_MEM + (1 + i) * KB_4) with (page_of i) by (unfold VIDEO_MEM, KB_4, page_of; lia).
  assert ((if i =? curr_terminal (scr s) then page_of i else page_of i) = page_of i) as E by (by destruct (_ =? _)).
  assert ((if i =? curr_terminal (scr s) then page_of i
    else if i =? curr_terminal (scr s) then VIDEO_MEM else page_of i) = page_of i) as -> by (by destruct (_ =? _)).
  change (if i =? curr_terminal (scr s) then VIDEO_MEM else page_of i) with (screen_phys i s).
  rewrite video_index_page by done.
  rewrite (bind_run _ _ _ _ _ (map_pte_run i (screen_phys i s) s (wf_table _ Hwf) Hi)).
  rewrite vmem_four_run by apply (wf_vmem _ Hwf). by rewrite flush_tlb_run.
Qed.

(** ** The stacks do not depend on the saved contexts *)
Definition same_links (c c' : pcb_t) : Prop :=
  pid c' = pid c ∧ parent_pid c' = parent_pid c ∧ parent_pcb c' = parent_pcb c.
Lemma chain_mono l l' b stk : (∀ p q, pcb_ok l p q → pcb_ok l' p q) → chain l b stk → chain l' b stk.
Proof.
  intros H. induction stk as [|p [|q rest] IH]; [done|intros [-> Hok]; split; [done|by apply H]|].
  intros [Hok Hch]. split; [by apply H|by apply IH].
Qed.
Lemma rep_relink st r k c c' r' :
  stacks_rep st r → aget (pcbs r) (k - 1) = Some c → same_links c c' →
  (∀ b, b = bool_decide (k ∉ concat st) → fds_ok b (pcb_arr c) → fds_ok b (pcb_arr c')) →
  program_count r' = program_count r → pid_arr r' = pid_arr r → sched_pid r' = sched_pid r →
  pcbs r' = <[pcb_index k := c']> (pcbs r) → stacks_rep st r'.
Proof.
  intros [Hl1 Hl2 Hl3 Hl4 Hnd Hrg Hlv Hcnt Htop Hch Hord Hfds] Hc (E1&E2&E3) E4 F1 F2 F3 F4.
  pose proof (aget_Some_range _ _ _ Hc) as Hk.
  assert (∀ j, aget (pcbs r') j = if decide (j = k - 1) then Some c' else aget (pcbs r) j) as Hget.
  { intros j. rewrite F4. exact (aget_insert (pcbs r) (k - 1) j c' ltac:(lia)). }
  constructor; rewrite ?F1, ?F2, ?F3; try done.
  - by rewrite F4, length_insert.
  - intros i stk Hi. apply (chain_mono (pcbs r)); [|by apply Hch]. intros p q (d&Hd&Hp1&Hp2&Hp3).
    unfold pcb_ok. rewrite Hget. destruct (decide (p - 1 = k - 1)) as [E|]; [|by exists d].
    assert (d = c) as -> by (rewrite E in Hd; congruence). exists c'. by rewrite E1, E2, E3.
  - intros p d. rewrite Hget. destruct (decide (p - 1 = k - 1)) as [E|]; [|by apply Hfds].
    intros [= <-]. assert (p = k) as -> by lia. apply E4, Hfds; done.
Qed.

Lemma top_pid st r i t rest :
  stacks_rep st r → aget st i = Some (t :: rest) → 1 ≤ t ≤ 6 ∧ aget (sched_pid r) i = Some t ∧
    ∃ c, aget (pcbs r) (t - 1) = Some c ∧ pid c = t.
Proof.
  intros Hr Hi. split; [apply (sr_range _ _ Hr), (in_stack _ _ _ _ Hi); left|].
  split; [by rewrite (sr_top _ _ Hr _ _ Hi)|]. pose proof (sr_chain _ _ Hr _ _ Hi) as Hch.
  destruct rest as [|q rest]; [destruct Hch as [_ (c&?&?&_)]|destruct Hch as [(c&?&?&_) _]]; eauto.
Qed.

Section moves.
Context (r : proc_t) (s : kstate).
Lemma set_scr_bind {B} f (m : () → K B) : (set_scr f ≫= m) (with_proc r s) = m () (with_proc r (s <| scr ::= f |>)).
Proof. done. Qed.
Lemma set_cpu_bind {B} f (m : () → K B) : (set_cpu f ≫= m) (with_proc r s) = m () (with_proc r (s <| cpu ::= f |>)).
Proof. done. Qed.
Lemma select_video_bind {B} i (m : () → K B) :
  0 ≤ i < 3 → (select_video i ≫= m) (with_proc r s) = m () (with_proc r (video_selected i s)).
Proof. intros Hi. by rewrite (bind_run _ _ _ _ _ (select_video_run i _ Hi)). Qed.
Lemma get_sched_pid_bind {B} i p (m : Z → K B) :
  aget (sched_pid r) i = Some p → (get_sched_pid i ≫= m) (with_proc r s) = m p (with_proc r s).
Proof. intros Hp. by rewrite (bind_run _ _ _ _ _ (get_sched_pid_run i p (with_proc r s) Hp)). Qed.
Lemma map_user_page_bind {B} phys (m : () → K B) :
  paging_wf s → (map_user_page phys ≫= m) (with_proc r s) = m () (with_proc r (user_mapped phys s)).
Proof.
  intros Hwf. assert (paging_wf (with_proc r s)) as Hwf' by (by apply (paging_wf_mem s)).
  by rewrite (bind_run _ _ _ _ _ (map_user_page_run phys _ Hwf')).
Qed.
Lemma remap_bind {B} i (m : () → K B) :
  paging_wf s → 0 ≤ i < 3 → (scheduler_remap_video i ≫= m) (with_proc r s) = m () (with_proc r (tick_mapped i s)).
Proof.
  intros Hwf Hi. assert (paging_wf (with_proc r s)) as Hwf' by (by apply (paging_wf_mem s)).
  by rewrite (bind_run _ _ _ _ _ (scheduler_remap_run i _ Hwf' Hi)).
Qed.
End moves.

Lemma tick_mapped_wf i s : paging_wf s → paging_wf (tick_mapped i s).
Proof. intros []. constructor; cbn; rewrite ?length_insert; done. Qed.

(** The user page is not affected by the mapping of the screen. *)
Lemma tick_mapped_user i phys s usr v :
  paging_wf s → 0 ≤ phys < 4294967296 → phys mod 4194304 = 0 → in_user_page v →
  translate_as usr (tick_mapped i (user_mapped phys s)) v = Some (phys + (v - 134217728)).
Proof.
  intros Hwf Hp Ha Hv. rewrite <- (user_mapped_translate usr phys s v Hwf Hp Ha Hv).
  pose proof (user_mapped_enabled phys s) as Hen. unfold in_user_page in Hv.
  rewrite !translate_enabled by (done || lia). destruct (user_pde_fields phys) as (H1&H2&H3&_&H4).
  assert (aget (page_dir (mem (user_mapped phys s))) (v / 4194304) = Some (user_pde phys)) as Hpde.
  { replace (v / 4194304) with 32 by (Z.div_mod_to_equations; lia). cbn.
    apply (aget_insert_eq _ 32). pose proof (wf_dir _ Hwf). lia. }
  rewrite !(walk_large _ _ _ (user_pde phys)); done.
Qed.

(** ** The switch *)
Definition context (sp bp : Z) (c : pcb_t) : pcb_t := c <| p_esp := sp |> <| p_ebp := bp |>.
(** [kesp] of a process on the fourth stack may be cleared. *)
Definition unkernel (p0 : Z) (c : pcb_t) : pcb_t :=
  if (p0 =? 4) && (kesp c <=? 8359680) then c <| kesp := 0 |> else c.
Lemma unkernel_rest p0 c :
  same_links c (unkernel p0 c) ∧ pcb_arr (unkernel p0 c) = pcb_arr c ∧ p_esp (unkernel p0 c) = p_esp c ∧ p_ebp (unkernel p0 c) = p_ebp c.
Proof. unfold unkernel. by destruct (_ && _). Qed.

Definition switched_cpu (t sp bp : Z) (c : cpu_t) : cpu_t :=
  c <| tss_ss0 := KERNEL_DS |> <| tss_esp0 := bottomKernal - (t - 1) * kernalStackSize - 4 |>
    <| esp := sp |> <| ebp := bp |> <| if_flag := true |>.
Definition switched_proc (j t p0 : Z) (c : pcb_t) (k : Z) (r : proc_t) : proc_t :=
  r <| curr_process := j |> <| pcb_current := pcb_addr t |> <| pcbs ::= <[pcb_index k := unkernel p0 c]> |>.
Definition switched_mem (j t : Z) (s : kstate) : kstate :=
  tick_mapped j (user_mapped (frame t) (video_selected j s)).

Lemma switch_to_run r s k j t p0 c ct :
  1 ≤ k ≤ 6 → 1 ≤ t ≤ 6 → k ≠ t → 0 ≤ j < 3 → paging_wf s →
  aget (sched_pid r) j = Some t → aget (sched_pid r) 0 = Some p0 →
  aget (pcbs r) (k - 1) = Some c → aget (pcbs r) (t - 1) = Some ct → pid ct = t →
  switch_to (pcb_addr k) j (with_proc r s) = Some (Resumes (p_esp ct) (p_ebp ct),
    with_proc (switched_proc j t p0 c k r) ((switched_mem j t s) <| cpu ::= switched_cpu t (p_esp ct) (p_ebp ct) |>)).
Proof.
  intros Hk Ht Hne Hj Hwf Hsj Hs0 Hc Hct Hpid. pose proof (aget_Some_range _ _ _ Hc) as Hcr. unfold switch_to.
  rewrite set_proc_bind, select_video_bind, (get_sched_pid_bind _ _ j t) by done. cbv zeta.
  rewrite set_proc_bind, set_cpu_bind, (get_sched_pid_bind _ _ 0 p0), (get_pcb_bind _ _ k c) by done.
  set (r1 := r <| curr_process := j |> <| pcb_current := pcb_addr t |>).
  set (s1 := video_selected j s <| cpu ::= λ c, c <| tss_ss0 := KERNEL_DS |>
    <| tss_esp0 := bottomKernal - (t - 1) * kernalStackSize - 4 |> |>). set (r2 := switched_proc j t p0 c k r).
  assert (∀ (m : () → K tick), (((if (p0 =? 4) && (kesp c <=? 8359680) then set_pcb (pcb_addr k) (λ p, p <| kesp := 0 |>) else skip)
    ≫= m) (with_proc r1 s1) = m () (with_proc r2 s1))) as Hif.
  { intros m. unfold r2, switched_proc, unkernel. fold r1. destruct (_ && _); [by rewrite (set_pcb_bind _ _ k _ c)|].
    rewrite bind_skip. f_equal. f_equal. apply proc_eq; try reflexivity. cbn. symmetry.
    apply list_insert_id. unfold pcb_index. by rewrite <- aget_nonneg by lia. }
  rewrite Hif. clear Hif.
  assert (aget (pcbs r2) (t - 1) = Some ct) as Hct2.
  { rewrite <- Hct. change (aget (<[pcb_index k := unkernel p0 c]> (pcbs r)) (t - 1) = aget (pcbs r) (t - 1)).
    unfold pcb_index. rewrite aget_insert by lia. by rewrite decide_False by lia. }
  rewrite (get_pcb_bind _ _ t ct), Hpid by done.
  assert (paging_wf s1) as Hwf1 by (by apply (paging_wf_mem s)).
  rewrite map_user_page_bind by done. change (bottomKernal + (t - 1) * pageSize) with (frame t).
  rewrite (bind_run _ _ _ _ _ (flush_tlb_run _)).
  rewrite remap_bind by (done || by apply user_mapped_wf).
  rewrite (get_pcb_bind _ _ t ct) by done. unfold load_stack. rewrite set_cpu_bind. unfold sti. rewrite bind_modify.
  unfold mret, M_ret. do 2 f_equal.
Qed.

(** The low 4 MB are mapped by the same table. *)
Definition low_same (s s' : kstate) : Prop :=
  page_table (mem s') = page_table (mem s) ∧ aget (page_dir (mem s')) 0 = aget (page_dir (mem s)) 0 ∧
  page_table_addr (mem s') = page_table_addr (mem s) ∧ page_virtual_mem_addr (mem s') = page_virtual_mem_addr (mem s).
Lemma user_mapped_low phys s : paging_wf s → low_same s (user_mapped phys s).
Proof.
  intros Hwf. split; [done|]. split; [|done].
  exact (aget_insert_ne (page_dir (mem s)) 32 0 _ ltac:(pose proof (wf_dir _ Hwf); lia) ltac:(lia)).
Qed.

(** What a tick does to the kernel, from the process [t] of terminal [i] to the
    process [t'] of terminal [j]. *)
Record switched (st : stacks) (t j t' : Z) (rest' : list Z) (s s' : kstate) : Prop := {
  sw_rep : stacks_rep st (proc s');
  sw_runs : runs st s' j t' rest';
  sw_paging : paging_wf s';
  sw_saved : ∃ c, aget (pcbs (proc s')) (t - 1) = Some c ∧ p_esp c = esp (cpu s) ∧ p_ebp c = ebp (cpu s);
  sw_others : ∀ k, k ≠ pcb_index t → pcbs (proc s') !! k = pcbs (proc s) !! k;
  sw_page : ∀ usr v, in_user_page v → translate_as usr s' v = Some (frame t' + (v - 134217728));
  sw_stack : tss_esp0 (cpu s') = bottomKernal - (t' - 1) * kernalStackSize - 4;
  sw_enabled : if_flag (cpu s') = true;
  sw_screen : scr s' = (scr s) <| video_mem := page_of j |>;
  sw_low : low_same (tick_mapped j s) s' ∧ paging_enabled s';
  sw_rest : kbd s' = kbd s ∧ rtc s' = rtc s ∧ fs_image s' = fs_image s;
}.

Lemma pcbs_thrice r k a b c :
  r <| pcbs ::= <[pcb_index k := a]> |> <| pcbs ::= <[pcb_index k := b]> |> <| pcbs ::= <[pcb_index k := c]> |> =
  r <| pcbs ::= <[pcb_index k := c]> |>.
Proof. by rewrite !pcbs_twice. Qed.

Definition next_terminal (i : Z) : Z := (i + 1) `rem` 3.
Lemma next_range i : 0 ≤ i < 3 → 0 ≤ next_terminal i < 3 ∧ next_terminal i ≠ i.
Proof. intros Hi. unfold next_terminal. assert (i = 0 ∨ i = 1 ∨ i = 2) as [-> | [-> | ->]] by lia; split; vm_compute; intuition discriminate. Qed.

(** The start of a tick: the context of the running process is saved. *)
Lemma scheduler_begin st shell s i t rest p0 c :
  stacks_rep st (proc s) → runs st s i t rest → aget (sched_pid (proc s)) 0 = Some p0 → p0 ≠ 0 →
  aget (pcbs (proc s)) (t - 1) = Some c →
  let r1 := (proc s) <| pcbs ::= <[pcb_index t := context (esp (cpu s)) (ebp (cpu s)) c]> |> in
  let next := next_terminal i in
  scheduler shell s =
    (np ← get_sched_pid next;
     if np =? 0 then
       p ← get_sched_pid i;
       set_sched_pid next (u8 (p + 1));;
       set_proc (λ r, r <| curr_process := next |>);;
       select_video next;;
       np ← get_sched_pid next;
       scheduler_remap_video next;;
       start_shell shell (bottomKernal - np * kernalStackSize - 4)
     else switch_to (pcb_addr t) next) (with_proc r1 (video_selected next s)).
Proof.
  intros Hr (Hi&Hcp&Hcur) Hs0 Hp0 Hc r1 next. destruct (top_pid _ _ _ _ _ Hr Hi) as (Ht&Hst&_).
  pose proof (stack_indices _ _ _ (sr_stacks _ _ Hr) Hi) as Hir. pose proof (aget_Some_range _ _ _ Hc).
  destruct (next_range i Hir) as [Hnr _]. fold next in Hnr. rewrite <- (with_proc_same s) at 1. unfold scheduler.
  rewrite (get_sched_pid_bind _ _ 0 p0) by done. destruct (Z.eqb_spec p0 0); [done|].
  rewrite !gets_cpu_bind. unfold the_process. rewrite bind_gets.
  change (curr_process (proc (with_proc (proc s) s))) with (curr_process (proc s)). rewrite Hcp.
  rewrite (get_sched_pid_bind _ _ i t) by done. cbv zeta. rewrite (set_pcb_bind _ _ t _ c) by (done || lia).
  rewrite (set_pcb_bind _ _ t _ (c <| p_esp := esp (cpu s) |>)) by (done || lia || (apply pcb_index_get; lia)).
  rewrite pcbs_twice. change ((i + 1) `rem` 3) with next. rewrite select_video_bind by done. done.
Qed.

Lemma scheduler_switches st shell s i t rest t' rest' :
  let j := next_terminal i in
  stacks_rep st (proc s) → runs st s i t rest → aget st 0 ≠ Some [] → aget st j = Some (t' :: rest') → paging_wf s →
  ∃ s' c', aget (pcbs (proc s)) (t' - 1) = Some c' ∧
    scheduler shell s = Some (Resumes (p_esp c') (p_ebp c'), s') ∧
    esp (cpu s') = p_esp c' ∧ ebp (cpu s') = p_ebp c' ∧ switched st t j t' rest' s s'.
Proof.
  intros j Hr Hrun H0 Hj Hwf. pose proof Hrun as (Hi&Hcp&Hcur).
  pose proof (stack_indices _ _ _ (sr_stacks _ _ Hr) Hi) as Hir. destruct (next_range i Hir) as [Hjr Hji]. fold j in Hjr, Hji.
  destruct (top_pid _ _ _ _ _ Hr Hi) as (Ht&Hst&c&Hc&_). destruct (top_pid _ _ _ _ _ Hr Hj) as (Ht'&Hst'&c'&Hc'&Hpid').
  pose proof (sr_pcbs _ _ Hr) as Hl.
  destruct (proj2 (aget_is_Some st 0)) as [stk0 Hstk0]; [rewrite (sr_stacks _ _ Hr); lia|].
  destruct stk0 as [|p0 rest0]; [done|]. destruct (top_pid _ _ _ _ _ Hr Hstk0) as (Hp0&Hs0&_).
  assert (t ≠ t') as Hne.
  { intros ->. apply Hji. eapply (stack_inj st j i); [apply Hr|exact Hj|exact Hi|left|left]. }
  rewrite (scheduler_begin st shell s i t rest p0 c Hr Hrun Hs0 ltac:(lia) Hc). cbv zeta. fold j.
  set (c1 := context _ _ c). set (r1 := (proc s) <| pcbs ::= <[pcb_index t := c1]> |>).
  rewrite (get_sched_pid_bind _ _ j t') by done. destruct (Z.eqb_spec t' 0); [lia|].
  assert (aget (pcbs r1) (t - 1) = Some c1) as Hc1 by (apply (pcb_index_get (pcbs (proc s))); lia).
  assert (aget (pcbs r1) (t' - 1) = Some c') as Hc1'.
  { rewrite <- Hc'. pose proof (aget_insert (pcbs (proc s)) (t - 1) (t' - 1) c1 ltac:(lia)) as E.
    rewrite decide_False in E by lia. exact E. }
  rewrite (switch_to_run r1 _ t j t' p0 c1 c'); try done.
  2: { by apply (paging_wf_mem s). }
  destruct (unkernel_rest p0 c1) as (Hlink&Harr&Hsp&Hbp).
  assert (pcbs (switched_proc j t' p0 c1 t r1) = <[pcb_index t := unkernel p0 c1]> (pcbs (proc s))) as Hpcbs.
  { exact (insert_twice (pcbs (proc s)) (pcb_index t) (unkernel p0 c1) c1). }
  eexists. exists c'. split; [done|]. split; [reflexivity|]. split; [done|]. split; [done|]. constructor.
  - apply (rep_relink st (proc s) t c (unkernel p0 c1)); try done. intros b _. by rewrite Harr.
  - by split_and!.
  - by apply (paging_wf_mem (switched_mem j t' (video_selected j s))), tick_mapped_wf, user_mapped_wf, (paging_wf_mem s).
  - exists (unkernel p0 c1). split; [|by rewrite Hsp, Hbp]. cbn [proc with_proc setter kstate_settable].
    rewrite Hpcbs. apply pcb_index_get. lia.
  - intros k Hk. change (pcbs (switched_proc j t' p0 c1 t r1) !! k = pcbs (proc s) !! k). rewrite Hpcbs.
    by apply list_lookup_insert_ne.
  - intros usr v Hv. destruct (frame_ok t' Ht') as [Hf1 Hf2].
    apply (tick_mapped_user j (frame t') (video_selected j (video_selected j s)) usr v); try done.
    by apply (paging_wf_mem s).
  - done.
  - done.
  - done.
  - split; [|by apply (user_mapped_enabled (frame t') (video_selected j (video_selected j s)))].
    destruct (user_mapped_low (frame t') s Hwf) as (_&Hd&_&_). by split_and!.
  - done.
Qed.

(** ** Three ticks *)

(** C7. Every tick saves the running process and resumes the one on top of the
    next terminal, in its own page and on its own kernel stack; the third tick is
    back at the first process with the stack and frame pointers it was
    interrupted with.  The process table is the same throughout. *)
Theorem scheduler_round_robin st shell s i t rest t1 rest1 t2 rest2 :
  let j := next_terminal i in let k := next_terminal j in
  stacks_rep st (proc s) → runs st s i t rest → aget st j = Some (t1 :: rest1) → aget st k = Some (t2 :: rest2) →
  paging_wf s →
  ∃ s1 s2 s3 c1 c2,
    scheduler shell s = Some (Resumes (p_esp c1) (p_ebp c1), s1) ∧ switched st t j t1 rest1 s s1 ∧
    scheduler shell s1 = Some (Resumes (p_esp c2) (p_ebp c2), s2) ∧ switched st t1 k t2 rest2 s1 s2 ∧
    scheduler shell s2 = Some (Resumes (esp (cpu s)) (ebp (cpu s)), s3) ∧ switched st t2 i t rest s2 s3.
Proof.
  intros j k Hr Hrun Hj Hk Hwf. pose proof Hrun as (Hi&_).
  pose proof (stack_indices _ _ _ (sr_stacks _ _ Hr) Hi) as Hir.
  assert (next_terminal k = i ∧ (i = 0 ∨ j = 0 ∨ k = 0) ∧ k ≠ i) as (Hki&H0&Hne).
  { unfold k, j, next_terminal. assert (i = 0 ∨ i = 1 ∨ i = 2) as [-> | [-> | ->]] by lia;
      (split; [reflexivity|split; [vm_compute; tauto|vm_compute; discriminate]]). }
  assert (aget st 0 ≠ Some []) as H0st by (destruct H0 as [E|[E|E]]; rewrite E in *; congruence).
  destruct (scheduler_switches st shell s i t rest t1 rest1 Hr Hrun H0st Hj Hwf) as (s1&c1&_&Hs1&_&_&Hsw1).
  destruct (scheduler_switches st shell s1 j t1 rest1 t2 rest2 (sw_rep _ _ _ _ _ _ _ Hsw1) (sw_runs _ _ _ _ _ _ _ Hsw1)
    H0st Hk (sw_paging _ _ _ _ _ _ _ Hsw1)) as (s2&c2&_&Hs2&_&_&Hsw2).
  assert (aget st (next_terminal k) = Some (t :: rest)) as Hi' by (by rewrite Hki).
  destruct (scheduler_switches st shell s2 k t2 rest2 t rest (sw_rep _ _ _ _ _ _ _ Hsw2) (sw_runs _ _ _ _ _ _ _ Hsw2)
    H0st Hi' (sw_paging _ _ _ _ _ _ _ Hsw2)) as (s3&c3&Hc3&Hs3&_&_&Hsw3).
  rewrite Hki in Hsw3. exists s1, s2, s3, c1, c2. split; [done|]. split; [done|]. split; [done|]. split; [done|].
  destruct (sw_saved _ _ _ _ _ _ _ Hsw1) as (c&Hc&Hsp&Hbp).
  destruct (top_pid _ _ _ _ _ Hr Hi) as (Ht&_). destruct (top_pid _ _ _ _ _ Hr Hj) as (Ht1&_).
  assert (t ≠ t1) as Htt.
  { intros ->. destruct (next_range i Hir) as [_ Hn]. apply Hn. fold j.
    eapply (stack_inj st j i); [apply Hr|exact Hj|exact Hi|left|left]. }
  assert (c3 = c) as ->.
  { rewrite aget_nonneg in * by lia. rewrite (sw_others _ _ _ _ _ _ _ Hsw2) in Hc3 by (unfold pcb_index; lia). congruence. }
  rewrite <- Hsp, <- Hbp. by split.
Qed.

(** The three shells, each resumed in its turn. *)
Lemma scheduler_round_robin_witness :
  ∃ s1 s2 s3 o1 o2, scheduler 0 three_shells = Some (o1, s1) ∧ scheduler 0 s1 = Some (o2, s2) ∧
    scheduler 0 s2 = Some (Resumes 8388604 8388604, s3) ∧ curr_process (proc s3) = 0.
Proof.
  destruct (scheduler_round_robin [[1]; [2]; [3]] 0 three_shells 0 1 [] 2 [] 3 [])
    as (s1&s2&s3&c1&c2&H1&_&H2&_&H3&Hsw).
  - apply three_shells_rep.
  - apply three_shells_runs.
  - reflexivity.
  - reflexivity.
  - apply three_shells_wf.
  - exists s1, s2, s3, (Resumes (p_esp c1) (p_ebp c1)), (Resumes (p_esp c2) (p_ebp c2)).
    split; [exact H1|]. split; [exact H2|]. split; [exact H3|]. exact (proj1 (proj2 (sw_runs _ _ _ _ _ _ _ Hsw))).
Defined.

(** ** Starting the shells *)
Definition shell_name : list Z := [115; 104; 101; 108; 108].
(** The kernel's page, and in it the string ["shell"], which names a program. *)
Record shell_ready (shell : Z) (bs : list Z) (s : kstate) : Prop := {
  sh_range : 4194304 ≤ shell < 8388600;
  sh_paging : paging_wf s ∧ paging_enabled s;
  sh_page : ∃ pde, aget (page_dir (mem s)) 1 = Some pde ∧ present pde = 1 ∧ ps pde = 1 ∧ base_addr_entry pde = 1;
  sh_text : ∀ k c, (shell_name ++ [0]) !! k = Some c → contents s (shell + Z.of_nat k) = c;
  sh_image : image_ok (fs_image s);
  sh_file : ∃ d, find_dentry (fs_image s) shell_name = Some d ∧ file_data (fs_image s) (u32 (inode_num d)) bs;
  sh_size : 28 ≤ zlen bs ≤ 3899392;
  sh_magic : take 4 bs = [127; 69; 76; 70];
}.

Lemma shell_command shell bs s : shell_ready shell bs s → good_command s shell shell_name bs.
Proof.
  intros [Hrg (Hwf&Hen) (pde&Hpde&Hp&Hps&Hb) Htext _ Hfile Hsz Hm]. constructor; try done; try lia.
  - intros k c Hk. pose proof (lookup_lt_Some _ _ _ Hk) as Hlt. cbn in Hlt. rewrite u32_small by (cint; lia).
    change (contents s <$> translate_as false s (shell + Z.of_nat k) = Some c).
    rewrite translate_enabled by (done || lia). rewrite (walk_large _ _ _ pde); try done.
    + rewrite Hb. cbn [fmap option_fmap option_map]. f_equal. rewrite <- (Htext k c Hk). f_equal.
      Z.div_mod_to_equations; lia.
    + by replace ((shell + Z.of_nat k) / 4194304) with 1 by (Z.div_mod_to_equations; lia).
  - apply (bool_decide_unpack _); vm_compute; exact I.
  - apply (bool_decide_unpack _); vm_compute; exact I.
Qed.

(** What keeps the shell ready. *)
Lemma shell_ready_frame shell bs s s' :
  shell_ready shell bs s → paging_wf s' → paging_enabled s' → aget (page_dir (mem s')) 1 = aget (page_dir (mem s)) 1 →
  (∀ q, 4194304 ≤ q < 8388608 → contents s' q = contents s q) → fs_image s' = fs_image s → shell_ready shell bs s'.
Proof.
  intros [Hrg _ Hpde Htext Himg Hfile Hsz Hm] Hwf Hen Hdir Hc Hfs. constructor; rewrite ?Hdir, ?Hfs; try done.
  intros k c Hk. pose proof (lookup_lt_Some _ _ _ Hk) as Hlt. cbn in Hlt. rewrite Hc by lia. by apply Htext.
Qed.

Lemma paging_enabled_eq s s' :
  cr0 (cpu s') = cr0 (cpu s) → cr3 (cpu s') = cr3 (cpu s) → cr4 (cpu s') = cr4 (cpu s) →
  page_dir_addr (mem s') = page_dir_addr (mem s) → paging_enabled s → paging_enabled s'.
Proof. unfold paging_enabled, paging_on, pse_on. by intros -> -> -> ->. Qed.

Lemma poke_mem l p s :
  page_dir (mem (poke l p s)) = page_dir (mem s) ∧ page_dir_addr (mem (poke l p s)) = page_dir_addr (mem s).
Proof. revert p s. induction l as [|c l IH]; intros p s; [done|]. cbn [poke]. by destruct (IH (p + 1) (update p (u8 c) s)) as [-> ->]. Qed.

(** Loading a program in a frame leaves the kernel's page alone. *)
Lemma shell_ready_loaded shell bs slot args bs' s :
  shell_ready shell bs s → 0 ≤ slot < 6 → shell_ready shell bs (loaded slot args bs' s).
Proof.
  intros Hsh Hs. destruct (sh_paging _ _ _ Hsh) as [Hwf Hen]. destruct (loaded_rest slot args bs' s) as (_&_&_&_&Hfs&_).
  apply (shell_ready_frame shell bs s); try done.
  - by apply loaded_wf.
  - unfold loaded. set (s1 := user_mapped _ _). destruct (poke_rest bs' (program_base slot) s1) as (_&_&_&_&_&_&Hc&_).
    pose proof (user_mapped_enabled (frame (slot + 1)) (set_args_flag args (s <| cpu ::= λ c, c <| if_flag := false |> |>))) as He.
    fold s1 in He. apply (paging_enabled_eq s1); rewrite ?Hc; try done. apply poke_mem.
  - unfold loaded. rewrite (proj1 (poke_mem _ _ _)). cbn [user_mapped mem setter page_dir kstate_settable mem_settable].
    exact (aget_insert_ne (page_dir (mem s)) 32 1 _ ltac:(pose proof (wf_dir _ Hwf); lia) ltac:(lia)).
  - intros q Hq. unfold loaded. rewrite poke_contents, decide_False; [done|].
    unfold program_base, frame, bottomKernal, pageSize. lia.
Qed.

Lemma poke_tables l p s : mem (poke l p s) = (mem s) <| phys := phys (mem (poke l p s)) |>.
Proof.
  revert p s. induction l as [|c l IH]; intros p s; cbn [poke]; [by destruct (mem s)|]. etrans; [apply IH|]. done.
Qed.
Lemma loaded_low slot args bs s : paging_wf s → low_same s (loaded slot args bs s).
Proof.
  intros Hwf. unfold loaded. set (s1 := set_args_flag args _).
  assert (paging_wf s1) as Hwf1 by (by apply (paging_wf_mem s)).
  unfold low_same. rewrite poke_tables. exact (user_mapped_low (frame (slot + 1)) s1 Hwf1).
Qed.

Lemma start_shell_run st r s shell bs sp v :
  let n := zlen (concat st) in
  stacks_rep st r → n < 3 → curr_process r = n → shell_ready shell bs s →
  ∃ s', start_shell shell sp (with_proc (r <| sched_pid ::= <[Z.to_nat n := v]> |>) s) =
      Some (Starts (ToUser (word_at bs 24)), s') ∧
    stacks_rep (push n (n + 1) st) (proc s') ∧ runs (push n (n + 1) st) s' n (n + 1) [] ∧
    shell_ready shell bs s' ∧ kbd s' = kbd s ∧ scr s' = scr s ∧ low_same s s'.
Proof.
  intros n Hr Hn Hcp Hsh. destruct (sh_paging _ _ _ Hsh) as [Hwf Hen]. unfold start_shell, load_stack. rewrite set_cpu_bind.
  set (r1 := setter sched_pid _ r). set (s1 := s <| cpu ::= λ c, c <| esp := sp |> <| ebp := sp |> |>).
  set (s0 := with_proc r1 s1).
  assert (shell_ready shell bs s0) as Hsh0.
  { apply (shell_ready_frame shell bs s); try done. by apply (paging_wf_mem s). }
  pose proof (sr_count _ _ Hr) as Hcnt. fold n in Hcnt.
  set (f := flag_of_args (pad128 (command_args shell_name))). set (r' := setter args_flag f r).
  assert (stacks_rep st r') as Hr' by (by apply rep_args_flag). set (sl := loaded n (command_args shell_name) bs s0).
  destruct (start_base st r' sl (pad128 (command_args shell_name)) (word_at bs 24) Hr' Hn Hcp) as (s'&Hfree&Hstart&Hnew).
  fold n in Hfree, Hstart, Hnew. change (pid_arr r') with (pid_arr r) in Hfree.
  assert (execute_handler shell s0 = Some (ToUser (word_at bs 24), s')) as Hex.
  { rewrite (execute_run s0 shell shell_name bs n); [|by apply shell_command|apply Hsh0|by apply Hsh0| |done|lia].
    - fold sl. destruct (loaded_rest n (command_args shell_name) bs s0) as (_&_&_&_&_&Hp&_). fold sl in Hp.
      rewrite <- (with_proc_same sl), Hp, <- Hstart. apply (start_base_sched r'); try done; try lia; apply Hr.
    - change (program_count r < 6). lia. }
  rewrite (bind_run _ _ _ _ _ Hex). exists s'. split; [done|]. split; [apply Hnew|]. split; [apply Hnew|].
  destruct (np_rest _ _ _ _ _ _ _ _ Hnew) as (M1&M2&M3&_&_&M6).
  destruct (loaded_rest n (command_args shell_name) bs s0) as (E1&E2&_). fold sl in E1, E2.
  split; [|split; [etrans; [exact M3|exact E2]|split; [etrans; [exact M2|exact E1]|]]].
  2: { unfold low_same. rewrite M1. apply (loaded_low n (command_args shell_name) bs s0). by apply (paging_wf_mem s). }
  assert (shell_ready shell bs sl) as Hshl by (apply shell_ready_loaded; [done|lia]).
  destruct (sh_paging _ _ _ Hshl) as [Hwfl Henl]. pose proof (np_cpu _ _ _ _ _ _ _ _ Hnew) as Hcpu.
  apply (shell_ready_frame shell bs sl); try done.
  - by apply (paging_wf_mem sl).
  - apply (paging_enabled_eq sl); rewrite ?Hcpu, ?M1; done.
  - by rewrite M1.
  - intros q _. cbn. by rewrite M1.
Qed.

Lemma shell_ready_tick shell bs j s :
  shell_ready shell bs s → shell_ready shell bs (tick_mapped j (video_selected j s)).
Proof.
  intros Hsh. destruct (sh_paging _ _ _ Hsh) as [Hwf _]. apply (shell_ready_frame shell bs s); try done.
  - by apply tick_mapped_wf, (paging_wf_mem s).
  - by destruct (sh_paging _ _ _ Hsh).
Qed.

(** The stacks while [n] shells run. *)
Lemma booting_first st r : stacks_rep st r → 0 < zlen (concat st) → ∃ p0, aget (sched_pid r) 0 = Some p0 ∧ p0 ≠ 0.
Proof.
  intros Hr Hn. destruct (proj2 (aget_is_Some st 0)) as [stk Hs]; [rewrite (sr_stacks _ _ Hr); lia|].
  destruct stk as [|p stk]; [pose proof (sr_order _ _ Hr 0 Hs); lia|].
  destruct (top_pid _ _ _ _ _ Hr Hs) as (Hp&Ht&_). exists p. split; [done|lia].
Qed.

Lemma scheduler_boots st s shell bs :
  let n := zlen (concat st) in
  stacks_rep st (proc s) → n < 3 → (n = 0 → curr_process (proc s) = 0) → (0 < n → runs st s (n - 1) n []) →
  shell_ready shell bs s →
  ∃ s', scheduler shell s = Some (Starts (ToUser (word_at bs 24)), s') ∧
    stacks_rep (push n (n + 1) st) (proc s') ∧ runs (push n (n + 1) st) s' n (n + 1) [] ∧
    shell_ready shell bs s' ∧ scr s' = (scr s) <| video_mem := page_of n |> ∧
    low_same (if n =? 0 then s else tick_mapped n s) s'.
Proof.
  intros n Hr Hn Hc0 Hrun Hsh. pose proof (booting_empty st _ Hr Hn) as Hempty. fold n in Hempty.
  pose proof (sr_sched _ _ Hr) as Hls. pose proof (sr_top _ _ Hr _ _ Hempty) as Hsn. cbn in Hsn.
  destruct (decide (n = 0)) as [E|Hpos].
  - assert (scheduler shell s = scheduler shell (with_proc (proc s) s)) as -> by (by rewrite with_proc_same).
    unfold scheduler. rewrite (get_sched_pid_bind _ _ 0 0) by (by rewrite E in Hsn).
    cbn [Z.eqb]. rewrite set_sched_pid_bind, select_video_bind by lia.
    destruct (start_shell_run st (proc s) (video_selected 0 s) shell bs (bottomKernal - 4) 1) as (s'&H1&H2&H3&H4&_&H6&H7);
      try done; [fold n; rewrite E; by apply Hc0| |].
    + apply (shell_ready_frame shell bs s); try done; [by apply (paging_wf_mem s); [|apply Hsh]|by destruct (sh_paging _ _ _ Hsh)].
    + fold n in H1, H2, H3. rewrite E in H1 at 1. exists s'. do 4 (split; [done|]). rewrite E. split; [exact H6|exact H7].
  - specialize (Hrun ltac:(lia)). pose proof Hrun as (Hi&Hcp&Hcur).
    destruct (booting_first st _ Hr ltac:(fold n; lia)) as (p0&Hs0&Hp0). destruct (top_pid _ _ _ _ _ Hr Hi) as (Ht&Hst&c&Hc&_).
    rewrite (scheduler_begin st shell s (n - 1) n [] p0 c Hr Hrun Hs0 Hp0 Hc). cbv zeta.
    assert (next_terminal (n - 1) = n) as -> by (assert (n = 1 ∨ n = 2) as [E | E] by lia; rewrite E; reflexivity).
    set (c1 := context _ _ c). set (r1 := (proc s) <| pcbs ::= <[pcb_index n := c1]> |>).
    rewrite (get_sched_pid_bind _ _ n 0) by done. cbn [Z.eqb].
    rewrite (get_sched_pid_bind _ _ (n - 1) n) by done. rewrite set_sched_pid_bind by (change (0 ≤ n < zlen (sched_pid (proc s))); lia).
    rewrite u8_small by (cint; lia). rewrite set_proc_bind, select_video_bind by lia.
    set (r2 := r1 <| curr_process := n |>).
    rewrite (get_sched_pid_bind _ _ n (n + 1)).
    2: { pose proof (aget_insert (sched_pid (proc s)) n n (n + 1) ltac:(lia)) as E. by rewrite decide_True in E. }
    rewrite remap_bind by (lia || (by apply (paging_wf_mem s); [|apply Hsh])).
    assert (stacks_rep st r2) as Hr2.
    { by apply (rep_relink st (proc s) n c c1 r2 Hr Hc). }
    destruct (start_shell_run st r2 (tick_mapped n (video_selected n (video_selected n s))) shell bs
      (bottomKernal - (n + 1) * kernalStackSize - 4) (n + 1) Hr2 Hn eq_refl) as (s'&H1&H2&H3&H4&_&H6&H7).
    + apply shell_ready_tick. apply (shell_ready_frame shell bs s); try done; [by apply (paging_wf_mem s); [|apply Hsh]|by destruct (sh_paging _ _ _ Hsh)].
    + fold n in H1, H2, H3. exists s'. split; [exact H1|]. do 3 (split; [done|]). split; [exact H6|].
      rewrite (proj2 (Z.eqb_neq n 0)) by lia. exact H7.
Qed.

(** From an empty process table the first three ticks start the shells 1, 2
    and 3, one on each terminal, each as its own parent. *)
Lemma scheduler_boot s shell bs :
  stacks_rep [[]; []; []] (proc s) → curr_process (proc s) = 0 → shell_ready shell bs s →
  let o := Starts (ToUser (word_at bs 24)) in
  ∃ s1 s2 s3, scheduler shell s = Some (o, s1) ∧ scheduler shell s1 = Some (o, s2) ∧
    scheduler shell s2 = Some (o, s3) ∧ stacks_rep [[1]; [2]; [3]] (proc s3) ∧
    runs [[1]; [2]; [3]] s3 2 3 [] ∧ shell_ready shell bs s3.
Proof.
  intros Hr Hcp Hsh o.
  destruct (scheduler_boots _ s shell bs Hr) as (s1&H1&Hr1&Hrun1&Hsh1&_); [by vm_compute|done|by vm_compute|done|].
  destruct (scheduler_boots _ s1 shell bs Hr1) as (s2&H2&Hr2&Hrun2&Hsh2&_); [by vm_compute|by vm_compute|done|done|].
  destruct (scheduler_boots _ s2 shell bs Hr2) as (s3&H3&Hr3&Hrun3&Hsh3&_); [by vm_compute|by vm_compute|done|done|].
  by exists s1, s2, s3.
Qed.

(** A machine whose disk holds a program ["shell"], with paging on. *)
Definition shell_image : list Z :=
  pad 4096 (pad 64 (le32 1 ++ le32 1 ++ le32 1) ++ example_dentry shell_name 2 0) ++
  pad 4096 (le32 27 ++ le32 0) ++ pad 4096 elf_bytes.
Definition booted_machine : kstate := poke shell_name 4300000 (paging_initialized (boot_state shell_image)).
Lemma empty_stacks_rep : stacks_rep [[]; []; []] (proc (boot_state [])).
Proof.
  assert (∀ (stk : list Z) i, aget [[]; []; []] i = Some stk → 0 ≤ i < 3 ∧ stk = []) as Hst.
  { intros stk i H. pose proof (aget_Some_range _ _ _ H) as Hr. cbn in Hr. split; [lia|].
    assert (i = 0 ∨ i = 1 ∨ i = 2) as [-> | [-> | ->]] by lia; by injection H as <-. }
  constructor; try done.
  - apply NoDup_nil_2.
  - by intros p Hp%elem_of_nil.
  - intros p Hp. assert (p = 1 ∨ p = 2 ∨ p = 3 ∨ p = 4 ∨ p = 5 ∨ p = 6) as [->|[->|[->|[->|[->| ->]]]]] by lia; reflexivity.
  - intros i stk [Hi ->]%Hst. assert (i = 0 ∨ i = 1 ∨ i = 2) as [-> | [-> | ->]] by lia; reflexivity.
  - by intros i stk [_ ->]%Hst.
  - intros i [Hi _]%Hst. cbn. lia.
  - intros p c Hc. replace c with zero_pcb; [apply fds_ok_zero|]. pose proof (aget_Some_range _ _ _ Hc).
    rewrite aget_nonneg in Hc by lia. by apply lookup_replicate in Hc as [-> _].
Qed.
Lemma booted_ready : shell_ready 4300000 elf_bytes booted_machine.
Proof.
  pose proof (boot_wf shell_image) as Hwf. pose proof (lt_wf _ (initialized_low _ Hwf)) as Hwf1.
  pose proof (poke_mem shell_name 4300000 (paging_initialized (boot_state shell_image))) as [Hdir Hadr].
  destruct (poke_rest shell_name 4300000 (paging_initialized (boot_state shell_image))) as (_&_&_&_&_&Hfs&Hcpu&_).
  fold booted_machine in Hdir, Hadr, Hfs, Hcpu. change (fs_image (paging_initialized (boot_state shell_image))) with shell_image in Hfs.
  constructor; rewrite ?Hdir, ?Hfs.
  - lia.
  - split; [by apply poke_wf|]. pose proof (lt_enabled _ (initialized_low _ Hwf)) as Hen.
    unfold paging_enabled, paging_on, pse_on in *. rewrite Hcpu, Hadr. exact Hen.
  - exists (kernel_pde 0). vm_compute. by split_and!.
  - intros k c Hk. do 6 (destruct k as [|k]; [injection Hk as <-; vm_compute; reflexivity|]). done.
  - apply image_okb_ok. vm_compute. reflexivity.
  - exists (mk_dentry (pad 32 shell_name) 2 0). split; [vm_compute; reflexivity|]. constructor.
    + exists 1. split; [vm_compute; reflexivity|done].
    + vm_compute. reflexivity.
    + intros k b Hk. do 28 (destruct k as [|k]; [injection Hk as <-; vm_compute; reflexivity|]). done.
    + apply (bool_decide_unpack _); vm_compute; exact I.
    + unfold elf_bytes. cbn. lia.
  - unfold elf_bytes. cbn. lia.
  - reflexivity.
Qed.
Lemma scheduler_boot_witness :
  ∃ s1 s2 s3, scheduler 4300000 booted_machine = Some (Starts (ToUser 134512640), s1) ∧
    scheduler 4300000 s1 = Some (Starts (ToUser 134512640), s2) ∧
    scheduler 4300000 s2 = Some (Starts (ToUser 134512640), s3) ∧ stacks_rep [[1]; [2]; [3]] (proc s3).
Proof.
  destruct (scheduler_boot booted_machine 4300000 elf_bytes) as (s1&s2&s3&H1&H2&H3&Hr&_).
  - apply empty_stacks_rep.
  - reflexivity.
  - apply booted_ready.
  - exists s1, s2, s3. split; [exact H1|]. split; [exact H2|]. split; [exact H3|exact Hr].
Defined.
