(* ===== verification/ProcTree.v ===== *)
(** * ProcTree: the process table over whole executions

    The kernel's steps on the process table (a tick, [execute], [halt], [open],
    [close], and anything that leaves the table alone) simulate an abstract
    machine of three stacks of processes. *)
From S2P Require Import Prelude Keep LibString LibMem Filesystem KState Paging PortIO Screen Switch Keyboard Terminal Frame Syscall FdTable Process Halt Exec Scheduler.

(** ** What [execute] keeps up to the start of the process *)
Definition table_part (s : kstate) : proc_t * Z * (list Z * list Z * list Z) * (Z * Z * Z) :=
  (setter args_flag (λ _, 0) (proc s), curr_terminal (scr s), (page_dir (mem s), page_table (mem s), page_virtual_mem (mem s)),
   (page_dir_addr (mem s), page_table_addr (mem s), page_virtual_mem_addr (mem s))).

Lemma part_load8 a : keeps table_part (load8 a).
Proof. intros s b s'. unfold kept, load8. destruct (translate s a); [|done]. intros. by simplify_eq. Qed.
Lemma part_store8 a b : keeps table_part (store8 a b).
Proof. intros s [] s'. unfold kept, store8. destruct (translate s a); [|done]. intros. by simplify_eq. Qed.
#[export] Hint Resolve part_load8 part_store8 : keep.

Lemma part_exec_name n a : ∀ i exec, keeps table_part (exec_name n a i exec).
Proof. induction n as [|n IH]; intros i exec; cbn [exec_name]; keep. Qed.
Lemma part_exec_args n a : ∀ i j args, keeps table_part (exec_args n a i j args).
Proof. induction n as [|n IH]; intros i j args; cbn [exec_args]; keep. Qed.
Lemma part_skip_spaces a i : keeps table_part (skip_spaces a i).
Proof.
  unfold skip_spaces. keep. apply (moves_loop_pos _). intros k. unfold space_step. keep.
Qed.
Lemma part_args_flag f : keeps table_part (set_proc (λ r, r <| args_flag ::= f |>)).
Proof. by apply keeps_modify. Qed.
#[export] Hint Resolve part_exec_name part_exec_args part_skip_spaces part_args_flag : keep.
Lemma part_parse a : keeps table_part (parse_command a).
Proof. unfold parse_command. keep. Qed.

Lemma part_read_data_loop n : ∀ img ci o i cp rc buf,
  keeps table_part (read_data_loop (user_write buf) n img ci o i cp rc).
Proof.
  induction n as [|n IH]; intros; cbn [read_data_loop]; keep; try apply IH. unfold user_write. keep.
Qed.
Lemma part_load_program img ino : keeps table_part (load_program img ino).
Proof.
  unfold load_program. keep. apply (moves_loop_pos _). intros count. unfold load_step, read_data. keep.
  apply part_read_data_loop.
Qed.

(** A booted system: every terminal has its shell, one process is running. *)
Record booted (st : stacks) (i : Z) (s : kstate) : Prop := {
  bt_rep : stacks_rep st (proc s);
  bt_full : ∀ j, 0 ≤ j < 3 → aget st j ≠ Some [];
  bt_runs : ∃ t rest, runs st s i t rest;
  bt_paging : paging_wf s;
}.
Lemma part_eq s s' :
  table_part s' = table_part s →
  proc s' = setter args_flag (λ _, args_flag (proc s')) (proc s) ∧ curr_terminal (scr s') = curr_terminal (scr s) ∧ (paging_wf s → paging_wf s').
Proof.
  unfold table_part. intros [= P1 P2 P3 P4 P5 P6 Hs E1 E2 E3 E4 E5 E6]. split; [|split; [done|]].
  - by apply proc_eq.
  - intros []. constructor; rewrite ?E1, ?E2, ?E3, ?E4, ?E5, ?E6; done.
Qed.
Lemma booted_part st i s s' : table_part s' = table_part s → booted st i s → booted st i s'.
Proof.
  intros (Hp&_&Hw)%part_eq [Hr Hf (t&rest&Hi&Hcp&Hcur) Hwf].
  constructor; [|done| |by apply Hw]; [rewrite Hp; by apply rep_args_flag|].
  exists t, rest. split; [done|]. by rewrite Hp.
Qed.
Lemma part_table s s' :
  table_part s' = table_part s → pid_arr (proc s') = pid_arr (proc s) ∧ curr_terminal (scr s') = curr_terminal (scr s) ∧
    program_count (proc s') = program_count (proc s).
Proof. intros (Hp&Hs&_)%part_eq. by rewrite Hp. Qed.
Lemma booted_count st i s : booted st i s → 3 ≤ zlen (concat st).
Proof.
  intros [Hr Hf _ _]. pose proof (sr_stacks _ _ Hr) as Hl. pose proof (Hf 0 ltac:(lia)) as H0.
  pose proof (Hf 1 ltac:(lia)) as H1. pose proof (Hf 2 ltac:(lia)) as H2.
  destruct st as [|[|? ?] [|[|? ?] [|[|? ?] [|? ?]]]]; try done.
  cbn [concat]. rewrite !length_app. cbn [length]. lia.
Qed.

(** The outcomes of [execute] in a booted system, whatever the command. *)
Lemma execute_cases st i s a o s' :
  booted st i s → curr_terminal (scr s) = i → execute_handler a s = Some (o, s') →
  (o = Returns (-1) ∧ booted st i s') ∨
  (∃ slot eip, o = ToUser eip ∧ free_slot 6 0 (pid_arr (proc s)) = Some slot ∧ booted (push i (slot + 1) st) i s').
Proof.
  intros Hb Hct. unfold execute_handler, cli, get_proc. rewrite bind_modify. set (s0 := s <| cpu ::= _ |>).
  assert (booted st i s0) as Hb0 by (by apply (booted_part st i s)).
  rewrite bind_gets. destruct (Z.geb_spec (program_count (proc s0)) programMax) as [|Hcnt]; [intros [= <- <-]; by left|].
  destruct (a =? 0); [intros [= <- <-]; by left|].
  intros ([exec args]&s1&Hp%part_parse&H)%bind_inv. rewrite bind_gets in H.
  assert (booted st i s1) as Hb1 by (by apply (booted_part st i s0)).
  assert (pid_arr (proc s1) = pid_arr (proc s) ∧ curr_terminal (scr s1) = i ∧ program_count (proc s1) < 6) as (Hpa&Hct1&Hc1).
  { destruct (part_table _ _ Hp) as (->&->&->). split; [done|]. split; [done|]. unfold programMax in Hcnt. lia. }
  clear Hp Hcnt. apply bind_inv in H as ([r d]&s2&[_ ->]%lift_inv&H). destruct (r =? -1); [injection H as <- <-; by left|].
  apply bind_inv in H as (d'&s3&[_ ->]%lift_inv&H). unfold execute_file in H. rewrite bind_gets in H.
  apply bind_inv in H as ([x e]&s4&[_ ->]%lift_inv&H). destruct (negb (is_executable e)); [injection H as <- <-; by left|].
  apply bind_inv in H as (eip&s5&[_ ->]%lift_inv&H). unfold get_proc in H. rewrite bind_gets in H.
  apply bind_inv in H as (slot&s6&[Hslot ->]%lift_inv&H). rewrite Hpa in Hslot. change (Z.to_nat programMax) with 6%nat in Hslot.
  rewrite (bind_run _ _ _ _ _ (map_user_page_run _ s1 (bt_paging _ _ _ Hb1))) in H.
  set (s7 := user_mapped _ s1) in H.
  assert (booted st i s7) as Hb7.
  { destruct Hb1 as [H1 H2 H3 H4]. constructor; [exact H1|exact H2|exact H3|by apply user_mapped_wf]. }
  apply bind_inv in H as (ok&s8&Hl%part_load_program&H). assert (booted st i s8) as Hb8 by (by apply (booted_part st i s7)).
  destruct ok; cbn [negb] in H; [|injection H as <- <-; by left].
  right. pose proof (booted_count _ _ _ Hb8) as H3. destruct Hb8 as [Hr Hf (t&rest&Hi&Hcp&Hcur) Hwf].
  assert (pid_arr (proc s8) = pid_arr (proc s) ∧ curr_terminal (scr s8) = i ∧ program_count (proc s8) < 6) as (Hpa8&Hct8&Hc8).
  { destruct (part_table _ _ Hl) as (->&->&->). by split. }
  rewrite (sr_count _ _ Hr) in Hc8. rewrite <- (with_proc_same s8) in H.
  destruct (start_child st (proc s8) s8 i t rest args eip Hr Hi Hcur Hcp Hct8 ltac:(lia)) as (slot'&s9&Hs&Hst&Hnew).
  rewrite Hpa8, Hslot in Hs. injection Hs as <-. rewrite Hst in H. injection H as <- <-.
  exists slot, eip. split; [done|]. split; [done|]. destruct (np_rest _ _ _ _ _ _ _ _ Hnew) as (M1&_).
  pose proof (stack_indices _ _ _ (sr_stacks _ _ Hr) Hi) as Hir.
  constructor; [apply Hnew| |exists (slot + 1), (t :: rest); apply Hnew|by apply (paging_wf_mem s8)].
  intros j Hj. unfold push. rewrite aget_alter by lia. case_decide; [subst; by rewrite Hi|by apply Hf].
Qed.

(** ** [halt], a tick, [open] and [close] in a booted system *)
Lemma part_set_scr f : (∀ c, curr_terminal (f c) = curr_terminal c) → keeps table_part (set_scr f).
Proof. intros Hf. apply keeps_modify. intros s. unfold table_part. cbn. by rewrite Hf. Qed.
Lemma part_set_term i f : keeps table_part (set_term i f).
Proof.
  intros s [] s'. unfold kept, set_term. rewrite bind_gets. intros H.
  apply bind_inv in H as (x&s1&[_ ->]%lift_inv&H). apply bind_inv in H as (y&s2&[_ ->]%lift_inv&H).
  unfold modify in H. by simplify_eq.
Qed.
Lemma part_outb d p : keeps table_part (outb d p).
Proof. by apply keeps_modify. Qed.
#[export] Hint Resolve part_set_term part_outb : keep.
#[export] Hint Extern 1 (keeps table_part (set_scr _)) => by apply part_set_scr : keep.
Lemma part_putc_at i c : keeps table_part (putc_at i c).
Proof.
  unfold putc_at, update_cursor, set_video_mem, load_cursor, save_cursor, video_store, get_term, the_terminal. keep.
Qed.
#[export] Hint Resolve part_putc_at : keep.
Lemma part_put_chars cs : keeps table_part (put_chars cs).
Proof. induction cs as [|c cs IH]; cbn [put_chars]; unfold putc, the_process; keep. Qed.

Lemma halt_cases st i s status o s' :
  booted st i s → halt_handler status s = Some (o, s') →
  (o = Returns 0 ∧ booted st i s' ∧ ∃ t, aget st i = Some [t]) ∨
  (∃ t q rest bp sp, aget st i = Some (t :: q :: rest) ∧ o = ToParent bp sp (u8 status) ∧ booted (pop i st) i s').
Proof.
  intros Hb. pose proof Hb as [Hr Hf (t&rest&Hrun) Hwf]. pose proof Hrun as (Hi&Hcp&Hcur).
  pose proof (stack_indices _ _ _ (sr_stacks _ _ Hr) Hi) as Hir. destruct rest as [|q rest].
  - pose proof (sr_chain _ _ Hr _ _ Hi) as [-> (c&Hc&Hpid&_)]. unfold halt_handler, cli. rewrite bind_modify.
    set (s0 := s <| cpu ::= _ |>). change s0 with (with_proc (proc s) s0).
    rewrite (current_bind _ _ (i + 1) c) by (done || lia). rewrite Hpid. destruct (Z.leb_spec (i + 1) 3); [|lia].
    intros H'. apply bind_inv in H' as (x&s1&Hput%part_put_chars&H'). cbv in H'. injection H' as <- <-.
    left. split; [done|]. split; [|eauto]. apply (booted_part st i s); [exact Hput|done].
  - destruct (halt_run st s i t q rest status Hr Hrun Hwf) as (s2&qc&_&Hh&_&[Hrep Hrun' Hwf' _ _ _ _ _]).
    rewrite Hh. intros [= <- <-]. right. exists t, q, rest, (p_ebp qc), (p_esp qc). split; [done|]. split; [done|].
    constructor; [done| |by exists q, rest|done]. intros j Hj. unfold pop. rewrite aget_alter by lia.
    case_decide; [subst; by rewrite Hi|by apply Hf].
Qed.

Lemma tick_cases st i s shell o s' :
  booted st i s → scheduler shell s = Some (o, s') → booted st (next_terminal i) s' ∧ ∃ sp bp, o = Resumes sp bp.
Proof.
  intros [Hr Hf (t&rest&Hrun) Hwf]. pose proof Hrun as (Hi&_&_).
  pose proof (stack_indices _ _ _ (sr_stacks _ _ Hr) Hi) as Hir. destruct (next_range i Hir) as [Hjr _].
  destruct (proj2 (aget_is_Some st (next_terminal i))) as [stk Hj]; [rewrite (sr_stacks _ _ Hr); lia|].
  destruct stk as [|t' rest']; [by destruct (Hf _ Hjr)|].
  destruct (scheduler_switches st shell s i t rest t' rest' Hr Hrun (Hf 0 ltac:(lia)) Hj Hwf) as (s2&c&_&Hs&_&_&Hsw).
  rewrite Hs. intros [= <- <-]. split; [|eauto]. destruct Hsw. constructor; try done. by exists t', rest'.
Qed.

(** A descriptor table for every list of open and closed descriptors. *)
Lemma fds_table l : fds_ok false l → ∃ t, table_rep t l.
Proof.
  intros [Hl Hf]. assert (∃ t : table, ∀ fd, t !! fd = d ← aget l fd; if flags d =? 0 then None else Some (file_of d))
    as [t Ht].
  { clear. induction l as [|d l [t IH]] using rev_ind.
    - exists ∅. intros fd. rewrite lookup_empty. unfold aget. by destruct (fd <? 0); [|rewrite lookup_nil].
    - exists (if flags d =? 0 then t else <[zlen l := file_of d]> t). intros fd.
      assert (aget (l ++ [d]) fd = if decide (fd = zlen l) then Some d else aget l fd) as ->.
      { unfold aget. destruct (Z.ltb_spec fd 0); [by rewrite decide_False by lia|]. case_decide as E.
        - rewrite E, Nat2Z.id, lookup_app_r, Nat.sub_diag by lia. done.
        - destruct (decide (Z.to_nat fd < length l)%nat); [by rewrite lookup_app_l|].
          by rewrite !lookup_ge_None_2 by (rewrite ?length_app; cbn; lia). }
      case_decide as E; [subst fd|by destruct (flags d =? 0); [|rewrite lookup_insert_ne by done]].
      cbn [mbind option_bind]. destruct (flags d =? 0); [|apply lookup_insert_eq].
      rewrite IH. destruct (aget l (zlen l)) eqn:Ha; [apply aget_Some_range in Ha; lia|done]. }
  exists t. constructor; [done|by intros fd d Hd; apply (Hf fd)| |].
  - intros fd d Hd. by rewrite Ht, Hd.
  - intros fd Hd. by rewrite Ht, Hd.
Qed.

Lemma call_cases st i s c r s' :
  booted st i s → image_ok (fs_image s) → call_ok c → run_call c s = Some (r, s') → booted st i s'.
Proof.
  intros [Hr Hf (t&rest&Hi&Hcp&Hcur) Hwf] Himg Hok Hrun.
  destruct (top_pid _ _ _ _ _ Hr Hi) as (Ht&_&p&Hp&_).
  pose proof (sr_fds _ _ Hr t p Hp) as Hfd. rewrite bool_decide_false in Hfd.
  2: { intros Hno. apply Hno, (in_stack _ _ _ _ Hi). left. }
  destruct (fds_table _ Hfd) as [tb Htb]. pose proof (conj Hcur (conj Ht Hp) : running s t p) as Hrn.
  destruct (call_refines tb t p c s Hrn Htb Himg Hok) as (s2&p2&Hrun2&(_&_&Hp2)&Htb2&(l&rf&->)&Hfr).
  rewrite Hrun in Hrun2. injection Hrun2 as _ <-.
  destruct Hfr as (_&_&Hm&_&_&F1&F2&F3&F4&F5&_&F7&F8).
  assert (pcbs (proc s') = <[pcb_index t := p <| pcb_arr := l |> <| rtc_flag := rf |>]> (pcbs (proc s))) as Hpc.
  { apply list_eq. intros j. destruct (decide (j = pcb_index t)) as [->|Hne].
    - pose proof (sr_pcbs _ _ Hr). rewrite list_lookup_insert_eq by (unfold pcb_index; lia).
      rewrite aget_nonneg in Hp2 by lia. exact Hp2.
    - by rewrite F8, list_lookup_insert_ne. }
  constructor; [|done| |by apply (paging_wf_mem s)].
  - apply (rep_relink st (proc s) t p (p <| pcb_arr := l |> <| rtc_flag := rf |>)); try done. intros b -> _.
    rewrite bool_decide_false by (intros Hno; apply Hno, (in_stack _ _ _ _ Hi); left).
    split; [apply Htb2|]. intros fd d Hd. split; [by apply (tr_flags _ _ Htb2 fd)|done].
  - exists t, rest. split; [done|]. by rewrite F1, F5.
Qed.

(** ** The abstract machine and the simulation *)

(** Stacks and the terminal whose process runs. *)
Inductive astep : stacks * Z → stacks * Z → Prop :=
  | a_stay st i : astep (st, i) (st, i)
  | a_push st i p :
      1 ≤ p ≤ 6 → p ∉ concat st → (∀ q, 1 ≤ q < p → q ∈ concat st) → astep (st, i) (push i p st, i)
  | a_pop st i t q rest : aget st i = Some (t :: q :: rest) → astep (st, i) (pop i st, i)
  | a_next st i : astep (st, i) (st, next_terminal i).

(** The kernel's steps on the table.  [execute] is taken when the caller's
    terminal is the one displayed: [sched_pid] is indexed by the displayed one. *)
Inductive kstep (shell : Z) : kstate → kstate → Prop :=
  | k_tick s o s' : scheduler shell s = Some (o, s') → kstep shell s s'
  | k_execute s a o s' :
      curr_terminal (scr s) = curr_process (proc s) → execute_handler a s = Some (o, s') → kstep shell s s'
  | k_halt s status o s' : halt_handler status s = Some (o, s') → kstep shell s s'
  | k_call s c r s' : image_ok (fs_image s) → call_ok c → run_call c s = Some (r, s') → kstep shell s s'
  | k_other s s' : proc s' = proc s → paging_wf s' → kstep shell s s'.

Lemma kstep_simulated shell s s' st i :
  kstep shell s s' → booted st i s → ∃ st' i', astep (st, i) (st', i') ∧ booted st' i' s'.
Proof.
  intros Hk Hb. inversion Hk as [? o ? Hs|? a o ? Hct Hs|? status o ? Hs|? c r ? Himg Hok Hs|? ? Hp Hwf]; subst.
  - destruct (tick_cases _ _ _ _ _ _ Hb Hs) as [Hb' _]. exists st, (next_terminal i). split; [constructor|done].
  - assert (curr_terminal (scr s) = i) as Hi by (destruct (bt_runs _ _ _ Hb) as (t&rest&_&Hcp&_); congruence).
    destruct (execute_cases st i s a o s' Hb Hi Hs) as [[_ Hb']|(slot&eip&_&Hslot&Hb')]; [by exists st, i; split; [constructor|]|].
    exists (push i (slot + 1) st), i. split; [|done].
    pose proof (free_slot_run 6 0 (pid_arr (proc s)) (λ p, p ∈ concat st) _
      ltac:(intros p Hp; apply (sr_live _ _ (bt_rep _ _ _ Hb)); lia)) as H. rewrite Hslot in H. destruct H as (Hr&Hn&Hlow).
    apply a_push; [lia|done|]. intros q Hq. apply Hlow. lia.
  - destruct (halt_cases _ _ _ _ _ _ Hb Hs) as [(_&Hb'&_)|(t&q&rest&bp&sp&Hst&_&Hb')].
    + exists st, i. split; [constructor|done].
    + exists (pop i st), i. split; [by eapply a_pop|done].
  - exists st, i. split; [constructor|by apply (call_cases st i s c r s')].
  - exists st, i. split; [constructor|]. destruct Hb as [Hr Hf (t&rest&Hi&Hcp&Hcur) _].
    constructor; rewrite ?Hp; try done. exists t, rest. split; [done|]. by rewrite Hp.
Qed.


Lemma three_shells_booted : booted [[1]; [2]; [3]] 0 three_shells.
Proof.
  constructor; [apply three_shells_rep| |exists 1, []; apply three_shells_runs|apply three_shells_wf].
  intros j Hj. assert (j = 0 ∨ j = 1 ∨ j = 2) as [-> | [-> | ->]] by lia; done.
Qed.


(** ** Where the handlers leave the intended behaviour *)

(** [halt] resumes with the parent's own saved registers, not with those that
    [execute] saved, which are in the child's PCB. *)
Lemma halt_ignores_saved_frame st s i t q rest status c qc :
  stacks_rep st (proc s) → runs st s i t (q :: rest) → paging_wf s →
  aget (pcbs (proc s)) (t - 1) = Some c → aget (pcbs (proc s)) (q - 1) = Some qc → p_ebp c ≠ p_ebp qc →
  ∃ bp sp s', halt_handler status s = Some (ToParent bp sp (u8 status), s') ∧ bp = p_ebp qc ∧ bp ≠ p_ebp c.
Proof.
  intros Hr Hrun Hwf Hc Hq Hne. destruct (halt_run st s i t q rest status Hr Hrun Hwf) as (s'&qc'&Hq'&Hh&_).
  assert (qc' = qc) as -> by congruence. exists (p_ebp qc), (p_esp qc), s'. by split_and!.
Qed.
