(* ===== verification/Interrupts.v ===== *)
(** * Interrupts: the descriptor table and the dispatch ([idt_exceptions.c], [link.S])

    [idt_init] fills the 256 gates of the IDT and the table of C handlers;
    [processor] is what the x86 does with a gate when an interrupt comes
    (documented behaviour of the hardware), the stubs of [link.S] push their vector
    and [do_irq] calls the handler, whose name is [irq_handler].  The handlers are those of the other files,
    and the exceptions, which print a line and never return.

    The linker chooses where the stubs are: [addr] gives the address of each and
    [code] the stub at an address. *)
From S2P Require Import Prelude Keep LibString LibMem Filesystem KState Paging PortIO Screen Switch Keyboard Terminal Frame Syscall FdTable Process Halt Exec Scheduler.

(** ** Gates *)
Definition NUM_VEC : Z := 256.
Definition interruptCount : Z := 32.
Definition syscallHex : Z := 0x80.
Definition setUserPerm : Z := 3.
Definition keyboardHex : Z := 0x21.
Definition rtcHex : Z := 0x28.
Definition pitHex : Z := 0x20.
Definition KERNEL_CS : Z := 0x10.

Record idt_desc_t := mk_idt_desc {
  offset_15_00 : Z; seg_selector : Z;             (* uint16_t *)
  reserved4 : Z;                                  (* uint8_t *)
  reserved3 : Z; reserved2 : Z; reserved1 : Z;    (* bit fields *)
  gate_size : Z; reserved0 : Z; gate_dpl : Z; gate_present : Z;
  offset_31_16 : Z;                               (* uint16_t *)
}.
#[export] Instance idt_desc_settable : Settable idt_desc_t := λ d,
  mk_idt_desc (offset_15_00 d) (seg_selector d) (reserved4 d) (reserved3 d) (reserved2 d) (reserved1 d)
    (gate_size d) (reserved0 d) (gate_dpl d) (gate_present d) (offset_31_16 d).

(** The stubs of [link.S] that gates point to, and the functions in [handler_table] *)
Inductive stub := irq_ (n : Z) | keyboard | rtc_stub | pit | sysc | default_handler.
Inductive c_handler := exception_ (n : Z) | keyboard_handler | rtc_handler | pit_handler.
Definition linkage_array : list stub := irq_ <$> seqZ 0 32.

Record vectors := mk_vectors { idt : list idt_desc_t; handler_table : list (option c_handler) }.
#[export] Instance vectors_settable : Settable vectors := λ t, mk_vectors (idt t) (handler_table t).
Abbreviation V := (M vectors).

Definition set_idt (i : Z) (f : idt_desc_t → idt_desc_t) : V () :=
  l ← gets idt; d ← lift (aget l i); l ← lift (aset l i (f d)); modify (λ t, t <| idt := l |>).
Definition gate_fields (d : idt_desc_t) : idt_desc_t :=
  d <| seg_selector := KERNEL_CS |> <| reserved4 := 0 |> <| reserved3 := 0 |> <| reserved2 := 1 |>
    <| reserved1 := 1 |> <| reserved0 := 0 |> <| gate_size := 1 |> <| gate_dpl := 0 |> <| gate_present := 1 |>.
Definition syscall_fields (d : idt_desc_t) : idt_desc_t := d <| reserved3 := 1 |> <| gate_dpl := setUserPerm |>.
Definition entry_fields (handler : Z) (d : idt_desc_t) : idt_desc_t :=
  d <| offset_31_16 := Z.shiftr (Z.land handler 0xFFFF0000) 16 |> <| offset_15_00 := Z.land handler 0xFFFF |>.
Definition SET_IDT_ENTRY (i handler : Z) : V () :=
  set_idt i (entry_fields handler).
Definition set_handler (i : Z) (h : c_handler) : V () :=
  l ← gets handler_table; l ← lift (aset l i (Some h)); modify (λ t, t <| handler_table := l |>).
Fixpoint set_handlers (l : list (Z * c_handler)) : V () :=
  match l with [] => skip | (i, h) :: l => set_handler i h;; set_handlers l end.

(** The assignments to [handler_table], in their order *)
Definition handler_entries : list (Z * c_handler) :=
  ((λ n, (n, exception_ n)) <$> seqZ 0 20) ++ ((λ n, (n, exception_ 1)) <$> seqZ 20 12) ++
  [(keyboardHex, keyboard_handler); (rtcHex, rtc_handler); (pitHex, pit_handler)].

Section idt_init.
Context (addr : stub → Z).
Definition idt_init : V () :=
  for_n (Z.to_nat NUM_VEC) 0 (λ i,
    set_idt i gate_fields;;
    (if i =? syscallHex then set_idt i syscall_fields else skip);;
    SET_IDT_ENTRY i (addr default_handler));;
  for_n (Z.to_nat interruptCount) 0 (λ i, e ← lift (aget linkage_array i); SET_IDT_ENTRY i (addr e));;
  SET_IDT_ENTRY keyboardHex (addr keyboard);;
  SET_IDT_ENTRY rtcHex (addr rtc_stub);;
  SET_IDT_ENTRY syscallHex (addr sysc);;
  SET_IDT_ENTRY pitHex (addr pit);;
  set_handlers handler_entries.
End idt_init.

(** ** What the processor does with a gate *)

(** The 64 bits of a descriptor *)
Definition idt_word (d : idt_desc_t) : Z :=
  offset_15_00 d + seg_selector d * 2 ^ 16 + reserved4 d * 2 ^ 32 +
  (reserved3 d + 2 * reserved2 d + 4 * reserved1 d + 8 * gate_size d + 16 * reserved0 d + 32 * gate_dpl d +
   128 * gate_present d) * 2 ^ 40 + offset_31_16 d * 2 ^ 48.
(** A gate: where it leads, in which segment, whether interrupts are then off
    (interrupt gate) or as they were (trap gate), and who may use it by [int] *)
Record gate := mk_gate { g_offset : Z; g_selector : Z; g_interrupts_off : bool; g_dpl : Z }.
Definition decode_gate (w : Z) : option gate :=
  let type := w / 2 ^ 40 mod 32 in
  if (w / 2 ^ 47 mod 2 =? 1) && ((type =? 14) || (type =? 15)) then
    Some (mk_gate (w mod 2 ^ 16 + w / 2 ^ 48 mod 2 ^ 16 * 2 ^ 16) (w / 2 ^ 16 mod 2 ^ 16) (type =? 14) (w / 2 ^ 45 mod 4))
  else None.

(** A device or an exception, or an [int] instruction at a privilege level *)
Inductive cause := FromHardware | FromInstruction (cpl : Z).
Inductive entered := GeneralProtection | Enters (e : stub) (interrupts_off : bool).

Section dispatch.
Context (code : Z → option stub).
Definition processor (t : vectors) (c : cause) (v : Z) : option entered :=
  d ← aget (idt t) v;
  g ← decode_gate (idt_word d);
  if match c with FromHardware => false | FromInstruction cpl => g_dpl g <? cpl end then Some GeneralProtection
  else if negb (g_selector g =? KERNEL_CS) then None
  else e ← code (g_offset g); Some (Enters e (g_interrupts_off g)).
End dispatch.

(** ** [link.S] and [do_irq] *)

(** The vector that a stub pushes for [do_irq] *)
Definition vector_num (e : stub) : option Z :=
  match e with
  | irq_ n => Some n
  | keyboard => Some keyboardHex
  | rtc_stub => Some rtcHex
  | pit => Some pitHex
  | sysc | default_handler => None
  end.
(** The function that [do_irq] calls; there is none where the table has NULL. *)
Definition irq_handler (t : vectors) (vector : Z) : option c_handler := h ← aget (handler_table t) vector; h.

(** ** The handlers *)
Definition exception_text (n : Z) : string :=
  default EmptyString (aget [
    " DIVIDE ERROR"; " RESERVED"; " NMI Interrupt"; " BREAKPOINT"; " Overflow"; " BOUND Range Exceeded";
    " Invalid Opcode (Undefined Opcode)"; " Device Not Available (No Math Coprocessor)"; " Double Fault";
    " Coprocessor Segment Overrun (reserved)"; " Invalid TSS"; " Segment Not Present"; " Stack-Segment Fault";
    " General Protection"; " Page Fault"; " Intel Reserved"; " x87 FPU Floating-Point Error (Math Fault)";
    " Alignment Check"; " Machine Check"; " SIMD Floating-Point Exception"]%string n).
(** A newline, the text, and the end of the string *)
Definition exception_message (n : Z) : list Z := 10 :: chars (exception_text n) ++ [0].

Inductive after := Returned | Ticked (o : tick) | Stopped.

Section handlers.
Context (junk : stack_junk) (shell : Z).
Definition print_ (format : list Z) (args : list vararg) : K () :=
  '(out, _) ← lift (printf junk format args); put_chars out.
(** [while(1);] ends nothing: the machine has [Stopped]. *)
Definition exception (n : Z) : K after :=
  (if n =? 14 then skip else clear);; print_ (exception_message n) [];; mret Stopped.
Definition call_handler (h : c_handler) : K after :=
  match h with
  | exception_ n => exception n
  | keyboard_handler => keyboard_inter_handler;; mret Returned
  | rtc_handler => rtc_interrupt_handler;; mret Returned
  | pit_handler => o ← pit_interrupt_handler shell; mret (Ticked o)
  end.
Definition do_irq (t : vectors) (vector_num : Z) : K after := h ← lift (irq_handler t vector_num); call_handler h.
(** A stub that pushes a vector.  After a tick it is the stub of the process that the
    scheduler resumed that goes on, and a new process starts with interrupts on. *)
Definition common_interrupt (t : vectors) (e : stub) : K after :=
  n ← lift (vector_num e); cli;; a ← do_irq t n;
  match a with Returned => sti;; mret a | _ => mret a end.
End handlers.

(** ** The table that [idt_init] leaves *)
Definition stub_for (v : Z) : stub :=
  if v <? 32 then irq_ v
  else if v =? keyboardHex then keyboard
  else if v =? rtcHex then rtc_stub
  else if v =? syscallHex then sysc
  else if v =? pitHex then pit
  else default_handler.
Definition handler_for (v : Z) : c_handler :=
  if v <? 20 then exception_ v
  else if v <? 32 then exception_ 1
  else if v =? keyboardHex then keyboard_handler
  else if v =? rtcHex then rtc_handler
  else pit_handler.

(** The descriptor for a handler's address *)
Definition desc_for (v a : Z) : idt_desc_t :=
  mk_idt_desc (Z.land a 0xFFFF) KERNEL_CS 0 (if v =? syscallHex then 1 else 0) 1 1 1 0
    (if v =? syscallHex then setUserPerm else 0) 1 (Z.shiftr (Z.land a 0xFFFF0000) 16).

Lemma desc_decodes v a :
  is_u32 a →
  decode_gate (idt_word (desc_for v a)) =
    Some (mk_gate a KERNEL_CS (negb (v =? syscallHex)) (if v =? syscallHex then 3 else 0)).
Proof.
  intros Ha. cint. assert (Hlo : Z.land a 0xFFFF = a mod 65536) by exact (Z.land_ones a 16 ltac:(lia)).
  assert (Hhi : Z.shiftr (Z.land a 0xFFFF0000) 16 = a / 65536).
  { rewrite Z.shiftr_land. rewrite Z.shiftr_div_pow2 by lia. change (Z.shiftr 0xFFFF0000 16) with (Z.ones 16).
    rewrite Z.land_ones by lia. change (2 ^ 16) with 65536. Z.div_mod_to_equations. lia. }
  unfold decode_gate, idt_word, desc_for, setUserPerm, KERNEL_CS. cbn [offset_15_00 seg_selector reserved4 reserved3
    reserved2 reserved1 gate_size reserved0 gate_dpl gate_present offset_31_16]. rewrite Hlo, Hhi.
  change (2 ^ 16) with 65536. change (2 ^ 32) with 4294967296. change (2 ^ 40) with 1099511627776.
  change (2 ^ 47) with 140737488355328. change (2 ^ 48) with 281474976710656. change (2 ^ 45) with 35184372088832.
  assert (Hrange : 0 ≤ a mod 65536 < 65536 ∧ 0 ≤ a / 65536 < 65536 ∧ a = a / 65536 * 65536 + a mod 65536)
    by (clear Hlo Hhi; Z.div_mod_to_equations; lia).
  revert Hrange. clear Hlo Hhi Ha. generalize (a mod 65536) (a / 65536). intros lo hi (Hl&Hh&->).
  destruct (v =? syscallHex); cbn [negb].
  - replace (lo + 16 * 65536 + 0 * 4294967296 + (1 + 2 * 1 + 4 * 1 + 8 * 1 + 16 * 0 + 32 * 3 + 128 * 1) * 1099511627776 + hi * 281474976710656)
      with (lo + 16 * 65536 + 239 * 1099511627776 + hi * 281474976710656) by lia.
    set (w := _ + hi * 281474976710656).
    assert (w / 140737488355328 mod 2 = 1 ∧ w / 1099511627776 mod 32 = 15 ∧ w mod 65536 = lo ∧ w / 281474976710656 mod 65536 = hi ∧
      w / 65536 mod 65536 = 16 ∧ w / 35184372088832 mod 4 = 3) as (->&->&->&->&->&->)
      by (subst w; Z.div_mod_to_equations; lia).
    cbn. do 2 f_equal. lia.
  - replace (lo + 16 * 65536 + 0 * 4294967296 + (0 + 2 * 1 + 4 * 1 + 8 * 1 + 16 * 0 + 32 * 0 + 128 * 1) * 1099511627776 + hi * 281474976710656)
      with (lo + 16 * 65536 + 142 * 1099511627776 + hi * 281474976710656) by lia.
    set (w := _ + hi * 281474976710656).
    assert (w / 140737488355328 mod 2 = 1 ∧ w / 1099511627776 mod 32 = 14 ∧ w mod 65536 = lo ∧ w / 281474976710656 mod 65536 = hi ∧
      w / 65536 mod 65536 = 16 ∧ w / 35184372088832 mod 4 = 0) as (->&->&->&->&->&->)
      by (subst w; Z.div_mod_to_equations; lia).
    cbn. do 2 f_equal. lia.
Qed.

(** ** [idt_init] *)
Lemma set_idt_run i f d t :
  aget (idt t) i = Some d → set_idt i f t = Some ((), t <| idt := <[Z.to_nat i := f d]> (idt t) |>).
Proof.
  intros Hd. pose proof (aget_Some_range _ _ _ Hd). unfold set_idt.
  rewrite bind_gets, (bind_lift _ _ _ _ Hd), (bind_lift _ _ _ _ (aset_in (idt t) i (f d) ltac:(lia))). done.
Qed.
(** Two assignments to one gate are one. *)
Lemma set_idt_fuse i f g t : (set_idt i f;; set_idt i g) t = set_idt i (λ d, g (f d)) t.
Proof.
  destruct (aget (idt t) i) as [d|] eqn:Hd.
  - pose proof (aget_Some_range _ _ _ Hd). rewrite (bind_run _ _ _ _ _ (set_idt_run i f d t Hd)).
    rewrite (set_idt_run i _ d t Hd). set (t1 := setter idt _ t).
    assert (Hd1 : aget (idt t1) i = Some (f d)) by (subst t1; cbn; rewrite aget_insert by lia; by rewrite decide_True).
    rewrite (set_idt_run i g _ t1 Hd1). subst t1. cbn. by rewrite list_insert_insert_eq.
  - unfold set_idt, gets, lift, mbind, M_bind. by rewrite Hd.
Qed.
Lemma set_idt_fuse3 i f g h t : (set_idt i f;; set_idt i g;; set_idt i h) t = set_idt i (λ d, h (g (f d))) t.
Proof.
  rewrite <- (bind_assoc (set_idt i f) (λ _, set_idt i g) (λ _, set_idt i h)).
  rewrite (bind_cong2 _ (set_idt i (λ d, g (f d))) _ (λ _, set_idt i h) t (set_idt_fuse i f g t)) by done.
  apply set_idt_fuse.
Qed.

Section filling.
Context (addr : stub → Z).
(** The first [n] gates lead to the stubs [f]; the handlers are as in [hs]. *)
Definition filled (n : Z) (f : Z → stub) (hs : list (option c_handler)) (t : vectors) : Prop :=
  length (idt t) = 256%nat ∧ handler_table t = hs ∧
  ∀ v, 0 ≤ v < n → aget (idt t) v = Some (desc_for v (addr (f v))).

Lemma filled_insert n f hs t i e :
  filled n f hs t → 0 ≤ i < 256 → n ≤ 256 →
  filled (if i =? n then n + 1 else n) (λ v, if v =? i then e else f v) hs
    (t <| idt := <[Z.to_nat i := desc_for i (addr e)]> (idt t) |>).
Proof.
  intros (Hl&Hh&Hf) Hi Hn. split; [cbn; by rewrite length_insert|]. split; [done|]. intros v Hv. cbn [idt setter].
  rewrite aget_insert by lia. destruct (decide (v = i)) as [->|Hne].
  - by rewrite Z.eqb_refl.
  - rewrite (proj2 (Z.eqb_neq v i) Hne). apply Hf. destruct (Z.eqb_spec i n); lia.
Qed.
Lemma set_entry_run i e f hs t :
  filled 256 f hs t → 0 ≤ i < 256 →
  ∃ t', SET_IDT_ENTRY i (addr e) t = Some ((), t') ∧ filled 256 (λ v, if v =? i then e else f v) hs t'.
Proof.
  intros Ht Hi. pose proof Ht as (Hl&Hh&Hf). eexists. split; [exact (set_idt_run i _ _ t (Hf i Hi))|].
  pose proof (filled_insert 256 f hs t i e Ht Hi ltac:(lia)) as H. by rewrite (proj2 (Z.eqb_neq i 256)) in H by lia.
Qed.

(** A gate of the first loop, whatever was there *)
Lemma first_entry_run i f hs t :
  filled i f hs t → 0 ≤ i < 256 →
  wp (set_idt i gate_fields;;
    (if i =? syscallHex then set_idt i syscall_fields else skip);;
    SET_IDT_ENTRY i (addr default_handler))
  (λ _ t', filled (i + 1) (λ v, if v =? i then default_handler else f v) hs t') t.
Proof.
  intros Ht Hi. pose proof Ht as (Hl&_&_). destruct (proj2 (aget_is_Some (idt t) i)) as [d Hd]; [lia|].
  pose proof (filled_insert i f hs t i default_handler Ht Hi ltac:(lia)) as Hfill. rewrite Z.eqb_refl in Hfill.
  apply wp_run. eexists (), _. split; [|exact Hfill]. unfold SET_IDT_ENTRY, desc_for.
  destruct (i =? syscallHex).
  - rewrite set_idt_fuse3. by apply (set_idt_run i _ d).
  - etrans; [apply (set_idt_fuse i gate_fields (entry_fields (addr default_handler)))|]. by apply (set_idt_run i _ d).
Qed.

Lemma idt_loops_run t :
  length (idt t) = 256%nat →
  ∃ t', (for_n (Z.to_nat NUM_VEC) 0 (λ i, set_idt i gate_fields;;
      (if i =? syscallHex then set_idt i syscall_fields else skip);; SET_IDT_ENTRY i (addr default_handler));;
    for_n (Z.to_nat interruptCount) 0 (λ i, e ← lift (aget linkage_array i); SET_IDT_ENTRY i (addr e))) t = Some ((), t') ∧
    filled 256 (λ v, if v <? 32 then irq_ v else default_handler) (handler_table t) t'.
Proof.
  intros Hl.
  assert (Hwp1 : wp (for_n (Z.to_nat NUM_VEC) 0 (λ i, set_idt i gate_fields;;
      (if i =? syscallHex then set_idt i syscall_fields else skip);; SET_IDT_ENTRY i (addr default_handler)))
    (λ _, filled (0 + Z.of_nat (Z.to_nat NUM_VEC)) (λ _, default_handler) (handler_table t)) t).
  { apply (wp_for (λ i, filled i (λ _, default_handler) (handler_table t))); [split; [done|split; [done|lia]]|].
    intros i s Hi Hs. change (Z.of_nat (Z.to_nat NUM_VEC)) with 256 in Hi.
    eapply wp_mono; [by apply (first_entry_run i _ _ s Hs); lia|]. intros [] s' (Hl'&Hh&Hf).
    split; [done|]. split; [done|]. intros v Hv. rewrite (Hf v Hv). by destruct (v =? i). }
  apply wp_run in Hwp1 as ([]&t1&Hrun1&Hf1). change (0 + Z.of_nat (Z.to_nat NUM_VEC)) with 256 in Hf1.
  assert (Hwp2 : wp (for_n (Z.to_nat interruptCount) 0 (λ i, e ← lift (aget linkage_array i); SET_IDT_ENTRY i (addr e)))
    (λ _, filled 256 (λ v, if v <? 0 + Z.of_nat (Z.to_nat interruptCount) then irq_ v else default_handler) (handler_table t)) t1).
  { apply (wp_for (λ i, filled 256 (λ v, if v <? i then irq_ v else default_handler) (handler_table t))).
    - destruct Hf1 as (Hl1&Hh&Hf). split; [done|]. split; [done|]. intros v Hv.
      by rewrite (proj2 (Z.ltb_ge v 0) (proj1 Hv)), (Hf v Hv).
    - intros i s Hi Hs. change (Z.of_nat (Z.to_nat interruptCount)) with 32 in Hi. apply wp_bind.
      assert (He : aget linkage_array i = Some (irq_ i)).
      { unfold linkage_array. rewrite aget_fmap, aget_nonneg, lookup_seqZ_lt by lia. cbn. do 2 f_equal. lia. }
      eapply wp_lift; [exact He|]. apply wp_run.
      destruct (set_entry_run i (irq_ i) _ _ s Hs) as (s'&Hrun&Hl'&Hh&Hf); [lia|].
      exists (), s'. split; [done|]. split; [done|]. split; [done|]. intros v Hv. rewrite (Hf v Hv). do 3 f_equal.
      destruct (Z.eqb_spec v i) as [E|], (Z.ltb_spec v i), (Z.ltb_spec v (i + 1)); try lia; try done. by rewrite E. }
  apply wp_run in Hwp2 as ([]&t2&Hrun2&Hf2). exists t2. split; [|exact Hf2].
  by rewrite (bind_run _ _ _ _ _ Hrun1).
Qed.
End filling.

(** The handlers: the last assignment to an entry counts. *)
Lemma set_handlers_run l t :
  Forall (λ e, 0 ≤ e.1 < zlen (handler_table t)) l → NoDup l.*1 →
  ∃ hs, set_handlers l t = Some ((), t <| handler_table := hs |>) ∧ length hs = length (handler_table t) ∧
    (∀ v h, (v, h) ∈ l → aget hs v = Some (Some h)) ∧ (∀ v, v ∉ l.*1 → aget hs v = aget (handler_table t) v).
Proof.
  revert t. induction l as [|[i h] l IH]; intros t Hr Hd.
  - exists (handler_table t). split; [by destruct t|]. split; [done|]. split; [|done]. by intros v h []%not_elem_of_nil.
  - apply Forall_cons in Hr as [Hi Hr]. apply NoDup_cons in Hd as [Hn Hd]. cbn [fst] in Hi, Hn.
    set (t1 := t <| handler_table := <[Z.to_nat i := Some h]> (handler_table t) |>).
    destruct (IH t1) as (hs&Hrun&Hl&Hin&Hout).
    { subst t1. cbn. by rewrite length_insert. }
    { done. }
    assert (Hset : set_handler i h t = Some ((), t1)).
    { unfold set_handler. by rewrite bind_gets, (bind_lift _ _ _ _ (aset_in _ i (Some h) Hi)). }
    exists hs. cbn [set_handlers]. rewrite (bind_run _ _ _ _ _ Hset). split; [exact Hrun|].
    split; [rewrite Hl; subst t1; cbn; apply length_insert|]. split.
    + intros v h' [Hv|Hv]%elem_of_cons; [|by apply Hin]. injection Hv as -> ->. rewrite (Hout i Hn). subst t1. cbn.
      rewrite aget_insert by done. by rewrite decide_True.
    + intros v. cbn [fmap list_fmap fst]. rewrite not_elem_of_cons. intros [Hne Hv]. rewrite (Hout v Hv). subst t1. cbn.
      rewrite aget_insert by done. by rewrite decide_False.
Qed.

Lemma handler_entries_for v : 0 ≤ v < 32 ∨ v ∈ [keyboardHex; rtcHex; pitHex] → (v, handler_for v) ∈ handler_entries.
Proof.
  intros Hv. unfold handler_entries. rewrite !elem_of_app, !list_elem_of_fmap. unfold handler_for.
  destruct Hv as [Hv|Hv].
  - destruct (Z.ltb_spec v 20); [left; exists v; split; [done|apply elem_of_seqZ; lia]|].
    rewrite (proj2 (Z.ltb_lt v 32)) by lia. right. left. exists v. split; [done|apply elem_of_seqZ; lia].
  - right. right. rewrite !elem_of_cons, elem_of_nil in Hv.
    destruct Hv as [->|[->|[->|[]]]]; [left|right; left|right; right; left].
Qed.

Lemma idt_init_run addr t :
  length (idt t) = 256%nat → length (handler_table t) = 256%nat →
  ∃ t', idt_init addr t = Some ((), t') ∧ filled addr 256 stub_for (handler_table t') t' ∧
    length (handler_table t') = 256%nat ∧
    ∀ v, 0 ≤ v < 32 ∨ v ∈ [keyboardHex; rtcHex; pitHex] → irq_handler t' v = Some (handler_for v).
Proof.
  intros Hl Hh. destruct (idt_loops_run addr t Hl) as (t1&Hrun1&Hf1). unfold idt_init.
  rewrite <- bind_assoc, (bind_run _ _ _ _ _ Hrun1).
  destruct (set_entry_run addr keyboardHex keyboard _ _ t1 Hf1) as (t2&Hrun2&Hf2); [done|]. rewrite (bind_run _ _ _ _ _ Hrun2).
  destruct (set_entry_run addr rtcHex rtc_stub _ _ t2 Hf2) as (t3&Hrun3&Hf3); [done|]. rewrite (bind_run _ _ _ _ _ Hrun3).
  destruct (set_entry_run addr syscallHex sysc _ _ t3 Hf3) as (t4&Hrun4&Hf4); [done|]. rewrite (bind_run _ _ _ _ _ Hrun4).
  destruct (set_entry_run addr pitHex pit _ _ t4 Hf4) as (t5&Hrun5&Hf5); [done|]. rewrite (bind_run _ _ _ _ _ Hrun5).
  destruct Hf5 as (Hl5&Hh5&Hg5).
  destruct (set_handlers_run handler_entries t5) as (hs&Hrun6&Hlen&Hin&_).
  { rewrite Hh5, Hh. apply (bool_decide_unpack _). vm_compute. exact I. }
  { apply (bool_decide_unpack _). vm_compute. exact I. }
  eexists. split; [exact Hrun6|]. split; [|split].
  - split; [exact Hl5|]. split; [done|]. intros v Hv. cbn [idt setter]. rewrite (Hg5 v Hv). do 3 f_equal.
    unfold stub_for, pitHex, syscallHex, rtcHex, keyboardHex.
    destruct (Z.eqb_spec v 0x20), (Z.eqb_spec v 0x80), (Z.eqb_spec v 0x28), (Z.eqb_spec v 0x21), (Z.ltb_spec v 32);
      reflexivity || lia.
  - cbn. by rewrite Hlen, Hh5.
  - intros v Hv. unfold irq_handler. cbn [handler_table setter]. by rewrite (Hin v _ (handler_entries_for v Hv)).
Qed.

(** The gates that [idt_init] made, as the processor uses them *)
Lemma filled_processor addr code hs t v :
  filled addr 256 stub_for hs t → 0 ≤ v < 256 →
  is_u32 (addr (stub_for v)) ∧ code (addr (stub_for v)) = Some (stub_for v) →
  processor code t FromHardware v = Some (Enters (stub_for v) (negb (v =? syscallHex))) ∧
  processor code t (FromInstruction 3) v = Some (if v =? syscallHex then Enters sysc false else GeneralProtection).
Proof.
  intros (_&_&Hf) Hv [Hu Hc]. unfold processor. rewrite (Hf v Hv). cbn [mbind option_bind].
  rewrite (desc_decodes v _ Hu). cbn [mbind option_bind g_dpl g_selector g_offset g_interrupts_off].
  rewrite Z.eqb_refl. cbn [negb]. rewrite Hc. split; [done|].
  destruct (Z.eqb_spec v syscallHex) as [->|]; done.
Qed.



(** Stubs of 16 bytes from 4 MB on *)
Definition demo_addr (e : stub) : Z :=
  match e with
  | irq_ n => 0x400000 + 16 * n
  | keyboard => 0x400200 | rtc_stub => 0x400210 | pit => 0x400220 | sysc => 0x400230 | default_handler => 0x400240
  end.
Definition demo_code (a : Z) : option stub :=
  if (0x400000 <=? a) && (a <? 0x400200) && (a mod 16 =? 0) then Some (irq_ ((a - 0x400000) / 16))
  else if a =? 0x400200 then Some keyboard else if a =? 0x400210 then Some rtc_stub
  else if a =? 0x400220 then Some pit else if a =? 0x400230 then Some sysc
  else if a =? 0x400240 then Some default_handler else None.
Lemma demo_linked v : 0 ≤ v < 256 → is_u32 (demo_addr (stub_for v)) ∧ demo_code (demo_addr (stub_for v)) = Some (stub_for v).
Proof.
  intros Hv. unfold stub_for. destruct (Z.ltb_spec v 32).
  - cbn [demo_addr]. split; [cint; lia|]. unfold demo_code.
    rewrite (proj2 (Z.leb_le 0x400000 (0x400000 + 16 * v))), (proj2 (Z.ltb_lt (0x400000 + 16 * v) 0x400200)) by lia.
    rewrite (proj2 (Z.eqb_eq ((0x400000 + 16 * v) mod 16) 0)) by (Z.div_mod_to_equations; lia). cbn [andb].
    do 2 f_equal. Z.div_mod_to_equations; lia.
  - destruct (v =? keyboardHex), (v =? rtcHex), (v =? syscallHex), (v =? pitHex); split; vm_compute; done.
Qed.
Definition blank_vectors : vectors :=
  mk_vectors (replicate 256 (mk_idt_desc 0 0 0 0 0 0 0 0 0 0 0)) (replicate 256 None).

(** ** The exceptions *)
Lemma printf_plain junk l :
  Forall (λ c, c ≠ 0 ∧ c ≠ 37) l → printf junk (l ++ [0]) [] = Some (l, zlen l).
Proof.
  intros Hl. unfold printf. induction Hl as [|c l [H0 H37] Hl IH]; [done|]. cbn [app printf_loop].
  rewrite (proj2 (Z.eqb_neq c 0)), (proj2 (Z.eqb_neq c 37)) by done. rewrite IH. cbn. do 2 f_equal. lia.
Qed.
Lemma exception_text_plain n : Forall (λ c, c ≠ 0 ∧ c ≠ 37) (10 :: chars (exception_text n)).
Proof.
  unfold exception_text. destruct (decide (0 ≤ n < 20)) as [Hn|Hn].
  - assert (Hall : Forall (λ n, Forall (λ c, c ≠ 0 ∧ c ≠ 37) (10 :: chars (exception_text n))) (seqZ 0 20))
      by (apply (bool_decide_unpack _); vm_compute; exact I).
    rewrite Forall_forall in Hall. apply Hall, elem_of_seqZ. lia.
  - match goal with |- context [aget ?l n] => assert (aget l n = None) as -> by (apply aget_None; cbn; lia) end.
    apply (bool_decide_unpack _). vm_compute. exact I.
Qed.
Lemma put_chars_step cs s : screen_ok s → ∃ s', put_chars cs s = Some ((), s') ∧ screen_step s s'.
Proof.
  revert s. induction cs as [|c cs IH]; intros s Hok; [exists s; split; [done|split; [done|reflexivity]]|].
  destruct (run_op_step (OPutc c) s Hok) as (s1&Hrun1&Hok1&Hf1). destruct (IH s1 Hok1) as (s2&Hrun2&Hok2&Hf2).
  exists s2. cbn [put_chars]. rewrite (bind_run _ _ _ _ _ Hrun1). split; [exact Hrun2|]. split; [done|by etrans].
Qed.
(** An exception prints its line on the screen and stops the machine; nothing but
    the screen has changed. *)
Lemma exception_stops junk n s :
  screen_ok s → ∃ s', exception junk n s = Some (Stopped, s') ∧ screen_step s s'.
Proof.
  intros Hok. unfold exception.
  assert (∃ s1, (if n =? 14 then skip else clear) s = Some ((), s1) ∧ screen_step s s1) as (s1&Hrun1&Hok1&Hf1).
  { destruct (n =? 14); [exists s; split; [done|split; [done|reflexivity]]|].
    destruct (clear_cells_run s Hok) as (s1&Hrun&Hf&Hs&_). exists s1. split; [done|]. split; [|done].
    apply (screen_frame_ok s); try done; [rewrite Hs; apply Hok|left; by rewrite Hs|unfold cursor_in; rewrite Hs; apply Hok]. }
  rewrite (bind_run _ _ _ _ _ Hrun1). unfold print_, exception_message.
  change (10 :: chars (exception_text n) ++ [0]) with ((10 :: chars (exception_text n)) ++ [0]).
  rewrite bind_assoc, (bind_lift _ _ _ _ (printf_plain junk _ (exception_text_plain n))).
  destruct (put_chars_step (10 :: chars (exception_text n)) s1 Hok1) as (s2&Hrun2&Hok2&Hf2).
  rewrite (bind_run _ _ _ _ _ Hrun2). exists s2. split; [done|]. split; [done|by etrans].
Qed.
