(* ===== verification/Boot.v ===== *)
(** * Boot: [entry] ([kernel.c])

    The kernel from its first C function on: it prints what the boot loader tells
    of the machine, mounts the file system from the first module, fills in two
    descriptors and initialises the other components.  The structures of the boot
    loader ([multiboot.h]) are read from memory, at the addresses it passes.

    [entry] runs with interrupts masked at the controllers until [pit_init], but for
    the keyboard and the clock, which are taken to be silent until then. *)
From S2P Require Import Prelude Keep LibString LibMem Filesystem KState Paging PortIO Screen Switch Keyboard Terminal Frame Syscall FdTable Process Halt Exec Scheduler Interrupts.

(** ** Descriptors of segments ([x86_desc.h]) *)
Record seg_desc_t := mk_seg_desc {
  seg_lim_15_00 : Z; base_15_00 : Z; base_23_16 : Z;
  sd_type : Z; sd_sys : Z; sd_dpl : Z; sd_present : Z; seg_lim_19_16 : Z;     (* bit fields *)
  sd_avail : Z; sd_reserved : Z; sd_opsize : Z; sd_granularity : Z;
  base_31_24 : Z;
}.
#[export] Instance seg_desc_settable : Settable seg_desc_t := λ d,
  mk_seg_desc (seg_lim_15_00 d) (base_15_00 d) (base_23_16 d) (sd_type d) (sd_sys d) (sd_dpl d) (sd_present d)
    (seg_lim_19_16 d) (sd_avail d) (sd_reserved d) (sd_opsize d) (sd_granularity d) (base_31_24 d).

Definition KERNEL_TSS : Z := 0x30.
Definition KERNEL_LDT : Z := 0x38.
Definition TSS_SIZE : Z := 104.

(** [SET_LDT_PARAMS] and [SET_TSS_PARAMS], which are the same *)
Definition SET_PARAMS (addr lim : Z) (d : seg_desc_t) : seg_desc_t :=
  d <| base_31_24 := Z.shiftr (Z.land addr 0xFF000000) 24 |> <| base_23_16 := Z.shiftr (Z.land addr 0x00FF0000) 16 |>
    <| base_15_00 := Z.land addr 0x0000FFFF |> <| seg_lim_19_16 := Z.shiftr (Z.land lim 0x000F0000) 16 |>
    <| seg_lim_15_00 := Z.land lim 0x0000FFFF |>.
Definition the_ldt_desc (d : seg_desc_t) : seg_desc_t :=
  d <| sd_granularity := 0 |> <| sd_opsize := 1 |> <| sd_reserved := 0 |> <| sd_avail := 0 |> <| sd_present := 1 |>
    <| sd_dpl := 0 |> <| sd_sys := 0 |> <| sd_type := 2 |>.
Definition the_tss_desc (d : seg_desc_t) : seg_desc_t :=
  d <| sd_granularity := 0 |> <| sd_opsize := 0 |> <| sd_reserved := 0 |> <| sd_avail := 0 |>
    <| seg_lim_19_16 := Z.land TSS_SIZE 0x000F0000 |> <| sd_present := 1 |> <| sd_dpl := 0 |> <| sd_sys := 0 |>
    <| sd_type := 9 |> <| seg_lim_15_00 := Z.land TSS_SIZE 0x0000FFFF |>.

Record machine := mk_machine {
  kern : kstate;
  vecs : vectors;
  ldt_desc_ptr : seg_desc_t; tss_desc_ptr : seg_desc_t;
  ldtr : Z; task_register : Z;
  ldt_segment_selector : Z;                       (* of the TSS *)
}.
#[export] Instance machine_settable : Settable machine := λ m,
  mk_machine (kern m) (vecs m) (ldt_desc_ptr m) (tss_desc_ptr m) (ldtr m) (task_register m) (ldt_segment_selector m).
Abbreviation B := (M machine).
Definition on_kernel {A} (m : K A) : B A := λ b,
  match m (kern b) with Some (a, k) => Some (a, b <| kern := k |>) | None => None end.
Definition on_vectors {A} (m : V A) : B A := λ b,
  match m (vecs b) with Some (a, t) => Some (a, b <| vecs := t |>) | None => None end.

(** ** What the boot loader tells ([multiboot.h]) *)
Definition MULTIBOOT_BOOTLOADER_MAGIC : Z := 0x2BADB002.
(** The offsets of the members *)
Definition mbi_flags : Z := 0.
Definition mbi_mem_lower : Z := 4.
Definition mbi_mem_upper : Z := 8.
Definition mbi_boot_device : Z := 12.
Definition mbi_cmdline : Z := 16.
Definition mbi_mods_count : Z := 20.
Definition mbi_mods_addr : Z := 24.
Definition mbi_elf_sec : Z := 28.
Definition mbi_mmap_length : Z := 44.
Definition mbi_mmap_addr : Z := 48.
Definition field (a off : Z) : K Z := load32 (u32 (a + off)).
Definition CHECK_FLAG (flags bit : Z) : bool := negb (Z.land flags (Z.shiftl 1 bit) =? 0).

(** A loop of the second part of [entry], with the address space as its bound *)
Definition forever {A} (body : A → K (A + ())) (a : A) : K () :=
  r ← loop_pos body 4294967296 a; match r with inl _ => ub | inr () => skip end.

(** The bytes of a module, which [filesystem_init] gets the address of; the image is
    taken to end where the module ends. *)
Definition module_bytes (s : kstate) (mod_start mod_end : Z) : list Z :=
  (λ i, contents s (u32 (mod_start + i))) <$> seqZ 0 (mod_end - mod_start).

Section entry.
Context (junk : stack_junk) (addr_of : stub → Z).
(** Of [x86_desc.S]: where the LDT and the TSS are, and their sizes less one *)
Context (ldt ldt_size tss tss_size : Z).
(** Local variables before they are set *)
Context (uninit : seg_desc_t).

Definition print (fmt : string) (args : list vararg) : K () := print_ junk (chars fmt ++ [0]) args.

Definition mount (module : Z) : K () :=
  mod_start ← field module 0; mod_end ← field module 4;
  img ← gets (λ s, module_bytes s mod_start mod_end);
  _ ← lift (filesystem_init img);
  modify (λ s, s <| fs_image := img |>).

Definition module_step (mbi : Z) (st : Z * Z) : K ((Z * Z) + ()) :=
  let '(mod_count, module) := st in
  n ← field mbi mbi_mods_count;
  if u32 mod_count <? n then
    mod_start ← field module 0;
    print "Module %d loaded at address: 0x%#x
" [VInt mod_count; VInt mod_start];;
    mod_end ← field module 4;
    print "Module %d ends at address: 0x%#x
" [VInt mod_count; VInt mod_end];;
    print "First few bytes of module:
" [];;
    for_n 16 0 (λ i,
      mod_start ← field module 0;
      b ← load8 (u32 (mod_start + i));
      print "0x%x " [VInt (i8 b)]);;
    print "
" [];;
    mret (inl (i32 (mod_count + 1), u32 (module + 16)))
  else mret (inr ()).

Definition mmap_step (mbi mmap : Z) : K (Z + ()) :=
  mmap_addr ← field mbi mbi_mmap_addr; mmap_length ← field mbi mbi_mmap_length;
  if mmap <? u32 (mmap_addr + mmap_length) then
    size ← field mmap 0; base_high ← field mmap 8; base_low ← field mmap 4;
    type ← field mmap 20; length_high ← field mmap 16; length_low ← field mmap 12;
    print "    size = 0x%x, base_addr = 0x%#x%#x
    type = 0x%x,  length    = 0x%#x%#x
" [VInt size; VInt base_high; VInt base_low; VInt type; VInt length_high; VInt length_low];;
    size ← field mmap 0;
    mret (inl (u32 (mmap + size + 4)))
  else mret (inr ()).

(** The first part of [entry]; the answer is whether it goes on. *)
Definition announce (magic mbi : Z) : K bool :=
  clear;;
  if negb (magic =? MULTIBOOT_BOOTLOADER_MAGIC) then
    print "Invalid magic number: 0x%#x
" [VInt magic];;
    mret false
  else
  flags ← field mbi mbi_flags;
  print "flags = 0x%#x
" [VInt flags];;
  flags ← field mbi mbi_flags;
  (if CHECK_FLAG flags 0 then
     lower ← field mbi mbi_mem_lower; upper ← field mbi mbi_mem_upper;
     print "mem_lower = %uKB, mem_upper = %uKB
" [VInt lower; VInt upper]
   else skip);;
  flags ← field mbi mbi_flags;
  (if CHECK_FLAG flags 1 then
     d ← field mbi mbi_boot_device;
     print "boot_device = 0x%#x
" [VInt d]
   else skip);;
  flags ← field mbi mbi_flags;
  (if CHECK_FLAG flags 2 then
     p ← field mbi mbi_cmdline; cmdline ← user_string p;
     print "cmdline = %s
" [VStr cmdline]
   else skip);;
  flags ← field mbi mbi_flags;
  (if CHECK_FLAG flags 3 then
     module ← field mbi mbi_mods_addr;
     mount module;;
     forever (module_step mbi) (0, module)
   else skip);;
  flags ← field mbi mbi_flags;
  if CHECK_FLAG flags 4 && CHECK_FLAG flags 5 then
    print "Both bits 4 and 5 are set.
" [];;
    mret false
  else
  flags ← field mbi mbi_flags;
  (if CHECK_FLAG flags 5 then
     let elf_sec := mbi + mbi_elf_sec in
     num ← field elf_sec 0; size ← field elf_sec 4; addr ← field elf_sec 8; shndx ← field elf_sec 12;
     print "elf_sec: num = %u, size = 0x%#x, addr = 0x%#x, shndx = 0x%#x
" [VInt num; VInt size; VInt addr; VInt shndx]
   else skip);;
  flags ← field mbi mbi_flags;
  (if CHECK_FLAG flags 6 then
     a ← field mbi mbi_mmap_addr; n ← field mbi mbi_mmap_length;
     print "mmap_addr = 0x%#x, mmap_length = 0x%x
" [VInt a; VInt n];;
     a ← field mbi mbi_mmap_addr;
     forever (mmap_step mbi) a
   else skip);;
  mret true.

(** The two descriptors *)
Definition set_descriptors : B () :=
  modify (λ b, b <| ldt_desc_ptr := SET_PARAMS ldt ldt_size (the_ldt_desc uninit) |> <| ldtr := KERNEL_LDT |>);;
  modify (λ b, b <| tss_desc_ptr := SET_PARAMS tss tss_size (the_tss_desc uninit) |>
                 <| ldt_segment_selector := KERNEL_LDT |>);;
  on_kernel (set_cpu (λ c, c <| tss_ss0 := KERNEL_DS |> <| tss_esp0 := 0x800000 |>));;
  modify (λ b, b <| task_register := KERNEL_TSS |>).

(** The second part of [entry], up to the loop that halts *)
Definition initialise : B () :=
  set_descriptors;;
  on_kernel reset;;
  on_vectors (idt_init addr_of);;
  on_kernel i8259_init;;
  on_kernel rtc_initialize;;
  on_kernel keyboard_init;;
  on_kernel paging_initialize;;
  on_kernel init_terminal;;
  on_kernel pit_init.

Definition entry (magic mbi : Z) : B () :=
  goes_on ← on_kernel (announce magic mbi);
  if (goes_on : bool) then initialise else skip.
End entry.

(** ** Formats that [printf] can follow with the arguments it gets *)
Fixpoint format_ok (conv : bool) (buf : list Z) (args : list vararg) : bool :=
  match buf with
  | [] => false
  | c :: buf =>
      if conv then
        if c =? 37 then format_ok false buf args
        else if c =? 35 then format_ok true buf args
        else if (c =? 120) || (c =? 117) || (c =? 100) || (c =? 99) then
          match args with VInt _ :: args => format_ok false buf args | _ => false end
        else if c =? 115 then
          match args with VStr s :: args => existsb (Z.eqb 0) s && format_ok false buf args | _ => false end
        else format_ok false buf args
      else if c =? 0 then true
      else format_ok (c =? 37) buf args
  end.
Lemma emit_is_Some o r : is_Some r → is_Some (emit o r).
Proof. intros [[out n] ->]. by eexists. Qed.
Lemma puts_is_Some s : existsb (Z.eqb 0) s = true → is_Some (puts s).
Proof.
  induction s as [|c s IH]; [done|]. cbn [existsb puts]. rewrite (Z.eqb_sym 0 c).
  destruct (c =? 0); [by eexists|]. cbn [orb]. intros [o ->]%IH. by eexists.
Qed.
Lemma format_ok_prints junk conv buf args :
  (∀ n, length (junk n) = n) → format_ok conv buf args = true →
  is_Some (if conv then printf_conv junk true buf args else printf_loop junk buf args) ∧
  (conv = true → is_Some (printf_conv junk false buf args)).
Proof.
  intros Hj. revert conv args. induction buf as [|c buf IH]; intros conv args; [done|].
  assert (∀ alt, format_ok true (c :: buf) args = true → is_Some (printf_conv junk alt (c :: buf) args)) as Hconv.
  { intros alt. cbn [format_ok printf_conv].
    destruct (c =? 37); [intros [H _]%IH; by apply emit_is_Some|].
    destruct (c =? 35); [intros [H _]%IH; by apply emit_is_Some|].
    destruct (c =? 120); cbn [orb].
    { destruct args as [|[v|] args]; try done. intros [H _]%IH. cbn [va_int mbind option_bind].
      destruct alt; rewrite ?printf_x_alternate, ?printf_x_plain by done; by apply emit_is_Some. }
    destruct (c =? 117); cbn [orb].
    { destruct args as [|[v|] args]; try done. intros [H _]%IH. cbn [va_int mbind option_bind].
      rewrite printf_u_spec by done. by apply emit_is_Some. }
    destruct (c =? 100); cbn [orb].
    { destruct args as [|[v|] args]; try done. intros [H _]%IH. cbn [va_int mbind option_bind].
      rewrite printf_d_spec by done. by apply emit_is_Some. }
    destruct (c =? 99).
    { destruct args as [|[v|] args]; try done. intros [H _]%IH. by apply emit_is_Some. }
    destruct (c =? 115); [|intros [H _]%IH; by apply emit_is_Some].
    destruct args as [|[|s] args]; try done. intros [[o Ho]%puts_is_Some [H _]%IH]%andb_prop.
    cbn [va_str mbind option_bind]. rewrite Ho. by apply emit_is_Some. }
  destruct conv; [intros H; split; [|intros _]; by apply Hconv|].
  intros H. split; [|done]. revert H. cbn [format_ok printf_loop]. destruct (c =? 0); [by eexists|].
  destruct (c =? 37); intros [H H']%IH; apply emit_is_Some; [by apply H'|done].
Qed.
Lemma printf_is_Some junk buf args :
  (∀ n, length (junk n) = n) → format_ok false buf args = true → is_Some (printf junk buf args).
Proof. intros Hj H. by destruct (format_ok_prints junk false buf args Hj H). Qed.

(** ** Before paging

    The pages that the code writes to until then: the first one, where [term_arr]
    sends [putc] before [init_terminal] has run, and the screen *)
Definition out_of_the_way (q : Z) : Prop := 4096 ≤ q < 753664 ∨ 757760 ≤ q < 4294967296.
Definition blank_byte (off : Z) : Z := if Z.even off then 32 else ATTRIB.
Definition blank (s : kstate) : Prop := ∀ off, 0 ≤ off < 4000 → contents s (VIDEO_MEM + off) = blank_byte off.
(** The terminals before [init_terminal] *)
Definition early_terms (arr : list terminal_t) : Prop :=
  length arr = 3%nat ∧ ∀ i t, aget arr i = Some t → cursor_ok t ∧ vid_mem_addr t = 0.

(** What the kernel printed so far has changed, from the state [s0], with the image
    [img] mounted *)
Record early (s0 : kstate) (img : list Z) (s : kstate) : Prop := {
  ea_off : paging_on s0 = false ∧ curr_process (proc s0) = 0;
  ea_cpu : cr0 (cpu s) = cr0 (cpu s0);
  ea_tables : mem s = (mem s0) <| phys := phys (mem s) |>;
  ea_rest : kbd s = kbd s0 ∧ proc s = proc s0 ∧ fs_image s = img;
  ea_terms : early_terms (term_arr (scr s));
  ea_terminal : curr_terminal (scr s) = 0;
  ea_video : video_mem (scr s) = 0 ∨ video_mem (scr s) = VIDEO_MEM;
  ea_mem : ∀ q, out_of_the_way q → contents s q = contents s0 q;
}.

Lemma early_translate s0 img s v : early s0 img s → 0 ≤ v < 4294967296 → translate s v = Some v.
Proof.
  intros [[Hoff _] Hc _ _ _ _ _ _] Hv. cbn. unfold translate_as.
  rewrite (proj2 (Z.leb_le 0 v)), (proj2 (Z.ltb_lt v 4294967296)) by lia. cbn [andb].
  replace (paging_on s) with (paging_on s0); [by rewrite Hoff|]. unfold paging_on. by rewrite Hc.
Qed.

(** Writing a byte of the first page or of the screen *)
Lemma early_update s0 img s p b :
  early s0 img s → ¬ out_of_the_way p → early s0 img (update p b s).
Proof.
  intros He Hp. pose proof He as [? ? Ht ? ? ? ? Hm]. constructor; try done.
  - destruct (mem s0) eqn:E. cbn. rewrite Ht. done.
  - intros q Hq. rewrite contents_update, decide_False; [by apply Hm|]. by intros ->.
Qed.
Lemma early_scr s0 img s f :
  early s0 img s → early_terms (term_arr (f (scr s))) → curr_terminal (f (scr s)) = 0 →
  video_mem (f (scr s)) = 0 ∨ video_mem (f (scr s)) = VIDEO_MEM → early s0 img (s <| scr ::= f |>).
Proof. intros [] **. by constructor. Qed.
Lemma early_log s0 img s es :
  early s0 img s → early s0 img (s <| cpu ::= λ c, c <| io_log ::= λ l, l ++ es |> |>).
Proof. intros []. by constructor. Qed.
Lemma early_terms_get arr : early_terms arr → ∃ t, aget arr 0 = Some t ∧ cursor_ok t ∧ vid_mem_addr t = 0.
Proof.
  intros [Hl Hall]. destruct (proj2 (aget_is_Some arr 0)) as [t Ht]; [lia|]. exists t. split; [done|by eapply Hall].
Qed.
Lemma early_terms_insert arr x y t :
  early_terms arr → aget arr 0 = Some t → 0 ≤ x < NUM_COLS → 0 ≤ y < NUM_ROWS →
  early_terms (<[Z.to_nat 0 := put_cursor x y t]> arr).
Proof.
  intros [Hl Hall] Ht Hx Hy. split; [by rewrite length_insert|]. intros i u. rewrite aget_insert by lia.
  case_decide; [|by apply Hall]. intros [= <-]. split; [by apply put_cursor_ok|exact (proj2 (Hall 0 t Ht))].
Qed.

(** A byte of a cell, through [video_mem] *)
Lemma early_store s0 img s off b :
  early s0 img s → 0 ≤ off < 4000 →
  video_store off b s = Some ((), update (video_mem (scr s) + off) b s) ∧
  early s0 img (update (video_mem (scr s) + off) b s).
Proof.
  intros He Ho. assert (0 ≤ video_mem (scr s) + off < 4294967296) as Hr.
  { destruct (ea_video _ _ _ He) as [-> | ->]; unfold VIDEO_MEM; lia. }
  split.
  - apply video_store_run. rewrite u32_small by (cint; lia). by apply (early_translate s0 img).
  - apply early_update; [done|]. unfold out_of_the_way. destruct (ea_video _ _ _ He) as [-> | ->]; unfold VIDEO_MEM; lia.
Qed.

(** [clear] and [reset] *)
Lemma early_clear s0 img s :
  early s0 img s →
  wp clear (λ _ s', early s0 img s' ∧ scr s' = scr s ∧ (blank s ∨ video_mem (scr s) = VIDEO_MEM → blank s')) s.
Proof.
  intros He.
  set (I := λ n s', early s0 img s' ∧ scr s' = scr s ∧
    ∀ off, 0 ≤ off < 4000 → (off < 2 * n ∧ video_mem (scr s) = VIDEO_MEM) ∨ contents s (VIDEO_MEM + off) = blank_byte off →
      contents s' (VIDEO_MEM + off) = blank_byte off).
  apply (wp_mono _ (λ _, I (0 + Z.of_nat (Z.to_nat (NUM_ROWS * NUM_COLS))))).
  { apply (wp_for I).
    - split; [done|]. split; [done|]. intros off Ho [[? _]|H]; [lia|done].
    - intros j s1 Hj (He1&Hs1&Hb). change (0 + Z.of_nat (Z.to_nat (NUM_ROWS * NUM_COLS))) with 2000 in Hj. unfold clear_cell.
      destruct (early_store s0 img s1 (2 * j) 32 He1 ltac:(lia)) as [Hrun1 He2]. apply wp_bind. unfold wp at 1. rewrite Hrun1.
      set (s2 := update _ 32 s1) in *. assert (scr s2 = scr s1) as Hs2 by done.
      destruct (early_store s0 img s2 (2 * j + 1) ATTRIB He2 ltac:(lia)) as [Hrun2 He3]. unfold wp. rewrite Hrun2.
      split; [done|]. split; [exact Hs1|]. intros off Ho Hor.
      rewrite contents_update, Hs2, Hs1. unfold s2. rewrite contents_update, Hs1. change (u8 32) with 32. change (u8 ATTRIB) with ATTRIB. unfold blank_byte in *.
      destruct (ea_video _ _ _ He) as [Hv|Hv]; rewrite Hv in *.
      + rewrite !decide_False by (unfold VIDEO_MEM; lia). apply Hb; [done|]. destruct Hor as [[_ ?]|]; [done|by right].
      + case_decide as H1.
        { replace off with (2 * j + 1) by lia. rewrite Z.add_comm, Z.even_add_mul_2. done. }
        case_decide as H2.
        { replace off with (0 + 2 * j) by lia. rewrite Z.even_add_mul_2. done. }
        apply Hb; [done|]. destruct Hor as [[? _]|]; [left; split; [|done]; unfold VIDEO_MEM in *; lia|by right]. }
  intros [] s' (He'&Hs'&Hb). split; [done|]. split; [done|]. intros Hor off Ho. apply Hb; [done|].
  destruct Hor as [Hbl|Hv]; [right; by apply Hbl|left]. split; [|done].
  change (0 + Z.of_nat (Z.to_nat (NUM_ROWS * NUM_COLS))) with 2000. lia.
Qed.

(** Printing goes to the first page: what is on the screen stays. *)
Definition quiet (s0 : kstate) (img : list Z) (s : kstate) : Prop := early s0 img s ∧ blank s.

Lemma blank_update s p b : blank s → p < VIDEO_MEM → blank (update p b s).
Proof. intros Hb Hp off Ho. rewrite contents_update, decide_False by lia. by apply Hb. Qed.

Lemma early_save s0 img s x y t :
  early s0 img s → aget (term_arr (scr s)) 0 = Some t → screen_x (scr s) = x → screen_y (scr s) = y →
  0 ≤ x < NUM_COLS → 0 ≤ y < NUM_ROWS →
  ∃ s', (save_cursor 0;; update_cursor) s = Some ((), s') ∧ early s0 img s' ∧ mem s' = mem s.
Proof.
  intros He Ht Hx Hy Hxr Hyr. rewrite (bind_run _ _ _ _ _ (save_cursor_run _ _ _ Ht)).
  set (f := λ c : screen_t, _). set (s1 := setter scr f s).
  pose proof (early_terms_insert _ x y t (ea_terms _ _ _ He) Ht Hxr Hyr) as Hterms.
  assert (early s0 img s1) as He1.
  { apply early_scr; try done; [|apply He|apply He]. unfold f. cbn. by rewrite Hx, Hy. }
  destruct (early_terms_get _ (ea_terms _ _ _ He1)) as (u&Hu&_).
  eexists. split; [apply (update_cursor_run u); by rewrite (ea_terminal _ _ _ He1)|].
  split; [by apply early_log|done].
Qed.

Lemma quiet_putc s0 img c s : quiet s0 img s → ∃ s', putc c s = Some ((), s') ∧ quiet s0 img s'.
Proof.
  intros [He Hb]. destruct (early_terms_get _ (ea_terms _ _ _ He)) as (t&Ht&[Hx Hy]&Hv).
  assert (curr_process (proc s) = 0) as Hp by (destruct (ea_rest _ _ _ He) as (_&->&_); apply (ea_off _ _ _ He)).
  unfold putc, the_process. rewrite bind_gets, Hp. unfold putc_at. set (x := u8 c). clearbody x.
  rewrite (bind_run _ _ _ _ _ (set_video_mem_run _ _ _ Ht)). set (s1 := setter scr _ s).
  assert (early s0 img s1) as He1 by (apply early_scr; [done|apply He|apply He|by left]).
  rewrite (bind_run _ _ _ _ _ (load_cursor_run 0 t s1 Ht)). set (s2 := setter scr _ s1).
  assert (early s0 img s2) as He2 by (apply early_scr; [done|apply He|apply He|by left]).
  rewrite !bind_gets. change (screen_x (scr s2)) with (t_screen_x t). change (screen_y (scr s2)) with (t_screen_y t).
  assert (∀ m' x' y', early s0 img (s2 <| mem := m' |>) → blank (s2 <| mem := m' |>) → 0 ≤ x' < NUM_COLS → 0 ≤ y' < NUM_ROWS →
    ∃ s', (save_cursor 0;; update_cursor) (s2 <| mem := m' |> <| scr ::= λ r, r <| screen_x := x' |> <| screen_y := y' |> |>) =
      Some ((), s') ∧ quiet s0 img s') as Hend.
  { intros m' x' y' He3 Hb3 Hx' Hy'. set (s3 := setter scr _ (setter mem _ s2)).
    assert (early s0 img s3) as He4 by (apply early_scr; [done|apply He|apply He|by left]).
    destruct (early_save s0 img s3 x' y' t He4 Ht eq_refl eq_refl Hx' Hy') as (s'&Hrun&He'&Hm).
    exists s'. split; [done|]. split; [done|]. intros off Ho. rewrite <- (Hb3 off Ho). cbn. by rewrite Hm. }
  unfold set_scr. destruct (_ || _).
  - assert (s2 = s2 <| mem := mem s2 |>) as Hs2 by (by destruct s2).
    destruct (Z.eqb_spec (t_screen_y t) (NUM_ROWS - 1)) as [E|E]; rewrite bind_assoc, !bind_modify.
    + destruct (Hend (mem s2) 0 (NUM_ROWS - 1)) as (s'&Hrun&?); [by rewrite <- Hs2|by rewrite <- Hs2|done|done|].
      exists s'. split; [exact Hrun|done].
    + destruct (Hend (mem s2) 0 (t_screen_y t + 1)) as (s'&Hrun&?); [by rewrite <- Hs2|by rewrite <- Hs2|done|unfold NUM_ROWS in *; lia|].
      exists s'. split; [exact Hrun|done].
  - pose proof (cell_range _ _ Hx Hy) as Hc. unfold cell_off in Hc.
    destruct (early_store s0 img s2 (2 * (NUM_COLS * t_screen_y t + t_screen_x t)) x He2 Hc) as [Hrun1 He3].
    change (video_mem (scr s2)) with (vid_mem_addr t) in *. rewrite Hv in Hrun1, He3. rewrite !bind_assoc, (bind_run _ _ _ _ _ Hrun1).
    set (s3 := update _ x s2) in *.
    assert (2 * (NUM_COLS * t_screen_y t + t_screen_x t) + 1 < 4000) as Hc' by (unfold NUM_COLS, NUM_ROWS in *; lia).
    destruct (early_store s0 img s3 (2 * (NUM_COLS * t_screen_y t + t_screen_x t) + 1) ATTRIB He3 ltac:(lia)) as [Hrun2 He4].
    change (video_mem (scr s3)) with (vid_mem_addr t) in *. rewrite Hv in Hrun2, He4. rewrite !bind_assoc, (bind_run _ _ _ _ _ Hrun2).
    rewrite (Z.rem_mod_nonneg (t_screen_x t + 1)) by (unfold NUM_COLS in *; lia). rewrite bind_modify.
    destruct (Z.mod_pos_bound (t_screen_x t + 1) NUM_COLS ltac:(done)) as [Hm1 Hm2].
    rewrite Z.quot_small by lia. rewrite Z.add_0_r, Z.rem_small by (unfold NUM_ROWS in *; lia).
    destruct (Hend (mem (update (0 + (2 * (NUM_COLS * t_screen_y t + t_screen_x t) + 1)) ATTRIB s3))
      ((t_screen_x t + 1) mod NUM_COLS) (t_screen_y t)) as (s'&Hrun&?); [exact He4| |lia|done|].
    + apply (blank_update (update _ x s2)); [apply (blank_update s2); [exact Hb|]|]; unfold VIDEO_MEM; lia.
    + exists s'. split; [exact Hrun|done].
Qed.
Lemma quiet_puts s0 img cs s : quiet s0 img s → ∃ s', put_chars cs s = Some ((), s') ∧ quiet s0 img s'.
Proof.
  revert s. induction cs as [|c cs IH]; intros s Hq; [by exists s|]. cbn [put_chars].
  destruct (quiet_putc s0 img c s Hq) as (s1&Hrun&Hq1). rewrite (bind_run _ _ _ _ _ Hrun). by apply IH.
Qed.

Section announcing.
Context (junk : stack_junk) (Hjunk : ∀ n, length (junk n) = n) (s0 : kstate).

(** ** Reading what the boot loader left *)
Definition region (a n : Z) : Prop := 4096 ≤ a ∧ a + n ≤ VIDEO_MEM ∨ 757760 ≤ a ∧ a + n ≤ 4294967296.
Definition word (a : Z) : Z :=
  contents s0 a + 256 * contents s0 (a + 1) + 65536 * contents s0 (a + 2) + 16777216 * contents s0 (a + 3).

Lemma word_u32 a : is_u32 (word a).
Proof.
  unfold word. pose proof (contents_u8 s0 a). pose proof (contents_u8 s0 (a + 1)).
  pose proof (contents_u8 s0 (a + 2)). pose proof (contents_u8 s0 (a + 3)). cint. lia.
Qed.
Lemma region_byte a n k : region a n → 0 ≤ k < n → out_of_the_way (a + k) ∧ 0 ≤ a + k < 4294967296.
Proof. unfold region, out_of_the_way, VIDEO_MEM. lia. Qed.

Lemma load8_early img s a :
  early s0 img s → 0 ≤ a < 4294967296 → load8 a s = Some (contents s a, s).
Proof. intros He Ha. apply load8_run. by apply (early_translate s0 img). Qed.
Lemma load8_known img s a n k :
  early s0 img s → region a n → 0 ≤ k < n → load8 (u32 (a + k)) s = Some (contents s0 (a + k), s).
Proof.
  intros He Hr Hk. destruct (region_byte a n k Hr Hk) as [Ho Ha]. rewrite u32_small by (cint; lia).
  rewrite (load8_early img) by done. by rewrite (ea_mem _ _ _ He).
Qed.
Lemma field_any img s a off : early s0 img s → ∃ v, field a off s = Some (v, s).
Proof.
  intros He. unfold field, load32. assert (∀ x, 0 ≤ u32 x < 4294967296) as Hu by (intros x; exact (u32_range x)).
  eexists. rewrite !(bind_run _ _ _ _ _ (load8_early img s _ He (Hu _))). reflexivity.
Qed.
Lemma field_known img s a n off :
  early s0 img s → region a n → 0 ≤ off → off + 4 ≤ n → field a off s = Some (word (a + off), s).
Proof.
  intros He Hr Ho Hn. unfold field, load32, word.
  rewrite (bind_run _ _ _ _ _ (load8_known img s a n off He Hr ltac:(lia))).
  rewrite (u32_small (a + off)) by (exact (proj2 (region_byte a n off Hr ltac:(lia)))). rewrite <- !(Z.add_assoc a off).
  rewrite (bind_run _ _ _ _ _ (load8_known img s a n (off + 1) He Hr ltac:(lia))).
  rewrite (bind_run _ _ _ _ _ (load8_known img s a n (off + 2) He Hr ltac:(lia))).
  rewrite (bind_run _ _ _ _ _ (load8_known img s a n (off + 3) He Hr ltac:(lia))). reflexivity.
Qed.

Lemma wp_print img fmt args (Q : () → kstate → Prop) s :
  format_ok false (chars fmt ++ [0]) args = true → quiet s0 img s → (∀ s', quiet s0 img s' → Q () s') →
  wp (print junk fmt args) Q s.
Proof using Hjunk.
  intros Hf Hq HQ. destruct (printf_is_Some junk _ _ Hjunk Hf) as [[out n] Hout].
  unfold print, print_. apply wp_bind. apply (wp_eq _ _ (out, n) s s); [by unfold lift; rewrite Hout|].
  destruct (quiet_puts s0 img out s Hq) as (s'&Hrun&Hq'). apply (wp_eq _ _ () s s'); [done|by apply HQ].
Qed.
Lemma wp_field img a off (Q : Z → kstate → Prop) s : early s0 img s → (∀ v, Q v s) → wp (field a off) Q s.
Proof. intros He HQ. destruct (field_any img s a off He) as [v Hv]. by apply (wp_eq _ _ v s s). Qed.
Lemma wp_field_known img a n off (Q : Z → kstate → Prop) s :
  early s0 img s → region a n → 0 ≤ off → off + 4 ≤ n → Q (word (a + off)) s → wp (field a off) Q s.
Proof. intros He Hr Ho Hn HQ. apply (wp_eq _ _ (word (a + off)) s s); [by eapply field_known|done]. Qed.

(** The command line, a string at [a] *)
Lemma string_early img s a n :
  early s0 img s → region a (n + 1) → 0 ≤ n → contents s0 (a + n) = 0 →
  ∃ cs, user_string a s = Some (cs, s) ∧ existsb (Z.eqb 0) cs = true.
Proof.
  intros He Hr Hn Hend.
  assert (wp (loop_pos (string_step a) 4294967296 [])
    (λ r s', ∃ cs, r = inr cs ∧ s' = s ∧ existsb (Z.eqb 0) cs = true) s) as H.
  { apply (loop_pos_total (string_step a) (λ acc s', s' = s ∧ zlen acc ≤ n) (λ cs s', s' = s ∧ existsb (Z.eqb 0) cs = true)
      (λ acc, n - zlen acc)).
    - intros acc s' [-> Ha]. split; [lia|]. unfold string_step. apply wp_bind.
      apply (wp_eq _ _ (contents s0 (a + zlen acc)) s s); [by apply (load8_known img s a (n + 1)); [| |lia]|].
      apply wp_ret. destruct (Z.eqb_spec (contents s0 (a + zlen acc)) 0) as [E|E].
      + split; [done|]. rewrite existsb_app. cbn. apply orb_true_r.
      + assert (zlen acc ≠ n) by (intros E'; apply E; by rewrite E'). rewrite length_app. cbn [length]. split; [split; [done|lia]|lia].
    - done.
    - unfold region, VIDEO_MEM in Hr. cbn [length]. lia. }
  apply wp_run in H as (r&s'&Hrun&cs&->&->&Hc). exists cs. split; [|done].
  unfold user_string. by rewrite (bind_run _ _ _ _ _ Hrun).
Qed.

(** ** The information of a boot loader

    [flags], the first member of the structure *)
Inductive mmap_chain (e : Z) : Z → Prop :=
  | mmap_end a : e ≤ a → mmap_chain e a
  | mmap_entry a : a < e → region a 4 → a + word a + 4 < 4294967296 → mmap_chain e (a + word a + 4) → mmap_chain e a.
Record boot_info (mbi mod_start mod_end : Z) : Prop := {
  bi_mbi : region mbi 52;
  bi_flags : CHECK_FLAG (word mbi) 3 = true ∧ CHECK_FLAG (word mbi) 4 && CHECK_FLAG (word mbi) 5 = false;
  bi_cmdline : CHECK_FLAG (word mbi) 2 = true →
    ∃ n, 0 ≤ n ∧ region (word (mbi + 16)) (n + 1) ∧ contents s0 (word (mbi + 16) + n) = 0;
  bi_module : region (word (mbi + 24)) 8 ∧ word (word (mbi + 24)) = mod_start ∧ word (word (mbi + 24) + 4) = mod_end;
  bi_image : KERNEL_MEM ≤ mod_start ∧ mod_start ≤ mod_end ∧ mod_end ≤ bottomKernal;    (* in the kernel's page *)
  bi_mmap : CHECK_FLAG (word mbi) 6 = true →
    mmap_chain (u32 (word (mbi + 48) + word (mbi + 44))) (word (mbi + 48));
}.

Lemma wp_forever {A} img (body : A → K (A + ())) (I : A → Prop) (m : A → Z) (Q : () → kstate → Prop) a s :
  (∀ a s, I a → quiet s0 img s → 0 ≤ m a ∧
    wp (body a) (λ r s', quiet s0 img s' ∧ match r with inl a' => I a' ∧ m a' < m a | inr _ => True end) s) →
  I a → m a < 4294967296 → quiet s0 img s → (∀ s', quiet s0 img s' → Q () s') → wp (forever body a) Q s.
Proof using.
  intros Hb Ha Hm Hq HQ. unfold forever. apply wp_bind.
  eapply wp_mono; [apply (loop_pos_total body (λ a s, I a ∧ quiet s0 img s) (λ _ s, quiet s0 img s) m)|]; [|done|lia|].
  - intros a' s' [Ha' Hq']. destruct (Hb a' s' Ha' Hq') as [H0 Hw]. split; [done|].
    apply (wp_mono _ _ _ _ Hw). intros [a2|[]] s2; tauto.
  - intros r s' ([]&->&Hq'). by apply HQ.
Qed.

(** A part that is left out when a flag is not set *)
Lemma wp_flagged img (b : bool) m (Q : () → kstate → Prop) s :
  quiet s0 img s → (b = true → wp m (λ _, quiet s0 img) s) → (∀ s', quiet s0 img s' → Q () s') →
  wp (if b then m else skip) Q s.
Proof using.
  intros Hq Hm HQ. destruct b; [|by apply HQ]. apply (wp_mono _ _ _ _ (Hm eq_refl)). by intros [].
Qed.

Lemma cmdline_format cs : existsb (Z.eqb 0) cs = true → format_ok false (chars "cmdline = %s
" ++ [0]) [VStr cs] = true.
Proof using. intros Hz. transitivity (existsb (Z.eqb 0) cs && true); [reflexivity|by rewrite Hz]. Qed.

Section info.
Context (mbi mod_start mod_end : Z) (Hinfo : boot_info mbi mod_start mod_end).

Lemma wp_info img off (Q : Z → kstate → Prop) s :
  early s0 img s → 0 ≤ off ≤ 48 → Q (word (mbi + off)) s → wp (field mbi off) Q s.
Proof using Hinfo. intros He Ho. apply (wp_field_known img mbi 52 off Q s He (bi_mbi _ _ _ Hinfo)); lia. Qed.

Lemma modules_run img module (Q : () → kstate → Prop) s :
  quiet s0 img s → (∀ s', quiet s0 img s' → Q () s') → wp (forever (module_step junk mbi) (0, module)) Q s.
Proof using Hinfo Hjunk.
  intros Hq. set (n := word (mbi + mbi_mods_count)). pose proof (word_u32 (mbi + mbi_mods_count)) as Hn. fold n in Hn.
  apply (wp_forever img _ (λ st, True) (λ st, Z.max 0 (n - u32 st.1)));
    [|done|cbn [fst]; change (u32 0) with 0; cint; lia|done].
  clear s Hq. intros [c m] s _ Hq. split; [lia|]. unfold module_step.
  apply wp_bind, (wp_info img); [apply Hq|unfold mbi_mods_count; lia|]. fold n. destruct (Z.ltb_spec (u32 c) n) as [Hlt|]; [|by apply wp_ret].
  apply wp_bind, (wp_field img); [apply Hq|]. intros v1. apply wp_bind, (wp_print img); [done..|]. clear s Hq. intros s Hq.
  apply wp_bind, (wp_field img); [apply Hq|]. intros v2. apply wp_bind, (wp_print img); [done..|]. clear s Hq. intros s Hq.
  apply wp_bind, (wp_print img); [done..|]. clear s Hq. intros s Hq.
  apply wp_bind. eapply wp_mono; [apply (wp_for (λ _, quiet s0 img)); [done|]|].
  - intros i s' _ Hq'. apply wp_bind, (wp_field img); [apply Hq'|]. intros v3. apply wp_bind.
    apply (wp_eq _ _ _ _ _ (load8_early img s' _ (proj1 Hq') (u32_range _))). by apply (wp_print img).
  - clear s Hq. intros [] s Hq. apply wp_bind, (wp_print img); [done..|]. clear s Hq. intros s Hq. apply wp_ret.
    split; [done|]. split; [done|]. cbn [fst]. assert (u32 (i32 (c + 1)) = u32 c + 1) as -> by cint_lia. lia.
Qed.

Lemma mmap_run img a (Q : () → kstate → Prop) s :
  mmap_chain (u32 (word (mbi + 48) + word (mbi + 44))) a → 0 ≤ a < 4294967296 →
  quiet s0 img s → (∀ s', quiet s0 img s' → Q () s') → wp (forever (mmap_step junk mbi) a) Q s.
Proof using Hinfo Hjunk.
  intros Hc Hra. set (e := u32 (word (mbi + 48) + word (mbi + 44))) in *.
  pose proof (u32_range (word (mbi + 48) + word (mbi + 44))) as He. fold e in He.
  apply (wp_forever img _ (λ a, mmap_chain e a ∧ 0 ≤ a < 4294967296) (λ a, Z.max 0 (e - a))); [|done|cint; lia].
  clear a Hc Hra s. intros a s [Hc Ha] Hq. split; [lia|]. unfold mmap_step.
  apply wp_bind, (wp_info img); [apply Hq|unfold mbi_mmap_addr; lia|].
  apply wp_bind, (wp_info img); [apply Hq|unfold mbi_mmap_length; lia|].
  change (u32 (word (mbi + mbi_mmap_addr) + word (mbi + mbi_mmap_length))) with e.
  destruct Hc as [a Hend|a Hlt Hreg Hs Hc]; [by rewrite (proj2 (Z.ltb_ge a e)) by lia|].
  rewrite (proj2 (Z.ltb_lt a e)) by lia.
  do 6 (apply wp_bind, (wp_field img); [apply Hq|intros ?]). apply wp_bind, (wp_print img); [done..|].
  clear s Hq. intros s Hq. apply wp_bind, (wp_field_known img a 4); [apply Hq|done|lia..|]. rewrite Z.add_0_r. apply wp_ret.
  pose proof (word_u32 a) as Hw. rewrite u32_small by (cint; lia). split; [done|]. split; [split; [done|cint; lia]|cint; lia].
Qed.

(** Mounting the first module *)
Lemma module_bytes_early img s : early s0 img s → module_bytes s mod_start mod_end = module_bytes s0 mod_start mod_end.
Proof using Hinfo.
  intros He. unfold module_bytes. apply list_fmap_ext. intros k i Hi. apply lookup_seqZ in Hi.
  destruct (bi_image _ _ _ Hinfo) as (H1&_&H2). unfold KERNEL_MEM, bottomKernal in *.
  rewrite u32_small by (cint; lia). apply (ea_mem _ _ _ He). right. lia.
Qed.
Lemma mount_run img img' s :
  quiet s0 img s → module_bytes s0 mod_start mod_end = img' → is_Some (inode_count img') →
  ∃ s', mount (word (mbi + 24)) s = Some ((), s') ∧ quiet s0 img' s'.
Proof using Hinfo.
  intros [He Hb] Himg [n Hn]. destruct (bi_module _ _ _ Hinfo) as (Hr&H1&H2). unfold mount.
  rewrite (bind_run _ _ _ _ _ (field_known img s _ 8 0 He Hr ltac:(lia) ltac:(lia))).
  rewrite (bind_run _ _ _ _ _ (field_known img s _ 8 4 He Hr ltac:(lia) ltac:(lia))).
  rewrite Z.add_0_r, H1, H2, bind_gets, (module_bytes_early img s He), Himg.
  unfold filesystem_init at 1. rewrite Hn. cbn [mbind option_bind].
  eexists. split; [reflexivity|]. split; [|exact Hb]. by destruct He as [? ? ? (?&?&_) ? ? ? ?].
Qed.

(** ** The first part of [entry]

    It goes on, with the first module mounted, and nothing of what it printed is to
    be seen: the screen is blank. *)
Lemma announce_run img img' s :
  early s0 img s → video_mem (scr s) = VIDEO_MEM →
  module_bytes s0 mod_start mod_end = img' → is_Some (inode_count img') →
  wp (announce junk MULTIBOOT_BOOTLOADER_MAGIC mbi) (λ b s', b = true ∧ quiet s0 img' s') s.
Proof using Hinfo Hjunk.
  intros He Hv Himg Hn. destruct (bi_flags _ _ _ Hinfo) as [H3 H45].
  assert (∀ img s (Q : Z → kstate → Prop), quiet s0 img s → Q (word mbi) s → wp (field mbi mbi_flags) Q s) as Hflags.
  { intros img1 s1 Q Hq HQ. apply (wp_info img1); [apply Hq|unfold mbi_flags; lia|]. unfold mbi_flags. by rewrite Z.add_0_r. }
  unfold announce. apply wp_bind, (wp_mono _ _ _ _ (early_clear s0 img s He)).
  intros [] s1 (He1&_&Hb). assert (quiet s0 img s1) as Hq by (split; [done|by apply Hb; right]). clear s He Hv He1 Hb.
  rewrite Z.eqb_refl. cbn [negb].
  apply wp_bind, (Hflags img); [done|]. apply wp_bind, (wp_print img); [done..|]. clear s1 Hq. intros s Hq.
  apply wp_bind, (Hflags img); [done|]. apply wp_bind, (wp_flagged img); [done| |].
  { intros _. do 2 (apply wp_bind, (wp_field img); [apply Hq|intros ?]). by apply (wp_print img). }
  clear s Hq. intros s Hq. apply wp_bind, (Hflags img); [done|]. apply wp_bind, (wp_flagged img); [done| |].
  { intros _. apply wp_bind, (wp_field img); [apply Hq|intros ?]. by apply (wp_print img). }
  clear s Hq. intros s Hq. apply wp_bind, (Hflags img); [done|]. apply wp_bind, (wp_flagged img); [done| |].
  { intros (k&Hk&Hr&H0)%(bi_cmdline _ _ _ Hinfo). apply wp_bind, (wp_info img); [apply Hq|unfold mbi_cmdline; lia|].
    destruct (string_early img s _ k (proj1 Hq) Hr Hk H0) as (cs&Hrun&Hz). apply wp_bind, (wp_eq _ _ cs s s Hrun).
    apply (wp_print img); [|done|done]. by apply cmdline_format. }
  clear s Hq. intros s Hq. apply wp_bind, (Hflags img); [done|]. rewrite H3.
  apply wp_bind, wp_bind, (wp_info img); [apply Hq|unfold mbi_mods_addr; lia|].
  destruct (mount_run img img' s Hq Himg Hn) as (s1&Hrun&Hq1). apply wp_bind, (wp_eq _ _ () s s1 Hrun).
  clear s Hq Hrun. apply (modules_run img' _ _ s1 Hq1). clear s1 Hq1. intros s Hq.
  apply wp_bind, (Hflags img'); [done|]. rewrite H45. apply wp_bind, (Hflags img'); [done|].
  apply wp_bind, (wp_flagged img'); [done| |].
  { intros _. do 4 (apply wp_bind, (wp_field img'); [apply Hq|intros ?]). by apply (wp_print img'). }
  clear s Hq. intros s Hq. apply wp_bind, (Hflags img'); [done|]. apply wp_bind, (wp_flagged img'); [done| |].
  { intros Hc%(bi_mmap _ _ _ Hinfo). do 2 (apply wp_bind, (wp_field img'); [apply Hq|intros ?]).
    apply wp_bind, (wp_print img'); [done..|]. clear s Hq. intros s Hq.
    apply wp_bind, (wp_info img'); [apply Hq|unfold mbi_mmap_addr; lia|].
    by apply (mmap_run img'); [|apply word_u32|..]. }
  clear s Hq. intros s Hq. by apply wp_ret.
Qed.
End info.
End announcing.
