(* ===== verification/Startup.v ===== *)
(** * Startup: from [entry] to the shells

    The devices, paging and the terminals at the end of [entry]; then the first
    ticks of the timer, through the gate that [idt_init] made, which start the
    three shells. *)
From S2P Require Import Prelude Keep LibString LibMem Filesystem KState Paging PortIO Screen Switch Keyboard Terminal Frame Syscall FdTable Process Halt Exec Scheduler Interrupts Boot.

(** ** The devices

    Their initialisation changes the port log, the interrupt flag and their own
    variables. *)
Definition off_devices (s : kstate) := (cr0 (cpu s), cr3 (cpu s), cr4 (cpu s), mem s, scr s, kbd s, proc s, fs_image s).
Definition steady {A} (m : K A) : Prop := ∀ s, wp m (λ _ s', off_devices s' = off_devices s) s.
Lemma steady_bind {A B} (m : K A) (f : A → K B) : steady m → (∀ a, steady (f a)) → steady (m ≫= f).
Proof.
  intros Hm Hf s. apply wp_bind, (wp_mono _ _ _ _ (Hm s)). intros a s1 H1.
  apply (wp_mono _ _ _ _ (Hf a s1)). intros b s2 H2. by rewrite H2.
Qed.
Lemma steady_if {A} (b : bool) (m m' : K A) : steady m → steady m' → steady (if b then m else m').
Proof. by destruct b. Qed.
Lemma steady_gets {A} (f : kstate → A) : steady (gets f). Proof. by intros s. Qed.
Lemma steady_outb v p : steady (outb v p). Proof. by intros s. Qed.
Lemma steady_inb p : steady (inb p). Proof. by intros s. Qed.
Lemma steady_cli : steady cli. Proof. by intros s. Qed.
Lemma steady_sti : steady sti. Proof. by intros s. Qed.
Lemma steady_rtc f : steady (set_rtc f). Proof. by intros s. Qed.
Lemma steady_pic f : steady (set_pic f). Proof. by intros s. Qed.
Lemma steady_skip : steady skip. Proof. by intros s. Qed.
Create HintDb steady.
#[export] Hint Resolve steady_if steady_gets steady_outb steady_inb steady_cli steady_sti steady_rtc steady_pic steady_skip : steady.
Ltac steady := repeat (apply steady_bind; [|intros ?]); auto with steady.
Lemma steady_enable n : steady (enable_irq n).
Proof. unfold enable_irq. apply steady_if; steady. Qed.
Lemma steady_io_wait : steady io_wait. Proof. unfold io_wait. steady. Qed.
#[export] Hint Resolve steady_enable steady_io_wait : steady.
Lemma steady_i8259 : steady i8259_init. Proof. unfold i8259_init. cbv zeta. steady. Qed.
Lemma steady_rtc_init : steady rtc_initialize. Proof. unfold rtc_initialize. steady. Qed.
Lemma steady_keyboard : steady keyboard_init. Proof. unfold keyboard_init. steady. Qed.
Lemma steady_pit : steady pit_init. Proof. unfold pit_init. cbv zeta. steady. Qed.

Lemma quiet_devices s0 img s s' : off_devices s' = off_devices s → quiet s0 img s → quiet s0 img s'.
Proof.
  intros [= Hc _ _ Hm Hs Hk Hp Hf] [[H1 H2 H3 H4 H5 H6 H7 H8] Hb]. split.
  - constructor; try done; rewrite ?Hc, ?Hm, ?Hs, ?Hk, ?Hp, ?Hf; try done.
    intros q Hq. rewrite <- (H8 q Hq). cbn. by rewrite Hm.
  - intros off Ho. rewrite <- (Hb off Ho). cbn. by rewrite Hm.
Qed.
Lemma steady_quiet {A} s0 img (m : K A) s : steady m → quiet s0 img s →
  ∃ a s', m s = Some (a, s') ∧ quiet s0 img s' ∧ scr s' = scr s.
Proof.
  intros Hm Hq. destruct (proj1 (wp_run _ _ _) (Hm s)) as (a&s'&Hrun&Hs'). exists a, s'. split; [done|]. split; [by eapply quiet_devices|by injection Hs'].
Qed.

(** [reset] clears what is printed, on the first page. *)
Lemma quiet_reset s0 img s : quiet s0 img s → ∃ s', reset s = Some ((), s') ∧ quiet s0 img s' ∧ cursor_in s'.
Proof.
  intros [He Hb]. destruct (early_terms_get _ (ea_terms _ _ _ He)) as (t&Ht&_&_).
  unfold reset, the_terminal. rewrite bind_gets, (ea_terminal _ _ _ He).
  rewrite (bind_run _ _ _ _ _ (load_cursor_run 0 t s Ht)). set (s1 := setter scr _ s).
  assert (early s0 img s1) as He1 by (apply early_scr; [done|apply He|apply He|apply He]).
  destruct (proj1 (wp_run _ _ _) (early_clear s0 img s1 He1)) as ([]&s2&Hrun2&He2&Hs2&Hb2).
  specialize (Hb2 (or_introl Hb)). unfold clear in Hrun2. rewrite (bind_run _ _ _ _ _ Hrun2).
  unfold set_scr, enable_cursor. rewrite bind_modify, bind_skip. set (s3 := setter scr _ s2).
  assert (early s0 img s3) as He3 by (apply early_scr; [done|apply He2|apply He2|apply He2]).
  assert (aget (term_arr (scr s3)) 0 = Some t) as Ht3 by (subst s3; cbn; by rewrite Hs2).
  rewrite (save_cursor_run 0 t s3 Ht3). eexists. split; [reflexivity|]. split; [|done]. split; [|exact Hb2].
  apply early_scr; [done| |apply He3|apply He3]. cbn.
  by apply early_terms_insert; [apply He2| |..].
Qed.

(** ** The second part of [entry] *)
Lemma init_terminal_run s :
  length (term_arr (scr s)) = 3%nat →
  ∃ arr, init_terminal s = Some ((), s <| scr ::= λ c, c <| term_arr := arr |> <| curr_terminal := 0 |> |>) ∧
    length arr = 3%nat ∧ ∀ i t, aget arr i = Some t →
      t_screen_x t = 0 ∧ t_screen_y t = 0 ∧ vid_mem_addr t = page_of i ∧ visible t = (if i =? 0 then 1 else 0).
Proof.
  intros Hl. destruct s as [cp m [sx sy vm sf arr ct] kb rt pr pc im]. cbn in Hl.
  destruct arr as [|t0 [|t1 [|t2 [|]]]]; try done. eexists. split; [reflexivity|]. split; [done|].
  intros i t Hi. pose proof (aget_Some_range _ _ _ Hi) as Hr. cbn in Hr.
  assert (i = 0 ∨ i = 1 ∨ i = 2) as [-> | [-> | ->]] by lia; injection Hi as <-; by split_and!.
Qed.

(** The kernel when [entry] is done, from the state [s0] *)
Record up (s0 : kstate) (img : list Z) (s : kstate) : Prop := {
  up_paging : paging_wf s ∧ paging_enabled s;
  up_tables : mem s = initial_mem ((mem s0) <| phys := phys (mem s) |>);
  up_rest : kbd s = kbd s0 ∧ proc s = proc s0 ∧ fs_image s = img;
  up_terms : length (term_arr (scr s)) = 3%nat ∧ ∀ i t, aget (term_arr (scr s)) i = Some t →
    t_screen_x t = 0 ∧ t_screen_y t = 0 ∧ vid_mem_addr t = page_of i ∧ visible t = (if i =? 0 then 1 else 0);
  up_terminal : curr_terminal (scr s) = 0 ∧ cursor_in s;
  up_blank : blank s;
  up_mem : ∀ q, out_of_the_way q → contents s q = contents s0 q;
}.

Lemma up_devices s0 img s s' :
  off_devices s' = off_devices s → up s0 img s → up s0 img s'.
Proof.
  intros [= Hc H3 H4 Hm Hs Hk Hp Hf] [[Hwf Hen] H2 H5 H6 H7 Hb H8].
  constructor; unfold cursor_in; rewrite ?Hm, ?Hs, ?Hk, ?Hp, ?Hf; try done.
  - split; [by apply (paging_wf_mem s)|]. apply (paging_enabled_eq s); try done. by rewrite Hm.
  - intros off Ho. rewrite <- (Hb off Ho). cbn. by rewrite Hm.
  - intros q Hq. rewrite <- (H8 q Hq). cbn. by rewrite Hm.
Qed.

(** Paging, the terminals and the timer *)
Lemma last_steps_run s0 img s :
  quiet s0 img s → cursor_in s → paging_wf s0 →
  ∃ s1 s2 s3, paging_initialize s = Some ((), s1) ∧ init_terminal s1 = Some ((), s2) ∧ pit_init s2 = Some ((), s3) ∧ up s0 img s3.
Proof.
  intros [He Hb] Hcur Hwf0. pose proof He as [_ _ Htab (Hk&Hp&Hf) [Hl _] _ _ Hmem].
  assert (paging_wf s) as Hwf. { destruct Hwf0. constructor; rewrite Htab; done. }
  exists (paging_initialized s). destruct (init_terminal_run (paging_initialized s) Hl) as (arr&Hrun&Hlen&Hall).
  set (s2 := setter scr _ _) in Hrun. exists s2.
  destruct (proj1 (wp_run _ _ _) (steady_pit s2)) as ([]&s3&Hpit&H3). exists s3.
  split; [by apply paging_initialize_run|]. split; [exact Hrun|]. split; [exact Hpit|].
  apply (up_devices s0 img s2); [exact H3|]. constructor.
  - destruct Hwf. split; [constructor; cbn; rewrite ?length_insert, ?length_replicate; done|].
    by apply (load_pde_enables _ (cpu s)).
  - change (mem s2) with (initial_mem (mem s)). by rewrite Htab.
  - done.
  - done.
  - done.
  - exact Hb.
  - exact Hmem.
Qed.

(** The base and the limit that the processor finds in a descriptor *)
Definition seg_base (d : seg_desc_t) : Z := base_15_00 d + base_23_16 d * 65536 + base_31_24 d * 16777216.
Definition seg_limit (d : seg_desc_t) : Z := seg_lim_15_00 d + seg_lim_19_16 d * 65536.
Lemma SET_PARAMS_segment addr lim d :
  is_u32 addr → 0 ≤ lim < 1048576 →
  seg_base (SET_PARAMS addr lim d) = addr ∧ seg_limit (SET_PARAMS addr lim d) = lim.
Proof.
  intros Ha Hl. cint. unfold seg_base, seg_limit, SET_PARAMS. cbn [base_15_00 base_23_16 base_31_24 seg_lim_15_00 seg_lim_19_16
    setter seg_desc_settable].
  assert (Hland : ∀ x n, 0 ≤ n → Z.land x (Z.ones n) = x mod 2 ^ n) by (intros; apply Z.land_ones; lia).
  rewrite !Z.shiftr_land, !Z.shiftr_div_pow2 by lia.
  change (0xFF000000 / 2 ^ 24) with (Z.ones 8). change (0x00FF0000 / 2 ^ 16) with (Z.ones 8).
  change (0x000F0000 / 2 ^ 16) with (Z.ones 4). change 0x0000FFFF with (Z.ones 16). rewrite !Hland by lia.
  change (2 ^ 24) with 16777216. change (2 ^ 16) with 65536. change (2 ^ 8) with 256. change (2 ^ 4) with 16.
  split; Z.div_mod_to_equations; lia.
Qed.

(** ** [entry]

    The state in which the boot loader leaves the kernel: the initialised variables
    of its files, and paging off *)
Record fresh (s : kstate) : Prop := {
  fr_paging : paging_on s = false ∧ paging_wf s;
  fr_proc : curr_process (proc s) = 0;
  fr_terms : early_terms (term_arr (scr s));
  fr_terminal : curr_terminal (scr s) = 0;
  fr_video : video_mem (scr s) = VIDEO_MEM;
}.
Lemma fresh_early s : fresh s → early s (fs_image s) s.
Proof.
  intros [[? ?] ? ? ? Hv]. constructor; try done; [by destruct (mem s)|by right].
Qed.
Lemma on_kernel_run {A} (m : K A) a k b : m (kern b) = Some (a, k) → on_kernel m b = Some (a, b <| kern := k |>).
Proof. unfold on_kernel. by intros ->. Qed.

Lemma initialise_run addr ldt ldt_size tss tss_size uninit s0 img b :
  quiet s0 img (kern b) → paging_wf s0 →
  length (idt (vecs b)) = 256%nat → length (handler_table (vecs b)) = 256%nat →
  ∃ t k, idt_init addr (vecs b) = Some ((), t) ∧ up s0 img k ∧
    initialise addr ldt ldt_size tss tss_size uninit b = Some ((),
      mk_machine k t (SET_PARAMS ldt ldt_size (the_ldt_desc uninit)) (SET_PARAMS tss tss_size (the_tss_desc uninit))
        KERNEL_LDT KERNEL_TSS KERNEL_LDT).
Proof.
  intros Hq Hwf Hl Hh. unfold initialise, set_descriptors.
  set (s1 := (kern b) <| cpu ::= λ c, c <| tss_ss0 := KERNEL_DS |> <| tss_esp0 := 0x800000 |> |>).
  assert (quiet s0 img s1) as Hq1 by (by apply (quiet_devices _ _ (kern b))).
  destruct (quiet_reset s0 img s1 Hq1) as (s2&H2&Hq2&Hcur). destruct (idt_init_run addr (vecs b) Hl Hh) as (t&Ht&_).
  destruct (steady_quiet s0 img _ s2 steady_i8259 Hq2) as ([]&s3&H3&Hq3&E3).
  destruct (steady_quiet s0 img _ s3 steady_rtc_init Hq3) as ([]&s4&H4&Hq4&E4).
  destruct (steady_quiet s0 img _ s4 steady_keyboard Hq4) as ([]&s5&H5&Hq5&E5).
  assert (cursor_in s5) as Hcur5 by (unfold cursor_in; by rewrite E5, E4, E3).
  destruct (last_steps_run s0 img s5 Hq5 Hcur5 Hwf) as (s6&s7&s8&H6&H7&H8&Hup).
  exists t, s8. split; [done|]. split; [done|]. rewrite !bind_assoc, !bind_modify. rewrite bind_assoc, bind_modify.
  set (b1 := setter ldt_segment_selector _ _). rewrite bind_assoc.
  assert (on_kernel (set_cpu (λ c, c <| tss_ss0 := KERNEL_DS |> <| tss_esp0 := 0x800000 |>)) b1 = Some ((), b1 <| kern := s1 |>)) as H1
    by (by apply on_kernel_run).
  rewrite (bind_run _ _ _ _ _ H1), bind_modify. set (b2 := setter task_register _ _).
  rewrite (bind_run _ _ _ _ _ (on_kernel_run reset () s2 b2 H2)).
  assert (∀ b, vecs b = vecs b2 → on_vectors (idt_init addr) b = Some ((), b <| vecs := t |>)) as Hv
    by (intros b' E; unfold on_vectors; rewrite E; change (vecs b2) with (vecs b); by rewrite Ht).
  set (b2' := setter kern _ b2).
  rewrite (bind_run _ _ _ _ _ (Hv b2' eq_refl)). set (b3 := setter vecs _ b2').
  rewrite (bind_run _ _ _ _ _ (on_kernel_run i8259_init () s3 b3 H3)). set (b4 := setter kern _ b3).
  rewrite (bind_run _ _ _ _ _ (on_kernel_run rtc_initialize () s4 b4 H4)). set (b5 := setter kern _ b4).
  rewrite (bind_run _ _ _ _ _ (on_kernel_run keyboard_init () s5 b5 H5)). set (b6 := setter kern _ b5).
  rewrite (bind_run _ _ _ _ _ (on_kernel_run paging_initialize () s6 b6 H6)). set (b7 := setter kern _ b6).
  rewrite (bind_run _ _ _ _ _ (on_kernel_run init_terminal () s7 b7 H7)). set (b8 := setter kern _ b7).
  rewrite (on_kernel_run pit_init () s8 b8 H8). reflexivity.
Qed.

Lemma entry_run junk addr ldt ldt_size tss tss_size uninit b mbi mod_start mod_end img :
  (∀ n, length (junk n) = n) → fresh (kern b) → boot_info (kern b) mbi mod_start mod_end →
  module_bytes (kern b) mod_start mod_end = img → is_Some (inode_count img) →
  length (idt (vecs b)) = 256%nat → length (handler_table (vecs b)) = 256%nat →
  ∃ t k, idt_init addr (vecs b) = Some ((), t) ∧ up (kern b) img k ∧
    entry junk addr ldt ldt_size tss tss_size uninit MULTIBOOT_BOOTLOADER_MAGIC mbi b = Some ((),
      mk_machine k t (SET_PARAMS ldt ldt_size (the_ldt_desc uninit)) (SET_PARAMS tss tss_size (the_tss_desc uninit))
        KERNEL_LDT KERNEL_TSS KERNEL_LDT).
Proof.
  intros Hj Hfr Hinfo Himg Hn Hl Hh. destruct (fr_paging _ Hfr) as [Hoff Hwf].
  destruct (proj1 (wp_run _ _ _) (announce_run junk Hj (kern b) mbi mod_start mod_end Hinfo _ img _
    (fresh_early _ Hfr) (fr_video _ Hfr) Himg Hn)) as (go&s1&Hrun&->&Hq).
  unfold entry. rewrite (bind_run _ _ _ _ _ (on_kernel_run _ true s1 b Hrun)).
  set (b1 := setter kern _ b).
  destruct (initialise_run addr ldt ldt_size tss tss_size uninit (kern b) img b1 Hq Hwf Hl Hh) as (t&k&H1&H2&H3).
  exists t, k. split; [exact H1|]. split; [exact H2|exact H3].
Qed.

(** With another magic number the kernel says so and does nothing else. *)
Lemma entry_refuses junk addr ldt ldt_size tss tss_size uninit b magic mbi :
  (∀ n, length (junk n) = n) → fresh (kern b) → magic ≠ MULTIBOOT_BOOTLOADER_MAGIC →
  ∃ k, entry junk addr ldt ldt_size tss tss_size uninit magic mbi b = Some ((), b <| kern := k |>) ∧
    early (kern b) (fs_image (kern b)) k.
Proof.
  intros Hj Hfr Hm. pose proof (fresh_early _ Hfr) as He.
  assert (wp (announce junk magic mbi) (λ r s', r = false ∧ quiet (kern b) (fs_image (kern b)) s') (kern b)) as Hw.
  { unfold announce. apply wp_bind, (wp_mono _ _ _ _ (early_clear _ _ _ He)). intros [] s1 (He1&_&Hb).
    rewrite (proj2 (Z.eqb_neq _ _) Hm). cbn [negb]. apply wp_bind, (wp_print junk Hj (kern b) (fs_image (kern b))); [done| |].
    - split; [done|]. apply Hb. right. apply Hfr.
    - intros s2 Hq. by apply wp_ret. }
  destruct (proj1 (wp_run _ _ _) Hw) as (go&s1&Hrun&->&Hq).
  unfold entry. rewrite (bind_run _ _ _ _ _ (on_kernel_run _ false s1 b Hrun)). exists s1. split; [done|apply Hq].
Qed.

(** ** The timer's interrupt *)
Definition tick_entered (s : kstate) : kstate :=
  s <| cpu ::= λ c, c <| if_flag := false |> <| io_log ::= λ l, l ++ [Out MASTER_8259_PORT (u8 (Z.lor EOI PIT_IRQ))] |> |>.
Lemma tick_through junk shell t s :
  irq_handler t pitHex = Some pit_handler →
  common_interrupt junk shell t pit s =
    (o ← scheduler shell; match o with Starts (ToUser _) => mret (Ticked o) | _ => sti;; mret (Ticked o) end) (tick_entered s).
Proof.
  intros Ht. unfold common_interrupt, do_irq. cbn [vector_num]. rewrite (bind_lift _ pitHex) by done. unfold cli at 1.
  rewrite bind_modify, bind_assoc, (bind_lift _ _ _ _ Ht). unfold call_handler, pit_interrupt_handler.
  change (send_eoi PIT_IRQ) with (outb (Z.lor EOI PIT_IRQ) MASTER_8259_PORT). unfold cli, outb.
  rewrite !bind_assoc, bind_modify, !bind_assoc, bind_modify, !bind_assoc. apply bind_cong.
  intros o s1 _. destruct o as [sp bp|[v|eip|bp sp ax]]; done.
Qed.
Lemma tick_starts junk shell t s eip s' :
  irq_handler t pitHex = Some pit_handler → scheduler shell (tick_entered s) = Some (Starts (ToUser eip), s') →
  common_interrupt junk shell t pit s = Some (Ticked (Starts (ToUser eip)), s').
Proof. intros Ht Hs. by rewrite (tick_through _ _ _ _ Ht), (bind_run _ _ _ _ _ Hs). Qed.
Lemma tick_resumes junk shell t s sp bp s' :
  irq_handler t pitHex = Some pit_handler → scheduler shell (tick_entered s) = Some (Resumes sp bp, s') →
  common_interrupt junk shell t pit s = Some (Ticked (Resumes sp bp), s' <| cpu ::= λ c, c <| if_flag := true |> |>).
Proof. intros Ht Hs. by rewrite (tick_through _ _ _ _ Ht), (bind_run _ _ _ _ _ Hs). Qed.

(** ** Which pages of the terminals are mapped *)
Definition paged (l : list Z) (s : kstate) : Prop :=
  low_table s ∧ ∀ i, i ∈ l → ∃ pte, aget (page_table (mem s)) (185 + i) = Some pte ∧ present pte = 1.
Lemma paged_same l s s' : low_same s s' → paging_wf s' → paging_enabled s' → paged l s → paged l s'.
Proof.
  intros (Ht&Hd&Ha&_) Hwf Hen [[_ _ Hpde Hv] Hl]. split; [|by rewrite Ht].
  constructor; [done|done| |by rewrite Ht]. by rewrite Hd, Ha.
Qed.
Lemma paged_tick j l s : 0 ≤ j < 3 → paged l s → paged (j :: l) (tick_mapped j s).
Proof.
  intros Hj [Hlow Hl]. pose proof (wf_table _ (lt_wf _ Hlow)) as Hlen. split.
  - apply with_vmem_low; [|by apply page_mapped_to_low]. rewrite length_insert. apply (wf_vmem _ (lt_wf _ Hlow)).
  - intros i Hi. change (page_table (mem (tick_mapped j s))) with (page_table (mem (page_mapped_to j (screen_phys j s) s))).
    destruct (decide (i = j)) as [->|Hne].
    + eexists. cbn. split; [apply aget_insert_nat_eq; lia|]. apply remap_pte_fields.
    + apply elem_of_cons in Hi as [->|Hi]; [done|]. rewrite page_mapped_to_entry by lia. by apply Hl.
Qed.
Lemma paged_all l s : (∀ i, 0 ≤ i < 3 → i ∈ l) → paged l s → video_mapped s.
Proof.
  intros Hin [Hlow Hl] v Hv.
  assert (∃ pte, aget (page_table (mem s)) (v / 4096) = Some pte ∧ present pte = 1) as (pte&Hp&H1).
  { destruct (decide (v / 4096 = 184)) as [->|].
    - destruct (lt_video _ Hlow) as (pte&?&?&_). by exists pte.
    - replace (v / 4096) with (185 + (v / 4096 - 185)) by lia. apply Hl, Hin. Z.div_mod_to_equations; lia. }
  rewrite (low_translate s v pte) by (done || lia). by eexists.
Qed.

(** ** The kernel comes up *)

(** The program [bs] under the name ["shell"] *)
Record has_shell (img bs : list Z) : Prop := {
  hs_image : image_ok img;
  hs_file : ∃ d, find_dentry img shell_name = Some d ∧ file_data img (u32 (inode_num d)) bs;
  hs_size : 28 ≤ zlen bs ≤ 3899392;
  hs_magic : take 4 bs = [127; 69; 76; 70];
}.

Lemma up_low s0 img s : paging_wf s0 → up s0 img s → paged [] s.
Proof.
  intros Hwf0 [[Hwf Hen] Htab _ _ _ _ _]. split; [|by intros i Hi%elem_of_nil].
  destruct (initialized_low s0 Hwf0) as [_ _ Hpde Hv]. constructor; [done|done|by rewrite Htab|by rewrite Htab].
Qed.
Lemma up_shell s0 img s bs shell :
  up s0 img s → has_shell img bs → 4194304 ≤ shell < 8388600 →
  (∀ k c, (shell_name ++ [0]) !! k = Some c → contents s0 (shell + Z.of_nat k) = c) → shell_ready shell bs s.
Proof.
  intros [Hp Htab (_&_&Hfs) _ _ _ Hmem] [Himg Hfile Hsz Hm] Hr Htext. constructor; rewrite ?Hfs; try done.
  - exists (kernel_pde 0). rewrite Htab. split; [done|]. destruct kernel_pde_fields as (?&?&?&?). by split_and!.
  - intros k c Hk. pose proof (lookup_lt_Some _ _ _ Hk) as Hlt. cbn in Hlt. rewrite Hmem; [by apply Htext|right; lia].
Qed.
Lemma entered_shell shell bs s : shell_ready shell bs s → shell_ready shell bs (tick_entered s).
Proof.
  intros Hsh. destruct (sh_paging _ _ _ Hsh) as [Hwf Hen].
  by apply (shell_ready_frame shell bs s); [|apply (paging_wf_mem s)|apply (paging_enabled_eq s)|..].
Qed.
Lemma entered_low s : low_same s (tick_entered s).
Proof. by split_and!. Qed.

(** A tick that starts a shell *)
Lemma shell_tick junk shell t st s bs l :
  let n := zlen (concat st) in
  irq_handler t pitHex = Some pit_handler →
  stacks_rep st (proc s) → n < 3 → (n = 0 → curr_process (proc s) = 0) → (0 < n → runs st s (n - 1) n []) →
  shell_ready shell bs s → paged l s →
  ∃ s', common_interrupt junk shell t pit s = Some (Ticked (Starts (ToUser (word_at bs 24))), s') ∧
    stacks_rep (push n (n + 1) st) (proc s') ∧ runs (push n (n + 1) st) s' n (n + 1) [] ∧ shell_ready shell bs s' ∧
    scr s' = (scr s) <| video_mem := page_of n |> ∧ low_same (if n =? 0 then s else tick_mapped n s) s' ∧
    paged (if n =? 0 then l else n :: l) s'.
Proof.
  intros n Ht Hr Hn Hc Hrun Hsh Hp.
  destruct (scheduler_boots st (tick_entered s) shell bs Hr Hn Hc Hrun (entered_shell _ _ _ Hsh)) as (s'&H1&H2&H3&H4&H5&H6).
  fold n in H1, H2, H3, H5, H6. exists s'. split; [by apply tick_starts|]. do 4 (split; [done|]).
  assert (low_same (if n =? 0 then s else tick_mapped n s) s') as Hlow by (by destruct (n =? 0)). split; [done|].
  destruct (sh_paging _ _ _ H4) as [Hwf Hen]. destruct (Z.eqb_spec n 0) as [|Hne]; [by apply (paged_same l s)|].
  apply (paged_same (n :: l) (tick_mapped n s)); try done. apply paged_tick; [lia|done].
Qed.

(** Until the fourth tick the first terminal has no page. *)
Lemma first_page_unmapped s0 img s s' :
  paging_wf s0 → up s0 img s → low_same s s' → paging_enabled s' → translate s' (page_of 0) = None.
Proof.
  intros Hwf0 Hup (Ht&Hd&Ha&_) Hen. destruct (up_low s0 img s Hwf0 Hup) as [[_ _ (pde&Hpde&Hp&Hps&Hb) _] _].
  change (translate_as false s' 757760 = None). rewrite translate_enabled by (done || lia).
  apply (walk_no_page _ _ _ pde (page_table (mem s'))); [|done| |].
  - change (757760 / 4194304) with 0. by rewrite Hd.
  - unfold table_at. by rewrite Hb, Ha, Z.eqb_refl.
  - rewrite Ht, (up_tables _ _ _ Hup). reflexivity.
Qed.

Lemma up_screen s0 img s s' v :
  up s0 img s → scr s' = (scr s) <| video_mem := v |> → 753664 ≤ v ≤ 765952 → curr_process (proc s') = 0 → video_mapped s' → screen_ok s'.
Proof.
  intros [_ _ _ [Hl Hall] [Hc Hcur] _ _] Hs Hv Hp Hm. constructor; unfold cursor_in; rewrite ?Hs, ?Hp; try done.
  - split; [done|]. intros i t Ht. destruct (Hall i t Ht) as (Hx&Hy&Ha&_).
    split; [|done]. unfold cursor_ok. rewrite Hx, Hy. done.
  - cbn. rewrite Hc. lia.
Qed.

(** What the boot loader and the linker leave *)
Record bootable (b : machine) (mbi mod_start mod_end shell : Z) (bs : list Z) : Prop := {
  bo_fresh : fresh (kern b);
  bo_info : boot_info (kern b) mbi mod_start mod_end;
  bo_shell : has_shell (module_bytes (kern b) mod_start mod_end) bs;
  bo_name : 4194304 ≤ shell < 8388600 ∧
    ∀ k c, (shell_name ++ [0]) !! k = Some c → contents (kern b) (shell + Z.of_nat k) = c;
  bo_table : stacks_rep [[]; []; []] (proc (kern b));
  bo_vectors : length (idt (vecs b)) = 256%nat ∧ length (handler_table (vecs b)) = 256%nat;
}.

(** C2. The kernel comes up.  Whatever a boot loader that keeps to its interface tells,
    and whatever the linker's addresses are, [entry] runs to its end without undefined
    behaviour and leaves the file system mounted and the screen blank.  The first
    three ticks of the timer, taken through the gate that [idt_init] made, start a
    shell each, one on each terminal; the fourth resumes the first of them, and
    from then on the process table represents three stacks and every terminal has its
    page.  Before that the first shell has none: were it to write at once, it would
    fault. *)
Theorem kernel_boots junk addr code ldt ldt_size tss tss_size uninit b mbi mod_start mod_end shell bs :
  (∀ n, length (junk n) = n) →
  (∀ v, 0 ≤ v < 256 → is_u32 (addr (stub_for v)) ∧ code (addr (stub_for v)) = Some (stub_for v)) →
  bootable b mbi mod_start mod_end shell bs →
  ∃ b' k1 k2 k3 k4 sp bp,
    entry junk addr ldt ldt_size tss tss_size uninit MULTIBOOT_BOOTLOADER_MAGIC mbi b = Some ((), b') ∧
    blank (kern b') ∧ fs_image (kern b') = module_bytes (kern b) mod_start mod_end ∧
    processor code (vecs b') FromHardware pitHex = Some (Enters pit true) ∧
    let tick := common_interrupt junk shell (vecs b') pit in
    let starts := Ticked (Starts (ToUser (word_at bs 24))) in
    tick (kern b') = Some (starts, k1) ∧ tick k1 = Some (starts, k2) ∧ tick k2 = Some (starts, k3) ∧
    tick k3 = Some (Ticked (Resumes sp bp), k4) ∧ translate k1 (page_of 0) = None ∧
    stacks_rep [[1]; [2]; [3]] (proc k4) ∧ runs [[1]; [2]; [3]] k4 0 1 [] ∧ screen_ok k4.
Proof.
  intros Hj Hlink [Hfr Hinfo Hsh [Hrg Htext] Htab [Hl Hh]].
  assert (is_Some (inode_count (module_bytes (kern b) mod_start mod_end))) as Hn
    by (destruct (hs_file _ _ Hsh) as (d&_&Hd); destruct (pf_inode _ _ _ Hd) as (n&Hn&_); by exists n).
  destruct (entry_run junk addr ldt ldt_size tss tss_size uninit b mbi mod_start mod_end _ Hj Hfr Hinfo eq_refl Hn Hl Hh)
    as (t&k&Hidt&Hup&Hentry).
  destruct (idt_init_run addr (vecs b) Hl Hh) as (t'&Hidt'&Hgates&_&Hirq). assert (t' = t) as -> by congruence.
  pose proof (up_low _ _ _ (proj2 (fr_paging _ Hfr)) Hup) as Hp0. pose proof (up_shell _ _ _ bs shell Hup Hsh Hrg Htext) as Hs0.
  destruct (up_rest _ _ _ Hup) as (_&Hproc&Hfs). rewrite <- Hproc in Htab.
  assert (irq_handler t pitHex = Some pit_handler) as Hpit by (apply (Hirq pitHex); right; do 2 right; left).
  assert (curr_process (proc k) = 0) as Hc by (rewrite Hproc; apply Hfr).
  destruct (shell_tick junk shell t [[]; []; []] k bs [] Hpit Htab) as (k1&T1&R1&U1&S1&C1&L1&P1); [done..|].
  destruct (shell_tick junk shell t [[1]; []; []] k1 bs [] Hpit R1) as (k2&T2&R2&U2&S2&C2&_&P2); [done..|].
  destruct (shell_tick junk shell t [[1]; [2]; []] k2 bs [1] Hpit R2) as (k3&T3&R3&U3&S3&C3&_&P3); [done..|].
  destruct (sh_paging _ _ _ S3) as [Hwf3 Hen3].
  destruct (scheduler_switches [[1]; [2]; [3]] shell (tick_entered k3) 2 3 [] 1 [] R3 U3 ltac:(done) eq_refl) as (k4&c&_&T4&_&_&Hsw);
    [by apply (paging_wf_mem k3)|].
  set (k5 := k4 <| cpu ::= λ c, c <| if_flag := true |> |>).
  exists (mk_machine k t (SET_PARAMS ldt ldt_size (the_ldt_desc uninit)) (SET_PARAMS tss tss_size (the_tss_desc uninit))
    KERNEL_LDT KERNEL_TSS KERNEL_LDT), k1, k2, k3, k5, (p_esp c), (p_ebp c).
  split; [exact Hentry|]. split; [apply Hup|]. split; [exact Hfs|]. split; [apply (filled_processor addr code _ t pitHex Hgates); [done|by apply (Hlink pitHex)]|].
  split; [exact T1|]. split; [exact T2|]. split; [exact T3|]. split; [exact (tick_resumes junk shell t k3 _ _ k4 Hpit T4)|].
  split; [apply (first_page_unmapped _ _ k k1 (proj2 (fr_paging _ Hfr)) Hup L1), S1|].
  split; [apply (sw_rep _ _ _ _ _ _ _ Hsw)|]. split; [apply (sw_runs _ _ _ _ _ _ _ Hsw)|].
  destruct (sw_low _ _ _ _ _ _ _ Hsw) as [Hlow Hen4].
  apply (up_screen _ _ k k5 (page_of 0) Hup).
  - change (scr k5) with (scr k4). rewrite (sw_screen _ _ _ _ _ _ _ Hsw). change (scr (tick_entered k3)) with (scr k3). by rewrite C3, C2, C1.
  - done.
  - apply (proj1 (proj2 (sw_runs _ _ _ _ _ _ _ Hsw))).
  - apply (paged_all [0; 2; 1]).
    { intros i Hi. assert (i = 0 ∨ i = 1 ∨ i = 2) as [-> | [-> | ->]] by lia; [left|do 2 right; left|right; left]. }
    apply (paged_same _ k4); [done|by apply (paging_wf_mem k4); [|apply Hsw]|done|].
    apply (paged_same _ (tick_mapped 0 (tick_entered k3))); [done|apply Hsw|done|]. apply paged_tick; [lia|].
    apply (paged_same _ k3); [apply entered_low|by apply (paging_wf_mem k3)| |exact P3].
    by apply (paging_enabled_eq k3).
Qed.

(** ** A machine as a boot loader leaves it: its information at 64 KB, the file system at
    5 MB *)
Definition boot_bytes : list Z :=
  (le32 0x4F ++ le32 640 ++ le32 64512 ++ le32 0x8000FFFF ++ le32 65600 ++ le32 1 ++ le32 65616) ++
  replicate 16 0 ++ le32 24 ++ le32 65632 ++
  pad 12 [] ++ pad 16 (chars "kernel") ++
  (le32 5242880 ++ le32 5255168 ++ le32 0 ++ le32 0) ++
  (le32 20 ++ le32 0 ++ le32 0 ++ le32 0x9FC00 ++ le32 0 ++ le32 1).
Definition loaded_kernel : kstate :=
  poke shell_image 5242880 (poke boot_bytes 65536 (poke shell_name 4300000 (boot_state []))).
Definition blank_seg : seg_desc_t := mk_seg_desc 0 0 0 0 0 0 0 0 0 0 0 0 0.
Definition loaded_machine : machine := mk_machine loaded_kernel blank_vectors blank_seg blank_seg 0 0 0.

Lemma module_poked l p s :
  Forall is_u8 l → 0 ≤ p → p + zlen l ≤ 4294967296 → module_bytes (poke l p s) p (p + zlen l) = l.
Proof.
  intros Hl Hp Hr. apply list_eq. intros i. unfold module_bytes. rewrite list_lookup_fmap.
  replace (p + zlen l - p) with (zlen l) by lia. destruct (decide (i < length l)%nat) as [Hi|Hi].
  - rewrite lookup_seqZ_lt by lia. cbn [fmap option_fmap option_map]. rewrite u32_small by (cint; lia).
    rewrite poke_contents, decide_True by lia. replace (Z.to_nat _) with i by lia.
    destruct (lookup_lt_is_Some_2 l i Hi) as [c Hc]. rewrite Hc. cbn [default]. f_equal.
    rewrite Forall_lookup in Hl. by apply u8_small, (Hl i).
  - rewrite lookup_seqZ_ge, lookup_ge_None_2 by lia. done.
Qed.
Lemma shell_image_ok : has_shell shell_image elf_bytes.
Proof.
  destruct booted_ready as [_ _ _ _ H1 H2 H3 H4].
  assert (fs_image booted_machine = shell_image) as E by (vm_compute; reflexivity). rewrite E in *. by constructor.
Qed.
Lemma poke_scr l p s : scr (poke l p s) = scr s.
Proof. apply poke_rest. Qed.
Lemma poke_proc l p s : proc (poke l p s) = proc s.
Proof. apply poke_rest. Qed.
Lemma loaded_bootable : bootable loaded_machine 65536 5242880 5255168 4300000 elf_bytes.
Proof.
  assert (scr loaded_kernel = scr (boot_state [])) as C2 by (unfold loaded_kernel; rewrite !poke_scr; reflexivity).
  assert (proc loaded_kernel = proc (boot_state [])) as C3 by (unfold loaded_kernel; rewrite !poke_proc; reflexivity).
  constructor; cbn [kern vecs loaded_machine].
  - constructor.
    + split; [vm_compute; reflexivity|]. do 3 apply poke_wf. apply boot_wf.
    + rewrite C3. reflexivity.
    + rewrite C2. clear C2 C3. split; [reflexivity|]. intros i t Hi. pose proof (aget_Some_range _ _ _ Hi). rewrite aget_nonneg in Hi by lia.
      apply (lookup_replicate 3 zero_terminal) in Hi as [-> _]. split; [by split|reflexivity].
    + rewrite C2. reflexivity.
    + rewrite C2. reflexivity.
  - clear C2 C3. constructor.
    + left. unfold VIDEO_MEM. lia.
    + split; vm_compute; reflexivity.
    + intros _. exists 6. split; [lia|]. split; [left; vm_compute; split; discriminate|vm_compute; reflexivity].
    + split; [left; vm_compute; split; discriminate|]. split; vm_compute; reflexivity.
    + unfold KERNEL_MEM, bottomKernal. lia.
    + intros _. apply mmap_entry; [vm_compute; reflexivity|left; vm_compute; split; discriminate|vm_compute; reflexivity|].
      apply mmap_end. vm_compute. discriminate.
  - clear C2 C3. assert (module_bytes loaded_kernel 5242880 5255168 = shell_image) as ->; [|apply shell_image_ok].
    unfold loaded_kernel. change 5255168 with (5242880 + zlen shell_image).
    apply module_poked; [apply (im_bytes _ (hs_image _ _ shell_image_ok))|lia|vm_compute; discriminate].
  - clear C2 C3. split; [lia|]. intros k c Hk. do 6 (destruct k as [|k]; [injection Hk as <-; vm_compute; reflexivity|]). done.
  - rewrite C3. apply empty_stacks_rep.
  - clear C2 C3. by split.
Qed.
(** The three shells of that machine *)
Lemma kernel_boots_witness :
  ∃ b' k1 k2 k3 k4, entry (λ n, replicate n 7) demo_addr 0x402000 7 0x402100 103 blank_seg MULTIBOOT_BOOTLOADER_MAGIC 65536 loaded_machine
      = Some ((), b') ∧
    common_interrupt (λ n, replicate n 7) 4300000 (vecs b') pit (kern b') = Some (Ticked (Starts (ToUser 134512640)), k1) ∧
    common_interrupt (λ n, replicate n 7) 4300000 (vecs b') pit k1 = Some (Ticked (Starts (ToUser 134512640)), k2) ∧
    common_interrupt (λ n, replicate n 7) 4300000 (vecs b') pit k2 = Some (Ticked (Starts (ToUser 134512640)), k3) ∧
    stacks_rep [[1]; [2]; [3]] (proc k4) ∧ screen_ok k4.
Proof.
  destruct (kernel_boots (λ n, replicate n 7) demo_addr demo_code 0x402000 7 0x402100 103 blank_seg loaded_machine 65536 5242880 5255168
    4300000 elf_bytes (λ n, length_replicate n 7) demo_linked loaded_bootable)
    as (b'&k1&k2&k3&k4&sp&bp&H1&_&_&_&H2&H3&H4&_&_&H5&_&H6).
  exists b', k1, k2, k3, k4. split; [exact H1|]. split; [exact H2|]. split; [exact H3|]. split; [exact H4|]. split; [exact H5|exact H6].
Defined.
