(* ===== verification/Photo.v ===== *)
(** * Photo: room photos and object images ([mp2/photo.c], first part)

    The file readers [read_photo] and [read_obj_image] and the size accessors.
    The functions of [photo.c] that draw a room need the rooms of [world.c]
    and are in [Draw].

    A pointer to a photo is only followed, never compared, and the pixels of a
    photo never change once it has been read, so a [photo_t*] is an optional
    value here.  The [palette] member is left out: the code as it stands neither
    writes nor reads it. *)
From S2P Require Import Prelude.

(** ** The host: files and memory

    [fopen] gives the bytes of a readable file; [malloc] says whether an
    allocation of so many bytes succeeds.  Both are the C library's. *)
Record host := mk_host {
  fopen : string → option (list Z);
  malloc : Z → bool;
}.

Record photo_header_t := mk_photo_header { width : Z; height : Z }.   (* uint16_t *)
Record photo_t := mk_photo { p_hdr : photo_header_t; p_img : list Z }.
Record image_t := mk_image { i_hdr : photo_header_t; i_img : list Z }.

Definition OBJ_CLR_TRANSP : Z := 0x40.
Definition MAX_PHOTO_WIDTH : Z := 1024.
Definition MAX_PHOTO_HEIGHT : Z := 1024.
Definition MAX_OBJECT_WIDTH : Z := 160.
Definition MAX_OBJECT_HEIGHT : Z := 100.

Definition image_height (im : image_t) : Z := height (i_hdr im).
Definition image_width (im : image_t) : Z := width (i_hdr im).
Definition photo_height (p : photo_t) : Z := height (p_hdr p).
Definition photo_width (p : photo_t) : Z := width (p_hdr p).

(** ** Reading items off a file: [fread (&v, sizeof (v), 1, in)] *)
Definition fread8 (file : list Z) : option (Z * list Z) :=
  match file with b :: file => Some (b, file) | _ => None end.
Definition fread16 (file : list Z) : option (Z * list Z) :=
  match file with lo :: hi :: file => Some (lo + 256 * hi, file) | _ => None end.
Definition fread_header (file : list Z) : option (photo_header_t * list Z) :=
  '(w, file) ← fread16 file;
  '(h, file) ← fread16 file;
  Some (mk_photo_header w h, file).

(** ** The pixel loops

    The result is [None] for a store outside the image, [Some None] when a
    read fails and the function returns [NULL].  The memory of a fresh image is
    indeterminate; it is [0] here, and [read_pixels_spec] shows that every
    pixel has been stored when the function succeeds. *)
Section pixels.
Context (fread : list Z → option (Z * list Z)) (store : Z → Z).

(** [for (x = 0; w > x; x++)], with [n] columns left *)
Fixpoint read_columns (n : nat) (w x y : Z) (file img : list Z) : option (option (list Z * list Z)) :=
  match n with
  | O => Some (Some (file, img))
  | S n =>
      match fread file with
      | None => Some None
      | Some (pixel, file) =>
          img ← aset img (w * y + x) (store pixel);
          read_columns n w (x + 1) y file img
      end
  end.

(** [for (y = h; y-- > 0; )] *)
Fixpoint read_rows (y : nat) (w : Z) (file img : list Z) : option (option (list Z)) :=
  match y with
  | O => Some (Some img)
  | S y =>
      r ← read_columns (Z.to_nat w) w 0 (Z.of_nat y) file img;
      match r with
      | None => Some None
      | Some (file, img) => read_rows y w file img
      end
  end.

Definition read_pixels (hdr : photo_header_t) (file : list Z) : option (option (list Z)) :=
  read_rows (Z.to_nat (height hdr)) (width hdr) file
    (replicate (Z.to_nat (width hdr * height hdr)) 0).
End pixels.

(** The 5:6:5 pixel of a photo file as a 2:2:2 colour *)
Definition rgb222 (pixel : Z) : Z :=
  Z.lor (Z.lor (Z.shiftl (Z.shiftr pixel 14) 4)
    (Z.shiftl (Z.land (Z.shiftr pixel 9) 0x3) 2))
    (Z.land (Z.shiftr pixel 3) 0x3).

(** [sizeof (photo_t)] and [sizeof (image_t)]: header, palette and pointer *)
Definition sizeof_photo : Z := 4 + 192 * 3 + 4.
Definition sizeof_image : Z := 4 + 4.

(** Both readers open the file, allocate the structure, read the header,
    check it, allocate the pixels, and read them bottom row first. *)
Definition read_obj_image (h : host) (fname : string) : option (option image_t) :=
  match fopen h fname with
  | None => Some None
  | Some file =>
      if negb (malloc h sizeof_image) then Some None else
      match fread_header file with
      | None => Some None
      | Some (hdr, file) =>
          if (MAX_OBJECT_WIDTH <? width hdr) || (MAX_OBJECT_HEIGHT <? height hdr)
             || negb (malloc h (width hdr * height hdr))
          then Some None
          else option_map (option_map (mk_image hdr)) (read_pixels fread8 id hdr file)
      end
  end.

Definition read_photo (h : host) (fname : string) : option (option photo_t) :=
  match fopen h fname with
  | None => Some None
  | Some file =>
      if negb (malloc h sizeof_photo) then Some None else
      match fread_header file with
      | None => Some None
      | Some (hdr, file) =>
          if (MAX_PHOTO_WIDTH <? width hdr) || (MAX_PHOTO_HEIGHT <? height hdr)
             || negb (malloc h (width hdr * height hdr))
          then Some None
          else option_map (option_map (mk_photo hdr)) (read_pixels fread16 rgb222 hdr file)
      end
  end.

(** ** What the pixel loops store

    [items fread n file] is the sequence of the first [n] items of the file. *)
Section pixels_spec.
Context (fread : list Z → option (Z * list Z)) (store : Z → Z).

Fixpoint items (n : nat) (file : list Z) : option (list Z * list Z) :=
  match n with
  | O => Some ([], file)
  | S n =>
      '(v, file) ← fread file;
      '(vs, file) ← items n file;
      Some (v :: vs, file)
  end.

Lemma items_length n file vs rest : items n file = Some (vs, rest) → length vs = n.
Proof.
  revert file vs rest. induction n as [|n IH]; intros file vs rest; cbn; [by intros [= <- <-]|].
  destruct (fread file) as [[v f]|]; [cbn|done].
  destruct (items n f) as [[vs' f']|] eqn:E; cbn; [|done].
  intros [= <- <-]. cbn. by erewrite IH.
Qed.

Lemma items_add n m file :
  items (n + m) file =
    ('(a, f) ← items n file; '(b, f) ← items m f; Some (a ++ b, f)).
Proof.
  revert file. induction n as [|n IH]; intros file; cbn.
  - destruct (items m file) as [[??]|]; done.
  - destruct (fread file) as [[v f]|]; [cbn|done]. rewrite IH.
    destruct (items n f) as [[a f']|]; [cbn|done].
    destruct (items m f') as [[b f'']|]; done.
Qed.

(** A row: the items of the row go to consecutive cells. *)
Lemma read_columns_spec n w x y file img :
  0 ≤ w * y + x → w * y + x + Z.of_nat n ≤ zlen img →
  read_columns fread store n w x y file img =
    Some (match items n file with
          | None => None
          | Some (vs, rest) =>
              Some (rest, take (Z.to_nat (w * y + x)) img ++ (store <$> vs)
                          ++ drop (Z.to_nat (w * y + x) + n) img)
          end).
Proof.
  revert x file img. induction n as [|n IH]; intros x file img H0 Hl; cbn [read_columns items].
  - cbn. rewrite Nat.add_0_r. by rewrite take_drop.
  - destruct (fread file) as [[v f]|]; [cbn|done].
    rewrite aset_in by lia. cbn [mbind option_bind].
    rewrite IH by (rewrite ?length_insert; lia).
    f_equal. destruct (items n f) as [[vs rest]|]; [|done]. cbn. do 2 f_equal.
    replace (Z.to_nat (w * y + (x + 1))) with (S (Z.to_nat (w * y + x))) by lia.
    set (i := Z.to_nat (w * y + x)).
    assert (Hi : (i < length img)%nat) by lia.
    rewrite (take_S_r _ _ (store v)) by (by apply list_lookup_insert_eq).
    rewrite take_insert_ge, drop_insert_lt by lia.
    rewrite <- app_assoc. cbn. by rewrite Nat.add_succ_r.
Qed.

(** The rows of the file, last one first: the order of the image in memory *)
Fixpoint flip_rows (y w : nat) (vs : list Z) : list Z :=
  match y with
  | O => []
  | S y => flip_rows y w (drop w vs) ++ take w vs
  end.

Lemma flip_rows_length y w vs : length vs = (y * w)%nat → length (flip_rows y w vs) = (y * w)%nat.
Proof.
  revert vs. induction y as [|y IH]; intros vs Hl; [done|]. cbn [flip_rows].
  rewrite length_app, IH by (rewrite length_drop; lia). rewrite length_take. lia.
Qed.

Lemma flip_rows_lookup y w vs x r :
  length vs = (y * w)%nat → (x < w)%nat → (r < y)%nat →
  flip_rows y w vs !! (w * r + x)%nat = vs !! ((y - 1 - r) * w + x)%nat.
Proof.
  revert vs r. induction y as [|y IH]; intros vs r Hl Hx Hr; [lia|]. cbn [flip_rows].
  assert (Hd : length (drop w vs) = (y * w)%nat) by (rewrite length_drop; lia).
  destruct (decide (r = y)) as [->|].
  - rewrite lookup_app_r by (rewrite flip_rows_length by done; lia).
    rewrite flip_rows_length by done. rewrite lookup_take_lt by lia. f_equal. nia.
  - rewrite lookup_app_l by (rewrite flip_rows_length by done; nia).
    rewrite IH, lookup_drop by (done || lia). f_equal.
    replace (S y - 1 - r)%nat with (S (y - 1 - r)) by lia. lia.
Qed.

Lemma read_rows_spec y w file img :
  0 ≤ w → Z.of_nat y * w ≤ zlen img →
  read_rows fread store y w file img =
    Some (match items (y * Z.to_nat w) file with
          | None => None
          | Some (vs, _) =>
              Some (flip_rows y (Z.to_nat w) (store <$> vs) ++ drop (y * Z.to_nat w) img)
          end).
Proof.
  intros Hw. revert file img. induction y as [|y IH]; intros file img Hl; [done|].
  cbn [read_rows].
  assert (Hwy : Z.to_nat (w * Z.of_nat y + 0) = (y * Z.to_nat w)%nat) by lia.
  rewrite read_columns_spec by nia. cbn [mbind option_bind].
  change (S y * Z.to_nat w)%nat with (Z.to_nat w + y * Z.to_nat w)%nat. rewrite items_add.
  destruct (items (Z.to_nat w) file) as [[vs rest]|] eqn:E; [cbn [mbind option_bind]|done].
  pose proof (items_length _ _ _ _ E) as Hvs. rewrite Hwy.
  set (k := (y * Z.to_nat w)%nat) in *.
  assert (Hk : (k + Z.to_nat w ≤ length img)%nat) by nia.
  rewrite IH by (rewrite !length_app, length_take, length_fmap, length_drop; nia).
  f_equal. destruct (items k rest) as [[vs' rest']|] eqn:E'; [cbn|done]. f_equal.
  pose proof (items_length _ _ _ _ E') as Hvs'.
  rewrite drop_app_ge by (rewrite length_take; lia).
  rewrite length_take, Nat.min_l, Nat.sub_diag, drop_0 by lia.
  rewrite fmap_app, <- Hvs, <- (length_fmap store vs), take_app_length, drop_app_length.
  rewrite length_fmap, <- app_assoc. do 3 f_equal. lia.
Qed.

(** [read_pixels] never stores outside the image, fails exactly when the
    file is short, and stores the file's rows in reverse order. *)
Lemma read_pixels_spec hdr file :
  0 ≤ width hdr → 0 ≤ height hdr →
  read_pixels fread store hdr file =
    Some (match items (Z.to_nat (width hdr * height hdr)) file with
          | None => None
          | Some (vs, _) =>
              Some (flip_rows (Z.to_nat (height hdr)) (Z.to_nat (width hdr)) (store <$> vs))
          end).
Proof.
  intros Hw Hh. unfold read_pixels.
  rewrite read_rows_spec by (rewrite ?length_replicate; lia).
  replace (Z.to_nat (height hdr) * Z.to_nat (width hdr))%nat
    with (Z.to_nat (width hdr * height hdr)) by lia.
  destruct (items _ file) as [[vs rest]|]; [|done]. do 2 f_equal.
  rewrite drop_ge, app_nil_r; [done|]. rewrite length_replicate. lia.
Qed.
End pixels_spec.

(** ** The two readers *)

(** The first three colour fields of a 5:6:5 pixel, two bits each *)
Lemma rgb222_fields pixel :
  0 ≤ pixel < 65536 →
  rgb222 pixel = 16 * (pixel / 16384) + 4 * (pixel / 512 mod 4) + pixel / 8 mod 4.
Proof.
  intros Hp. unfold rgb222. rewrite !Z.shiftr_div_pow2 by lia.
  change (2 ^ 14) with 16384. change (2 ^ 9) with 512. change (2 ^ 3) with 8.
  change 0x3 with (Z.ones 2). rewrite !Z.land_ones by lia. change (2 ^ 2) with 4.
  assert (Hr : 0 ≤ pixel / 16384 < 4) by (Z.div_mod_to_equations; lia).
  assert (Hg : 0 ≤ pixel / 512 mod 4 < 4) by (Z.div_mod_to_equations; lia).
  assert (Hb : 0 ≤ pixel / 8 mod 4 < 4) by (Z.div_mod_to_equations; lia).
  revert Hr Hg Hb. generalize (pixel / 16384), (pixel / 512 mod 4), (pixel / 8 mod 4).
  intros r g b Hr Hg Hb.
  assert (r = 0 ∨ r = 1 ∨ r = 2 ∨ r = 3) as [ -> | [ -> | [ -> | -> ] ] ] by lia;
  assert (g = 0 ∨ g = 1 ∨ g = 2 ∨ g = 3) as [ -> | [ -> | [ -> | -> ] ] ] by lia;
  assert (b = 0 ∨ b = 1 ∨ b = 2 ∨ b = 3) as [ -> | [ -> | [ -> | -> ] ] ] by lia; reflexivity.
Qed.

Lemma rgb222_opaque pixel : 0 ≤ pixel < 65536 → 0 ≤ rgb222 pixel < OBJ_CLR_TRANSP.
Proof.
  intros Hp. rewrite rgb222_fields by done. unfold OBJ_CLR_TRANSP.
  Z.div_mod_to_equations. lia.
Qed.

Lemma items8 n file :
  items fread8 n file = if decide (n ≤ length file)%nat then Some (take n file, drop n file) else None.
Proof.
  revert file. induction n as [|n IH]; intros file; [done|].
  destruct file as [|b file]; [done|]. cbn [items fread8 mbind option_bind]. rewrite IH. cbn [length].
  destruct (decide (n ≤ length file)%nat), (decide (S n ≤ S (length file))%nat); try lia; done.
Qed.

(** The words of a file *)
Fixpoint words (n : nat) (file : list Z) : list Z :=
  match n, file with
  | S n, lo :: hi :: file => (lo + 256 * hi) :: words n file
  | _, _ => []
  end.

Lemma items16 n file :
  items fread16 n file =
    if decide (2 * n ≤ length file)%nat then Some (words n file, drop (2 * n) file) else None.
Proof.
  revert file. induction n as [|n IH]; intros file; [done|].
  destruct file as [|lo [|hi file]]; [by rewrite decide_False by (cbn [length]; lia)..|].
  cbn [items fread16 mbind option_bind]. rewrite IH. cbn [length].
  replace (2 * S n)%nat with (S (S (2 * n))) by lia.
  destruct (decide (2 * n ≤ length file)%nat), (decide (S (S (2 * n)) ≤ S (S (length file)))%nat);
    try lia; done.
Qed.

Lemma words_lookup n file i :
  (i < n)%nat → (2 * n ≤ length file)%nat →
  ∃ lo hi, file !! (2 * i)%nat = Some lo ∧ file !! (2 * i + 1)%nat = Some hi ∧
    words n file !! i = Some (lo + 256 * hi).
Proof.
  revert file i. induction n as [|n IH]; intros file i Hi Hl; [lia|].
  destruct file as [|lo [|hi file]]; cbn [length] in Hl; [lia..|].
  destruct i as [|i]; [by exists lo, hi|].
  destruct (IH file i) as (lo' & hi' & H1 & H2 & H3); [lia..|].
  exists lo', hi'. replace (2 * S i)%nat with (S (S (2 * i))) by lia. done.
Qed.

(** Reading a photo: the answer for a file whose header could be read.  The pixel
    at column [x] and row [y] is the 5:6:5 word of the file's row [h - 1 - y]. *)
Definition photo_of (w h : Z) (body : list Z) (p : photo_t) : Prop :=
  p_hdr p = mk_photo_header w h ∧ zlen (p_img p) = w * h ∧
  ∀ x y, 0 ≤ x < w → 0 ≤ y < h →
    ∃ lo hi c, aget body (2 * (w * (h - 1 - y) + x)) = Some lo ∧
      aget body (2 * (w * (h - 1 - y) + x) + 1) = Some hi ∧
      aget (p_img p) (w * y + x) = Some c ∧
      c = rgb222 (lo + 256 * hi) ∧ 0 ≤ c < OBJ_CLR_TRANSP.

Lemma fread16_u16 file v rest :
  Forall is_u8 file → fread16 file = Some (v, rest) → 0 ≤ v < 65536 ∧ Forall is_u8 rest.
Proof.
  intros Hu. destruct file as [|lo [|hi file]]; [done..|]. cbn. intros [= <- <-].
  apply Forall_cons in Hu as [? Hu]. apply Forall_cons in Hu as [? Hu]. split; [cint; lia|done].
Qed.

Lemma fread_header_u16 file w h rest :
  Forall is_u8 file → fread_header file = Some (mk_photo_header w h, rest) →
  0 ≤ w < 65536 ∧ 0 ≤ h < 65536 ∧ Forall is_u8 rest.
Proof.
  intros Hu. unfold fread_header. destruct (fread16 file) as [[w' f1]|] eqn:E1; [|done].
  cbn. destruct (fread16 f1) as [[h' f2]|] eqn:E2; [|done]. cbn. intros [= <- <- <-].
  destruct (fread16_u16 _ _ _ Hu E1) as [? Hu1]. by destruct (fread16_u16 _ _ _ Hu1 E2).
Qed.

(** With files made of bytes, the readers are total. *)
Definition host_ok (h : host) : Prop := ∀ f file, fopen h f = Some file → Forall is_u8 file.

Lemma read_photo_total h f : host_ok h → is_Some (read_photo h f).
Proof.
  intros Hh. unfold read_photo. destruct (fopen h f) as [file|] eqn:Ef; [|by eexists].
  destruct (negb _); [by eexists|]. destruct (fread_header file) as [[[w ht] body]|] eqn:E; [|by eexists].
  destruct (_ || _); [by eexists|]. destruct (fread_header_u16 file w ht body) as (Hw & Hht & _); [by eapply Hh|done|].
  rewrite read_pixels_spec by (cbn; lia). by eexists.
Qed.
Lemma read_obj_image_total h f : host_ok h → is_Some (read_obj_image h f).
Proof.
  intros Hh. unfold read_obj_image. destruct (fopen h f) as [file|] eqn:Ef; [|by eexists].
  destruct (negb _); [by eexists|]. destruct (fread_header file) as [[[w ht] body]|] eqn:E; [|by eexists].
  destruct (_ || _); [by eexists|]. destruct (fread_header_u16 file w ht body) as (Hw & Hht & _); [by eapply Hh|done|].
  rewrite read_pixels_spec by (cbn; lia). by eexists.
Qed.

Lemma read_photo_run h fname file w ht body :
  fopen h fname = Some file → Forall is_u8 file →
  fread_header file = Some (mk_photo_header w ht, body) →
  malloc h sizeof_photo = true → malloc h (w * ht) = true →
  ∃ r, read_photo h fname = Some r ∧
    match r with
    | None => MAX_PHOTO_WIDTH < w ∨ MAX_PHOTO_HEIGHT < ht ∨ zlen body < 2 * (w * ht)
    | Some p =>
        w ≤ MAX_PHOTO_WIDTH ∧ ht ≤ MAX_PHOTO_HEIGHT ∧ 2 * (w * ht) ≤ zlen body ∧
        photo_of w ht body p
    end.
Proof.
  intros Ho Hu Hh Hm1 Hm2. destruct (fread_header_u16 _ _ _ _ Hu Hh) as (Hw & Hht & Hb).
  unfold read_photo. rewrite Ho, Hm1, Hh. cbn [negb]. cbn [width height]. rewrite Hm2.
  destruct (Z.ltb_spec MAX_PHOTO_WIDTH w); [eexists; split; [done|]; cbn; lia|].
  destruct (Z.ltb_spec MAX_PHOTO_HEIGHT ht); [eexists; split; [done|]; cbn; lia|].
  cbn [orb negb]. rewrite read_pixels_spec by (cbn; lia). cbn [width height].
  set (n := Z.to_nat (w * ht)). rewrite items16.
  destruct (decide (2 * n ≤ length body)%nat); cbn [option_map]; eexists; (split; [done|]);
    cbn beta iota; [|lia].
  split; [done|]. split; [done|]. split; [lia|].
  assert (Hn : n = (Z.to_nat ht * Z.to_nat w)%nat) by lia.
  assert (Hl : length (words n body) = n).
  { pose proof (items_length fread16 n body) as Hi. rewrite items16, decide_True in Hi by done. eauto. }
  assert (Hf : length (rgb222 <$> words n body) = (Z.to_nat ht * Z.to_nat w)%nat)
    by (rewrite length_fmap; lia).
  split; [done|]. cbn [p_img]. split; [rewrite flip_rows_length by done; lia|].
  intros x y Hx Hy.
  destruct (words_lookup n body (Z.to_nat (w * (ht - 1 - y) + x))) as (lo & hi & H1 & H2 & H3);
    [nia|done|].
  assert (is_u8 lo ∧ is_u8 hi) as [Hlo Hhi]
    by (split; eapply Forall_lookup_1; eauto).
  exists lo, hi, (rgb222 (lo + 256 * hi)).
  rewrite !aget_nonneg by nia.
  replace (Z.to_nat (2 * (w * (ht - 1 - y) + x))) with (2 * Z.to_nat (w * (ht - 1 - y) + x))%nat by nia.
  replace (Z.to_nat (2 * (w * (ht - 1 - y) + x) + 1))
    with (2 * Z.to_nat (w * (ht - 1 - y) + x) + 1)%nat by nia.
  split; [done|]. split; [done|]. split; [|split; [done|apply rgb222_opaque; cint; lia]].
  replace (Z.to_nat (w * y + x)) with (Z.to_nat w * Z.to_nat y + Z.to_nat x)%nat by nia.
  rewrite flip_rows_lookup by (done || lia). rewrite list_lookup_fmap.
  replace ((Z.to_nat ht - 1 - Z.to_nat y) * Z.to_nat w + Z.to_nat x)%nat
    with (Z.to_nat (w * (ht - 1 - y) + x)) by nia.
  by rewrite H3.
Qed.

(** Reading an object's image, whose pixels are bytes and are kept as they are *)
Lemma read_obj_image_run h fname file w ht body :
  fopen h fname = Some file → Forall is_u8 file →
  fread_header file = Some (mk_photo_header w ht, body) →
  malloc h sizeof_image = true → malloc h (w * ht) = true →
  w ≤ MAX_OBJECT_WIDTH → ht ≤ MAX_OBJECT_HEIGHT → w * ht ≤ zlen body →
  ∃ im, read_obj_image h fname = Some (Some im) ∧ i_hdr im = mk_photo_header w ht ∧
    ∀ x y, 0 ≤ x < w → 0 ≤ y < ht → aget (i_img im) (w * y + x) = aget body (w * (ht - 1 - y) + x).
Proof.
  intros Ho Hu Hh Hm1 Hm2 Hmw Hmh Hlen. destruct (fread_header_u16 _ _ _ _ Hu Hh) as (Hw & Hht & Hb).
  unfold read_obj_image. rewrite Ho, Hm1, Hh. cbn [negb width height]. rewrite Hm2.
  rewrite (proj2 (Z.ltb_ge _ _) Hmw), (proj2 (Z.ltb_ge _ _) Hmh). cbn [orb negb].
  rewrite read_pixels_spec by (cbn; lia). cbn [width height]. rewrite items8, decide_True by lia. cbn [option_map].
  eexists. split; [done|]. split; [done|]. intros x y Hx Hy. cbn [i_img]. rewrite !aget_nonneg by nia.
  replace (Z.to_nat (w * y + x)) with (Z.to_nat w * Z.to_nat y + Z.to_nat x)%nat by nia.
  rewrite flip_rows_lookup by (rewrite ?length_fmap, ?length_take; nia).
  rewrite list_lookup_fmap, lookup_take_lt by nia.
  replace ((Z.to_nat ht - 1 - Z.to_nat y) * Z.to_nat w + Z.to_nat x)%nat
    with (Z.to_nat (w * (ht - 1 - y) + x)) by nia.
  by destruct (body !! _).
Qed.

(** [read_photo] on a file that opens and has a header: it returns [NULL]
    exactly when the photo is larger than 1024 by 1024 or the file is too short,
    and otherwise the photo whose rows are the file's rows upside down, each
    5:6:5 pixel cut down to 2:2:2; no store falls outside the image, and no
    photo pixel has the transparent colour. *)
Lemma read_photo_pixels h fname file w ht body :
  fopen h fname = Some file → Forall is_u8 file →
  fread_header file = Some (mk_photo_header w ht, body) →
  malloc h sizeof_photo = true → malloc h (w * ht) = true →
  ∃ r, read_photo h fname = Some r ∧
    match r with
    | None => MAX_PHOTO_WIDTH < w ∨ MAX_PHOTO_HEIGHT < ht ∨ zlen body < 2 * (w * ht)
    | Some p =>
        w ≤ MAX_PHOTO_WIDTH ∧ ht ≤ MAX_PHOTO_HEIGHT ∧ 2 * (w * ht) ≤ zlen body ∧
        photo_of w ht body p
    end.
Proof. apply read_photo_run. Qed.

(** A two by one photo: a green pixel and a red one *)
Definition demo_host : host :=
  mk_host (λ f, if decide (f = "two.photo") then Some [2; 0; 1; 0; 0xe0; 0x07; 0x00; 0xf8] else None)
    (λ _, true).

Lemma read_photo_pixels_witness :
  read_photo demo_host "two.photo" =
    Some (Some (mk_photo (mk_photo_header 2 1) [0x0c; 0x30])) ∧
  ∃ r, read_photo demo_host "two.photo" = Some r ∧
    match r with
    | None => MAX_PHOTO_WIDTH < 2 ∨ MAX_PHOTO_HEIGHT < 1 ∨ 4 < 2 * (2 * 1)
    | Some p =>
        2 ≤ MAX_PHOTO_WIDTH ∧ 1 ≤ MAX_PHOTO_HEIGHT ∧ 2 * (2 * 1) ≤ 4 ∧
        photo_of 2 1 [0xe0; 0x07; 0x00; 0xf8] p
    end.
Proof.
  split; [vm_compute; reflexivity|].
  apply (read_photo_pixels demo_host "two.photo" [2; 0; 1; 0; 0xe0; 0x07; 0x00; 0xf8] 2 1
    [0xe0; 0x07; 0x00; 0xf8]); try reflexivity.
  apply (bool_decide_unpack _); vm_compute; exact I.
Defined.
