(* ===== verification/Bmp.v ===== *)
(** * Bmp: the converter of pictures for the adventure ([mp2/mp2photo.c])

    The program that turns 24-bit BMP files into the photos and object images
    that [Photo] reads.  It is compiled twice, with [WRITE_OBJECT_IMAGE] 0 and 1.
    The files come from [host]; the file written has room for a number of bytes. *)
From S2P Require Import Prelude Photo.

(** ** The input *)
Record bmp_header_t := mk_bmp_header {
  file_size : Z; reserved : Z; pixel_offset : Z;
  dib_header_size : Z; img_width : Z; img_height : Z;
  planes : Z; bits_per_pixel : Z;              (* uint16_t *)
  compression_type : Z; img_size : Z;
}.
Definition BMP_MAGIC : list Z := [66; 77].     (* "BM" *)

Definition fread32 (file : list Z) : option (Z * list Z) :=
  '(lo, file) ← fread16 file; '(hi, file) ← fread16 file; Some (lo + 65536 * hi, file).
Definition fread_bmp_header (file : list Z) : option (bmp_header_t * list Z) :=
  '(fs, file) ← fread32 file; '(rs, file) ← fread32 file; '(po, file) ← fread32 file;
  '(ds, file) ← fread32 file; '(iw, file) ← fread32 file; '(ih, file) ← fread32 file;
  '(pl, file) ← fread16 file; '(bp, file) ← fread16 file;
  '(ct, file) ← fread32 file; '(sz, file) ← fread32 file;
  Some (mk_bmp_header fs rs po ds iw ih pl bp ct sz, file).

Definition bmp_row_width (h : bmp_header_t) : Z := i32 (u32 (4 * (u32 (u32 (3 * img_width h) + 3) / 4))).

(** The header, when the function returns 1 *)
Definition bmp_header_check (file : list Z) : option bmp_header_t :=
  match file with
  | a :: b :: rest =>
      if negb (bool_decide ([a; b] = BMP_MAGIC)) then None else
      '(h, _) ← fread_bmp_header rest;
      if (4096 <? img_width h) || (4096 <? img_height h) || negb (planes h =? 1)
         || negb (bits_per_pixel h =? 24) || negb (compression_type h =? 0) then None
      else if negb (img_size h =? u32 (u32 (bmp_row_width h) * img_height h)) then None
      else Some h
  | _ => None
  end.

(** [fseek] takes a [long], so it refuses an offset of 2 GB and more; [fread] of one
    item of no bytes gives 0 items. *)
Definition read_bmp_image_data (hst : host) (file : list Z) (h : bmp_header_t) : option (list Z) :=
  if i32 (pixel_offset h) <? 0 then None
  else if negb (malloc hst (img_size h)) then None
  else
    let img_data := take (Z.to_nat (img_size h)) (drop (Z.to_nat (pixel_offset h)) file) in
    if (img_size h =? 0) || (zlen img_data <? img_size h) then None else Some img_data.

(** ** The output *)
Record out_file := mk_out { o_bytes : list Z; o_room : Z }.
Abbreviation Out := (M out_file).
(** Whether the bytes were written; on a full disk they are not. *)
Definition fwrite (bs : list Z) : Out bool := λ o,
  if zlen bs <=? o_room o then Some (true, mk_out (o_bytes o ++ bs) (o_room o - zlen bs)) else Some (false, o).
Definition le16 (v : Z) : list Z := [v mod 256; v / 256 mod 256].

Section mp2photo.
Context (WRITE_OBJECT_IMAGE : bool).

Definition vga_color_object (b g r : Z) : Z :=
  let vga_color := Z.lor (Z.lor (Z.shiftl (Z.shiftr r 6) 4) (Z.shiftl (Z.shiftr g 6) 2)) (Z.shiftr b 6) in
  if vga_color =? 0x3C then OBJ_CLR_TRANSP else vga_color.
Definition vga_color_photo (b g r : Z) : Z :=
  Z.lor (Z.lor (Z.shiftl (Z.shiftr r 3) 11) (Z.shiftl (Z.shiftr g 2) 5)) (Z.shiftr b 3).
Definition vga_bytes (b g r : Z) : list Z :=
  if WRITE_OBJECT_IMAGE then [vga_color_object b g r] else le16 (vga_color_photo b g r).

Fixpoint write_columns (n : nat) (x at_row : Z) (img : list Z) : Out bool :=
  match n with
  | O => mret true
  | S n =>
      r ← lift (aget img (at_row + 3 * x + 2));
      g ← lift (aget img (at_row + 3 * x + 1));
      b ← lift (aget img (at_row + 3 * x));
      ok ← fwrite (vga_bytes b g r);
      if (ok : bool) then write_columns n (x + 1) at_row img else mret false
  end.
Fixpoint write_rows (n : nat) (y : Z) (h : bmp_header_t) (img : list Z) : Out bool :=
  match n with
  | O => mret true
  | S n =>
      ok ← write_columns (Z.to_nat (img_width h)) 0 (u32 (bmp_row_width h) * y) img;
      if (ok : bool) then write_rows n (y + 1) h img else mret false
  end.
Definition write_output_file (h : bmp_header_t) (img : list Z) : Out bool :=
  ok ← fwrite (le16 (img_width h) ++ le16 (img_height h));
  if negb ok then mret false else write_rows (Z.to_nat (img_height h)) 0 h img.

(** What becomes of the output file: whether it opens, its room, whether it closes *)
Record disk := mk_disk { d_opens : bool; d_room : Z; d_closes : bool }.

(** The exit code, and the output file if it was opened *)
Definition mp2photo_main (hst : host) (d : disk) (argv : list string) : option (Z * option (list Z)) :=
  match argv with
  | [_; in_name; _] =>
      match fopen hst in_name with
      | None => Some (2, None)
      | Some file =>
          if negb (d_opens d) then Some (2, None) else
          match bmp_header_check file ≫= λ h, pair h <$> read_bmp_image_data hst file h with
          | None => Some (2, Some [])
          | Some (h, img) =>
              '(written, o) ← write_output_file h img (mk_out [] (d_room d));
              Some (if written && d_closes d then 0 else 3, Some (o_bytes o))
          end
      end
  | _ => Some (2, None)
  end.
End mp2photo.

(** ** The pixels of the input *)

(** A BMP file whose header is accepted and whose pixels are there *)
Record bmp_file (hst : host) (file : list Z) (h : bmp_header_t) : Prop := {
  bf_header : bmp_header_check file = Some h;
  bf_u8 : Forall is_u8 file;
  bf_offset : pixel_offset h < 2147483648;
  bf_there : pixel_offset h + img_size h ≤ zlen file;
  bf_some : 0 < img_width h ∧ 0 < img_height h;
  bf_memory : malloc hst (img_size h) = true;
}.
(** Blue, green and red of the pixel in column [x] of the file's row [y] *)
Definition bmp_pixel (file : list Z) (h : bmp_header_t) (x y : Z) : option (Z * Z * Z) :=
  let at_ := pixel_offset h + bmp_row_width h * y + 3 * x in
  b ← aget file at_; g ← aget file (at_ + 1); r ← aget file (at_ + 2); Some (b, g, r).

Lemma fread32_range file v rest : Forall is_u8 file → fread32 file = Some (v, rest) → is_u32 v ∧ Forall is_u8 rest.
Proof.
  intros Hu. unfold fread32. intros H. apply bind_Some in H as ([lo f1]&H1&H). apply bind_Some in H as ([hi f2]&H2&H).
  injection H as <- <-. destruct (fread16_u16 _ _ _ Hu H1) as [Hlo Hu1]. destruct (fread16_u16 _ _ _ Hu1 H2) as [Hhi Hu2].
  split; [cint; lia|done].
Qed.

Lemma header_checked hst file h :
  bmp_file hst file h →
  0 < img_width h ≤ 4096 ∧ 0 < img_height h ≤ 4096 ∧ bmp_row_width h = 4 * ((3 * img_width h + 3) / 4) ∧
  img_size h = bmp_row_width h * img_height h ∧ 0 ≤ pixel_offset h.
Proof.
  intros [Hc Hu Ho Ht [Hw Hh] _]. unfold bmp_header_check in Hc.
  destruct file as [|a [|b rest]]; [done..|]. destruct (negb _); [done|].
  apply bind_Some in Hc as ([h' f']&Hf&Hc). destruct (_ || _) eqn:Ec; [done|].
  destruct (negb (img_size h' =? _)) eqn:Es; [done|]. injection Hc as ->.
  rewrite !orb_false_iff in Ec. destruct Ec as ((((Ew%Z.ltb_ge&Eh%Z.ltb_ge)&_)&_)&_).
  apply negb_false_iff, Z.eqb_eq in Es.
  assert (Hd : 0 ≤ (3 * img_width h + 3) / 4 ≤ 3072 ) by (Z.div_mod_to_equations; lia).
  assert (Hrow : bmp_row_width h = 4 * ((3 * img_width h + 3) / 4)).
  { unfold bmp_row_width. rewrite (u32_small (3 * _)), (u32_small (_ + 3)) by (unfold is_u32; lia).
    rewrite u32_small by (unfold is_u32; lia). rewrite i32_small by (unfold is_i32; lia). done. }
  assert (0 ≤ bmp_row_width h ≤ 12288) by lia.
  split; [lia|]. split; [lia|]. split; [done|].
  rewrite Es, (u32_small (bmp_row_width h)), u32_small by (unfold is_u32; nia). split; [done|].
  unfold fread_bmp_header in Hf. apply Forall_cons in Hu as [_ Hu]. apply Forall_cons in Hu as [_ Hu].
  apply bind_Some in Hf as ([fs f1]&H1&Hf). destruct (fread32_range _ _ _ Hu H1) as [_ Hu1].
  apply bind_Some in Hf as ([rs f2]&H2&Hf). destruct (fread32_range _ _ _ Hu1 H2) as [_ Hu2].
  apply bind_Some in Hf as ([po f3]&H3&Hf). destruct (fread32_range _ _ _ Hu2 H3) as [Hpo _].
  repeat (apply bind_Some in Hf as ([? ?]&_&Hf)). injection Hf as <- _. cbn. apply Hpo.
Qed.

(** ** The bytes written *)
Section written.
Context (WRITE_OBJECT_IMAGE : bool).
#[local] Abbreviation size := (if WRITE_OBJECT_IMAGE then 1%nat else 2%nat).

(** The colour of a pixel in memory, as the output has it *)
Definition pixel_bytes (img : list Z) (at_ : Z) : list Z :=
  match aget img at_, aget img (at_ + 1), aget img (at_ + 2) with
  | Some b, Some g, Some r => vga_bytes WRITE_OBJECT_IMAGE b g r
  | _, _, _ => replicate size 0
  end.
Lemma pixel_bytes_length img at_ : length (pixel_bytes img at_) = size.
Proof.
  unfold pixel_bytes, vga_bytes.
  destruct (aget img at_), (aget img (at_ + 1)), (aget img (at_ + 2)), WRITE_OBJECT_IMAGE; done.
Qed.

Lemma fwrite_run bs o :
  zlen bs ≤ o_room o → fwrite bs o = Some (true, mk_out (o_bytes o ++ bs) (o_room o - zlen bs)).
Proof. intros H. unfold fwrite. by rewrite (proj2 (Z.leb_le _ _) H). Qed.

Lemma write_columns_run n x at_row img o :
  0 ≤ x → 0 ≤ at_row → at_row + 3 * (x + Z.of_nat n) ≤ zlen img → Z.of_nat (n * size) ≤ o_room o →
  write_columns WRITE_OBJECT_IMAGE n x at_row img o =
    Some (true, mk_out (o_bytes o ++ mjoin ((λ i : nat, pixel_bytes img (at_row + 3 * (x + Z.of_nat i))) <$> seq 0 n))
                  (o_room o - Z.of_nat (n * size))).
Proof.
  revert x o. induction n as [|n IH]; intros x o Hx Ha Hl Hr.
  - cbn. rewrite app_nil_r, Z.sub_0_r. by destruct o.
  - cbn [write_columns]. change (S n * size)%nat with (size + n * size)%nat in *. rewrite Nat2Z.inj_add in *.
    destruct (proj2 (aget_is_Some img (at_row + 3 * x))) as [b Hb]; [lia|].
    destruct (proj2 (aget_is_Some img (at_row + 3 * x + 1))) as [g Hg]; [lia|].
    destruct (proj2 (aget_is_Some img (at_row + 3 * x + 2))) as [r Hr']; [lia|].
    rewrite (bind_lift _ _ _ _ Hr'), (bind_lift _ _ _ _ Hg), (bind_lift _ _ _ _ Hb).
    assert (Hp : vga_bytes WRITE_OBJECT_IMAGE b g r = pixel_bytes img (at_row + 3 * (x + 0))).
    { unfold pixel_bytes. by rewrite Z.add_0_r, Hb, Hg, Hr'. }
    assert (Hroom : zlen (pixel_bytes img (at_row + 3 * (x + 0))) ≤ o_room o) by (rewrite pixel_bytes_length; lia).
    rewrite Hp, (bind_run _ _ _ _ _ (fwrite_run _ _ Hroom)).
    rewrite IH; [|lia..|cbn [o_room]; rewrite pixel_bytes_length; lia]. cbn [o_bytes o_room].
    rewrite pixel_bytes_length. cbn [seq fmap list_fmap mjoin list_join]. rewrite <- app_assoc.
    rewrite <- (fmap_S_seq 0 n), <- list_fmap_compose. do 3 f_equal; [|lia]. f_equal. f_equal.
    f_equal. apply list_fmap_ext. intros i k _. cbn. f_equal. lia.
Qed.

Lemma mjoin_rows_length {A} (f : nat → list A) k n :
  (∀ i, length (f i) = k) → length (mjoin (f <$> seq 0 n)) = (n * k)%nat.
Proof.
  intros Hf. induction n as [|n IH]; [done|]. rewrite seq_S, fmap_app, join_app, length_app, IH. cbn.
  rewrite app_nil_r, Hf. lia.
Qed.
(** Item [r] of chunk [i] of a sequence of chunks of [k] *)
Lemma mjoin_rows_lookup {A} (f : nat → list A) k n i r :
  (∀ i, length (f i) = k) → (i < n)%nat → (r < k)%nat →
  mjoin (f <$> seq 0 n) !! (k * i + r)%nat = f i !! r.
Proof.
  intros Hf Hi Hr. induction n as [|n IH]; [lia|]. rewrite seq_S, fmap_app, join_app. cbn. rewrite app_nil_r.
  pose proof (mjoin_rows_length f k n Hf) as Hl. destruct (decide (i = n)) as [->|].
  - rewrite lookup_app_r by lia. f_equal. lia.
  - rewrite lookup_app_l by nia. apply IH. lia.
Qed.

Definition image_bytes (img : list Z) (h : bmp_header_t) (y : nat) : list Z :=
  mjoin ((λ x : nat, pixel_bytes img (bmp_row_width h * Z.of_nat y + 3 * Z.of_nat x)) <$> seq 0 (Z.to_nat (img_width h))).
Lemma image_bytes_length img h y : length (image_bytes img h y) = (Z.to_nat (img_width h) * size)%nat.
Proof. apply mjoin_rows_length. intros i. apply pixel_bytes_length. Qed.

Lemma write_rows_run n y h img o :
  0 ≤ y → 0 < img_width h → 3 * img_width h ≤ bmp_row_width h < 4294967296 →
  bmp_row_width h * (y + Z.of_nat n) ≤ zlen img →
  Z.of_nat (n * (Z.to_nat (img_width h) * size)) ≤ o_room o →
  write_rows WRITE_OBJECT_IMAGE n y h img o =
    Some (true, mk_out (o_bytes o ++ mjoin ((λ i : nat, image_bytes img h (Z.to_nat y + i)) <$> seq 0 n))
                  (o_room o - Z.of_nat (n * (Z.to_nat (img_width h) * size)))).
Proof.
  intros Hy Hw Hb. revert y o Hy. induction n as [|n IH]; intros y o Hy Hl Hr.
  - cbn. rewrite app_nil_r, Z.sub_0_r. by destruct o.
  - cbn [write_rows]. set (k := (Z.to_nat (img_width h) * size)%nat) in *.
    change (S n * k)%nat with (k + n * k)%nat in *. rewrite Nat2Z.inj_add in *. rewrite (u32_small (bmp_row_width h)) by (unfold is_u32; lia).
    assert (Hat : 0 ≤ bmp_row_width h * y) by nia. assert (Hn : 0 ≤ bmp_row_width h * Z.of_nat n) by nia.
    assert (Hrow : bmp_row_width h * (y + Z.of_nat (S n)) =
      bmp_row_width h * y + bmp_row_width h + bmp_row_width h * Z.of_nat n) by nia.
    rewrite (bind_run _ _ _ _ _ (write_columns_run (Z.to_nat (img_width h)) 0 (bmp_row_width h * y) img o ltac:(lia) Hat ltac:(lia) ltac:(fold k; lia))).
    rewrite IH; [|lia|nia|cbn [o_room]; lia]. cbn [o_bytes o_room].
    cbn [seq fmap list_fmap mjoin list_join]. rewrite <- app_assoc.
    rewrite <- (fmap_S_seq 0 n), <- list_fmap_compose. do 3 f_equal; [|nia]. f_equal. f_equal.
    + unfold image_bytes. f_equal. apply list_fmap_ext. intros i ? _. rewrite Nat.add_0_r, Z2Nat.id by lia. do 2 f_equal.
    + f_equal. apply list_fmap_ext. intros i ? _. cbn. f_equal. lia.
Qed.
End written.

(** ** Files that the game reads back *)
Lemma le16_value v : 0 ≤ v < 65536 → v mod 256 + 256 * (v / 256 mod 256) = v.
Proof. intros. Z.div_mod_to_equations. lia. Qed.
Lemma le16_u8 v : Forall is_u8 (le16 v).
Proof. repeat constructor; cint; Z.div_mod_to_equations; lia. Qed.

(** The colours of a picture, two bits each *)
Lemma lor3 x y z j k :
  0 ≤ x < 2 ^ j → 0 ≤ y < 2 ^ (k - j) → 0 ≤ j ≤ k →
  Z.lor (Z.lor (Z.shiftl z k) (Z.shiftl y j)) x = x + y * 2 ^ j + z * 2 ^ k.
Proof.
  intros Hx Hy Hj. rewrite (Z.lor_comm _ x), (Z.lor_comm (Z.shiftl z k)), Z.lor_assoc.
  assert (2 ^ k = 2 ^ j * 2 ^ (k - j)) as Hk by (rewrite <- Z.pow_add_r by lia; f_equal; lia).
  rewrite (lor_shiftl x y j), lor_shiftl by (try lia; nia). lia.
Qed.
Lemma vga_color_photo_fields b g r :
  is_u8 b → is_u8 g → is_u8 r → vga_color_photo b g r = b / 8 + g / 4 * 32 + r / 8 * 2048.
Proof.
  intros Hb Hg Hr. unfold vga_color_photo. rewrite !Z.shiftr_div_pow2 by lia.
  apply (lor3 (b / 8) (g / 4) (r / 8) 5 11); cint; [..|lia]; split; Z.div_mod_to_equations; lia.
Qed.
Lemma vga_color_object_fields b g r :
  is_u8 b → is_u8 g → is_u8 r →
  vga_color_object b g r =
    let c := b / 64 + g / 64 * 4 + r / 64 * 16 in if c =? 0x3C then OBJ_CLR_TRANSP else c.
Proof.
  intros Hb Hg Hr. unfold vga_color_object. rewrite !Z.shiftr_div_pow2 by lia.
  rewrite (lor3 (b / 2 ^ 6) (g / 2 ^ 6) (r / 2 ^ 6) 2 4); [done|..|lia]; cint; change (2 ^ 6) with 64;
    split; Z.div_mod_to_equations; lia.
Qed.
Lemma photo_colour b g r :
  is_u8 b → is_u8 g → is_u8 r →
  0 ≤ vga_color_photo b g r < 65536 ∧
  rgb222 (vga_color_photo b g r) = b / 64 + g / 64 * 4 + r / 64 * 16.
Proof.
  intros Hb Hg Hr. rewrite vga_color_photo_fields by done.
  assert (Hv : 0 ≤ b / 8 + g / 4 * 32 + r / 8 * 2048 < 65536) by (cint; split; Z.div_mod_to_equations; lia).
  split; [done|]. rewrite rgb222_fields by done. cint. Z.div_mod_to_equations. lia.
Qed.
Lemma object_colour b g r : is_u8 b → is_u8 g → is_u8 r → is_u8 (vga_color_object b g r).
Proof.
  intros Hb Hg Hr. rewrite vga_color_object_fields by done. cbn. destruct (_ =? _); [done|].
  cint. Z.div_mod_to_equations. lia.
Qed.

Section converted.
Context (WRITE_OBJECT_IMAGE : bool) (hst : host) (d : disk) (file : list Z) (h : bmp_header_t).
#[local] Abbreviation size := (if WRITE_OBJECT_IMAGE then 1%nat else 2%nat).
Context (Hfile : bmp_file hst file h) (Hopens : d_opens d = true) (Hcloses : d_closes d = true).
Context (Hroom : 4 + img_width h * img_height h * Z.of_nat size ≤ d_room d).

Definition bmp_img : list Z := take (Z.to_nat (img_size h)) (drop (Z.to_nat (pixel_offset h)) file).
Definition out_pixels : list Z :=
  mjoin (image_bytes WRITE_OBJECT_IMAGE bmp_img h <$> seq 0 (Z.to_nat (img_height h))).

Lemma out_pixels_length : length out_pixels = (Z.to_nat (img_height h) * (Z.to_nat (img_width h) * size))%nat.
Proof. apply mjoin_rows_length. intros i. apply image_bytes_length. Qed.
Lemma out_pixels_u8 : Forall is_u8 out_pixels.
Proof.
  assert (Hi : Forall is_u8 bmp_img) by (apply Forall_take, Forall_drop, Hfile).
  assert (Hu : ∀ j v, aget bmp_img j = Some v → is_u8 v).
  { intros j v Hv. pose proof (aget_Some_range _ _ _ Hv). rewrite aget_nonneg in Hv by lia.
    by apply (Forall_lookup_1 _ _ _ _ Hi Hv). }
  apply Forall_join, Forall_fmap, Forall_true. intros y. apply Forall_join, Forall_fmap, Forall_true. intros x.
  cbn. unfold pixel_bytes.
  set (i := bmp_row_width h * Z.of_nat y + 3 * Z.of_nat x).
  destruct (aget bmp_img i) as [b|] eqn:Hb, (aget bmp_img (i + 1)) as [g|] eqn:Hg,
    (aget bmp_img (i + 2)) as [r|] eqn:Hr; try (apply Forall_replicate; cint; lia).
  unfold vga_bytes. destruct WRITE_OBJECT_IMAGE; [|apply le16_u8]. apply Forall_singleton.
  by apply object_colour; eapply Hu.
Qed.

Lemma mp2photo_run prog in_name out_name :
  fopen hst in_name = Some file →
  mp2photo_main WRITE_OBJECT_IMAGE hst d [prog; in_name; out_name] =
    Some (0, Some ((le16 (img_width h) ++ le16 (img_height h)) ++ out_pixels)).
Proof.
  intros Ho. destruct (header_checked _ _ _ Hfile) as (Hw&Hh&Hr&Hs&Hp).
  assert (Hd : 3 * img_width h ≤ 4 * ((3 * img_width h + 3) / 4) ≤ 12288) by (Z.div_mod_to_equations; lia).
  rewrite <- Hr in Hd. destruct Hfile as [Hc _ Hoff Hthere _ Hm].
  unfold mp2photo_main. rewrite Ho, Hopens, Hc. cbn [negb mbind option_bind].
  unfold read_bmp_image_data. rewrite i32_small by (unfold is_i32; lia). rewrite Hm.
  rewrite (proj2 (Z.ltb_ge (pixel_offset h) 0) Hp). cbn [negb].
  assert (0 < img_size h) by nia.
  assert (Hl : zlen bmp_img = img_size h) by (unfold bmp_img; rewrite length_take, length_drop; lia).
  fold bmp_img. rewrite (proj2 (Z.eqb_neq (img_size h) 0)), (proj2 (Z.ltb_ge (zlen bmp_img) (img_size h))) by lia.
  cbn [orb fmap option_fmap option_map]. unfold write_output_file.
  rewrite (bind_run _ _ _ _ _ (fwrite_run (le16 (img_width h) ++ le16 (img_height h)) (mk_out [] (d_room d))
    ltac:(cbn; destruct WRITE_OBJECT_IMAGE; nia))).
  cbn [negb o_bytes o_room app]. rewrite write_rows_run; [|lia|lia|lia|nia|cbn [length le16 app o_room]; nia].
  rewrite Hcloses. cbn [andb o_bytes]. unfold out_pixels. do 4 f_equal.
Qed.

Lemma out_pixel x y e :
  0 ≤ x < img_width h → 0 ≤ y < img_height h → (e < size)%nat →
  ∃ b g r, bmp_pixel file h x y = Some (b, g, r) ∧ is_u8 b ∧ is_u8 g ∧ is_u8 r ∧
    aget out_pixels (Z.of_nat size * (img_width h * y + x) + Z.of_nat e) =
      vga_bytes WRITE_OBJECT_IMAGE b g r !! e.
Proof.
  intros Hx Hy He. destruct (header_checked _ _ _ Hfile) as (Hw&Hh&Hr&Hs&Hp).
  assert (Hd : 3 * img_width h ≤ 4 * ((3 * img_width h + 3) / 4) ≤ 12288) by (Z.div_mod_to_equations; lia).
  rewrite <- Hr in Hd. set (i := bmp_row_width h * y + 3 * x).
  assert (Hi : 0 ≤ i ∧ i + 2 < img_size h) by nia.
  assert (Hpx : ∀ j, 0 ≤ j ≤ 2 → ∃ v, is_u8 v ∧ aget file (pixel_offset h + i + j) = Some v ∧
    aget bmp_img (i + j) = Some v).
  { intros j Hj. destruct Hfile as [_ Hu _ Hthere _ _].
    destruct (proj2 (aget_is_Some file (pixel_offset h + i + j))) as [v Hv]; [lia|]. exists v.
    split; [|split; [done|]].
    - rewrite aget_nonneg in Hv by lia. by apply (Forall_lookup_1 _ _ _ _ Hu Hv).
    - rewrite <- Hv, !aget_nonneg by lia. unfold bmp_img. rewrite lookup_take_lt, lookup_drop by lia. f_equal. lia. }
  destruct (Hpx 0) as (b&Hub&Hb&Hb'), (Hpx 1) as (g&Hug&Hg&Hg'), (Hpx 2) as (r&Hur&Hr'&Hr''); [lia..|].
  rewrite Z.add_0_r in Hb, Hb'. exists b, g, r. unfold bmp_pixel.
  replace (pixel_offset h + bmp_row_width h * y + 3 * x) with (pixel_offset h + i) by lia.
  rewrite Hb, Hg, Hr'. do 4 (split; [done|]).
  rewrite aget_nonneg by nia.
  replace (Z.to_nat _) with (Z.to_nat (img_width h) * size * Z.to_nat y + (size * Z.to_nat x + e))%nat by nia.
  unfold out_pixels. rewrite (mjoin_rows_lookup _ (Z.to_nat (img_width h) * size)); [|apply image_bytes_length|lia|nia].
  unfold image_bytes. rewrite (mjoin_rows_lookup _ size); [|intros; apply pixel_bytes_length|lia|done].
  rewrite !Z2Nat.id by lia. unfold pixel_bytes. fold i. by rewrite Hb', Hg', Hr''.
Qed.
End converted.

(** C29. The converter and the game agree on the photo format.  For a BMP file whose
    header is accepted and whose pixels are all there, at most 1024 by 1024, and an
    output file that can be opened, written and closed, [mp2photo] exits with 0; and
    any host that has the written file gives [read_photo] the photo of the same size
    in which the pixel at column [x] and row [y] from the top is the two high bits of
    red, green and blue of the BMP's pixel in column [x] of the row stored [y]-th from
    the end: the picture is not mirrored, and no rows' padding is left in. *)
Theorem mp2photo_read_photo hst d prog in_name out_name file h :
  fopen hst in_name = Some file → bmp_file hst file h →
  img_width h ≤ MAX_PHOTO_WIDTH → img_height h ≤ MAX_PHOTO_HEIGHT →
  d_opens d = true → d_closes d = true → 4 + img_width h * img_height h * 2 ≤ d_room d →
  ∃ out, mp2photo_main false hst d [prog; in_name; out_name] = Some (0, Some out) ∧
    ∀ game fname, fopen game fname = Some out → malloc game sizeof_photo = true →
      malloc game (img_width h * img_height h) = true →
      ∃ p, read_photo game fname = Some (Some p) ∧
        photo_width p = img_width h ∧ photo_height p = img_height h ∧
        ∀ x y, 0 ≤ x < img_width h → 0 ≤ y < img_height h →
          ∃ b g r, bmp_pixel file h x (img_height h - 1 - y) = Some (b, g, r) ∧
            aget (p_img p) (img_width h * y + x) = Some (b / 64 + g / 64 * 4 + r / 64 * 16).
Proof.
  intros Hin Hfile Hmw Hmh Ho Hc Hroom. destruct (header_checked _ _ _ Hfile) as (Hw&Hh&_).
  eexists. split; [by apply (mp2photo_run false hst d file)|].
  intros game fname Hf Hm1 Hm2. pose proof (out_pixels_length false file h) as Hl.
  edestruct (read_photo_run game fname _ (img_width h) (img_height h) (out_pixels false file h) Hf)
    as (res&Hres&Hspec); [..|done|done|].
  { rewrite !Forall_app. split; [split; apply le16_u8|]. by eapply (out_pixels_u8 false hst d file h). }
  { cbn. by rewrite !le16_value by lia. }
  destruct res as [p|]; [|unfold MAX_PHOTO_WIDTH, MAX_PHOTO_HEIGHT in *; nia].
  destruct Hspec as (_&_&_&Hhdr&_&Hpx). exists p. unfold photo_width, photo_height. rewrite Hhdr.
  do 3 (split; [done|]). intros x y Hx Hy. destruct (Hpx x y Hx Hy) as (lo&hi&c&Hlo&Hhi&Hpix&->&_).
  destruct (out_pixel false hst file h Hfile x (img_height h - 1 - y) 0) as (b&g&r&Hb&Hub&Hug&Hur&H0); [lia..|].
  destruct (out_pixel false hst file h Hfile x (img_height h - 1 - y) 1) as (b'&g'&r'&Hb'&_&_&_&H1); [lia..|].
  rewrite Hb in Hb'. injection Hb' as <- <- <-. rewrite Z.add_0_r in H0.
  change (Z.of_nat 2) with 2 in *. change (Z.of_nat 1) with 1 in *. rewrite Hlo in H0. rewrite Hhi in H1.
  cbn in H0, H1. injection H0 as ->. injection H1 as ->.
  exists b, g, r. split; [done|]. destruct (photo_colour b g r Hub Hug Hur) as [Hv Hrgb].
  by rewrite Hpix, le16_value, Hrgb.
Qed.

(** The same for object images, compiled with [WRITE_OBJECT_IMAGE] 1: one byte for
    each pixel, the two high bits of red, green and blue, but bright yellow (3, 3, 0)
    becomes the transparent colour. *)
Lemma mp2object_read_obj_image hst d prog in_name out_name file h :
  fopen hst in_name = Some file → bmp_file hst file h →
  img_width h ≤ MAX_OBJECT_WIDTH → img_height h ≤ MAX_OBJECT_HEIGHT →
  d_opens d = true → d_closes d = true → 4 + img_width h * img_height h * 1 ≤ d_room d →
  ∃ out, mp2photo_main true hst d [prog; in_name; out_name] = Some (0, Some out) ∧
    ∀ game fname, fopen game fname = Some out → malloc game sizeof_image = true →
      malloc game (img_width h * img_height h) = true →
      ∃ im, read_obj_image game fname = Some (Some im) ∧
        image_width im = img_width h ∧ image_height im = img_height h ∧
        ∀ x y, 0 ≤ x < img_width h → 0 ≤ y < img_height h →
          ∃ b g r, bmp_pixel file h x (img_height h - 1 - y) = Some (b, g, r) ∧
            aget (i_img im) (img_width h * y + x) =
              Some (let c := b / 64 + g / 64 * 4 + r / 64 * 16 in if c =? 0x3C then OBJ_CLR_TRANSP else c).
Proof.
  intros Hin Hfile Hmw Hmh Ho Hc Hroom. destruct (header_checked _ _ _ Hfile) as (Hw&Hh&_).
  eexists. split; [by apply (mp2photo_run true hst d file)|].
  intros game fname Hf Hm1 Hm2. pose proof (out_pixels_length true file h) as Hl.
  edestruct (read_obj_image_run game fname _ (img_width h) (img_height h) (out_pixels true file h) Hf)
    as (im&Hres&Hhdr&Hpx); [..|done|done|done|done|rewrite Hl, !Nat2Z.inj_mul, !Z2Nat.id by lia; lia|].
  { rewrite !Forall_app. split; [split; apply le16_u8|]. by eapply (out_pixels_u8 true hst d file h). }
  { cbn. by rewrite !le16_value by lia. }
  exists im. unfold image_width, image_height. rewrite Hhdr. do 3 (split; [done|]). intros x y Hx Hy.
  destruct (out_pixel true hst file h Hfile x (img_height h - 1 - y) 0) as (b&g&r&Hb&Hub&Hug&Hur&H0); [lia..|].
  exists b, g, r. split; [done|]. rewrite Hpx by done.
  rewrite Z.add_0_r, Z.mul_1_l in H0. rewrite H0. cbn. by rewrite vga_color_object_fields.
Qed.

(** A blue and a bright yellow pixel side by side, in a row of 8 bytes *)
Definition demo_bmp : list Z :=
  BMP_MAGIC ++ [62; 0; 0; 0;  0; 0; 0; 0;  54; 0; 0; 0;  40; 0; 0; 0;  2; 0; 0; 0;  1; 0; 0; 0;
    1; 0; 24; 0;  0; 0; 0; 0;  8; 0; 0; 0] ++ replicate 16 0 ++ [255; 0; 0;  10; 240; 250;  0; 0].
Definition demo_bmp_header : bmp_header_t := mk_bmp_header 62 0 54 40 2 1 1 24 0 8.
Definition bmp_host : host := mk_host (λ f, if decide (f = "in.bmp") then Some demo_bmp else None) (λ _, true).
Lemma demo_bmp_file : bmp_file bmp_host demo_bmp demo_bmp_header.
Proof. split; try (vm_compute; done). repeat (apply Forall_cons; split; [done|]). done. Qed.
Lemma mp2photo_read_photo_witness :
  mp2photo_main false bmp_host (mk_disk true 100 true) ["mp2photo"; "in.bmp"; "out.photo"] =
    Some (0, Some [2; 0; 1; 0; 31; 0; 129; 255]) ∧
  ∃ out, mp2photo_main false bmp_host (mk_disk true 100 true) ["mp2photo"; "in.bmp"; "out.photo"] = Some (0, Some out) ∧
    ∀ game fname, fopen game fname = Some out → malloc game sizeof_photo = true → malloc game (2 * 1) = true →
      ∃ p, read_photo game fname = Some (Some p) ∧ photo_width p = 2 ∧ photo_height p = 1 ∧
        ∀ x y, 0 ≤ x < 2 → 0 ≤ y < 1 →
          ∃ b g r, bmp_pixel demo_bmp demo_bmp_header x (1 - 1 - y) = Some (b, g, r) ∧
            aget (p_img p) (2 * y + x) = Some (b / 64 + g / 64 * 4 + r / 64 * 16).
Proof.
  split; [vm_compute; reflexivity|].
  apply (mp2photo_read_photo bmp_host (mk_disk true 100 true) "mp2photo" "in.bmp" "out.photo" demo_bmp demo_bmp_header);
    [reflexivity|apply demo_bmp_file|vm_compute; discriminate..|reflexivity|reflexivity|vm_compute; discriminate].
Defined.
Lemma mp2object_read_obj_image_witness :
  mp2photo_main true bmp_host (mk_disk true 6 true) ["mp2object"; "in.bmp"; "out"] =
    Some (0, Some [2; 0; 1; 0; 3; OBJ_CLR_TRANSP]) ∧
  ∃ out, mp2photo_main true bmp_host (mk_disk true 6 true) ["mp2object"; "in.bmp"; "out"] = Some (0, Some out) ∧
    ∀ game fname, fopen game fname = Some out → malloc game sizeof_image = true → malloc game (2 * 1) = true →
      ∃ im, read_obj_image game fname = Some (Some im) ∧ image_width im = 2 ∧ image_height im = 1 ∧
        ∀ x y, 0 ≤ x < 2 → 0 ≤ y < 1 →
          ∃ b g r, bmp_pixel demo_bmp demo_bmp_header x (1 - 1 - y) = Some (b, g, r) ∧
            aget (i_img im) (2 * y + x) =
              Some (let c := b / 64 + g / 64 * 4 + r / 64 * 16 in if c =? 0x3C then OBJ_CLR_TRANSP else c).
Proof.
  split; [vm_compute; reflexivity|].
  apply (mp2object_read_obj_image bmp_host (mk_disk true 6 true) "mp2object" "in.bmp" "out" demo_bmp demo_bmp_header);
    [reflexivity|apply demo_bmp_file|vm_compute; discriminate..|reflexivity|reflexivity|vm_compute; discriminate].
Defined.
