(* ===== verification/WorldData.v ===== *)
(** * WorldData: identifiers and tables of the game world ([mp2/world.c], first part)

    The enumerations of rooms, objects, accomplishment flags and swap photos,
    and the three tables [room_data], [obj_data] and [swap_data] from which
    [build_world] makes the world. *)
From S2P Require Import Prelude.

(** ** Identifiers *)
(** *** Rooms *)
Definition R_NONE : Z := (-1).
Definition R_INVENTORY : Z := 0.
Definition R_IN_391LAB : Z := 1.
Definition R_BY_391LAB : Z := 2.
Definition R_IN_IEEE : Z := 3.
Definition R_BY_IEEE : Z := 4.
Definition R_IN_395LAB : Z := 5.
Definition R_BY_395LAB : Z := 6.
Definition R_EVT_STAIR : Z := 7.
Definition R_IN_CLEANR : Z := 8.
Definition R_BY_CLEANR : Z := 9.
Definition R_EVRT_VEND : Z := 10.
Definition R_ALMAMATER : Z := 11.
Definition R_IN_COCOMR : Z := 12.
Definition R_BY_COCOMR : Z := 13.
Definition R_BY_ZAS : Z := 14.
Definition R_EAST_EVRT : Z := 15.
Definition R_EVRT_BSMT : Z := 16.
Definition R_WEST_BONE : Z := 17.
Definition R_CIRCLE_N : Z := 18.
Definition R_CIRCLE_SW : Z := 19.
Definition R_EAST_BONE : Z := 20.
Definition R_BARDEEN : Z := 21.
Definition R_LIB_BACK : Z := 22.
Definition R_RESERVE : Z := 23.
Definition R_TALBOT_NW : Z := 24.
Definition R_TALBOT_SW : Z := 25.
Definition R_TALBOT : Z := 26.
Definition R_SPRINGFLD : Z := 27.
Definition R_CARIBOU : Z := 28.
Definition R_KENNEY : Z := 29.
Definition R_DCL : Z := 30.
Definition R_LIB_FRONT : Z := 31.
Definition R_KENNEY_E : Z := 32.
Definition R_NEWMARK : Z := 33.
Definition R_MNTL_NW : Z := 34.
Definition R_MNTL_SW : Z := 35.
Definition R_MNTLLOBBY : Z := 36.
Definition R_MNTL_LAB1 : Z := 37.
Definition R_MNTL_LAB2 : Z := 38.
Definition R_MNTL_LAB3 : Z := 39.
Definition R_CSL_VIEW : Z := 40.
Definition R_CSL_DOOR : Z := 41.
Definition R_CSL_LOBBY : Z := 42.
Definition R_CSL_UPPER : Z := 43.
Definition R_CSLLOUNGE : Z := 44.
Definition R_BECK_LOT : Z := 45.
Definition R_BECKMAN : Z := 46.
Definition R_BECK_DOOR : Z := 47.
Definition R_BECKLOBBY : Z := 48.
Definition R_BECK_MRI : Z := 49.
Definition R_GARAGE : Z := 50.
Definition R_CAR_SITE : Z := 51.
Definition R_ALLERTON : Z := 52.
Definition R_FU_DOGS : Z := 53.
Definition R_STATUE : Z := 54.
Definition R_SUNSINGER : Z := 55.
Definition R_WILLARD : Z := 56.
Definition R_WILL_SIDE : Z := 57.
Definition R_REM_PLANE : Z := 58.
Definition R_COCKPIT : Z := 59.
Definition R_OVER_WILL : Z := 60.
Definition R_AIR_RIO : Z := 61.
Definition R_REM_ICE : Z := 62.
Definition R_REM_LAB : Z := 63.
Definition N_ROOMS : Z := 64.
(** *** Objects *)
Definition O_NONE : Z := (-1).
Definition O_BOARD : Z := 0.
Definition O_JETPACK : Z := 1.
Definition O_TUX : Z := 2.
Definition O_MP2 : Z := 3.
Definition O_BOOK_C : Z := 4.
Definition O_BOOK_WODE : Z := 5.
Definition O_GPS_BAD : Z := 6.
Definition O_GPS_GOOD : Z := 7.
Definition O_GPS_SPEC : Z := 8.
Definition O_BUNNYSUIT : Z := 9.
Definition O_BATT_EMPTY : Z := 10.
Definition O_BATT_FULL : Z := 11.
Definition O_BATT_CAR : Z := 12.
Definition O_MTN_DEW : Z := 13.
Definition O_FISH : Z := 14.
Definition O_ICARD : Z := 15.
Definition O_CAR_KEY : Z := 16.
Definition O_ROBOT_DEAD : Z := 17.
Definition O_ROBOT_LIVE : Z := 18.
Definition O_MIMO_CARD : Z := 19.
Definition N_OBJECTS : Z := 20.
(** *** Flags *)
Definition FLAG_HAS_EATEN : Z := 0.
Definition FLAG_WEARING_SUIT : Z := 1.
Definition FLAG_CAR_OPEN : Z := 2.
Definition FLAG_CAR_FIXED : Z := 3.
Definition FLAG_LURED_TUX : Z := 4.
Definition NUM_FLAGS : Z := 5.
(** *** Photo swaps *)
Definition SWAP_CIRCLE : Z := 0.
Definition SWAP_CAR : Z := 1.
Definition N_SWAPS : Z := 2.

(** ** The room table *)
Record room_data_t := mk_room_data {
  rd_id : Z; rd_name : string; rd_filename : string;
  rd_left : Z; rd_enter : Z; rd_right : Z;
}.
Definition room_data : list room_data_t := [
  mk_room_data R_INVENTORY "Inventory"
    "images/backpack.photo" R_NONE R_NONE R_NONE;
  mk_room_data R_IN_391LAB "391 Lab"
    "images/391lab.photo" R_NONE R_BY_391LAB R_NONE;
  mk_room_data R_BY_391LAB "Outside of 391"
    "images/outside391.photo" R_BY_ZAS R_IN_391LAB R_BY_IEEE;
  mk_room_data R_IN_IEEE "IEEE Office"
    "images/ieee.photo" R_NONE R_BY_IEEE R_NONE;
  mk_room_data R_BY_IEEE "Outside IEEE"
    "images/byieee.photo" R_BY_391LAB R_IN_IEEE R_BY_395LAB;
  mk_room_data R_IN_395LAB "395 Lab"
    "images/395lab.photo" R_NONE R_BY_395LAB R_NONE;
  mk_room_data R_BY_395LAB "Outside of 395"
    "images/outside395.photo" R_BY_IEEE R_NONE R_EVT_STAIR;
  mk_room_data R_EVT_STAIR "Everitt Stairs"
    "images/evtstair.photo" R_BY_395LAB R_EAST_EVRT R_BY_CLEANR;
  mk_room_data R_IN_CLEANR "In Cleanroom"
    "images/cleanr.photo" R_NONE R_BY_CLEANR R_NONE;
  mk_room_data R_BY_CLEANR "By the Cleanroom"
    "images/outclean.photo" R_EVT_STAIR R_NONE R_EVRT_VEND;
  mk_room_data R_EVRT_VEND "Vending Machine"
    "images/vend.photo" R_BY_CLEANR R_EVRT_BSMT R_NONE;
  mk_room_data R_ALMAMATER "Alma Mater"
    "images/almamater.photo" R_EAST_EVRT R_EAST_EVRT R_BY_COCOMR;
  mk_room_data R_IN_COCOMR "Cocomero"
    "images/incoco.photo" R_NONE R_BY_COCOMR R_NONE;
  mk_room_data R_BY_COCOMR "Near Cocomero"
    "images/bycoco.photo" R_ALMAMATER R_IN_COCOMR R_BY_ZAS;
  mk_room_data R_BY_ZAS "The Ruins"
    "images/ruins.photo" R_BY_COCOMR R_NONE R_NONE;
  mk_room_data R_EAST_EVRT "East of Everitt"
    "images/eeast.photo" R_ALMAMATER R_EVT_STAIR R_EVRT_BSMT;
  mk_room_data R_EVRT_BSMT "Basement Entry"
    "images/basement.photo" R_EAST_EVRT R_EVRT_VEND R_CIRCLE_SW;
  mk_room_data R_WEST_BONE "Boneyard Creek"
    "images/bonew.photo" R_CIRCLE_SW R_NONE R_CIRCLE_N;
  mk_room_data R_CIRCLE_N "Boneyard Bridge"
    "images/circlen1.photo" R_WEST_BONE R_TALBOT_NW R_EAST_BONE;
  mk_room_data R_CIRCLE_SW "Boneyard Bridge"
    "images/circlesw.photo" R_EAST_BONE R_EVRT_BSMT R_CIRCLE_N;
  mk_room_data R_EAST_BONE "Boneyard Creek"
    "images/bonee.photo" R_CIRCLE_N R_NONE R_CIRCLE_SW;
  mk_room_data R_BARDEEN "Bardeen Quad"
    "images/bardeen.photo" R_LIB_BACK R_EAST_BONE R_TALBOT_SW;
  mk_room_data R_LIB_BACK "Grainger Library"
    "images/graingerback.photo" R_DCL R_RESERVE R_BARDEEN;
  mk_room_data R_RESERVE "Grainger Reserves"
    "images/reserve.photo" R_NONE R_LIB_BACK R_LIB_FRONT;
  mk_room_data R_TALBOT_NW "Talbot Lab"
    "images/talbotnw.photo" R_CIRCLE_SW R_TALBOT R_TALBOT_SW;
  mk_room_data R_TALBOT_SW "Talbot Lab"
    "images/talbotsw.photo" R_TALBOT_NW R_TALBOT R_SPRINGFLD;
  mk_room_data R_TALBOT "Talbot Lab"
    "images/talbot.photo" R_NONE R_TALBOT_NW R_NONE;
  mk_room_data R_SPRINGFLD "Springfield Avenue"
    "images/springfield.photo" R_TALBOT_SW R_CARIBOU R_KENNEY;
  mk_room_data R_CARIBOU "Caribou"
    "images/caribou.photo" R_NONE R_SPRINGFLD R_NONE;
  mk_room_data R_KENNEY "Kenney Gym"
    "images/kenney.photo" R_SPRINGFLD R_NONE R_DCL;
  mk_room_data R_DCL "DCL"
    "images/dcl.photo" R_KENNEY R_KENNEY_E R_LIB_FRONT;
  mk_room_data R_LIB_FRONT "Grainger Library"
    "images/graingerfront.photo" R_DCL R_RESERVE R_TALBOT_SW;
  mk_room_data R_KENNEY_E "East of Kenney"
    "images/kenneye.photo" R_DCL R_DCL R_NEWMARK;
  mk_room_data R_NEWMARK "Newmark Lab"
    "images/newmark.photo" R_MNTL_NW R_NONE R_KENNEY_E;
  mk_room_data R_MNTL_NW "MNTL"
    "images/mntlnw.photo" R_NEWMARK R_MNTLLOBBY R_CSL_VIEW;
  mk_room_data R_MNTL_SW "MNTL"
    "images/mntlsw.photo" R_MNTL_NW R_MNTLLOBBY R_BECKMAN;
  mk_room_data R_MNTLLOBBY "Lobby of MNTL"
    "images/mntllobby.photo" R_MNTL_LAB1 R_MNTL_SW R_MNTL_LAB2;
  mk_room_data R_MNTL_LAB1 "Kevin's Lab in MNTL"
    "images/mntllab1.photo" R_NONE R_NONE R_MNTLLOBBY;
  mk_room_data R_MNTL_LAB2 "MNTL Laser Lab"
    "images/mntllab2.photo" R_MNTLLOBBY R_MNTL_LAB3 R_NONE;
  mk_room_data R_MNTL_LAB3 "MNTL Laser Lab"
    "images/mntllab3.photo" R_NONE R_MNTL_LAB2 R_NONE;
  mk_room_data R_CSL_VIEW "CSL"
    "images/csl.photo" R_BECK_LOT R_CSL_DOOR R_MNTL_NW;
  mk_room_data R_CSL_DOOR "CSL Main Entrance"
    "images/csldoor.photo" R_BECK_LOT R_NONE R_MNTL_NW;
  mk_room_data R_CSL_LOBBY "CSL Lobby"
    "images/csllobby.photo" R_CSL_UPPER R_CSL_DOOR R_NONE;
  mk_room_data R_CSL_UPPER "Upper Floor of CSL"
    "images/cslupper.photo" R_NONE R_CSLLOUNGE R_CSL_LOBBY;
  mk_room_data R_CSLLOUNGE "CSL Lounge"
    "images/csllounge.photo" R_NONE R_CSL_UPPER R_NONE;
  mk_room_data R_BECK_LOT "Beckman Circle Lot"
    "images/becklot.photo" R_BECKMAN R_GARAGE R_CSL_VIEW;
  mk_room_data R_BECKMAN "Beckman Institute"
    "images/beckman.photo" R_MNTL_SW R_BECK_DOOR R_BECK_LOT;
  mk_room_data R_BECK_DOOR "Beckman Institute"
    "images/beckdoor.photo" R_MNTL_SW R_NONE R_BECK_LOT;
  mk_room_data R_BECKLOBBY "Beckman Lobby"
    "images/becklobby.photo" R_NONE R_BECK_MRI R_BECK_DOOR;
  mk_room_data R_BECK_MRI "An MRI Lab"
    "images/beckmri.photo" R_NONE R_BECKLOBBY R_NONE;
  mk_room_data R_GARAGE "Campus Parking"
    "images/garage.photo" R_BECK_LOT R_CAR_SITE R_NONE;
  mk_room_data R_CAR_SITE "Use Someone's Car?"
    "images/carclosed.photo" R_NONE R_GARAGE R_NONE;
  mk_room_data R_ALLERTON "Allerton Mansion"
    "images/allerton.photo" R_FU_DOGS R_NONE R_SUNSINGER;
  mk_room_data R_FU_DOGS "Fu Dog Statues"
    "images/fudogs.photo" R_NONE R_STATUE R_ALLERTON;
  mk_room_data R_STATUE "A Tall Statue"
    "images/statue.photo" R_NONE R_FU_DOGS R_NONE;
  mk_room_data R_SUNSINGER "The Sun Singer"
    "images/sunsinger.photo" R_ALLERTON R_NONE R_NONE;
  mk_room_data R_WILLARD "Willard Airport"
    "images/willard.photo" R_NONE R_WILL_SIDE R_NONE;
  mk_room_data R_WILL_SIDE "Willard Tower"
    "images/willardside.photo" R_REM_PLANE R_NONE R_WILLARD;
  mk_room_data R_REM_PLANE "Sensor-Laden Plane"
    "images/rsenseplane.photo" R_COCKPIT R_NONE R_WILL_SIDE;
  mk_room_data R_COCKPIT "Plane Cockpit"
    "images/cockpit.photo" R_NONE R_NONE R_REM_PLANE;
  mk_room_data R_OVER_WILL "Flying over Willard"
    "images/overwillard.photo" R_NONE R_COCKPIT R_AIR_RIO;
  mk_room_data R_AIR_RIO "Rio de Janeiro"
    "images/riofromair.photo" R_OVER_WILL R_NONE R_REM_ICE;
  mk_room_data R_REM_ICE "Ice Fields"
    "images/rsenseice.photo" R_AIR_RIO R_REM_LAB R_NONE;
  mk_room_data R_REM_LAB "Remote Sensing Lab"
    "images/rsenselab.photo" R_NONE R_REM_ICE R_NONE].

(** ** The object table *)
Record obj_data_t := mk_obj_data {
  od_id : Z; od_name : string; od_filename : string;
  od_room : Z; od_x : Z; od_y : Z;
}.
Definition obj_data : list obj_data_t := [
  mk_obj_data O_BOARD "board" "images/board.obj" R_IN_IEEE (-1) (-1);
  mk_obj_data O_JETPACK "jetpack" "images/jetpack.obj" R_TALBOT (-1) (-1);
  mk_obj_data O_TUX "tux" "images/tux.obj" R_REM_LAB 250 100;
  mk_obj_data O_MP2 "mp2" "images/mp2.obj" R_CSLLOUNGE (-1) (-1);
  mk_obj_data O_BOOK_C "book" "images/book.obj" R_NONE (-1) (-1);
  mk_obj_data O_BOOK_WODE "book" "images/book2.obj" R_NONE (-1) (-1);
  mk_obj_data O_GPS_BAD "gps" "images/gpsbad.obj" R_TALBOT (-1) (-1);
  mk_obj_data O_GPS_GOOD "gps" "images/gpsgood.obj" R_NONE (-1) (-1);
  mk_obj_data O_GPS_SPEC "spec" "images/gpsspec.obj" R_CSL_UPPER (-1) (-1);
  mk_obj_data O_BUNNYSUIT "bunnysuit" "images/bunnysuit.obj" R_ALMAMATER 230 250;
  mk_obj_data O_BATT_EMPTY "battery" "images/battery.obj" R_NONE (-1) (-1);
  mk_obj_data O_BATT_FULL "battery" "images/battery.obj" R_NONE (-1) (-1);
  mk_obj_data O_BATT_CAR "battery" "images/batteryincar.obj" R_NONE (-1) (-1);
  mk_obj_data O_MTN_DEW "dew" "images/dew.obj" R_NONE (-1) (-1);
  mk_obj_data O_FISH "fish" "images/fish.obj" R_EAST_BONE 80 260;
  mk_obj_data O_ICARD "Icard" "images/icard.obj" R_BARDEEN (-1) (-1);
  mk_obj_data O_CAR_KEY "key" "images/key.obj" R_CARIBOU (-1) (-1);
  mk_obj_data O_ROBOT_DEAD "robot" "images/robot.obj" R_MNTL_LAB3 (-1) (-1);
  mk_obj_data O_ROBOT_LIVE "robot" "images/robot.obj" R_NONE (-1) (-1);
  mk_obj_data O_MIMO_CARD "mimo" "images/mimo.obj" R_STATUE (-1) (-1)].

(** ** The photo swap table *)
Record swap_data_t := mk_swap_data { sd_id : Z; sd_filename : string }.
Definition swap_data : list swap_data_t := [
  mk_swap_data SWAP_CIRCLE "images/circlen2.photo";
  mk_swap_data SWAP_CAR "images/caropen.photo"].
