(* ===== verification/World.v ===== *)
(** * World: the game world of the adventure ([mp2/world.c])

    Rooms and objects are the two static arrays of the file; a [room_t*] or
    an [object_t*] is an index into its array, [None] being [NULL].  The
    contents of a room are a linked list through the [next] members, as in C.
    The cell [*rptr] that every action receives is [game_info.where] of
    [adventure.c]; it is the member [where_] of the state.

    [None] as the outcome of a computation is undefined behaviour: a null
    pointer followed, an index outside an array, or a list of more objects than
    the world has. *)
From S2P Require Import Prelude Photo WorldData.

(** ** Data *)
Record room_t := mk_room {
  r_name : option string;
  r_view : option photo_t;
  r_contents : option Z;
  r_left : option Z; r_enter : option Z; r_right : option Z;
}.
#[export] Instance room_settable : Settable room_t := λ r,
  mk_room (r_name r) (r_view r) (r_contents r) (r_left r) (r_enter r) (r_right r).

Record object_t := mk_object {
  o_name : option string;
  o_next : option Z;
  o_loc : option Z;
  o_x : Z; o_y : Z;                        (* uint16_t *)
  o_img : option image_t;
}.
#[export] Instance object_settable : Settable object_t := λ o,
  mk_object (o_name o) (o_next o) (o_loc o) (o_x o) (o_y o) (o_img o).

Record world := mk_world {
  room : list room_t;
  object : list object_t;
  player_flags : list Z;                   (* uint32_t *)
  swap_photo : list (option photo_t);
  where_ : option Z;                       (* game_info.where, the cell [*rptr] *)
  status_msg : string;
  rng : nat → Z;                           (* what the k-th call of [rand] returns *)
  rands : nat;                             (* calls of [rand] so far *)
}.
#[export] Instance world_settable : Settable world := λ w,
  mk_world (room w) (object w) (player_flags w) (swap_photo w) (where_ w) (status_msg w)
    (rng w) (rands w).

Abbreviation W := (M world).

(** ** Access to the arrays *)
Definition get_room (r : Z) : W room_t := rs ← gets room; lift (aget rs r).
Definition set_room (r : Z) (f : room_t → room_t) : W () :=
  rs ← gets room;
  x ← lift (aget rs r);
  rs ← lift (aset rs r (f x));
  modify (λ w, w <| room := rs |>).
Definition get_object (o : Z) : W object_t := os ← gets object; lift (aget os o).
Definition set_object (o : Z) (f : object_t → object_t) : W () :=
  os ← gets object;
  x ← lift (aget os o);
  os ← lift (aset os o (f x));
  modify (λ w, w <| object := os |>).

(** [object[o].loc] *)
Definition loc_of (o : Z) : W (option Z) := ob ← get_object o; mret (o_loc ob).

(** ** The C library *)
Definition rand : W Z := λ w, Some (rng w (rands w), w <| rands ::= S |>).

Definition tolower (c : Ascii.ascii) : Z :=
  let n := Z.of_N (Ascii.N_of_ascii c) in
  if (65 <=? n) && (n <=? 90) then n + 32 else n.
(** The difference at the first place where the strings differ but for case *)
Fixpoint strcasecmp (s1 s2 : string) : Z :=
  match s1, s2 with
  | EmptyString, EmptyString => 0
  | EmptyString, String c _ => - tolower c
  | String c _, EmptyString => tolower c
  | String c1 s1, String c2 s2 =>
      if tolower c1 =? tolower c2 then strcasecmp s1 s2 else tolower c1 - tolower c2
  end.
Definition same_word (s1 s2 : string) : bool := 0 =? strcasecmp s1 s2.

(** ** [show_status] of [adventure.c]

    The message is cut at 40 characters; the mutex and the condition
    variable around the copy are in [Adventure]. *)
Definition STATUS_MSG_LEN : nat := 40.
Definition show_status (s : string) : W () :=
  modify (λ w, w <| status_msg := String.substring 0 STATUS_MSG_LEN s |>).

(** ** Functions local to [world.c] *)
Definition do_photo_swap (r : option Z) (which : Z) : W () :=
  r ← lift r;
  rm ← get_room r;
  sw ← gets swap_photo;
  other ← lift (aget sw which);
  set_room r (λ x, x <| r_view := other |>);;
  sw' ← lift (aset sw which (r_view rm));
  modify (λ w, w <| swap_photo := sw' |>).

(** The loop over a room's list; [n] bounds the number of objects in it. *)
Fixpoint find_from (n : nat) (obj : option Z) (arg : string) : W (option Z) :=
  match obj with
  | None => mret None
  | Some o =>
      match n with
      | O => ub
      | S n =>
          ob ← get_object o;
          name ← lift (o_name ob);
          if same_word arg name then mret (Some o) else find_from n (o_next ob) arg
      end
  end.
Definition find_in_room (r : option Z) (arg : string) : W (option Z) :=
  r ← lift r;
  rm ← get_room r;
  find_from (Z.to_nat N_OBJECTS) (r_contents rm) arg.

(** A pointer to a pointer to an object: the head of a room's list or the
    [next] member of an object *)
Inductive link := AtRoom (r : Z) | AtObject (o : Z).
Definition read_link (l : link) : W (option Z) :=
  match l with
  | AtRoom r => rm ← get_room r; mret (r_contents rm)
  | AtObject o => ob ← get_object o; mret (o_next ob)
  end.
Definition write_link (l : link) (p : option Z) : W () :=
  match l with
  | AtRoom r => set_room r (λ x, x <| r_contents := p |>)
  | AtObject o => set_object o (λ x, x <| o_next := p |>)
  end.

(** The loop that looks for the predecessor of [o] and unlinks [o] *)
Fixpoint unlink (n : nat) (find : link) (o : Z) : W () :=
  p ← read_link find;
  match p with
  | None => skip
  | Some q =>
      if o =? q then
        ob ← get_object o;
        write_link find (o_next ob)
      else
        match n with O => ub | S n => unlink n (AtObject q) o end
  end.

Definition remove_object (o : Z) : W () :=
  l ← loc_of o;
  match l with
  | None => skip
  | Some r =>
      unlink (Z.to_nat N_OBJECTS) (AtRoom r) o;;
      set_object o (λ x, x <| o_loc := None |>)
  end.

Definition insert_object_at (o : Z) (r : option Z) (x y : Z) : W () :=
  remove_object o;;
  set_object o (λ ob, ob <| o_x := u16 x |> <| o_y := u16 y |>);;
  set_object o (λ ob, ob <| o_loc := r |>);;
  r ← lift r;
  rm ← get_room r;
  set_object o (λ ob, ob <| o_next := r_contents rm |>);;
  set_room r (λ rm, rm <| r_contents := Some o |>).

(** A random number below [range], or 0 without a call of [rand] *)
Definition rand_below (range : Z) : W Z :=
  if 0 >=? range then mret 0 else k ← rand; mret (Z.rem k range).

Definition insert_object (o : Z) (r : option Z) : W () :=
  ob ← get_object o;
  rm ← lift r ≫= get_room;
  view ← lift (r_view rm);
  img ← lift (o_img ob);
  xpos ← rand_below (i32 (photo_width view - image_width img));
  let space := photo_height view in
  let img_ht := image_height img in
  let range := Z.quot space 4 - img_ht in
  ypos ← (if 0 >=? range then rand_below (space - img_ht)
          else k ← rand; mret (Z.rem k range + Z.quot (3 * space) 4));
  insert_object_at o r xpos ypos.

(** The places tried for a carried object, row by row:
    [y = 10, 60, 110, 160] and [x = 10, 110, 210] *)
Definition inventory_grid : list (Z * Z) :=
  y ← [10; 60; 110; 160]; x ← [10; 110; 210]; [(x, y)].

(** The loop over [conf]: does an object of the list stand at [(x, y)]? *)
Fixpoint conflict_from (n : nat) (conf : option Z) (x y : Z) : W bool :=
  match conf with
  | None => mret false
  | Some c =>
      match n with
      | O => ub
      | S n =>
          ob ← get_object c;
          if (x =? o_x ob) && (y =? o_y ob) then mret true
          else conflict_from n (o_next ob) x y
      end
  end.

Fixpoint try_cells (cells : list (Z * Z)) (obj : Z) : W () :=
  match cells with
  | [] => insert_object obj (Some R_INVENTORY)
  | (x, y) :: cells =>
      rm ← get_room R_INVENTORY;
      taken ← conflict_from (Z.to_nat N_OBJECTS) (r_contents rm) x y;
      if (taken : bool) then try_cells cells obj
      else insert_object_at obj (Some R_INVENTORY) x y
  end.
Definition move_object_to_inventory (obj : Z) : W () := try_cells inventory_grid obj.

(** Flags are bit vectors of 32-bit words. *)
Definition player_flag_is_set (fnum : Z) : W bool :=
  fs ← gets player_flags;
  word ← lift (aget fs (Z.quot fnum 32));
  mret (negb (Z.land word (Z.shiftl 1 (Z.rem fnum 32)) =? 0)).
Definition player_set_flag (fnum : Z) : W () :=
  fs ← gets player_flags;
  word ← lift (aget fs (Z.quot fnum 32));
  fs ← lift (aset fs (Z.quot fnum 32) (u32 (Z.lor word (Z.shiftl 1 (Z.rem fnum 32)))));
  modify (λ w, w <| player_flags := fs |>).

Definition obj_special_get (r : option Z) (arg : string) : W (option Z) :=
  book ← (if decide (Some R_RESERVE = r) then
            if same_word "book" arg then
              eaten ← player_flag_is_set FLAG_HAS_EATEN;
              if (eaten : bool) then
                l ← loc_of O_BOOK_C;
                match l with
                | None => show_status "You check out the C book.";; mret (Some O_BOOK_C)
                | Some _ => mret None
                end
              else
                l ← loc_of O_BOOK_WODE;
                match l with
                | None => show_status "Here's a nice Wodehouse collection.";;
                          mret (Some O_BOOK_WODE)
                | Some _ => mret None
                end
            else mret None
          else mret None);
  match (book : option Z) with
  | Some o => mret (Some o)
  | None =>
      if decide (Some R_CAR_SITE = r) then
        l ← loc_of O_BATT_CAR;
        if decide (l = r) then remove_object O_BATT_CAR;; mret (Some O_BATT_EMPTY)
        else mret None
      else mret None
  end.

(** ** Structure access *)
Definition obj_get_x (obj : Z) : W Z := ob ← get_object obj; mret (o_x ob).
Definition obj_get_y (obj : Z) : W Z := ob ← get_object obj; mret (o_y ob).
Definition obj_image (obj : Z) : W (option image_t) := ob ← get_object obj; mret (o_img ob).
Definition obj_next (obj : Z) : W (option Z) := ob ← get_object obj; mret (o_next ob).
Definition room_contents_iterate (r : Z) : W (option Z) := rm ← get_room r; mret (r_contents rm).
Definition room_name (r : Z) : W (option string) := rm ← get_room r; mret (r_name rm).
Definition room_photo (r : Z) : W (option photo_t) := rm ← get_room r; mret (r_view rm).
Definition room_photo_height (r : Z) : W Z :=
  rm ← get_room r; view ← lift (r_view rm); mret (photo_height view).
Definition room_photo_width (r : Z) : W Z :=
  rm ← get_room r; view ← lift (r_view rm); mret (photo_width view).

(** ** [build_world]

    Each of its loops stops at the first entry that fails; the messages on
    [stderr] are not modelled. *)
Definition room_ptr (id : Z) : option Z := if R_NONE =? id then None else Some id.

Definition build_room (h : host) (d : room_data_t) : W bool :=
  let which := rd_id d in
  if (0 >? which) || (N_ROOMS <=? which) then mret false else
  rm ← get_room which;
  match r_name rm with
  | Some _ => mret false
  | None =>
      set_room which (λ r, r <| r_name := Some (rd_name d) |>);;
      p ← lift (read_photo h (rd_filename d));
      set_room which (λ r, r <| r_view := p |>);;
      match p with
      | None => mret false
      | Some _ =>
          set_room which (λ r, r <| r_contents := None |>
            <| r_left := room_ptr (rd_left d) |>
            <| r_enter := room_ptr (rd_enter d) |>
            <| r_right := room_ptr (rd_right d) |>);;
          mret true
      end
  end.

Definition build_object (h : host) (d : obj_data_t) : W bool :=
  let which := od_id d in
  if (0 >? which) || (N_OBJECTS <=? which) then mret false else
  ob ← get_object which;
  match o_name ob with
  | Some _ => mret false
  | None =>
      set_object which (λ o, o <| o_name := Some (od_name d) |>);;
      im ← lift (read_obj_image h (od_filename d));
      set_object which (λ o, o <| o_img := im |>);;
      match im with
      | None => mret false
      | Some _ =>
          set_object which (λ o, o <| o_next := None |> <| o_loc := None |>
            <| o_x := 0 |> <| o_y := 0 |>);;
          (if negb (R_NONE =? od_room d) then
             if negb (-1 =? od_x d) then
               insert_object_at which (Some (od_room d)) (od_x d) (od_y d)
             else insert_object which (Some (od_room d))
           else skip);;
          mret true
      end
  end.

Definition build_swap (h : host) (d : swap_data_t) : W bool :=
  let which := sd_id d in
  if (0 >? which) || (N_SWAPS <=? which) then mret false else
  sw ← gets swap_photo;
  old ← lift (aget sw which);
  match old with
  | Some _ => mret false
  | None =>
      p ← lift (read_photo h (sd_filename d));
      sw ← lift (aset sw which p);
      modify (λ w, w <| swap_photo := sw |>);;
      mret (match p with None => false | Some _ => true end)
  end.

Fixpoint all_ok {A} (f : A → W bool) (l : list A) : W bool :=
  match l with
  | [] => mret true
  | x :: l => ok ← f x; if (ok : bool) then all_ok f l else mret false
  end.

Definition build_world (h : host) : W bool :=
  modify (λ w, w <| player_flags := replicate (Z.to_nat (Z.quot (NUM_FLAGS + 31) 32)) 0 |>);;
  modify (λ w, w <| room :=
    replicate (Z.to_nat N_ROOMS) (mk_room None None None None None None) |>);;
  ok ← all_ok (build_room h) room_data;
  if negb ok then mret false else
  modify (λ w, w <| object :=
    replicate (Z.to_nat N_OBJECTS) (mk_object None None None 0 0 None) |>);;
  ok ← all_ok (build_object h) obj_data;
  if negb ok then mret false else
  modify (λ w, w <| swap_photo := replicate (Z.to_nat N_SWAPS) None |>);;
  ok ← all_ok (build_swap h) swap_data;
  mret ok.

Definition start_in_room : Z := R_EAST_EVRT.

(** ** Moving

    [r =R= R] is the C test [&room[R] == r]. *)
Definition is_room (r : option Z) (R : Z) : bool := bool_decide (r = Some R).
Notation "r =R= R" := (is_room r R) (at level 70).

Definition player_has_board : W bool := l ← loc_of 0; mret (l =R= R_INVENTORY).
Definition player_has_jetpack : W bool := l ← loc_of 1; mret (l =R= R_INVENTORY).

Inductive tc_action_t := TC_ALLOW_EDIT | TC_DISCARD_TEXT | TC_REDRAW_ROOM | TC_CHANGE_ROOM.
#[export] Instance tc_action_eq_dec : EqDecision tc_action_t.
Proof. solve_decision. Defined.

Definition set_where (p : option Z) : W () := modify (λ w, w <| where_ := p |>).
Definition say (msg : string) (a : tc_action_t) : W tc_action_t := show_status msg;; mret a.

(** [*rptr = p; ... return TC_CHANGE_ROOM], with the random picture of the
    Boneyard Circle *)
Definition move_into (p : Z) : W tc_action_t :=
  set_where (Some p);;
  (if Some p =R= R_CIRCLE_N then
     k ← rand;
     if 0 =? Z.rem k 2 then do_photo_swap (Some p) SWAP_CIRCLE else skip
   else skip);;
  mret TC_CHANGE_ROOM.

Definition cant_go (r : option Z) : W tc_action_t :=
  if r =R= 0 then say "Push 'home' or type 'inventory'." TC_ALLOW_EDIT
  else say "You can't go that way." TC_ALLOW_EDIT.

Definition try_to_move_left : W tc_action_t :=
  r ← gets where_;
  rm ← lift r ≫= get_room;
  match r_left rm with
  | Some p => move_into p
  | None => cant_go r
  end.

Definition try_to_move_right : W tc_action_t :=
  r ← gets where_;
  rm ← lift r ≫= get_room;
  match r_right rm with
  | Some p => move_into p
  | None => cant_go r
  end.

(** What Kevin says, between double quotes *)
Definition quoted (s : string) : string :=
  let q := String (Ascii.ascii_of_nat 34) EmptyString in q +:+ s +:+ q.
Definition advice : list string := [
  "Kevin says, " +:+ quoted "Andres' board is FAST!";
  "Kevin asks, " +:+ quoted "Got a jetpack?";
  "Kevin: " +:+ quoted "You can flash hardware in 395.";
  "Kevin suggests, " +:+ quoted "Always carry a fish.";
  "Kevin asks, " +:+ quoted "Have you done your MP2?";
  "Kevin says, " +:+ quoted "Cocomero sells yogurt.";
  "Kevin asks, " +:+ quoted "Maybe you need a Dew?";
  "Kevin: " +:+ quoted "A magnet can charge a battery."].

Definition carried (o : Z) : W bool := l ← loc_of o; mret (l =R= R_INVENTORY).
(** [object[o].loc == &room[R_INVENTORY] || object[o].loc == r] *)
Definition at_hand (o : Z) (r : option Z) : W bool :=
  l ← loc_of o; mret ((l =R= R_INVENTORY) || bool_decide (l = r)).

(** Swipe the Icard at a door. *)
Definition swipe_icard (p : Z) : W tc_action_t :=
  card ← carried O_ICARD;
  if (card : bool) then
    show_status "You swiped your Icard.";;
    set_where (Some p);;
    mret TC_CHANGE_ROOM
  else say "You need a valid Icard." TC_ALLOW_EDIT.

Definition try_to_enter : W tc_action_t :=
  r ← gets where_;
  rm ← lift r ≫= get_room;
  match r_enter rm with
  | Some p => move_into p
  | None =>
      if r =R= R_BY_CLEANR then
        suit ← player_flag_is_set FLAG_WEARING_SUIT;
        if (suit : bool) then set_where (Some R_IN_CLEANR);; mret TC_CHANGE_ROOM
        else say "You're not wearing a bunnysuit!" TC_ALLOW_EDIT
      else if r =R= R_BY_395LAB then swipe_icard R_IN_395LAB
      else if r =R= R_CSL_DOOR then swipe_icard R_CSL_LOBBY
      else if r =R= R_BECK_DOOR then
        live ← carried O_ROBOT_LIVE;
        if (live : bool) then
          show_status "The robot hand picked the lock!";;
          set_where (Some R_BECKLOBBY);;
          mret TC_CHANGE_ROOM
        else
          dead ← carried O_ROBOT_DEAD;
          if (dead : bool) then say "Flash the robot's code again." TC_ALLOW_EDIT
          else say "Complex lock!  Find a nanotech robot." TC_ALLOW_EDIT
      else if r =R= R_MNTL_LAB1 then
        k ← rand;
        msg ← lift (aget advice (Z.rem k 8));
        say msg TC_ALLOW_EDIT
      else if r =R= R_COCKPIT then say "A MIMO transmitter card is missing!" TC_ALLOW_EDIT
      else say "You can't go that way." TC_ALLOW_EDIT
  end.

(** ** Typed commands *)
Definition typed_cmd_buy (arg : string) : W tc_action_t :=
  r ← gets where_;
  if same_word "dew" arg then
    if negb (r =R= R_EVRT_VEND) then say "Great idea!  But ... where?" TC_DISCARD_TEXT else
    dew ← at_hand O_MTN_DEW r;
    if (dew : bool) then say "Slow down!  One at a time..." TC_DISCARD_TEXT else
    l ← loc_of O_MTN_DEW;
    (match l with
     | Some _ => show_status "Last one get stolen?  Ok...here we go..."
     | None => show_status "You buy a Dew."
     end);;
    move_object_to_inventory O_MTN_DEW;;
    mret TC_REDRAW_ROOM
  else if same_word "yogurt" arg then
    (if negb (r =R= R_IN_COCOMR) then show_status "Cocomero doesn't deliver here."
     else
       eaten ← player_flag_is_set FLAG_HAS_EATEN;
       if (eaten : bool) then show_status "You're not hungry."
       else
         player_set_flag FLAG_HAS_EATEN;;
         show_status "So tasty and delicious!");;
    mret TC_DISCARD_TEXT
  else say "Sorry, purchasing options are limited." TC_ALLOW_EDIT.

Definition typed_cmd_charge (arg : string) : W tc_action_t :=
  r ← gets where_;
  if negb (same_word "battery" arg) then
    say "Electronic devices aren't (always) toys!" TC_ALLOW_EDIT else
  empty ← at_hand O_BATT_EMPTY r;
  full ← at_hand O_BATT_FULL r;
  if negb empty && negb full then say "What battery?" TC_DISCARD_TEXT else
  if negb (r =R= R_BECK_MRI) then say "Find a bigger magnet." TC_DISCARD_TEXT else
  if (full : bool) then say "Don't overdo it." TC_DISCARD_TEXT else
  remove_object O_BATT_EMPTY;;
  move_object_to_inventory O_BATT_FULL;;
  show_status "Wow!  That's a strong magnet!";;
  mret TC_REDRAW_ROOM.

Definition typed_cmd_do (arg : string) : W tc_action_t :=
  r ← gets where_;
  if negb (r =R= R_IN_391LAB) then say "You can't 'do' anything here." TC_ALLOW_EDIT else
  if negb (same_word "391" arg) && negb (same_word "mp2" arg) then
    say "Doing the 391 MP2 is more important!" TC_ALLOW_EDIT else
  book ← carried O_BOOK_C;
  if negb book then say "You'd better get a book from Grainger." TC_DISCARD_TEXT else
  mp2 ← carried O_MP2;
  if negb mp2 then say "Web's down.  Bring your own MP2." TC_DISCARD_TEXT else
  l ← loc_of O_TUX;
  if negb (l =R= R_IN_391LAB) then
    say "You'd have better luck if Tux were here." TC_DISCARD_TEXT else
  set_where None;;
  mret TC_CHANGE_ROOM.

Definition typed_cmd_drink (arg : string) : W tc_action_t :=
  r ← gets where_;
  if negb (same_word "dew" arg) then say "That sounds less refreshing than Dew." TC_ALLOW_EDIT else
  dew ← at_hand O_MTN_DEW r;
  if negb dew then say "Uh-oh.  Hadewcinations.  Buy one soon!" TC_DISCARD_TEXT else
  remove_object O_MTN_DEW;;
  show_status "Ahhhhhhhhhhhhhhhh...........nother?";;
  mret TC_REDRAW_ROOM.

(** The room that commands on things reach from the inventory view *)
Definition standing_room (r : option Z) : W (option Z) :=
  if r =R= R_INVENTORY then rm ← get_room R_INVENTORY; mret (r_enter rm) else mret r.

Definition typed_cmd_drop (arg : string) : W tc_action_t :=
  r ← gets where_;
  obj ← find_in_room (Some R_INVENTORY) arg;
  match obj with
  | None => say "You have no such thing." TC_ALLOW_EDIT
  | Some obj =>
      (if ((O_BATT_FULL =? obj) && (r =R= R_CAR_SITE))
          || ((O_MIMO_CARD =? obj) && (r =R= R_REM_PLANE))
       then show_status "You may want to install it instead." else skip);;
      dest ← standing_room r;
      insert_object obj dest;;
      mret TC_REDRAW_ROOM
  end.

Definition typed_cmd_fix (arg : string) : W tc_action_t :=
  r ← gets where_;
  if negb (same_word "gps" arg) then say "In the game, you're not as capable." TC_ALLOW_EDIT else
  good ← at_hand O_GPS_GOOD r;
  if (good : bool) then say "It's working fine." TC_DISCARD_TEXT else
  bad ← at_hand O_GPS_BAD r;
  if negb bad then say "Do you have a GPS?" TC_DISCARD_TEXT else
  if negb (r =R= R_IN_CLEANR) then say "You'd better go to the cleanroom." TC_DISCARD_TEXT else
  spec ← at_hand O_GPS_SPEC r;
  if negb spec then say "Maybe you'd better get a spec?" TC_DISCARD_TEXT else
  remove_object O_GPS_BAD;;
  remove_object O_GPS_SPEC;;
  move_object_to_inventory O_GPS_GOOD;;
  show_status "All done--wow, you're good!";;
  mret TC_CHANGE_ROOM.

Definition typed_cmd_flash (arg : string) : W tc_action_t :=
  r ← gets where_;
  if negb (same_word "robot" arg) then say "Don't waste your time." TC_ALLOW_EDIT else
  dead ← at_hand O_ROBOT_DEAD r;
  live ← at_hand O_ROBOT_LIVE r;
  if negb dead && negb live then say "Maybe get the robot first?" TC_DISCARD_TEXT else
  if negb (r =R= R_IN_395LAB) then
    say "With spit and a lemon?  Try the lab." TC_DISCARD_TEXT else
  if (live : bool) then say "You flash the robot's ROM again." TC_DISCARD_TEXT else
  remove_object O_ROBOT_DEAD;;
  move_object_to_inventory O_ROBOT_LIVE;;
  show_status "You flash it with a lockpicking code.";;
  mret TC_REDRAW_ROOM.

Definition typed_cmd_get (arg : string) : W tc_action_t :=
  r ← gets where_;
  src ← standing_room r;
  special ← obj_special_get src arg;
  obj ← match special with
        | Some o => mret (Some o)
        | None => find_in_room src arg
        end;
  match (obj : option Z) with
  | None => say "You see no such thing here." TC_ALLOW_EDIT
  | Some obj =>
      lured ← player_flag_is_set FLAG_LURED_TUX;
      if (O_TUX =? obj) && negb lured then
        say "Tux must choose you!  Try using a fish." TC_DISCARD_TEXT
      else
        move_object_to_inventory obj;;
        mret TC_REDRAW_ROOM
  end.

(** What is said when the car cannot be used *)
Definition car_trouble : W tc_action_t :=
  opened ← player_flag_is_set FLAG_CAR_OPEN;
  if (opened : bool) then say "The car isn't working." TC_DISCARD_TEXT
  else say "Do you want to use that car?" TC_DISCARD_TEXT.

Definition typed_cmd_go (arg : string) : W tc_action_t :=
  r ← gets where_;
  if same_word "allerton" arg then
    if r =R= R_ALLERTON then say "Kazam!  You're at Allerton!" TC_DISCARD_TEXT else
    if negb (r =R= R_WILLARD) && negb (r =R= R_CAR_SITE) then
      say "That's quite a hike." TC_DISCARD_TEXT else
    fixed ← player_flag_is_set FLAG_CAR_FIXED;
    if negb fixed then car_trouble else
    good ← carried O_GPS_GOOD;
    if negb good then
      bad ← carried O_GPS_BAD;
      if (bad : bool) then say "That's a long road with a broken GPS." TC_DISCARD_TEXT
      else say "You'll need a GPS to find that place." TC_DISCARD_TEXT
    else
      show_status "You drive to Allerton Park.";;
      set_where (Some R_ALLERTON);;
      mret TC_CHANGE_ROOM
  else if same_word "willard" arg || same_word "airport" arg then
    if r =R= R_WILLARD then say "Kazap!  You're at Willard!" TC_DISCARD_TEXT else
    if negb (r =R= R_ALLERTON) && negb (r =R= R_CAR_SITE) then
      say "That's quite a hike." TC_DISCARD_TEXT else
    fixed ← player_flag_is_set FLAG_CAR_FIXED;
    if negb fixed then car_trouble else
    show_status "You drive to Willard Airport.";;
    set_where (Some R_WILLARD);;
    mret TC_CHANGE_ROOM
  else if same_word "campus" arg then
    if r =R= R_CAR_SITE then say "Kazar!  You're on campus!" TC_DISCARD_TEXT else
    if negb (r =R= R_ALLERTON) && negb (r =R= R_WILLARD) then
      say "That's quite a hike." TC_DISCARD_TEXT else
    show_status "You drive back to campus.";;
    set_where (Some R_CAR_SITE);;
    mret TC_CHANGE_ROOM
  else say "The game map lacks certain places." TC_ALLOW_EDIT.

Definition typed_cmd_install (arg : string) : W tc_action_t :=
  r ← gets where_;
  if same_word "battery" arg then
    empty ← at_hand O_BATT_EMPTY r;
    full ← at_hand O_BATT_FULL r;
    if negb empty && negb full then say "What battery?" TC_DISCARD_TEXT else
    if negb (r =R= R_CAR_SITE) then say "Do you see the car?" TC_DISCARD_TEXT else
    if (empty : bool) then say "You want to install a dead battery?" TC_DISCARD_TEXT else
    remove_object O_BATT_FULL;;
    player_set_flag FLAG_CAR_FIXED;;
    do_photo_swap r SWAP_CAR;;
    show_status "Nice work!  Now you can use it!";;
    mret TC_CHANGE_ROOM
  else if same_word "mimo" arg || same_word "card" arg || same_word "transmitter" arg then
    card ← at_hand O_MIMO_CARD r;
    if negb card then say "Do you have one of those?" TC_DISCARD_TEXT else
    if negb (r =R= R_COCKPIT) then say "Nothing here needs that." TC_DISCARD_TEXT else
    remove_object O_MIMO_CARD;;
    set_room R_COCKPIT (λ rm, rm <| r_enter := Some R_OVER_WILL |>);;
    show_status "Ready for takeoff, captain!";;
    mret TC_REDRAW_ROOM
  else say "What are you playing at?" TC_ALLOW_EDIT.

Definition typed_cmd_inventory (arg : string) : W tc_action_t :=
  r ← gets where_;
  (if r =R= R_INVENTORY then
     rm ← get_room R_INVENTORY;
     set_where (r_enter rm)
   else
     set_room R_INVENTORY (λ rm, rm <| r_enter := r |>);;
     set_where (Some R_INVENTORY));;
  mret TC_CHANGE_ROOM.

Definition typed_cmd_sigh (arg : string) : W tc_action_t :=
  r ← gets where_;
  (if negb (r =R= R_BY_ZAS) then show_status "MP2 got you down?  Take a break!"
   else
     show_status "So sad... you lose your appetite.";;
     player_set_flag FLAG_HAS_EATEN);;
  mret TC_DISCARD_TEXT.

Definition typed_cmd_use (arg : string) : W tc_action_t :=
  r ← gets where_;
  if same_word "car" arg then
    if r =R= R_ALLERTON then say "Go to campus or Willard Airport?" TC_DISCARD_TEXT else
    if r =R= R_WILLARD then say "Go to Allerton or campus?" TC_DISCARD_TEXT else
    if negb (r =R= R_CAR_SITE) then say "You have a car?" TC_DISCARD_TEXT else
    fixed ← player_flag_is_set FLAG_CAR_FIXED;
    if (fixed : bool) then say "Go to Allerton or Willard Airport?" TC_DISCARD_TEXT else
    opened ← player_flag_is_set FLAG_CAR_OPEN;
    if (opened : bool) then say "You'll have to charge the battery." TC_DISCARD_TEXT else
    key ← carried O_CAR_KEY;
    if negb key then say "Perhaps you can find a key?" TC_DISCARD_TEXT else
    do_photo_swap r SWAP_CAR;;
    remove_object O_CAR_KEY;;
    insert_object_at O_BATT_CAR r 265 122;;
    player_set_flag FLAG_CAR_OPEN;;
    show_status "The key works, but the battery's dead.";;
    mret TC_CHANGE_ROOM
  else if same_word "fish" arg then
    fish ← at_hand O_FISH r;
    if negb fish then say "Using the invisible fish...no effect!" TC_DISCARD_TEXT else
    if negb (r =R= R_REM_LAB) then say "I don't think that's sanitary." TC_DISCARD_TEXT else
    remove_object O_FISH;;
    move_object_to_inventory O_TUX;;
    player_set_flag FLAG_LURED_TUX;;
    show_status "Tux likes you!";;
    mret TC_REDRAW_ROOM
  else say "You want to use what!?" TC_ALLOW_EDIT.

Definition typed_cmd_wear (arg : string) : W tc_action_t :=
  r ← gets where_;
  if negb (same_word "bunnysuit" arg) then
    say "Big Brother forbids fashion statements." TC_ALLOW_EDIT else
  suit ← at_hand O_BUNNYSUIT r;
  if negb suit then say "Do you have a bunnysuit?" TC_DISCARD_TEXT else
  remove_object O_BUNNYSUIT;;
  player_set_flag FLAG_WEARING_SUIT;;
  show_status "You look good in pink!";;
  mret TC_REDRAW_ROOM.

(** ** Actions: the three moves and the fourteen verbs *)
Inductive cmd_id_t :=
  | TC_BUY | TC_CHARGE | TC_DO | TC_DRINK | TC_DROP | TC_FIX | TC_FLASH | TC_GET | TC_GO
  | TC_INSTALL | TC_INVENTORY | TC_SIGH | TC_USE | TC_WEAR.
#[export] Instance cmd_id_eq_dec : EqDecision cmd_id_t.
Proof. solve_decision. Defined.

Definition typed_cmd (cmd : cmd_id_t) : string → W tc_action_t :=
  match cmd with
  | TC_BUY => typed_cmd_buy | TC_CHARGE => typed_cmd_charge | TC_DO => typed_cmd_do
  | TC_DRINK => typed_cmd_drink | TC_DROP => typed_cmd_drop | TC_FIX => typed_cmd_fix
  | TC_FLASH => typed_cmd_flash | TC_GET => typed_cmd_get | TC_GO => typed_cmd_go
  | TC_INSTALL => typed_cmd_install | TC_INVENTORY => typed_cmd_inventory
  | TC_SIGH => typed_cmd_sigh | TC_USE => typed_cmd_use | TC_WEAR => typed_cmd_wear
  end.

Inductive action := MoveLeft | Enter | MoveRight | Typed (cmd : cmd_id_t) (arg : string).
Definition act (a : action) : W tc_action_t :=
  match a with
  | MoveLeft => try_to_move_left
  | Enter => try_to_enter
  | MoveRight => try_to_move_right
  | Typed cmd arg => typed_cmd cmd arg
  end.
