(* ===== verification/Layout.v ===== *)
(** * Layout: where the objects of the world are

    The linked lists of [world.c] without the rest of the world: [hs] is the
    first object of each room, [ns] the [next] member and [ls] the [loc] member
    of each object.  [layout hs ns ls L] says that the list of room [r] is
    [L r], that no object is in two places, and that [loc] tells the truth. *)
From S2P Require Import Prelude.

Lemma filter_out (o : Z) (l : list Z) : o ∉ l → filter (.≠ o) l = l.
Proof.
  induction l as [|x l IH]; intros Hn; [done|].
  rewrite filter_cons, decide_True by set_solver. f_equal. apply IH. set_solver.
Qed.

(** The list that starts at [p] *)
Fixpoint chain (ns : list (option Z)) (p : option Z) (l : list Z) : Prop :=
  match l with
  | [] => p = None
  | o :: l => p = Some o ∧ ∃ nx, aget ns o = Some nx ∧ chain ns nx l
  end.

Lemma chain_ext ns ns' p l :
  (∀ o, o ∈ l → aget ns' o = aget ns o) → chain ns p l → chain ns' p l.
Proof.
  revert p. induction l as [|o l IH]; intros p He; [done|]. cbn.
  intros (-> & nx & Ho & Hc). split; [done|]. exists nx. split.
  - rewrite He; [done|set_solver].
  - apply IH; [set_solver|done].
Qed.

(** A chain is determined by its start. *)
Lemma chain_inj ns p l l' : chain ns p l → chain ns p l' → l = l'.
Proof.
  revert p l'. induction l as [|o l IH]; intros p [|o' l']; cbn; [done| | |].
  - intros -> (? & _); done.
  - intros (-> & _) ?; done.
  - intros (-> & nx & Ho & Hc) ([= <-] & nx' & Ho' & Hc'). f_equal.
    apply (IH nx); [done|]. by simplify_eq.
Qed.

(** Unlinking the head of the second part of a chain: its predecessor, if any,
    takes its [next]. *)
Definition set_pred (pred : option Z) (nx : option Z) (p : option Z) (ns : list (option Z)) :
  option Z * list (option Z) :=
  match pred with
  | None => (nx, ns)
  | Some q => (p, <[Z.to_nat q := nx]> ns)
  end.

Lemma chain_unlink ns p l1 o l2 nx :
  NoDup (l1 ++ o :: l2) → Forall (λ q, 0 ≤ q < zlen ns) l1 →
  chain ns p (l1 ++ o :: l2) → aget ns o = Some nx →
  let '(p', ns') := set_pred (last l1) nx p ns in chain ns' p' (l1 ++ l2).
Proof.
  revert p. induction l1 as [|q l1 IH]; intros p Hnd Hr Hc Ho.
  - destruct Hc as (-> & nx' & Ho' & Hc). cbn. by simplify_eq.
  - cbn [app chain] in Hc. destruct Hc as (-> & nq & Hq & Hc).
    apply Forall_cons in Hr as [Hq0 Hr].
    cbn [app] in Hnd. apply NoDup_cons in Hnd as [Hqn Hnd].
    specialize (IH nq Hnd Hr Hc Ho). destruct l1 as [|q1 l1].
    + cbn in IH |- *. split; [done|]. exists nx. rewrite aget_insert, decide_True by done.
      split; [done|]. apply (chain_ext ns); [|done].
      intros o' Ho'. rewrite aget_insert, decide_False by (done || set_solver). done.
    + rewrite last_cons_cons. destruct (last (q1 :: l1)) as [ql|] eqn:El;
        [|by apply last_None in El].
      cbn in IH |- *. split; [done|]. exists nq. split; [|done].
      assert (ql ∈ q1 :: l1) by (apply last_Some_elem_of; done).
      rewrite aget_insert; [|by eapply Forall_forall in Hr].
      rewrite decide_False; [done|]. set_solver.
Qed.

Record layout (hs ns ls : list (option Z)) (L : Z → list Z) : Prop := {
  lay_chain r p : aget hs r = Some p → chain ns p (L r);
  lay_loc o r l : aget ls o = Some l → (l = Some r ↔ o ∈ L r);
  lay_nodup r : NoDup (L r);
  lay_room r o : o ∈ L r → 0 ≤ r < zlen hs;
  lay_object r o : o ∈ L r → 0 ≤ o < zlen ls;
  lay_length : length ns = length ls;
}.

Section layout.
Context (hs ns ls : list (option Z)) (L : Z → list Z) (H : layout hs ns ls L).

Lemma lay_disjoint r r' o : o ∈ L r → o ∈ L r' → r = r'.
Proof.
  intros Ho Ho'. pose proof (lay_object _ _ _ _ H _ _ Ho) as Hr.
  apply aget_is_Some in Hr as [l Hl].
  apply (lay_loc _ _ _ _ H _ _ _ Hl) in Ho, Ho'. by simplify_eq.
Qed.

(** A list has no more objects than the world. *)
Lemma lay_short r : (length (L r) ≤ length ls)%nat.
Proof.
  assert (Hs : L r ⊆+ Z.of_nat <$> seq 0 (length ls)).
  { apply NoDup_submseteq; [apply (lay_nodup _ _ _ _ H)|]. intros o Ho.
    apply (lay_object _ _ _ _ H) in Ho. apply list_elem_of_fmap.
    exists (Z.to_nat o). rewrite elem_of_seq. lia. }
  apply submseteq_length in Hs. by rewrite length_fmap, length_seq in Hs.
Qed.

(** Taking an object out of its room *)
Lemma layout_remove o r l1 l2 nx p :
  L r = l1 ++ o :: l2 → aget ns o = Some nx → aget hs r = Some p →
  let '(p', ns') := set_pred (last l1) nx p ns in
  layout (<[Z.to_nat r := p']> hs) ns' (<[Z.to_nat o := None]> ls)
    (λ r', filter (.≠ o) (L r')).
Proof.
  intros Hl Hn Hp. destruct (set_pred (last l1) nx p ns) as [p' ns'] eqn:Es.
  assert (Ho : o ∈ L r) by (rewrite Hl; set_solver).
  pose proof (lay_room _ _ _ _ H _ _ Ho) as Hr. pose proof (lay_object _ _ _ _ H _ _ Ho) as Hor.
  pose proof (lay_nodup _ _ _ _ H r) as Hnd. rewrite Hl in Hnd.
  assert (Hq : ∀ q, q ∈ l1 → q ∈ L r) by (intros q Hq; rewrite Hl; set_solver).
  assert (Hns : ∀ o', o' ∉ l1 → aget ns' o' = aget ns o').
  { intros o' Ho'. destruct (last l1) as [q|] eqn:El; cbn in Es; simplify_eq; [|done].
    apply last_Some_elem_of in El. rewrite aget_insert, decide_False; [done|set_solver|].
    rewrite (lay_length _ _ _ _ H). eapply lay_object; [exact H|]. by apply Hq. }
  split.
  - intros r' p1. rewrite aget_insert by done. destruct (decide (r' = r)) as [->|Hne].
    + intros [= <-]. pose proof (chain_unlink ns p l1 o l2 nx) as Hc. rewrite Es in Hc.
      assert (Hf : filter (.≠ o) (L r) = l1 ++ l2).
      { rewrite Hl, filter_app, filter_cons, decide_False by naive_solver.
        apply NoDup_app in Hnd as (_ & Hd & Hnd2). apply NoDup_cons in Hnd2 as [Hn2 _].
        rewrite !filter_out; [done|done|]. intros Hx. apply (Hd o); [done|set_solver]. }
      rewrite Hf. apply Hc; [done| |rewrite <- Hl; by eapply lay_chain|done].
      apply Forall_forall. intros q Hq1. rewrite (lay_length _ _ _ _ H).
      eapply lay_object; [exact H|]. by apply Hq.
    + intros Hr'. apply (chain_ext ns).
      * intros o' Ho'. apply Hns. intros Ho1. apply list_elem_of_filter in Ho' as [_ Ho'].
        apply Hne. eapply lay_disjoint; [exact Ho'|by apply Hq].
      * rewrite filter_out; [by eapply lay_chain|].
        intros Hx. apply Hne. by eapply lay_disjoint.
  - intros o' r' l. rewrite aget_insert by done. rewrite list_elem_of_filter.
    destruct (decide (o' = o)) as [->|].
    + intros [= <-]. split; [done|]. intros [? _]; done.
    + intros Hl'. rewrite (lay_loc _ _ _ _ H _ r' _ Hl'). naive_solver.
  - intros r'. apply NoDup_filter, (lay_nodup _ _ _ _ H).
  - intros r' o' [_ Ho']%list_elem_of_filter. rewrite length_insert. by eapply lay_room.
  - intros r' o' [_ Ho']%list_elem_of_filter. rewrite length_insert. by eapply lay_object.
  - rewrite length_insert, <- (lay_length _ _ _ _ H).
    destruct (last l1); cbn in Es; simplify_eq; by rewrite ?length_insert.
Qed.

(** Putting an object that is nowhere at the head of a room's list *)
Lemma layout_insert o r p :
  aget ls o = Some None → aget hs r = Some p →
  layout (<[Z.to_nat r := Some o]> hs) (<[Z.to_nat o := p]> ns) (<[Z.to_nat o := Some r]> ls)
    (λ r', if decide (r' = r) then o :: L r else L r').
Proof.
  intros Ho Hp. pose proof (aget_Some_range _ _ _ Ho) as Hor.
  pose proof (aget_Some_range _ _ _ Hp) as Hr.
  assert (Hno : ∀ r', o ∉ L r').
  { intros r' Hi. by apply (lay_loc _ _ _ _ H _ _ _ Ho) in Hi. }
  assert (Hon : 0 ≤ o < zlen ns) by (by rewrite (lay_length _ _ _ _ H)).
  assert (Hext : ∀ r' p', chain ns p' (L r') → chain (<[Z.to_nat o := p]> ns) p' (L r')).
  { intros r' p'. apply chain_ext. intros o' Ho'. rewrite aget_insert, decide_False; [done| |done].
    intros ->. by apply (Hno r'). }
  split.
  - intros r' p'. rewrite aget_insert by done. destruct (decide (r' = r)) as [->|].
    + intros [= <-]. cbn. split; [done|]. exists p.
      rewrite aget_insert, decide_True by done. split; [done|].
      apply Hext. by eapply lay_chain.
    + intros Hr'. apply Hext. by eapply lay_chain.
  - intros o' r' l. rewrite aget_insert by done. destruct (decide (o' = o)) as [->|Hne].
    + intros [= <-]. destruct (decide (r' = r)) as [->|]; [set_solver|].
      specialize (Hno r'). naive_solver.
    + intros Hl. rewrite (lay_loc _ _ _ _ H _ r' _ Hl).
      destruct (decide (r' = r)) as [->|]; [set_solver|done].
  - intros r'. pose proof (lay_nodup _ _ _ _ H). destruct (decide (r' = r)); [|done].
    by apply NoDup_cons.
  - intros r' o'. rewrite length_insert. destruct (decide (r' = r)) as [->|]; [done|].
    by apply (lay_room _ _ _ _ H).
  - intros r' o'. rewrite length_insert. destruct (decide (r' = r)) as [->|].
    + intros [->|Ho']%elem_of_cons; [done|]. by apply (lay_object _ _ _ _ H r).
    + apply (lay_object _ _ _ _ H).
  - rewrite !length_insert. apply (lay_length _ _ _ _ H).
Qed.
End layout.
