(* ===== verification/WorldInv.v ===== *)
(** * WorldInv: the world stays well formed

    [world_ok] is the invariant of the two arrays of [world.c] and of the
    lists through them; [game_of] is what the progress of the game depends on:
    where the player is, where the objects are, the flags, and the two exits
    that change.  Each primitive operation of [World] is shown to run without
    undefined behaviour, to keep [world_ok], and to change [game_of] in the
    way its comment promises. *)
From S2P Require Import Prelude Photo WorldData World Layout.

Definition heads (w : world) : list (option Z) := r_contents <$> room w.
Definition nexts (w : world) : list (option Z) := o_next <$> object w.
Definition locs (w : world) : list (option Z) := o_loc <$> object w.

(** ** The invariant *)
Definition room_row (r : Z) : option room_data_t := find (λ d, rd_id d =? r) room_data.

(** The exits of a room are those of the table, but for the way back from the
    inventory and the way out of the cockpit, which the player opens. *)
Definition exits_ok (r : Z) (rm : room_t) : Prop :=
  ∃ d, room_row r = Some d ∧
    r_left rm = room_ptr (rd_left d) ∧ r_right rm = room_ptr (rd_right d) ∧
    (r_enter rm = room_ptr (rd_enter d)
     ∨ (r = R_INVENTORY ∧ ∃ p, r_enter rm = Some p ∧ 0 < p < N_ROOMS)
     ∨ (r = R_COCKPIT ∧ r_enter rm = Some R_OVER_WILL)).

Record room_ok (r : Z) (rm : room_t) : Prop := {
  room_has_name : is_Some (r_name rm);
  room_has_view : is_Some (r_view rm);
  room_exits : exits_ok r rm;
}.

Record world_ok (w : world) : Prop := {
  ok_rooms : zlen (room w) = N_ROOMS;
  ok_objects : zlen (object w) = N_OBJECTS;
  ok_room r rm : aget (room w) r = Some rm → room_ok r rm;
  ok_object o ob : aget (object w) o = Some ob → is_Some (o_name ob) ∧ is_Some (o_img ob);
  ok_swap : zlen (swap_photo w) = N_SWAPS ∧ Forall is_Some (swap_photo w);
  ok_flags : ∃ word, player_flags w = [word] ∧ is_u32 word;
  ok_where r : where_ w = Some r → 0 ≤ r < N_ROOMS;
  ok_back : where_ w = Some R_INVENTORY →
    ∃ rm p, aget (room w) R_INVENTORY = Some rm ∧ r_enter rm = Some p ∧ 0 < p < N_ROOMS;
  ok_rng k : 0 ≤ rng w k;
  ok_layout : ∃ L, layout (heads w) (nexts w) (locs w) L;
}.

(** ** What the game depends on *)
Record game := mk_game {
  g_where : option Z;            (* the room shown *)
  g_back : option Z;             (* the exit of the inventory *)
  g_plane : option Z;            (* the exit of the cockpit *)
  g_flags : Z;
  g_locs : list (option Z);
}.
#[export] Instance game_settable : Settable game := λ g,
  mk_game (g_where g) (g_back g) (g_plane g) (g_flags g) (g_locs g).

Definition exit_of (w : world) (r : Z) : option Z := aget (room w) r ≫= r_enter.
Definition game_of (w : world) : game :=
  mk_game (where_ w) (exit_of w R_INVENTORY) (exit_of w R_COCKPIT)
    (default 0 (head (player_flags w))) (locs w).

Definition flag (g : game) (f : Z) : bool := Z.testbit (g_flags g) f.
Definition set_flag (f : Z) (g : game) : game := g <| g_flags := Z.setbit (g_flags g) f |>.
Definition put (o : Z) (l : option Z) (g : game) : game :=
  g <| g_locs := <[Z.to_nat o := l]> (g_locs g) |>.
Definition loc (g : game) (o : Z) : option Z := default None (aget (g_locs g) o).

(** ** Updates of the arrays *)
Definition with_room (r : Z) (f : room_t → room_t) (w : world) : world :=
  w <| room := alter f (Z.to_nat r) (room w) |>.
Definition with_object (o : Z) (f : object_t → object_t) (w : world) : world :=
  w <| object := alter f (Z.to_nat o) (object w) |>.

Lemma alter_insert_Some {A} (f : A → A) (l : list A) i x :
  aget l i = Some x → <[Z.to_nat i := f x]> l = alter f (Z.to_nat i) l.
Proof.
  intros Hx. pose proof (aget_Some_range _ _ _ Hx). rewrite aget_nonneg in Hx by lia.
  apply list_eq. intros j. destruct (decide (j = Z.to_nat i)) as [->|].
  - rewrite list_lookup_alter_eq, list_lookup_insert_eq by lia. by rewrite Hx.
  - by rewrite list_lookup_alter_ne, list_lookup_insert_ne by done.
Qed.

Lemma set_room_run r f w rm :
  aget (room w) r = Some rm → set_room r f w = Some ((), with_room r f w).
Proof.
  intros Hr. pose proof (aget_Some_range _ _ _ Hr).
  unfold set_room, gets, lift, mbind, M_bind. rewrite Hr, aset_in by done.
  unfold modify, with_room. by erewrite alter_insert_Some.
Qed.
Lemma set_object_run o f w ob :
  aget (object w) o = Some ob → set_object o f w = Some ((), with_object o f w).
Proof.
  intros Hr. pose proof (aget_Some_range _ _ _ Hr).
  unfold set_object, gets, lift, mbind, M_bind. rewrite Hr, aset_in by done.
  unfold modify, with_object. by erewrite alter_insert_Some.
Qed.
Lemma get_room_run r w rm : aget (room w) r = Some rm → get_room r w = Some (rm, w).
Proof. unfold get_room, gets, lift, mbind, M_bind. by intros ->. Qed.
Lemma get_object_run o w ob : aget (object w) o = Some ob → get_object o w = Some (ob, w).
Proof. unfold get_object, gets, lift, mbind, M_bind. by intros ->. Qed.

(** ** Moving things about

    [moved w w'] allows the lists, the positions, the status message and the
    random counter to differ, and nothing else. *)
Definition face (rm : room_t) := (r_name rm, r_view rm, r_left rm, r_enter rm, r_right rm).
Definition make (ob : object_t) := (o_name ob, o_img ob).
Record moved (w w' : world) : Prop := {
  mv_room : face <$> room w' = face <$> room w;
  mv_object : make <$> object w' = make <$> object w;
  mv_flags : player_flags w' = player_flags w;
  mv_swap : swap_photo w' = swap_photo w;
  mv_where : where_ w' = where_ w;
  mv_rng : rng w' = rng w;
}.
#[export] Instance moved_preorder : PreOrder moved.
Proof.
  split; [done|]. intros w1 w2 w3 [] []. split; by etrans.
Qed.

Lemma moved_room_len w w' : moved w w' → length (room w') = length (room w).
Proof. intros H. by rewrite <- (length_fmap face), (mv_room _ _ H), length_fmap. Qed.
Lemma moved_object_len w w' : moved w w' → length (object w') = length (object w).
Proof. intros H. by rewrite <- (length_fmap make), (mv_object _ _ H), length_fmap. Qed.

Lemma moved_room w w' r rm' :
  moved w w' → aget (room w') r = Some rm' →
  ∃ rm, aget (room w) r = Some rm ∧ face rm' = face rm.
Proof.
  intros H Hr. pose proof (aget_fmap face (room w') r) as Hf.
  rewrite (mv_room _ _ H), aget_fmap, Hr in Hf. destruct (aget (room w) r) as [rm|]; [|done].
  exists rm. split; [done|]. exact (eq_sym (inj Some _ _ Hf)).
Qed.
Lemma moved_object w w' o ob' :
  moved w w' → aget (object w') o = Some ob' →
  ∃ ob, aget (object w) o = Some ob ∧ make ob' = make ob.
Proof.
  intros H Hr. pose proof (aget_fmap make (object w') o) as Hf.
  rewrite (mv_object _ _ H), aget_fmap, Hr in Hf. destruct (aget (object w) o) as [ob|]; [|done].
  exists ob. split; [done|]. exact (eq_sym (inj Some _ _ Hf)).
Qed.

Definition laid (w : world) (L : Z → list Z) : Prop := layout (heads w) (nexts w) (locs w) L.

Lemma face_room_ok r rm rm' : face rm' = face rm → room_ok r rm → room_ok r rm'.
Proof.
  intros [= En Ev El Ee Er] [Hn Hv (d & Hd & H1 & H2 & H3)].
  split; [by rewrite En|by rewrite Ev|]. exists d. by rewrite El, Er, Ee.
Qed.

Lemma moved_ok w w' L : world_ok w → moved w w' → laid w' L → world_ok w'.
Proof.
  intros Hok H Hl. destruct Hok. destruct H as [Hr Ho Hf Hs Hw Hg] eqn:E.
  assert (Hm : moved w w') by done.
  split.
  - rewrite (moved_room_len w w') by done. done.
  - rewrite (moved_object_len w w') by done. done.
  - intros r rm' Hrm. destruct (moved_room _ _ _ _ Hm Hrm) as (rm & Hrm0 & Hface).
    eapply face_room_ok; [exact Hface|eauto].
  - intros o ob' Hob. destruct (moved_object _ _ _ _ Hm Hob) as (ob & Hob0 & Hmake).
    injection Hmake as -> ->. eauto.
  - by rewrite Hs.
  - by rewrite Hf.
  - by rewrite Hw.
  - rewrite Hw. intros Hi. destruct (ok_back0 Hi) as (rm & p & Hrm & Hp).
    assert (is_Some (aget (room w') R_INVENTORY)) as [rm' Hrm'].
    { apply aget_is_Some. rewrite (moved_room_len w w') by done. by eapply aget_Some_range. }
    destruct (moved_room _ _ _ _ Hm Hrm') as (rm2 & Hrm2 & Hface).
    rewrite Hrm in Hrm2. injection Hrm2 as <-. exists rm', p. injection Hface as _ _ _ -> _. done.
  - by rewrite Hg.
  - by exists L.
Qed.

Lemma moved_exit w w' r : moved w w' → exit_of w' r = exit_of w r.
Proof.
  intros H. unfold exit_of. destruct (aget (room w') r) as [rm'|] eqn:Hr'.
  - destruct (moved_room _ _ _ _ H Hr') as (rm & -> & Hface). cbn. by injection Hface as _ _ _ -> _.
  - apply aget_None in Hr'. rewrite (moved_room_len w w') in Hr' by done.
    apply aget_None in Hr'. by rewrite Hr'.
Qed.

Lemma moved_game w w' : moved w w' → game_of w' = (game_of w) <| g_locs := locs w' |>.
Proof.
  intros H. unfold game_of. cbn. rewrite !(moved_exit w w') by done.
  by rewrite (mv_where _ _ H), (mv_flags _ _ H).
Qed.

(** ** Effects of single stores on the lists *)
Lemma moved_with_room r f w :
  (∀ rm, face (f rm) = face rm) → moved w (with_room r f w).
Proof.
  intros Hf. split; try done. cbn.
  rewrite (list_fmap_alter face f id) by (apply Forall_forall; intros; apply Hf).
  by apply list_alter_id.
Qed.
Lemma moved_with_object o f w :
  (∀ ob, make (f ob) = make ob) → moved w (with_object o f w).
Proof.
  intros Hf. split; try done. cbn.
  rewrite (list_fmap_alter make f id) by (apply Forall_forall; intros; apply Hf).
  by apply list_alter_id.
Qed.

Lemma heads_store r p w :
  heads (with_room r (λ x, x <| r_contents := p |>) w) = <[Z.to_nat r := p]> (heads w).
Proof.
  unfold heads. cbn. rewrite list_insert_alter. apply list_fmap_alter. by apply Forall_forall.
Qed.
Lemma nexts_store o p w :
  nexts (with_object o (λ x, x <| o_next := p |>) w) = <[Z.to_nat o := p]> (nexts w).
Proof.
  unfold nexts. cbn. rewrite list_insert_alter. apply list_fmap_alter. by apply Forall_forall.
Qed.
Lemma locs_store o p w :
  locs (with_object o (λ x, x <| o_loc := p |>) w) = <[Z.to_nat o := p]> (locs w).
Proof.
  unfold locs. cbn. rewrite list_insert_alter. apply list_fmap_alter. by apply Forall_forall.
Qed.

(** A store to a member that [g] does not read *)
Lemma fmap_with_object {B} (g : object_t → B) o f w :
  (∀ ob, g (f ob) = g ob) → g <$> object (with_object o f w) = g <$> object w.
Proof.
  intros Hf. cbn. rewrite (list_fmap_alter g f id) by (apply Forall_forall; intros; apply Hf).
  by apply list_alter_id.
Qed.

Lemma aget_heads w r : aget (heads w) r = r_contents <$> aget (room w) r.
Proof. apply aget_fmap. Qed.
Lemma aget_nexts w o : aget (nexts w) o = o_next <$> aget (object w) o.
Proof. apply aget_fmap. Qed.
Lemma aget_locs w o : aget (locs w) o = o_loc <$> aget (object w) o.
Proof. apply aget_fmap. Qed.
Lemma zlen_locs w : zlen (locs w) = zlen (object w).
Proof. unfold locs. by rewrite length_fmap. Qed.
Lemma zlen_heads w : zlen (heads w) = zlen (room w).
Proof. unfold heads. by rewrite length_fmap. Qed.

(** Each store, on the three lists *)
Lemma is_object w o : is_Some (aget (object w) o) ↔ is_Some (aget (locs w) o).
Proof. rewrite aget_locs. by rewrite fmap_is_Some. Qed.

Lemma set_loc_run o p w :
  is_Some (aget (locs w) o) →
  ∃ w', set_object o (λ x, x <| o_loc := p |>) w = Some ((), w') ∧ moved w w' ∧
    heads w' = heads w ∧ nexts w' = nexts w ∧ locs w' = <[Z.to_nat o := p]> (locs w).
Proof.
  intros [ob Hob]%is_object. rewrite (set_object_run _ _ _ _ Hob). eexists. split; [done|].
  split; [by apply moved_with_object|]. split; [done|].
  split; [by apply fmap_with_object|apply locs_store].
Qed.
Lemma set_next_run o p w :
  is_Some (aget (locs w) o) →
  ∃ w', set_object o (λ x, x <| o_next := p |>) w = Some ((), w') ∧ moved w w' ∧
    heads w' = heads w ∧ nexts w' = <[Z.to_nat o := p]> (nexts w) ∧ locs w' = locs w.
Proof.
  intros [ob Hob]%is_object. rewrite (set_object_run _ _ _ _ Hob). eexists. split; [done|].
  split; [by apply moved_with_object|]. split; [done|].
  split; [apply nexts_store|by apply fmap_with_object].
Qed.
Lemma set_xy_run o x y w :
  is_Some (aget (locs w) o) →
  ∃ w', set_object o (λ ob, ob <| o_x := x |> <| o_y := y |>) w = Some ((), w') ∧ moved w w' ∧
    heads w' = heads w ∧ nexts w' = nexts w ∧ locs w' = locs w.
Proof.
  intros [ob Hob]%is_object. rewrite (set_object_run _ _ _ _ Hob). eexists. split; [done|].
  split; [by apply moved_with_object|]. split; [done|].
  split; by apply fmap_with_object.
Qed.
Lemma set_contents_run r p w rm :
  aget (room w) r = Some rm →
  ∃ w', set_room r (λ x, x <| r_contents := p |>) w = Some ((), w') ∧ moved w w' ∧
    heads w' = <[Z.to_nat r := p]> (heads w) ∧ nexts w' = nexts w ∧ locs w' = locs w.
Proof.
  intros Hrm. rewrite (set_room_run _ _ _ _ Hrm). eexists. split; [done|].
  split; [by apply moved_with_room|]. split; [apply heads_store|done].
Qed.

(** ** [remove_object] *)
Lemma unlink_run n find w o l1 l2 p ob :
  read_link find w = Some (p, w) → chain (nexts w) p (l1 ++ o :: l2) → o ∉ l1 →
  (length l1 ≤ n)%nat → aget (object w) o = Some ob →
  unlink n find o w =
    write_link (match last l1 with None => find | Some q => AtObject q end) (o_next ob) w.
Proof.
  revert n find p. induction l1 as [|q l1 IH]; intros n find p Hp Hc Hn Hl Ho.
  - destruct Hc as (-> & _). destruct n; cbn [unlink]; rewrite (bind_run _ _ _ _ _ Hp);
      rewrite Z.eqb_refl; by rewrite (bind_run _ _ _ _ _ (get_object_run _ _ _ Ho)).
  - cbn [app chain] in Hc. destruct Hc as (-> & nx & Hq & Hc). destruct n as [|n]; [cbn in Hl; lia|].
    cbn [unlink]. rewrite (bind_run _ _ _ _ _ Hp).
    destruct (Z.eqb_spec o q) as [->|_]; [set_solver|].
    rewrite aget_nexts in Hq. destruct (aget (object w) q) as [obq|] eqn:Eq; [|done].
    injection Hq as Hq.
    rewrite (IH n (AtObject q) nx); [|..|done].
    + destruct l1 as [|q1 l1]; [done|]. rewrite last_cons_cons.
      destruct (last (q1 :: l1)) eqn:El; [done|]. by apply last_None in El.
    + cbn [read_link]. rewrite (bind_run _ _ _ _ _ (get_object_run _ _ _ Eq)). by rewrite Hq.
    + done.
    + set_solver.
    + cbn in Hl. lia.
Qed.

(** The store that unlinks *)
Lemma pred_store w r rm pred nx :
  aget (room w) r = Some rm → (∀ q, pred = Some q → is_Some (aget (locs w) q)) →
  ∃ w', write_link (match pred with None => AtRoom r | Some q => AtObject q end) nx w
          = Some ((), w') ∧ moved w w' ∧ locs w' = locs w ∧
    let '(p', ns') := set_pred pred nx (r_contents rm) (nexts w) in
    heads w' = <[Z.to_nat r := p']> (heads w) ∧ nexts w' = ns'.
Proof.
  intros Hrm Hq. destruct pred as [q|]; cbn [write_link set_pred].
  - destruct (set_next_run q nx w (Hq q eq_refl)) as (w' & Hrun & Hm & Hh & Hn & Hl).
    exists w'. do 3 (split; [done|]). split; [|done]. rewrite Hh.
    rewrite list_insert_id; [done|]. rewrite <- aget_nonneg by (by eapply aget_Some_range).
    by rewrite aget_heads, Hrm.
  - destruct (set_contents_run r nx w rm Hrm) as (w' & Hrun & Hm & Hh & Hn & Hl).
    exists w'. done.
Qed.

Lemma laid_nowhere w L o :
  laid w L → aget (locs w) o = Some None → laid w (λ r, filter (.≠ o) (L r)).
Proof.
  intros HL Ho. assert (Hf : ∀ r, filter (.≠ o) (L r) = L r).
  { intros r. apply filter_out. intros Hi. by apply (lay_loc _ _ _ _ HL _ _ _ Ho) in Hi. }
  destruct HL. split; intros; rewrite ?Hf in *; eauto.
Qed.

(** What the loop and the store of [remove_object] do to the list of room [r] *)
Lemma unlink_effect w L o ob r :
  laid w L → zlen (object w) ≤ N_OBJECTS → aget (object w) o = Some ob → o ∈ L r →
  ∃ w', unlink (Z.to_nat N_OBJECTS) (AtRoom r) o w = Some ((), w') ∧ moved w w' ∧
    locs w' = locs w ∧
    layout (heads w') (nexts w') (<[Z.to_nat o := None]> (locs w)) (λ r, filter (.≠ o) (L r)).
Proof.
  intros HL Hlen Eo Ho.
  pose proof (lay_room _ _ _ _ HL _ _ Ho) as Hr. rewrite zlen_heads in Hr.
  apply aget_is_Some in Hr as [rm Hrm].
  assert (Hh : aget (heads w) r = Some (r_contents rm)) by (by rewrite aget_heads, Hrm).
  assert (Hnx : aget (nexts w) o = Some (o_next ob)) by (by rewrite aget_nexts, Eo).
  destruct (list_elem_of_split _ _ Ho) as (l1 & l2 & Hl).
  pose proof (lay_nodup _ _ _ _ HL r) as Hnd. rewrite Hl in Hnd.
  assert (Hn1 : o ∉ l1).
  { apply NoDup_app in Hnd as (_ & Hd & _). intros Hi. apply (Hd o); [done|set_solver]. }
  pose proof (lay_short _ _ _ _ HL r) as Hs. rewrite Hl, length_app in Hs.
  pose proof (zlen_locs w) as Hz.
  assert (Hrun : unlink (Z.to_nat N_OBJECTS) (AtRoom r) o w =
    write_link (match last l1 with None => AtRoom r | Some q => AtObject q end) (o_next ob) w).
  { eapply unlink_run; [| |done|lia|done].
    - cbn [read_link]. by rewrite (bind_run _ _ _ _ _ (get_room_run _ _ _ Hrm)).
    - rewrite <- Hl. by eapply lay_chain. }
  destruct (pred_store w r rm (last l1) (o_next ob) Hrm) as (w' & Hw & Hm & Hls & Hst).
  { intros q Hq%last_Some_elem_of. apply aget_is_Some. eapply (lay_object _ _ _ _ HL r).
    rewrite Hl. set_solver. }
  exists w'. rewrite Hrun. do 3 (split; [done|]).
  pose proof (layout_remove _ _ _ _ HL o r l1 l2 _ _ Hl Hnx Hh) as Hlay.
  destruct (set_pred _ _ _ _) as [p' ns']. destruct Hst as [-> ->]. done.
Qed.

Lemma remove_object_run w L o l :
  laid w L → zlen (object w) ≤ N_OBJECTS → aget (locs w) o = Some l →
  ∃ w', remove_object o w = Some ((), w') ∧ moved w w' ∧
    locs w' = <[Z.to_nat o := None]> (locs w) ∧ laid w' (λ r, filter (.≠ o) (L r)).
Proof.
  intros HL Hlen Hl.
  assert (∃ ob, aget (object w) o = Some ob ∧ o_loc ob = l) as (ob & Eo & Hloc).
  { rewrite aget_locs in Hl. destruct (aget (object w) o) as [ob|]; [|done].
    exists ob. split; [done|]. exact (inj Some _ _ Hl). }
  unfold remove_object, loc_of. rewrite bind_assoc, (bind_run _ _ _ _ _ (get_object_run _ _ _ Eo)).
  rewrite bind_ret, Hloc. destruct l as [r|].
  - assert (Ho : o ∈ L r) by (by apply (lay_loc _ _ _ _ HL _ _ _ Hl)).
    destruct (unlink_effect w L o ob r HL Hlen Eo Ho) as (w1 & Hu & Hm & Hls & Hlay).
    rewrite (bind_run _ _ _ _ _ Hu).
    destruct (set_loc_run o None w1) as (w' & Hrun & Hm' & Hh & Hn & Hl'); [rewrite Hls; eauto|].
    exists w'. split; [done|]. split; [by etrans|]. rewrite Hl', Hls. split; [done|].
    unfold laid. by rewrite Hh, Hn, Hl', Hls.
  - exists w. split; [done|]. split; [done|]. split; [|by apply laid_nowhere].
    rewrite list_insert_id; [done|]. by rewrite <- aget_nonneg by (by eapply aget_Some_range).
Qed.

(** ** [insert_object_at] *)
Lemma insert_object_at_run w L o r x y :
  laid w L → zlen (object w) ≤ N_OBJECTS → is_Some (aget (locs w) o) → 0 ≤ r < zlen (room w) →
  ∃ w', insert_object_at o (Some r) x y w = Some ((), w') ∧ moved w w' ∧
    locs w' = <[Z.to_nat o := Some r]> (locs w) ∧
    laid w' (λ r', if decide (r' = r) then o :: filter (.≠ o) (L r) else filter (.≠ o) (L r')).
Proof.
  intros HL Hlen [l Hl] Hr.
  destruct (remove_object_run w L o l HL Hlen Hl) as (w1 & H1 & M1 & L1 & HL1).
  pose proof (aget_Some_range _ _ _ Hl) as Hor.
  assert (Hs1 : is_Some (aget (locs w1) o))
    by (rewrite L1, aget_insert, decide_True by done; done).
  unfold insert_object_at. rewrite (bind_run _ _ _ _ _ H1).
  destruct (set_xy_run o (u16 x) (u16 y) w1 Hs1) as (w2 & H2 & M2 & Hd2 & Nx2 & L2).
  rewrite (bind_run _ _ _ _ _ H2). rewrite <- L2 in Hs1.
  destruct (set_loc_run o (Some r) w2 Hs1) as (w3 & H3 & M3 & Hd3 & Nx3 & L3).
  rewrite (bind_run _ _ _ _ _ H3). rewrite (bind_lift _ r) by done.
  assert (M03 : moved w w3) by (do 2 (etrans; [done|]); done).
  assert (is_Some (aget (room w3) r)) as [rm Hrm]
    by (apply aget_is_Some; by rewrite (moved_room_len w w3)).
  rewrite (bind_run _ _ _ _ _ (get_room_run _ _ _ Hrm)).
  destruct (set_next_run o (r_contents rm) w3) as (w4 & H4 & M4 & Hd4 & Nx4 & L4).
  { rewrite L3, aget_insert, decide_True; [done..|]. rewrite L2, L1, length_insert. done. }
  rewrite (bind_run _ _ _ _ _ H4).
  assert (is_Some (aget (room w4) r)) as [rm4 Hrm4].
  { apply aget_is_Some. rewrite (moved_room_len w3 w4) by done. by eapply aget_Some_range. }
  destruct (set_contents_run r (Some o) w4 rm4 Hrm4) as (w5 & H5 & M5 & Hd5 & Nx5 & L5).
  exists w5. split; [done|]. split; [do 2 (etrans; [done|]); done|].
  assert (HL5 : locs w5 = <[Z.to_nat o := Some r]> (locs w1)) by congruence.
  split; [rewrite HL5, L1; apply list_insert_insert_eq|].
  unfold laid. rewrite Hd5, Hd4, Hd3, Hd2, Nx5, Nx4, Nx3, Nx2, HL5.
  apply (layout_insert _ _ _ (λ r', filter (.≠ o) (L r'))); [done|by rewrite L1, aget_insert, decide_True|].
  rewrite <- Hd2, <- Hd3, aget_heads. by rewrite Hrm.
Qed.

(** ** Random numbers and messages *)
Lemma moved_rands w : moved w (w <| rands ::= S |>).
Proof. done. Qed.
Lemma moved_status w msg : moved w (w <| status_msg := msg |>).
Proof. done. Qed.

(** [still w w']: the lists are untouched as well. *)
Definition still (w w' : world) : Prop :=
  moved w w' ∧ room w' = room w ∧ object w' = object w.

Lemma rand_run w : ∃ w', rand w = Some (rng w (rands w), w') ∧ still w w'.
Proof. eexists. split; [reflexivity|]. done. Qed.
Lemma rand_below_run range w : ∃ k w', rand_below range w = Some (k, w') ∧ still w w'.
Proof.
  unfold rand_below. destruct (0 >=? range); [by exists 0, w|].
  destruct (rand_run w) as (w' & Hr & Hs). rewrite (bind_run _ _ _ _ _ Hr). by eexists _, w'.
Qed.
Lemma show_status_run msg w : ∃ w', show_status msg w = Some ((), w') ∧ still w w'.
Proof. eexists. split; [reflexivity|]. done. Qed.

Lemma still_lists w w' : still w w' → heads w' = heads w ∧ nexts w' = nexts w ∧ locs w' = locs w.
Proof. intros (_ & Hr & Ho). unfold heads, nexts, locs. by rewrite Hr, Ho. Qed.
Lemma still_laid w w' L : still w w' → laid w L → laid w' L.
Proof. intros (Hh & Hn & Hl)%still_lists. unfold laid. by rewrite Hh, Hn, Hl. Qed.
#[export] Instance still_preorder : PreOrder still.
Proof.
  split; [done|]. intros w1 w2 w3 (? & ? & ?) (? & ? & ?).
  split; [by etrans|]. split; congruence.
Qed.

(** ** [insert_object] *)
(** The two outcomes of [insert_object] and of [move_object_to_inventory] *)
Definition placed (w : world) (L : Z → list Z) (o r : Z) (w' : world) : Prop :=
  moved w w' ∧ locs w' = <[Z.to_nat o := Some r]> (locs w) ∧
  laid w' (λ r', if decide (r' = r) then o :: filter (.≠ o) (L r) else filter (.≠ o) (L r')).

Lemma placed_still w w1 L o r w' : still w w1 → placed w1 L o r w' → placed w L o r w'.
Proof.
  intros Hs (Hm & Hl & Hlay). split; [etrans; [apply Hs|done]|]. split; [|done].
  rewrite Hl. by destruct (still_lists _ _ Hs) as (_ & _ & ->).
Qed.

Lemma insert_at_placed w L o r x y :
  laid w L → zlen (object w) ≤ N_OBJECTS → is_Some (aget (locs w) o) → 0 ≤ r < zlen (room w) →
  wp (insert_object_at o (Some r) x y) (λ _ w', placed w L o r w') w.
Proof.
  intros HL Hn Ho Hr. destruct (insert_object_at_run w L o r x y HL Hn Ho Hr)
    as (w' & Hrun & Hm & Hls & Hlay).
  apply wp_run. exists (), w'. done.
Qed.

Lemma insert_object_placed w L o ob r rm :
  laid w L → zlen (object w) ≤ N_OBJECTS →
  aget (object w) o = Some ob → is_Some (o_img ob) →
  aget (room w) r = Some rm → is_Some (r_view rm) →
  wp (insert_object o (Some r)) (λ _ w', placed w L o r w') w.
Proof.
  intros HL Hn Ho [img Him] Hr [view Hv]. unfold insert_object, wp.
  rewrite (bind_run _ _ _ _ _ (get_object_run _ _ _ Ho)).
  rewrite bind_assoc, (bind_lift _ r) by done.
  rewrite (bind_run _ _ _ _ _ (get_room_run _ _ _ Hr)).
  rewrite (bind_lift _ view), (bind_lift _ img) by done.
  destruct (rand_below_run (i32 (photo_width view - image_width img)) w) as (xp & w1 & H1 & S1).
  rewrite (bind_run _ _ _ _ _ H1). cbn zeta.
  assert (∃ yp w2, (if 0 >=? Z.quot (photo_height view) 4 - image_height img
     then rand_below (photo_height view - image_height img)
     else k ← rand; mret (Z.rem k (Z.quot (photo_height view) 4 - image_height img)
                           + Z.quot (3 * photo_height view) 4)) w1 = Some (yp, w2) ∧ still w1 w2)
    as (yp & w2 & H2 & S2).
  { destruct (0 >=? _); [apply rand_below_run|].
    destruct (rand_run w1) as (w2 & H2 & S2). rewrite (bind_run _ _ _ _ _ H2). by eexists _, w2. }
  rewrite (bind_run _ _ _ _ _ H2).
  assert (S12 : still w w2) by (by etrans).
  destruct (still_lists _ _ S12) as (_ & _ & Hls). destruct S12 as (Hm & Hr2 & Ho2) eqn:E.
  apply (wp_mono _ (λ _ w', placed w2 L o r w')).
  - apply insert_at_placed; [by eapply still_laid|by rewrite Ho2| |].
    + rewrite Hls. apply is_object. eauto.
    + rewrite Hr2. by eapply aget_Some_range.
  - intros _ w'. by apply placed_still.
Qed.

(** ** Loops over a list *)
Lemma chain_objects w p l : chain (nexts w) p l → Forall (λ o, is_Some (aget (object w) o)) l.
Proof.
  revert p. induction l as [|o l IH]; intros p; cbn; [done|].
  intros (_ & nx & Ho & Hc). rewrite aget_nexts in Ho.
  constructor; [by destruct (aget (object w) o)|by eapply IH].
Qed.

(** The object stands at [(x, y)]. *)
Definition stands (w : world) (x y o : Z) : bool :=
  match aget (object w) o with
  | Some ob => (x =? o_x ob) && (y =? o_y ob)
  | None => false
  end.
Lemma conflict_from_run w n p l x y :
  chain (nexts w) p l → (length l ≤ n)%nat →
  conflict_from n p x y w = Some (existsb (stands w x y) l, w).
Proof.
  revert n p. induction l as [|o l IH]; intros n p Hc Hl; cbn in Hc; [subst; by destruct n|].
  destruct Hc as (-> & nx & Ho & Hc). destruct n as [|n]; [cbn in Hl; lia|].
  rewrite aget_nexts in Ho. destruct (aget (object w) o) as [ob|] eqn:Eo; [|done].
  injection Ho as Ho. cbn [conflict_from].
  rewrite (bind_run _ _ _ _ _ (get_object_run _ _ _ Eo)). cbn [existsb]. unfold stands at 1.
  rewrite Eo. destruct (_ && _); [done|]. rewrite Ho. apply IH; [done|cbn in Hl; lia].
Qed.

(** The object has the name [arg]. *)
Definition named (w : world) (arg : string) (o : Z) : bool :=
  match aget (object w) o ≫= o_name with
  | Some name => same_word arg name
  | None => false
  end.
Lemma find_from_run w n p l arg :
  chain (nexts w) p l → (length l ≤ n)%nat →
  (∀ o ob, aget (object w) o = Some ob → is_Some (o_name ob)) →
  find_from n p arg w = Some (List.find (named w arg) l, w).
Proof.
  intros Hc Hl Hnm. revert n p Hc Hl.
  induction l as [|o l IH]; intros n p Hc Hl; cbn in Hc; [subst; by destruct n|].
  destruct Hc as (-> & nx & Ho & Hc). destruct n as [|n]; [cbn in Hl; lia|].
  rewrite aget_nexts in Ho. destruct (aget (object w) o) as [ob|] eqn:Eo; [|done].
  injection Ho as Ho. destruct (Hnm _ _ Eo) as [name Hname]. cbn [find_from].
  rewrite (bind_run _ _ _ _ _ (get_object_run _ _ _ Eo)), (bind_lift _ name) by done.
  cbn [List.find]. unfold named at 1. rewrite Eo. cbn [mbind option_bind].
  rewrite Hname.
  destruct (same_word arg name); [done|]. rewrite Ho. apply IH; [done|cbn in Hl; lia].
Qed.

Lemma find_in_room_run w L r arg :
  laid w L → zlen (object w) ≤ N_OBJECTS → 0 ≤ r < zlen (room w) →
  (∀ o ob, aget (object w) o = Some ob → is_Some (o_name ob)) →
  find_in_room (Some r) arg w = Some (List.find (named w arg) (L r), w).
Proof.
  intros HL Hn [rm Hrm]%aget_is_Some Hnm. unfold find_in_room.
  rewrite (bind_lift _ r), (bind_run _ _ _ _ _ (get_room_run _ _ _ Hrm)) by done.
  apply find_from_run; [eapply lay_chain; [exact HL|by rewrite aget_heads, Hrm]| |done].
  pose proof (lay_short _ _ _ _ HL r). pose proof (zlen_locs w). lia.
Qed.

(** ** [move_object_to_inventory] *)
Lemma try_cells_placed cells w L o ob rm :
  laid w L → zlen (object w) ≤ N_OBJECTS →
  aget (object w) o = Some ob → is_Some (o_img ob) →
  aget (room w) R_INVENTORY = Some rm → is_Some (r_view rm) →
  wp (try_cells cells o) (λ _ w', placed w L o R_INVENTORY w') w.
Proof.
  intros HL Hn Ho Him Hr Hv. induction cells as [|[x y] cells IH]; cbn [try_cells].
  - by eapply insert_object_placed.
  - unfold wp. rewrite (bind_run _ _ _ _ _ (get_room_run _ _ _ Hr)).
    rewrite (bind_run _ (existsb (stands w x y) (L R_INVENTORY)) _ w w).
    2:{ apply conflict_from_run; [eapply lay_chain; [exact HL|by rewrite aget_heads, Hr]|].
        pose proof (lay_short _ _ _ _ HL R_INVENTORY). pose proof (zlen_locs w). lia. }
    destruct (existsb _ _); [exact IH|].
    apply insert_at_placed; [done|done| |by eapply aget_Some_range].
    apply is_object. eauto.
Qed.
