(* ===== verification/Effects.v ===== *)
(** * Effects: what the primitive operations of the world do to the game

    The exits of the rooms, and one rule per primitive operation of [World]:
    from a well-formed world it runs without undefined behaviour, ends in a
    well-formed world, and changes [game_of] as stated. *)
From S2P Require Import Prelude Photo WorldData World Layout WorldInv.

(** ** Exits *)
Definition row_exits (r : Z) : list Z :=
  match room_row r with
  | Some d => omap room_ptr [rd_left d; rd_enter d; rd_right d]
  | None => []
  end.
Definition exit (g : game) (r p : Z) : Prop :=
  p ∈ row_exits r ∨ (r = R_INVENTORY ∧ g_back g = Some p) ∨ (r = R_COCKPIT ∧ g_plane g = Some p).

(** A property of the room table is checked row by row. *)
Lemma row_exits_all (P : Z → Z → bool) :
  forallb (λ d, forallb (P (rd_id d)) (row_exits (rd_id d))) room_data = true →
  ∀ r p, p ∈ row_exits r → P r p = true.
Proof.
  intros Hall r p Hp. pose proof Hp as Hp'. unfold row_exits in Hp.
  destruct (room_row r) as [d|] eqn:E; [|by apply not_elem_of_nil in Hp].
  apply find_some in E as [Hin Hid%Z.eqb_eq]. subst r.
  rewrite forallb_forall in Hall. specialize (Hall d Hin). rewrite forallb_forall in Hall.
  apply Hall. by apply list_elem_of_In.
Qed.
Lemma row_exit_range r p : p ∈ row_exits r → 0 < p < N_ROOMS.
Proof.
  intros Hp. apply (row_exits_all (λ _ p, (0 <? p) && (p <? N_ROOMS))) in Hp;
    [lia|vm_compute; reflexivity].
Qed.

Lemma room_exit w r rm p :
  world_ok w → aget (room w) r = Some rm →
  r_left rm = Some p ∨ r_enter rm = Some p ∨ r_right rm = Some p →
  exit (game_of w) r p ∧ 0 < p < N_ROOMS.
Proof.
  intros Hok Hrm Hp. destruct (ok_room _ Hok _ _ Hrm) as [_ _ (d & Hd & Hl & Hr & He)].
  assert (Hrow : ∀ q, q ∈ [rd_left d; rd_enter d; rd_right d] → room_ptr q = Some p →
                 exit (game_of w) r p ∧ 0 < p < N_ROOMS).
  { intros q Hq Hptr. assert (p ∈ row_exits r).
    { unfold row_exits. rewrite Hd. apply list_elem_of_omap. by exists q. }
    split; [by left|by eapply row_exit_range]. }
  assert (Hent : ∀ R, r = R → exit_of w R = r_enter rm).
  { intros R <-. unfold exit_of. by rewrite Hrm. }
  destruct Hp as [Hp|[Hp|Hp]].
  - apply (Hrow (rd_left d)); [set_solver|congruence].
  - destruct He as [He|[(-> & q & Hq & Hrange)|(-> & Hq)]].
    + apply (Hrow (rd_enter d)); [set_solver|congruence].
    + assert (q = p) as -> by congruence. split; [|done]. right; left. split; [done|].
      cbn. by rewrite (Hent _ eq_refl).
    + assert (p = R_OVER_WILL) as -> by congruence. split; [|done]. right; right. split; [done|].
      cbn. by rewrite (Hent _ eq_refl).
  - apply (Hrow (rd_right d)); [set_solver|congruence].
Qed.

(** ** Primitive operations as predicate transformers

    Each rule asks for the postcondition in the world that results. *)
Section effects.
Context (w : world) (Hok : world_ok w).
Implicit Types Q : () → world → Prop.

Lemma object_index o : 0 ≤ o < N_OBJECTS → is_Some (aget (locs w) o).
Proof. intros. apply aget_is_Some. rewrite zlen_locs, (ok_objects _ Hok). done. Qed.

Lemma wp_loc_of o (Q : option Z → world → Prop) :
  0 ≤ o < N_OBJECTS → Q (loc (game_of w) o) w → wp (loc_of o) Q w.
Proof.
  intros Ho HQ. destruct (proj2 (is_object w o) (object_index o Ho)) as [ob Hob].
  unfold loc_of, wp. rewrite (bind_run _ _ _ _ _ (get_object_run _ _ _ Hob)).
  cbn. unfold loc in HQ. cbn [g_locs game_of] in HQ. by rewrite aget_locs, Hob in HQ.
Qed.
Lemma wp_carried o (Q : bool → world → Prop) :
  0 ≤ o < N_OBJECTS → Q (loc (game_of w) o =R= R_INVENTORY) w → wp (carried o) Q w.
Proof. intros Ho HQ. apply wp_bind, wp_loc_of; [done|]. exact HQ. Qed.
Lemma wp_at_hand o r (Q : bool → world → Prop) :
  0 ≤ o < N_OBJECTS →
  Q ((loc (game_of w) o =R= R_INVENTORY) || bool_decide (loc (game_of w) o = r)) w →
  wp (at_hand o r) Q w.
Proof. intros Ho HQ. apply wp_bind, wp_loc_of; [done|]. exact HQ. Qed.

Lemma flag_word f :
  0 ≤ f < 32 → ∃ word, player_flags w = [word] ∧ is_u32 word ∧
    flag (game_of w) f = Z.testbit word f ∧ Z.quot f 32 = 0 ∧ Z.rem f 32 = f.
Proof.
  intros Hf. destruct (ok_flags _ Hok) as (word & Hw & Hu). exists word.
  split; [done|]. split; [done|]. unfold flag. cbn. rewrite Hw. split; [done|].
  split; [by apply Z.quot_small|by apply Z.rem_small].
Qed.
Lemma land_bit word f : 0 ≤ f → negb (Z.land word (Z.shiftl 1 f) =? 0) = Z.testbit word f.
Proof.
  intros Hf. rewrite Z.shiftl_1_l. destruct (Z.testbit word f) eqn:E.
  - apply negb_true_iff, Z.eqb_neq. intros H0.
    assert (Hb : Z.testbit (Z.land word (2 ^ f)) f = true)
      by (by rewrite Z.land_spec, E, Z.pow2_bits_true by lia).
    by rewrite H0, Z.bits_0 in Hb.
  - apply negb_false_iff, Z.eqb_eq, Z.bits_inj'. intros k Hk.
    rewrite Z.land_spec, Z.bits_0, Z.pow2_bits_eqb by lia.
    destruct (Z.eqb_spec f k) as [->|]; [by rewrite E|by rewrite andb_false_r].
Qed.
Lemma wp_flag f (Q : bool → world → Prop) :
  0 ≤ f < 32 → Q (flag (game_of w) f) w → wp (player_flag_is_set f) Q w.
Proof.
  intros Hf HQ. destruct (flag_word f Hf) as (word & Hw & Hu & Hb & Hq & Hr).
  unfold player_flag_is_set, wp. rewrite bind_gets, Hw, Hq, (bind_lift _ word) by done.
  rewrite Hr, land_bit by lia. by rewrite Hb in HQ.
Qed.

(** Changes outside the arrays *)
Lemma ok_still w' : still w w' → world_ok w' ∧ game_of w' = game_of w.
Proof.
  intros Hs. destruct (ok_layout _ Hok) as [L HL]. split.
  - eapply moved_ok; [exact Hok|apply Hs|by eapply still_laid].
  - rewrite (moved_game w w') by apply Hs. destruct (still_lists _ _ Hs) as (_ & _ & ->). done.
Qed.
Lemma wp_status msg Q :
  (∀ w', world_ok w' → game_of w' = game_of w → Q () w') → wp (show_status msg) Q w.
Proof.
  intros HQ. destruct (show_status_run msg w) as (w' & Hr & Hs). unfold wp. rewrite Hr.
  destruct (ok_still _ Hs). by apply HQ.
Qed.
Lemma wp_rand (Q : Z → world → Prop) :
  (∀ k w', 0 ≤ k → world_ok w' → game_of w' = game_of w → Q k w') → wp rand Q w.
Proof.
  intros HQ. destruct (rand_run w) as (w' & Hr & Hs). unfold wp. rewrite Hr.
  destruct (ok_still _ Hs). apply HQ; [apply (ok_rng _ Hok)|done..].
Qed.

(** Moving objects *)
Lemma ok_placed L o r w' : laid w L → placed w L o r w' →
  world_ok w' ∧ game_of w' = put o (Some r) (game_of w).
Proof.
  intros HL (Hm & Hl & Hlay). split; [by eapply moved_ok|].
  rewrite (moved_game w w' Hm), Hl. done.
Qed.
Lemma wp_remove o Q :
  0 ≤ o < N_OBJECTS →
  (∀ w', world_ok w' → game_of w' = put o None (game_of w) → Q () w') →
  wp (remove_object o) Q w.
Proof.
  intros Ho HQ. destruct (ok_layout _ Hok) as [L HL]. destruct (object_index o Ho) as [l Hl].
  destruct (remove_object_run w L o l HL) as (w' & Hr & Hm & Hls & Hlay);
    [rewrite (ok_objects _ Hok); done|done|].
  unfold wp. rewrite Hr. apply HQ; [by eapply moved_ok|].
  rewrite (moved_game w w' Hm), Hls. done.
Qed.
Lemma wp_insert_at o r x y Q :
  0 ≤ o < N_OBJECTS → 0 ≤ r < N_ROOMS →
  (∀ w', world_ok w' → game_of w' = put o (Some r) (game_of w) → Q () w') →
  wp (insert_object_at o (Some r) x y) Q w.
Proof.
  intros Ho Hr HQ. destruct (ok_layout _ Hok) as [L HL].
  eapply wp_mono; [apply (insert_at_placed w L); [done|..]|].
  - by rewrite (ok_objects _ Hok).
  - by apply object_index.
  - by rewrite (ok_rooms _ Hok).
  - intros [] w' Hp. destruct (ok_placed L o r w' HL Hp). by apply HQ.
Qed.
Lemma wp_insert_object o r Q :
  0 ≤ o < N_OBJECTS → 0 ≤ r < N_ROOMS →
  (∀ w', world_ok w' → game_of w' = put o (Some r) (game_of w) → Q () w') →
  wp (insert_object o (Some r)) Q w.
Proof.
  intros Ho Hr HQ. destruct (ok_layout _ Hok) as [L HL].
  destruct (proj2 (is_object w o) (object_index o Ho)) as [ob Hob].
  rewrite <- (ok_rooms _ Hok) in Hr. apply aget_is_Some in Hr as [rm Hrm].
  eapply wp_mono; [eapply (insert_object_placed w L o ob r rm); try done|].
  - by rewrite (ok_objects _ Hok).
  - by apply (ok_object _ Hok o).
  - by apply (ok_room _ Hok r).
  - intros [] w' Hp. destruct (ok_placed L o r w' HL Hp). by apply HQ.
Qed.
Lemma wp_to_inventory o Q :
  0 ≤ o < N_OBJECTS →
  (∀ w', world_ok w' → game_of w' = put o (Some R_INVENTORY) (game_of w) → Q () w') →
  wp (move_object_to_inventory o) Q w.
Proof.
  intros Ho HQ. destruct (ok_layout _ Hok) as [L HL].
  destruct (proj2 (is_object w o) (object_index o Ho)) as [ob Hob].
  assert (is_Some (aget (room w) R_INVENTORY)) as [rm Hrm]
    by (apply aget_is_Some; by rewrite (ok_rooms _ Hok)).
  eapply wp_mono; [eapply (try_cells_placed inventory_grid w L o ob rm); try done|].
  - by rewrite (ok_objects _ Hok).
  - by apply (ok_object _ Hok o).
  - by apply (ok_room _ Hok R_INVENTORY).
  - intros [] w' Hp. destruct (ok_placed L o R_INVENTORY w' HL Hp). by apply HQ.
Qed.
Lemma wp_find r arg (Q : option Z → world → Prop) :
  0 ≤ r < N_ROOMS →
  (∀ o, 0 ≤ o < N_OBJECTS → loc (game_of w) o = Some r → Q (Some o) w) → Q None w →
  wp (find_in_room (Some r) arg) Q w.
Proof.
  intros Hr Hsome Hnone. destruct (ok_layout _ Hok) as [L HL]. unfold wp.
  rewrite (find_in_room_run w L); [|done|by rewrite (ok_objects _ Hok)|by rewrite (ok_rooms _ Hok)|].
  2:{ intros o ob Hob. by apply (ok_object _ Hok o). }
  destruct (List.find _ _) as [o|] eqn:E; [|done].
  apply find_some in E as [Hin%list_elem_of_In _].
  assert (Ho : 0 ≤ o < N_OBJECTS)
    by (rewrite <- (ok_objects _ Hok), <- zlen_locs; by eapply lay_object).
  apply Hsome; [done|]. destruct (object_index o Ho) as [l Hl].
  apply (lay_loc _ _ _ _ HL _ _ _ Hl) in Hin. unfold loc. cbn. by rewrite Hl.
Qed.

(** Changes of the flags, the pictures, and the player's room *)
Lemma ok_same_arrays w' :
  room w' = room w → object w' = object w → rng w' = rng w → where_ w' = where_ w →
  (zlen (swap_photo w') = N_SWAPS ∧ Forall is_Some (swap_photo w')) →
  (∃ word, player_flags w' = [word] ∧ is_u32 word) → world_ok w'.
Proof.
  intros Hr Ho Hg Hw Hs Hf. destruct Hok. split; unfold heads, nexts, locs; rewrite ?Hr, ?Ho, ?Hg, ?Hw; done.
Qed.
Lemma set_bit_word word f :
  is_u32 word → 0 ≤ f < 32 →
  u32 (Z.lor word (Z.shiftl 1 f)) = Z.setbit word f ∧ is_u32 (Z.setbit word f).
Proof.
  intros Hu Hf. rewrite Z.shiftl_1_l.
  assert (is_u32 (Z.setbit word f)) as Hs.
  { unfold Z.setbit, is_u32 in *. rewrite Z.shiftl_1_l.
    split; [apply Z.lor_nonneg; split; [lia|apply Z.pow_nonneg; lia]|].
    change 4294967296 with (2 ^ 32). destruct (Z.eq_dec (Z.lor word (2 ^ f)) 0) as [->|]; [done|].
    apply Z.log2_lt_pow2; [assert (0 ≤ Z.lor word (2 ^ f))
      by (apply Z.lor_nonneg; split; [lia|apply Z.pow_nonneg; lia]); lia|].
    rewrite Z.log2_lor by (try apply Z.pow_nonneg; lia). rewrite Z.log2_pow2 by lia.
    apply Z.max_lub_lt; [|lia]. destruct (Z.eq_dec word 0) as [->|]; [done|].
    apply Z.log2_lt_pow2; lia. }
  split; [|done]. unfold Z.setbit in *. rewrite Z.shiftl_1_l in *. by apply u32_small.
Qed.
Lemma wp_set_flag f Q :
  0 ≤ f < 32 →
  (∀ w', world_ok w' → game_of w' = set_flag f (game_of w) → Q () w') →
  wp (player_set_flag f) Q w.
Proof.
  intros Hf HQ. destruct (flag_word f Hf) as (word & Hw & Hu & Hb & Hq & Hr).
  destruct (set_bit_word word f Hu Hf) as [He Hs].
  unfold player_set_flag, wp. rewrite bind_gets, Hw, Hq, (bind_lift _ word) by done.
  rewrite Hr, He, (bind_lift _ [Z.setbit word f]) by done.
  apply HQ.
  - apply ok_same_arrays; try done; [apply (ok_swap _ Hok)|by exists (Z.setbit word f)].
  - unfold game_of, set_flag. cbn. by rewrite Hw.
Qed.

Lemma wp_photo_swap r which Q :
  0 ≤ r < N_ROOMS → 0 ≤ which < N_SWAPS →
  (∀ w', world_ok w' → game_of w' = game_of w → Q () w') →
  wp (do_photo_swap (Some r) which) Q w.
Proof.
  intros Hr Hwh HQ. rewrite <- (ok_rooms _ Hok) in Hr. pose proof (ok_swap _ Hok) as [Hsl Hss].
  rewrite <- Hsl in Hwh. pose proof Hr as [rm Hrm]%aget_is_Some.
  pose proof Hwh as [other Hother]%aget_is_Some.
  assert (is_Some other).
  { rewrite aget_nonneg in Hother by lia. by eapply Forall_lookup_1 in Hother. }
  destruct (ok_room _ Hok _ _ Hrm) as [Hn Hv He].
  unfold do_photo_swap, wp. rewrite (bind_lift _ r), (bind_run _ _ _ _ _ (get_room_run _ _ _ Hrm)) by done.
  rewrite bind_gets, (bind_lift _ other) by done.
  rewrite (bind_run _ _ _ _ _ (set_room_run _ _ _ _ Hrm)).
  set (w1 := with_room r _ w). rewrite (bind_lift _ (<[Z.to_nat which := r_view rm]> (swap_photo w)))
    by (by apply aset_in).
  assert (Haget : ∀ r', aget (room w1) r' = if decide (r' = r) then Some (rm <| r_view := other |>)
                                            else aget (room w) r').
  { intros r'. unfold w1, with_room. cbn. rewrite aget_alter by lia.
    destruct (decide (r' = r)) as [->|]; [by rewrite Hrm|done]. }
  assert (Hex : ∀ r', exit_of w1 r' = exit_of w r').
  { intros r'. unfold exit_of. rewrite Haget. destruct (decide (r' = r)) as [->|]; [by rewrite Hrm|done]. }
  assert (Hh : heads w1 = heads w).
  { unfold heads, w1. cbn. rewrite (list_fmap_alter r_contents _ id) by (by apply Forall_forall).
    by apply list_alter_id. }
  apply HQ; [|unfold game_of; cbn; by rewrite <- (Hex R_INVENTORY), <- (Hex R_COCKPIT)].
  split.
  - cbn. rewrite length_alter. apply Hok.
  - apply Hok.
  - intros r' rm'. cbn [room]. change (aget (room w1) r' = Some rm' → room_ok r' rm'). rewrite Haget.
    destruct (decide (r' = r)) as [->|]; [|apply (ok_room _ Hok)]. intros [= <-]. by split.
  - apply Hok.
  - cbn. rewrite length_insert. split; [done|]. by apply Forall_insert.
  - apply Hok.
  - apply Hok.
  - intros Hi. destruct (ok_back _ Hok Hi) as (rm' & p & Hrm' & Hp). cbn [room].
    change (∃ rm p, aget (room w1) R_INVENTORY = Some rm ∧ r_enter rm = Some p ∧ 0 < p < N_ROOMS).
    rewrite Haget. destruct (decide (R_INVENTORY = r)) as [<-|].
    + simplify_eq. exists (rm <| r_view := other |>), p. done.
    + by exists rm', p.
  - apply Hok.
  - change (∃ L, layout (heads w1) (nexts w) (locs w) L). rewrite Hh. apply Hok.
Qed.

Lemma wp_get_room r (Q : room_t → world → Prop) :
  0 ≤ r < N_ROOMS → (∀ rm, aget (room w) r = Some rm → Q rm w) → wp (get_room r) Q w.
Proof.
  intros Hr HQ. rewrite <- (ok_rooms _ Hok) in Hr. apply aget_is_Some in Hr as [rm Hrm].
  unfold wp. rewrite (get_room_run _ _ _ Hrm). by apply HQ.
Qed.

Lemma wp_walk_to p Q :
  0 < p < N_ROOMS →
  (∀ w', world_ok w' → game_of w' = (game_of w) <| g_where := Some p |> → Q () w') →
  wp (set_where (Some p)) Q w.
Proof.
  intros Hp HQ. apply wp_modify, HQ; [|done]. destruct Hok. split; try done.
  - intros r [= <-]. lia.
  - intros [= ->]. unfold R_INVENTORY in Hp. lia.
Qed.
Lemma wp_win Q :
  (∀ w', world_ok w' → game_of w' = (game_of w) <| g_where := None |> → Q () w') →
  wp (set_where None) Q w.
Proof. intros HQ. apply wp_modify, HQ; [|done]. destruct Hok. split; done. Qed.
Lemma wp_view_inventory p Q :
  g_back (game_of w) = Some p → 0 < p < N_ROOMS →
  (∀ w', world_ok w' → game_of w' = (game_of w) <| g_where := Some R_INVENTORY |> → Q () w') →
  wp (set_where (Some R_INVENTORY)) Q w.
Proof.
  intros Hb Hp HQ. apply wp_modify, HQ; [|done]. cbn [g_back game_of] in Hb. unfold exit_of in Hb.
  destruct (aget (room w) R_INVENTORY) as [rm|] eqn:E; [|done]. cbn in Hb.
  destruct Hok. split; try done.
  - by intros r [= <-].
  - intros _. by exists rm, p.
Qed.

(** Opening an exit: the way back from the inventory, or the plane *)
Definition open_exit (r p : Z) (g : game) : game :=
  if r =? R_INVENTORY then g <| g_back := Some p |> else g <| g_plane := Some p |>.
Lemma wp_set_enter r p Q :
  (r = R_INVENTORY ∧ 0 < p < N_ROOMS) ∨ (r = R_COCKPIT ∧ p = R_OVER_WILL) →
  (∀ w', world_ok w' → game_of w' = open_exit r p (game_of w) → Q () w') →
  wp (set_room r (λ rm, rm <| r_enter := Some p |>)) Q w.
Proof.
  intros Hrp HQ.
  assert (Hr : 0 ≤ r < N_ROOMS) by (destruct Hrp as [(-> & _)|(-> & _)]; done).
  rewrite <- (ok_rooms _ Hok) in Hr. pose proof Hr as [rm Hrm]%aget_is_Some.
  unfold wp. rewrite (set_room_run _ _ _ _ Hrm). set (w1 := with_room r _ w).
  assert (Haget : ∀ r', aget (room w1) r' = if decide (r' = r) then Some (rm <| r_enter := Some p |>)
                                            else aget (room w) r').
  { intros r'. unfold w1, with_room. cbn. rewrite aget_alter by lia.
    destruct (decide (r' = r)) as [->|]; [by rewrite Hrm|done]. }
  assert (Hex : ∀ r', exit_of w1 r' = if decide (r' = r) then Some p else exit_of w r').
  { intros r'. unfold exit_of. rewrite Haget. destruct (decide (r' = r)) as [->|]; done. }
  assert (Hh : heads w1 = heads w).
  { unfold heads, w1. cbn. rewrite (list_fmap_alter r_contents _ id) by (by apply Forall_forall).
    by apply list_alter_id. }
  apply HQ.
  - split; try apply Hok.
    + cbn. rewrite length_alter. apply Hok.
    + intros r' rm'. rewrite Haget. destruct (decide (r' = r)) as [->|]; [|apply (ok_room _ Hok)].
      intros [= <-]. destruct (ok_room _ Hok _ _ Hrm) as [Hn Hv (d & Hd & Hl & Hri & _)].
      split; [done|done|]. exists d. split; [done|]. split; [done|]. split; [done|].
      right. destruct Hrp as [(-> & Hp)|(-> & ->)]; [left|right; done]. split; [done|]. by exists p.
    + intros Hi. destruct (ok_back _ Hok Hi) as (rm' & q & Hrm' & Hq). rewrite Haget.
      destruct (decide (R_INVENTORY = r)) as [<-|]; [|by exists rm', q].
      exists (rm <| r_enter := Some p |>), p. split; [done|]. split; [done|].
      destruct Hrp as [(_ & Hp)|(? & _)]; done.
    + rewrite Hh. apply Hok.
  - unfold game_of, open_exit. cbn. rewrite !Hex.
    destruct Hrp as [(-> & _)|(-> & ->)]; done.
Qed.
End effects.
