(* ===== verification/Quest.v ===== *)
(** * Quest: the rules of the adventure

    [quest] lists what an action of the player may do to the progress of the
    game; it knows nothing of pointers, lists, pictures or random numbers.
    Every action of [World] keeps the world well formed and takes one such step
    ([act_refines_quest]), and what the rules make impossible is impossible in
    the program. *)
From S2P Require Import Prelude Photo WorldData World Layout WorldInv Effects.

(** ** The rules *)
Definition standing (g : game) : option Z := if g_where g =R= R_INVENTORY then g_back g else g_where g.
Definition carry (g : game) (o : Z) : bool := loc g o =R= R_INVENTORY.
Definition near (g : game) (o : Z) : bool := carry g o || bool_decide (loc g o = g_where g).
Definition go_to (p : Z) (g : game) : game := g <| g_where := Some p |>.
Definition to_inventory (o : Z) (g : game) : game := put o (Some R_INVENTORY) g.
Definition vanish (o : Z) (g : game) : game := put o None g.

(** Doors that open for an object the player carries *)
Definition card_door (door room : Z) : Prop :=
  (door = R_BY_395LAB ∧ room = R_IN_395LAB) ∨ (door = R_CSL_DOOR ∧ room = R_CSL_LOBBY).

Inductive quest (g : game) : game → Prop :=
  | q_stay : quest g g
  | q_walk r p : g_where g = Some r → exit g r p → 0 < p < N_ROOMS → quest g (go_to p g)
  | q_suit_door : g_where g = Some R_BY_CLEANR → flag g FLAG_WEARING_SUIT = true →
      quest g (go_to R_IN_CLEANR g)
  | q_card_door door p : card_door door p → g_where g = Some door → carry g O_ICARD = true →
      quest g (go_to p g)
  | q_robot_door : g_where g = Some R_BECK_DOOR → carry g O_ROBOT_LIVE = true →
      quest g (go_to R_BECKLOBBY g)
  | q_buy_dew : g_where g = Some R_EVRT_VEND → near g O_MTN_DEW = false →
      quest g (to_inventory O_MTN_DEW g)
  | q_yogurt : g_where g = Some R_IN_COCOMR → flag g FLAG_HAS_EATEN = false →
      quest g (set_flag FLAG_HAS_EATEN g)
  | q_mourn : g_where g = Some R_BY_ZAS → quest g (set_flag FLAG_HAS_EATEN g)
  | q_charge : g_where g = Some R_BECK_MRI → near g O_BATT_EMPTY = true →
      near g O_BATT_FULL = false →
      quest g (to_inventory O_BATT_FULL (vanish O_BATT_EMPTY g))
  | q_win : g_where g = Some R_IN_391LAB → carry g O_BOOK_C = true → carry g O_MP2 = true →
      loc g O_TUX = Some R_IN_391LAB → quest g (g <| g_where := None |>)
  | q_drink : near g O_MTN_DEW = true → quest g (vanish O_MTN_DEW g)
  | q_drop o d : 0 ≤ o < N_OBJECTS → loc g o = Some R_INVENTORY → standing g = Some d →
      quest g (put o (Some d) g)
  | q_fix : g_where g = Some R_IN_CLEANR → near g O_GPS_GOOD = false →
      near g O_GPS_BAD = true → near g O_GPS_SPEC = true →
      quest g (to_inventory O_GPS_GOOD (vanish O_GPS_SPEC (vanish O_GPS_BAD g)))
  | q_flash : g_where g = Some R_IN_395LAB → near g O_ROBOT_DEAD = true →
      near g O_ROBOT_LIVE = false →
      quest g (to_inventory O_ROBOT_LIVE (vanish O_ROBOT_DEAD g))
  | q_get o d : 0 ≤ o < N_OBJECTS → standing g = Some d → loc g o = Some d →
      (o = O_TUX → flag g FLAG_LURED_TUX = true) → quest g (to_inventory o g)
  | q_book : standing g = Some R_RESERVE → flag g FLAG_HAS_EATEN = true →
      loc g O_BOOK_C = None → quest g (to_inventory O_BOOK_C g)
  | q_novel : standing g = Some R_RESERVE → flag g FLAG_HAS_EATEN = false →
      loc g O_BOOK_WODE = None → quest g (to_inventory O_BOOK_WODE g)
  | q_unplug : standing g = Some R_CAR_SITE → loc g O_BATT_CAR = Some R_CAR_SITE →
      quest g (to_inventory O_BATT_EMPTY (vanish O_BATT_CAR g))
  | q_drive_allerton : g_where g = Some R_WILLARD ∨ g_where g = Some R_CAR_SITE →
      flag g FLAG_CAR_FIXED = true → carry g O_GPS_GOOD = true → quest g (go_to R_ALLERTON g)
  | q_drive_willard : g_where g = Some R_ALLERTON ∨ g_where g = Some R_CAR_SITE →
      flag g FLAG_CAR_FIXED = true → quest g (go_to R_WILLARD g)
  | q_drive_campus : g_where g = Some R_ALLERTON ∨ g_where g = Some R_WILLARD →
      quest g (go_to R_CAR_SITE g)
  | q_install_battery : g_where g = Some R_CAR_SITE → near g O_BATT_FULL = true →
      near g O_BATT_EMPTY = false → quest g (set_flag FLAG_CAR_FIXED (vanish O_BATT_FULL g))
  | q_install_mimo : g_where g = Some R_COCKPIT → near g O_MIMO_CARD = true →
      quest g ((vanish O_MIMO_CARD g) <| g_plane := Some R_OVER_WILL |>)
  | q_look r : g_where g = Some r → 0 < r < N_ROOMS →
      quest g (g <| g_back := Some r |> <| g_where := Some R_INVENTORY |>)
  | q_open_car : g_where g = Some R_CAR_SITE → flag g FLAG_CAR_FIXED = false →
      flag g FLAG_CAR_OPEN = false → carry g O_CAR_KEY = true →
      quest g (set_flag FLAG_CAR_OPEN (put O_BATT_CAR (Some R_CAR_SITE) (vanish O_CAR_KEY g)))
  | q_lure : g_where g = Some R_REM_LAB → near g O_FISH = true →
      quest g (set_flag FLAG_LURED_TUX (to_inventory O_TUX (vanish O_FISH g)))
  | q_wear : near g O_BUNNYSUIT = true →
      quest g (set_flag FLAG_WEARING_SUIT (vanish O_BUNNYSUIT g)).

(** ** Every action follows the rules *)
Definition follows (g : game) (w : world) : Prop := world_ok w ∧ quest g (game_of w).

Lemma is_room_true r R : (r =R= R) = true → r = Some R.
Proof. by intros H%bool_decide_eq_true. Qed.
Lemma two_rooms r R R' : negb (r =R= R) && negb (r =R= R') = false → r = Some R ∨ r = Some R'.
Proof.
  intros [H|H]%andb_false_iff; apply negb_false_iff, is_room_true in H; auto.
Qed.

(** What the tests of the code say about the game *)
Ltac learn := repeat match goal with
  | H : context [negb true] |- _ => change (negb true) with false in H
  | H : context [negb false] |- _ => change (negb false) with true in H
  | H : context [true && _] |- _ => rewrite andb_true_l in H
  | H : context [_ && true] |- _ => rewrite andb_true_r in H
  | H : context [_ && false] |- _ => rewrite andb_false_r in H
  | H : negb (_ =R= _) && negb (_ =R= _) = false |- _ => apply two_rooms in H
  | H : negb _ = true |- _ => apply negb_true_iff in H
  | H : negb _ = false |- _ => apply negb_false_iff in H
  | H : (_ && _) = true |- _ => apply andb_true_iff in H as [? ?]
  | H : (_ =R= _) = true |- _ => apply is_room_true in H
  end.

(** [runs] steps through an action: each primitive is replaced by its effect
    on the game, and each test splits the goal. *)
Ltac run1 :=
  lazymatch goal with
  | |- wp (mbind _ _) _ _ => apply wp_bind; cbn beta
  | |- wp (mret _) _ _ => apply wp_ret; cbn beta
  | |- wp skip _ _ => apply wp_skip; cbn beta
  | |- wp (gets _) _ _ => apply wp_gets; cbn beta
  | |- wp (say _ _) _ _ => unfold say
  | |- wp car_trouble _ _ => unfold car_trouble
  | |- wp (loc_of _) _ _ => apply wp_loc_of; [assumption|done|]
  | |- wp (carried _) _ _ => apply wp_carried; [assumption|done|]
  | |- wp (at_hand _ _) _ _ => apply wp_at_hand; [assumption|done|]
  | |- wp (player_flag_is_set _) _ _ => apply wp_flag; [assumption|done|]
  | |- wp (show_status _) _ _ =>
      apply wp_status; [assumption|];
      let w := fresh "w" in let H := fresh "Hok" in let G := fresh "G" in intros w H G
  | |- wp rand _ _ =>
      apply wp_rand; [assumption|];
      let k := fresh "k" in let w := fresh "w" in let H := fresh "Hok" in let G := fresh "G" in
      let K := fresh "Hk" in intros k w K H G
  | |- wp (remove_object _) _ _ =>
      apply wp_remove; [assumption|done|];
      let w := fresh "w" in let H := fresh "Hok" in let G := fresh "G" in intros w H G
  | |- wp (move_object_to_inventory _) _ _ =>
      apply wp_to_inventory; [assumption|first [done|assumption]|];
      let w := fresh "w" in let H := fresh "Hok" in let G := fresh "G" in intros w H G
  | |- wp (insert_object_at _ (Some _) _ _) _ _ =>
      apply wp_insert_at; [assumption|done|done|];
      let w := fresh "w" in let H := fresh "Hok" in let G := fresh "G" in intros w H G
  | |- wp (player_set_flag _) _ _ =>
      apply wp_set_flag; [assumption|done|];
      let w := fresh "w" in let H := fresh "Hok" in let G := fresh "G" in intros w H G
  | |- wp (do_photo_swap (where_ ?w) _) _ _ =>
      learn; match goal with E : where_ w = Some _ |- _ => rewrite !E end
  | |- wp (do_photo_swap (Some _) _) _ _ =>
      apply wp_photo_swap; [assumption|done|done|];
      let w := fresh "w" in let H := fresh "Hok" in let G := fresh "G" in intros w H G
  | |- wp (set_where (Some _)) _ _ =>
      apply wp_walk_to; [assumption|first [done|assumption]|];
      let w := fresh "w" in let H := fresh "Hok" in let G := fresh "G" in intros w H G
  | |- wp (if ?b then _ else _) _ _ => let E := fresh "E" in destruct b eqn:E
  | |- wp (match ?o with Some _ => _ | None => _ end) _ _ => let E := fresh "E" in destruct o eqn:E
  end.
Ltac runs := repeat run1.


(** [stay] ends an action that leaves the game as it was; [by_rule q] ends
    one that takes the step of rule [q]. *)
Ltac games := repeat match goal with G : game_of _ = _ |- _ => try rewrite G in *; clear G end.
Ltac stay := split; [assumption|]; games; apply q_stay.
Ltac given := first [eassumption | done | congruence
  | repeat match goal with E : loc _ _ = _ |- _ => rewrite E end; first [eassumption | done]].
Ltac by_rule q :=
  split; [assumption|]; learn; games; eapply q; unfold near, carry in *; given.

Section actions.
Context (w : world) (Hok : world_ok w).

Lemma buy_follows arg : wp (typed_cmd_buy arg) (λ _, follows (game_of w)) w.
Proof. unfold typed_cmd_buy. runs; try stay; [by_rule q_buy_dew..|by_rule q_yogurt]. Qed.
Lemma charge_follows arg : wp (typed_cmd_charge arg) (λ _, follows (game_of w)) w.
Proof. unfold typed_cmd_charge. runs; try stay; by_rule q_charge. Qed.
Lemma do_follows arg : wp (typed_cmd_do arg) (λ _, follows (game_of w)) w.
Proof.
  unfold typed_cmd_do. runs; try stay. apply wp_win; [assumption|]. intros w' Hok' G. runs.
  by_rule q_win.
Qed.
Lemma drink_follows arg : wp (typed_cmd_drink arg) (λ _, follows (game_of w)) w.
Proof. unfold typed_cmd_drink. runs; try stay; by_rule q_drink. Qed.
Lemma fix_follows arg : wp (typed_cmd_fix arg) (λ _, follows (game_of w)) w.
Proof. unfold typed_cmd_fix. runs; try stay; by_rule q_fix. Qed.
Lemma flash_follows arg : wp (typed_cmd_flash arg) (λ _, follows (game_of w)) w.
Proof. unfold typed_cmd_flash. runs; try stay; by_rule q_flash. Qed.
Lemma sigh_follows arg : wp (typed_cmd_sigh arg) (λ _, follows (game_of w)) w.
Proof. unfold typed_cmd_sigh. runs; try stay; by_rule q_mourn. Qed.
Lemma wear_follows arg : wp (typed_cmd_wear arg) (λ _, follows (game_of w)) w.
Proof. unfold typed_cmd_wear. runs; try stay; by_rule q_wear. Qed.
Lemma go_follows arg : wp (typed_cmd_go arg) (λ _, follows (game_of w)) w.
Proof.
  unfold typed_cmd_go. runs; try stay;
    [by_rule q_drive_allerton|by_rule q_drive_willard|by_rule q_drive_campus].
Qed.
Lemma install_follows arg : wp (typed_cmd_install arg) (λ _, follows (game_of w)) w.
Proof.
  unfold typed_cmd_install. runs; try stay; [by_rule q_install_battery|].
  apply wp_set_enter; [assumption|by right|]. intros w' Hok' G'. runs. by_rule q_install_mimo.
Qed.
Lemma use_follows arg : wp (typed_cmd_use arg) (λ _, follows (game_of w)) w.
Proof. unfold typed_cmd_use. runs; try stay; [by_rule q_open_car|by_rule q_lure]. Qed.
End actions.

Lemma is_room_false r R : (Some r =R= R) = false → r ≠ R.
Proof. intros H%bool_decide_eq_false ->. done. Qed.

(** ** Actions that follow a pointer to the player's room *)
Section standing.
Context (w : world) (Hok : world_ok w).
Context (r : Z) (Hr : where_ w = Some r).

Lemma where_range : 0 ≤ r < N_ROOMS.
Proof. by apply (ok_where _ Hok). Qed.
Lemma back_of_inventory :
  r = R_INVENTORY → ∃ p, g_back (game_of w) = Some p ∧ 0 < p < N_ROOMS.
Proof.
  intros ->. destruct (ok_back _ Hok Hr) as (rm & p & Hrm & Hp & Hrange). exists p.
  split; [|done]. cbn. unfold exit_of. by rewrite Hrm.
Qed.

Lemma standing_eq : standing (game_of w) = if decide (r = R_INVENTORY) then g_back (game_of w) else Some r.
Proof.
  unfold standing. cbn [g_where game_of]. rewrite Hr. unfold is_room.
  destruct (decide (r = R_INVENTORY)) as [->|Hne]; [done|].
  rewrite bool_decide_eq_false_2 by naive_solver. done.
Qed.
Lemma wp_standing (Q : option Z → world → Prop) :
  (∀ d, 0 ≤ d < N_ROOMS → standing (game_of w) = Some d → Q (Some d) w) →
  wp (standing_room (Some r)) Q w.
Proof.
  intros HQ. unfold standing_room. rewrite standing_eq in HQ.
  destruct (Some r =R= R_INVENTORY) eqn:E.
  - apply is_room_true in E. destruct (back_of_inventory ltac:(congruence)) as (p & Hb & Hp).
    apply wp_bind, wp_get_room; [done|done|]. intros rm Hrm. apply wp_ret.
    assert (r_enter rm = Some p) as ->
      by (cbn in Hb; unfold exit_of in Hb; by rewrite Hrm in Hb).
    apply HQ; [lia|]. rewrite decide_True by congruence. done.
  - apply is_room_false in E. apply wp_ret, HQ; [apply where_range|]. by rewrite decide_False.
Qed.

End standing.

Lemma same_where w w' : game_of w' = game_of w → where_ w' = where_ w.
Proof. intros G. exact (f_equal g_where G). Qed.

Section walking.
Context (w : world) (Hok : world_ok w) (r : Z) (Hr : where_ w = Some r).

Lemma inventory_follows arg : wp (typed_cmd_inventory arg) (λ _, follows (game_of w)) w.
Proof.
  unfold typed_cmd_inventory. run1. run1. rewrite Hr. runs.
  - learn. destruct (back_of_inventory w Hok r Hr ltac:(congruence)) as (p & Hb & Hp).
    apply wp_get_room; [assumption|done|]. intros rm Hrm.
    assert (r_enter rm = Some p) as ->
      by (cbn in Hb; unfold exit_of in Hb; by rewrite Hrm in Hb).
    runs. split; [done|]. games. apply (q_walk _ r); [done| |done].
    right; left. split; [congruence|done].
  - apply is_room_false in E. pose proof (where_range w Hok r Hr) as Hrange.
    assert (0 < r < N_ROOMS) by (unfold R_INVENTORY in E; lia).
    apply wp_set_enter; [assumption|by left|]. intros w' Hok' G. unfold open_exit in G.
    rewrite Z.eqb_refl in G. runs. apply (wp_view_inventory _ Hok' r); [by rewrite G|done|].
    intros w'' Hok'' G'. runs. split; [done|]. games. by apply (q_look _ r).
Qed.

Lemma drop_follows arg : wp (typed_cmd_drop arg) (λ _, follows (game_of w)) w.
Proof.
  unfold typed_cmd_drop. run1. run1. rewrite Hr. run1.
  apply wp_find; [assumption|done| |runs; stay]. intros o Ho Hloc.
  assert (Hdrop : ∀ w', world_ok w' → game_of w' = game_of w →
    wp (standing_room (Some r) ≫= λ dest, insert_object o dest ≫= λ _, mret TC_REDRAW_ROOM)
      (λ _, follows (game_of w)) w').
  { intros w' Hok' G. apply wp_bind, wp_standing; [done|by rewrite (same_where _ _ G)|].
    intros d Hd Hs. run1. apply wp_insert_object; [done..|]. intros w2 Hok2 G2. runs.
    rewrite G in Hs. by_rule q_drop. }
  run1. run1; run1; by apply Hdrop.
Qed.

(** The outcomes of a special [get] *)
Inductive special (g : game) : Z → option Z → game → Prop :=
  | sp_none r : special g r None g
  | sp_book : flag g FLAG_HAS_EATEN = true → loc g O_BOOK_C = None →
      special g R_RESERVE (Some O_BOOK_C) g
  | sp_novel : flag g FLAG_HAS_EATEN = false → loc g O_BOOK_WODE = None →
      special g R_RESERVE (Some O_BOOK_WODE) g
  | sp_unplug : loc g O_BATT_CAR = Some R_CAR_SITE →
      special g R_CAR_SITE (Some O_BATT_EMPTY) (vanish O_BATT_CAR g).
Lemma wp_special d arg (Q : option Z → world → Prop) :
  (∀ o w', world_ok w' → special (game_of w) d o (game_of w') → Q o w') →
  wp (obj_special_get (Some d) arg) Q w.
Proof.
  intros HQ. unfold obj_special_get.
  destruct (decide (Some R_RESERVE = Some d)) as [[= <-]|].
  - rewrite decide_False by done.
    runs; apply HQ; try assumption; games; by constructor.
  - destruct (decide (Some R_CAR_SITE = Some d)) as [[= <-]|]; [|runs; apply HQ; [done|constructor]].
    runs; apply HQ; try assumption; games; by constructor.
Qed.

Lemma get_follows arg : wp (typed_cmd_get arg) (λ _, follows (game_of w)) w.
Proof.
  unfold typed_cmd_get. run1. run1. rewrite Hr. run1. apply (wp_standing w Hok r Hr). intros d Hd Hs.
  run1. apply wp_special. intros sp w1 Hok1 Hsp.
  assert (Hget : ∀ o, 0 ≤ o < N_OBJECTS → (o = O_TUX → quest (game_of w) (game_of w1)) →
      ((o = O_TUX → flag (game_of w1) FLAG_LURED_TUX = true) →
       quest (game_of w) (to_inventory o (game_of w1))) →
    wp (lured ← player_flag_is_set FLAG_LURED_TUX;
        if (O_TUX =? o) && negb lured then
          say "Tux must choose you!  Try using a fish." TC_DISCARD_TEXT
        else move_object_to_inventory o;; mret TC_REDRAW_ROOM) (λ _, follows (game_of w)) w1).
  { intros o Ho Htux Hquest. runs.
    - split; [done|]. rewrite G. apply Htux. learn. lia.
    - split; [done|]. rewrite G. apply Hquest. intros ->.
      by destruct (flag (game_of w1) FLAG_LURED_TUX). }
  remember (game_of w1) as g1 eqn:Hg1. destruct Hsp.
  - run1. apply wp_find; [done|done| |runs; split; [done|]; rewrite G, <- Hg1; apply q_stay].
    intros o Ho Hl. apply Hget; [done|intros _; apply q_stay|].
    intros Htux. eapply q_get; [done|exact Hs|by rewrite Hg1|done].
  - run1. run1. apply Hget; [done|done|]. intros _. by apply q_book.
  - run1. run1. apply Hget; [done|done|]. intros _. by apply q_novel.
  - run1. run1. apply Hget; [done|done|]. intros _. by apply q_unplug.
Qed.

(** ** Moving *)
Lemma move_into_follows p :
  exit (game_of w) r p → 0 < p < N_ROOMS → wp (move_into p) (λ _, follows (game_of w)) w.
Proof.
  intros Hx Hp. unfold move_into.
  runs; try (split; [assumption|]; games; by apply (q_walk _ r)).
  apply wp_photo_swap; [done|lia|done|]. intros w2 Hok2 G2. runs.
  split; [done|]; games; by apply (q_walk _ r).
Qed.
Lemma cant_go_follows rp : wp (cant_go rp) (λ _, follows (game_of w)) w.
Proof. unfold cant_go. runs; stay. Qed.
Lemma left_follows : wp try_to_move_left (λ _, follows (game_of w)) w.
Proof.
  unfold try_to_move_left. run1. run1. rewrite Hr. run1. run1. apply wp_lift with r; [done|].
  apply wp_get_room; [done|by apply (where_range w)|]. intros rm Hrm.
  destruct (r_left rm) as [p|] eqn:E; [|apply cant_go_follows].
  destruct (room_exit w r rm p Hok Hrm) as [Hx Hp]; [by left|]. by apply move_into_follows.
Qed.
Lemma right_follows : wp try_to_move_right (λ _, follows (game_of w)) w.
Proof.
  unfold try_to_move_right. run1. run1. rewrite Hr. run1. run1. apply wp_lift with r; [done|].
  apply wp_get_room; [done|by apply (where_range w)|]. intros rm Hrm.
  destruct (r_right rm) as [p|] eqn:E; [|apply cant_go_follows].
  destruct (room_exit w r rm p Hok Hrm) as [Hx Hp]; [by right; right|]. by apply move_into_follows.
Qed.

Lemma swipe_follows door p :
  r = door → card_door door p → wp (swipe_icard p) (λ _, follows (game_of w)) w.
Proof.
  intros <- Hd. assert (0 < p < N_ROOMS) by (destruct Hd as [(_ & ->)|(_ & ->)]; done).
  unfold swipe_icard. runs; try stay. by_rule q_card_door.
Qed.
Lemma advice_Some k : 0 ≤ k → is_Some (aget advice (Z.rem k 8)).
Proof. intros Hk. apply aget_is_Some. pose proof (Z.rem_bound_pos k 8). cbn. lia. Qed.

Lemma enter_follows : wp try_to_enter (λ _, follows (game_of w)) w.
Proof.
  unfold try_to_enter. run1. run1. rewrite Hr. run1. run1. apply wp_lift with r; [done|].
  apply wp_get_room; [done|by apply (where_range w)|]. intros rm Hrm.
  destruct (r_enter rm) as [p|] eqn:E.
  { destruct (room_exit w r rm p Hok Hrm) as [Hx Hp]; [by right; left|]. by apply move_into_follows. }
  clear rm Hrm E.
  repeat (match goal with |- wp (if ?b then _ else _) _ _ =>
    let E := fresh "E" in destruct b eqn:E; [apply is_room_true in E; injection E as Er|] end).
  - runs; [|stay]. rewrite Er in Hr. by_rule q_suit_door.
  - apply (swipe_follows R_BY_395LAB); [done|by left].
  - apply (swipe_follows R_CSL_DOOR); [done|by right].
  - runs; try stay. rewrite Er in Hr. by_rule q_robot_door.
  - run1. apply wp_rand; [done|]. intros k w' Hk Hok' G. run1.
    destruct (advice_Some k Hk) as [msg Hmsg]. apply wp_lift with msg; [done|]. runs. stay.
  - runs; stay.
  - runs; stay.
Qed.
End walking.

Lemma act_follows w a r : world_ok w → where_ w = Some r → wp (act a) (λ _, follows (game_of w)) w.
Proof.
  intros Hok Hr. destruct a as [| | |cmd arg]; cbn [act].
  - by eapply left_follows.
  - by eapply enter_follows.
  - by eapply right_follows.
  - destruct cmd; cbn [typed_cmd];
      [apply buy_follows|apply charge_follows|apply do_follows|apply drink_follows
      |eapply drop_follows|apply fix_follows|apply flash_follows|eapply get_follows|apply go_follows
      |apply install_follows|eapply inventory_follows|apply sigh_follows|apply use_follows
      |apply wear_follows]; eassumption.
Qed.
