(* ===== verification/Build.v ===== *)
(** * Build: [build_world] makes a well-formed world

    The three loops of [build_world] over their tables: it succeeds exactly
    when every image file can be read, and the world it makes satisfies
    [world_ok] with every object where its table entry puts it. *)
From S2P Require Import Prelude Photo WorldData World Layout WorldInv Effects.

Definition blank_room : room_t := mk_room None None None None None None.
Definition blank_object : object_t := mk_object None None None 0 0 None.

Definition readable_photo (h : host) (f : string) : bool :=
  match read_photo h f with Some (Some _) => true | _ => false end.
Definition readable_image (h : host) (f : string) : bool :=
  match read_obj_image h f with Some (Some _) => true | _ => false end.
Definition world_readable (h : host) : bool :=
  forallb (λ d, readable_photo h (rd_filename d)) room_data
  && forallb (λ d, readable_image h (od_filename d)) obj_data
  && forallb (λ d, readable_photo h (sd_filename d)) swap_data.

(** ** Loops over a table that stop at the first bad entry *)
Lemma wp_all_ok {A} (f : A → W bool) (good : A → bool) (I : list A → world → Prop) (l : list A) w :
  I [] w →
  (∀ pre d post w, l = pre ++ d :: post → I pre w →
    wp (f d) (λ b w', b = good d ∧ (b = true → I (pre ++ [d]) w')) w) →
  wp (all_ok f l) (λ b w', b = forallb good l ∧ (b = true → I l w')) w.
Proof.
  intros H0 Hstep.
  assert (Hgen : ∀ post pre w, l = pre ++ post → I pre w →
    wp (all_ok f post) (λ b w', b = forallb good post ∧ (b = true → I l w')) w);
    [|by apply (Hgen l [])].
  induction post as [|d post IH]; intros pre w1 Hl Hi; cbn [all_ok forallb].
  - apply wp_ret. split; [done|]. intros _. by rewrite Hl, app_nil_r.
  - apply wp_bind. eapply wp_mono; [by eapply (Hstep pre d post)|].
    intros b w' [-> Hi']. destruct (good d); [|by apply wp_ret].
    cbn [andb]. apply (IH (pre ++ [d])); [by rewrite <- app_assoc|by apply Hi'].
Qed.

(** Filling an array entry by entry: [store id v l] is the array [l] with
    the values of [v] at the indices of the entries of [l]. *)
Definition fill {A B} (id : A → Z) (v : A → B) (a : list B) (l : list A) : list B :=
  foldl (λ a d, <[Z.to_nat (id d) := v d]> a) a l.

Lemma fill_length {A B} (id : A → Z) (v : A → B) a l : length (fill id v a l) = length a.
Proof.
  unfold fill. revert a. induction l as [|d l IH]; intros a; [done|].
  cbn. by rewrite IH, length_insert.
Qed.
Lemma fill_snoc {A B} (id : A → Z) (v : A → B) a l d :
  fill id v a (l ++ [d]) = <[Z.to_nat (id d) := v d]> (fill id v a l).
Proof. unfold fill. by rewrite foldl_app. Qed.
Lemma fill_other {A B} (id : A → Z) (v : A → B) a l i :
  Forall (λ d, 0 ≤ id d) l → i ∉ (id <$> l) → aget (fill id v a l) i = aget a i.
Proof.
  unfold fill. revert a. induction l as [|d l IH]; intros a Hp Hi; [done|].
  apply Forall_cons in Hp as [Hd Hp]. cbn in Hi |- *. rewrite IH; [|done|set_solver].
  unfold aget. destruct (Z.ltb_spec i 0); [done|]. apply list_lookup_insert_ne.
  intros He. apply Hi. assert (id d = i) as -> by lia. set_solver.
Qed.

(** What a table must satisfy: indices in range, no index twice *)
Definition table_ok {A} (id : A → Z) (n : Z) (l : list A) : Prop :=
  Forall (λ d, 0 ≤ id d < n) l ∧ NoDup (id <$> l).
Lemma table_fresh {A B} (id : A → Z) n (v : A → B) a pre d post :
  table_ok id n (pre ++ d :: post) →
  0 ≤ id d < n ∧ aget (fill id v a pre) (id d) = aget a (id d).
Proof.
  intros [Hr Hnd]. apply Forall_app in Hr as [Hpre Hd]. apply Forall_cons in Hd as [Hd _].
  split; [done|]. apply fill_other; [eapply Forall_impl; [exact Hpre|cbn; lia]|].
  rewrite fmap_app in Hnd. apply NoDup_app in Hnd as (_ & Hn & _). intros Hi. apply (Hn _ Hi). set_solver.
Qed.

Lemma room_table : table_ok rd_id N_ROOMS room_data.
Proof. split; [apply (bool_decide_unpack _); vm_compute; exact I|apply (bool_decide_unpack _); vm_compute; exact I]. Qed.
Lemma object_table : table_ok od_id N_OBJECTS obj_data.
Proof. split; [apply (bool_decide_unpack _); vm_compute; exact I|apply (bool_decide_unpack _); vm_compute; exact I]. Qed.
Lemma swap_table : table_ok sd_id N_SWAPS swap_data.
Proof. split; [apply (bool_decide_unpack _); vm_compute; exact I|apply (bool_decide_unpack _); vm_compute; exact I]. Qed.

(** ** Stores as insertions *)
Lemma set_room_insert r f w rm :
  aget (room w) r = Some rm →
  set_room r f w = Some ((), w <| room := <[Z.to_nat r := f rm]> (room w) |>).
Proof.
  intros Hr. rewrite (set_room_run _ _ _ _ Hr). unfold with_room. by erewrite alter_insert_Some.
Qed.
Lemma set_object_insert o f w ob :
  aget (object w) o = Some ob →
  set_object o f w = Some ((), w <| object := <[Z.to_nat o := f ob]> (object w) |>).
Proof.
  intros Hr. rewrite (set_object_run _ _ _ _ Hr). unfold with_object. by erewrite alter_insert_Some.
Qed.
Lemma aget_stored {A} (l : list A) i v x : aget l i = Some x → aget (<[Z.to_nat i := v]> l) i = Some v.
Proof. intros H%aget_Some_range. rewrite aget_insert by done. by rewrite decide_True. Qed.

(** ** The rooms *)
Section rooms.
Context (h : host) (Hh : host_ok h).

Definition view_of (f : string) : option photo_t := default None (read_photo h f).
Definition built_room (d : room_data_t) : room_t :=
  mk_room (Some (rd_name d)) (view_of (rd_filename d)) None
    (room_ptr (rd_left d)) (room_ptr (rd_enter d)) (room_ptr (rd_right d)).
Definition rooms_of (l : list room_data_t) : list room_t :=
  fill rd_id built_room (replicate (Z.to_nat N_ROOMS) blank_room) l.

Lemma build_room_wp pre d post w :
  room_data = pre ++ d :: post → room w = rooms_of pre →
  wp (build_room h d) (λ b w', b = readable_photo h (rd_filename d) ∧
    (b = true → w' = w <| room := rooms_of (pre ++ [d]) |>)) w.
Proof.
  intros Hl Hw. destruct (table_fresh rd_id N_ROOMS built_room
    (replicate (Z.to_nat N_ROOMS) blank_room) pre d post) as [Hr Hf];
    [rewrite <- Hl; apply room_table|].
  assert (H0 : aget (room w) (rd_id d) = Some blank_room).
  { rewrite Hw. unfold rooms_of. rewrite Hf, aget_nonneg by lia. apply lookup_replicate_2. lia. }
  destruct (read_photo_total h (rd_filename d) Hh) as [p Hp].
  unfold wp, build_room. cbn zeta.
  replace (_ || _) with false by (symmetry; apply orb_false_iff; split; [|apply Z.leb_gt; lia];
    rewrite Z.gtb_ltb; apply Z.ltb_ge; lia).
  rewrite (bind_run _ _ _ _ _ (get_room_run _ _ _ H0)). cbn [r_name blank_room].
  rewrite (bind_run _ _ _ _ _ (set_room_insert _ _ _ _ H0)), (bind_lift _ p) by done.
  set (w1 := setter room _ w).
  assert (H1 : aget (room w1) (rd_id d) = Some (blank_room <| r_name := Some (rd_name d) |>))
    by (by eapply aget_stored).
  rewrite (bind_run _ _ _ _ _ (set_room_insert _ _ _ _ H1)). set (w2 := setter room _ w1).
  unfold readable_photo. rewrite Hp. destruct p as [p|]; [|done].
  assert (H2 : aget (room w2) (rd_id d)
    = Some (blank_room <| r_name := Some (rd_name d) |> <| r_view := Some p |>))
    by (by eapply aget_stored).
  rewrite (bind_run _ _ _ _ _ (set_room_insert _ _ _ _ H2)).
  split; [done|]. intros _. unfold rooms_of. rewrite fill_snoc. unfold w2, w1. cbn [room setter].
  rewrite !list_insert_insert_eq. fold (rooms_of pre). rewrite <- Hw.
  unfold built_room, view_of. rewrite Hp. done.
Qed.

(** ** The objects *)
Definition image_of (f : string) : option image_t := default None (read_obj_image h f).

Lemma layout_next hs ns ls L o p :
  layout hs ns ls L → aget ls o = Some None → layout hs (<[Z.to_nat o := p]> ns) ls L.
Proof.
  intros HL Ho. pose proof (aget_Some_range _ _ _ Ho) as Hr.
  destruct HL as [Hc Hl Hn Hrm Hob Hlen]. split; try done; [|by rewrite length_insert].
  intros r q Hq. apply (chain_ext ns); [|by apply Hc]. intros o' Ho'.
  rewrite aget_insert, decide_False; [done| |by rewrite Hlen].
  intros ->. by apply (Hl _ r _ Ho) in Ho'.
Qed.

(** The world after the entries of [pre], in a world that had the rooms of [w0] *)
Record objects_built (w0 : world) (pre : list obj_data_t) (w : world) : Prop := {
  ob_rooms : face <$> room w = face <$> room w0;
  ob_make : make <$> object w =
    fill od_id (λ d, (Some (od_name d), image_of (od_filename d)))
      (replicate (Z.to_nat N_OBJECTS) (None, None)) pre;
  ob_locs : locs w = fill od_id (λ d, room_ptr (od_room d)) (replicate (Z.to_nat N_OBJECTS) None) pre;
  ob_laid : ∃ L, laid w L;
  ob_rest : player_flags w = player_flags w0 ∧ swap_photo w = swap_photo w0
    ∧ where_ w = where_ w0 ∧ rng w = rng w0;
}.

Section objects.
Context (w0 : world) (Hrooms : zlen (room w0) = N_ROOMS).
Context (Hviews : ∀ r rm, aget (room w0) r = Some rm → is_Some (r_view rm)).

(** The three stores that fill in the members of a fresh object *)
Definition fresh_object (d : obj_data_t) (im : image_t) : object_t :=
  mk_object (Some (od_name d)) None None 0 0 (Some im).
Definition with_fresh (d : obj_data_t) (im : image_t) (w : world) : world :=
  w <| object := <[Z.to_nat (od_id d) := fresh_object d im]> (object w) |>.

(** An entry's object before its turn *)
Lemma object_blank pre d post w :
  obj_data = pre ++ d :: post → objects_built w0 pre w →
  0 ≤ od_id d < N_OBJECTS ∧ zlen (object w) = N_OBJECTS ∧ aget (locs w) (od_id d) = Some None ∧
  ∃ ob, aget (object w) (od_id d) = Some ob ∧ o_name ob = None.
Proof.
  intros Hl [_ Hmake Hlocs _ _].
  pose proof object_table as Ht. rewrite Hl in Ht.
  assert (Hlen : zlen (object w) = N_OBJECTS).
  { apply (f_equal length) in Hmake. rewrite length_fmap, fill_length, length_replicate in Hmake.
    rewrite Hmake. done. }
  destruct (table_fresh od_id N_OBJECTS (λ d, room_ptr (od_room d))
    (replicate (Z.to_nat N_OBJECTS) None) pre d post Ht) as [Hr Hf].
  destruct (table_fresh od_id N_OBJECTS (λ d, (Some (od_name d), image_of (od_filename d)))
    (replicate (Z.to_nat N_OBJECTS) (None, None)) pre d post Ht) as [_ Hf'].
  rewrite <- Hlocs in Hf. rewrite <- Hmake, aget_fmap in Hf'.
  rewrite (aget_nonneg (replicate _ _)) in Hf by lia. rewrite (aget_nonneg (replicate _ _)) in Hf' by lia.
  rewrite lookup_replicate_2 in Hf by lia. rewrite lookup_replicate_2 in Hf' by lia.
  split; [done|]. split; [done|]. split; [done|].
  destruct (aget (object w) (od_id d)) as [ob|]; [|done]. exists ob. split; [done|].
  cbn in Hf'. by injection Hf'.
Qed.

Lemma with_fresh_built pre d post im w :
  obj_data = pre ++ d :: post → objects_built w0 pre w →
  image_of (od_filename d) = Some im →
  (face <$> room (with_fresh d im w) = face <$> room w0) ∧
  make <$> object (with_fresh d im w) =
    fill od_id (λ d, (Some (od_name d), image_of (od_filename d)))
      (replicate (Z.to_nat N_OBJECTS) (None, None)) (pre ++ [d]) ∧
  locs (with_fresh d im w) = locs w ∧ ∃ L, laid (with_fresh d im w) L.
Proof.
  intros Hl Hb Him. destruct (object_blank pre d post w Hl Hb) as (Hr & Hlen & Hloc & ob & Hob & _).
  destruct Hb as [Hrm Hmake _ [L HL] _].
  assert (Hlocs : locs (with_fresh d im w) = locs w).
  { unfold locs, with_fresh. cbn. rewrite list_fmap_insert. cbn.
    apply list_insert_id. rewrite aget_nonneg in Hloc by lia. exact Hloc. }
  split; [done|]. split.
  { rewrite fill_snoc, <- Hmake, Him. unfold with_fresh. cbn. by rewrite list_fmap_insert. }
  split; [done|]. exists L. unfold laid. rewrite Hlocs.
  assert (nexts (with_fresh d im w) = <[Z.to_nat (od_id d) := None]> (nexts w)) as ->.
  { unfold nexts, with_fresh. cbn. by rewrite list_fmap_insert. }
  by apply layout_next.
Qed.
(** Placing the object where its entry says *)
Lemma place_wp pre d post im w :
  obj_data = pre ++ d :: post → objects_built w0 pre w →
  image_of (od_filename d) = Some im →
  wp (if negb (R_NONE =? od_room d) then
        if negb (-1 =? od_x d) then
          insert_object_at (od_id d) (Some (od_room d)) (od_x d) (od_y d)
        else insert_object (od_id d) (Some (od_room d))
      else skip) (λ _, objects_built w0 (pre ++ [d])) (with_fresh d im w).
Proof.
  intros Hl Hb Him. destruct (with_fresh_built pre d post im w Hl Hb Him) as (Hrm & Hmk & Hls & L & HL).
  destruct (object_blank pre d post w Hl Hb) as (Hr & Hlen & Hloc & ob & Hob & _).
  destruct Hb as [_ _ Hlocs _ Hrest]. set (w1 := with_fresh d im w) in *.
  assert (Hroom : R_NONE ≤ od_room d < N_ROOMS).
  { assert (Ht : Forall (λ d, R_NONE ≤ od_room d < N_ROOMS) obj_data)
      by (apply (bool_decide_unpack _); vm_compute; exact I).
    rewrite Hl in Ht. apply Forall_app in Ht as [_ Ht]. by apply Forall_cons in Ht as [? _]. }
  assert (Hdone : ∀ w', moved w1 w' → locs w' = <[Z.to_nat (od_id d) := room_ptr (od_room d)]> (locs w1) →
    (∃ L, laid w' L) → objects_built w0 (pre ++ [d]) w').
  { intros w' Hm Hls' HL'. split; [by rewrite (mv_room _ _ Hm)|by rewrite (mv_object _ _ Hm)| |done|].
    - by rewrite fill_snoc, <- Hlocs, <- Hls.
    - by rewrite (mv_flags _ _ Hm), (mv_swap _ _ Hm), (mv_where _ _ Hm), (mv_rng _ _ Hm). }
  assert (Hlen1 : zlen (object w1) ≤ N_OBJECTS)
    by (unfold w1, with_fresh; cbn; rewrite length_insert; rewrite Hlen; done).
  assert (Hob1 : aget (object w1) (od_id d) = Some (fresh_object d im)) by (by eapply aget_stored).
  assert (Hr64 : zlen (room w1) = N_ROOMS).
  { rewrite <- Hrooms. apply (f_equal length) in Hrm. rewrite !length_fmap in Hrm. by rewrite Hrm. }
  destruct (Z.eqb_spec R_NONE (od_room d)) as [Hn|Hn]; cbn [negb].
  { apply wp_skip, Hdone; [done| |by exists L]. unfold room_ptr. rewrite <- Hn, Z.eqb_refl.
    rewrite Hls. symmetry. apply list_insert_id. rewrite aget_nonneg in Hloc by lia. exact Hloc. }
  assert (Hp : room_ptr (od_room d) = Some (od_room d)).
  { unfold room_ptr. by destruct (Z.eqb_spec R_NONE (od_room d)). }
  assert (Hplaced : ∀ w', placed w1 L (od_id d) (od_room d) w' → objects_built w0 (pre ++ [d]) w').
  { intros w' (Hm & Hls' & HL'). apply Hdone; [done|by rewrite Hp|by eexists]. }
  assert (Hrange : 0 ≤ od_room d < zlen (room w1)) by (rewrite Hr64; unfold R_NONE in *; lia).
  destruct (negb (-1 =? od_x d)).
  - eapply wp_mono; [apply (insert_at_placed w1 L)|intros u w' Hw'; exact (Hplaced w' Hw')]; [done|done| |done].
    apply is_object. eauto.
  - pose proof Hrange as [rm Hrm1]%aget_is_Some.
    eapply wp_mono; [eapply (insert_object_placed w1 L _ _ _ rm)|intros u w' Hw'; exact (Hplaced w' Hw')];
      [done|done|done|done|done|].
    pose proof (aget_fmap face (room w1) (od_room d)) as Hf. rewrite Hrm, aget_fmap, Hrm1 in Hf.
    destruct (aget (room w0) (od_room d)) as [rm0|] eqn:E; [|done].
    destruct (Hviews _ _ E) as [v Hv]. exists v. injection Hf as _ Hv' _ _ _. congruence.
Qed.

Lemma build_object_wp pre d post w :
  obj_data = pre ++ d :: post → objects_built w0 pre w →
  wp (build_object h d) (λ b w', b = readable_image h (od_filename d) ∧
    (b = true → objects_built w0 (pre ++ [d]) w')) w.
Proof.
  intros Hl Hb. destruct (object_blank pre d post w Hl Hb) as (Hr & Hlen & Hloc & ob & Hob & Hname).
  destruct (read_obj_image_total h (od_filename d) Hh) as [im Him].
  unfold wp, build_object. cbn zeta.
  replace (_ || _) with false by (symmetry; apply orb_false_iff; split; [|apply Z.leb_gt; lia];
    rewrite Z.gtb_ltb; apply Z.ltb_ge; lia).
  rewrite (bind_run _ _ _ _ _ (get_object_run _ _ _ Hob)), Hname.
  rewrite (bind_run _ _ _ _ _ (set_object_insert _ _ _ _ Hob)), (bind_lift _ im) by done.
  set (w1 := setter object _ w).
  assert (H1 : aget (object w1) (od_id d) = Some (ob <| o_name := Some (od_name d) |>))
    by (by eapply aget_stored).
  rewrite (bind_run _ _ _ _ _ (set_object_insert _ _ _ _ H1)). set (w2 := setter object _ w1).
  unfold readable_image. rewrite Him. destruct im as [im|]; [|done].
  assert (H2 : aget (object w2) (od_id d)
    = Some (ob <| o_name := Some (od_name d) |> <| o_img := Some im |>))
    by (by eapply aget_stored).
  rewrite (bind_run _ _ _ _ _ (set_object_insert _ _ _ _ H2)).
  set (w3 := setter object _ w2).
  assert (w3 = with_fresh d im w) as ->.
  { unfold w3, w2, w1, with_fresh. cbn [setter object]. by rewrite !list_insert_insert_eq. }
  change (wp ((if negb (R_NONE =? od_room d) then
        if negb (-1 =? od_x d) then
          insert_object_at (od_id d) (Some (od_room d)) (od_x d) (od_y d)
        else insert_object (od_id d) (Some (od_room d))
      else skip) ≫= λ _, mret true)
    (λ b w', b = true ∧ (b = true → objects_built w0 (pre ++ [d]) w')) (with_fresh d im w)).
  apply wp_bind. eapply wp_mono; [eapply (place_wp pre d post im w); [done|done|]|].
  - unfold image_of. by rewrite Him.
  - intros u w' Hw'. apply wp_ret. split; [done|]. intros _. exact Hw'.
Qed.
End objects.
End rooms.

(** ** The swap photos *)
Section swaps.
Context (h : host) (Hh : host_ok h).

Definition swaps_of (l : list swap_data_t) : list (option photo_t) :=
  fill sd_id (λ d, view_of h (sd_filename d)) (replicate (Z.to_nat N_SWAPS) None) l.

Lemma build_swap_wp pre d post w :
  swap_data = pre ++ d :: post → swap_photo w = swaps_of pre →
  wp (build_swap h d) (λ b w', b = readable_photo h (sd_filename d) ∧
    (b = true → w' = w <| swap_photo := swaps_of (pre ++ [d]) |>)) w.
Proof.
  intros Hl Hw. destruct (table_fresh sd_id N_SWAPS (λ d, view_of h (sd_filename d))
    (replicate (Z.to_nat N_SWAPS) None) pre d post) as [Hr Hf];
    [rewrite <- Hl; apply swap_table|].
  assert (H0 : aget (swap_photo w) (sd_id d) = Some None).
  { rewrite Hw. unfold swaps_of. rewrite Hf, aget_nonneg by lia. apply lookup_replicate_2. lia. }
  destruct (read_photo_total h (sd_filename d) Hh) as [p Hp].
  unfold wp, build_swap. cbn zeta.
  replace (_ || _) with false by (symmetry; apply orb_false_iff; split; [|apply Z.leb_gt; lia];
    rewrite Z.gtb_ltb; apply Z.ltb_ge; lia).
  rewrite bind_gets, (bind_lift _ None), (bind_lift _ p) by done.
  rewrite (bind_lift _ (<[Z.to_nat (sd_id d) := p]> (swap_photo w)))
    by (apply aset_in; by eapply aget_Some_range).
  unfold readable_photo. rewrite Hp.
  assert (swaps_of (pre ++ [d]) = <[Z.to_nat (sd_id d) := p]> (swap_photo w)) as ->.
  { unfold swaps_of. rewrite fill_snoc. fold (swaps_of pre). rewrite Hw.
    unfold view_of. by rewrite Hp. }
  by destruct p.
Qed.
End swaps.

(** ** The arrays once filled *)
Definition room_rows : list room_data_t := omap room_row (seqZ 0 N_ROOMS).
Lemma room_rows_lookup r : 0 ≤ r < N_ROOMS → aget room_rows r = room_row r.
Proof.
  intros Hr. rewrite aget_nonneg by lia. unfold N_ROOMS in Hr.
  assert (Hn : (Z.to_nat r < 64)%nat) by lia. replace r with (Z.of_nat (Z.to_nat r)) at 2 by lia.
  revert Hn. generalize (Z.to_nat r). intros n Hn.
  do 64 (destruct n as [|n]; [reflexivity|]). lia.
Qed.
Lemma fill_rooms {B} (v : room_data_t → B) b :
  fill rd_id v (replicate (Z.to_nat N_ROOMS) b) room_data = v <$> room_rows.
Proof. vm_compute. reflexivity. Qed.
Lemma fill_objects {B} (v : obj_data_t → B) b :
  fill od_id v (replicate (Z.to_nat N_OBJECTS) b) obj_data = v <$> obj_data.
Proof. vm_compute. reflexivity. Qed.
Lemma fill_swaps {B} (v : swap_data_t → B) b :
  fill sd_id v (replicate (Z.to_nat N_SWAPS) b) swap_data = v <$> swap_data.
Proof. vm_compute. reflexivity. Qed.

Lemma readable_view h f : readable_photo h f = true → is_Some (view_of h f).
Proof. unfold readable_photo, view_of. by destruct (read_photo h f) as [[p|]|]. Qed.
Lemma readable_im h f : readable_image h f = true → is_Some (image_of h f).
Proof. unfold readable_image, image_of. by destruct (read_obj_image h f) as [[p|]|]. Qed.

(** A room of the table, with its photo *)
Lemma built_room_ok h r rm :
  forallb (λ d, readable_photo h (rd_filename d)) room_data = true →
  aget (rooms_of h room_data) r = Some rm → room_ok r rm.
Proof.
  intros Hread Hrm. unfold rooms_of in Hrm. rewrite fill_rooms, aget_fmap in Hrm.
  destruct (aget room_rows r) as [d|] eqn:E; [|done]. injection Hrm as <-.
  pose proof (aget_Some_range _ _ _ E) as Hr. change (zlen room_rows) with N_ROOMS in Hr.
  rewrite room_rows_lookup in E by done. pose proof E as [Hin _]%find_some.
  rewrite forallb_forall in Hread. specialize (Hread _ Hin). cbn beta in Hread.
  split; [by eexists|by apply readable_view|]. exists d. split; [done|]. split; [done|].
  split; [done|]. by left.
Qed.

Definition start_locs : list (option Z) := (λ d, room_ptr (od_room d)) <$> obj_data.
Definition start_game : game := mk_game None None None 0 start_locs.

(** What [build_world] promises of each table entry *)
Definition as_listed (h : host) (w : world) : Prop :=
  (∀ d, d ∈ room_data → ∃ rm, aget (room w) (rd_id d) = Some rm ∧
     r_name rm = Some (rd_name d) ∧ r_view rm = view_of h (rd_filename d)) ∧
  (∀ d, d ∈ obj_data → ∃ ob, aget (object w) (od_id d) = Some ob ∧
     o_name ob = Some (od_name d) ∧ o_img ob = image_of h (od_filename d) ∧
     o_loc ob = room_ptr (od_room d)).

(** The ids of the two long tables are their positions, in order of room number. *)
Lemma object_rows d : d ∈ obj_data → aget obj_data (od_id d) = Some d.
Proof.
  intros Hd. assert (Ha : Forall (λ d, aget obj_data (od_id d) = Some d) obj_data)
    by (unfold obj_data; repeat constructor).
  rewrite Forall_forall in Ha. by apply Ha.
Qed.
Lemma room_row_of d : d ∈ room_data → room_row (rd_id d) = Some d.
Proof.
  intros Hd. assert (Ha : Forall (λ d, room_row (rd_id d) = Some d) room_data)
    by (unfold room_data; repeat constructor).
  rewrite Forall_forall in Ha. by apply Ha.
Qed.

Lemma built_world h w0 w swaps :
  forallb (λ d, readable_photo h (rd_filename d)) room_data = true →
  forallb (λ d, readable_image h (od_filename d)) obj_data = true →
  room w0 = rooms_of h room_data → (∀ k, 0 ≤ rng w0 k) → where_ w0 = None →
  player_flags w0 = [0] → objects_built h w0 obj_data w →
  zlen swaps = N_SWAPS → Forall is_Some swaps →
  world_ok (w <| swap_photo := swaps |>) ∧
  game_of (w <| swap_photo := swaps |>) = start_game ∧ as_listed h (w <| swap_photo := swaps |>).
Proof.
  intros Hr Ho Hrooms Hrng Hwhere Hflags [Hface Hmake Hlocs [L HL] (Hf & _ & Hw & Hg)] Hsl Hss.
  assert (Hroom : ∀ r rm, aget (room w) r = Some rm →
    ∃ d, room_row r = Some d ∧ face rm = face (built_room h d)).
  { intros r rm Hrm. pose proof (aget_fmap face (room w) r) as Ha.
    rewrite Hface, Hrooms, Hrm in Ha. unfold rooms_of in Ha.
    rewrite fill_rooms, !aget_fmap in Ha. destruct (aget room_rows r) as [d|] eqn:E; [|done].
    exists d. pose proof (aget_Some_range _ _ _ E). rewrite room_rows_lookup in E by done.
    split; [done|]. symmetry. exact (inj Some _ _ Ha). }
  assert (Hlen : zlen (room w) = N_ROOMS).
  { apply (f_equal length) in Hface. rewrite !length_fmap in Hface. rewrite Hface, Hrooms.
    unfold rooms_of. by rewrite fill_length. }
  rewrite fill_objects in Hmake. rewrite fill_objects in Hlocs.
  assert (Hobj : ∀ o ob, aget (object w) o = Some ob →
    ∃ d, aget obj_data o = Some d ∧ make ob = (Some (od_name d), image_of h (od_filename d))).
  { intros o ob Hob. pose proof (aget_fmap make (object w) o) as Ha.
    rewrite Hmake, aget_fmap, Hob in Ha. destruct (aget obj_data o) as [d|]; [|done].
    exists d. split; [done|]. symmetry. exact (inj Some _ _ Ha). }
  assert (Holen : zlen (object w) = N_OBJECTS).
  { apply (f_equal length) in Hmake. rewrite !length_fmap in Hmake. by rewrite Hmake. }
  assert (Hexit : exit_of w R_INVENTORY = None ∧ exit_of w R_COCKPIT = None).
  { unfold exit_of. split; (destruct (aget (room w) _) as [rm|] eqn:E; [|done]);
      destruct (Hroom _ _ E) as (d & [= <-] & [= _ _ _ He _]); exact He. }
  split; [|split].
  - split; cbn [room object swap_photo player_flags where_ rng].
    + done.
    + done.
    + intros r rm Hrm. destruct (Hroom r rm Hrm) as (d & Hd & Hfc).
      apply (face_room_ok r (built_room h d)); [done|].
      apply (built_room_ok h); [done|]. unfold rooms_of. rewrite fill_rooms, aget_fmap.
      rewrite room_rows_lookup by (rewrite <- Hlen; by eapply aget_Some_range). by rewrite Hd.
    + intros o ob Hob. destruct (Hobj o ob Hob) as (d & Hd & [= -> ->]). split; [by eexists|].
      apply readable_im. rewrite forallb_forall in Ho. apply Ho.
      apply list_elem_of_In. unfold aget in Hd. destruct (o <? 0); [done|]. by eapply list_elem_of_lookup_2.
    + done.
    + exists 0. cbn. by rewrite Hf.
    + cbn. rewrite Hw, Hwhere. done.
    + cbn. rewrite Hw, Hwhere. done.
    + cbn. by rewrite Hg.
    + by exists L.
  - change (game_of (w <| swap_photo := swaps |>)) with (game_of w). unfold game_of, start_game.
    destruct Hexit as [-> ->]. by rewrite Hw, Hwhere, Hf, Hflags, Hlocs.
  - split; intros d Hd; cbn [room object].
    + assert (is_Some (aget (room w) (rd_id d))) as [rm Hrm].
      { apply aget_is_Some. rewrite Hlen. pose proof room_table as [Ht _].
        rewrite Forall_forall in Ht. by apply Ht. }
      exists rm. split; [done|]. destruct (Hroom _ _ Hrm) as (d' & Hd' & Hfc).
      rewrite room_row_of in Hd' by done. injection Hd' as <-. by injection Hfc as -> -> _ _ _.
    + pose proof (object_rows d Hd) as Hrow.
      assert (is_Some (aget (object w) (od_id d))) as [ob Hob].
      { apply aget_is_Some. rewrite Holen. by eapply (aget_Some_range obj_data). }
      exists ob. split; [done|]. destruct (Hobj _ _ Hob) as (d' & Hd' & [= -> ->]).
      rewrite Hrow in Hd'. injection Hd' as <-. do 2 (split; [done|]).
      pose proof (aget_locs w (od_id d)) as Hl. rewrite Hlocs, aget_fmap, Hrow, Hob in Hl.
      symmetry. exact (inj Some _ _ Hl).
Qed.

(** ** The whole of [build_world] *)
Lemma build_world_wp h w :
  host_ok h → (∀ k, 0 ≤ rng w k) → where_ w = None →
  wp (build_world h) (λ b w', b = world_readable h ∧
    (b = true → world_ok w' ∧ game_of w' = start_game ∧ as_listed h w')) w.
Proof.
  intros Hh Hrng Hwhere. unfold build_world, world_readable.
  apply wp_bind, wp_modify, wp_bind, wp_modify, wp_bind.
  set (w1 := setter room _ _).
  eapply wp_mono; [apply (wp_all_ok _ (λ d, readable_photo h (rd_filename d))
    (λ pre w', w' = w1 <| room := rooms_of h pre |>)); [done|]|].
  { intros pre d post w' Hl ->. eapply wp_mono; [by apply (build_room_wp h Hh pre d post)|].
    intros b w' [-> Hw']. split; [done|]. intros Hb. by rewrite (Hw' Hb). }
  cbn beta. intros b w2 [-> Hw2]. destruct (forallb _ room_data) eqn:Er; cbn [negb andb]; [|by apply wp_ret].
  specialize (Hw2 eq_refl). apply wp_bind, wp_modify, wp_bind. set (w3 := setter object _ _).
  assert (Hviews : ∀ r rm, aget (room w3) r = Some rm → is_Some (r_view rm)).
  { intros r rm Hrm. apply (room_has_view r). apply (built_room_ok h); [done|].
    unfold w3 in Hrm. rewrite Hw2 in Hrm. exact Hrm. }
  assert (Hlen : zlen (room w3) = N_ROOMS).
  { unfold w3. rewrite Hw2. change (zlen (rooms_of h room_data) = N_ROOMS).
    unfold rooms_of. by rewrite fill_length. }
  eapply wp_mono; [apply (wp_all_ok _ (λ d, readable_image h (od_filename d)) (objects_built h w3))|].
  { split; try done. exists (λ _, []). split; try done.
    - intros r p Hp. unfold heads, w3 in Hp. rewrite Hw2 in Hp. cbn [room setter] in Hp.
      rewrite aget_fmap in Hp. unfold rooms_of in Hp. rewrite fill_rooms, aget_fmap in Hp.
      destruct (aget room_rows r); [|done]. by injection Hp as <-.
    - intros o r l. unfold locs, w3. cbn [object setter]. rewrite fmap_replicate.
      unfold aget. destruct (o <? 0); [done|]. intros [-> _]%lookup_replicate.
      split; [done|by intros ?%not_elem_of_nil].
    - intros r. constructor.
    - by intros r o Hi%not_elem_of_nil.
    - by intros r o Hi%not_elem_of_nil. }
  { intros pre d post w' Hl Hb. by apply (build_object_wp h Hh w3 Hlen Hviews pre d post). }
  cbn beta. intros b w4 [-> Hw4]. destruct (forallb _ obj_data) eqn:Eo; cbn [negb andb]; [|by apply wp_ret].
  specialize (Hw4 eq_refl). apply wp_bind, wp_modify, wp_bind. set (w5 := setter swap_photo _ _).
  eapply wp_mono; [apply (wp_all_ok _ (λ d, readable_photo h (sd_filename d))
    (λ pre w', w' = w5 <| swap_photo := swaps_of h pre |>)); [done|]|].
  { intros pre d post w' Hl ->. eapply wp_mono; [by apply (build_swap_wp h Hh pre d post)|].
    intros b w' [-> Hw']. split; [done|]. intros Hb. by rewrite (Hw' Hb). }
  cbn beta. intros b w6 [-> Hw6]. apply wp_ret. split; [done|]. intros Hb. rewrite (Hw6 Hb).
  apply (built_world h w3 w4); try done.
  - unfold w3. by rewrite Hw2.
  - intros k. unfold w3. rewrite Hw2. apply Hrng.
  - unfold w3. by rewrite Hw2.
  - unfold w3. by rewrite Hw2.
  - unfold swaps_of. rewrite fill_swaps. apply Forall_fmap, Forall_forall. intros d Hd.
    apply readable_view. rewrite forallb_forall in Hb. apply Hb. by apply list_elem_of_In.
Qed.

(** C18. [build_world] runs to its end whatever the files hold; it returns 1
    exactly when every photo and image file of its tables can be read, and then
    the world is well formed, every room and object has its name and picture,
    and every object is in the room its table entry names. *)
Theorem build_world_correct h w :
  host_ok h → (∀ k, 0 ≤ rng w k) → where_ w = None →
  ∃ b w', build_world h w = Some (b, w') ∧ b = world_readable h ∧
    (b = true → world_ok w' ∧ game_of w' = start_game ∧ as_listed h w').
Proof. intros Hh Hr Hw. by apply wp_run, build_world_wp. Qed.

(** A host where every file is a one by one black picture *)
Definition tiny_host : host := mk_host (λ _, Some [1; 0; 1; 0; 0; 0]) (λ _, true).
(** The statics of the program before [main] *)
Definition blank_world : world := mk_world [] [] [] [] None EmptyString (λ _, 0) 0.

Lemma tiny_host_ok : host_ok tiny_host.
Proof. intros f file [= <-]. apply (bool_decide_unpack _); vm_compute; exact I. Qed.

Lemma build_world_correct_witness :
  (world_readable tiny_host = true) ∧
  ∃ b w', build_world tiny_host blank_world = Some (b, w') ∧ b = world_readable tiny_host ∧
    (b = true → world_ok w' ∧ game_of w' = start_game ∧ as_listed tiny_host w').
Proof.
  split; [vm_compute; reflexivity|].
  apply (build_world_correct tiny_host blank_world tiny_host_ok); [done|reflexivity].
Defined.
