(* ===== verification/Story.v ===== *)
(** * Story: playing the adventure from the start

    The sequences of actions that a player can make in the world that
    [build_world] made: they never fail, they follow the rules of [Quest], and
    the game can only be won by doing what the story asks for; and there is a
    way to win it. *)
From S2P Require Import Prelude Photo WorldData World Layout WorldInv Effects Quest Build.

(** ** The rules never let the player skip a step *)
Section lookups.
Context (g : game).
Implicit Types (o f : Z) (l : option Z).

Lemma loc_put o l o' :
  0 ≤ o < N_OBJECTS → zlen (g_locs g) = N_OBJECTS →
  loc (put o l g) o' = if decide (o' = o) then l else loc g o'.
Proof.
  intros Ho Hl. unfold loc, put. cbn. rewrite aget_insert by lia. by destruct (decide (o' = o)).
Qed.
Lemma flag_set f f' : 0 ≤ f → flag (set_flag f g) f' = (f =? f') || flag g f'.
Proof. intros Hf. unfold flag, set_flag. cbn. by rewrite Z.setbit_eqb. Qed.
Lemma len_put o l : length (g_locs (put o l g)) = length (g_locs g).
Proof. cbn. apply length_insert. Qed.
End lookups.

(** The room in which the player stands is off campus, or beyond the plane. *)
Definition off_campus (g : game) : Prop := ∃ s, standing g = Some s ∧ R_ALLERTON ≤ s.
Definition aboard (g : game) : Prop := ∃ s, standing g = Some s ∧ R_OVER_WILL ≤ s.

Record honest (g : game) : Prop := {
  h_len : zlen (g_locs g) = N_OBJECTS;
  h_off : off_campus g → flag g FLAG_CAR_FIXED = true;
  h_aboard : aboard g → is_Some (g_plane g);
  h_plane p : g_plane g = Some p → p = R_OVER_WILL ∧ flag g FLAG_CAR_FIXED = true;
  h_lured : flag g FLAG_LURED_TUX = true → is_Some (g_plane g);
  h_fixed : flag g FLAG_CAR_FIXED = true → flag g FLAG_CAR_OPEN = true;
  h_battery o : o = O_BATT_CAR ∨ o = O_BATT_EMPTY ∨ o = O_BATT_FULL →
    is_Some (loc g o) → flag g FLAG_CAR_OPEN = true;
  h_tux : loc g O_TUX ≠ Some R_REM_LAB → flag g FLAG_LURED_TUX = true;
  h_book : is_Some (loc g O_BOOK_C) → flag g FLAG_HAS_EATEN = true;
  h_won : g_where g = None → carry g O_BOOK_C = true ∧ carry g O_MP2 = true ∧
    loc g O_TUX = Some R_IN_391LAB;
}.

Lemma exits_stay_off r p :
  p ∈ row_exits r → (R_ALLERTON ≤ p → R_ALLERTON ≤ r) ∧ (R_OVER_WILL ≤ p → R_OVER_WILL ≤ r).
Proof.
  intros Hp. apply (row_exits_all (λ r p, implb (R_ALLERTON <=? p) (R_ALLERTON <=? r)
    && implb (R_OVER_WILL <=? p) (R_OVER_WILL <=? r))) in Hp; [|vm_compute; reflexivity].
  apply andb_true_iff in Hp as [H1 H2].
  split; intros Hle; apply Z.leb_le in Hle; rewrite Hle in *; cbn in *; lia.
Qed.
Lemma inventory_no_exits : row_exits R_INVENTORY = [].
Proof. reflexivity. Qed.

Lemma near_is_Some g o : near g o = true → g_where g ≠ None → is_Some (loc g o).
Proof.
  unfold near, carry. intros [H%is_room_true|H%bool_decide_eq_true]%orb_true_iff Hw.
  - by rewrite H.
  - rewrite H. by destruct (g_where g).
Qed.

Lemma standing_go_to p g : 0 < p → standing (go_to p g) = Some p.
Proof.
  intros Hp. unfold standing, go_to. cbn. unfold is_room. rewrite bool_decide_eq_false_2; [done|].
  unfold R_INVENTORY. intros [= ->]. lia.
Qed.
Lemma standing_room_of g r : g_where g = Some r → r ≠ R_INVENTORY → standing g = Some r.
Proof.
  intros Hw Hr. unfold standing. rewrite Hw. unfold is_room. by rewrite bool_decide_eq_false_2 by naive_solver.
Qed.

(** Walking: the new room is not beyond a door that is still closed. *)
Lemma honest_walk g p :
  honest g → 0 < p < N_ROOMS → g_where g ≠ None →
  (R_ALLERTON ≤ p → flag g FLAG_CAR_FIXED = true) → (R_OVER_WILL ≤ p → is_Some (g_plane g)) →
  honest (go_to p g).
Proof.
  intros H Hp Hw Hoff Hab. destruct H. split; try done.
  - intros (s & Hs & Hle). rewrite standing_go_to in Hs by lia. injection Hs as <-. by apply Hoff.
  - intros (s & Hs & Hle). rewrite standing_go_to in Hs by lia. injection Hs as <-. by apply Hab.
Qed.

(** Moving objects *)
Lemma honest_put g o l :
  honest g → g_where g ≠ None → 0 ≤ o < N_OBJECTS →
  (o = O_BATT_CAR ∨ o = O_BATT_EMPTY ∨ o = O_BATT_FULL → is_Some l → flag g FLAG_CAR_OPEN = true) →
  (o = O_TUX → flag g FLAG_LURED_TUX = true) →
  (o = O_BOOK_C → is_Some l → flag g FLAG_HAS_EATEN = true) →
  honest (put o l g).
Proof.
  intros H Hw Ho Hbat Htux Hbook. destruct H. split; try done.
  - by rewrite len_put.
  - intros o' Ho'. rewrite loc_put by done. destruct (decide (o' = o)) as [->|]; eauto.
  - rewrite loc_put by done. destruct (decide (O_TUX = o)) as [<-|]; [by intros _; apply Htux|done].
  - rewrite loc_put by done. destruct (decide (O_BOOK_C = o)) as [<-|]; [by apply Hbook|done].
Qed.
Lemma honest_vanish g o : honest g → g_where g ≠ None → 0 ≤ o < N_OBJECTS → o ≠ O_TUX → honest (vanish o g).
Proof. intros. apply honest_put; try done; intros; by destruct (is_Some_None (A := Z)). Qed.

Lemma honest_flag g f :
  honest g → g_where g ≠ None → 0 ≤ f →
  (f = FLAG_CAR_FIXED → flag g FLAG_CAR_OPEN = true) →
  (f = FLAG_LURED_TUX → is_Some (g_plane g)) → honest (set_flag f g).
Proof.
  intros H Hw Hf Hfix Hl. destruct H. split; try done; intros; rewrite ?flag_set in * by done;
    rewrite ?orb_true_iff, ?Z.eqb_eq in *; try naive_solver.
Qed.

Lemma standing_back g p : g_where g = Some R_INVENTORY → g_back g = Some p → standing g = Some p.
Proof. intros Hw Hb. unfold standing. by rewrite Hw. Qed.

Lemma honest_exit g r p :
  honest g → g_where g = Some r → exit g r p → 0 < p < N_ROOMS → honest (go_to p g).
Proof.
  intros H Hw Hx Hp. apply honest_walk; [done|done|by rewrite Hw| |].
  - intros Hle. destruct Hx as [Hx|[(-> & Hb)|(-> & Hpl)]].
    + pose proof Hx as Hx'. apply exits_stay_off in Hx as [Hx _]. apply (h_off _ H). exists r.
      split; [|by apply Hx]. apply standing_room_of; [done|]. intros ->. by apply not_elem_of_nil in Hx'.
    + apply (h_off _ H). exists p. split; [by apply standing_back|done].
    + by apply (h_plane _ H _ Hpl).
  - intros Hle. destruct Hx as [Hx|[(-> & Hb)|(-> & Hpl)]].
    + pose proof Hx as Hx'. apply exits_stay_off in Hx as [_ Hx]. apply (h_aboard _ H). exists r.
      split; [|by apply Hx]. apply standing_room_of; [done|]. intros ->. by apply not_elem_of_nil in Hx'.
    + apply (h_aboard _ H). exists p. split; [by apply standing_back|done].
    + by exists p.
Qed.

Lemma honest_plane g :
  honest g → flag g FLAG_CAR_FIXED = true → honest (g <| g_plane := Some R_OVER_WILL |>).
Proof. intros H Hf. destruct H. split; try done. intros p [= <-]. done. Qed.
Lemma honest_look g r :
  honest g → g_where g = Some r → 0 < r < N_ROOMS →
  honest (g <| g_back := Some r |> <| g_where := Some R_INVENTORY |>).
Proof.
  intros H Hw Hr.
  assert (Hs : standing (g <| g_back := Some r |> <| g_where := Some R_INVENTORY |>) = standing g).
  { rewrite (standing_room_of g r Hw) by (unfold R_INVENTORY; lia). done. }
  destruct H. split; try done; unfold off_campus, aboard in *; by rewrite Hs.
Qed.

(** A battery at hand has come out of the car. *)
Lemma honest_battery g o :
  honest g → g_where g ≠ None → o = O_BATT_CAR ∨ o = O_BATT_EMPTY ∨ o = O_BATT_FULL →
  near g o = true → flag g FLAG_CAR_OPEN = true.
Proof. intros H Hw Ho Hn. eapply (h_battery _ H); [exact Ho|by apply near_is_Some]. Qed.

(** Picking up or dropping an object that is somewhere *)
Lemma honest_carry g o r l :
  honest g → g_where g ≠ None → 0 ≤ o < N_OBJECTS → loc g o = Some r →
  (o = O_TUX → flag g FLAG_LURED_TUX = true) → honest (put o l g).
Proof.
  intros H Hw Ho Hl Htux. apply honest_put; [done|done|done| |done|].
  - intros Hb _. apply (h_battery _ H o); [done|by rewrite Hl].
  - intros -> _. apply (h_book _ H). by rewrite Hl.
Qed.

(** The two steps where a flag is set after objects have moved *)
Lemma honest_open_car g :
  honest g → g_where g ≠ None →
  honest (set_flag FLAG_CAR_OPEN (put O_BATT_CAR (Some R_CAR_SITE) (vanish O_CAR_KEY g))).
Proof.
  intros H Hw.
  change (honest (put O_BATT_CAR (Some R_CAR_SITE) (put O_CAR_KEY None (set_flag FLAG_CAR_OPEN g)))).
  apply honest_put; [|done|done| |done|done].
  - apply honest_put; [by apply honest_flag|done|done|by intros [?|[?|?]]|done|done].
  - intros _ _. change (flag (set_flag FLAG_CAR_OPEN g) FLAG_CAR_OPEN = true). by rewrite flag_set.
Qed.
Lemma honest_lure g :
  honest g → g_where g = Some R_REM_LAB →
  honest (set_flag FLAG_LURED_TUX (to_inventory O_TUX (vanish O_FISH g))).
Proof.
  intros H Hw. assert (g_where g ≠ None) by (by rewrite Hw).
  change (honest (put O_TUX (Some R_INVENTORY) (put O_FISH None (set_flag FLAG_LURED_TUX g)))).
  assert (honest (set_flag FLAG_LURED_TUX g)).
  { apply honest_flag; try done. intros _. apply (h_aboard _ H). exists R_REM_LAB.
    split; [by apply standing_room_of|done]. }
  apply honest_put; [|done|done|by intros [?|[?|?]]| |done].
  - apply honest_put; [done|done|done|by intros [?|[?|?]]|done|done].
  - intros _. change (flag (set_flag FLAG_LURED_TUX g) FLAG_LURED_TUX = true). by rewrite flag_set.
Qed.

Lemma honest_step g g' : quest g g' → g_where g ≠ None → honest g → honest g'.
Proof.
  intros Hq Hw H.
  assert (Hopen : ∀ o, o = O_BATT_CAR ∨ o = O_BATT_EMPTY ∨ o = O_BATT_FULL → near g o = true →
    flag g FLAG_CAR_OPEN = true) by (intros o; by apply honest_battery).
  destruct Hq; try (by apply honest_open_car); try (by apply honest_lure);
    unfold to_inventory, vanish;
    repeat first [ assumption
    | apply honest_flag; [| done | done | done | done]
    | apply honest_put; [| done | done | by intros [?|[?|?]] | done | done]
    | apply honest_walk; [done|done|done|done|done] ]; try done.
  - by eapply honest_exit.
  - destruct H0 as [(_ & ->)|(_ & ->)]; by apply honest_walk.
  - apply honest_put; [by apply honest_vanish|done|done| |done|done].
    intros _ _. apply (Hopen O_BATT_EMPTY); [by right; left|done].
  - destruct H. split; try done. by intros (s & Hs & _). by intros (s & Hs & _).
  - apply (honest_carry g o R_INVENTORY); try done. intros ->. apply (h_tux _ H). by rewrite H1.
  - by apply (honest_carry g o d).
  - apply honest_put; [by apply honest_vanish|done|done| |done|done].
    intros _ _. eapply (h_battery _ H); [by left|by rewrite H1].
  - apply honest_flag; [by apply honest_vanish|done|done| |done].
    intros _. apply (Hopen O_BATT_FULL); [by right; right|done].
  - apply honest_plane; [by apply honest_vanish|]. apply (h_off _ H). exists R_COCKPIT.
    split; [by apply standing_room_of|done].
  - by apply honest_look.
Qed.

(** ** Playing

    The player acts until the game is won; [where_] is then [None]. *)
Fixpoint play (l : list action) : W () :=
  match l with
  | [] => skip
  | a :: l =>
      p ← gets where_;
      match p with
      | None => skip
      | Some _ => act a;; play l
      end
  end.

Lemma play_honest l w :
  world_ok w → honest (game_of w) →
  wp (play l) (λ _ w', world_ok w' ∧ honest (game_of w')) w.
Proof.
  revert w. induction l as [|a l IH]; intros w Hok Hh; cbn [play]; [by apply wp_skip|].
  apply wp_bind, wp_gets. destruct (where_ w) as [r|] eqn:Hr; [|by apply wp_skip].
  apply wp_bind. eapply wp_mono; [by eapply act_follows|]. intros _ w' [Hok' Hq].
  apply IH; [done|]. eapply honest_step; [exact Hq| |done]. cbn. by rewrite Hr.
Qed.

Lemma start_honest w :
  world_ok w → game_of w = start_game →
  world_ok (w <| where_ := Some start_in_room |>) ∧
  honest (game_of (w <| where_ := Some start_in_room |>)).
Proof.
  intros Hok Hg. split.
  - destruct Hok. split; try done. by intros r [= <-].
  - assert (game_of (w <| where_ := Some start_in_room |>) = go_to start_in_room (game_of w)) as -> by done.
    rewrite Hg. split; try done.
    + by intros (s & [= <-] & Hs).
    + by intros (s & [= <-] & Hs).
    + intros o [->|[->| ->]] [l Hl]; vm_compute in Hl; discriminate.
    + intros [l Hl]. vm_compute in Hl. discriminate.
Qed.

(** What has been done when the game is won *)
Lemma won_story g :
  honest g → g_where g = None →
  flag g FLAG_HAS_EATEN = true ∧ flag g FLAG_CAR_OPEN = true ∧ flag g FLAG_CAR_FIXED = true ∧
  flag g FLAG_LURED_TUX = true ∧
  carry g O_BOOK_C = true ∧ carry g O_MP2 = true ∧ loc g O_TUX = Some R_IN_391LAB.
Proof.
  intros H Hwon. destruct (h_won _ H Hwon) as (Hbook & Hmp2 & Htux).
  assert (Hl : flag g FLAG_LURED_TUX = true) by (apply (h_tux _ H); by rewrite Htux).
  destruct (h_lured _ H Hl) as [p Hp]. destruct (h_plane _ H p Hp) as [_ Hf].
  split; [|split; [|split; [|split; [|done]]]]; [|by apply (h_fixed _ H)|done|done].
  apply (h_book _ H). apply is_room_true in Hbook. by rewrite Hbook.
Qed.

(** C14. An action of the player (a move or any typed verb with any argument), in a
    well-formed world, runs without undefined behaviour, leaves the world well
    formed, and does to the game what one of the rules of [quest] allows. *)
Theorem act_refines_quest a w r :
  world_ok w → where_ w = Some r →
  ∃ res w', act a w = Some (res, w') ∧ world_ok w' ∧ quest (game_of w) (game_of w').
Proof.
  intros Hok Hr. destruct (proj1 (wp_run _ _ _) (act_follows w a r Hok Hr)) as (res & w' & Hrun & H).
  by exists res, w'.
Qed.


(** ** A way to win *)
Definition walkthrough : list action := [
  MoveLeft; Typed TC_GET "bunnysuit"; Typed TC_WEAR "bunnysuit"; MoveRight; MoveRight;
  Typed TC_SIGH EmptyString; MoveLeft; MoveLeft; MoveLeft; MoveRight; MoveRight; MoveLeft;
  Typed TC_GET "fish"; MoveLeft; Enter; MoveRight; MoveRight; MoveRight; MoveRight;
  MoveRight; Enter; Enter; MoveRight; Typed TC_GET "Icard"; MoveLeft; Enter;
  Typed TC_GET "book"; MoveRight; MoveRight; Enter; Typed TC_GET "gps"; Enter; MoveRight;
  MoveRight; Enter; Typed TC_GET "key"; Enter; MoveRight; MoveRight; Enter; MoveRight;
  MoveLeft; Enter; MoveRight; Enter; Typed TC_GET "robot"; Enter; MoveLeft; Enter;
  MoveLeft; MoveRight; Enter; Enter; MoveLeft; Typed TC_GET "spec"; Enter;
  Typed TC_GET "mp2"; Enter; MoveRight; Enter; MoveLeft; Enter; Enter; Typed TC_USE "car";
  Typed TC_GET "battery"; Enter; MoveLeft; MoveRight; MoveRight; MoveLeft; MoveRight;
  MoveLeft; MoveRight; MoveRight; MoveLeft; MoveLeft; Enter; MoveLeft; Enter; MoveLeft;
  Enter; Typed TC_FLASH "robot"; Enter; MoveRight; MoveRight; Enter; Typed TC_FIX "gps";
  Enter; MoveRight; Enter; MoveRight; MoveRight; Enter; MoveRight; MoveRight; MoveRight;
  MoveRight; Enter; MoveRight; MoveLeft; Enter; Enter; MoveRight; Enter; Enter; Enter;
  Typed TC_CHARGE "battery"; Enter; MoveRight; MoveRight; Enter; Enter;
  Typed TC_INSTALL "battery"; Typed TC_GO "allerton"; MoveLeft; Enter; Typed TC_GET "mimo";
  Enter; MoveRight; Typed TC_GO "airport"; Enter; MoveLeft; MoveLeft;
  Typed TC_INSTALL "mimo"; Enter; MoveRight; MoveRight; Enter; Typed TC_USE "fish"; Enter;
  MoveLeft; MoveLeft; Enter; MoveRight; MoveRight; MoveRight; Typed TC_GO "campus"; Enter;
  MoveLeft; MoveRight; MoveRight; MoveLeft; MoveRight; MoveLeft; MoveRight; MoveRight;
  MoveLeft; MoveLeft; Enter; MoveLeft; Enter; MoveLeft; MoveLeft; MoveLeft; Enter;
  Typed TC_DROP "tux"; Typed TC_DO "mp2"].

Definition new_game (h : host) (w : world) : option world :=
  match build_world h w with
  | Some (true, w) => Some (w <| where_ := Some start_in_room |>)
  | _ => None
  end.


(** ** Instances *)
Definition tiny_world : option world := new_game tiny_host blank_world.

Lemma tiny_readable : world_readable tiny_host = true.
Proof. vm_compute. reflexivity. Qed.
Lemma tiny_world_built : ∃ w, build_world tiny_host blank_world = Some (true, w) ∧
  world_ok w ∧ game_of w = start_game.
Proof.
  assert (Hr : ∀ k, 0 ≤ rng blank_world k) by (intros k; apply Z.le_refl).
  destruct (proj1 (wp_run _ _ _) (build_world_wp tiny_host blank_world tiny_host_ok Hr eq_refl))
    as (b & w & Hrun & Hb & Hok).
  rewrite tiny_readable in Hb. subst b. exists w. split; [exact Hrun|].
  destruct (Hok eq_refl) as (H1 & H2 & _). split; assumption.
Qed.
Lemma tiny_world_ok : ∃ w, tiny_world = Some w ∧ world_ok w ∧ where_ w = Some R_EAST_EVRT.
Proof.
  destruct tiny_world_built as (w & Hw & Hok & Hg).
  exists (w <| where_ := Some start_in_room |>). unfold tiny_world, new_game. rewrite Hw.
  split; [reflexivity|]. split; [apply (start_honest w Hok Hg)|reflexivity].
Qed.

Lemma act_refines_quest_witness :
  ∃ w, tiny_world = Some w ∧ world_ok w ∧ where_ w = Some R_EAST_EVRT ∧
    ∃ res w', act (Typed TC_DROP "tux") w = Some (res, w') ∧ world_ok w' ∧
      quest (game_of w) (game_of w').
Proof.
  destruct tiny_world_ok as (w & Hw & Hok & Hwhere). exists w. do 3 (split; [assumption|]).
  exact (act_refines_quest (Typed TC_DROP "tux") w R_EAST_EVRT Hok Hwhere).
Defined.

