(* ===== verification/Input.v ===== *)
(** * Input: the keyboard control of the adventure ([mp2/input.c])

    The buffer of the typed command and [get_command], which drains the bytes
    waiting on standard input through a four-state machine that recognises
    the escape sequences of the arrow, insert, home and page-up keys.  The
    model is of the keyboard build ([USE_TUX_CONTROLLER] is 0, as in the
    source); the terminal settings, [init_input] and [shutdown_input], are in
    [Shutdown].  Strings are in buffers as in [LibString]. *)
From S2P Require Import Prelude LibString.

Inductive cmd_t :=
  | CMD_NONE | CMD_RIGHT | CMD_LEFT | CMD_UP | CMD_DOWN
  | CMD_MOVE_LEFT | CMD_ENTER | CMD_MOVE_RIGHT | CMD_TYPED | CMD_QUIT.
#[export] Instance cmd_eq_dec : EqDecision cmd_t.
Proof. solve_decision. Defined.

Definition MAX_TYPED_LEN : Z := 20.

Record input_t := mk_input {
  typing : list Z;         (* char[MAX_TYPED_LEN + 1] *)
  state : Z;               (* the static variable of [get_command] *)
}.
#[export] Instance input_settable : Settable input_t := λ i, mk_input (typing i) (state i).
Abbreviation InputM := (M input_t).

Definition get_typed_command : InputM (list Z) := gets typing.
Definition store_typing (i c : Z) : InputM () :=
  t ← gets typing;
  t ← lift (aset t i c);
  modify (λ s, s <| typing := t |>).
Definition reset_typed_command : InputM () := store_typing 0 0.

Definition isalpha (c : Z) : bool := (65 <=? c) && (c <=? 90) || (97 <=? c) && (c <=? 122).
Definition isdigit (c : Z) : bool := (48 <=? c) && (c <=? 57).
(** Letters, digits, space, and the two rubout characters; [c] is a [char]. *)
Definition valid_typing (c : Z) : bool :=
  let c := i8 c in isalpha c || isdigit c || (32 =? c) || (8 =? c) || (127 =? c).

Definition typed_a_char (c : Z) : InputM () :=
  t ← gets typing;
  len ← lift (strlen t);
  if (8 =? i8 c) || (127 =? i8 c) then
    if 0 <? len then store_typing (len - 1) 0 else skip
  else if len <? MAX_TYPED_LEN then
    store_typing len c;;
    store_typing (len + 1) 0
  else skip.

(** A byte that is not part of an escape sequence *)
Definition plain_char (pushed : cmd_t) (ch : Z) : InputM cmd_t :=
  if valid_typing ch then typed_a_char ch;; mret pushed
  else if (10 =? ch) || (13 =? ch) then mret CMD_TYPED
  else mret pushed.

Definition set_state (n : Z) : InputM () := modify (λ s, s <| state := n |>).

(** One byte other than the backquote through the [switch] on [state] *)
Definition key_step (pushed : cmd_t) (ch : Z) : InputM cmd_t :=
  st ← gets state;
  if st =? 0 then
    if 27 =? ch then set_state 1;; mret pushed
    else plain_char pushed ch
  else if st =? 1 then
    if 91 =? ch then set_state 2;; mret pushed
    else set_state 0;; plain_char pushed ch
  else if st =? 2 then
    if (65 <=? ch) && (ch <=? 68) then
      set_state 0;;
      mret (if ch =? 65 then CMD_UP else if ch =? 66 then CMD_DOWN
            else if ch =? 67 then CMD_RIGHT else CMD_LEFT)
    else if (ch =? 49) || (ch =? 50) || (ch =? 53) then
      set_state 3;;
      mret (if ch =? 50 then CMD_MOVE_LEFT else if ch =? 49 then CMD_ENTER else CMD_MOVE_RIGHT)
    else set_state 0;; plain_char pushed ch
  else if st =? 3 then
    set_state 0;;
    if 126 =? ch then mret pushed else plain_char pushed ch
  else mret pushed.

(** The loop over the bytes that wait on standard input; the backquote ends it
    and leaves the rest unread. *)
Fixpoint drain (stdin : list Z) (pushed : cmd_t) : InputM (cmd_t * list Z) :=
  match stdin with
  | [] => mret (pushed, [])
  | ch :: stdin =>
      if ch =? 96 then mret (CMD_QUIT, stdin)
      else pushed ← key_step pushed ch; drain stdin pushed
  end.
Definition get_command (stdin : list Z) : InputM (cmd_t * list Z) := drain stdin CMD_NONE.

(** ** The buffer as a line *)

(** The buffer holds the line [l], at most 20 characters. *)
Definition holds (l : list Z) (s : input_t) : Prop :=
  (0 ∉ l) ∧ zlen l ≤ MAX_TYPED_LEN ∧ zlen (typing s) = MAX_TYPED_LEN + 1 ∧
  ∃ rest, typing s = in_buffer l rest.

(** What a valid character does to the line *)
Definition edit (l : list Z) (c : Z) : list Z :=
  if (8 =? i8 c) || (127 =? i8 c) then removelast l
  else if zlen l <? MAX_TYPED_LEN then l ++ [c] else l.

Lemma store_typing_wp i c s (Q : () → input_t → Prop) :
  0 ≤ i < zlen (typing s) →
  Q () (s <| typing := <[Z.to_nat i := c]> (typing s) |>) → wp (store_typing i c) Q s.
Proof.
  intros Hi HQ. unfold store_typing, wp. rewrite bind_gets.
  by rewrite (bind_lift _ (<[Z.to_nat i := c]> (typing s))) by (by apply aset_in).
Qed.

Lemma holds_length l s : holds l s → zlen (typing s) = 21 ∧ zlen l ≤ 20.
Proof. intros (_ & Hl & Ht & _). done. Qed.

Lemma typed_a_char_wp c l s (Q : () → input_t → Prop) :
  holds l s → c ≠ 0 →
  (∀ s', holds (edit l c) s' → state s' = state s → Q () s') → wp (typed_a_char c) Q s.
Proof.
  intros Hh Hc HQ. pose proof Hh as (Hn & Hl & Hlen & rest & Ht). unfold MAX_TYPED_LEN in *.
  unfold typed_a_char. apply wp_bind, wp_gets, wp_bind.
  apply wp_lift with (zlen l); [by rewrite Ht, strlen_in_buffer|].
  unfold edit in HQ. destruct (_ || _).
  - destruct (Z.ltb_spec 0 (zlen l)).
    + apply store_typing_wp; [lia|]. apply HQ; [|done].
      destruct (decide (l = [])) as [->|Hne]; [done|].
      destruct (exists_last Hne) as (l' & x & ->). rewrite removelast_last.
      rewrite length_app in *. cbn [length] in *.
      split; [set_solver|]. split; [unfold MAX_TYPED_LEN; lia|]. cbn [typing setter].
      split; [rewrite length_insert; done|]. exists (0 :: rest). rewrite Ht. unfold in_buffer.
      replace (Z.to_nat (Z.of_nat (length l' + 1) - 1)) with (length l' + 0)%nat by lia.
      rewrite <- !app_assoc. rewrite insert_app_r. done.
    + apply wp_skip. destruct l; [|cbn in *; lia]. apply HQ; done.
  - destruct (Z.ltb_spec (zlen l) MAX_TYPED_LEN) as [Hlt|Hge]; unfold MAX_TYPED_LEN in *.
    + destruct rest as [|r rest]; [rewrite Ht in Hlen; unfold in_buffer in Hlen;
        rewrite length_app in Hlen; cbn in Hlen; lia|].
      apply wp_bind, store_typing_wp; [lia|].
      apply store_typing_wp; [cbn [typing setter]; rewrite length_insert; lia|].
      apply HQ; [|done]. split; [set_solver|]. split; [unfold MAX_TYPED_LEN; rewrite length_app; cbn; lia|].
      cbn [typing setter]. split; [by rewrite !length_insert|]. exists rest. rewrite Ht.
      unfold in_buffer. rewrite <- app_assoc. cbn [app].
      replace (Z.to_nat (zlen l)) with (length l + 0)%nat by lia.
      replace (Z.to_nat (zlen l + 1)) with (length l + 1)%nat by lia.
      by rewrite !insert_app_r.
    + apply wp_skip, HQ; done.
Qed.

(** ** Keys and the bytes the terminal sends for them *)
Inductive key := Char (c : Z) | Rub | Return | Arrow (d : Z) | Nav (d : Z).

(** Characters the game accepts: letters, digits and space *)
Definition typeable (c : Z) : bool := isalpha c || isdigit c || (32 =? c).
Definition key_ok (k : key) : Prop :=
  match k with
  | Char c => typeable c = true
  | Rub | Return => True
  | Arrow d => 65 ≤ d ≤ 68
  | Nav d => d = 49 ∨ d = 50 ∨ d = 53
  end.
Definition key_bytes (k : key) : list Z :=
  match k with
  | Char c => [c]
  | Rub => [127]
  | Return => [10]
  | Arrow d => [27; 91; d]
  | Nav d => [27; 91; d; 126]
  end.
(** The command a key stands for *)
Definition key_cmd (k : key) (last : cmd_t) : cmd_t :=
  match k with
  | Char _ | Rub => last
  | Return => CMD_TYPED
  | Arrow d => if d =? 65 then CMD_UP else if d =? 66 then CMD_DOWN
               else if d =? 67 then CMD_RIGHT else CMD_LEFT
  | Nav d => if d =? 50 then CMD_MOVE_LEFT else if d =? 49 then CMD_ENTER else CMD_MOVE_RIGHT
  end.
(** What a key does to the line *)
Definition key_edit (l : list Z) (k : key) : list Z :=
  match k with
  | Char c => if zlen l <? MAX_TYPED_LEN then l ++ [c] else l
  | Rub => removelast l
  | _ => l
  end.

Lemma typeable_valid c :
  typeable c = true → 32 ≤ c ≤ 122 ∧ c ≠ 96 ∧ c ≠ 91 ∧ valid_typing c = true ∧
    (8 =? i8 c) || (127 =? i8 c) = false.
Proof.
  intros Ht. assert (Hr : 32 ≤ c ≤ 122 ∧ c ≠ 96 ∧ c ≠ 91)
    by (unfold typeable, isalpha, isdigit in Ht; lia).
  destruct Hr as (Hr & H96 & H91). do 3 (split; [done|]).
  unfold valid_typing. replace (i8 c) with c by cint_lia. cbn zeta.
  unfold typeable in Ht. rewrite Ht. split; [done|lia].
Qed.

Section keys.
Implicit Types (s : input_t) (l : list Z).

(** In state 0 a valid character or a rubout edits the line. *)
Lemma plain_step c l s pushed (Q : cmd_t → input_t → Prop) :
  holds l s → state s = 0 → c ≠ 27 → c ≠ 0 → valid_typing c = true →
  (∀ s', holds (edit l c) s' → state s' = 0 → Q pushed s') → wp (key_step pushed c) Q s.
Proof.
  intros Hh Hs H27 H0 Hv HQ. unfold key_step. apply wp_bind, wp_gets. rewrite Hs, Z.eqb_refl.
  destruct (Z.eqb_spec 27 c); [congruence|]. unfold plain_char. rewrite Hv.
  apply wp_bind, (typed_a_char_wp c l); [done|done|]. intros s' Hh' Hs'.
  apply wp_ret, HQ; [done|congruence].
Qed.

Lemma holds_state l s n : holds l s → holds l (s <| state := n |>).
Proof. done. Qed.

(** Whole keys *)
Lemma drain_key k l s pushed stdin (Q : cmd_t * list Z → input_t → Prop) :
  key_ok k → holds l s → state s = 0 →
  (∀ s', holds (key_edit l k) s' → state s' = 0 → wp (drain stdin (key_cmd k pushed)) Q s') →
  wp (drain (key_bytes k ++ stdin) pushed) Q s.
Proof.
  intros Hk Hh Hs HQ. destruct k as [c| | |d|d]; cbn [key_bytes app drain key_ok] in *.
  - destruct (typeable_valid c Hk) as (Hr & H96 & H91 & Hv & He).
    destruct (Z.eqb_spec c 96); [done|]. apply wp_bind, (plain_step c l); [done|done|lia|lia|done|].
    intros s' Hh' Hs'. apply HQ; [|done]. unfold edit in Hh'. by rewrite He in Hh'.
  - cbn [Z.eqb Pos.eqb]. by apply wp_bind, (plain_step 127 l).
  - cbn [Z.eqb Pos.eqb]. apply wp_bind. unfold key_step. apply wp_bind, wp_gets. rewrite Hs.
    apply wp_ret. by apply HQ.
  - cbn [Z.eqb Pos.eqb]. apply wp_bind. unfold key_step at 1. apply wp_bind, wp_gets. rewrite Hs.
    apply wp_bind, wp_modify, wp_ret, wp_bind. unfold key_step at 1. apply wp_bind, wp_gets.
    apply wp_bind, wp_modify, wp_ret. destruct (Z.eqb_spec d 96); [lia|].
    apply wp_bind. unfold key_step at 1. apply wp_bind, wp_gets. cbn [state setter Z.eqb Pos.eqb].
    replace ((65 <=? d) && (d <=? 68)) with true by lia.
    apply wp_bind, wp_modify, wp_ret. by apply HQ.
  - cbn [Z.eqb Pos.eqb]. apply wp_bind. unfold key_step at 1. apply wp_bind, wp_gets. rewrite Hs.
    apply wp_bind, wp_modify, wp_ret, wp_bind. unfold key_step at 1. apply wp_bind, wp_gets.
    apply wp_bind, wp_modify, wp_ret. destruct (Z.eqb_spec d 96); [lia|].
    apply wp_bind. unfold key_step at 1. apply wp_bind, wp_gets. cbn [state setter Z.eqb Pos.eqb].
    replace ((65 <=? d) && (d <=? 68)) with false by lia.
    replace ((d =? 49) || (d =? 50) || (d =? 53)) with true by lia.
    apply wp_bind, wp_modify, wp_ret, wp_bind. unfold key_step at 1. apply wp_bind, wp_gets.
    apply wp_bind, wp_modify, wp_ret. by apply HQ.
Qed.

Lemma drain_keys ks l s pushed stdin (Q : cmd_t * list Z → input_t → Prop) :
  Forall key_ok ks → holds l s → state s = 0 →
  (∀ s', holds (foldl key_edit l ks) s' → state s' = 0 →
     wp (drain stdin (foldl (λ p k, key_cmd k p) pushed ks)) Q s') →
  wp (drain (concat (key_bytes <$> ks) ++ stdin) pushed) Q s.
Proof.
  intros Hks. revert l s pushed. induction Hks as [|k ks Hk Hks IH]; intros l s pushed Hh Hs HQ.
  - by apply HQ.
  - cbn [fmap list_fmap concat]. rewrite <- app_assoc. apply (drain_key k l); [done..|].
    intros s' Hh' Hs'. by apply (IH (key_edit l k)).
Qed.
End keys.

(** C35. The keys a player pressed since the last call come out of [get_command] as
    they went in: whatever keys are pending, the line is edited by exactly those
    keys, never beyond its 20 characters, the last command key is the command
    returned, and a backquote after them quits and leaves what follows unread. *)
Theorem get_command_keys ks l s quit rest :
  Forall key_ok ks → holds l s → state s = 0 →
  let stdin := concat (key_bytes <$> ks) ++ (if (quit : bool) then 96 :: rest else []) in
  ∃ s', get_command stdin s =
      Some (if quit then (CMD_QUIT, rest) else (foldl (λ p k, key_cmd k p) CMD_NONE ks, []), s') ∧
    holds (foldl key_edit l ks) s' ∧ state s' = 0.
Proof.
  intros Hks Hh Hs stdin. unfold get_command.
  assert (Hwp : wp (drain stdin CMD_NONE) (λ r s', r =
      (if quit then (CMD_QUIT, rest) else (foldl (λ p k, key_cmd k p) CMD_NONE ks, [])) ∧
      holds (foldl key_edit l ks) s' ∧ state s' = 0) s).
  { apply (drain_keys ks l); [done..|]. intros s' Hh' Hs'. by destruct quit; apply wp_ret. }
  apply wp_run in Hwp as (r & s' & Hrun & -> & H). by exists s'.
Qed.

(** The buffer as the program starts *)
Definition input0 : input_t := mk_input (replicate 21 0) 0.
Lemma input0_holds : holds [] input0.
Proof. split; [apply not_elem_of_nil|]. split; [done|]. split; [done|]. by exists (replicate 20 0). Qed.

(** "go", an arrow, return *)
Lemma get_command_keys_witness :
  let ks := [Char 103; Char 120; Rub; Char 111; Arrow 65; Return] in
  ∃ s', get_command [103; 120; 127; 111; 27; 91; 65; 10] input0 = Some ((CMD_TYPED, []), s') ∧
    holds [103; 111] s' ∧ state s' = 0.
Proof.
  apply (get_command_keys [Char 103; Char 120; Rub; Char 111; Arrow 65; Return] [] input0 false []).
  - repeat constructor; reflexivity || discriminate.
  - exact input0_holds.
  - reflexivity.
Defined.

(** The line consists of characters the game accepts. *)
Definition line_ok (l : list Z) (s : input_t) : Prop := holds l s ∧ Forall (λ c, typeable c = true) l.

Lemma edit_typeable l c :
  0 < c < 256 → valid_typing c = true → Forall (λ c, typeable c = true) l →
  Forall (λ c, typeable c = true) (edit l c).
Proof.
  intros Hc Hv Hl. unfold edit. destruct (_ || _) eqn:E.
  - destruct (decide (l = [])) as [->|Hne]; [done|]. destruct (exists_last Hne) as (l' & x & ->).
    rewrite removelast_last. by apply Forall_app in Hl as [Hl _].
  - destruct (_ <? _); [|done]. apply Forall_app. split; [done|]. constructor; [|done].
    unfold valid_typing in Hv. unfold typeable, isalpha, isdigit in *. cbn zeta in Hv.
    assert (i8 c = c ∨ i8 c < 0) as [He|He] by cint_lia; [rewrite He in *; lia|lia].
Qed.

(** Any bytes at all keep the buffer a line of at most 20 characters, letters,
    digits and spaces. *)
Lemma drain_total stdin l s pushed :
  Forall (λ b, 0 < b < 256) stdin → line_ok l s →
  wp (drain stdin pushed) (λ _ s', ∃ l', line_ok l' s') s.
Proof.
  intros Hb. revert l s pushed. induction Hb as [|c stdin Hc Hb IH]; intros l s pushed Hh; cbn [drain].
  - apply wp_ret. by exists l.
  - destruct (c =? 96); [apply wp_ret; by exists l|]. apply wp_bind.
    assert (Hplain : ∀ s p, line_ok l s → wp (plain_char p c) (λ p' s', wp (drain stdin p')
      (λ _ s', ∃ l', line_ok l' s') s') s).
    { intros s1 p [H1 Ht]. unfold plain_char. destruct (valid_typing c) eqn:Hv;
        [|destruct (_ || _); apply wp_ret; by apply (IH l)].
      apply wp_bind, (typed_a_char_wp c l); [done|lia|]. intros s' Hh' _. apply wp_ret.
      apply (IH (edit l c)). split; [done|by apply edit_typeable]. }
    unfold key_step. apply wp_bind, wp_gets.
    repeat match goal with
    | |- wp (if ?b then _ else _) _ _ => destruct b
    | |- wp (mret _) _ _ => apply wp_ret; by apply (IH l)
    | |- wp (mbind _ _) _ _ => apply wp_bind, wp_modify
    | |- wp (plain_char _ _) _ _ => by apply Hplain
    end.
Qed.
