(* ===== verification/Adventure.v ===== *)
(** * Adventure: the game loop ([mp2/adventure.c])

    The command table and its parser [handle_typing], the four motions of the
    view window, the clock of the loop, one round of [game_loop], the status
    thread, and [sanity_check].  What the file tells the display code
    ([modex.c]) is a list of requests, oldest first. *)
From S2P Require Import Prelude LibString Photo WorldData World Input.

(** ** State *)
Inductive request :=
  | SetView (x y : Z)                     (* set_view_window *)
  | Horiz (i : Z)                         (* draw_horiz_line *)
  | Vert (i : Z)                          (* draw_vert_line *)
  | StatusBar (s : string) (mode : Z)     (* show_status_bar (s, STATUS_DATA, mode) *)
  | PrepRoom (r : option Z)               (* prep_room *)
  | ShowScreen.                           (* show_screen *)

Record adventure := mk_adventure {
  adv_world : world;                      (* with game_info.where *)
  adv_input : input_t;
  map_x : Z; map_y : Z;                   (* unsigned int *)
  x_speed : Z; y_speed : Z;               (* int *)
  adv_typing : string;                    (* char typing[21] *)
  requests : list request;
}.
#[export] Instance adventure_settable : Settable adventure := λ a,
  mk_adventure (adv_world a) (adv_input a) (map_x a) (map_y a) (x_speed a) (y_speed a)
    (adv_typing a) (requests a).
Abbreviation AdvM := (M adventure).

Definition on_world {B} (m : W B) : AdvM B := λ s,
  match m (adv_world s) with
  | Some (b, w) => Some (b, s <| adv_world := w |>)
  | None => None
  end.
Definition on_input {B} (m : InputM B) : AdvM B := λ s,
  match m (adv_input s) with
  | Some (b, i) => Some (b, s <| adv_input := i |>)
  | None => None
  end.
Definition request_ (r : request) : AdvM () := modify (λ s, s <| requests ::= (.++ [r]) |>).

Definition TICK_USEC : Z := 50000.
Definition MOTION_SPEED : Z := 2.
Definition SCROLL_X_DIM : Z := 320.
Definition SCROLL_Y_DIM : Z := 200 - 18.

(** ** The command table *)
Record typed_cmd_t := mk_typed_cmd { tc_name : string; min_len : Z; tc_cmd : cmd_id_t }.
Definition cmd_list : list typed_cmd_t := [
  mk_typed_cmd "buy" 3 TC_BUY; mk_typed_cmd "charge" 2 TC_CHARGE; mk_typed_cmd "do" 2 TC_DO;
  mk_typed_cmd "drink" 3 TC_DRINK; mk_typed_cmd "drop" 2 TC_DROP; mk_typed_cmd "fix" 3 TC_FIX;
  mk_typed_cmd "flash" 5 TC_FLASH; mk_typed_cmd "get" 1 TC_GET; mk_typed_cmd "go" 2 TC_GO;
  mk_typed_cmd "grab" 2 TC_GET; mk_typed_cmd "install" 3 TC_INSTALL;
  mk_typed_cmd "inventory" 1 TC_INVENTORY; mk_typed_cmd "sigh" 4 TC_SIGH;
  mk_typed_cmd "use" 3 TC_USE; mk_typed_cmd "wear" 4 TC_WEAR].

(** The C library's [strncasecmp] on strings that may end before [n] *)
Fixpoint strncasecmp (s1 s2 : string) (n : nat) : Z :=
  match n with
  | O => 0
  | S n =>
      match s1, s2 with
      | EmptyString, EmptyString => 0
      | EmptyString, String c _ => - tolower c
      | String c _, EmptyString => tolower c
      | String c1 s1, String c2 s2 =>
          if tolower c1 =? tolower c2 then strncasecmp s1 s2 n else tolower c1 - tolower c2
      end
  end.

(** The typed line as a string *)
Definition char_of (b : Z) : Ascii.ascii := Ascii.ascii_of_N (Z.to_N b).
Definition typed_string (buf : list Z) : string := String.string_of_list_ascii (char_of <$> cstr buf).

Definition space : Ascii.ascii := Ascii.ascii_of_nat 32.
Fixpoint strip_spaces (s : string) : string :=
  match s with
  | String c s' => if decide (c = space) then strip_spaces s' else s
  | EmptyString => EmptyString
  end.
(** The length of the verb: up to a space or the end *)
Fixpoint verb_length (s : string) : nat :=
  match s with
  | String c s => if decide (c = space) then O else S (verb_length s)
  | EmptyString => O
  end.
Fixpoint string_drop (n : nat) (s : string) : string :=
  match n, s with
  | S n, String _ s => string_drop n s
  | _, _ => s
  end.

(** The loop over [cmd_list]: the first entry that matches *)
Fixpoint find_cmd (l : list typed_cmd_t) (cmd : string) (cmd_len : nat) : option cmd_id_t :=
  match l with
  | [] => None
  | e :: l =>
      if Z.of_nat cmd_len <? min_len e then find_cmd l cmd cmd_len
      else if negb (0 =? strncasecmp (tc_name e) cmd cmd_len) then find_cmd l cmd cmd_len
      else Some (tc_cmd e)
  end.

(** The [switch] on the command, with the motion speeds of the board and the
    jetpack *)
Definition set_x_speed (v : Z) : AdvM () := modify (λ s, s <| x_speed := v |>).
Definition set_y_speed (v : Z) : AdvM () := modify (λ s, s <| y_speed := v |>).
Definition execute_cmd (c : cmd_id_t) (arg : string) : AdvM tc_action_t :=
  result ← on_world (typed_cmd c arg);
  (match c with
   | TC_DROP =>
       board ← on_world player_has_board;
       (if negb board then set_x_speed MOTION_SPEED else skip);;
       jetpack ← on_world player_has_jetpack;
       (if negb jetpack then set_y_speed MOTION_SPEED else skip)
   | TC_GET =>
       board ← on_world player_has_board;
       (if (board : bool) then set_x_speed (MOTION_SPEED * 3) else skip);;
       jetpack ← on_world player_has_jetpack;
       (if (jetpack : bool) then set_y_speed (MOTION_SPEED * 3) else skip)
   | _ => skip
   end);;
  mret result.

Definition redraw_room : AdvM () := for_n (Z.to_nat SCROLL_Y_DIM) 0 (λ i, request_ (Horiz i)).

(** What the result of a command asks for *)
Definition finish_typing (result : tc_action_t) : AdvM bool :=
  if decide (result = TC_CHANGE_ROOM) then mret true else
  (if decide (result = TC_ALLOW_EDIT) then skip
   else
     on_input reset_typed_command;;
     if decide (result = TC_REDRAW_ROOM) then redraw_room else skip);;
  mret false.

Definition handle_typing : AdvM bool :=
  buf ← on_input get_typed_command;
  let cmd := strip_spaces (typed_string buf) in
  if decide (cmd = EmptyString) then mret false else
  let cmd_len := verb_length cmd in
  let arg := strip_spaces (string_drop cmd_len cmd) in
  match find_cmd cmd_list cmd cmd_len with
  | None => on_world (show_status "What are you babbling about?");; mret false
  | Some c => result ← execute_cmd c arg; finish_typing result
  end.

(** ** Moving the view window *)
Definition init_game : AdvM () :=
  on_world (set_where (Some start_in_room));;
  modify (λ s, s <| map_x := 0 |> <| map_y := 0 |>
                 <| x_speed := MOTION_SPEED |> <| y_speed := MOTION_SPEED |>).

Definition set_view : AdvM () := x ← gets map_x; y ← gets map_y; request_ (SetView x y).

(** In a comparison of an [int] with an [unsigned int] the [int] is converted. *)
Definition move_photo_down : AdvM () :=
  v ← gets y_speed; y ← gets map_y;
  let delta := i32 (if y <? u32 v then y else v) in
  modify (λ s, s <| map_y := u32 (map_y s - delta) |>);;
  set_view;;
  for_n (Z.to_nat delta) 0 (λ idx, request_ (Horiz idx)).

Definition move_photo_right : AdvM () :=
  v ← gets x_speed; x ← gets map_x;
  let delta := i32 (if x <? u32 v then x else v) in
  modify (λ s, s <| map_x := u32 (map_x s - delta) |>);;
  set_view;;
  for_n (Z.to_nat delta) 0 (λ idx, request_ (Vert idx)).

Definition move_photo_left : AdvM () :=
  v ← gets x_speed; x ← gets map_x;
  r ← on_world (gets where_) ≫= lift;
  width ← on_world (room_photo_width r);
  let delta := i32 (u32 (width - SCROLL_X_DIM - x)) in
  let delta := if delta <? v then delta else v in
  modify (λ s, s <| map_x := u32 (map_x s + delta) |>);;
  set_view;;
  for_n (Z.to_nat delta) 1 (λ idx, request_ (Vert (SCROLL_X_DIM - idx))).

Definition move_photo_up : AdvM () :=
  v ← gets y_speed; y ← gets map_y;
  r ← on_world (gets where_) ≫= lift;
  height ← on_world (room_photo_height r);
  let delta := i32 (u32 (height - SCROLL_Y_DIM - y)) in
  let delta := if delta <? v then delta else v in
  modify (λ s, s <| map_y := u32 (map_y s + delta) |>);;
  set_view;;
  for_n (Z.to_nat delta) 1 (λ idx, request_ (Horiz (SCROLL_Y_DIM - idx))).

(** ** The clock *)
Record timeval := mk_timeval { tv_sec : Z; tv_usec : Z }.
Definition time_is_after (t1 t2 : timeval) : bool :=
  if tv_sec t1 =? tv_sec t2 then tv_usec t2 <=? tv_usec t1
  else tv_sec t2 <? tv_sec t1.
Definition next_tick (t : timeval) : timeval :=
  let usec := tv_usec t + TICK_USEC in
  if 1000000 <? usec then mk_timeval (tv_sec t + 1) (usec - 1000000)
  else mk_timeval (tv_sec t) usec.
(** [do ... while (!time_is_after (&cur_time, &tick_time))]: the first reading
    of the clock that is late enough; [readings] are those to come *)
Fixpoint wait_tick (readings : list timeval) (tick : timeval) : option (timeval * list timeval) :=
  match readings with
  | [] => None
  | t :: readings => if time_is_after t tick then Some (t, readings) else wait_tick readings tick
  end.
(** [do tick_time += TICK_USEC while (time_is_after (&cur_time, &tick_time))] *)
Fixpoint skip_ticks (fuel : nat) (cur tick : timeval) : option timeval :=
  match fuel with
  | O => None
  | S fuel =>
      let tick := next_tick tick in
      if time_is_after cur tick then skip_ticks fuel cur tick else Some tick
  end.

(** ** One round of [game_loop] *)
Inductive game_condition_t := GAME_WON | GAME_QUIT.

Definition enter_new_room : AdvM () :=
  modify (λ s, s <| map_x := 0 |> <| map_y := 0 |>);;
  request_ (SetView 0 0);;
  on_input reset_typed_command;;
  r ← on_world (gets where_);
  request_ (PrepRoom r);;
  redraw_room;;
  request_ (StatusBar " " 1).

(** The part under [msg_lock] *)
Definition update_status_bar : AdvM () :=
  buf ← on_input get_typed_command;
  old ← gets adv_typing;
  (if decide (old = typed_string buf) then skip
   else
     request_ (StatusBar " " 3);;
     modify (λ s, s <| adv_typing := typed_string buf |>));;
  msg ← on_world (gets status_msg);
  if decide (msg = EmptyString) then
    request_ (StatusBar " " 1);;
    r ← on_world (gets where_) ≫= lift;
    name ← on_world (room_name r) ≫= lift;
    request_ (StatusBar name 3);;
    if decide (typed_string buf = EmptyString) then skip
    else request_ (StatusBar (typed_string buf) 0)
  else request_ (StatusBar msg 2).

(** The [switch] on the command: the outcome of the game if it is over, and
    whether a room is entered *)
Definition changes_room (m : W tc_action_t) : AdvM (option game_condition_t * bool) :=
  res ← on_world m;
  mret (None, bool_decide (res = TC_CHANGE_ROOM)).
Definition do_command (cmd : cmd_t) : AdvM (option game_condition_t * bool) :=
  match cmd with
  | CMD_UP => move_photo_down;; mret (None, false)
  | CMD_RIGHT => move_photo_left;; mret (None, false)
  | CMD_DOWN => move_photo_up;; mret (None, false)
  | CMD_LEFT => move_photo_right;; mret (None, false)
  | CMD_MOVE_LEFT => changes_room try_to_move_left
  | CMD_ENTER => changes_room try_to_enter
  | CMD_MOVE_RIGHT => changes_room try_to_move_right
  | CMD_TYPED => changed ← handle_typing; mret (None, changed)
  | CMD_QUIT => mret (Some GAME_QUIT, false)
  | CMD_NONE => mret (None, false)
  end.

(** One round: first the screen is brought up to date, then one command is
    taken and carried out.  [enter_room] is carried from round to round; [stdin]
    are the bytes that wait for [get_command].  The waiting for the tick in
    between is [wait_tick] and [skip_ticks] and touches nothing else. *)
Definition refresh (enter_room : bool) : AdvM () :=
  (if enter_room then enter_new_room else skip);;
  update_status_bar;;
  request_ ShowScreen.
Definition react (stdin : list Z) : AdvM (option game_condition_t * bool * list Z) :=
  '(cmd, stdin) ← on_input (get_command stdin);
  '(outcome, enter) ← do_command cmd;
  match (outcome : option game_condition_t) with
  | Some o => mret (Some o, enter, stdin)
  | None =>
      r ← on_world (gets where_);
      mret (match r with None => Some GAME_WON | Some _ => None end, enter, stdin)
  end.
Definition game_round (enter_room : bool) (stdin : list Z) :
    AdvM (option game_condition_t * bool * list Z) :=
  refresh enter_room;; react stdin.

(** The rounds of [game_loop]; [typed] gives what has been typed by the
    time of each round. *)
Fixpoint game_loop (enter_room : bool) (typed : list (list Z)) : AdvM (option game_condition_t) :=
  match typed with
  | [] => mret None
  | stdin :: typed =>
      '(outcome, enter, _) ← game_round enter_room stdin;
      match (outcome : option game_condition_t) with
      | Some o => mret (Some o)
      | None => game_loop enter typed
      end
  end.

(** ** The status thread

    The thread holds [msg_lock] but while it waits; [StWaiting] is the wait for a
    message, [StTiming] the timed wait for 1.5 seconds.  [show_status] of
    [World] is the other side: it stores the message and signals [msg_cv] under
    the lock, so its steps never fall between those of [status_step]. *)
Inductive status_pc := StWaiting | StTiming.
Inductive wake := Signalled | TimedOut.    (* also a spurious wake-up: [Signalled] *)
(** What the thread does from one wait to the next, with [status_msg] *)
Definition status_step (pc : status_pc) (e : wake) (msg : string) : status_pc * string :=
  match pc with
  | StWaiting => (if decide (msg = EmptyString) then StWaiting else StTiming, msg)
  | StTiming =>
      match e with
      | Signalled => (StTiming, msg)
      | TimedOut => (StWaiting, EmptyString)
      end
  end.
(** The absolute time of the timed wait *)
Definition timeout_after (sec nsec : Z) : Z * Z :=
  if 500000000 <=? nsec then (sec + 2, nsec - 500000000) else (sec + 1, nsec + 500000000).

(** ** [sanity_check] *)
Definition cmd_number (c : cmd_id_t) : Z :=
  match c with
  | TC_BUY => 0 | TC_CHARGE => 1 | TC_DO => 2 | TC_DRINK => 3 | TC_DROP => 4 | TC_FIX => 5
  | TC_FLASH => 6 | TC_GET => 7 | TC_GO => 8 | TC_INSTALL => 9 | TC_INVENTORY => 10
  | TC_SIGH => 11 | TC_USE => 12 | TC_WEAR => 13
  end.
Definition NUM_TC_VALUES : Z := 14.
Fixpoint count_cmds (l : list typed_cmd_t) (cnt : list Z) (ret_val : Z) : list Z * Z :=
  match l with
  | [] => (cnt, ret_val)
  | e :: l =>
      if min_len e <? 1 then count_cmds l cnt (-1)
      else if Z.of_nat (String.length (tc_name e)) <? min_len e then count_cmds l cnt (-1)
      else count_cmds l (alter (Z.add 1) (Z.to_nat (cmd_number (tc_cmd e))) cnt) ret_val
  end.
Definition sanity_check (l : list typed_cmd_t) : Z :=
  let '(cnt, ret_val) := count_cmds l (replicate (Z.to_nat NUM_TC_VALUES) 0) 0 in
  if existsb (Z.eqb 0) cnt then -1 else ret_val.

Lemma sanity_check_passes : sanity_check cmd_list = 0.
Proof. reflexivity. Qed.

(** ** The parser *)
#[local] Arguments tolower : simpl never.
Fixpoint lower (s : string) : list Z :=
  match s with EmptyString => [] | String c s => tolower c :: lower s end.

Lemma tolower_space c : tolower c = 32 → c = space.
Proof.
  unfold tolower. intros H. assert (Hn : Ascii.N_of_ascii c = 32%N).
  { destruct (Z.leb_spec 65 (Z.of_N (Ascii.N_of_ascii c))),
      (Z.leb_spec (Z.of_N (Ascii.N_of_ascii c)) 90); cbn in H; lia. }
  apply (f_equal Ascii.ascii_of_N) in Hn. by rewrite Ascii.ascii_N_embedding in Hn.
Qed.

(** The comparison sees only the first [n] characters, in lower case. *)
Lemma strncasecmp_lower s v v' rest :
  lower v = lower v' → strncasecmp s (v +:+ rest) (String.length v) = strncasecmp s v' (String.length v).
Proof.
  revert s v'. induction v as [|c v IH]; intros s [|c' v'] H; try discriminate; [by destruct s|].
  injection H as Hc Hv.
  change (String c v +:+ rest) with (String c (v +:+ rest)).
  cbn [String.length strncasecmp]. destruct s as [|c0 s]; [cbn [strncasecmp]; by rewrite Hc|]. cbn [strncasecmp].
  replace (tolower c) with (tolower c') by congruence. by rewrite (IH s v').
Qed.
Lemma find_cmd_cong l c c' n :
  (∀ s, strncasecmp s c n = strncasecmp s c' n) → find_cmd l c n = find_cmd l c' n.
Proof. intros H. induction l as [|e l IH]; [done|]. cbn. by rewrite H, IH. Qed.

Fixpoint spaces (k : nat) : string :=
  match k with O => EmptyString | S k => String space (spaces k) end.
Lemma skip_spaces_app k s : strip_spaces (spaces k +:+ s) = strip_spaces s.
Proof. induction k as [|k IH]; [done|]. cbn. exact IH. Qed.
Lemma drop_app v s : string_drop (String.length v) (v +:+ s) = s.
Proof. induction v as [|c v IH]; [by destruct s|]. cbn. exact IH. Qed.
Lemma verb_length_app v m arg :
  32 ∉ lower v → (m = 0%nat → arg = EmptyString) → verb_length (v +:+ spaces m +:+ arg) = String.length v.
Proof.
  intros Hv Hm. induction v as [|c v IH].
  - destruct m as [|m]; [by rewrite Hm|done].
  - change (String c v +:+ spaces m +:+ arg) with (String c (v +:+ spaces m +:+ arg)).
    cbn [verb_length String.length]. cbn [lower] in Hv. apply not_elem_of_cons in Hv as [Hc Hv]. destruct (decide (c = space)) as [->|]; [done|].
    by rewrite IH.
Qed.
Lemma skip_spaces_verb v s : 32 ∉ lower v → v ≠ EmptyString → strip_spaces (v +:+ s) = v +:+ s.
Proof.
  intros Hv Hne. destruct v as [|c v]; [done|]. change (String c v +:+ s) with (String c (v +:+ s)).
  cbn [strip_spaces]. cbn [lower] in Hv. apply not_elem_of_cons in Hv as [Hc _].
  by destruct (decide (c = space)) as [->|].
Qed.

(** No entry hides another: every abbreviation long enough for its entry is
    found as that entry's command. *)
Definition prefix_ok (e : typed_cmd_t) (n : nat) : bool :=
  let v := String.substring 0 n (tc_name e) in
  bool_decide (find_cmd cmd_list v n = Some (tc_cmd e))
  && bool_decide (32 ∉ lower v) && (Nat.eqb (String.length v) n) && (1 <=? n)%nat.
Lemma prefixes_ok e n :
  e ∈ cmd_list → min_len e ≤ Z.of_nat n → (n ≤ String.length (tc_name e))%nat → prefix_ok e n = true.
Proof.
  intros He Hmin Hlen.
  assert (H : forallb (λ e, forallb (prefix_ok e)
    (seq (Z.to_nat (min_len e)) (S (String.length (tc_name e)) - Z.to_nat (min_len e)))) cmd_list = true)
    by (vm_compute; reflexivity).
  rewrite forallb_forall in H. specialize (H e (proj1 (list_elem_of_In _ _) He)).
  rewrite forallb_forall in H. apply H. apply in_seq. lia.
Qed.

Lemma lower_length v : length (lower v) = String.length v.
Proof. induction v as [|c v IH]; [done|]. cbn. by rewrite IH. Qed.

(** C36. A typed line of the form "VERB ARGUMENT", with spaces before either, runs
    the command of the table that VERB abbreviates: every abbreviation at least
    as long as the entry's minimum is recognised, in any mixture of cases, and no
    entry of the table hides another. *)
Theorem typed_command_dispatch s k e n verb m arg :
  e ∈ cmd_list → min_len e ≤ Z.of_nat n → (n ≤ String.length (tc_name e))%nat →
  lower verb = lower (String.substring 0 n (tc_name e)) →
  (m = 0%nat → arg = EmptyString) → strip_spaces arg = arg →
  typed_string (typing (adv_input s)) = spaces k +:+ verb +:+ spaces m +:+ arg →
  handle_typing s = (execute_cmd (tc_cmd e) arg ≫= finish_typing) s.
Proof.
  intros He Hmin Hlen Hverb Hm Harg Hline. pose proof (prefixes_ok e n He Hmin Hlen) as Hp.
  unfold prefix_ok in Hp. apply andb_true_iff in Hp as [Hp H1]. apply andb_true_iff in Hp as [Hp Hn].
  apply andb_true_iff in Hp as [Hf Hsp]. apply bool_decide_eq_true in Hf, Hsp.
  apply Nat.eqb_eq in Hn. apply Nat.leb_le in H1.
  assert (Hvl : String.length verb = n) by (rewrite <- lower_length, Hverb, lower_length; done).
  rewrite <- Hverb in Hsp. assert (verb ≠ EmptyString) by (intros ->; cbn in Hvl; lia).
  unfold handle_typing.
  rewrite (bind_run _ (typing (adv_input s)) _ s s) by (unfold on_input; by destruct s).
  rewrite Hline, skip_spaces_app, skip_spaces_verb by done. cbn zeta.
  rewrite verb_length_app by done. rewrite drop_app, skip_spaces_app, Harg, Hvl.
  rewrite decide_False by (by destruct verb).
  rewrite (find_cmd_cong _ _ (String.substring 0 n (tc_name e))).
  - by rewrite Hf.
  - intros s'. rewrite <- Hvl at 1. rewrite (strncasecmp_lower s' _ _ _ Hverb). by rewrite Hvl.
Qed.

(** "SigH" in the 391 lab *)
Definition demo_adventure (line : list Z) : adventure :=
  mk_adventure
    (mk_world [] [] [] [] (Some R_IN_391LAB) EmptyString (λ _, 0) 0)
    (mk_input (line ++ replicate (21 - length line) 0) 0) 0 0 2 2 EmptyString [].
Lemma typed_command_dispatch_witness :
  let s := demo_adventure [32; 83; 105; 103; 72] in
  (∃ s', handle_typing s = Some (false, s') ∧
     status_msg (adv_world s') = "MP2 got you down?  Take a break!") ∧
  handle_typing s = (execute_cmd TC_SIGH EmptyString ≫= finish_typing) s.
Proof.
  cbn zeta. split; [eexists; split; [vm_compute; reflexivity|reflexivity]|].
  apply (typed_command_dispatch _ 1 (mk_typed_cmd "sigh" 4 TC_SIGH) 4 "SigH" 0 EmptyString);
    try reflexivity.
  apply list_elem_of_In. repeat (first [left; reflexivity|right]).
Defined.

(** ** The view window *)
Lemma bind_request {B} r (f : () → AdvM B) s :
  (request_ r ≫= f) s = f () (s <| requests := requests s ++ [r] |>).
Proof. done. Qed.
Lemma for_requests n i f s :
  for_n n i (λ k, request_ (f k)) s =
    Some ((), s <| requests := requests s ++ (f <$> seqZ i (Z.of_nat n)) |>).
Proof.
  revert i s. induction n as [|n IH]; intros i s; cbn [for_n].
  - destruct s. unfold skip. cbn. by rewrite app_nil_r.
  - rewrite bind_request, IH. do 2 f_equal.
    rewrite (seqZ_cons i (Z.of_nat (S n))) by lia. destruct s. cbn. f_equal.
    rewrite <- app_assoc. cbn. do 3 f_equal. f_equal; lia.
Qed.

Lemma view_tail n i f s :
  0 ≤ n →
  (set_view;; for_n (Z.to_nat n) i (λ k, request_ (f k))) s =
    Some ((), s <| requests := requests s ++ SetView (map_x s) (map_y s) :: (f <$> seqZ i n) |>).
Proof.
  intros Hn. change ((set_view;; for_n (Z.to_nat n) i (λ k, request_ (f k))) s)
    with (for_n (Z.to_nat n) i (λ k, request_ (f k))
            (s <| requests := requests s ++ [SetView (map_x s) (map_y s)] |>)).
  rewrite for_requests, Z2Nat.id by done. destruct s. cbn. by rewrite <- app_assoc.
Qed.

Inductive motion := MoveDown | MoveUp | MoveToLeft | MoveToRight.
Definition move_photo (m : motion) : AdvM () :=
  match m with
  | MoveDown => move_photo_down | MoveUp => move_photo_up
  | MoveToLeft => move_photo_left | MoveToRight => move_photo_right
  end.

(** The window lies within the photo of the player's room, and the photo is at
    least as large as the window. *)
Definition shows (s : adventure) (r : Z) (p : photo_t) : Prop :=
  where_ (adv_world s) = Some r ∧
  ∃ rm, aget (room (adv_world s)) r = Some rm ∧ r_view rm = Some p.
Record view_ok (p : photo_t) (s : adventure) : Prop := {
  view_x : 0 ≤ map_x s ≤ photo_width p - SCROLL_X_DIM;
  view_y : 0 ≤ map_y s ≤ photo_height p - SCROLL_Y_DIM;
  view_size : photo_width p ≤ MAX_PHOTO_WIDTH ∧ photo_height p ≤ MAX_PHOTO_HEIGHT;
  view_speed : 0 < x_speed s ≤ MOTION_SPEED * 3 ∧ 0 < y_speed s ≤ MOTION_SPEED * 3;
}.

(** The lines requested are those that the old window did not show. *)
Definition exposes (s s' : adventure) (lines : list request) : Prop :=
  (∀ i, 0 ≤ i < SCROLL_Y_DIM →
     (Horiz i ∈ lines ↔ ¬ (map_y s ≤ map_y s' + i < map_y s + SCROLL_Y_DIM))) ∧
  (∀ j, 0 ≤ j < SCROLL_X_DIM →
     (Vert j ∈ lines ↔ ¬ (map_x s ≤ map_x s' + j < map_x s + SCROLL_X_DIM))).

Lemma room_width_run s r p :
  shows s r p → on_world (room_photo_width r) s = Some (photo_width p, s) ∧
    on_world (room_photo_height r) s = Some (photo_height p, s) ∧
    (on_world (gets where_) ≫= lift) s = Some (r, s).
Proof.
  intros (Hw & rm & Hrm & Hv). unfold on_world, room_photo_width, room_photo_height, get_room.
  unfold mbind, M_bind, gets, lift. rewrite Hrm, Hw, Hv. by destruct s.
Qed.

(** The window after a motion, and the lines it draws *)
Definition moved_view (m : motion) (p : photo_t) (s : adventure) : adventure * list request :=
  let dn := Z.min (y_speed s) (map_y s) in
  let rt := Z.min (x_speed s) (map_x s) in
  let lf := Z.min (x_speed s) (photo_width p - SCROLL_X_DIM - map_x s) in
  let up := Z.min (y_speed s) (photo_height p - SCROLL_Y_DIM - map_y s) in
  match m with
  | MoveDown => (s <| map_y := map_y s - dn |>, Horiz <$> seqZ 0 dn)
  | MoveToRight => (s <| map_x := map_x s - rt |>, Vert <$> seqZ 0 rt)
  | MoveToLeft => (s <| map_x := map_x s + lf |>, (λ i, Vert (SCROLL_X_DIM - i)) <$> seqZ 1 lf)
  | MoveUp => (s <| map_y := map_y s + up |>, (λ i, Horiz (SCROLL_Y_DIM - i)) <$> seqZ 1 up)
  end.

Lemma move_photo_run m r p s :
  shows s r p → view_ok p s →
  let '(s', lines) := moved_view m p s in
  move_photo m s =
    Some ((), s' <| requests := requests s ++ SetView (map_x s') (map_y s') :: lines |>).
Proof.
  intros Hs [[Hx0 Hx] [Hy0 Hy] [Hw Hh] [[Hvx0 Hvx] [Hvy0 Hvy]]].
  destruct (room_width_run s r p Hs) as (Hrw & Hrh & Hr).
  unfold MAX_PHOTO_WIDTH, MAX_PHOTO_HEIGHT, SCROLL_X_DIM, SCROLL_Y_DIM, MOTION_SPEED in *.
  destruct m; cbn [moved_view move_photo].
  - unfold move_photo_down. rewrite !bind_gets. cbn zeta.
    replace (i32 _) with (Z.min (y_speed s) (map_y s)) by (rewrite u32_small by (cint; lia);
      destruct (Z.ltb_spec (map_y s) (y_speed s)); rewrite i32_small by (cint; lia); lia).
    rewrite bind_modify, u32_small by (cint; lia). by rewrite view_tail by lia.
  - unfold move_photo_up. rewrite !bind_gets, (bind_run _ _ _ _ _ Hr), (bind_run _ _ _ _ _ Hrh). cbn zeta.
    rewrite u32_small, i32_small by (cint; unfold SCROLL_Y_DIM; lia).
    replace (if _ <? _ then _ else _) with (Z.min (y_speed s) (photo_height p - SCROLL_Y_DIM - map_y s))
      by (destruct (Z.ltb_spec (photo_height p - SCROLL_Y_DIM - map_y s) (y_speed s)); lia).
    rewrite bind_modify, u32_small by (cint; unfold SCROLL_Y_DIM; lia).
    by rewrite view_tail by (unfold SCROLL_Y_DIM; lia).
  - unfold move_photo_left. rewrite !bind_gets, (bind_run _ _ _ _ _ Hr), (bind_run _ _ _ _ _ Hrw). cbn zeta.
    rewrite u32_small, i32_small by (cint; unfold SCROLL_X_DIM; lia).
    replace (if _ <? _ then _ else _) with (Z.min (x_speed s) (photo_width p - SCROLL_X_DIM - map_x s))
      by (destruct (Z.ltb_spec (photo_width p - SCROLL_X_DIM - map_x s) (x_speed s)); lia).
    rewrite bind_modify, u32_small by (cint; unfold SCROLL_X_DIM; lia).
    by rewrite view_tail by (unfold SCROLL_X_DIM; lia).
  - unfold move_photo_right. rewrite !bind_gets. cbn zeta.
    replace (i32 _) with (Z.min (x_speed s) (map_x s)) by (rewrite u32_small by (cint; lia);
      destruct (Z.ltb_spec (map_x s) (x_speed s)); rewrite i32_small by (cint; lia); lia).
    rewrite bind_modify, u32_small by (cint; lia). by rewrite view_tail by lia.
Qed.

Lemma elem_Horiz i (f : Z → Z) a n : Horiz i ∈ ((λ k, Horiz (f k)) <$> seqZ a n) ↔ ∃ k, f k = i ∧ a ≤ k < a + n.
Proof. rewrite list_elem_of_fmap. setoid_rewrite elem_of_seqZ. naive_solver. Qed.
Lemma elem_Vert i (f : Z → Z) a n : Vert i ∈ ((λ k, Vert (f k)) <$> seqZ a n) ↔ ∃ k, f k = i ∧ a ≤ k < a + n.
Proof. rewrite list_elem_of_fmap. setoid_rewrite elem_of_seqZ. naive_solver. Qed.
Lemma not_Horiz i (f : Z → Z) a n : Horiz i ∉ ((λ k, Vert (f k)) <$> seqZ a n).
Proof. rewrite list_elem_of_fmap. naive_solver. Qed.
Lemma not_Vert i (f : Z → Z) a n : Vert i ∉ ((λ k, Horiz (f k)) <$> seqZ a n).
Proof. rewrite list_elem_of_fmap. naive_solver. Qed.

Lemma moved_view_ok m p s :
  view_ok p s → let '(s', lines) := moved_view m p s in view_ok p s' ∧ exposes s s' lines.
Proof.
  intros [[Hx0 Hx] [Hy0 Hy] [Hw Hh] [[Hvx0 Hvx] [Hvy0 Hvy]]].
  destruct m; cbn [moved_view]; (split; [split; cbn -[Z.min]; lia|]);
    (split; intros i Hi; cbn [map_x map_y setter]);
    rewrite ?(elem_Horiz _ (λ k, k)), ?(elem_Vert _ (λ k, k)), ?elem_Horiz, ?elem_Vert.
  all: try (split; [by intros ?%not_Horiz|lia]); try (split; [by intros ?%not_Vert|lia]).
  all: unfold SCROLL_X_DIM, SCROLL_Y_DIM, MOTION_SPEED in *;
    (split; [intros (k & Hk & Hr); lia|intros Hn]).
  - exists i. lia.
  - exists (200 - 18 - i). lia.
  - exists (320 - i). lia.
  - exists i. lia.
Qed.

(** C37. A motion of the view window keeps it within the photo, asks for the window to
    be set there, and draws exactly the lines and columns that were not on the
    screen before; nothing else changes. *)
Theorem move_photo_exposes m r p s :
  shows s r p → view_ok p s →
  ∃ s' lines, move_photo m s = Some ((), s') ∧
    requests s' = requests s ++ SetView (map_x s') (map_y s') :: lines ∧
    view_ok p s' ∧ exposes s s' lines ∧
    adv_world s' = adv_world s ∧ adv_input s' = adv_input s ∧
    x_speed s' = x_speed s ∧ y_speed s' = y_speed s.
Proof.
  intros Hs Hv. pose proof (move_photo_run m r p s Hs Hv) as Hrun.
  pose proof (moved_view_ok m p s Hv) as Hok.
  destruct (moved_view m p s) as [s' lines] eqn:E. destruct Hok as [[] Hex].
  eexists _, lines. split; [exact Hrun|]. split; [done|]. split; [by split|]. split; [exact Hex|].
  destruct m; cbn [moved_view] in E; injection E as <- <-; done.
Qed.

Definition demo_view : adventure :=
  mk_adventure
    (mk_world [mk_room (Some "here") (Some (mk_photo (mk_photo_header 322 200) [])) None None None None]
       [] [] [] (Some 0) EmptyString (λ _, 0) 0)
    (mk_input (replicate 21 0) 0) 1 0 6 2 EmptyString [].
Lemma move_photo_exposes_witness :
  let p := mk_photo (mk_photo_header 322 200) [] in
  shows demo_view 0 p ∧ view_ok p demo_view ∧
  ∃ s' lines, move_photo MoveToLeft demo_view = Some ((), s') ∧
    requests s' = requests demo_view ++ SetView (map_x s') (map_y s') :: lines ∧
    view_ok p s' ∧ exposes demo_view s' lines ∧
    adv_world s' = adv_world demo_view ∧ adv_input s' = adv_input demo_view ∧
    x_speed s' = x_speed demo_view ∧ y_speed s' = y_speed demo_view.
Proof.
  cbn zeta. set (p := mk_photo _ _).
  assert (Hs : shows demo_view 0 p) by (split; [reflexivity|]; eexists; split; reflexivity).
  assert (Hv : view_ok p demo_view) by (split; cbn; unfold MAX_PHOTO_WIDTH, MAX_PHOTO_HEIGHT, SCROLL_X_DIM, SCROLL_Y_DIM, MOTION_SPEED; lia).
  split; [exact Hs|]. split; [exact Hv|]. exact (move_photo_exposes MoveToLeft 0 p demo_view Hs Hv).
Defined.

(** ** The clock *)

(** Microseconds since the epoch *)
Definition usecs (t : timeval) : Z := 1000000 * tv_sec t + tv_usec t.
(** The times of the loop: the code lets [tv_usec] reach 1000000 itself. *)
Definition tick_time (t : timeval) : Prop := 0 ≤ tv_usec t ≤ 1000000.
Definition clock_time (t : timeval) : Prop := 0 ≤ tv_usec t < 1000000.

Lemma next_tick_usecs t : tick_time t → tick_time (next_tick t) ∧ usecs (next_tick t) = usecs t + TICK_USEC.
Proof.
  unfold tick_time, next_tick, usecs, TICK_USEC. cbn zeta.
  destruct (Z.ltb_spec 1000000 (tv_usec t + 50000)); cbn; lia.
Qed.
Lemma time_is_after_usecs cur t :
  clock_time cur → tick_time t → time_is_after cur t = (usecs t <=? usecs cur).
Proof.
  unfold clock_time, tick_time, time_is_after, usecs. intros Hc Ht.
  destruct (Z.eqb_spec (tv_sec cur) (tv_sec t)); [lia|].
  destruct (Z.ltb_spec (tv_sec t) (tv_sec cur)); lia.
Qed.

(** C38. The loop that skips missed ticks terminates, however many were missed, and
    at the first tick after the current time: it advances by whole ticks, to a
    time at most one tick ahead of the clock. *)
Theorem skip_ticks_next cur tick :
  clock_time cur → tick_time tick → usecs tick ≤ usecs cur →
  ∃ tick', skip_ticks (Z.to_nat (usecs cur - usecs tick) + 1) cur tick = Some tick' ∧
    tick_time tick' ∧ usecs cur < usecs tick' ≤ usecs cur + TICK_USEC ∧
    (TICK_USEC | usecs tick' - usecs tick).
Proof.
  intros Hc. remember (Z.to_nat (usecs cur - usecs tick)) as n eqn:Hn. revert tick Hn.
  induction (lt_wf n) as [n _ IH]. intros tick -> Ht Hle.
  destruct (next_tick_usecs tick Ht) as [Ht' Hu]. unfold TICK_USEC in *.
  rewrite Nat.add_1_r. cbn [skip_ticks].
  rewrite (time_is_after_usecs cur _ Hc Ht'), Hu. destruct (Z.leb_spec (usecs tick + 50000) (usecs cur)).
  - destruct (IH (Z.to_nat (usecs cur - usecs (next_tick tick))) ltac:(lia) (next_tick tick) eq_refl Ht')
      as (t' & Hrun & H1 & H2 & H3); [lia|].
    exists t'. split; [|split; [done|split; [done|]]].
    + assert (Hmono : ∀ k fuel c t r, skip_ticks fuel c t = Some r → skip_ticks (fuel + k) c t = Some r).
      { intros k fuel. induction fuel as [|fuel IHf]; intros c t r; [done|]. cbn.
        destruct (time_is_after c (next_tick t)); [apply IHf|done]. }
      apply (Hmono (Z.to_nat (usecs cur - usecs tick) - (Z.to_nat (usecs cur - usecs (next_tick tick)) + 1))%nat) in Hrun.
      rewrite <- Hrun. f_equal. lia.
    + rewrite Hu in H3. destruct H3 as [q Hq]. exists (q + 1). lia.
  - exists (next_tick tick). split; [done|]. split; [done|]. split; [lia|]. exists 1. lia.
Qed.

(** Two and a half ticks late *)
Lemma skip_ticks_next_witness :
  ∃ tick', skip_ticks (Z.to_nat 125000 + 1) (mk_timeval 8 75000) (mk_timeval 7 950000) = Some tick' ∧
    usecs tick' = 8100000.
Proof.
  destruct (skip_ticks_next (mk_timeval 8 75000) (mk_timeval 7 950000)) as (t & Hrun & _ & Hr & Hd);
    [unfold clock_time; cbn; lia|unfold tick_time; cbn; lia|vm_compute; congruence|].
  exists t. split; [exact Hrun|]. destruct Hd as [q Hq].
  change (usecs (mk_timeval 8 75000)) with 8075000 in Hr. change (usecs (mk_timeval 7 950000)) with 7950000 in Hq.
  unfold TICK_USEC in *. lia.
Defined.
