(* ===== verification/Draw.v ===== *)
(** * Draw: the lines of a room ([mp2/photo.c], second part)

    [fill_horiz_buffer] and [fill_vert_buffer] produce one line of pixels each,
    by two rather different index computations.  Both are shown to be the line of
    one picture, [map_pixel]: the photo with the objects of the room on top. *)
From S2P Require Import Prelude Photo WorldData World Layout WorldInv Adventure.

(** ** The model

    [prep_room] records the room; its record [cur_room] is the argument [cur]
    of the two functions, as in the call-backs that [modex.c] makes. *)

(** [for (idx = 0; idx < dim; idx++) buf[idx] = read (idx)], from [idx] on *)
Fixpoint copy_photo (read : Z → option Z) (n : nat) (idx : Z) (buf : list Z) : option (list Z) :=
  match n with
  | O => Some buf
  | S n =>
      px ← read idx;
      buf ← aset buf idx px;
      copy_photo read n (idx + 1) buf
  end.

(** [for (; dim > idx && len > im; idx++, im++)]: copy the pixels that are not
    transparent.  [fuel] bounds the rounds; there are at most [dim]. *)
Fixpoint copy_pixels (read : Z → option Z) (dim len : Z) (fuel : nat) (idx im : Z)
    (buf : list Z) : option (list Z) :=
  if (idx <? dim) && (im <? len) then
    match fuel with
    | O => None
    | S fuel =>
        px ← read im;
        buf ← (if negb (OBJ_CLR_TRANSP =? px) then aset buf idx px else Some buf);
        copy_pixels read dim len fuel (idx + 1) (im + 1) buf
    end
  else Some buf.

(** One object in a horizontal line *)
Definition draw_obj_horiz (x y : Z) (ob : object_t) (im : image_t) (buf : list Z) : option (list Z) :=
  let w := image_width im in
  let h := image_height im in
  if (y <? o_y ob) || (o_y ob + h <=? y) || (x + SCROLL_X_DIM <=? o_x ob) || (o_x ob + w <=? x)
  then Some buf
  else
    let yoff := (y - o_y ob) * w in
    let '(idx, imgx) := if x <=? o_x ob then (o_x ob - x, 0) else (0, x - o_x ob) in
    copy_pixels (λ imgx, aget (i_img im) (yoff + imgx)) SCROLL_X_DIM w
      (Z.to_nat SCROLL_X_DIM) idx imgx buf.

(** One object in a vertical line *)
Definition draw_obj_vert (x y : Z) (ob : object_t) (im : image_t) (buf : list Z) : option (list Z) :=
  let w := image_width im in
  let h := image_height im in
  if (x <? o_x ob) || (o_x ob + w <=? x) || (y + SCROLL_Y_DIM <=? o_y ob) || (o_y ob + h <=? y)
  then Some buf
  else
    let xoff := x - o_x ob in
    let '(idx, imgy) := if y <=? o_y ob then (o_y ob - y, 0) else (0, y - o_y ob) in
    copy_pixels (λ imgy, aget (i_img im) (xoff + w * imgy)) SCROLL_Y_DIM h
      (Z.to_nat SCROLL_Y_DIM) idx imgy buf.

(** The loop over the objects of the room *)
Fixpoint draw_objects (draw : object_t → image_t → list Z → option (list Z))
    (n : nat) (obj : option Z) (buf : list Z) : W (list Z) :=
  match obj with
  | None => mret buf
  | Some o =>
      match n with
      | O => ub
      | S n =>
          ob ← get_object o;
          img ← obj_image o ≫= lift;
          buf ← lift (draw ob img buf);
          next ← obj_next o;
          draw_objects draw n next buf
      end
  end.

Definition fill_horiz_buffer (cur : Z) (x y : Z) (buf : list Z) : W (list Z) :=
  view ← room_photo cur ≫= lift;
  buf ← lift (copy_photo (λ idx,
    if (0 <=? x + idx) && (x + idx <? photo_width view)
    then aget (p_img view) (photo_width view * y + x + idx) else Some 0)
    (Z.to_nat SCROLL_X_DIM) 0 buf);
  obj ← room_contents_iterate cur;
  draw_objects (draw_obj_horiz x y) (Z.to_nat N_OBJECTS) obj buf.

Definition fill_vert_buffer (cur : Z) (x y : Z) (buf : list Z) : W (list Z) :=
  view ← room_photo cur ≫= lift;
  buf ← lift (copy_photo (λ idx,
    if (0 <=? y + idx) && (y + idx <? photo_height view)
    then aget (p_img view) (photo_width view * (y + idx) + x) else Some 0)
    (Z.to_nat SCROLL_Y_DIM) 0 buf);
  obj ← room_contents_iterate cur;
  draw_objects (draw_obj_vert x y) (Z.to_nat N_OBJECTS) obj buf.

(** ** The picture *)

(** The pixel of a photo at [(x, y)], 0 outside *)
Definition photo_pixel (p : photo_t) (x y : Z) : Z :=
  if (0 <=? x) && (x <? photo_width p) && (0 <=? y) && (y <? photo_height p)
  then default 0 (aget (p_img p) (photo_width p * y + x)) else 0.
(** The pixel of an object that covers [(x, y)], if it is not transparent *)
Definition object_pixel (ob : object_t) (im : image_t) (x y : Z) : option Z :=
  let dx := x - o_x ob in
  let dy := y - o_y ob in
  if (0 <=? dx) && (dx <? image_width im) && (0 <=? dy) && (dy <? image_height im)
  then px ← aget (i_img im) (image_width im * dy + dx);
       if OBJ_CLR_TRANSP =? px then None else Some px
  else None.
(** The objects of the room on the photo, the first of the list at the bottom *)
Definition map_pixel (p : photo_t) (obs : list (object_t * image_t)) (x y : Z) : Z :=
  foldl (λ px ob, default px (object_pixel ob.1 ob.2 x y)) (photo_pixel p x y) obs.

(** ** Lines *)
Definition is_line (dim : Z) (f : Z → Z) (buf : list Z) : Prop :=
  zlen buf = dim ∧ ∀ i, 0 ≤ i < dim → aget buf i = Some (f i).

Lemma is_line_eq dim f buf : is_line dim f buf → buf = f <$> seqZ 0 dim.
Proof.
  intros [Hl Hf]. apply list_eq. intros i.
  destruct (decide (i < length buf)%nat) as [Hi|Hi].
  - specialize (Hf (Z.of_nat i) ltac:(lia)). rewrite aget_of_nat in Hf. rewrite Hf.
    rewrite list_lookup_fmap, lookup_seqZ_lt by lia. done.
  - rewrite !lookup_ge_None_2; [done|rewrite length_fmap, length_seqZ; lia|lia].
Qed.
Lemma is_line_ext dim f g buf : (∀ i, 0 ≤ i < dim → f i = g i) → is_line dim f buf → is_line dim g buf.
Proof. intros Hfg [Hl Hf]. split; [done|]. intros i Hi. rewrite <- Hfg by done. by apply Hf. Qed.

Lemma is_line_set dim f buf i v :
  is_line dim f buf → 0 ≤ i < dim →
  aset buf i v = Some (<[Z.to_nat i := v]> buf) ∧
  is_line dim (λ j, if decide (j = i) then v else f j) (<[Z.to_nat i := v]> buf).
Proof.
  intros [Hl Hf] Hi. split; [apply aset_in; lia|]. split; [by rewrite length_insert|].
  intros j Hj. rewrite aget_insert by lia. destruct (decide (j = i)); [done|by apply Hf].
Qed.

Lemma copy_photo_spec read g dim n idx buf :
  0 ≤ idx → idx + Z.of_nat n = dim → zlen buf = dim →
  (∀ i, idx ≤ i < dim → read i = Some (g i)) →
  ∃ buf', copy_photo read n idx buf = Some buf' ∧ zlen buf' = dim ∧
    ∀ i, 0 ≤ i < dim → aget buf' i = if decide (idx ≤ i) then Some (g i) else aget buf i.
Proof.
  revert idx buf. induction n as [|n IH]; intros idx buf H0 Hn Hl Hr; cbn [copy_photo].
  - exists buf. split; [done|]. split; [done|]. intros i Hi. by rewrite decide_False by lia.
  - rewrite Hr by lia. cbn [mbind option_bind]. rewrite aset_in by lia. cbn [mbind option_bind].
    destruct (IH (idx + 1) (<[Z.to_nat idx := g idx]> buf)) as (buf' & Hrun & Hl' & Hb');
      [lia|lia|by rewrite length_insert|intros i Hi; apply Hr; lia|].
    exists buf'. split; [done|]. split; [done|]. intros i Hi. rewrite Hb' by lia.
    rewrite aget_insert by lia. repeat case_decide; (congruence || lia).
Qed.

(** The copy of an object's line: a pixel for each position it covers *)
Lemma copy_pixels_spec read g dim len fuel idx im f buf :
  is_line dim f buf → 0 ≤ idx → 0 ≤ im → dim - idx ≤ Z.of_nat fuel →
  (∀ k, 0 ≤ k < len → read k = Some (g k)) →
  ∃ buf', copy_pixels read dim len fuel idx im buf = Some buf' ∧
    is_line dim (λ i, let k := im + (i - idx) in
      if decide (idx ≤ i ∧ k < len) then if OBJ_CLR_TRANSP =? g k then f i else g k else f i) buf'.
Proof.
  revert idx im f buf. induction fuel as [|fuel IH]; intros idx im f buf Hf Hi Him Hfuel Hr;
    cbn [copy_pixels]; destruct (Z.ltb_spec idx dim), (Z.ltb_spec im len); cbn [andb]; try lia;
    try (exists buf; split; [done|]; eapply is_line_ext; [|exact Hf];
         intros i Hi'; cbn beta zeta; by rewrite decide_False by lia).
  rewrite Hr by lia. cbn [mbind option_bind].
  destruct (is_line_set dim f buf idx (g im) Hf) as [Hset Hline]; [lia|].
  destruct (Z.eqb_spec OBJ_CLR_TRANSP (g im)) as [Ht|Ht]; cbn [negb].
  - cbn [mbind option_bind].
    destruct (IH (idx + 1) (im + 1) f buf Hf) as (buf' & Hrun & Hb'); [lia..|done|].
    exists buf'. split; [done|]. eapply is_line_ext; [|exact Hb']. intros i Hi'. cbn beta zeta.
    replace (im + 1 + (i - (idx + 1))) with (im + (i - idx)) by lia.
    destruct (decide (i = idx)) as [->|].
    + replace (im + (idx - idx)) with im by lia.
      repeat case_decide; try lia. by rewrite <- Ht, Z.eqb_refl.
    + repeat case_decide; (done || lia).
  - rewrite Hset. cbn [mbind option_bind].
    destruct (IH (idx + 1) (im + 1) _ _ Hline) as (buf' & Hrun & Hb'); [lia..|done|].
    exists buf'. split; [done|]. eapply is_line_ext; [|exact Hb']. intros i Hi'. cbn beta zeta.
    replace (im + 1 + (i - (idx + 1))) with (im + (i - idx)) by lia.
    destruct (decide (i = idx)) as [->|].
    + replace (im + (idx - idx)) with im by lia.
      repeat case_decide; try lia. by destruct (Z.eqb_spec OBJ_CLR_TRANSP (g im)).
    + repeat case_decide; (done || lia).
Qed.

(** ** One object *)
Definition image_ok (im : image_t) : Prop :=
  0 ≤ image_width im ∧ 0 ≤ image_height im ∧ zlen (i_img im) = image_width im * image_height im.

Lemma image_read im dx dy :
  image_ok im → 0 ≤ dx < image_width im → 0 ≤ dy < image_height im →
  aget (i_img im) (image_width im * dy + dx)
    = Some (default 0 (aget (i_img im) (image_width im * dy + dx))).
Proof.
  intros (Hw & Hh & Hl) Hx Hy.
  assert (is_Some (aget (i_img im) (image_width im * dy + dx))) as [v ->]; [|done].
  apply aget_is_Some. rewrite Hl. nia.
Qed.

(** The value a line gets at a place where the object's pixel is [px] *)
Lemma object_pixel_at ob im x y k dx dy f :
  image_ok im → dx = x - o_x ob → dy = y - o_y ob →
  k = image_width im * dy + dx → 0 ≤ dy < image_height im →
  (if decide (0 ≤ dx ∧ dx < image_width im)
   then if OBJ_CLR_TRANSP =? default 0 (aget (i_img im) k) then f else default 0 (aget (i_img im) k)
   else f) = default f (object_pixel ob im x y).
Proof.
  intros Hok -> -> -> Hy. unfold object_pixel. cbn zeta.
  destruct (decide _) as [[H1 H2]|Hn].
  - replace (_ && _) with true by lia. rewrite (image_read im) by done. cbn [mbind option_bind default].
    rewrite (image_read im) by done. cbn [default].
    by destruct (OBJ_CLR_TRANSP =? _).
  - replace (_ && _) with false by lia. done.
Qed.
Lemma object_pixel_out ob im x y :
  (x < o_x ob ∨ o_x ob + image_width im ≤ x ∨ y < o_y ob ∨ o_y ob + image_height im ≤ y) →
  object_pixel ob im x y = None.
Proof. intros H. unfold object_pixel. cbn zeta. by replace (_ && _) with false by lia. Qed.

Lemma draw_obj_horiz_spec x y ob im f buf :
  image_ok im → is_line SCROLL_X_DIM f buf →
  ∃ buf', draw_obj_horiz x y ob im buf = Some buf' ∧
    is_line SCROLL_X_DIM (λ i, default (f i) (object_pixel ob im (x + i) y)) buf'.
Proof.
  intros Hok Hf. unfold draw_obj_horiz. cbn zeta.
  destruct (_ || _) eqn:Eclip.
  { exists buf. split; [done|]. eapply is_line_ext; [|exact Hf]. intros i Hi.
    rewrite object_pixel_out; [done|]. lia. }
  assert (Hy : 0 ≤ y - o_y ob < image_height im) by lia.
  set (g := λ k, default 0 (aget (i_img im) ((y - o_y ob) * image_width im + k))).
  assert (Hread : ∀ k, 0 ≤ k < image_width im →
    aget (i_img im) ((y - o_y ob) * image_width im + k) = Some (g k)).
  { intros k Hk. unfold g. rewrite (Z.mul_comm (y - o_y ob)). by apply image_read. }
  assert (Hend : ∀ idx imgx, imgx - idx = x - o_x ob → 0 ≤ idx → 0 ≤ imgx → (0 < idx → imgx = 0) →
    ∃ buf', copy_pixels (λ imgx, aget (i_img im) ((y - o_y ob) * image_width im + imgx)) SCROLL_X_DIM
      (image_width im) (Z.to_nat SCROLL_X_DIM) idx imgx buf = Some buf' ∧
    is_line SCROLL_X_DIM (λ i, default (f i) (object_pixel ob im (x + i) y)) buf').
  { intros idx imgx Hd Hi0 Hm0 Hor.
    destruct (copy_pixels_spec (λ k, aget (i_img im) ((y - o_y ob) * image_width im + k)) g
      SCROLL_X_DIM (image_width im) (Z.to_nat SCROLL_X_DIM) idx imgx f buf Hf)
      as (buf' & Hrun & Hb'); [done|done|unfold SCROLL_X_DIM; lia|exact Hread|].
    exists buf'. split; [done|]. eapply is_line_ext; [|exact Hb']. intros i Hi. cbn beta zeta.
    replace (imgx + (i - idx)) with (x + i - o_x ob) by lia.
    rewrite <- (object_pixel_at ob im (x + i) y
      ((y - o_y ob) * image_width im + (x + i - o_x ob)) (x + i - o_x ob) (y - o_y ob));
      [|done|done|done|lia|done].
    repeat case_decide; (done || lia). }
  destruct (Z.leb_spec x (o_x ob)); apply Hend; lia.
Qed.

Lemma draw_obj_vert_spec x y ob im f buf :
  image_ok im → is_line SCROLL_Y_DIM f buf →
  ∃ buf', draw_obj_vert x y ob im buf = Some buf' ∧
    is_line SCROLL_Y_DIM (λ i, default (f i) (object_pixel ob im x (y + i))) buf'.
Proof.
  intros Hok Hf. unfold draw_obj_vert. cbn zeta.
  destruct (_ || _) eqn:Eclip.
  { exists buf. split; [done|]. eapply is_line_ext; [|exact Hf]. intros i Hi.
    rewrite object_pixel_out; [done|]. lia. }
  assert (Hx : 0 ≤ x - o_x ob < image_width im) by lia.
  set (g := λ k, default 0 (aget (i_img im) (x - o_x ob + image_width im * k))).
  assert (Hread : ∀ k, 0 ≤ k < image_height im →
    aget (i_img im) (x - o_x ob + image_width im * k) = Some (g k)).
  { intros k Hk. unfold g. rewrite (Z.add_comm (x - o_x ob)). by apply image_read. }
  assert (Hend : ∀ idx imgy, imgy - idx = y - o_y ob → 0 ≤ idx → 0 ≤ imgy → (0 < idx → imgy = 0) →
    ∃ buf', copy_pixels (λ imgy, aget (i_img im) (x - o_x ob + image_width im * imgy)) SCROLL_Y_DIM
      (image_height im) (Z.to_nat SCROLL_Y_DIM) idx imgy buf = Some buf' ∧
    is_line SCROLL_Y_DIM (λ i, default (f i) (object_pixel ob im x (y + i))) buf').
  { intros idx imgy Hd Hi0 Hm0 Hor.
    destruct (copy_pixels_spec (λ k, aget (i_img im) (x - o_x ob + image_width im * k)) g
      SCROLL_Y_DIM (image_height im) (Z.to_nat SCROLL_Y_DIM) idx imgy f buf Hf)
      as (buf' & Hrun & Hb'); [done|done|unfold SCROLL_Y_DIM; lia|exact Hread|].
    exists buf'. split; [done|]. eapply is_line_ext; [|exact Hb']. intros i Hi. cbn beta zeta.
    replace (imgy + (i - idx)) with (y + i - o_y ob) by lia.
    destruct (decide (0 ≤ y + i - o_y ob < image_height im)) as [Hy|Hy].
    - rewrite <- (object_pixel_at ob im x (y + i)
        (x - o_x ob + image_width im * (y + i - o_y ob)) (x - o_x ob) (y + i - o_y ob));
        [|done|done|done|lia|done].
      repeat case_decide; (done || lia).
    - rewrite object_pixel_out by lia. case_decide; [lia|done]. }
  destruct (Z.leb_spec y (o_y ob)); apply Hend; lia.
Qed.

(** ** The objects of a room *)
Definition contents (w : world) (l : list Z) : option (list (object_t * image_t)) :=
  mapM (λ o, ob ← aget (object w) o; im ← o_img ob; Some (ob, im)) l.

Section objects.
Context (dim : Z) (place : Z → Z * Z) (draw : object_t → image_t → list Z → option (list Z)).
Context (Hdraw : ∀ ob im f buf, image_ok im → is_line dim f buf →
  ∃ buf', draw ob im buf = Some buf' ∧
    is_line dim (λ i, default (f i) (object_pixel ob im (place i).1 (place i).2)) buf').

Lemma draw_objects_spec w n p l obs f buf :
  chain (nexts w) p l → (length l ≤ n)%nat → contents w l = Some obs →
  Forall (λ ob, image_ok ob.2) obs → is_line dim f buf →
  ∃ buf', draw_objects draw n p buf w = Some (buf', w) ∧
    is_line dim (λ i, foldl (λ px ob, default px (object_pixel ob.1 ob.2 (place i).1 (place i).2))
      (f i) obs) buf'.
Proof.
  revert n p obs f buf. induction l as [|o l IH]; intros n p obs f buf Hc Hl Hobs Hok Hf; cbn in Hc.
  - subst p. injection Hobs as <-. exists buf. split; [by destruct n|done].
  - destruct Hc as (-> & nx & Hnx & Hc). destruct n as [|n]; [cbn in Hl; lia|].
    unfold contents in Hobs. cbn [mapM] in Hobs.
    rewrite aget_nexts in Hnx. destruct (aget (object w) o) as [ob|] eqn:Eo; [|done].
    injection Hnx as Hnx. cbn [mbind option_bind] in Hobs.
    destruct (o_img ob) as [im|] eqn:Eim; [|done]. cbn [mbind option_bind] in Hobs.
    destruct (mapM _ l) as [obs'|] eqn:El; [|done]. injection Hobs as <-.
    apply Forall_cons in Hok as [Him Hok].
    destruct (Hdraw ob im f buf Him Hf) as (buf1 & Hrun & Hf1).
    destruct (IH n nx obs' _ buf1 Hc ltac:(cbn in Hl; lia) El Hok Hf1) as (buf2 & Hrun2 & Hf2).
    exists buf2. split; [|exact Hf2]. cbn [draw_objects].
    rewrite (bind_run _ _ _ _ _ (get_object_run _ _ _ Eo)).
    rewrite (bind_run _ im _ w w).
    2:{ unfold obj_image. by rewrite bind_assoc, (bind_run _ _ _ _ _ (get_object_run _ _ _ Eo)), Eim. }
    rewrite (bind_lift _ buf1) by done.
    rewrite (bind_run _ nx _ w w).
    2:{ unfold obj_next. by rewrite (bind_run _ _ _ _ _ (get_object_run _ _ _ Eo)), Hnx. }
    exact Hrun2.
Qed.
End objects.

(** ** The lines of a room *)
Definition photo_ok (p : photo_t) : Prop :=
  0 ≤ photo_width p ∧ 0 ≤ photo_height p ∧ zlen (p_img p) = photo_width p * photo_height p.

(** What is seen in room [r]: the photo [p] and the objects [obs], in the
    order of the room's list *)
Record seen (w : world) (L : Z → list Z) (r : Z) (p : photo_t) (obs : list (object_t * image_t)) : Prop := {
  seen_laid : laid w L;
  seen_few : zlen (object w) ≤ N_OBJECTS;
  seen_photo : (aget (room w) r ≫= r_view) = Some p;
  seen_photo_ok : photo_ok p;
  seen_objects : contents w (L r) = Some obs;
  seen_objects_ok : Forall (λ ob, image_ok ob.2) obs;
}.

Section lines.
Context (w : world) (L : Z → list Z) (r : Z) (p : photo_t) (obs : list (object_t * image_t)).
Context (Hs : seen w L r p obs).

Lemma photo_read x y :
  0 ≤ x < photo_width p → 0 ≤ y < photo_height p →
  aget (p_img p) (photo_width p * y + x) = Some (photo_pixel p x y).
Proof.
  intros Hx Hy. destruct (seen_photo_ok _ _ _ _ _ Hs) as (_ & _ & Hl).
  unfold photo_pixel. replace (_ && _) with true by lia.
  assert (is_Some (aget (p_img p) (photo_width p * y + x))) as [v ->]; [|done].
  apply aget_is_Some. rewrite Hl. nia.
Qed.

(** The steps that the two functions share *)
Lemma fill_run (dim : Z) (place : Z → Z * Z) read draw buf :
  0 ≤ dim → zlen buf = dim →
  (∀ i, 0 ≤ i < dim → read p i = Some (photo_pixel p (place i).1 (place i).2)) →
  (∀ ob im f buf, image_ok im → is_line dim f buf → ∃ buf', draw ob im buf = Some buf' ∧
    is_line dim (λ i, default (f i) (object_pixel ob im (place i).1 (place i).2)) buf') →
  (view ← room_photo r ≫= lift;
   buf ← lift (copy_photo (read view) (Z.to_nat dim) 0 buf);
   obj ← room_contents_iterate r;
   draw_objects draw (Z.to_nat N_OBJECTS) obj buf) w
  = Some ((λ i, map_pixel p obs (place i).1 (place i).2) <$> seqZ 0 dim, w).
Proof.
  intros Hdim Hlen Hread Hdraw. pose proof (seen_photo _ _ _ _ _ Hs) as Hp.
  destruct (aget (room w) r) as [rm|] eqn:Hrm; [cbn [mbind option_bind] in Hp|done].
  pose proof (seen_laid _ _ _ _ _ Hs) as HL.
  destruct (copy_photo_spec (read p) (λ i, photo_pixel p (place i).1 (place i).2) dim
    (Z.to_nat dim) 0 buf) as (buf1 & Hcopy & Hl1 & Hb1); [lia|lia|done|exact Hread|].
  assert (Hchain : chain (nexts w) (r_contents rm) (L r)).
  { eapply lay_chain; [exact HL|]. by rewrite aget_heads, Hrm. }
  destruct (draw_objects_spec dim place draw Hdraw w (Z.to_nat N_OBJECTS) (r_contents rm) (L r) obs
    (λ i, photo_pixel p (place i).1 (place i).2) buf1) as (buf2 & Hrun & Hf2); [done| |apply Hs|apply Hs| |].
  { pose proof (lay_short _ _ _ _ HL r). pose proof (zlen_locs w). pose proof (seen_few _ _ _ _ _ Hs).
    lia. }
  { split; [done|]. intros i Hi. rewrite Hb1 by done. by rewrite decide_True by lia. }
  rewrite (bind_run _ p _ w w).
  2:{ unfold room_photo. by rewrite bind_assoc, (bind_run _ _ _ _ _ (get_room_run _ _ _ Hrm)), Hp. }
  rewrite (bind_lift _ buf1) by done.
  rewrite (bind_run _ (r_contents rm) _ w w).
  2:{ unfold room_contents_iterate. by rewrite (bind_run _ _ _ _ _ (get_room_run _ _ _ Hrm)). }
  rewrite Hrun. by rewrite (is_line_eq _ _ _ Hf2).
Qed.
Lemma fill_horiz_run x y buf :
  0 ≤ y < photo_height p → zlen buf = SCROLL_X_DIM →
  fill_horiz_buffer r x y buf w = Some ((λ i, map_pixel p obs (x + i) y) <$> seqZ 0 SCROLL_X_DIM, w).
Proof.
  intros Hin Hbuf. apply (fill_run SCROLL_X_DIM (λ i, (x + i, y)) (λ view idx,
    if (0 <=? x + idx) && (x + idx <? photo_width view)
    then aget (p_img view) (photo_width view * y + x + idx) else Some 0)); [done|done| |].
  - intros i Hi. cbn [fst snd]. destruct (_ && _) eqn:E.
    + rewrite <- Z.add_assoc. apply photo_read; lia.
    + unfold photo_pixel. by replace (_ && _) with false by lia.
  - intros. by apply draw_obj_horiz_spec.
Qed.
Lemma fill_vert_run x y buf :
  0 ≤ x < photo_width p → zlen buf = SCROLL_Y_DIM →
  fill_vert_buffer r x y buf w = Some ((λ i, map_pixel p obs x (y + i)) <$> seqZ 0 SCROLL_Y_DIM, w).
Proof.
  intros Hin Hbuf. apply (fill_run SCROLL_Y_DIM (λ i, (x, y + i)) (λ view idx,
    if (0 <=? y + idx) && (y + idx <? photo_height view)
    then aget (p_img view) (photo_width view * (y + idx) + x) else Some 0)); [done|done| |].
  - intros i Hi. cbn [fst snd]. destruct (_ && _) eqn:E.
    + apply photo_read; lia.
    + unfold photo_pixel. by replace (_ && _) with false by lia.
  - intros. by apply draw_obj_vert_spec.
Qed.
End lines.

(** C17. The two line routines draw one picture: for a line of the photo,
    horizontal or vertical, wherever it starts along the line, the buffer gets
    the pixels of [map_pixel], which is the photo with the objects of the room
    on top in the order of the room's list, transparent pixels left out, and 0
    beyond the edges of the photo.  No read or store is out of bounds. *)
Theorem fill_buffers_map_pixel w L r p obs x y hb vb :
  seen w L r p obs → zlen hb = SCROLL_X_DIM → zlen vb = SCROLL_Y_DIM →
  (0 ≤ y < photo_height p →
   fill_horiz_buffer r x y hb w = Some ((λ i, map_pixel p obs (x + i) y) <$> seqZ 0 SCROLL_X_DIM, w)) ∧
  (0 ≤ x < photo_width p →
   fill_vert_buffer r x y vb w = Some ((λ i, map_pixel p obs x (y + i)) <$> seqZ 0 SCROLL_Y_DIM, w)).
Proof.
  intros Hs Hhb Hvb. split; intros Hin; [by eapply fill_horiz_run|by eapply fill_vert_run].
Qed.

(** A room with a photo of two by two pixels, and a transparent and a white
    pixel one above the other on it *)
Definition small_photo : photo_t := mk_photo (mk_photo_header 2 2) [1; 2; 3; 4].
Definition small_image : image_t := mk_image (mk_photo_header 1 2) [OBJ_CLR_TRANSP; 0x3F].
Definition small_object : object_t := mk_object None None (Some 0) 1 0 (Some small_image).
Definition small_world : world :=
  mk_world [mk_room None (Some small_photo) (Some 0) None None None] [small_object] [] [] None
    EmptyString (λ _, 0) 0.
Definition small_lists (r : Z) : list Z := if r =? 0 then [0] else [].

Lemma single_index {A} (v x : A) i : aget [v] i = Some x → i = 0 ∧ x = v.
Proof.
  intros H. pose proof (aget_Some_range _ _ _ H). assert (i = 0) as -> by (cbn in *; lia).
  by injection H as <-.
Qed.
Lemma small_seen : seen small_world small_lists 0 small_photo [(small_object, small_image)].
Proof.
  split; try done; [|repeat constructor; done].
  unfold laid, heads, nexts, locs. cbn [small_world room object list_fmap fmap]. cbn.
  split; [| | | | |done].
  - intros r p [-> ->]%single_index. by split; [|exists None].
  - intros o r l [-> ->]%single_index. unfold small_lists.
    destruct (Z.eqb_spec r 0) as [->|Hr]; [by split; [set_solver|]|].
    split; [congruence|by intros ?%not_elem_of_nil].
  - intros r. unfold small_lists. destruct (r =? 0); repeat constructor. apply not_elem_of_nil.
  - intros r o. unfold small_lists. destruct (Z.eqb_spec r 0); [cbn; lia|by intros ?%not_elem_of_nil].
  - intros r o. unfold small_lists. destruct (r =? 0); [|by intros ?%not_elem_of_nil].
    intros ->%list_elem_of_singleton. cbn. lia.
Qed.

Lemma fill_buffers_map_pixel_witness :
  fill_horiz_buffer 0 (-1) 1 (replicate 320 9) small_world
  = Some ([0; 3; 63] ++ replicate 317 0, small_world).
Proof.
  destruct (fill_buffers_map_pixel small_world small_lists 0 small_photo _ (-1) 1
    (replicate 320 9) (replicate 182 9) small_seen eq_refl eq_refl) as [H _].
  rewrite H by (cbn; lia). apply f_equal, (f_equal (λ l, (l, small_world))). vm_compute. reflexivity.
Defined.
