(* ===== verification/Vga.v ===== *)
(** * Vga: the VGA of the adventure ([mp2/modex.c], first part)

    The registers and video memory of the adapter, as far as the game programs
    them, and the functions of [modex.c] that set it up for mode X.  The adapter
    is hardware: [vga_t] with [outb], [inb] and [vram_store] is its documented
    behaviour; [screen] says which pixel the monitor shows where. *)
From stdpp Require Import functions.
From S2P Require Import Prelude.

(** ** The adapter *)
Record vga_t := mk_vga {
  misc : Z;                            (* miscellaneous output register *)
  seq_index : Z; seq : Z → Z;          (* sequencer *)
  crtc_index : Z; crtc : Z → Z;        (* CRT controller *)
  gr_index : Z; gr : Z → Z;            (* graphics controller *)
  attr_index : Z; attr : Z → Z;        (* attribute controller *)
  attr_data : bool;                    (* its port takes data next *)
  pal_index : Z; pal : Z → Z;          (* component [k] of colour [c] is at [3 * c + k] *)
  vram : Z → Z → Z;                    (* a byte for each plane and offset *)
}.
#[export] Instance vga_settable : Settable vga_t := λ g,
  mk_vga (misc g) (seq_index g) (seq g) (crtc_index g) (crtc g) (gr_index g) (gr g)
    (attr_index g) (attr g) (attr_data g) (pal_index g) (pal g) (vram g).
Abbreviation VgaM := (M vga_t).

(** A byte to a port.  Registers 0 to 7 of the CRT controller are protected while
    bit 7 of register 0x11 is set. *)
Definition port_write (port v : Z) (g : vga_t) : vga_t :=
  if port =? 0x3C0 then
    if attr_data g then g <| attr ::= <[attr_index g := v]> |> <| attr_data := false |>
    else g <| attr_index := Z.land v 0x1F |> <| attr_data := true |>
  else if port =? 0x3C2 then g <| misc := v |>
  else if port =? 0x3C4 then g <| seq_index := v |>
  else if port =? 0x3C5 then g <| seq ::= <[seq_index g := v]> |>
  else if port =? 0x3C8 then g <| pal_index := 3 * v |>
  else if port =? 0x3C9 then g <| pal ::= <[pal_index g := v]> |> <| pal_index ::= Z.succ |>
  else if port =? 0x3CE then g <| gr_index := v |>
  else if port =? 0x3CF then g <| gr ::= <[gr_index g := v]> |>
  else if port =? 0x3D4 then g <| crtc_index := v |>
  else if port =? 0x3D5 then
    if (crtc_index g <? 8) && Z.testbit (crtc g 0x11) 7 then g
    else g <| crtc ::= <[crtc_index g := v]> |>
  else g.
Definition OUTB (port v : Z) : VgaM () := modify (port_write port v).
(** Two bytes to two consecutive ports, the low one first *)
Definition OUTW (port v : Z) : VgaM () :=
  OUTB port (Z.land v 0xFF);; OUTB (port + 1) (Z.land (Z.shiftr v 8) 0xFF).
Fixpoint REP_OUTSW (port : Z) (source : list Z) : VgaM () :=
  match source with
  | [] => skip
  | v :: source => OUTW port v;; REP_OUTSW port source
  end.
Fixpoint REP_OUTSB (port : Z) (source : list Z) : VgaM () :=
  match source with
  | [] => skip
  | v :: source => OUTB port v;; REP_OUTSB port source
  end.
(** Reading 0x3DA makes the attribute port take an index next; the status
    itself is not used. *)
Definition INB (port : Z) : VgaM Z :=
  if port =? 0x3DA then modify (λ g, g <| attr_data := false |>);; mret 0
  else gets (λ g, if port =? 0x3C5 then seq g (seq_index g) else 0).

(** A store to the video memory goes to the planes that sequencer register 2
    enables. *)
Definition vram_store (a v : Z) : VgaM () := modify (λ g,
  g <| vram ::= λ old p b, if (b =? a) && Z.testbit (seq g 2) p then v else old p b |>).

(** What the monitor shows at [(x, y)]: memory is displayed from the start
    address in registers 0x0C and 0x0D, and from offset 0 after the scan line of
    the split. *)
Definition scans_per_row (g : vga_t) : Z := Z.land (crtc g 9) 0x1F + 1.
Definition line_compare (g : vga_t) : Z :=
  crtc g 0x18 + 256 * Z_of_bool (Z.testbit (crtc g 7) 4) + 512 * Z_of_bool (Z.testbit (crtc g 9) 6).
Definition split_row (g : vga_t) : Z := (line_compare g + 1) / scans_per_row g.
Definition pitch (g : vga_t) : Z := 2 * crtc g 0x13.
Definition start_address (g : vga_t) : Z := 256 * crtc g 0x0C + crtc g 0x0D.
Definition screen (g : vga_t) (x y : Z) : Z :=
  let from := if y <? split_row g then start_address g + pitch g * y
              else pitch g * (y - split_row g) in
  vram g (x mod 4) (from + x / 4).

(** ** Register values *)
Definition mode_X_seq : list Z := [
  0x0100; 0x2101; 0x0F02; 0x0003; 0x0604].
Definition mode_X_CRTC : list Z := [
  0x5F00; 0x4F01; 0x5002; 0x8203; 0x5404; 0x8005; 0xBF06; 0x1F07; 0x0008; 0x0109; 0x000A; 0x000B;
  0x000C; 0x000D; 0x000E; 0x000F; 0x9C10; 0x8E11; 0x8F12; 0x2813; 0x0014; 0x9615; 0xB916; 0xE317;
  0x6B18].
Definition mode_X_attr : list Z := [
  0x00; 0x00; 0x01; 0x01; 0x02; 0x02; 0x03; 0x03; 0x04; 0x04; 0x05; 0x05;
  0x06; 0x06; 0x07; 0x07; 0x08; 0x08; 0x09; 0x09; 0x0A; 0x0A; 0x0B; 0x0B;
  0x0C; 0x0C; 0x0D; 0x0D; 0x0E; 0x0E; 0x0F; 0x0F; 0x10; 0x61; 0x11; 0x00;
  0x12; 0x0F; 0x13; 0x00; 0x14; 0x00; 0x15; 0x00].
Definition mode_X_graphics : list Z := [
  0x0000; 0x0001; 0x0002; 0x0003; 0x0004; 0x4005; 0x0506; 0x0F07; 0xFF08].
(** Red, green and blue of the first 64 colours *)
Definition palette_RGB : list (Z * Z * Z) := [
  (0x00, 0x00, 0x00); (0x00, 0x00, 0x15); (0x00, 0x00, 0x2A); (0x00, 0x00, 0x3F);
  (0x00, 0x15, 0x00); (0x00, 0x15, 0x15); (0x00, 0x15, 0x2A); (0x00, 0x15, 0x3F);
  (0x00, 0x2A, 0x00); (0x00, 0x2A, 0x15); (0x00, 0x2A, 0x2A); (0x00, 0x2A, 0x3F);
  (0x00, 0x3F, 0x00); (0x00, 0x3F, 0x15); (0x00, 0x3F, 0x2A); (0x00, 0x3F, 0x3F);
  (0x15, 0x00, 0x00); (0x15, 0x00, 0x15); (0x15, 0x00, 0x2A); (0x15, 0x00, 0x3F);
  (0x15, 0x15, 0x00); (0x15, 0x15, 0x15); (0x15, 0x15, 0x2A); (0x15, 0x15, 0x3F);
  (0x15, 0x2A, 0x00); (0x15, 0x2A, 0x15); (0x15, 0x2A, 0x2A); (0x15, 0x2A, 0x3F);
  (0x15, 0x3F, 0x00); (0x15, 0x3F, 0x15); (0x15, 0x3F, 0x2A); (0x15, 0x3F, 0x3F);
  (0x2A, 0x00, 0x00); (0x2A, 0x00, 0x15); (0x2A, 0x00, 0x2A); (0x2A, 0x00, 0x3F);
  (0x2A, 0x15, 0x00); (0x2A, 0x15, 0x15); (0x2A, 0x15, 0x2A); (0x2A, 0x15, 0x3F);
  (0x2A, 0x2A, 0x00); (0x2A, 0x2A, 0x15); (0x2A, 0x2A, 0x2A); (0x2A, 0x2A, 0x3F);
  (0x2A, 0x3F, 0x00); (0x2A, 0x3F, 0x15); (0x2A, 0x3F, 0x2A); (0x2A, 0x3F, 0x3F);
  (0x3F, 0x00, 0x00); (0x3F, 0x00, 0x15); (0x3F, 0x00, 0x2A); (0x3F, 0x00, 0x3F);
  (0x3F, 0x15, 0x00); (0x3F, 0x15, 0x15); (0x3F, 0x15, 0x2A); (0x3F, 0x15, 0x3F);
  (0x3F, 0x2A, 0x00); (0x3F, 0x2A, 0x15); (0x3F, 0x2A, 0x2A); (0x3F, 0x2A, 0x3F);
  (0x3F, 0x3F, 0x00); (0x3F, 0x3F, 0x15); (0x3F, 0x3F, 0x2A); (0x3F, 0x3F, 0x3F)].

(** ** Setting up the adapter *)
Definition SET_WRITE_MASK (mask_hi_bits : Z) : VgaM () :=
  OUTW 0x03C4 (Z.lor (Z.land mask_hi_bits 0xFF00) 0x02).

Definition VGA_blank (blank_bit : Z) : VgaM () :=
  let blank_bit := Z.shiftl (Z.land blank_bit 1) 5 in
  OUTB 0x03C4 0x01;;
  old ← INB 0x03C5;
  OUTB 0x03C5 (Z.lor (Z.land old 0xDF) blank_bit);;
  INB 0x03DA;;
  OUTB 0x03C0 0x20.

(** The delay loop between the two has no effect. *)
Definition set_seq_regs_and_reset (table : list Z) (val : Z) : VgaM () :=
  REP_OUTSW 0x03C4 table;;
  OUTB 0x03C2 val;;
  OUTW 0x03C4 0x0300.

Definition set_CRTC_registers (table : list Z) : VgaM () :=
  OUTW 0x03D4 0x0011;;
  REP_OUTSW 0x03D4 table.

Definition set_attr_registers (table : list Z) : VgaM () :=
  INB 0x03DA;;
  REP_OUTSB 0x03C0 table.

Definition set_graphics_registers (table : list Z) : VgaM () := REP_OUTSW 0x03CE table.

Definition fill_palette_mode_x : VgaM () :=
  OUTB 0x03C8 0x00;;
  REP_OUTSB 0x03C9 (palette_RGB ≫= λ '(r, g, b), [r; g; b]).

Definition MODE_X_MEM_SIZE : Z := 65536.
Definition clear_screens : VgaM () :=
  SET_WRITE_MASK 0x0F00;;
  for_n (Z.to_nat MODE_X_MEM_SIZE) 0 (λ i, vram_store i 0).

(** The part of [set_mode_X] that programs the adapter *)
Definition set_registers : VgaM () :=
  VGA_blank 1;;
  set_seq_regs_and_reset mode_X_seq 0x63;;
  set_CRTC_registers mode_X_CRTC;;
  set_attr_registers mode_X_attr;;
  set_graphics_registers mode_X_graphics;;
  fill_palette_mode_x.
Definition program_mode_X : VgaM () :=
  set_registers;;
  clear_screens;;
  VGA_blank 0.

(** ** What mode X is *)
Definition level (k : Z) : Z := default 0 (aget [0x00; 0x15; 0x2A; 0x3F] k).
Definition colour (g : vga_t) (c : Z) : Z * Z * Z := (pal g (3 * c), pal g (3 * c + 1), pal g (3 * c + 2)).
(** Colour [c] has two bits each of red, green and blue. *)
Definition colour_222 (c : Z) : Z * Z * Z := (level (c / 16), level (c / 4 mod 4), level (c mod 4)).

(** The registers as the tables have them, as a check that computes.  The first
    three registers of the sequencer are used on the way. *)
Definition registers_set (g : vga_t) : bool :=
  forallb (λ e, crtc g (e mod 256) =? e / 256) mode_X_CRTC &&
  forallb (λ e, gr g (e mod 256) =? e / 256) mode_X_graphics &&
  forallb (λ e, seq g (e mod 256) =? e / 256) (drop 3 mode_X_seq) &&
  forallb (λ i, match mode_X_attr !! (2 * i)%nat, mode_X_attr !! (2 * i + 1)%nat with
                | Some r, Some v => attr g r =? v | _, _ => false end) (List.seq 0 22) &&
  (seq g 0 =? 3) && (seq g 1 =? 1) && (misc g =? 0x63).
Definition palette_set (g : vga_t) : bool :=
  forallb (λ c, bool_decide (colour g c = colour_222 c)) (seqZ 0 64).

Record mode_X (g : vga_t) : Prop := {
  mode_pitch : pitch g = 80;
  mode_split : split_row g = 182;
  mode_registers : registers_set g = true;
  mode_colours c : 0 ≤ c < 64 → colour g c = colour_222 c;
}.

(** [clear_screens] is a change of the mask and of the video memory. *)
Lemma zero_fill n g :
  seq g 2 = 0x0F →
  ∃ v, for_n n 0 (λ i, vram_store i 0) g = Some ((), g <| vram := v |>) ∧
    ∀ p a, 0 ≤ p < 4 → 0 ≤ a < Z.of_nat n → v p a = 0.
Proof.
  intros Hmask.
  assert (Hwp : wp (for_n n 0 (λ i, vram_store i 0)) (λ _ s, s = g <| vram := vram s |> ∧
    ∀ p a, 0 ≤ p < 4 → 0 ≤ a < 0 + Z.of_nat n → vram s p a = 0) g).
  { apply (wp_for (λ i s, s = g <| vram := vram s |> ∧
      ∀ p a, 0 ≤ p < 4 → 0 ≤ a < i → vram s p a = 0)); [split; [by destruct g|lia]|].
    intros i s Hi [Hs Hv]. apply wp_modify. split; [by rewrite Hs|].
    intros p a Hp Ha. cbn [vram setter]. rewrite Hs. cbn [seq setter]. rewrite Hmask.
    assert (Z.testbit 0x0F p = true) as ->.
    { assert (p = 0 ∨ p = 1 ∨ p = 2 ∨ p = 3) as [->|[->|[->| ->]]] by lia; reflexivity. }
    destruct (Z.eqb_spec a i); [done|]. apply Hv; lia. }
  apply wp_run in Hwp as ([] & s' & Hrun & Hs & Hv). exists (vram s'). by rewrite <- Hs.
Qed.

#[local] Opaque MODE_X_MEM_SIZE.
Definition masked (g : vga_t) : vga_t := g <| seq_index := 2 |> <| seq ::= <[2 := 0x0F]> |>.
Lemma clear_screens_run g :
  ∃ v, clear_screens g = Some ((), masked g <| vram := v |>) ∧
    ∀ p a, 0 ≤ p < 4 → 0 ≤ a < MODE_X_MEM_SIZE → v p a = 0.
Proof.
  destruct (zero_fill (Z.to_nat MODE_X_MEM_SIZE) (masked g)) as (v & Hrun & Hv); [done|].
  exists v. split; [exact Hrun|]. intros p a Hp Ha. apply Hv; lia.
Qed.
#[local] Transparent MODE_X_MEM_SIZE.

Lemma registers_checked g :
  match (set_registers;; modify masked;; VGA_blank 0) g with
  | Some (_, g') => registers_set g' && palette_set g' && (pitch g' =? 80) && (split_row g' =? 182)
                    && (seq g' 2 =? 0x0F) && (start_address g' =? 0)
  | None => false
  end = true.
Proof. vm_compute. reflexivity. Qed.

Lemma VGA_blank_vram b g v :
  VGA_blank b (g <| vram := v |>) =
  match VGA_blank b g with Some (u, g') => Some (u, g' <| vram := v |>) | None => None end.
Proof. by destruct g. Qed.

Lemma program_mode_X_run g :
  ∃ g', program_mode_X g = Some ((), g') ∧ mode_X g' ∧ start_address g' = 0 ∧
    ∀ p a, 0 ≤ p < 4 → 0 ≤ a < MODE_X_MEM_SIZE → vram g' p a = 0.
Proof.
  pose proof (registers_checked g) as Hc. unfold program_mode_X.
  destruct (set_registers g) as [[[] g1]|] eqn:E1;
    [rewrite (bind_run _ _ _ _ _ E1) in Hc; rewrite (bind_run _ _ _ _ _ E1)
    |by rewrite (bind_None _ _ _ E1) in Hc].
  rewrite bind_modify in Hc. destruct (clear_screens_run g1) as (v & Hrun & Hv).
  rewrite (bind_run _ _ _ _ _ Hrun). pose proof (VGA_blank_vram 0 (masked g1) v) as Hb.
  destruct (VGA_blank 0 (masked g1)) as [[[] g2]|]; [|discriminate Hc].
  rewrite !andb_true_iff, !Z.eqb_eq in Hc. destruct Hc as [[[[[Hreg Hpal] Hpitch] Hsplit] _] Hstart].
  exists (g2 <| vram := v |>). split; [exact Hb|]. split; [|by split]. split; [exact Hpitch|exact Hsplit|exact Hreg|].
  intros c Hcol. unfold palette_set in Hpal. rewrite forallb_forall in Hpal.
  assert (Hin : c ∈ seqZ 0 64) by (apply elem_of_seqZ; lia).
  exact (bool_decide_eq_true_1 _ (Hpal c (proj1 (list_elem_of_In _ _) Hin))).
Qed.
