(* ===== verification/Text.v ===== *)
(** * Text: drawing text in the status bar ([mp2/text.c])

    [font_data] has 16 rows of 8 bits for each of the 256 characters.
    [text_to_graphics] draws a string in the buffer of the status bar, which has
    the four planes of the bar one after the other. *)
From stdpp Require Import functions.
From S2P Require Import Prelude.

Definition font_data : list (list Z) := [
  [0; 0; 0; 0; 0; 0; 0; 0; 0; 0; 0; 0; 0; 0; 0; 0];
  [0; 0; 126; 129; 165; 129; 129; 189; 153; 129; 129; 126; 0; 0; 0; 0];
  [0; 0; 126; 255; 219; 255; 255; 195; 231; 255; 255; 126; 0; 0; 0; 0];
  [0; 0; 0; 0; 108; 254; 254; 254; 254; 124; 56; 16; 0; 0; 0; 0];
  [0; 0; 0; 0; 16; 56; 124; 254; 124; 56; 16; 0; 0; 0; 0; 0];
  [0; 0; 0; 24; 60; 60; 231; 231; 231; 24; 24; 60; 0; 0; 0; 0];
  [0; 0; 0; 24; 60; 126; 255; 255; 126; 24; 24; 60; 0; 0; 0; 0];
  [0; 0; 0; 0; 0; 0; 24; 60; 60; 24; 0; 0; 0; 0; 0; 0];
  [255; 255; 255; 255; 255; 255; 231; 195; 195; 231; 255; 255; 255; 255; 255; 255];
  [0; 0; 0; 0; 0; 60; 102; 66; 66; 102; 60; 0; 0; 0; 0; 0];
  [255; 255; 255; 255; 255; 195; 153; 189; 189; 153; 195; 255; 255; 255; 255; 255];
  [0; 0; 30; 14; 26; 50; 120; 204; 204; 204; 204; 120; 0; 0; 0; 0];
  [0; 0; 60; 102; 102; 102; 102; 60; 24; 126; 24; 24; 0; 0; 0; 0];
  [0; 0; 63; 51; 63; 48; 48; 48; 48; 112; 240; 224; 0; 0; 0; 0];
  [0; 0; 127; 99; 127; 99; 99; 99; 99; 103; 231; 230; 192; 0; 0; 0];
  [0; 0; 0; 24; 24; 219; 60; 231; 60; 219; 24; 24; 0; 0; 0; 0];
  [0; 128; 192; 224; 240; 248; 254; 248; 240; 224; 192; 128; 0; 0; 0; 0];
  [0; 2; 6; 14; 30; 62; 254; 62; 30; 14; 6; 2; 0; 0; 0; 0];
  [0; 0; 24; 60; 126; 24; 24; 24; 126; 60; 24; 0; 0; 0; 0; 0];
  [0; 0; 102; 102; 102; 102; 102; 102; 102; 0; 102; 102; 0; 0; 0; 0];
  [0; 0; 127; 219; 219; 219; 123; 27; 27; 27; 27; 27; 0; 0; 0; 0];
  [0; 124; 198; 96; 56; 108; 198; 198; 108; 56; 12; 198; 124; 0; 0; 0];
  [0; 0; 0; 0; 0; 0; 0; 0; 254; 254; 254; 254; 0; 0; 0; 0];
  [0; 0; 24; 60; 126; 24; 24; 24; 126; 60; 24; 126; 0; 0; 0; 0];
  [0; 0; 24; 60; 126; 24; 24; 24; 24; 24; 24; 24; 0; 0; 0; 0];
  [0; 0; 24; 24; 24; 24; 24; 24; 24; 126; 60; 24; 0; 0; 0; 0];
  [0; 0; 0; 0; 0; 24; 12; 254; 12; 24; 0; 0; 0; 0; 0; 0];
  [0; 0; 0; 0; 0; 48; 96; 254; 96; 48; 0; 0; 0; 0; 0; 0];
  [0; 0; 0; 0; 0; 0; 192; 192; 192; 254; 0; 0; 0; 0; 0; 0];
  [0; 0; 0; 0; 0; 40; 108; 254; 108; 40; 0; 0; 0; 0; 0; 0];
  [0; 0; 0; 0; 16; 56; 56; 124; 124; 254; 254; 0; 0; 0; 0; 0];
  [0; 0; 0; 0; 254; 254; 124; 124; 56; 56; 16; 0; 0; 0; 0; 0];
  [0; 0; 0; 0; 0; 0; 0; 0; 0; 0; 0; 0; 0; 0; 0; 0];
  [0; 0; 24; 60; 60; 60; 24; 24; 24; 0; 24; 24; 0; 0; 0; 0];
  [0; 102; 102; 102; 36; 0; 0; 0; 0; 0; 0; 0; 0; 0; 0; 0];
  [0; 0; 0; 108; 108; 254; 108; 108; 108; 254; 108; 108; 0; 0; 0; 0];
  [24; 24; 124; 198; 194; 192; 124; 6; 6; 134; 198; 124; 24; 24; 0; 0];
  [0; 0; 0; 0; 194; 198; 12; 24; 48; 96; 198; 134; 0; 0; 0; 0];
  [0; 0; 56; 108; 108; 56; 118; 220; 204; 204; 204; 118; 0; 0; 0; 0];
  [0; 48; 48; 48; 96; 0; 0; 0; 0; 0; 0; 0; 0; 0; 0; 0];
  [0; 0; 12; 24; 48; 48; 48; 48; 48; 48; 24; 12; 0; 0; 0; 0];
  [0; 0; 48; 24; 12; 12; 12; 12; 12; 12; 24; 48; 0; 0; 0; 0];
  [0; 0; 0; 0; 0; 102; 60; 255; 60; 102; 0; 0; 0; 0; 0; 0];
  [0; 0; 0; 0; 0; 24; 24; 126; 24; 24; 0; 0; 0; 0; 0; 0];
  [0; 0; 0; 0; 0; 0; 0; 0; 0; 24; 24; 24; 48; 0; 0; 0];
  [0; 0; 0; 0; 0; 0; 0; 254; 0; 0; 0; 0; 0; 0; 0; 0];
  [0; 0; 0; 0; 0; 0; 0; 0; 0; 0; 24; 24; 0; 0; 0; 0];
  [0; 0; 0; 0; 2; 6; 12; 24; 48; 96; 192; 128; 0; 0; 0; 0];
  [0; 0; 56; 108; 198; 198; 198; 198; 198; 198; 108; 56; 0; 0; 0; 0];
  [0; 0; 24; 56; 120; 24; 24; 24; 24; 24; 24; 126; 0; 0; 0; 0];
  [0; 0; 124; 198; 6; 12; 24; 48; 96; 192; 198; 254; 0; 0; 0; 0];
  [0; 0; 124; 198; 6; 6; 60; 6; 6; 6; 198; 124; 0; 0; 0; 0];
  [0; 0; 12; 28; 60; 108; 204; 254; 12; 12; 12; 30; 0; 0; 0; 0];
  [0; 0; 254; 192; 192; 192; 252; 6; 6; 6; 198; 124; 0; 0; 0; 0];
  [0; 0; 56; 96; 192; 192; 252; 198; 198; 198; 198; 124; 0; 0; 0; 0];
  [0; 0; 254; 198; 6; 6; 12; 24; 48; 48; 48; 48; 0; 0; 0; 0];
  [0; 0; 124; 198; 198; 198; 124; 198; 198; 198; 198; 124; 0; 0; 0; 0];
  [0; 0; 124; 198; 198; 198; 126; 6; 6; 6; 12; 120; 0; 0; 0; 0];
  [0; 0; 0; 0; 24; 24; 0; 0; 0; 24; 24; 0; 0; 0; 0; 0];
  [0; 0; 0; 0; 24; 24; 0; 0; 0; 24; 24; 48; 0; 0; 0; 0];
  [0; 0; 0; 6; 12; 24; 48; 96; 48; 24; 12; 6; 0; 0; 0; 0];
  [0; 0; 0; 0; 0; 126; 0; 0; 126; 0; 0; 0; 0; 0; 0; 0];
  [0; 0; 0; 96; 48; 24; 12; 6; 12; 24; 48; 96; 0; 0; 0; 0];
  [0; 0; 124; 198; 198; 12; 24; 24; 24; 0; 24; 24; 0; 0; 0; 0];
  [0; 0; 0; 124; 198; 198; 222; 222; 222; 220; 192; 124; 0; 0; 0; 0];
  [0; 0; 16; 56; 108; 198; 198; 254; 198; 198; 198; 198; 0; 0; 0; 0];
  [0; 0; 252; 102; 102; 102; 124; 102; 102; 102; 102; 252; 0; 0; 0; 0];
  [0; 0; 60; 102; 194; 192; 192; 192; 192; 194; 102; 60; 0; 0; 0; 0];
  [0; 0; 248; 108; 102; 102; 102; 102; 102; 102; 108; 248; 0; 0; 0; 0];
  [0; 0; 254; 102; 98; 104; 120; 104; 96; 98; 102; 254; 0; 0; 0; 0];
  [0; 0; 254; 102; 98; 104; 120; 104; 96; 96; 96; 240; 0; 0; 0; 0];
  [0; 0; 60; 102; 194; 192; 192; 222; 198; 198; 102; 58; 0; 0; 0; 0];
  [0; 0; 198; 198; 198; 198; 254; 198; 198; 198; 198; 198; 0; 0; 0; 0];
  [0; 0; 60; 24; 24; 24; 24; 24; 24; 24; 24; 60; 0; 0; 0; 0];
  [0; 0; 30; 12; 12; 12; 12; 12; 204; 204; 204; 120; 0; 0; 0; 0];
  [0; 0; 230; 102; 102; 108; 120; 120; 108; 102; 102; 230; 0; 0; 0; 0];
  [0; 0; 240; 96; 96; 96; 96; 96; 96; 98; 102; 254; 0; 0; 0; 0];
  [0; 0; 198; 238; 254; 254; 214; 198; 198; 198; 198; 198; 0; 0; 0; 0];
  [0; 0; 198; 230; 246; 254; 222; 206; 198; 198; 198; 198; 0; 0; 0; 0];
  [0; 0; 124; 198; 198; 198; 198; 198; 198; 198; 198; 124; 0; 0; 0; 0];
  [0; 0; 252; 102; 102; 102; 124; 96; 96; 96; 96; 240; 0; 0; 0; 0];
  [0; 0; 124; 198; 198; 198; 198; 198; 198; 214; 222; 124; 12; 14; 0; 0];
  [0; 0; 252; 102; 102; 102; 124; 108; 102; 102; 102; 230; 0; 0; 0; 0];
  [0; 0; 124; 198; 198; 96; 56; 12; 6; 198; 198; 124; 0; 0; 0; 0];
  [0; 0; 126; 126; 90; 24; 24; 24; 24; 24; 24; 60; 0; 0; 0; 0];
  [0; 0; 198; 198; 198; 198; 198; 198; 198; 198; 198; 124; 0; 0; 0; 0];
  [0; 0; 198; 198; 198; 198; 198; 198; 198; 108; 56; 16; 0; 0; 0; 0];
  [0; 0; 198; 198; 198; 198; 214; 214; 214; 254; 238; 108; 0; 0; 0; 0];
  [0; 0; 198; 198; 108; 124; 56; 56; 124; 108; 198; 198; 0; 0; 0; 0];
  [0; 0; 102; 102; 102; 102; 60; 24; 24; 24; 24; 60; 0; 0; 0; 0];
  [0; 0; 254; 198; 134; 12; 24; 48; 96; 194; 198; 254; 0; 0; 0; 0];
  [0; 0; 60; 48; 48; 48; 48; 48; 48; 48; 48; 60; 0; 0; 0; 0];
  [0; 0; 0; 128; 192; 224; 112; 56; 28; 14; 6; 2; 0; 0; 0; 0];
  [0; 0; 60; 12; 12; 12; 12; 12; 12; 12; 12; 60; 0; 0; 0; 0];
  [16; 56; 108; 198; 0; 0; 0; 0; 0; 0; 0; 0; 0; 0; 0; 0];
  [0; 0; 0; 0; 0; 0; 0; 0; 0; 0; 0; 0; 0; 255; 0; 0];
  [48; 48; 24; 0; 0; 0; 0; 0; 0; 0; 0; 0; 0; 0; 0; 0];
  [0; 0; 0; 0; 0; 120; 12; 124; 204; 204; 204; 118; 0; 0; 0; 0];
  [0; 0; 224; 96; 96; 120; 108; 102; 102; 102; 102; 124; 0; 0; 0; 0];
  [0; 0; 0; 0; 0; 124; 198; 192; 192; 192; 198; 124; 0; 0; 0; 0];
  [0; 0; 28; 12; 12; 60; 108; 204; 204; 204; 204; 118; 0; 0; 0; 0];
  [0; 0; 0; 0; 0; 124; 198; 254; 192; 192; 198; 124; 0; 0; 0; 0];
  [0; 0; 56; 108; 100; 96; 240; 96; 96; 96; 96; 240; 0; 0; 0; 0];
  [0; 0; 0; 0; 0; 118; 204; 204; 204; 204; 204; 124; 12; 204; 120; 0];
  [0; 0; 224; 96; 96; 108; 118; 102; 102; 102; 102; 230; 0; 0; 0; 0];
  [0; 0; 24; 24; 0; 56; 24; 24; 24; 24; 24; 60; 0; 0; 0; 0];
  [0; 0; 6; 6; 0; 14; 6; 6; 6; 6; 6; 6; 102; 102; 60; 0];
  [0; 0; 224; 96; 96; 102; 108; 120; 120; 108; 102; 230; 0; 0; 0; 0];
  [0; 0; 56; 24; 24; 24; 24; 24; 24; 24; 24; 60; 0; 0; 0; 0];
  [0; 0; 0; 0; 0; 236; 254; 214; 214; 214; 214; 198; 0; 0; 0; 0];
  [0; 0; 0; 0; 0; 220; 102; 102; 102; 102; 102; 102; 0; 0; 0; 0];
  [0; 0; 0; 0; 0; 124; 198; 198; 198; 198; 198; 124; 0; 0; 0; 0];
  [0; 0; 0; 0; 0; 220; 102; 102; 102; 102; 102; 124; 96; 96; 240; 0];
  [0; 0; 0; 0; 0; 118; 204; 204; 204; 204; 204; 124; 12; 12; 30; 0];
  [0; 0; 0; 0; 0; 220; 118; 102; 96; 96; 96; 240; 0; 0; 0; 0];
  [0; 0; 0; 0; 0; 124; 198; 96; 56; 12; 198; 124; 0; 0; 0; 0];
  [0; 0; 16; 48; 48; 252; 48; 48; 48; 48; 54; 28; 0; 0; 0; 0];
  [0; 0; 0; 0; 0; 204; 204; 204; 204; 204; 204; 118; 0; 0; 0; 0];
  [0; 0; 0; 0; 0; 102; 102; 102; 102; 102; 60; 24; 0; 0; 0; 0];
  [0; 0; 0; 0; 0; 198; 198; 214; 214; 214; 254; 108; 0; 0; 0; 0];
  [0; 0; 0; 0; 0; 198; 108; 56; 56; 56; 108; 198; 0; 0; 0; 0];
  [0; 0; 0; 0; 0; 198; 198; 198; 198; 198; 198; 126; 6; 12; 248; 0];
  [0; 0; 0; 0; 0; 254; 204; 24; 48; 96; 198; 254; 0; 0; 0; 0];
  [0; 0; 14; 24; 24; 24; 112; 24; 24; 24; 24; 14; 0; 0; 0; 0];
  [0; 0; 24; 24; 24; 24; 0; 24; 24; 24; 24; 24; 0; 0; 0; 0];
  [0; 0; 112; 24; 24; 24; 14; 24; 24; 24; 24; 112; 0; 0; 0; 0];
  [0; 0; 118; 220; 0; 0; 0; 0; 0; 0; 0; 0; 0; 0; 0; 0];
  [0; 0; 0; 0; 16; 56; 108; 198; 198; 198; 254; 0; 0; 0; 0; 0];
  [0; 0; 60; 102; 194; 192; 192; 192; 194; 102; 60; 12; 6; 124; 0; 0];
  [0; 0; 204; 0; 0; 204; 204; 204; 204; 204; 204; 118; 0; 0; 0; 0];
  [0; 12; 24; 48; 0; 124; 198; 254; 192; 192; 198; 124; 0; 0; 0; 0];
  [0; 16; 56; 108; 0; 120; 12; 124; 204; 204; 204; 118; 0; 0; 0; 0];
  [0; 0; 204; 0; 0; 120; 12; 124; 204; 204; 204; 118; 0; 0; 0; 0];
  [0; 96; 48; 24; 0; 120; 12; 124; 204; 204; 204; 118; 0; 0; 0; 0];
  [0; 56; 108; 56; 0; 120; 12; 124; 204; 204; 204; 118; 0; 0; 0; 0];
  [0; 0; 0; 0; 60; 102; 96; 96; 102; 60; 12; 6; 60; 0; 0; 0];
  [0; 16; 56; 108; 0; 124; 198; 254; 192; 192; 198; 124; 0; 0; 0; 0];
  [0; 0; 198; 0; 0; 124; 198; 254; 192; 192; 198; 124; 0; 0; 0; 0];
  [0; 96; 48; 24; 0; 124; 198; 254; 192; 192; 198; 124; 0; 0; 0; 0];
  [0; 0; 102; 0; 0; 56; 24; 24; 24; 24; 24; 60; 0; 0; 0; 0];
  [0; 24; 60; 102; 0; 56; 24; 24; 24; 24; 24; 60; 0; 0; 0; 0];
  [0; 96; 48; 24; 0; 56; 24; 24; 24; 24; 24; 60; 0; 0; 0; 0];
  [0; 198; 0; 16; 56; 108; 198; 198; 254; 198; 198; 198; 0; 0; 0; 0];
  [56; 108; 56; 0; 56; 108; 198; 198; 254; 198; 198; 198; 0; 0; 0; 0];
  [24; 48; 96; 0; 254; 102; 96; 124; 96; 96; 102; 254; 0; 0; 0; 0];
  [0; 0; 0; 0; 0; 204; 118; 54; 126; 216; 216; 110; 0; 0; 0; 0];
  [0; 0; 62; 108; 204; 204; 254; 204; 204; 204; 204; 206; 0; 0; 0; 0];
  [0; 16; 56; 108; 0; 124; 198; 198; 198; 198; 198; 124; 0; 0; 0; 0];
  [0; 0; 198; 0; 0; 124; 198; 198; 198; 198; 198; 124; 0; 0; 0; 0];
  [0; 96; 48; 24; 0; 124; 198; 198; 198; 198; 198; 124; 0; 0; 0; 0];
  [0; 48; 120; 204; 0; 204; 204; 204; 204; 204; 204; 118; 0; 0; 0; 0];
  [0; 96; 48; 24; 0; 204; 204; 204; 204; 204; 204; 118; 0; 0; 0; 0];
  [0; 0; 198; 0; 0; 198; 198; 198; 198; 198; 198; 126; 6; 12; 120; 0];
  [0; 198; 0; 124; 198; 198; 198; 198; 198; 198; 198; 124; 0; 0; 0; 0];
  [0; 198; 0; 198; 198; 198; 198; 198; 198; 198; 198; 124; 0; 0; 0; 0];
  [0; 24; 24; 60; 102; 96; 96; 96; 102; 60; 24; 24; 0; 0; 0; 0];
  [0; 56; 108; 100; 96; 240; 96; 96; 96; 96; 230; 252; 0; 0; 0; 0];
  [0; 0; 102; 102; 60; 24; 126; 24; 126; 24; 24; 24; 0; 0; 0; 0];
  [0; 248; 204; 204; 248; 196; 204; 222; 204; 204; 204; 198; 0; 0; 0; 0];
  [0; 14; 27; 24; 24; 24; 126; 24; 24; 24; 24; 24; 216; 112; 0; 0];
  [0; 24; 48; 96; 0; 120; 12; 124; 204; 204; 204; 118; 0; 0; 0; 0];
  [0; 12; 24; 48; 0; 56; 24; 24; 24; 24; 24; 60; 0; 0; 0; 0];
  [0; 24; 48; 96; 0; 124; 198; 198; 198; 198; 198; 124; 0; 0; 0; 0];
  [0; 24; 48; 96; 0; 204; 204; 204; 204; 204; 204; 118; 0; 0; 0; 0];
  [0; 0; 118; 220; 0; 220; 102; 102; 102; 102; 102; 102; 0; 0; 0; 0];
  [118; 220; 0; 198; 230; 246; 254; 222; 206; 198; 198; 198; 0; 0; 0; 0];
  [0; 60; 108; 108; 62; 0; 126; 0; 0; 0; 0; 0; 0; 0; 0; 0];
  [0; 56; 108; 108; 56; 0; 124; 0; 0; 0; 0; 0; 0; 0; 0; 0];
  [0; 0; 48; 48; 0; 48; 48; 96; 192; 198; 198; 124; 0; 0; 0; 0];
  [0; 0; 0; 0; 0; 0; 254; 192; 192; 192; 192; 0; 0; 0; 0; 0];
  [0; 0; 0; 0; 0; 0; 254; 6; 6; 6; 6; 0; 0; 0; 0; 0];
  [0; 192; 192; 194; 198; 204; 24; 48; 96; 220; 134; 12; 24; 62; 0; 0];
  [0; 192; 192; 194; 198; 204; 24; 48; 102; 206; 158; 62; 6; 6; 0; 0];
  [0; 0; 24; 24; 0; 24; 24; 24; 60; 60; 60; 24; 0; 0; 0; 0];
  [0; 0; 0; 0; 0; 54; 108; 216; 108; 54; 0; 0; 0; 0; 0; 0];
  [0; 0; 0; 0; 0; 216; 108; 54; 108; 216; 0; 0; 0; 0; 0; 0];
  [17; 68; 17; 68; 17; 68; 17; 68; 17; 68; 17; 68; 17; 68; 17; 68];
  [85; 170; 85; 170; 85; 170; 85; 170; 85; 170; 85; 170; 85; 170; 85; 170];
  [221; 119; 221; 119; 221; 119; 221; 119; 221; 119; 221; 119; 221; 119; 221; 119];
  [24; 24; 24; 24; 24; 24; 24; 24; 24; 24; 24; 24; 24; 24; 24; 24];
  [24; 24; 24; 24; 24; 24; 24; 248; 24; 24; 24; 24; 24; 24; 24; 24];
  [24; 24; 24; 24; 24; 248; 24; 248; 24; 24; 24; 24; 24; 24; 24; 24];
  [54; 54; 54; 54; 54; 54; 54; 246; 54; 54; 54; 54; 54; 54; 54; 54];
  [0; 0; 0; 0; 0; 0; 0; 254; 54; 54; 54; 54; 54; 54; 54; 54];
  [0; 0; 0; 0; 0; 248; 24; 248; 24; 24; 24; 24; 24; 24; 24; 24];
  [54; 54; 54; 54; 54; 246; 6; 246; 54; 54; 54; 54; 54; 54; 54; 54];
  [54; 54; 54; 54; 54; 54; 54; 54; 54; 54; 54; 54; 54; 54; 54; 54];
  [0; 0; 0; 0; 0; 254; 6; 246; 54; 54; 54; 54; 54; 54; 54; 54];
  [54; 54; 54; 54; 54; 246; 6; 254; 0; 0; 0; 0; 0; 0; 0; 0];
  [54; 54; 54; 54; 54; 54; 54; 254; 0; 0; 0; 0; 0; 0; 0; 0];
  [24; 24; 24; 24; 24; 248; 24; 248; 0; 0; 0; 0; 0; 0; 0; 0];
  [0; 0; 0; 0; 0; 0; 0; 248; 24; 24; 24; 24; 24; 24; 24; 24];
  [24; 24; 24; 24; 24; 24; 24; 31; 0; 0; 0; 0; 0; 0; 0; 0];
  [24; 24; 24; 24; 24; 24; 24; 255; 0; 0; 0; 0; 0; 0; 0; 0];
  [0; 0; 0; 0; 0; 0; 0; 255; 24; 24; 24; 24; 24; 24; 24; 24];
  [24; 24; 24; 24; 24; 24; 24; 31; 24; 24; 24; 24; 24; 24; 24; 24];
  [0; 0; 0; 0; 0; 0; 0; 255; 0; 0; 0; 0; 0; 0; 0; 0];
  [24; 24; 24; 24; 24; 24; 24; 255; 24; 24; 24; 24; 24; 24; 24; 24];
  [24; 24; 24; 24; 24; 31; 24; 31; 24; 24; 24; 24; 24; 24; 24; 24];
  [54; 54; 54; 54; 54; 54; 54; 55; 54; 54; 54; 54; 54; 54; 54; 54];
  [54; 54; 54; 54; 54; 55; 48; 63; 0; 0; 0; 0; 0; 0; 0; 0];
  [0; 0; 0; 0; 0; 63; 48; 55; 54; 54; 54; 54; 54; 54; 54; 54];
  [54; 54; 54; 54; 54; 247; 0; 255; 0; 0; 0; 0; 0; 0; 0; 0];
  [0; 0; 0; 0; 0; 255; 0; 247; 54; 54; 54; 54; 54; 54; 54; 54];
  [54; 54; 54; 54; 54; 55; 48; 55; 54; 54; 54; 54; 54; 54; 54; 54];
  [0; 0; 0; 0; 0; 255; 0; 255; 0; 0; 0; 0; 0; 0; 0; 0];
  [54; 54; 54; 54; 54; 247; 0; 247; 54; 54; 54; 54; 54; 54; 54; 54];
  [24; 24; 24; 24; 24; 255; 0; 255; 0; 0; 0; 0; 0; 0; 0; 0];
  [54; 54; 54; 54; 54; 54; 54; 255; 0; 0; 0; 0; 0; 0; 0; 0];
  [0; 0; 0; 0; 0; 255; 0; 255; 24; 24; 24; 24; 24; 24; 24; 24];
  [0; 0; 0; 0; 0; 0; 0; 255; 54; 54; 54; 54; 54; 54; 54; 54];
  [54; 54; 54; 54; 54; 54; 54; 63; 0; 0; 0; 0; 0; 0; 0; 0];
  [24; 24; 24; 24; 24; 31; 24; 31; 0; 0; 0; 0; 0; 0; 0; 0];
  [0; 0; 0; 0; 0; 31; 24; 31; 24; 24; 24; 24; 24; 24; 24; 24];
  [0; 0; 0; 0; 0; 0; 0; 63; 54; 54; 54; 54; 54; 54; 54; 54];
  [54; 54; 54; 54; 54; 54; 54; 255; 54; 54; 54; 54; 54; 54; 54; 54];
  [24; 24; 24; 24; 24; 255; 24; 255; 24; 24; 24; 24; 24; 24; 24; 24];
  [24; 24; 24; 24; 24; 24; 24; 248; 0; 0; 0; 0; 0; 0; 0; 0];
  [0; 0; 0; 0; 0; 0; 0; 31; 24; 24; 24; 24; 24; 24; 24; 24];
  [255; 255; 255; 255; 255; 255; 255; 255; 255; 255; 255; 255; 255; 255; 255; 255];
  [0; 0; 0; 0; 0; 0; 0; 255; 255; 255; 255; 255; 255; 255; 255; 255];
  [240; 240; 240; 240; 240; 240; 240; 240; 240; 240; 240; 240; 240; 240; 240; 240];
  [15; 15; 15; 15; 15; 15; 15; 15; 15; 15; 15; 15; 15; 15; 15; 15];
  [255; 255; 255; 255; 255; 255; 255; 0; 0; 0; 0; 0; 0; 0; 0; 0];
  [0; 0; 0; 0; 0; 118; 220; 216; 216; 216; 220; 118; 0; 0; 0; 0];
  [0; 0; 120; 204; 204; 204; 216; 204; 198; 198; 198; 204; 0; 0; 0; 0];
  [0; 0; 254; 198; 198; 192; 192; 192; 192; 192; 192; 192; 0; 0; 0; 0];
  [0; 0; 0; 0; 254; 108; 108; 108; 108; 108; 108; 108; 0; 0; 0; 0];
  [0; 0; 0; 254; 198; 96; 48; 24; 48; 96; 198; 254; 0; 0; 0; 0];
  [0; 0; 0; 0; 0; 126; 216; 216; 216; 216; 216; 112; 0; 0; 0; 0];
  [0; 0; 0; 0; 102; 102; 102; 102; 102; 124; 96; 96; 192; 0; 0; 0];
  [0; 0; 0; 0; 118; 220; 24; 24; 24; 24; 24; 24; 0; 0; 0; 0];
  [0; 0; 0; 126; 24; 60; 102; 102; 102; 60; 24; 126; 0; 0; 0; 0];
  [0; 0; 0; 56; 108; 198; 198; 254; 198; 198; 108; 56; 0; 0; 0; 0];
  [0; 0; 56; 108; 198; 198; 198; 108; 108; 108; 108; 238; 0; 0; 0; 0];
  [0; 0; 30; 48; 24; 12; 62; 102; 102; 102; 102; 60; 0; 0; 0; 0];
  [0; 0; 0; 0; 0; 126; 219; 219; 219; 126; 0; 0; 0; 0; 0; 0];
  [0; 0; 0; 3; 6; 126; 219; 219; 243; 126; 96; 192; 0; 0; 0; 0];
  [0; 0; 28; 48; 96; 96; 124; 96; 96; 96; 48; 28; 0; 0; 0; 0];
  [0; 0; 0; 124; 198; 198; 198; 198; 198; 198; 198; 198; 0; 0; 0; 0];
  [0; 0; 0; 0; 254; 0; 0; 254; 0; 0; 254; 0; 0; 0; 0; 0];
  [0; 0; 0; 0; 24; 24; 126; 24; 24; 0; 0; 255; 0; 0; 0; 0];
  [0; 0; 0; 48; 24; 12; 6; 12; 24; 48; 0; 126; 0; 0; 0; 0];
  [0; 0; 0; 12; 24; 48; 96; 48; 24; 12; 0; 126; 0; 0; 0; 0];
  [0; 0; 14; 27; 27; 24; 24; 24; 24; 24; 24; 24; 24; 24; 24; 24];
  [24; 24; 24; 24; 24; 24; 24; 24; 216; 216; 216; 112; 0; 0; 0; 0];
  [0; 0; 0; 0; 24; 24; 0; 126; 0; 24; 24; 0; 0; 0; 0; 0];
  [0; 0; 0; 0; 0; 118; 220; 0; 118; 220; 0; 0; 0; 0; 0; 0];
  [0; 56; 108; 108; 56; 0; 0; 0; 0; 0; 0; 0; 0; 0; 0; 0];
  [0; 0; 0; 0; 0; 0; 0; 24; 24; 0; 0; 0; 0; 0; 0; 0];
  [0; 0; 0; 0; 0; 0; 0; 0; 24; 0; 0; 0; 0; 0; 0; 0];
  [0; 15; 12; 12; 12; 12; 12; 236; 108; 108; 60; 28; 0; 0; 0; 0];
  [0; 216; 108; 108; 108; 108; 108; 0; 0; 0; 0; 0; 0; 0; 0; 0];
  [0; 112; 216; 48; 96; 200; 248; 0; 0; 0; 0; 0; 0; 0; 0; 0];
  [0; 0; 0; 0; 124; 124; 124; 124; 124; 124; 124; 0; 0; 0; 0; 0];
  [0; 0; 0; 0; 0; 0; 0; 0; 0; 0; 0; 0; 0; 0; 0; 0]].

Definition STATUS_BAR_SIZE : Z := (18 * 320) / 4.

(** A store to the buffer, of [STATUS_BAR_SIZE * 4] bytes *)
Abbreviation TextM := (M (Z → Z)).
Definition put (a v : Z) : TextM () :=
  if (0 <=? a) && (a <? STATUS_BAR_SIZE * 4) then modify <[a := v]> else ub.

(** Where the text starts, from the length of the string, a [size_t]; no other
    position is used. *)
Definition char_start (len position : Z) : option Z :=
  if position =? 0 then Some (i32 (u32 (320 - 8 * len)))
  else if position =? 2 then Some (i32 (u32 (320 - 8 * len) / 2))
  else if position =? 3 then Some 0
  else None.

(** Row [j] of character [i]: the eight bits, the highest first *)
Definition draw_bits (row i j charStart : Z) : TextM () :=
  for_n 8 0 (λ k,
    if negb (Z.land row (Z.shiftr 0x80 k) =? 0) then
      put (Z.rem k 4 * STATUS_BAR_SIZE + 80 * (j + 1) + Z.quot (8 * i + charStart + k) 4) 0x20
    else skip).
Definition char_code (s : string) (i : Z) : option Z :=
  c ← String.get (Z.to_nat i) s; Some (i8 (Z.of_N (Ascii.N_of_ascii c))).
Definition draw_char (s : string) (charStart i : Z) : TextM () :=
  for_n 16 0 (λ j,
    code ← lift (char_code s i);
    glyph ← lift (aget font_data code);
    row ← lift (aget glyph j);
    draw_bits row i j charStart).

Definition text_to_graphics (s : string) (position : Z) : TextM () :=
  for_n (Z.to_nat (STATUS_BAR_SIZE * 4)) 0 (λ temp, put temp 0x0F);;
  if position =? 1 then skip
  else
    charStart ← lift (char_start (Z.of_nat (String.length s)) position);
    for_n (String.length s) 0 (λ i, draw_char s charStart i).

(** ** The picture of a text *)

(** The index of the pixel [(x, y)] of the bar *)
Definition pos (x y : Z) : Z := x mod 4 * STATUS_BAR_SIZE + 80 * y + x / 4.
Definition in_bar (x y : Z) : Prop := 0 ≤ x < 320 ∧ 0 ≤ y < 18.

Definition bit (row k : Z) : bool := negb (Z.land row (Z.shiftr 0x80 k) =? 0).
Definition glyph_row (s : string) (i j : Z) : Z :=
  default 0 (code ← char_code s i; glyph ← aget font_data code; aget glyph j).
(** The pixel [(x, y)] belongs to a character of [s], which starts at [cs]. *)
Definition lit (s : string) (cs x y : Z) : bool :=
  (0 <=? x - cs) && (x - cs <? 8 * Z.of_nat (String.length s)) && (1 <=? y) && (y <=? 16) &&
  bit (glyph_row s ((x - cs) / 8) (y - 1)) ((x - cs) mod 8).

(** The buffer shows the pixels of [P] in the text colour on the background. *)
Definition pic (P : Z → Z → bool) (b : Z → Z) : Prop :=
  ∀ x y, in_bar x y → b (pos x y) = if P x y then 0x20 else 0x0F.

Ltac bar_lia := unfold pos, in_bar in *; change STATUS_BAR_SIZE with 1440 in *; Z.div_mod_to_equations; lia.

Lemma pos_range x y : in_bar x y → 0 ≤ pos x y < STATUS_BAR_SIZE * 4.
Proof. bar_lia. Qed.
Lemma pos_inj x y x' y' : in_bar x y → in_bar x' y' → pos x y = pos x' y' → x = x' ∧ y = y'.
Proof. bar_lia. Qed.
Lemma pic_ext P P' b : (∀ x y, in_bar x y → P x y = P' x y) → pic P b → pic P' b.
Proof. intros HP Hb x y H. by rewrite <- HP, Hb. Qed.

Lemma wp_put x0 y0 P (Q : () → (Z → Z) → Prop) b :
  in_bar x0 y0 → pic P b →
  (∀ b', pic (λ x y, if decide (x = x0 ∧ y = y0) then true else P x y) b' → Q () b') →
  wp (put (pos x0 y0) 0x20) Q b.
Proof.
  intros H0 Hb HQ. pose proof (pos_range _ _ H0). unfold put. replace (_ && _) with true by lia.
  apply wp_modify, HQ. intros x y Hxy. case_decide as Hd.
  - destruct Hd as [-> ->]. apply fn_lookup_insert.
  - rewrite fn_lookup_insert_ne; [by apply Hb|]. intros He. apply Hd.
    by destruct (pos_inj _ _ _ _ H0 Hxy He).
Qed.

(** Strings that fit the bar and have characters of the first half of the font *)
Record text_ok (s : string) (cs : Z) : Prop := {
  text_start : 0 ≤ cs ∧ cs mod 4 = 0;
  text_end : cs + 8 * Z.of_nat (String.length s) ≤ 320;
  text_chars i : 0 ≤ i < Z.of_nat (String.length s) → ∃ c, char_code s i = Some c ∧ 0 ≤ c < 256;
}.

Section text.
Context (s : string) (cs : Z) (Hok : text_ok s cs).
Let len := Z.of_nat (String.length s).

Lemma draw_bits_pic row i j P b :
  0 ≤ i < len → 0 ≤ j < 16 → pic P b →
  wp (draw_bits row i j cs) (λ _ b', pic (λ x y, P x y ||
    ((y =? j + 1) && (8 * i <=? x - cs) && (x - cs <? 8 * i + 8) && bit row (x - cs - 8 * i))) b') b.
Proof.
  destruct Hok as [[Hcs Hcs4] Hend _]. intros Hi Hj Hb. fold len in Hend.
  change (wp (draw_bits row i j cs) (λ _ b', (λ k b', pic (λ x y, P x y || ((y =? j + 1) &&
    (8 * i <=? x - cs) && (x - cs <? 8 * i + k) && bit row (x - cs - 8 * i))) b') (0 + Z.of_nat 8) b') b).
  apply wp_for; cbn beta.
  - eapply pic_ext; [|exact Hb]. intros x y _. cbn beta.
    replace (_ && (x - cs <? 8 * i + 0)) with false by lia. by rewrite orb_false_r.
  - intros k b' Hk Hb'. fold (bit row k). destruct (bit row k) eqn:Ebit.
    + replace (_ * STATUS_BAR_SIZE + _ + _) with (pos (8 * i + cs + k) (j + 1)).
      2:{ rewrite Z.rem_mod_nonneg, Z.quot_div_nonneg by lia. bar_lia. }
      eapply wp_put; [bar_lia|exact Hb'|]. intros b'' Hb''. eapply pic_ext; [|exact Hb'']. intros x y _.
      cbn beta. case_decide as Hd.
      * destruct Hd as [-> ->]. replace (8 * i + cs + k - cs - 8 * i) with k by lia. rewrite Ebit. lia.
      * f_equal. destruct (decide (x - cs < 8 * i + k)).
        -- replace (x - cs <? 8 * i + k) with true by lia. by replace (x - cs <? 8 * i + (k + 1)) with true by lia.
        -- replace (x - cs <? 8 * i + k) with false by lia.
           destruct (decide (y = j + 1)); [|replace (y =? j + 1) with false by lia; done].
           replace (x - cs <? 8 * i + (k + 1)) with false by lia. by rewrite !andb_false_r.
    + apply wp_skip. eapply pic_ext; [|exact Hb']. intros x y _. cbn beta. f_equal.
      destruct (decide (x - cs = 8 * i + k)) as [He|].
      * replace (x - cs - 8 * i) with k by lia. rewrite Ebit. by rewrite !andb_false_r.
      * by replace (x - cs <? 8 * i + (k + 1)) with (x - cs <? 8 * i + k) by lia.
Qed.

Lemma glyph_row_run i j :
  0 ≤ i < len → 0 ≤ j < 16 →
  ∃ code glyph, char_code s i = Some code ∧ aget font_data code = Some glyph ∧
    aget glyph j = Some (glyph_row s i j).
Proof.
  intros Hi Hj. destruct (text_chars _ _ Hok i Hi) as (c & Hc & Hr).
  assert (Hf : forallb (λ g, (length g =? 16)%nat) font_data = true) by (vm_compute; reflexivity).
  assert (is_Some (aget font_data c)) as [glyph Hg] by (apply aget_is_Some; exact Hr).
  assert (length glyph = 16%nat) as Hl.
  { rewrite forallb_forall in Hf. apply Nat.eqb_eq, Hf, list_elem_of_In.
    rewrite aget_nonneg in Hg by lia. by eapply list_elem_of_lookup_2. }
  assert (is_Some (aget glyph j)) as [row Hrow] by (apply aget_is_Some; lia).
  exists c, glyph. split; [done|]. split; [done|]. unfold glyph_row. rewrite Hc. cbn [mbind option_bind].
  rewrite Hg. cbn [mbind option_bind]. by rewrite Hrow.
Qed.

Lemma draw_char_pic i P b :
  0 ≤ i < len → pic P b →
  wp (draw_char s cs i) (λ _ b', pic (λ x y, P x y ||
    ((1 <=? y) && (y <=? 16) && (8 * i <=? x - cs) && (x - cs <? 8 * i + 8) &&
     bit (glyph_row s i (y - 1)) (x - cs - 8 * i))) b') b.
Proof.
  intros Hi Hb.
  change (wp (draw_char s cs i) (λ _ b', (λ j b', pic (λ x y, P x y ||
    ((1 <=? y) && (y <=? j) && (8 * i <=? x - cs) && (x - cs <? 8 * i + 8) &&
     bit (glyph_row s i (y - 1)) (x - cs - 8 * i))) b') (0 + Z.of_nat 16) b') b).
  apply wp_for; cbn beta.
  - eapply pic_ext; [|exact Hb]. intros x y _. cbn beta.
    replace ((1 <=? y) && (y <=? 0)) with false by lia. by rewrite orb_false_r.
  - intros j b' Hj Hb'. destruct (glyph_row_run i j Hi ltac:(lia)) as (code & glyph & Hcode & Hglyph & Hrow).
    apply wp_bind. eapply wp_lift; [exact Hcode|]. apply wp_bind. eapply wp_lift; [exact Hglyph|].
    apply wp_bind. eapply wp_lift; [exact Hrow|].
    eapply wp_mono; [eapply (draw_bits_pic _ i j); [done|lia|exact Hb']|].
    intros [] b'' Hb''. eapply pic_ext; [|exact Hb'']. intros x y _. cbn beta.
    rewrite <- orb_assoc. f_equal. destruct (decide (y = j + 1)) as [->|].
    + replace (j + 1 - 1) with j by lia. replace (j + 1 <=? j) with false by lia.
      replace (j + 1 =? j + 1) with true by lia. replace (j + 1 <=? j + 1) with true by lia.
      replace (1 <=? j + 1) with true by lia. by rewrite !andb_true_l.
    + replace (y =? j + 1) with false by lia. cbn [andb]. rewrite orb_false_r.
      by replace (y <=? j + 1) with (y <=? j) by lia.
Qed.

Lemma draw_text_pic b :
  pic (λ _ _, false) b →
  wp (for_n (String.length s) 0 (λ i, draw_char s cs i)) (λ _ b', pic (lit s cs) b') b.
Proof.
  intros Hb.
  set (I := λ i (b' : Z → Z), pic (λ x y, (0 <=? x - cs) && (x - cs <? 8 * i) && (1 <=? y) && (y <=? 16) &&
     bit (glyph_row s ((x - cs) / 8) (y - 1)) ((x - cs) mod 8)) b').
  eapply wp_mono; [apply (wp_for I)|].
  - eapply pic_ext; [|exact Hb]. intros x y _. cbn beta.
    by replace ((0 <=? x - cs) && (x - cs <? 8 * 0)) with false by lia.
  - intros i b' Hi Hb'. eapply wp_mono; [by apply draw_char_pic|].
    intros [] b'' Hb''. eapply pic_ext; [|exact Hb'']. intros x y _. cbn beta.
    destruct (decide (8 * i ≤ x - cs < 8 * i + 8)) as [Hin|Hout].
    + replace ((x - cs) / 8) with i by (Z.div_mod_to_equations; lia).
      replace ((x - cs) mod 8) with (x - cs - 8 * i) by (Z.div_mod_to_equations; lia).
      replace (x - cs <? 8 * i) with false by lia. replace (0 <=? x - cs) with true by lia.
      replace (x - cs <? 8 * (i + 1)) with true by lia. replace (8 * i <=? x - cs) with true by lia.
      replace (x - cs <? 8 * i + 8) with true by lia. by rewrite !andb_true_r, andb_false_r.
    + replace (_ && (8 * i <=? x - cs) && (x - cs <? 8 * i + 8)) with false by lia. cbn [andb].
      rewrite orb_false_r. by replace ((0 <=? x - cs) && (x - cs <? 8 * (i + 1)))
        with ((0 <=? x - cs) && (x - cs <? 8 * i)) by lia.
  - intros [] b' Hb'. eapply pic_ext; [|exact Hb']. intros x y _. unfold lit. done.
Qed.
End text.

(** The background *)
Lemma background_pic b :
  wp (for_n (Z.to_nat (STATUS_BAR_SIZE * 4)) 0 (λ temp, put temp 0x0F)) (λ _ b', pic (λ _ _, false) b') b.
Proof.
  eapply wp_mono; [apply (wp_for (λ i b', ∀ a, 0 ≤ a < i → b' a = 0x0F))|].
  - lia.
  - intros i b' Hi Hb'. unfold put. replace (_ && _) with true by lia. apply wp_modify. intros a Ha.
    destruct (decide (a = i)) as [->|]; [apply fn_lookup_insert|].
    rewrite fn_lookup_insert_ne by done. apply Hb'. lia.
  - intros [] b' Hb' x y Hxy. apply Hb'. pose proof (pos_range _ _ Hxy). lia.
Qed.

(** Where the text of the three positions is: at the right, in the middle and
    at the left of the bar *)
Definition text_start_of (len position : Z) : Z :=
  if position =? 0 then 320 - 8 * len else if position =? 2 then 160 - 4 * len else 0.
Lemma char_start_eq len position :
  0 ≤ len ≤ 40 → position = 0 ∨ position = 2 ∨ position = 3 →
  char_start len position = Some (text_start_of len position).
Proof.
  intros Hl [->|[->| ->]]; unfold char_start, text_start_of; cbn [Z.eqb Pos.eqb]; [| |done]; f_equal;
    rewrite u32_small, i32_small by (cint; Z.div_mod_to_equations; lia); Z.div_mod_to_equations; lia.
Qed.

(** Seven-bit characters *)
Definition ascii_text (s : string) : Prop :=
  ∀ i, 0 ≤ i < Z.of_nat (String.length s) → ∃ c, char_code s i = Some c ∧ 0 ≤ c < 128.

(** What [text_to_graphics] puts in the buffer *)
Definition text_pixels (s : string) (position : Z) : Z → Z → bool :=
  if position =? 1 then λ _ _, false
  else lit s (text_start_of (Z.of_nat (String.length s)) position).
Lemma text_to_graphics_pic s position b :
  (String.length s ≤ 40)%nat → ascii_text s → 0 ≤ position ≤ 3 →
  wp (text_to_graphics s position) (λ _ b', pic (text_pixels s position) b') b.
Proof.
  intros Hlen Hasc Hpos. unfold text_to_graphics. apply wp_bind. eapply wp_mono; [apply background_pic|].
  intros [] b' Hb'. unfold text_pixels. destruct (Z.eqb_spec position 1) as [|Hne]; [by apply wp_skip|].
  apply wp_bind. eapply wp_lift; [apply char_start_eq; lia|]. apply draw_text_pic; [|done].
  assert (position = 0 ∨ position = 2 ∨ position = 3) as Hp by lia.
  split; [|destruct Hp as [->|[->| ->]]; cbn; lia|].
  - destruct Hp as [->|[->| ->]]; cbn [text_start_of Z.eqb Pos.eqb]; unfold text_start_of; cbn [Z.eqb Pos.eqb];
      Z.div_mod_to_equations; lia.
  - intros i Hi. destruct (Hasc i Hi) as (c & Hc & Hr). exists c. split; [done|lia].
Qed.
