(* ===== verification/Modex.v ===== *)
(** * Modex: the build buffer and the screen ([mp2/modex.c], second part)

    The picture of the view window is kept in four planes in the array [build];
    [set_view_window] moves the window over the logical picture,
    [draw_horiz_line] and [draw_vert_line] fill in lines of it, and
    [show_screen] copies the window to the half of the video memory that is not
    displayed and then displays it.

    [build] is a function from indices with its bounds checked at each access;
    [img3] is the index that the pointer of that name stands for.  The two
    call-backs of [set_mode_X] read the rest of the program, which is the argument
    [e].  The coordinates of the window are those of photos, far from the bounds of an
    [int]. *)
From stdpp Require Import functions.
From S2P Require Import Prelude Adventure Vga Text.

#[local] Arguments Z.to_nat : simpl never.

Definition SCROLL_X_WIDTH : Z := 80.
Definition SCROLL_SIZE : Z := SCROLL_X_WIDTH * SCROLL_Y_DIM.
Definition SCREEN_SIZE : Z := SCROLL_SIZE * 4 + 1.
Definition BUILD_BUF_SIZE : Z := SCREEN_SIZE + 20000.
Definition BUILD_BASE_INIT : Z := (BUILD_BUF_SIZE - SCREEN_SIZE) / 2.
Definition MEM_FENCE_WIDTH : Z := 256.
Definition MEM_FENCE_MAGIC : Z := 0xF3.

Section modex.
Context {E : Type}.
(** [void f (int x, int y, unsigned char buf[])] *)
Definition line_fn : Type := E → Z → Z → list Z → option (list Z).

Record modex := mk_modex {
  build : Z → Z;
  img3_off : Z;
  show_x : Z; show_y : Z;
  target_img : Z;                          (* unsigned short *)
  horiz_line_fn : option line_fn;
  vert_line_fn : option line_fn;
  status_data : Z → Z;                     (* STATUS_DATA *)
  adapter : vga_t;
}.
#[export] Instance modex_settable : Settable modex := λ s,
  mk_modex (build s) (img3_off s) (show_x s) (show_y s) (target_img s) (horiz_line_fn s)
    (vert_line_fn s) (status_data s) (adapter s).
Abbreviation ModexM := (M modex).

Definition on_vga {B} (m : VgaM B) : ModexM B := λ s,
  match m (adapter s) with
  | Some (b, g) => Some (b, s <| adapter := g |>)
  | None => None
  end.
Definition in_build (a : Z) : bool := (0 <=? a) && (a <? BUILD_BUF_SIZE + 2 * MEM_FENCE_WIDTH).
Definition load (a : Z) : ModexM Z := if in_build a then gets (λ s, build s a) else ub.
Definition store (a v : Z) : ModexM () :=
  if in_build a then modify (λ s, s <| build ::= <[a := v]> |>) else ub.
Definition img3 (s : modex) : Z := img3_off s + MEM_FENCE_WIDTH.

(** [maps] is whether the video memory and its ports could be obtained from the
    system; [mem_image] is then the start of [vram]. *)
Definition open_memory_and_ports (maps : bool) : ModexM Z := mret (if maps then 0 else -1).

Definition set_mode_X (maps : bool) (horiz_fill_fn vert_fill_fn : option line_fn) : ModexM Z :=
  match horiz_fill_fn, vert_fill_fn with
  | Some h, Some v =>
      modify (λ s, s <| horiz_line_fn := Some h |> <| vert_line_fn := Some v |>
                     <| show_x := 0 |> <| show_y := 0 |> <| img3_off := BUILD_BASE_INIT |>);;
      for_n (Z.to_nat MEM_FENCE_WIDTH) 0 (λ i,
        store i MEM_FENCE_MAGIC;;
        store (BUILD_BUF_SIZE + MEM_FENCE_WIDTH + i) MEM_FENCE_MAGIC);;
      modify (λ s, s <| target_img := STATUS_BAR_SIZE * 4 |>);;
      r ← open_memory_and_ports maps;
      if r =? -1 then mret (-1)
      else on_vga program_mode_X;; mret 0
  | _, _ => mret (-1)
  end.

(** ** Moving the window *)

(** [for (i = length; i-- > 0; ) target_addr[i] = start_addr[i];] and
    [for (i = 0; i < length; i++) target_addr[i] = start_addr[i];] *)
Fixpoint copy_back (n : nat) (target start : Z) : ModexM () :=
  match n with
  | O => skip
  | S i => v ← load (start + Z.of_nat i); store (target + Z.of_nat i) v;; copy_back i target start
  end.
Definition copy_forth (n : nat) (target start : Z) : ModexM () :=
  for_n n 0 (λ i, v ← load (start + i); store (target + i) v).

Definition set_view_window (scr_x scr_y : Z) : ModexM () :=
  old_x ← gets show_x;
  old_y ← gets show_y;
  modify (λ s, s <| show_x := scr_x |> <| show_y := scr_y |>);;
  off ← gets img3_off;
  if (0 <=? off + Z.shiftr scr_x 2 + scr_y * SCROLL_X_WIDTH)
     && (off + 3 * SCROLL_SIZE + Z.shiftr (scr_x + SCROLL_X_DIM - 1) 2
         + (scr_y + SCROLL_Y_DIM - 1) * SCROLL_X_WIDTH <? BUILD_BUF_SIZE)
  then skip
  else if (scr_x <=? old_x - SCROLL_X_DIM) || (old_x + SCROLL_X_DIM <=? scr_x)
          || (scr_y <=? old_y - SCROLL_Y_DIM) || (old_y + SCROLL_Y_DIM <=? scr_y)
  then modify (λ s, s <| img3_off := BUILD_BASE_INIT - Z.shiftr scr_x 2 - scr_y * SCROLL_X_WIDTH |>)
  else
    let '(start_x, end_x) := if old_x <? scr_x then (scr_x, old_x) else (old_x, scr_x) in
    let end_x := end_x + (SCROLL_X_DIM - 1) in
    let '(start_y, end_y) := if old_y <? scr_y then (scr_y, old_y) else (old_y, scr_y) in
    let end_y := end_y + (SCROLL_Y_DIM - 1) in
    let start_off := Z.shiftr start_x 2 + start_y * SCROLL_X_WIDTH in
    start ← gets (λ s, img3 s + start_off);
    let length := Z.shiftr end_x 2 + end_y * SCROLL_X_WIDTH + 1 - start_off + 3 * SCROLL_SIZE in
    modify (λ s, s <| img3_off := BUILD_BASE_INIT - Z.shiftr (show_x s) 2 - show_y s * SCROLL_X_WIDTH |>);;
    target ← gets (λ s, img3 s + start_off);
    if start <? target then copy_back (Z.to_nat length) target start
    else copy_forth (Z.to_nat length) target start.

(** ** Drawing lines *)

(** The pixels of a column go down one plane. *)
Fixpoint put_column (buf : list Z) (n : nat) (i addr p_off : Z) : ModexM () :=
  match n with
  | O => skip
  | S n =>
      v ← lift (aget buf i);
      store (addr + p_off * SCROLL_SIZE) v;;
      put_column buf n (i + 1) (addr + SCROLL_X_WIDTH) p_off
  end.
(** The local [buf] is filled by the call-back; its contents before are
    indeterminate. *)
Definition draw_vert_line (e : E) (x : Z) : ModexM Z :=
  if (x <? 0) || (SCROLL_X_DIM <=? x) then mret (-1)
  else
    sx ← gets show_x;
    sy ← gets show_y;
    let x := x + sx in
    f ← gets vert_line_fn ≫= lift;
    buf ← lift (f e x sy (replicate (Z.to_nat SCROLL_Y_DIM) 0));
    addr ← gets (λ s, img3 s + Z.shiftr x 2 + sy * SCROLL_X_WIDTH);
    put_column buf (Z.to_nat SCROLL_Y_DIM) 0 addr (3 - Z.land x 3);;
    mret 0.

(** The pixels of a row go round the four planes. *)
Fixpoint put_row (buf : list Z) (n : nat) (i addr p_off : Z) : ModexM () :=
  match n with
  | O => skip
  | S n =>
      v ← lift (aget buf i);
      store (addr + p_off * SCROLL_SIZE) v;;
      if p_off - 1 <? 0 then put_row buf n (i + 1) (addr + 1) 3
      else put_row buf n (i + 1) addr (p_off - 1)
  end.
Definition draw_horiz_line (e : E) (y : Z) : ModexM Z :=
  if (y <? 0) || (SCROLL_Y_DIM <=? y) then mret (-1)
  else
    sx ← gets show_x;
    sy ← gets show_y;
    let y := y + sy in
    f ← gets horiz_line_fn ≫= lift;
    buf ← lift (f e sx y (replicate (Z.to_nat SCROLL_X_DIM) 0));
    addr ← gets (λ s, img3 s + Z.shiftr sx 2 + y * SCROLL_X_WIDTH);
    put_row buf (Z.to_nat SCROLL_X_DIM) 0 addr (3 - Z.land sx 3);;
    mret 0.

(** ** Showing the window *)

(** [rep movsb]: [n] bytes from [build] to the video memory *)
Definition copy_image (img scr_addr : Z) : ModexM () :=
  for_n (Z.to_nat 14560) 0 (λ k, v ← load (img + k); on_vga (vram_store (scr_addr + k) v)).

Definition show_screen : ModexM () :=
  sx ← gets show_x;
  sy ← gets show_y;
  let p_off := 3 - Z.land sx 3 in
  modify (λ s, s <| target_img := Z.lxor (target_img s) 0x4000 |>);;
  addr ← gets (λ s, img3 s + Z.shiftr sx 2 + sy * SCROLL_X_WIDTH);
  target ← gets target_img;
  for_n 4 0 (λ i,
    on_vga (SET_WRITE_MASK (Z.shiftl 1 (i + 8)));;
    copy_image (addr + Z.land (p_off - i + 4) 3 * SCROLL_SIZE + Z_of_bool (p_off <? i)) target);;
  on_vga (OUTW 0x03D4 (Z.lor (Z.land target 0xFF00) 0x0C));;
  on_vga (OUTW 0x03D4 (Z.lor (Z.shiftl (Z.land target 0x00FF) 8) 0x0D)).

(** ** The status bar *)
Definition on_status {B} (m : M (Z → Z) B) : ModexM B := λ s,
  match m (status_data s) with
  | Some (b, d) => Some (b, s <| status_data := d |>)
  | None => None
  end.
(** [img] is an index into [STATUS_DATA]. *)
Definition copy_statusbar (img scr_addr : Z) : ModexM () :=
  for_n (Z.to_nat 1440) 0 (λ k,
    if (0 <=? img + k) && (img + k <? STATUS_BAR_SIZE * 4) then
      v ← gets (λ s, status_data s (img + k)); on_vga (vram_store (scr_addr + k) v)
    else ub).
(** The buffer that the callers pass is always [STATUS_DATA]. *)
Definition show_status_bar (str : string) (position : Z) : ModexM () :=
  on_status (text_to_graphics str position);;
  if position =? 1 then skip
  else
    for_n 4 0 (λ i,
      on_vga (SET_WRITE_MASK (Z.shiftl 1 (i + 8)));;
      copy_statusbar (i * STATUS_BAR_SIZE) 0).

(** ** Where a pixel is *)

(** The index of the pixel [(X, Y)] of the logical picture *)
Definition off (s : modex) (X Y : Z) : Z :=
  img3 s + (3 - X mod 4) * SCROLL_SIZE + X / 4 + Y * SCROLL_X_WIDTH.
Definition pixel (s : modex) (X Y : Z) : Z := build s (off s X Y).
Definition in_window (s : modex) (X Y : Z) : Prop :=
  show_x s ≤ X < show_x s + SCROLL_X_DIM ∧ show_y s ≤ Y < show_y s + SCROLL_Y_DIM.

(** The window lies in the buffer. *)
Record window_ok (s : modex) : Prop := {
  window_low : 0 ≤ img3_off s + show_x s / 4 + show_y s * SCROLL_X_WIDTH;
  window_high : img3_off s + 3 * SCROLL_SIZE + (show_x s + SCROLL_X_DIM - 1) / 4
    + (show_y s + SCROLL_Y_DIM - 1) * SCROLL_X_WIDTH < BUILD_BUF_SIZE;
}.

Lemma shiftr_2 x : Z.shiftr x 2 = x / 4.
Proof. by rewrite Z.shiftr_div_pow2. Qed.
Lemma land_3 x : Z.land x 3 = x mod 4.
Proof. by apply (Z.land_ones x 2). Qed.

Ltac sizes := unfold off, img3, in_window, BUILD_BASE_INIT, BUILD_BUF_SIZE, SCREEN_SIZE, SCROLL_SIZE,
  SCROLL_X_WIDTH, SCROLL_X_DIM, SCROLL_Y_DIM, MEM_FENCE_WIDTH in *.
Ltac sizes_lia := sizes; Z.div_mod_to_equations; lia.

(** Two pixels of the window are never at the same place. *)
Lemma off_inj s X Y X' Y' :
  in_window s X Y → in_window s X' Y' → off s X Y = off s X' Y' → X = X' ∧ Y = Y'.
Proof. intros H H' He. sizes_lia. Qed.
(** Every pixel of the window is between the fences. *)
Lemma off_range s X Y :
  window_ok s → in_window s X Y → MEM_FENCE_WIDTH ≤ off s X Y < MEM_FENCE_WIDTH + BUILD_BUF_SIZE.
Proof. intros [Hl Hh] H. sizes_lia. Qed.

(** ** Loops of stores *)
Lemma store_run a v s :
  in_build a = true → store a v s = Some ((), s <| build ::= <[a := v]> |>).
Proof. intros Ha. unfold store. by rewrite Ha. Qed.
Lemma load_run a s : in_build a = true → load a s = Some (build s a, s).
Proof. intros Ha. unfold load. by rewrite Ha. Qed.
Lemma in_build_true a : 0 ≤ a < BUILD_BUF_SIZE + 2 * MEM_FENCE_WIDTH → in_build a = true.
Proof. unfold in_build. lia. Qed.

(** [s'] differs from [s] in [build] only, and there only within [P]. *)
Definition built (P : Z → Prop) (s s' : modex) : Prop :=
  s' = s <| build := build s' |> ∧ ∀ a, ¬ P a → build s' a = build s a.
Lemma built_refl P s : built P s s.
Proof. split; [by destruct s|done]. Qed.
Lemma built_trans (P Q R : Z → Prop) s s1 s' :
  (∀ a, P a → R a) → (∀ a, Q a → R a) → built P s s1 → built Q s1 s' → built R s s'.
Proof.
  intros HP HQ [H1 Hb1] [H2 Hb2]. split; [rewrite H2, H1; done|].
  intros a Ha. rewrite Hb2, Hb1; [done|naive_solver..].
Qed.
Lemma built_store a v s : built (.= a) s (s <| build ::= <[a := v]> |>).
Proof. split; [done|]. intros b Hb. cbn. by rewrite fn_lookup_insert_ne. Qed.

(** A loop that stores [g j] at [A j], for [j] from [k] on *)
Lemma scatter_run (body : nat → Z → ModexM ()) (A g : Z → Z) n k s :
  (∀ j s, body O j s = Some ((), s)) →
  (∀ m j s, k ≤ j → j + Z.of_nat (S m) = k + Z.of_nat n →
     body (S m) j s = (store (A j) (g j);; body m (j + 1)) s) →
  (∀ j, k ≤ j < k + Z.of_nat n → in_build (A j) = true) →
  (∀ i j, k ≤ i < k + Z.of_nat n → k ≤ j < k + Z.of_nat n → A i = A j → i = j) →
  ∃ s', body n k s = Some ((), s') ∧
    built (λ a, ∃ j, k ≤ j < k + Z.of_nat n ∧ a = A j) s s' ∧
    ∀ j, k ≤ j < k + Z.of_nat n → build s' (A j) = g j.
Proof.
  intros Hskip. revert k s. induction n as [|n IH]; intros k s Hbody Hin Hinj.
  - exists s. split; [apply Hskip|]. split; [apply built_refl|lia].
  - rewrite Hbody by lia. rewrite (bind_run _ _ _ _ _ (store_run _ _ _ (Hin k ltac:(lia)))). cbn beta.
    destruct (IH (k + 1) (s <| build ::= <[A k := g k]> |>)) as (s' & Hrun & Hb & Hg).
    + intros m j s0 Hj Hm. apply Hbody; lia.
    + intros j Hj. apply Hin. lia.
    + intros i j Hi Hj. apply Hinj; lia.
    + exists s'. split; [exact Hrun|]. split.
      * eapply built_trans; [| |apply built_store|exact Hb]; cbn beta.
        -- intros a ->. exists k. lia.
        -- intros a (j & Hj & ->). exists j. lia.
      * intros j Hj. destruct (decide (j = k)) as [->|]; [|apply Hg; lia].
        destruct Hb as [_ Hb]. rewrite Hb.
        -- cbn. apply fn_lookup_insert.
        -- intros (j & Hj' & He). assert (k = j) by (apply Hinj; [lia..|done]). lia.
Qed.

(** The two directions of the copy.  [blocks]: both ranges lie in [build]. *)
Definition block (a n : Z) : Prop := 0 ≤ a ∧ a + n ≤ BUILD_BUF_SIZE + 2 * MEM_FENCE_WIDTH.
Definition copied (n target start : Z) (s s' : modex) : Prop :=
  built (λ a, target ≤ a < target + n) s s' ∧
  ∀ i, 0 ≤ i < n → build s' (target + i) = build s (start + i).

Lemma copy_back_run n target start s :
  start < target → block start (Z.of_nat n) → block target (Z.of_nat n) →
  ∃ s', copy_back n target start s = Some ((), s') ∧ copied (Z.of_nat n) target start s s'.
Proof.
  intros Hlt. revert s. induction n as [|n IH]; intros s Hs Ht; cbn [copy_back].
  - exists s. split; [done|]. split; [apply built_refl|lia].
  - unfold block in *. rewrite (bind_run _ _ _ _ _ (load_run _ _ (in_build_true (start + Z.of_nat n) ltac:(lia)))).
    rewrite (bind_run _ _ _ _ _ (store_run _ _ _ (in_build_true (target + Z.of_nat n) ltac:(lia)))). cbn beta.
    destruct (IH (s <| build ::= <[target + Z.of_nat n := build s (start + Z.of_nat n)]> |>))
      as (s' & Hrun & Hb & Hc); [lia..|].
    exists s'. split; [exact Hrun|]. split.
    + eapply built_trans; [| |apply built_store|exact Hb]; cbn beta; lia.
    + intros i Hi. destruct (decide (i = Z.of_nat n)) as [->|].
      * destruct Hb as [_ Hb]. rewrite Hb by lia. cbn. apply fn_lookup_insert.
      * rewrite Hc by lia. cbn. apply fn_lookup_insert_ne. lia.
Qed.

Lemma copy_forth_run n target start s :
  target ≤ start → block start (Z.of_nat n) → block target (Z.of_nat n) →
  ∃ s', copy_forth n target start s = Some ((), s') ∧ copied (Z.of_nat n) target start s s'.
Proof.
  intros Hle Hs Ht. unfold block in *.
  cut (wp (copy_forth n target start) (λ _ s', copied (0 + Z.of_nat n) target start s s') s).
  { intros ([] & s' & Hrun & Hc)%wp_run. exists s'. by rewrite Z.add_0_l in Hc. }
  apply (wp_for (λ i s', copied i target start s s')).
  - split; [apply built_refl|lia].
  - intros j s' Hj [Hb Hc]. apply wp_run.
    rewrite (bind_run _ _ _ _ _ (load_run _ _ (in_build_true (start + j) ltac:(lia)))).
    rewrite (store_run _ _ _ (in_build_true (target + j) ltac:(lia))).
    eexists _, _. split; [done|]. split.
    + eapply built_trans; [| |exact Hb|apply built_store]; cbn beta; lia.
    + intros i Hi. cbn. destruct (decide (i = j)) as [->|].
      * rewrite fn_lookup_insert. destruct Hb as [_ Hb]. apply Hb. lia.
      * rewrite fn_lookup_insert_ne by lia. apply Hc. lia.
Qed.

(** ** The window moves *)
Definition fence (a : Z) : Prop := a < MEM_FENCE_WIDTH ∨ MEM_FENCE_WIDTH + BUILD_BUF_SIZE ≤ a.

(** What the operations on the window keep *)
Record same_screen (s s' : modex) : Prop := {
  same_target : target_img s' = target_img s;
  same_horiz : horiz_line_fn s' = horiz_line_fn s;
  same_vert : vert_line_fn s' = vert_line_fn s;
  same_status : status_data s' = status_data s;
  same_adapter : adapter s' = adapter s;
  same_fence a : fence a → build s' a = build s a;
}.
#[export] Instance same_screen_preorder : PreOrder same_screen.
Proof.
  split; [by split|]. intros s1 s2 s3 [] []. split; try congruence.
  intros a Ha. rewrite <- (same_fence0 a Ha). auto.
Qed.
Lemma built_same_screen P s s' : built P s s' → (∀ a, P a → ¬ fence a) → same_screen s s'.
Proof.
  intros [Hs Hb] HP. split; try (rewrite Hs; done). intros a Ha. apply Hb. intros Hp. by apply (HP a).
Qed.

(** The copy of [set_view_window] *)
Definition shift (length target start : Z) : ModexM () :=
  if start <? target then copy_back (Z.to_nat length) target start
  else copy_forth (Z.to_nat length) target start.
Lemma shift_run length target start s :
  0 ≤ length → block start length → block target length →
  ∃ s', shift length target start s = Some ((), s') ∧ copied length target start s s'.
Proof.
  intros Hn Hs Ht. unfold shift. rewrite <- (Z2Nat.id length) in Hs, Ht |- * by done. rewrite Nat2Z.id.
  destruct (Z.ltb_spec start target); [by apply copy_back_run|by apply copy_forth_run].
Qed.

Definition moved_to (x y o : Z) (s : modex) : modex :=
  s <| show_x := x |> <| show_y := y |> <| img3_off := o |>.
Lemma set_view_window_run x y s :
  window_ok s →
  ∃ s', set_view_window x y s = Some ((), s') ∧ show_x s' = x ∧ show_y s' = y ∧
    window_ok s' ∧ same_screen s s' ∧
    ∀ X Y, in_window s X Y → in_window s' X Y → pixel s' X Y = pixel s X Y.
Proof.
  intros Hok. unfold set_view_window. rewrite !bind_gets, bind_modify, bind_gets.
  cbn [img3_off setter]. rewrite !shiftr_2.
  destruct (_ && _) eqn:Efit.
  { eexists. split; [done|]. do 2 (split; [done|]). split; [split; cbn; lia|]. split; [by split|].
    by intros X Y. }
  destruct (_ || _) eqn:Efar.
  { eexists. split; [done|]. do 2 (split; [done|]). split; [split; cbn; sizes_lia|]. split; [by split|].
    intros X Y H H'. unfold in_window in *. cbn in H'. sizes; lia. }
  set (o := BUILD_BASE_INIT - x / 4 - y * SCROLL_X_WIDTH).
  assert (∃ start_x end_x, (if show_x s <? x then (x, show_x s) else (show_x s, x)) = (start_x, end_x) ∧
    start_x = Z.max x (show_x s) ∧ end_x = Z.min x (show_x s)) as (start_x & end_x & -> & Hsx & Hex).
  { destruct (Z.ltb_spec (show_x s) x); eexists _, _; split; [done|lia|done|lia]. }
  assert (∃ start_y end_y, (if show_y s <? y then (y, show_y s) else (show_y s, y)) = (start_y, end_y) ∧
    start_y = Z.max y (show_y s) ∧ end_y = Z.min y (show_y s)) as (start_y & end_y & -> & Hsy & Hey).
  { destruct (Z.ltb_spec (show_y s) y); eexists _, _; split; [done|lia|done|lia]. }
  cbn beta zeta iota. rewrite bind_gets, bind_modify, bind_gets. cbn [show_x show_y setter]. rewrite !shiftr_2.
  set (start_off := start_x / 4 + start_y * SCROLL_X_WIDTH).
  set (len := (end_x + (SCROLL_X_DIM - 1)) / 4 + (end_y + (SCROLL_Y_DIM - 1)) * SCROLL_X_WIDTH + 1
    - start_off + 3 * SCROLL_SIZE).
  destruct Hok as [Hlow Hhigh].
  destruct (shift_run len (o + MEM_FENCE_WIDTH + start_off) (img3 s + start_off) (moved_to x y o s))
    as (s' & Hrun & Hb & Hc); [unfold len, start_off; sizes_lia|..].
  { unfold block, len, start_off. subst. sizes_lia. }
  { unfold block, len, start_off, o. subst. sizes_lia. }
  exists s'. split; [exact Hrun|].
  assert (Hf : show_x s' = x ∧ show_y s' = y ∧ img3_off s' = o) by (destruct Hb as [-> _]; done).
  destruct Hf as (Hx & Hy & Ho). do 2 (split; [done|]).
  split; [|split].
  - split; rewrite Hx, Hy, Ho; unfold o; sizes_lia.
  - etrans; [|eapply built_same_screen; [exact Hb|]]; [by split|].
    cbn beta. unfold fence, len, start_off, o. subst. sizes_lia.
  - intros X Y H H'. unfold in_window in *. rewrite Hx, Hy in H'.
    assert (Hk : 0 ≤ off s X Y - (img3 s + start_off) < len).
    { unfold len, start_off. subst. sizes_lia. }
    specialize (Hc _ Hk). unfold pixel.
    replace (off s' X Y) with (o + MEM_FENCE_WIDTH + start_off + (off s X Y - (img3 s + start_off)))
      by (unfold off, img3; rewrite Ho; lia).
    rewrite Hc. cbn. f_equal. lia.
Qed.

(** ** Lines *)
Definition same_view (s s' : modex) : Prop :=
  show_x s' = show_x s ∧ show_y s' = show_y s ∧ img3_off s' = img3_off s.
Lemma built_same_view P s s' : built P s s' → same_view s s'.
Proof. by intros [-> _]. Qed.
Lemma same_view_off s s' X Y : same_view s s' → off s' X Y = off s X Y.
Proof. intros (_ & _ & Ho). unfold off, img3. by rewrite Ho. Qed.
Lemma same_view_window s s' X Y : same_view s s' → in_window s' X Y ↔ in_window s X Y.
Proof. intros (Hx & Hy & _). unfold in_window. by rewrite Hx, Hy. Qed.
Lemma same_view_ok s s' : same_view s s' → window_ok s → window_ok s'.
Proof. intros (Hx & Hy & Ho) [Hl Hh]. split; rewrite Hx, Hy, Ho; done. Qed.

(** [line] are pixels of the window, each put in its place. *)
Definition drawn (line : Z → Z → Prop) (f : Z → Z → Z) (s s' : modex) : Prop :=
  same_screen s s' ∧ same_view s s' ∧ window_ok s' ∧
  ∀ X Y, in_window s X Y →
    (line X Y → pixel s' X Y = f X Y) ∧ (¬ line X Y → pixel s' X Y = pixel s X Y).

Lemma scatter_drawn (P : Z → Z → Prop) (px : Z → Z * Z) (g : Z → Z) (f : Z → Z → Z) n s s' :
  window_ok s →
  (∀ j, 0 ≤ j < n → in_window s (px j).1 (px j).2) →
  (∀ j, 0 ≤ j < n → f (px j).1 (px j).2 = g j) →
  (∀ X Y, in_window s X Y → P X Y ↔ ∃ j, 0 ≤ j < n ∧ (X, Y) = px j) →
  built (λ a, ∃ j, 0 ≤ j < 0 + n ∧ a = off s (px j).1 (px j).2) s s' →
  (∀ j, 0 ≤ j < 0 + n → build s' (off s (px j).1 (px j).2) = g j) →
  drawn P f s s'.
Proof.
  intros Hok Hin Hf HP Hb Hg. pose proof (built_same_view _ _ _ Hb) as Hv.
  split; [|split; [done|split; [by eapply same_view_ok|]]].
  - eapply built_same_screen; [exact Hb|]. intros a (j & Hj & ->).
    pose proof (off_range s _ _ Hok (Hin j ltac:(lia))). unfold fence. lia.
  - intros X Y HXY. unfold pixel. rewrite (same_view_off s s') by done. rewrite (HP X Y HXY). split.
    + intros (j & Hj & [= -> ->]%(f_equal (λ p, (p.1, p.2)))). rewrite Hg by lia. symmetry. auto.
    + intros Hn. destruct Hb as [_ Hb]. apply Hb. intros (j & Hj & He).
      apply Hn. exists j. split; [lia|].
      destruct (off_inj s X Y _ _ HXY (Hin j ltac:(lia)) He) as [-> ->]. by destruct (px j).
Qed.

Lemma draw_horiz_line_run e y f buf g s :
  window_ok s → 0 ≤ y < SCROLL_Y_DIM → horiz_line_fn s = Some f →
  f e (show_x s) (y + show_y s) (replicate (Z.to_nat SCROLL_X_DIM) 0) = Some buf →
  (∀ i, 0 ≤ i < SCROLL_X_DIM → aget buf i = Some (g i)) →
  ∃ s', draw_horiz_line e y s = Some (0, s') ∧
    drawn (λ _ Y, Y = y + show_y s) (λ X _, g (X - show_x s)) s s'.
Proof.
  intros Hok Hy Hf Hbuf Hg. unfold draw_horiz_line.
  replace (_ || _) with false by lia. rewrite !bind_gets, bind_assoc, bind_gets, Hf.
  rewrite (bind_lift _ f) by done. cbn zeta. rewrite (bind_lift _ buf) by done. rewrite bind_gets.
  rewrite shiftr_2, land_3.
  set (px := λ j, (show_x s + j, y + show_y s)).
  assert (Hpx : ∀ j, 0 ≤ j < 320 → in_window s (px j).1 (px j).2).
  { intros j Hj. unfold px. cbn [fst snd]. sizes_lia. }
  destruct (scatter_run (λ n j, put_row buf n j (img3 s + (show_x s + j) / 4 + (y + show_y s) * SCROLL_X_WIDTH)
      (3 - (show_x s + j) mod 4)) (λ j, off s (px j).1 (px j).2) g (Z.to_nat SCROLL_X_DIM) 0 s)
    as (s' & Hrun & Hb & Hs'); [done| | | |].
  - intros m j s0 Hj Hm. cbn [put_row]. rewrite (bind_lift _ (g j)) by (apply Hg; sizes_lia).
    apply bind_cong2; [f_equal; unfold off, px; cbn [fst snd]; lia|]. intros _ s1 _.
    destruct (Z.ltb_spec (3 - (show_x s + j) mod 4 - 1) 0); f_equal; sizes_lia.
  - intros j Hj. pose proof (off_range s _ _ Hok (Hpx j ltac:(sizes_lia))). apply in_build_true. sizes_lia.
  - intros i j Hi Hj He.
    destruct (off_inj s _ _ _ _ (Hpx i ltac:(sizes_lia)) (Hpx j ltac:(sizes_lia)) He) as [H1 _].
    unfold px in H1. cbn in H1. lia.
  - cbn beta in Hrun. rewrite Z.add_0_r in Hrun. rewrite (bind_run _ _ _ _ _ Hrun).
    exists s'. split; [done|]. rewrite Z2Nat.id in Hb, Hs' by sizes_lia.
    eapply (scatter_drawn _ px g _ SCROLL_X_DIM); [done|intros j Hj; apply Hpx; sizes_lia| | |exact Hb|exact Hs'].
    + intros j Hj. unfold px. cbn. f_equal. lia.
    + intros X Y HXY. unfold px. split.
      * intros ->. exists (X - show_x s). split; [sizes_lia|]. f_equal. lia.
      * by intros (j & _ & [= _ ->]).
Qed.

Lemma draw_vert_line_run e x f buf g s :
  window_ok s → 0 ≤ x < SCROLL_X_DIM → vert_line_fn s = Some f →
  f e (x + show_x s) (show_y s) (replicate (Z.to_nat SCROLL_Y_DIM) 0) = Some buf →
  (∀ i, 0 ≤ i < SCROLL_Y_DIM → aget buf i = Some (g i)) →
  ∃ s', draw_vert_line e x s = Some (0, s') ∧
    drawn (λ X _, X = x + show_x s) (λ _ Y, g (Y - show_y s)) s s'.
Proof.
  intros Hok Hx Hf Hbuf Hg. unfold draw_vert_line.
  replace (_ || _) with false by lia. rewrite !bind_gets, bind_assoc, bind_gets, Hf.
  rewrite (bind_lift _ f) by done. cbn zeta. rewrite (bind_lift _ buf) by done. rewrite bind_gets.
  rewrite shiftr_2, land_3.
  set (px := λ j, (x + show_x s, show_y s + j)).
  assert (Hpx : ∀ j, 0 ≤ j < SCROLL_Y_DIM → in_window s (px j).1 (px j).2).
  { intros j Hj. unfold px. cbn [fst snd]. sizes_lia. }
  destruct (scatter_run (λ n j, put_column buf n j
      (img3 s + (x + show_x s) / 4 + (show_y s + j) * SCROLL_X_WIDTH)
      (3 - (x + show_x s) mod 4)) (λ j, off s (px j).1 (px j).2) g (Z.to_nat SCROLL_Y_DIM) 0 s)
    as (s' & Hrun & Hb & Hs'); [done| | | |].
  - intros m j s0 Hj Hm. cbn [put_column]. rewrite (bind_lift _ (g j)) by (apply Hg; sizes_lia).
    apply bind_cong2; [f_equal; unfold off, px; cbn [fst snd]; lia|]. intros _ s1 _.
    f_equal; sizes_lia.
  - intros j Hj. pose proof (off_range s _ _ Hok (Hpx j ltac:(sizes_lia))). apply in_build_true. sizes_lia.
  - intros i j Hi Hj He.
    destruct (off_inj s _ _ _ _ (Hpx i ltac:(sizes_lia)) (Hpx j ltac:(sizes_lia)) He) as [_ H1].
    unfold px in H1. cbn in H1. lia.
  - cbn beta in Hrun. rewrite Z.add_0_r in Hrun. rewrite (bind_run _ _ _ _ _ Hrun).
    exists s'. split; [done|]. rewrite Z2Nat.id in Hb, Hs' by sizes_lia.
    eapply (scatter_drawn _ px g _ SCROLL_Y_DIM); [done|exact Hpx| | |exact Hb|exact Hs'].
    + intros j Hj. unfold px. cbn. f_equal. lia.
    + intros X Y HXY. unfold px. split.
      * intros ->. exists (Y - show_y s). split; [sizes_lia|]. f_equal. lia.
      * by intros (j & _ & [= -> _]).
Qed.

(** ** Showing *)

(** The screen starts at [target_img], one of two places, and its rows are 80
    bytes apart; after 182 of them comes offset 0. *)
Definition displays (g : vga_t) : Prop := pitch g = 80 ∧ split_row g = 182.
Definition target_ok (s : modex) : Prop := target_img s = 0x1680 ∨ target_img s = 0x5680.

Definition with_adapter (g : vga_t) (s : modex) : modex := s <| adapter := g |>.
Lemma on_vga_run {B} (m : VgaM B) b g' s :
  m (adapter s) = Some (b, g') → on_vga m s = Some (b, with_adapter g' s).
Proof. unfold on_vga. by intros ->. Qed.

(** A loop that copies [src] to the video memory from [scr] on *)
Lemma vram_copy_run body n scr src s :
  (∀ k g, 0 ≤ k < Z.of_nat n →
     body k (with_adapter g s) = on_vga (vram_store (scr + k) (src k)) (with_adapter g s)) →
  ∃ v, for_n n 0 body s = Some ((), with_adapter ((adapter s) <| vram := v |>) s) ∧
    ∀ p a, v p a = if (scr <=? a) && (a <? scr + Z.of_nat n) && Z.testbit (seq (adapter s) 2) p
                   then src (a - scr) else vram (adapter s) p a.
Proof.
  intros Hbody.
  set (I := λ n s', s' = with_adapter ((adapter s) <| vram := vram (adapter s') |>) s ∧
    ∀ p a, vram (adapter s') p a =
      if (scr <=? a) && (a <? scr + n) && Z.testbit (seq (adapter s) 2) p
      then src (a - scr) else vram (adapter s) p a).
  assert (Hwp : wp (for_n n 0 body) (λ _ s', I (0 + Z.of_nat n) s') s).
  { apply (wp_for I).
    - split; [by destruct s as [? ? ? ? ? ? ? ? []]|]. intros p a.
      by replace ((scr <=? a) && (a <? scr + 0)) with false by lia.
    - intros k s' Hk [Hs Hv]. unfold wp. rewrite Hs, Hbody, <- Hs by lia. split; [by rewrite Hs|].
      intros p a. cbn [adapter vram setter]. rewrite Hv, Hs. cbn [with_adapter adapter seq setter].
      destruct (Z.eqb_spec a (scr + k)) as [->|Hne]; cbn [andb].
      + replace ((scr <=? scr + k) && (scr + k <? scr + (k + 1))) with true by lia.
        replace ((scr <=? scr + k) && (scr + k <? scr + k)) with false by lia. cbn [andb].
        destruct (Z.testbit _ p); [|done]. f_equal. lia.
      + by replace ((scr <=? a) && (a <? scr + (k + 1))) with ((scr <=? a) && (a <? scr + k)) by lia. }
  apply wp_run in Hwp as ([] & s' & Hrun & Hs & Hv). exists (vram (adapter s')).
  rewrite Hrun. split; [by rewrite <- Hs|exact Hv].
Qed.

Lemma copy_image_run img scr s :
  block img 14560 →
  ∃ v, copy_image img scr s = Some ((), with_adapter ((adapter s) <| vram := v |>) s) ∧
    ∀ p a, v p a = if (scr <=? a) && (a <? scr + 14560) && Z.testbit (seq (adapter s) 2) p
                   then build s (img + (a - scr)) else vram (adapter s) p a.
Proof.
  intros Hb. unfold block in Hb.
  destruct (vram_copy_run (λ k, v ← load (img + k); on_vga (vram_store (scr + k) v)) (Z.to_nat 14560) scr
    (λ k, build s (img + k)) s) as (v & Hrun & Hv).
  - intros k g Hk. by rewrite (bind_run _ _ _ _ _ (load_run _ _ (in_build_true (img + k) ltac:(lia)))).
  - exists v. split; [exact Hrun|]. by rewrite Z2Nat.id in Hv by lia.
Qed.
Lemma copy_statusbar_run img scr s :
  0 ≤ img ≤ 4320 →
  ∃ v, copy_statusbar img scr s = Some ((), with_adapter ((adapter s) <| vram := v |>) s) ∧
    ∀ p a, v p a = if (scr <=? a) && (a <? scr + 1440) && Z.testbit (seq (adapter s) 2) p
                   then status_data s (img + (a - scr)) else vram (adapter s) p a.
Proof.
  intros Hb. unfold copy_statusbar.
  destruct (vram_copy_run (λ k, if (0 <=? img + k) && (img + k <? STATUS_BAR_SIZE * 4) then
      v ← gets (λ s, status_data s (img + k)); on_vga (vram_store (scr + k) v) else ub) (Z.to_nat 1440) scr
    (λ k, status_data s (img + k)) s) as (v & Hrun & Hv).
  - intros k g Hk. change (STATUS_BAR_SIZE * 4) with 5760. by replace (_ && _) with true by lia.
  - exists v. split; [exact Hrun|]. by rewrite Z2Nat.id in Hv by lia.
Qed.

(** The plane of the build buffer that is copied to plane [i] of the screen *)
Definition plane_start (s : modex) (i : Z) : Z :=
  img3 s + show_x s / 4 + show_y s * SCROLL_X_WIDTH
  + ((3 - show_x s mod 4 - i + 4) mod 4) * SCROLL_SIZE + Z_of_bool (3 - show_x s mod 4 <? i).
Lemma plane_block s i : window_ok s → 0 ≤ i < 4 → block (plane_start s i) 14560.
Proof.
  intros [Hl Hh] Hi. unfold block, plane_start. sizes.
  destruct (Z.ltb_spec (3 - show_x s mod 4) i); cbn [Z_of_bool]; Z.div_mod_to_equations; lia.
Qed.
Lemma plane_pixel s x y :
  plane_start s (x mod 4) + (80 * y + x / 4) = off s (show_x s + x) (show_y s + y).
Proof.
  unfold plane_start. sizes.
  destruct (Z.ltb_spec (3 - show_x s mod 4) (x mod 4)); cbn [Z_of_bool]; Z.div_mod_to_equations; lia.
Qed.

Lemma set_mask_run i s :
  0 ≤ i < 4 →
  on_vga (SET_WRITE_MASK (Z.shiftl 1 (i + 8))) s =
  Some ((), with_adapter ((adapter s) <| seq_index := 2 |> <| seq ::= <[2 := Z.shiftl 1 i]> |>) s).
Proof.
  intros Hi. assert (i = 0 ∨ i = 1 ∨ i = 2 ∨ i = 3) as [->|[->|[->| ->]]] by lia; reflexivity.
Qed.

(** The four planes [src], of [size] bytes, in video memory at [target] *)
Definition copied_planes (n target size : Z) (src : Z → Z → Z) (s s' : modex) : Prop :=
  s' = with_adapter (adapter s') s ∧ crtc (adapter s') = crtc (adapter s) ∧
  ∀ p a, 0 ≤ p < 4 → vram (adapter s') p a =
    if (p <? n) && (target <=? a) && (a <? target + size)
    then src p (a - target) else vram (adapter s) p a.

Lemma copy_planes_run target size src (copy : Z → ModexM ()) s :
  (∀ i g, 0 ≤ i < 4 → ∃ v,
     copy i (with_adapter g s) = Some ((), with_adapter (g <| vram := v |>) s) ∧
     ∀ p a, v p a = if (target <=? a) && (a <? target + size) && Z.testbit (seq g 2) p
                    then src i (a - target) else vram g p a) →
  ∃ s', for_n 4 0 (λ i, on_vga (SET_WRITE_MASK (Z.shiftl 1 (i + 8)));; copy i) s = Some ((), s') ∧
    copied_planes 4 target size src s s'.
Proof.
  intros Hcopy.
  cut (wp (for_n 4 0 (λ i, on_vga (SET_WRITE_MASK (Z.shiftl 1 (i + 8)));; copy i))
    (λ _ s', copied_planes (0 + Z.of_nat 4) target size src s s') s).
  { intros ([] & s' & Hrun & Hs')%wp_run. by exists s'. }
  apply (wp_for (λ n s', copied_planes n target size src s s')).
  - split; [by destruct s|]. split; [done|]. intros p a Hp. by replace (p <? 0) with false by lia.
  - intros j s1 Hj (Hs & Hc & Hv). apply wp_run. rewrite (bind_run _ _ _ _ _ (set_mask_run j s1 ltac:(lia))).
    set (g := (adapter s1) <| seq_index := 2 |> <| seq ::= <[2 := Z.shiftl 1 j]> |>).
    destruct (Hcopy j g ltac:(lia)) as (v & Hrun & Hv').
    exists (), (with_adapter (g <| vram := v |>) s). cbn beta.
    split; [by rewrite Hs|]. split; [done|]. split; [exact Hc|].
    intros p a Hp. cbn [with_adapter adapter vram setter]. rewrite Hv'.
    cbn [g vram seq setter]. rewrite fn_lookup_insert, Hv by done.
    assert (Z.testbit (Z.shiftl 1 j) p = (p =? j)) as ->.
    { rewrite Z.shiftl_spec by lia. destruct (Z.eqb_spec p j) as [->|]; [by rewrite Z.sub_diag|].
      destruct (decide (p < j)); [by rewrite Z.testbit_neg_r by lia|].
      by rewrite (Z.bits_above_log2 1) by (cbn; lia). }
    destruct (Z.eqb_spec p j) as [->|Hne].
    + replace (j <? j + 1) with true by lia. replace (j <? j) with false by lia. by rewrite andb_true_r.
    + rewrite andb_false_r. by replace (p <? j + 1) with (p <? j) by lia.
Qed.

Lemma for_n_ext {S} (f g : Z → M S ()) n k (s : S) :
  (∀ i s, f i s = g i s) → for_n n k f s = for_n n k g s.
Proof.
  intros Hfg. revert k s. induction n as [|n IH]; intros k s; [done|]. cbn [for_n].
  apply bind_cong2; [apply Hfg|]. intros _ s' _. apply IH.
Qed.

Definition start_at (t : Z) (g : vga_t) : vga_t :=
  g <| crtc_index := 0x0D |> <| crtc ::= (λ f, <[0x0D := t mod 256]> (<[0x0C := t / 256]> f)) |>.
Lemma set_start_run t s :
  t = 0x1680 ∨ t = 0x5680 →
  (on_vga (OUTW 0x03D4 (Z.lor (Z.land t 0xFF00) 0x0C));;
   on_vga (OUTW 0x03D4 (Z.lor (Z.shiftl (Z.land t 0x00FF) 8) 0x0D))) s
  = Some ((), with_adapter (start_at t (adapter s)) s).
Proof. intros [-> | ->]; reflexivity. Qed.

(** [show_screen] puts the window on the monitor; the status bar and the image
    that was displayed before stay as they are in the video memory. *)
Lemma show_screen_run s :
  window_ok s → target_ok s → displays (adapter s) →
  ∃ s', show_screen s = Some ((), s') ∧
    s' = with_adapter (adapter s') (s <| target_img := target_img s' |>) ∧
    target_ok s' ∧ target_img s' ≠ target_img s ∧ displays (adapter s') ∧
    (∀ x y, 0 ≤ x < SCROLL_X_DIM → 0 ≤ y < SCROLL_Y_DIM →
       screen (adapter s') x y = pixel s (show_x s + x) (show_y s + y)) ∧
    (∀ p a, 0 ≤ p < 4 → a < target_img s' ∨ target_img s' + 14560 ≤ a →
       vram (adapter s') p a = vram (adapter s) p a).
Proof.
  intros Hok Ht [Hpitch Hsplit]. unfold show_screen. rewrite !bind_gets, bind_modify, !bind_gets.
  set (s1 := s <| target_img ::= λ t, Z.lxor t 0x4000 |>).
  assert (Ht1 : (target_img s1 = 0x1680 ∨ target_img s1 = 0x5680) ∧ target_img s1 ≠ target_img s).
  { unfold s1. cbn [target_img setter]. destruct Ht as [-> | ->]; vm_compute; split; (auto || discriminate). }
  assert (Hok1 : window_ok s1) by (by destruct Hok).
  destruct (copy_planes_run (target_img s1) 14560 (λ i a, build s1 (plane_start s1 i + a))
    (λ i, copy_image (plane_start s1 i) (target_img s1)) s1) as (s2 & Hrun & Hs2 & Hc & Hv).
  { intros i g Hi. apply (copy_image_run _ _ (with_adapter g s1) (plane_block s1 i Hok1 Hi)). }
  set (s3 := with_adapter (start_at (target_img s1) (adapter s2)) s2).
  match goal with |- ∃ s', ?m = _ ∧ _ => assert (Hm : m = Some ((), s3)) end.
  { rewrite shiftr_2. etrans; [apply bind_run|apply set_start_run, Ht1].
    rewrite <- Hrun. apply for_n_ext. intros i s0. apply bind_cong. intros _ s0' _.
    unfold plane_start. by rewrite !land_3. }
  exists s3. split; [exact Hm|]. split; [unfold s3; by rewrite Hs2|].
  assert (Htgt : target_img s3 = target_img s1) by (unfold s3; by rewrite Hs2).
  assert (Hd : displays (adapter s3)).
  { unfold s3, displays, pitch, split_row, line_compare, scans_per_row, start_at in *.
    cbn [with_adapter adapter crtc setter]. rewrite Hc. done. }
  assert (Hvr : ∀ p a, 0 ≤ p < 4 → vram (adapter s3) p a =
    if (target_img s1 <=? a) && (a <? target_img s1 + 14560)
    then build s (plane_start s p + (a - target_img s1)) else vram (adapter s) p a).
  { intros p a Hp. cbn [s3 with_adapter start_at adapter vram setter]. rewrite Hv by done.
    by replace (p <? 4) with true by lia. }
  split; [unfold target_ok; rewrite Htgt; apply Ht1|]. rewrite Htgt. split; [apply Ht1|]. split; [exact Hd|]. split.
  - intros x y Hx Hy. unfold screen. destruct Hd as [Hp3 Hs3]. rewrite Hp3, Hs3.
    assert (Hstart : start_address (adapter s3) = target_img s1).
    { unfold s3, start_address, start_at. cbn [with_adapter adapter crtc setter].
      rewrite (fn_lookup_insert_ne _ 0x0D 0x0C), !fn_lookup_insert by done.
      destruct Ht1 as [[-> | ->] _]; reflexivity. }
    rewrite Hstart. replace (y <? 182) with true by sizes_lia.
    rewrite Hvr by sizes_lia.
    replace (_ && _) with true by sizes_lia. unfold pixel. f_equal. rewrite <- plane_pixel. lia.
  - intros p a Hp Ha. rewrite Hvr by done. by replace (_ && _) with false by lia.
Qed.

#[local] Opaque text_to_graphics.
(** [show_status_bar] draws the text below the split, but for position 1, which
    only clears the buffer. *)
Definition bar_shows (P : Z → Z → bool) (g : vga_t) : Prop :=
  ∀ x y, 0 ≤ x < 320 → 0 ≤ y < 18 → screen g x (182 + y) = if P x y then 0x20 else 0x0F.
Definition target_clear (g : vga_t) : Prop := 1440 ≤ start_address g.

Lemma show_status_bar_run str position s :
  (String.length str ≤ 40)%nat → ascii_text str → 0 ≤ position ≤ 3 → displays (adapter s) →
  ∃ s', show_status_bar str position s = Some ((), s') ∧
    s' = with_adapter (adapter s') (s <| status_data := status_data s' |>) ∧
    pic (text_pixels str position) (status_data s') ∧
    crtc (adapter s') = crtc (adapter s) ∧
    (∀ p a, 0 ≤ p < 4 → a < 0 ∨ 1440 ≤ a → vram (adapter s') p a = vram (adapter s) p a) ∧
    (position = 1 → adapter s' = adapter s) ∧
    (position ≠ 1 → bar_shows (text_pixels str position) (adapter s')).
Proof.
  intros Hlen Hasc Hpos [Hpitch Hsplit].
  destruct (proj1 (wp_run _ _ _) (text_to_graphics_pic str position (status_data s) Hlen Hasc Hpos))
    as ([] & d & Hd & Hpic).
  set (s1 := s <| status_data := d |>).
  assert (H1 : on_status (text_to_graphics str position) s = Some ((), s1)).
  { unfold on_status. rewrite Hd. reflexivity. }
  unfold show_status_bar. rewrite (bind_run _ _ _ _ _ H1). destruct (Z.eqb_spec position 1) as [->|Hne].
  { exists s1. split; [reflexivity|]. split; [unfold s1; by destruct s|]. split; [exact Hpic|].
    do 3 (split; [reflexivity|]). intros Hn. by destruct Hn. }
  destruct (copy_planes_run 0 1440 (λ i a, d (i * STATUS_BAR_SIZE + a))
    (λ i, copy_statusbar (i * STATUS_BAR_SIZE) 0) s1) as (s2 & Hrun & Hs2 & Hc & Hv).
  { intros i g Hi. apply (copy_statusbar_run _ 0 (with_adapter g s1)). change STATUS_BAR_SIZE with 1440. lia. }
  exists s2. split; [exact Hrun|]. clear Hrun H1 Hd. split; [rewrite Hs2; by destruct s|].
  assert (status_data s2 = d) as -> by (by rewrite Hs2). split; [exact Hpic|]. split; [exact Hc|].
  split; [|split; [intros ->; by destruct Hne|]].
  - intros p a Hp Ha. rewrite Hv by done. by replace (_ && _ && _) with false by lia.
  - intros _ x y Hx Hy. unfold screen.
    assert (split_row (adapter s2) = 182 ∧ pitch (adapter s2) = 80) as [-> ->]
      by (unfold split_row, pitch, line_compare, scans_per_row in *; rewrite Hc; done).
    replace (182 + y <? 182) with false by lia. rewrite Hv by sizes_lia.
    replace (_ && _ && _) with true by (Z.div_mod_to_equations; lia).
    rewrite <- Hpic by done. f_equal. unfold pos. lia.
Qed.

(** ** Starting *)
Record fences_hold (s : modex) : Prop := {
  low_fence i : 0 ≤ i < MEM_FENCE_WIDTH → build s i = MEM_FENCE_MAGIC;
  high_fence i : 0 ≤ i < MEM_FENCE_WIDTH → build s (BUILD_BUF_SIZE + MEM_FENCE_WIDTH + i) = MEM_FENCE_MAGIC;
}.
Lemma same_screen_fences s s' : same_screen s s' → fences_hold s → fences_hold s'.
Proof.
  intros Hs [Hl Hh]. split; intros i Hi; rewrite (same_fence _ _ Hs); auto; unfold fence; sizes_lia.
Qed.

Record started (h v : line_fn) (s : modex) : Prop := {
  started_window : window_ok s;
  started_target : target_ok s;
  started_horiz : horiz_line_fn s = Some h;
  started_vert : vert_line_fn s = Some v;
  started_fences : fences_hold s;
  started_display : displays (adapter s);
}.

Lemma fill_fences s :
  wp (for_n (Z.to_nat MEM_FENCE_WIDTH) 0 (λ i,
        store i MEM_FENCE_MAGIC;;
        store (BUILD_BUF_SIZE + MEM_FENCE_WIDTH + i) MEM_FENCE_MAGIC))
    (λ _ s', s' = s <| build := build s' |> ∧ fences_hold s') s.
Proof.
  set (I := λ n s', s' = s <| build := build s' |> ∧ ∀ i, 0 ≤ i < n →
    build s' i = MEM_FENCE_MAGIC ∧ build s' (BUILD_BUF_SIZE + MEM_FENCE_WIDTH + i) = MEM_FENCE_MAGIC).
  eapply wp_mono; [apply (wp_for I)|].
  - split; [by destruct s|lia].
  - intros k s' Hk [Hs Hf]. apply wp_run.
    rewrite (bind_run _ _ _ _ _ (store_run k _ _ (in_build_true k ltac:(sizes; lia)))).
    rewrite (store_run _ _ _ (in_build_true (BUILD_BUF_SIZE + MEM_FENCE_WIDTH + k) ltac:(sizes; lia))).
    eexists _, _. split; [done|]. split; [by rewrite Hs|]. intros i Hi. cbn [build setter].
    destruct (decide (i = k)) as [->|].
    + rewrite fn_lookup_insert, (fn_lookup_insert_ne _ _ k) by (sizes; lia). by rewrite fn_lookup_insert.
    + rewrite !fn_lookup_insert_ne by (sizes; lia). apply Hf. lia.
  - intros [] s' [Hs Hf]. split; [done|]. split; intros i Hi; apply Hf; sizes; lia.
Qed.

Lemma set_mode_X_run h v s :
  ∃ s', set_mode_X true (Some h) (Some v) s = Some (0, s') ∧ started h v s' ∧ mode_X (adapter s') ∧
    show_x s' = 0 ∧ show_y s' = 0 ∧
    ∀ x y, 0 ≤ x < 320 → 0 ≤ y < 200 → screen (adapter s') x y = 0.
Proof.
  unfold set_mode_X. rewrite bind_modify. set (s1 := setter img3_off _ _).
  destruct (proj1 (wp_run _ _ _) (fill_fences s1)) as ([] & s2 & Hrun & Hs2 & Hf).
  rewrite (bind_run _ _ _ _ _ Hrun), bind_modify. cbn beta.
  destruct (program_mode_X_run (adapter s2)) as (g & Hg & Hm & Hstart & Hclear).
  unfold open_memory_and_ports. rewrite bind_ret. cbn [Z.eqb].
  eexists. split; [etrans; [apply bind_run, on_vga_run; exact Hg|reflexivity]|]. clear Hrun Hg.
  pose proof (mode_pitch _ Hm) as Hp. pose proof (mode_split _ Hm) as Hsp.
  split; [|split; [exact Hm|]; split; [by rewrite Hs2|]; split; [by rewrite Hs2|]].
  - split; [|by left|by rewrite Hs2|by rewrite Hs2|by destruct Hf|by split].
    rewrite Hs2. split; cbn; sizes_lia.
  - intros x y Hx Hy. unfold screen. cbn [with_adapter adapter setter]. rewrite Hp, Hsp, Hstart.
    apply Hclear; [Z.div_mod_to_equations; lia|]. unfold MODE_X_MEM_SIZE.
    destruct (Z.ltb_spec y 182); Z.div_mod_to_equations; lia.
Qed.
End modex.
