(* ===== verification/TextMode.v ===== *)
(** * TextMode: back to the text screen ([mp2/modex.c], third part)

    Leaving the game: [clear_mode_X] puts the adapter of [Vga] into text mode 3,
    blanks the text screens, writes the font into plane 2 and looks at the fences
    round the build buffer; the program [tr] does the same without blanking.
    Here the CPU sees the video memory through two other windows than in mode X,
    so [vga_store] has the adapter's address decoding. *)
From stdpp Require Import functions.
From S2P Require Import Prelude Vga Text Adventure Modex.

(** ** Stores to [mem_image]

    Byte [a] of the map is the physical address 0xA0000 + [a].  Which part of it is
    there is in register 6 of the graphics controller; sequencer register 4 says
    whether all planes answer to an address, or the even ones to even addresses and
    the odd ones to odd addresses. *)
Definition VID_MEM_SIZE : Z := 131072.
Definition window_offset (g : vga_t) (a : Z) : option Z :=
  let part := Z.land (Z.shiftr (gr g 6) 2) 3 in
  if part =? 0 then Some a
  else if part =? 1 then if a <? 0x10000 then Some a else None
  else if part =? 2 then if (0x10000 <=? a) && (a <? 0x18000) then Some (a - 0x10000) else None
  else if 0x18000 <=? a then Some (a - 0x18000) else None.
(** A byte is stored as it is: write mode 0, no set and reset, no rotation or logic,
    all bits enabled; chain 4 off, and the two controllers agree on odd and even.
    The code stores under such settings only; what others would do is left out. *)
Definition plain_write (g : vga_t) : bool :=
  (Z.land (gr g 5) 3 =? 0) && (gr g 1 =? 0) && (gr g 3 =? 0) && (gr g 8 =? 0xFF) &&
  negb (Z.testbit (seq g 4) 3) && eqb (Z.testbit (gr g 6) 1) (negb (Z.testbit (seq g 4) 2)).
Definition plane_answers (g : vga_t) (a p : Z) : bool :=
  (Z.testbit (seq g 4) 2 || (p mod 2 =? a mod 2)) && Z.testbit (seq g 2) p.
Definition in_plane (g : vga_t) (o : Z) : Z := if Z.testbit (seq g 4) 2 then o else o - o mod 2.
Definition vga_store (a v : Z) : VgaM () := λ g,
  if (0 <=? a) && (a <? VID_MEM_SIZE) && plain_write g then
    Some ((), match window_offset g a with
              | Some o => g <| vram ::= λ old p b,
                  if (b =? in_plane g o) && plane_answers g o p then v else old p b |>
              | None => g
              end)
  else None.
(** An [unsigned long] of 32 bits, the low byte first *)
Definition vga_store_long (a v : Z) : VgaM () :=
  vga_store a (Z.land v 0xFF);; vga_store (a + 1) (Z.land (Z.shiftr v 8) 0xFF);;
  vga_store (a + 2) (Z.land (Z.shiftr v 16) 0xFF);; vga_store (a + 3) (Z.land (Z.shiftr v 24) 0xFF).

(** ** Register values *)
Definition text_seq : list Z := [
  0x0100; 0x2001; 0x0302; 0x0003; 0x0204].
Definition text_CRTC : list Z := [
  0x5F00; 0x4F01; 0x5002; 0x8203; 0x5504; 0x8105; 0xBF06; 0x1F07; 0x0008; 0x4F09; 0x0D0A; 0x0E0B;
  0x000C; 0x000D; 0x000E; 0x000F; 0x9C10; 0x8E11; 0x8F12; 0x2813; 0x1F14; 0x9615; 0xB916; 0xA317;
  0xFF18].
Definition text_attr : list Z := [
  0x00; 0x00; 0x01; 0x01; 0x02; 0x02; 0x03; 0x03; 0x04; 0x04; 0x05; 0x05;
  0x06; 0x06; 0x07; 0x07; 0x08; 0x08; 0x09; 0x09; 0x0A; 0x0A; 0x0B; 0x0B;
  0x0C; 0x0C; 0x0D; 0x0D; 0x0E; 0x0E; 0x0F; 0x0F; 0x10; 0x0C; 0x11; 0x00;
  0x12; 0x0F; 0x13; 0x08; 0x14; 0x00; 0x15; 0x00].
Definition text_graphics : list Z := [
  0x0000; 0x0001; 0x0002; 0x0003; 0x0004; 0x1005; 0x0E06; 0x0007; 0xFF08].
Definition text_palette_RGB : list (Z * Z * Z) := [
  (0x00, 0x00, 0x00); (0x00, 0x00, 0x2A); (0x00, 0x2A, 0x00); (0x00, 0x2A, 0x2A);
  (0x2A, 0x00, 0x00); (0x2A, 0x00, 0x2A); (0x2A, 0x15, 0x00); (0x2A, 0x2A, 0x2A);
  (0x15, 0x15, 0x15); (0x15, 0x15, 0x3F); (0x15, 0x3F, 0x15); (0x15, 0x3F, 0x3F);
  (0x3F, 0x15, 0x15); (0x3F, 0x15, 0x3F); (0x3F, 0x3F, 0x15); (0x3F, 0x3F, 0x3F);
  (0x00, 0x00, 0x00); (0x05, 0x05, 0x05); (0x08, 0x08, 0x08); (0x0B, 0x0B, 0x0B);
  (0x0E, 0x0E, 0x0E); (0x11, 0x11, 0x11); (0x14, 0x14, 0x14); (0x18, 0x18, 0x18);
  (0x1C, 0x1C, 0x1C); (0x20, 0x20, 0x20); (0x24, 0x24, 0x24); (0x28, 0x28, 0x28);
  (0x2D, 0x2D, 0x2D); (0x32, 0x32, 0x32); (0x38, 0x38, 0x38); (0x3F, 0x3F, 0x3F)].
Definition fill_palette_text : VgaM () :=
  OUTB 0x03C8 0x00;;
  REP_OUTSB 0x03C9 (text_palette_RGB ≫= λ '(r, g, b), [r; g; b]).

(** ** The font *)
Definition font_window : VgaM () :=
  OUTW 0x3C4 0x0402;;
  OUTW 0x3C4 0x0704;;
  OUTW 0x3CE 0x0005;;
  OUTW 0x3CE 0x0406;;
  OUTW 0x3CE 0x0204.
Definition store_fonts : VgaM () :=
  for_n 256 0 (λ i, for_n 16 0 (λ j,
    v ← lift (row ← aget font_data i; aget row j);
    vga_store (32 * i + j) v)).
Definition text_window : VgaM () :=
  OUTW 0x3C4 0x0302;;
  OUTW 0x3C4 0x0304;;
  OUTW 0x3CE 0x1005;;
  OUTW 0x3CE 0x0E06;;
  OUTW 0x3CE 0x0004.
Definition write_font_data : VgaM () := font_window;; store_fonts;; text_window.

(** ** Text mode *)
Definition text_registers : VgaM () :=
  VGA_blank 1;;
  set_seq_regs_and_reset text_seq 0x67;;
  set_CRTC_registers text_CRTC;;
  set_attr_registers text_attr;;
  set_graphics_registers text_graphics;;
  fill_palette_text.
Definition clear_text : VgaM () :=
  for_n (Z.to_nat 8192) 0 (λ i, vga_store_long (0x18000 + 4 * i) 0x07200720).
Definition set_text_mode_3 (clear_scr : bool) : VgaM () :=
  text_registers;;
  (if clear_scr then clear_text else skip);;
  write_font_data;;
  VGA_blank 0.

(** The [main] of the program [tr]; [maps] as in [Modex] *)
Definition tr_main (maps : bool) : VgaM Z :=
  if negb maps then mret 3 else set_text_mode_3 false;; mret 0.

Section leaving.
Context {E : Type}.
(** Whether one of [n] bytes of a fence has changed *)
Fixpoint fence_broken (n : nat) (a : Z) : M (@modex E) bool :=
  match n with
  | O => mret false
  | S n => v ← load a; if negb (v =? MEM_FENCE_MAGIC) then mret true else fence_broken n (a + 1)
  end.
(** The lines that it prints *)
Definition clear_mode_X : M (@modex E) (list string) :=
  on_vga (set_text_mode_3 true);;
  low ← fence_broken (Z.to_nat MEM_FENCE_WIDTH) 0;
  high ← fence_broken (Z.to_nat MEM_FENCE_WIDTH) (BUILD_BUF_SIZE + MEM_FENCE_WIDTH);
  mret ((if (low : bool) then ["lower build fence was broken"] else []) ++
        (if (high : bool) then ["upper build fence was broken"] else [])).
End leaving.

(** ** What text mode is

    Cell [k] of the text screens is a character and an attribute, at offset [2 * k] of
    planes 0 and 1; row [j] of the glyph of character [c] is byte [32 * c + j] of
    plane 2. *)
Definition text_cell (g : vga_t) (k : Z) : Z * Z := (vram g 0 (2 * k), vram g 1 (2 * k)).
(** The register values of the tables; [write_font_data] leaves sequencer register 4
    with its unused bit 0 set. *)
Definition text_registers_set (g : vga_t) : bool :=
  forallb (λ e, crtc g (e mod 256) =? e / 256) text_CRTC &&
  forallb (λ e, gr g (e mod 256) =? e / 256) text_graphics &&
  forallb (λ i, match text_attr !! (2 * i)%nat, text_attr !! (2 * i + 1)%nat with
                | Some r, Some v => attr g r =? v | _, _ => false end) (List.seq 0 22) &&
  (seq g 0 =? 3) && (seq g 1 =? 0) && (seq g 2 =? 3) && (seq g 3 =? 0) && (seq g 4 =? 3) && (misc g =? 0x67).
Record text_mode (g : vga_t) : Prop := {
  text_regs : text_registers_set g = true;
  text_colours c rgb : text_palette_RGB !! c = Some rgb → colour g (Z.of_nat c) = rgb;
  text_font c j row v : 0 ≤ c < 256 → 0 ≤ j < 16 → aget font_data c = Some row → aget row j = Some v →
    vram g 2 (32 * c + j) = v;
}.

(** ** Programs that only set registers leave the video memory alone *)
Class KeepsVram {B} (m : VgaM B) : Prop :=
  keeps_vram g v : m (g <| vram := v |>) = (λ '(b, g'), (b, g' <| vram := v |>)) <$> m g.

Lemma port_write_vram port x g v : port_write port x (g <| vram := v |>) = (port_write port x g) <| vram := v |>.
Proof. unfold port_write. destruct g. cbn. repeat case_match; done. Qed.
#[export] Instance OUTB_keeps port x : KeepsVram (OUTB port x).
Proof. intros g v. unfold OUTB, modify. by rewrite port_write_vram. Qed.
#[export] Instance INB_keeps port : KeepsVram (INB port).
Proof. intros g v. unfold INB. destruct g. by destruct (port =? 0x3DA), (port =? 0x3C5). Qed.
#[export] Instance skip_keeps : KeepsVram skip.
Proof. by intros g v. Qed.
#[export] Instance bind_keeps {B C} (m : VgaM B) (f : B → VgaM C) :
  KeepsVram m → (∀ b, KeepsVram (f b)) → KeepsVram (m ≫= f).
Proof.
  intros Hm Hf g v. unfold mbind, M_bind. rewrite Hm. destruct (m g) as [[b g']|]; [|done]. cbn. apply Hf.
Qed.
#[export] Instance OUTW_keeps port x : KeepsVram (OUTW port x).
Proof. unfold OUTW. apply bind_keeps; [apply OUTB_keeps|intros; apply OUTB_keeps]. Qed.
#[export] Typeclasses Opaque OUTB OUTW INB REP_OUTSW REP_OUTSB VGA_blank skip.
#[export] Instance REP_OUTSW_keeps port l : KeepsVram (REP_OUTSW port l).
Proof. induction l; cbn; apply _. Qed.
#[export] Instance REP_OUTSB_keeps port l : KeepsVram (REP_OUTSB port l).
Proof. induction l; cbn; apply _. Qed.
#[export] Instance VGA_blank_keeps b : KeepsVram (VGA_blank b).
Proof. unfold VGA_blank. apply _. Qed.
#[export] Instance font_window_keeps : KeepsVram font_window.
Proof. unfold font_window. apply _. Qed.
#[export] Instance text_window_keeps : KeepsVram text_window.
Proof. unfold text_window. apply _. Qed.
#[export] Instance text_registers_keeps : KeepsVram text_registers.
Proof.
  unfold text_registers, set_seq_regs_and_reset, set_CRTC_registers, set_attr_registers,
    set_graphics_registers, fill_palette_text. apply _.
Qed.

Lemma with_vram (g : vga_t) : g = g <| vram := vram g |>.
Proof. by destruct g. Qed.
Lemma keeps_run {B} (m : VgaM B) `{!KeepsVram m} g v b g' :
  m g = Some (b, g') → m (g <| vram := v |>) = Some (b, g' <| vram := v |>).
Proof. intros H. by rewrite keeps_vram, H. Qed.
Lemma keeps_same {B} (m : VgaM B) `{!KeepsVram m} g b g' : m g = Some (b, g') → vram g' = vram g.
Proof.
  intros H. pose proof (keeps_run m g (vram g) b g' H) as H'. rewrite <- with_vram, H in H'.
  injection H' as H'. by rewrite H'.
Qed.

(** ** The registers on the way *)
Definition clear_ready (g : vga_t) : bool :=
  plain_write g && (Z.land (Z.shiftr (gr g 6) 2) 3 =? 3) && (seq g 2 =? 3) && negb (Z.testbit (seq g 4) 2).
Definition font_ready (g : vga_t) : bool :=
  plain_write g && (Z.land (Z.shiftr (gr g 6) 2) 3 =? 1) && (seq g 2 =? 4) && Z.testbit (seq g 4) 2.
Definition text_palette_set (g : vga_t) : bool :=
  forallb (λ c, bool_decide (colour g (Z.of_nat c) = default (0, 0, 0) (text_palette_RGB !! c))) (List.seq 0 32).

Lemma text_registers_checked g :
  match text_registers g with
  | Some (_, g1) => clear_ready g1 &&
      match font_window g1 with
      | Some (_, g2) => font_ready g2 &&
          match (text_window;; VGA_blank 0) g2 with
          | Some (_, g3) => text_registers_set g3 && text_palette_set g3
          | None => false
          end
      | None => false
      end
  | None => false
  end = true.
Proof. vm_compute. reflexivity. Qed.

(** ** The two loops over the video memory *)
Lemma text_store_run g a v :
  clear_ready g = true → 0x18000 ≤ a < VID_MEM_SIZE →
  ∃ m, vga_store a v g = Some ((), g <| vram := m |>) ∧
    ∀ p b, m p b = if (b =? a - 0x18000 - a mod 2) && ((p mod 2 =? a mod 2) && Z.testbit 3 p) then v else vram g p b.
Proof.
  unfold clear_ready. rewrite !andb_true_iff, !Z.eqb_eq, negb_true_iff. intros [[[Hp Hw] Hm] Ho] Ha.
  unfold vga_store. rewrite Hp. rewrite (proj2 (Z.leb_le 0 a)), (proj2 (Z.ltb_lt a VID_MEM_SIZE)) by lia. cbn [andb].
  unfold window_offset. rewrite Hw. cbn [Z.eqb Pos.eqb]. rewrite (proj2 (Z.leb_le 0x18000 a)) by lia.
  eexists. split; [reflexivity|]. intros p b. cbn. unfold plane_answers, in_plane. rewrite Hm, Ho.
  replace ((a - 98304) mod 2) with (a mod 2) by (Z.div_mod_to_equations; lia). done.
Qed.
Lemma font_store_run g a v :
  font_ready g = true → 0 ≤ a < 0x10000 →
  ∃ m, vga_store a v g = Some ((), g <| vram := m |>) ∧
    ∀ p b, m p b = if (b =? a) && Z.testbit 4 p then v else vram g p b.
Proof.
  unfold font_ready. rewrite !andb_true_iff, !Z.eqb_eq. intros [[[Hp Hw] Hm] Ho] Ha.
  unfold vga_store. rewrite Hp. rewrite (proj2 (Z.leb_le 0 a)), (proj2 (Z.ltb_lt a VID_MEM_SIZE)) by (unfold VID_MEM_SIZE; lia).
  cbn [andb]. unfold window_offset. rewrite Hw. cbn [Z.eqb Pos.eqb]. rewrite (proj2 (Z.ltb_lt a 0x10000)) by lia.
  eexists. split; [reflexivity|]. intros p b. cbn. unfold plane_answers, in_plane. rewrite Hm, Ho.
  done.
Qed.

(** In text mode byte [e] of a cell goes to plane [e]. *)
Lemma cell_store_run g o e v :
  clear_ready g = true → 0 ≤ o < 16384 → 0 ≤ e < 2 →
  ∃ m, vga_store (0x18000 + 2 * o + e) v g = Some ((), g <| vram := m |>) ∧
    ∀ p b, 0 ≤ p < 2 → m p b = if (b =? 2 * o) && (p =? e) then v else vram g p b.
Proof.
  intros Hr Ho He. destruct (text_store_run g (0x18000 + 2 * o + e) v Hr) as (m&Hm&Hv); [unfold VID_MEM_SIZE; lia|].
  exists m. split; [done|]. intros p b Hp. rewrite Hv.
  assert (Hmod : (0x18000 + 2 * o + e) mod 2 = e) by (Z.div_mod_to_equations; lia). rewrite Hmod.
  replace (0x18000 + 2 * o + e - 0x18000 - e) with (2 * o) by lia.
  assert (p = 0 ∨ p = 1) as [->| ->] by lia; assert (e = 0 ∨ e = 1) as [->| ->] by lia; cbn;
    by rewrite ?andb_true_r, ?andb_false_r.
Qed.

Lemma clear_word_run g i :
  clear_ready g = true → 0 ≤ i < 8192 →
  ∃ m, vga_store_long (0x18000 + 4 * i) 0x07200720 g = Some ((), g <| vram := m |>) ∧
    ∀ b, m 0 b = (if (b =? 4 * i) || (b =? 4 * i + 2) then 0x20 else vram g 0 b) ∧
         m 1 b = (if (b =? 4 * i) || (b =? 4 * i + 2) then 0x07 else vram g 1 b).
Proof.
  intros Hr Hi. unfold vga_store_long.
  destruct (cell_store_run g (2 * i) 0 0x20 Hr) as (m1&H1&Hm1); [lia..|].
  destruct (cell_store_run (g <| vram := m1 |>) (2 * i) 1 0x07) as (m2&H2&Hm2); [exact Hr|lia..|].
  destruct (cell_store_run (g <| vram := m2 |>) (2 * i + 1) 0 0x20) as (m3&H3&Hm3); [exact Hr|lia..|].
  destruct (cell_store_run (g <| vram := m3 |>) (2 * i + 1) 1 0x07) as (m4&H4&Hm4); [exact Hr|lia..|].
  exists m4. split.
  - change (Z.land 0x07200720 0xFF) with 0x20. change (Z.land (Z.shiftr 0x07200720 8) 0xFF) with 0x07.
    change (Z.land (Z.shiftr 0x07200720 16) 0xFF) with 0x20. change (Z.land (Z.shiftr 0x07200720 24) 0xFF) with 0x07.
    replace (0x18000 + 4 * i) with (0x18000 + 2 * (2 * i) + 0) by lia. rewrite (bind_run _ _ _ _ _ H1).
    replace (0x18000 + 2 * (2 * i) + 0 + 1) with (0x18000 + 2 * (2 * i) + 1) by lia. rewrite (bind_run _ _ _ _ _ H2).
    replace (0x18000 + 2 * (2 * i) + 0 + 2) with (0x18000 + 2 * (2 * i + 1) + 0) by lia. rewrite (bind_run _ _ _ _ _ H3).
    replace (0x18000 + 2 * (2 * i) + 0 + 3) with (0x18000 + 2 * (2 * i + 1) + 1) by lia. exact H4.
  - intros b. cbn [vram setter] in *. rewrite !Hm4, !Hm3, !Hm2, !Hm1 by lia.
    cbn [Z.eqb Pos.eqb]. rewrite !andb_true_r, !andb_false_r.
    replace (2 * (2 * i)) with (4 * i) by lia. replace (2 * (2 * i + 1)) with (4 * i + 2) by lia.
    by destruct (b =? 4 * i), (b =? 4 * i + 2).
Qed.

Lemma clear_text_run g :
  clear_ready g = true →
  ∃ m, clear_text g = Some ((), g <| vram := m |>) ∧
    ∀ k, 0 ≤ k < 16384 → m 0 (2 * k) = 0x20 ∧ m 1 (2 * k) = 0x07.
Proof.
  intros Hr. unfold clear_text.
  assert (Hwp : wp (for_n (Z.to_nat 8192) 0 (λ i, vga_store_long (0x18000 + 4 * i) 0x07200720))
    (λ _ s, s = g <| vram := vram s |> ∧ ∀ k, 0 ≤ k < 2 * (0 + Z.of_nat (Z.to_nat 8192)) → vram s 0 (2 * k) = 0x20 ∧ vram s 1 (2 * k) = 0x07) g).
  { apply (wp_for (λ i s, s = g <| vram := vram s |> ∧
      ∀ k, 0 ≤ k < 2 * i → vram s 0 (2 * k) = 0x20 ∧ vram s 1 (2 * k) = 0x07)); [split; [apply with_vram|lia]|].
    intros i s Hi [Hs Hv]. rewrite Hs. apply wp_run.
    destruct (clear_word_run (g <| vram := vram s |>) i) as (m&Hm&Hb); [exact Hr|lia|].
    exists (), (g <| vram := m |>). split; [exact Hm|]. split; [done|]. intros k Hk. cbn [vram setter].
    destruct (Hb (2 * k)) as [-> ->]. cbn [vram setter].
    destruct (Z.eqb_spec (2 * k) (4 * i)), (Z.eqb_spec (2 * k) (4 * i + 2)); cbn [orb]; [done..|]. apply Hv. lia. }
  apply wp_run in Hwp as ([]&s&Hrun&Hs&Hv). exists (vram s). split; [by rewrite <- Hs|].
  intros k Hk. apply Hv. lia.
Qed.

Lemma font_rows c : 0 ≤ c < 256 → ∃ row, aget font_data c = Some row ∧ length row = 16%nat.
Proof.
  intros Hc. assert (Hf : forallb (λ r, (length r =? 16)%nat) font_data = true) by (vm_compute; reflexivity).
  destruct (proj2 (aget_is_Some font_data c)) as [row Hrow]; [exact Hc|]. exists row. split; [done|].
  rewrite aget_nonneg in Hrow by lia. rewrite forallb_forall in Hf.
  apply Nat.eqb_eq, Hf, list_elem_of_In. by eapply list_elem_of_lookup_2.
Qed.
Definition font_at (m : Z → Z → Z) (c j : Z) : Prop :=
  ∀ row v, aget font_data c = Some row → aget row j = Some v → m 2 (32 * c + j) = v.
(** The glyphs are stored, and the other planes are as they were. *)
Lemma store_fonts_run g :
  font_ready g = true →
  ∃ m, store_fonts g = Some ((), g <| vram := m |>) ∧
    (∀ c j, 0 ≤ c < 256 → 0 ≤ j < 16 → font_at m c j) ∧ ∀ b, m 0 b = vram g 0 b ∧ m 1 b = vram g 1 b.
Proof.
  intros Hr. unfold store_fonts.
  set (J := λ c j s, s = g <| vram := vram s |> ∧ (∀ b, vram s 0 b = vram g 0 b ∧ vram s 1 b = vram g 1 b) ∧
    ∀ c' j', 0 ≤ c' → 0 ≤ j' < 16 → c' < c ∨ c' = c ∧ j' < j → font_at (vram s) c' j').
  enough (wp (for_n 256 0 (λ i, for_n 16 0 (λ j,
    v ← lift (row ← aget font_data i; aget row j); vga_store (32 * i + j) v))) (λ _, J (0 + Z.of_nat 256) 0) g) as Hwp.
  { apply wp_run in Hwp as ([]&s&Hrun&Hs&Ho&Hv). exists (vram s). split; [by rewrite <- Hs|].
    split; [|done]. intros c j Hc Hj. apply Hv; lia. }
  apply (wp_for (λ c, J c 0)); [split; [apply with_vram|split; [done|lia]]|].
  intros c s Hc HJ. destruct (font_rows c) as (row&Hrow&Hlen); [lia|]. eapply wp_mono.
  - apply (wp_for (λ j, J c j)); [exact HJ|]. intros j s' Hj (Hs&Ho&Hv). rewrite Hs. apply wp_bind.
    destruct (proj2 (aget_is_Some row j)) as [v Hvj]; [lia|].
    eapply wp_lift; [by rewrite Hrow|]. apply wp_run.
    destruct (font_store_run (g <| vram := vram s' |>) (32 * c + j) v) as (m&Hm&Hb); [exact Hr|lia|].
    exists (), (g <| vram := m |>). split; [exact Hm|]. split; [done|]. cbn [vram setter] in *. split.
    + intros b. rewrite !Hb, !andb_false_r. apply Ho.
    + intros c' j' Hc' Hj' Hlt row' v' Hrow' Hv'. rewrite Hb. rewrite andb_true_r.
      destruct (Z.eqb_spec (32 * c' + j') (32 * c + j)).
      * assert (c' = c ∧ j' = j) as [-> ->] by lia. congruence.
      * by apply (Hv c' j' Hc' Hj' ltac:(lia) row').
  - intros [] s' (Hs&Ho&Hv). split; [done|]. split; [done|]. intros c' j' Hc' Hj' Hlt. apply Hv; lia.
Qed.

(** ** The whole change of mode *)
Lemma text_colours_of g c rgb :
  text_palette_set g = true → text_palette_RGB !! c = Some rgb → colour g (Z.of_nat c) = rgb.
Proof.
  intros Hp Hc. unfold text_palette_set in Hp. rewrite forallb_forall in Hp.
  assert (Hlt : (c < 32)%nat) by (apply lookup_lt_Some in Hc; exact Hc).
  assert (Hin : In c (List.seq 0 32)) by (apply list_elem_of_In, elem_of_seq; lia).
  rewrite (bool_decide_eq_true_1 _ (Hp c Hin)). by rewrite Hc.
Qed.

Lemma set_text_mode_run clear_scr g :
  ∃ g', set_text_mode_3 clear_scr g = Some ((), g') ∧ text_mode g' ∧
    ∀ k, 0 ≤ k < 16384 → text_cell g' k = if clear_scr then (0x20, 0x07) else text_cell g k.
Proof.
  pose proof (text_registers_checked g) as Hc. unfold set_text_mode_3, write_font_data.
  destruct (text_registers g) as [[[] g1]|] eqn:E1; [|done]. apply andb_true_iff in Hc as [Hclear Hc].
  destruct (font_window g1) as [[[] g2]|] eqn:E2; [|done]. apply andb_true_iff in Hc as [Hfont Hc].
  destruct ((text_window;; VGA_blank 0) g2) as [[[] g3]|] eqn:E3; [|done]. apply andb_true_iff in Hc as [Hregs Hpal].
  rewrite (bind_run _ _ _ _ _ E1).
  assert (Hm : ∃ m, (if clear_scr then clear_text else skip) g1 = Some ((), g1 <| vram := m |>) ∧
    ∀ k, 0 ≤ k < 16384 → (m 0 (2 * k), m 1 (2 * k)) = if clear_scr then (0x20, 0x07) else text_cell g k).
  { destruct clear_scr.
    - destruct (clear_text_run g1 Hclear) as (m&Hm&Hk). exists m. split; [done|]. intros k ?.
      by destruct (Hk k) as [-> ->].
    - exists (vram g1). split; [by rewrite <- with_vram|]. intros k _. by rewrite (keeps_same _ _ _ _ E1). }
  destruct Hm as (m&Hm&Hk). rewrite (bind_run _ _ _ _ _ Hm).
  rewrite !bind_assoc, (bind_run _ _ _ _ _ (keeps_run _ _ m _ _ E2)), bind_assoc.
  destruct (store_fonts_run (g2 <| vram := m |>)) as (v&Hv&Hf&Hcells); [exact Hfont|].
  rewrite (bind_run _ _ _ _ _ Hv). pose proof (keeps_run _ _ v _ _ E3) as E4.
  exists (g3 <| vram := v |>). split; [exact E4|]. split; [split|].
  - exact Hregs.
  - intros c rgb Hrgb. by apply (text_colours_of g3).
  - intros c j row b Hc Hj Hrow Hb. by apply (Hf c j Hc Hj row).
  - intros k Hk'. rewrite <- (Hk k Hk'). unfold text_cell. cbn [vram setter] in *.
    by destruct (Hcells (2 * k)) as [-> _], (Hcells (2 * k)) as [_ ->].
Qed.

Section fences.
Context {E : Type}.
Implicit Types s : @modex E.

Lemma fence_broken_run n a s :
  0 ≤ a → a + Z.of_nat n ≤ BUILD_BUF_SIZE + 2 * MEM_FENCE_WIDTH →
  ∃ b, fence_broken n a s = Some (b, s) ∧
    (b = false ↔ ∀ i, 0 ≤ i < Z.of_nat n → build s (a + i) = MEM_FENCE_MAGIC).
Proof.
  revert a. induction n as [|n IH]; intros a Ha Hl; [exists false; split; [done|split; [lia|done]]|].
  cbn [fence_broken]. unfold load. rewrite in_build_true by lia. rewrite bind_gets.
  destruct (Z.eqb_spec (build s a) MEM_FENCE_MAGIC) as [He|Hne]; cbn [negb].
  - destruct (IH (a + 1)) as (b&Hb&Hiff); [lia..|]. exists b. split; [done|]. rewrite Hiff. split; intros H i Hi.
    + destruct (decide (i = 0)) as [->|]; [by rewrite Z.add_0_r|].
      replace (a + i) with (a + 1 + (i - 1)) by lia. apply H. lia.
    + replace (a + 1 + i) with (a + (i + 1)) by lia. apply H. lia.
  - exists true. split; [done|]. split; [done|]. intros H. destruct Hne. specialize (H 0 ltac:(lia)).
    by rewrite Z.add_0_r in H.
Qed.

Lemma clear_mode_X_run s :
  ∃ g' out, clear_mode_X s = Some (out, s <| adapter := g' |>) ∧ text_mode g' ∧
    (∀ k, 0 ≤ k < 16384 → text_cell g' k = (0x20, 0x07)) ∧ (out = [] ↔ fences_hold s).
Proof.
  destruct (set_text_mode_run true (adapter s)) as (g'&Hg&Ht&Hc). unfold clear_mode_X.
  assert (Hon : on_vga (set_text_mode_3 true) s = Some ((), s <| adapter := g' |>)) by (unfold on_vga; by rewrite Hg).
  rewrite (bind_run _ _ _ _ _ Hon). set (s' := s <| adapter := g' |>).
  destruct (fence_broken_run (Z.to_nat MEM_FENCE_WIDTH) 0 s') as (low&Hl&Hlow); [done|done|].
  destruct (fence_broken_run (Z.to_nat MEM_FENCE_WIDTH) (BUILD_BUF_SIZE + MEM_FENCE_WIDTH) s') as (high&Hh&Hhigh); [done|done|].
  rewrite (bind_run _ _ _ _ _ Hl), (bind_run _ _ _ _ _ Hh).
  do 2 eexists. split; [reflexivity|]. split; [done|]. split; [done|].
  change (Z.of_nat (Z.to_nat MEM_FENCE_WIDTH)) with MEM_FENCE_WIDTH in *. split.
  - intros Ho. apply app_nil in Ho as [Ho1 Ho2]. destruct low, high; [done..|].
    split; intros i Hi; [apply (proj1 Hlow eq_refl i Hi)|apply (proj1 Hhigh eq_refl i Hi)].
  - intros [Hf1 Hf2]. by rewrite (proj2 Hlow Hf1), (proj2 Hhigh Hf2).
Qed.
End fences.

(** In mode X this is the store of [Vga]. *)
Lemma vga_store_mode_X g a v :
  mode_X g → 0 ≤ a < 0x10000 → vga_store a v g = vram_store a v g.
Proof.
  intros [_ _ Hr _] Ha. unfold registers_set in Hr. rewrite !andb_true_iff in Hr.
  destruct Hr as [[[[[[_ Hgr] Hseq] _] _] _] _]. rewrite forallb_forall in Hgr, Hseq.
  assert (Hg : ∀ e, e ∈ mode_X_graphics → gr g (e mod 256) = e / 256)
    by (intros e He; apply Z.eqb_eq, Hgr, list_elem_of_In, He).
  assert (Hs4 : seq g (0x0604 mod 256) = 0x0604 / 256)
    by (apply Z.eqb_eq, (Hseq 0x0604), list_elem_of_In; vm_compute; repeat constructor).
  assert (Hd : ∀ e, bool_decide (e ∈ mode_X_graphics) = true → gr g (e mod 256) = e / 256)
    by (intros e He; apply Hg; by apply bool_decide_eq_true_1 in He).
  assert (H1 : gr g 1 = 0) by exact (Hd 0x0001 eq_refl). assert (H3 : gr g 3 = 0) by exact (Hd 0x0003 eq_refl).
  assert (H5 : gr g 5 = 0x40) by exact (Hd 0x4005 eq_refl). assert (H6 : gr g 6 = 5) by exact (Hd 0x0506 eq_refl).
  assert (H8 : gr g 8 = 0xFF) by exact (Hd 0xFF08 eq_refl). change (seq g 4 = 6) in Hs4.
  unfold vga_store, plain_write, window_offset, plane_answers, in_plane.
  rewrite H1, H3, H5, H6, H8, Hs4. rewrite (proj2 (Z.leb_le 0 a)), (proj2 (Z.ltb_lt a VID_MEM_SIZE)) by (unfold VID_MEM_SIZE; lia).
  rewrite (proj2 (Z.ltb_lt a 0x10000)) by lia. cbn. unfold vram_store, modify. do 2 f_equal.
Qed.

(** C30. Leaving mode X puts the screen back: from any state of the adapter, and
    whatever the game has drawn, [clear_mode_X] ends with the registers and the 32
    colours of text mode 3, every glyph of the font in plane 2, and all 16384 cells
    of the text screens blank and grey on black; no store falls where the adapter
    would not take it.  It prints nothing exactly when the fences round the build
    buffer are whole. *)
Theorem clear_mode_X_text {E} (s : @modex E) :
  ∃ g' out, clear_mode_X s = Some (out, s <| adapter := g' |>) ∧ text_mode g' ∧
    (∀ k, 0 ≤ k < 16384 → text_cell g' k = (0x20, 0x07)) ∧ (out = [] ↔ fences_hold s).
Proof. apply clear_mode_X_run. Qed.

(** The program [tr] gets text mode back from whatever mode the adapter is in,
    with what was on the text screens still there; without the video memory it
    returns 3 and changes nothing. *)
Lemma tr_restores_text g maps :
  ∃ g', tr_main maps g = Some (if maps then 0 else 3, g') ∧
    if maps then text_mode g' ∧ ∀ k, 0 ≤ k < 16384 → text_cell g' k = text_cell g k else g' = g.
Proof.
  destruct maps; [|by exists g]. destruct (set_text_mode_run false g) as (g'&Hg&Ht&Hc).
  exists g'. split; [|by split]. unfold tr_main. cbn [negb]. by rewrite (bind_run _ _ _ _ _ Hg).
Qed.
