(* ===== verification/Picture.v ===== *)
(** * Picture: the display as a window on a logical picture

    What the operations of [modex.c] promise their caller: a window that moves over a
    picture of any size and remembers what has been drawn of it.  [picture]
    knows nothing of planes, build buffers or video memory; the operations of
    [Modex] implement it, and [show_screen] puts what is known of it on the
    monitor. *)
From S2P Require Import Prelude Adventure Vga Text Modex.

Section picture.
Context {E : Type}.
(** The pixels of the logical picture, and the lines that the call-backs draw
    of it *)
Context (img : E → Z → Z → Z) (rows columns : E → Z → Prop).

Record lines_ok (h v : @line_fn E) : Prop := {
  rows_ok e x y : rows e y → h e x y (replicate (Z.to_nat SCROLL_X_DIM) 0)
    = Some ((λ i, img e (x + i) y) <$> seqZ 0 SCROLL_X_DIM);
  columns_ok e x y : columns e x → v e x y (replicate (Z.to_nat SCROLL_Y_DIM) 0)
    = Some ((λ i, img e x (y + i)) <$> seqZ 0 SCROLL_Y_DIM);
}.

(** ** The specification *)
Record picture := mk_picture {
  win_x : Z; win_y : Z;
  known : Z → Z → option Z;              (* what has been drawn *)
  bar : option (Z → Z → bool);           (* the text in the status bar, once shown *)
}.
Definition inside (p : picture) (X Y : Z) : Prop :=
  win_x p ≤ X < win_x p + SCROLL_X_DIM ∧ win_y p ≤ Y < win_y p + SCROLL_Y_DIM.
#[export] Instance inside_dec p X Y : Decision (inside p X Y).
Proof. unfold inside. apply _. Defined.

Inductive view_op := ViewAt (x y : Z) | Row (e : E) (y : Z) | Column (e : E) (x : Z) | Show
  | Bar (str : string) (position : Z).

Definition picture_step (op : view_op) (p : picture) : picture :=
  match op with
  | ViewAt x y => mk_picture x y (λ X Y, if decide (inside p X Y) then known p X Y else None) (bar p)
  | Row e y =>
      if decide (0 ≤ y < SCROLL_Y_DIM)
      then mk_picture (win_x p) (win_y p) (λ X Y, if decide (Y = y + win_y p) then Some (img e X Y) else known p X Y)
             (bar p)
      else p
  | Column e x =>
      if decide (0 ≤ x < SCROLL_X_DIM)
      then mk_picture (win_x p) (win_y p) (λ X Y, if decide (X = x + win_x p) then Some (img e X Y) else known p X Y)
             (bar p)
      else p
  | Show => p
  | Bar str position =>
      if decide (position = 1) then p
      else mk_picture (win_x p) (win_y p) (known p) (Some (text_pixels str position))
  end.
(** The lines that are drawn lie in the picture, and the texts fit the bar. *)
Definition op_ok (op : view_op) (p : picture) : Prop :=
  match op with
  | Row e y => 0 ≤ y < SCROLL_Y_DIM → rows e (y + win_y p)
  | Column e x => 0 ≤ x < SCROLL_X_DIM → columns e (x + win_x p)
  | Bar str position => (String.length str ≤ 40)%nat ∧ ascii_text str ∧ 0 ≤ position ≤ 3
  | _ => True
  end.
Fixpoint ops_ok (ops : list view_op) (p : picture) : Prop :=
  match ops with
  | [] => True
  | op :: ops => op_ok op p ∧ ops_ok ops (picture_step op p)
  end.
Definition picture_steps (ops : list view_op) (p : picture) : picture :=
  foldl (λ p op, picture_step op p) p ops.

(** ** The implementation *)
Definition view_op_run (op : view_op) : M (@modex E) () :=
  match op with
  | ViewAt x y => set_view_window x y
  | Row e y => draw_horiz_line e y;; skip
  | Column e x => draw_vert_line e x;; skip
  | Show => show_screen
  | Bar str position => show_status_bar str position
  end.
Fixpoint view_ops_run (ops : list view_op) : M (@modex E) () :=
  match ops with
  | [] => skip
  | op :: ops => view_op_run op;; view_ops_run ops
  end.

Record implements_picture (s : @modex E) (p : picture) : Prop := {
  at_x : show_x s = win_x p;
  at_y : show_y s = win_y p;
  pixels_known X Y c : inside p X Y → known p X Y = Some c → pixel s X Y = c;
  bar_known P : bar p = Some P → bar_shows P (adapter s);
}.

Lemma in_window_inside s p X Y : implements_picture s p → in_window s X Y ↔ inside p X Y.
Proof. intros [Hx Hy _ _]. unfold in_window, inside. by rewrite Hx, Hy. Qed.

Implicit Types (s : @modex E) (h v : @line_fn E).
Lemma started_same h v s s' :
  started h v s → same_screen s s' → window_ok s' → started h v s'.
Proof.
  intros [] Hs Hok. destruct Hs as [Ht Hh Hv Hst Ha Hf] eqn:E0. split; [done|..].
  - unfold target_ok. by rewrite Ht.
  - by rewrite Hh.
  - by rewrite Hv.
  - by apply (same_screen_fences s).
  - by rewrite Ha.
Qed.

Lemma line_entry (f : Z → Z) n i : 0 ≤ i < n → aget (f <$> seqZ 0 n) i = Some (f i).
Proof. intros Hi. rewrite aget_nonneg, list_lookup_fmap, lookup_seqZ_lt by lia. cbn. f_equal. f_equal. lia. Qed.

Section run.
Context (h v : @line_fn E) (Hl : lines_ok h v).

Lemma drawn_picture P f s s' p p' :
  started h v s → implements_picture s p → drawn P f s s' →
  (∀ X Y, P X Y ∨ ¬ P X Y) →
  win_x p' = win_x p → win_y p' = win_y p → bar p' = bar p →
  (∀ X Y c, inside p X Y → P X Y → known p' X Y = Some c → c = f X Y) →
  (∀ X Y, inside p X Y → ¬ P X Y → known p' X Y = known p X Y) →
  started h v s' ∧ implements_picture s' p'.
Proof.
  intros Hst Hp (Hs & (Hx & Hy & _) & Hok & Hd) Hdec Hwx Hwy Hbar Hin Hout. split; [by eapply started_same|].
  pose proof Hp as [Hpx Hpy Hk Hb]. split; [congruence|congruence| |].
  2:{ intros Q HQ. rewrite (same_adapter _ _ Hs). apply Hb. congruence. }
  intros X Y c Hi Hc. assert (Hi' : inside p X Y) by (unfold inside in *; by rewrite <- Hwx, <- Hwy).
  destruct (Hd X Y) as [Hd1 Hd2]; [by apply (in_window_inside s p)|].
  destruct (Hdec X Y) as [HP|HP].
  - rewrite Hd1 by done. symmetry. by apply Hin.
  - rewrite Hd2 by done. apply Hk; [done|]. by rewrite <- Hout.
Qed.

Lemma view_op_refines op p s :
  started h v s → implements_picture s p → op_ok op p →
  ∃ s', view_op_run op s = Some ((), s') ∧ started h v s' ∧ implements_picture s' (picture_step op p) ∧
    (op = Show → ∀ X Y c, inside p X Y → known p X Y = Some c →
       screen (adapter s') (X - win_x p) (Y - win_y p) = c).
Proof.
  intros Hst Hp Hop. pose proof Hp as [Hx Hy Hk Hb]. pose proof Hst as [Hok Ht Hh Hv Hf Hd].
  destruct op as [x y|e y|e x| |str position]; cbn [view_op_run picture_step op_ok] in *.
  - destruct (set_view_window_run x y s Hok) as (s' & Hrun & Hx' & Hy' & Hok' & Hs & Hpx).
    exists s'. split; [exact Hrun|]. clear Hrun. split; [by eapply started_same|]. split; [|done].
    split; [done|done| |by rewrite (same_adapter _ _ Hs)]. cbn [known]. intros X Y c Hi Hc. case_decide as Hin; [|done].
    rewrite Hpx; [by apply Hk|by apply (in_window_inside s p)|].
    unfold in_window. rewrite Hx', Hy'. exact Hi.
  - case_decide as Hr.
    + destruct (draw_horiz_line_run e y h ((λ i, img e (show_x s + i) (y + show_y s)) <$> seqZ 0 SCROLL_X_DIM)
          (λ i, img e (show_x s + i) (y + show_y s)) s Hok Hr Hh)
        as (s' & Hrun & Hdr).
      { apply Hl. rewrite Hy. by apply Hop. }
      { intros i Hi. by apply (line_entry (λ i, img e (show_x s + i) (y + show_y s))). }
      exists s'. split; [by rewrite (bind_run _ _ _ _ _ Hrun)|]. clear Hrun.
      apply and_assoc. split; [|done]. apply (drawn_picture _ _ s s' p _ Hst Hp Hdr); [lia|done|done|done| |].
      * cbn [known]. intros X Y c _ -> . rewrite Hy, decide_True by done. intros [= <-]. f_equal. lia.
      * cbn [known]. intros X Y _ Hn. rewrite decide_False; [done|]. by rewrite <- Hy.
    + exists s. split; [|done]. unfold draw_horiz_line. by replace (_ || _) with true by lia.
  - case_decide as Hr.
    + destruct (draw_vert_line_run e x v ((λ i, img e (x + show_x s) (show_y s + i)) <$> seqZ 0 SCROLL_Y_DIM)
          (λ i, img e (x + show_x s) (show_y s + i)) s Hok Hr Hv)
        as (s' & Hrun & Hdr).
      { apply Hl. rewrite Hx. by apply Hop. }
      { intros i Hi. by apply (line_entry (λ i, img e (x + show_x s) (show_y s + i))). }
      exists s'. split; [by rewrite (bind_run _ _ _ _ _ Hrun)|]. clear Hrun.
      apply and_assoc. split; [|done]. apply (drawn_picture _ _ s s' p _ Hst Hp Hdr); [lia|done|done|done| |].
      * cbn [known]. intros X Y c _ -> . rewrite Hx, decide_True by done. intros [= <-]. f_equal. lia.
      * cbn [known]. intros X Y _ Hn. rewrite decide_False; [done|]. by rewrite <- Hx.
    + exists s. split; [|done]. unfold draw_vert_line. by replace (_ || _) with true by lia.
  - destruct (show_screen_run s Hok Ht Hd) as (s' & Hrun & Hs' & Ht' & _ & Hd' & Hscr & Hvr).
    exists s'. split; [exact Hrun|]. clear Hrun.
    assert (Hpix : ∀ X Y, pixel s' X Y = pixel s X Y) by (intros X Y; by rewrite Hs').
    split; [|split].
    + split; [rewrite Hs'; by destruct Hok|done|by rewrite Hs'|by rewrite Hs'|rewrite Hs'; by destruct Hf|done].
    + split; [by rewrite Hs'|by rewrite Hs'| |].
      * intros X Y c Hi Hc. rewrite Hpix. by apply Hk.
      * intros P HP x y Hx0 Hy0. rewrite <- (Hb P HP x y Hx0 Hy0). unfold screen.
        destruct Hd as [-> ->], Hd' as [-> ->]. replace (182 + y <? 182) with false by lia.
        apply Hvr; [Z.div_mod_to_equations; lia|]. destruct Ht' as [-> | ->]; Z.div_mod_to_equations; lia.
    + intros _ X Y c Hi Hc. rewrite Hscr by (unfold inside in Hi; lia).
      rewrite Hx, Hy. replace (win_x p + (X - win_x p)) with X by lia.
      replace (win_y p + (Y - win_y p)) with Y by lia. by apply Hk.
  - destruct Hop as (Hlen & Hasc & Hpos).
    destruct (show_status_bar_run str position s Hlen Hasc Hpos Hd)
      as (s' & Hrun & Hs' & _ & Hc & _ & H1 & Hn1).
    exists s'. split; [exact Hrun|]. clear Hrun. split; [|split; [|done]].
    + split; [rewrite Hs'; by destruct Hok|by rewrite Hs'|by rewrite Hs'|by rewrite Hs'|rewrite Hs'; by destruct Hf|].
      unfold displays, pitch, split_row, line_compare, scans_per_row in *. by rewrite Hc.
    + assert (Hpix : ∀ X Y, pixel s' X Y = pixel s X Y) by (intros X Y; by rewrite Hs').
      assert (show_x s' = show_x s ∧ show_y s' = show_y s) as [Hsx Hsy] by (by rewrite Hs').
      case_decide as H01.
      * split; [congruence|congruence| |rewrite (H1 H01); exact Hb]. intros X Y c Hi Hc'. rewrite Hpix. by apply Hk.
      * split; [exact (eq_trans Hsx Hx)|exact (eq_trans Hsy Hy)| |].
        -- intros X Y c Hi Hc'. rewrite Hpix. by apply Hk.
        -- cbn [bar]. intros P [= <-]. by apply Hn1.
Qed.

Lemma view_ops_refine ops p s :
  started h v s → implements_picture s p → ops_ok ops p →
  ∃ s', view_ops_run ops s = Some ((), s') ∧ started h v s' ∧ implements_picture s' (picture_steps ops p).
Proof.
  revert p s. induction ops as [|op ops IH]; intros p s Hst Hp Hops; cbn [view_ops_run picture_steps foldl].
  - by exists s.
  - destruct Hops as [Hop Hops]. destruct (view_op_refines op p s Hst Hp Hop) as (s1 & Hrun & Hst1 & Hp1 & _).
    rewrite (bind_run _ _ _ _ _ Hrun). cbn beta. clear Hrun. by apply IH.
Qed.
End run.

Definition start_picture : picture := mk_picture 0 0 (λ _ _, None) None.

(** C5. From the start of mode X on, any sequence of window motions, lines,
    texts and shows behaves as a window on the logical picture: it never leaves the build
    buffer (the fences stay as they are), a final [show_screen] puts every pixel
    of the window that has been drawn, and not left the window since, at its place
    on the monitor, and the last text shown is in the status bar. *)
Theorem view_refines_picture (h v : @line_fn E) (s : @modex E) ops :
  lines_ok h v → ops_ok ops start_picture →
  ∃ s1 s2 s3,
    set_mode_X true (Some h) (Some v) s = Some (0, s1) ∧
    view_ops_run ops s1 = Some ((), s2) ∧ show_screen s2 = Some ((), s3) ∧ fences_hold s3 ∧
    let p := picture_steps ops start_picture in
    (∀ X Y c, inside p X Y → known p X Y = Some c → screen (adapter s3) (X - win_x p) (Y - win_y p) = c) ∧
    (∀ P, bar p = Some P → bar_shows P (adapter s3)).
Proof.
  intros Hl Hops. destruct (set_mode_X_run h v s) as (s1 & Hrun1 & Hst1 & _ & Hx & Hy & _).
  destruct (view_ops_refine h v Hl ops start_picture s1 Hst1) as (s2 & Hrun2 & Hst2 & Hp2); [by split|done|].
  destruct (view_op_refines h v Hl Show _ s2 Hst2 Hp2 Logic.I) as (s3 & Hrun3 & Hst3 & Hp3 & Hshow).
  exists s1, s2, s3. split; [exact Hrun1|]. split; [exact Hrun2|]. split; [exact Hrun3|].
  split; [apply Hst3|]. split; [by apply Hshow|apply Hp3].
Qed.
End picture.

(** A diagonal pattern, with a column that comes into the window from the right *)
Definition stripes (_ : ()) (X Y : Z) : Z := (X + Y) mod 64.
Definition stripes_row (e : ()) (x y : Z) (_ : list Z) : option (list Z) :=
  Some ((λ i, stripes e (x + i) y) <$> seqZ 0 SCROLL_X_DIM).
Definition stripes_column (e : ()) (x y : Z) (_ : list Z) : option (list Z) :=
  Some ((λ i, stripes e x (y + i)) <$> seqZ 0 SCROLL_Y_DIM).
Definition dark_adapter : vga_t :=
  mk_vga 0 0 (λ _, 0) 0 (λ _, 0) 0 (λ _, 0) 0 (λ _, 0) false 0 (λ _, 0) (λ _ _, 0).
Definition idle_display {E} : @modex E := mk_modex (λ _, 0) 0 0 0 0 None None (λ _, 0) dark_adapter.

Lemma view_refines_picture_witness :
  ∃ s1 s2 s3, set_mode_X true (Some stripes_row) (Some stripes_column) idle_display = Some (0, s1) ∧
    view_ops_run [Row () 0; ViewAt 1 0; Column () 319] s1 = Some ((), s2) ∧
    show_screen s2 = Some ((), s3) ∧ fences_hold s3 ∧
    screen (adapter s3) 0 0 = 1 ∧ screen (adapter s3) 319 100 = 36.
Proof.
  destruct (view_refines_picture stripes (λ _ _, True) (λ _ _, True) stripes_row stripes_column idle_display
    [Row () 0; ViewAt 1 0; Column () 319]) as (s1 & s2 & s3 & H1 & H2 & H3 & Hf & Hp & _);
    [split; reflexivity|repeat split|].
  exists s1, s2, s3. do 4 (split; [assumption|]). split.
  - apply (Hp 1 0 1); [split; split; vm_compute; congruence|vm_compute; reflexivity].
  - apply (Hp 320 100 36); [split; split; vm_compute; congruence|vm_compute; reflexivity].
Defined.
