(* ===== verification/Gallery.v ===== *)
(** * Gallery: what the player sees while the world changes

    Two facts about every action of [World]: the photos, images, names and
    messages that are shown stay fit to be shown, and an action that does not
    ask for the room to be drawn again has not changed anything on the screen. *)
From S2P Require Import Prelude Keep Photo WorldData World Layout WorldInv Effects Quest Build Story Input Adventure Draw Text.

(** ** Relations between worlds *)

(** Objects have moved, and nothing else. *)
Definition rearranged : relation world := λ w w', moved w w' ∧ status_msg w' = status_msg w.
#[export] Instance rearranged_preorder : PreOrder rearranged.
Proof.
  split; [by split|]. intros w1 w2 w3 [? ?] [? ?]. split; [by etrans|congruence].
Qed.
(** What is on the screen is as before. *)
Definition picture_of (w : world) := (room w, object w, where_ w).
(** The same room is shown, with the same photo. *)
Definition scene_of (w : world) := (where_ w, r_view <$> room w).
Abbreviation quiet := (kept picture_of).
Abbreviation same_scene := (kept scene_of).

#[export] Instance eq_sub {S} (R : relation S) `{!Reflexive R} : subrelation eq R.
Proof. intros s s' <-. reflexivity. Qed.
#[export] Instance quiet_scene : subrelation quiet same_scene.
Proof. intros w w' H. injection H as Hr _ Hw. unfold kept, scene_of. by rewrite Hr, Hw. Qed.
#[export] Instance rearranged_scene : subrelation rearranged same_scene.
Proof.
  intros w w' [Hm _]. unfold kept, scene_of. f_equal; [apply Hm|].
  assert (Hv : ∀ l : list room_t, r_view <$> l = (λ fc, fc.1.1.1.2) <$> (face <$> l))
    by (intros l; by rewrite <- list_fmap_compose).
  by rewrite !Hv, (mv_room _ _ Hm).
Qed.

Lemma moves_sub {S A} (R R' : relation S) (m : M S A) : subrelation R R' → moves R m → moves R' m.
Proof. intros Hsub Hm s a s' H. by apply Hsub, (Hm _ a). Qed.

(** ** Operations that only read *)
Section reads.
Context (R : relation world) `{!PreOrder R}.

Lemma reads_get_room r : moves R (get_room r).
Proof. unfold get_room. keep. Qed.
Lemma reads_get_object o : moves R (get_object o).
Proof. unfold get_object. keep. Qed.
#[local] Hint Resolve reads_get_room reads_get_object : keep.
Lemma reads_loc_of o : moves R (loc_of o).
Proof. unfold loc_of. keep. Qed.
Lemma reads_flag f : moves R (player_flag_is_set f).
Proof. unfold player_flag_is_set. keep. Qed.
#[local] Hint Resolve reads_loc_of reads_flag : keep.
Lemma reads_carried o : moves R (carried o).
Proof. unfold carried. keep. Qed.
Lemma reads_at_hand o r : moves R (at_hand o r).
Proof. unfold at_hand. keep. Qed.
Lemma reads_find_from n : ∀ p arg, moves R (find_from n p arg).
Proof. induction n as [|n IH]; intros [o|] arg; cbn [find_from]; keep. Qed.
Lemma reads_conflict n : ∀ c x y, moves R (conflict_from n c x y).
Proof. induction n as [|n IH]; intros [o|] x y; cbn [conflict_from]; keep. Qed.
#[local] Hint Resolve reads_find_from : keep.
Lemma reads_find r arg : moves R (find_in_room r arg).
Proof. unfold find_in_room. keep. Qed.
Lemma reads_link l : moves R (read_link l).
Proof. destruct l; cbn [read_link]; keep. Qed.
Lemma reads_standing r : moves R (standing_room r).
Proof. unfold standing_room. keep. Qed.
End reads.
#[export] Hint Resolve reads_get_room reads_get_object reads_loc_of reads_flag reads_carried reads_at_hand
  reads_conflict reads_find reads_link reads_standing : keep.

(** ** Operations that move objects *)
Lemma set_room_inv r f w a w' :
  set_room r f w = Some (a, w') → ∃ rm, aget (room w) r = Some rm ∧ w' = with_room r f w.
Proof.
  intros H. destruct (aget (room w) r) as [rm|] eqn:E.
  - rewrite (set_room_run r f w rm E) in H. exists rm. split; [done|congruence].
  - unfold set_room in H. by rewrite bind_gets, (bind_lift_None (aget (room w) r)) in H.
Qed.
Lemma set_object_inv o f w a w' :
  set_object o f w = Some (a, w') → ∃ ob, aget (object w) o = Some ob ∧ w' = with_object o f w.
Proof.
  intros H. destruct (aget (object w) o) as [ob|] eqn:E.
  - rewrite (set_object_run o f w ob E) in H. exists ob. split; [done|congruence].
  - unfold set_object in H. by rewrite bind_gets, (bind_lift_None (aget (object w) o)) in H.
Qed.
Lemma rearranges_set_room r f : (∀ rm, face (f rm) = face rm) → moves rearranged (set_room r f).
Proof. intros Hf w a w' (rm & _ & ->)%set_room_inv. split; [by apply moved_with_room|done]. Qed.
Lemma rearranges_set_object o f : (∀ ob, make (f ob) = make ob) → moves rearranged (set_object o f).
Proof. intros Hf w a w' (ob & _ & ->)%set_object_inv. split; [by apply moved_with_object|done]. Qed.
Lemma rearranges_rand : moves rearranged rand.
Proof. intros w k w' [= <- <-]. by split. Qed.
#[export] Hint Extern 1 (moves rearranged (set_room _ _)) => by apply rearranges_set_room : keep.
#[export] Hint Extern 1 (moves rearranged (set_object _ _)) => by apply rearranges_set_object : keep.
#[export] Hint Resolve rearranges_rand : keep.

Lemma rearranges_write_link l p : moves rearranged (write_link l p).
Proof. destruct l; cbn [write_link]; keep. Qed.
#[export] Hint Resolve rearranges_write_link : keep.
Lemma rearranges_unlink n : ∀ l o, moves rearranged (unlink n l o).
Proof. induction n as [|n IH]; intros l o; cbn [unlink]; keep. Qed.
#[export] Hint Resolve rearranges_unlink : keep.
Lemma rearranges_remove o : moves rearranged (remove_object o).
Proof. unfold remove_object. keep. Qed.
#[export] Hint Resolve rearranges_remove : keep.
Lemma rearranges_insert_at o r x y : moves rearranged (insert_object_at o r x y).
Proof. unfold insert_object_at. keep. Qed.
#[export] Hint Resolve rearranges_insert_at : keep.
Lemma rearranges_insert o r : moves rearranged (insert_object o r).
Proof. unfold insert_object, rand_below. keep. Qed.
#[export] Hint Resolve rearranges_insert : keep.
Lemma rearranges_to_inventory o : moves rearranged (move_object_to_inventory o).
Proof.
  unfold move_object_to_inventory. generalize inventory_grid. intros cells.
  induction cells as [|[x y] cells IH]; cbn [try_cells]; keep.
Qed.

(** So for every coarser relation *)
Section rearranging.
Context (R : relation world) `{!subrelation rearranged R}.
Lemma moves_remove o : moves R (remove_object o).
Proof. apply (moves_sub rearranged R); [done|apply rearranges_remove]. Qed.
Lemma moves_insert_at o r x y : moves R (insert_object_at o r x y).
Proof. apply (moves_sub rearranged R); [done|apply rearranges_insert_at]. Qed.
Lemma moves_insert o r : moves R (insert_object o r).
Proof. apply (moves_sub rearranged R); [done|apply rearranges_insert]. Qed.
Lemma moves_to_inventory o : moves R (move_object_to_inventory o).
Proof. apply (moves_sub rearranged R); [done|apply rearranges_to_inventory]. Qed.
Lemma moves_rand : moves R rand.
Proof. apply (moves_sub rearranged R); [done|apply rearranges_rand]. Qed.
End rearranging.
#[export] Hint Resolve moves_remove moves_insert_at moves_insert moves_to_inventory moves_rand : keep.

(** ** Actions that do not ask for the room to be drawn *)
Section post.
Context {S : Type}.
(** Partial correctness: what holds if [m] ends *)
Definition post {A} (m : M S A) (Q : A → S → Prop) (s : S) : Prop :=
  ∀ a s', m s = Some (a, s') → Q a s'.
Lemma post_ret {A} (a : A) (Q : A → S → Prop) s : Q a s → post (mret a) Q s.
Proof. by intros HQ b s' [= <- <-]. Qed.
Lemma post_gets {A} (f : S → A) (Q : A → S → Prop) s : Q (f s) s → post (gets f) Q s.
Proof. by intros HQ b s' [= <- <-]. Qed.
Lemma post_bind {A B} (m : M S A) (f : A → M S B) Q s :
  post m (λ a, post (f a) Q) s → post (m ≫= f) Q s.
Proof. intros Hm b s' (a & s1 & H & H')%bind_inv. by eapply Hm. Qed.
(** A step of which only [moves R] is known *)
Lemma post_moves {A B} (R : relation S) (m : M S A) (f : A → M S B) (Q : B → S → Prop) s0 s :
  Transitive R → R s0 s → moves R m → (∀ a s', R s0 s' → post (f a) Q s') → post (m ≫= f) Q s.
Proof. intros HR Hs Hm HQ. apply post_bind. intros a s' H. apply HQ. etrans; [done|by apply (Hm _ a)]. Qed.
Lemma post_any {A} (m : M S A) (Q : A → S → Prop) s : (∀ a s', Q a s') → post m Q s.
Proof. intros HQ a s' _. apply HQ. Qed.
End post.

(** What the result of an action says about the screen *)
Definition calm (w : world) (res : tc_action_t) (w' : world) : Prop :=
  match res with
  | TC_CHANGE_ROOM => True
  | TC_REDRAW_ROOM => same_scene w w'
  | TC_ALLOW_EDIT | TC_DISCARD_TEXT => quiet w w'
  end.

Lemma quiet_status msg : moves quiet (show_status msg).
Proof. by apply keeps_modify. Qed.
Lemma quiet_rand : moves quiet rand.
Proof. by intros w k w' [= <- <-]. Qed.
Lemma quiet_set_flag f : moves quiet (player_set_flag f).
Proof. unfold player_set_flag. keep. by apply keeps_modify. Qed.
#[export] Hint Resolve quiet_status quiet_rand quiet_set_flag : keep.
Lemma scene_status msg : moves same_scene (show_status msg).
Proof. by apply keeps_modify. Qed.
Lemma scene_set_flag f : moves same_scene (player_set_flag f).
Proof. unfold player_set_flag. keep. by apply keeps_modify. Qed.
Lemma scene_set_enter r p : moves same_scene (set_room r (λ rm, rm <| r_enter := p |>)).
Proof.
  intros w a w' (rm & Hrm & ->)%set_room_inv. unfold kept, scene_of. f_equal. cbn.
  rewrite (list_fmap_alter r_view _ id) by (by apply Forall_forall). by apply list_alter_id.
Qed.
#[export] Hint Resolve scene_status scene_set_flag scene_set_enter : keep.

(** [calm] steps through an action with what is known of the worlds so far. *)
Ltac calm_step :=
  lazymatch goal with
  | |- post (mbind _ _) (calm _) _ =>
      let a := fresh "a" in let w := fresh "w" in let H := fresh "H" in
      first [ eapply (post_moves quiet); [exact _|eassumption|solve [keep]|intros a w H]
            | eapply (post_moves same_scene);
                [exact _|first [eassumption|apply quiet_scene; eassumption]|solve [keep]|intros a w H]
            | apply post_bind, post_any; intros a w ];
      cbn beta
  | |- post (mret ?a) (calm _) _ =>
      apply post_ret;
      first [exact Logic.I | eassumption | apply quiet_scene; eassumption]
  | |- post (say _ _) _ _ => unfold say
  | |- post car_trouble _ _ => unfold car_trouble
  | |- post (if ?b then _ else _) _ _ => destruct b
  | |- post (match ?x with _ => _ end) _ _ => destruct x
  end.
Ltac calm := repeat calm_step.

Section calm.
Context (w : world).
Implicit Types arg : string.
Let Hw : quiet w w := reflexivity _.

Lemma buy_calm arg : post (typed_cmd_buy arg) (calm w) w.
Proof. unfold typed_cmd_buy. calm. Qed.
Lemma charge_calm arg : post (typed_cmd_charge arg) (calm w) w.
Proof. unfold typed_cmd_charge. calm. Qed.
Lemma do_calm arg : post (typed_cmd_do arg) (calm w) w.
Proof. unfold typed_cmd_do. calm. Qed.
Lemma drink_calm arg : post (typed_cmd_drink arg) (calm w) w.
Proof. unfold typed_cmd_drink. calm. Qed.
Lemma drop_calm arg : post (typed_cmd_drop arg) (calm w) w.
Proof. unfold typed_cmd_drop. calm. Qed.
Lemma fix_calm arg : post (typed_cmd_fix arg) (calm w) w.
Proof. unfold typed_cmd_fix. calm. Qed.
Lemma flash_calm arg : post (typed_cmd_flash arg) (calm w) w.
Proof. unfold typed_cmd_flash. calm. Qed.
Lemma go_calm arg : post (typed_cmd_go arg) (calm w) w.
Proof. unfold typed_cmd_go. calm. Qed.
Lemma install_calm arg : post (typed_cmd_install arg) (calm w) w.
Proof. unfold typed_cmd_install. calm. Qed.
Lemma inventory_calm arg : post (typed_cmd_inventory arg) (calm w) w.
Proof. unfold typed_cmd_inventory. calm. Qed.
Lemma sigh_calm arg : post (typed_cmd_sigh arg) (calm w) w.
Proof. unfold typed_cmd_sigh. calm. Qed.
Lemma use_calm arg : post (typed_cmd_use arg) (calm w) w.
Proof. unfold typed_cmd_use. calm. Qed.
Lemma wear_calm arg : post (typed_cmd_wear arg) (calm w) w.
Proof. unfold typed_cmd_wear. calm. Qed.

(** A special [get] changes the screen only to unplug the battery. *)
Lemma special_calm w0 r arg :
  post (obj_special_get r arg) (λ o w', quiet w0 w' ∨ (o = Some O_BATT_EMPTY ∧ same_scene w0 w')) w0.
Proof.
  intros o w' H. unfold obj_special_get in H. apply bind_inv in H as (book & w1 & H1 & H).
  assert (Hq : quiet w0 w1).
  { refine (moves_run quiet _ _ _ _ _ H1). keep. }
  destruct book as [b|]; [injection H as <- <-; by left|].
  case_decide; [|injection H as <- <-; by left].
  apply bind_inv in H as (l & w2 & Hl & H).
  assert (Hq2 : quiet w0 w2) by (etrans; [exact Hq|refine (moves_run quiet _ _ _ _ _ Hl); keep]).
  case_decide; [|injection H as <- <-; by left].
  apply bind_inv in H as (u & w3 & Hu & [= <- <-]). right. split; [done|].
  etrans; [by apply quiet_scene|]. refine (moves_run same_scene _ _ _ _ _ Hu). keep.
Qed.
Lemma get_calm arg : post (typed_cmd_get arg) (calm w) w.
Proof.
  unfold typed_cmd_get. do 2 calm_step. apply post_bind. intros sp w2 Hget.
  assert (Hsp : quiet w w2 ∨ (sp = Some O_BATT_EMPTY ∧ same_scene w w2)).
  { destruct (special_calm _ _ _ _ _ Hget) as [Hq|[Hs Hq]]; [left; by etrans|right].
    split; [done|]. etrans; [by apply quiet_scene|done]. }
  destruct Hsp as [Hq|[-> Hs]]; [calm|]. apply post_bind, post_ret. cbn beta iota.
  change (O_TUX =? O_BATT_EMPTY) with false. cbn [andb]. calm.
Qed.

Lemma left_calm : post try_to_move_left (calm w) w.
Proof. unfold try_to_move_left, move_into, cant_go. calm. Qed.
Lemma right_calm : post try_to_move_right (calm w) w.
Proof. unfold try_to_move_right, move_into, cant_go. calm. Qed.
Lemma enter_calm : post try_to_enter (calm w) w.
Proof. unfold try_to_enter, move_into, swipe_icard. calm. Qed.

Lemma act_calm a : post (act a) (calm w) w.
Proof.
  destruct a as [| | |cmd arg]; cbn [act];
    [apply left_calm|apply enter_calm|apply right_calm|].
  destruct cmd; cbn [typed_cmd];
    [apply buy_calm|apply charge_calm|apply do_calm|apply drink_calm|apply drop_calm|apply fix_calm
    |apply flash_calm|apply get_calm|apply go_calm|apply install_calm|apply inventory_calm
    |apply sigh_calm|apply use_calm|apply wear_calm].
Qed.
End calm.

(** A move never asks for the room to be drawn again. *)
Definition is_move (a : action) : Prop := match a with Typed _ _ => False | _ => True end.
Lemma move_results a w : is_move a → post (act a) (λ res _, res ≠ TC_REDRAW_ROOM) w.
Proof.
  intros Ha. destruct a; [..|done]; cbn [act];
    cbv beta delta [try_to_move_left try_to_move_right try_to_enter move_into cant_go swipe_icard say];
    repeat lazymatch goal with
    | |- post (mbind _ _) _ _ => apply post_bind, post_any; intros ? ?; cbn beta
    | |- post (mret _) _ _ => by apply post_ret
    | |- post (if ?b then _ else _) _ _ => destruct b
    | |- post (match ?x with _ => _ end) _ _ => destruct x
    end.
Qed.

(** ** What is shown stays fit to be shown *)

(** A text for the status bar: seven-bit characters, at most 40 of them *)
Fixpoint seven_bit (s : string) : bool :=
  match s with
  | EmptyString => true
  | String c s => (Z.of_N (Ascii.N_of_ascii c) <? 128) && seven_bit s
  end.
Definition legible (s : string) : Prop := (String.length s ≤ 40)%nat ∧ seven_bit s = true.

Lemma seven_bit_ascii s : seven_bit s = true → ascii_text s.
Proof.
  intros Hs i Hi. unfold char_code. assert (Hn : (Z.to_nat i < String.length s)%nat) by lia. clear Hi.
  revert Hn. generalize (Z.to_nat i). induction s as [|c s IH]; intros n Hn; cbn in *; [lia|].
  apply andb_true_iff in Hs as [Hc%Z.ltb_lt Hs]. destruct n as [|n]; [|apply IH; [done|lia]].
  eexists. split; [done|]. cint_lia.
Qed.
Lemma seven_bit_cut n s : seven_bit s = true → seven_bit (String.substring 0 n s) = true.
Proof.
  revert s. induction n as [|n IH]; intros [|c s]; cbn; try done.
  intros [-> Hs]%andb_true_iff. by apply IH.
Qed.
Lemma length_cut n s : (String.length (String.substring 0 n s) ≤ n)%nat.
Proof. revert s. induction n as [|n IH]; intros [|c s]; cbn; try lia. specialize (IH s). lia. Qed.

(** A photo that fills the view window *)
Definition fits (p : photo_t) : Prop :=
  photo_ok p ∧ SCROLL_X_DIM ≤ photo_width p ≤ MAX_PHOTO_WIDTH ∧
  SCROLL_Y_DIM ≤ photo_height p ≤ MAX_PHOTO_HEIGHT.

Definition room_fit (rm : room_t) : Prop :=
  (∀ p, r_view rm = Some p → fits p) ∧ (∀ n, r_name rm = Some n → legible n).
Definition object_fit (ob : object_t) : Prop := ∀ im, o_img ob = Some im → image_ok im.
Definition swap_fit (p : option photo_t) : Prop := ∀ q, p = Some q → fits q.
Record gallery (w : world) : Prop := {
  gallery_rooms : Forall room_fit (room w);
  gallery_objects : Forall object_fit (object w);
  gallery_swaps : Forall swap_fit (swap_photo w);
  gallery_status : legible (status_msg w);
}.

Lemma Forall_same {A B} (f : A → B) (P : B → Prop) l l' :
  f <$> l' = f <$> l → Forall (λ x, P (f x)) l → Forall (λ x, P (f x)) l'.
Proof. intros Hf H. apply (proj2 (Forall_fmap f P l)) in H. rewrite <- Hf in H. by apply Forall_fmap. Qed.
#[export] Instance rearranged_gallery : subrelation rearranged (preserved gallery).
Proof.
  intros w w' [Hm Hst] [Hr Ho Hs Hl]. split.
  - exact (Forall_same face (λ fc, (∀ p, fc.1.1.1.2 = Some p → fits p) ∧ (∀ n, fc.1.1.1.1 = Some n → legible n))
      _ _ (mv_room _ _ Hm) Hr).
  - exact (Forall_same make (λ mk, ∀ im, mk.2 = Some im → image_ok im) _ _ (mv_object _ _ Hm) Ho).
  - by rewrite (mv_swap _ _ Hm).
  - by rewrite Hst.
Qed.

Lemma gallery_modify (f : world → world) :
  (∀ w, room (f w) = room w) → (∀ w, object (f w) = object w) → (∀ w, swap_photo (f w) = swap_photo w) →
  (∀ w, status_msg (f w) = status_msg w) → preserves gallery (modify f).
Proof.
  intros Hr Ho Hs Hm. apply (moves_modify _). intros w []. split; by rewrite ?Hr, ?Ho, ?Hs, ?Hm.
Qed.
Lemma gallery_show msg : seven_bit msg = true → preserves gallery (show_status msg).
Proof.
  intros Hm. apply (moves_modify _). intros w []. split; try done. cbn [status_msg setter].
  split; [apply length_cut|by apply seven_bit_cut].
Qed.
Lemma gallery_set_where p : preserves gallery (set_where p).
Proof. by apply gallery_modify. Qed.
Lemma gallery_set_flag f : preserves gallery (player_set_flag f).
Proof. unfold player_set_flag. keep. by apply gallery_modify. Qed.
Lemma gallery_set_room r f : (∀ rm, room_fit rm → room_fit (f rm)) → preserves gallery (set_room r f).
Proof.
  intros Hf w a w' (rm & Hrm & ->)%set_room_inv []. split; try done. cbn [room with_room setter].
  apply Forall_alter; [done|]. intros x _. apply Hf.
Qed.
Lemma gallery_set_object o f : (∀ ob, object_fit ob → object_fit (f ob)) → preserves gallery (set_object o f).
Proof.
  intros Hf w a w' (ob & Hob & ->)%set_object_inv []. split; try done. cbn [object with_object setter].
  apply Forall_alter; [done|]. intros x _. apply Hf.
Qed.
Lemma gallery_photo_swap r which : preserves gallery (do_photo_swap r which).
Proof.
  intros w a w' H Hg. unfold do_photo_swap in H.
  apply bind_inv in H as (r' & w1 & [-> ->]%lift_inv & H).
  apply bind_inv in H as (rm & w1 & H1 & H). apply bind_inv in H1 as (rs & w2 & [= <- <-] & [Hrm ->]%lift_inv).
  apply bind_inv in H as (sw & w2 & [= <- <-] & H). apply bind_inv in H as (other & w2 & [Ho ->]%lift_inv & H).
  apply bind_inv in H as ([] & w2 & H2 & H). apply bind_inv in H as (sw' & w3 & [Hsw ->]%lift_inv & [= <- <-]).
  assert (Hrf : room_fit rm).
  { pose proof (gallery_rooms _ Hg) as Hr. rewrite aget_nonneg in Hrm by (by eapply aget_Some_range).
    by eapply Forall_lookup_1 in Hr. }
  assert (Hof : swap_fit other).
  { pose proof (gallery_swaps _ Hg) as Hs. rewrite aget_nonneg in Ho by (by eapply aget_Some_range).
    by eapply Forall_lookup_1 in Hs. }
  assert (Hg2 : gallery w2).
  { refine (gallery_set_room r' _ _ _ _ _ H2 Hg). intros rm' [_ Hn]. split; [exact Hof|exact Hn]. }
  destruct Hg2 as [Hr2 Ho2 Hs2 Hst2]. split; try done. cbn [swap_photo setter].
  apply aset_Some in Hsw as [_ ->]. apply Forall_insert; [apply Hg|]. exact (proj1 Hrf).
Qed.
#[export] Hint Resolve gallery_set_where gallery_set_flag gallery_photo_swap : keep.
#[export] Hint Extern 1 (preserves gallery (show_status _)) => by apply gallery_show : keep.
#[export] Hint Extern 1 (preserves gallery (set_room _ _)) => by apply gallery_set_room : keep.
#[export] Hint Extern 1 (preserves gallery (set_object _ _)) => by apply gallery_set_object : keep.

Lemma advice_seven_bit k msg : aget advice k = Some msg → seven_bit msg = true.
Proof.
  intros H. rewrite aget_nonneg in H by (by eapply aget_Some_range).
  assert (Ha : Forall (λ m, seven_bit m = true) advice) by (repeat constructor).
  by eapply Forall_lookup_1 in Ha.
Qed.
Lemma gallery_special r arg : preserves gallery (obj_special_get r arg).
Proof. unfold obj_special_get. keep. Qed.
#[export] Hint Resolve gallery_special : keep.
Lemma gallery_enter : preserves gallery try_to_enter.
Proof.
  unfold try_to_enter, move_into, swipe_icard, say. keep. apply gallery_show. by eapply advice_seven_bit.
Qed.
Lemma gallery_typed cmd arg : preserves gallery (typed_cmd cmd arg).
Proof.
  destruct cmd; cbn [typed_cmd]; cbv delta [typed_cmd_buy typed_cmd_charge typed_cmd_do
    typed_cmd_drink typed_cmd_drop typed_cmd_fix typed_cmd_flash typed_cmd_get typed_cmd_go
    typed_cmd_install typed_cmd_inventory typed_cmd_sigh typed_cmd_use typed_cmd_wear car_trouble say]
    beta; keep.
Qed.
Lemma gallery_act a : preserves gallery (act a).
Proof.
  destruct a as [| | |cmd arg]; cbn [act].
  - unfold try_to_move_left, move_into, cant_go, say. keep.
  - apply gallery_enter.
  - unfold try_to_move_right, move_into, cant_go, say. keep.
  - apply gallery_typed.
Qed.

(** ** The pictures of the files *)
Lemma read_pixels_length fread store hdr file img :
  0 ≤ width hdr → 0 ≤ height hdr → read_pixels fread store hdr file = Some (Some img) →
  zlen img = width hdr * height hdr.
Proof.
  intros Hw Hh. rewrite read_pixels_spec by done.
  destruct (items fread _ file) as [[vs rest]|] eqn:E; [|done]. intros [= <-].
  pose proof (items_length _ _ _ _ _ E) as Hl.
  rewrite flip_rows_length by (rewrite length_fmap; lia). lia.
Qed.
Lemma read_photo_ok h f p :
  host_ok h → read_photo h f = Some (Some p) →
  photo_ok p ∧ photo_width p ≤ MAX_PHOTO_WIDTH ∧ photo_height p ≤ MAX_PHOTO_HEIGHT.
Proof.
  intros Hh. unfold read_photo. destruct (fopen h f) as [file|] eqn:Ef; [|done].
  destruct (negb _); [done|]. destruct (fread_header file) as [[[w ht] body]|] eqn:E; [|done].
  destruct (fread_header_u16 file w ht body) as (Hw & Hht & _); [by eapply Hh|done|].
  destruct (_ || _) eqn:Eb; [done|]. cbn [width height] in Eb.
  destruct (read_pixels _ _ _ _) as [[img|]|] eqn:Er; [|done..]. intros [= <-].
  apply read_pixels_length in Er; [|cbn; lia..]. unfold photo_ok, photo_width, photo_height. cbn in *.
  lia.
Qed.
Lemma read_image_ok h f im : host_ok h → read_obj_image h f = Some (Some im) → image_ok im.
Proof.
  intros Hh. unfold read_obj_image. destruct (fopen h f) as [file|] eqn:Ef; [|done].
  destruct (negb _); [done|]. destruct (fread_header file) as [[[w ht] body]|] eqn:E; [|done].
  destruct (fread_header_u16 file w ht body) as (Hw & Hht & _); [by eapply Hh|done|].
  destruct (_ || _); [done|].
  destruct (read_pixels _ _ _ _) as [[img|]|] eqn:Er; [|done..]. intros [= <-].
  apply read_pixels_length in Er; [|cbn; lia..]. unfold image_ok, image_width, image_height. cbn in *.
  lia.
Qed.

(** The photos of the tables fill the window, as those of [mp2/images] do. *)
Definition photos_fill (h : host) : Prop := ∀ f p,
  f ∈ (rd_filename <$> room_data) ++ (sd_filename <$> swap_data) → read_photo h f = Some (Some p) →
  SCROLL_X_DIM ≤ photo_width p ∧ SCROLL_Y_DIM ≤ photo_height p.

Section build.
Context (h : host) (Hh : host_ok h) (Hfill : photos_fill h).

Lemma photo_fits f p :
  f ∈ (rd_filename <$> room_data) ++ (sd_filename <$> swap_data) → read_photo h f = Some (Some p) → fits p.
Proof.
  intros Hf Hp. destruct (read_photo_ok h f p Hh Hp) as (Hok & Hw & Hht).
  destruct (Hfill f p Hf Hp). by repeat split; try apply Hok.
Qed.
Lemma gallery_all_ok {A} (f : A → W bool) (l : list A) :
  Forall (λ x, preserves gallery (f x)) l → preserves gallery (all_ok f l).
Proof. induction 1 as [|x l Hx Hl IH]; cbn [all_ok]; keep. Qed.

Lemma names_legible d : d ∈ room_data → legible (rd_name d).
Proof.
  intros Hd%list_elem_of_In.
  assert (Ha : forallb (λ d, (String.length (rd_name d) <=? 40)%nat && seven_bit (rd_name d)) room_data = true)
    by (vm_compute; reflexivity).
  rewrite forallb_forall in Ha. by destruct (andb_prop _ _ (Ha d Hd)) as [?%Nat.leb_le ?].
Qed.
Lemma gallery_build_room d : d ∈ room_data → preserves gallery (build_room h d).
Proof.
  intros Hd. pose proof (names_legible d Hd) as Hn.
  unfold build_room. keep.
  - apply gallery_set_room. intros rm [Hv _]. split; [exact Hv|]. by intros n [= <-].
  - apply gallery_set_room. intros rm [_ Hnm]. split; [|exact Hnm].
    cbn. intros q ->. apply (photo_fits (rd_filename d)); [|done]. apply elem_of_app. left.
    by apply list_elem_of_fmap_2.
Qed.
Lemma gallery_build_object d : preserves gallery (build_object h d).
Proof.
  unfold build_object. keep.
  apply gallery_set_object. intros ob _ im. cbn. intros ->. by eapply read_image_ok.
Qed.
Lemma gallery_build_swap d : d ∈ swap_data → preserves gallery (build_swap h d).
Proof.
  intros Hd w b w' H Hg. unfold build_swap in H. destruct (_ || _); [by injection H as <- <-|].
  apply bind_inv in H as (sw & w1 & [= <- <-] & H). apply bind_inv in H as (old & w1 & [_ ->]%lift_inv & H).
  destruct old; [by injection H as <- <-|].
  apply bind_inv in H as (p & w1 & [Hp ->]%lift_inv & H).
  apply bind_inv in H as (sw' & w1 & [Hsw ->]%lift_inv & [= <- <-]).
  apply aset_Some in Hsw as [_ ->]. destruct Hg. split; try done. cbn [swap_photo setter].
  apply Forall_insert; [done|]. intros q ->. apply (photo_fits (sd_filename d)); [|done].
  apply elem_of_app. right. by apply list_elem_of_fmap_2.
Qed.

Lemma gallery_build : preserves gallery (build_world h).
Proof.
  unfold build_world. keep.
  - by apply gallery_modify.
  - apply (moves_modify _). intros w []. split; try done. by apply Forall_replicate.
  - apply gallery_all_ok, Forall_forall. intros d Hd. by apply gallery_build_room.
  - apply (moves_modify _). intros w []. split; try done. by apply Forall_replicate.
  - apply gallery_all_ok, Forall_forall. intros d _. apply gallery_build_object.
  - apply (moves_modify _). intros w []. split; try done. by apply Forall_replicate.
  - apply gallery_all_ok, Forall_forall. intros d Hd. by apply gallery_build_swap.
Qed.
End build.

(** A host where every photo is a black picture of the size of the window, and
    every image a black dot *)
Definition photo_files : list string := (rd_filename <$> room_data) ++ (sd_filename <$> swap_data).
Definition black_photo : list Z := [64; 1; 182; 0] ++ replicate (Z.to_nat (2 * (320 * 182))) 0.
Definition black_host : host :=
  mk_host (λ f, Some (if decide (f ∈ photo_files) then black_photo else [1; 0; 1; 0; 0])) (λ _, true).

Lemma black_photo_read f :
  f ∈ photo_files → ∃ img, read_photo black_host f = Some (Some (mk_photo (mk_photo_header 320 182) img)).
Proof.
  intros Hf. unfold read_photo. cbn [black_host fopen malloc negb]. rewrite decide_True by done.
  change (fread_header black_photo) with (Some (mk_photo_header 320 182, replicate (Z.to_nat (2 * (320 * 182))) 0)).
  cbn [width height orb negb]. change ((MAX_PHOTO_WIDTH <? 320) || (MAX_PHOTO_HEIGHT <? 182) || false) with false.
  rewrite read_pixels_spec by (cbn; lia). cbn [width height].
  rewrite items16, decide_True by (rewrite length_replicate; lia). cbn [option_map]. by eexists.
Qed.
#[local] Opaque black_photo.
Lemma black_readable : world_readable black_host = true.
Proof.
  assert (Hp : ∀ f, f ∈ photo_files → readable_photo black_host f = true).
  { intros f Hf. unfold readable_photo. by destruct (black_photo_read f Hf) as [img ->]. }
  unfold world_readable. apply andb_true_iff. split; [apply andb_true_iff; split|]; apply forallb_forall.
  - intros d Hd. apply Hp, elem_of_app. left. by apply list_elem_of_fmap_2, list_elem_of_In.
  - intros d Hd. assert (Hall : forallb (λ d, bool_decide (od_filename d ∉ photo_files)) obj_data = true)
      by (vm_compute; reflexivity).
    rewrite forallb_forall in Hall. specialize (Hall d Hd). apply bool_decide_eq_true in Hall.
    unfold readable_image, read_obj_image. cbn [black_host fopen malloc negb].
    by rewrite decide_False.
  - intros d Hd. apply Hp, elem_of_app. right. by apply list_elem_of_fmap_2, list_elem_of_In.
Qed.
#[local] Transparent black_photo.
Lemma black_ok : host_ok black_host ∧ photos_fill black_host.
Proof.
  split.
  - intros f file [= <-]. case_decide; [|by repeat constructor].
    unfold black_photo. apply Forall_app. split; [by repeat constructor|]. by apply Forall_replicate.
  - intros f p Hf Hp. destruct (black_photo_read f Hf) as [img H]. rewrite H in Hp. injection Hp as <-.
    unfold photo_width, photo_height, SCROLL_X_DIM, SCROLL_Y_DIM. cbn. lia.
Qed.

(** C39. Every action of the player keeps the pictures and texts of the game fit to
    be shown (pixel arrays of the size of their headers, photos at least as large as the
    window, names and messages of at most 40 seven-bit characters), and one
    that does not report a new room leaves the player in the same room with the
    same photo, and leaves the screen as it is unless it asks for it to be drawn. *)
Theorem act_keeps_screen a w r :
  world_ok w → gallery w → where_ w = Some r →
  ∃ res w', act a w = Some (res, w') ∧ gallery w' ∧
    (res ≠ TC_CHANGE_ROOM → where_ w' = Some r ∧ r_view <$> room w' = r_view <$> room w) ∧
    (res = TC_ALLOW_EDIT ∨ res = TC_DISCARD_TEXT → room w' = room w ∧ object w' = object w).
Proof.
  intros Hok Hg Hr. destruct (proj1 (wp_run _ _ _) (act_follows w a r Hok Hr)) as (res & w' & Hrun & _).
  exists res, w'. split; [exact Hrun|]. split; [by apply (gallery_act a _ _ _ Hrun)|].
  pose proof (act_calm w a _ _ Hrun) as Hc. clear Hrun. destruct res; cbn [calm] in Hc.
  1,2: injection Hc as -> -> ->; done.
  - injection Hc as -> ->. split; [done|by intros [|]].
  - split; [done|by intros [|]].
Qed.

Lemma black_world : ∃ w, world_ok w ∧ gallery w ∧ where_ w = Some start_in_room.
Proof.
  destruct black_ok as [Hok Hfill].
  assert (Hr : ∀ k, 0 ≤ rng blank_world k) by (intros k; apply Z.le_refl).
  destruct (proj1 (wp_run _ _ _) (build_world_wp black_host blank_world Hok Hr eq_refl)) as (b & w & Hrun & -> & Hb).
  destruct (Hb black_readable) as (Hw & Hg & _).
  exists (w <| where_ := Some start_in_room |>). split; [apply (start_honest w Hw Hg)|]. split; [|done].
  assert (Hgal : gallery w).
  { apply (gallery_build black_host Hok Hfill _ _ _ Hrun). split; try constructor; cbn; [lia|done]. }
  clear Hrun. destruct Hgal. split; assumption.
Qed.
Lemma act_keeps_screen_witness :
  ∃ w, world_ok w ∧ gallery w ∧ where_ w = Some start_in_room ∧
    ∃ res w', act (Typed TC_INVENTORY "") w = Some (res, w') ∧ gallery w' ∧
      (res = TC_ALLOW_EDIT ∨ res = TC_DISCARD_TEXT → room w' = room w ∧ object w' = object w).
Proof.
  destruct black_world as (w & Hok & Hg & Hr). exists w. do 3 (split; [assumption|]).
  destruct (act_keeps_screen (Typed TC_INVENTORY "") w start_in_room Hok Hg Hr) as (res & w' & Hrun & Hg' & _ & Hs).
  exists res, w'. split; [exact Hrun|]. split; [exact Hg'|exact Hs].
Defined.
