(* ===== verification/Console.v ===== *)
(** * Console: the whole adventure, game and display together

    The rounds of [game_loop] with the display attached: what the game asks for
    ([request]s) is served by the operations of [Modex], whose call-backs draw the
    lines of the room from the world as it is then ([Draw]).  [main] puts the
    parts together in the order of [adventure.c]. *)
From S2P Require Import Prelude Keep Photo WorldData World Layout WorldInv Effects Quest Build Story LibString Input Adventure Draw Vga Text Modex Picture Gallery.

(** ** The program's state *)

(** What a call-back sees: the world, and the room of the last [prep_room] *)
Abbreviation view_env := (world * option Z)%type.
Record console := mk_console {
  con_game : adventure;
  con_room : option Z;                (* cur_room of photo.c *)
  con_view : @modex view_env;
}.
#[export] Instance console_settable : Settable console := λ c,
  mk_console (con_game c) (con_room c) (con_view c).
Abbreviation ConsoleM := (M console).

(** The two functions that [main] gives to [set_mode_X] *)
Definition fill_horiz_fn : @line_fn view_env := λ e x y buf,
  cur ← e.2; fst <$> fill_horiz_buffer cur x y buf e.1.
Definition fill_vert_fn : @line_fn view_env := λ e x y buf,
  cur ← e.2; fst <$> fill_vert_buffer cur x y buf e.1.

Definition on_view {B} (m : M (@modex view_env) B) : ConsoleM B := λ c,
  match m (con_view c) with
  | Some (b, v) => Some (b, c <| con_view := v |>)
  | None => None
  end.

Definition prep_room (r : option Z) : ConsoleM () := modify (λ c, c <| con_room := r |>).

(** The call that a request stands for *)
Definition serve (w : world) (r : request) : ConsoleM () :=
  match r with
  | SetView x y => on_view (set_view_window x y)
  | Horiz i => cur ← gets con_room; on_view (draw_horiz_line (w, cur) i);; skip
  | Vert i => cur ← gets con_room; on_view (draw_vert_line (w, cur) i);; skip
  | StatusBar s position => on_view (show_status_bar s position)
  | PrepRoom r => prep_room r
  | ShowScreen => on_view show_screen
  end.
Fixpoint serve_all (w : world) (rs : list request) : ConsoleM () :=
  match rs with
  | [] => skip
  | r :: rs => serve w r;; serve_all w rs
  end.

(** A step of the game with its requests.  They are served with the world as the
    step leaves it: the steps below make no request before their last change of
    the rooms and objects. *)
Definition on_game {B} (m : AdvM B) : ConsoleM B := λ c,
  match m ((con_game c) <| requests := [] |>) with
  | Some (b, a) => (serve_all (adv_world a) (requests a);; mret b) (c <| con_game := a |>)
  | None => None
  end.

(** ** The rounds

    Each round comes with what happened since the last: whether the status
    thread has timed out, and the bytes typed.  The run records the console as it
    is after each [show_screen]. *)
Definition expire : AdvM () :=
  on_world (modify (λ w, w <| status_msg := (status_step StTiming TimedOut (status_msg w)).2 |>)).

Fixpoint session (enter_room : bool) (rounds : list (bool * list Z)) :
    ConsoleM (option game_condition_t * list console) :=
  match rounds with
  | [] => mret (None, [])
  | (timeout, stdin) :: rounds =>
      (if timeout then on_game expire else skip);;
      on_game (refresh enter_room);;
      shown ← gets id;
      '(outcome, enter, _) ← on_game (react stdin);
      match (outcome : option game_condition_t) with
      | Some o => mret (Some o, [shown])
      | None =>
          '(outcome, frames) ← session enter rounds;
          mret (outcome, shown :: frames)
      end
  end.

(** ** [main], up to the end of [game_loop]

    [Shutdown.adventure_main] has the whole of it, with the cleanups and the end.
    What the host answers to the calls that can fail: [pthread_create], the maps
    and ports of [set_mode_X], [init_input] *)
Record services := mk_services { sv_thread : bool; sv_maps : bool; sv_input : bool }.
Inductive played := Panic (msg : string) | Played (outcome : option game_condition_t) (frames : list console).

Definition main (h : host) (sv : services) (rounds : list (bool * list Z)) : ConsoleM played :=
  built ← on_game (on_world (build_world h));
  if negb built then mret (Panic "can't build world") else
  on_game init_game;;
  if negb (sanity_check cmd_list =? 0) then mret (Panic "failed sanity checks") else
  if negb (sv_thread sv) then mret (Panic "failed to create status thread") else
  ret ← on_view (set_mode_X (sv_maps sv) (Some fill_horiz_fn) (Some fill_vert_fn));
  if negb (ret =? 0) then mret (Panic "cannot initialize mode X") else
  if negb (sv_input sv) then mret (Panic "cannot initialize input") else
  '(outcome, frames) ← session true rounds;
  mret (Played outcome frames).

(** ** Serving requests *)
Lemma on_view_run {B} (m : M (@modex view_env) B) b v c :
  m (con_view c) = Some (b, v) → on_view m c = Some (b, c <| con_view := v |>).
Proof. unfold on_view. by intros ->. Qed.
Lemma serve_app w rs1 rs2 c :
  serve_all w (rs1 ++ rs2) c = (serve_all w rs1;; serve_all w rs2) c.
Proof.
  revert c. induction rs1 as [|r rs1 IH]; intros c; [done|].
  cbn [app serve_all]. rewrite bind_assoc. apply bind_cong. intros [] c' _. apply IH.
Qed.
Lemma on_game_run {B} (m : AdvM B) b a c u c' :
  m ((con_game c) <| requests := [] |>) = Some (b, a) →
  serve_all (adv_world a) (requests a) (c <| con_game := a |>) = Some (u, c') →
  on_game m c = Some (b, c').
Proof. intros Hm Hs. unfold on_game. rewrite Hm. by rewrite (bind_run _ _ _ _ _ Hs). Qed.

(** The operation of the window that a request asks for *)
Definition op_of (e : view_env) (r : request) : option view_op :=
  match r with
  | SetView x y => Some (ViewAt x y)
  | Horiz i => Some (Row e i)
  | Vert i => Some (Column e i)
  | StatusBar s position => Some (Bar s position)
  | ShowScreen => Some Show
  | PrepRoom _ => None
  end.

Section serving.
Context (w : world) (r : Z) (p : photo_t) (obs : list (object_t * image_t)).
Context (L : Z → list Z) (Hs : seen w L r p obs).

(** The logical picture, in the room that is prepared *)
Definition room_image (_ : view_env) : Z → Z → Z := map_pixel p obs.
Definition row_ok (e : view_env) (y : Z) : Prop := e = (w, Some r) ∧ 0 ≤ y < photo_height p.
Definition column_ok (e : view_env) (x : Z) : Prop := e = (w, Some r) ∧ 0 ≤ x < photo_width p.

Lemma room_lines : lines_ok room_image row_ok column_ok fill_horiz_fn fill_vert_fn.
Proof.
  split; intros e x y [-> Hin]; unfold fill_horiz_fn, fill_vert_fn; cbn [fst snd mbind option_bind].
  - by rewrite (fill_horiz_run w L r p obs Hs) by (done || by rewrite length_replicate).
  - by rewrite (fill_vert_run w L r p obs Hs) by (done || by rewrite length_replicate).
Qed.

(** Requests that are operations of the window are served as such. *)
Abbreviation here := (w, Some r).
Abbreviation after rs pic := (picture_steps room_image (omap (op_of here) rs) pic).
Abbreviation allowed rs pic := (ops_ok room_image row_ok column_ok (omap (op_of here) rs) pic).
Lemma serve_ops rs pic c :
  Forall (λ rq, is_Some (op_of here rq)) rs → con_room c = Some r →
  started fill_horiz_fn fill_vert_fn (con_view c) → implements_picture (con_view c) pic →
  allowed rs pic →
  ∃ v, serve_all w rs c = Some ((), c <| con_view := v |>) ∧
    started fill_horiz_fn fill_vert_fn v ∧ implements_picture v (after rs pic).
Proof.
  revert pic c. induction rs as [|rq rs IH]; intros pic c Hrs Hr Hst Hp Hok.
  - exists (con_view c). by destruct c.
  - apply Forall_cons in Hrs as [[op Eop] Hrs]. cbn [omap list_omap] in Hok |- *. rewrite Eop in Hok |- *.
    destruct Hok as [Hop Hok].
    destruct (view_op_refines _ _ _ _ _ room_lines op pic _ Hst Hp Hop) as (v & Hrun & Hst' & Hp' & _).
    destruct (IH (picture_step room_image op pic) (c <| con_view := v |>)) as (v' & Hrun' & H); [done..|].
    exists v'. split; [|exact H]. cbn [serve_all].
    assert (Hserve : serve w rq c = Some ((), c <| con_view := v |>)).
    { clear - Hrun Hr Eop. destruct rq as [x y|i|i|str m|rp|]; cbn [op_of] in Eop; try discriminate Eop;
        injection Eop as <-; cbn [serve view_op_run] in Hrun |- *.
      2,3: apply bind_inv in Hrun as (k & v1 & Hrun & Hv); injection Hv as <-; rewrite bind_gets, Hr;
        exact (bind_run _ _ _ _ _ (on_view_run _ _ _ _ Hrun)).
      all: exact (on_view_run _ _ _ _ Hrun). }
    rewrite (bind_run _ _ _ _ _ Hserve). exact Hrun'.
Qed.

(** ** Lines *)
Definition is_line_rq (rq : request) : Prop := match rq with Horiz _ | Vert _ => True | _ => False end.

(** Lines leave the window where it is, and a pixel that was known or lies on
    one of them is known afterwards. *)
Definition same_window (pic pic' : picture) : Prop :=
  win_x pic' = win_x pic ∧ win_y pic' = win_y pic ∧ bar pic' = bar pic.
Lemma line_picture rq pic :
  is_line_rq rq →
  ∃ op, op_of here rq = Some op ∧ same_window pic (picture_step room_image op pic) ∧
    ∀ X Y, inside pic X Y →
      known pic X Y = Some (map_pixel p obs X Y) ∨ rq = Horiz (Y - win_y pic) ∨ rq = Vert (X - win_x pic) →
      known (picture_step room_image op pic) X Y = Some (map_pixel p obs X Y).
Proof.
  intros Hrq. destruct rq as [x y|i|i|str m|rp|]; try done; eexists; (split; [done|]); cbn [picture_step];
    (case_decide as Hi; [split; [done|]|split; [done|]]); intros X Y [HX HY] Hk; cbn [known].
  - case_decide; [done|]. destruct Hk as [Hk|[[= ->]|[=]]]; [done|lia].
  - destruct Hk as [Hk|[[= ->]|[=]]]; [done|lia].
  - case_decide; [done|]. destruct Hk as [Hk|[[=]|[= ->]]]; [done|lia].
  - destruct Hk as [Hk|[[=]|[= ->]]]; [done|lia].
Qed.
Lemma lines_picture rs pic :
  Forall is_line_rq rs →
  Forall (λ rq, is_Some (op_of here rq)) rs ∧ same_window pic (after rs pic) ∧
  ∀ X Y, inside pic X Y →
    known pic X Y = Some (map_pixel p obs X Y) ∨ Horiz (Y - win_y pic) ∈ rs ∨ Vert (X - win_x pic) ∈ rs →
    known (after rs pic) X Y = Some (map_pixel p obs X Y).
Proof.
  intros Hrs. revert pic. induction Hrs as [|rq rs Hrq Hrs IH]; intros pic.
  - split; [done|]. split; [done|]. intros X Y _ [H|[H%not_elem_of_nil|H%not_elem_of_nil]]; done.
  - destruct (line_picture rq pic Hrq) as (op & Eop & (Hx & Hy & Hb) & Hk).
    destruct (IH (picture_step room_image op pic)) as (Hops & (Hx' & Hy' & Hb') & Hk').
    split; [constructor; [by eexists|done]|]. cbn [omap list_omap]. rewrite Eop.
    split; [unfold same_window in *; cbn [picture_steps foldl]; repeat split; by etrans|].
    intros X Y Hi HXY. apply Hk'; [unfold inside in *; by rewrite Hx, Hy|].
    rewrite Hx, Hy, !elem_of_cons in *. destruct HXY as [H|[[H|H]|[H|H]]]; [left; apply Hk; auto| | | |]; auto.
Qed.
Lemma lines_allowed rs pic :
  Forall is_line_rq rs → 0 ≤ win_x pic ≤ photo_width p - SCROLL_X_DIM →
  0 ≤ win_y pic ≤ photo_height p - SCROLL_Y_DIM → allowed rs pic.
Proof.
  intros Hrs. revert pic. induction Hrs as [|rq rs Hrq Hrs IH]; intros pic Hx Hy; [done|].
  destruct (line_picture rq pic Hrq) as (op & Eop & (Hx' & Hy' & _) & _). cbn [omap list_omap]. rewrite Eop.
  split; [|apply IH; by rewrite ?Hx', ?Hy'].
  destruct rq; try done; injection Eop as <-; cbn [op_ok]; intros Hi; (split; [done|]); lia.
Qed.

(** ** The status bar *)
Definition is_bar_rq (rq : request) : Prop :=
  match rq with StatusBar str m => legible str ∧ 0 ≤ m ≤ 3 | _ => False end.
Lemma bars_picture rs pic :
  Forall is_bar_rq rs →
  Forall (λ rq, is_Some (op_of here rq)) rs ∧ allowed rs pic ∧
  win_x (after rs pic) = win_x pic ∧ win_y (after rs pic) = win_y pic ∧ known (after rs pic) = known pic.
Proof.
  intros Hrs. revert pic. induction Hrs as [|rq rs Hrq Hrs IH]; intros pic; [by repeat split|].
  destruct rq as [| | |str m| |]; try done. destruct Hrq as [[Hlen Hsb] Hm]. cbn [omap list_omap op_of].
  destruct (IH (picture_step room_image (Bar str m) pic)) as (Hops & Hal & Hx & Hy & Hk).
  split; [constructor; [by eexists|done]|].
  split; [split; [by split; [|split; [by apply seven_bit_ascii|]]|exact Hal]|].
  cbn [picture_steps foldl]. unfold picture_steps in Hx, Hy, Hk. rewrite Hx, Hy, Hk. cbn [picture_step].
  by case_decide.
Qed.
Lemma bar_last rs str m pic :
  m ≠ 1 → bar (after (rs ++ [StatusBar str m]) pic) = Some (text_pixels str m).
Proof.
  intros Hm. rewrite omap_app. unfold picture_steps. rewrite foldl_app. cbn.
  by rewrite decide_False.
Qed.
End serving.

(** ** The invariant of the rounds *)
Record sound (a : adventure) : Prop := {
  sound_world : world_ok (adv_world a);
  sound_honest : honest (game_of (adv_world a));
  sound_gallery : gallery (adv_world a);
  sound_line : ∃ l, line_ok l (adv_input a);
  sound_speed : 0 < x_speed a ≤ MOTION_SPEED * 3 ∧ 0 < y_speed a ≤ MOTION_SPEED * 3;
}.

(** The player's room can be seen. *)
Lemma room_seen w r :
  world_ok w → gallery w → where_ w = Some r → ∃ p obs L, seen w L r p obs ∧ fits p.
Proof.
  intros Hok Hg Hw. pose proof (ok_where _ Hok r Hw) as Hr. rewrite <- (ok_rooms _ Hok) in Hr.
  pose proof Hr as [rm Hrm]%aget_is_Some. destruct (ok_room _ Hok r rm Hrm) as [_ [p Hp] _].
  destruct (ok_layout _ Hok) as [L HL].
  assert (Hfit : fits p).
  { pose proof (gallery_rooms _ Hg) as Hall. rewrite aget_nonneg in Hrm by lia.
    by eapply Forall_lookup_1 in Hall as [Hv _]; [apply Hv|]. }
  assert (Hobj : ∀ o, o ∈ L r → ∃ ob im, aget (object w) o = Some ob ∧ o_img ob = Some im ∧ image_ok im).
  { intros o Ho. pose proof (lay_object _ _ _ _ HL _ _ Ho) as Hrange. rewrite zlen_locs in Hrange.
    pose proof Hrange as [ob Hob]%aget_is_Some. destruct (ok_object _ Hok o ob Hob) as [_ [im Him]].
    exists ob, im. split; [done|]. split; [done|]. pose proof (gallery_objects _ Hg) as Hall.
    rewrite aget_nonneg in Hob by lia. eapply Forall_lookup_1 in Hall; [|exact Hob]. by apply Hall. }
  assert (∃ obs, contents w (L r) = Some obs ∧ Forall (λ ob, image_ok ob.2) obs) as (obs & Hobs & Hims).
  { revert Hobj. generalize (L r). clear. intros l Hl. induction l as [|o l IH]; [by exists []|].
    destruct (Hl o) as (ob & im & Hob & Him & Hok); [by left|].
    destruct IH as (obs & Hobs & Hims); [intros o' Ho'; apply Hl; by right|].
    exists ((ob, im) :: obs). unfold contents in *. cbn [mapM]. rewrite Hob. cbn [mbind option_bind].
    rewrite Him. cbn [mbind option_bind]. rewrite Hobs. split; [done|by constructor]. }
  exists p, obs, L. split; [|done]. split; try done.
  - by rewrite (ok_objects _ Hok).
  - by rewrite Hrm.
  - apply Hfit.
Qed.

Lemma room_row_name w r :
  world_ok w → gallery w → where_ w = Some r →
  ∃ rm name, aget (room w) r = Some rm ∧ r_name rm = Some name ∧ legible name.
Proof.
  intros Hok Hg Hw. pose proof (ok_where _ Hok r Hw) as Hr. rewrite <- (ok_rooms _ Hok) in Hr.
  pose proof Hr as [rm Hrm]%aget_is_Some. destruct (ok_room _ Hok r rm Hrm) as [[n Hn] _ _].
  exists rm, n. split; [done|]. split; [done|]. pose proof (gallery_rooms _ Hg) as Hall.
  rewrite aget_nonneg in Hrm by lia. eapply Forall_lookup_1 in Hall as [_ Hnames]; [|exact Hrm]. by apply Hnames.
Qed.

(** The window shows the player's room, all of it drawn. *)
Record room_drawn (c : console) (r : Z) (p : photo_t) (obs : list (object_t * image_t)) (L : Z → list Z)
    (pic : picture) : Prop := {
  rd_where : where_ (adv_world (con_game c)) = Some r;
  rd_seen : seen (adv_world (con_game c)) L r p obs;
  rd_view : view_ok p (con_game c);
  rd_room : con_room c = Some r;
  rd_picture : implements_picture (con_view c) pic;
  rd_x : win_x pic = map_x (con_game c);
  rd_y : win_y pic = map_y (con_game c);
  rd_known X Y : inside pic X Y → known pic X Y = Some (map_pixel p obs X Y);
}.
Record ready (enter_room : bool) (c : console) : Prop := {
  ready_sound : sound (con_game c);
  ready_where : is_Some (where_ (adv_world (con_game c)));
  ready_view : started fill_horiz_fn fill_vert_fn (con_view c);
  ready_drawn : enter_room = false → ∃ r p obs L pic, room_drawn c r p obs L pic;
}.

(** ** Bringing the screen up to date *)
Definition typed_text (a : adventure) : string := typed_string (typing (adv_input a)).
Definition room_text (w : world) : string :=
  default EmptyString (r ← where_ w; rm ← aget (room w) r; r_name rm).
(** The text that the status bar is left with, and its alignment *)
Definition bar_text (a : adventure) : string * Z :=
  if decide (status_msg (adv_world a) = EmptyString) then
    if decide (typed_text a = EmptyString) then (room_text (adv_world a), 3) else (typed_text a, 0)
  else (status_msg (adv_world a), 2).

Lemma typed_legible a l : line_ok l (adv_input a) → legible (typed_text a).
Proof.
  intros [(Hn & Hl & _ & rest & Ht) Hty]. unfold typed_text, typed_string. rewrite Ht, cstr_in_buffer by done.
  clear Hn Ht. unfold MAX_TYPED_LEN in Hl. split.
  - assert (String.length (String.string_of_list_ascii (char_of <$> l)) = length l) as ->; [|lia].
    clear. induction l as [|c l IH]; [done|]. cbn. by rewrite IH.
  - clear Hl. induction Hty as [|c l Hc Hty IH]; [done|]. cbn [fmap list_fmap String.string_of_list_ascii seven_bit].
    rewrite IH, andb_true_r. unfold char_of. apply typeable_valid in Hc as [Hr _].
    rewrite Ascii.N_ascii_embedding by lia. apply Z.ltb_lt. lia.
Qed.

Lemma look_run {B} (f : world → B) a : on_world (gets f) a = Some (f (adv_world a), a).
Proof. by destruct a. Qed.
Lemma where_run a r : where_ (adv_world a) = Some r → (on_world (gets where_) ≫= lift) a = Some (r, a).
Proof. intros Hr. rewrite (bind_run _ _ _ _ _ (look_run where_ a)), Hr. done. Qed.
Lemma name_run a r rm name :
  aget (room (adv_world a)) r = Some rm → r_name rm = Some name →
  (on_world (room_name r) ≫= lift) a = Some (name, a).
Proof.
  intros Hrm Hn. assert (H : on_world (room_name r) a = Some (Some name, a)).
  { unfold on_world, room_name. rewrite (bind_run _ _ _ _ _ (get_room_run _ _ _ Hrm)), Hn. by destruct a. }
  by rewrite (bind_run _ _ _ _ _ H).
Qed.
Lemma update_status_bar_run a r rm name :
  where_ (adv_world a) = Some r → aget (room (adv_world a)) r = Some rm → r_name rm = Some name →
  legible name → gallery (adv_world a) → (∃ l, line_ok l (adv_input a)) →
  ∃ rs, update_status_bar a = Some ((), a <| adv_typing := typed_text a |>
      <| requests := requests a ++ rs ++ [StatusBar (bar_text a).1 (bar_text a).2] |>) ∧
    Forall is_bar_rq (rs ++ [StatusBar (bar_text a).1 (bar_text a).2]) ∧ (bar_text a).2 ≠ 1.
Proof.
  intros Hr Hrm Hname Hl Hg [l Htyped%typed_legible]. pose proof (gallery_status _ Hg) as Hmsg.
  assert (Hspace : legible " ") by (split; [cbn; lia|done]).
  set (a1 := a <| adv_typing := typed_text a |>).
  assert (∃ rs, (if decide (adv_typing a = typed_text a) then skip else
       request_ (StatusBar " " 3);; modify (λ s, s <| adv_typing := typed_text a |>)) a =
     Some ((), a1 <| requests := requests a ++ rs |>) ∧ Forall is_bar_rq rs) as (rs1 & H1 & Hrs1).
  { case_decide as Ht.
    - exists []. split; [|done]. unfold a1. rewrite <- Ht, app_nil_r. by destruct a.
    - exists [StatusBar " " 3]. split; [done|]. constructor; [|done]. by split. }
  unfold update_status_bar. rewrite (bind_run _ (typing (adv_input a)) _ a a) by (by destruct a).
  rewrite bind_gets. fold (typed_text a). rewrite (bind_run _ _ _ _ _ H1).
  rewrite (bind_run _ _ _ _ _ (look_run status_msg _)).
  change (adv_world (a1 <| requests := requests a ++ rs1 |>)) with (adv_world a).
  assert (Hbar : bar_text a = if decide (status_msg (adv_world a) = EmptyString) then
      if decide (typed_text a = EmptyString) then (name, 3) else (typed_text a, 0)
    else (status_msg (adv_world a), 2)).
  { unfold bar_text, room_text. rewrite Hr. cbn [mbind option_bind]. rewrite Hrm. cbn [mbind option_bind].
    by rewrite Hname. }
  rewrite Hbar. clear Hbar. destruct (decide (status_msg (adv_world a) = EmptyString)) as [Hm|Hm].
  - rewrite bind_request.
    match goal with |- context [(_ ≫= _) ?s = _] =>
      rewrite (bind_run _ _ _ _ _ (where_run s r Hr)), (bind_run _ _ _ _ _ (name_run s r rm name Hrm Hname))
    end.
    rewrite bind_request. destruct (decide (typed_text a = EmptyString)) as [Ht|Ht]; cbn [fst snd].
    + exists (rs1 ++ [StatusBar " " 1]). split; [unfold skip; cbn; by rewrite <- !app_assoc|].
      rewrite <- app_assoc. split; [|done]. apply Forall_app. split; [done|]. repeat (constructor; [by split|]); constructor.
    + exists (rs1 ++ [StatusBar " " 1; StatusBar name 3]). split; [unfold request_, modify; cbn; by rewrite <- !app_assoc|].
      rewrite <- app_assoc. split; [|done]. apply Forall_app. split; [done|]. repeat (constructor; [by split|]); constructor.
  - exists rs1. cbn [fst snd]. split; [unfold request_, modify; cbn; by rewrite <- !app_assoc|]. split; [|done].
    apply Forall_app. split; [done|]. repeat (constructor; [by split|]); constructor.
Qed.

Lemma reset_typing_run a :
  (∃ l, line_ok l (adv_input a)) →
  ∃ i, (∀ s, adv_input s = adv_input a → on_input reset_typed_command s = Some ((), s <| adv_input := i |>)) ∧
    line_ok [] i.
Proof.
  intros [l [[_ [_ [Ht _]]] _]]. unfold MAX_TYPED_LEN in Ht.
  destruct (typing (adv_input a)) as [|x rest] eqn:Hx; [done|].
  exists ((adv_input a) <| typing := 0 :: rest |>). split.
  - intros s Hs. unfold on_input, reset_typed_command, store_typing. by rewrite Hs, bind_gets, Hx.
  - split; [|done]. split; [apply not_elem_of_nil|]. split; [done|]. split; [done|]. by exists rest.
Qed.
Lemma enter_new_room_run a r :
  where_ (adv_world a) = Some r → (∃ l, line_ok l (adv_input a)) →
  ∃ i, enter_new_room a = Some ((), a <| map_x := 0 |> <| map_y := 0 |> <| adv_input := i |>
      <| requests := requests a ++ SetView 0 0 :: PrepRoom (Some r) ::
                     (Horiz <$> seqZ 0 SCROLL_Y_DIM) ++ [StatusBar " " 1] |>) ∧ line_ok [] i.
Proof.
  intros Hr Hl. destruct (reset_typing_run a Hl) as (i & Hreset & Hi). exists i. split; [|exact Hi].
  unfold enter_new_room. rewrite bind_modify, bind_request.
  match goal with |- (_ ≫= _) ?s = _ => rewrite (bind_run _ _ _ _ _ (Hreset s eq_refl)) end.
  match goal with |- (_ ≫= _) ?s = _ => rewrite (bind_run _ _ _ _ _ (look_run where_ s)) end.
  rewrite bind_request. unfold redraw_room.
  match goal with |- (_ ≫= _) ?s = _ =>
    rewrite (bind_run _ _ _ _ _ (for_requests (Z.to_nat SCROLL_Y_DIM) 0 Horiz s)) end.
  unfold request_, modify. cbn -[seqZ]. rewrite Hr. by rewrite <- !app_assoc.
Qed.

Section refreshing.
Context (w : world) (r : Z) (p : photo_t) (obs : list (object_t * image_t)).
Context (L : Z → list Z) (Hs : seen w L r p obs) (Hfit : fits p).
Implicit Types (c : console) (pic : picture).

(** All of the window is drawn. *)
Definition complete pic : Prop :=
  ∀ X Y, inside pic X Y → known pic X Y = Some (map_pixel p obs X Y).

Lemma draw_entered c pic :
  started fill_horiz_fn fill_vert_fn (con_view c) → implements_picture (con_view c) pic →
  ∃ v pic', serve_all w (SetView 0 0 :: PrepRoom (Some r) :: (Horiz <$> seqZ 0 SCROLL_Y_DIM)) c =
      Some ((), c <| con_room := Some r |> <| con_view := v |>) ∧
    started fill_horiz_fn fill_vert_fn v ∧ implements_picture v pic' ∧
    win_x pic' = 0 ∧ win_y pic' = 0 ∧ complete pic'.
Proof.
  intros Hst Hp. pose proof (room_lines w r p obs L Hs) as Hl.
  destruct (view_op_refines _ _ _ _ _ Hl (ViewAt 0 0) pic _ Hst Hp Logic.I) as (v & Hrun & Hst' & Hp' & _).
  cbn [serve_all]. rewrite (bind_run _ _ _ _ _ (on_view_run _ _ _ _ Hrun)). clear Hrun.
  cbn [serve]. unfold prep_room. rewrite bind_modify. set (c1 := setter con_room _ _). set (pic1 := picture_step _ _ pic) in *.
  assert (Hlines : Forall is_line_rq (Horiz <$> seqZ 0 SCROLL_Y_DIM)).
  { apply Forall_fmap, Forall_forall. done. }
  destruct (lines_picture w r p obs _ pic1 Hlines) as (Hops & (Hx & Hy & _) & Hk).
  destruct (serve_ops w r p obs L Hs _ pic1 c1 Hops eq_refl Hst' Hp') as (v' & Hrun & Hst2 & Hp2).
  { destruct Hfit as (_ & Hw & Hh). apply lines_allowed; [done|cbn; lia..]. }
  eexists v', _. split; [exact Hrun|]. split; [done|]. split; [exact Hp2|].
  split; [by rewrite Hx|]. split; [by rewrite Hy|].
  intros X Y Hi. apply Hk; [unfold inside in *; by rewrite Hx, Hy in Hi|]. right. left.
  unfold inside in Hi. rewrite Hx, Hy in Hi. cbn in *. apply list_elem_of_fmap_2, elem_of_seqZ. lia.
Qed.

Lemma show_bars c pic rs str m :
  con_room c = Some r → started fill_horiz_fn fill_vert_fn (con_view c) →
  implements_picture (con_view c) pic → complete pic →
  Forall is_bar_rq (rs ++ [StatusBar str m]) → m ≠ 1 →
  ∃ v pic', serve_all w (rs ++ [StatusBar str m; ShowScreen]) c = Some ((), c <| con_view := v |>) ∧
    started fill_horiz_fn fill_vert_fn v ∧ implements_picture v pic' ∧
    win_x pic' = win_x pic ∧ win_y pic' = win_y pic ∧ complete pic' ∧
    bar pic' = Some (text_pixels str m) ∧
    ∀ X Y, inside pic X Y → screen (adapter v) (X - win_x pic) (Y - win_y pic) = map_pixel p obs X Y.
Proof.
  intros Hr Hst Hp Hc Hbars Hm. destruct (bars_picture w r p obs _ pic Hbars) as (Hops & Hal & Hx & Hy & Hk).
  destruct (serve_ops w r p obs L Hs _ pic c Hops Hr Hst Hp Hal) as (v & Hrun & Hst1 & Hp1).
  set (pic1 := picture_steps _ _ pic) in *.
  assert (Hc1 : complete pic1) by (intros X Y; unfold inside; rewrite Hk, Hx, Hy; apply Hc).
  destruct (view_op_refines _ _ _ _ _ (room_lines w r p obs L Hs) Show pic1 v Hst1 Hp1 Logic.I)
    as (v' & Hrun' & Hst2 & Hp2 & Hshow). cbn [picture_step] in Hp2.
  change (show_screen v = Some ((), v')) in Hrun'. exists v', pic1. split.
  { change [StatusBar str m; ShowScreen] with ([StatusBar str m] ++ [ShowScreen]).
    rewrite app_assoc, serve_app, (bind_run _ _ _ _ _ Hrun). cbn [serve_all serve].
    assert (Hv : con_view (c <| con_view := v |>) = v) by reflexivity. rewrite <- Hv in Hrun'.
    apply on_view_run in Hrun'. exact (bind_run _ _ _ _ _ Hrun'). }
  clear Hrun Hrun'. do 5 (split; [done|]). split; [by apply bar_last|].
  intros X Y Hi. rewrite <- Hx, <- Hy. assert (inside pic1 X Y) by (unfold inside in *; by rewrite Hx, Hy).
  apply Hshow; auto.
Qed.
End refreshing.

(** What the player sees: the room, at the window's place in its photo, and the
    status bar *)
Definition shows_room (c : console) : Prop :=
  let a := con_game c in
  ∃ r p obs L, where_ (adv_world a) = Some r ∧ seen (adv_world a) L r p obs ∧
    (0 ≤ map_x a ≤ photo_width p - SCROLL_X_DIM ∧ 0 ≤ map_y a ≤ photo_height p - SCROLL_Y_DIM) ∧
    (∀ x y, 0 ≤ x < SCROLL_X_DIM → 0 ≤ y < SCROLL_Y_DIM →
       screen (adapter (con_view c)) x y = map_pixel p obs (map_x a + x) (map_y a + y)) ∧
    bar_shows (text_pixels (bar_text a).1 (bar_text a).2) (adapter (con_view c)).

Lemma sound_typing a t : sound a → sound (a <| adv_typing := t |>).
Proof. by intros []. Qed.
Lemma sound_requests a rs : sound a → sound (a <| requests := rs |>).
Proof. by intros []. Qed.

Lemma bars_shown c r p obs L pic rs :
  let a := con_game c in
  sound a → started fill_horiz_fn fill_vert_fn (con_view c) → room_drawn c r p obs L pic →
  Forall is_bar_rq (rs ++ [StatusBar (bar_text a).1 (bar_text a).2]) → (bar_text a).2 ≠ 1 →
  ∃ c', serve_all (adv_world a) (rs ++ [StatusBar (bar_text a).1 (bar_text a).2; ShowScreen]) c = Some ((), c') ∧
    ready false c' ∧ shows_room c'.
Proof.
  intros a Hsound Hst [Hr Hs Hv Hroom Hp Hx Hy Hk] Hbars Hm.
  destruct (show_bars _ r p obs L Hs c pic rs _ _ Hroom Hst Hp Hk Hbars Hm)
    as (v & pic' & Hrun & Hst' & Hp' & Hx' & Hy' & Hc' & Hbar & Hshow).
  exists (c <| con_view := v |>). split; [exact Hrun|]. clear Hrun. split.
  - split; [exact Hsound|by exists r|exact Hst'|]. intros _. exists r, p, obs, L, pic'.
    split; try done; cbn [con_game setter]; congruence.
  - exists r, p, obs, L. split; [done|]. split; [done|]. split; [split; apply Hv|]. split.
    + intros x y Hxr Hyr. cbn [con_view con_game setter].
      rewrite <- Hshow by (unfold inside; lia). rewrite Hx, Hy. f_equal; lia.
    + by apply (bar_known v pic' Hp').
Qed.

Lemma refresh_run enter c :
  ready enter c → ∃ c', on_game (refresh enter) c = Some ((), c') ∧ ready false c' ∧ shows_room c'.
Proof.
  intros [Hsound [r Hr] Hst Hdrawn]. pose proof Hsound as [Hok _ Hg Hline Hspeed].
  destruct (room_row_name _ r Hok Hg Hr) as (rm & name & Hrm & Hname & Hl).
  set (a0 := (con_game c) <| requests := [] |>).
  assert (Hstatus : ∀ a1, adv_world a1 = adv_world a0 → (∃ l, line_ok l (adv_input a1)) → ∃ rs,
    (update_status_bar;; request_ ShowScreen) a1 = Some ((), a1 <| adv_typing := typed_text a1 |>
      <| requests := requests a1 ++ rs ++ [StatusBar (bar_text a1).1 (bar_text a1).2; ShowScreen] |>) ∧
    Forall is_bar_rq (rs ++ [StatusBar (bar_text a1).1 (bar_text a1).2]) ∧ (bar_text a1).2 ≠ 1).
  { intros a1 Hw Hl1. destruct (update_status_bar_run a1 r rm name) as (rs & Hrun & Hrs & Hm); [by rewrite Hw|by rewrite Hw|done|done|by rewrite Hw|done|].
    exists rs. split; [|done]. rewrite (bind_run _ _ _ _ _ Hrun). unfold request_, modify. cbn.
    by rewrite <- !app_assoc. }
  destruct enter.
  - destruct (enter_new_room_run a0 r Hr Hline) as (i & Hrun1 & Hi). set (a1 := a0 <| map_x := 0 |> <| map_y := 0 |>
      <| adv_input := i |> <| requests := _ |>) in Hrun1.
    destruct (Hstatus a1 eq_refl) as (rs & Hrun2 & Hrs & Hm); [by exists []|].
    destruct (room_seen _ r Hok Hg Hr) as (p & obs & L & Hs & Hfit).
    set (a2 := a1 <| adv_typing := _ |> <| requests := _ |>) in Hrun2.
    set (c1 := c <| con_game := a2 |>).
    destruct (draw_entered _ r p obs L Hs Hfit c1 (mk_picture (show_x (con_view c)) (show_y (con_view c)) (λ _ _, None) None))
      as (v & pic & Hrun3 & Hst' & Hp & Hx & Hy & Hc); [done|by split|].
    destruct (bars_shown (c1 <| con_room := Some r |> <| con_view := v |>) r p obs L pic (StatusBar " " 1 :: rs))
      as (c' & Hrun4 & Hready & Hshows).
    + split; try apply Hsound. by exists [].
    + exact Hst'.
    + split; try done. destruct Hfit as (_ & Hw & Hh). split; cbn; [lia|lia|lia|exact Hspeed].
    + constructor; [|exact Hrs]. by split; [split; [cbn; lia|]|].
    + exact Hm.
    + exists c'. split; [|exact (conj Hready Hshows)]. apply (on_game_run _ _ a2 _ ()).
      * unfold refresh. rewrite (bind_run _ _ _ _ _ Hrun1). exact Hrun2.
      * change (requests a2) with ((SetView 0 0 :: PrepRoom (Some r) :: (Horiz <$> seqZ 0 SCROLL_Y_DIM) ++ [StatusBar " " 1])
          ++ rs ++ [StatusBar (bar_text a1).1 (bar_text a1).2; ShowScreen]).
        rewrite !app_comm_cons, <- app_assoc, serve_app, (bind_run _ _ _ _ _ Hrun3). exact Hrun4.
  - destruct (Hdrawn eq_refl) as (r' & p & obs & L & pic & Hd). assert (r' = r) as -> by (destruct Hd; congruence).
    destruct (Hstatus a0 eq_refl Hline) as (rs & Hrun2 & Hrs & Hm).
    set (a2 := a0 <| adv_typing := _ |> <| requests := _ |>) in Hrun2.
    destruct (bars_shown (c <| con_game := a2 |>) r p obs L pic rs) as (c' & Hrun4 & Hready & Hshows).
    + by destruct Hsound.
    + exact Hst.
    + destruct Hd as [? ? [] ? ? ? ? ?]. by split.
    + exact Hrs.
    + exact Hm.
    + exists c'. split; [|exact (conj Hready Hshows)]. apply (on_game_run _ _ a2 _ ()); [|exact Hrun4].
      unfold refresh. rewrite bind_skip. exact Hrun2.
Qed.

(** ** One command *)

(** What a command that stays in the room has done, and asked for *)
Inductive changed (p : photo_t) (a a' : adventure) : Prop :=
  | ch_still :
      quiet (adv_world a) (adv_world a') → map_x a' = map_x a → map_y a' = map_y a →
      requests a' = requests a → changed p a a'
  | ch_redraw :
      same_scene (adv_world a) (adv_world a') → map_x a' = map_x a → map_y a' = map_y a →
      requests a' = requests a ++ (Horiz <$> seqZ 0 SCROLL_Y_DIM) → changed p a a'
  | ch_moved lines :
      adv_world a' = adv_world a → view_ok p a' → Forall is_line_rq lines → exposes a a' lines →
      requests a' = requests a ++ SetView (map_x a') (map_y a') :: lines → changed p a a'.

(** If a room is to be entered nothing has been asked for yet. *)
Definition done_with (p : photo_t) (a : adventure) (enter : bool) (a' : adventure) : Prop :=
  if enter then requests a' = requests a else changed p a a'.

(** A world that an action of the player has led to *)
Lemma sound_world_step a w' r :
  sound a → where_ (adv_world a) = Some r → world_ok w' → quest (game_of (adv_world a)) (game_of w') →
  gallery w' → sound (a <| adv_world := w' |>).
Proof.
  intros [Hok Hh Hg Hl Hsp] Hr Hok' Hq Hg'. split; try done.
  eapply honest_step; [exact Hq| |done]. cbn. by rewrite Hr.
Qed.
Lemma act_sound b a r (Q : tc_action_t → adventure → Prop) :
  sound a → where_ (adv_world a) = Some r →
  (∀ res w', sound (a <| adv_world := w' |>) → calm (adv_world a) res w' →
     (is_move b → res ≠ TC_REDRAW_ROOM) → Q res (a <| adv_world := w' |>)) →
  wp (on_world (act b)) Q a.
Proof.
  intros Hs Hr HQ.
  destruct (proj1 (wp_run _ _ _) (act_follows _ b r (sound_world _ Hs) Hr)) as (res & w' & Hrun & Hok & Hq).
  unfold wp, on_world. rewrite Hrun. apply HQ; [|by apply (act_calm _ b)|intros Hb; by apply (move_results b _ Hb _ _ Hrun)].
  eapply sound_world_step; try done. by apply (gallery_act b _ _ _ Hrun), Hs.
Qed.
Lemma sound_speeds a vx vy :
  sound a → 0 < vx ≤ MOTION_SPEED * 3 → 0 < vy ≤ MOTION_SPEED * 3 →
  sound (a <| x_speed := vx |> <| y_speed := vy |>).
Proof. intros [] ? ?. by split. Qed.

(** Only the speeds differ. *)
Definition same_but_speed (a a' : adventure) : Prop := ∃ vx vy,
  a' = a <| x_speed := vx |> <| y_speed := vy |> ∧
  0 < vx ≤ MOTION_SPEED * 3 ∧ 0 < vy ≤ MOTION_SPEED * 3.
Lemma same_speed_refl a : sound a → same_but_speed a a.
Proof. intros [_ _ _ _ [Hx Hy]]. exists (x_speed a), (y_speed a). by destruct a. Qed.
Lemma same_speed_x a a' v :
  same_but_speed a a' → 0 < v ≤ MOTION_SPEED * 3 → same_but_speed a (a' <| x_speed := v |>).
Proof. intros (vx & vy & -> & Hx & Hy) Hv. by exists v, vy. Qed.
Lemma same_speed_y a a' v :
  same_but_speed a a' → 0 < v ≤ MOTION_SPEED * 3 → same_but_speed a (a' <| y_speed := v |>).
Proof. intros (vx & vy & -> & Hx & Hy) Hv. by exists vx, v. Qed.
Lemma wp_has o a (Q : bool → adventure → Prop) :
  world_ok (adv_world a) → 0 ≤ o < N_OBJECTS → (∀ b, Q b a) →
  wp (on_world (l ← loc_of o; mret (l =R= R_INVENTORY))) Q a.
Proof.
  intros Hok Ho HQ. assert (Hwp : wp (l ← loc_of o; mret (l =R= R_INVENTORY)) (λ _ w', w' = adv_world a) (adv_world a)).
  { apply wp_bind, wp_loc_of; [done|done|]. by apply wp_ret. }
  unfold wp, on_world in *. destruct ((loc_of o ≫= λ l, mret (l =R= R_INVENTORY)) (adv_world a)) as [[b w']|]; [|done]. subst. by destruct a.
Qed.
(** The speeds after a command on things *)
Definition sets_speed (m : AdvM ()) : Prop :=
  ∀ a a1, same_but_speed a a1 → wp m (λ _ a2, same_but_speed a a2) a1.
Lemma sets_skip : sets_speed skip.
Proof. by intros a a1 H. Qed.
Lemma sets_x v : 0 < v ≤ MOTION_SPEED * 3 → sets_speed (set_x_speed v).
Proof. intros Hv a a1 H. by apply wp_modify, same_speed_x. Qed.
Lemma sets_y v : 0 < v ≤ MOTION_SPEED * 3 → sets_speed (set_y_speed v).
Proof. intros Hv a a1 H. by apply wp_modify, same_speed_y. Qed.
Lemma wp_speeds (f g : bool → AdvM ()) a (Q : () → adventure → Prop) :
  sound a → (∀ b, sets_speed (f b)) → (∀ b, sets_speed (g b)) →
  (∀ a', same_but_speed a a' → Q () a') →
  wp (board ← on_world player_has_board; f board;;
      jetpack ← on_world player_has_jetpack; g jetpack) Q a.
Proof.
  intros Hs Hf Hg HQ. pose proof (same_speed_refl a Hs) as H0. pose proof (sound_world _ Hs) as Hok.
  apply wp_bind, wp_has; [done|done|]. intros b.
  apply wp_bind. eapply wp_mono; [by apply Hf|]. intros [] a1 H1.
  apply wp_bind, wp_has; [by destruct H1 as (? & ? & -> & _)|done|]. intros j.
  eapply wp_mono; [by apply Hg|]. intros [] a2 H2. by apply HQ.
Qed.

Lemma execute_cmd_sound cmd arg a r (Q : tc_action_t → adventure → Prop) :
  sound a → where_ (adv_world a) = Some r →
  (∀ res w' a', calm (adv_world a) res w' → same_but_speed (a <| adv_world := w' |>) a' → sound a' → Q res a') →
  wp (execute_cmd cmd arg) Q a.
Proof.
  intros Hs Hr HQ. unfold execute_cmd. apply wp_bind. change (typed_cmd cmd arg) with (act (Typed cmd arg)).
  apply (act_sound _ a r); [done..|]. intros res w' Hs1 Hc _.
  assert (Hend : ∀ a2, same_but_speed (a <| adv_world := w' |>) a2 → wp (mret res) Q a2).
  { intros a2 Ha2. apply wp_ret, (HQ _ w'); [done|done|].
    destruct Ha2 as (vx & vy & -> & Hx & Hy). by apply sound_speeds. }
  assert (Hset : ∀ (b : bool) v, 0 < v ≤ MOTION_SPEED * 3 →
    sets_speed (if b then set_x_speed v else skip) ∧ sets_speed (if b then set_y_speed v else skip)).
  { intros b v Hv. destruct b; split; auto using sets_x, sets_y, sets_skip. }
  apply wp_bind. destruct cmd; try (by apply wp_skip, Hend, same_speed_refl).
  all: eapply wp_speeds; [exact Hs1|intros b; by apply Hset|intros b; by apply Hset|exact Hend].
Qed.

(** The run of a typed line *)
Lemma finish_typing_sound p res a w' a' :
  calm (adv_world a) res w' → same_but_speed (a <| adv_world := w' |>) a' → sound a' →
  wp (finish_typing res) (λ enter a2, sound a2 ∧ done_with p a enter a2) a'.
Proof.
  intros Hc Hsame Hs. destruct (reset_typing_run a' (sound_line _ Hs)) as (i & Hreset & Hi).
  assert (Hs2 : ∀ rs, sound (a' <| adv_input := i |> <| requests := rs |>)).
  { intros rs. destruct Hs. split; try done. by exists []. }
  destruct Hsame as (vx & vy & -> & Hx & Hy). unfold finish_typing.
  destruct res; cbn [calm] in Hc; [rewrite decide_False, decide_True by done
    |rewrite !decide_False by done..|rewrite decide_True by done].
  - apply wp_bind, wp_skip, wp_ret. split; [done|]. by apply ch_still.
  - apply wp_bind, wp_bind. unfold wp at 1. rewrite Hreset by done. apply wp_skip, wp_ret.
    split; [apply (Hs2 (requests a))|]. by apply ch_still.
  - rewrite decide_True by done. apply wp_bind, wp_bind. unfold wp at 1. rewrite Hreset by done.
    unfold redraw_room, wp at 1. rewrite for_requests. apply wp_ret.
    split; [apply Hs2|]. by apply ch_redraw.
  - by apply wp_ret.
Qed.

Lemma wp_look {B} (f : world → B) a (Q : B → adventure → Prop) :
  Q (f (adv_world a)) a → wp (on_world (gets f)) Q a.
Proof. unfold wp. by rewrite look_run. Qed.
Lemma still_changed p a a' : changed p a a' → where_ (adv_world a') = where_ (adv_world a).
Proof. by intros [[= _ _ ?]|[= ? _]|? ->]. Qed.

Lemma wp_line a (Q : list Z → adventure → Prop) :
  Q (typing (adv_input a)) a → wp (on_input get_typed_command) Q a.
Proof. by destruct a. Qed.
(** A new message *)
Lemma sound_still a w' :
  sound a → still (adv_world a) w' → legible (status_msg w') → sound (a <| adv_world := w' |>).
Proof.
  intros [Hok Hh [Hg1 Hg2 Hg3 Hg4] Hl Hsp] Hst Hm. destruct (ok_still _ Hok w' Hst) as [Hok' Hgame].
  destruct Hst as (Hmv & Hr & Ho). split; try done; [by rewrite <- Hgame in Hh|].
  change (adv_world (a <| adv_world := w' |>)) with w'. split; [by rewrite Hr|by rewrite Ho|by rewrite (mv_swap _ _ Hmv)|done].
Qed.

Lemma handle_typing_sound p a r :
  sound a → where_ (adv_world a) = Some r →
  wp handle_typing (λ enter a2, sound a2 ∧ done_with p a enter a2) a.
Proof.
  intros Hs Hr. unfold handle_typing. apply wp_bind, wp_line. cbn zeta.
  case_decide as Hcmd; [by apply wp_ret; split; [|apply ch_still]|].
  destruct (find_cmd _ _ _) as [cmd|].
  - apply wp_bind. eapply execute_cmd_sound; [done|done|]. intros res w' a' Hc Hsame Hs'.
    by eapply finish_typing_sound.
  - apply wp_bind. unfold wp at 1, on_world. 
    set (w' := (adv_world a) <| status_msg := "What are you babbling about?" |>).
    change (wp (mret false) (λ enter a2, sound a2 ∧ done_with p a enter a2) (a <| adv_world := w' |>)).
    apply wp_ret. split; [|by apply ch_still].
    apply sound_still; [done|done|split; [cbn; lia|done]].
Qed.

(** Motions *)
Lemma move_photo_sound m p a r :
  sound a → shows a r p → view_ok p a →
  wp (move_photo m) (λ _ a2, sound a2 ∧ changed p a a2) a.
Proof.
  intros Hs Hsh Hv. pose proof (move_photo_run m r p a Hsh Hv) as Hrun. pose proof (moved_view_ok m p a Hv) as Hok.
  destruct (moved_view m p a) as [a2 lines] eqn:E. unfold wp. rewrite Hrun. clear Hrun. destruct Hok as [Hv2 Hex].
  assert (Hsame : adv_world a2 = adv_world a ∧ adv_input a2 = adv_input a ∧ x_speed a2 = x_speed a ∧
    y_speed a2 = y_speed a ∧ Forall is_line_rq lines).
  { destruct m; injection E as <- <-; (do 4 (split; [done|])); by apply Forall_fmap, Forall_forall. }
  destruct Hsame as (Hw & Hi & Hxs & Hys & Hlines). split.
  - destruct Hs. split; cbn [adv_world adv_input x_speed y_speed setter]; by rewrite ?Hw, ?Hi, ?Hxs, ?Hys.
  - destruct Hv2. by apply (ch_moved _ _ _ lines).
Qed.

Lemma changes_room_sound b p a r :
  sound a → where_ (adv_world a) = Some r → is_move b →
  wp (changes_room (act b)) (λ oe a2, sound a2 ∧ oe.1 = None ∧ done_with p a oe.2 a2) a.
Proof.
  intros Hs Hr Hb. unfold changes_room. apply wp_bind, (act_sound b a r); [done..|].
  intros res w' Hs' Hc Hm. apply wp_ret. split; [done|]. split; [done|].
  unfold done_with. cbn [snd]. case_bool_decide as He; [done|]. apply ch_still; [|done..].
  destruct res; try done. by destruct (Hm Hb).
Qed.

Lemma do_command_sound cmd p a r :
  sound a → shows a r p → view_ok p a →
  wp (do_command cmd) (λ oe a2, sound a2 ∧ (oe.1 = None ∨ oe.1 = Some GAME_QUIT) ∧
    done_with p a oe.2 a2) a.
Proof.
  intros Hs Hsh Hv. pose proof (proj1 Hsh) as Hr.
  assert (Hmotion : ∀ m, wp (move_photo m;; mret (None, false)) (λ oe a2, sound a2 ∧
    (oe.1 = None ∨ oe.1 = Some GAME_QUIT) ∧ done_with p a oe.2 a2) a).
  { intros m. apply wp_bind. eapply wp_mono; [by eapply move_photo_sound|]. intros [] a2 [Hs2 Hc].
    apply wp_ret. split; [done|]. split; [by left|done]. }
  assert (Hmove : ∀ b, is_move b → wp (changes_room (act b)) (λ oe a2, sound a2 ∧
    (oe.1 = None ∨ oe.1 = Some GAME_QUIT) ∧ done_with p a oe.2 a2) a).
  { intros b Hb. eapply wp_mono; [by apply (changes_room_sound b p a r)|]. intros oe a2 (Hs2 & Ho & Hc).
    split; [done|]. split; [by left|done]. }
  destruct cmd; cbn [do_command].
  - apply wp_ret. split; [done|]. split; [by left|]. by apply ch_still.
  - apply (Hmotion MoveToLeft).
  - apply (Hmotion MoveToRight).
  - apply (Hmotion MoveDown).
  - apply (Hmotion MoveUp).
  - by apply (Hmove MoveLeft).
  - by apply (Hmove Enter).
  - by apply (Hmove MoveRight).
  - apply wp_bind. eapply wp_mono; [by apply (handle_typing_sound p a r)|]. intros enter a2 [Hs2 Hc].
    apply wp_ret. split; [done|]. split; [by left|done].
  - apply wp_ret. split; [done|]. split; [by right|]. by apply ch_still.
Qed.

Lemma react_sound stdin p a r :
  Forall (λ b, 0 < b < 256) stdin → sound a → shows a r p → view_ok p a →
  wp (react stdin) (λ res a2, let '(o, enter, _) := res in sound a2 ∧ done_with p a enter a2 ∧
    (o = Some GAME_QUIT ∨ (o = Some GAME_WON ∧ where_ (adv_world a2) = None)
     ∨ (o = None ∧ is_Some (where_ (adv_world a2))))) a.
Proof.
  intros Hb Hs Hsh Hv. unfold react. apply wp_bind. destruct (sound_line _ Hs) as [l Hl].
  destruct (proj1 (wp_run _ _ _) (drain_total stdin l (adv_input a) CMD_NONE Hb Hl)) as ([cmd rest] & i & Hrun & l' & Hl').
  unfold wp at 1, on_input, get_command. rewrite Hrun. clear Hrun. set (a1 := a <| adv_input := i |>).
  assert (Hs1 : sound a1) by (destruct Hs; split; [done..|by exists l'|done]).
  apply wp_bind. eapply wp_mono; [apply (do_command_sound cmd p a1 r Hs1 Hsh)|].
  { destruct Hv. by split. }
  intros [o enter] a2 (Hs2 & Ho & Hd). cbn [fst snd] in Ho, Hd. cbn beta iota.
  assert (Hd' : done_with p a enter a2).
  { destruct enter; [exact Hd|]. destruct Hd as [? ? ? ?|? ? ? ?|lines ? ? ? ? ?];
      [by apply ch_still|by apply ch_redraw|by apply (ch_moved _ _ _ lines)]. }
  destruct Ho as [-> | ->].
  - apply wp_bind, wp_look, wp_ret. split; [done|]. split; [done|].
    destruct (where_ (adv_world a2)); [by right; right|by right; left].
  - apply wp_ret. split; [done|]. split; [done|]. by left.
Qed.

(** The screen after the command *)
Lemma seen_quiet w w' L r p obs : quiet w w' → seen w L r p obs → seen w' L r p obs.
Proof.
  intros [= Hr Ho _] [HL Hf Hp Hpo Hc Hi]. split; try done.
  - unfold laid, heads, nexts, locs in *. by rewrite Hr, Ho.
  - by rewrite Ho.
  - by rewrite Hr.
  - unfold contents in *. by rewrite Ho.
Qed.
Lemma view_sound p a a' :
  view_ok p a → sound a' → map_x a' = map_x a → map_y a' = map_y a → view_ok p a'.
Proof. intros [] [_ _ _ _ Hsp] Hx Hy. split; by rewrite ?Hx, ?Hy. Qed.
Lemma serve_changed c r p obs L pic a' :
  let a := (con_game c) <| requests := [] |> in
  room_drawn c r p obs L pic → started fill_horiz_fn fill_vert_fn (con_view c) →
  changed p a a' → sound a' →
  ∃ v, serve_all (adv_world a') (requests a') (c <| con_game := a' |>) =
      Some ((), c <| con_game := a' |> <| con_view := v |>) ∧
    started fill_horiz_fn fill_vert_fn v ∧
    ∃ obs' L' pic', room_drawn (c <| con_game := a' |> <| con_view := v |>) r p obs' L' pic'.
Proof.
  intros a [Hr Hs Hv Hroom Hp Hx Hy Hk] Hst Hch Hs'.
  assert (Hr' : where_ (adv_world a') = Some r) by (rewrite (still_changed _ _ _ Hch); exact Hr).
  destruct Hch as [Hq Hmx Hmy Hrq|Hq Hmx Hmy Hrq|lines Hw Hv' Hlines Hex Hrq]; rewrite Hrq;
    change (requests a) with (@nil request); cbn [app].
  - exists (con_view c). split; [done|]. split; [done|]. exists obs, L, pic. split; try done; cbn [con_game setter].
    + by apply (seen_quiet (adv_world a)).
    + by apply (view_sound p (con_game c)).
    + exact (eq_trans Hx (eq_sym Hmx)).
    + exact (eq_trans Hy (eq_sym Hmy)).
  - destruct (room_seen _ r (sound_world _ Hs') (sound_gallery _ Hs') Hr') as (p' & obs' & L' & Hs2 & Hfit).
    assert (p' = p) as ->.
    { pose proof (seen_photo _ _ _ _ _ Hs) as H1. pose proof (seen_photo _ _ _ _ _ Hs2) as H2.
      injection Hq as _ Hviews. pose proof (aget_fmap r_view (room (adv_world a')) r) as Ha.
      rewrite Hviews, aget_fmap in Ha. change (adv_world a) with (adv_world (con_game c)) in Ha.
      destruct (aget (room (adv_world (con_game c))) r) as [rm|]; [|done].
      destruct (aget (room (adv_world a')) r) as [rm'|]; [|done]. cbn in *. congruence. }
    assert (Hlines : Forall is_line_rq (Horiz <$> seqZ 0 SCROLL_Y_DIM)) by (by apply Forall_fmap, Forall_forall).
    destruct (lines_picture (adv_world a') r p obs' _ pic Hlines) as (Hops & (Hx' & Hy' & _) & Hk').
    set (c1 := c <| con_game := a' |>).
    destruct (serve_ops _ r p obs' L' Hs2 _ pic c1 Hops Hroom Hst Hp) as (v & Hrun & Hst' & Hp').
    { apply lines_allowed; [done|rewrite Hx; apply Hv|rewrite Hy; apply Hv]. }
    exists v. split; [exact Hrun|]. clear Hrun. split; [done|]. eexists obs', L', _.
    split; [exact Hr'|exact Hs2|by apply (view_sound p (con_game c))|exact Hroom|exact Hp'| | |].
    + exact (eq_trans Hx' (eq_trans Hx (eq_sym Hmx))).
    + exact (eq_trans Hy' (eq_trans Hy (eq_sym Hmy))).
    + intros X Y Hi. assert (Hi' : inside pic X Y) by (unfold inside in *; by rewrite Hx', Hy' in Hi).
      apply Hk'; [done|]. right. left. apply list_elem_of_fmap_2, elem_of_seqZ. unfold inside in Hi'. lia.
  - assert (Hs2 : seen (adv_world a') L r p obs) by (rewrite Hw; exact Hs).
    pose proof (room_lines _ r p obs L Hs2) as Hl.
    destruct (view_op_refines _ _ _ _ _ Hl (ViewAt (map_x a') (map_y a')) pic _ Hst Hp Logic.I)
      as (v & Hrun & Hst' & Hp' & _). set (pic1 := picture_step _ _ pic) in *.
    set (c0 := c <| con_game := a' |>). set (c1 := c0 <| con_view := v |>).
    destruct (lines_picture (adv_world a') r p obs _ pic1 Hlines) as (Hops & (Hx' & Hy' & _) & Hk').
    destruct (serve_ops _ r p obs L Hs2 _ pic1 c1 Hops Hroom Hst' Hp') as (v' & Hrun2 & Hst2 & Hp2).
    { apply lines_allowed; [done|apply Hv'|apply Hv']. }
    exists v'. split.
    { cbn [serve_all serve]. etrans; [apply bind_run; exact (on_view_run (set_view_window (map_x a') (map_y a')) () v c0 Hrun)|exact Hrun2]. }
    clear Hrun Hrun2. split; [exact Hst2|]. exists obs, L, (picture_steps (room_image p obs) (omap (op_of (adv_world a', Some r)) lines) pic1).
    split; [exact Hr'|exact Hs2|exact Hv'|exact Hroom|exact Hp2|exact Hx'|exact Hy'|].
    intros X Y Hi. assert (Hi' : inside pic1 X Y) by (unfold inside in *; by rewrite Hx', Hy' in Hi).
    apply Hk'; [done|]. destruct Hex as [Hrows Hcols]. change (map_y a) with (map_y (con_game c)) in Hrows.
    change (map_x a) with (map_x (con_game c)) in Hcols. rewrite <- Hy in Hrows. rewrite <- Hx in Hcols.
    destruct (decide (inside pic X Y)) as [Hin|Hout].
    + left. unfold pic1. cbn [picture_step known]. rewrite decide_True by done. by apply Hk.
    + right. unfold inside in Hi', Hout. cbn [pic1 picture_step win_x win_y] in Hi' |- *.
      destruct (decide (win_y pic ≤ Y < win_y pic + SCROLL_Y_DIM)) as [HY|HY].
      * right. apply Hcols; lia.
      * left. apply Hrows; lia.
Qed.

(** ** A round *)
Lemma react_run stdin c :
  Forall (λ b, 0 < b < 256) stdin → ready false c →
  ∃ o enter rest c', on_game (react stdin) c = Some ((o, enter, rest), c') ∧ sound (con_game c') ∧
    started fill_horiz_fn fill_vert_fn (con_view c') ∧
    (o = Some GAME_QUIT ∨ (o = Some GAME_WON ∧ where_ (adv_world (con_game c')) = None)
     ∨ (o = None ∧ ready enter c')).
Proof.
  intros Hb [Hs Hr Hst Hdrawn]. destruct (Hdrawn eq_refl) as (r & p & obs & L & pic & Hd).
  set (a := (con_game c) <| requests := [] |>). assert (Hsa : sound a) by (by apply sound_requests).
  pose proof Hd as [Hw Hseen Hv _ _ _ _ _].
  assert (Hsh : shows a r p).
  { split; [exact Hw|]. pose proof (seen_photo _ _ _ _ _ Hseen) as Hp.
    change (adv_world a) with (adv_world (con_game c)).
    destruct (aget (room (adv_world (con_game c))) r) as [rm|]; [by exists rm|done]. }
  destruct (proj1 (wp_run _ _ _) (react_sound stdin p a r Hb Hsa Hsh ltac:(by destruct Hv)))
    as ([[o enter] rest] & a2 & Hrun & Hs2 & Hdone & Ho).
  set (c2 := c <| con_game := a2 |>).
  assert (∃ v, serve_all (adv_world a2) (requests a2) c2 = Some ((), c2 <| con_view := v |>) ∧
    started fill_horiz_fn fill_vert_fn v ∧ (is_Some (where_ (adv_world a2)) → ready enter (c2 <| con_view := v |>))) as (v & Hserve & Hstv & Hready).
  { destruct enter.
    - exists (con_view c). unfold done_with in Hdone. rewrite Hdone. split; [done|]. split; [done|]. intros Hw2. by split.
    - destruct (serve_changed c r p obs L pic a2 Hd Hst Hdone Hs2) as (v & Hserve & Hst' & obs' & L' & pic' & Hd').
      exists v. split; [exact Hserve|]. clear Hserve. split; [done|]. intros Hw2. split; [done|done|done|]. intros _.
      by exists r, p, obs', L', pic'. }
  exists o, enter, rest, (c2 <| con_view := v |>). split; [exact (on_game_run _ _ _ _ _ _ Hrun Hserve)|].
  clear Hrun Hserve. split; [exact Hs2|]. split; [exact Hstv|]. destruct Ho as [Ho|[Ho|[Ho Hw2]]]; auto.
Qed.

Lemma expire_run enter c :
  ready enter c → ∃ c', on_game expire c = Some ((), c') ∧ ready enter c'.
Proof.
  intros [Hs Hr Hst Hdrawn]. set (w := adv_world (con_game c)).
  set (w' := w <| status_msg := EmptyString |>). set (a := (con_game c) <| requests := [] |>).
  exists (c <| con_game := a <| adv_world := w' |> |>). split; [done|]. split; [|done|done|].
  - apply sound_still; [by apply sound_requests|done|split; [cbn; lia|done]].
  - intros He. destruct (Hdrawn He) as (r & p & obs & L & pic & [H1 H2 H3 H4 H5 H6 H7 H8]).
    exists r, p, obs, L, pic. split; try done; [by apply (seen_quiet w)|by destruct H3].
Qed.

Lemma session_run enter rounds c :
  Forall (λ round, Forall (λ b, 0 < b < 256) round.2) rounds → ready enter c →
  ∃ o frames c', session enter rounds c = Some ((o, frames), c') ∧ sound (con_game c') ∧
    started fill_horiz_fn fill_vert_fn (con_view c') ∧ Forall shows_room frames ∧ (o = None → length frames = length rounds) ∧
    (o = Some GAME_WON → where_ (adv_world (con_game c')) = None).
Proof.
  intros Hb. revert enter c. induction Hb as [|[timeout stdin] rounds Hstdin Hb IH]; intros enter c Hc.
  - exists None, [], c. split; [done|]. split; [apply Hc|]. split; [apply Hc|done].
  - cbn [session]. assert (∃ c1, (if timeout then on_game expire else skip) c = Some ((), c1) ∧ ready enter c1)
      as (c1 & Hrun1 & Hc1) by (destruct timeout; [by apply expire_run|by exists c]).
    destruct (refresh_run enter c1 Hc1) as (c2 & Hrun2 & Hc2 & Hshow).
    destruct (react_run stdin c2 Hstdin Hc2) as (o & enter' & rest & c3 & Hrun3 & Hs3 & Hst3 & Ho).
    rewrite (bind_run _ _ _ _ _ Hrun1), (bind_run _ _ _ _ _ Hrun2), bind_gets, (bind_run _ _ _ _ _ Hrun3).
    clear Hrun1 Hrun2 Hrun3. cbn beta iota. destruct o as [o|].
    + exists (Some o), [c2], c3. split; [done|]. split; [done|]. split; [done|]. split; [by repeat constructor|]. split; [done|].
      intros [= ->]. by destruct Ho as [Ho|[[_ Ho]|[Ho _]]].
    + assert (ready enter' c3) as Hc3 by (by destruct Ho as [Ho|[[Ho _]|[_ Ho]]]).
      destruct (IH enter' c3 Hc3) as (o & frames & c4 & Hrun & Hs4 & Hst4 & Hf & Hlen & Hwon).
      rewrite (bind_run _ _ _ _ _ Hrun). clear Hrun. exists o, (c2 :: frames), c4.
      split; [done|]. split; [done|]. split; [done|]. split; [by constructor|]. split; [|done].
      intros Hn. cbn. by rewrite Hlen.
Qed.

(** ** The whole program *)
Lemma mode_X_refused s :
  ∃ s', set_mode_X false (Some fill_horiz_fn) (Some fill_vert_fn) s = Some (-1, s') ∧ adapter s' = adapter s.
Proof.
  unfold set_mode_X. rewrite bind_modify. set (s1 := setter img3_off _ _).
  destruct (proj1 (wp_run _ _ _) (fill_fences s1)) as ([] & s2 & Hrun & Hs2 & _).
  rewrite (bind_run _ _ _ _ _ Hrun), bind_modify. eexists. split; [reflexivity|]. by rewrite Hs2.
Qed.

(** The statics of the program before [main]: no message, nothing typed, nowhere *)
Record at_rest (c : console) : Prop := {
  rest_where : where_ (adv_world (con_game c)) = None;
  rest_rng k : 0 ≤ rng (adv_world (con_game c)) k;
  rest_gallery : gallery (adv_world (con_game c));
  rest_line : ∃ l, line_ok l (adv_input (con_game c));
}.

Lemma build_run h c :
  host_ok h → photos_fill h → at_rest c →
  ∃ c', on_game (on_world (build_world h)) c = Some (world_readable h, c') ∧ con_view c' = con_view c ∧
    adv_input (con_game c') = adv_input (con_game c) ∧
    (world_readable h = true → world_ok (adv_world (con_game c')) ∧
       game_of (adv_world (con_game c')) = start_game ∧ gallery (adv_world (con_game c'))).
Proof.
  intros Hh Hfill [Hw Hrng Hg Hl]. set (w := adv_world (con_game c)) in *.
  destruct (proj1 (wp_run _ _ _) (build_world_wp h w Hh Hrng Hw)) as (b & w' & Hrun & -> & Hbuilt).
  exists (c <| con_game := (con_game c) <| requests := [] |> <| adv_world := w' |> |>).
  split; [|split; [done|split; [done|]]].
  - unfold on_game, on_world. change (adv_world ((con_game c) <| requests := [] |>)) with w. by rewrite Hrun.
  - intros Hread. destruct (Hbuilt Hread) as (Hok & Hgame & _). split; [exact Hok|]. split; [exact Hgame|].
    by apply (gallery_build h Hh Hfill _ _ _ Hrun).
Qed.

Lemma init_run c :
  world_ok (adv_world (con_game c)) → game_of (adv_world (con_game c)) = start_game →
  gallery (adv_world (con_game c)) → (∃ l, line_ok l (adv_input (con_game c))) →
  ∃ c', on_game init_game c = Some ((), c') ∧ con_view c' = con_view c ∧
    sound (con_game c') ∧ is_Some (where_ (adv_world (con_game c'))).
Proof.
  intros Hok Hgame Hg Hl. destruct (start_honest _ Hok Hgame) as [Hok' Hh'].
  eexists. split; [reflexivity|]. split; [done|]. split; [|by eexists].
  split; [exact Hok'|exact Hh'| |exact Hl|done]. by destruct Hg.
Qed.

(** C1. The adventure from [main] on, whatever the host answers, whatever is typed and
    whenever the status thread wakes up.  It never goes wrong.  It gives up with
    the message of the first service that fails; otherwise, after each
    [show_screen], the monitor shows the player's room with its objects through
    the window and the right text in the status bar; and if the player has won,
    then by the story. *)
Theorem main_plays h sv rounds c :
  host_ok h → photos_fill h → at_rest c →
  Forall (λ round, Forall (λ b, 0 < b < 256) round.2) rounds →
  ∃ res c', main h sv rounds c = Some (res, c') ∧
    if negb (world_readable h) then res = Panic "can't build world"
    else if negb (sv_thread sv) then res = Panic "failed to create status thread"
    else if negb (sv_maps sv) then res = Panic "cannot initialize mode X"
    else if negb (sv_input sv) then res = Panic "cannot initialize input"
    else ∃ outcome frames, res = Played outcome frames ∧ Forall shows_room frames ∧
      (outcome = None → length frames = length rounds) ∧
      (outcome = Some GAME_WON →
       let g := game_of (adv_world (con_game c')) in
       flag g FLAG_HAS_EATEN = true ∧ flag g FLAG_CAR_OPEN = true ∧ flag g FLAG_CAR_FIXED = true ∧
       flag g FLAG_LURED_TUX = true ∧
       carry g O_BOOK_C = true ∧ carry g O_MP2 = true ∧ loc g O_TUX = Some R_IN_391LAB).
Proof.
  intros Hh Hfill Hrest Hb. destruct (build_run h c Hh Hfill Hrest) as (c1 & Hrun1 & _ & Hin & Hbuilt).
  unfold main. rewrite (bind_run _ _ _ _ _ Hrun1). clear Hrun1.
  destruct (world_readable h); cbn [negb]; [|by eexists _, _].
  destruct (Hbuilt eq_refl) as (Hok & Hgame & Hg).
  destruct (init_run c1 Hok Hgame Hg) as (c2 & Hrun2 & _ & Hs & Hw); [rewrite Hin; apply Hrest|].
  rewrite (bind_run _ _ _ _ _ Hrun2). clear Hrun2. rewrite sanity_check_passes. cbn [Z.eqb negb].
  destruct (sv_thread sv); cbn [negb]; [|by eexists _, _].
  destruct (sv_maps sv); cbn [negb].
  - destruct (set_mode_X_run fill_horiz_fn fill_vert_fn (con_view c2)) as (v & Hrun3 & Hst & _).
    rewrite (bind_run _ _ _ _ _ (on_view_run _ _ _ _ Hrun3)). clear Hrun3. cbn [Z.eqb negb].
    destruct (sv_input sv); cbn [negb]; [|by eexists _, _].
    destruct (session_run true rounds (c2 <| con_view := v |>) Hb) as (o & frames & c3 & Hrun4 & Hs3 & _ & Hf & Hlen & Hwon);
      [by split|].
    rewrite (bind_run _ _ _ _ _ Hrun4). clear Hrun4. eexists _, _. split; [reflexivity|].
    exists o, frames. split; [done|]. split; [exact Hf|]. split; [exact Hlen|].
    intros Ho. apply won_story; [apply (sound_honest _ Hs3)|exact (Hwon Ho)].
  - destruct (mode_X_refused (con_view c2)) as (v & Hrun3 & _).
    rewrite (bind_run _ _ _ _ _ (on_view_run _ _ _ _ Hrun3)). clear Hrun3. by eexists _, _.
Qed.

Definition first_console : console :=
  mk_console (mk_adventure blank_world input0 0 0 0 0 EmptyString []) None idle_display.
Lemma first_at_rest : at_rest first_console.
Proof.
  split; try done.
  - split; try constructor; cbn; [lia|done].
  - exists []. split; [apply input0_holds|done].
Qed.

(** Two rounds: the down arrow, then "get" and return *)
Lemma main_plays_witness :
  ∃ outcome frames c',
    main black_host (mk_services true true true) [(false, [27; 91; 66]); (true, [103; 101; 116; 10])] first_console
      = Some (Played outcome frames, c') ∧
    Forall shows_room frames ∧ (outcome = None → length frames = 2%nat).
Proof.
  destruct black_ok as [Hok Hfill].
  destruct (main_plays black_host (mk_services true true true) [(false, [27; 91; 66]); (true, [103; 101; 116; 10])]
    first_console Hok Hfill first_at_rest) as (res & c' & Hrun & Hres).
  - repeat constructor; lia.
  - rewrite black_readable in Hres. cbn [negb sv_thread sv_maps sv_input] in Hres.
    destruct Hres as (outcome & frames & -> & Hf & Hlen & _).
    exists outcome, frames, c'. split; [exact Hrun|]. split; [exact Hf|exact Hlen].
Defined.
