(* ===== verification/Cleanup.v ===== *)
(** * Cleanup: ways to end the program ([mp2/assert.c], [mp2/assert.h])

    The stack of cleanup functions, the macros ASSERT, ABORT and PANIC as the
    debug build has them, and the signal handlers.

    A computation of the program either goes on with a value or has ended the
    process ([inr]).  The linked list of [cleanup_t] structures is a list, its head
    the top of the stack; [F] are the program's functions, [W] the rest of its
    state, and [call f arg] what calling [f] does, which may use the stack itself.
    The fuel of [do_cleanups] bounds the functions popped; [do_cleanups_run] says how
    much is enough. *)
From stdpp Require Import functions.
From S2P Require Import Prelude.

Inductive ended := Exited (code : Z) | Aborted | KilledBy (sig : Z).
(** What a signal does: its default (which ends the process), nothing, or [catch_signal],
    once with SA_ONESHOT *)
Inductive action := SIG_DFL | SIG_IGN | CatchSignal (oneshot : bool).
Definition SIGINT : Z := 2.
Definition SIGQUIT : Z := 3.
Definition SIGBUS : Z := 7.
Definition SIGSEGV : Z := 11.
Definition SIGTSTP : Z := 20.

Section cleanup.
Context {F W : Type}.
Record program := mk_program {
  cleanup_stack : list (F * Z);
  stderr : list string;
  actions : Z → action;
  rest : W;
}.
#[export] Instance program_settable : Settable program := λ s,
  mk_program (cleanup_stack s) (stderr s) (actions s) (rest s).

Abbreviation Prog A := (M program (A + ended)).
Definition going {A} (a : A) : Prog A := mret (inl a).
Definition and_then {A B} (m : Prog A) (f : A → Prog B) : Prog B :=
  r ← m; match r with inl a => f a | inr e => mret (inr e) end.
(** A computation that cannot end the process *)
Definition plainly {A} (m : M program A) : Prog A := a ← m; going a.
Definition on_rest {A} (m : M W A) : Prog A := λ s,
  match m (rest s) with
  | Some (a, w) => Some (inl a, s <| rest := w |>)
  | None => None
  end.

Context (call : F → Z → Prog ()).

(** ** The macros, with [do_cleanups] for the cleanups they do first *)
Definition say (line : string) : Prog () := plainly (modify (λ s, s <| stderr ::= (.++ [line]) |>)).
Definition ABORT_with {A} (do_cleanups : Prog ()) (msg where_ : string) : Prog A :=
  and_then do_cleanups (λ _, and_then (say ("ABORTED -- " ++ msg ++ ": " ++ where_)) (λ _, mret (inr Aborted))).
Definition ASSERT_with (do_cleanups : Prog ()) (x : bool) (where_ : string) : Prog () :=
  if negb x then
    and_then do_cleanups (λ _, and_then (say ("ASSERTION FAILED: " ++ where_)) (λ _, mret (inr Aborted)))
  else going ().
Definition PANIC_with {A} (do_cleanups : Prog ()) (msg where_ : string) : Prog A :=
  and_then do_cleanups (λ _, and_then (say ("PANIC -- " ++ msg ++ ": " ++ where_)) (λ _, mret (inr (Exited 3)))).

(** ** The stack *)
Definition pop_cleanup_with (do_cleanups : Prog ()) (execute : bool) : Prog () :=
  and_then (plainly (gets cleanup_stack)) (λ st,
  and_then (ASSERT_with do_cleanups (match st with [] => false | _ => true end) "assert.c:143") (λ _,
    match st with
    | [] => going ()
    | (fn, arg) :: next =>
        and_then (plainly (modify (λ s, s <| cleanup_stack := next |>))) (λ _,
        if execute then call fn arg else going ())
    end)).
Fixpoint do_cleanups (n : nat) : Prog () :=
  match n with
  | O => ub
  | S n =>
      and_then (plainly (gets cleanup_stack)) (λ st,
      match st with
      | [] => going ()
      | _ => and_then (pop_cleanup_with (do_cleanups n) true) (λ _, do_cleanups n)
      end)
  end.
Definition pop_cleanup (n : nat) : bool → Prog () := pop_cleanup_with (do_cleanups n).
Definition PANIC {A} (n : nat) : string → string → Prog A := PANIC_with (do_cleanups n).

(** [memory] is whether [malloc] succeeds. *)
Definition push_cleanup (n : nat) (memory : bool) (fn : option F) (arg : Z) : Prog () :=
  and_then (ASSERT_with (do_cleanups n) (match fn with Some _ => true | None => false end) "assert.c:172") (λ _,
  if negb memory then ABORT_with (do_cleanups n) "out of memory" "assert.c:175" else
  match fn with
  | Some fn => plainly (modify (λ s, s <| cleanup_stack ::= cons (fn, arg) |>))
  | None => ub
  end).

(** ** Signals

    [sigaction num reading] is whether the system call succeeds. *)
Definition set_signal_behavior (n : nat) (sigaction : Z → bool → bool) (num : Z) : Prog () :=
  if negb (sigaction num true) then PANIC n "reading signal action failed" "assert.c:228"
  else if negb (sigaction num false) then PANIC n "writing signal action failed" "assert.c:239"
  else plainly (modify (λ s, s <| actions ::= <[num := CatchSignal true]> |>)).
Definition clean_on_signals (n : nat) (sigaction : Z → bool → bool) : Prog () :=
  and_then (set_signal_behavior n sigaction SIGINT) (λ _,
  and_then (set_signal_behavior n sigaction SIGSEGV) (λ _,
  and_then (set_signal_behavior n sigaction SIGBUS) (λ _,
  and_then (set_signal_behavior n sigaction SIGQUIT) (λ _,
    if negb (sigaction SIGTSTP false) then PANIC n "writing signal action failed" "assert.c:105"
    else plainly (modify (λ s, s <| actions ::= <[SIGTSTP := SIG_IGN]> |>)))))).

(** The handler sends the signal again, which waits until the handler returns; [m]
    is how often the signal may come. *)
Definition catch_signal (n : nat) (kill : Z → Prog ()) (sig : Z) : Prog () :=
  and_then (do_cleanups n) (λ _, kill sig).
Fixpoint deliver (m n : nat) (sig : Z) : Prog () :=
  match m with
  | O => ub
  | S m =>
      and_then (plainly (gets actions)) (λ acts,
      match acts sig with
      | SIG_IGN => going ()
      | SIG_DFL => mret (inr (KilledBy sig))
      | CatchSignal oneshot =>
          and_then (plainly (if oneshot then modify (λ s, s <| actions ::= <[sig := SIG_DFL]> |>) else skip)) (λ _,
          catch_signal n (deliver m n) sig)
      end)
  end.

(** ** Every function of the stack is called once, the last pushed first *)
Context (effect : F * Z → W → W → Prop).
Inductive ran : list (F * Z) → W → W → Prop :=
  | ran_nil w : ran [] w w
  | ran_cons c st w w1 w2 : effect c w w1 → ran st w1 w2 → ran (c :: st) w w2.

Lemma ran_app st1 st2 w w1 w2 : ran st1 w w1 → ran st2 w1 w2 → ran (st1 ++ st2) w w2.
Proof. induction 1; cbn; [done|]. intros. econstructor; eauto. Qed.

(** A function that does its work and returns, leaving the stack alone *)
Definition behaves (c : F * Z) : Prop :=
  ∀ s, ∃ w, call c.1 c.2 s = Some (inl (), s <| rest := w |>) ∧ effect c (rest s) w.

Lemma and_then_run {A B} (m : Prog A) (f : A → Prog B) a s s' :
  m s = Some (inl a, s') → and_then m f s = f a s'.
Proof. intros H. unfold and_then. by rewrite (bind_run _ _ _ _ _ H). Qed.
Lemma and_then_ends {A B} (m : Prog A) (f : A → Prog B) e s s' :
  m s = Some (inr e, s') → and_then m f s = Some (inr e, s').
Proof. intros H. unfold and_then. by rewrite (bind_run _ _ _ _ _ H). Qed.
Lemma and_then_assoc {A B C} (m : Prog A) (f : A → Prog B) (g : B → Prog C) s :
  and_then (and_then m f) g s = and_then m (λ a, and_then (f a) g) s.
Proof. unfold and_then. rewrite bind_assoc. apply bind_cong. by intros [a|e] s' _. Qed.

(** One round of the loop *)
Lemma do_cleanups_step n c st s :
  cleanup_stack s = c :: st →
  do_cleanups (S n) s = and_then (call c.1 c.2) (λ _, do_cleanups n) (s <| cleanup_stack := st |>).
Proof.
  intros Hst. cbn [do_cleanups]. rewrite (and_then_run _ _ (cleanup_stack s) s s) by done. rewrite Hst.
  unfold pop_cleanup_with. rewrite and_then_assoc, (and_then_run _ _ (cleanup_stack s) s s) by done. rewrite Hst.
  destruct c as [f a]. rewrite and_then_assoc, (and_then_run _ _ () s s) by done.
  by rewrite and_then_assoc, (and_then_run _ _ () s (s <| cleanup_stack := st |>)).
Qed.

Lemma do_cleanups_prefix st st' n s :
  cleanup_stack s = st ++ st' → Forall behaves st →
  ∃ w, do_cleanups (length st + n) s = do_cleanups n (s <| cleanup_stack := st' |> <| rest := w |>) ∧ ran st (rest s) w.
Proof.
  revert s. induction st as [|c st IH]; intros s Hst Hall.
  - exists (rest s). split; [|constructor]. cbn in *. rewrite <- Hst. by destruct s.
  - apply Forall_cons in Hall as [Hc Hall]. cbn [length Nat.add]. rewrite (do_cleanups_step _ c (st ++ st')) by done.
    destruct (Hc (s <| cleanup_stack := st ++ st' |>)) as (w1&Hcall&He). rewrite (and_then_run _ _ _ _ _ Hcall).
    set (s1 := s <| cleanup_stack := st ++ st' |> <| rest := w1 |>).
    destruct (IH s1) as (w&Hrun&Hran); [done|done|].
    exists w. split; [exact Hrun|]. by apply (ran_cons _ _ _ w1).
Qed.

Lemma do_cleanups_run n s :
  Forall behaves (cleanup_stack s) → (length (cleanup_stack s) < n)%nat →
  ∃ w, do_cleanups n s = Some (inl (), s <| cleanup_stack := [] |> <| rest := w |>) ∧ ran (cleanup_stack s) (rest s) w.
Proof.
  intros Hall Hn. destruct (do_cleanups_prefix (cleanup_stack s) [] (n - length (cleanup_stack s)) s) as (w&Hrun&Hran);
    [by rewrite app_nil_r|done|].
  exists w. split; [|done]. replace (length (cleanup_stack s) + _)%nat with n in Hrun by lia. rewrite Hrun.
  by destruct (n - length (cleanup_stack s))%nat eqn:E; [lia|].
Qed.

Lemma PANIC_run {A} n msg where_ s :
  Forall behaves (cleanup_stack s) → (length (cleanup_stack s) < n)%nat →
  ∃ w, PANIC (A:=A) n msg where_ s = Some (inr (Exited 3),
      s <| cleanup_stack := [] |> <| rest := w |> <| stderr ::= (.++ [("PANIC -- " ++ msg ++ ": " ++ where_)%string]) |>) ∧
    ran (cleanup_stack s) (rest s) w.
Proof.
  intros Hall Hn. destruct (do_cleanups_run n s Hall Hn) as (w&Hrun&Hran). exists w. split; [|done].
  unfold PANIC, PANIC_with. by rewrite (and_then_run _ _ _ _ _ Hrun).
Qed.

(** A cleanup function that itself panics does not keep the others from being run,
    nor is any of them run twice. *)
Lemma do_cleanups_panic st1 c st2 n k msg where_ s :
  cleanup_stack s = st1 ++ c :: st2 → Forall behaves (st1 ++ st2) →
  (∀ s, call c.1 c.2 s = PANIC k msg where_ s) → (length st2 < k)%nat → (length st1 < n)%nat →
  ∃ w, do_cleanups n s = Some (inr (Exited 3),
      s <| cleanup_stack := [] |> <| rest := w |> <| stderr ::= (.++ [("PANIC -- " ++ msg ++ ": " ++ where_)%string]) |>) ∧
    ran (st1 ++ st2) (rest s) w.
Proof.
  intros Hst [Hall1 Hall2]%Forall_app Hc Hk Hn.
  destruct (do_cleanups_prefix st1 (c :: st2) (n - length st1) s Hst Hall1) as (w1&Hrun1&Hran1).
  replace (length st1 + (n - length st1))%nat with n in Hrun1 by lia. rewrite Hrun1.
  destruct (n - length st1)%nat as [|n'] eqn:En; [lia|]. set (s1 := _ <| rest := w1 |>).
  rewrite (do_cleanups_step n' c st2 s1 eq_refl).
  destruct (PANIC_run (A:=()) k msg where_ (s1 <| cleanup_stack := st2 |>)) as (w&Hrun&Hran); [done|done|].
  exists w. split; [|by apply (ran_app _ _ _ w1)].
  rewrite <- Hc in Hrun. rewrite (and_then_ends _ _ _ _ _ Hrun). by destruct s.
Qed.

Lemma pop_cleanup_run n c st s :
  cleanup_stack s = c :: st → behaves c →
  ∃ w, pop_cleanup n true s = Some (inl (), s <| cleanup_stack := st |> <| rest := w |>) ∧ effect c (rest s) w.
Proof.
  intros Hst Hc. destruct (Hc (s <| cleanup_stack := st |>)) as (w&Hcall&He). exists w. split; [|exact He].
  unfold pop_cleanup, pop_cleanup_with. rewrite (and_then_run _ _ (cleanup_stack s) s s) by done. rewrite Hst.
  destruct c as [f a]. rewrite (and_then_run _ _ () s s) by done.
  by rewrite (and_then_run _ _ () s (s <| cleanup_stack := st |>)).
Qed.

Lemma deliver_run m n sig s :
  Forall behaves (cleanup_stack s) → (length (cleanup_stack s) < n)%nat → actions s sig = CatchSignal true →
  ∃ w, deliver (2 + m) n sig s = Some (inr (KilledBy sig),
      s <| cleanup_stack := [] |> <| actions ::= <[sig := SIG_DFL]> |> <| rest := w |>) ∧
    ran (cleanup_stack s) (rest s) w.
Proof.
  intros Hall Hn Hact. set (s1 := s <| actions ::= <[sig := SIG_DFL]> |>).
  destruct (do_cleanups_run n s1 Hall Hn) as (w&Hrun&Hran). exists w. split; [|exact Hran].
  cbn [Nat.add deliver]. rewrite (and_then_run _ _ (actions s) s s) by done. rewrite Hact.
  rewrite (and_then_run _ _ () s s1) by done. unfold catch_signal. rewrite (and_then_run _ _ _ _ _ Hrun).
  rewrite (and_then_run _ _ (actions s1) _ (s1 <| cleanup_stack := [] |> <| rest := w |>)) by done.
  cbn [actions s1 setter]. by rewrite fn_lookup_insert.
Qed.
End cleanup.
