(* ===== verification/Shutdown.v ===== *)
(** * Shutdown: the adventure from start to end ([main] of [mp2/adventure.c])

    [Console] has the game with its display, [Cleanup] the ways to end a program and
    [TextMode] the way back to the text screen.  Here they are one process, with
    the settings of its terminal ([init_input], [shutdown_input] of [mp2/input.c]) and
    its status thread. *)
From S2P Require Import Prelude Keep Photo WorldData World Layout WorldInv Effects Quest Build Story LibString Input Adventure Draw Vga Text Modex TextMode Picture Gallery Console Cleanup.

(** ** The process *)

(** The settings that [init_input] changes; the rest is kept. *)
Record termios := mk_termios { c_lflag : Z; c_vmin : Z; c_vtime : Z }.
Definition ICANON : Z := 0x2.
Definition ECHO : Z := 0x8.

Record process := mk_process {
  con : console;
  thread_on : bool;                    (* the status thread runs *)
  tio : termios; nonblock : bool;      (* of stdin *)
  tio_orig : termios;
  printed : list string;               (* stdout *)
}.
#[export] Instance process_settable : Settable process := λ w,
  mk_process (con w) (thread_on w) (tio w) (nonblock w) (tio_orig w) (printed w).

(** The three functions that [main] pushes *)
Inductive cleanup_fn := fn_cancel_status_thread | fn_clear_mode_X | fn_shutdown_input.
Abbreviation AProg A := (M (@program cleanup_fn process) (A + ended)).

(** What the host answers to the calls that can fail *)
Record calls := mk_calls {
  sys_sigaction : Z → bool → bool;
  sys_thread : bool;                   (* pthread_create *)
  sys_memory : cleanup_fn → bool;      (* malloc in push_cleanup *)
  sys_maps : bool;                     (* open_memory_and_ports *)
  sys_fcntl : bool; sys_tcgetattr : bool; sys_tcsetattr : bool;
}.

Definition on_con {B} (m : ConsoleM B) : AProg B := on_rest (λ w,
  match m (con w) with
  | Some (b, c) => Some (b, w <| con := c |>)
  | None => None
  end).

(** ** The terminal

    [perror] adds the reason to its message; that is left out. *)
Definition init_input (sv : calls) : AProg Z :=
  if negb (sys_fcntl sv) then
    and_then (say "fcntl to make stdin non-blocking") (λ _, going (-1))
  else
    and_then (on_rest (modify (λ w, w <| nonblock := true |>))) (λ _,
    if negb (sys_tcgetattr sv) then
      and_then (say "tcgetattr to read stdin terminal settings") (λ _, going (-1))
    else
      and_then (on_rest (modify (λ w, w <| tio_orig := tio w |>))) (λ _,
      if negb (sys_tcsetattr sv) then
        and_then (say "tcsetattr to set stdin terminal settings") (λ _, going (-1))
      else
        and_then (on_rest (modify (λ w, w <| tio := mk_termios
          (Z.land (c_lflag (tio_orig w)) (Z.lnot (Z.lor ICANON ECHO))) 1 0 |>))) (λ _,
        going 0))).
Definition shutdown_input : AProg () := on_rest (modify (λ w, w <| tio := tio_orig w |>)).
Definition cancel_status_thread : AProg () := on_rest (modify (λ w, w <| thread_on := false |>)).
Definition print (lines : list string) : AProg () := on_rest (modify (λ w, w <| printed ::= (.++ lines) |>)).

Definition call_fn (fn : cleanup_fn) (_ : Z) : AProg () :=
  match fn with
  | fn_cancel_status_thread => cancel_status_thread
  | fn_clear_mode_X => and_then (on_con (on_view clear_mode_X)) print
  | fn_shutdown_input => shutdown_input
  end.

(** ** [main]

    The player's input comes in [rounds], as in [Console]; when they run out the
    game is still on, and the value is what has been shown.  [return 0] ends the
    process as [exit] does. *)
Definition adventure_main (n : nat) (h : host) (sv : calls) (rounds : list (bool * list Z)) : AProg (list console) :=
  and_then (clean_on_signals call_fn n (sys_sigaction sv)) (λ _,
  and_then (on_con (on_game (on_world (build_world h)))) (λ built,
  if negb built then PANIC call_fn n "can't build world" "adventure.c:780" else
  and_then (on_con (on_game init_game)) (λ _,
  if negb (sanity_check cmd_list =? 0) then PANIC call_fn n "failed sanity checks" "adventure.c:785" else
  if negb (sys_thread sv) then PANIC call_fn n "failed to create status thread" "adventure.c:790" else
  and_then (on_rest (modify (λ w, w <| thread_on := true |>))) (λ _,
  and_then (push_cleanup call_fn n (sys_memory sv fn_cancel_status_thread) (Some fn_cancel_status_thread) 0) (λ _,
  and_then (on_con (on_view (set_mode_X (sys_maps sv) (Some fill_horiz_fn) (Some fill_vert_fn)))) (λ ret,
  if negb (ret =? 0) then PANIC call_fn n "cannot initialize mode X" "adventure.c:796" else
  and_then (push_cleanup call_fn n (sys_memory sv fn_clear_mode_X) (Some fn_clear_mode_X) 0) (λ _,
  and_then (init_input sv) (λ ret,
  if negb (ret =? 0) then PANIC call_fn n "cannot initialize input" "adventure.c:802" else
  and_then (push_cleanup call_fn n (sys_memory sv fn_shutdown_input) (Some fn_shutdown_input) 0) (λ _,
  and_then (on_con (session true rounds)) (λ '(outcome, frames),
  match (outcome : option game_condition_t) with
  | None => going frames
  | Some game =>
      and_then (pop_cleanup call_fn n true) (λ _,
      and_then (pop_cleanup call_fn n true) (λ _,
      and_then (pop_cleanup call_fn n true) (λ _,
      and_then (print [match game with GAME_WON => "You win the game!  CONGRATULATIONS!" | GAME_QUIT => "Quitter!" end]) (λ _,
      mret (inr (Exited 0))))))
  end)))))))))).

(** ** What the cleanups do *)
Definition blank_text (g : vga_t) : Prop := text_mode g ∧ ∀ k, 0 ≤ k < 16384 → text_cell g k = (0x20, 0x07).
Abbreviation view_of w := (con_view (con w)).
Definition cleanup_effect (c : cleanup_fn * Z) (w w' : process) : Prop :=
  match c.1 with
  | fn_cancel_status_thread => w' = w <| thread_on := false |>
  | fn_clear_mode_X => ∃ g out,
      w' = w <| con ::= (λ c, c <| con_view ::= (λ v, v <| adapter := g |>) |>) |> <| printed ::= (.++ out) |> ∧
      blank_text g ∧ (out = [] ↔ fences_hold (view_of w))
  | fn_shutdown_input => w' = w <| tio := tio_orig w |>
  end.
Lemma cleanups_behave c : behaves call_fn cleanup_effect c.
Proof.
  intros s. destruct c as [[| |] a].
  - exists ((rest s) <| thread_on := false |>). by split.
  - destruct (clear_mode_X_run (view_of (rest s))) as (g&out&Hrun&Ht&Hb&Hf). cbn [call_fn fst snd].
    exists ((rest s) <| con ::= (λ c, c <| con_view ::= (λ v, v <| adapter := g |>) |>) |> <| printed ::= (.++ out) |>).
    split; [|exists g, out; split; [reflexivity|split; [split; [exact Ht|exact Hb]|exact Hf]]].
    assert (Hc : on_con (on_view clear_mode_X) s = Some (inl out, s <| rest ::= (λ w, w <| con ::= (λ c, c <| con_view ::= (λ v, v <| adapter := g |>) |>) |>) |>)).
    { unfold on_con, on_rest, on_view. by rewrite Hrun. }
    by rewrite (and_then_run _ _ _ _ _ Hc).
  - exists ((rest s) <| tio := tio_orig (rest s) |>). by split.
Qed.
#[export] Hint Resolve cleanups_behave : ece.
Lemma all_behave st : Forall (behaves call_fn cleanup_effect) st.
Proof. apply Forall_true, cleanups_behave. Qed.

(** ** Leaving nothing behind

    What is still to be undone is undone by the functions on the stack. *)
Record pending (st : list cleanup_fn) (w0 w : process) : Prop := {
  pend_thread : thread_on w = true → fn_cancel_status_thread ∈ st;
  pend_tio : tio w = tio w0 ∨ fn_shutdown_input ∈ st;
  pend_orig : fn_shutdown_input ∈ st → tio_orig w = tio w0;
  pend_screen : adapter (view_of w) = adapter (view_of w0) ∨ blank_text (adapter (view_of w)) ∨ fn_clear_mode_X ∈ st;
  pend_fences : fn_clear_mode_X ∈ st → fences_hold (view_of w);
  pend_printed : printed w = printed w0;
}.
(** The status thread is gone, the terminal is as it was, and the monitor shows what it
    did or a blank text screen. *)
Record tidy (w0 w : process) : Prop := {
  tidy_thread : thread_on w = false;
  tidy_tio : tio w = tio w0;
  tidy_screen : adapter (view_of w) = adapter (view_of w0) ∨ blank_text (adapter (view_of w));
}.
Lemma pending_tidy w0 w : pending [] w0 w → tidy w0 w.
Proof.
  intros [Ht Htio _ Hs _ _]. split.
  - destruct (thread_on w); [|done]. by destruct (not_elem_of_nil _ (Ht eq_refl)).
  - by destruct Htio as [|[]%not_elem_of_nil].
  - by destruct Hs as [|[|[]%not_elem_of_nil]]; [left|right].
Qed.

Lemma fences_adapter {E} (v : @modex E) g : fences_hold v → fences_hold (v <| adapter := g |>).
Proof. by intros [Hl Hh]. Qed.
Lemma pending_step f a st w0 w w' :
  pending (f :: st) w0 w → cleanup_effect (f, a) w w' → pending st w0 w'.
Proof.
  intros [Ht Htio Ho Hs Hf Hp]. rewrite !elem_of_cons in *. destruct f; cbn.
  - intros ->. split; cbn; [done|naive_solver..].
  - intros (g&out&->&Hb&Hout). assert (out = []) as -> by (apply Hout, Hf; by left).
    split; cbn; [naive_solver..| |by rewrite app_nil_r].
    intros Hc. by apply fences_adapter, Hf; right.
  - intros ->. split; cbn; naive_solver.
Qed.
Lemma pending_ran st w0 w w' :
  pending st.*1 w0 w → ran cleanup_effect st w w' → pending [] w0 w'.
Proof.
  intros Hp Hr. induction Hr as [|[f a] st w w1 w2 He Hr IH]; [done|]. apply IH. by eapply pending_step.
Qed.

(** ** Running [main] *)
Definition outcome_line (game : game_condition_t) : string :=
  match game with GAME_WON => "You win the game!  CONGRATULATIONS!" | GAME_QUIT => "Quitter!" end.
Definition caught (s : @program cleanup_fn process) : Prop :=
  ∀ sig, sig ∈ [SIGINT; SIGSEGV; SIGBUS; SIGQUIT] → actions s sig = CatchSignal true.

Abbreviation all_pushed := [fn_shutdown_input; fn_clear_mode_X; fn_cancel_status_thread].

Section running.
Context (w0 : process) (n : nat) (Hn : (4 ≤ n)%nat).
Implicit Types s : @program cleanup_fn process.

(** How the process may end: all undone, and one line printed if the game was over *)
Definition ended_ok (e : ended) s : Prop :=
  cleanup_stack s = [] ∧ tidy w0 (rest s) ∧
  (printed (rest s) = printed w0 ∧ (e = Exited 3 ∨ ∃ sig, e = KilledBy sig) ∨
   ∃ game, e = Exited 0 ∧ printed (rest s) = printed w0 ++ [outcome_line game]).
Definition goes {A} (m : AProg A) (Q : A → @program cleanup_fn process → Prop) s : Prop :=
  wp m (λ r s', match r with inl a => Q a s' | inr e => ended_ok e s' end) s.
(** The functions of [st] are on the stack and undo what there is to be undone. *)
Definition stage (st : list cleanup_fn) s : Prop :=
  cleanup_stack s = (λ f, (f, 0)) <$> st ∧ pending st w0 (rest s).

Lemma goes_then {A B} (m : AProg A) (f : A → AProg B) Q s :
  goes m (λ a s', goes (f a) Q s') s → goes (and_then m f) Q s.
Proof.
  unfold goes, and_then. intros H. apply wp_bind. eapply wp_mono; [exact H|]. by intros [a|e] s' H'.
Qed.
Lemma goes_run {A} (m : AProg A) (Q : A → @program cleanup_fn process → Prop) a s s' :
  m s = Some (inl a, s') → Q a s' → goes m Q s.
Proof. intros H HQ. unfold goes, wp. by rewrite H. Qed.
Lemma goes_mono {A} (m : AProg A) (P Q : A → @program cleanup_fn process → Prop) s :
  goes m P s → (∀ a s', P a s' → Q a s') → goes m Q s.
Proof. intros H HPQ. eapply wp_mono; [exact H|]. intros [a|e] s' H'; [by apply HPQ|done]. Qed.

Lemma fst_stack st : ((λ f : cleanup_fn, (f, 0)) <$> st).*1 = st.
Proof. rewrite <- list_fmap_compose. apply list_fmap_id. Qed.

Lemma goes_PANIC {A} msg where_ st (Q : A → @program cleanup_fn process → Prop) s :
  stage st s → (length st < n)%nat → goes (PANIC call_fn n msg where_) Q s.
Proof.
  intros [Hst Hp] Hlen.
  destruct (PANIC_run call_fn cleanup_effect (A:=A) n msg where_ s) as (w&Hrun&Hran);
    [apply all_behave|by rewrite Hst, length_fmap|].
  unfold goes, wp. rewrite Hrun. rewrite Hst in Hran. split; [done|].
  assert (Hw : pending [] w0 w) by (eapply pending_ran; [by rewrite fst_stack|done]).
  split; [by apply pending_tidy|]. left. split; [apply Hw|by left].
Qed.

Lemma goes_push f st Q s :
  cleanup_stack s = (λ f, (f, 0)) <$> st →
  (∀ s', s' = s <| cleanup_stack ::= cons (f, 0) |> → Q () s') →
  goes (push_cleanup call_fn n true (Some f) 0) Q s.
Proof. intros Hst HQ. by eapply goes_run; [|by apply HQ]. Qed.
Lemma goes_pop f st Q s :
  stage (f :: st) s → (∀ s', stage st s' → Q () s') → goes (pop_cleanup call_fn n true) Q s.
Proof.
  intros [Hst Hp] HQ.
  destruct (pop_cleanup_run call_fn cleanup_effect n (f, 0) _ s Hst (cleanups_behave _)) as (w&Hrun&He).
  eapply goes_run; [exact Hrun|]. apply HQ. split; [done|]. by eapply pending_step.
Qed.

(** The signals *)
Lemma goes_catch sigaction num Q s :
  stage [] s → (∀ s', s' = s <| actions ::= <[num := CatchSignal true]> |> → Q () s') →
  goes (set_signal_behavior call_fn n sigaction num) Q s.
Proof.
  intros Hs HQ. unfold set_signal_behavior. destruct (sigaction num true); cbn [negb];
    [|apply (goes_PANIC _ _ []); [done|cbn; lia]].
  destruct (sigaction num false); cbn [negb]; [|apply (goes_PANIC _ _ []); [done|cbn; lia]].
  eapply goes_run; [reflexivity|]. by apply HQ.
Qed.
Lemma goes_signals sigaction Q s :
  stage [] s → (∀ s', stage [] s' → rest s' = rest s → caught s' → Q () s') →
  goes (clean_on_signals call_fn n sigaction) Q s.
Proof.
  intros Hs HQ. unfold clean_on_signals.
  do 4 (apply goes_then, goes_catch; [by destruct Hs|intros ? ->]).
  destruct (sigaction SIGTSTP false); cbn [negb]; [|apply (goes_PANIC _ _ []); [by destruct Hs|cbn; lia]].
  eapply goes_run; [reflexivity|]. apply HQ; [by destruct Hs|done|].
  intros sig. rewrite !elem_of_cons, elem_of_nil. cbn.
  intros [->|[->|[->|[->|[]]]]]; reflexivity.
Qed.

(** The parts of the game *)
Lemma on_con_run {B} (m : ConsoleM B) b c s :
  m (con (rest s)) = Some (b, c) → on_con m s = Some (inl b, s <| rest ::= (λ w, w <| con := c |>) |>).
Proof. intros H. unfold on_con, on_rest. by rewrite H. Qed.
Lemma pending_con st w c :
  pending st w0 w →
  (adapter (con_view c) = adapter (view_of w) ∧ fn_clear_mode_X ∉ st) ∨ fences_hold (con_view c) ∧ fn_clear_mode_X ∈ st →
  pending st w0 (w <| con := c |>).
Proof.
  intros [Ht Htio Ho Hs Hf Hp] Hc. split; cbn [thread_on tio tio_orig printed con setter]; auto.
  - destruct Hc as [[-> _]|[_ ?]]; auto.
  - by destruct Hc as [[_ ?]|[? _]].
Qed.
Lemma stage_con st s c :
  stage st s →
  (adapter (con_view c) = adapter (view_of (rest s)) ∧ fn_clear_mode_X ∉ st) ∨ fences_hold (con_view c) ∧ fn_clear_mode_X ∈ st →
  stage st (s <| rest ::= (λ w, w <| con := c |>) |>).
Proof. intros [Hst Hp] Hc. split; [done|]. by apply pending_con. Qed.

Lemma goes_init_input sv st Q s :
  stage st s → fn_shutdown_input ∉ st → caught s →
  (∀ r s', stage (if r =? 0 then fn_shutdown_input :: st else st) (if r =? 0 then s' <| cleanup_stack ::= cons (fn_shutdown_input, 0) |> else s') →
     caught s' → con (rest s') = con (rest s) → Q r s') →
  goes (init_input sv) Q s.
Proof.
  intros [Hst Hp] Hin Hc HQ. unfold init_input.
  assert (Htio : tio (rest s) = tio w0) by (by destruct (pend_tio _ _ _ Hp)).
  destruct (sys_fcntl sv); cbn [negb].
  2: { eapply goes_run; [reflexivity|]. apply HQ; [by split|done|done]. }
  apply goes_then. eapply goes_run; [reflexivity|]. destruct (sys_tcgetattr sv); cbn [negb].
  2: { eapply goes_run; [reflexivity|]. apply HQ; [split; [done|by destruct Hp]|done|done]. }
  apply goes_then. eapply goes_run; [reflexivity|]. destruct (sys_tcsetattr sv); cbn [negb].
  2: { eapply goes_run; [reflexivity|]. apply HQ; [split; [done|by destruct Hp]|done|done]. }
  apply goes_then. eapply goes_run; [reflexivity|]. eapply goes_run; [reflexivity|].
  apply HQ; [|done|done]. cbn [Z.eqb]. split; [cbn; by rewrite Hst|].
  destruct Hp as [H1 H2 H3 H4 H5 H6]. split; cbn [rest thread_on tio tio_orig printed con setter]; rewrite ?elem_of_cons; try done.
  - auto.
  - by right; left.
  - destruct H4 as [|[|]]; auto.
  - intros [|]; [done|auto].
Qed.

Lemma goes_session rounds s Q :
  stage all_pushed s → caught s → ready true (con (rest s)) →
  Forall (λ round, Forall (λ b, 0 < b < 256) round.2) rounds →
  (∀ outcome frames s', stage all_pushed s' → caught s' → Q (outcome, frames) s') →
  goes (on_con (session true rounds)) Q s.
Proof.
  intros Hs Hc Hr Hb HQ. destruct (session_run true rounds _ Hb Hr) as (o&frames&c&Hrun&_&Hst&_).
  eapply goes_run; [by apply on_con_run|]. apply HQ; [|done]. apply stage_con; [done|]. right.
  split; [apply Hst|]. by right; left.
Qed.
Lemma goes_finish game s Q :
  stage all_pushed s → goes (and_then (pop_cleanup call_fn n true) (λ _,
    and_then (pop_cleanup call_fn n true) (λ _, and_then (pop_cleanup call_fn n true) (λ _,
    and_then (print [outcome_line game]) (λ _, mret (inr (Exited 0) : list console + ended)))))) Q s.
Proof.
  intros Hs. apply goes_then, (goes_pop fn_shutdown_input [fn_clear_mode_X; fn_cancel_status_thread]); [done|].
  intros s1 Hs1. apply goes_then, (goes_pop fn_clear_mode_X [fn_cancel_status_thread]); [done|].
  intros s2 Hs2. apply goes_then, (goes_pop fn_cancel_status_thread []); [done|].
  intros s3 [Hst Hp]. apply goes_then. eapply goes_run; [reflexivity|]. split; [exact Hst|].
  split; [by destruct (pending_tidy _ _ Hp)|]. right. exists game. split; [done|]. cbn. by rewrite (pend_printed _ _ _ Hp).
Qed.

Lemma goes_display {A} sv s (k : () → AProg A) Q :
  sys_memory sv fn_clear_mode_X = true → stage [fn_cancel_status_thread] s → caught s →
  (∀ s', stage [fn_clear_mode_X; fn_cancel_status_thread] s' → caught s' →
     con_game (con (rest s')) = con_game (con (rest s)) →
     started fill_horiz_fn fill_vert_fn (view_of (rest s')) → goes (k ()) Q s') →
  goes (and_then (on_con (on_view (set_mode_X (sys_maps sv) (Some fill_horiz_fn) (Some fill_vert_fn)))) (λ ret,
    if negb (ret =? 0) then PANIC call_fn n "cannot initialize mode X" "adventure.c:796" else
    and_then (push_cleanup call_fn n (sys_memory sv fn_clear_mode_X) (Some fn_clear_mode_X) 0) k)) Q s.
Proof.
  intros -> Hs Hc HQ. apply goes_then. destruct (sys_maps sv).
  - destruct (set_mode_X_run fill_horiz_fn fill_vert_fn (view_of (rest s))) as (v&Hrun&Hst&_).
    eapply goes_run; [apply on_con_run, on_view_run, Hrun|]. cbn [Z.eqb negb].
    destruct Hs as [Hstack Hp]. apply goes_then. eapply goes_push; [exact Hstack|]. intros s' ->.
    apply HQ; [|exact Hc|reflexivity|exact Hst]. split; [cbn; by rewrite Hstack|]. destruct Hp as [H1 H2 H3 H4 H5 H6].
    split; cbn [rest thread_on tio tio_orig printed con con_view setter]; rewrite ?elem_of_cons in *.
    + intros Ht. right. exact (H1 Ht).
    + destruct H2 as [H2|H2]; [by left|by right; right].
    + intros [Hf|Hf]; [discriminate Hf|exact (H3 Hf)].
    + right. right. by left.
    + intros _. exact (started_fences _ _ _ Hst).
    + exact H6.
  - destruct (mode_X_refused (view_of (rest s))) as (v&Hrun&Hv).
    eapply goes_run; [apply on_con_run, on_view_run, Hrun|]. cbn [Z.eqb negb].
    apply (goes_PANIC _ _ [fn_cancel_status_thread]); [|cbn; lia]. apply stage_con; [done|]. left.
    split; [exact Hv|]. intros [[=]|[]%not_elem_of_nil]%elem_of_cons.
Qed.
End running.

Lemma main_goes w0 n h sv rounds s :
  (4 ≤ n)%nat → host_ok h → photos_fill h → at_rest (con w0) → thread_on w0 = false →
  (∀ f, sys_memory sv f = true) → Forall (λ round, Forall (λ b, 0 < b < 256) round.2) rounds →
  cleanup_stack s = [] → rest s = w0 →
  goes w0 (adventure_main n h sv rounds) (λ _ s', stage w0 all_pushed s' ∧ caught s') s.
Proof.
  intros Hn Hh Hfill Hrest Hth Hmem Hb Hst Hw.
  assert (Hs : stage w0 [] s).
  { split; [done|]. rewrite Hw. split; [by rewrite Hth|by left| |by left| |done]; by intros []%not_elem_of_nil. }
  apply goes_then, (goes_signals w0 n Hn); [exact Hs|]. rewrite Hw.
  clear s Hst Hw Hs. intros s Hs Hw Hc. rewrite <- Hw in Hrest.
  destruct (build_run h (con (rest s)) Hh Hfill Hrest) as (c1&Hrun1&Hv1&Hin&Hbuilt).
  apply goes_then. eapply goes_run; [by apply on_con_run|].
  apply (stage_con w0 [] s c1) in Hs; [|left; split; [by rewrite Hv1|apply not_elem_of_nil]].
  destruct (world_readable h); cbn [negb]; [|apply (goes_PANIC w0 n _ _ []); [exact Hs|cbn; lia]].
  destruct (Hbuilt eq_refl) as (Hok&Hgame&Hg).
  destruct (init_run c1 Hok Hgame Hg) as (c2&Hrun2&Hv2&Hsound&Hwhere); [rewrite Hin; apply Hrest|].
  apply goes_then. eapply goes_run; [by apply on_con_run|].
  apply (stage_con w0 [] _ c2) in Hs; [|left; split; [by rewrite Hv2|apply not_elem_of_nil]].
  rewrite sanity_check_passes. cbn [Z.eqb negb].
  destruct (sys_thread sv); cbn [negb]; [|apply (goes_PANIC w0 n _ _ []); [exact Hs|cbn; lia]].
  apply goes_then. eapply goes_run; [reflexivity|].
  rewrite (Hmem fn_cancel_status_thread). apply goes_then.
  eapply (goes_push w0 n fn_cancel_status_thread []); [apply Hs|]. intros s1 Es1.
  assert (Hs1 : stage w0 [fn_cancel_status_thread] s1).
  { rewrite Es1. destruct Hs as [Hst Hp]. change (cleanup_stack s = []) in Hst. split; [cbn; by rewrite Hst|]. destruct Hp as [H1 H2 H3 H4 H5 H6].
    split; cbn [rest thread_on tio tio_orig printed con con_view setter] in *.
    - by left.
    - by destruct H2 as [|[]%not_elem_of_nil]; left.
    - intros [[=]|[]%not_elem_of_nil]%elem_of_cons.
    - by destruct H4 as [|[|[]%not_elem_of_nil]]; [left|right; left].
    - intros [[=]|[]%not_elem_of_nil]%elem_of_cons.
    - exact H6. }
  assert (Hc1 : caught s1) by (rewrite Es1; exact Hc).
  assert (Hg1 : con (rest s1) = c2) by (by rewrite Es1). clear Es1.
  apply (goes_display w0 n Hn); [by rewrite Hmem|exact Hs1|exact Hc1|]. intros s2 Hs2 Hc2 Hg2 Hv.
  apply goes_then. eapply goes_init_input; [exact Hs2|by intros [[=]|[[=]|[]%not_elem_of_nil]%elem_of_cons]%elem_of_cons|exact Hc2|].
  intros r s3 Hs3 Hc3 Hcon3. destruct (r =? 0) eqn:Er; cbn [negb];
    [|apply (goes_PANIC w0 n _ _ [fn_clear_mode_X; fn_cancel_status_thread]); [exact Hs3|cbn; lia]].
  rewrite (Hmem fn_shutdown_input). apply goes_then.
  assert (Hst3 : cleanup_stack s3 = (λ f, (f, 0)) <$> [fn_clear_mode_X; fn_cancel_status_thread]).
  { destruct Hs3 as [Hst3 _]. by injection Hst3. }
  eapply goes_push; [exact Hst3|]. intros s4 Es4. rewrite <- Es4 in Hs3.
  apply goes_then. eapply goes_session; [exact Hs3|rewrite Es4; exact Hc3| |exact Hb|].
  { rewrite Es4. change (ready true (con (rest s3))). rewrite Hcon3.
    split; [rewrite Hg2, Hg1; exact Hsound|rewrite Hg2, Hg1; exact Hwhere|exact Hv|done]. }
  intros [game|] frames s5 Hs5 Hc5; [by apply goes_finish|]. by eapply goes_run.
Qed.


(** Two rounds in which nothing ends the game, then control-C *)
Definition first_process : @program cleanup_fn process :=
  mk_program [] [] (λ _, SIG_DFL) (mk_process first_console false (mk_termios 0x8A3B 1 0) false (mk_termios 0 0 0) []).
Definition calls_succeed : calls := mk_calls (λ _ _, true) true (λ _, true) true true true true.
Definition two_rounds : list (bool * list Z) := [(false, [27; 91; 66]); (true, [103; 101; 116; 10])].
