(* ===== verification/Tux.v ===== *)
(** * Tux: the line discipline of the Tux controller ([mp2/module/tuxctl-ld.c])

    Two ring buffers between a serial driver and the controller's driver: bytes
    received are cut into packets of three, bytes to send are handed to the
    serial driver as it has room.  The locked sections of the C code are the
    steps of this model. *)
From S2P Require Import Prelude.

Definition TUXCTL_MAGIC : Z := 1953855587.     (* 0x74757863 *)
Definition TUXCTL_BUFSIZE : Z := 64.

Record tuxctl_ldisc_data := mk_ldisc {
  magic : Z;
  rx_buf : list Z; rx_start : Z; rx_end : Z;
  tx_buf : list Z; tx_start : Z; tx_end : Z;
}.
#[export] Instance ldisc_settable : Settable tuxctl_ldisc_data := λ d,
  mk_ldisc (magic d) (rx_buf d) (rx_start d) (rx_end d) (tx_buf d) (tx_start d) (tx_end d).

Definition buf_used (s e : Z) : Z := if s <=? e then e - s else TUXCTL_BUFSIZE + e - s.
Definition buf_empty (s e : Z) : bool := s =? e.
Definition buf_full (s e : Z) : bool := Z.rem (e + 1) TUXCTL_BUFSIZE =? s.
Definition buf_incidx (i : Z) : Z := Z.rem (i + 1) TUXCTL_BUFSIZE.

(** The serial driver below: how many bytes it has room for, and the handing over
    of bytes, with the number it took *)
Class serial_driver (D : Type) := {
  write_room : D → Z;
  driver_write : list Z → D → Z * D;
}.
(** What it promises: it takes bytes from the front, as many as it has room for. *)
Class lawful_driver (D : Type) `{serial_driver D} := {
  sent : D → list Z;
  room_nonneg d : 0 ≤ write_room d;
  write_takes bs d : ∃ d', driver_write bs d = (Z.min (zlen bs) (write_room d), d') ∧
    sent d' = sent d ++ take (Z.to_nat (write_room d)) bs;
}.

Section tux.
Context {D : Type} `{serial_driver D}.

(** The terminal: its line discipline's data, the statics of
    [tuxctl_ldisc_data_callback], the packets that have been given to
    [tuxctl_handle_packet], and the serial driver *)
Record tty := mk_tty {
  disc_data : option tuxctl_ldisc_data;
  saved : list Z;                       (* unsigned char[2] *)
  n_saved : Z;
  handled : list (list Z);
  serial : D;
}.
#[export] Instance tty_settable : Settable tty := λ t,
  mk_tty (disc_data t) (saved t) (n_saved t) (handled t) (serial t).
Abbreviation T := (M tty).
Definition the_data : T tuxctl_ldisc_data := gets disc_data ≫= lift.
Definition set_data (f : tuxctl_ldisc_data → tuxctl_ldisc_data) : T () :=
  d ← the_data; modify (λ t, t <| disc_data := Some (f d) |>).

(** [kmalloc] gives memory with the contents [junk], or none. *)
Definition tuxctl_ldisc_open (junk : option (list Z * list Z)) : T Z :=
  match junk with
  | None => mret (-12)
  | Some (rx, tx) => modify (λ t, t <| disc_data := Some (mk_ldisc TUXCTL_MAGIC rx 0 0 tx 0 0) |>);; mret 0
  end.
Definition tuxctl_ldisc_close : T () := modify (λ t, t <| disc_data := None |>).

(** ** Receiving *)
Fixpoint rcv_loop (n : nat) (cp : list Z) (i : Z) : T () :=
  match n with
  | O => skip
  | S n =>
      d ← the_data;
      if buf_full (rx_start d) (rx_end d) then skip
      else
        b ← lift (aget cp i);
        buf ← lift (aset (rx_buf d) (rx_end d) b);
        set_data (λ d, d <| rx_buf := buf |> <| rx_end ::= buf_incidx |>);;
        rcv_loop n cp (i + 1)
  end.

(** Bytes into [buf] from index [i] on; an element of [buf] that has not been
    written is [None]. *)
Fixpoint get_loop (n : nat) (buf : list (option Z)) (i r : Z) : T (Z * list (option Z)) :=
  match n with
  | O => mret (r, buf)
  | S n =>
      d ← the_data;
      if buf_empty (rx_start d) (rx_end d) then mret (r, buf)
      else
        b ← lift (aget (rx_buf d) (rx_start d));
        buf ← lift (aset buf i (Some b));
        set_data (λ d, d <| rx_start ::= buf_incidx |>);;
        get_loop n buf (i + 1) (r + 1)
  end.
Definition tuxctl_ldisc_get (buf : list (option Z)) (i n : Z) : T (Z * list (option Z)) :=
  the_data;; get_loop (Z.to_nat n) buf i 0.

Definition tuxctl_handle_packet (a b c : Z) : T () := modify (λ t, t <| handled ::= (.++ [[a; b; c]]) |>).

Definition read_at (buf : list (option Z)) (i : Z) : T Z := b ← lift (aget buf i); lift b.
Definition framed (a b c : Z) : bool :=
  (Z.land a 128 =? 0) && negb (Z.land b 128 =? 0) && negb (Z.land c 128 =? 0).

(** The scan for packets, up to [fuel] steps: the index where it stops *)
Fixpoint frame_loop (fuel : nat) (packet : list (option Z)) (n i : Z) : T Z :=
  match fuel with
  | O => ub
  | S fuel =>
      if i <? n - 2 then
        a ← read_at packet i; b ← read_at packet (i + 1); c ← read_at packet (i + 2);
        if framed a b c then tuxctl_handle_packet a b c;; frame_loop fuel packet n (i + 3)
        else frame_loop fuel packet n (i + 1)
      else mret i
  end.

Fixpoint load_saved (n : nat) (i : Z) (packet : list (option Z)) : T (list (option Z)) :=
  match n with
  | O => mret packet
  | S n =>
      sv ← gets saved; b ← lift (aget sv i); packet ← lift (aset packet i (Some b));
      load_saved n (i + 1) packet
  end.
Definition keep_left (packet : list (option Z)) (i : Z) (j : Z) : T () :=
  b ← read_at packet (i + j); sv ← gets saved; sv ← lift (aset sv j b); modify (λ t, t <| saved := sv |>).

Definition tuxctl_ldisc_data_callback : T () :=
  ns ← gets n_saved;
  packet ← load_saved (Z.to_nat ns) 0 (replicate 12 None);
  '(r, packet) ← tuxctl_ldisc_get packet ns (12 - ns);
  let n := ns + r in
  i ← frame_loop 12 packet n 0;
  modify (λ t, t <| n_saved := n - i |>);;
  for_n (Z.to_nat (n - i)) 0 (keep_left packet i).

Definition tuxctl_ldisc_rcv_buf (cp : list Z) (count : Z) : T () :=
  d ← gets disc_data;
  match d with
  | None => skip
  | Some _ => rcv_loop (Z.to_nat count) cp 0;; tuxctl_ldisc_data_callback
  end.

(** ** Sending *)
Fixpoint wake_loop (fuel : nat) (room n : Z) (buf : list Z) : T (Z * list Z) :=
  match fuel with
  | O => ub
  | S fuel =>
      d ← the_data;
      if (n <=? room) && negb (buf_empty (tx_start d) (tx_end d)) then
        b ← lift (aget (tx_buf d) (tx_start d));
        buf ← lift (aset buf n b);
        set_data (λ d, d <| tx_start ::= buf_incidx |>);;
        wake_loop fuel room (n + 1) buf
      else mret (n, buf)
  end.
(** [junk] is what the local buffer holds at first. *)
Definition tuxctl_ldisc_write_wakeup (junk : list Z) : T () :=
  s ← gets serial;
  '(n, buf) ← wake_loop (Z.to_nat TUXCTL_BUFSIZE) (write_room s) 0 junk;
  modify (λ t, t <| serial := (driver_write (take (Z.to_nat n) buf) s).2 |>).

Fixpoint put_loop (fuel : nat) (buf : list Z) (i : Z) : T Z :=
  match fuel with
  | O => mret 0
  | S n =>
      d ← the_data;
      if buf_full (tx_start d) (tx_end d) then mret (Z.of_nat (S n))
      else
        b ← lift (aget buf i);
        tx ← lift (aset (tx_buf d) (tx_end d) b);
        set_data (λ d, d <| tx_buf := tx |> <| tx_end ::= buf_incidx |>);;
        put_loop n buf (i + 1)
  end.
(** The bytes that are left over: [n] itself when it is not positive. *)
Definition tuxctl_ldisc_put (junk buf : list Z) (n : Z) : T Z :=
  the_data;;
  n ← (if n >? 0 then put_loop (Z.to_nat n) buf 0 else mret n);
  tuxctl_ldisc_write_wakeup junk;;
  mret n.
End tux.

(** The requests of user programs, none of which is implemented *)
Definition tuxctl_ioctl (cmd arg : Z) : Z := -22.      (* -EINVAL *)

(** The first bytes of the packets ([mtcp.h]) *)
Definition MTCP_RESP (n : Z) : Z := Z.lor (Z.lor (Z.land n 7) (Z.shiftl (Z.land n 24) 1)) 64.
Definition MTCP_IS_MOUSE (n : Z) : bool := 8 =? Z.land n 200.
Definition MTCP_CMD (c : Z) : Z := Z.lor 192 c.

(** ** The rings as queues *)
Record ring (buf : list Z) (s e : Z) (q : list Z) : Prop := {
  ring_length : zlen buf = TUXCTL_BUFSIZE;
  ring_start : 0 ≤ s < TUXCTL_BUFSIZE;
  ring_room : zlen q < TUXCTL_BUFSIZE;
  ring_end : e = (s + zlen q) mod TUXCTL_BUFSIZE;
  ring_get : ∀ k, 0 ≤ k < zlen q → aget buf ((s + k) mod TUXCTL_BUFSIZE) = aget q k;
}.

Lemma incidx_mod i : 0 ≤ i → buf_incidx i = (i + 1) mod TUXCTL_BUFSIZE.
Proof. intros. unfold buf_incidx. apply Z.rem_mod_nonneg; unfold TUXCTL_BUFSIZE; lia. Qed.

Lemma ring_empty buf : zlen buf = TUXCTL_BUFSIZE → ring buf 0 0 [].
Proof. intros Hl. by split; try (unfold TUXCTL_BUFSIZE in *; cbn; lia). Qed.

Lemma ring_is_empty buf s e q : ring buf s e q → buf_empty s e = bool_decide (q = []).
Proof.
  intros [_ Hs Hr -> _]. unfold buf_empty, TUXCTL_BUFSIZE in *. destruct q as [|b q].
  - rewrite Z.add_0_r, Z.mod_small by lia. by rewrite Z.eqb_refl.
  - rewrite bool_decide_false by done. apply Z.eqb_neq. cbn [length] in *. Z.div_mod_to_equations. lia.
Qed.
Lemma ring_is_full buf s e q : ring buf s e q → buf_full s e = (zlen q =? 63).
Proof.
  intros [_ Hs Hr -> _]. unfold buf_full, TUXCTL_BUFSIZE in *.
  rewrite Z.rem_mod_nonneg by (try apply Z.add_nonneg_nonneg; try (apply Z.mod_pos_bound; lia); lia).
  apply eq_true_iff_eq. rewrite !Z.eqb_eq. Z.div_mod_to_equations. lia.
Qed.
Lemma ring_push buf s e q b :
  ring buf s e q → zlen q ≠ 63 →
  ∃ buf', aset buf e b = Some buf' ∧ ring buf' s (buf_incidx e) (q ++ [b]).
Proof.
  intros [Hl Hs Hr He Hg] Hn. unfold TUXCTL_BUFSIZE in *.
  assert (0 ≤ e < 64) by (subst e; apply Z.mod_pos_bound; lia).
  exists (<[Z.to_nat e := b]> buf). split; [apply aset_in; lia|]. split; unfold TUXCTL_BUFSIZE; autorewrite with ece.
  - done.
  - done.
  - cbn. lia.
  - rewrite incidx_mod by lia. subst e. cbn. unfold TUXCTL_BUFSIZE. Z.div_mod_to_equations. lia.
  - cbn. intros k Hk. rewrite aget_insert by lia. case_decide as Hc.
    + assert (k = zlen q) as -> by (subst e; Z.div_mod_to_equations; lia).
      rewrite aget_of_nat. by rewrite list_lookup_middle.
    + assert (k < zlen q) by (destruct (decide (k = zlen q)); [subst; lia|lia]).
      rewrite Hg by lia. rewrite !aget_nonneg by lia. by rewrite lookup_app_l by lia.
Qed.
Lemma ring_pop buf s e b q :
  ring buf s e (b :: q) → aget buf s = Some b ∧ ring buf (buf_incidx s) e q.
Proof.
  intros [Hl Hs Hr He Hg]. unfold TUXCTL_BUFSIZE in *. cbn [length] in *. split.
  - specialize (Hg 0 ltac:(lia)). by rewrite Z.add_0_r, Z.mod_small in Hg by lia.
  - rewrite incidx_mod by lia. unfold TUXCTL_BUFSIZE. split; unfold TUXCTL_BUFSIZE.
    + done.
    + apply Z.mod_pos_bound. lia.
    + lia.
    + subst e. rewrite Zplus_mod_idemp_l. f_equal. lia.
    + intros k Hk. rewrite Zplus_mod_idemp_l. replace (s + 1 + k) with (s + (k + 1)) by lia.
      rewrite Hg by lia. rewrite !aget_nonneg by lia. by replace (Z.to_nat (k + 1)) with (S (Z.to_nat k)) by lia.
Qed.

(** ** The packets of a stream *)
Fixpoint frame (l : list Z) : list (list Z) * list Z :=
  match l with
  | a :: ((b :: c :: l'') as l') =>
      if framed a b c then let '(ps, rest) := frame l'' in ([a; b; c] :: ps, rest)
      else frame l'
  | _ => ([], l)
  end.

Lemma frame_ind (P : list Z → Prop) :
  (∀ l, (length l ≤ 2)%nat → P l) →
  (∀ a b c l, framed a b c = true → P l → P (a :: b :: c :: l)) →
  (∀ a b c l, framed a b c = false → P (b :: c :: l) → P (a :: b :: c :: l)) → ∀ l, P l.
Proof.
  intros Hs Ht Hf l. remember (length l) as n eqn:Hn. revert l Hn.
  induction n as [n IH] using lt_wf_ind. intros [|a [|b [|c l]]] Hn; [apply Hs; cbn; lia..|].
  cbn in Hn. destruct (framed a b c) eqn:E.
  - apply Ht; [done|]. eapply IH; [|done]. lia.
  - apply Hf; [done|]. eapply IH; [|done]. cbn. lia.
Qed.
Lemma frame_short l : (length l ≤ 2)%nat → frame l = ([], l).
Proof. destruct l as [|a [|b [|c l]]]; cbn; [done..|lia]. Qed.
Lemma frame_packet a b c l :
  framed a b c = true → frame (a :: b :: c :: l) = ([a; b; c] :: (frame l).1, (frame l).2).
Proof. intros H. cbn [frame]. rewrite H. by destruct (frame l). Qed.
Lemma frame_skip a b c l : framed a b c = false → frame (a :: b :: c :: l) = frame (b :: c :: l).
Proof. intros H. cbn [frame]. by rewrite H. Qed.

Lemma frame_rest l : (length (frame l).2 ≤ 2)%nat.
Proof.
  induction l as [l Hl|a b c l E IH|a b c l E IH] using frame_ind.
  - by rewrite frame_short.
  - by rewrite frame_packet.
  - by rewrite frame_skip.
Qed.
(** The bytes may come in any pieces. *)
Lemma frame_app l m :
  frame (l ++ m) = ((frame l).1 ++ (frame ((frame l).2 ++ m)).1, (frame ((frame l).2 ++ m)).2).
Proof.
  induction l as [l Hl|a b c l E IH|a b c l E IH] using frame_ind.
  - rewrite (frame_short l) by done. cbn. by destruct (frame _).
  - rewrite (frame_packet a b c l) by done. cbn [app]. rewrite frame_packet, IH by done. done.
  - rewrite (frame_skip a b c l) by done. cbn [app]. rewrite frame_skip by done. exact IH.
Qed.
(** Every one of the 32 responses starts a packet, is no mouse packet, and can be
    told from the others. *)
Lemma response_framed n b c :
  0 ≤ n < 32 → Z.testbit b 7 = true → Z.testbit c 7 = true →
  framed (MTCP_RESP n) b c = true ∧ MTCP_IS_MOUSE (MTCP_RESP n) = false ∧
  Z.lor (Z.land (MTCP_RESP n) 7) (Z.land (Z.shiftr (MTCP_RESP n) 1) 24) = n.
Proof.
  intros Hn Hb Hc.
  assert (Hbit : ∀ x, Z.testbit x 7 = true → (Z.land x 128 =? 0) = false).
  { intros x Hx. apply Z.eqb_neq. intros H. apply (f_equal (λ y, Z.testbit y 7)) in H.
    rewrite Z.land_spec, Hx in H. discriminate. }
  unfold framed. rewrite (Hbit b Hb), (Hbit c Hc). cbn [negb]. rewrite !andb_true_r.
  assert (Ha : forallb (λ n, (Z.land (MTCP_RESP n) 128 =? 0) && negb (MTCP_IS_MOUSE (MTCP_RESP n)) &&
    (Z.lor (Z.land (MTCP_RESP n) 7) (Z.land (Z.shiftr (MTCP_RESP n) 1) 24) =? n)) (seqZ 0 32) = true) by (vm_compute; reflexivity).
  rewrite forallb_forall in Ha. specialize (Ha n). apply andb_prop in Ha as [[H1 H2%negb_true_iff]%andb_prop H3%Z.eqb_eq].
  - done.
  - apply list_elem_of_In, elem_of_seqZ. lia.
Qed.
(** A packet is found whatever comes before it. *)
Lemma frame_found g a b c l :
  framed a b c = true →
  frame (g ++ a :: b :: c :: l) = ((frame g).1 ++ [a; b; c] :: (frame l).1, (frame l).2).
Proof.
  intros E. rewrite frame_app. pose proof (frame_rest g) as Hr.
  assert (Ha : Z.land a 128 = 0).
  { unfold framed in E. apply andb_prop in E as [[E _]%andb_prop _]. by apply Z.eqb_eq. }
  assert (Hn : ∀ x y, framed x a y = false ∧ framed x y a = false).
  { intros x y. unfold framed. rewrite Ha. cbn. split; [by rewrite andb_false_r|by rewrite !andb_false_r]. }
  assert (frame ((frame g).2 ++ a :: b :: c :: l) = ([a; b; c] :: (frame l).1, (frame l).2)) as ->; [|done].
  destruct (frame g).2 as [|x [|y [|z r]]]; cbn [length] in Hr; [..|lia]; cbn [app].
  - by apply frame_packet.
  - rewrite frame_skip by apply Hn. by apply frame_packet.
  - rewrite frame_skip by apply Hn. rewrite frame_skip by apply Hn. by apply frame_packet.
Qed.

(** ** Receiving, in terms of the queues *)
Section runs.
Context {D : Type} `{serial_driver D}.
Implicit Types t : @tty D.

Lemma the_data_bind {B} (f : tuxctl_ldisc_data → M (@tty D) B) t d :
  disc_data t = Some d → (the_data ≫= f) t = f d t.
Proof. intros Hd. unfold the_data, mbind, M_bind, gets, lift. by rewrite Hd. Qed.
Lemma set_data_bind {B} g (f : () → M (@tty D) B) t d :
  disc_data t = Some d → (set_data g ≫= f) t = f () (t <| disc_data := Some (g d) |>).
Proof. intros Hd. unfold set_data. rewrite bind_assoc, (the_data_bind _ _ _ Hd). by rewrite bind_modify. Qed.

(** [d'] has [q'] in its receive ring, and the same in the other. *)
Definition rx_holds (d : tuxctl_ldisc_data) (q : list Z) : Prop := ring (rx_buf d) (rx_start d) (rx_end d) q.
Definition tx_holds (d : tuxctl_ldisc_data) (q : list Z) : Prop := ring (tx_buf d) (tx_start d) (tx_end d) q.
Definition same_tx (d d' : tuxctl_ldisc_data) : Prop :=
  tx_buf d' = tx_buf d ∧ tx_start d' = tx_start d ∧ tx_end d' = tx_end d.

Lemma rcv_loop_run n pre l t d q :
  disc_data t = Some d → rx_holds d q → (n ≤ length l)%nat →
  ∃ d', rcv_loop n (pre ++ l) (zlen pre) t = Some ((), t <| disc_data := Some d' |>) ∧
    rx_holds d' (q ++ take (63 - length q) (take n l)) ∧ same_tx d d'.
Proof.
  revert pre l t d q. induction n as [|n IH]; intros pre l t d q Hd Hq Hn; cbn [rcv_loop].
  - exists d. rewrite take_0, take_nil, app_nil_r. split; [by destruct t; cbn in *; subst|]. by split.
  - rewrite (the_data_bind _ _ _ Hd), (ring_is_full _ _ _ _ Hq).
    destruct (Z.eqb_spec (zlen q) 63) as [Hf|Hf].
    + exists d. replace (63 - length q)%nat with 0%nat by lia. rewrite take_0, app_nil_r.
      split; [by destruct t; cbn in *; subst|]. by split.
    + destruct l as [|b l]; [cbn in Hn; lia|].
      assert (Hb : aget (pre ++ b :: l) (zlen pre) = Some b).
      { rewrite aget_of_nat. by rewrite list_lookup_middle. }
      rewrite (bind_lift _ _ _ _ Hb).
      destruct (ring_push _ _ _ _ b Hq Hf) as (buf&Hset&Hq'). rewrite (bind_lift _ _ _ _ Hset).
      rewrite (set_data_bind _ _ _ _ Hd). set (d1 := setter rx_end _ _). set (t1 := setter disc_data _ _).
      destruct (IH (pre ++ [b]) l t1 d1 (q ++ [b])) as (d'&Hrun&Hq''&Htx); [done|done|cbn in Hn; lia|].
      exists d'. rewrite <- app_assoc in Hrun. cbn [app] in Hrun. rewrite length_app in Hrun. cbn [length] in Hrun.
      replace (zlen pre + 1) with (Z.of_nat (length pre + 1)) by lia.
      split; [exact Hrun|]. split; [|done].
      pose proof (ring_room _ _ _ _ Hq) as Hr. unfold TUXCTL_BUFSIZE in Hr.
      replace (63 - length q)%nat with (S (63 - length (q ++ [b]))) by (rewrite length_app; cbn; lia).
      cbn [take]. by rewrite <- app_assoc in Hq''.
Qed.

(** A local array whose first elements are written. *)
Definition part (bs : list Z) (k : nat) : list (option Z) := (Some <$> bs) ++ replicate k None.
Lemma part_set bs k b : aset (part bs (S k)) (zlen bs) (Some b) = Some (part (bs ++ [b]) k).
Proof.
  unfold part. rewrite aset_in by (rewrite length_app, length_fmap, length_replicate; lia).
  rewrite Nat2Z.id. f_equal.
  rewrite insert_app_r_alt by (by rewrite length_fmap). rewrite length_fmap, Nat.sub_diag.
  cbn. by rewrite fmap_app, <- app_assoc.
Qed.
Lemma part_read pre b l k t : read_at (part (pre ++ b :: l) k) (zlen pre) t = Some (b, t).
Proof.
  assert (aget (part (pre ++ b :: l) k) (zlen pre) = Some (Some b)) as Hg.
  { rewrite aget_of_nat. unfold part. rewrite lookup_app_l by (rewrite length_fmap, length_app; cbn; lia).
    rewrite list_lookup_fmap. by rewrite list_lookup_middle. }
  unfold read_at. by rewrite (bind_lift _ _ _ _ Hg).
Qed.
Lemma part_read_at pre l k j z b t :
  l !! j = Some b → z = Z.of_nat j → read_at (part (pre ++ l) k) (zlen pre + z) t = Some (b, t).
Proof.
  intros Hj ->. rewrite <- (take_drop_middle l j b Hj), app_assoc, <- Nat2Z.inj_add.
  assert (length (pre ++ take j l) = (length pre + j)%nat) as <-.
  { rewrite length_app, length_take. apply lookup_lt_Some in Hj. lia. }
  apply part_read.
Qed.

Lemma get_loop_run n bs k r t d q :
  disc_data t = Some d → rx_holds d q → (n ≤ k)%nat →
  ∃ d', get_loop n (part bs k) (zlen bs) r t =
      Some ((r + zlen (take n q), part (bs ++ take n q) (k - length (take n q))), t <| disc_data := Some d' |>) ∧
    rx_holds d' (drop n q) ∧ same_tx d d'.
Proof.
  revert bs k r t d q. induction n as [|n IH]; intros bs k r t d q Hd Hq Hn; cbn [get_loop].
  - exists d. rewrite take_0, app_nil_r. cbn [length]. rewrite Z.add_0_r, Nat.sub_0_r.
    split; [by destruct t; cbn in *; subst|]. by split.
  - rewrite (the_data_bind _ _ _ Hd), (ring_is_empty _ _ _ _ Hq). destruct q as [|b q].
    + exists d. cbn [take drop length]. rewrite Z.add_0_r, Nat.sub_0_r, app_nil_r.
      split; [by destruct t; cbn in *; subst|]. by split.
    + rewrite bool_decide_false by done. destruct (ring_pop _ _ _ _ _ Hq) as [Hb Hq'].
      rewrite (bind_lift _ _ _ _ Hb). destruct k as [|k]; [lia|]. rewrite (bind_lift _ _ _ _ (part_set _ _ _)).
      rewrite (set_data_bind _ _ _ _ Hd). set (d1 := setter rx_start _ _). set (t1 := setter disc_data _ _).
      destruct (IH (bs ++ [b]) k (r + 1) t1 d1 q) as (d'&Hrun&Hq''&Htx); [done|done|lia|].
      exists d'. rewrite length_app in Hrun. cbn [length] in Hrun.
      replace (zlen bs + 1) with (Z.of_nat (length bs + 1)) by lia. rewrite Hrun. cbn [take drop length].
      split; [|done]. rewrite <- app_assoc. cbn [app]. by replace (r + 1 + zlen (take n q)) with (r + Z.of_nat (S (length (take n q)))) by lia.
Qed.

Lemma frame_loop_run l : ∀ fuel pre k t,
  (1 ≤ fuel)%nat → (length l ≤ S fuel)%nat →
  ∃ mid, pre ++ l = mid ++ (frame l).2 ∧
    frame_loop fuel (part (pre ++ l) k) (zlen (pre ++ l)) (zlen pre) t =
      Some (zlen mid, t <| handled ::= (.++ (frame l).1) |>).
Proof.
  induction l as [l Hl|a b c l E IH|a b c l E IH] using frame_ind; intros fuel pre k t H1 Hf;
    (destruct fuel as [|fuel]; [lia|]); clear H1; cbn [frame_loop].
  - exists pre. rewrite frame_short by done. split; [done|].
    rewrite (proj2 (Z.ltb_ge _ _)) by (rewrite length_app; lia). cbn. rewrite app_nil_r. by destruct t.
  - rewrite (proj2 (Z.ltb_lt _ _)) by (rewrite length_app; cbn; lia).
    destruct (IH fuel (pre ++ [a; b; c]) k (t <| handled ::= (.++ [[a; b; c]]) |>)) as (mid&Hmid&Hrun); [cbn in Hf; lia..|].
    rewrite <- app_assoc in Hmid, Hrun. cbn [app] in Hmid, Hrun. rewrite frame_packet by done.
    exists mid. split; [exact Hmid|].
    rewrite (bind_run _ _ _ _ _ (part_read _ _ _ _ _)), (bind_run _ _ _ _ _ (part_read_at _ (a :: b :: c :: l) _ 1 1 b _ eq_refl eq_refl)),
      (bind_run _ _ _ _ _ (part_read_at _ (a :: b :: c :: l) _ 2 2 c _ eq_refl eq_refl)), E.
    unfold tuxctl_handle_packet. rewrite bind_modify.
    rewrite (length_app pre [a; b; c]), Nat2Z.inj_add in Hrun.
    etrans; [exact Hrun|]. cbn. by rewrite <- app_assoc.
  - rewrite (proj2 (Z.ltb_lt _ _)) by (rewrite length_app; cbn; lia).
    destruct (IH fuel (pre ++ [a]) k t) as (mid&Hmid&Hrun); [cbn in *; lia..|].
    rewrite <- app_assoc in Hmid, Hrun. cbn [app] in Hmid, Hrun. rewrite frame_skip by done.
    exists mid. split; [exact Hmid|].
    rewrite (bind_run _ _ _ _ _ (part_read _ _ _ _ _)), (bind_run _ _ _ _ _ (part_read_at _ (a :: b :: c :: l) _ 1 1 b _ eq_refl eq_refl)),
      (bind_run _ _ _ _ _ (part_read_at _ (a :: b :: c :: l) _ 2 2 c _ eq_refl eq_refl)), E.
    by rewrite (length_app pre [a]), Nat2Z.inj_add in Hrun.
Qed.

(** The line discipline with [q] in its receive ring, [sv] kept of the last
    packet, and [x] in its send ring *)
Record holds t (q sv x : list Z) : Prop := {
  h_data : ∃ d, disc_data t = Some d ∧ rx_holds d q ∧ tx_holds d x;
  h_saved : length (saved t) = 2%nat ∧ take (length sv) (saved t) = sv;
  h_count : n_saved t = zlen sv ∧ (length sv ≤ 2)%nat;
}.

Lemma load_saved_run bs n t k l :
  (n ≤ k)%nat → saved t = bs ++ l → (n ≤ length l)%nat →
  load_saved n (zlen bs) (part bs k) t = Some (part (bs ++ take n l) (k - n), t).
Proof.
  revert bs k l. induction n as [|n IH]; intros bs k l Hk Hs Hl; cbn [load_saved].
  - by rewrite take_0, app_nil_r, Nat.sub_0_r.
  - destruct l as [|b l]; [cbn in Hl; lia|]. destruct k as [|k]; [lia|]. rewrite bind_gets, Hs.
    assert (aget (bs ++ b :: l) (zlen bs) = Some b) as Hg by (rewrite aget_of_nat; by rewrite list_lookup_middle).
    rewrite (bind_lift _ _ _ _ Hg), (bind_lift _ _ _ _ (part_set _ _ _)).
    specialize (IH (bs ++ [b]) k l). rewrite length_app, Nat2Z.inj_add in IH. cbn [length] in *. change (Z.of_nat 1) with 1 in IH.
    rewrite IH by (try lia; by rewrite <- app_assoc). by rewrite <- app_assoc.
Qed.
Lemma keep_left_step mid rest k j z b sv t :
  rest !! j = Some b → z = Z.of_nat j → aset (saved t) z b = Some sv →
  keep_left (part (mid ++ rest) k) (zlen mid) z t = Some ((), t <| saved := sv |>).
Proof.
  intros Hj Hz Hs. unfold keep_left.
  rewrite (bind_run _ _ _ _ _ (part_read_at _ _ _ _ _ _ t Hj Hz)), bind_gets. by rewrite (bind_lift _ _ _ _ Hs).
Qed.
Lemma keep_left_run mid rest k t :
  length (saved t) = 2%nat → (length rest ≤ 2)%nat →
  ∃ sv, for_n (length rest) 0 (keep_left (part (mid ++ rest) k) (zlen mid)) t = Some ((), t <| saved := sv |>) ∧
    length sv = 2%nat ∧ take (length rest) sv = rest.
Proof.
  intros Hs Hr. destruct t as [d s n ps o]. cbn in Hs. destruct s as [|u [|v [|w s]]]; try done.
  destruct rest as [|x [|y [|z rest]]]; [..|cbn in Hr; lia]; cbn [length for_n].
  - by exists [u; v].
  - exists [x; v]. erewrite bind_run by (by apply (keep_left_step mid [x] k 0 0 x [x; v])). done.
  - exists [x; y]. erewrite bind_run by (by apply (keep_left_step mid [x; y] k 0 0 x [x; v])).
    erewrite bind_run by (by apply (keep_left_step mid [x; y] k 1 1 y [x; y])). done.
Qed.

Lemma callback_run t q sv x :
  holds t q sv x →
  ∃ t', tuxctl_ldisc_data_callback t = Some ((), t') ∧
    holds t' (drop (12 - length sv) q) (frame (sv ++ take (12 - length sv) q)).2 x ∧
    handled t' = handled t ++ (frame (sv ++ take (12 - length sv) q)).1 ∧ serial t' = serial t.
Proof.
  intros [(d&Hd&Hq&Hx) [Hs Hsv] [Hn Hl]]. unfold tuxctl_ldisc_data_callback. rewrite bind_gets, Hn, Nat2Z.id.
  pose proof (load_saved_run [] (length sv) t 12 (saved t)) as Hload. cbn [app] in Hload.
  rewrite Hsv in Hload. rewrite (bind_run _ _ _ _ _ (Hload ltac:(lia) eq_refl ltac:(lia))).
  set (n := (12 - length sv)%nat).
  destruct (get_loop_run n sv n 0 t d q Hd Hq) as (d1&Hget&Hq1&Htx1); [lia|].
  unfold tuxctl_ldisc_get. replace (Z.to_nat (12 - zlen sv)) with n by lia.
  rewrite (bind_run (the_data;; get_loop n (part sv n) (zlen sv) 0) _ _ t _
    (eq_trans (the_data_bind _ _ _ Hd) Hget)). cbn iota beta.
  set (t1 := setter disc_data _ t). set (got := take n q) in *. set (k := (n - length got)%nat).
  destruct (frame_loop_run (sv ++ got) 12 [] k t1) as (mid&Hmid&Hfr).
  { lia. }
  { rewrite length_app. unfold got. rewrite length_take. lia. }
  cbn [app length] in Hmid, Hfr. change (Z.of_nat 0) with 0 in Hfr.
  replace (zlen sv + (0 + zlen got)) with (zlen (sv ++ got)) by (rewrite length_app; lia).
  rewrite (bind_run _ _ _ _ _ Hfr), bind_modify. set (rest := (frame (sv ++ got)).2) in *.
  assert (zlen (sv ++ got) - zlen mid = zlen rest) as -> by (rewrite Hmid, length_app; lia).
  rewrite Nat2Z.id, Hmid. set (t2 := setter n_saved _ _).
  destruct (keep_left_run mid rest k t2) as (sv'&Hkl&Hs'&Hsv'); [exact Hs|apply frame_rest|].
  exists (t2 <| saved := sv' |>). split; [exact Hkl|]. split; [|done].
  split; [|by split|split; [done|apply frame_rest]]. exists d1. split; [done|]. split; [exact Hq1|].
  unfold tx_holds. destruct Htx1 as (-> & -> & ->). exact Hx.
Qed.

Lemma rcv_buf_run t q sv x cp :
  holds t q sv x →
  let q1 := q ++ take (63 - length q) cp in
  ∃ t', tuxctl_ldisc_rcv_buf cp (zlen cp) t = Some ((), t') ∧
    holds t' (drop (12 - length sv) q1) (frame (sv ++ take (12 - length sv) q1)).2 x ∧
    handled t' = handled t ++ (frame (sv ++ take (12 - length sv) q1)).1 ∧ serial t' = serial t.
Proof.
  intros Hh q1. destruct Hh as [(d&Hd&Hq&Hx) Hs Hc]. unfold tuxctl_ldisc_rcv_buf. rewrite bind_gets, Hd, Nat2Z.id.
  destruct (rcv_loop_run (length cp) [] cp t d q Hd Hq) as (d1&Hrun&Hq1&Htx); [done|]. rewrite (firstn_all cp) in Hq1.
  rewrite (bind_run _ _ _ _ _ Hrun).
  destruct (callback_run (t <| disc_data := Some d1 |>) q1 sv x) as (t'&Hcb&Hh'&Hps&Hser).
  { split; [|done..]. exists d1. split; [done|]. split; [exact Hq1|]. unfold tx_holds. by destruct Htx as (-> & -> & ->). }
  exists t'. split; [exact Hcb|]. by split.
Qed.

(** Bytes arrive in pieces. *)
Fixpoint receive (chunks : list (list Z)) : M (@tty D) () :=
  match chunks with
  | [] => skip
  | cp :: chunks => tuxctl_ldisc_rcv_buf cp (zlen cp);; receive chunks
  end.

Lemma receive_run chunks t q sv x :
  holds t q sv x →
  ∃ t' taken q' accepted, receive chunks t = Some ((), t') ∧
    taken ++ q' = q ++ accepted ∧ accepted `sublist_of` concat chunks ∧
    holds t' q' (frame (sv ++ taken)).2 x ∧ handled t' = handled t ++ (frame (sv ++ taken)).1 ∧
    (q = [] → Forall (λ cp, (length cp ≤ 10)%nat) chunks → q' = [] ∧ accepted = concat chunks).
Proof.
  revert t q sv. induction chunks as [|cp chunks IH]; intros t q sv Hh; cbn [receive concat].
  - exists t, [], q, []. rewrite !app_nil_r. split; [done|]. split; [done|]. split; [constructor|].
    rewrite (frame_short sv) by apply Hh. cbn. by rewrite app_nil_r.
  - destruct (rcv_buf_run t q sv x cp Hh) as (t1&Hrun&Hh1&Hps&_). rewrite (bind_run _ _ _ _ _ Hrun).
    set (n := (12 - length sv)%nat) in *. set (acc := take (63 - length q) cp) in *.
    destruct (IH _ _ _ Hh1) as (t'&taken&q'&accepted&Hr'&Heq&Hsub&Hh'&Hps'&Hall).
    exists t', (take n (q ++ acc) ++ taken), q', (acc ++ accepted). split; [done|].
    pose proof (frame_app (sv ++ take n (q ++ acc)) taken) as Hfr. rewrite <- app_assoc in Hfr. rewrite Hfr. cbn [fst snd].
    split; [rewrite <- app_assoc, Heq, app_assoc, take_drop; by rewrite app_assoc|].
    split; [apply sublist_app; [apply sublist_take|done]|]. split; [done|].
    split; [by rewrite Hps', Hps, app_assoc|].
    intros -> [Hc Hcs]%Forall_cons. cbn [app length] in *.
    pose proof (proj2 (h_count _ _ _ _ Hh)) as Hsv.
    assert (acc = cp) as Hacc by (apply take_ge; lia). rewrite Hacc in *.
    destruct (Hall (drop_ge cp n ltac:(unfold n; lia)) Hcs) as [-> ->]. by split.
Qed.

(** ** Sending, in terms of the queue *)
Lemma wake_loop_run fuel room x : ∀ t d done_ junk k,
  disc_data t = Some d → tx_holds d x → zlen done_ + Z.of_nat k = TUXCTL_BUFSIZE → length junk = k →
  zlen done_ + zlen x < TUXCTL_BUFSIZE → (length x < fuel)%nat →
  let n := Z.to_nat (room + 1 - zlen done_) in
  ∃ d', wake_loop fuel room (zlen done_) (done_ ++ junk) t =
      Some ((zlen (done_ ++ take n x), (done_ ++ take n x) ++ drop (length (take n x)) junk), t <| disc_data := Some d' |>) ∧
    tx_holds d' (drop n x) ∧ rx_buf d' = rx_buf d ∧ rx_start d' = rx_start d ∧ rx_end d' = rx_end d.
Proof.
  revert x. induction fuel as [|fuel IH]; intros x t d dn junk k Hd Hx Hk Hj Hb Hf n; [lia|]. cbn [wake_loop].
  rewrite (the_data_bind _ _ _ Hd), (ring_is_empty _ _ _ _ Hx). destruct x as [|b x].
  - rewrite bool_decide_true, andb_false_r by done. exists d. rewrite take_nil, drop_nil, app_nil_r, drop_0.
    split; [by destruct t; cbn in *; subst|done].
  - rewrite bool_decide_false by done. cbn [negb]. rewrite andb_true_r.
    destruct (Z.leb_spec (zlen dn) room) as [Hle|Hle].
    + destruct (ring_pop _ _ _ _ _ Hx) as [Hg Hx'].
      rewrite (bind_lift _ _ _ _ Hg). destruct junk as [|u junk]; [cbn in *; unfold TUXCTL_BUFSIZE in *; lia|].
      assert (aset (dn ++ u :: junk) (zlen dn) b = Some ((dn ++ [b]) ++ junk)) as Hset.
      { rewrite aset_in by (rewrite length_app; cbn; lia). rewrite Nat2Z.id, insert_app_r_alt, Nat.sub_diag by done.
        cbn. by rewrite <- app_assoc. }
      rewrite (bind_lift _ _ _ _ Hset), (set_data_bind _ _ _ _ Hd). set (d1 := setter tx_start _ _). set (t1 := setter disc_data _ _).
      cbn [length] in *.
      destruct (IH x t1 d1 (dn ++ [b]) junk (k - 1)%nat) as (d'&Hrun&Hrest); try done; rewrite ?length_app; cbn [length]; try lia.
      rewrite length_app, Nat2Z.inj_add in Hrun, Hrest. cbn [length] in Hrun, Hrest. change (Z.of_nat 1) with 1 in *.
      exists d'. rewrite Hrun. unfold n. replace (Z.to_nat (room + 1 - zlen dn)) with (S (Z.to_nat (room + 1 - (zlen dn + 1)))) by lia.
      cbn [take drop length]. rewrite <- !app_assoc. cbn [app]. rewrite length_app. split; [done|exact Hrest].
    + exists d. unfold n. replace (Z.to_nat (room + 1 - zlen dn)) with 0%nat by lia. rewrite take_0, app_nil_r. cbn [length].
      rewrite !drop_0. split; [by destruct t; cbn in *; subst|done].
Qed.
Lemma put_loop_run n pre l : ∀ t d x,
  disc_data t = Some d → tx_holds d x → (n ≤ length l)%nat →
  let k := Nat.min n (63 - length x) in
  ∃ d', put_loop n (pre ++ l) (zlen pre) t = Some (Z.of_nat (n - k), t <| disc_data := Some d' |>) ∧
    tx_holds d' (x ++ take k l) ∧ rx_buf d' = rx_buf d ∧ rx_start d' = rx_start d ∧ rx_end d' = rx_end d.
Proof.
  revert pre l. induction n as [|n IH]; intros pre l t d x Hd Hx Hn k; cbn [put_loop].
  - exists d. rewrite take_0, app_nil_r. split; [by destruct t; cbn in *; subst|done].
  - rewrite (the_data_bind _ _ _ Hd), (ring_is_full _ _ _ _ Hx).
    destruct (Z.eqb_spec (zlen x) 63) as [Hf|Hf].
    + exists d. unfold k. replace (63 - length x)%nat with 0%nat by lia. rewrite Nat.min_0_r, take_0, app_nil_r.
      split; [by destruct t; cbn in *; subst|done].
    + destruct l as [|b l]; [cbn in Hn; lia|].
      assert (aget (pre ++ b :: l) (zlen pre) = Some b) as Hg by (rewrite aget_of_nat; by rewrite list_lookup_middle).
      rewrite (bind_lift _ _ _ _ Hg). destruct (ring_push _ _ _ _ b Hx Hf) as (buf&Hset&Hx').
      rewrite (bind_lift _ _ _ _ Hset), (set_data_bind _ _ _ _ Hd).
      set (d1 := setter tx_end _ _). set (t1 := setter disc_data _ _).
      destruct (IH (pre ++ [b]) l t1 d1 (x ++ [b])) as (d'&Hrun&Hx''&Hrx); [done|done|cbn in Hn; lia|].
      exists d'. rewrite <- app_assoc in Hrun. cbn [app] in Hrun. rewrite (length_app pre), Nat2Z.inj_add in Hrun.
      cbn [length] in *. change (Z.of_nat 1) with 1 in *. rewrite Hrun.
      pose proof (ring_room _ _ _ _ Hx) as Hr. unfold TUXCTL_BUFSIZE in Hr.
      rewrite length_app in *. cbn [length] in *.
      unfold k. replace (Nat.min (S n) (63 - length x)) with (S (Nat.min n (63 - (length x + 1)))) by lia.
      split; [done|]. split; [|exact Hrx]. cbn [take]. by rewrite <- app_assoc in Hx''.
Qed.

Lemma open_run rx tx t :
  zlen rx = TUXCTL_BUFSIZE → zlen tx = TUXCTL_BUFSIZE → length (saved t) = 2%nat → n_saved t = 0 →
  ∃ t', tuxctl_ldisc_open (Some (rx, tx)) t = Some (0, t') ∧ holds t' [] [] [] ∧
    handled t' = handled t ∧ serial t' = serial t.
Proof.
  intros Hrx Htx Hs Hn. eexists. split; [reflexivity|]. split; [|done]. split; cbn.
  - eexists. split; [reflexivity|]. split; by apply ring_empty.
  - by split.
  - split; [done|lia].
Qed.


Context `{!lawful_driver D}.

(** Sending to the Tux controller: of [n] bytes as many are queued as the ring
    has room for, and the number of the others is returned; then the front of the
    queue goes to the serial driver, in order, as far as that has room.  But the
    queue is cut one byte after what the driver had room for: the byte next in
    line is lost, unless the queue was that short. *)
Lemma tux_put_sends junk buf n t q sv x :
  holds t q sv x → zlen junk = TUXCTL_BUFSIZE → (n ≤ length buf)%nat →
  let x' := x ++ take (63 - length x) (take n buf) in
  let room := Z.to_nat (write_room (serial t)) in
  ∃ t', tuxctl_ldisc_put junk buf (Z.of_nat n) t = Some (Z.of_nat (n - (63 - length x)), t') ∧
    sent (serial t') = sent (serial t) ++ take room x' ∧
    holds t' q sv (drop (room + 1) x').
Proof.
  intros [(d&Hd&Hq&Hx) Hs Hc] Hj Hn x' room. unfold tuxctl_ldisc_put. rewrite (the_data_bind _ _ _ Hd).
  destruct (put_loop_run n [] buf t d x Hd Hx Hn) as (d1&Hput&Hx1&Hrx1). cbn [app length] in Hput.
  assert (x' = x ++ take (n `min` (63 - length x)) buf) as Hx' by (unfold x'; by rewrite take_take, Nat.min_comm).
  rewrite <- Hx' in Hx1. set (t1 := setter disc_data _ t) in Hput.
  assert ((if Z.of_nat n >? 0 then put_loop (Z.to_nat (Z.of_nat n)) buf 0 else mret (Z.of_nat n)) t =
    Some (Z.of_nat (n - (63 - length x)), t1)) as Hput'.
  { replace (n - (63 - length x))%nat with (n - n `min` (63 - length x))%nat by lia. rewrite Nat2Z.id, <- Hput.
    by destruct n. }
  rewrite (bind_run _ _ _ _ _ Hput'). unfold tuxctl_ldisc_write_wakeup. rewrite bind_assoc, bind_gets.
  change (serial t1) with (serial t).
  pose proof (room_nonneg (serial t)) as Hr. pose proof (ring_room _ _ _ _ Hx1) as Hlt.
  unfold TUXCTL_BUFSIZE in *.
  destruct (wake_loop_run 64 (write_room (serial t)) x' t1 d1 [] junk 64) as (d2&Hw&Hx2&Hrx2); try (done || cbn; lia).
  cbn [app length] in Hw, Hx2. change (Z.of_nat 0) with 0 in *. rewrite Z.sub_0_r in *.
  replace (Z.to_nat (write_room (serial t) + 1)) with (room + 1)%nat in * by lia.
  rewrite bind_assoc, (bind_run _ _ _ _ _ Hw), bind_modify, Nat2Z.id, take_app_length.
  eexists. split; [reflexivity|].
  destruct (write_takes (take (room + 1) x') (serial t)) as (o&Hwr&Hsent). split.
  - cbn. rewrite Hwr. cbn. rewrite Hsent, take_take. by replace (Z.to_nat _ `min` (room + 1))%nat with room by lia.
  - split; [|done..]. exists d2. split; [done|]. split; [|exact Hx2].
    unfold rx_holds. destruct Hrx1 as (E1&E2&E3), Hrx2 as (F1&F2&F3). rewrite F1, F2, F3, E1, E2, E3. exact Hq.
Qed.
End runs.

(** ** Instances *)

(** A serial port that has room for [fst] bytes and has sent [snd] *)
#[export] Instance port_driver : serial_driver (Z * list Z) := {|
  write_room d := Z.max 0 d.1;
  driver_write bs d := let k := Z.min (zlen bs) (Z.max 0 d.1) in (k, (d.1 - k, d.2 ++ take (Z.to_nat k) bs));
|}.
#[export] Instance port_lawful : lawful_driver (Z * list Z).
Proof.
  refine {| sent := snd |}.
  - intros d. cbn. lia.
  - intros bs d. eexists. split; [reflexivity|]. cbn. f_equal.
    destruct (decide (zlen bs ≤ Z.max 0 d.1)).
    + rewrite Z.min_l, Nat2Z.id by lia. rewrite firstn_all. symmetry. apply take_ge. lia.
    + by rewrite Z.min_r by lia.
Defined.
Definition demo_tty (room : Z) : @tty (Z * list Z) := mk_tty None [0; 0] 0 [] (room, []).
Definition zero_ring : list Z := replicate 64 0.


(** A driver with room for one byte: of three, the second is lost. *)
Lemma tux_put_sends_witness :
  ∃ t0 t', tuxctl_ldisc_open (Some (zero_ring, zero_ring)) (demo_tty 1) = Some (0, t0) ∧
    tuxctl_ldisc_put zero_ring [1; 2; 3] 3 t0 = Some (0, t') ∧ (serial t').2 = [1] ∧ holds t' [] [] [3].
Proof.
  destruct (open_run zero_ring zero_ring (demo_tty 1) eq_refl eq_refl eq_refl eq_refl) as (t0&Ho&Hh&_&Hser).
  destruct (tux_put_sends zero_ring [1; 2; 3] 3 t0 [] [] [] Hh) as (t'&Hput&Hsent&Hh'); [reflexivity|cbn; lia|].
  exists t0, t'. split; [exact Ho|]. split; [exact Hput|]. rewrite Hser in Hsent, Hh'. by split.
Defined.
