(* ===== verification/Missile.v ===== *)
(** * Missile: the missile command game ([mp1/missile-command.c], [mp1-given.c], [vga.c])

    The user's side of the game (keys, crosshairs, launching of missiles, the
    text screen) and the given part of the kernel's side, what an exploding
    missile does.  The kernel module itself, in assembly, is met through the
    [ioctl]s that the game makes, which are recorded. *)
From S2P Require Import Prelude.

(** ** Keys *)
Inductive command_t := NOKEY | QUIT | LEFT | RIGHT | UP | DOWN | FIRE.
#[export] Instance command_eq_dec : EqDecision command_t.
Proof. solve_decision. Defined.

(** The first [switch]; [ch] is a [char]. *)
Definition key_command (ch : Z) : option command_t :=
  if ch =? 96 then Some QUIT else if ch =? 32 then Some FIRE
  else if ch =? 104 then Some LEFT else if ch =? 106 then Some DOWN
  else if ch =? 107 then Some UP else if ch =? 108 then Some RIGHT else None.
Definition arrow_command (ch : Z) : option command_t :=
  if ch =? 65 then Some UP else if ch =? 66 then Some DOWN
  else if ch =? 67 then Some RIGHT else if ch =? 68 then Some LEFT else None.

(** The loop of [get_command] from [state]: the command, and the bytes that are
    left.  The byte 255 is taken for [EOF], as [ch] is a [char]. *)
Fixpoint command_loop (state : Z) (stdin : list Z) : command_t * list Z :=
  match stdin with
  | [] => (NOKEY, [])
  | b :: stdin =>
      let ch := i8 b in
      if ch =? -1 then (NOKEY, stdin)
      else match key_command ch with
      | Some c => (c, stdin)
      | None =>
          if ch =? 27 then command_loop 1 stdin
          else if (ch =? 91) && (state =? 1) then command_loop 2 stdin
          else if (state =? 2) && (65 <=? ch) && (ch <=? 68) then
            match arrow_command ch with Some c => (c, stdin) | None => command_loop 0 stdin end
          else command_loop 0 stdin
      end
  end.
Definition get_command (stdin : list Z) : command_t * list Z := command_loop 0 stdin.

(** ** The game's state *)
Record missile := mk_missile {
  x : Z; y : Z;                 (* 16.16 fixed point *)
  vx : Z; vy : Z;
  dest_x : Z; dest_y : Z;
  exploded : Z;
  c : Z;
}.
#[export] Instance missile_settable : Settable missile := λ m,
  mk_missile (x m) (y m) (vx m) (vy m) (dest_x m) (dest_y m) (exploded m) (c m).

Inductive rtc_call := RTC_ADDMISSILE (m : missile) | RTC_MOVEXHAIRS (d : Z).

(** The statics of the file and of [main]; [rand] are the numbers to come of
    [rand ()], [calls] the [ioctl]s made, oldest first. *)
Record game := mk_game {
  chx : Z; chy : Z;
  fired : Z; score : Z; bases_left : Z;
  avg_ival : Z; ival : Z;       (* unsigned long *)
  count : Z;
  rands : list Z;
  calls : list rtc_call;
}.
#[export] Instance game_settable : Settable game := λ g,
  mk_game (chx g) (chy g) (fired g) (score g) (bases_left g) (avg_ival g) (ival g) (count g) (rands g) (calls g).
Abbreviation G := (M game).
Definition ioctl (r : rtc_call) : G () := modify (λ g, g <| calls ::= (.++ [r]) |>).
Definition rand : G Z := λ g,
  match rands g with r :: rs => Some (r, g <| rands := rs |>) | [] => None end.

(** [sqrt] of a number that a [double] holds exactly, cut to an [int] *)
Definition int_sqrt (n : Z) : option Z := if n <? 0 then None else Some (Z.sqrt n).
(** The [int] division; dividing by zero traps. *)
Definition int_div (a b : Z) : option Z := if b =? 0 then None else Some (i32 (Z.quot a b)).

Definition make_missile (sx sy dx dy ch vel : Z) : G () :=
  let vx := i32 (dx - sx) in
  let vy := i32 (dy - sy) in
  mag ← lift (int_sqrt (i32 (Z.shiftl (i32 (vx * vx + vy * vy)) 16)));
  mvx ← lift (int_div (i32 (i32 (Z.shiftl vx 16) * vel)) mag);
  mvy ← lift (int_div (i32 (i32 (Z.shiftl vy 16) * vel)) mag);
  ioctl (RTC_ADDMISSILE (mk_missile (Z.lor (i32 (Z.shiftl sx 16)) 32768) (Z.lor (i32 (Z.shiftl sy 16)) 32768)
    mvx mvy dx dy 0 ch)).

(** ** The crosshairs *)
Definition command_step (cmd : command_t) : Z * Z :=
  match cmd with LEFT => (-1, 0) | RIGHT => (1, 0) | UP => (0, -1) | DOWN => (0, 1) | _ => (0, 0) end.
Definition fire : G () :=
  cx ← gets chx; cy ← gets chy;
  make_missile 79 24 cx cy 42 200;;
  modify (λ g, g <| fired ::= λ n, i32 (n + 1) |>).
Definition move_crosshairs (dx dy : Z) : G () :=
  modify (λ g, g <| chx ::= λ x, i32 (x + dx) |>);;
  modify (λ g, if 80 <=? chx g then g <| chx := 79 |> else g);;
  modify (λ g, if chx g <? 0 then g <| chx := 0 |> else g);;
  modify (λ g, g <| chy ::= λ y, i32 (y + dy) |>);;
  modify (λ g, if 24 <=? chy g then g <| chy := 24 |> else g);;
  modify (λ g, if chy g <? 0 then g <| chy := 0 |> else g);;
  ioctl (RTC_MOVEXHAIRS (Z.lor (Z.land (u32 dx) 65535) (Z.shiftl (Z.land (u32 dy) 65535) 16))).
Definition update_crosshairs (cmd : command_t) : G () :=
  let '(dx, dy) := command_step cmd in
  (if decide (cmd = FIRE) then fire else skip);;
  if negb (dx =? 0) || negb (dy =? 0) then move_crosshairs dx dy else skip.

(** ** The status word of [RTC_GETSTATUS] *)
Definition sigusr1_handler (status_word : Z) : G () :=
  modify (λ g, g <| score := Z.land status_word 65535 |>
    <| bases_left := Z.land (Z.shiftr status_word 16) 1 + Z.land (Z.shiftr status_word 17) 1 +
                     Z.land (Z.shiftr status_word 18) 1 |>).
Definition accuracy (g : game) : option Z :=
  if fired g =? 0 then Some 0 else int_div (i32 (100 * score g)) (fired g).

(** ** Enemies *)
Definition next_ival : G () :=
  r ← rand;
  modify (λ g, g <| ival := u32 (avg_ival g + i32 (Z.rem r 1000000 - 500000)) |>).
Definition speed_up : G () :=
  modify (λ g, g <| count ::= λ n, i32 (n + 1) |>);;
  modify (λ g, if (Z.rem (count g) 10 =? 0) && (200000 <? avg_ival g) then g <| avg_ival ::= λ a, u32 (a - 100000) |> else g).
(** The enemies' missile that comes when [elapsed] microseconds have passed; the
    result is whether the clock is restarted. *)
Definition inject (elapsed : Z) : G bool :=
  i ← gets ival;
  if i <=? elapsed then
    speed_up;;
    next_ival;;
    a ← rand; b ← rand; d ← rand;
    make_missile (Z.rem a 80) 0 (20 * (Z.rem b 3 + 1)) 24 101 (Z.rem d 5 + 10);;
    mret true
  else mret false.
(** [main] before the loop *)
Definition start_enemies : G () := modify (λ g, g <| avg_ival := 4000000 |>);; next_ival.

(** One round of the loop of [main], with the bytes typed and the time on the
    clock; the result is whether the game goes on. *)
Definition play_round (stdin : list Z) (elapsed : Z) : G bool :=
  b ← gets bases_left;
  if b =? 0 then mret false
  else
    let cmd := (get_command stdin).1 in
    if decide (cmd = QUIT) then mret false
    else update_crosshairs cmd;; inject elapsed;; mret true.

(** ** The text screen ([vga.c])

    80 by 25 cells of two bytes, the character first *)
Abbreviation Vid := (M (list Z)).
Definition vga_write (i v : Z) : Vid () := λ s, s ← aset s i v; Some ((), s).
Definition clear_screen : Vid () :=
  for_n (80 * 25) 0 (λ i, vga_write (2 * i) 32;; vga_write (2 * i + 1) 7).
Definition write_char (c x y : Z) : Vid () := vga_write (Z.shiftl (80 * y + x) 1) c.
Fixpoint write_from (s : list Z) (i : Z) : Vid () :=
  match s with
  | [] => skip
  | c :: s => vga_write i c;; write_from s (i + 2)
  end.
Definition write_string (s : list Z) (x y : Z) : Vid () := write_from s (Z.shiftl (80 * y + x) 1).
(** [strlen] is unsigned, so a string of more than 80 characters does not count
    as negative. *)
Definition draw_centered_string (s : list Z) (y : Z) : Vid () :=
  write_string s (i32 (u32 (80 - zlen s) / 2)) y.
Definition starting_lines : list string := [
  "                       MISSILE COMMAND                          ";
  "                      Mark Murphy, 2007                         ";
  "                                                                ";
  "                          Commands:                             ";
  "               space ................. fire missile             ";
  "          arrow keys ................. move crosshairs          ";
  "             h,j,k,l ................. move crosshairs (vi-style";
  "        ` (backtick) ................. exit the game            ";
  "                                                                ";
  "                                                                ";
  "   Protect your bases by destroying the enemy missiles (e's)    ";
  "   with your missiles. You get 1 point for each enemy           ";
  "   missile you destroy. The game ends when your bases are all   ";
  "   dead or you hit the ` key.                                   ";
  "                                                                ";
  "               Press the space bar to continue.                 "].
Fixpoint draw_lines (l : list string) (line : Z) : Vid () :=
  match l with
  | [] => skip
  | s :: l => draw_centered_string (chars s) line;; draw_lines l (line + 1)
  end.
Definition draw_starting_screen : Vid () := clear_screen;; draw_lines starting_lines 5.

(** ** Explosions ([mp1-given.c]) *)
Record field := mk_field { mp1_missile_list : list missile; base_alive : list Z; mp1_score : Z }.
#[export] Instance field_settable : Settable field := λ f,
  mk_field (mp1_missile_list f) (base_alive f) (mp1_score f).
Abbreviation F := (M field).
Definition get_missile (k : Z) : F missile := l ← gets mp1_missile_list; lift (aget l k).
Definition set_missile (k : Z) (f : missile → missile) : F () :=
  l ← gets mp1_missile_list; m ← lift (aget l k); l ← lift (aset l k (f m));
  modify (λ s, s <| mp1_missile_list := l |>).

Definition kill_base (j : Z) : F Z :=
  l ← gets base_alive; b ← lift (aget l j); l ← lift (aset l j 0);
  modify (λ s, s <| base_alive := l |>);;
  mret (if b =? 0 then 0 else 1).
Definition explode_base (x y : Z) : F Z :=
  if 23 <=? y then
    if (17 <=? x) && (x <=? 23) then kill_base 0
    else if (37 <=? x) && (x <=? 43) then kill_base 1
    else if (57 <=? x) && (x <=? 63) then kill_base 2
    else mret 0
  else mret 0.

Definition in_blast (m i : missile) : bool :=
  let dx := i32 (Z.shiftr (x m) 16 - Z.shiftr (x i) 16) in
  let dy := i32 (Z.shiftr (y m) 16 - Z.shiftr (y i) 16) in
  (-2 <=? dx) && (dx <=? 2) && (-1 <=? dy) && (dy <=? 1) &&
  (exploded i =? 0) && (c i =? 101) && (c m =? 42).
(** The walk along the list from the [j]th missile, [n] of them *)
Fixpoint blast_loop (n : nat) (k j exploded_ : Z) : F Z :=
  match n with
  | O => mret exploded_
  | S n =>
      m ← get_missile k; i ← get_missile j;
      if negb (j =? k) && in_blast m i then
        modify (λ s, s <| mp1_score ::= λ v, i32 (v + 1) |>);;
        set_missile j (λ i, i <| exploded := 50 |>);;
        blast_loop n k (j + 1) (i32 (exploded_ + 1))
      else blast_loop n k (j + 1) exploded_
  end.
(** The explosion of the [k]th missile of the list *)
Definition missile_explode (k : Z) : F Z :=
  m ← get_missile k;
  (if exploded m =? 0 then set_missile k (λ m, m <| exploded := 50 |>) else skip);;
  n ← (if c m =? 101 then explode_base (Z.shiftr (x m) 16) (Z.shiftr (y m) 16) else mret 0);
  l ← gets mp1_missile_list;
  blast_loop (length l) k 0 n.

(** ** Launching *)
Lemma int_sqrt_spec n : 0 ≤ n → ∃ m, int_sqrt n = Some m ∧ m * m ≤ n < (m + 1) * (m + 1) ∧ 0 ≤ m.
Proof.
  intros Hn. exists (Z.sqrt n). unfold int_sqrt. rewrite (proj2 (Z.ltb_ge _ _) Hn).
  pose proof (Z.sqrt_spec n Hn) as H. cbn zeta in H. pose proof (Z.sqrt_nonneg n). split; [done|]. nia.
Qed.
Lemma quot_small a b n : Z.abs a ≤ n → 1 ≤ b → Z.abs (Z.quot a b) ≤ n.
Proof.
  intros Ha Hb. rewrite <- Z.quot_abs, (Z.abs_eq b) by lia.
  etrans; [|exact Ha]. rewrite Z.quot_div_nonneg by lia. apply Z.div_le_upper_bound; [lia|]. nia.
Qed.

(** The distance in 24.8 fixed point, cut to an integer *)
Definition distance (dx dy mag : Z) : Prop :=
  1 ≤ mag ∧ mag * mag ≤ (dx * dx + dy * dy) * 65536 < (mag + 1) * (mag + 1).
(** The missile that leaves ([sx], [sy]) *)
Definition launched (sx sy dx dy ch vel : Z) (m : missile) : Prop :=
  ∃ mag, distance (dx - sx) (dy - sy) mag ∧
    m = mk_missile (sx * 65536 + 32768) (sy * 65536 + 32768)
          (Z.quot ((dx - sx) * 65536 * vel) mag) (Z.quot ((dy - sy) * 65536 * vel) mag) dx dy 0 ch.

Lemma half_cell s : 0 ≤ s < 80 → Z.lor (i32 (Z.shiftl s 16)) 32768 = s * 65536 + 32768.
Proof.
  intros Hs. rewrite Z.shiftl_mul_pow2 by lia. change (2 ^ 16) with 65536. rewrite i32_small by (cint; lia).
  assert (Ha : forallb (λ s, Z.lor (s * 65536) 32768 =? s * 65536 + 32768) (seqZ 0 80) = true) by (vm_compute; reflexivity).
  rewrite forallb_forall in Ha. apply Z.eqb_eq, Ha, list_elem_of_In, elem_of_seqZ. lia.
Qed.
Lemma make_missile_run sx sy dx dy ch vel g :
  0 ≤ sx < 80 → 0 ≤ sy < 25 → 0 ≤ dx < 80 → 0 ≤ dy < 25 → 0 ≤ vel ≤ 200 → (dx, dy) ≠ (sx, sy) →
  ∃ m, make_missile sx sy dx dy ch vel g = Some ((), g <| calls ::= (.++ [RTC_ADDMISSILE m]) |>) ∧
    launched sx sy dx dy ch vel m.
Proof.
  intros Hsx Hsy Hdx Hdy Hv Hne. unfold make_missile.
  rewrite !(i32_small (_ - _)) by (cint; lia). set (vx := dx - sx). set (vy := dy - sy).
  assert (-79 ≤ vx ≤ 79 ∧ -24 ≤ vy ≤ 24) as [Hvx Hvy] by (unfold vx, vy; lia).
  assert (1 ≤ vx * vx + vy * vy ≤ 6817) as Hd.
  { assert (vx ≠ 0 ∨ vy ≠ 0) as [|] by (destruct (decide (vx = 0)), (decide (vy = 0)); [|lia..];
      exfalso; apply Hne; unfold vx, vy in *; f_equal; lia); nia. }
  rewrite (i32_small (vx * vx + vy * vy)) by (cint; lia). rewrite !Z.shiftl_mul_pow2 by lia.
  change (2 ^ 16) with 65536. rewrite !(i32_small (_ * 65536)) by (cint; lia).
  rewrite !(i32_small (_ * vel)) by (cint; nia).
  destruct (int_sqrt_spec ((vx * vx + vy * vy) * 65536)) as (mag&Hmag&Hsq&Hm0); [lia|].
  assert (1 ≤ mag) by nia. rewrite (bind_lift _ _ _ _ Hmag).
  assert (Hdiv : ∀ a, Z.abs a ≤ 79 → int_div (a * 65536 * vel) mag = Some (Z.quot (a * 65536 * vel) mag)).
  { intros a Ha. unfold int_div. rewrite (proj2 (Z.eqb_neq mag 0)) by lia. f_equal. apply i32_small.
    pose proof (quot_small (a * 65536 * vel) mag (79 * 65536 * 200)). cint. nia. }
  rewrite (bind_lift _ _ _ _ (Hdiv vx ltac:(lia))), (bind_lift _ _ _ _ (Hdiv vy ltac:(lia))).
  pose proof (half_cell sx Hsx) as Hx. pose proof (half_cell sy ltac:(lia)) as Hy.
  rewrite Z.shiftl_mul_pow2 in Hx, Hy by lia. change (2 ^ 16) with 65536 in *.
  rewrite i32_small in Hx, Hy by (cint; lia). rewrite Hx, Hy.
  eexists. split; [reflexivity|]. by exists mag.
Qed.
(** A missile for the place it comes from divides by zero. *)
Lemma make_missile_traps sx sy ch vel g : make_missile sx sy sx sy ch vel g = None.
Proof. unfold make_missile. by rewrite !Z.sub_diag. Qed.

(** ** The crosshairs *)
Definition on_screen (g : game) : Prop := 0 ≤ chx g < 80 ∧ 0 ≤ chy g < 25.
Definition clamp (lo hi v : Z) : Z := Z.max lo (Z.min hi v).

Lemma move_crosshairs_run dx dy g :
  on_screen g → -1 ≤ dx ≤ 1 → -1 ≤ dy ≤ 1 →
  ∃ d, move_crosshairs dx dy g = Some ((), g <| chx := clamp 0 79 (chx g + dx) |> <| chy := clamp 0 24 (chy g + dy) |>
    <| calls ::= (.++ [RTC_MOVEXHAIRS d]) |>) ∧ 0 ≤ d < 4294967296 ∧ d mod 65536 = dx mod 65536 ∧ d / 65536 = dy mod 65536.
Proof.
  intros [Hx Hy] Hdx Hdy. unfold move_crosshairs. rewrite !bind_modify.
  destruct g as [cx cy fi sc bl av iv ct rs cs]. cbn in Hx, Hy |- *. eexists. split.
  - unfold ioctl, modify. cbn. rewrite (i32_small (cx + dx)) by (cint; lia).
    destruct (Z.leb_spec 80 (cx + dx)); cbn; [|destruct (Z.ltb_spec (cx + dx) 0); cbn];
      rewrite (i32_small (cy + dy)) by (cint; lia);
      (destruct (Z.leb_spec 24 (cy + dy)); cbn; [|destruct (Z.ltb_spec (cy + dy) 0); cbn]); cbn;
      repeat f_equal; unfold clamp; lia.
  - assert (Ha : forallb (λ dx, forallb (λ dy,
      let d := Z.lor (Z.land (u32 dx) 65535) (Z.shiftl (Z.land (u32 dy) 65535) 16) in
      (0 <=? d) && (d <? 4294967296) && (d mod 65536 =? dx mod 65536) && (d / 65536 =? dy mod 65536))
      (seqZ (-1) 3)) (seqZ (-1) 3) = true) by (vm_compute; reflexivity).
    rewrite forallb_forall in Ha. specialize (Ha dx). rewrite forallb_forall in Ha.
    assert (Hin : ∀ d, -1 ≤ d ≤ 1 → In d (seqZ (-1) 3)) by (intros; apply list_elem_of_In, elem_of_seqZ; lia).
    specialize (Ha (Hin dx Hdx) dy (Hin dy Hdy)). cbn zeta in Ha. lia.
Qed.

(** A shot that divides by zero *)
Definition self_shot (cmd : command_t) (g : game) : Prop := cmd = FIRE ∧ chx g = 79 ∧ chy g = 24.
#[export] Instance self_shot_dec cmd g : Decision (self_shot cmd g).
Proof. unfold self_shot. apply _. Defined.

(** The calls that a round may make *)
Definition enemy_missile (m : missile) : Prop :=
  ∃ sx k vel, 0 ≤ sx < 80 ∧ 1 ≤ k ≤ 3 ∧ 10 ≤ vel < 15 ∧ launched sx 0 (20 * k) 24 101 vel m.
Definition legal_call (g : game) (r : rtc_call) : Prop :=
  match r with
  | RTC_ADDMISSILE m => launched 79 24 (chx g) (chy g) 42 200 m ∨ enemy_missile m
  | RTC_MOVEXHAIRS d => 0 ≤ d < 4294967296
  end.

Lemma update_crosshairs_run cmd g :
  on_screen g → ¬ self_shot cmd g →
  ∃ new n, update_crosshairs cmd g = Some ((), g <| chx := clamp 0 79 (chx g + (command_step cmd).1) |>
      <| chy := clamp 0 24 (chy g + (command_step cmd).2) |> <| fired := n |> <| calls ::= (.++ new) |>) ∧
    Forall (legal_call g) new ∧ length new = (if decide (cmd = NOKEY ∨ cmd = QUIT) then 0 else 1)%nat ∧
    n = (if decide (cmd = FIRE) then i32 (fired g + 1) else fired g).
Proof.
  intros Hs Hn. unfold update_crosshairs.
  assert (Hstill : clamp 0 79 (chx g + 0) = chx g ∧ clamp 0 24 (chy g + 0) = chy g)
    by (unfold clamp, on_screen in *; lia). destruct Hstill as [Hcx Hcy].
  assert (Hmove : ∀ dx dy, command_step cmd = (dx, dy) → cmd ≠ NOKEY → cmd ≠ QUIT → cmd ≠ FIRE →
    -1 ≤ dx ≤ 1 → -1 ≤ dy ≤ 1 → negb (dx =? 0) || negb (dy =? 0) = true →
    ∃ new n, (let '(dx, dy) := command_step cmd in
      (if decide (cmd = FIRE) then fire else skip);;
      if negb (dx =? 0) || negb (dy =? 0) then move_crosshairs dx dy else skip) g = Some ((), g <| chx := clamp 0 79 (chx g + dx) |>
      <| chy := clamp 0 24 (chy g + dy) |> <| fired := n |> <| calls ::= (.++ new) |>) ∧
    Forall (legal_call g) new ∧ length new = (if decide (cmd = NOKEY ∨ cmd = QUIT) then 0 else 1)%nat ∧
    n = (if decide (cmd = FIRE) then i32 (fired g + 1) else fired g)).
  { intros dx dy -> Hk Hq Hf Hdx Hdy Hb. rewrite decide_False, bind_skip, Hb by done.
    destruct (move_crosshairs_run dx dy g Hs Hdx Hdy) as (d&Hrun&Hd&_). rewrite Hrun.
    exists [RTC_MOVEXHAIRS d], (fired g). destruct g. split; [done|]. split; [by repeat constructor; cbn; lia|].
    destruct cmd; try done; by split. }
  destruct cmd; try (eapply Hmove; [reflexivity|done..| | |done]; cbn; lia); clear Hmove; cbn [command_step fst snd] in *;
    rewrite Hcx, Hcy.
  - exists [], (fired g). rewrite decide_False by done. cbn. destruct g. cbn. rewrite app_nil_r. split; [done|]. by split.
  - exists [], (fired g). rewrite decide_False by done. cbn. destruct g. cbn. rewrite app_nil_r. split; [done|]. by split.
  - rewrite decide_True by done. unfold fire. rewrite bind_assoc, bind_gets, bind_assoc, bind_gets, bind_assoc.
    destruct (make_missile_run 79 24 (chx g) (chy g) 42 200 g) as (m&Hrun&Hm); try (unfold on_screen in *; lia).
    { intros [= H1 H2]. by apply Hn. }
    rewrite (bind_run _ _ _ _ _ Hrun), bind_modify. exists [RTC_ADDMISSILE m], (i32 (fired g + 1)).
    destruct g. split; [done|]. split; [constructor; [by left|done]|done].
Qed.

(** ** The enemies' clock *)
Definition pace_ok (g : game) : Prop := 200000 ≤ avg_ival g ≤ 4000000 ∧ avg_ival g mod 100000 = 0.
Definition rands_ok (g : game) : Prop := Forall (λ r, 0 ≤ r < 2147483648) (rands g).

Lemma game_rand_run r rs g : rands g = r :: rs → rand g = Some (r, g <| rands := rs |>).
Proof. unfold rand. by intros ->. Qed.
Lemma next_ival_run r rs g :
  rands g = r :: rs → 0 ≤ r < 2147483648 →
  next_ival g = Some ((), g <| rands := rs |> <| ival := u32 (avg_ival g + (r mod 1000000 - 500000)) |>).
Proof.
  intros Hr Hb. unfold next_ival. rewrite (bind_run _ _ _ _ _ (game_rand_run _ _ _ Hr)).
  unfold modify. rewrite Z.rem_mod_nonneg by lia.
  rewrite i32_small; [by destruct g|]. pose proof (Z.mod_pos_bound r 1000000). cint. lia.
Qed.
Lemma speed_up_run g :
  pace_ok g → ∃ n a, speed_up g = Some ((), g <| count := n |> <| avg_ival := a |>) ∧
    200000 ≤ a ≤ avg_ival g ∧ a mod 100000 = 0.
Proof.
  intros [Hp Hm]. unfold speed_up. rewrite bind_modify. unfold modify. cbn.
  destruct (_ && (200000 <? avg_ival g)) eqn:E.
  - apply andb_prop in E as [_ E]. exists (i32 (count g + 1)), (avg_ival g - 100000).
    rewrite u32_small by (cint; lia). split; [by destruct g|]. Z.div_mod_to_equations. lia.
  - exists (i32 (count g + 1)), (avg_ival g). split; [by destruct g|]. lia.
Qed.
(** While the average is half a second or less, the interval can come out
    negative; as an unsigned number it is more than an hour. *)
Lemma ival_wraps g rs :
  pace_ok g → avg_ival g < 500000 → rands g = 0 :: rs →
  ∃ g', next_ival g = Some ((), g') ∧ 4294467296 ≤ ival g'.
Proof.
  intros [Hp _] Ha Hr. eexists. split; [apply (next_ival_run 0 rs g Hr); lia|].
  cbn. change (0 mod 1000000) with 0. cint_lia.
Qed.

Definition interval_of (g : game) : Prop := ∃ r, 0 ≤ r < 1000000 ∧ ival g = u32 (avg_ival g + (r - 500000)).
Lemma inject_run elapsed g r a b d rs :
  pace_ok g → rands g = r :: a :: b :: d :: rs → rands_ok g →
  ∃ fresh g', inject elapsed g = Some (fresh, g') ∧ fresh = (ival g <=? elapsed) ∧ (fresh = false → g' = g) ∧
    chx g' = chx g ∧ chy g' = chy g ∧ bases_left g' = bases_left g ∧ fired g' = fired g ∧ pace_ok g' ∧ avg_ival g' ≤ avg_ival g ∧
    rands g' = (if fresh then rs else rands g) ∧ (fresh = true → interval_of g') ∧
    ∃ new, calls g' = calls g ++ (RTC_ADDMISSILE <$> new) ∧ Forall enemy_missile new ∧ length new = (if fresh then 1 else 0)%nat.
Proof.
  intros Hp Hr Hok. unfold inject. rewrite bind_gets. destruct (ival g <=? elapsed).
  - unfold rands_ok in Hok. rewrite Hr in Hok. apply Forall_cons in Hok as [Hrb [Ha [Hb [Hd _]%Forall_cons]%Forall_cons]%Forall_cons].
    destruct (speed_up_run g Hp) as (n&v&Hsp&Hv&Hv0). rewrite (bind_run _ _ _ _ _ Hsp).
    set (g1 := g <| count := n |> <| avg_ival := v |>).
    assert (rands g1 = r :: a :: b :: d :: rs) as Hr1 by exact Hr.
    rewrite (bind_run _ _ _ _ _ (next_ival_run _ _ _ Hr1 Hrb)). set (g2 := setter ival _ _).
    rewrite (bind_run _ _ _ _ _ (game_rand_run a (b :: d :: rs) g2 eq_refl)). set (g3 := setter rands _ g2).
    rewrite (bind_run _ _ _ _ _ (game_rand_run b (d :: rs) g3 eq_refl)). set (g4 := setter rands _ g3).
    rewrite (bind_run _ _ _ _ _ (game_rand_run d rs g4 eq_refl)). set (g5 := setter rands _ g4).
    rewrite !Z.rem_mod_nonneg by lia.
    pose proof (Z.mod_pos_bound a 80 eq_refl). pose proof (Z.mod_pos_bound b 3 eq_refl). pose proof (Z.mod_pos_bound d 5 eq_refl).
    destruct (make_missile_run (a mod 80) 0 (20 * (b mod 3 + 1)) 24 101 (d mod 5 + 10) g5) as (m&Hrun&Hm); try lia; [done|].
    rewrite (bind_run _ _ _ _ _ Hrun). eexists _, _. split; [reflexivity|]. split; [done|]. split; [done|].
    do 4 (split; [done|]). split; [split; [cbn; unfold pace_ok in Hp; lia|exact Hv0]|]. split; [exact (proj2 Hv)|]. split; [done|].
    split; [intros _; exists (r mod 1000000); split; [apply Z.mod_pos_bound; lia|done]|].
    exists [m]. split; [done|]. split; [|done]. constructor; [|done].
    exists (a mod 80), (b mod 3 + 1), (d mod 5 + 10). split_and!; try lia. exact Hm.
  - exists false, g. do 8 (split; [done|]). split; [lia|]. do 2 (split; [done|]). exists []. by rewrite app_nil_r.
Qed.

Definition ready (g : game) : Prop := on_screen g ∧ pace_ok g ∧ rands_ok g.

(** C28. A round of missile command never goes wrong but in one way: the player
    shoots while the crosshairs are on the launcher itself, in the corner of the
    screen, and the division by the distance traps.  Otherwise the game ends
    exactly when no base is left or the player quits; if it goes on, the
    crosshairs have moved one cell and stayed on the screen, the kernel module has
    been given at most two missiles or moves, each missile leaving its launcher
    towards its target at a speed that no arithmetic has wrapped, and the pace of
    the enemies keeps within its bounds and does not get slower. *)
Theorem play_round_safe stdin elapsed g :
  ready g → (4 ≤ length (rands g))%nat →
  let cmd := (get_command stdin).1 in
  match play_round stdin elapsed g with
  | None => bases_left g ≠ 0 ∧ self_shot cmd g
  | Some (goes_on, g') =>
      goes_on = negb (bases_left g =? 0) && bool_decide (cmd ≠ QUIT) ∧
      ready g' ∧ (goes_on = false → g' = g) ∧
      (goes_on = true → chx g' = clamp 0 79 (chx g + (command_step cmd).1) ∧
         chy g' = clamp 0 24 (chy g + (command_step cmd).2) ∧ avg_ival g' ≤ avg_ival g ∧
         ∃ new, calls g' = calls g ++ new ∧ Forall (legal_call g) new ∧ (length new ≤ 2)%nat)
  end.
Proof.
  intros Hg Hlen cmd. pose proof Hg as (Hs & Hp & Hr). unfold play_round. rewrite bind_gets.
  destruct (Z.eqb_spec (bases_left g) 0) as [E|E]; [by split_and!|]. fold cmd.
  destruct (decide (cmd = QUIT)) as [Hq|Hq].
  { rewrite bool_decide_false by tauto. by split_and!. }
  rewrite bool_decide_true by done.
  destruct (decide (self_shot cmd g)) as [Hss|Hss].
  { rewrite bind_None; [done|]. destruct Hss as (->&Hx&Hy). unfold update_crosshairs, fire. cbn [command_step].
    rewrite decide_True by done. rewrite bind_None; [done|]. rewrite bind_gets, bind_gets, Hx, Hy.
    rewrite bind_None; [done|]. apply make_missile_traps. }
  destruct (update_crosshairs_run cmd g Hs Hss) as (new&n&Hrun&Hnew&Hn&_). rewrite (bind_run _ _ _ _ _ Hrun).
  clear Hrun. set (g1 := setter calls _ _).
  destruct (rands g) as [|r [|a [|b [|d rs]]]] eqn:Er; cbn in Hlen; try lia.
  destruct (inject_run elapsed g1 r a b d rs) as (fresh&g'&Hinj&_&_&Hx&Hy&_&_&Hp'&Ha&Hrs&_&new'&Hc&Hnew'&Hlen'); [done..|].
  rewrite (bind_run _ _ _ _ _ Hinj). clear Hinj. cbn in Hx, Hy, Hrs.
  split; [done|]. split; [split; [|split; [done|]]|].
  - unfold on_screen. rewrite Hx, Hy. unfold clamp. lia.
  - unfold rands_ok in *. rewrite Hrs, Er in *. destruct fresh; [|done].
    by repeat (apply Forall_cons in Hr as [_ Hr]).
  - split; [done|]. intros _. split; [exact Hx|]. split; [exact Hy|]. split; [exact Ha|].
    exists (new ++ (RTC_ADDMISSILE <$> new')). split; [rewrite Hc; by rewrite app_assoc|]. split.
    + apply Forall_app. split; [done|]. apply Forall_fmap. eapply Forall_impl; [exact Hnew'|]. intros m Hm. by right.
    + rewrite length_app, length_fmap, Hn, Hlen'. destruct (decide _), fresh; lia.
Qed.

(** ** Explosions *)
Lemma get_missile_run k f m : aget (mp1_missile_list f) k = Some m → get_missile k f = Some (m, f).
Proof. intros H. unfold get_missile. by rewrite bind_gets, H. Qed.
Lemma set_missile_run k h f m :
  aget (mp1_missile_list f) k = Some m →
  set_missile k h f = Some ((), f <| mp1_missile_list ::= <[Z.to_nat k := h m]> |>).
Proof.
  intros H. unfold set_missile. rewrite bind_gets, (bind_lift _ _ _ _ H).
  by rewrite (bind_lift _ _ _ _ (aset_in _ _ _ (aget_Some_range _ _ _ H))).
Qed.
Lemma i32_add a b : i32 (i32 a + b) = i32 (a + b).
Proof. cint_lia. Qed.

(** What the explosion of [m], the [k]th, does to the [j]th, and how many it
    destroys from the [j]th on *)
Definition burst (m : missile) : missile := m <| exploded := 50 |>.
Definition struck (k : nat) (m : missile) (j : nat) (i : missile) : bool := negb (j =? k)%nat && in_blast m i.
Definition after_blast (k : nat) (m : missile) (j : nat) (i : missile) : missile := if struck k m j i then burst i else i.
Fixpoint hits (k : nat) (m : missile) (j : nat) (l : list missile) : Z :=
  match l with
  | [] => 0
  | i :: l => Z_of_bool (struck k m j i) + hits k m (S j) l
  end.

Lemma hits_range k m j l : 0 ≤ hits k m j l ≤ zlen l.
Proof.
  revert j. induction l as [|i l IH]; intros j; cbn [hits length]; [lia|].
  specialize (IH (S j)). destruct (struck k m j i); cbn; lia.
Qed.

Lemma blast_loop_run k m l : ∀ pre f e,
  mp1_missile_list f = pre ++ l → aget (mp1_missile_list f) (Z.of_nat k) = Some m →
  0 ≤ e → e + zlen l < 2147483648 → 0 ≤ mp1_score f → mp1_score f + zlen l < 2147483648 →
  blast_loop (length l) (Z.of_nat k) (zlen pre) e f =
    Some (e + hits k m (length pre) l,
      mk_field (pre ++ imap (λ j, after_blast k m (length pre + j)) l) (base_alive f) (mp1_score f + hits k m (length pre) l)).
Proof.
  induction l as [|i l IH]; intros pre [fl fb fs] e Hl Hk He Hel Hs Hsl; cbn [mp1_missile_list mp1_score base_alive] in *;
    cbn [length blast_loop hits imap]; subst fl.
  - by rewrite !Z.add_0_r.
  - cbn [length] in Hel, Hsl. rewrite (bind_run _ _ _ _ _ (get_missile_run (Z.of_nat k) (mk_field _ fb fs) m Hk)).
    assert (aget (pre ++ i :: l) (zlen pre) = Some i) as Hi by (rewrite aget_of_nat; by rewrite list_lookup_middle).
    rewrite (bind_run _ _ _ _ _ (get_missile_run (zlen pre) (mk_field _ fb fs) i Hi)).
    assert (negb (zlen pre =? Z.of_nat k) && in_blast m i = struck k m (length pre) i) as ->.
    { unfold struck. f_equal. f_equal. apply eq_true_iff_eq. rewrite Z.eqb_eq, Nat.eqb_eq. lia. }
    rewrite Nat.add_0_r. unfold after_blast at 1.
    destruct (struck k m (length pre) i) eqn:E; cbn [Z_of_bool].
    + rewrite bind_modify. set (f1 := setter mp1_score _ _).
      rewrite (bind_run _ _ _ _ _ (set_missile_run (zlen pre) _ f1 i Hi)). cbn.
      rewrite !i32_small by (cint; lia). rewrite Nat2Z.id, insert_app_r_alt, Nat.sub_diag by done. cbn.
      replace (zlen pre + 1) with (zlen (pre ++ [burst i])) by (rewrite length_app; cbn; lia).
      rewrite (IH (pre ++ [burst i])); cbn; try lia.
      * rewrite !length_app. cbn [length]. replace (length pre + 1)%nat with (S (length pre)) by lia.
        f_equal. f_equal; [lia|]. f_equal; [|lia]. rewrite <- app_assoc. cbn. do 2 f_equal.
        apply imap_ext. intros j y _. cbn. f_equal. lia.
      * by rewrite <- app_assoc.
      * rewrite <- Hk, !aget_of_nat. unfold struck in E. apply andb_prop in E as [E _].
        apply negb_true_iff, Nat.eqb_neq in E.
        destruct (decide (k < length pre)%nat); [by rewrite !lookup_app_l by lia|].
        rewrite !lookup_app_r by lia. by destruct (k - length pre)%nat eqn:?; [lia|].
    + replace (zlen pre + 1) with (zlen (pre ++ [i])) by (rewrite length_app; cbn; lia).
      rewrite (IH (pre ++ [i])); cbn; try lia.
      * rewrite !length_app. cbn [length]. replace (length pre + 1)%nat with (S (length pre)) by lia.
        f_equal. f_equal. f_equal. rewrite <- app_assoc. cbn. do 2 f_equal.
        apply imap_ext. intros j y _. cbn. f_equal. lia.
      * by rewrite <- app_assoc.
      * exact Hk.
Qed.

(** The base [j] takes up seven columns of the two lowest rows. *)
Definition on_base (j : nat) (x y : Z) : bool := (23 <=? y) && (Z.abs (x - (20 * (Z.of_nat j + 1))) <=? 3).
Definition lost (f : field) (x y : Z) : Z :=
  zlen (filter (λ j, on_base j x y = true ∧ base_alive f !! j ≠ Some 0) [0%nat; 1%nat; 2%nat]).
Definition bases_after (x y : Z) (l : list Z) : list Z := imap (λ j b, if on_base j x y then 0 else b) l.

Lemma explode_base_run x y f :
  length (base_alive f) = 3%nat →
  explode_base x y f =
    Some (lost f x y, mk_field (mp1_missile_list f) (bases_after x y (base_alive f)) (mp1_score f)) ∧ 0 ≤ lost f x y ≤ 1.
Proof.
  destruct f as [fl fb fs]. cbn [base_alive]. destruct fb as [|b0 [|b1 [|b2 [|b3 fb]]]]; try done. intros _.
  unfold explode_base, lost, bases_after. cbn [base_alive mp1_missile_list mp1_score imap]. unfold compose. cbn beta.
  assert (Hb : ∀ j, on_base j x y = (23 <=? y) && ((20 * Z.of_nat j + 17 <=? x) && (x <=? 20 * Z.of_nat j + 23))).
  { intros j. unfold on_base. f_equal. apply eq_true_iff_eq. rewrite andb_true_iff, !Z.leb_le. lia. }
  rewrite !(filter_cons _ _), filter_nil, !Hb. cbn [Z.of_nat Pos.of_succ_nat]. cbn [lookup list_lookup].
  change (20 * Z.of_nat 0 + 17) with 17. change (20 * Z.of_nat 0 + 23) with 23.
  change (20 * Z.of_nat 1 + 17) with 37. change (20 * Z.of_nat 1 + 23) with 43.
  change (20 * Z.of_nat 2 + 17) with 57. change (20 * Z.of_nat 2 + 23) with 63.
  set (A := (17 <=? x) && (x <=? 23)). set (B := (37 <=? x) && (x <=? 43)). set (C := (57 <=? x) && (x <=? 63)).
  assert (Hex : (A = true → B = false ∧ C = false) ∧ (B = true → C = false)) by (unfold A, B, C; lia).
  assert (Hkill : ∀ j z b l, z = Z.of_nat j → [b0; b1; b2] !! j = Some b → (j < 3)%nat → l = <[j := 0]> [b0; b1; b2] →
    kill_base z (mk_field fl [b0; b1; b2] fs) = Some (if b =? 0 then 0 else 1, mk_field fl l fs)).
  { intros j z b l -> Hj Hlt ->. unfold kill_base. rewrite bind_gets. cbn [base_alive].
    rewrite (bind_lift _ b _ _ (eq_trans (aget_of_nat _ _) Hj)).
    rewrite (bind_lift _ _ _ _ (aset_in [b0; b1; b2] (Z.of_nat j) 0 ltac:(cbn; lia))), Nat2Z.id. done. }
  clearbody A B C.
  destruct (23 <=? y); cbn [andb].
  2:{ rewrite !decide_False by (by intros [? ?]). split; [done|cbn; lia]. }
  destruct Hex as [HA HB].
  destruct A; [destruct (HA eq_refl) as [-> ->]|clear HA; destruct B; [rewrite (HB eq_refl)|clear HB; destruct C]].
  1: rewrite (Hkill 0%nat 0 b0 [0; b1; b2]) by (try done; lia); destruct (Z.eqb_spec b0 0) as [->|Hz].
  3: rewrite (Hkill 1%nat 1 b1 [b0; 0; b2]) by (try done; lia); destruct (Z.eqb_spec b1 0) as [->|Hz].
  5: rewrite (Hkill 2%nat 2 b2 [b0; b1; 0]) by (try done; lia); destruct (Z.eqb_spec b2 0) as [->|Hz].
  all: repeat first [rewrite decide_False by (by intros [? ?])|rewrite decide_True by (split; [done|intros [=]; done])].
  all: split; [done|cbn; lia].
Qed.

Lemma hits_own k m v l : ∀ j p, (j + p = k)%nat → hits k m j (<[p := v]> l) = hits k m j l.
Proof.
  induction l as [|i l IH]; intros j p Hp; [done|]. destruct p as [|p]; cbn [hits insert list_insert].
  - unfold struck. by replace (j =? k)%nat with true by (symmetry; apply Nat.eqb_eq; lia).
  - change (list_insert p v l) with (<[p := v]> l). by rewrite IH by lia.
Qed.
Lemma hits_ext k m m' j l : in_blast m' = in_blast m → hits k m' j l = hits k m j l.
Proof. intros H. revert j. induction l as [|i l IH]; intros j; [done|]. cbn. unfold struck. by rewrite H, IH. Qed.


(** ** Instances *)
Definition first_game : game := mk_game 40 12 0 0 3 4000000 1000 9 [7; 5; 8; 3] [].
Lemma play_round_safe_witness :
  ∃ g', play_round [27; 91; 66] 2000 first_game = Some (true, g') ∧ chy g' = 13 ∧ avg_ival g' = 3900000.
Proof.
  assert (Hr : ready first_game) by (split; [|split]; [unfold on_screen; cbn; lia|split; [cbn; lia|reflexivity]|by repeat constructor; lia]).
  pose proof (play_round_safe [27; 91; 66] 2000 first_game Hr ltac:(cbn; lia)) as H. cbn zeta in H.
  destruct (play_round [27; 91; 66] 2000 first_game) as [[b g']|] eqn:E; [|by destruct H as [_ [H _]]].
  vm_compute in E. injection E as <- <-. eexists. split; [reflexivity|]. split; reflexivity.
Defined.

(** A player's missile between two enemies *)
Definition demo_field : field :=
  let at_ px py ch := mk_missile (px * 65536) (py * 65536) 0 0 0 0 0 ch in
  mk_field [at_ 10 5 101; at_ 11 6 42; at_ 14 6 101] [1; 1; 1] 4.


(** ** Text in the middle of a row *)
Definition text_cell (s : list Z) (i j : Z) : option Z :=
  if (i <=? j) && ((j - i) mod 2 =? 0) then aget s ((j - i) / 2) else None.
Definition over (a b : option Z) : option Z := match a with Some v => Some v | None => b end.
Lemma write_from_run s : ∀ i scr,
  0 ≤ i → i + 2 * zlen s ≤ zlen scr →
  ∃ scr', write_from s i scr = Some ((), scr') ∧ length scr' = length scr ∧
    ∀ j, 0 ≤ j → aget scr' j = over (text_cell s i j) (aget scr j).
Proof.
  induction s as [|v s IH]; intros i scr Hi Hl; cbn [write_from].
  - exists scr. split; [done|]. split; [done|]. intros j _. unfold text_cell. destruct (_ && _); [|done].
    unfold aget at 2. by destruct (_ <? 0).
  - cbn [length] in Hl. assert (vga_write i v scr = Some ((), <[Z.to_nat i := v]> scr)) as Hw.
    { unfold vga_write. by rewrite aset_in by lia. }
    rewrite (bind_run _ _ _ _ _ Hw). destruct (IH (i + 2) (<[Z.to_nat i := v]> scr)) as (scr'&Hrun&Hlen&Hget);
      [lia|rewrite length_insert; lia|].
    exists scr'. split; [done|]. split; [by rewrite Hlen, length_insert|]. intros j Hj.
    rewrite Hget by done. rewrite aget_insert by lia. unfold text_cell.
    destruct (decide (j = i)) as [->|Hne].
    + rewrite Z.sub_diag. destruct (Z.leb_spec (i + 2) i); [lia|]. destruct (Z.leb_spec i i); [|lia]. done.
    + assert ((j - i) mod 2 = (j - (i + 2)) mod 2 ∧ (j - i) / 2 = (j - (i + 2)) / 2 + 1) as [-> Hd]
        by (Z.div_mod_to_equations; lia).
      destruct ((j - (i + 2)) mod 2 =? 0) eqn:E; rewrite ?andb_false_r, ?andb_true_r; [|done].
      apply Z.eqb_eq in E. destruct (Z.leb_spec i j), (Z.leb_spec (i + 2) j); try lia; [|Z.div_mod_to_equations; lia|done].
      rewrite Hd. rewrite !aget_nonneg by (Z.div_mod_to_equations; lia).
      replace (Z.to_nat ((j - (i + 2)) / 2 + 1)) with (S (Z.to_nat ((j - (i + 2)) / 2)))
        by (assert (0 ≤ (j - (i + 2)) / 2) by (Z.div_mod_to_equations; lia); lia). done.
Qed.
(** A text of at most a row stands in its row, as far from either end, and
    nothing else on the screen changes. *)
Lemma draw_centered_run s y scr :
  zlen s ≤ 80 → 0 ≤ y < 25 → zlen scr = 4000 →
  ∃ scr', draw_centered_string s y scr = Some ((), scr') ∧ zlen scr' = 4000 ∧
    ∀ j, 0 ≤ j → aget scr' j = over (text_cell s (160 * y + 2 * ((80 - zlen s) / 2)) j) (aget scr j).
Proof.
  intros Hs Hy Hl. unfold draw_centered_string, write_string. rewrite u32_small by (cint; lia).
  assert (0 ≤ (80 - zlen s) / 2 ∧ 2 * ((80 - zlen s) / 2) + zlen s ≤ 80) as [H1 H2] by (Z.div_mod_to_equations; lia).
  rewrite i32_small by (cint; lia). rewrite Z.shiftl_mul_pow2 by lia. change (2 ^ 1) with 2.
  replace ((80 * y + (80 - zlen s) / 2) * 2) with (160 * y + 2 * ((80 - zlen s) / 2)) by lia.
  destruct (write_from_run s (160 * y + 2 * ((80 - zlen s) / 2)) scr) as (scr'&Hrun&Hlen&Hget); [lia..|].
  exists scr'. split; [done|]. split; [lia|done].
Qed.
Lemma clear_screen_run scr : zlen scr = 4000 → wp clear_screen (λ _ s, zlen s = 4000) scr.
Proof.
  intros Hl. unfold clear_screen. apply (wp_for (λ _ s, zlen s = 4000)); [done|]. intros j s Hj Hs.
  assert (Hw : ∀ i v Q s, zlen s = 4000 → 0 ≤ i < 4000 → (∀ s', zlen s' = 4000 → Q () s') → wp (vga_write i v) Q s).
  { intros i v Q s' Hs' Hi HQ. unfold wp, vga_write. rewrite aset_in by lia. apply HQ. by rewrite length_insert. }
  apply wp_bind, Hw; [done|lia|]. intros s' Hs'. apply Hw; [done|lia|]. done.
Qed.
Lemma draw_lines_run l : ∀ line scr,
  Forall (λ s, zlen (chars s) ≤ 80) l → 0 ≤ line → line + zlen l ≤ 25 → zlen scr = 4000 →
  is_Some (draw_lines l line scr).
Proof.
  induction l as [|s l IH]; intros line scr Hl H0 Hn Hs; [done|]. apply Forall_cons in Hl as [Hs1 Hl].
  cbn [length draw_lines] in *. destruct (draw_centered_run (chars s) line scr Hs1 ltac:(lia) Hs) as (scr'&Hrun&Hs'&_).
  rewrite (bind_run _ _ _ _ _ Hrun). apply IH; [done|lia..|done].
Qed.
Lemma starting_screen_fits scr : zlen scr = 4000 → is_Some (draw_starting_screen scr).
Proof.
  intros Hl. destruct (proj1 (wp_run _ _ _) (clear_screen_run scr Hl)) as ([]&s1&H1&Hs1).
  unfold draw_starting_screen. rewrite (bind_run _ _ _ _ _ H1). apply draw_lines_run; [|done..].
  repeat constructor; done.
Qed.

(** From the start of the game to the launcher, and a shot *)
Lemma corner_shot :
  let moves := for_n 39 0 (λ _, update_crosshairs RIGHT);; for_n 12 0 (λ _, update_crosshairs DOWN) in
  match moves first_game with Some (_, g) => play_round [32] 0 g = None | None => False end.
Proof. vm_compute. reflexivity. Qed.
