(* ===== verification/Support.v ===== *)
(** * Support: the library of the user programs ([mp3/syscalls/ece391support.c])

    Strings are buffers of bytes, as in [LibString]; a pointer into a buffer is
    the list of the bytes from it on. *)
From S2P Require Import Prelude LibString.

Fixpoint ece391_strlen (s : list Z) : option Z :=
  match s with
  | [] => None
  | c :: s => if c =? 0 then Some 0 else n ← ece391_strlen s; Some (u32 (n + 1))
  end.

Fixpoint ece391_strcpy (dst src : list Z) : option (list Z) :=
  match src, dst with
  | c :: src, _ :: dst => if c =? 0 then Some (0 :: dst) else d ← ece391_strcpy dst src; Some (c :: d)
  | _, _ => None
  end.
(** The same within one array, from index [src] to index [dst]; [fuel] bounds the
    characters copied. *)
Fixpoint ece391_strcpy_in (fuel : nat) (a : list Z) (dst src : Z) : option (list Z) :=
  match fuel with
  | O => None
  | S fuel =>
      c ← aget a src;
      a ← aset a dst c;
      if c =? 0 then Some a else ece391_strcpy_in fuel a (dst + 1) (src + 1)
  end.

Fixpoint ece391_strcmp (s1 s2 : list Z) : option Z :=
  match s1, s2 with
  | c1 :: s1, c2 :: s2 =>
      if c1 =? c2 then if c1 =? 0 then Some 0 else ece391_strcmp s1 s2
      else Some (c1 - c2)
  | _, _ => None
  end.
Fixpoint strncmp_from (n : nat) (s1 s2 : list Z) : option Z :=
  match n with
  | O => Some 0
  | S n =>
      match s1, s2 with
      | c1 :: s1, c2 :: s2 =>
          if c1 =? c2 then if c1 =? 0 then Some 0 else strncmp_from n s1 s2
          else Some (c1 - c2)
      | _, _ => None
      end
  end.
Definition ece391_strncmp (s1 s2 : list Z) (n : Z) : option Z := strncmp_from (Z.to_nat (u32 n)) s1 s2.

Fixpoint rev_loop (fuel : nat) (s : list Z) (beg end_ : Z) : option (list Z) :=
  if beg <? end_ then
    match fuel with
    | O => None
    | S fuel =>
        tmp ← aget s end_;
        c ← aget s beg;
        s ← aset s end_ c;
        s ← aset s beg tmp;
        rev_loop fuel s (beg + 1) (end_ - 1)
    end
  else Some s.
Definition ece391_strrev (s : list Z) : option (list Z) :=
  len ← ece391_strlen s;
  let end_ := i32 (u32 (len - 1)) in
  if end_ <=? 0 then Some s else rev_loop (length s) s 0 end_.

Fixpoint digits_loop (fuel : nat) (newval : Z) (buf : list Z) (newbuf radix : Z) : option (list Z * Z) :=
  if newval >? 0 then
    match fuel with
    | O => None
    | S fuel =>
        c ← aget lookup_table (i32 (newval mod u32 radix));
        buf ← aset buf newbuf c;
        digits_loop fuel (newval / u32 radix) buf (newbuf + 1) radix
    end
  else Some (buf, newbuf).
Definition ece391_itoa (value : Z) (buf : list Z) (radix : Z) : option (list Z) :=
  if value =? 0 then
    buf ← aset buf 0 48;
    aset buf 1 0
  else
    '(buf, newbuf) ← digits_loop itoa_fuel value buf 0 radix;
    buf ← aset buf newbuf 0;
    ece391_strrev buf.

(** A string literal, with its NUL *)
Definition lit (s : string) : list Z := chars s ++ [0].
Definition line (s : string) : list Z := chars s ++ [10; 0].

(** ** Agreement with the kernel's library *)
Lemma ece391_strlen_cstr s : terminated s → zlen s < 4294967296 → ece391_strlen s = Some (zlen (cstr s)).
Proof.
  unfold terminated. induction s as [|c s IH]; intros Ht Hl; [by apply not_elem_of_nil in Ht|].
  cbn [ece391_strlen cstr length] in *. destruct (Z.eqb_spec c 0) as [->|Hc]; [done|].
  apply elem_of_cons in Ht as [?|Ht]; [done|]. rewrite IH by (done || lia). cbn.
  assert (length (cstr s) < length s)%nat by (by apply cstr_length).
  rewrite u32_small by (cint; lia). f_equal. lia.
Qed.
Lemma rev_loop_strrev n s b e : rev_loop n s b e = strrev_loop n s b e.
Proof.
  revert s b e. induction n as [|n IH]; intros s b e; [done|]. cbn. destruct (b <? e); [|done].
  destruct (aget s e) as [tmp|]; [|done]. cbn. destruct (aget s b) as [c|]; [|done]. cbn.
  destruct (aset s e c) as [s1|]; [|done]. cbn. destruct (aset s1 b tmp) as [s2|]; [|done]. cbn. apply IH.
Qed.
Lemma digits_loop_itoa n v buf k radix :
  2 ≤ radix ≤ 36 → digits_loop n v buf k radix = itoa_loop n v buf k radix.
Proof.
  intros Hr. revert v buf k. induction n as [|n IH]; intros v buf k; [done|]. cbn [digits_loop itoa_loop].
  destruct (v >? 0); [|done]. rewrite (u32_small radix) by (cint; lia).
  rewrite i32_small by (pose proof (Z.mod_pos_bound v radix); cint; lia).
  destruct (aget _ _) as [c|]; [|done]. cbn. destruct (aset buf k c) as [b|]; [|done]. cbn. apply IH.
Qed.

Lemma ece391_strrev_in s rest :
  0 ∉ s → zlen (in_buffer s rest) < 2147483648 → ece391_strrev (in_buffer s rest) = Some (in_buffer (reverse s) rest).
Proof.
  intros Hs Hl. unfold ece391_strrev.
  rewrite ece391_strlen_cstr by (apply terminated_in_buffer || lia). rewrite cstr_in_buffer by done. cbn [mbind option_bind].
  assert (zlen s < 2147483648) by (unfold in_buffer in Hl; rewrite length_app in Hl; lia).
  rewrite i32_u32 by (cint; lia). destruct (Z.leb_spec (zlen s - 1) 0).
  - destruct s as [|a [|b s]]; [done..|cbn [length] in *; lia].
  - rewrite rev_loop_strrev. pose proof (strrev_in_buffer s rest Hs ltac:(lia)) as Hrev. unfold strrev in Hrev.
    rewrite strlen_in_buffer in Hrev by done. cbn [mbind option_bind] in Hrev. by rewrite i32_u32 in Hrev by (cint; lia).
Qed.

Lemma itoa_agrees value buf radix :
  2 ≤ radix ≤ 36 → is_u32 value → (length (numeral radix value) < length buf)%nat → zlen buf < 2147483648 →
  ece391_itoa value buf radix = itoa value buf radix.
Proof.
  intros Hr Hv Hl Hb. unfold ece391_itoa, itoa, numeral in *. destruct (Z.eqb_spec value 0); [done|].
  rewrite digits_loop_itoa by done. rewrite length_reverse in Hl. set (ds := digits_le itoa_fuel radix value) in *.
  pose proof (itoa_loop_digits radix Hr itoa_fuel value [] buf (pow_itoa_fuel radix Hr value Hv) ltac:(subst ds; lia)) as Hloop.
  change (itoa_loop itoa_fuel value buf 0 radix = Some (ds ++ drop (length ds) buf, zlen ds)) in Hloop.
  rewrite Hloop. cbn [mbind option_bind].
  destruct (drop (length ds) buf) as [|x rest] eqn:E; [apply (f_equal length) in E; rewrite length_drop in E; cbn [length] in E; lia|].
  rewrite aset_app_mid by done. cbn [mbind option_bind]. change (ds ++ 0 :: rest) with (in_buffer ds rest).
  assert (0 ∉ ds) by (apply digits_le_no_nul; [done|cint; lia]).
  assert (zlen (in_buffer ds rest) = zlen buf) as Hlen.
  { unfold in_buffer. rewrite length_app. cbn [length]. apply (f_equal length) in E. rewrite length_drop in E. cbn [length] in E. lia. }
  rewrite ece391_strrev_in, strrev_in_buffer by (done || lia || (unfold in_buffer in Hlen; rewrite length_app in Hlen; lia)). done.
Qed.
Lemma ece391_itoa_numeral value buf radix :
  2 ≤ radix ≤ 36 → is_u32 value → (length (numeral radix value) < length buf)%nat → zlen buf < 2147483648 →
  ece391_itoa value buf radix = Some (in_buffer (numeral radix value) (drop (S (length (numeral radix value))) buf)).
Proof. intros. rewrite itoa_agrees by done. by apply itoa_numeral. Qed.

Lemma ece391_strcpy_run src : ∀ dst,
  terminated src → (length (cstr src) < length dst)%nat →
  ece391_strcpy dst src = Some (in_buffer (cstr src) (drop (S (length (cstr src))) dst)).
Proof.
  unfold terminated. induction src as [|c src IH]; intros dst Ht Hl; [by apply not_elem_of_nil in Ht|].
  cbn [cstr] in *. destruct dst as [|d dst]; [cbn in Hl; lia|]. cbn [ece391_strcpy].
  destruct (Z.eqb_spec c 0) as [->|Hc]; [done|]. apply elem_of_cons in Ht as [?|Ht]; [done|].
  cbn [length] in Hl. rewrite IH by (done || lia). done.
Qed.
Lemma lit_terminated s : terminated (lit s).
Proof. unfold terminated, lit. apply elem_of_app. right. by left. Qed.
