(* ===== verification/Programs.v ===== *)
(** * Programs: the user programs of [mp3/syscalls]

    Each program is written against the interface [syscalls] of the system call
    library: a call sees the process's buffer from the pointer it is given on, and
    gives back the buffer as the kernel leaves it.  Local arrays start with
    whatever the stack holds. *)
From S2P Require Import Prelude LibString Support.

Class syscalls (S : Type) := {
  ece391_execute : list Z → M S Z;
  ece391_read : Z → list Z → Z → M S (Z * list Z);
  ece391_write : Z → list Z → Z → M S Z;
  ece391_open : list Z → M S Z;
  ece391_close : Z → M S Z;
  ece391_getargs : list Z → Z → M S (Z * list Z);
  ece391_vidmap : Z → M S Z;             (* the address to be written *)
  int_0x80 : Z → M S Z;                  (* any call number, without arguments *)
}.

Section programs.
Context {S : Type} `{syscalls S}.
Context (junk : stack_junk).
Abbreviation P := (M S).

Definition ece391_fdputs (fd : Z) (s : list Z) : P () :=
  n ← lift (ece391_strlen s); ece391_write fd s n;; skip.

(** A loop that runs until it returns: [loop_pos] with a bound no run reaches *)
Definition forever {A} (body : A → P (A + Z)) (a : A) : P Z :=
  r ← loop_pos body 4294967296 a;
  match r with inr v => mret v | inl _ => ub end.

(** ** cat *)
Definition cat_step (fd : Z) (buf : list Z) : P (list Z + Z) :=
  '(cnt, buf) ← ece391_read fd buf 1024;
  if cnt =? 0 then mret (inr 0)
  else if cnt =? -1 then ece391_fdputs 1 (line "file read failed");; mret (inr 3)
  else
    w ← ece391_write 1 buf cnt;
    mret (if w =? -1 then inr 3 else inl buf).
Definition cat_main : P Z :=
  '(r, buf) ← ece391_getargs (junk 1024%nat) 1024;
  if negb (r =? 0) then ece391_fdputs 1 (line "could not read arguments");; mret 3
  else
    fd ← ece391_open buf;
    if fd =? -1 then ece391_fdputs 1 (line "file not found");; mret 2
    else forever (cat_step fd) buf.

(** ** ls *)
Definition ls_step (fd : Z) (buf : list Z) : P (list Z + Z) :=
  '(cnt, buf) ← ece391_read fd buf 32;
  if cnt =? 0 then mret (inr 0)
  else if cnt =? -1 then ece391_fdputs 1 (line "directory entry read failed");; mret (inr 3)
  else
    buf ← lift (aset buf cnt 10);
    w ← ece391_write 1 buf (cnt + 1);
    mret (if w =? -1 then inr 3 else inl buf).
Definition ls_main : P Z :=
  fd ← ece391_open (lit ".");
  if fd =? -1 then ece391_fdputs 1 (line "directory open failed");; mret 2
  else forever (ls_step fd) (junk 33%nat).

(** ** hello, testprint *)
Definition hello_main : P Z :=
  ece391_fdputs 1 (lit "Hi, what's your name? ");;
  '(cnt, buf) ← ece391_read 0 (junk 1024%nat) 1023;
  if cnt =? -1 then ece391_fdputs 1 (line "Can't read name from keyboard.");; mret 3
  else
    buf ← lift (aset buf cnt 0);
    ece391_fdputs 1 (lit "Hello, ");;
    ece391_fdputs 1 buf;;
    mret 0.
Definition testprint_main : P Z :=
  ece391_fdputs 1 (line "Hello, if this ran, the program was correct. Yay!");; mret 0.

(** ** counter *)
Definition counter_max (buf : list Z) : option Z :=
  c ← aget buf 0;
  Some (if c =? 48 then 100 else if c =? 49 then 10000 else if c =? 50 then 100000 else 0).
Fixpoint count_loop (n : nat) (i : Z) (buf : list Z) : P Z :=
  match n with
  | O => mret 0
  | Datatypes.S n =>
      buf ← lift (ece391_itoa (u32 (i + 1)) buf 10);
      ece391_fdputs 1 buf;;
      ece391_fdputs 1 (line "");;
      count_loop n (i + 1) buf
  end.
Definition wrong_choice (buf : list Z) : option bool :=
  len ← ece391_strlen buf;
  if len >? 2 then Some true
  else if len =? 2 then c ← aget buf 0; Some ((c <? 48) || (c >? 50))
  else Some false.
Definition counter_main : P Z :=
  ece391_fdputs 1 (line "Enter the Test Number: (0): 100, (1): 10000, (2): 100000");;
  '(cnt, buf) ← ece391_read 0 (junk 1024%nat) 1023;
  if u32 cnt =? u32 (-1) then ece391_fdputs 1 (line "Can't read the number from keyboard.");; mret 3
  else
    buf ← lift (aset buf (u32 cnt) 0);
    wrong ← lift (wrong_choice buf);
    if (wrong : bool) then ece391_fdputs 1 (line "Wrong Choice!");; mret 0
    else max ← lift (counter_max buf); count_loop (Z.to_nat max) 0 buf.

(** ** shell *)
Definition shell_step (buf : list Z) : P (list Z + Z) :=
  ece391_fdputs 1 (lit "391OS> ");;
  '(cnt, buf) ← ece391_read 0 buf 1023;
  if cnt =? -1 then ece391_fdputs 1 (line "read from keyboard failed");; mret (inr 3)
  else
    cnt ← (if cnt >? 0 then c ← lift (aget buf (cnt - 1)); mret (if c =? 10 then cnt - 1 else cnt) else mret cnt);
    buf ← lift (aset buf cnt 0);
    r ← lift (ece391_strcmp buf (lit "exit"));
    if r =? 0 then mret (inr 0)
    else
      c ← lift (aget buf 0);
      if c =? 0 then mret (inl buf)
      else
        rval ← ece391_execute buf;
        (if rval =? -1 then ece391_fdputs 1 (line "no such command")
         else if rval =? 256 then ece391_fdputs 1 (line "program terminated by exception")
         else if negb (rval =? 0) then ece391_fdputs 1 (line "program terminated abnormally")
         else skip);;
        mret (inl buf).
Definition shell_main : P Z :=
  ece391_fdputs 1 (line "Starting 391 Shell");; forever shell_step (junk 1024%nat).

(** ** grep *)

(** [while (line_end < last && '\n' != data[line_end]) line_end++] *)
Fixpoint find_end (fuel : nat) (data : list Z) (last line_end : Z) : option Z :=
  if line_end <? last then
    c ← aget data line_end;
    if c =? 10 then Some line_end
    else match fuel with O => None | Datatypes.S fuel => find_end fuel data last (line_end + 1) end
  else Some line_end.
(** The [for] loop that searches a line, [n] places from [check] on: whether the
    line is printed *)
Fixpoint search_line (n : nat) (s data : list Z) (check s_len : Z) : option bool :=
  match n with
  | O => Some false
  | Datatypes.S n =>
      a ← aget s 0; b ← aget data check;
      if a =? b then
        r ← ece391_strncmp (drop (Z.to_nat check) data) s s_len;
        if r =? 0 then Some true else search_line n s data (check + 1) s_len
      else search_line n s data (check + 1) s_len
  end.
Definition print_match (fname text : list Z) : P () :=
  ece391_fdputs 1 fname;; ece391_fdputs 1 (lit ":");; ece391_fdputs 1 text;; ece391_fdputs 1 (line "").

(** The loop over the lines in the buffer, from [line_start] on: the buffer and
    [last] for the next read *)
Fixpoint lines_loop (fuel : nat) (s fname data : list Z) (s_len cnt last line_start : Z) : P (list Z * Z) :=
  match fuel with
  | O => ub
  | Datatypes.S fuel =>
      line_end ← lift (find_end (length data) data last line_start);
      c ← lift (aget data line_end);
      if negb (c =? 10) && negb (cnt =? 0) && negb (line_start =? 0) then
        data ← lift (aset data line_end 0);
        data ← lift (ece391_strcpy_in (length data) data 0 line_start);
        mret (data, last - line_start)
      else
        data ← lift (aset data line_end 0);
        found ← lift (search_line (Z.to_nat (line_end - line_start)) s data line_start s_len);
        (if (found : bool) then print_match fname (drop (Z.to_nat line_start) data) else skip);;
        let line_start := line_end + 1 in
        if line_start >=? last then mret (data, 0)
        else lines_loop fuel s fname data s_len cnt last line_start
  end.
Definition grep_step (s fname : list Z) (s_len fd : Z) (st : list Z * Z) : P ((list Z * Z) + Z) :=
  let '(data, last) := st in
  '(cnt, tail) ← ece391_read fd (drop (Z.to_nat last) data) (1024 - last);
  let data := take (Z.to_nat last) data ++ tail in
  if cnt =? -1 then ece391_fdputs 1 (line "file read failed");; mret (inr (-1))
  else
    '(data, last) ← lines_loop (length data) s fname data s_len cnt (last + cnt) 0;
    mret (if cnt =? 0 then inr 0 else inl (data, last)).
Definition do_one_file (s fname : list Z) : P Z :=
  s_len ← lift (ece391_strlen s);
  fd ← ece391_open fname;
  if fd =? -1 then ece391_fdputs 1 (line "file open failed");; mret (-1)
  else
    r ← forever (grep_step s fname s_len fd) (junk 1025%nat, 0);
    if r =? -1 then mret (-1)
    else
      c ← ece391_close fd;
      if c =? -1 then ece391_fdputs 1 (line "file close failed");; mret (-1) else mret 0.

Definition grep_dir_step (search : list Z) (fd : Z) (buf : list Z) : P (list Z + Z) :=
  '(cnt, buf) ← ece391_read fd buf 32;
  if cnt =? 0 then mret (inr 0)
  else if cnt =? -1 then ece391_fdputs 1 (line "directory entry read failed");; mret (inr 3)
  else
    c ← lift (aget buf 0);
    if c =? 46 then mret (inl buf)
    else
      buf ← lift (aset buf cnt 0);
      r ← do_one_file search buf;
      mret (if r =? 0 then inl buf else inr 3).
Definition grep_main : P Z :=
  '(r, search) ← ece391_getargs (junk 1024%nat) 1024;
  if negb (r =? 0) then ece391_fdputs 1 (line "could not read argument");; mret 3
  else
    fd ← ece391_open (lit ".");
    if fd =? -1 then ece391_fdputs 1 (line "directory open failed");; mret 2
    else forever (grep_dir_step search fd) (junk 33%nat).
End programs.
