(* ===== verification/Contract.v ===== *)
(** * Contract: what the kernel promises to a user program

    A process sees its open files, its arguments and what it has written; the
    system calls act on these as the class [kernel_contract] says.  The programs
    of [Programs] and [Syserr] are proved correct for any kernel that keeps the
    contract; [UserSpace] shows that the modelled kernel does. *)
From S2P Require Import Prelude LibString Filesystem KState Terminal Syscall FdTable Support Programs.

(** The process's view: the open files, the argument string if there is one, and
    the texts handed to [write] on descriptor 1, oldest first *)
Record uview := mk_view { files : table; argv : option (list Z); written : list (list Z) }.
#[export] Instance uview_settable : Settable uview := λ v, mk_view (files v) (argv v) (written v).
Definition says (t : list Z) (v : uview) : uview := v <| written ::= (.++ [t]) |>.

(** The bytes of a file as [read] delivers them: one more than its length says *)
Record stream (img : list Z) (ino : Z) (F : list Z) : Prop := {
  st_inode : ∃ n, inode_count img = Some n ∧ 0 ≤ ino ≤ u32 n;
  st_length : ∃ L, file_length img ino = Some L ∧ L < 2147483647 ∧ zlen F = L + 1;
  st_bytes : file_has img ino 0 F;
  st_u8 : Forall is_u8 F;
}.
(** The names of the directory, each padded with NULs to 32 bytes *)
Record listing (img : list Z) (names : list (list Z)) : Prop := {
  ls_count : dir_count img = Some (zlen names);
  ls_few : zlen names ≤ 63;
  ls_names : ∀ i name, names !! i = Some name → get_bytes img (direntry_addr (Z.of_nat i)) FILENAME_LEN = Some name;
  ls_u8 : Forall (Forall is_u8) names;
}.

(** The longest buffer of a program *)
Definition USER_BUF : Z := 4096.
Definition buffer_ok (buf : list Z) : Prop := Forall is_u8 buf ∧ zlen buf ≤ USER_BUF.
(** A string of arguments, as the shell leaves it *)
Record arg_ok (a : list Z) : Prop := {
  arg_length : (length a ≤ 127)%nat;
  arg_u8 : Forall is_u8 a;
  arg_text : (0 ∉ a) ∧ a ≠ [];
}.
(** Descriptors that cannot be read from or written to *)
Definition unreadable (t : table) (fd : Z) : Prop := fd < 0 ∨ 7 < fd ∨ fd = 1 ∨ t !! fd = None.
Definition unwritable (t : table) (fd : Z) : Prop := fd ≤ 0 ∨ 7 < fd ∨ (fd ≠ 1 ∧ t !! fd = None).

Section answers.
Context {S : Type} (view : uview → S → Prop).
(** In view [v] the computation gives [a] and leaves view [v']. *)
Definition answers {A} (m : M S A) (v : uview) (a : A) (v' : uview) : Prop :=
  ∀ s, view v s → ∃ s', m s = Some (a, s') ∧ view v' s'.

Lemma answers_ret {A} (a : A) v : answers (mret a) v a v.
Proof. intros s Hs. by exists s. Qed.
Lemma answers_skip v : answers skip v () v.
Proof. intros s Hs. by exists s. Qed.
Lemma answers_bind {A B} (m : M S A) (f : A → M S B) v a v1 b v2 :
  answers m v a v1 → answers (f a) v1 b v2 → answers (m ≫= f) v b v2.
Proof.
  intros Hm Hf s Hs. destruct (Hm s Hs) as (s1&H1&Hs1). destruct (Hf s1 Hs1) as (s2&H2&Hs2).
  exists s2. by rewrite (bind_run _ _ _ _ _ H1).
Qed.
Lemma answers_lift {A B} (o : option A) (f : A → M S B) v a b v' :
  o = Some a → answers (f a) v b v' → answers (lift o ≫= f) v b v'.
Proof. intros -> Hf. eapply answers_bind; [|exact Hf]. intros s Hs. by exists s. Qed.

(** Loops that return, and after how many rounds *)
Inductive loops {A} (body : A → M S (A + Z)) : nat → A → uview → Z → uview → Prop :=
  | loops_end a v r v' : answers (body a) v (inr r) v' → loops body 1 a v r v'
  | loops_step n a v a1 v1 r v' :
      answers (body a) v (inl a1) v1 → loops body n a1 v1 r v' → loops body (Datatypes.S n) a v r v'.
Lemma loops_run {A} (body : A → M S (A + Z)) n a v r v' k s :
  loops body n a v r v' → (n ≤ k)%nat → view v s →
  ∃ s', loop_nat body k a s = Some (inr r, s') ∧ view v' s'.
Proof.
  intros Hl. revert k s. induction Hl as [a v r v' Hb|n a v a1 v1 r v' Hb Hl IH]; intros k s Hk Hs;
    (destruct k as [|k]; [lia|]); cbn [loop_nat]; destruct (Hb s Hs) as (s1&H1&Hs1); rewrite (bind_run _ _ _ _ _ H1).
  - by exists s1.
  - apply IH; [lia|done].
Qed.
Lemma forever_answers {A} (body : A → M S (A + Z)) n a v r v' :
  loops body n a v r v' → Z.of_nat n ≤ 4294967296 → answers (forever body a) v r v'.
Proof.
  intros Hl Hn s Hs. unfold forever.
  destruct (loops_run body n a v r v' (Pos.to_nat 4294967296) s Hl ltac:(lia) Hs) as (s'&Hrun&Hs').
  rewrite <- loop_pos_nat in Hrun. exists s'. by rewrite (bind_run _ _ _ _ _ Hrun).
Qed.
End answers.

Class kernel_contract (S : Type) `{syscalls S} (img : list Z) := {
  view : uview → S → Prop;
  open_answers name v : buffer_ok name → terminated name →
    answers view (ece391_open name) v (spec_open img (cstr name) (files v)).1
      (v <| files ::= λ t, (spec_open img (cstr name) t).2 |>);
  close_answers fd v :
    answers view (ece391_close fd) v (spec_close fd (files v)).1 (v <| files ::= λ t, (spec_close fd t).2 |>);
  read_file_answers fd ino pos F buf n v :
    2 ≤ fd ≤ 7 → files v !! fd = Some (mk_file FsOps ino pos) → stream img ino F → 0 ≤ pos ≤ zlen F →
    buffer_ok buf → 0 ≤ n ≤ zlen buf →
    let bs := take (Z.to_nat n) (drop (Z.to_nat pos) F) in
    answers view (ece391_read fd buf n) v (zlen bs, bs ++ drop (length bs) buf)
      (v <| files ::= λ t, <[fd := mk_file FsOps ino (pos + zlen bs)]> t |>);
  read_dir_answers fd ino k names buf v :
    2 ≤ fd ≤ 7 → files v !! fd = Some (mk_file DirOps ino (32 * Z.of_nat k)) → listing img names → (k ≤ length names)%nat →
    buffer_ok buf → 32 ≤ zlen buf →
    let bs := default [] (names !! k) in
    answers view (ece391_read fd buf 32) v (zlen bs, bs ++ drop (length bs) buf)
      (v <| files ::= λ t, <[fd := mk_file DirOps ino (32 * Z.of_nat k + zlen bs)]> t |>);
  read_bad_answers fd buf n v : buffer_ok buf → unreadable (files v) fd → 0 ≤ n ≤ zlen buf →
    answers view (ece391_read fd buf n) v (-1, buf) v;
  write_answers buf n v : files v !! 1 = Some std_file → buffer_ok buf → 0 ≤ n ≤ zlen buf →
    answers view (ece391_write 1 buf n) v (i8 (text_count (take (Z.to_nat n) buf))) (says (take (Z.to_nat n) buf) v);
  write_bad_answers fd buf n v : buffer_ok buf → unwritable (files v) fd → 0 ≤ n ≤ zlen buf →
    answers view (ece391_write fd buf n) v (-1) v;
  getargs_answers buf n v : buffer_ok buf → 129 ≤ zlen buf → 0 ≤ n →
    answers view (ece391_getargs buf n) v
      (match argv v with
       | Some a => (0, in_buffer a (drop (Datatypes.S (length a)) buf))
       | None => (-1, buf)
       end) v;
  vidmap_bad_answers a v : a = 0 ∨ a = 4194304 → answers view (ece391_vidmap a) v (-1) v;
  bad_call_answers num v : num < 1 ∨ 10 < num → is_i32 num → answers view (int_0x80 num) v (-1) v;
}.
