(* ===== verification/Syserr.v ===== *)
(** * Syserr: the error tests of the system calls ([mp3/syscalls/ece391syserr.c])

    A program that makes calls that must fail and reports those that do not. *)
From S2P Require Import Prelude LibString Support Programs.

Section syserr.
Context {S : Type} `{syscalls S}.
Context (junk : stack_junk).
Abbreviation P := (M S).

Definition NEG_FD : Z := -1073741823.
Definition BIG_FD : Z := 1073741823.
Definition NEG_NUM : Z := -1073741823.
Definition BIG_NUM : Z := 1073741823.

Definition call_sys (num : Z) : P Z := int_0x80 num.

(** [if (-1 != r) { fail = 2; print }] *)
Definition must_fail (r : Z) (msg : string) (fail : Z) : P Z :=
  if negb (r =? -1) then ece391_fdputs 1 (line msg);; mret 2 else mret fail.
Definition report (test : string) (fail : Z) : P Z :=
  ece391_fdputs 1 (line (if negb (fail =? 0) then test +:+ ": FAIL" else test +:+ ": PASS"));; mret fail.
(** [for (i = first; i < first + n; i++) if (-1 != call) { print; fail = 2 }] where
    the call may change the buffer *)
Fixpoint all_fail (n : nat) (i : Z) (call : Z → list Z → P (Z * list Z)) (msg : string) (fail : Z) (buf : list Z)
    : P (Z * list Z) :=
  match n with
  | O => mret (fail, buf)
  | Datatypes.S n =>
      '(r, buf) ← call i buf;
      fail ← must_fail r msg fail;
      all_fail n (i + 1) call msg fail buf
  end.

Definition err_fd (fd : Z) (test : string) : P Z :=
  '(r, buf) ← ece391_read fd (junk 32%nat) 31;
  fail ← must_fail r "read fail" 0;
  r ← ece391_write fd buf 31;
  fail ← must_fail r "write fail" fail;
  r ← ece391_close fd;
  fail ← must_fail r "close fail" fail;
  report test fail.
Definition err_neg_fd : P Z := err_fd NEG_FD "err_neg_fd".
Definition err_big_fd : P Z := err_fd BIG_FD "err_big_fd".

Fixpoint open_dots (n : nat) (cnt : Z) : P Z :=
  match n with
  | O => mret cnt
  | Datatypes.S n => fd ← ece391_open (lit "."); open_dots n (if fd =? -1 then cnt + 1 else cnt)
  end.
Definition err_open_lots : P Z :=
  cnt ← open_dots 7 0;
  for_n 6 2 (λ i, ece391_close i;; skip);;
  if cnt =? 1 then ece391_fdputs 1 (line "err_open_lots: PASS");; mret 0
  else ece391_fdputs 1 (line "err_open_lots: FAIL");; mret 2.

Definition err_open : P Z :=
  r ← ece391_open (lit "helloo");
  fail ← must_fail r "'helloo' fail" 0;
  r ← ece391_open (lit "shel");
  fail ← must_fail r "'shel' fail" fail;
  r ← ece391_open (lit "");
  fail ← must_fail r "empty string fail" fail;
  report "err_open" fail.

Definition err_unopened : P Z :=
  '(fail, buf) ← all_fail 8 0 (λ i buf, r ← ece391_close i; mret (r, buf)) "close unopened or invalid fd fail" 0 (junk 32%nat);
  '(fail, buf) ← all_fail 6 2 (λ i buf, ece391_read i buf 31) "read from unopened fd fail" fail buf;
  '(fail, _) ← all_fail 6 2 (λ i buf, r ← ece391_write i buf 31; mret (r, buf)) "write to unopened fd fail" fail buf;
  report "err_unopened" fail.

Definition err_vidmap : P Z :=
  r ← ece391_vidmap 0;
  fail ← must_fail r "Null pointer fail" 0;
  r ← ece391_vidmap 4194304;
  fail ← must_fail r "Kernel pointer fail fail" fail;
  report "err_vidmap" fail.

Definition err_stdin_out : P Z :=
  r ← ece391_write 0 (junk 32%nat) 31;
  fail ← must_fail r "write to stdin fail" 0;
  '(r, _) ← ece391_read 1 (junk 32%nat) 31;
  fail ← must_fail r "read from stdout fail" fail;
  report "err_stdin_out" fail.

Definition err_syscall_num : P Z :=
  r ← call_sys BIG_NUM;
  fail ← must_fail r "syscall 0 fail" 0;
  r ← call_sys NEG_NUM;
  fail ← must_fail r "big num syscall fail" fail;
  r ← call_sys 0;
  fail ← must_fail r "neg num syscall fail" fail;
  report "err_syscall_num" fail.

(** [case 0]: all tests *)
Definition run_all : P Z :=
  f1 ← err_neg_fd; f2 ← err_big_fd; f3 ← err_open_lots; f4 ← err_open;
  f5 ← err_unopened; f6 ← err_vidmap; f7 ← err_stdin_out; f8 ← err_syscall_num;
  let fail := i32 (f1 + f2 + f3 + f4 + f5 + f6 + f7 + f8) in
  (if negb (fail =? 0) then ece391_fdputs 1 (10 :: line "Overall Tests: FAIL")
   else ece391_fdputs 1 (10 :: line "Overall Tests: PASS"));;
  mret fail.
Definition syserr_main : P Z :=
  ece391_fdputs 1 (lit "Choose from tests 1-8. 0 to run all: ");;
  '(cnt, buf) ← ece391_read 0 (junk 128%nat) 127;
  if cnt =? -1 then ece391_fdputs 1 (line "Can't read test #");; mret 2
  else
    c ← lift (aget buf 0);
    let select := c - 48 in
    if select =? 0 then run_all
    else if select =? 1 then err_neg_fd
    else if select =? 2 then err_big_fd
    else if select =? 3 then err_open_lots
    else if select =? 4 then err_open
    else if select =? 5 then err_unopened
    else if select =? 6 then err_vidmap
    else if select =? 7 then err_stdin_out
    else if select =? 8 then err_syscall_num
    else ece391_fdputs 1 (lit "Invalid test number. Choose from tests 1-8 or 0");; mret 0.
End syserr.
