(* ===== verification/UserRuns.v ===== *)
(** * UserRuns: the user programs over a kernel that keeps the contract

    [cat], [ls], [grep] and the error tests, run to their end in any state that
    shows the process a given view. *)
From S2P Require Import Prelude LibString Filesystem KState Terminal Syscall FdTable Process Support Programs Contract Syserr.

(** ** Literals *)
Lemma chars_u8 s : Forall is_u8 (chars s).
Proof.
  unfold chars. apply Forall_fmap, Forall_forall. intros c _. cbn.
  pose proof (Ascii.N_ascii_bounded c). cint. lia.
Qed.
Definition plain (s : string) : bool := forallb (λ c, negb (c =? 0)) (chars s) && Nat.ltb (length (chars s)) 4000.
Lemma plain_spec s : plain s = true → (0 ∉ chars s) ∧ (length (chars s) < 4000)%nat.
Proof.
  intros [Hf Hl%Nat.ltb_lt]%andb_prop. split; [|done]. intros Hin%list_elem_of_In.
  rewrite forallb_forall in Hf. by specialize (Hf _ Hin).
Qed.
(** A buffer that holds the text [t] *)
Definition holds_text (buf t : list Z) : Prop :=
  buffer_ok buf ∧ (0 ∉ t) ∧ ∃ rest, buf = in_buffer t rest.
Lemma text_lit s : plain s = true → holds_text (lit s) (chars s).
Proof.
  intros [H0 Hl]%plain_spec. split; [|split; [done|by exists []]]. unfold lit. split.
  - apply Forall_app. split; [apply chars_u8|by repeat constructor].
  - rewrite length_app. unfold USER_BUF. cbn. lia.
Qed.
Lemma text_line s : plain s = true → holds_text (line s) (chars s ++ [10]).
Proof.
  intros [H0 Hl]%plain_spec. unfold line. split; [|split].
  - split; [apply Forall_app; split; [apply chars_u8|by repeat constructor]|].
    rewrite length_app. unfold USER_BUF. cbn. lia.
  - intros [?|?%list_elem_of_singleton]%elem_of_app; done.
  - exists []. unfold in_buffer. by rewrite <- app_assoc.
Qed.
Lemma text_strlen buf t : holds_text buf t → ece391_strlen buf = Some (zlen t) ∧ (length t < length buf)%nat ∧ take (length t) buf = t.
Proof.
  intros ([_ Hl]&H0&rest&->). unfold USER_BUF in Hl.
  rewrite ece391_strlen_cstr by (apply terminated_in_buffer || lia). rewrite cstr_in_buffer by done.
  unfold in_buffer. split; [done|]. split; [rewrite length_app; cbn; lia|]. by rewrite take_app_length.
Qed.

(** What an array on the stack may hold *)
Definition good_junk (junk : stack_junk) : Prop := ∀ n, length (junk n) = n ∧ Forall is_u8 (junk n).

Section runs.
Context {S : Type} (img : list Z) `{kernel_contract S img}.
Context (junk : stack_junk) (Hjunk : good_junk junk).
Abbreviation answers := (answers (S := S) view).

Lemma junk_ok n : (n ≤ 4096)%nat → buffer_ok (junk n) ∧ zlen (junk n) = Z.of_nat n.
Proof. destruct (Hjunk n) as [Hl Hu]. intros. unfold buffer_ok, USER_BUF. rewrite Hl. split; [split; [done|lia]|done]. Qed.

Lemma fdputs_answers buf t v :
  files v !! 1 = Some std_file → holds_text buf t → answers (ece391_fdputs 1 buf) v () (says t v).
Proof using.
  intros Hf Ht. destruct (text_strlen buf t Ht) as (Hn&Hl&Htake). unfold ece391_fdputs.
  eapply answers_lift; [exact Hn|]. eapply answers_bind; [|apply answers_skip].
  pose proof (write_answers buf (zlen t) v Hf (proj1 Ht) ltac:(lia)) as Hw. by rewrite Nat2Z.id, Htake in Hw.
Qed.

(** ** cat *)
Lemma buffer_filled bs buf :
  Forall is_u8 bs → (length bs ≤ length buf)%nat → buffer_ok buf →
  buffer_ok (bs ++ drop (length bs) buf) ∧ zlen (bs ++ drop (length bs) buf) = zlen buf.
Proof using.
  intros Hu Hl [Hb Hz]. assert (zlen (bs ++ drop (length bs) buf) = zlen buf) as E by (rewrite length_app, length_drop; lia).
  split; [|done]. split; [|by rewrite E]. apply Forall_app. split; [done|by apply Forall_drop].
Qed.

Lemma take_of_take {A} n (l : list A) : take (length (take n l)) l = take n l.
Proof using. rewrite length_take. destruct (Nat.min_spec n (length l)) as [[? ->]|[? ->]]; [done|by rewrite !take_ge by lia]. Qed.
Lemma cat_loop F fd ino n : ∀ pos buf v,
  (length F - pos < n)%nat → (pos ≤ length F)%nat → 2 ≤ fd ≤ 7 →
  stream img ino F → files v !! fd = Some (mk_file FsOps ino (Z.of_nat pos)) → files v !! 1 = Some std_file →
  buffer_ok buf → zlen buf = 1024 →
  ∃ k ws r v', loops view (cat_step fd) k buf v r v' ∧ (k ≤ n)%nat ∧
    written v' = written v ++ ws ∧ mjoin ws `prefix_of` drop pos F ∧
    (r = 0 ∧ mjoin ws = drop pos F ∨ r = 3 ∧ ∃ w, w ∈ ws ∧ i8 (text_count w) = -1) ∧
    ∀ w, w ∈ ws → ∃ j, w = take 1024 (drop (pos + 1024 * j) F).
Proof using.
  induction n as [|n IH]; intros pos buf v Hn Hpos Hfd Hst Hf H1 Hb Hl; [lia|].
  pose proof (read_file_answers fd ino (Z.of_nat pos) F buf 1024 v Hfd Hf Hst ltac:(lia) Hb ltac:(lia)) as Hread.
  cbn zeta in Hread. rewrite Nat2Z.id in Hread. change (Z.to_nat 1024) with 1024%nat in Hread.
  set (bs := take 1024 (drop pos F)) in *. set (buf1 := bs ++ drop (length bs) buf) in *.
  set (v1 := v <| files ::= λ t, <[fd := mk_file FsOps ino (Z.of_nat pos + zlen bs)]> t |>) in *.
  assert (Hbl : length bs = Nat.min 1024 (length F - pos)) by (unfold bs; rewrite length_take, length_drop; done).
  assert (Hbu : Forall is_u8 bs) by (unfold bs; by apply Forall_take, Forall_drop, st_u8 with img ino).
  destruct (buffer_filled bs buf Hbu ltac:(lia) Hb) as [Hb1 Hl1]. fold buf1 in Hb1, Hl1.
  assert (H11 : files v1 !! 1 = Some std_file) by (cbn; rewrite lookup_insert_ne by lia; done).
  destruct (decide (bs = [])) as [Hnil|Hne].
  - assert (pos = length F) as -> by (rewrite Hnil in Hbl; cbn [length] in Hbl; lia).
    exists 1%nat, [], 0, v1. rewrite drop_all, app_nil_r. split; [|split; [lia|split; [done|split; [done|split; [by left|]]]]].
    + apply loops_end. unfold cat_step. eapply answers_bind; [exact Hread|]. cbn. rewrite Hnil. apply answers_ret.
    + by intros w ?%elem_of_nil.
  - assert (0 < length bs)%nat by (destruct bs; [done|cbn; lia]).
    pose proof (write_answers buf1 (zlen bs) v1 H11 Hb1 ltac:(lia)) as Hw. rewrite Nat2Z.id in Hw.
    assert (take (length bs) buf1 = bs) as Htk by (unfold buf1; by rewrite take_app_length).
    rewrite Htk in Hw. set (w := i8 (text_count bs)) in *.
    assert (Hstep : answers (cat_step fd buf) v (if w =? -1 then inr 3 else inl buf1) (says bs v1)).
    { unfold cat_step. eapply answers_bind; [exact Hread|]. cbn iota beta.
      destruct (Z.eqb_spec (zlen bs) 0); [lia|]. destruct (Z.eqb_spec (zlen bs) (-1)); [lia|].
      eapply answers_bind; [exact Hw|]. apply answers_ret. }
    assert (Hpre : bs `prefix_of` drop pos F) by (exists (drop 1024 (drop pos F)); symmetry; apply take_drop).
    destruct (Z.eqb_spec w (-1)) as [Hw1|Hw1].
    + exists 1%nat, [bs], 3, (says bs v1). cbn [mjoin list_join]. rewrite app_nil_r.
      split; [by apply loops_end|]. split; [lia|]. split; [done|]. split; [done|]. split.
      * right. split; [done|]. exists bs. by split; [left|].
      * intros w' ->%list_elem_of_singleton. exists 0%nat. by rewrite Nat.mul_0_r, Nat.add_0_r.
    + destruct (IH (pos + length bs)%nat buf1 (says bs v1)) as (k&ws&r&v'&Hk&Hkn&Hws&Hpr&Hr&Hall); try done; try lia.
      { cbn. rewrite lookup_insert_eq. do 2 f_equal. lia. }
      exists (Datatypes.S k), (bs :: ws), r, v'. split; [by eapply loops_step|]. split; [lia|].
      assert (drop pos F = bs ++ drop (pos + length bs) F) as Hsplit.
      { pose proof (take_of_take 1024 (drop pos F)) as Htt. fold bs in Htt.
        etrans; [symmetry; apply (take_drop (length bs))|]. by rewrite Htt, drop_drop. }
      split; [rewrite Hws; cbn; by rewrite <- app_assoc|]. change (mjoin (bs :: ws)) with (bs ++ mjoin ws). rewrite Hsplit.
      split; [by apply prefix_app|]. split.
      * destruct Hr as [[-> ->]|[-> (w'&Hin&Hw')]]; [by left|]. right. split; [done|]. exists w'. by split; [right|].
      * intros w' [->|Hin]%elem_of_cons; [exists 0%nat; by rewrite Nat.mul_0_r, Nat.add_0_r|].
        destruct (Hall w' Hin) as [j ->]. exists (Datatypes.S j).
        destruct (decide (length bs = 1024%nat)) as [->|Hlt]; [do 2 f_equal; lia|].
        rewrite !drop_ge by lia. done.
Qed.
(** [cat]: with a regular file's name as its argument and a free descriptor, the
    program ends; it writes pieces of the file in order, each of 1024 bytes but the
    last.  It returns 0 when it has written the whole file, and 3 after a piece
    for which [write] returned -1: one whose characters other than NUL number
    255 modulo 256. *)
Lemma cat_runs name d fd F v :
  argv v = Some name → arg_ok name → files v !! 1 = Some std_file →
  find_dentry img name = Some d → filetype d = 2 → stream img (u32 (inode_num d)) F →
  take (length name) stdin_str ≠ name → take (length name) stdout_str ≠ name → fresh (files v) = Some fd →
  ∃ ws r v', answers (cat_main junk) v r v' ∧ written v' = written v ++ ws ∧
    mjoin ws `prefix_of` F ∧ (∀ w, w ∈ ws → ∃ j, w = take 1024 (drop (1024 * j) F)) ∧
    (r = 0 ∧ mjoin ws = F ∨ r = 3 ∧ ∃ w, w ∈ ws ∧ i8 (text_count w) = -1).
Proof using Hjunk.
  intros Ha [Hnl Hnu [Hn0 Hne]] H1 Hd Hty Hst Hin Hout Hfr.
  destruct (junk_ok 1024) as [Hb Hl]; [lia|]. destruct (fresh_Some _ _ Hfr) as (Hfd&_&_).
  pose proof (getargs_answers (junk 1024%nat) 1024 v Hb ltac:(lia) ltac:(lia)) as Hget. rewrite Ha in Hget.
  set (buf := in_buffer name _) in Hget.
  assert (buf = (name ++ [0]) ++ drop (length (name ++ [0])) (junk 1024%nat)) as Hbuf.
  { unfold buf, in_buffer. rewrite length_app, Nat.add_1_r, <- app_assoc. done. }
  assert (Hnu0 : Forall is_u8 (name ++ [0])) by (apply Forall_app; split; [done|by repeat constructor]).
  destruct (buffer_filled (name ++ [0]) (junk 1024%nat) Hnu0) as [Hb' Hl']; [rewrite length_app; cbn [length]; lia|done|].
  rewrite <- Hbuf in Hb', Hl'. rewrite Hl in Hl'.
  pose proof (open_answers buf v Hb' (terminated_in_buffer _ _)) as Hopen.
  unfold buf in Hopen. rewrite cstr_in_buffer in Hopen by done. fold buf in Hopen.
  assert (spec_open img name (files v) = (fd, <[fd := file_of_dentry d]> (files v))) as Hspec.
  { unfold spec_open. by rewrite decide_False, decide_False, decide_False, Hd, Hfr by done. }
  rewrite Hspec in Hopen. cbn [fst snd] in Hopen.
  set (v1 := setter files _ v) in Hopen.
  assert (Hv1 : files v1 = <[fd := mk_file FsOps (u32 (inode_num d)) 0]> (files v)).
  { change (files v1) with (spec_open img name (files v)).2. rewrite Hspec. unfold file_of_dentry. by rewrite Hty. }
  destruct (cat_loop F fd (u32 (inode_num d)) (Datatypes.S (length F)) 0 buf v1) as (k&ws&r&v'&Hk&Hkn&Hws&Hpre&Hr&Hall);
    try done; try lia.
  { rewrite Hv1. by rewrite lookup_insert_eq. }
  { rewrite Hv1. by rewrite lookup_insert_ne by lia. }
  exists ws, r, v'. split; [|by rewrite drop_0 in *].
  unfold cat_main. eapply answers_bind; [exact Hget|]. cbn [negb Z.eqb]. eapply answers_bind; [exact Hopen|].
  destruct (Z.eqb_spec fd (-1)); [lia|]. apply (forever_answers _ _ k); [exact Hk|].
  destruct (st_length _ _ _ Hst) as (L&_&HL&HF). lia.
Qed.

(** ** ls *)
Lemma listing_length names k name : listing img names → names !! k = Some name → length name = 32%nat.
Proof using.
  intros Hls Hk. pose proof (ls_names _ _ Hls k name Hk) as Hg.
  unfold get_bytes, direntry_addr, FILENAME_LEN in Hg. destruct (_ && _) eqn:E; [|done].
  apply andb_prop in E as [_ E%Z.leb_le]. injection Hg as <-. rewrite length_take, length_drop. lia.
Qed.
Lemma aset_last (l : list Z) x y : zlen l = 32 → aset (l ++ [x]) 32 y = Some (l ++ [y]).
Proof using.
  intros Hl. rewrite aset_in by (rewrite length_app; cbn [length]; lia).
  replace (Z.to_nat 32) with (length l + 0)%nat by lia. by rewrite insert_app_r.
Qed.
Lemma short_count l : zlen l < 128 → i8 (text_count l) ≠ -1.
Proof using.
  intros Hl. unfold text_count. pose proof (length_filter (λ c, c ≠ 0) l). unfold i8. rewrite Z.mod_small by lia. lia.
Qed.
Lemma ls_loop names fd ino buf v (k : nat) :
  2 ≤ fd ≤ 7 → listing img names → (k ≤ length names)%nat →
  files v !! fd = Some (mk_file DirOps ino (32 * Z.of_nat k)) → files v !! 1 = Some std_file →
  buffer_ok buf → zlen buf = 33 →
  ∃ v', loops view (ls_step fd) (Datatypes.S (length names - k)) buf v 0 v' ∧
    written v' = written v ++ ((λ n, n ++ [10]) <$> drop k names).
Proof using.
  intros Hfd Hls. remember (length names - k)%nat as m eqn:Hm. revert k buf v Hm.
  induction m as [|m IH]; intros k buf v Hm Hk Hf H1 Hb Hl;
    pose proof (read_dir_answers fd ino k names buf v Hfd Hf Hls Hk Hb ltac:(lia)) as Hread; cbn zeta in Hread;
    set (v1 := setter files _ v) in Hread;
    assert (H11 : files v1 !! 1 = Some std_file) by (cbn; rewrite lookup_insert_ne by lia; done).
  - assert (k = length names) as -> by lia. rewrite drop_all. rewrite lookup_ge_None_2 in Hread by done.
    exists v1. rewrite app_nil_r. split; [|done]. apply loops_end. unfold ls_step.
    eapply answers_bind; [exact Hread|]. apply answers_ret.
  - destruct (lookup_lt_is_Some_2 names k ltac:(lia)) as [name Hname]. rewrite Hname in Hread. cbn [default from_option] in Hread.
    change (@id (list Z) name) with name in Hread.
    assert (Hnl : length name = 32%nat) by (by apply (listing_length names k)).
    assert (Hnu : Forall is_u8 name) by (eapply Forall_lookup_1; [exact (ls_u8 _ _ Hls)|done]).
    destruct (buffer_filled name buf Hnu ltac:(lia) Hb) as [Hb1 Hl1].
    destruct (drop (length name) buf) as [|x [|]] eqn:Ed; pose proof (f_equal length Ed) as El; rewrite length_drop in El; cbn [length] in El; try lia.
    destruct (buffer_filled (name ++ [10]) buf) as [Hb2 Hl2]; [apply Forall_app; split; [done|by repeat constructor]|rewrite length_app; cbn [length]; lia|done|].
    rewrite (drop_ge buf) in Hb2, Hl2 by (rewrite length_app; cbn [length]; lia). rewrite app_nil_r in Hb2, Hl2.
    pose proof (write_answers (name ++ [10]) 33 v1 H11 Hb2 ltac:(lia)) as Hw.
    rewrite take_ge in Hw by (rewrite length_app; cbn [length]; lia).
    destruct (IH (Datatypes.S k) (name ++ [10]) (says (name ++ [10]) v1)) as (v'&Hv'&Hwr); try done; try lia.
    { cbn. rewrite lookup_insert_eq, Hname. cbn. rewrite Hnl. do 2 f_equal. lia. }
    exists v'. split.
    + eapply loops_step; [|exact Hv']. unfold ls_step. eapply answers_bind; [exact Hread|]. cbn iota beta.
      rewrite Hnl. change (32 =? 0) with false. change (32 =? -1) with false. cbn iota.
      eapply answers_lift; [apply (aset_last name x 10); lia|].
      eapply answers_bind; [exact Hw|]. rewrite (proj2 (Z.eqb_neq _ _)); [apply answers_ret|].
      apply short_count. rewrite length_app. cbn [length]. lia.
    + rewrite Hwr, (drop_S names name k Hname), fmap_cons.
      change (written (says (name ++ [10]) v1)) with (written v ++ [name ++ [10]]). by rewrite <- app_assoc.
Qed.
(** [ls]: the program ends with 0 after writing the name of every directory
    entry in order, each padded to 32 bytes and followed by a newline. *)
Lemma ls_runs names d fd v :
  files v !! 1 = Some std_file → find_dentry img [46] = Some d → filetype d = 1 →
  listing img names → fresh (files v) = Some fd →
  ∃ v', answers (ls_main junk) v 0 v' ∧ written v' = written v ++ ((λ n, n ++ [10]) <$> names).
Proof using Hjunk.
  intros H1 Hd Hty Hls Hfr. destruct (junk_ok 33) as [Hb Hl]; [lia|]. destruct (fresh_Some _ _ Hfr) as (Hfd&_&_).
  destruct (text_lit "." eq_refl) as (Hbl&Hdot&rest&Hlit).
  pose proof (open_answers (lit ".") v Hbl (lit_terminated ".")) as Hopen.
  change (cstr (lit ".")) with [46] in Hopen.
  assert (Hspec : spec_open img [46] (files v) = (fd, <[fd := file_of_dentry d]> (files v))).
  { unfold spec_open. change (take (length [46]) stdin_str) with [115]. change (take (length [46]) stdout_str) with [115].
    by rewrite decide_False, decide_False, decide_False, Hd, Hfr by done. }
  set (v1 := setter files _ v) in Hopen. rewrite Hspec in Hopen. cbn [fst] in Hopen.
  assert (Hv1 : files v1 = <[fd := mk_file DirOps (f_inode (file_of_dentry d)) 0]> (files v)).
  { change (files v1) with (spec_open img [46] (files v)).2. rewrite Hspec. unfold file_of_dentry. by rewrite Hty. }
  destruct (ls_loop names fd (f_inode (file_of_dentry d)) (junk 33%nat) v1 0) as (v'&Hloop&Hw); try done; try lia.
  { rewrite Hv1. by rewrite lookup_insert_eq. }
  { rewrite Hv1. by rewrite lookup_insert_ne by lia. }
  exists v'. split; [|by rewrite drop_0 in Hw]. unfold ls_main. eapply answers_bind; [exact Hopen|].
  destruct (Z.eqb_spec fd (-1)); [lia|]. eapply forever_answers; [exact Hloop|].
  pose proof (ls_few _ _ Hls). lia.
Qed.

(** ** The error tests *)
Lemma failed {B} (call : M S Z) msg f (k : Z → M S B) v b v' :
  answers call v (-1) v → answers (k f) v b v' → answers (r ← call; fail ← must_fail r msg f; k fail) v b v'.
Proof using. intros Hc Hk. eapply answers_bind; [exact Hc|]. eapply answers_bind; [apply answers_ret|exact Hk]. Qed.
Lemma failed_read {B} (call : M S (Z * list Z)) msg f (k : list Z → Z → M S B) v buf b v' :
  answers call v (-1, buf) v → answers (k buf f) v b v' →
  answers ('(r, buf) ← call; fail ← must_fail r msg f; k buf fail) v b v'.
Proof using. intros Hc Hk. eapply answers_bind; [exact Hc|]. eapply answers_bind; [apply answers_ret|exact Hk]. Qed.
Lemma all_fail_answers msg f v buf (call : Z → list Z → M S (Z * list Z)) n : ∀ i,
  (∀ j, i ≤ j < i + Z.of_nat n → answers (call j buf) v (-1, buf) v) → answers (all_fail n i call msg f buf) v (f, buf) v.
Proof using.
  induction n as [|n IH]; intros i Hc; [apply answers_ret|]. cbn [all_fail].
  apply (failed_read _ _ _ (λ buf fail, all_fail n (i + 1) call msg fail buf)) with buf; [apply Hc; lia|].
  apply IH. intros j Hj. apply Hc. lia.
Qed.
Lemma report_answers test v :
  files v !! 1 = Some std_file → plain (test +:+ ": PASS") = true →
  answers (report test 0) v 0 (says (chars (test +:+ ": PASS") ++ [10]) v).
Proof using. intros H1 Hp. eapply answers_bind; [by apply fdputs_answers, text_line|apply answers_ret]. Qed.
Lemma bad_read fd v : unreadable (files v) fd → answers (ece391_read fd (junk 32%nat) 31) v (-1, junk 32%nat) v.
Proof using Hjunk.
  intros Hu. destruct (junk_ok 32) as [Hb Hl]; [lia|].
  apply (read_bad_answers fd (junk 32%nat) 31 v Hb Hu). lia.
Qed.
Lemma bad_write fd v : unwritable (files v) fd → answers (ece391_write fd (junk 32%nat) 31) v (-1) v.
Proof using Hjunk. intros Hu. destruct (junk_ok 32) as [Hb Hl]; [lia|]. apply write_bad_answers; [done..|lia]. Qed.
Lemma close_eq fd t a w r t' :
  spec_close fd t = (r, t') → answers (ece391_close fd) (mk_view t a w) r (mk_view t' a w).
Proof using.
  intros Hs. pose proof (close_answers fd (mk_view t a w)) as Ha.
  unfold setter in Ha. cbn [files argv written] in Ha. by rewrite Hs in Ha.
Qed.
Lemma open_eq name t a w r t' : plain name = true → spec_open img (chars name) t = (r, t') →
  answers (ece391_open (lit name)) (mk_view t a w) r (mk_view t' a w).
Proof using.
  intros Hp Hs. destruct (text_lit name Hp) as (Hb&Hz&rest&Hl).
  pose proof (open_answers (lit name) (mk_view t a w) Hb (lit_terminated name)) as Ha.
  assert (cstr (lit name) = chars name) as Hc by (unfold lit; by apply (cstr_in_buffer _ [])).
  unfold setter in Ha. cbn [files argv written] in Ha. by rewrite Hc, Hs in Ha.
Qed.
Lemma bad_close fd v : ¬ (2 ≤ fd ≤ 7) ∨ files v !! fd = None → answers (ece391_close fd) v (-1) v.
Proof using.
  intros Hc. destruct v as [t a w]. apply close_eq. unfold spec_close. rewrite decide_False; [done|].
  intros [? [f Hf]]. cbn in Hc. destruct Hc; [done|congruence].
Qed.
Lemma bad_open name v : plain name = true → spec_open img (chars name) (files v) = (-1, files v) →
  answers (ece391_open (lit name)) v (-1) v.
Proof using. destruct v as [t a w]. apply open_eq. Qed.
Definition pass (test : string) : list Z := chars (test +:+ ": PASS") ++ [10].

Lemma err_fd_answers fd test v :
  fd < 0 ∨ 7 < fd → files v !! 1 = Some std_file → plain (test +:+ ": PASS") = true →
  answers (err_fd junk fd test) v 0 (says (pass test) v).
Proof using Hjunk.
  intros Hfd H1 Hp. unfold err_fd.
  eapply failed_read; [apply bad_read; unfold unreadable; lia|].
  eapply failed; [apply bad_write; unfold unwritable; lia|].
  eapply failed; [apply bad_close; lia|]. by apply report_answers.
Qed.

Lemma open_dot d t a w fd :
  find_dentry img [46] = Some d → fresh t = Some fd →
  answers (ece391_open (lit ".")) (mk_view t a w) fd (mk_view (<[fd := file_of_dentry d]> t) a w).
Proof using.
  intros Hd Hf. apply open_eq; [done|]. unfold spec_open. change (chars ".") with [46].
  by rewrite decide_False, decide_False, decide_False, Hd, Hf by done.
Qed.
Lemma open_dot_full d t a w :
  find_dentry img [46] = Some d → fresh t = None →
  answers (ece391_open (lit ".")) (mk_view t a w) (-1) (mk_view t a w).
Proof using.
  intros Hd Hf. apply open_eq; [done|]. unfold spec_open. change (chars ".") with [46].
  by rewrite decide_False, decide_False, decide_False, Hd, Hf by done.
Qed.
(** The table after [fd] of the descriptors from 2 on were opened *)
Fixpoint dots (f : file) (n : nat) : table :=
  match n with O => std_table | Datatypes.S n => <[2 + Z.of_nat n := f]> (dots f n) end.
Lemma fresh_dots f n : (n < 6)%nat → fresh (dots f n) = Some (2 + Z.of_nat n).
Proof using. intros. do 6 (destruct n as [|n]; [vm_compute; reflexivity|]). lia. Qed.

Lemma open_dots_answers d a w n : ∀ k cnt, find_dentry img [46] = Some d → (n + k = 6)%nat →
  answers (open_dots (Datatypes.S n) cnt) (mk_view (dots (file_of_dentry d) k) a w) (cnt + 1)
    (mk_view (dots (file_of_dentry d) 6) a w).
Proof using.
  induction n as [|n IH]; intros k cnt Hd Hk; cbn [open_dots].
  - assert (k = 6%nat) as -> by lia.
    eapply answers_bind; [by apply (open_dot_full d)|apply answers_ret].
  - eapply answers_bind; [apply (open_dot d); [done|by apply fresh_dots; lia]|].
    rewrite (proj2 (Z.eqb_neq _ _)) by lia. apply (IH (Datatypes.S k)); [done|lia].
Qed.
Lemma close_dots f a w :
  answers (for_n 6 2 (λ i, ece391_close i;; skip)) (mk_view (dots f 6) a w) () (mk_view std_table a w).
Proof using.
  cbn [for_n].
  do 6 (eapply answers_bind; [eapply answers_bind; [eapply close_eq; vm_compute; reflexivity|apply answers_skip]|]).
  apply answers_skip.
Qed.

Lemma err_open_lots_answers d a w :
  find_dentry img [46] = Some d →
  answers err_open_lots (mk_view std_table a w) 0 (mk_view std_table a (w ++ [pass "err_open_lots"])).
Proof using.
  intros Hd. unfold err_open_lots.
  eapply answers_bind; [apply (open_dots_answers d a w 6 0 0); done|].
  eapply answers_bind; [apply close_dots|]. cbn [Z.add Z.eqb Pos.eqb].
  eapply answers_bind; [by apply fdputs_answers, text_line|apply answers_ret].
Qed.
Lemma err_open_answers a w :
  find_dentry img (chars "helloo") = None → find_dentry img (chars "shel") = None →
  answers err_open (mk_view std_table a w) 0 (mk_view std_table a (w ++ [pass "err_open"])).
Proof using.
  intros H1 H2. unfold err_open.
  assert (∀ name, name ≠ [] → take (length name) stdin_str ≠ name → take (length name) stdout_str ≠ name →
    find_dentry img name = None → spec_open img name std_table = (-1, std_table)) as Hmiss.
  { intros name Hn Hi Ho Hd. unfold spec_open. by rewrite decide_False, decide_False, decide_False, Hd by done. }
  do 2 (eapply failed; [apply bad_open; [done|by apply Hmiss]|]).
  eapply failed; [by apply bad_open|].
  by apply (report_answers "err_open" (mk_view std_table a w)).
Qed.
Lemma std_closed fd : 2 ≤ fd → std_table !! fd = None.
Proof using. intros. unfold std_table. by rewrite !lookup_insert_ne, lookup_empty by lia. Qed.
Lemma err_unopened_answers a w :
  answers (err_unopened junk) (mk_view std_table a w) 0 (mk_view std_table a (w ++ [pass "err_unopened"])).
Proof using Hjunk.
  unfold err_unopened.
  eapply answers_bind.
  { apply all_fail_answers. intros j Hj. eapply answers_bind; [|apply answers_ret]. apply bad_close. destruct (decide (2 ≤ j)); [right; by apply std_closed|left; lia]. }
  eapply answers_bind.
  { apply all_fail_answers. intros j Hj. apply bad_read. right. right. right. apply std_closed. lia. }
  eapply answers_bind.
  { apply all_fail_answers. intros j Hj. eapply answers_bind; [|apply answers_ret]. apply bad_write. right. right. split; [lia|]. apply std_closed. lia. }
  by apply (report_answers "err_unopened" (mk_view std_table a w)).
Qed.
Lemma err_vidmap_answers a w :
  answers err_vidmap (mk_view std_table a w) 0 (mk_view std_table a (w ++ [pass "err_vidmap"])).
Proof using.
  do 2 (eapply failed; [apply vidmap_bad_answers; lia|]).
  by apply (report_answers "err_vidmap" (mk_view std_table a w)).
Qed.
Lemma err_stdin_out_answers a w :
  answers (err_stdin_out junk) (mk_view std_table a w) 0 (mk_view std_table a (w ++ [pass "err_stdin_out"])).
Proof using Hjunk.
  eapply failed; [apply bad_write; left; lia|].
  eapply (failed_read _ _ _ (λ _, report "err_stdin_out")); [apply bad_read; right; right; left; lia|].
  by apply (report_answers "err_stdin_out" (mk_view std_table a w)).
Qed.
Lemma err_syscall_num_answers a w :
  answers err_syscall_num (mk_view std_table a w) 0 (mk_view std_table a (w ++ [pass "err_syscall_num"])).
Proof using.
  do 3 (eapply failed; [apply bad_call_answers; [unfold BIG_NUM, NEG_NUM; lia|by unfold is_i32]|]).
  by apply (report_answers "err_syscall_num" (mk_view std_table a w)).
Qed.

(** [ece391syserr], test 0: on a file system with an entry for the directory and
    none named helloo or shel, each of the eight tests finds that every bad call
    failed: the program writes the eight PASS lines and the overall one, leaves
    the open files as they were, and returns 0. *)
Lemma syserr_runs d a w :
  find_dentry img [46] = Some d →
  find_dentry img (chars "helloo") = None → find_dentry img (chars "shel") = None →
  answers (run_all junk) (mk_view std_table a w) 0
    (mk_view std_table a (w ++ (pass <$> ["err_neg_fd"; "err_big_fd"; "err_open_lots"; "err_open"; "err_unopened";
                                          "err_vidmap"; "err_stdin_out"; "err_syscall_num"]%string)
                            ++ [10 :: pass "Overall Tests"])).
Proof using Hjunk.
  intros Hd H1 H2. unfold run_all.
  eapply answers_bind; [apply err_fd_answers; [unfold NEG_FD; lia|done..]|].
  eapply answers_bind; [apply err_fd_answers; [unfold BIG_FD; lia|done..]|].
  cbn [says setter files argv written].
  eapply answers_bind; [by apply (err_open_lots_answers d)|].
  eapply answers_bind; [by apply err_open_answers|].
  eapply answers_bind; [apply err_unopened_answers|].
  eapply answers_bind; [apply err_vidmap_answers|].
  eapply answers_bind; [apply err_stdin_out_answers|].
  eapply answers_bind; [apply err_syscall_num_answers|].
  change (i32 _) with 0. cbn [negb Z.eqb]. rewrite <- !app_assoc.
  eapply answers_bind; [apply (fdputs_answers _ (10 :: pass "Overall Tests")); [done|]|].
  { destruct (text_line "Overall Tests: PASS" eq_refl) as ([Hu Hl]&Hz&rest&E). split; [|split].
    - split; [by constructor|]. vm_compute. done.
    - intros [?|Hin]%elem_of_cons; [discriminate|exact (Hz Hin)].
    - exists rest. rewrite E. done. }
  match goal with |- answers _ ?v _ ?v' => assert (v = v') as -> end; [|apply answers_ret].
  unfold says. cbn [setter files argv written]. by rewrite <- !app_assoc.
Qed.
End runs.
