(* ===== verification/UserSpace.v ===== *)
(** * UserSpace: the modelled kernel keeps the contract

    A system call of a program, on the kernel of [Syscall]: the program's buffer
    is put into user memory, the handler runs on its address, and the buffer is
    taken back.  The handlers are chosen by [sysc] of [link.S].  The view of the
    running process is read off its PCB. *)
From S2P Require Import Prelude Keep LibString LibMem Filesystem KState Paging PortIO Screen Switch Keyboard Terminal Syscall FdTable Process Exec Support Programs Contract.

(** ** The paging registers, which the file calls leave alone *)
Definition page_regs (s : kstate) : Z * Z * Z := (cr0 (cpu s), cr3 (cpu s), cr4 (cpu s)).
Lemma regs_get_proc {A} (f : proc_t → A) : keeps page_regs (get_proc f).
Proof. apply moves_gets, _. Qed.
Lemma regs_set_proc f : keeps page_regs (set_proc f).
Proof. by apply keeps_modify. Qed.
Lemma regs_set_rtc f : keeps page_regs (set_rtc f).
Proof. by apply keeps_modify. Qed.
Lemma regs_cli : keeps page_regs cli.
Proof. by apply keeps_modify. Qed.
Lemma regs_sti : keeps page_regs sti.
Proof. by apply keeps_modify. Qed.
Lemma regs_outb a b : keeps page_regs (outb a b).
Proof. by apply keeps_modify. Qed.
Lemma regs_inb a : keeps page_regs (inb a).
Proof. intros s b s' H. cbv in H. by injection H as _ <-. Qed.
#[local] Hint Resolve regs_get_proc regs_set_proc regs_set_rtc regs_cli regs_sti regs_outb regs_inb : keep.
Lemma regs_set_pcb a f : keeps page_regs (set_pcb a f).
Proof. unfold set_pcb. keep. Qed.
Lemma regs_current : keeps page_regs current.
Proof. unfold current, get_pcb. keep. Qed.
#[local] Hint Resolve regs_set_pcb regs_current : keep.
Lemma regs_set_current f : keeps page_regs (set_current f).
Proof. unfold set_current. keep. Qed.
Lemma regs_get_fd fd : keeps page_regs (get_fd fd).
Proof. unfold get_fd. keep. Qed.
#[local] Hint Resolve regs_set_current regs_get_fd : keep.
Lemma regs_set_fd fd f : keeps page_regs (set_fd fd f).
Proof. unfold set_fd. keep. Qed.
#[local] Hint Resolve regs_set_fd : keep.
Lemma regs_close fd : keeps page_regs (close_handler fd).
Proof. unfold close_handler. keep. Qed.
Lemma regs_open name : keeps page_regs (open_named (Some name)).
Proof. unfold open_named, open_std, open_entry, rtc_open, file_open, directory_open, set_frequency. keep. Qed.

Lemma same_translate s s' :
  page_regs s' = page_regs s → mem s' = mem s → ∀ usr v, translate_as usr s' v = translate_as usr s v.
Proof. intros [= H0 H3 H4] Hm usr v. unfold translate_as, paging_on, pse_on. by rewrite H0, H3, H4, Hm. Qed.

(** ** The system calls on the kernel *)
Record ustate := mk_ustate {
  u_kernel : kstate;
  u_waits : list (list (K ()));        (* the interrupts during each read to come *)
  u_out : list (list Z);               (* the texts handed to [write] on descriptor 1 *)
}.
#[export] Instance ustate_settable : Settable ustate := λ u, mk_ustate (u_kernel u) (u_waits u) (u_out u).
Abbreviation U := (M ustate).

Section user_space.
Context (ubuf : Z).                    (* where the program's buffer lies *)

Definition kern {A} (m : K A) : U A := λ u,
  '(a, s) ← m (u_kernel u); Some (a, u <| u_kernel := s |>).
Definition put_buf (buf : list Z) : K () := write_bytes (user_write ubuf) 0 buf.
Fixpoint get_buf (n : nat) (i : Z) : K (list Z) :=
  match n with
  | O => mret []
  | S n => b ← load8 (u32 (ubuf + i)); bs ← get_buf n (i + 1); mret (b :: bs)
  end.
(** A call on the buffer, which is then read back *)
Definition on_buffer (buf : list Z) (handler : K Z) : K (Z * list Z) :=
  put_buf buf;; r ← handler; b ← get_buf (length buf) 0; mret (r, b).
Definition next_wait : U (list (K ())) := λ u,
  Some (default [] (head (u_waits u)), u <| u_waits ::= tail |>).

Instance kernel_calls : syscalls ustate := {
  ece391_execute cmd :=
    kern (put_buf cmd;; r ← execute_handler ubuf; match r with Returns v => mret v | _ => ub end);
  ece391_read fd buf n := ints ← next_wait; kern (on_buffer buf (read_handler ints fd ubuf n));
  ece391_write fd buf n :=
    r ← kern (put_buf buf;; write_handler fd ubuf n);
    (if fd =? 1 then modify (λ u, u <| u_out ::= (.++ [take (Z.to_nat n) buf]) |>) else skip);;
    mret r;
  ece391_open name := kern (put_buf name;; open_handler ubuf);
  ece391_close fd := kern (close_handler fd);
  ece391_getargs buf n := kern (on_buffer buf (getargs_handler ubuf n));
  ece391_vidmap a := kern (vidmap_handler a);
  int_0x80 num := if (num <? 1) || (num >? 10) then mret (-1) else ub;
}.
End user_space.

(** ** The view of the running process *)
Section contract.
Context (img : list Z) (Himg : image_ok img).
Context (ubuf q : Z) (Hubuf : ubuf ≠ 0).

Definition args_rep (p : pcb_t) (a : option (list Z)) : Prop :=
  match a with
  | Some a => arg_ok a ∧ argsflag p ≠ 0 ∧ argbuf p = pad128 a
  | None => argsflag p = 0
  end.
Record proc_view (v : uview) (s : kstate) : Prop := {
  pv_process : ∃ k p, running s k p ∧ table_rep (files v) (pcb_arr p) ∧ args_rep p (argv v);
  pv_image : fs_image s = img;
  pv_screen : screen_ok s;
  pv_buffer : buffer_at s ubuf USER_BUF q;
  pv_text : ∀ k, 0 ≤ k < USER_BUF → ¬ video_page s (q + k);
}.
Definition user_view (v : uview) (u : ustate) : Prop :=
  proc_view v (u_kernel u) ∧ u_out u = written v.

Lemma screen_ok_same s s' :
  scr s' = scr s → curr_process (proc s') = curr_process (proc s) →
  (∀ usr v, translate_as usr s' v = translate_as usr s v) → screen_ok s → screen_ok s'.
Proof using.
  intros Hs Hc Ht [H1 H2 H3 H4 H5 H6]. constructor; rewrite ?Hs, ?Hc; try done.
  - intros v Hv. cbn. rewrite Ht. by apply H4.
  - unfold cursor_in. by rewrite Hs.
Qed.
(** A step that keeps the screen and the address space keeps the view, once the
    PCB shows it. *)
Lemma view_step v v' s s' k p' :
  proc_view v s → running s' k p' → table_rep (files v') (pcb_arr p') → args_rep p' (argv v') →
  fs_image s' = fs_image s → screen_ok s' → (∀ usr a, translate_as usr s' a = translate_as usr s a) → proc_view v' s'.
Proof using.
  intros [_ Hi _ Hb Hv] Hr Ht Ha Hf Hs Htr. constructor; [by exists k, p'|by rewrite Hf|done| |].
  - intros j Hj. cbn. rewrite Htr. by apply Hb.
  - intros j Hj (i&off&?&?&H). apply (Hv j Hj). exists i, off. split_and!; try done; try lia.
    rewrite <- H. unfold vid_phys. cbn. by rewrite Htr.
Qed.
Lemma args_frame p p' a : pcb_frame p p' → args_rep p a → args_rep p' a.
Proof using. intros (l&r&->). by destruct a. Qed.

(** ** The buffer *)
Definition buf_is (s : kstate) (buf : list Z) : Prop := ∀ j b, buf !! j = Some b → contents s (q + Z.of_nat j) = b.

Lemma put_buf_run v s buf :
  proc_view v s → buffer_ok buf →
  put_buf ubuf buf s = Some ((), poke buf q s) ∧ proc_view v (poke buf q s) ∧ buf_is (poke buf q s) buf.
Proof using.
  intros Hv [Hu Hl]. split; [|split].
  - unfold put_buf. rewrite (write_bytes_user buf ubuf 0 q s); [by rewrite Z.add_0_r| |done].
    intros j Hj. apply (pv_buffer _ _ Hv). lia.
  - destruct (poke_rest buf q s) as (_&Hsc&Hp&_&_&Hf&_&Ht). destruct (pv_process _ _ Hv) as (k&p&Hr&Htr&Ha).
    apply (view_step v v s _ k p); try done; [|by apply screen_ok_poke, pv_screen with v].
    unfold running. by rewrite Hp.
  - intros j b Hj. rewrite poke_contents. pose proof (lookup_lt_Some _ _ _ Hj).
    rewrite decide_True by lia. replace (q + Z.of_nat j - q) with (Z.of_nat j) by lia.
    rewrite Nat2Z.id, Hj. cbn. apply u8_small. by eapply Forall_lookup_1.
Qed.
Lemma get_buf_run s buf : ∀ i,
  (∀ j, i ≤ j < i + zlen buf → translate s (u32 (ubuf + j)) = Some (q + j)) →
  (∀ j b, buf !! j = Some b → contents s (q + (i + Z.of_nat j)) = b) →
  get_buf ubuf (length buf) i s = Some (buf, s).
Proof using.
  induction buf as [|b buf IH]; intros i Ht Hc; [done|]. cbn [length get_buf] in *.
  rewrite (bind_run _ _ _ _ _ (load8_run _ _ _ (Ht i ltac:(lia)))).
  rewrite (bind_run _ _ _ _ _ (IH (i + 1) ltac:(intros j Hj; apply Ht; lia)
    ltac:(intros j d Hj; rewrite <- (Hc (S j) d Hj); f_equal; lia))).
  rewrite <- (Hc 0%nat b eq_refl). by rewrite Z.add_0_r.
Qed.
Lemma on_buffer_run v s buf handler r s' v' buf' :
  proc_view v s → buffer_ok buf → length buf' = length buf →
  handler (poke buf q s) = Some (r, s') → proc_view v' s' → buf_is s' buf' →
  on_buffer ubuf buf handler s = Some ((r, buf'), s').
Proof using.
  intros Hv Hb Hl Hh Hv' Hc. destruct (put_buf_run v s buf Hv Hb) as (Hput&_). unfold on_buffer.
  rewrite (bind_run _ _ _ _ _ Hput), (bind_run _ _ _ _ _ Hh). rewrite <- Hl.
  assert (get_buf ubuf (length buf') 0 s' = Some (buf', s')) as Hg.
  { apply get_buf_run; [|intros j b Hj; by apply Hc]. destruct Hb as [_ Hbl].
    intros j Hj. apply (pv_buffer _ _ Hv'). lia. }
  by rewrite (bind_run _ _ _ _ _ Hg).
Qed.

(** ** The laws *)
Lemma kern_answers {A} (m : K A) v a v' :
  (∀ s, proc_view v s → ∃ s', m s = Some (a, s') ∧ proc_view v' s') → written v' = written v →
  answers user_view (kern m) v a v'.
Proof using.
  intros Hm Hw u [Hv Ho]. destruct (Hm _ Hv) as (s'&Hs&Hv'). exists (u <| u_kernel := s' |>).
  unfold kern. rewrite Hs. split; [done|]. split; [done|]. by rewrite Hw.
Qed.

Lemma user_string_run v s buf :
  proc_view v s → buf_is s buf → buffer_ok buf → terminated buf → user_string ubuf s = Some (cstr buf ++ [0], s).
Proof using.
  intros Hv Hc [_ Hl] [rest Hr]%terminated_split. pose proof (cstr_no_nul buf) as Hnz.
  assert (Hlc : (length (cstr buf) < length buf)%nat) by (rewrite Hr at 2; unfold in_buffer; rewrite length_app; cbn [length]; lia).
  unfold USER_BUF in Hl. set (t := cstr buf) in *.
  assert (Hload : ∀ j b, buf !! j = Some b → load8 (u32 (ubuf + Z.of_nat j)) s = Some (b, s)).
  { intros j b Hj. pose proof (lookup_lt_Some _ _ _ Hj). rewrite <- (Hc j b Hj). apply load8_run.
    apply (pv_buffer _ _ Hv). unfold USER_BUF. lia. }
  assert (loop_pos (string_step ubuf) 4294967296 [] s = Some (inr (t ++ [0]), s)) as Hloop.
  { rewrite loop_pos_nat. assert (length t < Pos.to_nat 4294967296)%nat as Hn by lia.
    generalize dependent (Pos.to_nat 4294967296). intros n Hn. change (@nil Z) with (take 0 t).
    apply (loop_nat_ends _ (length t) _ (λ k, take k t)); [done| |].
    - intros j Hj. destruct (lookup_lt_is_Some_2 t j Hj) as [c Hjc]. unfold string_step.
      rewrite length_take, Nat.min_l by lia.
      rewrite (bind_run _ _ _ _ _ (Hload j c ltac:(rewrite Hr; unfold in_buffer; by rewrite lookup_app_l))).
      destruct (Z.eqb_spec c 0) as [->|]; [by apply list_elem_of_lookup_2 in Hjc|].
      rewrite Nat.add_1_r, (take_S_r _ _ _ Hjc). done.
    - unfold string_step. rewrite take_ge by lia.
      rewrite (bind_run _ _ _ _ _ (Hload (length t) 0 ltac:(rewrite Hr; unfold in_buffer; by rewrite list_lookup_middle))).
      done. }
  unfold user_string. by rewrite (bind_run _ _ _ _ _ Hloop).
Qed.

(** A call that implements an operation on the table *)
Lemma table_call v s m spec (k : Z) p :
  proc_view v s → running s k p → args_rep p (argv v) → keeps page_regs m → implements k p s m spec →
  ∃ s', m s = Some (spec.1, s') ∧ proc_view (v <| files := spec.2 |>) s'.
Proof using.
  intros Hv Hr Ha Hk (s'&p'&Hrun&Hr'&Ht'&Hpf&Hcf). exists s'. split; [done|].
  destruct Hcf as (Hf&Hs&Hm&_&_&_&_&_&_&Hcp&_).
  pose proof (same_translate _ _ (Hk _ _ _ Hrun) Hm) as Htr.
  apply (view_step v _ s _ k p'); try done; [by eapply args_frame|].
  apply (screen_ok_same s); try done. by apply pv_screen with v.
Qed.
Lemma open_law name v : buffer_ok name → terminated name →
  answers user_view (ece391_open (syscalls := kernel_calls ubuf) name) v (spec_open img (cstr name) (files v)).1
    (v <| files ::= λ t, (spec_open img (cstr name) t).2 |>).
Proof using Himg Hubuf.
  intros Hb Ht. apply kern_answers; [|done]. intros s Hv. destruct (put_buf_run v s name Hv Hb) as (Hput&Hv1&Hc).
  rewrite (bind_run _ _ _ _ _ Hput). set (s1 := poke name q s) in *. unfold open_handler.
  destruct (Z.eqb_spec ubuf 0); [done|]. rewrite (bind_run _ _ _ _ _ (user_string_run v s1 name Hv1 Hc Hb Ht)).
  destruct (pv_process _ _ Hv1) as (k&p&Hr&Htr&Ha). pose proof (cstr_no_nul name) as Hnz.
  pose proof (open_refines (files v) k p (in_buffer (cstr name) []) s1 Hr Htr) as Himp.
  rewrite (pv_image _ _ Hv1), (cstr_in_buffer _ [] Hnz) in Himp.
  apply (table_call v s1 _ _ k p); try done; [apply regs_open|]. apply Himp; [done| |apply (terminated_in_buffer _ [])].
  apply Forall_app. split; [apply forall_cstr, Hb|by repeat constructor].
Qed.
Lemma close_law fd v :
  answers user_view (ece391_close (syscalls := kernel_calls ubuf) fd) v (spec_close fd (files v)).1
    (v <| files ::= λ t, (spec_close fd t).2 |>).
Proof using.
  apply kern_answers; [|done]. intros s Hv. destruct (pv_process _ _ Hv) as (k&p&Hr&Htr&Ha).
  apply (table_call v s _ _ k p); try done; [apply regs_close|]. by apply close_refines.
Qed.
Lemma wait_answers {A} (m : list (K ()) → K A) v a v' :
  (∀ ints, answers user_view (kern (m ints)) v a v') → answers user_view (ints ← next_wait; kern (m ints)) v a v'.
Proof using. intros Hm u Hu. apply (Hm _ (u <| u_waits ::= tail |>)). exact Hu. Qed.
Lemma open_descriptor t l fd f : table_rep t l → t !! fd = Some f → ∃ d, aget l fd = Some d ∧ flags d = 1 ∧ file_of d = f.
Proof using.
  intros Ht Hf. destruct (aget l fd) as [d|] eqn:Hd; [|by rewrite (tr_domain _ _ Ht _ Hd) in Hf].
  pose proof (tr_lookup _ _ Ht _ _ Hd) as Hl. rewrite Hf in Hl. exists d.
  destruct (tr_flags _ _ Ht _ _ Hd) as [E|E]; rewrite E in Hl; [done|by injection Hl as ->].
Qed.
Lemma closed_descriptor t l fd : table_rep t l → 0 ≤ fd ≤ 7 → t !! fd = None → ∃ d, aget l fd = Some d ∧ flags d = 0.
Proof using.
  intros Ht Hfd Hf. destruct (table_rep_get _ _ _ Ht Hfd) as [d Hd]. exists d. split; [done|].
  pose proof (tr_lookup _ _ Ht _ _ Hd) as Hl. rewrite Hf in Hl. by destruct (Z.eqb_spec (flags d) 0).
Qed.
(** A read that delivers [bs] *)
Lemma read_answers fd f bs buf n v :
  2 ≤ fd ≤ 7 → files v !! fd = Some f → buffer_ok buf → (length bs ≤ length buf)%nat → Forall is_u8 bs →
  0 ≤ f_pos f + zlen bs < 4294967296 →
  (∀ ints s k p d, proc_view v s → running s k p → aget (pcb_arr p) fd = Some d → flags d = 1 → file_of d = f →
    ∃ s' p', read_handler ints fd ubuf n s = Some (zlen bs, s') ∧ read_effect k fd q p d bs s s' p') →
  answers user_view (ece391_read (syscalls := kernel_calls ubuf) fd buf n) v (zlen bs, bs ++ drop (length bs) buf)
    (v <| files ::= λ t, <[fd := mk_file (f_op f) (f_inode f) (f_pos f + zlen bs)]> t |>).
Proof using.
  intros Hfd Hf Hb Hl Hu Hpos Hrun. apply wait_answers. intros ints. apply kern_answers; [|done]. intros s Hv.
  destruct (put_buf_run v s buf Hv Hb) as (Hput&Hv1&Hc). set (s1 := poke buf q s) in *.
  destruct (pv_process _ _ Hv1) as (k&p&Hr&Ht&Ha). destruct (open_descriptor _ _ _ _ Ht Hf) as (d&Hd&Hfl&Hfd').
  destruct (Hrun ints s1 k p d Hv1 Hr Hd Hfl Hfd') as (s2&p2&H2&Hr2&Harr&Hpf&Hcf&Hcpu&Hcont).
  set (v2 := setter files _ v). exists s2. assert (Hv2 : proc_view v2 s2).
  { destruct Hcf as (Hfs&Hs&Hm&_&_&_&_&_&_&Hcp&_). destruct (poke_rest bs q s1) as (_&Hsp&Hpp&_&_&Hfp&Hcpp&Htp).
    assert (Htr : ∀ usr a, translate_as usr s2 a = translate_as usr s1 a).
    { intros usr a. rewrite <- Htp. apply same_translate; [|done]. unfold page_regs. by rewrite Hcpu, Hcpp. }
    apply (view_step v v2 s1 s2 k p2); try done; [|by eapply args_frame|by rewrite Hfs|].
    - rewrite Harr. change (files v2) with (<[fd := mk_file (f_op f) (f_inode f) (f_pos f + zlen bs)]> (files v)).
      set (d1 := d <| file_position := _ |>).
      assert (mk_file (f_op f) (f_inode f) (f_pos f + zlen bs) = file_of d1) as ->.
      { rewrite <- Hfd' in Hpos |- *. cbn in Hpos. unfold d1, file_of. cbn. by rewrite u32_small by (cint; lia). }
      pose proof (table_rep_insert _ _ fd d1 Ht ltac:(lia) (or_intror Hfl)) as Hins.
      change (flags d1) with (flags d) in Hins. by rewrite Hfl in Hins.
    - apply (screen_ok_same s1); [by rewrite Hs, Hsp|by rewrite Hcp, Hpp|done|by apply pv_screen with v]. }
  split; [|done]. apply (on_buffer_run v s buf _ _ _ v2); try done; [rewrite length_app, length_drop; lia|].
  intros j b Hj. rewrite Hcont. apply lookup_app_Some in Hj as [Hj|[Hge Hj]].
  - pose proof (lookup_lt_Some _ _ _ Hj). rewrite decide_True by lia.
    replace (q + Z.of_nat j - q) with (Z.of_nat j) by lia. by rewrite Nat2Z.id, Hj.
  - rewrite decide_False by lia. rewrite lookup_drop in Hj. apply Hc. by replace (length bs + (j - length bs))%nat with j in Hj by lia.
Qed.
Lemma read_file_law fd ino pos F buf n v :
  2 ≤ fd ≤ 7 → files v !! fd = Some (mk_file FsOps ino pos) → stream img ino F → 0 ≤ pos ≤ zlen F →
  buffer_ok buf → 0 ≤ n ≤ zlen buf →
  let bs := take (Z.to_nat n) (drop (Z.to_nat pos) F) in
  answers user_view (ece391_read (syscalls := kernel_calls ubuf) fd buf n) v (zlen bs, bs ++ drop (length bs) buf)
    (v <| files ::= λ t, <[fd := mk_file FsOps ino (pos + zlen bs)]> t |>).
Proof using Hubuf.
  intros Hfd Hf [(m&Hm&Hino) (L&HL&HLr&HF) Hbytes Hu] Hpos Hb Hn bs. pose proof (proj2 Hb) as Hbl. unfold USER_BUF in Hbl.
  assert (Hlen : zlen bs = Z.min n (Z.max 0 (L + 1 - pos))) by (unfold bs; rewrite length_take, length_drop; lia).
  assert (Hu' : Forall is_u8 bs) by (unfold bs; by apply Forall_take, Forall_drop).
  apply (read_answers fd (mk_file FsOps ino pos) bs); try done; [lia|cbn; lia|].
  intros ints s k p d Hv Hr Hd Hfl Hfile. injection Hfile as Hop Hin Hfp.
  apply (read_handler_file _ _ _ _ _ _ _ _ L m); rewrite ?(pv_image _ _ Hv), ?Hin, ?Hfp; try done; try lia.
  - unfold bs. apply file_has_take. replace pos with (Z.of_nat (Z.to_nat pos)) at 1 by lia. by apply file_has_drop.
  - intros j Hj. apply (pv_buffer _ _ Hv). unfold USER_BUF. lia.
Qed.
Lemma read_dir_law fd ino k names buf v :
  2 ≤ fd ≤ 7 → files v !! fd = Some (mk_file DirOps ino (32 * Z.of_nat k)) → listing img names → (k ≤ length names)%nat →
  buffer_ok buf → 32 ≤ zlen buf →
  let bs := default [] (names !! k) in
  answers user_view (ece391_read (syscalls := kernel_calls ubuf) fd buf 32) v (zlen bs, bs ++ drop (length bs) buf)
    (v <| files ::= λ t, <[fd := mk_file DirOps ino (32 * Z.of_nat k + zlen bs)]> t |>).
Proof using Hubuf.
  intros Hfd Hf Hls Hk Hb Hl bs. pose proof (ls_few _ _ Hls) as Hfew.
  assert (Hbs : zlen bs = (if 32 * Z.of_nat k <? FILENAME_LEN * zlen names then 32 else 0) ∧ Forall is_u8 bs ∧
                dir_has img (32 * Z.of_nat k) bs).
  { unfold bs, FILENAME_LEN. destruct (names !! k) as [name|] eqn:Hname; cbn [default from_option].
    - change (@id (list Z) name) with name. pose proof (lookup_lt_Some _ _ _ Hname).
      destruct (get_bytes_spec img (direntry_addr (Z.of_nat k)) FILENAME_LEN name ltac:(unfold direntry_addr; lia) (ls_names _ _ Hls _ _ Hname)) as [Hnl Hg].
      unfold FILENAME_LEN in Hnl. destruct (Z.ltb_spec (32 * Z.of_nat k) (32 * zlen names)); [|lia].
      split; [lia|]. split; [eapply Forall_lookup_1; [exact (ls_u8 _ _ Hls)|done]|].
      intros j b Hj. pose proof (lookup_lt_Some _ _ _ Hj). rewrite <- (Hg _ _ Hj). unfold dir_byte, FILENAME_LEN.
      f_equal. f_equal; [f_equal|]; Z.div_mod_to_equations; lia.
    - apply lookup_ge_None_1 in Hname. destruct (Z.ltb_spec (32 * Z.of_nat k) (32 * zlen names)); [lia|].
      split; [done|]. split; [done|]. by intros j b. }
  destruct Hbs as (Hlen&Hu&Hhas). unfold FILENAME_LEN in *.
  assert (zlen bs ≤ 32) by (rewrite Hlen; destruct (_ <? _); lia).
  apply (read_answers fd (mk_file DirOps ino (32 * Z.of_nat k)) bs); try done; [lia|cbn; lia|].
  intros ints s k' p d Hv Hr Hd Hfl Hfile. injection Hfile as Hop Hin Hfp.
  apply (read_handler_dir _ _ _ _ _ _ _ _ (zlen names)); rewrite ?(pv_image _ _ Hv), ?Hfp; try done; try lia.
  - apply Hls.
  - unfold FILENAME_LEN. rewrite Hlen. destruct (Z.ltb_spec (32 * Z.of_nat k) (32 * zlen names)); lia.
  - intros j Hj. apply (pv_buffer _ _ Hv). unfold USER_BUF. lia.
Qed.
(** A call that comes back with the state it was made in, but for the buffer *)
Lemma read_bad_law fd buf n v : buffer_ok buf → unreadable (files v) fd → 0 ≤ n ≤ zlen buf →
  answers user_view (ece391_read (syscalls := kernel_calls ubuf) fd buf n) v (-1, buf) v.
Proof using Hubuf.
  intros Hb Hu Hn. apply wait_answers. intros ints. apply kern_answers; [|done]. intros s Hv.
  destruct (put_buf_run v s buf Hv Hb) as (Hput&Hv1&Hc). set (s1 := poke buf q s) in *.
  exists s1. split; [|done]. apply (on_buffer_run v s buf _ _ _ v); try done. fold s1.
  unfold read_handler, fdMin, fdMax. destruct (Z.eqb_spec ubuf 0); [done|].
  destruct (Z.ltb_spec fd 0), (Z.gtb_spec fd 7), (Z.eqb_spec fd (0 + 1)); try done. cbn [orb].
  destruct Hu as [?|[?|[?|Hnone]]]; try lia. destruct (pv_process _ _ Hv1) as (k&p&Hr&Ht&Ha).
  destruct (closed_descriptor _ _ fd Ht ltac:(lia) Hnone) as (d&Hd&Hfl).
  by rewrite (bind_run _ _ _ _ _ (get_fd_run _ _ _ _ _ Hr Hd)), Hfl.
Qed.
Lemma write_law buf n v : files v !! 1 = Some std_file → buffer_ok buf → 0 ≤ n ≤ zlen buf →
  answers user_view (ece391_write (syscalls := kernel_calls ubuf) 1 buf n) v
    (i8 (text_count (take (Z.to_nat n) buf))) (says (take (Z.to_nat n) buf) v).
Proof using Hubuf.
  intros Hf Hb Hn u [Hv Ho]. destruct (put_buf_run v _ buf Hv Hb) as (Hput&Hv1&Hc).
  set (s1 := poke buf q (u_kernel u)) in *. destruct (pv_process _ _ Hv1) as (k&p&Hr&Ht&Ha).
  destruct (open_descriptor _ _ _ _ Ht Hf) as (d&Hd&Hfl&Hfile). injection Hfile as Hop _ _.
  pose proof (proj2 Hb) as Hbl. unfold USER_BUF in Hbl.
  destruct (terminal_write_count 1 ubuf n q s1) as (s2&H2&Hok&(_&_&Hp&_&Hfs&_&Htr)&_).
  - apply Hv1.
  - intros j Hj. apply (pv_buffer _ _ Hv1). unfold USER_BUF. lia.
  - intros j Hj. apply (pv_text _ _ Hv1). unfold USER_BUF. lia.
  - assert ((λ j, contents s1 (q + j)) <$> seqZ 0 n = take (Z.to_nat n) buf) as Htext.
    { apply list_eq. intros j. rewrite list_lookup_fmap. destruct (decide (Z.of_nat j < n)) as [Hj|Hj].
      - rewrite lookup_take_lt by lia. rewrite lookup_seqZ_lt by lia. cbn.
        destruct (lookup_lt_is_Some_2 buf j ltac:(lia)) as [b Hbj]. rewrite Hbj. f_equal. by apply Hc.
      - rewrite lookup_take_ge by lia. rewrite lookup_seqZ_ge by lia. done. }
    rewrite Htext in H2.
    exists (u <| u_kernel := s2 |> <| u_out ::= (.++ [take (Z.to_nat n) buf]) |>). split.
    + cbn [ece391_write kernel_calls].
      erewrite (bind_run (kern _)).
      2: { unfold kern. rewrite (bind_run _ _ _ _ _ Hput). fold s1. unfold write_handler, fdMin, fdMax.
           rewrite (proj2 (Z.eqb_neq _ _) Hubuf). change (false || (1 <=? 0) || (1 >? 7)) with false. cbv iota.
           rewrite (bind_run _ _ _ _ _ (get_fd_run _ _ _ _ _ Hr Hd)), Hfl, Hop. change (1 =? 1) with true. cbv iota.
           unfold write_ptr. rewrite u32_small, i32_small by (cint; lia). rewrite H2. reflexivity. }
      reflexivity.
    + split; [|by cbn; rewrite Ho].
      apply (view_step v (says (take (Z.to_nat n) buf) v) s1 s2 k p); try done. unfold running. by rewrite Hp.
Qed.
Lemma write_bad_law fd buf n v : buffer_ok buf → unwritable (files v) fd → 0 ≤ n ≤ zlen buf →
  answers user_view (ece391_write (syscalls := kernel_calls ubuf) fd buf n) v (-1) v.
Proof using Hubuf.
  intros Hb Hu Hn.
  assert (fd ≠ 1) as Hne by (destruct Hu as [?|[?|[??]]]; lia).
  eapply answers_bind; [|destruct (Z.eqb_spec fd 1); [done|]; eapply answers_bind; [apply answers_skip|apply answers_ret]].
  apply kern_answers; [|done]. intros s Hv.
  destruct (put_buf_run v s buf Hv Hb) as (Hput&Hv1&Hc). set (s1 := poke buf q s) in *.
  exists s1. split; [|done]. rewrite (bind_run _ _ _ _ _ Hput). fold s1.
  unfold write_handler, fdMin, fdMax. destruct (Z.eqb_spec ubuf 0); [done|].
  destruct (Z.leb_spec fd 0), (Z.gtb_spec fd 7); try done. cbn [orb].
  destruct Hu as [?|[?|[_ Hnone]]]; try lia. destruct (pv_process _ _ Hv1) as (k&p&Hr&Ht&Ha).
  destruct (closed_descriptor _ _ fd Ht ltac:(lia) Hnone) as (d&Hd&Hfl).
  by rewrite (bind_run _ _ _ _ _ (get_fd_run _ _ _ _ _ Hr Hd)), Hfl.
Qed.
Lemma copy_string_run src rest n : ∀ a (i : nat) s,
  drop i src = a ++ 0 :: rest → 0 ∉ a → Forall is_u8 a → (length a < n)%nat →
  (∀ j, Z.of_nat i ≤ j ≤ Z.of_nat i + zlen a → translate s (u32 (ubuf + j)) = Some (q + j)) →
  copy_string n ubuf (Z.of_nat i) src s = Some ((), poke (a ++ [0]) (q + Z.of_nat i) s).
Proof using.
  induction n as [|n IH]; intros a i s Hd Hz Hu Hn Ht; [lia|]. cbn [copy_string].
  assert (∃ c, aget src (Z.of_nat i) = Some c ∧ c = default 0 (head a)) as (c&Hc&Hca).
  { exists (default 0 (head a)). split; [|done]. rewrite aget_nonneg, Nat2Z.id by lia. replace i with (i + 0)%nat by lia.
    rewrite <- lookup_drop, Hd. by destruct a. }
  rewrite (bind_lift _ _ _ _ Hc), (bind_run _ _ _ _ _ (store8_run _ _ _ _ (Ht (Z.of_nat i) ltac:(lia)))).
  destruct a as [|c' a]; cbn in Hca; subst c; [done|].
  apply not_elem_of_cons in Hz as [Hz0 Hz]. inversion_clear Hu as [|? ? Huc Hu'].
  destruct (Z.eqb_spec c' 0); [congruence|]. cbn [length] in Hn, Ht.
  replace (Z.of_nat i + 1) with (Z.of_nat (S i)) by lia. rewrite (IH a); try done; try lia.
  - cbn [app poke]. rewrite (u8_small c') by done. do 3 f_equal. lia.
  - by rewrite <- Nat.add_1_r, <- drop_drop, Hd.
  - intros j Hj. rewrite translate_update. apply Ht. lia.
Qed.
Lemma cli_view v s : proc_view v s → ∃ s', cli s = Some ((), s') ∧ proc_view v s' ∧ (∀ a, contents s' a = contents s a).
Proof using.
  intros Hv. exists (s <| cpu ::= λ c, c <| if_flag := false |> |>). split; [done|]. split; [|done].
  destruct (pv_process _ _ Hv) as (k&p&Hr&Ht&Ha). apply (view_step v v s _ k p); try done.
  apply screen_ok_cpu_flag, Hv.
Qed.
Lemma sti_view v s : proc_view v s → ∃ s', sti s = Some ((), s') ∧ proc_view v s' ∧ (∀ a, contents s' a = contents s a).
Proof using.
  intros Hv. exists (s <| cpu ::= λ c, c <| if_flag := true |> |>). split; [done|]. split; [|done].
  destruct (pv_process _ _ Hv) as (k&p&Hr&Ht&Ha). apply (view_step v v s _ k p); try done.
  apply screen_ok_cpu_flag, Hv.
Qed.
Lemma getargs_law buf n v : buffer_ok buf → 129 ≤ zlen buf → 0 ≤ n →
  answers user_view (ece391_getargs (syscalls := kernel_calls ubuf) buf n) v
    (match argv v with
     | Some a => (0, in_buffer a (drop (S (length a)) buf))
     | None => (-1, buf)
     end) v.
Proof using Hubuf.
  intros Hb Hl Hn. apply kern_answers; [|done]. intros s Hv.
  destruct (put_buf_run v s buf Hv Hb) as (Hput&Hv1&Hc). set (s1 := poke buf q s) in *.
  destruct (cli_view v s1 Hv1) as (s2&H2&Hv2&Hc2). destruct (pv_process _ _ Hv2) as (k&p&Hr&Ht&Ha).
  assert (Hstart : getargs_handler ubuf n s1 = (if argsflag p =? 0 then mret (-1) else
      c ← lift (aget (argbuf p) 0);
      if c =? 0 then mret (-1) else copy_string 129 ubuf 0 (argbuf p);; sti;; mret 0) s2).
  { unfold getargs_handler. rewrite (bind_run _ _ _ _ _ H2). destruct (Z.eqb_spec ubuf 0), (Z.ltb_spec n 0); try lia.
    cbn [orb]. by rewrite (bind_run _ _ _ _ _ (current_run _ _ _ Hr)). }
  destruct (argv v) as [a|]; cbn in Ha.
  - destruct Ha as ([Hal Hau [Hanz Hne]]&Hfl&Harg). destruct (Z.eqb_spec (argsflag p) 0); [done|].
    assert (Hpad : argbuf p = a ++ 0 :: replicate (127 - length a) 0).
    { rewrite Harg. unfold pad128. by replace (128 - length a)%nat with (S (127 - length a)) by lia. }
    destruct a as [|c a]; [done|]. set (b := c :: a) in *.
    rewrite (bind_lift _ c) in Hstart by (by rewrite Hpad). destruct (Z.eqb_spec c 0) as [->|]; [by exfalso; apply Hanz; left|].
    assert (Hcopy : copy_string 129 ubuf 0 (argbuf p) s2 = Some ((), poke (b ++ [0]) q s2)).
    { rewrite (copy_string_run _ (replicate (127 - length b) 0) 129 b 0 s2) by (done || lia || (intros j Hj; apply (pv_buffer _ _ Hv2); unfold USER_BUF; lia)).
      by rewrite Z.add_0_r. }
    rewrite (bind_run _ _ _ _ _ Hcopy) in Hstart.
    assert (Hb0 : buffer_ok (b ++ [0])).
    { split; [apply Forall_app; split; [done|by repeat constructor]|]. rewrite length_app. unfold USER_BUF. cbn [length]. lia. }
    destruct (put_buf_run v s2 (b ++ [0]) Hv2 Hb0) as (_&Hv3&Hc3).
    set (s3 := poke (b ++ [0]) q s2) in *. destruct (sti_view v s3 Hv3) as (s4&H4&Hv4&Hc4).
    rewrite (bind_run _ _ _ _ _ H4) in Hstart.
    exists s4. split; [|done]. apply (on_buffer_run v s buf _ _ _ v); try done.
    { unfold in_buffer. rewrite length_app. cbn [length]. rewrite length_drop. lia. }
    intros j d Hj. rewrite Hc4. assert (in_buffer b (drop (S (length b)) buf) = (b ++ [0]) ++ drop (S (length b)) buf) as E
      by (unfold in_buffer; by rewrite <- app_assoc).
    rewrite E in Hj. apply lookup_app_Some in Hj as [Hj|[Hge Hj]]; [by apply Hc3|].
    unfold s3. rewrite poke_contents, decide_False by lia. rewrite Hc2. apply Hc. rewrite lookup_drop in Hj.
    rewrite length_app in Hj, Hge. cbn [length] in Hj, Hge. rewrite <- Hj. f_equal. unfold b in *. cbn [length] in *. lia.
  - rewrite Ha in Hstart. cbn [Z.eqb] in Hstart. exists s2. split; [|done].
    apply (on_buffer_run v s buf _ _ _ v); try done. intros j d Hj. rewrite Hc2. by apply Hc.
Qed.
Lemma vidmap_law a v : a = 0 ∨ a = 4194304 → answers user_view (ece391_vidmap (syscalls := kernel_calls ubuf) a) v (-1) v.
Proof using.
  intros Ha. apply kern_answers; [|done]. intros s Hv. destruct (cli_view v s Hv) as (s1&H1&Hv1&_).
  exists s1. split; [|done]. unfold vidmap_handler. rewrite (bind_run _ _ _ _ _ H1). by destruct Ha as [-> | ->].
Qed.
Lemma bad_call_law num v : num < 1 ∨ 10 < num → answers user_view (int_0x80 (syscalls := kernel_calls ubuf) num) v (-1) v.
Proof using.
  intros Hn. cbn [int_0x80 kernel_calls]. destruct (Z.ltb_spec num 1), (Z.gtb_spec num 10); try lia; apply answers_ret.
Qed.

(** The kernel keeps the contract. *)
Definition kernel_keeps_contract : @kernel_contract ustate (kernel_calls ubuf) img := {|
  view := user_view;
  open_answers := open_law;
  close_answers := close_law;
  read_file_answers := read_file_law;
  read_dir_answers := read_dir_law;
  read_bad_answers := read_bad_law;
  write_answers := write_law;
  write_bad_answers := write_bad_law;
  getargs_answers := getargs_law;
  vidmap_bad_answers := vidmap_law;
  bad_call_answers num v Hn _ := bad_call_law num v Hn;
|}.
End contract.
