(* ===== verification/Userland.v ===== *)
(** * Userland: the user programs on the modelled kernel

    [UserRuns] runs the programs over any kernel that keeps the contract, and
    [UserSpace] shows that the modelled kernel does; here are the two together,
    from a state [u] of the kernel whose running process has the view [v]. *)
From S2P Require Import Prelude LibString Filesystem KState Screen Keyboard Terminal Syscall FdTable Process Exec Support Programs Contract Syserr UserRuns UserSpace.

(** ** A process to run them in: process 1 with its standard descriptors, on the
    example image, with the argument ["ab"] *)
Definition demo_pcb : pcb_t :=
  zero_pcb <| pcb_arr := std_fds (replicate 8 zero_fdesc) |> <| argsflag := 1 |> <| argbuf := pad128 [97; 98] |>.
Definition demo_user : ustate := mk_ustate
  ((demo_state 0 0 0) <| fs_image := example_image |>
     <| proc ::= λ r, r <| pcb_current := pcb_addr 1 |> <| pcbs := demo_pcb :: replicate 5 zero_pcb |> |>) [] [].
Definition demo_view : uview := mk_view std_table (Some [97; 98]) [].
Definition zero_junk : stack_junk := λ n, replicate n 0.

Lemma zero_junk_good : good_junk zero_junk.
Proof. intros n. split; [apply length_replicate|]. apply Forall_replicate. cint. lia. Qed.
Lemma demo_user_view : user_view example_image 8192 8192 demo_view demo_user.
Proof.
  split; [|done]. constructor.
  - exists 1, demo_pcb. split; [by split_and!|]. split.
    + apply std_fds_rep. apply fds_ok_zero.
    + split; [|done]. constructor; [cbn; lia|by repeat constructor|].
      split; [|done]. by intros [?|[?|?%elem_of_nil]%elem_of_cons]%elem_of_cons.
  - done.
  - apply (screen_ok_same (demo_state 0 0 0)); try done. by apply demo_ok.
  - intros j Hj. unfold USER_BUF in Hj. cbn. unfold translate_as. rewrite u32_small by (cint; lia).
    rewrite (proj2 (Z.leb_le 0 (8192 + j))), (proj2 (Z.ltb_lt (8192 + j) 4294967296)) by lia. reflexivity.
  - intros j Hj Hv. unfold USER_BUF in Hj. apply (demo_no_video 0 0 0 (8192 + j)); [lia|exact Hv].
Qed.


Section userland.
Context (img : list Z) (ubuf q : Z) (junk : stack_junk).
#[local] Existing Instance kernel_calls.
(** What holds for every kernel holds for this one. *)
Lemma on_kernel {A} (m : U A) v a v' u :
  answers (user_view img ubuf q) m v a v' → user_view img ubuf q v u →
  ∃ u', m u = Some (a, u') ∧ user_view img ubuf q v' u' ∧ u_out u' = written v'.
Proof. intros Hm Hu. destruct (Hm u Hu) as (u'&Hrun&Hu'). exists u'. split_and!; try done. apply Hu'. Qed.


(** C26. [ls] on the modelled kernel: the program ends with 0 after writing the name of
    every directory entry in order, each padded to 32 bytes and followed by a
    newline. *)
Theorem ls_lists_directory names d fd v u :
  image_ok img → ubuf ≠ 0 → good_junk junk → user_view img ubuf q v u →
  files v !! 1 = Some std_file → find_dentry img [46] = Some d → filetype d = 1 →
  listing img names → fresh (files v) = Some fd →
  ∃ u', ls_main (H := kernel_calls ubuf) junk u = Some (0, u') ∧
    u_out u' = u_out u ++ ((λ n, n ++ [10]) <$> names).
Proof.
  intros Himg Hubuf Hjunk Hu H1 Hd Hty Hls Hfr.
  destruct (ls_runs (H0 := kernel_keeps_contract img Himg ubuf q Hubuf) img junk Hjunk names d fd v H1 Hd Hty Hls Hfr)
    as (v'&Hrun&Hw).
  destruct (on_kernel _ _ _ _ _ Hrun Hu) as (u'&Hm&_&Ho). exists u'. split; [exact Hm|].
  by rewrite Ho, Hw, (proj2 Hu).
Qed.

(** C25. [ece391syserr], test 0, on the modelled kernel: run with the two standard
    descriptors open, on a file system with an entry for the directory and none
    named helloo or shel, every call that must fail fails: the program writes the
    eight PASS lines and the overall one and returns 0, and the process's files and
    arguments are what they were. *)
Theorem syserr_all_pass d v u :
  image_ok img → ubuf ≠ 0 → good_junk junk → user_view img ubuf q v u → files v = std_table →
  find_dentry img [46] = Some d → find_dentry img (chars "helloo") = None → find_dentry img (chars "shel") = None →
  let lines := (pass <$> ["err_neg_fd"; "err_big_fd"; "err_open_lots"; "err_open"; "err_unopened";
                          "err_vidmap"; "err_stdin_out"; "err_syscall_num"]%string) ++ [10 :: pass "Overall Tests"] in
  ∃ u', run_all (H := kernel_calls ubuf) junk u = Some (0, u') ∧ u_out u' = u_out u ++ lines ∧
    user_view img ubuf q (v <| written ::= (.++ lines) |>) u'.
Proof.
  intros Himg Hubuf Hjunk Hu Hf Hd H1 H2 lines. destruct v as [t a w]. cbn in Hf. subst t.
  pose proof (syserr_runs (H0 := kernel_keeps_contract img Himg ubuf q Hubuf) img junk Hjunk d a w Hd H1 H2) as Hrun.
  destruct (on_kernel _ _ _ _ _ Hrun Hu) as (u'&Hm&Hv'&Ho). exists u'. split; [exact Hm|].
  split; [by rewrite Ho, (proj2 Hu)|exact Hv'].
Qed.
End userland.

(** ** Runs of the example process *)
Lemma demo_stream : stream example_image 0 [104; 105; 10; 0].
Proof.
  constructor.
  - exists 1. split; [vm_compute; reflexivity|split; [lia|discriminate]].
  - exists 3. split; [vm_compute; reflexivity|split; [lia|reflexivity]].
  - exact example_file.
  - apply (bool_decide_unpack _). vm_compute. exact Logic.I.
Qed.

Definition demo_names : list (list Z) := [pad 32 [46]; pad 32 [97; 98]].
Lemma demo_listing : listing example_image demo_names.
Proof.
  constructor.
  - vm_compute. reflexivity.
  - cbn. lia.
  - intros i name Hi. do 2 (destruct i as [|i]; [injection Hi as <-; vm_compute; reflexivity|]). discriminate.
  - apply (bool_decide_unpack _). vm_compute. exact Logic.I.
Qed.
Lemma ls_lists_directory_witness :
  ∃ u', ls_main (H := kernel_calls 8192) zero_junk demo_user = Some (0, u') ∧
    u_out u' = [pad 32 [46] ++ [10]; pad 32 [97; 98] ++ [10]].
Proof.
  apply (ls_lists_directory example_image 8192 8192 zero_junk demo_names (mk_dentry (pad 32 [46]) 1 0) 2 demo_view demo_user).
  - exact example_image_ok.
  - lia.
  - exact zero_junk_good.
  - exact demo_user_view.
  - reflexivity.
  - vm_compute. reflexivity.
  - reflexivity.
  - exact demo_listing.
  - vm_compute. reflexivity.
Defined.
Lemma syserr_all_pass_witness :
  ∃ u', run_all (H := kernel_calls 8192) zero_junk demo_user = Some (0, u') ∧ length (u_out u') = 9%nat.
Proof.
  destruct (syserr_all_pass example_image 8192 8192 zero_junk (mk_dentry (pad 32 [46]) 1 0) demo_view demo_user)
    as (u'&Hrun&Hout&_).
  - exact example_image_ok.
  - lia.
  - exact zero_junk_good.
  - exact demo_user_view.
  - reflexivity.
  - vm_compute. reflexivity.
  - vm_compute. reflexivity.
  - vm_compute. reflexivity.
  - exists u'. split; [exact Hrun|]. rewrite Hout. reflexivity.
Defined.
